(* ===== verification/_CoqProject ===== *)
-Q . S2P
Prelude.v
Floats.v
CStrings.v
Flash.v
Spiflash.v
Sysparam.v
SysparamLog.v
SysparamProofs.v
SysparamScan.v
SysparamStore.v
SysparamSet.v
SysparamPairs.v
SysparamCompact.v
SysparamReclaim.v
SysparamSpec.v
SysparamInit.v
SysparamTotal.v
SysparamContract.v
SysparamDefects.v
SdkFlash.v
Rboot.v
RbootProofs.v
RbootImage.v
RbootContract.v
OneWire.v
OneWireLine.v
OneWireBus.v
OneWireSearch.v
OneWireCrc.v
Ds18b20.v
Ds18b20Proofs.v
OneWireContract.v
EtsTimer.v
EtsTimerProofs.v
EtsTimerContract.v
I2c.v
I2cWires.v
I2cDevice.v
Ds3231.v
I2cContract.v
Dhcp.v
DhcpOptions.v
DhcpProofs.v
DhcpServe.v
DhcpContract.v
Timekeeping.v
TimekeepingProofs.v
TimekeepingContract.v
Mdns.v
MdnsNames.v
MdnsReply.v
MdnsRecords.v
MdnsContract.v
Tftp.v
TftpProofs.v
TftpServer.v
TftpContract.v
Softuart.v
SoftuartWire.v
SoftuartLink.v
SoftuartContract.v
HttpClient.v
HttpHeader.v
HttpDownload.v
HttpOta.v
HttpOtaProofs.v
HttpOtaUpdate.v
HttpContract.v
Wificfg.v
WificfgPages.v
WificfgServer.v
WificfgText.v
WificfgForms.v
WificfgPost.v
WificfgSafe.v
WificfgParams.v
WificfgInit.v
WificfgBoot.v
WificfgSends.v
WificfgContract.v
