(* ===== verification/Prelude.v ===== *)
(** * Verification of esp-open-rtos

    esp-open-rtos is a FreeRTOS based framework for ESP8266 microcontrollers,
    written in C.  This library models the parts of it that keep data or run
    protocols, and proves what their users rely on.  Source paths below are
    relative to the root of the repository.

    ** The parts and their files

    - SPI flash driver, [core/spiflash.c]: [Spiflash] (module [Driver] over
      the chip and boot ROM interface [Device.SpiDevice]).  It implements the
      class [Flash] of the file [Flash], through which the parameter store
      uses it.
    - Parameter store, [core/sysparam.c]: [Sysparam] has all functions,
      structures and constants.  [SysparamLog] gives the log on flash as a
      list of entries, [SysparamProofs], [SysparamScan], [SysparamStore],
      [SysparamSet], [SysparamPairs] (with the iterator), [SysparamCompact],
      [SysparamReclaim], [SysparamInit] (with the typed accessors) follow them
      from the inside out, [SysparamTotal] (with the mutex) holds for any
      flash contents, [SysparamSpec] and [SysparamContract] state the
      contract and [SysparamDefects] what the code gets wrong.
    - SDK flash calls and RTC memory, [open_esplibs/libmain/spi_flash.c] and
      two functions of [user_interface.c]: [SdkFlash] (modules [Calls] and
      [Rtc], over the boot ROM interface [Rom.SpiRom]).  It implements the
      class [SdkFlash], which the rboot API uses.
    - rboot OTA API, [extras/rboot-ota/rboot-api.c]: [Rboot] has the
      functions; [RbootProofs], [RbootImage] and [RbootContract] their
      properties.  The structures of the boot loader, which is a separate
      project, are the class [RbootH] with its laws.
    - Updates over TFTP, [extras/rboot-ota/ota-tftp.c]: [Tftp] has the server
      and the client on top of the rboot API; [TftpProofs] what storing a
      packet does to the flash and (module [TftpTransfer]) what a sender
      causes to be received and the receive loop on it, [TftpServer] requests
      and a turn of the server and (module [TftpSafety]) what arbitrary
      traffic can do, and [TftpContract] the theorems.
    - Updates over HTTP, [extras/http_client_ota]: [HttpClient] has
      [http_buffered_client.c], whose callbacks and allocator act on a state
      of their own (class [Heap]); [HttpHeader] what it reads in the head of a
      response, [HttpDownload] the body that reaches the callbacks and (module
      [HttpEnds]) that a download ends.  [HttpOta] has [http_client_ota.c] on
      top of the client and the rboot API (SHA-256 is the class [Sha256]);
      [HttpOtaProofs] the callbacks, [HttpOtaUpdate] an update from the first
      request to the verdict and (module [HttpOtaSafety]) what arbitrary
      connections can do, [HttpContract] the theorems.  Module [CLib] of
      [CStrings] has the functions of the C library used ([strtol],
      [strtok_r], [strstr]).
    - Wi-Fi configuration, [extras/wificfg/wificfg.c]: [Wificfg] has the
      texts, chunks and forms, [WificfgPages] the handlers of the pages over
      the parameter store (class [Params]), [WificfgServer] the HTTP and DNS
      servers, [WificfgInit] the start and (module [WificfgStatus]) the pages
      that show the state of the system.  [WificfgText] proves what the text
      functions compute; [WificfgForms] and [WificfgPost] what a form is read
      as and stored as; [WificfgSafe] (modules [WificfgSafe] and
      [WificfgLock]) what any request can do; [WificfgSends] that pages are
      sent; [WificfgBoot] what a start does; [WificfgContract] the theorems.
      They are proved against the contract [ParamLaws] of a store of
      parameters, which [WificfgParams] discharges for the model of
      [core/sysparam.c] and, in module [WificfgMap], for a map.
    - 1-Wire bus, [extras/onewire/onewire.c]: [OneWire] has the functions over
      a GPIO line (class [Line]); [OneWireLine] the timing of the line and the
      interface [BitBus] of time slots; [OneWireBus] and [OneWireSearch] the
      search for devices, a walk in a tree of bits; [OneWireCrc] the
      checksums.
    - DS18B20 thermometers, [extras/ds18b20/ds18b20.c]: [Ds18b20] has the
      functions, [Ds18b20Proofs] their runs on a bus of devices whose
      conversions take time; [OneWireContract] has the theorems on both.
      [Floats] has the [float] and [double] arithmetic of the temperatures,
      on the Standard Library's [SpecFloat], and when it is exact.
    - Software timers, [open_esplibs/libmain/ets_timer.c]: [EtsTimer] has the
      functions with the linked list in a store of structures;
      [EtsTimerProofs] and [EtsTimerContract] the properties.
    - I2C bus, [extras/i2c/i2c.c]: [I2c] has the functions over GPIO
      registers (class [Gpio]); [I2cWires] the two wires and [I2cDevice] a
      device with registers, and the interface [I2cOps] / [RegBus] through
      which drivers use the bus.
    - DS3231 clock, [extras/ds3231/ds3231.c]: [Ds3231]; [I2cContract] has the
      theorems on both.
    - DHCP server, [extras/dhcpserver/dhcpserver.c]: [Dhcp] has the functions
      over lwIP's constants and buffers (class [LwipH]); [DhcpOptions] the
      writer and the parser of options, [DhcpProofs] the lease table and the
      replies, [DhcpServe] the relation [served] of what a message may do, and
      [DhcpContract] the theorems.
    - Time of day, [extras/timekeeping/timekeeping.c]: [Timekeeping] has the
      functions; [TimekeepingProofs] the abstract clock they implement and
      [TimekeepingContract] the theorems.
    - Multicast DNS responder, [extras/mdnsresponder/mdnsresponder.c]: [Mdns]
      has the functions over lwIP's numbers (class [DnsH]); [MdnsNames] the
      encoding of names and when reading one ends, (module [MdnsAnswer]) the
      records, the questions and the abstract reply [reply_to], [MdnsReply]
      the functions from a packet to the reply, [MdnsRecords] those that add
      records and [MdnsContract] the theorems.  C strings are in [CStrings].
    - Software UART, [extras/softuart/softuart.c]: [Softuart] has the
      functions over pins and a clock (class [Pins]); [SoftuartWire] a board
      whose operations take time, with the frame sent and the byte sampled,
      [SoftuartLink] the ring buffer and two boards with a wire, (module
      [SoftuartOverflow]) the overflow of the counter and [SoftuartContract]
      the theorems.

    ** How the code is translated

    A C function is a computation [M S A] (below): from a state [S] it ends
    with [Done] and a result, or it leaves the C language ([Undefined]: an
    access outside an object, signed overflow, a null handle), or its loop
    was cut short ([OutOfFuel]).  Error codes are ordinary results.  Integers
    are [Z] with their wrap-around written out ([u8] .. [u32], [s8] .. [s32]).
    Memory that is read before it is written has arbitrary contents, a part
    of the state ([w_junk]; another value at each use).
    Code that is not part of the repository's source (boot ROM, flash chip,
    devices on a bus, hardware registers, the boot loader's header) is a
    class; its laws are the documented behaviour, and an instance of each
    shows that they can hold and is used for concrete runs.  Where one part
    uses another, the client is proved against a class ([Flash], [SdkFlash],
    [BitBus], [RegBus]) and the other part discharges it.

    ** Iteration bounds

    Loops that are not structural take a bound, and theorems say that it is
    enough.  A scan of the parameter log gets [region_size / 4 + 4] turns,
    because an entry takes at least four bytes ([SysparamTotal]: enough for
    any contents).  [rboot_verify_image] gets 257 turns, one for the new
    header and one for each section a byte can count.  The 1-Wire search gets
    65 turns for 64 bits; enumerating a bus needs one call more than there are
    devices.  The list of timers is searched with one turn more than there
    are timers; a run of the timer task is shown to end for every bound from
    some number on, as time is bounded.  Waiting for a stretched I2C clock
    gets two turns more than the limit in ticks.  The parser of DHCP options
    gets half as many turns as there are bytes, as an option takes two or
    more.  The tasks of the DHCP and TFTP servers, endless loops, run over the
    list of what they receive; the TFTP task gets one turn more than there are
    receive results, as every turn takes at least one.  The loop of
    an HTTP download gets one turn more than the bytes and errors that arrive,
    each turn but the last taking some; the loops over a header get one more
    than it has characters.  The waiting loops of
    the software UART get one turn for each nanosecond of the wait.  Reading a
    DNS name gets one turn for each pair of positions in the packet and in the
    buffer for the name; when they are used up the code never returns
    ([MdnsNames.labels2str_for_ever]).  The loops of the configuration pages
    over a request line, a header or a form get one turn more than there are
    characters left, each turn but the last taking one; draining a request
    ends after the 4096 characters the code allows.

    ** What the theorems show

    - Parameter store: sequences of calls and reboots behave like a finite
      map; writing, reading, deleting, compaction, iteration, creation,
      mounting and the typed accessors on every branch; calls end on any
      flash contents and give the mutex back; and four defects.
    - Flash drivers: reads, writes and erases touch exactly the requested
      range, whatever pages and blocks it crosses; bounds are checked.
    - rboot API: configuration and session round trips, acceptance and
      rejection of images, termination, and an overflow in the length check.
    - Updates over TFTP: a valid image sent in blocks, with losses and
      repetitions, ends up in the next slot, which becomes the current one; a
      corrupt image is refused; no traffic changes anything but the slot
      before an image in it has been verified, and none makes the server
      leave the language outside [rboot_verify_image]; a download stores its
      image; requests are parsed as they were sent.
    - Updates over HTTP: a download hands over the body of a response whose
      head comes in one read, however the rest is cut up; an update installs a valid image with the right
      digest, refuses one with another digest or checksum and gives back what
      it took; no network makes it run for ever or lets it change anything but
      the slot, and the sector behind it, before an image was verified; which
      networks keep it in the language up to the verification ([tame_network]),
      and responses on which downloads fail or leave it.
    - 1-Wire and DS18B20: the bit timing meets the standard, the search finds
      every device once, checksums detect changes, temperatures are returned
      exactly and with their sign (and where they are not), and when the wait
      for a conversion is too short.
    - Timers: the list invariant in every reachable state, with callbacks
      that use the timers; due timers are called and the alarm is set; the
      limits of the signed comparison.
    - I2C and DS3231: transfers store and return registers and always free
      the bus; a time set is the time read.
    - DHCP: any packets are survived, a lease belongs to its holder until it
      expires, the handshake leads to a lease, options written are options
      parsed; and how a lease can be taken or fail to be released.
    - Time of day: the calls refine an abstract clock, the time set is the
      time shown over wraps of the counter, time does not run backwards and
      slews are exact; and when this fails (a wrap within a call, a second
      slew).
    - Multicast DNS: a query gets the reply [reply_to] of its questions, within
      320 bytes and with every buffer freed; a service added is found by type,
      instance, host and text; names are read as they were written; reading
      ends when pointers point back, and on which packets it does not.
    - Software UART: strings sent by one board are received by another with
      its own clock; the ring buffer is a queue; open ports never share pins;
      sending ends in bounded time, and what the overflow of the counter does
      to a frame.
    - Wi-Fi configuration: a form is stored as it was sent, in any encoding; a
      locked configuration stays as it is whatever is sent, and the password
      unlocks it; every page is sent to its end and shows parameters without
      markup of their own; a start hands over valid configurations only, and
      an access point that is off for some restarts comes back; the DNS server
      answers queries with the address of the access point.

    ** Assumptions

    Functional theorems on the parameter store assume a chip in good order
    ([FlashLaws]) that the area lies within, and allocations that succeed
    unless they say otherwise ([w_alloc] lists the outcomes, an empty list is
    success); a set needs room for its entries and, when it compacts, a key
    that was not deleted before ([can_set]).  The theorem on due timers assumes
    times in a window without a wrap of the counter, callbacks that leave the
    timers alone and timers that are handled faster than they become due.  Those on the
    time of day assume that the counter is looked at before it wraps twice and
    does not wrap during a call.  Those on TFTP assume packets in segments of
    whole words with the header in the first one, as the code does; that on
    the software UART a bound on the duration of operations and on the delay
    of interrupts, and a counter that does not overflow meanwhile.  Those on
    the multicast DNS responder assume names that fit its buffer of 128 bytes,
    packets of 28 to 320 bytes where an answer is stated, and records added while no packet is being answered.  Those on
    updates over HTTP assume that blocks of [malloc] are aligned, that a read
    at the end of what arrives returns 0 and that [strstr] reads no further
    than it must; functional ones that the head of a response comes with the
    first bytes of its body.  Those on the configuration pages assume that the
    store admits the values written ([admits]: there is room for them), and
    those on responses that the connection takes what is written.  Tasks are
    interleaved at calls: what happens inside a critical section or under the
    store's mutex is not interrupted.  Debug output and messages on the
    console are left out.

    ** Not modelled

    The FreeRTOS kernel, lwIP, mbed TLS, FatFs, SPIFFS, the HTTP server, the
    MQTT client and the fonts are vendored or generated.  Start-up code,
    system calls and register-level drivers (SPI, UART, PWM, DMA, Wi-Fi) are
    sequences of hardware accesses.  The SNTP client and the other
    sensor and display drivers in [extras] are
    candidates for extension: the drivers on the interface [I2cOps]. *)

(** ** Prelude: integers, outcomes, the state monad, lists of bytes and the
    tactics the other files share *)

From stdpp Require Export base tactics list numbers list_numbers sets.
From Stdlib Require Export ZArith Lia.
Open Scope Z_scope.
#[export] Set Warnings "-clear-no-such-hyp".

(** ** Machine-width integers *)

Definition u8 (x : Z) : Z := x mod 2 ^ 8.
Definition u16 (x : Z) : Z := x mod 2 ^ 16.
Definition u32 (x : Z) : Z := x mod 2 ^ 32.

(** Two's-complement reading of a 32-bit word ([int32_t], [int]). *)
Definition s32 (x : Z) : Z := (x + 2 ^ 31) mod 2 ^ 32 - 2 ^ 31.
Definition s16 (x : Z) : Z := (x + 2 ^ 15) mod 2 ^ 16 - 2 ^ 15.
Definition s8 (x : Z) : Z := (x + 2 ^ 7) mod 2 ^ 8 - 2 ^ 7.

(** Does [x] fit in an unsigned byte? *)
Definition byteP (x : Z) : Prop := 0 <= x < 256.

(** ** Outcomes of stateful computations

    [Done] is a normal return (error codes of the source are ordinary values),
    [OutOfFuel] marks a loop cut short by the model's iteration bound, or one
    that never ends, and [Undefined] an operation the C language or the RTOS
    leaves undefined: an access outside a buffer, a null semaphore handle, a
    wait that can never end.  Theorems on the behaviour of a function show which
    of them it has. *)

Inductive outcome (A : Type) : Type :=
| Done (a : A)
| OutOfFuel
| Undefined.
Arguments Done {A} a.
Arguments OutOfFuel {A}.
Arguments Undefined {A}.

(** State-passing computations over a state [S]. *)
Definition M (S A : Type) : Type := S -> outcome (A * S).

Section Monad.
Context {S : Type}.

Definition ret {A} (a : A) : M S A := fun s => Done (a, s).

Definition bind {A B} (m : M S A) (k : A -> M S B) : M S B := fun s =>
  match m s with
  | Done (a, s') => k a s'
  | OutOfFuel => OutOfFuel
  | Undefined => Undefined
  end.

Definition undefined {A} : M S A := fun _ => Undefined.
Definition out_of_fuel {A} : M S A := fun _ => OutOfFuel.
Definition get : M S S := fun s => Done (s, s).
Definition put (s : S) : M S unit := fun _ => Done (tt, s).
Definition modify (f : S -> S) : M S unit := fun s => Done (tt, f s).

Lemma bind_Done {A B} (m : M S A) (k : A -> M S B) s a s' :
  m s = Done (a, s') -> bind m k s = k a s'.
Proof. unfold bind. by intros ->. Qed.

(** What a completed [bind] says of its two parts. *)
Lemma bind_inv {A B} (m : M S A) (k : A -> M S B) s b s'' :
  bind m k s = Done (b, s'') ->
  exists a s', m s = Done (a, s') /\ k a s' = Done (b, s'').
Proof. unfold bind. destruct (m s) as [[a s']| |]; [eauto|done..]. Qed.

Lemma bind_assoc {A B C} (m : M S A) (k : A -> M S B) (h : B -> M S C) s :
  bind (bind m k) h s = bind m (fun a => bind (k a) h) s.
Proof. unfold bind. by destruct (m s) as [[a s']| |]. Qed.
End Monad.

(** A value that must be there. *)
Definition deref {S A} (o : option A) : M S A :=
  match o with Some a => ret a | None => undefined end.

(** [m], started in a state with [P], does not run out of fuel; when it
    returns, its result and the state satisfy [Q], and it leaves the C language
    only if [U] holds ([ends]: it may). *)
Definition ends_or {S A} (U : Prop) (P : S -> Prop) (m : M S A) (Q : A -> S -> Prop) : Prop :=
  forall s, P s -> match m s with Done (a, s') => Q a s' | OutOfFuel => False | Undefined => U end.

Abbreviation ends := (ends_or True).

Lemma ends_bind {S A B} U (P : S -> Prop) (m : M S A) (k : A -> M S B) Q R :
  ends_or U P m Q -> (forall a, ends_or U (Q a) (k a) R) -> ends_or U P (bind m k) R.
Proof.
  intros Hm Hk s Hs. specialize (Hm s Hs). unfold bind. destruct (m s) as [[a s']| |]; [|done..]. by apply Hk.
Qed.

Lemma ends_ret {S A} U (P : S -> Prop) (a : A) (Q : A -> S -> Prop) : (forall s, P s -> Q a s) -> ends_or U P (ret a) Q.
Proof. intros H s. apply H. Qed.

Lemma ends_undefined {S A} (P : S -> Prop) (Q : A -> S -> Prop) : ends P undefined Q.
Proof. done. Qed.

Lemma ends_weaken {S A} U (P P' : S -> Prop) (m : M S A) (Q Q' : A -> S -> Prop) :
  ends_or U P m Q -> (forall s, P' s -> P s) -> (forall a s, Q a s -> Q' a s) -> ends_or U P' m Q'.
Proof. intros H HP HQ s Hs. specialize (H s (HP s Hs)). destruct (m s) as [[a s']| |]; [|done..]. by apply HQ. Qed.

Lemma ends_elim {S A} U (P : S -> Prop) (m : M S A) Q :
  ends_or U P m Q -> forall s, P s -> match m s with Done (a, s') => Q a s' | OutOfFuel => False | Undefined => U end.
Proof. done. Qed.

Declare Scope esp_scope.
Delimit Scope esp_scope with esp.
Notation "'let!' x ':=' c 'in' k" := (bind c (fun x => k))
  (at level 10, x pattern, c at level 100, k at level 200,
   format "'[v' 'let!'  x  ':='  c  'in' '/' k ']'") : esp_scope.
Notation "'do!' c 'then' k" := (bind c (fun _ => k))
  (at level 10, c at level 100, k at level 200,
   format "'[v' 'do!'  c  'then' '/' k ']'") : esp_scope.
Open Scope esp_scope.

(** ** Byte memories

    A memory (a flash array, a buffer seen from a pointer) is a function from
    addresses to bytes. *)

(** The [n] bytes of the memory [c] from address [a] on. *)
Definition cells (c : Z -> Z) (a n : Z) : list Z :=
  (fun i => c (a + Z.of_nat i)) <$> seq 0 (Z.to_nat n).

(** A buffer given by its bytes, seen as memory from its first byte on. *)
Definition as_mem (bs : list Z) : Z -> Z := fun i => nth (Z.to_nat i) bs 0.

(** [c] with the bytes [bs] stored from address [a] on. *)
Definition put_bytes (c : Z -> Z) (a : Z) (bs : list Z) : Z -> Z := fun x =>
  if (a <=? x) && (x <? a + Z.of_nat (length bs)) then as_mem bs (x - a) else c x.

(** [c] after programming [n] bytes of [buf] at [a]: NOR flash clears bits. *)
Definition and_bytes (c : Z -> Z) (a : Z) (buf : Z -> Z) (n : Z) : Z -> Z := fun x =>
  if (a <=? x) && (x <? a + n) then Z.land (c x) (buf (x - a)) else c x.

(** [c] with the [n] bytes from [a] on erased. *)
Definition erase_bytes (c : Z -> Z) (a n : Z) : Z -> Z := fun x =>
  if (a <=? x) && (x <? a + n) then 255 else c x.

(** Little-endian encoding on [n] bytes and its inverse. *)
Fixpoint le_bytes (n : nat) (z : Z) : list Z :=
  match n with
  | O => []
  | S n => z mod 256 :: le_bytes n (z / 256)
  end.

Fixpoint le_val (bs : list Z) : Z :=
  match bs with
  | [] => 0
  | b :: bs => b + 256 * le_val bs
  end.

(** Store at an index of a C array: undefined outside its bounds. *)
Definition buf_set (buf : list Z) (i v : Z) : option (list Z) :=
  if (0 <=? i) && (i <? Z.of_nat (length buf)) then Some (<[Z.to_nat i := v]> buf) else None.

(** [Z] subsequence of a list: [n] bytes from index [i]. *)
Definition sub_bytes (bs : list Z) (i n : Z) : list Z :=
  take (Z.to_nat n) (drop (Z.to_nat i) bs).

Create HintDb esp discriminated.
Create Rewrite HintDb esp.

(** ** Tactics of the development *)

(** Split the boolean tests of the goal (or of the context) into cases and
    turn the arithmetic ones into propositions. *)
Ltac case_if :=
  match goal with
  | |- context [if ?b then _ else _] => destruct b eqn:?
  | H : context [if ?b then _ else _] |- _ => destruct b eqn:?
  end.

Ltac zbool :=
  repeat match goal with
  | H : (_ && _)%bool = true |- _ => apply andb_prop in H as [? ?]
  | H : (_ && _)%bool = false |- _ => apply andb_false_iff in H
  | H : (_ || _)%bool = false |- _ => apply orb_false_iff in H as [? ?]
  | H : (_ || _)%bool = true |- _ => apply orb_prop in H
  | H : negb _ = true |- _ => apply negb_true_iff in H
  | H : negb _ = false |- _ => apply negb_false_iff in H
  | H : (_ <=? _) = true |- _ => apply Z.leb_le in H
  | H : (_ <=? _) = false |- _ => apply Z.leb_gt in H
  | H : (_ <? _) = true |- _ => apply Z.ltb_lt in H
  | H : (_ <? _) = false |- _ => apply Z.ltb_ge in H
  | H : (_ =? _) = true |- _ => apply Z.eqb_eq in H
  | H : (_ =? _) = false |- _ => apply Z.eqb_neq in H
  end.

(** Linear arithmetic that also knows division and remainder. *)
Ltac divlia := Z.to_euclidean_division_equations; lia.

(** Run the next step of a monadic computation with a known result. *)
Ltac run H := rewrite (bind_Done _ _ _ _ _ H).

(** ** Lemmas on integers *)

Lemma u8_small x : 0 <= x < 2 ^ 8 -> u8 x = x.
Proof. apply Z.mod_small. Qed.
Lemma u16_small x : 0 <= x < 2 ^ 16 -> u16 x = x.
Proof. apply Z.mod_small. Qed.
Lemma u32_small x : 0 <= x < 2 ^ 32 -> u32 x = x.
Proof. apply Z.mod_small. Qed.
Lemma u8_range x : 0 <= u8 x < 256.
Proof. by apply Z.mod_pos_bound. Qed.
Lemma u16_range x : 0 <= u16 x < 65536.
Proof. by apply Z.mod_pos_bound. Qed.
Lemma u32_range x : 0 <= u32 x < 4294967296.
Proof. by apply Z.mod_pos_bound. Qed.

(** Signed values of words. *)
Lemma s32_u32 x : s32 (u32 x) = s32 x.
Proof. unfold s32, u32. rewrite Zplus_mod_idemp_l. done. Qed.

Lemma s32_small x : - 2 ^ 31 <= x < 2 ^ 31 -> s32 x = x.
Proof. intros H. unfold s32. rewrite Z.mod_small by lia. lia. Qed.

Lemma s32_add x y : - 2 ^ 31 <= s32 x + y < 2 ^ 31 -> s32 (x + y) = s32 x + y.
Proof. unfold s32. intros. divlia. Qed.

Lemma s32_sub x y : - 2 ^ 31 <= s32 x - s32 y < 2 ^ 31 -> s32 (x - y) = s32 x - s32 y.
Proof. unfold s32. intros. divlia. Qed.

Lemma s32_u32_sub x y : s32 (u32 x - y) = s32 (x - y).
Proof.
  unfold s32, u32. replace (x mod 2 ^ 32 - y + 2 ^ 31) with (x mod 2 ^ 32 - (y - 2 ^ 31)) by lia.
  rewrite Zminus_mod_idemp_l. do 2 f_equal. lia.
Qed.

(** A bit mask that lies above the bits of [x] adds to it. *)
Lemma lor_disjoint_add x k y :
  0 <= k -> 0 <= x < 2 ^ k -> Z.lor x (y * 2 ^ k) = x + y * 2 ^ k.
Proof.
  intros Hk Hx. symmetry. rewrite <-Z.add_lor_land.
  enough (Z.land x (y * 2 ^ k) = 0) as -> by lia.
  apply Z.bits_inj_0. intros n. rewrite Z.land_spec, <-Z.shiftl_mul_pow2 by lia.
  destruct (decide (n < k)).
  - rewrite Z.shiftl_spec_low by lia. by rewrite andb_false_r.
  - destruct (decide (x = 0)) as [->|]; [by rewrite Z.bits_0|].
    rewrite (Z.bits_above_log2 x n); [done|lia|].
    apply Z.log2_lt_pow2; [lia|]. apply Z.lt_le_trans with (2 ^ k); [lia|].
    apply Z.pow_le_mono_r; lia.
Qed.

Lemma land_mask x k : 0 <= k -> Z.land x (2 ^ k - 1) = x mod 2 ^ k.
Proof.
  intros. replace (2 ^ k - 1) with (Z.ones k) by (rewrite Z.ones_equiv; lia).
  by apply Z.land_ones.
Qed.

Lemma land_byte x y : byteP x -> byteP (Z.land x y).
Proof.
  unfold byteP. intros H. split; [apply Z.land_nonneg; lia|].
  destruct (decide (Z.land x y = 0)) as [->|Hne]; [lia|].
  assert (0 <= Z.land x y) by (apply Z.land_nonneg; lia).
  change 256 with (2 ^ 8). apply Z.log2_lt_pow2; [lia|].
  enough (Z.land x y <= x).
  { apply Z.le_lt_trans with (Z.log2 x); [by apply Z.log2_le_mono|].
    apply Z.log2_lt_pow2; lia. }
  rewrite <-(Z.land_diag x) at 2. apply Z.ldiff_le; [apply Z.land_nonneg; lia|].
  apply Z.bits_inj_0. intros n. rewrite Z.ldiff_spec, !Z.land_spec.
  by destruct (Z.testbit x n), (Z.testbit y n).
Qed.

Lemma lxor_range k x y : 0 <= k -> 0 <= x < 2 ^ k -> 0 <= y < 2 ^ k -> 0 <= Z.lxor x y < 2 ^ k.
Proof.
  intros Hk Hx Hy. assert (0 <= Z.lxor x y) by (apply Z.lxor_nonneg; lia). split; [done|].
  destruct (decide (Z.lxor x y = 0)) as [->|]; [lia|]. apply Z.log2_lt_pow2; [lia|].
  pose proof (Z.log2_lxor x y ltac:(lia) ltac:(lia)) as Hl.
  assert (Hz : forall z, 0 <= z < 2 ^ k -> Z.log2 z < k \/ z = 0).
  { intros z Hz. destruct (decide (z = 0)) as [->|]; [by right|]. left. apply Z.log2_lt_pow2; lia. }
  destruct (Hz x Hx) as [?| ->], (Hz y Hy) as [?| ->]; rewrite ?Z.lxor_0_l, ?Z.lxor_0_r in *; lia.
Qed.

Lemma lxor_byte x y : byteP x -> byteP y -> byteP (Z.lxor x y).
Proof. apply (lxor_range 8). lia. Qed.

(** Every byte, for checks by evaluation. *)
Definition all_bytes : list Z := Z.of_nat <$> seq 0 256.

Lemma all_bytes_in x : byteP x -> x ∈ all_bytes.
Proof.
  intros Hx. unfold byteP in Hx. apply list_elem_of_fmap. exists (Z.to_nat x). split; [lia|]. apply elem_of_seq. lia.
Qed.

Lemma byte_check (P : Z -> bool) : forallb P all_bytes = true -> forall x, byteP x -> P x = true.
Proof. intros H x Hx. rewrite forallb_forall in H. by apply H, list_elem_of_In, all_bytes_in. Qed.

Lemma land_255_l x : byteP x -> Z.land 255 x = x.
Proof.
  intros. rewrite Z.land_comm. change 255 with (2 ^ 8 - 1).
  rewrite land_mask by lia. apply Z.mod_small. unfold byteP in *. lia.
Qed.

(** ** Lemmas on byte memories *)

Lemma length_cells c a n : length (cells c a n) = Z.to_nat n.
Proof. unfold cells. by rewrite length_fmap, length_seq. Qed.

Lemma lookup_cells c a n i :
  (i < Z.to_nat n)%nat -> cells c a n !! i = Some (c (a + Z.of_nat i)).
Proof. intros. unfold cells. by rewrite list_lookup_fmap, lookup_seq_lt. Qed.

Lemma cells_byte c a n : (forall x, byteP (c x)) -> Forall byteP (cells c a n).
Proof. intros H. apply Forall_fmap, Forall_true. intros i. apply H. Qed.

Lemma cells_nil c a n : n <= 0 -> cells c a n = [].
Proof. intros. unfold cells. by replace (Z.to_nat n) with 0%nat by lia. Qed.

Lemma cells_cons c a n : 0 < n -> cells c a n = c a :: cells c (a + 1) (n - 1).
Proof.
  intros. unfold cells. replace (Z.to_nat n) with (S (Z.to_nat (n - 1))) by lia.
  cbn [seq fmap list_fmap]. f_equal; [by rewrite Z.add_0_r|].
  rewrite <-fmap_S_seq, <-list_fmap_compose. apply list_fmap_ext.
  intros i x _. cbn. f_equal. lia.
Qed.

Lemma cells_app c a n m :
  0 <= n -> 0 <= m -> cells c a (n + m) = cells c a n ++ cells c (a + n) m.
Proof.
  intros Hn. revert a. pattern n. apply natlike_ind; [| |done].
  - intros a Hm. rewrite (cells_nil c a 0) by lia. by rewrite Z.add_0_l, Z.add_0_r.
  - intros k Hk IH a Hm. rewrite (cells_cons c a (Z.succ k)) by lia.
    rewrite cells_cons by lia. cbn.
    replace (Z.succ k + m - 1) with (k + m) by lia.
    replace (Z.succ k - 1) with k by lia.
    rewrite IH by done. replace (a + Z.succ k) with (a + 1 + k) by lia. done.
Qed.

Lemma cells_ext c c' a n :
  (forall x, a <= x < a + n -> c x = c' x) -> cells c a n = cells c' a n.
Proof.
  intros H. unfold cells. apply list_fmap_ext. intros i x Hi.
  apply lookup_seq in Hi as [-> ?]. apply H. lia.
Qed.

(** Equal reads mean equal memories on the range read. *)
Lemma cells_eq_inv c c' a n x :
  cells c a n = cells c' a n -> a <= x < a + n -> c x = c' x.
Proof.
  intros H Hx. apply (f_equal (lookup (Z.to_nat (x - a)))) in H.
  rewrite !lookup_cells in H by lia. replace (a + Z.of_nat (Z.to_nat (x - a))) with x in H by lia.
  congruence.
Qed.

Lemma cells_lookup_eq c a n bs x :
  cells c a n = bs -> a <= x < a + n -> c x = as_mem bs (x - a).
Proof.
  intros <- Hx. unfold as_mem. symmetry. apply nth_lookup_Some.
  rewrite lookup_cells by lia. f_equal. f_equal. lia.
Qed.

Lemma cells_as_mem bs : cells (as_mem bs) 0 (Z.of_nat (length bs)) = bs.
Proof.
  apply list_eq_same_length with (length bs); [done|by rewrite length_cells, Nat2Z.id|].
  intros i x y Hi. rewrite lookup_cells by lia. intros [= <-] Hy.
  unfold as_mem. rewrite Z.add_0_l, Nat2Z.id. by apply nth_lookup_Some.
Qed.

Lemma cells_shift c a n : cells c a n = cells (fun i => c (a + i)) 0 n.
Proof. unfold cells. apply list_fmap_ext. intros. by rewrite Z.add_0_l. Qed.

Lemma cells_eq_as_mem c a bs :
  (forall x, a <= x < a + Z.of_nat (length bs) -> c x = as_mem bs (x - a)) ->
  cells c a (Z.of_nat (length bs)) = bs.
Proof.
  intros H. rewrite <-(cells_as_mem bs) at 2. rewrite cells_shift.
  apply cells_ext. intros x Hx. rewrite H by lia. f_equal. lia.
Qed.

Lemma as_mem_app_l bs bs' i :
  0 <= i < Z.of_nat (length bs) -> as_mem (bs ++ bs') i = as_mem bs i.
Proof. intros. unfold as_mem. apply app_nth1. lia. Qed.

Lemma as_mem_app_r bs bs' i :
  Z.of_nat (length bs) <= i ->
  as_mem (bs ++ bs') i = as_mem bs' (i - Z.of_nat (length bs)).
Proof. intros. unfold as_mem. rewrite app_nth2 by lia. f_equal. lia. Qed.

Lemma as_mem_drop bs k i : 0 <= k -> 0 <= i -> as_mem (drop (Z.to_nat k) bs) i = as_mem bs (k + i).
Proof.
  intros. unfold as_mem. rewrite !nth_lookup, lookup_drop. do 2 f_equal. lia.
Qed.

Lemma as_mem_take bs k i : 0 <= i < k -> as_mem (take (Z.to_nat k) bs) i = as_mem bs i.
Proof.
  intros. unfold as_mem. rewrite !nth_lookup, lookup_take_lt by lia. done.
Qed.

Lemma as_mem_byte bs i : Forall byteP bs -> byteP (as_mem bs i).
Proof.
  intros H. unfold as_mem. destruct (nth_in_or_default (Z.to_nat i) bs 0) as [Hin| ->].
  - rewrite Forall_forall in H. apply H. by apply list_elem_of_In.
  - unfold byteP. lia.
Qed.

Lemma put_bytes_in c a bs x :
  a <= x < a + Z.of_nat (length bs) -> put_bytes c a bs x = as_mem bs (x - a).
Proof. intros. unfold put_bytes. by rewrite (proj2 (andb_true_iff _ _)) by (split; lia). Qed.

Lemma put_bytes_out c a bs x :
  x < a \/ a + Z.of_nat (length bs) <= x -> put_bytes c a bs x = c x.
Proof. intros. unfold put_bytes. case_if; zbool; [lia|done]. Qed.

Lemma cells_put c a bs : cells (put_bytes c a bs) a (Z.of_nat (length bs)) = bs.
Proof. apply cells_eq_as_mem. intros. by apply put_bytes_in. Qed.

Lemma cells_of_put c c' a bs n :
  (forall x, c' x = put_bytes c a bs x) -> n = Z.of_nat (length bs) -> cells c' a n = bs.
Proof. intros H ->. transitivity (cells (put_bytes c a bs) a (Z.of_nat (length bs))); [by apply cells_ext|apply cells_put]. Qed.

Lemma and_bytes_compose c a buf n m x :
  0 <= n -> 0 <= m ->
  and_bytes (and_bytes c a buf n) (a + n) (fun i => buf (i + n)) m x = and_bytes c a buf (n + m) x.
Proof.
  intros Hn Hm. unfold and_bytes.
  destruct (a + n <=? x) eqn:E1, (x <? a + n + m) eqn:E2, (a <=? x) eqn:E3,
    (x <? a + n) eqn:E4, (x <? a + (n + m)) eqn:E5; cbn; zbool; try lia; try done.
  f_equal. f_equal. lia.
Qed.

Lemma and_bytes_ext c c' a buf n x :
  (forall y, c y = c' y) -> and_bytes c a buf n x = and_bytes c' a buf n x.
Proof. intros H. unfold and_bytes. by rewrite H. Qed.

(** ** Lemmas on little-endian encodings *)

Lemma length_le_bytes n z : length (le_bytes n z) = n.
Proof. revert z. induction n; intros; cbn; auto. Qed.

Lemma le_bytes_byte n z : Forall byteP (le_bytes n z).
Proof.
  revert z. induction n as [|n IH]; intros; cbn; constructor; [|done].
  unfold byteP. apply Z.mod_pos_bound. lia.
Qed.

Lemma le_val_bytes n z : le_val (le_bytes n z) = z mod 256 ^ Z.of_nat n.
Proof.
  revert z. induction n as [|n IH]; intros z; [by rewrite Z.mod_1_r|].
  cbn [le_bytes le_val]. rewrite IH.
  replace (256 ^ Z.of_nat (S n)) with (256 * 256 ^ Z.of_nat n)
    by (rewrite Nat2Z.inj_succ, Z.pow_succ_r; lia).
  rewrite Z.rem_mul_r by lia. done.
Qed.

Lemma le_val_range bs : Forall byteP bs -> 0 <= le_val bs < 256 ^ Z.of_nat (length bs).
Proof.
  induction 1 as [|b bs Hb _ IH]; cbn [le_val length]; [lia|].
  rewrite Nat2Z.inj_succ, Z.pow_succ_r by lia. unfold byteP in Hb. lia.
Qed.

Lemma le_bytes_val bs : Forall byteP bs -> le_bytes (length bs) (le_val bs) = bs.
Proof.
  induction 1 as [|b bs Hb Hbs IH]; cbn [le_val length le_bytes]; [done|].
  unfold byteP in Hb. f_equal.
  - rewrite (Z.mul_comm 256), Z.mod_add, Z.mod_small by lia. done.
  - rewrite (Z.mul_comm 256), Z.div_add, Z.div_small, Z.add_0_l by lia. done.
Qed.

Lemma le_val_2 x : 0 <= x < 65536 -> le_val (le_bytes 2 x) = x.
Proof. intros. rewrite le_val_bytes. by apply Z.mod_small. Qed.

Lemma le_val_4 x : 0 <= x < 4294967296 -> le_val (le_bytes 4 x) = x.
Proof. intros. rewrite le_val_bytes. by apply Z.mod_small. Qed.

(** Clearing bits commutes with the encoding: the bytes of [x & y]. *)
Lemma le_bytes_land n x y :
  le_bytes n (Z.land x y) = zip_with Z.land (le_bytes n x) (le_bytes n y).
Proof.
  revert x y. induction n as [|n IH]; intros x y; cbn; [done|]. f_equal.
  - change 256 with (2 ^ 8). rewrite <-!Z.land_ones by lia.
    apply Z.bits_inj. intros k. rewrite !Z.land_spec.
    by destruct (Z.testbit x k), (Z.testbit y k), (Z.testbit (Z.ones 8) k).
  - rewrite <-IH. change 256 with (2 ^ 8). by rewrite <-!Z.shiftr_div_pow2, Z.shiftr_land by lia.
Qed.
