(* ===== verification/Floats.v ===== *)
(** * The floating-point arithmetic of C

    [float] and [double] are the IEEE formats binary32 and binary64, rounded
    to nearest even, as the compiler's library for this target has them; the
    operations are those of the Standard Library's [SpecFloat].  What a result
    is exactly is stated by [denotes], and the lemmas say when an operation
    is exact. *)

From Stdlib Require Import SpecFloat.
From S2P Require Import Prelude.
Open Scope Z_scope.

(** ** Operations *)

(** Conversions from integers, between the formats and of constants. *)
Definition float_of_Z (n : Z) : spec_float := binary_normalize 24 128 n 0 false.
Definition double_of_Z (n : Z) : spec_float := binary_normalize 53 1024 n 0 false.

Definition round_to (prec emax : Z) (x : spec_float) : spec_float :=
  match x with
  | S754_finite s m e => binary_round prec emax s m e
  | _ => x
  end.

Definition to_float : spec_float -> spec_float := round_to 24 128.
Definition to_double : spec_float -> spec_float := round_to 53 1024.

Definition double_mul : spec_float -> spec_float -> spec_float := SFmul 53 1024.
Definition double_div : spec_float -> spec_float -> spec_float := SFdiv 53 1024.
Definition double_sub : spec_float -> spec_float -> spec_float := SFsub 53 1024.

(** The constant 0.25. *)
Definition quarter : spec_float := binary_normalize 53 1024 1 (-2) false.

Definition NAN : spec_float := S754_nan.
Definition isnan (x : spec_float) : bool := match x with S754_nan => true | _ => false end.

(** ** Exact values *)

(** [m * 2 ^ e] and [n * 2 ^ k] are the same number. *)
Definition same (m e n k : Z) : Prop := m * 2 ^ Z.max 0 (e - k) = n * 2 ^ Z.max 0 (k - e).

(** The value of [x] is [n * 2 ^ k]. *)
Definition denotes (x : spec_float) (n k : Z) : Prop :=
  match x with
  | S754_zero _ => n = 0
  | S754_finite s m e => same (cond_Zopp s (Z.pos m)) e n k
  | _ => False
  end.

Lemma same_at E m e n k : E <= e -> E <= k -> same m e n k <-> m * 2 ^ (e - E) = n * 2 ^ (k - E).
Proof.
  intros He Hk. unfold same. set (c := Z.min e k). pose proof (Z.pow_pos_nonneg 2 (c - E)).
  replace (e - E) with (Z.max 0 (e - k) + (c - E)) by lia. replace (k - E) with (Z.max 0 (k - e) + (c - E)) by lia.
  rewrite !Z.pow_add_r by lia. split; [intros H1; nia|]. intros H1. apply (Z.mul_reg_r _ _ (2 ^ (c - E))); lia.
Qed.

Lemma equal_refl m e : same m e m e.
Proof. unfold same. by rewrite Z.sub_diag. Qed.

Lemma equal_sym m e n k : same m e n k -> same n k m e.
Proof. unfold same. intros H. by symmetry. Qed.

Lemma equal_trans m e n k p j : same m e n k -> same n k p j -> same m e p j.
Proof.
  intros H1 H2. set (E := Z.min e (Z.min k j)). apply (same_at E) in H1, H2; [|lia..]. apply (same_at E); [lia..|]. congruence.
Qed.

Lemma same_mul m e n k m' e' n' k' : same m e n k -> same m' e' n' k' -> same (m * m') (e + e') (n * n') (k + k').
Proof.
  set (E := Z.min e k). set (E' := Z.min e' k'). intros H1 H2. apply (same_at E) in H1; [|lia..]. apply (same_at E') in H2; [|lia..].
  apply (same_at (E + E')); [lia..|]. replace (e + e' - (E + E')) with ((e - E) + (e' - E')) by lia.
  replace (k + k' - (E + E')) with ((k - E) + (k' - E')) by lia. rewrite !Z.pow_add_r by lia.
  transitivity (m * 2 ^ (e - E) * (m' * 2 ^ (e' - E'))); [ring|]. rewrite H1, H2. ring.
Qed.

Lemma same_opp m e n k : same m e n k -> same (- m) e (- n) k.
Proof. unfold same. lia. Qed.

(** ** Digits *)

Lemma digits_log2 m : Z.pos (digits2_pos m) = Z.log2 (Z.pos m) + 1.
Proof.
  induction m as [m IH|m IH|]; [| |done]; cbn [digits2_pos]; rewrite Pos2Z.inj_succ, IH.
  - change (Z.pos m~1) with (2 * Z.pos m + 1). rewrite Z.log2_succ_double by lia. lia.
  - change (Z.pos m~0) with (2 * Z.pos m). rewrite Z.log2_double by lia. lia.
Qed.

Lemma log2_scale n s : 0 < n -> 0 <= s -> Z.log2 (n * 2 ^ s) = Z.log2 n + s.
Proof. intros. rewrite Z.log2_mul_pow2; lia. Qed.

(** Numbers that are the same have the same leading digit. *)
Lemma same_log2 m e n k : 0 < m -> 0 < n -> same m e n k -> Z.log2 m + e = Z.log2 n + k.
Proof.
  intros Hm Hn H. apply (same_at (Z.min e k)) in H; [|lia..]. apply (f_equal Z.log2) in H. rewrite !log2_scale in H by lia. lia.
Qed.

Lemma log2_bound n p : 0 < n < 2 ^ p -> Z.log2 n + 1 <= p.
Proof. intros [H1 H2]. apply Z.log2_lt_pow2 in H2; lia. Qed.

(** ** Rounding of exact values *)

Lemma shr_1_double n : 0 < n -> shr_1 {| shr_m := 2 * n; shr_r := false; shr_s := false |} = {| shr_m := n; shr_r := false; shr_s := false |}.
Proof. by destruct n. Qed.

Lemma shr_exact p : forall n, 0 < n ->
  SpecFloat.iter_pos shr_1 p {| shr_m := n * 2 ^ Z.pos p; shr_r := false; shr_s := false |} = {| shr_m := n; shr_r := false; shr_s := false |}.
Proof.
  induction p as [p IH|p IH|]; intros n Hn; cbn [SpecFloat.iter_pos].
  - replace (n * 2 ^ Z.pos p~1) with (2 * (n * 2 ^ Z.pos p * 2 ^ Z.pos p)).
    + pose proof (Z.pow_pos_nonneg 2 (Z.pos p)). rewrite shr_1_double by nia. by rewrite IH, IH by nia.
    + replace (Z.pos p~1) with (Z.pos p + Z.pos p + 1) by lia. rewrite !Z.pow_add_r by lia. change (2 ^ 1) with 2. ring.
  - replace (n * 2 ^ Z.pos p~0) with (n * 2 ^ Z.pos p * 2 ^ Z.pos p).
    + pose proof (Z.pow_pos_nonneg 2 (Z.pos p)). by rewrite IH, IH by nia.
    + replace (Z.pos p~0) with (Z.pos p + Z.pos p) by lia. rewrite Z.pow_add_r by lia. ring.
  - replace (n * 2 ^ 1) with (2 * n) by lia. by apply shr_1_double.
Qed.

Section Format.
Context (prec emax : Z).
Hypothesis prec_pos : 0 < prec.
Hypothesis prec_emax : prec < emax.

(** Numbers of at most [prec] bits, well inside the range of the exponents. *)
Definition representable (n k : Z) : Prop :=
  Z.abs n < 2 ^ prec /\ emin prec emax <= k /\ Z.log2 (Z.abs n) + k <= emax - prec.

Lemma shr_none mrs e n : n <= 0 -> shr mrs e n = (mrs, e).
Proof. destruct n; [done|lia|done]. Qed.

Lemma record_exact n : shr_record_of_loc n loc_Exact = {| shr_m := n; shr_r := false; shr_s := false |}.
Proof. done. Qed.

(** Shifting a representable number into place loses no bits. *)
Lemma shr_fexp_exact m e n k :
  0 < m -> 0 < n -> representable n k -> same m e n k ->
  exists m' e', shr_fexp prec emax m e loc_Exact = ({| shr_m := m'; shr_r := false; shr_s := false |}, e') /\
    0 < m' /\ same m' e' n k /\ fexp prec emax (Z.log2 m' + 1 + e') <= e' /\ e' <= emax - prec.
Proof.
  intros Hm Hn (Hn1 & Hk & Hr) Hs. rewrite Z.abs_eq in Hn1, Hr by lia. pose proof (same_log2 _ _ _ _ Hm Hn Hs) as Hl.
  pose proof (Z.log2_nonneg m) as Hm0.
  pose proof (log2_bound n prec ltac:(lia)) as Hb. unfold shr_fexp. rewrite record_exact.
  destruct m as [|m|m]; [lia| |lia]. cbn [Zdigits2]. rewrite digits_log2.
  set (F := fexp prec emax (Z.log2 (Z.pos m) + 1 + e)).
  assert (HF : F <= k /\ F <= emax - prec) by (unfold F, fexp, emin in *; lia).
  destruct (decide (F <= e)) as [Hle|Hgt]; [rewrite shr_none by lia; exists (Z.pos m), e; repeat split; done || lia|].
  assert (Em : Z.pos m = n * 2 ^ (k - F) * 2 ^ (F - e)).
  { apply (same_at e) in Hs; [|lia..]. rewrite Z.sub_diag, Z.mul_1_r in Hs. rewrite Hs, <-Z.mul_assoc, <-Z.pow_add_r by lia. do 2 f_equal. lia. }
  pose proof (Z.pow_pos_nonneg 2 (k - F)). assert (Hq : 0 < n * 2 ^ (k - F)) by nia.
  destruct (F - e) as [|s|s] eqn:Es; [lia| |lia]. cbn [shr]. rewrite Em, shr_exact by done.
  replace (e + Z.pos s) with F by lia. exists (n * 2 ^ (k - F)), F.
  assert (Hsame : same (n * 2 ^ (k - F)) F n k) by (apply (same_at F); [lia..|]; rewrite Z.sub_diag; lia).
  split; [done|]. split; [done|]. split; [done|]. split; [|lia].
  rewrite log2_scale by lia. replace (Z.log2 n + (k - F) + 1 + F) with (Z.log2 (Z.pos m) + 1 + e) by lia. fold F. lia.
Qed.

Lemma round_aux_exact s m e n k :
  0 < m -> 0 < n -> representable n k -> same m e n k ->
  denotes (binary_round_aux prec emax s m e loc_Exact) (cond_Zopp s n) k.
Proof.
  intros Hm Hn Hr Hs. unfold binary_round_aux.
  destruct (shr_fexp_exact m e n k Hm Hn Hr Hs) as (m' & e' & -> & Hm' & Hs' & Hf & He'). cbn [shr_m loc_of_shr_record round_nearest_even].
  unfold shr_fexp. rewrite record_exact. destruct m' as [|m'|m']; [lia| |lia]. cbn [Zdigits2]. rewrite digits_log2.
  rewrite shr_none by lia. cbn [shr_m]. rewrite (proj2 (Z.leb_le _ _)) by lia. unfold denotes. destruct s; [by apply same_opp|done].
Qed.

Lemma iter_double m d : Z.pos (Pos.iter xO m d) = Z.pos m * 2 ^ Z.pos d.
Proof.
  induction d as [|d IH] using Pos.peano_ind; [cbn; lia|]. rewrite Pos.iter_succ, Pos2Z.inj_succ, Z.pow_succ_r by lia.
  change (Z.pos (Pos.iter xO m d)~0) with (2 * Z.pos (Pos.iter xO m d)). rewrite IH. ring.
Qed.

Lemma binary_round_exact s m e n k :
  0 < n -> representable n k -> same (Z.pos m) e n k -> denotes (binary_round prec emax s m e) (cond_Zopp s n) k.
Proof.
  intros Hn Hr Hs. unfold binary_round. set (F := fexp _ _ _).
  assert (H : exists m' e', shl_align m e F = (m', e') /\ same (Z.pos m') e' n k).
  { unfold shl_align. destruct (F - e) as [|d|d] eqn:Ed; [by exists m, e..|]. eexists _, F. split; [done|].
    apply (equal_trans _ _ (Z.pos m) e); [|done]. apply (same_at F); [lia..|]. rewrite iter_double, Z.sub_diag, Z.mul_1_r. do 2 f_equal. lia. }
  destruct H as (m' & e' & -> & Hs'). by apply round_aux_exact.
Qed.

Lemma representable_opp n k : representable (- n) k <-> representable n k.
Proof. unfold representable. by rewrite Z.abs_opp. Qed.

(** A conversion of a representable number is exact. *)
Lemma normalize_exact m e n k b :
  representable n k -> same m e n k -> denotes (binary_normalize prec emax m e b) n k.
Proof.
  intros Hr Hs. destruct m as [|m|m]; cbn [binary_normalize].
  - unfold same in Hs. cbn. pose proof (Z.pow_pos_nonneg 2 (Z.max 0 (k - e))). nia.
  - apply (binary_round_exact false); try done. unfold same in Hs. pose proof (Z.pow_pos_nonneg 2 (Z.max 0 (k - e))).
    pose proof (Z.pow_pos_nonneg 2 (Z.max 0 (e - k))). nia.
  - replace n with (cond_Zopp true (- n)) by (cbn; lia). apply same_opp in Hs. apply binary_round_exact; [|by apply representable_opp|done..].
    change (- Z.neg m) with (Z.pos m) in Hs. unfold same in Hs. pose proof (Z.pow_pos_nonneg 2 (Z.max 0 (k - e))).
    pose proof (Z.pow_pos_nonneg 2 (Z.max 0 (e - k))). nia.
Qed.

(** The magnitude of a finite number and its sign. *)
Lemma denotes_abs s m e n k : denotes (S754_finite s m e) n k ->
  0 < cond_Zopp s n /\ same (Z.pos m) e (cond_Zopp s n) k.
Proof.
  intros Hx. assert (Hs : same (Z.pos m) e (cond_Zopp s n) k)
    by (destruct s; [apply same_opp in Hx; by rewrite Z.opp_involutive in Hx|done]).
  split; [|done]. unfold same in Hs. pose proof (Z.pow_pos_nonneg 2 (Z.max 0 (k - e))). pose proof (Z.pow_pos_nonneg 2 (Z.max 0 (e - k))). nia.
Qed.

Lemma cond_opp_twice s n : cond_Zopp s (cond_Zopp s n) = n.
Proof. destruct s; cbn; lia. Qed.

Lemma representable_cond s n k : representable n k -> representable (cond_Zopp s n) k.
Proof. destruct s; [by apply representable_opp|done]. Qed.

Lemma round_to_exact x n k : denotes x n k -> representable n k -> denotes (round_to prec emax x) n k.
Proof.
  intros Hx Hr. destruct x as [| | |s m e]; try done. apply denotes_abs in Hx as [Hn Hs].
  rewrite <-(cond_opp_twice s n). apply binary_round_exact; [done|by apply representable_cond|done].
Qed.

(** Products, quotients and differences that are representable are exact. *)
Lemma mul_exact x y a i b j :
  denotes x a i -> denotes y b j -> representable (a * b) (i + j) -> denotes (SFmul prec emax x y) (a * b) (i + j).
Proof.
  intros Hx Hy Hr. destruct x as [s| | |s m e], y as [s'| | |s' m' e']; try done; try (cbn in *; lia).
  apply denotes_abs in Hx as [Ha Hx], Hy as [Hb Hy]. cbn [SFmul].
  assert (E : a * b = cond_Zopp (xorb s s') (cond_Zopp s a * cond_Zopp s' b)) by (destruct s, s'; cbn; lia).
  rewrite E in Hr |- *. apply round_aux_exact; [lia|nia| |by apply (same_mul (Z.pos m) e _ _ (Z.pos m') e')].
  apply (representable_cond (xorb s s')) in Hr. by rewrite cond_opp_twice in Hr.
Qed.

Lemma shl_align_val m e e' : e' <= e -> Z.pos (fst (shl_align m e e')) = Z.pos m * 2 ^ (e - e').
Proof.
  intros He. unfold shl_align. destruct (e' - e) as [|d|d] eqn:Ed; cbn [fst].
  - replace (e - e') with 0 by lia. lia.
  - lia.
  - rewrite iter_double. do 2 f_equal. lia.
Qed.

Lemma denotes_same x n k n' k' : denotes x n k -> same n k n' k' -> denotes x n' k'.
Proof.
  destruct x as [| | |s m e]; try done; cbn; [|by apply equal_trans]. intros -> Hs. unfold same in Hs.
  pose proof (Z.pow_pos_nonneg 2 (Z.max 0 (k' - k))). nia.
Qed.

Lemma sub_exact E x y a i b j n k :
  denotes x a i -> denotes y b j -> E <= i -> E <= j -> E <= k ->
  a * 2 ^ (i - E) - b * 2 ^ (j - E) = n * 2 ^ (k - E) -> representable n k -> denotes (SFsub prec emax x y) n k.
Proof.
  intros Hx Hy Hi Hj Hk Hv Hr. destruct x as [s| | |s m e], y as [s'| | |s' m' e']; try done; cbn [SFsub].
  - cbn in Hx, Hy. subst. pose proof (Z.pow_pos_nonneg 2 (k - E)). destruct s, s'; cbn; nia.
  - cbn in Hx. subst a. apply (denotes_same _ (- b) j); [|apply (same_at E); lia].
    destruct s'; cbn in *; apply same_opp in Hy; [|done]. exact Hy.
  - cbn in Hy. subst b. apply (denotes_same _ a i); [done|]. apply (same_at E); lia.
  - cbn in Hx, Hy. set (ez := Z.min e e'). set (E' := Z.min E ez).
    apply normalize_exact; [done|]. apply (same_at E'); [lia..|].
    apply (same_at E') in Hx, Hy; [|lia..].
    assert (Hv' : a * 2 ^ (i - E') - b * 2 ^ (j - E') = n * 2 ^ (k - E')).
    { replace (i - E') with (i - E + (E - E')) by lia. replace (j - E') with (j - E + (E - E')) by lia.
      replace (k - E') with (k - E + (E - E')) by lia. rewrite !Z.pow_add_r by lia. rewrite !Z.mul_assoc, <-Hv. ring. }
    rewrite <-Hv', <-Hx, <-Hy. replace (e - E') with (e - ez + (ez - E')) by lia. replace (e' - E') with (e' - ez + (ez - E')) by lia.
    rewrite !Z.pow_add_r by lia. destruct s, s'; cbn [cond_Zopp]; rewrite !shl_align_val by lia; ring.
Qed.

Lemma div_exact x y c b i j :
  denotes x (c * b) i -> denotes y b j -> b <> 0 -> representable c (i - j) -> denotes (SFdiv prec emax x y) c (i - j).
Proof.
  intros Hx Hy Hb0 Hr. destruct x as [s| | |s m e], y as [s'| | |s' m' e']; try done; try (cbn in *; nia).
  apply denotes_abs in Hx as [Ha Hx], Hy as [Hb Hy]. set (k := i - j) in *. cbn [SFdiv].
  set (C := cond_Zopp (xorb s s') c). set (B := cond_Zopp s' b) in *.
  assert (Ec : c = cond_Zopp (xorb s s') C) by (unfold C; by rewrite cond_opp_twice).
  assert (Ea : cond_Zopp s (c * b) = C * B) by (unfold C, B; destruct s, s'; cbn; lia). rewrite Ea in *.
  assert (HC : 0 < C) by nia. assert (HrC : representable C k) by (by apply representable_cond).
  rewrite Ec. destruct HrC as (H1 & H2 & H3) eqn:HrE. clear HrE. rewrite Z.abs_eq in H1, H3 by lia.
  pose proof (same_log2 _ _ _ _ (Pos2Z.is_pos m) Ha Hx) as L1. pose proof (same_log2 _ _ _ _ (Pos2Z.is_pos m') Hb Hy) as L2.
  pose proof (Z.log2_mul_above C B). pose proof (log2_bound C prec ltac:(lia)).
  unfold SFdiv_core_binary. cbn [Zdigits2]. rewrite !digits_log2.
  set (F := Z.min _ _). assert (HF : F <= k /\ F <= e - e') by (unfold F, fexp; lia). clearbody F. clear L1 L2.
  set (q := C * 2 ^ (k - F)). assert (Hq : same q F C k) by (apply (same_at F); [lia..|]; unfold q; rewrite Z.sub_diag; lia).
  assert (Hm : Z.pos m * 2 ^ (e - e' - F) = q * Z.pos m').
  { assert (Hs : same (Z.pos m) e (q * Z.pos m') (F + e')).
    { apply (equal_trans _ _ _ _ _ _ Hx). apply equal_sym. replace i with (k + j) by lia. by apply same_mul. }
    apply (same_at (F + e')) in Hs; [|lia..]. rewrite Z.sub_diag, Z.mul_1_r in Hs. rewrite <-Hs. do 2 f_equal. lia. }
  assert (Hq0 : 0 < q) by (unfold q; pose proof (Z.pow_pos_nonneg 2 (k - F)); nia).
  replace (match e - e' - F with Z0 => Z.pos m | Z.pos _ => Z.shiftl (Z.pos m) (e - e' - F) | Z.neg _ => 0 end) with (q * Z.pos m')
    by (rewrite <-Hm; destruct (e - e' - F) as [|d|d] eqn:Ed; [lia|by rewrite Z.shiftl_mul_pow2|lia]).
  pose proof (Z.div_mul q (Z.pos m') ltac:(lia)) as Hd. pose proof (Z.mod_mul q (Z.pos m') ltac:(lia)) as Hmo.
  unfold Z.div, Z.modulo in Hd, Hmo. destruct (Z.div_eucl _ _) as [q' r]. subst q' r.
  replace (new_location (Z.pos m') 0) with loc_Exact by (unfold new_location; by destruct (Z.even _)).
  apply round_aux_exact; [done|done| |done]. split; [by rewrite Z.abs_eq by lia|]. rewrite Z.abs_eq by lia. lia.
Qed.

End Format.

(** ** Small integers *)

Lemma representable_bits prec emax p n k :
  0 < p <= prec -> Z.abs n < 2 ^ p -> emin prec emax <= k -> p - 1 + k <= emax - prec -> representable prec emax n k.
Proof.
  intros Hp Hn Hk Hr. split; [pose proof (Z.pow_le_mono_r 2 p prec ltac:(lia) ltac:(lia)); lia|]. split; [done|].
  destruct (Z.eq_dec n 0) as [->|]; [change (Z.log2 (Z.abs 0)) with 0; lia|]. pose proof (log2_bound (Z.abs n) p ltac:(lia)). lia.
Qed.

Lemma float_of_Z_exact n : Z.abs n < 2 ^ 24 -> denotes (float_of_Z n) n 0.
Proof. intros. apply normalize_exact; [lia|lia| |apply equal_refl]. apply (representable_bits _ _ 24); unfold emin; lia. Qed.

Lemma double_of_Z_exact n : Z.abs n < 2 ^ 53 -> denotes (double_of_Z n) n 0.
Proof. intros. apply normalize_exact; [lia|lia| |apply equal_refl]. apply (representable_bits _ _ 53); unfold emin; lia. Qed.
