(* ===== verification/CStrings.v ===== *)
(** * C strings

    Strings of the source as bytes, their comparison without regard to case,
    and fields in network byte order. *)

From stdpp Require Import strings.
From S2P Require Import Prelude.
Open Scope Z_scope.

(** A string of the source as its bytes, without the terminating zero. *)
Definition str (s : string) : list Z := (fun c => Z.of_N (Ascii.N_of_ascii c)) <$> String.list_ascii_of_string s.

(** The bytes of a string without a zero in it. *)
Definition cstr (s : list Z) : Prop := Forall (fun c => 0 < c < 256) s.

Lemma cstr_app a b : cstr (a ++ b) <-> cstr a /\ cstr b.
Proof. apply Forall_app. Qed.

(** [tolower] in the C locale. *)
Definition tolower (c : Z) : Z := if (65 <=? c) && (c <=? 90) then c + 32 else c.

(** [strcasecmp(a, b) == 0] on two objects; [None] when it would read past the
    end of one of them. *)
Fixpoint strcasecmp_eq (a b : list Z) : option bool :=
  match a, b with
  | x :: a, y :: b =>
    if tolower x =? tolower y then if x =? 0 then Some true else strcasecmp_eq a b else Some false
  | _, _ => None
  end.

(** [snprintf(buf, size, ..)] of the text [s]: what the buffer holds before
    the terminating zero. *)
Definition snprintf (size : Z) (s : list Z) : list Z := take (Z.to_nat (size - 1)) s.

(** [strlen]: a C string is given by its characters before the terminator. *)
Definition strlen (s : list Z) : Z := Z.of_nat (length s).

(** Big-endian fields. *)
Definition be_bytes (n : nat) (z : Z) : list Z := rev (le_bytes n z).
Definition be_val (bs : list Z) : Z := le_val (rev bs).

Lemma length_be_bytes n z : length (be_bytes n z) = n.
Proof. unfold be_bytes. by rewrite length_rev, length_le_bytes. Qed.

Lemma be_val_bytes n z : be_val (be_bytes n z) = z mod 256 ^ Z.of_nat n.
Proof. unfold be_val, be_bytes. by rewrite rev_involutive, le_val_bytes. Qed.

Lemma be_bytes_byte n z : Forall byteP (be_bytes n z).
Proof. unfold be_bytes. apply Forall_rev, le_bytes_byte. Qed.

Lemma tolower_0 c : tolower c = 0 <-> c = 0.
Proof. unfold tolower. case_if; zbool; lia. Qed.

(** The comparison of two strings, whatever follows them in memory. *)
Lemma strcasecmp_eq_spec a b ra rb :
  cstr a -> cstr b ->
  strcasecmp_eq (a ++ 0 :: ra) (b ++ 0 :: rb) = Some (bool_decide (tolower <$> a = tolower <$> b)).
Proof.
  intros Ha. revert b. induction Ha as [|x a Hx Ha IH]; intros b Hb; destruct Hb as [|y b Hy Hb]; cbn [app strcasecmp_eq].
  - done.
  - destruct (_ =? _) eqn:E; zbool; [|done]. change (tolower 0) with 0 in E. symmetry in E. apply (proj1 (tolower_0 y)) in E. lia.
  - destruct (_ =? _) eqn:E; zbool; [|done]. change (tolower 0) with 0 in E. apply (proj1 (tolower_0 x)) in E. lia.
  - rewrite !fmap_cons. destruct (_ =? _) eqn:E; zbool.
    + rewrite (proj2 (Z.eqb_neq x 0)) by lia. rewrite IH by done. f_equal. apply bool_decide_ext. rewrite E. split; congruence.
    + rewrite bool_decide_false by congruence. done.
Qed.

(** * C library functions on strings in memory

    [strtol], [strstr] and [strtok_r] as the C standard describes them, on a
    block of memory given by its bytes; an access past the end of the block is
    [None].  [strstr] reads its string byte by byte up to the match or the
    terminator. *)

Module CLib.

(** ** Definitions *)

Definition isdigit (c : Z) : bool := (48 <=? c) && (c <=? 57).
Definition isspace (c : Z) : bool := (c =? 32) || ((9 <=? c) && (c <=? 13)).

(** The value of a digit in a base up to 16. *)
Definition digit_val (base c : Z) : option Z :=
  let v := if isdigit c then c - 48
           else if (97 <=? c) && (c <=? 102) then c - 87
           else if (65 <=? c) && (c <=? 70) then c - 55
           else base in
  if v <? base then Some v else None.

(** The digits at the start of a string: their value, on top of [acc], and
    what follows them. *)
Fixpoint digits (base acc : Z) (s : list Z) : Z * list Z :=
  match s with
  | [] => (acc, [])
  | c :: s' =>
    match digit_val base c with
    | Some d => digits base (acc * base + d) s'
    | None => (acc, s)
    end
  end.

Fixpoint skip_spaces (s : list Z) : list Z :=
  match s with
  | c :: s' => if isspace c then skip_spaces s' else s
  | [] => []
  end.

(** An optional sign. *)
Definition sign (s : list Z) : bool * list Z :=
  match s with
  | c :: s' => if c =? 45 then (true, s') else if c =? 43 then (false, s') else (false, s)
  | [] => (false, [])
  end.

(** The optional prefix of hexadecimal numbers. *)
Definition skip_0x (s : list Z) : list Z :=
  match s with
  | z :: x :: d :: s' =>
    if (z =? 48) && ((x =? 120) || (x =? 88)) && bool_decide (is_Some (digit_val 16 d)) then d :: s' else s
  | _ => s
  end.

(** [strtol] in base 10 or 16 on a string without its terminator: the value,
    which saturates at the range of [long], and the rest of the string. *)
Definition strtol (base : Z) (s : list Z) : Z * list Z :=
  let '(neg, s1) := sign (skip_spaces s) in
  let s2 := if base =? 16 then skip_0x s1 else s1 in
  match s2 with
  | c :: _ =>
    match digit_val base c with
    | Some _ =>
      let '(v, rest) := digits base 0 s2 in
      (if neg : bool then Z.max (- v) (- 2 ^ 31) else Z.min v (2 ^ 31 - 1), rest)
    | None => (0, s)
    end
  | [] => (0, s)
  end.

(** [strtoul] in base 10: a number with a minus sign is negated in the type of
    the result, and one out of range saturates. *)
Definition strtoul (s : list Z) : Z :=
  let '(neg, s1) := sign (skip_spaces s) in
  let v := fst (digits 10 0 s1) in
  if 2 ^ 32 <=? v then 2 ^ 32 - 1 else if neg : bool then u32 (- v) else v.

Definition isxdigit (c : Z) : bool := bool_decide (is_Some (digit_val 16 c)).

(** Unsigned numbers in decimal and hexadecimal, as [printf] writes them. *)
Fixpoint print_digits (fuel : nat) (base n : Z) (acc : list Z) : list Z :=
  match fuel with
  | O => acc
  | S fuel =>
    let d := n mod base in
    let acc := (if d <? 10 then 48 + d else 87 + d) :: acc in
    if n <? base then acc else print_digits fuel base (n / base) acc
  end.

Definition print_u (n : Z) : list Z := print_digits 10 10 n [].
Definition print_x (n : Z) : list Z := print_digits 8 16 n [].

(** The string at the start of a block: its bytes before the terminator. *)
Fixpoint c_string (mem : list Z) : option (list Z) :=
  match mem with
  | [] => None
  | b :: mem => if b =? 0 then Some [] else cons b <$> c_string mem
  end.

(** The string at an offset of a block. *)
Definition string_at (mem : list Z) (i : Z) : option (list Z) :=
  if i <? 0 then None else c_string (drop (Z.to_nat i) mem).

Fixpoint prefix_at (needle mem : list Z) : option bool :=
  match needle, mem with
  | [], _ => Some true
  | _, [] => None
  | n :: needle, b :: mem => if b =? n then prefix_at needle mem else Some false
  end.

(** The offset of the first occurrence, [Some None] for a null pointer. *)
Fixpoint strstr (needle mem : list Z) (i : Z) : option (option Z) :=
  match prefix_at needle mem with
  | None => None
  | Some true => Some (Some i)
  | Some false =>
    match mem with
    | [] => None
    | b :: mem => if b =? 0 then Some None else strstr needle mem (i + 1)
    end
  end.

(** How many bytes with [p] the block starts with; another one must follow. *)
Fixpoint span (p : Z -> bool) (mem : list Z) : option nat :=
  match mem with
  | [] => None
  | b :: mem => if p b then S <$> span p mem else Some O
  end.

Definition delimiter (delim : list Z) (c : Z) : bool := bool_decide (c ∈ delim).

(** [strtok_r] from the offset [start] ([None]: a null pointer): the token,
    the saved pointer and the block, in which the delimiter behind the token
    has become a terminator. *)
Definition strtok_r (mem : list Z) (delim : list Z) (start : option nat) : option (option nat * option nat * list Z) :=
  match start with
  | None => Some (None, None, mem)
  | Some i =>
    match span (delimiter delim) (drop i mem) with
    | None => None
    | Some k =>
      let t := (i + k)%nat in
      if bool_decide (mem !! t = Some 0) then Some (None, None, mem)
      else
        match span (fun c => negb (delimiter delim c) && negb (c =? 0)) (drop t mem) with
        | None => None
        | Some n =>
          let e := (t + n)%nat in
          if bool_decide (mem !! e = Some 0) then Some (Some t, None, mem)
          else Some (Some t, Some (S e), <[e := 0]> mem)
        end
    end
  end.

(** ** Lemmas *)

Lemma c_string_app s mem : Forall (fun c => c <> 0) s -> c_string (s ++ 0 :: mem) = Some s.
Proof.
  induction 1 as [|c s Hc _ IH]; [done|]. cbn [app c_string]. by rewrite (proj2 (Z.eqb_neq c 0)), IH by done.
Qed.

Lemma c_string_some mem : 0 ∈ mem -> is_Some (c_string mem).
Proof.
  induction mem as [|c mem IH]; intros H; [by apply elem_of_nil in H|]. cbn. case_if; [done|]. zbool.
  apply elem_of_cons in H as [H|H]; [by subst|]. destruct (IH H) as [s ->]. done.
Qed.

Lemma string_at_app pre s mem i :
  Forall (fun c => c <> 0) s -> i = Z.of_nat (length pre) -> string_at (pre ++ s ++ 0 :: mem) i = Some s.
Proof.
  intros Hs ->. unfold string_at. rewrite (proj2 (Z.ltb_ge _ _)) by lia. rewrite Nat2Z.id, drop_app_length.
  by apply c_string_app.
Qed.

Lemma span_app p s c mem : Forall (fun b => p b = true) s -> p c = false -> span p (s ++ c :: mem) = Some (length s).
Proof. intros H Hc. induction H as [|b s Hb _ IH]; cbn; [by rewrite Hc|]. by rewrite Hb, IH. Qed.

Section Strtok.
Context (delim : list Z).
Hypothesis Hdelim : ~ 0 ∈ delim.

Definition in_token (c : Z) : Prop := ~ c ∈ delim /\ c <> 0.

Lemma in_token_b c : in_token c -> negb (delimiter delim c) && negb (c =? 0) = true.
Proof. intros [H1 H2]. unfold delimiter. by rewrite bool_decide_false, (proj2 (Z.eqb_neq c 0)). Qed.

Lemma delims_b ds : Forall (fun c => c ∈ delim) ds -> Forall (fun c => delimiter delim c = true) ds.
Proof. intros H. eapply Forall_impl; [exact H|]. intros c Hc. by apply bool_decide_true. Qed.

Lemma not_delim_b c : ~ c ∈ delim -> delimiter delim c = false.
Proof. apply bool_decide_false. Qed.

Lemma drop_span (pre ds l : list Z) : drop (length pre + length ds) (pre ++ ds ++ l) = l.
Proof. by rewrite app_assoc, <-length_app, drop_app_length. Qed.

Lemma lookup_span (pre ds l : list Z) : (pre ++ ds ++ l) !! (length pre + length ds)%nat = l !! 0%nat.
Proof. rewrite app_assoc, <-length_app, lookup_app_r by lia. by rewrite Nat.sub_diag. Qed.

(** Only delimiters are left. *)
Lemma strtok_end pre ds mem :
  Forall (fun c => c ∈ delim) ds ->
  strtok_r (pre ++ ds ++ 0 :: mem) delim (Some (length pre)) = Some (None, None, pre ++ ds ++ 0 :: mem).
Proof.
  intros Hds. unfold strtok_r. rewrite drop_app_length, span_app by (by apply delims_b || by apply not_delim_b).
  by rewrite lookup_span.
Qed.

(** A token with a delimiter behind it. *)
Lemma strtok_token pre ds tok d mem :
  Forall (fun c => c ∈ delim) ds -> Forall in_token tok -> tok <> [] -> d ∈ delim ->
  strtok_r (pre ++ ds ++ tok ++ d :: mem) delim (Some (length pre)) =
    Some (Some (length pre + length ds)%nat, Some (S (length pre + length ds + length tok)),
          pre ++ ds ++ tok ++ 0 :: mem).
Proof.
  intros Hds Ht Hne Hd. unfold strtok_r. rewrite drop_app_length. destruct tok as [|c tok]; [done|].
  pose proof Ht as Hc. apply Forall_cons in Hc as [[Hc1 Hc2] _].
  change (ds ++ (c :: tok) ++ ?l) with (ds ++ c :: tok ++ l).
  rewrite (span_app _ ds c) by (by apply delims_b || by apply not_delim_b).
  rewrite lookup_span. cbn [lookup list_lookup]. rewrite bool_decide_false by congruence.
  change (c :: tok ++ ?l) with ((c :: tok) ++ l).
  rewrite drop_span. rewrite (span_app _ (c :: tok)); cycle 1.
  { eapply Forall_impl; [exact Ht|]. apply in_token_b. }
  { unfold delimiter. by rewrite bool_decide_true. }
  assert (Hl : (pre ++ ds ++ (c :: tok) ++ d :: mem) !! (length pre + length ds + length (c :: tok))%nat = Some d).
  { rewrite !app_assoc, <-!length_app, lookup_app_r by lia. by rewrite Nat.sub_diag. }
  rewrite Hl, bool_decide_false by congruence. do 2 f_equal.
  rewrite !app_assoc, <-!length_app, insert_app_r_alt by lia. by rewrite Nat.sub_diag.
Qed.

(** The last token. *)
Lemma strtok_last pre ds tok mem :
  Forall (fun c => c ∈ delim) ds -> Forall in_token tok -> tok <> [] ->
  strtok_r (pre ++ ds ++ tok ++ 0 :: mem) delim (Some (length pre)) =
    Some (Some (length pre + length ds)%nat, None, pre ++ ds ++ tok ++ 0 :: mem).
Proof.
  intros Hds Ht Hne. unfold strtok_r. rewrite drop_app_length. destruct tok as [|c tok]; [done|].
  pose proof Ht as Hc. apply Forall_cons in Hc as [[Hc1 Hc2] _].
  change (ds ++ (c :: tok) ++ ?l) with (ds ++ c :: tok ++ l).
  rewrite (span_app _ ds c) by (by apply delims_b || by apply not_delim_b).
  rewrite lookup_span. cbn [lookup list_lookup]. rewrite bool_decide_false by congruence.
  change (c :: tok ++ ?l) with ((c :: tok) ++ l).
  rewrite drop_span. rewrite (span_app _ (c :: tok)); cycle 1.
  { eapply Forall_impl; [exact Ht|]. apply in_token_b. }
  { cbn. by rewrite andb_false_r. }
  assert (Hl : (pre ++ ds ++ (c :: tok) ++ 0 :: mem) !! (length pre + length ds + length (c :: tok))%nat = Some 0).
  { rewrite !app_assoc, <-!length_app, lookup_app_r by lia. by rewrite Nat.sub_diag. }
  by rewrite Hl, bool_decide_true.
Qed.

(** Every string starts with delimiters and a token. *)
Lemma token_split s : Forall (fun c => c <> 0) s -> exists ds tok rest,
  s = ds ++ tok ++ rest /\ Forall (fun c => c ∈ delim) ds /\ Forall in_token tok /\
  (tok = [] -> rest = []) /\ (forall d rest', rest = d :: rest' -> d ∈ delim).
Proof.
  induction 1 as [|c s Hc _ (ds & tok & rest & -> & H1 & H2 & H3 & H4)].
  { exists [], [], []. repeat split; try constructor; naive_solver. }
  destruct (decide (c ∈ delim)) as [Hd|Hd].
  - exists (c :: ds), tok, rest. repeat split; [by constructor|done..].
  - destruct ds as [|d ds].
    + exists [], (c :: tok), rest. repeat split; [constructor|by repeat constructor|done|done].
    + exists [], [c], (d :: ds ++ tok ++ rest). repeat split; [constructor|by repeat constructor|done|].
      intros d' rest' [= <- _]. by inversion H1.
Qed.
End Strtok.

(** [strstr] finds what has no occurrence, and no terminator, before it. *)
Lemma prefix_at_app needle mem : prefix_at needle (needle ++ mem) = Some true.
Proof. induction needle as [|n needle IH]; cbn; [done|]. by rewrite Z.eqb_refl. Qed.

Lemma prefix_at_mono needle mem mem' b : prefix_at needle mem = Some b -> prefix_at needle (mem ++ mem') = Some b.
Proof. revert mem. induction needle as [|n needle IH]; intros [|c mem]; cbn; try done. case_if; [apply IH|done]. Qed.

Lemma strstr_mono needle mem mem' i r : strstr needle mem i = Some r -> strstr needle (mem ++ mem') i = Some r.
Proof.
  revert i. induction mem as [|b mem IH]; intros i H.
  - cbn in H. destruct needle; cbn in H; [|done]. simplify_eq. by destruct mem'.
  - cbn [app strstr] in *. destruct (prefix_at needle (b :: mem)) as [p|] eqn:E; [|done].
    apply (prefix_at_mono _ _ mem') in E. cbn [app] in E. rewrite E. destruct p; [done|]. case_if; [done|by apply IH].
Qed.

(** ** Numbers *)

(** A number in decimal digits. *)
Definition number (ds : list Z) : Z := fst (digits 10 0 ds).

Definition is_digit (c : Z) : Prop := 48 <= c <= 57.

#[export] Instance is_digit_dec c : Decision (is_digit c).
Proof. unfold is_digit. apply _. Defined.

Lemma isdigit_true c : is_digit c -> isdigit c = true.
Proof. intros H. unfold isdigit, is_digit in *. apply andb_true_intro. split; apply Z.leb_le; lia. Qed.

Lemma digit_val_digit c : is_digit c -> digit_val 10 c = Some (c - 48).
Proof.
  intros H. unfold digit_val. rewrite isdigit_true by done. unfold is_digit in H. by rewrite (proj2 (Z.ltb_lt _ _)) by lia.
Qed.

Lemma digit_val_other c : ~ is_digit c -> digit_val 10 c = None.
Proof.
  intros H. unfold digit_val. assert (Hd : isdigit c = false).
  { unfold isdigit, is_digit in *. apply andb_false_iff. rewrite Z.leb_gt, Z.leb_gt. lia. }
  rewrite Hd. repeat case_if; zbool; try done; lia.
Qed.

Lemma digits_app base acc ds rest :
  Forall (fun c => is_Some (digit_val base c)) ds ->
  digits base acc (ds ++ rest) = digits base (fst (digits base acc ds)) rest.
Proof.
  intros H. revert acc. induction H as [|c ds [v Hv] _ IH]; intros acc; [done|]. cbn [app digits]. rewrite Hv. apply IH.
Qed.

Lemma digits_rest acc s : (forall c s', s = c :: s' -> ~ is_digit c) -> digits 10 acc s = (acc, s).
Proof. destruct s as [|c s]; intros H; [done|]. cbn. rewrite digit_val_other; [done|]. by eapply H. Qed.

Lemma digits_nonneg ds : forall acc, 0 <= acc -> 0 <= fst (digits 10 acc ds).
Proof.
  induction ds as [|c ds IH]; intros acc Ha; cbn; [done|].
  destruct (digit_val 10 c) as [v|] eqn:E; [|done]. apply IH. destruct (decide (is_digit c)) as [Hd|Hd].
  - rewrite digit_val_digit in E by done. unfold is_digit in Hd. simplify_eq. lia.
  - by rewrite digit_val_other in E.
Qed.

Lemma strtol_number ds rest :
  ds <> [] -> Forall is_digit ds -> (forall c s, rest = c :: s -> ~ is_digit c) ->
  strtol 10 (ds ++ rest) = (Z.min (number ds) (2 ^ 31 - 1), rest).
Proof.
  intros Hne Hds Hr. destruct ds as [|c ds]; [done|]. apply Forall_cons in Hds as [Hc Hds]. unfold strtol.
  assert (Hsp : isspace c = false) by (unfold isspace, is_digit in *; repeat case_if; zbool; lia).
  cbn [app skip_spaces]. rewrite Hsp. cbn [sign].
  rewrite !(proj2 (Z.eqb_neq c _)) by (unfold is_digit in Hc; lia). cbn [Z.eqb Pos.eqb].
  rewrite digit_val_digit by done. change (c :: ds ++ rest) with ((c :: ds) ++ rest).
  rewrite digits_app by (constructor; [eauto using digit_val_digit|eapply Forall_impl; [exact Hds|]; intros; eexists; by apply digit_val_digit]).
  by rewrite digits_rest.
Qed.

End CLib.
