(* ===== verification/Flash.v ===== *)
(** * The flash interface

    What the SPI flash driver ([core/spiflash.c]) promises to the code that
    stores data in flash ([core/sysparam.c], [extras/rboot-ota]).  The class
    [Flash] has the three driver calls and the observable contents of the
    flash array; [FlashLaws] has the laws that hold of a device in good
    order.  Clients are defined over [Flash] alone, so they also run on a
    failing device, and their functional theorems assume [FlashLaws]. *)

From S2P Require Import Prelude.

(** [sdk_flashchip_t] of [core/include/flashchip.h]. *)
Record sdk_flashchip_t := {
  device_id : Z;
  chip_size : Z;
  block_size : Z;
  sector_size : Z;
  page_size : Z;
  status_mask : Z;
}.

(** [SPI_FLASH_SECTOR_SIZE] of [core/include/spiflash.h]. *)
Definition SPI_FLASH_SECTOR_SIZE : Z := 4096.

Class Flash (F : Type) := {
  sdk_flashchip : sdk_flashchip_t;
  (** the byte at an address of the array *)
  flash_cell : F -> Z -> Z;
  (** [spiflash_read(addr, buf, size)], [buf] not null: the bytes, or [None] for [false] *)
  spiflash_read : Z -> Z -> M F (option (list Z));
  (** [spiflash_write(addr, buf, size)], [buf] not null *)
  spiflash_write : Z -> (Z -> Z) -> Z -> M F bool;
  spiflash_erase_sector : Z -> M F bool;
}.

(** The geometry the code is written for: 4 KiB sectors and an address that
    fits the 24 address bits of the SPI flash commands. *)
Record chip_geometry (chip : sdk_flashchip_t) : Prop := {
  geo_sector : sector_size chip = 4096;
  geo_page : page_size chip = 256;
  geo_chip : 0 <= chip_size chip <= 2 ^ 24;
}.

Class FlashLaws (F : Type) `{Flash F} := {
  (** the device is in a state in which commands are accepted *)
  flash_ok : F -> Prop;
  flash_geometry : chip_geometry sdk_flashchip;
  flash_cell_byte f x : flash_ok f -> byteP (flash_cell f x);
  flash_read_ok f a n :
    flash_ok f -> 0 <= a -> 0 <= n -> a + n <= chip_size sdk_flashchip ->
    spiflash_read a n f = Done (Some (cells (flash_cell f) a n), f);
  (** past the end of the chip only a read of no bytes succeeds *)
  flash_read_past f a n :
    flash_ok f -> 0 <= a -> 0 <= n -> chip_size sdk_flashchip < a + n < 2 ^ 32 ->
    spiflash_read a n f = Done (if n =? 0 then Some [] else None, f);
  flash_write_ok f a buf n :
    flash_ok f -> 0 <= a -> 0 <= n -> a + n <= chip_size sdk_flashchip ->
    exists f', spiflash_write a buf n f = Done (true, f') /\ flash_ok f' /\
      forall x, flash_cell f' x = and_bytes (flash_cell f) a buf n x;
  flash_erase_ok f a :
    flash_ok f -> 0 <= a -> a mod 4096 = 0 -> a + 4096 <= chip_size sdk_flashchip ->
    exists f', spiflash_erase_sector a f = Done (true, f') /\ flash_ok f' /\
      forall x, flash_cell f' x = erase_bytes (flash_cell f) a 4096 x;
}.
