(* ===== verification/Spiflash.v ===== *)
(** * The SPI flash driver: [core/spiflash.c]

    Module [Device] states what the flash chip and the boot ROM routines the
    driver calls do; [Driver] translates the driver; the theorems show that
    the driver cuts every transfer into commands the chip accepts, and the
    instance at the end discharges the [Flash] interface. *)

From S2P Require Import Prelude Flash.

(** ** The chip and the boot ROM *)

Module Device.

(** The SPI controller with its flash chip.  A command takes the [ADDR]
    register (24 address bits, byte count above) and the data registers [W];
    [Wait_SPI_Idle] and [SPI_write_enable] are boot ROM routines. *)
Class SpiDevice (D : Type) := {
  dev_cell : D -> Z -> Z;
  dev_busy : D -> bool;
  dev_wel : D -> bool;
  Wait_SPI_Idle : D -> D;
  SPI_write_enable : D -> D;
  cmd_PP : Z -> list Z -> D -> D;
  cmd_READ : Z -> D -> list Z;
  cmd_SE : Z -> D -> D;
}.

Definition addr_of (ADDR : Z) : Z := Z.land ADDR 0x00FFFFFF.
Definition count_of (ADDR : Z) : Z := Z.shiftr ADDR 24.

(** Documented behaviour of a serial NOR flash: a page program needs the
    write-enable latch, an idle chip, at most the 64 bytes of the data
    registers and must stay inside one page; it clears bits and leaves the
    chip busy.  A read needs an idle chip and fewer than 64 bytes.  A sector
    erase needs the latch and an idle chip. *)
Class SpiDeviceLaws (D : Type) `{SpiDevice D} := {
  dev_cell_byte d x : byteP (dev_cell d x);
  dev_wait d : dev_busy (Wait_SPI_Idle d) = false /\
    dev_wel (Wait_SPI_Idle d) = dev_wel d /\
    forall x, dev_cell (Wait_SPI_Idle d) x = dev_cell d x;
  dev_wren d : dev_busy d = false ->
    dev_busy (SPI_write_enable d) = false /\ dev_wel (SPI_write_enable d) = true /\
    forall x, dev_cell (SPI_write_enable d) x = dev_cell d x;
  dev_pp d ADDR W :
    let a := addr_of ADDR in let n := count_of ADDR in
    dev_busy d = false -> dev_wel d = true ->
    1 <= n <= 64 -> n <= Z.of_nat (length W) -> a mod 256 + n <= 256 ->
    forall x, dev_cell (cmd_PP ADDR W d) x = and_bytes (dev_cell d) a (as_mem W) n x;
  dev_read d ADDR :
    let a := addr_of ADDR in let n := count_of ADDR in
    dev_busy d = false -> 1 <= n < 64 ->
    take (Z.to_nat n) (cmd_READ ADDR d) = cells (dev_cell d) a n;
  dev_se d ADDR :
    let a := addr_of ADDR in
    dev_busy d = false -> dev_wel d = true -> a mod 4096 = 0 ->
    forall x, dev_cell (cmd_SE ADDR d) x = erase_bytes (dev_cell d) a 4096 x;
}.

End Device.

(** ** The driver *)

Module Driver.
Import Device.

Section Driver.
Context {D : Type} `{!SpiDevice D}.
Variable sdk_flashchip : sdk_flashchip_t.

(** Driver state: the device, the critical-section nesting and whether the
    flash cache is enabled. *)
Record flash_state := {
  fs_dev : D;
  fs_critical : Z;
  fs_cache : bool;
}.

Definition on_dev (f : D -> D) : M flash_state unit :=
  modify (fun s => {| fs_dev := f (fs_dev s); fs_critical := fs_critical s; fs_cache := fs_cache s |}).

Definition vPortEnterCritical : M flash_state unit :=
  modify (fun s => {| fs_dev := fs_dev s; fs_critical := fs_critical s + 1; fs_cache := fs_cache s |}).

Definition vPortExitCritical : M flash_state unit :=
  modify (fun s => {| fs_dev := fs_dev s; fs_critical := fs_critical s - 1; fs_cache := fs_cache s |}).

Definition Cache_Read_Disable : M flash_state unit :=
  modify (fun s => {| fs_dev := fs_dev s; fs_critical := fs_critical s; fs_cache := false |}).

Definition Cache_Read_Enable : M flash_state unit :=
  modify (fun s => {| fs_dev := fs_dev s; fs_critical := fs_critical s; fs_cache := true |}).

Definition SPI_WRITE_MAX_SIZE : Z := 64.
Definition SPI_READ_MAX_SIZE : Z := 60.

(** [buf] is the memory from the pointer on: the driver copies whole words,
    so up to three bytes past [size] are read. *)
Definition spi_write_data (addr : Z) (buf : Z -> Z) (size : Z) : M flash_state unit :=
  let words := Z.shiftr size 2 in
  let words := if Z.land size 3 =? 0 then words else words + 1 in
  do! on_dev Wait_SPI_Idle then
  let ADDR := Z.lor (Z.land addr 0x00FFFFFF) (u32 (Z.shiftl size 24)) in
  let W := cells buf 0 (Z.shiftl words 2) in
  do! on_dev SPI_write_enable then
  on_dev (cmd_PP ADDR W).

(** The [while (size >= SPI_WRITE_MAX_SIZE)] loop of [spi_write_page] with
    the transfer that follows it. *)
Fixpoint spi_write_page_loop (fuel : nat) (dest_addr : Z) (buf : Z -> Z) (size : Z)
    : M flash_state bool :=
  match fuel with
  | O => out_of_fuel
  | S fuel =>
    if SPI_WRITE_MAX_SIZE <=? size then
      do! spi_write_data dest_addr buf SPI_WRITE_MAX_SIZE then
      let size := u32 (size - SPI_WRITE_MAX_SIZE) in
      if size <? 1 then ret true
      else spi_write_page_loop fuel (u32 (dest_addr + SPI_WRITE_MAX_SIZE))
             (fun i => buf (i + SPI_WRITE_MAX_SIZE)) size
    else
      do! spi_write_data dest_addr buf size then
      ret true
  end.

Definition spi_write_page (dest_addr : Z) (buf : Z -> Z) (size : Z) : M flash_state bool :=
  if page_size sdk_flashchip <? u32 (size + dest_addr mod page_size sdk_flashchip) then ret false
  else if size <? 1 then ret true
  else spi_write_page_loop (Z.to_nat size) dest_addr buf size.

(** The [for] loop over full pages: [n] pages from [offset] on; the result
    carries the offset reached. *)
Fixpoint spi_write_pages (n : nat) (addr : Z) (dst : Z -> Z) (offset : Z)
    : M flash_state (option Z) :=
  match n with
  | O => ret (Some offset)
  | S n =>
    let! ok := spi_write_page (u32 (addr + offset)) (fun i => dst (i + offset))
                 (page_size sdk_flashchip) in
    if ok then spi_write_pages n addr dst (u32 (offset + page_size sdk_flashchip))
    else ret None
  end.

Definition spi_write (addr : Z) (dst : Z -> Z) (size : Z) : M flash_state bool :=
  if chip_size sdk_flashchip <? u32 (addr + size) then ret false
  else
    let write_bytes_to_page := page_size sdk_flashchip - addr mod page_size sdk_flashchip in
    if size <? write_bytes_to_page then spi_write_page addr dst size
    else
      let! ok := spi_write_page addr dst write_bytes_to_page in
      if negb ok then ret false
      else
        let offset := write_bytes_to_page in
        let pages_to_write := (size - offset) / page_size sdk_flashchip in
        let! off := spi_write_pages (Z.to_nat pages_to_write) addr dst offset in
        match off with
        | None => ret false
        | Some offset =>
          spi_write_page (u32 (addr + offset)) (fun i => dst (i + offset)) (u32 (size - offset))
        end.

(** [buf] is [None] for a null pointer. *)
Definition spiflash_write (addr : Z) (buf : option (Z -> Z)) (size : Z) : M flash_state bool :=
  match buf with
  | None => ret false
  | Some buf =>
    do! vPortEnterCritical then
    do! Cache_Read_Disable then
    let! result := spi_write addr buf size in
    do! on_dev Wait_SPI_Idle then
    do! Cache_Read_Enable then
    do! vPortExitCritical then
    ret result
  end.

Definition read_block (addr size : Z) : M flash_state (list Z) :=
  let ADDR := Z.lor (Z.land addr 0x00FFFFFF) (u32 (Z.shiftl size 24)) in
  let! s := get in
  ret (take (Z.to_nat size) (cmd_READ ADDR (fs_dev s))).

(** The [while (size >= SPI_READ_MAX_SIZE)] loop of [read_data] with the
    last, shorter block. *)
Fixpoint read_data_loop (fuel : nat) (addr size : Z) : M flash_state (list Z) :=
  match fuel with
  | O => out_of_fuel
  | S fuel =>
    if SPI_READ_MAX_SIZE <=? size then
      let! b := read_block addr SPI_READ_MAX_SIZE in
      let! rest := read_data_loop fuel (u32 (addr + SPI_READ_MAX_SIZE)) (u32 (size - SPI_READ_MAX_SIZE)) in
      ret (b ++ rest)
    else if 0 <? size then read_block addr size
    else ret []
  end.

(** The bytes stored to [dst], or [None] for the result [false]. *)
Definition read_data (addr size : Z) : M flash_state (option (list Z)) :=
  if size <? 1 then ret (Some [])
  else if chip_size sdk_flashchip <? u32 (addr + size) then ret None
  else
    let! bs := read_data_loop (S (Z.to_nat size)) addr size in
    ret (Some bs).

(** [buf_null]: was the destination pointer null? *)
Definition spiflash_read (dest_addr : Z) (buf_null : bool) (size : Z) : M flash_state (option (list Z)) :=
  if buf_null then ret None
  else
    do! vPortEnterCritical then
    do! Cache_Read_Disable then
    let! result := read_data dest_addr size in
    do! Cache_Read_Enable then
    do! vPortExitCritical then
    ret result.

Definition spiflash_erase_sector (addr : Z) : M flash_state bool :=
  if chip_size sdk_flashchip <? u32 (addr + sector_size sdk_flashchip) then ret false
  else if negb (Z.land addr 0xFFF =? 0) then ret false
  else
    do! vPortEnterCritical then
    do! Cache_Read_Disable then
    do! on_dev SPI_write_enable then
    do! on_dev (cmd_SE (Z.land addr 0x00FFFFFF)) then
    do! on_dev Wait_SPI_Idle then
    do! Cache_Read_Enable then
    do! vPortExitCritical then
    ret true.

End Driver.
Arguments flash_state : clear implicits.
End Driver.

(** ** Correctness of the driver *)

Module DriverProofs.
Import Device Driver.

Section Proofs.
Context {D : Type} `{HD : SpiDevice D} `{!SpiDeviceLaws D}.
Variable chip : sdk_flashchip_t.
Hypothesis Hgeo : chip_geometry chip.

Abbreviation ST := (flash_state D).
Implicit Types s : ST.

(** [s'] is [s] after programming [n] bytes of [buf] at [a]; everything but
    the device is as before. *)
Definition written s s' (a : Z) (buf : Z -> Z) (n : Z) : Prop :=
  (forall x, dev_cell (fs_dev s') x = and_bytes (dev_cell (fs_dev s)) a buf n x) /\
  fs_critical s' = fs_critical s /\ fs_cache s' = fs_cache s.

Lemma written_trans s s1 s2 a buf n m :
  0 <= n -> 0 <= m ->
  written s s1 a buf n -> written s1 s2 (a + n) (fun i => buf (i + n)) m ->
  written s s2 a buf (n + m).
Proof.
  intros Hn Hm (H1 & H2 & H3) (H4 & H5 & H6). split; [|split; congruence].
  intros x. rewrite H4, <-and_bytes_compose by done. by apply and_bytes_ext.
Qed.

Lemma written_0 s a buf : written s s a buf 0.
Proof.
  split; [|done]. intros x. unfold and_bytes. case_if; [zbool; lia|done].
Qed.

Lemma ADDR_fields addr n :
  0 <= addr < 2 ^ 24 -> 1 <= n <= 64 ->
  let A := Z.lor (Z.land addr 0x00FFFFFF) (u32 (Z.shiftl n 24)) in
  addr_of A = addr /\ count_of A = n.
Proof.
  intros Ha Hn. cbn zeta. unfold addr_of, count_of.
  change 0x00FFFFFF with (2 ^ 24 - 1). rewrite (land_mask addr), (Z.mod_small addr) by lia.
  rewrite Z.shiftl_mul_pow2, u32_small, lor_disjoint_add by lia.
  rewrite land_mask, Z.mod_add, Z.mod_small by lia. split; [done|].
  rewrite Z.shiftr_div_pow2, Z.div_add, Z.div_small by lia. lia.
Qed.

Lemma spi_write_data_ok s addr buf n :
  1 <= n <= 64 -> 0 <= addr -> addr + n <= 2 ^ 24 -> addr mod 256 + n <= 256 ->
  exists s', spi_write_data addr buf n s = Done (tt, s') /\ written s s' addr buf n.
Proof.
  intros Hn Ha Hae Hp. destruct (ADDR_fields addr n ltac:(lia) Hn) as [E1 E2].
  eexists. split; [unfold spi_write_data, on_dev, bind, modify; reflexivity|].
  split; [|done]. intros x. cbn [fs_dev].
  destruct (dev_wait (fs_dev s)) as (Hb & _ & Hc).
  destruct (dev_wren (Wait_SPI_Idle (fs_dev s)) Hb) as (Hb2 & Hw2 & Hc2).
  set (words := if Z.land n 3 =? 0 then _ else _).
  assert (Hwords : n <= 4 * words).
  { subst words. change 3 with (2 ^ 2 - 1). rewrite land_mask, Z.shiftr_div_pow2 by lia.
    case_if; zbool; divlia. }
  rewrite dev_pp; rewrite ?E1, ?E2; try done.
  - unfold and_bytes. rewrite Hc2, Hc. case_if; [|done]. zbool. f_equal.
    symmetry. rewrite <-(Z.add_0_l (x - addr)) at 1.
    rewrite (cells_lookup_eq buf 0 (Z.shiftl words 2) _ (0 + (x - addr)) eq_refl).
    + f_equal. lia.
    + rewrite Z.shiftl_mul_pow2 by lia. lia.
  - rewrite length_cells, Z.shiftl_mul_pow2 by lia. lia.
Qed.

(** One page: the transfers of at most 64 bytes make up the whole block. *)
Lemma spi_write_page_loop_ok fuel : forall s addr buf n,
  n <= Z.of_nat fuel -> 1 <= n -> 0 <= addr -> addr + n <= 2 ^ 24 -> addr mod 256 + n <= 256 ->
  exists s', spi_write_page_loop fuel addr buf n s = Done (true, s') /\ written s s' addr buf n.
Proof.
  induction fuel as [|fuel IH]; intros s addr buf n Hf Hn Ha Hae Hp; [lia|]. cbn [spi_write_page_loop].
  unfold SPI_WRITE_MAX_SIZE in *. destruct (64 <=? n) eqn:E; zbool.
  - destruct (spi_write_data_ok s addr buf 64) as (s1 & H1 & W1); [lia..|]. run H1.
    rewrite u32_small by lia. destruct (n - 64 <? 1) eqn:E2; zbool.
    + exists s1. split; [done|]. by replace n with 64 by lia.
    + rewrite u32_small by lia.
      destruct (IH s1 (addr + 64) (fun i => buf (i + 64)) (n - 64)) as (s2 & H2 & W2); [try lia..|].
      { divlia. }
      exists s2. split; [done|]. replace n with (64 + (n - 64)) by lia.
      apply written_trans with s1; [lia..|done|done].
  - destruct (spi_write_data_ok s addr buf n) as (s1 & H1 & W1); [lia..|]. run H1. by exists s1.
Qed.

Lemma spi_write_page_ok s addr buf n :
  0 <= n -> 0 <= addr -> addr + n <= 2 ^ 24 -> addr mod 256 + n <= 256 ->
  exists s', spi_write_page chip addr buf n s = Done (true, s') /\ written s s' addr buf n.
Proof.
  intros Hn Ha Hae Hp. unfold spi_write_page. rewrite (geo_page _ Hgeo).
  pose proof (Z.mod_pos_bound addr 256 ltac:(lia)).
  rewrite u32_small by lia. case_if; zbool; [lia|]. case_if; zbool.
  - exists s. split; [done|]. replace n with 0 by lia. apply written_0.
  - apply spi_write_page_loop_ok; lia.
Qed.

Lemma spi_write_pages_ok n : forall s addr dst off,
  0 <= addr -> 0 <= off -> (addr + off) mod 256 = 0 -> addr + off + 256 * Z.of_nat n <= 2 ^ 24 ->
  exists s', spi_write_pages chip n addr dst off s = Done (Some (off + 256 * Z.of_nat n), s') /\
    written s s' (addr + off) (fun i => dst (i + off)) (256 * Z.of_nat n).
Proof.
  induction n as [|n IH]; intros s addr dst off Ha Ho Hal Hb.
  - exists s. rewrite Z.mul_0_r, Z.add_0_r. split; [done|apply written_0].
  - cbn [spi_write_pages]. rewrite (geo_page _ Hgeo), !u32_small by lia.
    destruct (spi_write_page_ok s (addr + off) (fun i => dst (i + off)) 256) as (s1 & H1 & W1); [lia..|].
    run H1.
    destruct (IH s1 addr dst (off + 256)) as (s2 & H2 & W2); [lia..| |lia|].
    { replace (addr + (off + 256)) with (addr + off + 1 * 256) by lia. by rewrite Z.mod_add by lia. }
    rewrite H2. exists s2. split; [do 3 f_equal; lia|].
    replace (256 * Z.of_nat (S n)) with (256 + 256 * Z.of_nat n) by lia.
    apply written_trans with s1; [lia..|done|].
    destruct W2 as (W2 & ?). split; [|done]. intros x. rewrite W2. unfold and_bytes.
    replace (addr + (off + 256)) with (addr + off + 256) by lia. case_if; [|done]. do 2 f_equal. lia.
Qed.

Lemma written_shift s s' a a' buf buf' n :
  a = a' -> (forall i, buf i = buf' i) -> written s s' a buf n -> written s s' a' buf' n.
Proof. intros <- Hb (H & ?). split; [|done]. intros x. rewrite H. unfold and_bytes. by rewrite Hb. Qed.

(** Any range inside the chip is split at page boundaries and written. *)
Lemma spi_write_ok s addr buf n :
  0 <= n -> 0 <= addr -> addr + n <= chip_size chip ->
  exists s', spi_write chip addr buf n s = Done (true, s') /\ written s s' addr buf n.
Proof.
  intros Hn Ha Hc. pose proof (geo_chip _ Hgeo) as [_ Hchip]. unfold spi_write.
  rewrite (geo_page _ Hgeo). rewrite u32_small by lia. case_if; zbool; [lia|].
  pose proof (Z.mod_pos_bound addr 256 ltac:(lia)) as Hm. set (w := 256 - addr mod 256).
  case_if; zbool; [apply spi_write_page_ok; lia|].
  destruct (spi_write_page_ok s addr buf w) as (s1 & H1 & W1); [lia..|]. run H1. cbn [negb].
  set (k := (n - w) / 256). assert (Hk : 0 <= k /\ 256 * k <= n - w < 256 * k + 256) by (subst k; divlia).
  assert (Hal : (addr + w) mod 256 = 0) by (subst w; divlia).
  destruct (spi_write_pages_ok (Z.to_nat k) s1 addr buf w) as (s2 & H2 & W2); [lia..|].
  rewrite Z2Nat.id in * by lia. run H2. rewrite !u32_small by lia.
  assert (Hal2 : (addr + (w + 256 * k)) mod 256 = 0).
  { replace (addr + (w + 256 * k)) with (addr + w + k * 256) by lia. by rewrite Z.mod_add by lia. }
  destruct (spi_write_page_ok s2 (addr + (w + 256 * k)) (fun i => buf (i + (w + 256 * k)))
             (n - (w + 256 * k))) as (s3 & H3 & W3); [lia..|].
  exists s3. split; [done|]. replace n with (w + 256 * k + (n - (w + 256 * k))) by lia.
  apply written_trans with s2; [lia..| |].
  - apply written_trans with s1; [lia..|done|]. done.
  - revert W3. apply written_shift; [lia|]. done.
Qed.

(** The chip is idle, its cache enabled. *)
Definition fs_ok s : Prop := dev_busy (fs_dev s) = false /\ fs_cache s = true.

(** Every write leaves the chip idle, the cache enabled and the critical
    section as it was. *)
Lemma spiflash_write_ok s addr buf n :
  0 <= n -> 0 <= addr -> addr + n <= chip_size chip -> fs_ok s ->
  exists s', Driver.spiflash_write chip addr (Some buf) n s = Done (true, s') /\ fs_ok s' /\
    fs_critical s' = fs_critical s /\
    forall x, dev_cell (fs_dev s') x = and_bytes (dev_cell (fs_dev s)) addr buf n x.
Proof.
  intros Hn Ha Hc Hok. unfold Driver.spiflash_write.
  set (s0 := {| fs_dev := fs_dev s; fs_critical := fs_critical s + 1; fs_cache := false |}).
  destruct (spi_write_ok s0 addr buf n Hn Ha Hc) as (s1 & H1 & W1 & Hcr & _).
  do 2 (erewrite bind_Done by reflexivity). cbn [fs_dev fs_critical fs_cache]. fold s0. run H1.
  do 3 (erewrite bind_Done by reflexivity). cbn [fs_dev fs_critical fs_cache].
  eexists. split; [reflexivity|]. destruct (dev_wait (fs_dev s1)) as (Hb & _ & Hcell).
  split; [by split|]. split; [cbn; rewrite Hcr; cbn; lia|]. intros x. cbn. by rewrite Hcell, W1.
Qed.

Lemma read_block_ok s addr n :
  1 <= n < 64 -> 0 <= addr -> addr + n <= 2 ^ 24 -> dev_busy (fs_dev s) = false ->
  read_block addr n s = Done (cells (dev_cell (fs_dev s)) addr n, s).
Proof.
  intros Hn Ha Hae Hb. unfold read_block. erewrite bind_Done by reflexivity.
  destruct (ADDR_fields addr n ltac:(lia) ltac:(lia)) as [E1 E2]. unfold ret. do 2 f_equal.
  pose proof (dev_read (fs_dev s) (Z.lor (Z.land addr 0x00FFFFFF) (u32 (Z.shiftl n 24)))) as H.
  cbn zeta in H. rewrite E1, E2 in H. by apply H.
Qed.

Lemma read_data_loop_ok fuel : forall s addr n,
  n < Z.of_nat fuel -> 0 <= n -> 0 <= addr -> addr + n <= 2 ^ 24 -> dev_busy (fs_dev s) = false ->
  read_data_loop fuel addr n s = Done (cells (dev_cell (fs_dev s)) addr n, s).
Proof.
  induction fuel as [|fuel IH]; intros s addr n Hf Hn Ha Hae Hb; [lia|]. cbn [read_data_loop].
  unfold SPI_READ_MAX_SIZE. case_if; zbool.
  - erewrite bind_Done by (apply read_block_ok; [lia..|done]). rewrite !u32_small by lia.
    erewrite bind_Done by (apply IH; [lia..|done]). unfold ret.
    rewrite <-cells_app by lia. replace (60 + (n - 60)) with n by lia. done.
  - case_if; zbool; [apply read_block_ok; done || lia|]. by rewrite cells_nil by lia.
Qed.

Lemma spiflash_read_past s addr n :
  0 <= n -> 0 <= addr -> chip_size chip < addr + n < 2 ^ 32 -> fs_ok s ->
  Driver.spiflash_read chip addr false n s = Done (if n =? 0 then Some [] else None, s).
Proof.
  intros Hn Ha Hc [Hb Hca]. unfold Driver.spiflash_read. do 2 (erewrite bind_Done by reflexivity).
  unfold Driver.read_data.
  destruct (n =? 0) eqn:E0; case_if; zbool; try lia.
  - do 3 (erewrite bind_Done by reflexivity). unfold ret. cbn. destruct s. cbn in *. subst. do 3 f_equal. lia.
  - rewrite u32_small by lia. rewrite (proj2 (Z.ltb_lt _ _)) by lia. do 3 (erewrite bind_Done by reflexivity).
    unfold ret. cbn. destruct s. cbn in *. subst. do 3 f_equal. lia.
Qed.

Lemma spiflash_read_ok s addr n :
  0 <= n -> 0 <= addr -> addr + n <= chip_size chip -> fs_ok s ->
  Driver.spiflash_read chip addr false n s = Done (Some (cells (dev_cell (fs_dev s)) addr n), s).
Proof.
  intros Hn Ha Hc [Hb Hca]. pose proof (geo_chip _ Hgeo) as [_ Hchip].
  unfold Driver.spiflash_read. do 2 (erewrite bind_Done by reflexivity).
  cbn [fs_dev fs_critical fs_cache].
  set (s0 := {| fs_dev := fs_dev s; fs_critical := fs_critical s + 1; fs_cache := false |}).
  assert (Hr : read_data chip addr n s0 = Done (Some (cells (dev_cell (fs_dev s)) addr n), s0)).
  { unfold read_data. case_if; zbool; [by rewrite cells_nil by lia|].
    rewrite u32_small by lia. case_if; zbool; [lia|].
    by erewrite bind_Done by (apply read_data_loop_ok; [lia..|done]). }
  run Hr. do 2 (erewrite bind_Done by reflexivity). unfold ret. do 3 f_equal.
  destruct s as [d c ca]. cbn in *. subst. f_equal. lia.
Qed.

Lemma spiflash_erase_sector_ok s addr :
  0 <= addr -> addr mod 4096 = 0 -> addr + 4096 <= chip_size chip -> fs_ok s ->
  exists s', Driver.spiflash_erase_sector chip addr s = Done (true, s') /\ fs_ok s' /\
    fs_critical s' = fs_critical s /\
    forall x, dev_cell (fs_dev s') x = erase_bytes (dev_cell (fs_dev s)) addr 4096 x.
Proof.
  intros Ha Hal Hc [Hb Hca]. pose proof (geo_chip _ Hgeo) as [_ Hchip].
  unfold Driver.spiflash_erase_sector. rewrite (geo_sector _ Hgeo), u32_small by lia.
  case_if; zbool; [lia|]. change 0xFFF with (2 ^ 12 - 1). rewrite land_mask by lia.
  change (2 ^ 12) with 4096. rewrite Hal. cbn [Z.eqb negb].
  do 7 (erewrite bind_Done by reflexivity). cbn [fs_dev fs_critical fs_cache].
  eexists. split; [reflexivity|]. destruct (dev_wren (fs_dev s) Hb) as (Hb2 & Hw2 & Hc2).
  edestruct dev_wait as (Hb3 & _ & Hc3). split; [by split|]. split; [cbn; lia|].
  intros x. cbn. rewrite Hc3. assert (E : addr_of (Z.land addr 16777215) = addr).
  { unfold addr_of. change 16777215 with (2 ^ 24 - 1). change 0x00FFFFFF with (2 ^ 24 - 1).
    rewrite !land_mask, Z.mod_mod by lia. apply Z.mod_small. lia. }
  rewrite dev_se; rewrite ?E; try done. unfold erase_bytes. by rewrite Hc2.
Qed.

End Proofs.
End DriverProofs.

(** ** The driver implements the flash interface *)

#[export] Instance driver_flash {D} `{!Device.SpiDevice D} (chip : sdk_flashchip_t)
    : Flash (Driver.flash_state D) := {
  sdk_flashchip := chip;
  flash_cell s := Device.dev_cell (Driver.fs_dev s);
  spiflash_read a n := Driver.spiflash_read chip a false n;
  spiflash_write a buf n := Driver.spiflash_write chip a (Some buf) n;
  spiflash_erase_sector a := Driver.spiflash_erase_sector chip a;
}.

#[export] Program Instance driver_flash_laws {D} `{!Device.SpiDevice D, !Device.SpiDeviceLaws D}
    (chip : sdk_flashchip_t) (Hgeo : chip_geometry chip)
    : @FlashLaws (Driver.flash_state D) (driver_flash chip) := {
  flash_ok := DriverProofs.fs_ok;
  flash_geometry := Hgeo;
}.
Next Obligation. intros. apply Device.dev_cell_byte. Qed.
Next Obligation. intros. by apply DriverProofs.spiflash_read_ok. Qed.
Next Obligation. intros. by apply DriverProofs.spiflash_read_past. Qed.
Next Obligation.
  intros D ? ? chip Hgeo f a buf n ? ? ? ?.
  destruct (DriverProofs.spiflash_write_ok chip Hgeo f a buf n) as (s' & ? & ? & ? & ?); eauto.
Qed.
Next Obligation.
  intros D ? ? chip Hgeo f a ? ? ? ?.
  destruct (DriverProofs.spiflash_erase_sector_ok chip Hgeo f a) as (s' & ? & ? & ? & ?); eauto.
Qed.

(** ** A concrete NOR flash

    Used to run the development on concrete inputs. *)

Module Nor.

Record nor := { nor_mem : Z -> Z; nor_busy : bool; nor_wel : bool }.

#[export] Instance nor_device : Device.SpiDevice nor := {
  dev_cell d x := u8 (nor_mem d x);
  dev_busy := nor_busy;
  dev_wel := nor_wel;
  Wait_SPI_Idle d := {| nor_mem := nor_mem d; nor_busy := false; nor_wel := nor_wel d |};
  SPI_write_enable d :=
    if nor_busy d then d else {| nor_mem := nor_mem d; nor_busy := false; nor_wel := true |};
  cmd_PP ADDR W d :=
    let a := Device.addr_of ADDR in let n := Device.count_of ADDR in
    if nor_busy d || negb (nor_wel d) || (256 <? a mod 256 + n) || (64 <? n) then d
    else {| nor_mem := and_bytes (fun x => u8 (nor_mem d x)) a (as_mem W) n;
            nor_busy := true; nor_wel := false |};
  cmd_READ ADDR d :=
    cells (fun x => u8 (nor_mem d x)) (Device.addr_of ADDR) (Device.count_of ADDR);
  cmd_SE ADDR d :=
    if nor_busy d || negb (nor_wel d) then d
    else {| nor_mem := erase_bytes (fun x => u8 (nor_mem d x)) (Device.addr_of ADDR) 4096;
            nor_busy := true; nor_wel := false |};
}.

Lemma u8_idemp_byte x : byteP x -> u8 x = x.
Proof. apply u8_small. Qed.

#[export] Instance nor_laws : Device.SpiDeviceLaws nor.
Proof.
split.
- intros. apply u8_range.
- done.
- intros d Hb. cbn in *. by rewrite Hb.
- cbn zeta. intros d ADDR W Hb Hw Hn Hl Hp x. cbn in *. rewrite Hb, Hw. cbn.
  case_if; [zbool; lia|]. cbn. apply u8_idemp_byte. unfold and_bytes.
  case_if; [apply land_byte|]; apply u8_range.
- cbn zeta. intros d ADDR Hb Hn. cbn in *. apply take_ge. rewrite length_cells. lia.
- cbn zeta. intros d ADDR Hb Hw Hal x. cbn in *. rewrite Hb, Hw. cbn. apply u8_idemp_byte.
  unfold erase_bytes. case_if; [unfold byteP; lia|apply u8_range].
Qed.

(** The chip of [open_esplibs/libmain/spi_flash.c], blank. *)
Definition chip4M : sdk_flashchip_t := {|
  device_id := 0x001640ef; chip_size := 4 * 1024 * 1024; block_size := 65536;
  sector_size := 4096; page_size := 256; status_mask := 0x0000ffff |}.

Definition blank : Driver.flash_state nor := {|
  Driver.fs_dev := {| nor_mem := fun _ => 255; nor_busy := false; nor_wel := false |};
  Driver.fs_critical := 0; Driver.fs_cache := true |}.

Lemma chip4M_geometry : chip_geometry chip4M.
Proof. split; cbn; lia. Qed.

#[export] Instance nor_flash : Flash (Driver.flash_state nor) := driver_flash chip4M.
#[export] Instance nor_flash_laws : FlashLaws (Driver.flash_state nor) :=
  driver_flash_laws chip4M chip4M_geometry.

End Nor.

(** ** Properties *)

Section Properties.
Context {D : Type} `{HD : Device.SpiDevice D} `{!Device.SpiDeviceLaws D}.
Variable chip : sdk_flashchip_t.
Hypothesis Hgeo : chip_geometry chip.
Implicit Types s : Driver.flash_state D.

(** C4. For every range inside the chip, however it lies across pages,
    [spiflash_write] reports success and programs exactly that range: each
    byte of the array becomes its old value and-ed with the data, no other
    byte changes, and the chip is left idle with the cache enabled and the
    critical section closed. *)
Theorem spiflash_write_programs s addr buf n :
  0 <= n -> 0 <= addr -> addr + n <= chip_size chip -> DriverProofs.fs_ok s ->
  exists s', Driver.spiflash_write chip addr (Some buf) n s = Done (true, s') /\
    DriverProofs.fs_ok s' /\ Driver.fs_critical s' = Driver.fs_critical s /\
    forall x, Device.dev_cell (Driver.fs_dev s') x =
      if (addr <=? x) && (x <? addr + n)
      then Z.land (Device.dev_cell (Driver.fs_dev s) x) (buf (x - addr))
      else Device.dev_cell (Driver.fs_dev s) x.
Proof. apply DriverProofs.spiflash_write_ok, Hgeo. Qed.

(** Round trip: after a sector erase, data written anywhere inside the
    sector is what [spiflash_read] returns from there. *)
Theorem spiflash_erase_write_read s sec addr bs :
  DriverProofs.fs_ok s -> 0 <= sec -> sec mod 4096 = 0 -> sec + 4096 <= chip_size chip ->
  sec <= addr -> addr + Z.of_nat (length bs) <= sec + 4096 -> Forall byteP bs ->
  exists s1 s2,
    Driver.spiflash_erase_sector chip sec s = Done (true, s1) /\
    Driver.spiflash_write chip addr (Some (as_mem bs)) (Z.of_nat (length bs)) s1 = Done (true, s2) /\
    Driver.spiflash_read chip addr false (Z.of_nat (length bs)) s2 = Done (Some bs, s2).
Proof.
  intros Hok Hs0 Hal Hs1 Ha1 Ha2 Hbs.
  destruct (DriverProofs.spiflash_erase_sector_ok chip Hgeo s sec) as (s1 & H1 & Hok1 & _ & C1); auto.
  destruct (DriverProofs.spiflash_write_ok chip Hgeo s1 addr (as_mem bs) (Z.of_nat (length bs)))
    as (s2 & H2 & Hok2 & _ & C2); [lia..|done|].
  exists s1, s2. do 2 (split; [done|]).
  rewrite (DriverProofs.spiflash_read_ok chip Hgeo) by (done || lia). do 3 f_equal.
  apply cells_eq_as_mem. intros x Hx. rewrite C2. unfold and_bytes.
  rewrite (proj2 (andb_true_iff _ _)) by (split; lia). rewrite C1. unfold erase_bytes.
  rewrite (proj2 (andb_true_iff _ _)) by (split; lia). by apply land_255_l, as_mem_byte.
Qed.

(** A request past the end of the chip is refused by all three calls
    without touching the array, as long as address plus size does not
    overflow 32 bits. *)
Theorem spiflash_out_of_range s addr buf n :
  0 <= addr -> 0 < n -> chip_size chip < addr + n < 2 ^ 32 -> DriverProofs.fs_ok s ->
  (exists s', Driver.spiflash_write chip addr (Some buf) n s = Done (false, s') /\
     DriverProofs.fs_ok s' /\
     forall x, Device.dev_cell (Driver.fs_dev s') x = Device.dev_cell (Driver.fs_dev s) x) /\
  Driver.spiflash_read chip addr false n s = Done (None, s) /\
  (addr + 4096 < 2 ^ 32 -> n <= 4096 ->
   Driver.spiflash_erase_sector chip addr s = Done (false, s)).
Proof.
  intros Ha Hn Hc [Hb Hca]. split; [|split].
  - unfold Driver.spiflash_write. do 2 (erewrite bind_Done by reflexivity).
    unfold Driver.spi_write. rewrite u32_small by lia.
    rewrite (proj2 (Z.ltb_lt _ _)) by lia. do 4 (erewrite bind_Done by reflexivity).
    eexists. split; [reflexivity|]. cbn.
    match goal with |- context [Device.Wait_SPI_Idle ?d] => destruct (Device.dev_wait d) as (? & _ & ?) end.
    by repeat split.
  - rewrite DriverProofs.spiflash_read_past by (done || lia). by rewrite (proj2 (Z.eqb_neq n 0)) by lia.
  - intros ? ?. unfold Driver.spiflash_erase_sector. rewrite (geo_sector _ Hgeo), u32_small by lia.
    by rewrite (proj2 (Z.ltb_lt _ _)) by lia.
Qed.

End Properties.

Import Nor.

Lemma spiflash_write_programs_witness :
  exists s', Driver.spiflash_write Nor.chip4M 250 (Some (as_mem [1; 2; 3; 4; 5; 6; 7; 8])) 8 Nor.blank
    = Done (true, s') /\ Device.dev_cell (Driver.fs_dev s') 257 = 8.
Proof.
  destruct (spiflash_write_programs Nor.chip4M Nor.chip4M_geometry Nor.blank 250
    (as_mem [1; 2; 3; 4; 5; 6; 7; 8]) 8) as (s' & H & _ & _ & Hc);
    [lia|lia|cbn; lia|split; reflexivity|].
  exists s'. split; [exact H|]. rewrite Hc. vm_compute. reflexivity.
Defined.

Lemma spiflash_erase_write_read_witness :
  exists s1 s2,
    Driver.spiflash_erase_sector Nor.chip4M 8192 Nor.blank = Done (true, s1) /\
    Driver.spiflash_write Nor.chip4M 8440 (Some (as_mem (replicate 100 7))) 100 s1 = Done (true, s2) /\
    Driver.spiflash_read Nor.chip4M 8440 false 100 s2 = Done (Some (replicate 100 7), s2).
Proof.
  destruct (spiflash_erase_write_read Nor.chip4M Nor.chip4M_geometry Nor.blank 8192 8440
    (replicate 100 7)) as (s1 & s2 & H1 & H2 & H3);
    [split; reflexivity|lia|reflexivity|cbn; lia|lia|vm_compute; congruence| |].
  - apply Forall_replicate. unfold byteP. lia.
  - exists s1, s2. split; [exact H1|split; [exact H2|exact H3]].
Defined.

Lemma spiflash_out_of_range_witness :
  Driver.spiflash_read Nor.chip4M (4 * 1024 * 1024 - 4) false 8 Nor.blank = Done (None, Nor.blank).
Proof.
  apply (spiflash_out_of_range Nor.chip4M Nor.chip4M_geometry Nor.blank (4 * 1024 * 1024 - 4) (as_mem []) 8);
    [lia|lia|cbn; lia|split; reflexivity].
Defined.
