(* ===== verification/Sysparam.v ===== *)
(** * The parameter store: [core/sysparam.c]

    A log-structured key/value store in two flash regions.  This file holds
    the data and the operations of the source, over any [Flash]; the other
    [Sysparam] files have the log on flash, what each routine does to it, the
    contract of the public functions and their defects. *)

From S2P Require Import Prelude CStrings Flash.

(** ** Constants and data *)

Definition SYSPARAM_MAGIC : Z := 0x70524f45.
Definition DEFAULT_ITER_BUF_SIZE : Z := 64.
Definition SCAN_BUFFER_SIZE : Z := 8.
Definition BOUNCE_BUFFER_WORDS : Z := 3.
Definition BOUNCE_BUFFER_SIZE : Z := BOUNCE_BUFFER_WORDS * 4.
Definition REGION_HEADER_SIZE : Z := 8.
Definition ENTRY_HEADER_SIZE : Z := 4.
Definition MAX_KEY_LEN : Z := 0xffff.
Definition MAX_VALUE_LEN : Z := 0xffff.
Definition MAX_KEY_ID : Z := 0x0ffe.
Definition REGION_FLAG_SECOND : Z := 0x8000.
Definition REGION_FLAG_ACTIVE : Z := 0x4000.
Definition REGION_MASK_SIZE : Z := 0x0fff.
Definition ENTRY_FLAG_ALIVE : Z := 0x8000.
Definition ENTRY_FLAG_INVALID : Z := 0x4000.
Definition ENTRY_FLAG_VALUE : Z := 0x2000.
Definition ENTRY_FLAG_BINARY : Z := 0x1000.
Definition ENTRY_MASK_ID : Z := 0xfff.
Definition ENTRY_ID_END : Z := 0xfff.
Definition ENTRY_ID_ANY : Z := 0x1000.

(** [ENTRY_SIZE(payload_len)] *)
Definition ENTRY_SIZE (payload_len : Z) : Z := ENTRY_HEADER_SIZE + payload_len.

(** Status codes ([core/include/sysparam.h]). *)
Inductive sysparam_status_t :=
| SYSPARAM_OK
| SYSPARAM_NOTFOUND
| SYSPARAM_PARSEFAILED
| SYSPARAM_ERR_NOINIT
| SYSPARAM_ERR_BADVALUE
| SYSPARAM_ERR_FULL
| SYSPARAM_ERR_IO
| SYSPARAM_ERR_CORRUPT
| SYSPARAM_ERR_NOMEM.

Definition status_code (st : sysparam_status_t) : Z :=
  match st with
  | SYSPARAM_OK => 0
  | SYSPARAM_NOTFOUND => 1
  | SYSPARAM_PARSEFAILED => 2
  | SYSPARAM_ERR_NOINIT => -1
  | SYSPARAM_ERR_BADVALUE => -2
  | SYSPARAM_ERR_FULL => -3
  | SYSPARAM_ERR_IO => -4
  | SYSPARAM_ERR_CORRUPT => -5
  | SYSPARAM_ERR_NOMEM => -6
  end.

(** [status < 0] *)
Definition is_err (st : sysparam_status_t) : bool := status_code st <? 0.
(** [status == SYSPARAM_OK] *)
Definition is_ok (st : sysparam_status_t) : bool := status_code st =? 0.

#[export] Instance status_eq_dec : EqDecision sysparam_status_t.
Proof. solve_decision. Defined.

(** [struct region_header] *)
Record region_header := { magic : Z; flags_size : Z; reserved : Z }.

(** [struct sysparam_context], its [entry] field flattened. *)
Record sysparam_context := {
  c_addr : Z;
  c_idflags : Z;
  c_len : Z;
  c_unused_keys : Z;
  c_compactable : Z;
  c_max_key_id : Z;
}.

(** [sysparam_iter_t]: the buffer [key] points to, and the offset of [value] in it. *)
Record sysparam_iter_t := {
  it_buf : list Z;
  it_value : Z;
  it_key_len : Z;
  it_value_len : Z;
  it_binary : bool;
  it_bufsize : Z;
  it_ctx : sysparam_context;
}.

(** [_sysparam_info]; [sem] is [None] for a null handle, otherwise whether
    the mutex is taken. *)
Record sysparam_info := {
  cur_base : Z;
  alt_base : Z;
  end_addr : Z;
  region_size : Z;
  force_compact : bool;
  sem : option bool;
}.

(** The state the routines act on: the flash, [_sysparam_info], and the heap:
    [w_alloc] says for the coming allocations whether they succeed (they do
    when the list is used up), [w_live] counts the live blocks. *)
Record world (F : Type) := {
  w_flash : F;
  w_info : sysparam_info;
  w_alloc : list bool;
  w_live : Z;
}.
Arguments w_flash {F} _.
Arguments w_info {F} _.
Arguments w_alloc {F} _.
Arguments w_live {F} _.
Arguments Build_world {F} _ _ _ _.

Definition zero_info : sysparam_info := {|
  cur_base := 0; alt_base := 0; end_addr := 0; region_size := 0;
  force_compact := false; sem := None |}.

Definition set_force_compact (b : bool) (i : sysparam_info) : sysparam_info := {|
  cur_base := cur_base i; alt_base := alt_base i; end_addr := end_addr i;
  region_size := region_size i; force_compact := b; sem := sem i |}.

Definition set_end_addr (a : Z) (i : sysparam_info) : sysparam_info := {|
  cur_base := cur_base i; alt_base := alt_base i; end_addr := a;
  region_size := region_size i; force_compact := force_compact i; sem := sem i |}.

Definition set_sem (s : option bool) (i : sysparam_info) : sysparam_info := {|
  cur_base := cur_base i; alt_base := alt_base i; end_addr := end_addr i;
  region_size := region_size i; force_compact := force_compact i; sem := s |}.

Definition set_bases (cur alt : Z) (i : sysparam_info) : sysparam_info := {|
  cur_base := cur; alt_base := alt; end_addr := end_addr i;
  region_size := region_size i; force_compact := force_compact i; sem := sem i |}.

Definition set_region_size (n : Z) (i : sysparam_info) : sysparam_info := {|
  cur_base := cur_base i; alt_base := alt_base i; end_addr := end_addr i;
  region_size := n; force_compact := force_compact i; sem := sem i |}.

(** [memset(ctx, 0, sizeof( *ctx))] with the address then set. *)
Definition zero_context (addr : Z) : sysparam_context := {|
  c_addr := addr; c_idflags := 0; c_len := 0; c_unused_keys := 0;
  c_compactable := 0; c_max_key_id := 0 |}.

Definition set_addr (a : Z) (c : sysparam_context) : sysparam_context := {|
  c_addr := a; c_idflags := c_idflags c; c_len := c_len c;
  c_unused_keys := c_unused_keys c; c_compactable := c_compactable c;
  c_max_key_id := c_max_key_id c |}.

Definition set_entry (idflags len : Z) (c : sysparam_context) : sysparam_context := {|
  c_addr := c_addr c; c_idflags := idflags; c_len := len;
  c_unused_keys := c_unused_keys c; c_compactable := c_compactable c;
  c_max_key_id := c_max_key_id c |}.

Definition set_max_key_id (n : Z) (c : sysparam_context) : sysparam_context := {|
  c_addr := c_addr c; c_idflags := c_idflags c; c_len := c_len c;
  c_unused_keys := c_unused_keys c; c_compactable := c_compactable c;
  c_max_key_id := n |}.

Definition add_unused_keys (d : Z) (c : sysparam_context) : sysparam_context := {|
  c_addr := c_addr c; c_idflags := c_idflags c; c_len := c_len c;
  c_unused_keys := c_unused_keys c + d; c_compactable := c_compactable c;
  c_max_key_id := c_max_key_id c |}.

Definition add_compactable (d : Z) (c : sysparam_context) : sysparam_context := {|
  c_addr := c_addr c; c_idflags := c_idflags c; c_len := c_len c;
  c_unused_keys := c_unused_keys c; c_compactable := u32 (c_compactable c + d);
  c_max_key_id := c_max_key_id c |}.

(** The on-flash encodings of the two packed headers. *)
Definition enc_region_header (h : region_header) : list Z :=
  le_bytes 4 (magic h) ++ le_bytes 2 (flags_size h) ++ le_bytes 2 (reserved h).

Definition dec_region_header (bs : list Z) : region_header := {|
  magic := le_val (sub_bytes bs 0 4);
  flags_size := le_val (sub_bytes bs 4 2);
  reserved := le_val (sub_bytes bs 6 2) |}.

Definition enc_entry_header (idflags len : Z) : list Z := le_bytes 2 idflags ++ le_bytes 2 len.

Definition dec_entry_header (bs : list Z) : Z * Z :=
  (le_val (sub_bytes bs 0 2), le_val (sub_bytes bs 2 2)).

(** [memcmp(a, b, n) == 0] on buffers of the same length. *)
Definition bytes_eqb (a b : list Z) : bool := bool_decide (a = b).


(** ** Operations *)

Section Sysparam.
Context {F : Type} `{!Flash F}.

Abbreviation W := (world F).
Abbreviation MW := (M W).

Definition flash_op {A} (m : M F A) : MW A := fun w =>
  match m (w_flash w) with
  | Done (a, f) => Done (a, Build_world f (w_info w) (w_alloc w) (w_live w))
  | OutOfFuel => OutOfFuel
  | Undefined => Undefined
  end.

Definition get_info : MW sysparam_info := fun w => Done (w_info w, w).

Definition mod_info (f : sysparam_info -> sysparam_info) : MW unit :=
  modify (fun w => Build_world (w_flash w) (f (w_info w)) (w_alloc w) (w_live w)).

(** [malloc]: did the allocation succeed? *)
Definition malloc : MW bool := fun w =>
  match w_alloc w with
  | false :: l => Done (false, Build_world (w_flash w) (w_info w) l (w_live w))
  | _ => Done (true, Build_world (w_flash w) (w_info w) (tail (w_alloc w)) (w_live w + 1))
  end.

(** [realloc] of a live block. *)
Definition realloc : MW bool := fun w =>
  match w_alloc w with
  | false :: l => Done (false, Build_world (w_flash w) (w_info w) l (w_live w))
  | _ => Done (true, Build_world (w_flash w) (w_info w) (tail (w_alloc w)) (w_live w))
  end.

Definition free : MW unit :=
  modify (fun w => Build_world (w_flash w) (w_info w) (w_alloc w) (w_live w - 1)).

(** [xSemaphoreTake(sem, portMAX_DELAY)]: a null handle fails the kernel's
    assertion, a taken mutex is waited for without end. *)
Definition xSemaphoreTake : MW unit := fun w =>
  match sem (w_info w) with
  | Some false => mod_info (set_sem (Some true)) w
  | _ => Undefined
  end.

Definition xSemaphoreGive : MW unit := fun w =>
  match sem (w_info w) with
  | Some _ => mod_info (set_sem (Some false)) w
  | None => Undefined
  end.

(** *** Internal routines *)

(** Loop of [_write_and_verify] from index [i] on. *)
Fixpoint write_and_verify_loop (fuel : nat) (addr : Z) (data : list Z) (i : Z) : MW sysparam_status_t :=
  match fuel with
  | O => out_of_fuel
  | S fuel =>
    let data_size := Z.of_nat (length data) in
    if i <? data_size then
      let count := Z.min (data_size - i) BOUNCE_BUFFER_SIZE in
      let bounce := sub_bytes data i count in
      let! ok := flash_op (spiflash_write (u32 (addr + i)) (as_mem bounce) count) in
      if negb ok then ret SYSPARAM_ERR_IO
      else
        let! r := flash_op (spiflash_read (u32 (addr + i)) count) in
        match r with
        | None => ret SYSPARAM_ERR_IO
        | Some bounce =>
          if negb (bytes_eqb (sub_bytes data i count) bounce) then ret SYSPARAM_ERR_IO
          else write_and_verify_loop fuel addr data (i + BOUNCE_BUFFER_SIZE)
        end
    else ret SYSPARAM_OK
  end.

Definition _write_and_verify (addr : Z) (data : list Z) : MW sysparam_status_t :=
  write_and_verify_loop (S (length data)) addr data 0.

(** Sectors [i], [i + 1], ... ([n] of them). *)
Fixpoint format_loop (n : nat) (addr i : Z) : MW sysparam_status_t :=
  match n with
  | O => ret SYSPARAM_OK
  | S n =>
    let! ok := flash_op (spiflash_erase_sector (u32 (addr + i * SPI_FLASH_SECTOR_SIZE))) in
    if negb ok then ret SYSPARAM_ERR_IO else format_loop n addr (i + 1)
  end.

Definition _format_region (addr num_sectors : Z) : MW sysparam_status_t :=
  format_loop (Z.to_nat num_sectors) addr 0.

(** The header [_write_region_header] builds. *)
Definition region_header_for (addr other : Z) (active : bool) : region_header :=
  let flags :=
    if addr <? other then
      Z.land (s16 ((other - addr) / sector_size sdk_flashchip)) REGION_MASK_SIZE
    else
      Z.lor (Z.land (s16 ((addr - other) / sector_size sdk_flashchip)) REGION_MASK_SIZE)
            REGION_FLAG_SECOND in
  let flags := if active then Z.lor flags REGION_FLAG_ACTIVE else flags in
  {| magic := SYSPARAM_MAGIC; flags_size := flags; reserved := 0 |}.

Definition _write_region_header (addr other : Z) (active : bool) : MW sysparam_status_t :=
  let header := region_header_for addr other active in
  let! status := _write_and_verify addr (enc_region_header header) in
  if negb (is_ok status) then
    do! _write_and_verify addr (replicate 8 0) then
    ret SYSPARAM_ERR_IO
  else ret SYSPARAM_OK.

Definition _init_context : MW sysparam_context :=
  let! i := get_info in
  ret (zero_context (cur_base i)).

Definition init_write_context : MW (sysparam_status_t * sysparam_context) :=
  let! i := get_info in
  let ctx := zero_context (end_addr i) in
  let! r := flash_op (spiflash_read (c_addr ctx) ENTRY_HEADER_SIZE) in
  match r with
  | None => ret (SYSPARAM_ERR_IO, ctx)
  | Some bs =>
    let '(idflags, len) := dec_entry_header bs in
    ret (SYSPARAM_OK, set_entry idflags len ctx)
  end.

(** What [_find_entry] returns once its loop is left by [break]. *)
Definition find_entry_break (ctx : sysparam_context) (match_id : Z) : sysparam_status_t * sysparam_context :=
  if match_id =? ENTRY_ID_END then (SYSPARAM_OK, ctx)
  else (SYSPARAM_NOTFOUND, set_entry 0 0 ctx).

(** Bookkeeping of [_find_entry] for the entry whose header was just read,
    and whether the entry is the one looked for. *)
Definition visit_entry (ctx : sysparam_context) (match_id : Z) (find_value : bool)
    : sysparam_context * bool :=
  let idflags := c_idflags ctx in
  let id := Z.land idflags ENTRY_MASK_ID in
  if Z.land idflags (Z.lor ENTRY_FLAG_ALIVE ENTRY_FLAG_INVALID) =? ENTRY_FLAG_ALIVE then
    if Z.land idflags ENTRY_FLAG_VALUE =? 0 then
      (add_unused_keys 1 (set_max_key_id id ctx),
       negb find_value && ((id =? match_id) || (match_id =? ENTRY_ID_ANY)))
    else
      (add_unused_keys (-1) ctx,
       find_value && ((id =? match_id) || (match_id =? ENTRY_ID_ANY)))
  else (add_compactable (ENTRY_SIZE (c_len ctx)) ctx, false).

Fixpoint find_entry_loop (fuel : nat) (ctx : sysparam_context) (match_id : Z) (find_value : bool)
    : MW (sysparam_status_t * sysparam_context) :=
  match fuel with
  | O => out_of_fuel
  | S fuel =>
    let! i := get_info in
    let top := u32 (cur_base i + region_size i) in
    let next_addr := u32 (c_addr ctx + ENTRY_SIZE (c_len ctx)) in
    let at_start := c_addr ctx =? cur_base i in
    if negb at_start && (top <? next_addr) then
      do! mod_info (set_force_compact true) then
      ret (find_entry_break ctx match_id)
    else
      let ctx := set_addr (if at_start then u32 (c_addr ctx + REGION_HEADER_SIZE) else next_addr) ctx in
      if negb at_start && (c_addr ctx =? top) then ret (find_entry_break ctx match_id)
      else
        let! r := flash_op (spiflash_read (c_addr ctx) ENTRY_HEADER_SIZE) in
        match r with
        | None => ret (SYSPARAM_ERR_IO, ctx)
        | Some bs =>
          let '(idflags, len) := dec_entry_header bs in
          let ctx := set_entry idflags len ctx in
          if idflags =? 0xffff then ret (find_entry_break ctx match_id)
          else
            let '(ctx, found) := visit_entry ctx match_id find_value in
            if found then ret (SYSPARAM_OK, ctx)
            else find_entry_loop fuel ctx match_id find_value
        end
  end.

(** Iteration bound: every entry takes at least four bytes of the region. *)
Definition scan_fuel (i : sysparam_info) : nat := Z.to_nat (region_size i / 4 + 4).

Definition _find_entry (ctx : sysparam_context) (match_id : Z) (find_value : bool)
    : MW (sysparam_status_t * sysparam_context) :=
  let! i := get_info in
  find_entry_loop (scan_fuel i) ctx match_id find_value.

(** The bytes stored to the caller's buffer, empty when the read failed. *)
Definition _read_payload (ctx : sysparam_context) (buffer_size : Z) : MW (sysparam_status_t * list Z) :=
  let addr := u32 (c_addr ctx + ENTRY_HEADER_SIZE) in
  let! r := flash_op (spiflash_read addr buffer_size) in
  match r with
  | None => ret (SYSPARAM_ERR_IO, [])
  | Some bs => ret (SYSPARAM_OK, bs)
  end.

Fixpoint compare_loop (fuel : nat) (addr : Z) (value : list Z) (size i : Z) : MW sysparam_status_t :=
  match fuel with
  | O => out_of_fuel
  | S fuel =>
    if i <? size then
      let len := Z.min (size - i) BOUNCE_BUFFER_SIZE in
      let! r := flash_op (spiflash_read (u32 (addr + i)) len) in
      match r with
      | None => ret SYSPARAM_ERR_IO
      | Some bounce =>
        if negb (bytes_eqb (sub_bytes value i len) bounce) then ret SYSPARAM_NOTFOUND
        else compare_loop fuel addr value size (i + BOUNCE_BUFFER_SIZE)
      end
    else ret SYSPARAM_OK
  end.

Definition _compare_payload (ctx : sysparam_context) (value : list Z) (size : Z) : MW sysparam_status_t :=
  if negb (c_len ctx =? size) then ret SYSPARAM_NOTFOUND
  else compare_loop (S (Z.to_nat size)) (u32 (c_addr ctx + ENTRY_HEADER_SIZE)) value size 0.

(** [key] is [None] for a null pointer: any key. *)
Fixpoint find_key_loop (fuel : nat) (ctx : sysparam_context) (key : option (list Z)) (key_len : Z)
    : MW (sysparam_status_t * sysparam_context) :=
  match fuel with
  | O => out_of_fuel
  | S fuel =>
    let! (status, ctx) := _find_entry ctx ENTRY_ID_ANY false in
    if negb (is_ok status) then ret (status, ctx)
    else
      match key with
      | None => ret (SYSPARAM_OK, ctx)
      | Some k =>
        if c_len ctx =? key_len then
          let! status := _compare_payload ctx k key_len in
          match status with
          | SYSPARAM_OK => ret (SYSPARAM_OK, ctx)
          | SYSPARAM_NOTFOUND => find_key_loop fuel ctx key key_len
          | _ => ret (status, ctx)
          end
        else find_key_loop fuel ctx key key_len
      end
  end.

Definition _find_key (ctx : sysparam_context) (key : option (list Z)) (key_len : Z)
    : MW (sysparam_status_t * sysparam_context) :=
  let! i := get_info in
  find_key_loop (scan_fuel i) ctx key key_len.

Definition _find_value (ctx : sysparam_context) (id_field : Z) : MW (sysparam_status_t * sysparam_context) :=
  _find_entry ctx (Z.land id_field ENTRY_MASK_ID) true.

(** [if (end_addr == addr) end_addr += n] *)
Definition bump_end_addr (addr n : Z) : MW unit :=
  mod_info (fun i => if end_addr i =? addr then set_end_addr (u32 (end_addr i + n)) i else i).

Definition _write_entry (addr id : Z) (payload : list Z) (len : Z) : MW sysparam_status_t :=
  let idflags := Z.lor (Z.lor id ENTRY_FLAG_ALIVE) ENTRY_FLAG_INVALID in
  let! status := _write_and_verify addr (enc_entry_header idflags len) in
  match status with
  | SYSPARAM_ERR_IO =>
    let! status := _write_and_verify addr (replicate 4 0) in
    if negb (is_ok status) then ret status
    else
      do! bump_end_addr addr ENTRY_HEADER_SIZE then
      ret SYSPARAM_ERR_IO
  | _ =>
    if negb (is_ok status) then ret status
    else
      do! bump_end_addr addr (ENTRY_SIZE len) then
      let! status := _write_and_verify (u32 (addr + ENTRY_HEADER_SIZE)) (take (Z.to_nat len) payload) in
      if negb (is_ok status) then ret status
      else _write_and_verify addr (enc_entry_header (Z.ldiff idflags ENTRY_FLAG_INVALID) len)
  end.

Definition _delete_entry (addr : Z) : MW sysparam_status_t :=
  let! r := flash_op (spiflash_read addr ENTRY_HEADER_SIZE) in
  match r with
  | None => ret SYSPARAM_ERR_IO
  | Some bs =>
    let '(idflags, len) := dec_entry_header bs in
    _write_and_verify addr (enc_entry_header (Z.ldiff idflags ENTRY_FLAG_ALIVE) len)
  end.

(** *** Iteration *)

(** [sysparam_iter_t] as [sysparam_iter_start] fills it; the buffer's
    contents are not yet meaningful. *)
Definition fresh_iter (ctx : sysparam_context) : sysparam_iter_t := {|
  it_buf := replicate (Z.to_nat DEFAULT_ITER_BUF_SIZE) 0; it_value := 0;
  it_key_len := 0; it_value_len := 0; it_binary := false;
  it_bufsize := DEFAULT_ITER_BUF_SIZE; it_ctx := ctx |}.

Definition set_it_ctx (ctx : sysparam_context) (it : sysparam_iter_t) : sysparam_iter_t := {|
  it_buf := it_buf it; it_value := it_value it; it_key_len := it_key_len it;
  it_value_len := it_value_len it; it_binary := it_binary it;
  it_bufsize := it_bufsize it; it_ctx := ctx |}.

(** [None] for the iterator when the call failed. *)
Definition sysparam_iter_start : MW (sysparam_status_t * option sysparam_iter_t) :=
  let! i := get_info in
  if cur_base i =? 0 then ret (SYSPARAM_ERR_NOINIT, None)
  else
    let! ok := malloc in
    if negb ok then ret (SYSPARAM_ERR_NOMEM, None)
    else
      let! ok := malloc in
      if negb ok then
        do! free then
        ret (SYSPARAM_ERR_NOMEM, None)
      else
        let! ctx := _init_context in
        ret (SYSPARAM_OK, Some (fresh_iter ctx)).

(** The buffer, grown to [required_len] if it is too small; [None] when
    [realloc] fails. *)
Definition grow_buffer (it : sysparam_iter_t) (required_len : Z) : MW (option (list Z * Z)) :=
  if it_bufsize it <? required_len then
    let! ok := realloc in
    if negb ok then ret None
    else ret (Some (it_buf it ++ replicate (Z.to_nat (required_len - it_bufsize it)) 0, required_len))
  else ret (Some (it_buf it, it_bufsize it)).

(** The part of [sysparam_iter_next] after a key and its value were found. *)
Definition iter_fetch (it : sysparam_iter_t) (value_ctx : sysparam_context)
    : MW (sysparam_status_t * sysparam_iter_t) :=
  let ctx := it_ctx it in
  let key_space := c_len ctx + 1 in
  let required_len := key_space + c_len value_ctx + 1 in
  let! grown := grow_buffer it required_len in
  match grown with
  | None => ret (SYSPARAM_ERR_NOMEM, it)
  | Some (_, bufsize) =>
    let! (status, buf) := _read_payload ctx bufsize in
    if is_err status then ret (status, it)
    else
      match buf_set buf (c_len ctx) 0 with
      | None => undefined
      | Some buf =>
        let! (status, tl) := _read_payload value_ctx (u32 (bufsize - key_space)) in
        if is_err status then ret (status, it)
        else
          match buf_set (take (Z.to_nat key_space) buf ++ tl) (key_space + c_len value_ctx) 0 with
          | None => undefined
          | Some buf =>
            ret (SYSPARAM_OK, {|
              it_buf := buf; it_value := key_space; it_key_len := c_len ctx;
              it_value_len := c_len value_ctx;
              it_binary := negb (Z.land (c_idflags value_ctx) ENTRY_FLAG_BINARY =? 0);
              it_bufsize := bufsize; it_ctx := ctx |})
          end
      end
  end.

Fixpoint iter_next_loop (fuel : nat) (it : sysparam_iter_t) : MW (sysparam_status_t * sysparam_iter_t) :=
  match fuel with
  | O => out_of_fuel
  | S fuel =>
    let! (status, ctx) := _find_key (it_ctx it) None 0 in
    let it := set_it_ctx ctx it in
    if negb (is_ok status) then ret (status, it)
    else
      let! (status, value_ctx) := _find_value ctx (c_idflags ctx) in
      if is_err status then ret (status, it)
      else if bool_decide (status = SYSPARAM_NOTFOUND) then iter_next_loop fuel it
      else iter_fetch it value_ctx
  end.

Definition sysparam_iter_next (it : sysparam_iter_t) : MW (sysparam_status_t * sysparam_iter_t) :=
  let! i := get_info in
  iter_next_loop (scan_fuel i) it.

(** Frees the key buffer and the context (both allocated). *)
Definition sysparam_iter_end : MW unit :=
  do! free then free.

(** The key and the value an iterator holds. *)
Definition iter_key (it : sysparam_iter_t) : list Z := sub_bytes (it_buf it) 0 (it_key_len it).
Definition iter_value (it : sysparam_iter_t) : list Z := sub_bytes (it_buf it) (it_value it) (it_value_len it).

(** *** Compaction *)

(** The copy loop of [_compact_params]; [key_id] is [None] for a null pointer. *)
Fixpoint compact_loop (fuel : nat) (it : sysparam_iter_t) (addr current_key_id : Z) (key_id : option Z)
    : MW (sysparam_status_t * (Z * Z * option Z)) :=
  match fuel with
  | O => out_of_fuel
  | S fuel =>
    let! (status, it) := sysparam_iter_next it in
    if negb (is_ok status) then ret (status, (addr, current_key_id, key_id))
    else
      let current_key_id := u16 (current_key_id + 1) in
      let! status := _write_entry addr current_key_id (iter_key it) (u16 (it_key_len it)) in
      if is_err status then ret (status, (addr, current_key_id, key_id))
      else
        let addr := u32 (addr + ENTRY_SIZE (it_key_len it)) in
        if match key_id with
           | Some k => Z.land (c_idflags (it_ctx it)) ENTRY_MASK_ID =? k
           | None => false
           end
        then compact_loop fuel it addr current_key_id (Some current_key_id)
        else
          let binary_flag := if it_binary it then ENTRY_FLAG_BINARY else 0 in
          let! status := _write_entry addr (Z.lor (Z.lor current_key_id ENTRY_FLAG_VALUE) binary_flag)
                           (iter_value it) (u16 (it_value_len it)) in
          if is_err status then ret (status, (addr, current_key_id, key_id))
          else compact_loop fuel it (u32 (addr + ENTRY_SIZE (it_value_len it))) current_key_id key_id
  end.

(** The two header writes that make the new region the active one, and the
    switch of [_sysparam_info]. *)
Definition compact_switch (new_base addr : Z) : MW sysparam_status_t :=
  let! i := get_info in
  let! status := _write_region_header new_base (cur_base i) true in
  if is_err status then ret status
  else
    let! i := get_info in
    let! status := _write_region_header (cur_base i) new_base false in
    if is_err status then ret status
    else
      do! mod_info (fun i => set_force_compact false (set_end_addr addr (set_bases new_base (cur_base i) i))) then
      ret SYSPARAM_OK.

(** Result: the status, the context the caller is left with and [*key_id]. *)
Definition _compact_params (ctx : option sysparam_context) (key_id : option Z)
    : MW (sysparam_status_t * (option sysparam_context * option Z)) :=
  let! i := get_info in
  let new_base := alt_base i in
  let num_sectors := u16 (region_size i / sector_size sdk_flashchip) in
  let! status := _format_region new_base num_sectors in
  if is_err status then ret (status, (ctx, key_id))
  else
    let! (status, it) := sysparam_iter_start in
    match it with
    | None => ret (status, (ctx, key_id))
    | Some it =>
      let! (status, (addr, current_key_id, key_id)) :=
        compact_loop (scan_fuel i) it (u32 (new_base + REGION_HEADER_SIZE)) 0 key_id in
      do! sysparam_iter_end then
      if is_err status then ret (status, (ctx, key_id))
      else
        let! status := compact_switch new_base addr in
        if is_err status then ret (status, (ctx, key_id))
        else
          let ctx := match ctx with
                     | Some _ => Some (set_max_key_id current_key_id (zero_context addr))
                     | None => None
                     end in
          ret (SYSPARAM_OK, (ctx, key_id))
    end.

(** *** Public functions *)

(** The scan of [sysparam_init] for a region header; [None] past the top. *)
Fixpoint init_scan (fuel : nat) (addr0 top_addr : Z) : MW (sysparam_status_t * option (Z * region_header)) :=
  match fuel with
  | O => out_of_fuel
  | S fuel =>
    if addr0 <? top_addr then
      let! r := flash_op (spiflash_read addr0 REGION_HEADER_SIZE) in
      match r with
      | None => ret (SYSPARAM_ERR_IO, None)
      | Some bs =>
        let header0 := dec_region_header bs in
        if magic header0 =? SYSPARAM_MAGIC then ret (SYSPARAM_OK, Some (addr0, header0))
        else init_scan fuel (u32 (addr0 + sector_size sdk_flashchip)) top_addr
      end
    else ret (SYSPARAM_NOTFOUND, None)
  end.

(** Is there a flag bit of [flag] in [flags]? *)
Definition has_flag (flags flag : Z) : bool := negb (Z.land flags flag =? 0).

(** [sysparam_init] from the point where the header of the other half was
    read: check or recreate it. *)
Definition init_other (addr0 addr1 : Z) (header0 header1 : region_header) : MW sysparam_status_t :=
  let num_sectors := Z.land (flags_size header0) REGION_MASK_SIZE in
  if magic header1 =? SYSPARAM_MAGIC then
    if Z.land (flags_size header0) REGION_FLAG_SECOND =? Z.land (flags_size header1) REGION_FLAG_SECOND
    then ret SYSPARAM_ERR_CORRUPT
    else ret SYSPARAM_OK
  else if has_flag (flags_size header0) REGION_FLAG_ACTIVE then
    let! status := _format_region addr1 num_sectors in
    if negb (is_ok status) then ret status
    else _write_region_header addr1 addr0 false
  else ret SYSPARAM_ERR_CORRUPT.

(** [sysparam_init] once both regions are known: set up [_sysparam_info] and
    find the end of the log. *)
Definition init_finish (addr0 addr1 : Z) (header0 : region_header) : MW sysparam_status_t :=
  let num_sectors := Z.land (flags_size header0) REGION_MASK_SIZE in
  let rs := u32 (num_sectors * sector_size sdk_flashchip) in
  let '(cur, alt) := if has_flag (flags_size header0) REGION_FLAG_ACTIVE then (addr0, addr1) else (addr1, addr0) in
  do! mod_info (fun i =>
        set_force_compact false (set_end_addr (u32 (cur + rs)) (set_bases cur alt (set_region_size rs i)))) then
  let! ctx := _init_context in
  let! (status, ctx) := _find_entry ctx ENTRY_ID_END false in
  if is_err status then
    do! mod_info (fun i => set_end_addr 0 (set_bases 0 0 i)) then
    ret status
  else
    do! (if is_ok status then mod_info (set_end_addr (c_addr ctx)) else ret tt) then
    ret SYSPARAM_OK.

Definition sysparam_init (base_addr top_addr : Z) : MW sysparam_status_t :=
  let! ok := malloc in
  do! mod_info (set_sem (if ok then Some false else None)) then
  let base_addr := base_addr - base_addr mod sector_size sdk_flashchip in
  let top_addr := if (top_addr =? 0) || (top_addr =? base_addr)
                  then u32 (base_addr + sector_size sdk_flashchip) else top_addr in
  let! (status, found) :=
    init_scan (Z.to_nat ((top_addr - base_addr) / sector_size sdk_flashchip + 2)) base_addr top_addr in
  match found with
  | None => ret status
  | Some (addr0, header0) =>
    let num_sectors := Z.land (flags_size header0) REGION_MASK_SIZE in
    let addr1 := if has_flag (flags_size header0) REGION_FLAG_SECOND
                 then u32 (addr0 - num_sectors * sector_size sdk_flashchip)
                 else u32 (addr0 + num_sectors * sector_size sdk_flashchip) in
    let! r := flash_op (spiflash_read addr1 REGION_HEADER_SIZE) in
    match r with
    | None => ret SYSPARAM_ERR_IO
    | Some bs =>
      let! status := init_other addr0 addr1 header0 (dec_region_header bs) in
      if negb (is_ok status) then ret status
      else init_finish addr0 addr1 header0
    end
  end.

(** The emptiness scan of [sysparam_create_area]: is every word of the area
    [0xffffffff]? *)
Fixpoint area_scan (fuel : nat) (addr limit : Z) : MW sysparam_status_t :=
  match fuel with
  | O => out_of_fuel
  | S fuel =>
    if addr <? limit then
      let! r := flash_op (spiflash_read addr (SCAN_BUFFER_SIZE * 4)) in
      match r with
      | None => ret SYSPARAM_ERR_IO
      | Some bs =>
        if forallb (fun i => le_val (sub_bytes bs (4 * Z.of_nat i) 4) =? 0xffffffff)
             (seq 0 (Z.to_nat SCAN_BUFFER_SIZE))
        then area_scan fuel (u32 (addr + SCAN_BUFFER_SIZE * 4)) limit
        else ret SYSPARAM_NOTFOUND
      end
    else ret SYSPARAM_OK
  end.

Definition sysparam_create_area (base_addr num_sectors : Z) (force : bool) : MW sysparam_status_t :=
  if (num_sectors <? 1) || negb (Z.land num_sectors 1 =? 0) then ret SYSPARAM_ERR_BADVALUE
  else
    let num_sectors := Z.shiftr num_sectors 1 in
    let rs := u32 (num_sectors * sector_size sdk_flashchip) in
    let! status := (if force then ret SYSPARAM_OK
                    else area_scan (Z.to_nat (2 * rs / (SCAN_BUFFER_SIZE * 4) + 2)) base_addr
                           (u32 (base_addr + rs * 2))) in
    if negb (is_ok status) then ret status
    else
      do! mod_info (fun i => if (cur_base i =? base_addr) || (alt_base i =? base_addr)
                             then zero_info else i) then
      let! status := _format_region base_addr num_sectors in
      if is_err status then ret status
      else
        let! status := _format_region (u32 (base_addr + rs)) num_sectors in
        if is_err status then ret status
        else
          let! status := _write_region_header base_addr (u32 (base_addr + rs)) true in
          if is_err status then ret status
          else
            let! status := _write_region_header (u32 (base_addr + rs)) base_addr false in
            if is_err status then ret status else ret SYSPARAM_OK.

(** The base address and the number of sectors of the area. *)
Definition sysparam_get_info : MW (sysparam_status_t * (Z * Z)) :=
  let! i := get_info in
  if cur_base i =? 0 then ret (SYSPARAM_ERR_NOINIT, (0, 0))
  else ret (SYSPARAM_OK,
            (Z.min (cur_base i) (alt_base i), u32 (region_size i / sector_size sdk_flashchip * 2))).

Definition sysparam_compact : MW sysparam_status_t :=
  do! xSemaphoreTake then
  let! i := get_info in
  let! status := (if cur_base i =? 0 then ret SYSPARAM_ERR_NOINIT
                  else let! (status, _) := _compact_params None None in ret status) in
  do! xSemaphoreGive then
  ret status.

(** What a read returns to the caller: the bytes of the destination buffer,
    the actual length and the binary flag. *)
Record read_result := { r_data : list Z; r_len : Z; r_binary : bool }.

(** [_find_key] from the start, then [_find_value]. *)
Definition lookup_value (key : list Z) (key_len : Z) : MW (sysparam_status_t * sysparam_context) :=
  let! ctx := _init_context in
  let! (status, ctx) := _find_key ctx (Some key) key_len in
  if negb (is_ok status) then ret (status, ctx)
  else _find_value ctx (c_idflags ctx).

Definition is_binary (ctx : sysparam_context) : bool := has_flag (c_idflags ctx) ENTRY_FLAG_BINARY.

(** The buffer has one byte more than the value, set to zero. *)
Definition sysparam_get_data (key : list Z) : MW (sysparam_status_t * option read_result) :=
  let key_len := strlen key in
  do! xSemaphoreTake then
  let! i := get_info in
  let! res := (
    if cur_base i =? 0 then ret (SYSPARAM_ERR_NOINIT, None)
    else
      let! (status, ctx) := lookup_value key (u16 key_len) in
      if negb (is_ok status) then ret (status, None)
      else
        let! ok := malloc in
        if negb ok then ret (SYSPARAM_ERR_NOMEM, None)
        else
          let! (status, buffer) := _read_payload ctx (c_len ctx) in
          if negb (is_ok status) then
            do! free then
            ret (status, None)
          else
            match buf_set (buffer ++ [0]) (c_len ctx) 0 with
            | None => undefined
            | Some buffer =>
              ret (SYSPARAM_OK, Some {| r_data := buffer; r_len := c_len ctx; r_binary := is_binary ctx |})
            end) in
  do! xSemaphoreGive then
  ret res.

(** [dest] receives [dest_size] bytes. *)
Definition sysparam_get_data_static (key : list Z) (dest_size : Z)
    : MW (sysparam_status_t * option read_result) :=
  let key_len := strlen key in
  do! xSemaphoreTake then
  let! i := get_info in
  let! res := (
    if cur_base i =? 0 then ret (SYSPARAM_ERR_NOINIT, None)
    else
      let! (status, ctx) := lookup_value key (u16 key_len) in
      if negb (is_ok status) then ret (status, None)
      else
        let! (status, dest) := _read_payload ctx dest_size in
        if negb (is_ok status) then ret (status, None)
        else ret (SYSPARAM_OK, Some {| r_data := dest; r_len := c_len ctx; r_binary := is_binary ctx |})) in
  do! xSemaphoreGive then
  ret res.

(** The string: the characters before the first zero of the buffer. *)
Fixpoint c_string (buf : list Z) : list Z :=
  match buf with
  | [] => []
  | c :: buf => if c =? 0 then [] else c :: c_string buf
  end.

Definition sysparam_get_string (key : list Z) : MW (sysparam_status_t * option (list Z)) :=
  let! (status, r) := sysparam_get_data key in
  match r with
  | None => ret (status, None)
  | Some r =>
    if r_binary r then
      do! free then
      ret (SYSPARAM_PARSEFAILED, None)
    else ret (SYSPARAM_OK, Some (c_string (r_data r)))
  end.

Definition sysparam_get_int32 (key : list Z) : MW (sysparam_status_t * option Z) :=
  let! (status, r) := sysparam_get_data_static key 4 in
  match r with
  | None => ret (status, None)
  | Some r =>
    if negb (r_binary r) || negb (r_len r =? 4) then ret (SYSPARAM_PARSEFAILED, None)
    else ret (status, Some (s32 (le_val (r_data r))))
  end.

Definition sysparam_get_int8 (key : list Z) : MW (sysparam_status_t * option Z) :=
  let! (status, r) := sysparam_get_data_static key 1 in
  match r with
  | None => ret (status, None)
  | Some r =>
    if negb (r_binary r) || negb (r_len r =? 1) then ret (SYSPARAM_PARSEFAILED, None)
    else ret (status, Some (s8 (le_val (r_data r))))
  end.

(** [strcasecmp(a, b) == 0]. *)
Definition strcaseeq (a b : list Z) : bool := bytes_eqb (tolower <$> a) (tolower <$> b).

(** The texts the boolean reader accepts. *)
Definition str_y := [121].
Definition str_yes := [121; 101; 115].
Definition str_t := [116].
Definition str_true := [116; 114; 117; 101].
Definition str_1 := [49].
Definition str_n := [110].
Definition str_no := [110; 111].
Definition str_f := [102].
Definition str_false := [102; 97; 108; 115; 101].
Definition str_0 := [48].

Definition parse_bool (s : list Z) : option bool :=
  if strcaseeq s str_y || strcaseeq s str_yes || strcaseeq s str_t || strcaseeq s str_true
     || bytes_eqb s str_1 then Some true
  else if strcaseeq s str_n || strcaseeq s str_no || strcaseeq s str_f || strcaseeq s str_false
     || bytes_eqb s str_0 then Some false
  else None.

(** The local buffer has [8 + 1] bytes, the last one not yet set. *)
Definition sysparam_get_bool (key : list Z) : MW (sysparam_status_t * option bool) :=
  let! (status, r) := sysparam_get_data_static key 8 in
  match r with
  | None => ret (status, None)
  | Some r =>
    let buf := r_data r ++ [0] in
    if r_binary r then
      if r_len r =? 1 then ret (status, Some (negb (le_val (sub_bytes buf 0 1) =? 0)))
      else if r_len r =? 4 then ret (status, Some (negb (le_val (sub_bytes buf 0 4) =? 0)))
      else ret (SYSPARAM_PARSEFAILED, None)
    else
      match buf_set buf (r_len r) 0 with
      | None => undefined
      | Some buf =>
        match parse_bool (c_string buf) with
        | Some b => ret (status, Some b)
        | None => ret (SYSPARAM_PARSEFAILED, None)
        end
      end
  end.

(** *** Writing *)

(** Local variables of [sysparam_set_data] that later steps change. *)
Record set_locals := {
  l_ctx : sysparam_context;
  l_key_id : Z;
  l_old_value_addr : Z;
}.

Definition free_space (i : sysparam_info) : Z := u32 (cur_base i + region_size i - end_addr i).

(** [_compact_params(&ctx, &key_id)] followed by
    [if (status < 0) break; old_value_addr = 0] *)
Definition set_compact (l : set_locals) : MW (sysparam_status_t * set_locals) :=
  let! (status, (ctx, key_id)) := _compact_params (Some (l_ctx l)) (Some (l_key_id l)) in
  let ctx := match ctx with Some c => c | None => l_ctx l end in
  let key_id := match key_id with Some k => k | None => l_key_id l end in
  if is_err status then
    ret (status, {| l_ctx := ctx; l_key_id := key_id; l_old_value_addr := l_old_value_addr l |})
  else ret (status, {| l_ctx := ctx; l_key_id := key_id; l_old_value_addr := 0 |}).

(** The search for the key and its current value. *)
Definition set_find (key : list Z) (key_len : Z) : MW (sysparam_status_t * set_locals) :=
  let! ctx := _init_context in
  let! (status, ctx) := _find_key ctx (Some key) key_len in
  if is_ok status then
    let key_id := Z.land (c_idflags ctx) ENTRY_MASK_ID in
    let! (status, ctx) := _find_value ctx key_id in
    ret (status, {| l_ctx := ctx; l_key_id := key_id;
                    l_old_value_addr := if is_ok status then c_addr ctx else 0 |})
  else ret (status, {| l_ctx := ctx; l_key_id := -1; l_old_value_addr := 0 |}).

(** "Make sure we have enough space": compact when it may help. *)
Definition set_room (l : set_locals) (needed_space : Z) : MW (sysparam_status_t * set_locals) :=
  let! i := get_info in
  let free_sp := free_space i in
  let! (status, l) := (
    if free_sp <? needed_space then
      let! (_, ctx) := _find_entry (l_ctx l) ENTRY_ID_END false in
      let l := {| l_ctx := ctx; l_key_id := l_key_id l; l_old_value_addr := l_old_value_addr l |} in
      if needed_space <=? u32 (free_sp + c_compactable ctx) then set_compact l
      else if 0 <? c_unused_keys ctx then set_compact l
      else ret (SYSPARAM_OK, l)
    else ret (SYSPARAM_OK, l)) in
  if is_err status then ret (status, l)
  else
    let! i := get_info in
    if free_space i <? needed_space then ret (SYSPARAM_ERR_FULL, l)
    else ret (SYSPARAM_OK, l).

(** "We need to write a key entry for a new key": are there ids left? *)
Definition set_ids (l : set_locals) : MW (sysparam_status_t * set_locals) :=
  if (l_key_id l <? 0) && (MAX_KEY_ID <=? c_max_key_id (l_ctx l)) then
    if 0 <? c_unused_keys (l_ctx l) then set_compact l
    else ret (SYSPARAM_ERR_FULL, l)
  else ret (SYSPARAM_OK, l).

(** Compaction forced by an inconsistency found earlier. *)
Definition set_forced (l : set_locals) : MW (sysparam_status_t * set_locals) :=
  let! i := get_info in
  if force_compact i then
    let! (status, l') := set_compact l in
    ret (status, {| l_ctx := l_ctx l'; l_key_id := l_key_id l'; l_old_value_addr := l_old_value_addr l |})
  else ret (SYSPARAM_OK, l).

(** The writes at the end of the log. *)
Definition set_append (l : set_locals) (key : list Z) (key_len : Z) (value : list Z) (value_len binary_flag : Z)
    : MW sysparam_status_t :=
  let! (_, write_ctx) := init_write_context in
  let! (status, (waddr, key_id)) := (
    if l_key_id l <? 0 then
      let key_id := c_max_key_id (l_ctx l) + 1 in
      let! status := _write_entry (c_addr write_ctx) (u16 key_id) key key_len in
      ret (status, (u32 (c_addr write_ctx + ENTRY_SIZE key_len), key_id))
    else ret (SYSPARAM_OK, (c_addr write_ctx, l_key_id l))) in
  if is_err status then ret status
  else
    let! status := _write_entry waddr (u16 (Z.lor (Z.lor key_id ENTRY_FLAG_VALUE) binary_flag))
                     value (u16 value_len) in
    if is_err status then ret status
    else
      do! mod_info (set_end_addr (u32 (waddr + ENTRY_SIZE value_len))) then
      ret status.

(** The locals after the space taken by the old value was counted in. *)
Definition count_old_value (l : set_locals) : set_locals :=
  if negb (l_old_value_addr l =? 0) then
    {| l_ctx := add_compactable (ENTRY_SIZE (c_len (l_ctx l))) (l_ctx l);
       l_key_id := l_key_id l; l_old_value_addr := l_old_value_addr l |}
  else l.

(** Is the value to be written the one already there?  [SYSPARAM_OK] if so. *)
Definition set_same (l : set_locals) (value : list Z) (value_len binary_flag : Z) : MW sysparam_status_t :=
  if negb (l_old_value_addr l =? 0) &&
     ((Z.land (c_idflags (l_ctx l)) ENTRY_FLAG_BINARY =? binary_flag) && (c_len (l_ctx l) =? value_len))
  then _compare_payload (l_ctx l) value value_len
  else ret SYSPARAM_NOTFOUND.

(** From the check for room to the end of the writes: the final status and
    the address of the old value still to be deleted. *)
Definition set_write (l : set_locals) (key : list Z) (key_len : Z) (value : list Z) (value_len binary_flag : Z)
    : MW (sysparam_status_t * Z) :=
  let needed_space := ENTRY_SIZE value_len + (if l_key_id l <? 0 then ENTRY_SIZE (u16 (strlen key)) else 0) in
  let! (status, l) := set_room l needed_space in
  if is_err status then ret (status, 0)
  else
    let! (status, l) := set_ids l in
    if is_err status then ret (status, 0)
    else
      let! (status, l) := set_forced l in
      if is_err status then ret (status, 0)
      else
        let! status := set_append l key key_len value value_len binary_flag in
        ret (status, l_old_value_addr l).

(** "Delete old value (if present)". *)
Definition set_delete_old (status : sysparam_status_t) (old_value_addr : Z) : MW sysparam_status_t :=
  if negb (old_value_addr =? 0) then _delete_entry old_value_addr else ret status.

(** The body of [sysparam_set_data] between taking and giving the mutex. *)
Definition set_data_locked (key : list Z) (key_len : Z) (value : list Z) (value_len : Z) (binary : bool)
    : MW sysparam_status_t :=
  let! i := get_info in
  if cur_base i =? 0 then ret SYSPARAM_ERR_NOINIT
  else
    let! (status, l) := set_find key key_len in
    if is_err status then ret status
    else
      let binary_flag := if binary then ENTRY_FLAG_BINARY else 0 in
      if negb (value_len =? 0) then
        let! same := set_same l value value_len binary_flag in
        match same with
        | SYSPARAM_OK => ret SYSPARAM_OK
        | SYSPARAM_NOTFOUND =>
          let! (status, old) := set_write (count_old_value l) key key_len value value_len binary_flag in
          if is_err status then ret status else set_delete_old status old
        | _ => ret same
        end
      else set_delete_old status (l_old_value_addr l).

(** [value] is [None] for a null pointer; the caller's buffer has at least
    [value_len] bytes. *)
Definition sysparam_set_data (key : list Z) (value : option (list Z)) (value_len : Z) (binary : bool)
    : MW sysparam_status_t :=
  let key_len := u16 (strlen key) in
  if key_len =? 0 then ret SYSPARAM_ERR_BADVALUE
  else if MAX_KEY_LEN <? key_len then ret SYSPARAM_ERR_BADVALUE
  else if MAX_VALUE_LEN <? value_len then ret SYSPARAM_ERR_BADVALUE
  else
    let value_len := match value with None => 0 | Some _ => value_len end in
    do! xSemaphoreTake then
    let! status := set_data_locked key key_len (default [] value) value_len binary in
    do! xSemaphoreGive then
    ret status.

Definition sysparam_set_string (key value : list Z) : MW sysparam_status_t :=
  sysparam_set_data key (Some value) (strlen value) false.

Definition sysparam_set_int32 (key : list Z) (value : Z) : MW sysparam_status_t :=
  sysparam_set_data key (Some (le_bytes 4 value)) 4 true.

Definition sysparam_set_int8 (key : list Z) (value : Z) : MW sysparam_status_t :=
  sysparam_set_data key (Some (le_bytes 1 value)) 1 true.

Definition sysparam_set_bool (key : list Z) (value : bool) : MW sysparam_status_t :=
  let! (status, old_value) := sysparam_get_bool key in
  if match old_value with Some b => Bool.eqb b value | None => false end then ret SYSPARAM_OK
  else sysparam_set_data key (Some [if value then 121 else 110; 0xff; 0xff; 0xff]) 1 false.

End Sysparam.
