(* ===== verification/SysparamLog.v ===== *)
(** * The log of the parameter store

    What a region of flash holds, seen as a list of entries: the encoding on
    flash ([log_at]), the well-formedness of a log ([wf_log]) and the
    key/value map it stands for ([kv]).  Nothing here runs the code. *)

From Stdlib Require Import Sorted.
From S2P Require Import Prelude CStrings Flash Sysparam.

(** An entry as it lies on flash. *)
Record entry := { e_idflags : Z; e_payload : list Z }.

#[export] Instance entry_eq_dec : EqDecision entry.
Proof. solve_decision. Defined.

Definition e_len (e : entry) : Z := Z.of_nat (length (e_payload e)).
Definition e_size (e : entry) : Z := ENTRY_SIZE (e_len e).
Definition e_id (e : entry) : Z := Z.land (e_idflags e) ENTRY_MASK_ID.

(** Alive and valid; a key; a value; stored as binary. *)
Definition e_live (e : entry) : bool :=
  Z.land (e_idflags e) (Z.lor ENTRY_FLAG_ALIVE ENTRY_FLAG_INVALID) =? ENTRY_FLAG_ALIVE.
Definition e_value (e : entry) : bool := negb (Z.land (e_idflags e) ENTRY_FLAG_VALUE =? 0).
Definition e_binary (e : entry) : bool := negb (Z.land (e_idflags e) ENTRY_FLAG_BINARY =? 0).
Definition live_key (e : entry) : bool := e_live e && negb (e_value e).
Definition live_val (e : entry) : bool := e_live e && e_value e.

Definition entry_ok (e : entry) : Prop :=
  0 <= e_idflags e < 65535 /\ Z.of_nat (length (e_payload e)) <= 65535 /\ Forall byteP (e_payload e).

Definition enc_entry (e : entry) : list Z :=
  enc_entry_header (e_idflags e) (e_len e) ++ e_payload e.

Definition log_size (es : list entry) : Z := foldr (fun e n => e_size e + n) 0 es.

(** The memory [c] holds the entries [es] from address [a] on. *)
Fixpoint log_at (c : Z -> Z) (a : Z) (es : list entry) : Prop :=
  match es with
  | [] => True
  | e :: es => cells c a (e_size e) = enc_entry e /\ log_at c (a + e_size e) es
  end.

Definition key_ids (es : list entry) : list Z := e_id <$> filter (fun e => live_key e = true) es.
Definition key_names (es : list entry) : list (list Z) := e_payload <$> filter (fun e => live_key e = true) es.
Definition val_ids (es : list entry) : list Z := e_id <$> filter (fun e => live_val e = true) es.

(** Keys have increasing ids and distinct names, there is at most one value
    per id, and a value comes after its key. *)
Record wf_log (es : list entry) : Prop := {
  wf_entries : Forall entry_ok es;
  wf_id_range : Forall (fun i => 1 <= i <= MAX_KEY_ID) (key_ids es);
  wf_ids : StronglySorted Z.lt (key_ids es);
  wf_names : NoDup (key_names es);
  wf_vals : NoDup (val_ids es);
  wf_order : forall l v r, es = l ++ v :: r -> live_val v = true -> e_id v ∈ key_ids l;
}.

(** The first live key named [k], the first live value with id [i]. *)
Definition find_name (k : list Z) (es : list entry) : option entry :=
  snd <$> list_find (fun e => live_key e = true /\ e_payload e = k) es.
Definition find_val (i : Z) (es : list entry) : option entry :=
  snd <$> list_find (fun e => live_val e = true /\ e_id e = i) es.

(** The store's contents: the binary flag and the bytes of a key's value. *)
Definition kv (es : list entry) (k : list Z) : option (bool * list Z) :=
  match find_name k es with
  | None => None
  | Some e =>
    match find_val (e_id e) es with
    | None => None
    | Some v => Some (e_binary v, e_payload v)
    end
  end.

(** An entry with its alive flag cleared, as [_delete_entry] leaves it. *)
Definition kill (e : entry) : entry := {|
  e_idflags := Z.ldiff (e_idflags e) ENTRY_FLAG_ALIVE; e_payload := e_payload e |}.

(** The flags [_write_entry] leaves for the id field [id]. *)
Definition written_flags (id : Z) : Z :=
  Z.ldiff (Z.lor (Z.lor id ENTRY_FLAG_ALIVE) ENTRY_FLAG_INVALID) ENTRY_FLAG_INVALID.

Definition mk_entry (id : Z) (payload : list Z) : entry := {|
  e_idflags := written_flags id; e_payload := payload |}.

Definition key_entry (id : Z) (k : list Z) : entry := mk_entry id k.
Definition bin_flag (b : bool) : Z := if b then ENTRY_FLAG_BINARY else 0.
Definition val_entry (id : Z) (b : bool) (v : list Z) : entry :=
  mk_entry (Z.lor (Z.lor id ENTRY_FLAG_VALUE) (bin_flag b)) v.

(** ** Flags of the entries the code writes *)

(** Facts on small ids are checked by running through all of them. *)
Lemma small_id_facts (P : Z -> bool) n id :
  forallb P (seqZ 0 (Z.of_nat n)) = true -> 0 <= id < Z.of_nat n -> P id = true.
Proof. rewrite forallb_forall. intros H ?. apply H, list_elem_of_In, elem_of_seqZ. lia. Qed.

Definition key_flags_check (id : Z) : bool :=
  let e := key_entry id [] in
  live_key e && negb (live_val e) && (e_id e =? id) && (0 <=? e_idflags e) && (e_idflags e <? 65535).

Definition val_flags_check (b : bool) (id : Z) : bool :=
  let e := val_entry id b [] in
  live_val e && negb (live_key e) && (e_id e =? id) && Bool.eqb (e_binary e) b
  && (0 <=? e_idflags e) && (e_idflags e <? 65535).

Lemma key_flags_all : forallb key_flags_check (seqZ 0 4095) = true.
Proof. vm_compute. reflexivity. Qed.

Lemma val_flags_all b : forallb (val_flags_check b) (seqZ 0 4095) = true.
Proof. destruct b; vm_compute; reflexivity. Qed.

Lemma key_entry_facts id k :
  0 <= id <= MAX_KEY_ID ->
  live_key (key_entry id k) = true /\ live_val (key_entry id k) = false /\
  e_id (key_entry id k) = id /\ 0 <= e_idflags (key_entry id k) < 65535.
Proof.
  unfold MAX_KEY_ID. intros Hid. pose proof (small_id_facts _ 4095 id key_flags_all ltac:(lia)) as H.
  unfold key_flags_check in H. zbool. repeat split; try done; try lia.
Qed.

Lemma val_entry_facts id b v :
  0 <= id <= MAX_KEY_ID ->
  live_val (val_entry id b v) = true /\ live_key (val_entry id b v) = false /\
  e_id (val_entry id b v) = id /\ e_binary (val_entry id b v) = b /\
  0 <= e_idflags (val_entry id b v) < 65535.
Proof.
  unfold MAX_KEY_ID. intros Hid. pose proof (small_id_facts _ 4095 id (val_flags_all b) ltac:(lia)) as H.
  unfold val_flags_check in H. zbool. repeat split; try done; try lia.
  by apply eqb_prop.
Qed.

Lemma kill_dead e : e_live (kill e) = false.
Proof.
  unfold e_live. apply Z.eqb_neq. intros H.
  apply (f_equal (fun x => Z.testbit x 15)) in H. cbn [kill e_idflags] in H.
  rewrite Z.land_spec, Z.ldiff_spec in H. unfold ENTRY_FLAG_ALIVE in H. cbn in H.
  by rewrite andb_false_r in H.
Qed.

Lemma kill_dead_key e : live_key (kill e) = false.
Proof. unfold live_key. by rewrite kill_dead. Qed.
Lemma kill_dead_val e : live_val (kill e) = false.
Proof. unfold live_val. by rewrite kill_dead. Qed.
#[export] Hint Rewrite kill_dead_key kill_dead_val : esp.

Lemma kill_size e : e_size (kill e) = e_size e.
Proof. done. Qed.

Lemma ldiff_range x m : 0 <= x < 65535 -> 0 <= Z.ldiff x m < 65535.
Proof.
  intros H. split; [apply Z.ldiff_nonneg; lia|].
  enough (Z.ldiff x m <= x) by lia. apply Z.ldiff_le; [lia|].
  apply Z.bits_inj_0. intros n. rewrite !Z.ldiff_spec.
  by destruct (Z.testbit x n), (Z.testbit m n).
Qed.

Lemma kill_ok e : entry_ok e -> entry_ok (kill e).
Proof. intros (H1 & H2 & H3). split; [by apply ldiff_range|done]. Qed.

(** ** Logs on flash *)

Lemma e_size_pos e : 4 <= e_size e.
Proof. unfold e_size, ENTRY_SIZE, ENTRY_HEADER_SIZE, e_len. lia. Qed.

Lemma length_enc_header i l : length (enc_entry_header i l) = 4%nat.
Proof. unfold enc_entry_header. by rewrite length_app, !length_le_bytes. Qed.

Lemma length_enc_entry e : Z.of_nat (length (enc_entry e)) = e_size e.
Proof.
  unfold enc_entry. rewrite length_app, length_enc_header.
  unfold e_size, ENTRY_SIZE, ENTRY_HEADER_SIZE, e_len. lia.
Qed.

Lemma log_size_cons e es : log_size (e :: es) = e_size e + log_size es.
Proof. done. Qed.

Lemma log_size_nonneg es : 0 <= log_size es.
Proof. induction es as [|e es IH]; [done|]. rewrite log_size_cons. pose proof (e_size_pos e). lia. Qed.

Lemma log_size_length es : 4 * Z.of_nat (length es) <= log_size es.
Proof.
  induction es as [|e es IH]; [done|]. rewrite log_size_cons. pose proof (e_size_pos e). cbn [length]. lia.
Qed.

Lemma log_size_app l r : log_size (l ++ r) = log_size l + log_size r.
Proof. induction l as [|e l IH]; [done|]. cbn [app]. rewrite !log_size_cons, IH. lia. Qed.

Lemma log_at_app c a l r :
  log_at c a (l ++ r) <-> log_at c a l /\ log_at c (a + log_size l) r.
Proof.
  revert a. induction l as [|e l IH]; intros a; cbn [app log_at].
  - cbn. rewrite Z.add_0_r. tauto.
  - rewrite IH, log_size_cons, Z.add_assoc. tauto.
Qed.

Lemma log_at_ext c c' a es :
  (forall x, a <= x < a + log_size es -> c x = c' x) -> log_at c a es -> log_at c' a es.
Proof.
  revert a. induction es as [|e es IH]; intros a Hx; [done|]. rewrite log_size_cons in Hx.
  pose proof (log_size_nonneg es). pose proof (e_size_pos e). intros [H1 H2]. split.
  - rewrite <-H1. symmetry. apply cells_ext. intros. apply Hx. lia.
  - apply IH; [|done]. intros. apply Hx. lia.
Qed.

Lemma enc_entry_header_dec i l rest :
  0 <= i < 65536 -> 0 <= l < 65536 ->
  dec_entry_header (enc_entry_header i l ++ rest) = (i, l).
Proof.
  intros. unfold dec_entry_header, sub_bytes, enc_entry_header.
  change (Z.to_nat 0) with 0%nat. change (Z.to_nat 2) with 2%nat. f_equal.
  - rewrite drop_0, <-app_assoc, take_app_length' by (by rewrite length_le_bytes). by apply le_val_2.
  - rewrite <-app_assoc, drop_app_length' by (by rewrite length_le_bytes).
    rewrite take_app_length' by (by rewrite length_le_bytes). by apply le_val_2.
Qed.

(** The header and the payload of an entry on flash. *)
Lemma entry_cells_header c a e :
  cells c a (e_size e) = enc_entry e -> cells c a 4 = enc_entry_header (e_idflags e) (e_len e).
Proof.
  intros H. unfold e_size, ENTRY_SIZE, ENTRY_HEADER_SIZE in H.
  rewrite cells_app in H by (unfold e_len; lia). unfold enc_entry in H.
  apply app_inj_1 in H as [? _]; [done|]. by rewrite length_cells, length_enc_header.
Qed.

Lemma entry_cells_payload c a e :
  cells c a (e_size e) = enc_entry e -> cells c (a + 4) (e_len e) = e_payload e.
Proof.
  intros H. unfold e_size, ENTRY_SIZE, ENTRY_HEADER_SIZE in H.
  rewrite cells_app in H by (unfold e_len; lia). unfold enc_entry in H.
  apply app_inj_1 in H as [_ ?]; [done|]. by rewrite length_cells, length_enc_header.
Qed.

Lemma entry_header_dec c a e :
  entry_ok e -> cells c a (e_size e) = enc_entry e ->
  dec_entry_header (cells c a 4) = (e_idflags e, e_len e).
Proof.
  intros (H1 & H2 & _) H. rewrite (entry_cells_header _ _ _ H), <-(app_nil_r (enc_entry_header _ _)).
  unfold e_len. apply enc_entry_header_dec; lia.
Qed.

(** ** Filters and searches *)

Lemma key_ids_app l r : key_ids (l ++ r) = key_ids l ++ key_ids r.
Proof. unfold key_ids. by rewrite filter_app, fmap_app. Qed.
Lemma key_names_app l r : key_names (l ++ r) = key_names l ++ key_names r.
Proof. unfold key_names. by rewrite filter_app, fmap_app. Qed.
Lemma val_ids_app l r : val_ids (l ++ r) = val_ids l ++ val_ids r.
Proof. unfold val_ids. by rewrite filter_app, fmap_app. Qed.

Lemma key_ids_cons e l : key_ids (e :: l) = (if live_key e then [e_id e] else []) ++ key_ids l.
Proof. unfold key_ids. rewrite filter_cons. case_decide as H; [by rewrite H|]. by destruct (live_key e). Qed.
Lemma key_names_cons e l : key_names (e :: l) = (if live_key e then [e_payload e] else []) ++ key_names l.
Proof. unfold key_names. rewrite filter_cons. case_decide as H; [by rewrite H|]. by destruct (live_key e). Qed.
Lemma val_ids_cons e l : val_ids (e :: l) = (if live_val e then [e_id e] else []) ++ val_ids l.
Proof. unfold val_ids. rewrite filter_cons. case_decide as H; [by rewrite H|]. by destruct (live_val e). Qed.
#[export] Hint Rewrite key_ids_app key_names_app val_ids_app key_ids_cons key_names_cons val_ids_cons : esp.

Lemma elem_key_ids i es : i ∈ key_ids es <-> exists e, e ∈ es /\ live_key e = true /\ e_id e = i.
Proof. unfold key_ids. rewrite list_elem_of_fmap. setoid_rewrite list_elem_of_filter. split; intros (e & ? & ?); exists e; intuition congruence. Qed.
Lemma elem_key_names k es : k ∈ key_names es <-> exists e, e ∈ es /\ live_key e = true /\ e_payload e = k.
Proof. unfold key_names. rewrite list_elem_of_fmap. setoid_rewrite list_elem_of_filter. split; intros (e & ? & ?); exists e; intuition congruence. Qed.
Lemma elem_val_ids i es : i ∈ val_ids es <-> exists e, e ∈ es /\ live_val e = true /\ e_id e = i.
Proof. unfold val_ids. rewrite list_elem_of_fmap. setoid_rewrite list_elem_of_filter. split; intros (e & ? & ?); exists e; intuition congruence. Qed.

(** A search stops at the first entry that satisfies the predicate. *)
Lemma find_first (P : entry -> Prop) `{!forall e, Decision (P e)} es :
  match snd <$> list_find P es with
  | Some e => exists l r, es = l ++ e :: r /\ P e /\ Forall (fun x => ~ P x) l
  | None => Forall (fun x => ~ P x) es
  end.
Proof.
  induction es as [|e es IH]; cbn; [constructor|]. destruct (decide (P e)) as [Hp|Hp]; cbn.
  - by exists [], es.
  - destruct (list_find P es) as [[n x]|]; cbn in *.
    + destruct IH as (l & r & -> & ? & ?). exists (e :: l), r. by repeat constructor.
    + by constructor.
Qed.

Lemma find_first_Some (P : entry -> Prop) `{!forall e, Decision (P e)} l e r :
  P e -> Forall (fun x => ~ P x) l -> snd <$> list_find P (l ++ e :: r) = Some e.
Proof.
  intros Hp Hl. induction Hl as [|x l Hx Hl IH]; cbn.
  - by rewrite decide_True.
  - rewrite decide_False by done. destruct (list_find P (l ++ e :: r)) as [[n y]|]; cbn in *; congruence.
Qed.

Lemma find_first_None (P : entry -> Prop) `{!forall e, Decision (P e)} es :
  Forall (fun x => ~ P x) es -> snd <$> list_find P es = None.
Proof. intros Hn. apply (list_find_None P) in Hn. by rewrite Hn. Qed.

(** ** The map a well-formed log stands for *)

Lemma NoDup_fmap_inv {A B} (f : A -> B) l x y :
  NoDup (f <$> l) -> x ∈ l -> y ∈ l -> f x = f y -> x = y.
Proof.
  induction l as [|z l IH]; cbn; [by rewrite elem_of_nil|].
  rewrite NoDup_cons, list_elem_of_fmap, !elem_of_cons. intros [Hz Hl] [->|Hx] [->|Hy] Hf; try done.
  - destruct Hz. eauto.
  - destruct Hz. eauto.
  - eauto.
Qed.

Lemma find_name_iff es k e :
  wf_log es -> find_name k es = Some e <-> e ∈ es /\ live_key e = true /\ e_payload e = k.
Proof.
  intros Hwf. unfold find_name.
  pose proof (find_first (fun e => live_key e = true /\ e_payload e = k) es) as H.
  destruct (snd <$> _) as [e'|]; split.
  - intros [= <-]. destruct H as (l & r & -> & ? & _). set_solver.
  - intros (He & Hk & Hp). f_equal. destruct H as (l & r & Hes & [Hk' Hp'] & _).
    apply (NoDup_fmap_inv e_payload (filter (fun e => live_key e = true) es));
      [apply wf_names, Hwf|..|congruence]; apply list_elem_of_filter; set_solver.
  - done.
  - intros (He & ?). rewrite Forall_forall in H. by destruct (H e He).
Qed.

Lemma find_val_iff es i e :
  wf_log es -> find_val i es = Some e <-> e ∈ es /\ live_val e = true /\ e_id e = i.
Proof.
  intros Hwf. unfold find_val.
  pose proof (find_first (fun e => live_val e = true /\ e_id e = i) es) as H.
  destruct (snd <$> _) as [e'|]; split.
  - intros [= <-]. destruct H as (l & r & -> & ? & _). set_solver.
  - intros (He & Hk & Hp). f_equal. destruct H as (l & r & Hes & [Hk' Hp'] & _).
    apply (NoDup_fmap_inv e_id (filter (fun e => live_val e = true) es));
      [apply wf_vals, Hwf|..|congruence]; apply list_elem_of_filter; set_solver.
  - done.
  - intros (He & ?). rewrite Forall_forall in H. by destruct (H e He).
Qed.

(** [k] is bound to the value [v] with binary flag [b] by the entries of [es]. *)
Definition binds (es : list entry) (k : list Z) (b : bool) (v : list Z) : Prop :=
  exists ke ve, ke ∈ es /\ live_key ke = true /\ e_payload ke = k /\
    ve ∈ es /\ live_val ve = true /\ e_id ve = e_id ke /\ e_binary ve = b /\ e_payload ve = v.

Lemma kv_binds es k b v : wf_log es -> kv es k = Some (b, v) <-> binds es k b v.
Proof.
  intros Hwf. unfold kv, binds. split.
  - destruct (find_name k es) as [ke|] eqn:E1; [|done]. apply find_name_iff in E1 as (?&?&?); [|done].
    destruct (find_val (e_id ke) es) as [ve|] eqn:E2; [|done]. apply find_val_iff in E2 as (?&?&?); [|done].
    intros [= <- <-]. eauto 10.
  - intros (ke & ve & H1 & H2 & H3 & H4 & H5 & H6 & <- & <-).
    rewrite (proj2 (find_name_iff es k ke Hwf)) by done.
    by rewrite (proj2 (find_val_iff es (e_id ke) ve Hwf)) by done.
Qed.

(** Two well-formed logs with the same bindings of [k] agree on [k]. *)
Lemma kv_ext es es' k :
  wf_log es -> wf_log es' -> (forall b v, binds es k b v <-> binds es' k b v) -> kv es k = kv es' k.
Proof. intros H H' Hb. apply option_eq. intros [b v]. by rewrite !kv_binds. Qed.

Lemma kv_None es k : wf_log es -> (forall b v, ~ binds es k b v) -> kv es k = None.
Proof.
  intros H Hb. destruct (kv es k) as [[b v]|] eqn:E; [|done].
  by apply kv_binds, Hb in E.
Qed.

Lemma key_id_unique es e e' :
  wf_log es -> e ∈ es -> e' ∈ es -> live_key e = true -> live_key e' = true -> e_id e = e_id e' -> e = e'.
Proof.
  intros Hwf He He' Hk Hk' Hid.
  apply (NoDup_fmap_inv e_id (filter (fun e => live_key e = true) es)); [|by apply list_elem_of_filter..|done].
  pose proof (wf_ids _ Hwf) as Hs. unfold key_ids in Hs. revert Hs.
  generalize (e_id <$> filter (fun e => live_key e = true) es). clear.
  induction 1 as [|x l Hl IH Hx]; constructor; [|done].
  rewrite Forall_forall in Hx. intros Hin. apply Hx in Hin. lia.
Qed.

Lemma live_not_both e : live_key e = true -> live_val e = true -> False.
Proof. unfold live_key, live_val. by destruct (e_live e), (e_value e). Qed.

(** *** Appending and deleting *)

Lemma wf_nil : wf_log [].
Proof. split; try constructor. intros l v r H. by destruct l. Qed.

(** The shapes a list with a last element can be split in. *)
Lemma app_singleton_split {A} (es : list A) x l v r :
  es ++ [x] = l ++ v :: r -> (l = es /\ v = x /\ r = []) \/ exists r', es = l ++ v :: r' /\ r = r' ++ [x].
Proof.
  destruct (decide (r = [])) as [->|Hr].
  - intros [-> [= ->]]%app_inj_tail. by left.
  - apply exists_last in Hr as (r' & y & ->). rewrite app_comm_cons, app_assoc.
    intros [-> [= ->]]%app_inj_tail. right. eauto.
Qed.

Lemma StronglySorted_snoc l x : StronglySorted Z.lt l -> Forall (fun y => y < x) l -> StronglySorted Z.lt (l ++ [x]).
Proof.
  induction 1 as [|y l Hs IH Hy]; cbn; intros Hf; [repeat constructor|].
  apply Forall_cons in Hf as [? ?]. constructor; [auto|].
  apply Forall_app; split; [done|]. by repeat constructor.
Qed.

Lemma NoDup_snoc {A} (l : list A) x : NoDup l -> x ∉ l -> NoDup (l ++ [x]).
Proof. intros. apply NoDup_app. split; [done|]. split; [set_solver|apply NoDup_singleton]. Qed.

Lemma wf_append_key es id k :
  wf_log es -> 1 <= id <= MAX_KEY_ID -> Forall (fun i => i < id) (key_ids es) ->
  k ∉ key_names es -> Z.of_nat (length k) <= 65535 -> Forall byteP k ->
  wf_log (es ++ [key_entry id k]).
Proof.
  intros Hwf Hid Hlt Hk Hl Hb. destruct (key_entry_facts id k ltac:(lia)) as (F1 & F2 & F3 & F4).
  split; autorewrite with esp; rewrite ?F1, ?F2, ?F3; cbn [app key_ids key_names val_ids filter fmap list_fmap].
  - apply Forall_app; split; [apply Hwf|]. by repeat constructor; try lia.
  - apply Forall_app; split; [apply Hwf|]. by repeat constructor; try lia.
  - apply StronglySorted_snoc; [apply Hwf|done].
  - apply NoDup_snoc; [apply Hwf|done].
  - rewrite app_nil_r. apply Hwf.
  - intros l v r [(-> & -> & ->)|(r' & -> & ->)]%app_singleton_split Hv; [congruence|].
    by eapply wf_order.
Qed.

Lemma wf_append_val es id b v :
  wf_log es -> id ∈ key_ids es -> id ∉ val_ids es ->
  Z.of_nat (length v) <= 65535 -> Forall byteP v ->
  wf_log (es ++ [val_entry id b v]).
Proof.
  intros Hwf Hid Hv Hl Hb. pose proof (wf_id_range _ Hwf) as Hr. rewrite Forall_forall in Hr.
  destruct (val_entry_facts id b v ltac:(apply Hr in Hid; lia)) as (F1 & F2 & F3 & F4 & F5).
  split; autorewrite with esp; rewrite ?F1, ?F2, ?F3; cbn [app key_ids key_names val_ids filter fmap list_fmap];
    rewrite ?app_nil_r; try apply Hwf.
  - apply Forall_app; split; [apply Hwf|]. by repeat constructor; try lia.
  - apply NoDup_snoc; [apply Hwf|done].
  - intros l w r [(-> & -> & ->)|(r' & -> & ->)]%app_singleton_split Hw; [by rewrite F3|].
    by eapply wf_order.
Qed.

Lemma live_val_not_key v : live_val v = true -> live_key v = false.
Proof. destruct (live_key v) eqn:E; [|done]. intros. by destruct (live_not_both v). Qed.

Lemma kill_key_ids l v r : live_val v = true -> key_ids (l ++ kill v :: r) = key_ids (l ++ v :: r).
Proof. intros Hv%live_val_not_key. autorewrite with esp. by rewrite Hv. Qed.
Lemma kill_key_names l v r : live_val v = true -> key_names (l ++ kill v :: r) = key_names (l ++ v :: r).
Proof. intros Hv%live_val_not_key. autorewrite with esp. by rewrite Hv. Qed.

Lemma wf_kill l v r : wf_log (l ++ v :: r) -> live_val v = true -> wf_log (l ++ kill v :: r).
Proof.
  intros Hwf Hv. split; rewrite ?kill_key_ids, ?kill_key_names by done; try apply Hwf.
  - pose proof (wf_entries _ Hwf) as H. apply Forall_app in H as [? H].
    apply Forall_cons in H as [? ?]. apply Forall_app; split; [done|]. constructor; [by apply kill_ok|done].
  - pose proof (wf_vals _ Hwf) as H. autorewrite with esp in *. rewrite Hv in H.
    apply NoDup_app in H as (? & H & H'). cbn in *. apply NoDup_cons in H' as [? ?].
    apply NoDup_app. split; [done|]. split; [|done]. set_solver.
  - intros l' w r' Heq Hw. pose proof (wf_order _ Hwf) as Ho.
    destruct (decide (length l' <= length l)%nat) as [Hlen|Hlen].
    + assert (l' `prefix_of` l) as [k ->].
      { exists (drop (length l') l). apply (f_equal (take (length l'))) in Heq.
        rewrite take_app_le, take_app_length in Heq by lia. rewrite <-Heq at 1. by rewrite take_drop. }
      rewrite <-app_assoc in Heq. apply app_inv_head in Heq.
      destruct k as [|y k]; cbn in Heq; injection Heq as <- <-; [by rewrite kill_dead_val in Hw|].
      apply (Ho l' y (k ++ v :: r)); [by rewrite <-app_assoc|done].
    + assert (l ++ [kill v] `prefix_of` l') as [k ->].
      { exists (drop (S (length l)) l'). apply (f_equal (take (S (length l)))) in Heq.
        rewrite (take_app_le l') in Heq by lia. rewrite <-(take_drop (S (length l)) l') at 1. f_equal.
        rewrite <-Heq. change (kill v :: r) with ([kill v] ++ r). rewrite app_assoc.
        rewrite take_app_length'; [done|]. rewrite length_app. cbn. lia. }
      rewrite <-!app_assoc in Heq. apply app_inv_head in Heq. cbn in Heq. injection Heq as ->.
      rewrite <-app_assoc. cbn. rewrite kill_key_ids by done.
      apply (Ho (l ++ v :: k) w r'); [by rewrite <-app_assoc|done].
Qed.

Lemma val_has_key es v : wf_log es -> v ∈ es -> live_val v = true -> e_id v ∈ key_ids es.
Proof.
  intros Hwf Hv Hl. apply list_elem_of_split in Hv as (l & r & ->).
  rewrite key_ids_app. apply elem_of_app. left. by eapply wf_order.
Qed.

(** A new key has no value yet and leaves the map unchanged. *)
Lemma kv_append_key es id k k' :
  wf_log es -> wf_log (es ++ [key_entry id k]) -> 0 <= id <= MAX_KEY_ID ->
  Forall (fun i => i < id) (key_ids es) -> kv (es ++ [key_entry id k]) k' = kv es k'.
Proof.
  intros Hwf Hwf' Hid Hlt. destruct (key_entry_facts id k Hid) as (F1 & F2 & F3 & _).
  rewrite Forall_forall in Hlt.
  apply kv_ext; [done..|]. intros b v. split; intros (ke & ve & H1 & H2 & H3 & H4 & H5 & H6 & H7);
    exists ke, ve; [|set_solver].
  apply elem_of_app in H4 as [H4|H4%list_elem_of_singleton]; [|congruence].
  apply elem_of_app in H1 as [H1|H1%list_elem_of_singleton]; [by eauto 10|].
  subst ke. rewrite F3 in H6. pose proof (val_has_key _ _ Hwf H4 H5) as Hin.
  rewrite H6 in Hin. apply Hlt in Hin. lia.
Qed.

(** A value appended for the key [k] is the one found. *)
Lemma kv_append_val es ke b v k' :
  wf_log es -> wf_log (es ++ [val_entry (e_id ke) b v]) ->
  ke ∈ es -> live_key ke = true ->
  kv (es ++ [val_entry (e_id ke) b v]) k' =
    if decide (k' = e_payload ke) then Some (b, v) else kv es k'.
Proof.
  intros Hwf Hwf' Hke Hlk. pose proof (wf_id_range _ Hwf) as Hr. rewrite Forall_forall in Hr.
  assert (Hin : e_id ke ∈ key_ids es) by (apply elem_key_ids; eauto).
  destruct (val_entry_facts (e_id ke) b v ltac:(apply Hr in Hin; lia)) as (F1 & F2 & F3 & F4 & _).
  case_decide as Hk.
  - apply kv_binds; [done|]. exists ke, (val_entry (e_id ke) b v). set_solver.
  - apply kv_ext; [done..|]. intros b' v'. split; intros (k1 & ve & H1 & H2 & H3 & H4 & H5 & H6 & H7);
      exists k1, ve; [|set_solver].
    apply elem_of_app in H1 as [H1|H1%list_elem_of_singleton]; [|congruence].
    apply elem_of_app in H4 as [H4|H4%list_elem_of_singleton]; [by eauto 10|].
    subst ve. rewrite F3 in H6. destruct Hk. rewrite <-H3. f_equal. symmetry.
    by apply (key_id_unique es).
Qed.

(** Killing the value of [k] removes [k] from the map and nothing else. *)
Lemma kv_kill l v r ke k' :
  wf_log (l ++ v :: r) -> live_val v = true ->
  ke ∈ l ++ v :: r -> live_key ke = true -> e_id v = e_id ke ->
  kv (l ++ kill v :: r) k' = if decide (k' = e_payload ke) then None else kv (l ++ v :: r) k'.
Proof.
  intros Hwf Hv Hke Hlk Hid. pose proof (wf_kill _ _ _ Hwf Hv) as Hwf'.
  assert (Hkeys : forall e, live_key e = true -> e ∈ l ++ kill v :: r <-> e ∈ l ++ v :: r).
  { intros e He. rewrite !elem_of_app, !elem_of_cons.
    pose proof (kill_dead_key v). pose proof (live_val_not_key v Hv). naive_solver congruence. }
  assert (Hvals : forall e, live_val e = true -> e_id e <> e_id v ->
    e ∈ l ++ kill v :: r <-> e ∈ l ++ v :: r).
  { intros e He Hne. rewrite !elem_of_app, !elem_of_cons.
    pose proof (kill_dead_val v). naive_solver congruence. }
  assert (Hgone : forall e, live_val e = true -> e ∈ l ++ kill v :: r -> e_id e <> e_id v).
  { intros e He Hin Heq. pose proof (wf_vals _ Hwf) as Hnd. autorewrite with esp in Hnd. rewrite Hv in Hnd.
    apply NoDup_app in Hnd as (_ & Hd & Hnd). apply NoDup_cons in Hnd as [Hn _].
    apply elem_of_app in Hin as [Hin|[->|Hin]%elem_of_cons].
    - apply (Hd (e_id e)); [apply elem_val_ids; eauto|]. rewrite Heq. set_solver.
    - by rewrite kill_dead_val in He.
    - apply Hn. rewrite <-Heq. apply elem_val_ids. eauto. }
  case_decide as Hk.
  - subst k'. apply kv_None; [done|]. intros b w (k1 & ve & H1 & H2 & H3 & H4 & H5 & H6 & _).
    apply (Hgone ve H5 H4). rewrite H6, Hid. f_equal.
    apply (NoDup_fmap_inv e_payload (filter (fun e => live_key e = true) (l ++ v :: r)));
      [apply wf_names, Hwf|..|done]; apply list_elem_of_filter; [|done]. split; [done|]. by apply Hkeys.
  - apply kv_ext; [done..|]. intros b w.
    split; intros (k1 & ve & H1 & H2 & H3 & H4 & H5 & H6 & H7); exists k1, ve.
    + destruct H7 as [H7 H8]. repeat split; try done; [by apply Hkeys|]. by apply Hvals; [..|apply Hgone|].
    + assert (e_id ve <> e_id v).
      { intros Heq. destruct Hk. rewrite <-H3. f_equal. apply (key_id_unique (l ++ v :: r)); [done..|congruence]. }
      destruct H7 as [H7 H8]. repeat split; try done; [by apply Hkeys|by apply Hvals].
Qed.
