(* ===== verification/SysparamProofs.v ===== *)
(** * What the internal routines of [core/sysparam.c] do

    On a flash that obeys [FlashLaws]: each routine of [Sysparam] is run and
    its result described in terms of memories and logs ([SysparamLog]). *)

From S2P Require Import Prelude CStrings Flash Sysparam SysparamLog.

Section Proofs.
Context {F : Type} `{HF : !Flash F} `{HL : !FlashLaws F}.
Implicit Types (w : world F) (f : F).

Definition wcell w : Z -> Z := flash_cell (w_flash w).
Definition with_flash w f : world F := Build_world f (w_info w) (w_alloc w) (w_live w).
Definition with_info w (i : sysparam_info) : world F := Build_world (w_flash w) i (w_alloc w) (w_live w).
Abbreviation chip_top := (chip_size sdk_flashchip).

Lemma chip_top_le : chip_top <= 2 ^ 24.
Proof. apply (geo_chip _ flash_geometry). Qed.

Lemma flash_op_Done {A} (m : M F A) w a f :
  m (w_flash w) = Done (a, f) -> flash_op m w = Done (a, with_flash w f).
Proof. intros H. unfold flash_op. by rewrite H. Qed.

Lemma read_ok w a n :
  flash_ok (w_flash w) -> 0 <= a -> 0 <= n -> a + n <= chip_top ->
  flash_op (spiflash_read a n) w = Done (Some (cells (wcell w) a n), w).
Proof. intros. erewrite flash_op_Done by (by apply flash_read_ok). by destruct w. Qed.

(** ** [_write_and_verify] *)

(** [f'] is [f] with the bytes [data] at [a]. *)
Definition stores f f' (a : Z) (data : list Z) : Prop :=
  flash_ok f' /\ forall x, flash_cell f' x = put_bytes (flash_cell f) a data x.

Lemma put_bytes_app c a l1 l2 x :
  put_bytes (put_bytes c a l1) (a + Z.of_nat (length l1)) l2 x = put_bytes c a (l1 ++ l2) x.
Proof.
  unfold put_bytes. rewrite length_app, Nat2Z.inj_add.
  destruct (a + Z.of_nat (length l1) <=? x) eqn:E1, (x <? a + Z.of_nat (length l1) + Z.of_nat (length l2)) eqn:E2,
    (a <=? x) eqn:E3, (x <? a + Z.of_nat (length l1)) eqn:E4,
    (x <? a + (Z.of_nat (length l1) + Z.of_nat (length l2))) eqn:E5; cbn; zbool; try lia; try done.
  - rewrite as_mem_app_r by lia. f_equal. lia.
  - rewrite as_mem_app_l by lia. done.
Qed.

Lemma put_bytes_ext c c' a l x : c x = c' x -> put_bytes c a l x = put_bytes c' a l x.
Proof. unfold put_bytes. by intros ->. Qed.

Lemma stores_trans f f1 f2 a l1 l2 :
  stores f f1 a l1 -> stores f1 f2 (a + Z.of_nat (length l1)) l2 -> stores f f2 a (l1 ++ l2).
Proof.
  intros [? H1] [? H2]. split; [done|]. intros x. rewrite H2, <-put_bytes_app.
  by apply put_bytes_ext.
Qed.

(** Can the bytes [data] be written over [c] at [a], clearing bits only? *)
Definition writable (c : Z -> Z) (a : Z) (data : list Z) : Prop :=
  forall i, 0 <= i < Z.of_nat (length data) -> Z.land (c (a + i)) (as_mem data i) = as_mem data i.

Lemma and_bytes_put c a data x :
  writable c a data ->
  and_bytes c a (as_mem data) (Z.of_nat (length data)) x = put_bytes c a data x.
Proof.
  intros Hw. unfold and_bytes, put_bytes. case_if; [|done]. zbool.
  specialize (Hw (x - a)). replace (a + (x - a)) with x in Hw by lia. apply Hw. lia.
Qed.

Lemma length_sub_bytes l i n :
  0 <= i -> 0 <= n -> i + n <= Z.of_nat (length l) -> Z.of_nat (length (sub_bytes l i n)) = n.
Proof. intros. unfold sub_bytes. rewrite length_take, length_drop. lia. Qed.

Lemma as_mem_sub l i n j : 0 <= i -> 0 <= j < n -> as_mem (sub_bytes l i n) j = as_mem l (i + j).
Proof. intros. unfold sub_bytes. rewrite as_mem_take, as_mem_drop by lia. done. Qed.

Lemma write_and_verify_loop_ok fuel : forall w addr data i,
  flash_ok (w_flash w) -> 0 <= addr -> 0 <= i <= Z.of_nat (length data) ->
  addr + Z.of_nat (length data) <= chip_top ->
  Z.of_nat (length data) - i < Z.of_nat fuel ->
  writable (wcell w) (addr + i) (drop (Z.to_nat i) data) ->
  exists f', write_and_verify_loop fuel addr data i w = Done (SYSPARAM_OK, with_flash w f') /\
    stores (w_flash w) f' (addr + i) (drop (Z.to_nat i) data).
Proof.
  pose proof chip_top_le as Htop. change (2 ^ 24) with 16777216 in Htop.
  induction fuel as [|fuel IH]; intros w addr data i Hok Ha Hi He Hf Hw; [lia|].
  cbn [write_and_verify_loop]. unfold BOUNCE_BUFFER_SIZE, BOUNCE_BUFFER_WORDS in *. change (3 * 4) with 12.
  set (n := Z.of_nat (length data)) in *. case_if; zbool.
  2: { exists (w_flash w). split; [by destruct w|]. split; [done|]. intros x.
       rewrite drop_ge by lia. unfold put_bytes. case_if; [|done]. zbool. cbn [length] in *. lia. }
  set (cnt := Z.min (n - i) 12). rewrite u32_small by lia. set (chunk := sub_bytes data i cnt).
  assert (Hlen : Z.of_nat (length chunk) = cnt) by (apply length_sub_bytes; lia).
  assert (Hwc : writable (wcell w) (addr + i) chunk).
  { intros j Hj. unfold chunk. rewrite as_mem_sub by lia. specialize (Hw j). rewrite length_drop in Hw.
    rewrite as_mem_drop in Hw by lia. apply Hw. lia. }
  destruct (flash_write_ok (w_flash w) (addr + i) (as_mem chunk) cnt) as (f1 & H1 & Hok1 & C1); [done|lia..|].
  run (flash_op_Done _ w _ _ H1). cbn [negb].
  assert (C1' : forall x, flash_cell f1 x = put_bytes (wcell w) (addr + i) chunk x).
  { intros x. rewrite C1, <-Hlen. by apply and_bytes_put. }
  run (read_ok (with_flash w f1) (addr + i) cnt Hok1 ltac:(lia) ltac:(lia) ltac:(lia)).
  replace (cells (wcell (with_flash w f1)) (addr + i) cnt) with chunk.
  2: { symmetry. by apply cells_of_put with (wcell w). }
  unfold bytes_eqb. rewrite bool_decide_eq_true_2 by done. cbn [negb].
  assert (Hstep : stores (w_flash w) f1 (addr + i) chunk) by done.
  assert (Hsplit : drop (Z.to_nat i) data = chunk ++ drop (Z.to_nat (i + cnt)) data).
  { unfold chunk, sub_bytes. rewrite <-(take_drop (Z.to_nat cnt) (drop (Z.to_nat i) data)) at 1.
    rewrite drop_drop. do 2 f_equal. lia. }
  assert (Hw' : writable (wcell (with_flash w f1)) (addr + (i + cnt)) (drop (Z.to_nat (i + cnt)) data)).
  { intros j Hj. unfold wcell. cbn. rewrite C1', put_bytes_out by lia.
    specialize (Hw (cnt + j)). rewrite length_drop in *. rewrite as_mem_drop in * by lia.
    replace (i + cnt + j) with (i + (cnt + j)) by lia. rewrite <-Hw at 2 by lia. f_equal. f_equal. lia. }
  destruct (decide (i + 12 <= n)) as [Hin|Hin].
  - assert (Hc : cnt = 12) by lia. rewrite Hc in *.
    destruct (IH (with_flash w f1) addr data (i + 12)) as (f2 & H2 & S2); [done|lia..|done|].
    exists f2. split; [done|]. rewrite Hsplit. apply stores_trans with f1; [done|].
    rewrite Hlen, <-Z.add_assoc. done.
  - exists f1. split.
    + destruct fuel as [|fuel]; [lia|]. cbn [write_and_verify_loop]. case_if; [zbool; lia|done].
    + rewrite Hsplit, (drop_ge data) by lia. by rewrite app_nil_r.
Qed.

Lemma write_and_verify_ok w addr data :
  flash_ok (w_flash w) -> 0 <= addr -> addr + Z.of_nat (length data) <= chip_top ->
  writable (wcell w) addr data ->
  exists f', _write_and_verify addr data w = Done (SYSPARAM_OK, with_flash w f') /\
    stores (w_flash w) f' addr data.
Proof.
  intros Hok Ha He Hw. unfold _write_and_verify.
  destruct (write_and_verify_loop_ok (S (length data)) w addr data 0) as (f' & H & S);
    [done|lia..| |].
  - rewrite drop_0, Z.add_0_r. done.
  - rewrite drop_0, Z.add_0_r in S. eauto.
Qed.

Lemma writable_erased c a data :
  (forall x, a <= x < a + Z.of_nat (length data) -> c x = 255) -> Forall byteP data -> writable c a data.
Proof. intros Hc Hd i Hi. rewrite Hc by lia. by apply land_255_l, as_mem_byte. Qed.

(** Overwriting [d1] by [d2] only clears bits when [d2] is [d1 & d2]. *)
Lemma writable_over c a d1 d2 :
  cells c a (Z.of_nat (length d1)) = d1 -> length d1 = length d2 -> zip_with Z.land d1 d2 = d2 ->
  writable c a d2.
Proof.
  intros Hc Hl Hz i Hi. rewrite (cells_lookup_eq c a _ _ (a + i) Hc) by lia.
  replace (a + i - a) with i by lia. unfold as_mem.
  destruct (lookup_lt_is_Some_2 d1 (Z.to_nat i)) as [x Hx]; [lia|].
  destruct (lookup_lt_is_Some_2 d2 (Z.to_nat i)) as [y Hy]; [lia|].
  rewrite (nth_lookup_Some d1 _ _ _ Hx), (nth_lookup_Some d2 _ _ _ Hy).
  apply (f_equal (lookup (Z.to_nat i))) in Hz. rewrite lookup_zip_with, Hx, Hy in Hz. cbn in Hz. congruence.
Qed.

Lemma zip_header i i' l :
  Z.land i i' = i' -> zip_with Z.land (enc_entry_header i l) (enc_entry_header i' l) = enc_entry_header i' l.
Proof.
  intros H. unfold enc_entry_header. rewrite zip_with_app by (by rewrite !length_le_bytes).
  by rewrite <-!le_bytes_land, H, Z.land_diag.
Qed.

Lemma land_ldiff x m : Z.land x (Z.ldiff x m) = Z.ldiff x m.
Proof.
  apply Z.bits_inj. intros n. rewrite Z.land_spec, Z.ldiff_spec.
  by destruct (Z.testbit x n), (Z.testbit m n).
Qed.

Lemma enc_header_byte i l : Forall byteP (enc_entry_header i l).
Proof. apply Forall_app; split; apply le_bytes_byte. Qed.

(** ** [_format_region] *)

Lemma format_loop_ok n : forall w addr i,
  flash_ok (w_flash w) -> 0 <= addr -> addr mod 4096 = 0 -> 0 <= i ->
  addr + (i + Z.of_nat n) * 4096 <= chip_top ->
  exists f', format_loop n addr i w = Done (SYSPARAM_OK, with_flash w f') /\ flash_ok f' /\
    forall x, flash_cell f' x = erase_bytes (wcell w) (addr + i * 4096) (Z.of_nat n * 4096) x.
Proof.
  pose proof chip_top_le as Htop. change (2 ^ 24) with 16777216 in Htop.
  induction n as [|n IH]; intros w addr i Hok Ha Hal Hi He.
  - exists (w_flash w). split; [by destruct w|]. split; [done|]. intros x. unfold erase_bytes.
    case_if; [zbool; lia|done].
  - cbn [format_loop]. unfold SPI_FLASH_SECTOR_SIZE. rewrite u32_small by lia.
    destruct (flash_erase_ok (w_flash w) (addr + i * 4096)) as (f1 & H1 & Hok1 & C1); [done|lia| |lia|].
    { by rewrite Z.mod_add by lia. }
    run (flash_op_Done _ w _ _ H1). cbn [negb].
    destruct (IH (with_flash w f1) addr (i + 1)) as (f2 & H2 & Hok2 & C2); [done|lia|done|lia..|].
    exists f2. split; [done|]. split; [done|]. intros x. rewrite C2. unfold erase_bytes, wcell. cbn [with_flash w_flash].
    rewrite C1. unfold erase_bytes.
    destruct (addr + (i + 1) * 4096 <=? x) eqn:E1, (x <? addr + (i + 1) * 4096 + Z.of_nat n * 4096) eqn:E2,
      (addr + i * 4096 <=? x) eqn:E3, (x <? addr + i * 4096 + 4096) eqn:E4,
      (x <? addr + i * 4096 + Z.of_nat (S n) * 4096) eqn:E5; cbn; zbool; try lia; done.
Qed.

Lemma format_region_ok w addr n :
  flash_ok (w_flash w) -> 0 <= addr -> addr mod 4096 = 0 -> 0 <= n -> addr + n * 4096 <= chip_top ->
  exists f', _format_region addr n w = Done (SYSPARAM_OK, with_flash w f') /\ flash_ok f' /\
    forall x, flash_cell f' x = erase_bytes (wcell w) addr (n * 4096) x.
Proof.
  intros. destruct (format_loop_ok (Z.to_nat n) w addr 0) as (f' & H' & Hok & C); [done..|lia|lia|].
  exists f'. split; [done|]. split; [done|]. intros x. rewrite C. f_equal; lia.
Qed.

(** ** Region headers *)

Lemma length_enc_region h : length (enc_region_header h) = 8%nat.
Proof. unfold enc_region_header. by rewrite !length_app, !length_le_bytes. Qed.

Lemma enc_region_byte h : Forall byteP (enc_region_header h).
Proof. unfold enc_region_header. rewrite !Forall_app. auto using le_bytes_byte. Qed.

Lemma write_region_header_ok w addr other active :
  flash_ok (w_flash w) -> 0 <= addr -> addr + 8 <= chip_top ->
  writable (wcell w) addr (enc_region_header (region_header_for addr other active)) ->
  exists f', _write_region_header addr other active w = Done (SYSPARAM_OK, with_flash w f') /\
    stores (w_flash w) f' addr (enc_region_header (region_header_for addr other active)).
Proof.
  intros Hok Ha He Hw. unfold _write_region_header.
  edestruct write_and_verify_ok as (f' & H & S); [exact Hok|exact Ha| |exact Hw|].
  { rewrite length_enc_region. lia. }
  run H. cbn. eauto.
Qed.

(** ** [_write_entry] and [_delete_entry] *)

Definition bumped (addr n : Z) (i : sysparam_info) : sysparam_info :=
  if end_addr i =? addr then set_end_addr (u32 (end_addr i + n)) i else i.

Lemma enc_mk_entry id payload :
  enc_entry (mk_entry id payload) = enc_entry_header (written_flags id) (Z.of_nat (length payload)) ++ payload.
Proof. done. Qed.

Lemma put_header_again c a h1 h2 p x :
  length h1 = length h2 ->
  put_bytes (put_bytes (put_bytes c a h1) (a + Z.of_nat (length h1)) p) a h2 x = put_bytes c a (h2 ++ p) x.
Proof.
  intros Hl. rewrite <-put_bytes_app, <-Hl. unfold put_bytes. rewrite <-Hl.
  destruct (a <=? x) eqn:E1, (x <? a + Z.of_nat (length h1)) eqn:E2; cbn; try done.
  destruct (a + Z.of_nat (length h1) <=? x) eqn:E3; cbn; [zbool; lia|done].
Qed.

Lemma write_entry_ok w addr id payload :
  flash_ok (w_flash w) -> 0 <= addr -> addr + 4 + Z.of_nat (length payload) <= chip_top ->
  Forall byteP payload ->
  (forall x, addr <= x < addr + 4 + Z.of_nat (length payload) -> wcell w x = 255) ->
  exists f', _write_entry addr id payload (Z.of_nat (length payload)) w =
      Done (SYSPARAM_OK, with_info (with_flash w f')
        (bumped addr (ENTRY_SIZE (Z.of_nat (length payload))) (w_info w))) /\
    stores (w_flash w) f' addr (enc_entry (mk_entry id payload)).
Proof.
  pose proof chip_top_le as Htop. change (2 ^ 24) with 16777216 in Htop.
  intros Hok Ha He Hp Hc. unfold _write_entry, ENTRY_HEADER_SIZE.
  set (n := Z.of_nat (length payload)) in *.
  set (fl := Z.lor (Z.lor id ENTRY_FLAG_ALIVE) ENTRY_FLAG_INVALID).
  set (h1 := enc_entry_header fl n).
  assert (Hl1 : length h1 = 4%nat) by apply length_enc_header.
  destruct (write_and_verify_ok w addr h1) as (f1 & H1 & Hok1 & C1); [done|lia|lia| |].
  { apply writable_erased; [|apply enc_header_byte]. intros. apply Hc. lia. }
  run H1. cbn [is_ok status_code Z.eqb negb]. erewrite bind_Done by reflexivity.
  set (w2 := Build_world _ _ _ _).
  rewrite u32_small by lia. rewrite take_ge by (subst n; lia).
  destruct (write_and_verify_ok w2 (addr + 4) payload) as (f2 & H2 & Hok2 & C2); [done|lia|lia| |].
  { apply writable_erased; [|done]. intros x Hx. unfold wcell. cbn. rewrite C1, put_bytes_out by lia.
    apply Hc. lia. }
  run H2. cbn [is_ok status_code Z.eqb negb].
  set (h2 := enc_entry_header (Z.ldiff fl ENTRY_FLAG_INVALID) n).
  assert (Hl2 : length h2 = 4%nat) by apply length_enc_header.
  destruct (write_and_verify_ok (with_flash w2 f2) addr h2) as (f3 & H3 & Hok3 & C3); [done|lia|lia| |].
  { apply writable_over with h1; [|congruence|by apply zip_header, land_ldiff].
    transitivity (cells (put_bytes (flash_cell (w_flash w)) addr h1) addr (Z.of_nat (length h1)));
      [|apply cells_put].
    apply cells_ext. intros x Hx. unfold wcell. cbn. rewrite C2, put_bytes_out by lia. apply C1. }
  exists f3. split; [exact H3|]. split; [done|]. intros x. rewrite C3. rewrite enc_mk_entry.
  change (written_flags id) with (Z.ldiff fl ENTRY_FLAG_INVALID).
  change (enc_entry_header (Z.ldiff fl ENTRY_FLAG_INVALID) (Z.of_nat (length payload))) with h2.
  rewrite <-(put_header_again _ _ h1 h2) by congruence. apply put_bytes_ext. rewrite Hl1. cbn. rewrite C2.
  apply put_bytes_ext. cbn. apply C1.
Qed.

Lemma delete_entry_ok w addr e :
  flash_ok (w_flash w) -> 0 <= addr -> addr + e_size e <= chip_top -> entry_ok e ->
  cells (wcell w) addr (e_size e) = enc_entry e ->
  exists f', _delete_entry addr w = Done (SYSPARAM_OK, with_flash w f') /\ flash_ok f' /\
    cells (flash_cell f') addr (e_size e) = enc_entry (kill e) /\
    forall x, x < addr \/ addr + e_size e <= x -> flash_cell f' x = wcell w x.
Proof.
  intros Hok Ha He Hent Hc. unfold _delete_entry, ENTRY_HEADER_SIZE. pose proof (e_size_pos e) as Hs.
  run (read_ok w addr 4 Hok Ha ltac:(lia) ltac:(lia)). rewrite (entry_header_dec _ _ e) by done.
  set (h := enc_entry_header (Z.ldiff (e_idflags e) ENTRY_FLAG_ALIVE) (e_len e)).
  assert (Hl : length h = 4%nat) by apply length_enc_header.
  destruct (write_and_verify_ok w addr h) as (f' & H' & Hok' & C'); [done|lia|lia| |].
  { apply writable_over with (enc_entry_header (e_idflags e) (e_len e)).
    - rewrite length_enc_header. by apply entry_cells_header.
    - by rewrite Hl, length_enc_header.
    - apply zip_header, land_ldiff. }
  exists f'. split; [done|]. split; [done|]. split.
  - unfold enc_entry. rewrite kill_size || idtac. unfold e_size, ENTRY_SIZE, ENTRY_HEADER_SIZE.
    rewrite cells_app by (unfold e_len; lia). f_equal.
    + apply cells_of_put with (wcell w); [done|]. by rewrite length_enc_header.
    + cbn [kill e_payload]. rewrite <-(entry_cells_payload _ _ _ Hc). apply cells_ext. intros x Hx.
      rewrite C'. apply put_bytes_out. lia.
  - intros x Hx. rewrite C'. apply put_bytes_out. lia.
Qed.

End Proofs.
