(* ===== verification/SysparamScan.v ===== *)
(** * Scanning the log

    [_find_entry], [_compare_payload], [_find_key], [_find_value] and the
    iterator of [core/sysparam.c], run on a region that holds a log: each is
    shown to terminate within its iteration bound and to compute a search of
    the list of entries. *)

From S2P Require Import Prelude CStrings Flash Sysparam SysparamLog SysparamProofs.

(** Reduce the projections of updated states, nothing else. *)
Ltac wcbn := cbn [with_info with_flash w_info w_flash w_alloc w_live set_end_addr set_sem set_bases
  set_force_compact set_region_size cur_base alt_base end_addr region_size force_compact sem] in *.

(** ** The search, as a function of the log *)

(** The context after the entry [e] at address [a] was visited. *)
Definition visited (ctx : sysparam_context) (a : Z) (e : entry) : sysparam_context :=
  fst (visit_entry (set_entry (e_idflags e) (e_len e) (set_addr a ctx)) 0 false).

Fixpoint visits (ctx : sysparam_context) (a : Z) (es : list entry) : sysparam_context :=
  match es with
  | [] => ctx
  | e :: es => visits (visited ctx a e) (a + e_size e) es
  end.

(** Is [e] an entry [_find_entry(ctx, match_id, find_value)] stops at? *)
Definition matches (match_id : Z) (find_value : bool) (e : entry) : bool :=
  (if find_value then live_val e else live_key e) && ((e_id e =? match_id) || (match_id =? ENTRY_ID_ANY)).

(** The context once the scan has run past the last entry, at address [a]. *)
Definition end_ctx (c : Z -> Z) (top : Z) (ctx : sysparam_context) (a : Z) : sysparam_context :=
  if a =? top then set_addr a ctx
  else let '(i, l) := dec_entry_header (cells c a 4) in set_entry i l (set_addr a ctx).

Lemma visit_entry_fst ctx m fv m' fv' : fst (visit_entry ctx m fv) = fst (visit_entry ctx m' fv').
Proof. unfold visit_entry. repeat case_if; done. Qed.

Lemma visit_entry_snd ctx a e m fv :
  snd (visit_entry (set_entry (e_idflags e) (e_len e) (set_addr a ctx)) m fv) = matches m fv e.
Proof.
  unfold visit_entry, matches, live_val, live_key, e_live, e_value, e_id. cbn [c_idflags set_entry].
  destruct (Z.land (e_idflags e) (Z.lor _ _) =? _); cbn; [|by destruct fv].
  destruct (Z.land (e_idflags e) ENTRY_FLAG_VALUE =? 0); cbn; by destruct fv.
Qed.

Lemma visit_entry_eq ctx a e m fv :
  visit_entry (set_entry (e_idflags e) (e_len e) (set_addr a ctx)) m fv = (visited ctx a e, matches m fv e).
Proof.
  rewrite (surjective_pairing (visit_entry _ _ _)), visit_entry_snd. f_equal. apply visit_entry_fst.
Qed.

Lemma visited_addr ctx a e : c_addr (visited ctx a e) = a.
Proof. unfold visited, visit_entry. repeat case_if; done. Qed.
Lemma visited_idflags ctx a e : c_idflags (visited ctx a e) = e_idflags e.
Proof. unfold visited, visit_entry. repeat case_if; done. Qed.
Lemma visited_len ctx a e : c_len (visited ctx a e) = e_len e.
Proof. unfold visited, visit_entry. repeat case_if; done. Qed.
#[export] Hint Rewrite visited_addr visited_idflags visited_len : esp.

Lemma visits_app ctx a l r : visits ctx a (l ++ r) = visits (visits ctx a l) (a + log_size l) r.
Proof.
  revert ctx a. induction l as [|e l IH]; intros ctx a; cbn [app visits]; [by rewrite Z.add_0_r|].
  by rewrite IH, log_size_cons, Z.add_assoc.
Qed.

Lemma visits_snoc ctx a l e : visits ctx a (l ++ [e]) = visited (visits ctx a l) (a + log_size l) e.
Proof. by rewrite visits_app. Qed.

(** *** The counters *)

Definition count_live (es : list entry) : Z :=
  foldr (fun e n => (if live_key e then 1 else if live_val e then -1 else 0) + n) 0 es.
Definition dead_size (es : list entry) : Z :=
  foldr (fun e n => (if e_live e then 0 else e_size e) + n) 0 es.
Definition last_key_id (d : Z) (es : list entry) : Z := default d (last (key_ids es)).

Lemma visited_counters ctx a e :
  c_unused_keys (visited ctx a e) =
    c_unused_keys ctx + (if live_key e then 1 else if live_val e then -1 else 0) /\
  (0 <= c_compactable ctx -> c_compactable ctx + e_size e < 2 ^ 32 ->
   c_compactable (visited ctx a e) = c_compactable ctx + (if e_live e then 0 else e_size e)) /\
  c_max_key_id (visited ctx a e) = if live_key e then e_id e else c_max_key_id ctx.
Proof.
  unfold visited, visit_entry, live_key, live_val, e_live, e_value, e_id. cbn [c_idflags set_entry].
  destruct (Z.land (e_idflags e) (Z.lor _ _) =? _) eqn:E1; cbn.
  - destruct (Z.land (e_idflags e) ENTRY_FLAG_VALUE =? 0); cbn; (split; [lia|split; [intros; lia|done]]).
  - split; [lia|]. split; [|done]. intros. rewrite u32_small; [done|].
    pose proof (e_size_pos e). unfold e_size, e_len in *. lia.
Qed.

Lemma visits_unused ctx a es : c_unused_keys (visits ctx a es) = c_unused_keys ctx + count_live es.
Proof.
  revert ctx a. induction es as [|e es IH]; intros ctx a; cbn [visits]; [cbn; lia|].
  rewrite IH. destruct (visited_counters ctx a e) as (-> & _). unfold count_live. cbn [foldr]. lia.
Qed.

Lemma dead_size_bounds es : 0 <= dead_size es <= log_size es.
Proof.
  induction es as [|e es IH]; [done|]. rewrite log_size_cons. cbn [dead_size foldr].
  change (foldr _ 0 es) with (dead_size es). pose proof (e_size_pos e). case_if; lia.
Qed.

Lemma visits_compactable ctx a es :
  0 <= c_compactable ctx -> c_compactable ctx + log_size es < 2 ^ 32 ->
  c_compactable (visits ctx a es) = c_compactable ctx + dead_size es.
Proof.
  revert ctx a. induction es as [|e es IH]; intros ctx a H1 H2; cbn [visits]; [cbn; lia|].
  rewrite log_size_cons in H2. pose proof (e_size_pos e). pose proof (log_size_nonneg es).
  destruct (visited_counters ctx a e) as (_ & Hc & _).
  rewrite IH; rewrite Hc by lia; [|case_if; lia..]. unfold dead_size. cbn [foldr]. lia.
Qed.

Lemma visits_max_key ctx a es : c_max_key_id (visits ctx a es) = last_key_id (c_max_key_id ctx) es.
Proof.
  revert ctx a. induction es as [|e es IH]; intros ctx a; [done|]. cbn [visits].
  rewrite IH. destruct (visited_counters ctx a e) as (_ & _ & ->). unfold last_key_id.
  rewrite key_ids_cons. case_if; [|done]. cbn [app]. by rewrite last_cons; destruct (last (key_ids es)).
Qed.

(** ** Running the scan *)

Section Scan.
Context {F : Type} `{HF : !Flash F} `{HL : !FlashLaws F}.
Implicit Types (w : world F) (f : F).

(** The two regions: adjacent, sector aligned, inside the chip with one
    region's worth of flash above them. *)
Record info_ok (i : sysparam_info) : Prop := {
  io_cur : 0 < cur_base i;
  io_alt : 0 < alt_base i;
  io_cur_al : cur_base i mod 4096 = 0;
  io_alt_al : alt_base i mod 4096 = 0;
  io_size : exists n, region_size i = n * 4096 /\ 1 <= n <= REGION_MASK_SIZE;
  io_adj : alt_base i = cur_base i + region_size i \/ cur_base i = alt_base i + region_size i;
  io_chip : Z.max (cur_base i) (alt_base i) + 2 * region_size i <= chip_size sdk_flashchip;
}.

Definition region_top (i : sysparam_info) : Z := cur_base i + region_size i.

(** The active region holds the log [es] and is blank behind it. *)
Record region_holds w (es : list entry) : Prop := {
  rh_flash : flash_ok (w_flash w);
  rh_info : info_ok (w_info w);
  rh_log : log_at (wcell w) (cur_base (w_info w) + 8) es;
  rh_end : end_addr (w_info w) = cur_base (w_info w) + 8 + log_size es;
  rh_fits : end_addr (w_info w) <= region_top (w_info w);
  rh_blank : forall x, end_addr (w_info w) <= x < region_top (w_info w) -> wcell w x = 255;
  rh_last : end_addr (w_info w) + 1 <> region_top (w_info w);
  rh_entries : Forall entry_ok es;
}.

(** The bounds [lia] needs about a region. *)
Lemma region_bounds w es :
  region_holds w es ->
  4096 <= region_size (w_info w) /\ region_size (w_info w) = region_top (w_info w) - cur_base (w_info w) /\
  0 < cur_base (w_info w) /\ region_top (w_info w) + region_size (w_info w) <= chip_size sdk_flashchip /\
  chip_size sdk_flashchip <= 16777216 /\ 0 <= log_size es /\
  end_addr (w_info w) = cur_base (w_info w) + 8 + log_size es /\ end_addr (w_info w) <= region_top (w_info w).
Proof.
  intros H. pose proof (rh_end _ _ H). pose proof (rh_fits _ _ H). destruct (rh_info _ _ H) as [? ? ? ? (n & ? & ?) ? ?].
  pose proof chip_top_le as Ht. change (2 ^ 24) with 16777216 in Ht. pose proof (log_size_nonneg es).
  unfold region_top in *. lia.
Qed.

(** The next entry [_find_entry] reads from [ctx] lies at [a]. *)
Definition at_pos w (ctx : sysparam_context) (a : Z) : Prop :=
  (c_addr ctx = cur_base (w_info w) /\ a = cur_base (w_info w) + 8) \/
  (c_addr ctx <> cur_base (w_info w) /\ c_addr ctx + ENTRY_SIZE (c_len ctx) = a).

Lemma at_pos_visited w es l e r ctx :
  region_holds w es -> es = l ++ e :: r ->
  at_pos w (visited ctx (cur_base (w_info w) + 8 + log_size l) e)
    (cur_base (w_info w) + 8 + log_size (l ++ [e])).
Proof.
  intros H ->. right. autorewrite with esp. rewrite log_size_app, log_size_cons. cbn [log_size foldr].
  pose proof (log_size_nonneg l). unfold e_size. split; lia.
Qed.

(** At the end of the log the scan reads the unwritten mark. *)
Lemma blank_header w es :
  region_holds w es -> end_addr (w_info w) <> region_top (w_info w) ->
  fst (dec_entry_header (cells (wcell w) (end_addr (w_info w)) 4)) = 65535.
Proof.
  intros H Hne. pose proof (region_bounds _ _ H). pose proof (rh_last _ _ H).
  rewrite !cells_cons by lia. cbn. rewrite !(rh_blank _ _ H) by lia. done.
Qed.

(** One step of the scan over an entry of the log. *)
Lemma find_entry_step w es l e r fuel ctx m fv :
  region_holds w es -> es = l ++ e :: r -> at_pos w ctx (cur_base (w_info w) + 8 + log_size l) ->
  find_entry_loop (S fuel) ctx m fv w =
    let ctx' := visited ctx (cur_base (w_info w) + 8 + log_size l) e in
    if matches m fv e then Done (SYSPARAM_OK, ctx', w) else find_entry_loop fuel ctx' m fv w.
Proof.
  intros H Hes Hpos. unfold at_pos in Hpos. pose proof (region_bounds _ _ H) as B. set (i := w_info w) in *.
  remember (cur_base i + 8 + log_size l) as a eqn:Hadef.
  pose proof (log_size_nonneg l). pose proof (log_size_nonneg r). pose proof (e_size_pos e).
  assert (Hsz : log_size es = log_size l + e_size e + log_size r)
    by (rewrite Hes, log_size_app, log_size_cons; lia).
  assert (He : entry_ok e).
  { pose proof (rh_entries _ _ H) as Hf. rewrite Hes in Hf. apply Forall_app in Hf as [_ Hf].
    by apply Forall_cons in Hf as [? _]. }
  assert (Hc : cells (wcell w) a (e_size e) = enc_entry e).
  { pose proof (rh_log _ _ H) as Hlog. rewrite Hes in Hlog. apply log_at_app in Hlog as [_ [Hc _]].
    by rewrite Hadef. }
  assert (Ha : set_addr (if c_addr ctx =? cur_base i then u32 (c_addr ctx + REGION_HEADER_SIZE)
                         else u32 (c_addr ctx + ENTRY_SIZE (c_len ctx))) ctx = set_addr a ctx).
  { f_equal. unfold REGION_HEADER_SIZE. case_if; zbool; destruct Hpos as [[? ?]|[? ?]]; try lia;
      rewrite u32_small by lia; lia. }
  cbn [find_entry_loop]. erewrite bind_Done by reflexivity. fold i.
  rewrite Ha. unfold region_top in *. rewrite (u32_small (cur_base i + region_size i)) by lia.
  assert (E1 : negb (c_addr ctx =? cur_base i) &&
    (cur_base i + region_size i <? u32 (c_addr ctx + ENTRY_SIZE (c_len ctx))) = false).
  { destruct Hpos as [[-> _]|[? Hn]]; [by rewrite Z.eqb_refl|].
    rewrite Hn, u32_small by lia. apply andb_false_intro2. lia. }
  rewrite E1. cbn [c_addr set_addr].
  assert (E2 : negb (c_addr ctx =? cur_base i) && (a =? cur_base i + region_size i) = false).
  { apply andb_false_intro2. lia. }
  rewrite E2. unfold ENTRY_HEADER_SIZE.
  run (read_ok w a 4 (rh_flash _ _ H) ltac:(lia) ltac:(lia) ltac:(lia)).
  rewrite (entry_header_dec _ _ _ He Hc). destruct He as (Hr & _ & _).
  rewrite (proj2 (Z.eqb_neq _ _)) by lia. rewrite visit_entry_eq. cbn zeta. by case_if.
Qed.

(** The last step: past the log. *)
Lemma find_entry_end w es fuel ctx m fv :
  region_holds w es -> at_pos w ctx (end_addr (w_info w)) ->
  find_entry_loop (S fuel) ctx m fv w =
    Done (find_entry_break (end_ctx (wcell w) (region_top (w_info w)) ctx (end_addr (w_info w))) m, w).
Proof.
  intros H Hpos. unfold at_pos in Hpos. pose proof (region_bounds _ _ H) as B. set (i := w_info w) in *.
  assert (Ha : set_addr (if c_addr ctx =? cur_base i then u32 (c_addr ctx + REGION_HEADER_SIZE)
                         else u32 (c_addr ctx + ENTRY_SIZE (c_len ctx))) ctx = set_addr (end_addr i) ctx).
  { f_equal. unfold REGION_HEADER_SIZE. case_if; zbool; destruct Hpos as [[? ?]|[? ?]]; try lia;
      rewrite u32_small by lia; lia. }
  cbn [find_entry_loop]. erewrite bind_Done by reflexivity. fold i.
  rewrite Ha. unfold end_ctx, region_top in *. rewrite (u32_small (cur_base i + region_size i)) by lia.
  assert (E1 : negb (c_addr ctx =? cur_base i) &&
    (cur_base i + region_size i <? u32 (c_addr ctx + ENTRY_SIZE (c_len ctx))) = false).
  { destruct Hpos as [[-> _]|[? Hn]]; [by rewrite Z.eqb_refl|].
    rewrite Hn, u32_small by lia. apply andb_false_intro2. lia. }
  rewrite E1. cbn [c_addr set_addr].
  destruct (end_addr i =? cur_base i + region_size i) eqn:E2; zbool.
  - assert (negb (c_addr ctx =? cur_base i) = true) as ->; [|done].
    apply negb_true_iff. destruct Hpos as [[? ?]|[? ?]]; lia.
  - rewrite andb_false_r. unfold ENTRY_HEADER_SIZE.
    run (read_ok w (end_addr i) 4 (rh_flash _ _ H) ltac:(lia) ltac:(lia) ltac:(lia)).
    pose proof (blank_header _ _ H E2) as Hb. fold i in Hb.
    destruct (dec_entry_header (cells (wcell w) (end_addr i) 4)) as [id l]. cbn in Hb. by subst id.
Qed.

(** The scan finds the first matching entry of the rest of the log... *)
Lemma find_entry_loop_found fuel w es l m fv e r :
  region_holds w es -> forall k ctx, es = k ++ l ++ e :: r ->
  at_pos w ctx (cur_base (w_info w) + 8 + log_size k) ->
  Forall (fun x => matches m fv x = false) l -> matches m fv e = true -> (length l < fuel)%nat ->
  find_entry_loop fuel ctx m fv w =
    Done (SYSPARAM_OK, visits ctx (cur_base (w_info w) + 8 + log_size k) (l ++ [e]), w).
Proof.
  intros H. revert fuel. induction l as [|x l IH]; intros fuel k ctx Hes Hpos Hl He Hf.
  - destruct fuel as [|fuel]; [cbn in Hf; lia|]. rewrite (find_entry_step w es k e r) by done.
    cbn zeta. by rewrite He.
  - destruct fuel as [|fuel]; [cbn in Hf; lia|]. apply Forall_cons in Hl as [Hx Hl].
    rewrite (find_entry_step w es k x (l ++ e :: r)) by done. cbn zeta. rewrite Hx.
    rewrite (IH fuel (k ++ [x])); [|by rewrite <-app_assoc| |done|done|cbn in Hf; lia].
    + cbn [app visits]. rewrite log_size_app, log_size_cons. cbn [log_size foldr].
      by rewrite Z.add_0_r, Z.add_assoc.
    + by apply at_pos_visited with es (l ++ e :: r).
Qed.

(** ... or runs to its end. *)
Lemma find_entry_loop_none fuel w es l m fv :
  region_holds w es -> forall k ctx, es = k ++ l ->
  at_pos w ctx (cur_base (w_info w) + 8 + log_size k) ->
  Forall (fun x => matches m fv x = false) l -> (length l < fuel)%nat ->
  find_entry_loop fuel ctx m fv w =
    Done (find_entry_break (end_ctx (wcell w) (region_top (w_info w))
      (visits ctx (cur_base (w_info w) + 8 + log_size k) l) (end_addr (w_info w))) m, w).
Proof.
  intros H. revert fuel. induction l as [|x l IH]; intros fuel k ctx Hes Hpos Hl Hf;
    (destruct fuel as [|fuel]; [cbn in Hf; lia|]).
  - rewrite app_nil_r in Hes. subst k. apply (find_entry_end w es); [done|].
    by rewrite (rh_end _ _ H).
  - apply Forall_cons in Hl as [Hx Hl].
    rewrite (find_entry_step w es k x l) by done. cbn zeta. rewrite Hx.
    rewrite (IH fuel (k ++ [x])); [|by rewrite <-app_assoc| |done|cbn in Hf; lia].
    + cbn [visits]. rewrite log_size_app, log_size_cons. cbn [log_size foldr].
      by rewrite Z.add_0_r, Z.add_assoc.
    + by apply at_pos_visited with es l.
Qed.

(** The iteration bound is never reached. *)
Lemma scan_fuel_enough w es k l : region_holds w es -> es = k ++ l -> (length l + 2 < scan_fuel (w_info w))%nat.
Proof.
  intros H ->. pose proof (region_bounds _ _ H) as B. pose proof (log_size_length (k ++ l)) as Hl.
  rewrite length_app in Hl. unfold scan_fuel, region_top in *.
  assert (Z.of_nat (length l) + 2 < region_size (w_info w) / 4 + 4); [|lia].
  divlia.
Qed.

Lemma find_entry_found w es k l e r ctx m fv :
  region_holds w es -> es = k ++ l ++ e :: r ->
  at_pos w ctx (cur_base (w_info w) + 8 + log_size k) ->
  Forall (fun x => matches m fv x = false) l -> matches m fv e = true ->
  _find_entry ctx m fv w =
    Done (SYSPARAM_OK, visits ctx (cur_base (w_info w) + 8 + log_size k) (l ++ [e]), w).
Proof.
  intros H Hes Hpos Hl He. unfold _find_entry. erewrite bind_Done by reflexivity.
  apply (find_entry_loop_found _ w es l m fv e r); try done.
  pose proof (scan_fuel_enough w es k (l ++ e :: r) H Hes) as Hf. rewrite length_app in Hf. lia.
Qed.

Lemma find_entry_none w es k l ctx m fv :
  region_holds w es -> es = k ++ l ->
  at_pos w ctx (cur_base (w_info w) + 8 + log_size k) ->
  Forall (fun x => matches m fv x = false) l ->
  _find_entry ctx m fv w =
    Done (find_entry_break (end_ctx (wcell w) (region_top (w_info w))
      (visits ctx (cur_base (w_info w) + 8 + log_size k) l) (end_addr (w_info w))) m, w).
Proof.
  intros H Hes Hpos Hl. unfold _find_entry. erewrite bind_Done by reflexivity.
  apply (find_entry_loop_none _ w es l m fv); try done.
  pose proof (scan_fuel_enough w es k l H Hes). lia.
Qed.

(** The entry [e] of the log, and where it lies. *)
Lemma entry_on_flash w es k e r :
  region_holds w es -> es = k ++ e :: r ->
  let a := cur_base (w_info w) + 8 + log_size k in
  cells (wcell w) a (e_size e) = enc_entry e /\ entry_ok e /\
  cur_base (w_info w) + 8 <= a /\ a + e_size e <= end_addr (w_info w).
Proof.
  intros H Hes. cbn zeta. pose proof (region_bounds _ _ H) as B.
  pose proof (rh_log _ _ H) as Hlog. pose proof (rh_entries _ _ H) as Hf. rewrite Hes in Hlog, Hf.
  apply log_at_app in Hlog as [_ [Hc _]]. apply Forall_app in Hf as [_ Hf]. apply Forall_cons in Hf as [He _].
  assert (Hsz : log_size es = log_size k + e_size e + log_size r)
    by (rewrite Hes, log_size_app, log_size_cons; lia).
  pose proof (log_size_nonneg k). pose proof (log_size_nonneg r).
  split; [done|]. split; [done|]. lia.
Qed.

(** ** Comparing a payload *)

Lemma sub_bytes_prefix l n i c :
  0 <= i -> 0 <= c -> i + c <= n -> sub_bytes (take (Z.to_nat n) l) i c = sub_bytes l i c.
Proof.
  intros. unfold sub_bytes. rewrite skipn_firstn_comm, take_take. f_equal. lia.
Qed.

Lemma sub_bytes_cells c a n i m :
  0 <= i -> 0 <= m -> i + m <= n -> sub_bytes (cells c a n) i m = cells c (a + i) m.
Proof.
  intros. replace n with (i + (m + (n - i - m))) by lia.
  rewrite cells_app by lia. unfold sub_bytes.
  rewrite drop_app_length' by (by rewrite length_cells). rewrite cells_app by lia.
  by rewrite take_app_length' by (by rewrite length_cells).
Qed.

(** Split a comparison of tails at the next bounce buffer. *)
Lemma drop_split (l l' : list Z) i c :
  0 <= i -> 0 <= c ->
  drop (Z.to_nat i) l = drop (Z.to_nat i) l' <->
  sub_bytes l i c = sub_bytes l' i c /\ drop (Z.to_nat (i + c)) l = drop (Z.to_nat (i + c)) l'.
Proof.
  intros Hi Hc. unfold sub_bytes. rewrite Z2Nat.inj_add by done. rewrite <-!drop_drop. split.
  - intros ->. done.
  - intros [H1 H2]. rewrite <-(take_drop (Z.to_nat c) (drop (Z.to_nat i) l)).
    rewrite <-(take_drop (Z.to_nat c) (drop (Z.to_nat i) l')). congruence.
Qed.

Lemma compare_loop_ok fuel w a p value i :
  flash_ok (w_flash w) -> 0 <= a -> a + Z.of_nat (length p) <= chip_size sdk_flashchip ->
  cells (wcell w) a (Z.of_nat (length p)) = p -> length p = length value ->
  0 <= i -> Z.max 0 (Z.of_nat (length p) - i) < Z.of_nat fuel ->
  compare_loop fuel a value (Z.of_nat (length p)) i w =
    Done (if bool_decide (drop (Z.to_nat i) value = drop (Z.to_nat i) p) then SYSPARAM_OK else SYSPARAM_NOTFOUND, w).
Proof.
  intros Hok Ha Htop Hp Hl. pose proof chip_top_le as Ht. change (2 ^ 24) with 16777216 in Ht.
  revert i. induction fuel as [|fuel IH]; intros i Hi Hf.
  - cbn in Hf. lia.
  - cbn [compare_loop]. unfold BOUNCE_BUFFER_SIZE, BOUNCE_BUFFER_WORDS. change (3 * 4) with 12.
    case_if; zbool.
    + set (c := Z.min (Z.of_nat (length p) - i) 12). rewrite u32_small by lia.
      run (read_ok w (a + i) c Hok ltac:(lia) ltac:(lia) ltac:(lia)).
      rewrite <-(sub_bytes_cells _ a (Z.of_nat (length p))), Hp by lia. unfold bytes_eqb.
      destruct (decide (sub_bytes value i c = sub_bytes p i c)) as [E|E].
      * rewrite (bool_decide_eq_true_2 _ E). cbn [negb].
        assert (Hcn : c = 12 \/ i + c = Z.of_nat (length p)) by lia.
        rewrite IH by lia. assert (Hiff : drop (Z.to_nat (i + 12)) value = drop (Z.to_nat (i + 12)) p <->
                                          drop (Z.to_nat i) value = drop (Z.to_nat i) p).
        { rewrite (drop_split value p i c) by lia. destruct Hcn as [Hcn|Hcn]; [rewrite Hcn in *; naive_solver|].
          rewrite !(drop_ge _ (Z.to_nat (i + 12))) by lia. rewrite !(drop_ge _ (Z.to_nat (i + c))) by lia.
          naive_solver. }
        by rewrite (bool_decide_ext _ _ Hiff).
      * rewrite (bool_decide_eq_false_2 _ E). cbn [negb].
        rewrite bool_decide_eq_false_2; [done|]. rewrite (drop_split value p i c) by lia. naive_solver.
    + rewrite !drop_ge by lia. by rewrite bool_decide_eq_true_2.
Qed.

Lemma compare_loop_prefix fuel : forall w a value n i,
  0 <= i -> compare_loop fuel a (take (Z.to_nat n) value) n i w = compare_loop fuel a value n i w.
Proof.
  induction fuel as [|fuel IH]; intros w a value n i Hi; [done|]. cbn [compare_loop].
  unfold BOUNCE_BUFFER_SIZE, BOUNCE_BUFFER_WORDS. change (3 * 4) with 12. case_if; [|done]. zbool.
  unfold bind. destruct (flash_op _ w) as [[[b|] w']| |]; try done.
  rewrite sub_bytes_prefix by lia. case_if; [done|]. apply IH. lia.
Qed.

(** [_compare_payload] at the entry [e] tests equality with its payload. *)
Lemma compare_payload_ok w es k e r ctx value n :
  region_holds w es -> es = k ++ e :: r ->
  c_addr ctx = cur_base (w_info w) + 8 + log_size k -> c_len ctx = e_len e ->
  0 <= n <= Z.of_nat (length value) ->
  _compare_payload ctx value n w =
    Done (if bool_decide (take (Z.to_nat n) value = e_payload e) then SYSPARAM_OK else SYSPARAM_NOTFOUND, w).
Proof.
  intros H Hes Hca Hcl Hn. pose proof (region_bounds _ _ H) as B.
  destruct (entry_on_flash w es k e r H Hes) as (Hc & He & Hlo & Hhi). rewrite <-Hca in *.
  pose proof (e_size_pos e). unfold _compare_payload. rewrite Hcl. unfold e_size, ENTRY_SIZE, ENTRY_HEADER_SIZE in *.
  case_if; zbool.
  - rewrite bool_decide_eq_false_2; [done|]. intros Heq. apply (f_equal length) in Heq.
    rewrite length_take in Heq. unfold e_len in *. lia.
  - rewrite <-compare_loop_prefix, u32_small by (unfold e_len in *; lia). unfold e_len in *. subst n.
    rewrite Nat2Z.id. assert (Hlt : length (take (length (e_payload e)) value) = length (e_payload e))
      by (rewrite length_take; lia).
    rewrite compare_loop_ok with (p := e_payload e); [done|apply (rh_flash _ _ H)|lia|lia| |lia|lia|lia].
    apply (entry_cells_payload _ _ _ Hc).
Qed.

(** ** Finding a key *)

Lemma matches_any e : matches ENTRY_ID_ANY false e = live_key e.
Proof. unfold matches. cbn. by rewrite orb_true_r, andb_true_r. Qed.

Lemma matches_val i e : 0 <= i <= ENTRY_MASK_ID -> matches i true e = live_val e && (e_id e =? i).
Proof.
  intros Hi. unfold matches, ENTRY_MASK_ID in *. rewrite (proj2 (Z.eqb_neq i ENTRY_ID_ANY)).
  - by rewrite orb_false_r.
  - unfold ENTRY_ID_ANY. lia.
Qed.

(** Does [e] stop the search for the key [key]? *)
Definition names (key : option (list Z)) (e : entry) : bool :=
  live_key e && match key with None => true | Some k => bool_decide (e_payload e = k) end.

Definition key_len_of (key : option (list Z)) : Z :=
  match key with None => 0 | Some k => Z.of_nat (length k) end.

(** The context a failed search leaves. *)
Definition miss_ctx w (ctx : sysparam_context) : sysparam_context :=
  set_entry 0 0 (end_ctx (wcell w) (region_top (w_info w)) ctx (end_addr (w_info w))).

(** One round of [_find_key]: the next live key [e], its name tested. *)
Lemma find_key_step fuel w es k l e r ctx key :
  region_holds w es -> es = k ++ l ++ e :: r ->
  at_pos w ctx (cur_base (w_info w) + 8 + log_size k) ->
  Forall (fun x => live_key x = false) l -> live_key e = true ->
  find_key_loop (S fuel) ctx key (key_len_of key) w =
    let ctx' := visits ctx (cur_base (w_info w) + 8 + log_size k) (l ++ [e]) in
    if names key e then Done (SYSPARAM_OK, ctx', w)
    else find_key_loop fuel ctx' key (key_len_of key) w.
Proof.
  intros H Hes Hpos Hl He. cbn [find_key_loop].
  run (find_entry_found w es k l e r ctx ENTRY_ID_ANY false H Hes Hpos
    ltac:(eapply Forall_impl; [exact Hl|]; intros x Hx; by rewrite matches_any)
    ltac:(by rewrite matches_any)).
  cbn zeta. set (ctx' := visits _ _ _). unfold names. rewrite He. cbn [andb is_ok status_code Z.eqb negb].
  destruct key as [key|]; [|done]. cbn [key_len_of].
  assert (Hc : c_addr ctx' = cur_base (w_info w) + 8 + log_size (k ++ l) /\ c_len ctx' = e_len e).
  { subst ctx'. rewrite visits_snoc. autorewrite with esp. rewrite log_size_app. split; [lia|done]. }
  case_if; zbool.
  - run (compare_payload_ok w es (k ++ l) e r ctx' key (Z.of_nat (length key)) H
      ltac:(by rewrite <-app_assoc) (proj1 Hc) (proj2 Hc) ltac:(lia)).
    rewrite Nat2Z.id, firstn_all. destruct (decide (e_payload e = key)) as [E|E].
    + rewrite !bool_decide_eq_true_2 by done. done.
    + rewrite !bool_decide_eq_false_2 by done. done.
  - rewrite bool_decide_eq_false_2; [done|]. intros <-. unfold e_len in *. lia.
Qed.

(** Cut a list at its first live key. *)
Lemma split_live_key l :
  Forall (fun x => live_key x = false) l \/
  exists l1 x l2, l = l1 ++ x :: l2 /\ live_key x = true /\ Forall (fun x => live_key x = false) l1.
Proof.
  induction l as [|x l IH]; [left; constructor|]. destruct (live_key x) eqn:E.
  - right. exists [], x, l. by repeat split.
  - destruct IH as [IH|(l1 & y & l2 & -> & ? & ?)]; [left; by constructor|].
    right. exists (x :: l1), y, l2. repeat split; [done|by constructor].
Qed.

Lemma names_live key x : live_key x = false -> names key x = false.
Proof. unfold names. by intros ->. Qed.

Lemma find_key_loop_found fuel w es key : region_holds w es -> forall l k e r ctx,
  es = k ++ l ++ e :: r -> at_pos w ctx (cur_base (w_info w) + 8 + log_size k) ->
  Forall (fun x => names key x = false) l -> names key e = true -> (length l < fuel)%nat ->
  find_key_loop fuel ctx key (key_len_of key) w =
    Done (SYSPARAM_OK, visits ctx (cur_base (w_info w) + 8 + log_size k) (l ++ [e]), w).
Proof.
  intros H. induction fuel as [|fuel IH]; intros l k e r ctx Hes Hpos Hl He Hf; [lia|].
  destruct (split_live_key l) as [Hn|(l1 & x & l2 & -> & Hx & Hn)].
  - rewrite (find_key_step fuel w es k l e r) by (done || unfold names in He; zbool; done).
    cbn zeta. by rewrite He.
  - apply Forall_app in Hl as [_ Hl]. apply Forall_cons in Hl as [Hx' Hl].
    rewrite (find_key_step fuel w es k l1 x (l2 ++ e :: r)); [|done|by rewrite Hes, <-app_assoc|done..].
    cbn zeta. rewrite Hx', visits_snoc. rewrite length_app in Hf. cbn in Hf.
    rewrite (IH l2 (k ++ l1 ++ [x]) e r); [| | |done|done|lia].
    + rewrite <-app_assoc, (visits_app ctx _ l1). cbn [app visits].
      rewrite !log_size_app, log_size_cons. cbn [log_size foldr]. do 4 f_equal. lia.
    + by rewrite Hes, <-!app_assoc.
    + replace (cur_base (w_info w) + 8 + log_size k + log_size l1)
        with (cur_base (w_info w) + 8 + log_size (k ++ l1)) by (rewrite log_size_app; lia).
      rewrite app_assoc.
      apply at_pos_visited with es (l2 ++ e :: r); [done|]. by rewrite Hes, <-!app_assoc.
Qed.

Lemma find_key_loop_none fuel w es key : region_holds w es -> forall l k ctx,
  es = k ++ l -> at_pos w ctx (cur_base (w_info w) + 8 + log_size k) ->
  Forall (fun x => names key x = false) l -> (length l < fuel)%nat ->
  find_key_loop fuel ctx key (key_len_of key) w =
    Done (SYSPARAM_NOTFOUND, miss_ctx w (visits ctx (cur_base (w_info w) + 8 + log_size k) l), w).
Proof.
  intros H. induction fuel as [|fuel IH]; intros l k ctx Hes Hpos Hl Hf; [lia|].
  destruct (split_live_key l) as [Hn|(l1 & x & l2 & -> & Hx & Hn)].
  - cbn [find_key_loop].
    run (find_entry_none w es k l ctx ENTRY_ID_ANY false H Hes Hpos
      ltac:(eapply Forall_impl; [exact Hn|]; intros x Hx; by rewrite matches_any)). done.
  - apply Forall_app in Hl as [_ Hl]. apply Forall_cons in Hl as [Hx' Hl].
    rewrite (find_key_step fuel w es k l1 x l2); [|done|by rewrite Hes|done..].
    cbn zeta. rewrite Hx', visits_snoc. rewrite length_app in Hf. cbn in Hf.
    rewrite (IH l2 (k ++ l1 ++ [x])); [| | |done|lia].
    + rewrite (visits_app ctx _ l1). cbn [app visits].
      rewrite !log_size_app, log_size_cons. cbn [log_size foldr]. do 5 f_equal. lia.
    + by rewrite Hes, <-!app_assoc.
    + replace (cur_base (w_info w) + 8 + log_size k + log_size l1)
        with (cur_base (w_info w) + 8 + log_size (k ++ l1)) by (rewrite log_size_app; lia).
      rewrite app_assoc.
      apply at_pos_visited with es l2; [done|]. by rewrite Hes, <-!app_assoc.
Qed.

Lemma find_key_found w es key l k e r ctx :
  region_holds w es -> es = k ++ l ++ e :: r -> at_pos w ctx (cur_base (w_info w) + 8 + log_size k) ->
  Forall (fun x => names key x = false) l -> names key e = true ->
  _find_key ctx key (key_len_of key) w =
    Done (SYSPARAM_OK, visits ctx (cur_base (w_info w) + 8 + log_size k) (l ++ [e]), w).
Proof.
  intros H Hes Hpos Hl He. unfold _find_key. erewrite bind_Done by reflexivity.
  apply (find_key_loop_found _ w es) with r; try done.
  pose proof (scan_fuel_enough w es k (l ++ e :: r) H Hes) as Hf. rewrite length_app in Hf. lia.
Qed.

Lemma find_key_none w es key l k ctx :
  region_holds w es -> es = k ++ l -> at_pos w ctx (cur_base (w_info w) + 8 + log_size k) ->
  Forall (fun x => names key x = false) l ->
  _find_key ctx key (key_len_of key) w =
    Done (SYSPARAM_NOTFOUND, miss_ctx w (visits ctx (cur_base (w_info w) + 8 + log_size k) l), w).
Proof.
  intros H Hes Hpos Hl. unfold _find_key. erewrite bind_Done by reflexivity.
  apply (find_key_loop_none _ w es); try done.
  pose proof (scan_fuel_enough w es k l H Hes). lia.
Qed.

(** ** Finding a value *)

Definition values_of (i : Z) (e : entry) : bool := live_val e && (e_id e =? i).

Lemma mask_id_range x : 0 <= Z.land x ENTRY_MASK_ID <= ENTRY_MASK_ID.
Proof.
  unfold ENTRY_MASK_ID. change 0xfff with (2 ^ 12 - 1). rewrite land_mask by lia.
  pose proof (Z.mod_pos_bound x (2 ^ 12) ltac:(lia)). lia.
Qed.

Lemma find_value_found w es l k e r ctx idf :
  region_holds w es -> es = k ++ l ++ e :: r -> at_pos w ctx (cur_base (w_info w) + 8 + log_size k) ->
  let i := Z.land idf ENTRY_MASK_ID in
  Forall (fun x => values_of i x = false) l -> values_of i e = true ->
  _find_value ctx idf w =
    Done (SYSPARAM_OK, visits ctx (cur_base (w_info w) + 8 + log_size k) (l ++ [e]), w).
Proof.
  intros H Hes Hpos i Hl He. unfold _find_value. pose proof (mask_id_range idf).
  apply (find_entry_found w es k l e r); try done.
  - eapply Forall_impl; [exact Hl|]. intros x Hx. cbn. by rewrite matches_val.
  - by rewrite matches_val.
Qed.

Lemma find_value_none w es l k ctx idf :
  region_holds w es -> es = k ++ l -> at_pos w ctx (cur_base (w_info w) + 8 + log_size k) ->
  let i := Z.land idf ENTRY_MASK_ID in i <> ENTRY_ID_END ->
  Forall (fun x => values_of i x = false) l ->
  _find_value ctx idf w =
    Done (SYSPARAM_NOTFOUND, miss_ctx w (visits ctx (cur_base (w_info w) + 8 + log_size k) l), w).
Proof.
  intros H Hes Hpos i Hne Hl. unfold _find_value. pose proof (mask_id_range idf).
  rewrite (find_entry_none w es k l); [|done..|].
  2: { eapply Forall_impl; [exact Hl|]. intros x Hx. cbn. by rewrite matches_val. }
  unfold find_entry_break. fold i. by rewrite (proj2 (Z.eqb_neq _ _) Hne).
Qed.

End Scan.
