(* ===== verification/SysparamStore.v ===== *)
(** * Reading and appending

    The store invariant, the three ways a key can stand in a log, and what
    the search, append and delete steps of [core/sysparam.c] do to a store
    that satisfies the invariant. *)

From stdpp Require Import sorting.
From S2P Require Import Prelude CStrings Flash Sysparam SysparamLog SysparamProofs SysparamScan.

(** ** Where a key stands in a log *)

Lemma split_first (p : entry -> bool) l :
  Forall (fun x => p x = false) l \/
  exists l1 x l2, l = l1 ++ x :: l2 /\ p x = true /\ Forall (fun x => p x = false) l1.
Proof.
  induction l as [|x l IH]; [left; constructor|]. destruct (p x) eqn:E.
  - right. exists [], x, l. by repeat split.
  - destruct IH as [IH|(l1 & y & l2 & -> & ? & ?)]; [left; by constructor|].
    right. exists (x :: l1), y, l2. repeat split; [done|by constructor].
Qed.

Lemma names_true k e : names (Some k) e = true <-> live_key e = true /\ e_payload e = k.
Proof. unfold names. by rewrite andb_true_iff, bool_decide_eq_true. Qed.

Lemma values_true i e : values_of i e = true <-> live_val e = true /\ e_id e = i.
Proof. unfold values_of. by rewrite andb_true_iff, Z.eqb_eq. Qed.

Lemma Forall_false_not (p : entry -> bool) l e : Forall (fun x => p x = false) l -> e ∈ l -> p e = true -> False.
Proof. rewrite Forall_forall. intros H He Hp. rewrite H in Hp; done. Qed.

(** No value of a key stands before the key. *)
Lemma no_value_before es l ke r :
  wf_log es -> es = l ++ ke :: r -> live_key ke = true ->
  Forall (fun x => values_of (e_id ke) x = false) (l ++ [ke]).
Proof.
  intros Hwf Hes Hk. apply Forall_app; split.
  - apply Forall_forall. intros v Hv. destruct (values_of (e_id ke) v) eqn:E; [|done]. exfalso.
    apply values_true in E as [Hlv Hid]. apply list_elem_of_split in Hv as (l1 & l2 & ->).
    pose proof (wf_order _ Hwf l1 v (l2 ++ ke :: r)) as Ho.
    rewrite <-app_assoc in Hes. specialize (Ho Hes Hlv). rewrite Hid in Ho.
    pose proof (wf_ids _ Hwf) as Hs. rewrite Hes in Hs. autorewrite with esp in Hs.
    rewrite (live_val_not_key v Hlv), Hk in Hs. cbn [app] in Hs.
    apply StronglySorted_app_1_elem_of with (x1 := e_id ke) (x2 := e_id ke) in Hs; [lia|done|set_solver].
  - constructor; [|constructor]. unfold values_of. destruct (live_val ke) eqn:E; [|done].
    by destruct (live_not_both ke).
Qed.

Inductive key_view (es : list entry) (key : list Z) : Prop :=
| key_absent :
    Forall (fun x => names (Some key) x = false) es -> kv es key = None -> key_view es key
| key_unset l ke r :
    es = l ++ ke :: r -> Forall (fun x => names (Some key) x = false) l -> names (Some key) ke = true ->
    Forall (fun x => values_of (e_id ke) x = false) es -> kv es key = None -> key_view es key
| key_set l ke m ve r :
    es = l ++ ke :: m ++ ve :: r -> Forall (fun x => names (Some key) x = false) l ->
    names (Some key) ke = true -> Forall (fun x => values_of (e_id ke) x = false) m ->
    values_of (e_id ke) ve = true -> kv es key = Some (e_binary ve, e_payload ve) -> key_view es key.

Lemma key_view_total es key : wf_log es -> key_view es key.
Proof.
  intros Hwf. destruct (split_first (names (Some key)) es) as [Hn|(l & ke & r & Hes & Hke & Hl)].
  - apply key_absent; [done|]. apply kv_None; [done|].
    intros b v (ke & ve & H1 & H2 & H3 & _). apply (Forall_false_not _ _ ke Hn H1). by apply names_true.
  - pose proof Hke as [Hlk Hn]%names_true.
    pose proof (no_value_before es l ke r Hwf Hes Hlk) as Hb.
    destruct (split_first (values_of (e_id ke)) r) as [Hv|(m & ve & r' & -> & Hve & Hm)].
    + assert (Hall : Forall (fun x => values_of (e_id ke) x = false) es).
      { rewrite Hes. change (ke :: r) with ([ke] ++ r). rewrite app_assoc. by apply Forall_app. }
      apply key_unset with l ke r; [done..|]. apply kv_None; [done|].
      intros b v (k1 & ve & H1 & H2 & H3 & H4 & H5 & H6 & _).
      assert (k1 = ke) as ->.
      { apply (NoDup_fmap_inv e_payload (filter (fun e => live_key e = true) es));
          [apply wf_names, Hwf|..|congruence]; apply list_elem_of_filter; set_solver. }
      apply (Forall_false_not _ _ ve Hall H4). by apply values_true.
    + pose proof Hve as [Hlv Hid]%values_true. apply key_set with l ke m ve r'; [done..|].
      apply kv_binds; [done|]. exists ke, ve. subst es. set_solver.
Qed.

Section Store.
Context {F : Type} `{HF : !Flash F} `{HL : !FlashLaws F}.
Implicit Types (w : world F) (f : F).

(** ** The store invariant *)

Record store w (es : list entry) : Prop := {
  st_region : region_holds w es;
  st_wf : wf_log es;
  st_clean : force_compact (w_info w) = false;
  st_cur : cells (wcell w) (cur_base (w_info w)) 8 =
    enc_region_header (region_header_for (cur_base (w_info w)) (alt_base (w_info w)) true);
  st_alt : cells (wcell w) (alt_base (w_info w)) 8 =
    enc_region_header (region_header_for (alt_base (w_info w)) (cur_base (w_info w)) false);
}.

(** The mutex exists and is free. *)
Definition unlocked w : Prop := sem (w_info w) = Some false.

(** The invariant does not look at the mutex and the heap. *)
Definition relock w (s : option bool) (al : list bool) (lv : Z) : world F :=
  Build_world (w_flash w) (set_sem s (w_info w)) al lv.

Lemma store_relock w es s al lv : store w es -> store (relock w s al lv) es.
Proof. intros [Hr ? ? ? ?]. split; try done. destruct Hr as [? [] ? ? ? ? ? ?]. by split. Qed.

Lemma take_mutex w : unlocked w -> xSemaphoreTake w = Done (tt, relock w (Some true) (w_alloc w) (w_live w)).
Proof. unfold unlocked, xSemaphoreTake. by intros ->. Qed.

Lemma give_mutex w b : sem (w_info w) = Some b ->
  xSemaphoreGive w = Done (tt, relock w (Some false) (w_alloc w) (w_live w)).
Proof. unfold xSemaphoreGive. by intros ->. Qed.

Lemma cur_base_nz w es : region_holds w es -> (cur_base (w_info w) =? 0) = false.
Proof. intros H. apply Z.eqb_neq. pose proof (region_bounds _ _ H). lia. Qed.

(** ** Searching *)

Abbreviation log_start w := (cur_base (w_info w) + 8).

Lemma at_pos_start w : at_pos w (zero_context (cur_base (w_info w))) (log_start w + log_size []).
Proof. left. cbn. split; [done|lia]. Qed.

(** The context after scanning a prefix [l] of the log from the start. *)
Definition scanned w (l : list entry) : sysparam_context :=
  visits (zero_context (cur_base (w_info w))) (log_start w) l.

Lemma scanned_app w k l : visits (scanned w k) (log_start w + log_size k) l = scanned w (k ++ l).
Proof. unfold scanned. by rewrite visits_app. Qed.

Lemma at_pos_scanned w es k e r :
  region_holds w es -> es = k ++ e :: r -> at_pos w (scanned w (k ++ [e])) (log_start w + log_size (k ++ [e])).
Proof.
  intros H Hes. unfold scanned. rewrite visits_snoc. by apply at_pos_visited with es r.
Qed.

Lemma scanned_entry w l e :
  c_addr (scanned w (l ++ [e])) = log_start w + log_size l /\
  c_idflags (scanned w (l ++ [e])) = e_idflags e /\ c_len (scanned w (l ++ [e])) = e_len e.
Proof. unfold scanned. rewrite visits_snoc. by autorewrite with esp. Qed.

Lemma key_id_range es e : wf_log es -> e ∈ es -> live_key e = true -> 1 <= e_id e <= MAX_KEY_ID.
Proof.
  intros Hwf He Hk. pose proof (wf_id_range _ Hwf) as H. rewrite Forall_forall in H. apply H.
  apply elem_key_ids. eauto.
Qed.

Lemma init_context_ok w : _init_context w = Done (zero_context (cur_base (w_info w)), w).
Proof. done. Qed.

Lemma mask_mask x : Z.land (Z.land x ENTRY_MASK_ID) ENTRY_MASK_ID = Z.land x ENTRY_MASK_ID.
Proof. by rewrite <-Z.land_assoc, Z.land_diag. Qed.

Lemma find_key_start_found w es key l e r :
  region_holds w es -> es = l ++ e :: r ->
  Forall (fun x => names key x = false) l -> names key e = true ->
  _find_key (zero_context (cur_base (w_info w))) key (key_len_of key) w =
    Done (SYSPARAM_OK, scanned w (l ++ [e]), w).
Proof.
  intros H Hes Hl He. rewrite (find_key_found w es key l [] e r _ H Hes (at_pos_start w) Hl He).
  cbn [log_size foldr]. by rewrite Z.add_0_r.
Qed.

Lemma find_key_start_none w es key :
  region_holds w es -> Forall (fun x => names key x = false) es ->
  _find_key (zero_context (cur_base (w_info w))) key (key_len_of key) w =
    Done (SYSPARAM_NOTFOUND, miss_ctx w (scanned w es), w).
Proof.
  intros H Hn. rewrite (find_key_none w es key es [] _ H eq_refl (at_pos_start w) Hn).
  cbn [log_size foldr]. by rewrite Z.add_0_r.
Qed.

(** [set_find], the search of [sysparam_set_data], for each view of the key. *)
Definition found_locals w (key : list Z) (es : list entry) (res : sysparam_status_t * set_locals) : Prop :=
  (Forall (fun x => names (Some key) x = false) es /\ kv es key = None /\
   res = (SYSPARAM_NOTFOUND,
     {| l_ctx := miss_ctx w (scanned w es); l_key_id := -1; l_old_value_addr := 0 |})) \/
  (exists l ke r, es = l ++ ke :: r /\ names (Some key) ke = true /\
     Forall (fun x => values_of (e_id ke) x = false) es /\ kv es key = None /\
     res = (SYSPARAM_NOTFOUND,
       {| l_ctx := miss_ctx w (scanned w es); l_key_id := e_id ke; l_old_value_addr := 0 |})) \/
  (exists l ke m ve r, es = l ++ ke :: m ++ ve :: r /\ names (Some key) ke = true /\
     values_of (e_id ke) ve = true /\ kv es key = Some (e_binary ve, e_payload ve) /\
     res = (SYSPARAM_OK,
       {| l_ctx := scanned w (l ++ ke :: m ++ [ve]); l_key_id := e_id ke;
          l_old_value_addr := log_start w + log_size (l ++ ke :: m) |})).

Lemma set_find_ok w es key :
  region_holds w es -> wf_log es ->
  exists res, set_find key (Z.of_nat (length key)) w = Done (res, w) /\ found_locals w key es res.
Proof.
  intros H Hwf. unfold set_find. run (init_context_ok w).
  destruct (key_view_total es key Hwf) as [Hn Hkv|l ke r Hes Hl Hke Hv Hkv|l ke m ve r Hes Hl Hke Hm Hve Hkv].
  - eexists. split; [|left; split; [done|split; [done|reflexivity]]].
    run (find_key_start_none w es (Some key) H Hn). done.
  - pose proof Hke as [Hlk _]%names_true.
    pose proof (key_id_range es ke Hwf ltac:(set_solver) Hlk) as Hid. unfold MAX_KEY_ID in Hid.
    eexists. split; [|right; left; exists l, ke, r; repeat split; try done; reflexivity].
    run (find_key_start_found w es (Some key) l ke r H Hes Hl Hke).
    cbn [is_ok status_code Z.eqb]. destruct (scanned_entry w l ke) as (_ & Hf & _). rewrite Hf.
    change (Z.land (e_idflags ke) ENTRY_MASK_ID) with (e_id ke).
    assert (Hmask : Z.land (e_id ke) ENTRY_MASK_ID = e_id ke) by apply mask_mask.
    run (find_value_none w es r (l ++ [ke]) (scanned w (l ++ [ke])) (e_id ke) H
      ltac:(by rewrite Hes, <-app_assoc) (at_pos_scanned w es l ke r H Hes)
      ltac:(rewrite Hmask; unfold ENTRY_ID_END; lia)
      ltac:(rewrite Hmask; rewrite Hes in Hv; apply Forall_app in Hv as [_ Hv]; by apply Forall_cons in Hv as [_ ?])).
    rewrite scanned_app, <-app_assoc. cbn [app]. by rewrite <-Hes.
  - pose proof Hke as [Hlk _]%names_true.
    eexists. split; [|right; right; exists l, ke, m, ve, r; repeat split; try done; reflexivity].
    run (find_key_start_found w es (Some key) l ke (m ++ ve :: r) H Hes Hl Hke).
    cbn [is_ok status_code Z.eqb]. destruct (scanned_entry w l ke) as (_ & Hf & _). rewrite Hf.
    change (Z.land (e_idflags ke) ENTRY_MASK_ID) with (e_id ke).
    assert (Hmask : Z.land (e_id ke) ENTRY_MASK_ID = e_id ke) by apply mask_mask.
    run (find_value_found w es m (l ++ [ke]) ve r (scanned w (l ++ [ke])) (e_id ke) H
      ltac:(by rewrite Hes, <-app_assoc) (at_pos_scanned w es l ke (m ++ ve :: r) H Hes)
      ltac:(by rewrite Hmask) ltac:(by rewrite Hmask)).
    rewrite scanned_app, <-app_assoc. cbn [app is_ok status_code Z.eqb].
    rewrite app_comm_cons, app_assoc. destruct (scanned_entry w (l ++ ke :: m) ve) as (-> & _). done.
Qed.

(** [_find_key] and [_find_value] compute the map of the log. *)
Lemma lookup_value_ok w es key :
  region_holds w es -> wf_log es ->
  exists st ctx, lookup_value key (Z.of_nat (length key)) w = Done ((st, ctx), w) /\
    match kv es key with
    | None => st = SYSPARAM_NOTFOUND
    | Some (b, v) => st = SYSPARAM_OK /\ exists k e r, es = k ++ e :: r /\
        c_addr ctx = log_start w + log_size k /\ c_len ctx = e_len e /\ is_binary ctx = b /\ e_payload e = v
    end.
Proof.
  intros H Hwf. destruct (set_find_ok w es key H Hwf) as (res & Hrun & Hres).
  unfold set_find in Hrun. unfold lookup_value. rewrite (bind_Done _ _ _ _ _ (init_context_ok w)) in Hrun.
  run (init_context_ok w).
  apply bind_inv in Hrun as ([st ctx] & w1 & H1 & H2). run H1.
  destruct (is_ok st) eqn:Est; cbn [negb].
  - apply bind_inv in H2 as ([st2 ctx2] & w2 & H2 & H3). unfold ret in H3. injection H3 as <- ->.
    unfold _find_value in *. rewrite mask_mask in H2. rewrite H2.
    destruct Hres as [(_ & _ & [= _ _ Hm _])|[(l & ke & r & _ & _ & _ & Hkv & [= -> _ _ _])|
      (l & ke & m & ve & r & Hes & _ & _ & Hkv & [= -> -> _ _])]].
    + pose proof (mask_id_range (c_idflags ctx)). lia.
    + exists SYSPARAM_NOTFOUND, ctx2. by rewrite Hkv.
    + exists SYSPARAM_OK. eexists. split; [done|]. rewrite Hkv. split; [done|].
      exists (l ++ ke :: m), ve, r. rewrite app_comm_cons, app_assoc.
      destruct (scanned_entry w (l ++ ke :: m) ve) as (Ha & Hb & Hc).
      repeat split; [by rewrite Hes, <-app_assoc|done|done|].
      unfold is_binary, has_flag. by rewrite Hb.
  - unfold ret in H2. injection H2 as <- ->. exists st, ctx. split; [done|].
    destruct Hres as [(_ & Hkv & [= -> _])|[(l & ke & r & _ & _ & _ & Hkv & [= -> _ _])|
      (l & ke & m & ve & r & _ & _ & _ & _ & [= -> _ _])]]; [by rewrite Hkv..|done].
Qed.

(** ** Reading a payload into a buffer of [n] bytes *)

Lemma read_payload_ok w es k e r ctx n :
  region_holds w es -> es = k ++ e :: r -> c_addr ctx = log_start w + log_size k ->
  0 <= n -> n <= region_size (w_info w) ->
  exists bs, _read_payload ctx n w = Done ((SYSPARAM_OK, bs), w) /\ Z.of_nat (length bs) = n /\
    take (Z.to_nat (e_len e)) bs = take (Z.to_nat n) (e_payload e) /\ Forall byteP bs.
Proof.
  intros H Hes Ha Hn Hn2. pose proof (region_bounds _ _ H) as B.
  destruct (entry_on_flash w es k e r H Hes) as (Hc & He & Hlo & Hhi). rewrite <-Ha in *.
  unfold e_size, ENTRY_SIZE, ENTRY_HEADER_SIZE in *. unfold _read_payload, ENTRY_HEADER_SIZE.
  assert (0 <= e_len e) by (unfold e_len; lia).
  rewrite u32_small by lia. run (read_ok w (c_addr ctx + 4) n (rh_flash _ _ H) ltac:(lia) ltac:(lia) ltac:(lia)).
  eexists. split; [reflexivity|]. rewrite length_cells. split; [lia|]. split.
  - apply entry_cells_payload in Hc. rewrite <-Hc. destruct (decide (n <= e_len e)).
    + rewrite !take_ge by (rewrite ?length_cells; lia). replace (e_len e) with (n + (e_len e - n)) by lia.
      rewrite cells_app by lia. symmetry. apply take_app_length'. by rewrite length_cells.
    + rewrite (take_ge (cells _ _ (e_len e))) by (rewrite length_cells; lia).
      replace n with (e_len e + (n - e_len e)) by lia. rewrite cells_app by lia.
      apply take_app_length'. by rewrite length_cells.
  - apply Forall_forall. intros x (i & Hi)%list_elem_of_lookup.
    assert (i < Z.to_nat n)%nat by (apply lookup_lt_Some in Hi; by rewrite length_cells in Hi).
    rewrite lookup_cells in Hi by done. injection Hi as <-. apply flash_cell_byte, (rh_flash _ _ H).
Qed.

(** ** Appending and deleting *)

(** [w'] is [w] with the flash contents changed in the log area only. *)
Definition log_update w w' : Prop :=
  flash_ok (w_flash w') /\ w_alloc w' = w_alloc w /\ w_live w' = w_live w /\
  forall x, x < log_start w \/ region_top (w_info w) <= x -> wcell w' x = wcell w x.

Lemma append_entry_ok w es id payload :
  let e := mk_entry id payload in
  let n := Z.of_nat (length payload) in
  region_holds w es -> entry_ok e ->
  end_addr (w_info w) + e_size e <= region_top (w_info w) ->
  end_addr (w_info w) + e_size e + 1 <> region_top (w_info w) ->
  exists w', _write_entry (end_addr (w_info w)) id payload n w = Done (SYSPARAM_OK, w') /\
    region_holds w' (es ++ [e]) /\ w_info w' = set_end_addr (end_addr (w_info w) + e_size e) (w_info w) /\
    log_update w w'.
Proof.
  intros e n H He Hfit Hlast. pose proof (region_bounds _ _ H) as B.
  assert (Hsz : e_size e = 4 + n) by done. destruct He as (He1 & He2 & He3).
  destruct (write_entry_ok w (end_addr (w_info w)) id payload) as (f' & Hrun & Hok & Hc); [apply (rh_flash _ _ H)|lia|lia|done| |].
  { intros x Hx. apply (rh_blank _ _ H). lia. }
  eexists. split; [exact Hrun|]. fold e in Hc.
  assert (Hb : bumped (end_addr (w_info w)) (ENTRY_SIZE n) (w_info w) =
    set_end_addr (end_addr (w_info w) + e_size e) (w_info w)).
  { unfold bumped. rewrite Z.eqb_refl, u32_small by (unfold ENTRY_SIZE, ENTRY_HEADER_SIZE; lia). done. }
  fold n. rewrite Hb. cbn [with_info with_flash w_info w_flash w_alloc w_live].
  assert (Hcells : forall x, flash_cell f' x = put_bytes (wcell w) (end_addr (w_info w)) (enc_entry e) x) by done.
  pose proof (length_enc_entry e) as Hlen.
  split; [|split; [done|]].
  - destruct H as [Hf [] Hlog Hend Hfits Hblank Hl Hent]. split; cbn; try done.
    + apply log_at_app. split.
      * eapply log_at_ext; [|exact Hlog]. intros x Hx. symmetry. unfold wcell at 1. wcbn.
        rewrite Hcells. apply put_bytes_out. lia.
      * cbn [log_at]. split; [|done]. rewrite <-Hend. by apply cells_of_put with (wcell w).
    + rewrite Hend, log_size_app, log_size_cons. cbn [log_size foldr]. lia.
    + intros x Hx. unfold region_top in *. unfold wcell at 1. wcbn. rewrite Hcells, put_bytes_out by lia.
      apply Hblank. lia.
    + apply Forall_app; split; [done|]. by apply Forall_singleton.
  - split; [done|]. split; [done|]. split; [done|]. intros x Hx. unfold wcell at 1. wcbn.
    rewrite Hcells. apply put_bytes_out. lia.
Qed.

Lemma log_size_kill l v r : log_size (l ++ kill v :: r) = log_size (l ++ v :: r).
Proof. by rewrite !log_size_app, !log_size_cons, kill_size. Qed.

Lemma delete_value_ok w l v r :
  region_holds w (l ++ v :: r) ->
  exists w', _delete_entry (log_start w + log_size l) w = Done (SYSPARAM_OK, w') /\
    region_holds w' (l ++ kill v :: r) /\ w_info w' = w_info w /\ log_update w w'.
Proof.
  intros H. pose proof (region_bounds _ _ H) as B.
  destruct (entry_on_flash w _ l v r H eq_refl) as (Hc & He & Hlo & Hhi).
  pose proof (e_size_pos v). set (a := log_start w + log_size l) in *.
  destruct (delete_entry_ok w a v) as (f' & Hrun & Hok & Hk & Hout); [apply (rh_flash _ _ H)|lia|lia|done|done|].
  exists (with_flash w f'). split; [done|]. split; [|split; [done|]].
  - destruct H as [Hf Hi Hlog Hend Hfits Hblank Hl Hent]. split; cbn; try done.
    + apply log_at_app in Hlog as [Hlog1 [_ Hlog2]]. apply log_at_app. split; [|split].
      * eapply log_at_ext; [|exact Hlog1]. intros x Hx. symmetry. apply Hout. subst a. lia.
      * done.
      * eapply log_at_ext; [|exact Hlog2]. intros x Hx. symmetry. apply Hout. rewrite kill_size in Hx.
        subst a. lia.
    + by rewrite log_size_kill.
    + intros x Hx. unfold wcell. cbn. rewrite Hout by lia. by apply Hblank.
    + apply Forall_app in Hent as [? Hent]. apply Forall_cons in Hent as [? ?].
      apply Forall_app; split; [done|]. constructor; [by apply kill_ok|done].
  - split; [done|]. split; [done|]. split; [done|]. intros x Hx. apply Hout. lia.
Qed.

Lemma log_update_trans w w1 w2 :
  cur_base (w_info w1) = cur_base (w_info w) -> region_size (w_info w1) = region_size (w_info w) ->
  log_update w w1 -> log_update w1 w2 -> log_update w w2.
Proof.
  unfold log_update, region_top. intros Hc Hr (_ & A1 & L1 & X1) (O2 & A2 & L2 & X2). rewrite Hc, Hr in X2.
  split; [done|]. split; [congruence|]. split; [congruence|]. intros x Hx. rewrite X2 by done. by apply X1.
Qed.

(** Changes inside the log area keep the region headers. *)
Lemma store_log_update w w' es es' :
  store w es -> log_update w w' -> region_holds w' es' -> wf_log es' ->
  cur_base (w_info w') = cur_base (w_info w) -> alt_base (w_info w') = alt_base (w_info w) ->
  region_size (w_info w') = region_size (w_info w) -> force_compact (w_info w') = false ->
  store w' es'.
Proof.
  intros [Hr _ _ Hcur Halt] (_ & _ & _ & Hx) Hr' Hwf' E1 E2 E3 E4. split; try done; rewrite E1, E2.
  - rewrite <-Hcur. apply cells_ext. intros x ?. apply Hx. lia.
  - rewrite <-Halt. apply cells_ext. intros x ?. apply Hx.
    destruct (rh_info _ _ Hr) as [? ? ? ? (n & ? & ?) ? ?]. unfold region_top. lia.
Qed.

End Store.
