(* ===== verification/SysparamSet.v ===== *)
(** * Writing a value when there is room

    [sysparam_set_data] and [sysparam_get_data] of [core/sysparam.c] on a
    store that satisfies the invariant, no compaction needed. *)

From stdpp Require Import sorting.
From S2P Require Import Prelude CStrings Flash Sysparam SysparamLog SysparamProofs SysparamScan SysparamStore.

(** ** Flags *)

Definition val_id_check (b : bool) (id : Z) : bool :=
  u16 (Z.lor (Z.lor id ENTRY_FLAG_VALUE) (bin_flag b)) =? Z.lor (Z.lor id ENTRY_FLAG_VALUE) (bin_flag b).

Lemma val_id_all b : forallb (val_id_check b) (seqZ 0 4095) = true.
Proof. destruct b; vm_compute; reflexivity. Qed.

Lemma val_id_u16 b id : 0 <= id <= MAX_KEY_ID ->
  u16 (Z.lor (Z.lor id ENTRY_FLAG_VALUE) (bin_flag b)) = Z.lor (Z.lor id ENTRY_FLAG_VALUE) (bin_flag b).
Proof.
  unfold MAX_KEY_ID. intros. pose proof (small_id_facts _ 4095 id (val_id_all b) ltac:(lia)) as H'.
  by apply Z.eqb_eq in H'.
Qed.

(** A single-bit mask is either absent or whole. *)
Lemma binary_flag_eqb x b : (Z.land x ENTRY_FLAG_BINARY =? bin_flag b) = Bool.eqb (negb (Z.land x ENTRY_FLAG_BINARY =? 0)) b.
Proof.
  assert (H : Z.land x ENTRY_FLAG_BINARY = 0 \/ Z.land x ENTRY_FLAG_BINARY = ENTRY_FLAG_BINARY).
  { unfold ENTRY_FLAG_BINARY. change 0x1000 with (2 ^ 12). destruct (Z.testbit x 12) eqn:E; [right|left];
      apply Z.bits_inj; intros n; rewrite Z.land_spec, ?Z.bits_0;
      (destruct (decide (n = 12)) as [->|Hn];
        [rewrite Z.pow2_bits_true by lia; by rewrite E|rewrite Z.pow2_bits_false by lia; by rewrite andb_false_r]). }
  destruct H as [-> | ->]; by destruct b.
Qed.

(** ** The log after an update *)

Lemma sorted_last l d : StronglySorted Z.lt l -> Forall (fun i => i <= default d (last l)) l.
Proof.
  induction 1 as [|x l Hs IH Hx]; [constructor|]. constructor.
  - destruct l as [|y l]; [cbn; lia|]. change (last (x :: y :: l)) with (last (y :: l)).
    apply Forall_cons in IH as [IH _]. apply Forall_cons in Hx as [? _]. cbv beta in *. lia.
  - destruct l as [|y l]; [constructor|]. change (last (x :: y :: l)) with (last (y :: l)). done.
Qed.

Lemma last_key_max es : wf_log es -> Forall (fun i => i < last_key_id 0 es + 1) (key_ids es).
Proof.
  intros H. eapply Forall_impl; [apply sorted_last with (d := 0), (wf_ids _ H)|].
  unfold last_key_id. cbn. intros. lia.
Qed.

Lemma last_key_range es : wf_log es -> 0 <= last_key_id 0 es <= MAX_KEY_ID.
Proof.
  intros H. unfold last_key_id. destruct (last (key_ids es)) as [i|] eqn:E; cbn; [|unfold MAX_KEY_ID; lia].
  apply last_Some in E as [l Hl]. pose proof (wf_id_range _ H) as Hr. rewrite Hl in Hr.
  apply Forall_app in Hr as [_ Hr]. apply Forall_cons in Hr as [Hr _].
  lia.
Qed.

(** What an update of [key] does to the map. *)
Definition updates (es es' : list entry) (key : list Z) (o : option (bool * list Z)) : Prop :=
  wf_log es' /\ forall k, kv es' k = if decide (k = key) then o else kv es k.

Lemma updates_new es key b v :
  wf_log es -> Forall (fun x => names (Some key) x = false) es ->
  Z.of_nat (length key) <= 65535 -> Forall byteP key ->
  Z.of_nat (length v) <= 65535 -> Forall byteP v -> last_key_id 0 es < MAX_KEY_ID ->
  let id := last_key_id 0 es + 1 in
  updates es (es ++ [key_entry id key; val_entry id b v]) key (Some (b, v)).
Proof.
  intros Hwf Hn Hkl Hkb Hvl Hvb Hmax id. pose proof (last_key_range es Hwf) as Hr.
  pose proof (last_key_max es Hwf) as Hlt. fold id in Hlt.
  assert (Hid : 1 <= id <= MAX_KEY_ID) by (subst id; lia).
  destruct (key_entry_facts id key ltac:(lia)) as (F1 & F2 & F3 & _).
  assert (Hwf1 : wf_log (es ++ [key_entry id key])).
  { apply wf_append_key; try done. intros (e & He & Hk & Hp)%elem_key_names.
    apply (Forall_false_not _ _ e Hn He). by apply names_true. }
  assert (Hin : key_entry id key ∈ es ++ [key_entry id key]) by set_solver.
  change [key_entry id key; val_entry id b v] with ([key_entry id key] ++ [val_entry id b v]).
  rewrite app_assoc. rewrite <-F3 at 2.
  assert (Hwf2 : wf_log ((es ++ [key_entry id key]) ++ [val_entry (e_id (key_entry id key)) b v])).
  { rewrite F3. apply wf_append_val; try done.
    - apply elem_key_ids. eauto.
    - autorewrite with esp. rewrite F2. cbn. rewrite app_nil_r.
      intros (e & He & Hv & Hi)%elem_val_ids. pose proof (val_has_key _ _ Hwf He Hv) as Hin'.
      rewrite Forall_forall in Hlt. rewrite Hi in Hin'. apply Hlt in Hin'. lia. }
  split; [done|]. intros k. rewrite kv_append_val by done. cbn [key_entry mk_entry e_payload].
  case_decide; [done|]. apply kv_append_key; try done. lia.
Qed.

Lemma no_val_id es i : Forall (fun x => values_of i x = false) es -> i ∉ val_ids es.
Proof.
  intros H (e & He & Hv & Hi)%elem_val_ids. apply (Forall_false_not _ _ e H He). by apply values_true.
Qed.

Lemma updates_unset es key ke b v :
  wf_log es -> ke ∈ es -> names (Some key) ke = true ->
  Forall (fun x => values_of (e_id ke) x = false) es ->
  Z.of_nat (length v) <= 65535 -> Forall byteP v ->
  updates es (es ++ [val_entry (e_id ke) b v]) key (Some (b, v)).
Proof.
  intros Hwf Hke [Hlk <-]%names_true Hv Hvl Hvb.
  assert (Hwf' : wf_log (es ++ [val_entry (e_id ke) b v])).
  { apply wf_append_val; try done; [apply elem_key_ids; eauto|by apply no_val_id]. }
  split; [done|]. intros k. by rewrite kv_append_val.
Qed.

Lemma updates_kill l ve r ke key :
  wf_log (l ++ ve :: r) -> live_val ve = true -> ke ∈ l ++ ve :: r -> names (Some key) ke = true ->
  e_id ve = e_id ke -> updates (l ++ ve :: r) (l ++ kill ve :: r) key None.
Proof.
  intros Hwf Hv Hke [Hlk <-]%names_true Hid. split; [by apply wf_kill|].
  intros k. by apply kv_kill.
Qed.

Lemma updates_replace l ve r ke key b v :
  wf_log (l ++ ve :: r) -> live_val ve = true -> ke ∈ l ++ ve :: r -> names (Some key) ke = true ->
  e_id ve = e_id ke -> Z.of_nat (length v) <= 65535 -> Forall byteP v ->
  updates (l ++ ve :: r) ((l ++ kill ve :: r) ++ [val_entry (e_id ke) b v]) key (Some (b, v)).
Proof.
  intros Hwf Hv Hke Hn Hid Hvl Hvb. pose proof Hn as [Hlk Hname]%names_true.
  destruct (updates_kill l ve r ke key Hwf Hv Hke Hn Hid) as [Hwf1 Hkv1].
  assert (Hke1 : ke ∈ l ++ kill ve :: r).
  { pose proof (live_val_not_key ve Hv). rewrite !elem_of_app, !elem_of_cons in *. naive_solver congruence. }
  assert (Hno : Forall (fun x => values_of (e_id ke) x = false) (l ++ kill ve :: r)).
  { pose proof (wf_vals _ Hwf) as Hnd. autorewrite with esp in Hnd. rewrite Hv, Hid in Hnd.
    apply NoDup_app in Hnd as (_ & Hd & Hnd). apply NoDup_cons in Hnd as [Hr _].
    apply Forall_forall. intros e He. destruct (values_of (e_id ke) e) eqn:E; [|done]. exfalso.
    apply values_true in E as [Hve Hide]. apply elem_of_app in He as [He|[->|He]%elem_of_cons].
    - apply (Hd (e_id ke)); [|set_solver]. apply elem_val_ids. eauto.
    - by rewrite kill_dead_val in Hve.
    - apply Hr. apply elem_val_ids. eauto. }
  destruct (updates_unset _ key ke b v Hwf1 Hke1 Hn Hno Hvl Hvb) as [Hwf2 Hkv2].
  split; [done|]. intros k. rewrite Hkv2, Hkv1. by case_decide.
Qed.

Section Set_.
Context {F : Type} `{HF : !Flash F} `{HL : !FlashLaws F}.
Implicit Types (w : world F) (f : F).
Abbreviation log_start w := (cur_base (w_info w) + 8).

Lemma set_end_twice a b i : set_end_addr a (set_end_addr b i) = set_end_addr a i.
Proof. done. Qed.

(** ** The append step *)

Lemma write_entry_prefix addr id payload n w :
  0 <= n <= Z.of_nat (length payload) ->
  _write_entry addr id payload n w =
    _write_entry addr id (take (Z.to_nat n) payload) (Z.of_nat (length (take (Z.to_nat n) payload))) w.
Proof.
  intros Hn. assert (Hl : Z.of_nat (length (take (Z.to_nat n) payload)) = n) by (rewrite length_take; lia).
  rewrite Hl. unfold _write_entry. rewrite take_take, Nat.min_id. done.
Qed.

Lemma init_write_context_ok w es :
  region_holds w es -> exists st ctx, init_write_context w = Done ((st, ctx), w) /\ c_addr ctx = end_addr (w_info w).
Proof.
  intros H. pose proof (region_bounds _ _ H) as B. unfold init_write_context.
  erewrite bind_Done by reflexivity. cbn [c_addr zero_context]. unfold ENTRY_HEADER_SIZE.
  run (read_ok w (end_addr (w_info w)) 4 (rh_flash _ _ H) ltac:(lia) ltac:(lia) ltac:(lia)).
  destruct (dec_entry_header _) as [i l]. eauto.
Qed.

Definition val_of (value : list Z) (n : Z) : list Z := take (Z.to_nat n) value.

(** The value entry, written at [waddr], the end of the log. *)
Lemma append_value_ok w es id b value n :
  region_holds w es -> 1 <= id <= MAX_KEY_ID -> 0 <= n <= 65535 -> n <= Z.of_nat (length value) ->
  Forall byteP (val_of value n) ->
  end_addr (w_info w) + 4 + n <= region_top (w_info w) ->
  end_addr (w_info w) + 4 + n + 1 <> region_top (w_info w) ->
  exists w', _write_entry (end_addr (w_info w)) (u16 (Z.lor (Z.lor id ENTRY_FLAG_VALUE) (bin_flag b)))
      value (u16 n) w = Done (SYSPARAM_OK, w') /\
    region_holds w' (es ++ [val_entry id b (val_of value n)]) /\
    w_info w' = set_end_addr (end_addr (w_info w) + 4 + n) (w_info w) /\ log_update w w'.
Proof.
  intros H Hid Hn Hnl Hb Hfit Hlast.
  assert (Hl : Z.of_nat (length (val_of value n)) = n) by (unfold val_of; rewrite length_take; lia).
  rewrite val_id_u16, u16_small, write_entry_prefix by lia.
  destruct (val_entry_facts id b (val_of value n) ltac:(lia)) as (_ & _ & _ & _ & Hfl).
  assert (Hsz : e_size (val_entry id b (val_of value n)) = 4 + n)
    by (unfold e_size, ENTRY_SIZE, ENTRY_HEADER_SIZE, e_len; cbn [e_payload val_entry mk_entry]; lia).
  destruct (append_entry_ok w es (Z.lor (Z.lor id ENTRY_FLAG_VALUE) (bin_flag b)) (val_of value n))
    as (w' & Hrun & Hr & Hi & Hu); change (mk_entry _ _) with (val_entry id b (val_of value n)) in *.
  - done.
  - split; [done|]. split; [cbn [e_payload val_entry mk_entry]; lia|done].
  - rewrite Hsz. lia.
  - rewrite Hsz. lia.
  - rewrite Hsz in Hi. exists w'. split; [exact Hrun|]. split; [done|]. split; [|done].
    rewrite Hi. f_equal. lia.
Qed.

(** [set_append] for a key that is already in the log. *)
Lemma set_append_known w es l key value n b :
  region_holds w es -> 1 <= l_key_id l <= MAX_KEY_ID -> 0 <= n <= 65535 -> n <= Z.of_nat (length value) ->
  Forall byteP (val_of value n) ->
  end_addr (w_info w) + 4 + n <= region_top (w_info w) ->
  end_addr (w_info w) + 4 + n + 1 <> region_top (w_info w) ->
  exists w', set_append l key (Z.of_nat (length key)) value n (bin_flag b) w = Done (SYSPARAM_OK, w') /\
    region_holds w' (es ++ [val_entry (l_key_id l) b (val_of value n)]) /\
    w_info w' = set_end_addr (end_addr (w_info w) + 4 + n) (w_info w) /\ log_update w w'.
Proof.
  intros H Hid Hn Hnl Hb Hfit Hlast. pose proof (region_bounds _ _ H) as B.
  destruct (init_write_context_ok w es H) as (st & wctx & H1 & Ha). unfold set_append. run H1.
  rewrite (proj2 (Z.ltb_ge _ _)) by lia. erewrite bind_Done by reflexivity. cbn [is_err status_code Z.ltb Z.compare].
  rewrite Ha.
  destruct (append_value_ok w es (l_key_id l) b value n) as (w' & H2 & Hr & Hi & Hu); [done..|].
  run H2. cbn [is_err status_code Z.ltb Z.compare]. unfold ENTRY_SIZE, ENTRY_HEADER_SIZE.
  rewrite u32_small by lia. eexists. split; [reflexivity|].
  replace (end_addr (w_info w) + (4 + n)) with (end_addr (w_info w) + 4 + n) by lia.
  unfold mod_info, modify. rewrite Hi. destruct w' as [f' i' al' lv']. cbn [w_info w_flash w_alloc w_live] in *. subst i'.
  done.
Qed.

(** [set_append] for a new key: the key entry, then the value. *)
Lemma set_append_new w es l key value n b :
  region_holds w es -> l_key_id l < 0 -> 0 <= c_max_key_id (l_ctx l) < MAX_KEY_ID ->
  Z.of_nat (length key) <= 65535 -> Forall byteP key ->
  0 <= n <= 65535 -> n <= Z.of_nat (length value) -> Forall byteP (val_of value n) ->
  let id := c_max_key_id (l_ctx l) + 1 in
  let total := 4 + Z.of_nat (length key) + (4 + n) in
  end_addr (w_info w) + total <= region_top (w_info w) ->
  end_addr (w_info w) + total + 1 <> region_top (w_info w) ->
  exists w', set_append l key (Z.of_nat (length key)) value n (bin_flag b) w = Done (SYSPARAM_OK, w') /\
    region_holds w' (es ++ [key_entry id key; val_entry id b (val_of value n)]) /\
    w_info w' = set_end_addr (end_addr (w_info w) + total) (w_info w) /\ log_update w w'.
Proof.
  intros H Hk Hmax Hkl Hkb Hn Hnl Hb id total Hfit Hlast. pose proof (region_bounds _ _ H) as B.
  assert (Htot : total = 4 + Z.of_nat (length key) + (4 + n)) by done.
  destruct (init_write_context_ok w es H) as (st & wctx & H1 & Ha). unfold set_append. run H1.
  rewrite (proj2 (Z.ltb_lt _ _)) by lia. rewrite bind_assoc. rewrite Ha.
  unfold MAX_KEY_ID in Hmax. rewrite (u16_small (c_max_key_id (l_ctx l) + 1)) by lia. fold id.
  destruct (key_entry_facts id key ltac:(unfold MAX_KEY_ID; lia)) as (_ & _ & _ & Hfl).
  assert (Hsz : e_size (key_entry id key) = 4 + Z.of_nat (length key)) by done.
  destruct (append_entry_ok w es id key) as (w1 & H2 & Hr1 & Hi1 & Hu1);
    change (mk_entry id key) with (key_entry id key) in *.
  - done.
  - by split.
  - rewrite Hsz. lia.
  - rewrite Hsz. lia.
  - run H2. erewrite bind_Done by reflexivity. cbn [is_err status_code Z.ltb Z.compare].
    unfold ENTRY_SIZE at 1, ENTRY_HEADER_SIZE at 1. rewrite u32_small by lia.
    assert (E1 : end_addr (w_info w1) = end_addr (w_info w) + (4 + Z.of_nat (length key)))
      by (rewrite Hi1, Hsz; done).
    assert (T1 : region_top (w_info w1) = region_top (w_info w)) by (rewrite Hi1; done).
    rewrite <-E1.
    destruct (append_value_ok w1 (es ++ [key_entry id key]) id b value n) as (w' & H3 & Hr & Hi & Hu);
      [done|unfold MAX_KEY_ID; lia|done|done|done|lia|lia|].
    run H3. cbn [is_err status_code Z.ltb Z.compare]. unfold ENTRY_SIZE, ENTRY_HEADER_SIZE.
    rewrite (u32_small (end_addr (w_info w) + (4 + Z.of_nat (length key)))) by lia.
    rewrite <-E1, u32_small by lia. eexists. split; [reflexivity|].
    assert (Hend : set_end_addr (end_addr (w_info w1) + (4 + n)) (w_info w') =
                   set_end_addr (end_addr (w_info w) + total) (w_info w)).
    { rewrite Hi, Hi1. unfold total. wcbn. rewrite ?Hsz, !set_end_twice. f_equal. lia. }
    unfold mod_info, modify. rewrite Hend. rewrite <-app_assoc in Hr. cbn [app] in Hr.
    assert (Hi2 : w_info w' = set_end_addr (end_addr (w_info w) + total) (w_info w)).
    { rewrite Hi, Hi1. unfold total. wcbn. rewrite ?Hsz, !set_end_twice. f_equal. lia. }
    destruct w' as [f' i' al' lv']. cbn [w_info w_flash w_alloc w_live] in *. subst i'.
    rewrite Hi2 in Hr, Hu. split; [done|]. split; [done|].
    apply log_update_trans with w1; [by rewrite Hi1..|done|done].
Qed.

(** ** [sysparam_set_data] with room to spare *)

Lemma free_space_ok w es : region_holds w es ->
  free_space (w_info w) = region_top (w_info w) - end_addr (w_info w).
Proof.
  intros H. pose proof (region_bounds _ _ H) as B. unfold free_space, region_top in *.
  rewrite u32_small; lia.
Qed.

Lemma set_room_fits w es l needed :
  region_holds w es -> needed <= region_top (w_info w) - end_addr (w_info w) ->
  set_room l needed w = Done ((SYSPARAM_OK, l), w).
Proof.
  intros H Hn. unfold set_room. erewrite bind_Done by reflexivity. rewrite (free_space_ok _ _ H).
  rewrite (proj2 (Z.ltb_ge _ _)) by lia. erewrite bind_Done by reflexivity.
  cbn [is_err status_code Z.ltb Z.compare]. erewrite bind_Done by reflexivity.
  rewrite (free_space_ok _ _ H). by rewrite (proj2 (Z.ltb_ge _ _)) by lia.
Qed.

Lemma set_ids_ok w l :
  (l_key_id l < 0 -> c_max_key_id (l_ctx l) < MAX_KEY_ID) -> set_ids l w = Done ((SYSPARAM_OK, l), w).
Proof. intros H. unfold set_ids. case_if; [zbool; lia|done]. Qed.

Lemma set_forced_ok w l : force_compact (w_info w) = false -> set_forced l w = Done ((SYSPARAM_OK, l), w).
Proof. intros H. unfold set_forced. erewrite bind_Done by reflexivity. by rewrite H. Qed.

(** The space [sysparam_set_data] asks for. *)
Definition needed_space (key_id : Z) (key : list Z) (n : Z) : Z :=
  4 + n + (if key_id <? 0 then 4 + Z.of_nat (length key) else 0).

Lemma set_write_fits w es l key value n b :
  region_holds w es -> force_compact (w_info w) = false -> Z.of_nat (length key) <= 65535 ->
  (l_key_id l < 0 -> c_max_key_id (l_ctx l) < MAX_KEY_ID) ->
  needed_space (l_key_id l) key n <= region_top (w_info w) - end_addr (w_info w) ->
  set_write l key (Z.of_nat (length key)) value n (bin_flag b) w =
    bind (set_append l key (Z.of_nat (length key)) value n (bin_flag b))
      (fun st => ret (st, l_old_value_addr l)) w.
Proof.
  intros H Hf Hkl Hid Hn. unfold set_write, ENTRY_SIZE, ENTRY_HEADER_SIZE, strlen.
  rewrite u16_small by lia. fold (needed_space (l_key_id l) key n).
  run (set_room_fits w es l _ H Hn). cbn [is_err status_code Z.ltb Z.compare].
  run (set_ids_ok w l Hid). cbn [is_err status_code Z.ltb Z.compare].
  run (set_forced_ok w l Hf). done.
Qed.

Lemma miss_ctx_max w ctx : c_max_key_id (miss_ctx w ctx) = c_max_key_id ctx.
Proof. unfold miss_ctx, end_ctx. case_if; [done|]. by destruct (dec_entry_header _). Qed.

Lemma scanned_max w es : c_max_key_id (scanned w es) = last_key_id 0 es.
Proof. unfold scanned. by rewrite visits_max_key. Qed.

(** [set_same] when the key has the value entry [ve]. *)
Lemma set_same_ok w es k ve r l value n b :
  region_holds w es -> es = k ++ ve :: r -> l_old_value_addr l <> 0 ->
  c_addr (l_ctx l) = log_start w + log_size k -> c_idflags (l_ctx l) = e_idflags ve ->
  c_len (l_ctx l) = e_len ve -> 0 <= n <= Z.of_nat (length value) ->
  set_same l value n (bin_flag b) w =
    Done (if bool_decide (e_binary ve = b /\ e_payload ve = val_of value n)
          then SYSPARAM_OK else SYSPARAM_NOTFOUND, w).
Proof.
  intros H Hes Hold Ha Hi Hl Hn. unfold set_same. rewrite (proj2 (Z.eqb_neq _ _) Hold). cbn [negb andb].
  rewrite binary_flag_eqb, Hi, Hl. change (negb (Z.land (e_idflags ve) ENTRY_FLAG_BINARY =? 0)) with (e_binary ve).
  destruct (Bool.eqb (e_binary ve) b && (e_len ve =? n)) eqn:E; zbool.
  - apply eqb_prop in H0. rewrite (compare_payload_ok w es k ve r) by done. unfold val_of.
    destruct (decide (take (Z.to_nat n) value = e_payload ve)) as [Ep|Ep].
    + by rewrite !bool_decide_eq_true_2.
    + rewrite !bool_decide_eq_false_2; [done|naive_solver|done].
  - rewrite bool_decide_eq_false_2; [done|]. intros [Eb Ep]. apply (f_equal length) in Ep. unfold val_of in Ep.
    rewrite length_take in Ep. unfold e_len in E. destruct E as [E|E]; [|lia].
    rewrite Eb, eqb_reflx in E. done.
Qed.

(** An update that ends well: a store for the new log; the mutex and the
    heap are as before. *)
Definition set_result w w' (es : list entry) (key : list Z) (o : option (bool * list Z)) : Prop :=
  sem (w_info w') = sem (w_info w) /\ w_alloc w' = w_alloc w /\ w_live w' = w_live w /\
  exists es', store w' es' /\ updates es es' key o.

Lemma set_result_intro w w' es es' key o a :
  store w es -> log_update w w' -> region_holds w' es' -> updates es es' key o ->
  w_info w' = set_end_addr a (w_info w) -> set_result w w' es key o.
Proof.
  intros Hst Hu Hr Hup Hi. split; [by rewrite Hi|]. split; [apply Hu|]. split; [apply Hu|].
  exists es'. split; [|done].
  eapply store_log_update; [exact Hst|exact Hu|exact Hr|apply Hup|rewrite Hi; by try apply Hst..].
Qed.

Lemma set_result_refl w es key o : store w es -> kv es key = o -> set_result w w es key o.
Proof.
  intros Hst Hkv. split; [done|]. split; [done|]. split; [done|]. exists es. split; [done|].
  split; [apply Hst|]. intros k. by case_decide; subst.
Qed.

(** The hypotheses on the arguments of a call that stores a value. *)
Record set_args (key value : list Z) (n : Z) : Prop := {
  sa_key : 1 <= Z.of_nat (length key) <= 65535;
  sa_key_bytes : Forall byteP key;
  sa_n : 1 <= n <= 65535;
  sa_value : n <= Z.of_nat (length value);
  sa_bytes : Forall byteP (val_of value n);
}.

Lemma sa_val_len key value n : set_args key value n -> Z.of_nat (length (val_of value n)) <= 65535.
Proof. intros []. unfold val_of. rewrite length_take. lia. Qed.

(** Room for [needed] more bytes, and not for exactly one byte more (a lone
    byte before the top of the region cannot hold an end marker). *)
Definition room w (needed : Z) : Prop :=
  needed <= region_top (w_info w) - end_addr (w_info w) /\
  needed + 1 <> region_top (w_info w) - end_addr (w_info w).

Lemma names_absent es key :
  Forall (fun x => names (Some key) x = false) es <-> key ∉ key_names es.
Proof.
  split.
  - intros Hno (e & He & Hk & Hp)%elem_key_names. apply (Forall_false_not _ _ e Hno He). by apply names_true.
  - intros Hn. apply Forall_forall. intros e He. destruct (names (Some key) e) eqn:E; [|done]. destruct Hn.
    apply names_true in E as [? ?]. apply elem_key_names. eauto.
Qed.

(** The final writes for a new key. *)
Lemma store_append_new w es l key value n b :
  store w es -> set_args key value n -> key ∉ key_names es -> l_key_id l < 0 ->
  c_max_key_id (l_ctx l) = last_key_id 0 es -> last_key_id 0 es < MAX_KEY_ID ->
  room w (4 + n + (4 + Z.of_nat (length key))) ->
  exists w', set_append l key (Z.of_nat (length key)) value n (bin_flag b) w = Done (SYSPARAM_OK, w') /\
    set_result w w' es key (Some (b, val_of value n)).
Proof.
  intros Hst Ha Hno Hid Hmx Hids [Hfit Hlast]. pose proof (sa_val_len _ _ _ Ha) as Hvl. destruct Ha as [Hkl Hkb Hn Hnl Hvb].
  pose proof Hst as [H Hwf _ _ _]. pose proof (last_key_range es Hwf).
  destruct (set_append_new w es l key value n b) as (w' & Hap & Hr & Hi & Hu); try done; try lia.
  exists w'. split; [done|]. rewrite Hmx in Hr.
  eapply set_result_intro; [done|done|done|apply updates_new; try done; try lia; by apply names_absent|done].
Qed.

(** The final write for a key that has no value. *)
Lemma store_append_known w es l key ke value n b :
  store w es -> set_args key value n -> ke ∈ es -> names (Some key) ke = true -> l_key_id l = e_id ke ->
  Forall (fun x => values_of (e_id ke) x = false) es -> room w (4 + n) ->
  exists w', set_append l key (Z.of_nat (length key)) value n (bin_flag b) w = Done (SYSPARAM_OK, w') /\
    set_result w w' es key (Some (b, val_of value n)).
Proof.
  intros Hst Ha Hin Hke Hid Hnov [Hfit Hlast]. pose proof (sa_val_len _ _ _ Ha) as Hvl. destruct Ha as [Hkl Hkb Hn Hnl Hvb].
  pose proof Hst as [H Hwf _ _ _]. pose proof Hke as [Hlk _]%names_true.
  pose proof (key_id_range es ke Hwf Hin Hlk).
  destruct (set_append_known w es l key value n b) as (w' & Hap & Hr & Hi & Hu); try done; try lia.
  exists w'. split; [done|]. rewrite Hid in Hr.
  eapply set_result_intro; [done|done|done|by apply updates_unset|done].
Qed.

(** The final write for a key that has a value, and the deletion of that value. *)
Lemma store_replace w es l key k ke ve r value n b :
  store w es -> set_args key value n -> es = k ++ ve :: r -> ke ∈ es -> names (Some key) ke = true ->
  values_of (e_id ke) ve = true -> l_key_id l = e_id ke -> room w (4 + n) ->
  exists w', (let! st := set_append l key (Z.of_nat (length key)) value n (bin_flag b) in
              if is_err st then ret st else set_delete_old st (log_start w + log_size k)) w = Done (SYSPARAM_OK, w') /\
    set_result w w' es key (Some (b, val_of value n)).
Proof.
  intros Hst Ha Hes Hin Hke Hve Hid [Hfit Hlast]. pose proof (sa_val_len _ _ _ Ha) as Hvl.
  destruct Ha as [Hkl Hkb Hn Hnl Hvb]. pose proof Hst as [H Hwf _ _ _].
  pose proof Hke as [Hlk _]%names_true. pose proof Hve as [Hlv Hide]%values_true.
  pose proof (key_id_range es ke Hwf Hin Hlk). pose proof (region_bounds _ _ H) as B. pose proof (log_size_nonneg k).
  destruct (set_append_known w es l key value n b) as (w1 & Hap & Hr1 & Hi1 & Hu1); try done; try lia.
  run Hap. cbn [is_err status_code Z.ltb Z.compare]. unfold set_delete_old.
  rewrite (proj2 (Z.eqb_neq _ _)) by lia. cbn [negb]. rewrite Hid in Hr1.
  assert (Hr1' : region_holds w1 (k ++ ve :: (r ++ [val_entry (e_id ke) b (val_of value n)]))).
  { rewrite Hes, <-app_assoc in Hr1. exact Hr1. }
  destruct (delete_value_ok w1 k ve _ Hr1') as (w2 & Hdel & Hr2 & Hi2 & Hu2).
  assert (Hc1 : cur_base (w_info w1) = cur_base (w_info w)) by (by rewrite Hi1).
  rewrite Hc1 in Hdel. exists w2. split; [exact Hdel|].
  eapply set_result_intro with (es' := (k ++ kill ve :: r) ++ [val_entry (e_id ke) b (val_of value n)]);
    [done| | | |by rewrite Hi2, Hi1].
  - apply log_update_trans with w1; [by rewrite Hi1..|done|done].
  - by rewrite <-app_assoc.
  - rewrite Hes in *. by apply updates_replace.
Qed.

(** The space a call needs for a value of [n] bytes under [key]. *)
Definition space_for (es : list entry) (key : list Z) (n : Z) : Z :=
  4 + n + (if decide (key ∈ key_names es) then 0 else 4 + Z.of_nat (length key)).

Lemma found_key_name es key ke : ke ∈ es -> names (Some key) ke = true -> key ∈ key_names es.
Proof. intros Hin [Hlk Hname]%names_true. apply elem_key_names. eauto. Qed.

(** [set_write] with room to spare is [set_append]. *)
Lemma set_write_plain w es l key value n b :
  store w es -> set_args key value n ->
  (l_key_id l < 0 -> c_max_key_id (l_ctx l) < MAX_KEY_ID) ->
  needed_space (l_key_id l) key n <= region_top (w_info w) - end_addr (w_info w) ->
  (let! (status, old) := set_write l key (Z.of_nat (length key)) value n (bin_flag b) in
   if is_err status then ret status else set_delete_old status old) w =
  (let! st := set_append l key (Z.of_nat (length key)) value n (bin_flag b) in
   if is_err st then ret st else set_delete_old st (l_old_value_addr l)) w.
Proof.
  intros Hst Ha Hid Hn. destruct Hst as [H _ Hf _ _]. unfold bind at 1.
  rewrite (set_write_fits w es l) by (done || apply Ha). unfold bind.
  by destruct (set_append l _ _ _ _ _ w) as [[st w1]| |].
Qed.

(** ... for a key that is known. *)
Lemma set_write_known w es ctx ke old key value n b :
  let l := {| l_ctx := ctx; l_key_id := e_id ke; l_old_value_addr := old |} in
  store w es -> set_args key value n -> ke ∈ es -> names (Some key) ke = true ->
  4 + n <= region_top (w_info w) - end_addr (w_info w) ->
  (let! (status, old) := set_write l key (Z.of_nat (length key)) value n (bin_flag b) in
   if is_err status then ret status else set_delete_old status old) w =
  (let! st := set_append l key (Z.of_nat (length key)) value n (bin_flag b) in
   if is_err st then ret st else set_delete_old st (l_old_value_addr l)) w.
Proof.
  intros l Hst Ha Hin Hke Hn. pose proof Hke as [Hlk _]%names_true.
  pose proof (key_id_range es ke (st_wf _ _ Hst) Hin Hlk) as Hid.
  apply (set_write_plain w es l); [done|done|cbn; lia|]. unfold needed_space. cbn. rewrite (proj2 (Z.ltb_ge _ _)) by lia. lia.
Qed.

Lemma set_locked_fits w es key value n b :
  store w es -> set_args key value n ->
  (key ∈ key_names es \/ last_key_id 0 es < MAX_KEY_ID) -> room w (space_for es key n) ->
  exists w', set_data_locked key (Z.of_nat (length key)) value n b w = Done (SYSPARAM_OK, w') /\
    set_result w w' es key (Some (b, val_of value n)).
Proof.
  intros Hst Ha Hids Hroom. pose proof Hst as [H Hwf _ _ _]. pose proof Ha as [Hkl _ Hn Hnl _].
  unfold set_data_locked, space_for in *. erewrite bind_Done by reflexivity. rewrite (cur_base_nz _ _ H).
  destruct (set_find_ok w es key H Hwf) as (res & Hrun & Hres). run Hrun.
  change (if b then ENTRY_FLAG_BINARY else 0) with (bin_flag b). pose proof Hroom as [Hfit Hlast].
  destruct Hres as [(Hno & Hkv & ->)|[(l & ke & r & Hes & Hke & Hnov & Hkv & ->)|
    (l & ke & m & ve & r & Hes & Hke & Hve & Hkv & ->)]]; cbn [is_err status_code Z.ltb Z.compare];
    rewrite (proj2 (Z.eqb_neq n 0)) by lia; cbn [negb].
  - apply names_absent in Hno. rewrite decide_False in * by done. destruct Hids as [|Hids]; [done|].
    unfold set_same, count_old_value. cbn [l_old_value_addr Z.eqb negb andb]. erewrite bind_Done by reflexivity.
    cbn [l_old_value_addr Z.eqb negb andb].
    set (lc := {| l_ctx := _; l_key_id := _; l_old_value_addr := _ |}).
    assert (Hmx : c_max_key_id (l_ctx lc) = last_key_id 0 es) by (cbn [l_ctx lc]; by rewrite miss_ctx_max, scanned_max).
    rewrite (set_write_plain w es lc) by (done || lia).
    destruct (store_append_new w es lc key value n b) as (w' & Hap & Hsr); try done.
    run Hap. cbn. eauto.
  - assert (Hin : ke ∈ es) by (rewrite Hes; set_solver).
    rewrite decide_True in * by (by eapply found_key_name).
    unfold set_same, count_old_value. cbn [l_old_value_addr Z.eqb negb andb]. erewrite bind_Done by reflexivity.
    cbn [l_old_value_addr Z.eqb negb andb].
    rewrite (set_write_known w es _ ke) by (done || lia). set (lc := {| l_ctx := _; l_key_id := _; l_old_value_addr := _ |}).
    destruct (store_append_known w es lc key ke value n b) as (w' & Hap & Hsr); try done.
    { by rewrite Z.add_0_r in Hroom. }
    run Hap. cbn. eauto.
  - assert (Hin : ke ∈ es) by (rewrite Hes; set_solver).
    rewrite decide_True in * by (by eapply found_key_name). rewrite Z.add_0_r in *.
    assert (Hes' : es = (l ++ ke :: m) ++ ve :: r) by (rewrite Hes, <-app_assoc; done).
    replace (l ++ ke :: m ++ [ve]) with ((l ++ ke :: m) ++ [ve]) by (by rewrite <-app_assoc).
    set (k := l ++ ke :: m) in *. pose proof (region_bounds _ _ H) as B. pose proof (log_size_nonneg k).
    assert (Hold : log_start w + log_size k <> 0) by lia.
    destruct (scanned_entry w k ve) as (Hca & Hci & Hcl). set (ctx := scanned w (k ++ [ve])) in *.
    unfold bind at 1. rewrite (set_same_ok w es k ve r) by (done || lia).
    case_bool_decide as Hsame.
    + exists w. split; [done|]. apply set_result_refl; [done|]. rewrite Hkv. destruct Hsame as [-> ->]. done.
    + unfold count_old_value. cbn [l_old_value_addr]. rewrite (proj2 (Z.eqb_neq _ _) Hold). cbn [negb l_ctx l_key_id].
      rewrite (set_write_known w es _ ke) by (done || lia). set (lc := {| l_ctx := _; l_key_id := _; l_old_value_addr := _ |}).
      by apply (store_replace w es lc key k ke ve r).
Qed.

(** [sysparam_set_data] without a value deletes the key's value. *)
Lemma set_locked_delete w es key value b :
  store w es -> Z.of_nat (length key) <= 65535 ->
  exists w', set_data_locked key (Z.of_nat (length key)) value 0 b w =
      Done (match kv es key with Some _ => SYSPARAM_OK | None => SYSPARAM_NOTFOUND end, w') /\
    set_result w w' es key None.
Proof.
  intros Hst Hkl. pose proof Hst as [H Hwf _ _ _].
  unfold set_data_locked. erewrite bind_Done by reflexivity. rewrite (cur_base_nz _ _ H).
  destruct (set_find_ok w es key H Hwf) as (res & Hrun & Hres). run Hrun.
  destruct Hres as [(Hno & Hkv & ->)|[(l & ke & r & Hes & Hke & Hnov & Hkv & ->)|
    (l & ke & m & ve & r & Hes & Hke & Hve & Hkv & ->)]]; rewrite Hkv; cbn [is_err status_code Z.ltb Z.compare Z.eqb negb].
  - exists w. split; [done|]. by apply set_result_refl.
  - exists w. split; [done|]. by apply set_result_refl.
  - assert (Hin : ke ∈ es) by (rewrite Hes; set_solver).
    rewrite app_comm_cons, app_assoc in Hes. set (k := l ++ ke :: m) in *.
    pose proof (region_bounds _ _ H) as B. pose proof (log_size_nonneg k). unfold set_delete_old.
    cbn [l_old_value_addr]. rewrite (proj2 (Z.eqb_neq _ _)) by lia. cbn [negb]. pose proof H as H'. rewrite Hes in H'.
    destruct (delete_value_ok w k ve r H') as (w2 & Hdel & Hr2 & Hi2 & Hu2).
    exists w2. split; [exact Hdel|]. pose proof Hve as [Hlv Hide]%values_true.
    eapply set_result_intro with (a := end_addr (w_info w)); [done|done|done| |rewrite Hi2; by destruct (w_info w)].
    rewrite Hes in *. by apply updates_kill with ke.
Qed.

End Set_.
