(* ===== verification/SysparamPairs.v ===== *)
(** * The log compaction writes

    The key/value pairs an iteration over a log meets ([pairs]), the log
    that [_compact_params] of [core/sysparam.c] writes for them ([cout]),
    its well-formedness, its size and the map it stands for. *)

From stdpp Require Import sorting.
From S2P Require Import Prelude CStrings Flash Sysparam SysparamLog SysparamProofs SysparamScan SysparamStore SysparamSet.

(** The live keys of a log, in order, with the value each has behind it. *)
Fixpoint pairs (es : list entry) : list (entry * entry) :=
  match es with
  | [] => []
  | e :: r =>
    if live_key e then
      match find_val (e_id e) r with
      | Some v => (e, v) :: pairs r
      | None => pairs r
      end
    else pairs r
  end.

(** The entries written for the pairs [ps] when [n] keys were written before;
    the value of the key whose id is [kid] is left out. *)
Fixpoint cout (kid : option Z) (n : Z) (ps : list (entry * entry)) : list entry :=
  match ps with
  | [] => []
  | (ke, ve) :: ps =>
    key_entry (n + 1) (e_payload ke) ::
    if bool_decide (kid = Some (e_id ke)) then cout (Some (n + 1)) (n + 1) ps
    else val_entry (n + 1) (e_binary ve) (e_payload ve) :: cout kid (n + 1) ps
  end.

(** The value [*key_id] has in the end. *)
Fixpoint ckid (kid : option Z) (n : Z) (ps : list (entry * entry)) : option Z :=
  match ps with
  | [] => kid
  | (ke, ve) :: ps =>
    if bool_decide (kid = Some (e_id ke)) then ckid (Some (n + 1)) (n + 1) ps else ckid kid (n + 1) ps
  end.

(** ** Sizes *)

Definition zsum {A} (f : A -> Z) (l : list A) : Z := foldr (fun x n => f x + n) 0 l.

Lemma zsum_perm {A} (f : A -> Z) l l' : l ≡ₚ l' -> zsum f l = zsum f l'.
Proof. unfold zsum. induction 1; cbn; lia. Qed.

Lemma zsum_ext {A} (f g : A -> Z) l : (forall x, x ∈ l -> f x = g x) -> zsum f l = zsum g l.
Proof.
  unfold zsum. induction l as [|x l IH]; intros H; cbn; [done|].
  rewrite (H x), IH by set_solver. done.
Qed.

(** A part [a] of [b] that leaves out nothing or at least an entry header. *)
Definition part_of (a b : Z) : Prop := a = b \/ a + 4 <= b.

Definition vsize (es : list entry) (i : Z) : Z :=
  match find_val i es with Some v => e_size v | None => 0 end.

Definition pair_size (p : entry * entry) : Z := e_size (fst p) + e_size (snd p).

Lemma find_val_cons i e es :
  find_val i (e :: es) = if values_of i e then Some e else find_val i es.
Proof.
  unfold find_val. cbn. destruct (values_of i e) eqn:E.
  - apply values_true in E. by rewrite decide_True.
  - rewrite decide_False by (rewrite <-values_true; congruence).
    by destruct (list_find _ es) as [[? ?]|].
Qed.

Lemma dead_size_cons e es : dead_size (e :: es) = (if e_live e then 0 else e_size e) + dead_size es.
Proof. done. Qed.

Lemma live_split e : e_live e = live_key e || live_val e.
Proof. unfold live_key, live_val. by destruct (e_live e), (e_value e). Qed.

Lemma dead_size_app l r : dead_size (l ++ r) = dead_size l + dead_size r.
Proof. induction l as [|e l IH]; cbn [app]; [done|]. rewrite !dead_size_cons, IH. lia. Qed.

(** The values of the ids [X] and the pairs of the log share no entry, so
    together they are a part of the log. *)
Lemma pairs_size_gen es : forall X, NoDup X ->
  (forall i, i ∈ X -> i ∉ key_ids es) -> NoDup (key_ids es) ->
  part_of (zsum (vsize es) X + zsum pair_size (pairs es) + dead_size es) (log_size es).
Proof.
  induction es as [|e es IH]; intros X HX Hdis Hnd.
  - left. cut (zsum (vsize []) X = 0); [intros ->; done|].
    clear. induction X as [|x X IH]; [done|]. unfold zsum in *. cbn [foldr]. rewrite IH. done.
  - rewrite log_size_cons, dead_size_cons. pose proof (e_size_pos e). rewrite key_ids_cons in Hdis, Hnd. cbn [pairs].
    rewrite live_split.
    assert (Hv : forall i, values_of i e = false -> vsize (e :: es) i = vsize es i).
    { intros i Hi. unfold vsize. by rewrite find_val_cons, Hi. }
    unfold values_of in Hv. destruct (live_key e) eqn:Ek; cbn [app orb] in *.
    + apply NoDup_cons in Hnd as [Hni Hnd].
      assert (HX' : zsum (vsize (e :: es)) X = zsum (vsize es) X).
      { apply zsum_ext. intros i _. apply Hv. destruct (live_val e) eqn:Ev; [by destruct (live_not_both e)|done]. }
      assert (part_of (zsum (vsize es) (e_id e :: X) + zsum pair_size (pairs es) + dead_size es) (log_size es)) as IH'.
      { apply IH; [|set_solver|done]. constructor; [|done]. intros Hin. apply (Hdis _ Hin). set_solver. }
      unfold zsum at 1 in IH'. cbn [foldr] in IH'. fold (zsum (vsize es) X) in IH'.
      unfold vsize at 1 in IH'. destruct (find_val (e_id e) es) as [v|]; [|unfold part_of in *; lia].
      unfold zsum at 2. cbn [foldr]. fold (zsum pair_size (pairs es)). unfold pair_size at 1. cbn [fst snd].
      unfold part_of in *. lia.
    + destruct (live_val e) eqn:Ev.
      2: { specialize (IH X HX Hdis Hnd). rewrite <-(zsum_ext (vsize (e :: es)) (vsize es)) in IH by auto.
           unfold part_of in *. lia. }
      destruct (decide (e_id e ∈ X)) as [Hin|Hin].
      * apply elem_of_Permutation in Hin as [X' HXX]. rewrite (zsum_perm _ _ _ HXX).
        rewrite HXX in HX. apply NoDup_cons in HX as [Hni HX].
        assert (Hdis' : forall i, i ∈ X' -> i ∉ key_ids es).
        { intros i Hi. apply Hdis. rewrite HXX. set_solver. }
        specialize (IH X' HX Hdis' Hnd). rewrite <-(zsum_ext (vsize (e :: es)) (vsize es)) in IH.
        2: { intros i Hi. apply Hv. cbn. apply Z.eqb_neq. congruence. }
        unfold zsum at 1. cbn [foldr]. fold (zsum (vsize (e :: es)) X').
        unfold vsize at 1. rewrite find_val_cons. unfold values_of. rewrite Ev, Z.eqb_refl. cbn.
        unfold part_of in *. lia.
      * specialize (IH X HX Hdis Hnd). rewrite <-(zsum_ext (vsize (e :: es)) (vsize es)) in IH.
        2: { intros i Hi. apply Hv. cbn. apply Z.eqb_neq. congruence. }
        unfold part_of in *. lia.
Qed.

Lemma sorted_NoDup l : StronglySorted Z.lt l -> NoDup l.
Proof.
  induction 1 as [|x l Hs IH Hx]; constructor; [|done].
  rewrite Forall_forall in Hx. intros Hin. apply Hx in Hin. lia.
Qed.

Lemma pairs_size es : wf_log es -> part_of (zsum pair_size (pairs es) + dead_size es) (log_size es).
Proof.
  intros H. apply (pairs_size_gen es [] ltac:(constructor) ltac:(set_solver) (sorted_NoDup _ (wf_ids _ H))).
Qed.

Lemma dead_size_part es : part_of 0 (dead_size es).
Proof.
  unfold part_of. induction es as [|e es IH]; [by left|]. rewrite dead_size_cons. pose proof (e_size_pos e).
  case_if; lia.
Qed.

Lemma cout_size kid n ps : part_of (log_size (cout kid n ps)) (zsum pair_size ps).
Proof.
  revert kid n. induction ps as [|[ke ve] ps IH]; intros kid n; [by left|]. cbn [cout].
  rewrite log_size_cons. unfold zsum. cbn [foldr]. fold (zsum pair_size ps). unfold pair_size at 1. cbn [fst snd].
  change (e_size (key_entry (n + 1) (e_payload ke))) with (e_size ke). pose proof (e_size_pos ve). unfold part_of in *.
  case_bool_decide; [|rewrite log_size_cons; change (e_size (val_entry _ _ _)) with (e_size ve)];
    match goal with |- context [cout ?k ?m ps] => specialize (IH k m) end; lia.
Qed.

(** ** The pairs of a well-formed log *)

Lemma pairs_sublist es : (fst <$> pairs es) `sublist_of` filter (fun e => live_key e = true) es.
Proof.
  induction es as [|e es IH]; [constructor|]. cbn [pairs]. rewrite filter_cons.
  destruct (live_key e) eqn:E; [rewrite decide_True by done|rewrite decide_False by done; done].
  destruct (find_val (e_id e) es); cbn [fmap list_fmap fst]; by constructor.
Qed.

Lemma Forall_sublist {A} (P : A -> Prop) l l' : l `sublist_of` l' -> Forall P l' -> Forall P l.
Proof. intros Hs. rewrite !Forall_forall. intros H x Hx. apply H. by eapply elem_of_sublist. Qed.

Lemma StronglySorted_sublist (l l' : list Z) : l `sublist_of` l' -> StronglySorted Z.lt l' -> StronglySorted Z.lt l.
Proof.
  induction 1 as [|x l l' Hl IH|x l l' Hl IH]; intros Hs; [done|..]; apply StronglySorted_inv in Hs as [Hs Hx].
  - constructor; [auto|]. by eapply Forall_sublist.
  - auto.
Qed.

Lemma pairs_ids es : (e_id ∘ fst <$> pairs es) `sublist_of` key_ids es.
Proof. rewrite list_fmap_compose. apply fmap_sublist, pairs_sublist. Qed.

Lemma pairs_names es : (e_payload ∘ fst <$> pairs es) `sublist_of` key_names es.
Proof. rewrite list_fmap_compose. apply fmap_sublist, pairs_sublist. Qed.

Lemma pairs_elem es p : p ∈ pairs es ->
  fst p ∈ es /\ live_key (fst p) = true /\ snd p ∈ es /\ live_val (snd p) = true /\ e_id (snd p) = e_id (fst p).
Proof.
  induction es as [|e es IH]; cbn [pairs]; [by rewrite elem_of_nil|]. intros Hp.
  assert (Hrec : p ∈ pairs es -> fst p ∈ e :: es /\ live_key (fst p) = true /\ snd p ∈ e :: es /\
    live_val (snd p) = true /\ e_id (snd p) = e_id (fst p)).
  { intros H%IH. rewrite !elem_of_cons. tauto. }
  destruct (live_key e) eqn:E; [|auto]. destruct (find_val (e_id e) es) as [v|] eqn:Ev; [|auto].
  apply elem_of_cons in Hp as [->|Hp]; [|auto]. cbn [fst snd]. unfold find_val in Ev.
  pose proof (find_first (fun x => live_val x = true /\ e_id x = e_id e) es) as Hf. rewrite Ev in Hf.
  destruct Hf as (l & r & -> & [? ?] & _). set_solver.
Qed.

Lemma pairs_app l r p : p ∈ pairs r -> p ∈ pairs (l ++ r).
Proof.
  intros Hp. induction l as [|e l IH]; [done|]. cbn [app pairs].
  destruct (live_key e); [|done]. destruct (find_val _ _); [|done]. by apply elem_of_cons; right.
Qed.

Lemma pairs_elem_iff es ke ve : wf_log es ->
  (ke, ve) ∈ pairs es <->
  ke ∈ es /\ live_key ke = true /\ ve ∈ es /\ live_val ve = true /\ e_id ve = e_id ke.
Proof.
  intros Hwf. split; [apply pairs_elem|]. intros (Hke & Hk & Hve & Hv & Hid).
  apply list_elem_of_split in Hke as (l & r & Hes).
  pose proof (no_value_before es l ke r Hwf Hes Hk) as Hb.
  assert (Hr : ve ∈ r).
  { rewrite Hes in Hve. change (ke :: r) with ([ke] ++ r) in Hve. rewrite app_assoc in Hve.
    apply elem_of_app in Hve as [Hve|Hve]; [|done]. exfalso. apply (Forall_false_not _ _ ve Hb Hve).
    by apply values_true. }
  rewrite Hes. apply pairs_app. cbn [pairs]. rewrite Hk.
  pose proof (find_first (fun x => live_val x = true /\ e_id x = e_id ke) r) as Hf. fold (find_val (e_id ke) r) in Hf.
  destruct (find_val (e_id ke) r) as [v|].
  - destruct Hf as (r1 & r2 & Hr12 & [Hv' Hid'] & _). apply elem_of_cons. left. f_equal.
    apply (NoDup_fmap_inv e_id (filter (fun e => live_val e = true) es)); [apply wf_vals, Hwf|..|congruence];
      apply list_elem_of_filter; subst; set_solver.
  - rewrite Forall_forall in Hf. exfalso. by eapply Hf.
Qed.

Lemma kv_pairs es k b v : wf_log es ->
  kv es k = Some (b, v) <->
  exists p, p ∈ pairs es /\ e_payload (fst p) = k /\ e_binary (snd p) = b /\ e_payload (snd p) = v.
Proof.
  intros Hwf. rewrite kv_binds by done. split.
  - intros (ke & ve & H1 & H2 & H3 & H4 & H5 & H6 & H7 & H8). exists (ke, ve). rewrite pairs_elem_iff by done. done.
  - intros ([ke ve] & Hp & H1 & H2 & H3). rewrite pairs_elem_iff in Hp by done. cbn [fst snd] in *.
    destruct Hp as (?&?&?&?&?). exists ke, ve. done.
Qed.

(** ** The compacted log *)

(** The pairs compaction goes through, [n] keys having been written. *)
Record pairs_ok (n : Z) (ps : list (entry * entry)) : Prop := {
  po_sorted : StronglySorted Z.lt (e_id ∘ fst <$> ps);
  po_range : Forall (fun i => n < i <= MAX_KEY_ID) (e_id ∘ fst <$> ps);
  po_names : NoDup (e_payload ∘ fst <$> ps);
  po_entries : Forall (fun p => entry_ok (fst p) /\ entry_ok (snd p)) ps;
}.

Lemma pairs_pairs_ok es : wf_log es -> pairs_ok 0 (pairs es).
Proof.
  intros H. split.
  - eapply StronglySorted_sublist; [apply pairs_ids|apply H].
  - eapply Forall_sublist; [apply pairs_ids|]. eapply Forall_impl; [apply H|]. cbn. lia.
  - eapply sublist_NoDup; [apply H|apply pairs_names].
  - apply Forall_forall. intros p (H1 & _ & H2 & _)%pairs_elem.
    pose proof (wf_entries _ H) as He. rewrite Forall_forall in He. auto.
Qed.

Lemma pairs_ok_cons n ke ve ps : 0 <= n -> pairs_ok n ((ke, ve) :: ps) ->
  n < e_id ke <= MAX_KEY_ID /\ entry_ok ke /\ entry_ok ve /\ (e_payload ke ∉ (e_payload ∘ fst <$> ps)) /\
  (e_id ke ∉ (e_id ∘ fst <$> ps)) /\ pairs_ok (n + 1) ps.
Proof.
  intros Hn [Hs Hr Hnd He]. rewrite !fmap_cons in *. apply StronglySorted_inv in Hs as [Hs Hlt].
  apply Forall_cons in Hr as [Hk Hr]. apply NoDup_cons in Hnd as [Hni Hnd]. apply Forall_cons in He as [[? ?] He].
  cbn [compose fst snd] in *. split; [done|]. split; [done|]. split; [done|]. split; [done|]. split.
  - intros Hin. rewrite Forall_forall in Hlt. apply Hlt in Hin. cbn in Hin. lia.
  - split; try done. rewrite Forall_forall in *. intros i Hi. pose proof (Hlt i Hi). pose proof (Hr i Hi). cbn in *. lia.
Qed.

(** One more key, and one more key with its value, in a log whose ids are at most [n]. *)
Lemma snoc_key acc n ke :
  wf_log acc -> Forall (fun i => i <= n) (key_ids acc) -> 0 <= n -> n + 1 <= MAX_KEY_ID ->
  entry_ok ke -> e_payload ke ∉ key_names acc ->
  let acc' := acc ++ [key_entry (n + 1) (e_payload ke)] in
  wf_log acc' /\ Forall (fun i => i <= n + 1) (key_ids acc') /\
  key_names acc' = key_names acc ++ [e_payload ke] /\ (forall k, kv acc' k = kv acc k) /\
  (n + 1 ∉ val_ids acc').
Proof.
  intros Hwf Hids Hn Hmax (_ & Hl & Hb) Hni acc'.
  destruct (key_entry_facts (n + 1) (e_payload ke) ltac:(lia)) as (F1 & F2 & F3 & _).
  assert (Hlt : Forall (fun i => i < n + 1) (key_ids acc)) by (eapply Forall_impl; [exact Hids|]; cbn; lia).
  assert (Hwf' : wf_log acc') by (apply wf_append_key; try done; unfold e_len in Hl; lia).
  split; [done|]. unfold acc' in *. autorewrite with esp. rewrite F1, F2, F3. cbn [app key_ids key_names val_ids filter fmap list_fmap].
  split; [apply Forall_app; split; [eapply Forall_impl; [exact Hids|]; cbn; lia|repeat constructor; lia]|].
  split; [done|]. split; [intros k; apply kv_append_key; try done; lia|]. rewrite app_nil_r.
  intros (v & Hv & Hlv & Hid)%elem_val_ids. pose proof (val_has_key acc v Hwf Hv Hlv) as Hin.
  rewrite Forall_forall in Hlt. rewrite Hid in Hin. apply Hlt in Hin. lia.
Qed.

Lemma snoc_val acc n ke ve :
  wf_log (acc ++ [key_entry (n + 1) (e_payload ke)]) ->
  0 <= n -> n + 1 <= MAX_KEY_ID -> entry_ok ve ->
  n + 1 ∉ val_ids (acc ++ [key_entry (n + 1) (e_payload ke)]) ->
  let acc1 := acc ++ [key_entry (n + 1) (e_payload ke)] in
  let acc2 := acc1 ++ [val_entry (n + 1) (e_binary ve) (e_payload ve)] in
  wf_log acc2 /\ key_ids acc2 = key_ids acc1 /\ key_names acc2 = key_names acc1 /\
  forall k, kv acc2 k = if decide (k = e_payload ke) then Some (e_binary ve, e_payload ve) else kv acc1 k.
Proof.
  intros Hwf Hn Hmax (_ & Hl & Hb) Hni acc1 acc2. fold acc1 in Hwf, Hni.
  destruct (key_entry_facts (n + 1) (e_payload ke) ltac:(lia)) as (F1 & F2 & F3 & _).
  destruct (val_entry_facts (n + 1) (e_binary ve) (e_payload ve) ltac:(lia)) as (G1 & G2 & _).
  assert (Hin : key_entry (n + 1) (e_payload ke) ∈ acc1) by set_solver.
  assert (Hwf' : wf_log acc2).
  { apply wf_append_val; try done. apply elem_key_ids. eauto. }
  split; [done|]. split; [|split].
  1,2: unfold acc2; autorewrite with esp; rewrite ?G1, ?G2; by cbn; rewrite app_nil_r.
  intros k. subst acc2. revert Hwf'. rewrite <-F3. intros Hwf'. rewrite kv_append_val by done. done.
Qed.

(** The map of the compacted log: every pair but the one of [kid]. *)
Lemma cout_spec ps : forall acc kid n,
  wf_log acc -> Forall (fun i => i <= n) (key_ids acc) -> 0 <= n ->
  pairs_ok n ps -> (forall p, p ∈ ps -> e_payload (fst p) ∉ key_names acc) ->
  wf_log (acc ++ cout kid n ps) /\
  forall k b v, kv (acc ++ cout kid n ps) k = Some (b, v) <->
    kv acc k = Some (b, v) \/
    exists p, p ∈ ps /\ kid <> Some (e_id (fst p)) /\ e_payload (fst p) = k /\
      e_binary (snd p) = b /\ e_payload (snd p) = v.
Proof.
  induction ps as [|[ke ve] ps IH]; intros acc kid n Hwf Hids Hn Hok Hdis.
  - cbn [cout]. rewrite app_nil_r. split; [done|]. intros k b v. split; [by left|]. intros [?|(p & Hp & _)]; [done|].
    by apply elem_of_nil in Hp.
  - destruct (pairs_ok_cons n ke ve ps Hn Hok) as (Hid & Hke & Hve & Hnn & Hni & Hok').
    assert (Hkn : e_payload ke ∉ key_names acc) by (apply (Hdis (ke, ve)); set_solver).
    destruct (snoc_key acc n ke Hwf Hids Hn ltac:(lia) Hke Hkn) as (Hwf1 & Hids1 & Hnames1 & Hkv1 & Hval1).
    assert (Hdis1 : forall p, p ∈ ps -> e_payload (fst p) ∉ key_names acc ++ [e_payload ke]).
    { intros p Hp. rewrite elem_of_app, list_elem_of_singleton. intros [Hin|Heq]; [by apply (Hdis p); set_solver|].
      destruct Hnn. rewrite <-Heq. apply list_elem_of_fmap. eauto. }
    assert (Hnone : kv acc (e_payload ke) = None).
    { apply kv_None; [done|]. intros b v (k1 & ve1 & H1 & H2 & H3 & _). destruct Hkn. apply elem_key_names. eauto. }
    cbn [cout]. case_bool_decide as Hkid.
    + rewrite cons_middle, app_assoc.
      destruct (IH _ (Some (n + 1)) (n + 1) Hwf1 Hids1 ltac:(lia) Hok') as [Hw Hkv]; [by rewrite Hnames1|].
      split; [done|]. intros k b v. rewrite Hkv, Hkv1. apply or_iff_compat_l. split.
      * intros (p & Hp & _ & Hrest). exists p. split; [set_solver|]. split; [|done]. rewrite Hkid.
        intros [= Heq]. destruct Hni. rewrite Heq. apply list_elem_of_fmap. eauto.
      * intros (p & Hp & Hne & Hrest). apply elem_of_cons in Hp as [->|Hp]; [done|]. exists p. split; [done|].
        split; [|done]. intros [= Heq]. pose proof (po_range _ _ Hok') as Hr. rewrite Forall_forall in Hr.
        pose proof (Hr (e_id (fst p)) ltac:(apply list_elem_of_fmap; eauto)). lia.
    + rewrite cons_middle, app_assoc. rewrite (cons_middle (val_entry _ _ _)), app_assoc.
      destruct (snoc_val acc n ke ve Hwf1 Hn ltac:(lia) Hve Hval1) as (Hwf2 & Hids2 & Hnames2 & Hkv2).
      destruct (IH _ kid (n + 1) Hwf2 ltac:(by rewrite Hids2) ltac:(lia) Hok') as [Hw Hkv]; [by rewrite Hnames2, Hnames1|].
      split; [done|]. intros k b v. rewrite Hkv, Hkv2, Hkv1. split.
      * intros [Hs|(p & Hp & Hrest)]; [|right; exists p; set_solver]. case_decide as Hk; [|by left].
        injection Hs as <- <-. right. exists (ke, ve). set_solver.
      * intros [Hs|(p & Hp & Hne & H1 & H2 & H3)].
        -- left. rewrite decide_False; [done|]. intros ->. congruence.
        -- apply elem_of_cons in Hp as [->|Hp]; [|right; by exists p]. left. cbn [fst snd] in *.
           rewrite decide_True by done. congruence.
Qed.

(** The ids of the compacted log count up from one. *)
Lemma pairs_ok_length ps : forall n, 0 <= n <= MAX_KEY_ID -> pairs_ok n ps ->
  n + Z.of_nat (length ps) <= MAX_KEY_ID.
Proof.
  induction ps as [|[ke ve] ps IH]; intros n Hn Hok; cbn [length]; [lia|].
  destruct (pairs_ok_cons n ke ve ps ltac:(lia) Hok) as (? & _ & _ & _ & _ & Hok'). specialize (IH (n + 1) ltac:(lia) Hok'). lia.
Qed.

Lemma cout_last_id ps : forall kid n, 0 <= n -> n + Z.of_nat (length ps) <= MAX_KEY_ID ->
  last_key_id n (cout kid n ps) = n + Z.of_nat (length ps).
Proof.
  induction ps as [|[ke ve] ps IH]; intros kid n Hn Hmax; [cbn; lia|]. cbn [length cout] in *.
  destruct (key_entry_facts (n + 1) (e_payload ke) ltac:(lia)) as (F1 & F2 & F3 & _).
  assert (Hstep : forall r, last_key_id n (key_entry (n + 1) (e_payload ke) :: r) = last_key_id (n + 1) r).
  { intros r. unfold last_key_id. rewrite key_ids_cons, F1, F3. cbn [app]. by destruct (key_ids r) as [|x l] using rev_ind;
      [|rewrite app_comm_cons, !last_snoc]. }
  rewrite Hstep. case_bool_decide; [rewrite IH by lia; lia|].
  destruct (val_entry_facts (n + 1) (e_binary ve) (e_payload ve) ltac:(lia)) as (G1 & G2 & _).
  unfold last_key_id. rewrite key_ids_cons, G2. cbn [app]. fold (last_key_id (n + 1) (cout kid (n + 1) ps)).
  rewrite IH by lia. lia.
Qed.

(** An id that no pair has is passed through. *)
Lemma ckid_other ps : forall kid n, (forall p, p ∈ ps -> kid <> Some (e_id (fst p))) -> ckid kid n ps = kid.
Proof.
  induction ps as [|[ke ve] ps IH]; intros kid n H; [done|]. cbn [ckid].
  rewrite bool_decide_eq_false_2 by (apply (H (ke, ve)); set_solver). apply IH. set_solver.
Qed.

(** The id of a pair's key becomes the id of its new key entry. *)
Lemma ckid_pair ps : forall n p, 0 <= n -> n + Z.of_nat (length ps) <= MAX_KEY_ID -> pairs_ok n ps -> p ∈ ps ->
  exists i, ckid (Some (e_id (fst p))) n ps = Some i /\ n < i <= MAX_KEY_ID /\
    key_entry i (e_payload (fst p)) ∈ cout (Some (e_id (fst p))) n ps.
Proof.
  induction ps as [|[ke ve] ps IH]; intros n p Hn Hmax Hok Hp; [by apply elem_of_nil in Hp|].
  cbn [length] in Hmax. destruct (pairs_ok_cons n ke ve ps Hn Hok) as (Hid & _ & _ & _ & Hni & Hok'). cbn [ckid cout].
  apply elem_of_cons in Hp as [->|Hp]; cbn [fst].
  - rewrite bool_decide_eq_true_2 by done. exists (n + 1). split; [|split; [lia|set_solver]]. apply ckid_other.
    intros p Hp [= Heq]. pose proof (po_range _ _ Hok') as Hr. rewrite Forall_forall in Hr.
    pose proof (Hr (e_id (fst p)) ltac:(apply list_elem_of_fmap; eauto)). lia.
  - rewrite bool_decide_eq_false_2.
    2: { intros [= Heq]. destruct Hni. rewrite <-Heq. apply list_elem_of_fmap. eauto. }
    destruct (IH (n + 1) p ltac:(lia) ltac:(lia) Hok' Hp) as (i & Hi & Hr & Hin). exists i.
    split; [done|]. split; [lia|]. set_solver.
Qed.

(** ** Compaction of a well-formed log *)

Definition compacted (kid : option Z) (es : list entry) : list entry := cout kid 0 (pairs es).

Lemma compacted_size kid es : wf_log es -> part_of (log_size (compacted kid es)) (log_size es).
Proof.
  intros H. pose proof (cout_size kid 0 (pairs es)). pose proof (pairs_size es H).
  pose proof (dead_size_part es). unfold compacted, part_of in *. lia.
Qed.

Lemma compacted_spec kid es : wf_log es ->
  wf_log (compacted kid es) /\
  forall k b v, kv (compacted kid es) k = Some (b, v) <->
    exists p, p ∈ pairs es /\ kid <> Some (e_id (fst p)) /\ e_payload (fst p) = k /\
      e_binary (snd p) = b /\ e_payload (snd p) = v.
Proof.
  intros Hwf. destruct (cout_spec (pairs es) [] kid 0 wf_nil ltac:(constructor) ltac:(lia) (pairs_pairs_ok es Hwf))
    as [H1 H2]; [set_solver|]. cbn [app] in *. split; [done|]. intros k b v. unfold compacted. rewrite H2.
  split; [|by right]. by intros [?|?].
Qed.

Lemma compacted_keep kid es : wf_log es -> (forall p, p ∈ pairs es -> kid <> Some (e_id (fst p))) ->
  forall k, kv (compacted kid es) k = kv es k.
Proof.
  intros Hwf Hkid k. destruct (compacted_spec kid es Hwf) as [Hwf' Hkv]. apply option_eq. intros [b v].
  rewrite Hkv, kv_pairs by done. split; intros (p & Hp & H); exists p; naive_solver.
Qed.

Lemma compacted_drop es ke : wf_log es -> ke ∈ es -> live_key ke = true ->
  forall k, kv (compacted (Some (e_id ke)) es) k = if decide (k = e_payload ke) then None else kv es k.
Proof.
  intros Hwf Hke Hlk k. destruct (compacted_spec (Some (e_id ke)) es Hwf) as [Hwf' Hkv].
  assert (Hsame : forall p, p ∈ pairs es -> e_id ke = e_id (fst p) <-> e_payload (fst p) = e_payload ke).
  { intros p (H1 & H2 & _)%pairs_elem. split; intros Heq.
    - f_equal. by apply (key_id_unique es).
    - f_equal. apply (NoDup_fmap_inv e_payload (filter (fun e => live_key e = true) es));
        [apply wf_names, Hwf|by apply list_elem_of_filter..|done]. }
  apply option_eq. intros [b v]. rewrite Hkv. case_decide as Hk.
  - split; [|done]. intros (p & Hp & Hne & H1 & _). destruct Hne. f_equal. apply Hsame; congruence.
  - rewrite kv_pairs by done. split; intros (p & Hp & H); exists p; [naive_solver|].
    split; [done|]. split; [|done]. intros [= Heq]. apply Hk. rewrite <-(proj1 H). by apply Hsame.
Qed.

(** A key with a value keeps its key entry, under the id handed back. *)
Lemma compacted_key es ke ve : wf_log es -> (ke, ve) ∈ pairs es ->
  exists ke', ckid (Some (e_id ke)) 0 (pairs es) = Some (e_id ke') /\ ke' ∈ compacted (Some (e_id ke)) es /\
    names (Some (e_payload ke)) ke' = true /\
    Forall (fun x => values_of (e_id ke') x = false) (compacted (Some (e_id ke)) es).
Proof.
  intros Hwf Hp. pose proof (pairs_pairs_ok es Hwf) as Hok.
  assert (Hmax : 0 + Z.of_nat (length (pairs es)) <= MAX_KEY_ID)
    by (apply pairs_ok_length; [unfold MAX_KEY_ID; lia|done]).
  destruct (ckid_pair (pairs es) 0 (ke, ve) ltac:(lia) Hmax Hok Hp) as (i & Hi & Hr & Hin). cbn [fst] in *.
  destruct (key_entry_facts i (e_payload ke) ltac:(lia)) as (F1 & F2 & F3 & _).
  destruct (compacted_spec (Some (e_id ke)) es Hwf) as [Hwf' _].
  exists (key_entry i (e_payload ke)). rewrite F3. split; [done|]. split; [done|]. split; [by apply names_true|].
  apply Forall_forall. intros v Hv. destruct (values_of i v) eqn:E; [|done]. exfalso. apply values_true in E as [Hlv Hid].
  apply pairs_elem_iff in Hp as (Hke & Hlk & _); [|done].
  pose proof (compacted_drop es ke Hwf Hke Hlk (e_payload ke)) as Hkv. rewrite decide_True in Hkv by done.
  enough (kv (compacted (Some (e_id ke)) es) (e_payload ke) = Some (e_binary v, e_payload v)) by congruence.
  apply kv_binds; [done|]. exists (key_entry i (e_payload ke)), v. rewrite F3. done.
Qed.

Lemma cout_names ps : forall kid n, 0 <= n -> n + Z.of_nat (length ps) <= MAX_KEY_ID ->
  key_names (cout kid n ps) = (e_payload ∘ fst <$> ps).
Proof.
  induction ps as [|[ke ve] ps IH]; intros kid n Hn Hmax; [done|]. cbn [length cout] in *.
  destruct (key_entry_facts (n + 1) (e_payload ke) ltac:(lia)) as (F1 & F2 & F3 & _).
  destruct (val_entry_facts (n + 1) (e_binary ve) (e_payload ve) ltac:(lia)) as (G1 & G2 & _).
  rewrite key_names_cons, F1, fmap_cons. cbn [app compose fst]. f_equal.
  case_bool_decide; [apply IH; lia|]. rewrite key_names_cons, G2. apply IH; lia.
Qed.

Lemma compacted_length es : wf_log es -> Z.of_nat (length (pairs es)) <= MAX_KEY_ID.
Proof.
  intros Hwf. apply (pairs_ok_length (pairs es) 0); [unfold MAX_KEY_ID; lia|by apply pairs_pairs_ok].
Qed.

Lemma compacted_names kid es k : wf_log es -> k ∈ key_names (compacted kid es) -> k ∈ key_names es.
Proof.
  intros Hwf. pose proof (compacted_length es Hwf). unfold compacted. rewrite cout_names by lia.
  intros Hk. eapply elem_of_sublist; [exact Hk|apply pairs_names].
Qed.

(** Compaction gives back at least what the dead entries take. *)
Lemma compacted_reclaims kid es : wf_log es -> log_size (compacted kid es) + dead_size es <= log_size es.
Proof.
  intros H. pose proof (cout_size kid 0 (pairs es)). pose proof (pairs_size es H). unfold compacted, part_of in *. lia.
Qed.

Lemma cout_drop_size ps : forall n p, 0 <= n -> pairs_ok n ps -> p ∈ ps ->
  log_size (cout (Some (e_id (fst p))) n ps) + e_size (snd p) <= zsum pair_size ps.
Proof.
  induction ps as [|[ke ve] ps IH]; intros n p Hn Hok Hp; [by apply elem_of_nil in Hp|].
  destruct (pairs_ok_cons n ke ve ps Hn Hok) as (_ & _ & _ & _ & Hni & Hok'). cbn [cout].
  rewrite log_size_cons. unfold zsum. cbn [foldr]. fold (zsum pair_size ps). unfold pair_size at 1. cbn [fst snd].
  change (e_size (key_entry (n + 1) (e_payload ke))) with (e_size ke).
  apply elem_of_cons in Hp as [->|Hp]; cbn [fst snd].
  - rewrite bool_decide_eq_true_2 by done. pose proof (cout_size (Some (n + 1)) (n + 1) ps). unfold part_of in *. lia.
  - rewrite bool_decide_eq_false_2.
    2: { intros [= Heq]. destruct Hni. rewrite <-Heq. apply list_elem_of_fmap. eauto. }
    rewrite log_size_cons. change (e_size (val_entry _ _ _)) with (e_size ve).
    specialize (IH (n + 1) p ltac:(lia) Hok' Hp). lia.
Qed.

Lemma compacted_drop_reclaims es ke ve : wf_log es -> (ke, ve) ∈ pairs es ->
  log_size (compacted (Some (e_id ke)) es) + e_size ve + dead_size es <= log_size es.
Proof.
  intros Hwf Hp. pose proof (cout_drop_size (pairs es) 0 (ke, ve) ltac:(lia) (pairs_pairs_ok es Hwf) Hp).
  pose proof (pairs_size es Hwf). unfold compacted, part_of in *. cbn [fst snd] in *. lia.
Qed.

(** * The iterator of the parameter store

    [sysparam_iter_next] of [core/sysparam.c] on a region that holds a log:
    it walks through the [pairs] of the log in order and leaves each key and
    value in its buffer. *)

(** ** The buffer *)

Lemma buf_set_in buf i v : 0 <= i < Z.of_nat (length buf) -> buf_set buf i v = Some (<[Z.to_nat i := v]> buf).
Proof. intros. unfold buf_set. case_if; zbool; [done|lia]. Qed.

(** A buffer that starts with [K], terminated there. *)
Lemma terminate_prefix (buf K : list Z) n :
  take n buf = K -> length K = n -> (n < length buf)%nat -> take (S n) (<[n := 0]> buf) = K ++ [0].
Proof.
  intros HK Hn Hl. rewrite (take_S_r _ _ 0); [|by apply list_lookup_insert_eq].
  by rewrite take_insert_ge, HK by lia.
Qed.

Section Iter.
Context {F : Type} `{HF : !Flash F} `{HL : !FlashLaws F}.
Implicit Types (w : world F) (f : F).
Abbreviation log_start w := (cur_base (w_info w) + 8).

Definition buffer_ok w (it : sysparam_iter_t) : Prop := 64 <= it_bufsize it <= region_size (w_info w).

(** The iterator holds the pair of [ke] and [ve]. *)
Record holds (it : sysparam_iter_t) (ke ve : entry) : Prop := {
  ho_key : iter_key it = e_payload ke;
  ho_value : iter_value it = e_payload ve;
  ho_key_len : it_key_len it = e_len ke;
  ho_value_len : it_value_len it = e_len ve;
  ho_binary : it_binary it = e_binary ve;
  ho_id : Z.land (c_idflags (it_ctx it)) ENTRY_MASK_ID = e_id ke;
}.

Lemma grow_buffer_ok w it n : w_alloc w = [] ->
  exists buf, grow_buffer it n w = Done (Some (buf, Z.max (it_bufsize it) n), w).
Proof.
  intros Ha. unfold grow_buffer. case_if; zbool.
  - unfold bind, realloc. rewrite Ha. cbn. destruct w as [f i al lv]. cbn in Ha. subst al.
    rewrite Z.max_r by lia. eauto.
  - rewrite Z.max_l by lia. eauto.
Qed.

(** A scan context that stands at the entry [e] behind the prefix [k]. *)
Definition stands_at w (ctx : sysparam_context) (k : list entry) (e : entry) : Prop :=
  c_addr ctx = log_start w + log_size k /\ c_idflags ctx = e_idflags e /\ c_len ctx = e_len e.

Lemma iter_fetch_ok w es it vctx k ke m ve r :
  region_holds w es -> w_alloc w = [] -> es = k ++ ke :: m ++ ve :: r -> buffer_ok w it ->
  stands_at w (it_ctx it) k ke -> stands_at w vctx (k ++ ke :: m) ve ->
  exists it', iter_fetch it vctx w = Done ((SYSPARAM_OK, it'), w) /\
    holds it' ke ve /\ buffer_ok w it' /\ it_ctx it' = it_ctx it.
Proof.
  intros H Hal Hes Hbuf (Ka & Ki & Kl) (Va & Vi & Vl). pose proof (region_bounds _ _ H) as B.
  assert (Hes' : es = (k ++ ke :: m) ++ ve :: r) by (by rewrite Hes, <-app_assoc).
  destruct (entry_on_flash w es (k ++ ke :: m) ve r H Hes') as (_ & _ & _ & Hhi).
  rewrite log_size_app, log_size_cons in Hhi. pose proof (log_size_nonneg k). pose proof (log_size_nonneg m).
  unfold e_size, ENTRY_SIZE, ENTRY_HEADER_SIZE in Hhi. unfold buffer_ok in *.
  assert (0 <= e_len ke /\ 0 <= e_len ve) as [Hk0 Hv0] by (unfold e_len; lia).
  unfold iter_fetch. destruct (grow_buffer_ok w it (c_len (it_ctx it) + 1 + c_len vctx + 1) Hal) as (buf0 & Hg).
  run Hg. rewrite Kl, Vl in *. set (bs := Z.max _ _).
  assert (Hbs : 64 <= bs /\ bs <= region_size (w_info w) /\ e_len ke + 1 + e_len ve + 1 <= bs) by lia.
  destruct (read_payload_ok w es k ke (m ++ ve :: r) (it_ctx it) bs H Hes Ka ltac:(lia) ltac:(lia))
    as (b1 & Hr1 & Hl1 & Ht1 & _).
  run Hr1. cbn [is_err status_code Z.ltb Z.compare]. rewrite buf_set_in by lia.
  rewrite u32_small by lia.
  destruct (read_payload_ok w es (k ++ ke :: m) ve r vctx (bs - (e_len ke + 1)) H Hes' Va ltac:(lia) ltac:(lia))
    as (b2 & Hr2 & Hl2 & Ht2 & _).
  run Hr2. cbn [is_err status_code Z.ltb Z.compare].
  rewrite (take_ge (e_payload ke)) in Ht1 by (unfold e_len in *; lia).
  rewrite (take_ge (e_payload ve)) in Ht2 by (unfold e_len in *; lia).
  replace (Z.to_nat (e_len ke + 1)) with (S (Z.to_nat (e_len ke))) by lia.
  rewrite (terminate_prefix _ (e_payload ke)) by (done || unfold e_len in *; lia).
  rewrite buf_set_in by (rewrite !length_app; cbn [length]; unfold e_len in *; lia).
  replace (Z.to_nat (e_len ke + 1 + e_len ve)) with (length (e_payload ke ++ [0%Z]) + length (e_payload ve))%nat
    by (rewrite length_app; cbn [length]; unfold e_len; lia).
  rewrite insert_app_r. eexists. split; [reflexivity|]. split; [|split; [cbn; lia|done]].
  split; cbn [it_key_len it_value_len it_binary it_ctx it_buf it_value iter_key iter_value]; try done.
  - unfold iter_key, sub_bytes. cbn. rewrite drop_0, <-app_assoc. apply take_app_length'. unfold e_len. lia.
  - unfold iter_value, sub_bytes. cbn. rewrite drop_app_length'
      by (rewrite length_app; cbn [length]; unfold e_len; lia).
    rewrite take_insert_ge by (unfold e_len; lia). done.
  - by rewrite Vi.
  - by rewrite Ki.
Qed.

(** The rest of an iteration: what [sysparam_iter_next] returns when the
    entries [rest] are still ahead. *)
Definition iter_result w (es : list entry) (ps : list (entry * entry)) (st : sysparam_status_t)
    (it : sysparam_iter_t) : Prop :=
  match ps with
  | [] => st = SYSPARAM_NOTFOUND
  | (ke, ve) :: ps => st = SYSPARAM_OK /\ holds it ke ve /\ buffer_ok w it /\
      exists k r, es = k ++ ke :: r /\ pairs r = ps /\ at_pos w (it_ctx it) (log_start w + log_size (k ++ [ke]))
  end.

Lemma pairs_skip l r : Forall (fun x => live_key x = false) l -> pairs (l ++ r) = pairs r.
Proof. induction 1 as [|x l Hx _ IH]; cbn; [done|]. by rewrite Hx. Qed.

Lemma names_any x : names None x = live_key x.
Proof. unfold names. by rewrite andb_true_r. Qed.

Lemma split_value i r :
  Forall (fun x => values_of i x = false) r /\ find_val i r = None \/
  exists m v s, r = m ++ v :: s /\ Forall (fun x => values_of i x = false) m /\ values_of i v = true /\
    find_val i r = Some v.
Proof.
  destruct (split_first (values_of i) r) as [Hn|(m & v & s & Hr & Hv & Hm)].
  - left. split; [done|]. apply find_first_None. eapply Forall_impl; [exact Hn|]. intros x Hx Hp.
    apply values_true in Hp. cbv beta in Hx. congruence.
  - right. exists m, v, s. split; [done|]. split; [done|]. split; [done|]. rewrite Hr. apply find_first_Some.
    + by apply values_true.
    + eapply Forall_impl; [exact Hm|]. intros x Hx Hp. apply values_true in Hp. cbv beta in Hx. congruence.
Qed.

Lemma stands_at_visits w ctx k l e :
  stands_at w (visits ctx (log_start w + log_size k) (l ++ [e])) (k ++ l) e.
Proof.
  unfold stands_at. rewrite visits_snoc. autorewrite with esp. rewrite log_size_app. repeat split; lia.
Qed.

Lemma at_pos_visits w es ctx k l e r :
  region_holds w es -> es = k ++ l ++ e :: r ->
  at_pos w (visits ctx (log_start w + log_size k) (l ++ [e])) (log_start w + log_size ((k ++ l) ++ [e])).
Proof.
  intros H Hes. rewrite visits_snoc.
  replace (log_start w + log_size k + log_size l) with (log_start w + log_size (k ++ l)) by (rewrite log_size_app; lia).
  apply at_pos_visited with es r; [done|]. by rewrite <-app_assoc.
Qed.

Lemma iter_next_loop_ok fuel w es : region_holds w es -> w_alloc w = [] ->
  Forall (fun i => i <= MAX_KEY_ID) (key_ids es) ->
  forall k rest it, es = k ++ rest -> (length rest < fuel)%nat -> buffer_ok w it ->
  at_pos w (it_ctx it) (log_start w + log_size k) ->
  exists st it', iter_next_loop fuel it w = Done ((st, it'), w) /\ iter_result w es (pairs rest) st it'.
Proof.
  intros H Hal Hids. induction fuel as [|fuel IH]; intros k rest it Hes Hf Hbuf Hpos; [lia|]. cbn [iter_next_loop].
  destruct (split_live_key rest) as [Hn|(l & ke & r & -> & Hk & Hl)].
  - run (find_key_none w es None rest k _ H Hes Hpos ltac:(eapply Forall_impl; [exact Hn|]; intros x; by rewrite names_any)).
    rewrite <-(app_nil_r rest), pairs_skip by done. eexists _, _. split; [reflexivity|done].
  - run (find_key_found w es None l k ke r _ H Hes Hpos
      ltac:(eapply Forall_impl; [exact Hl|]; intros x; by rewrite names_any) ltac:(by rewrite names_any)).
    rewrite pairs_skip by done. cbn [pairs]. rewrite Hk. cbn [is_ok status_code Z.eqb negb].
    pose proof (at_pos_visits w es (it_ctx it) k l ke r H Hes) as Hpos1.
    pose proof (stands_at_visits w (it_ctx it) k l ke) as Hat.
    set (ctx1 := visits _ _ _) in *. pose proof (proj1 (proj2 Hat)) as Hif. rewrite Hif.
    assert (Hes1 : es = ((k ++ l) ++ [ke]) ++ r) by (by rewrite Hes, <-!app_assoc).
    assert (Hend : Z.land (e_idflags ke) ENTRY_MASK_ID <> ENTRY_ID_END).
    { rewrite Forall_forall in Hids. pose proof (Hids (e_id ke) ltac:(apply elem_key_ids; exists ke; set_solver)) as Hle.
      unfold e_id, MAX_KEY_ID, ENTRY_ID_END in *. lia. }
    destruct (split_value (e_id ke) r) as [[Hv ->]|(m & ve & s & -> & Hm & Hve & ->)].
    + run (find_value_none w es r _ ctx1 (e_idflags ke) H Hes1 Hpos1 Hend Hv).
      cbn [is_err status_code Z.ltb Z.compare]. rewrite bool_decide_eq_true_2 by done.
      apply (IH ((k ++ l) ++ [ke])); [done| |done|done]. rewrite length_app in Hf. cbn in Hf. lia.
    + run (find_value_found w es m _ ve s ctx1 (e_idflags ke) H Hes1 Hpos1 Hm Hve).
      cbn [is_err status_code Z.ltb Z.compare]. rewrite bool_decide_eq_false_2 by done.
      pose proof (stands_at_visits w ctx1 ((k ++ l) ++ [ke]) m ve) as Hatv. rewrite <-(app_assoc (k ++ l) [ke] m) in Hatv.
      change ([ke] ++ m) with (ke :: m) in Hatv.
      destruct (iter_fetch_ok w es (set_it_ctx ctx1 it) _ (k ++ l) ke m ve s H Hal
        ltac:(by rewrite Hes, <-app_assoc) Hbuf Hat Hatv) as (it' & Hrun & Hh & Hb & Hc).
      eexists _, _. split; [exact Hrun|]. split; [done|]. split; [done|]. split; [done|].
      exists (k ++ l), (m ++ ve :: s). split; [by rewrite Hes, <-app_assoc|]. split; [done|]. by rewrite Hc.
Qed.

Lemma iter_next_ok w es k rest it : region_holds w es -> wf_log es -> w_alloc w = [] ->
  es = k ++ rest -> buffer_ok w it -> at_pos w (it_ctx it) (log_start w + log_size k) ->
  exists st it', sysparam_iter_next it w = Done ((st, it'), w) /\ iter_result w es (pairs rest) st it'.
Proof.
  intros H Hwf Hal Hes Hbuf Hpos. unfold sysparam_iter_next. erewrite bind_Done by reflexivity.
  apply (iter_next_loop_ok _ w es H Hal) with k; try done.
  - eapply Forall_impl; [apply (wf_id_range _ Hwf)|]. cbn. lia.
  - pose proof (scan_fuel_enough w es k rest H Hes). lia.
Qed.

(** [sysparam_iter_start] allocates the buffer and the context. *)
Lemma iter_start_ok w es : region_holds w es -> w_alloc w = [] ->
  exists it, sysparam_iter_start w =
      Done ((SYSPARAM_OK, Some it), Build_world (w_flash w) (w_info w) [] (w_live w + 2)) /\
    buffer_ok w it /\ at_pos w (it_ctx it) (log_start w + log_size []).
Proof.
  intros H Hal. unfold sysparam_iter_start. erewrite bind_Done by reflexivity. rewrite (cur_base_nz _ _ H).
  exists (fresh_iter (zero_context (cur_base (w_info w)))). split; [|split].
  - unfold bind, malloc. rewrite Hal. cbn. unfold ret. by rewrite <-Z.add_assoc.
  - pose proof (region_bounds _ _ H). unfold buffer_ok. cbn. unfold DEFAULT_ITER_BUF_SIZE. lia.
  - apply at_pos_start.
Qed.

End Iter.
