(* ===== verification/SysparamCompact.v ===== *)
(** * Compaction

    [_compact_params] of [core/sysparam.c] on a store that satisfies the
    invariant: the live pairs are copied to the other region, the roles of
    the regions are swapped, and the result is a store again. *)

From stdpp Require Import sorting.
From S2P Require Import Prelude CStrings Flash Sysparam SysparamLog SysparamProofs SysparamScan SysparamStore SysparamSet SysparamPairs.

Section Compact.
Context {F : Type} `{HF : !Flash F} `{HL : !FlashLaws F}.
Implicit Types (w : world F) (f : F).
Abbreviation log_start w := (cur_base (w_info w) + 8).
Abbreviation alt_start w := (alt_base (w_info w) + 8).
Abbreviation alt_top w := (alt_base (w_info w) + region_size (w_info w)).

(** [w'] is [w] with the flash changed in the alternate region only. *)
Definition alt_update w w' : Prop :=
  flash_ok (w_flash w') /\ w_info w' = w_info w /\ w_alloc w' = w_alloc w /\ w_live w' = w_live w /\
  forall x, x < alt_base (w_info w) \/ alt_top w <= x -> wcell w' x = wcell w x.

Lemma alt_update_trans w w1 w2 : alt_update w w1 -> alt_update w1 w2 -> alt_update w w2.
Proof.
  intros (_ & I1 & A1 & L1 & X1) (O2 & I2 & A2 & L2 & X2). rewrite I1 in *.
  split; [done|]. split; [congruence|]. split; [congruence|]. split; [congruence|].
  intros x Hx. rewrite X2 by done. by apply X1.
Qed.

(** The two regions do not overlap, so the log in use stays as it is. *)
Lemma regions_apart w es : region_holds w es ->
  alt_top w = cur_base (w_info w) \/ region_top (w_info w) = alt_base (w_info w).
Proof. intros H. destruct (rh_info _ _ H). unfold region_top in *. lia. Qed.

Lemma alt_update_region w w' es : region_holds w es -> alt_update w w' -> region_holds w' es.
Proof.
  intros H (Hok & Hi & _ & _ & Hx). pose proof (region_bounds _ _ H) as B. pose proof (regions_apart _ _ H) as Hap.
  destruct H as [Hf Hinfo Hlog Hend Hfits Hblank Hl Hent]. split; rewrite ?Hi; try done.
  - eapply log_at_ext; [|exact Hlog]. intros x Hr. symmetry. apply Hx. lia.
  - intros x Hr. rewrite Hx by lia. by apply Hblank.
Qed.

(** The alternate region is erased but for the entries [out]. *)
Record alt_log w (out : list entry) : Prop := {
  al_log : log_at (wcell w) (alt_start w) out;
  al_head : forall x, alt_base (w_info w) <= x < alt_start w -> wcell w x = 255;
  al_blank : forall x, alt_start w + log_size out <= x < alt_top w -> wcell w x = 255;
  al_fits : alt_start w + log_size out <= alt_top w;
  al_entries : Forall entry_ok out;
}.

Lemma alt_append w es out id payload :
  let e := mk_entry id payload in
  region_holds w es -> alt_log w out -> entry_ok e ->
  alt_start w + log_size out + e_size e <= alt_top w ->
  exists w', _write_entry (alt_start w + log_size out) id payload (e_len e) w = Done (SYSPARAM_OK, w') /\
    alt_update w w' /\ alt_log w' (out ++ [e]) /\ region_holds w' es /\
    u32 (alt_start w + log_size out + ENTRY_SIZE (e_len e)) = alt_start w' + log_size (out ++ [e]).
Proof.
  intros e H Ho He Hfit. pose proof (region_bounds _ _ H) as B. pose proof (regions_apart _ _ H) as Hap.
  pose proof (log_size_nonneg out) as Hout. pose proof (length_enc_entry e) as Hlen. pose proof He as (_ & _ & Hb).
  assert (Hsz : e_size e = 4 + Z.of_nat (length payload)) by done.
  destruct (rh_info _ _ H) as [? ? ? ? ? ? ?]. unfold region_top in *.
  destruct (write_entry_ok w (alt_start w + log_size out) id payload) as (f' & Hrun & Hok & Hc);
    [apply (rh_flash _ _ H)|lia|lia|done| |].
  { intros x Hx. apply (al_blank _ _ Ho). lia. }
  fold e in Hc. unfold bumped in Hrun. rewrite (proj2 (Z.eqb_neq _ _)) in Hrun by lia.
  eexists. split; [exact Hrun|].
  assert (Hcells : forall x, flash_cell f' x = put_bytes (wcell w) (alt_start w + log_size out) (enc_entry e) x) by done.
  assert (Hu : alt_update w (with_info (with_flash w f') (w_info w))).
  { split; [done|]. split; [done|]. split; [done|]. split; [done|]. intros x Hx. unfold wcell at 1. wcbn.
    rewrite Hcells. apply put_bytes_out. lia. }
  split; [done|]. split; [|split; [by eapply alt_update_region|]].
  - destruct Ho as [Hlog Hhead Hblank Hfits Hent]. split; wcbn; cbn [with_info w_info].
    + apply log_at_app. split.
      * eapply log_at_ext; [|exact Hlog]. intros x Hx. symmetry. unfold wcell at 1. wcbn.
        rewrite Hcells. apply put_bytes_out. lia.
      * cbn [log_at]. split; [|done]. by apply cells_of_put with (wcell w).
    + intros x Hx. unfold wcell at 1. wcbn. rewrite Hcells, put_bytes_out by lia. by apply Hhead.
    + rewrite log_size_app, log_size_cons. cbn [log_size foldr]. intros x Hx. unfold wcell at 1. wcbn.
      rewrite Hcells, put_bytes_out by lia. apply Hblank. lia.
    + rewrite log_size_app, log_size_cons. cbn [log_size foldr]. lia.
    + apply Forall_app; split; [done|]. by apply Forall_singleton.
  - fold (e_size e). rewrite log_size_app, log_size_cons. cbn [log_size foldr with_info w_info]. rewrite u32_small; lia.
Qed.

(** ** The copy loop *)

Lemma at_pos_info w w' ctx a : w_info w' = w_info w -> at_pos w ctx a -> at_pos w' ctx a.
Proof. unfold at_pos. by intros ->. Qed.

Lemma pair_entries_ok n ke ve : 0 <= n -> n + 1 <= MAX_KEY_ID -> entry_ok ke -> entry_ok ve ->
  entry_ok (key_entry (n + 1) (e_payload ke)) /\ entry_ok (val_entry (n + 1) (e_binary ve) (e_payload ve)).
Proof.
  intros Hn Hm (_ & K2 & K3) (_ & V2 & V3).
  destruct (key_entry_facts (n + 1) (e_payload ke) ltac:(lia)) as (_ & _ & _ & F4).
  destruct (val_entry_facts (n + 1) (e_binary ve) (e_payload ve) ltac:(lia)) as (_ & _ & _ & _ & G5).
  by split; split.
Qed.

(** What the loop is left with once the pairs [ps] were copied. *)
Definition copied w w' (out : list entry) (kid : option Z) (n : Z) (ps : list (entry * entry))
    (res : sysparam_status_t * (Z * Z * option Z)) : Prop :=
  alt_update w w' /\ alt_log w' (out ++ cout kid n ps) /\
  res = (SYSPARAM_NOTFOUND,
         (alt_start w + log_size (out ++ cout kid n ps), n + Z.of_nat (length ps), ckid kid n ps)).

Lemma copied_step w w1 w2 out es1 kid kid' n ke ve ps res :
  alt_update w w1 -> copied w1 w2 (out ++ es1) kid' (n + 1) ps res ->
  cout kid n ((ke, ve) :: ps) = es1 ++ cout kid' (n + 1) ps ->
  ckid kid n ((ke, ve) :: ps) = ckid kid' (n + 1) ps ->
  copied w w2 out kid n ((ke, ve) :: ps) res.
Proof.
  intros Hu (Hu2 & Hl & ->) Hc Hk. split; [by eapply alt_update_trans|]. rewrite Hc, Hk, app_assoc.
  split; [done|]. rewrite (proj1 (proj2 Hu)). cbn [length]. do 3 f_equal. lia.
Qed.

Lemma cout_cons kid n ke ve ps :
  cout kid n ((ke, ve) :: ps) =
    [key_entry (n + 1) (e_payload ke)] ++
    (if bool_decide (kid = Some (e_id ke)) then [] else [val_entry (n + 1) (e_binary ve) (e_payload ve)]) ++
    cout (if bool_decide (kid = Some (e_id ke)) then Some (n + 1) else kid) (n + 1) ps.
Proof. cbn [cout]. by case_bool_decide. Qed.

Lemma ckid_cons kid n ke ve ps :
  ckid kid n ((ke, ve) :: ps) =
    ckid (if bool_decide (kid = Some (e_id ke)) then Some (n + 1) else kid) (n + 1) ps.
Proof. cbn [ckid]. by case_bool_decide. Qed.

Lemma kid_test (kid : option Z) i :
  match kid with Some k => i =? k | None => false end = bool_decide (kid = Some i).
Proof.
  destruct kid as [k|]; [|by rewrite bool_decide_eq_false_2].
  destruct (Z.eqb_spec i k) as [->|Hne]; [by rewrite bool_decide_eq_true_2|].
  rewrite bool_decide_eq_false_2; [done|congruence].
Qed.

Lemma entry_len_u16 e : entry_ok e -> 0 <= e_len e < 2 ^ 16.
Proof. intros (_ & H & _). unfold e_len in *. lia. Qed.

(** One turn of the loop copies a pair: its name, and its value unless the key
    is the one whose value is about to be replaced. *)
Lemma compact_step fuel es w it k rest ke ve ps out kid n :
  wf_log es -> region_holds w es -> w_alloc w = [] -> es = k ++ rest -> buffer_ok w it ->
  at_pos w (it_ctx it) (log_start w + log_size k) -> alt_log w out ->
  0 <= n -> pairs rest = (ke, ve) :: ps -> pairs_ok n ((ke, ve) :: ps) ->
  alt_start w + log_size (out ++ cout kid n ((ke, ve) :: ps)) <= alt_top w ->
  let again := bool_decide (kid = Some (e_id ke)) in
  let new := key_entry (n + 1) (e_payload ke) :: (if again then [] else [val_entry (n + 1) (e_binary ve) (e_payload ve)]) in
  exists it' w1 k' r',
    compact_loop (S fuel) it (alt_start w + log_size out) n kid w =
      compact_loop fuel it' (alt_start w1 + log_size (out ++ new)) (n + 1) (if again then Some (n + 1) else kid) w1 /\
    alt_update w w1 /\ alt_log w1 (out ++ new) /\ region_holds w1 es /\
    es = k' ++ r' /\ pairs r' = ps /\ buffer_ok w1 it' /\ at_pos w1 (it_ctx it') (log_start w1 + log_size k').
Proof.
  intros Hwf H Hal Hes Hbuf Hpos Ho Hn Hp Hok Hfit again new.
  cbn [compact_loop]. destruct (iter_next_ok w es k rest it H Hwf Hal Hes Hbuf Hpos) as (st & it' & Hrun & Hres).
  run Hrun. clear Hrun. rewrite Hp in Hres. destruct Hres as (-> & Hh & Hbuf' & k' & r' & Hes' & Hps & Hpos').
  cbn [is_ok status_code Z.eqb negb]. destruct (pairs_ok_cons n ke ve ps Hn Hok) as (Hid & Hke & Hve & _ & _ & _).
  destruct (pair_entries_ok n ke ve Hn ltac:(lia) Hke Hve) as [Hek Hev].
  rewrite cout_cons, !log_size_app, log_size_cons in Hfit. fold again in Hfit.
  unfold MAX_KEY_ID in Hid. rewrite (u16_small (n + 1)) by lia.
  rewrite (ho_key _ _ _ Hh), (ho_key_len _ _ _ Hh), (ho_id _ _ _ Hh), (ho_value _ _ _ Hh), (ho_value_len _ _ _ Hh),
    (ho_binary _ _ _ Hh), kid_test. fold again.
  rewrite (u16_small (e_len ke)) by (by apply entry_len_u16). rewrite (u16_small (e_len ve)) by (by apply entry_len_u16).
  match type of Hfit with context [cout ?x ?y ps] => pose proof (log_size_nonneg (cout x y ps)) as Hrest end.
  set (e1 := key_entry (n + 1) (e_payload ke)) in *. set (e2 := val_entry (n + 1) (e_binary ve) (e_payload ve)) in *.
  pose proof (e_size_pos e2) as He2.
  destruct (alt_append w es out (n + 1) (e_payload ke) H Ho Hek) as (w1 & Hw1 & Hu1 & Ho1 & H1 & Haddr).
  { change (mk_entry _ _) with e1. destruct again; cbn [log_size foldr] in Hfit; lia. }
  change (mk_entry _ _) with e1 in *. change (e_len e1) with (e_len ke) in Hw1, Haddr.
  run Hw1. cbn [is_err status_code Z.ltb Z.compare]. rewrite Haddr. pose proof Hu1 as (_ & Hi1 & Ha1 & _).
  destruct again eqn:Ekid; cbn [log_size foldr] in Hfit.
  - exists it', w1, (k' ++ [ke]), r'. split_and!; try done; [by rewrite Hes', <-app_assoc|unfold buffer_ok in *; by rewrite Hi1|rewrite Hi1; by apply (at_pos_info w)].
  - destruct (alt_append w1 es (out ++ [e1]) (Z.lor (Z.lor (n + 1) ENTRY_FLAG_VALUE) (bin_flag (e_binary ve)))
      (e_payload ve) H1 Ho1 Hev) as (w2 & Hw2 & Hu2 & Ho2 & H2 & Haddr2); change (mk_entry _ _) with e2 in *.
    { rewrite Hi1, !log_size_app, log_size_cons. cbn [log_size foldr]. lia. }
    change (e_len e2) with (e_len ve) in Hw2, Haddr2.
    change (if e_binary ve then ENTRY_FLAG_BINARY else 0) with (bin_flag (e_binary ve)).
    run Hw2. cbn [is_err status_code Z.ltb Z.compare]. rewrite Haddr2. pose proof Hu2 as (_ & Hi2 & Ha2 & _).
    unfold new. change [e1; e2] with ([e1] ++ [e2]). rewrite app_assoc.
    exists it', w2, (k' ++ [ke]), r'. split_and!; try done; [by eapply alt_update_trans|by rewrite Hes', <-app_assoc|unfold buffer_ok in *; by rewrite Hi2, Hi1|].
    rewrite Hi2, Hi1. apply (at_pos_info w); [congruence|done].
Qed.

Lemma compact_loop_ok fuel es : wf_log es -> forall w it k rest out kid n,
  region_holds w es -> w_alloc w = [] -> es = k ++ rest -> buffer_ok w it ->
  at_pos w (it_ctx it) (log_start w + log_size k) -> alt_log w out ->
  0 <= n -> pairs_ok n (pairs rest) ->
  alt_start w + log_size (out ++ cout kid n (pairs rest)) <= alt_top w ->
  (length (pairs rest) < fuel)%nat ->
  exists res w', compact_loop fuel it (alt_start w + log_size out) n kid w = Done (res, w') /\
    copied w w' out kid n (pairs rest) res.
Proof.
  intros Hwf. induction fuel as [|fuel IH]; intros w it k rest out kid n H Hal Hes Hbuf Hpos Ho Hn Hok Hfit Hf; [lia|].
  destruct (pairs rest) as [|[ke ve] ps] eqn:Hp.
  - cbn [compact_loop]. destruct (iter_next_ok w es k rest it H Hwf Hal Hes Hbuf Hpos) as (st & it' & Hrun & Hres).
    run Hrun. clear Hrun. rewrite Hp in Hres. cbn [iter_result] in Hres. subst st. cbn [is_ok status_code Z.eqb negb].
    eexists _, _. split; [reflexivity|]. split; [split; [apply (rh_flash _ _ H)|done]|]. split; [by rewrite app_nil_r|].
    cbn [cout ckid length]. rewrite app_nil_r. do 3 f_equal. lia.
  - destruct (compact_step fuel es w it k rest ke ve ps out kid n) as (it' & w1 & k' & r' & E & Hu & Ho1 & H1 & Hes' & Hps & Hb1 & Hp1);
      [done..|]. destruct (pairs_ok_cons n ke ve ps Hn Hok) as (_ & _ & _ & _ & _ & Hok'). pose proof Hu as (_ & Hi & Ha & _).
    rewrite E. clear E. rewrite <-Hps in *. cbn [length] in Hf.
    set (kid' := if bool_decide _ then Some (n + 1) else kid) in *.
    destruct (fun A => IH w1 it' k' r' _ kid' (n + 1) H1 (eq_trans Ha Hal) Hes' Hb1 Hp1 Ho1 A Hok') as (res & w2 & Hrun & Hcp);
      [lia| |lia|].
    + rewrite Hi, <-app_assoc. cbn [app]. rewrite cout_cons in Hfit. exact Hfit.
    + exists res, w2. split; [exact Hrun|]. eapply copied_step; [exact Hu|exact Hcp|by rewrite cout_cons|by rewrite ckid_cons].
Qed.

(** ** The switch of the regions *)

Lemma land_lor_absorb x y : Z.land (Z.lor x y) x = x.
Proof.
  apply Z.bits_inj. intros n. rewrite Z.land_spec, Z.lor_spec. by destruct (Z.testbit x n), (Z.testbit y n).
Qed.

(** Clearing the active flag of a header only clears bits. *)
Lemma header_deactivate addr other :
  zip_with Z.land (enc_region_header (region_header_for addr other true))
    (enc_region_header (region_header_for addr other false)) =
  enc_region_header (region_header_for addr other false).
Proof.
  unfold enc_region_header. rewrite !zip_with_app by (by rewrite !length_le_bytes).
  unfold region_header_for. cbn [magic flags_size reserved].
  by rewrite <-!le_bytes_land, !Z.land_diag, land_lor_absorb.
Qed.

Lemma info_ok_swap i a : info_ok i ->
  info_ok (set_force_compact false (set_end_addr a (set_bases (alt_base i) (cur_base i) i))).
Proof. intros []. split; cbn; try done; [tauto|lia]. Qed.

Lemma compact_switch_ok w es out :
  region_holds w es ->
  cells (wcell w) (cur_base (w_info w)) 8 =
    enc_region_header (region_header_for (cur_base (w_info w)) (alt_base (w_info w)) true) ->
  alt_log w out -> wf_log out -> alt_start w + log_size out + 1 <> alt_top w ->
  exists w', compact_switch (alt_base (w_info w)) (alt_start w + log_size out) w = Done (SYSPARAM_OK, w') /\
    store w' out /\ w_alloc w' = w_alloc w /\ w_live w' = w_live w /\
    w_info w' = set_force_compact false (set_end_addr (alt_start w + log_size out)
      (set_bases (alt_base (w_info w)) (cur_base (w_info w)) (w_info w))).
Proof.
  intros H Hcur Ho Hwo Hlast. pose proof (region_bounds _ _ H) as B. pose proof (regions_apart _ _ H) as Hap.
  pose proof (log_size_nonneg out) as Hout. pose proof (al_fits _ _ Ho) as Hfit. pose proof (rh_info _ _ H) as Hinfo.
  unfold compact_switch. erewrite bind_Done by reflexivity. unfold region_top in *.
  set (ia := alt_base (w_info w)) in *. set (ic := cur_base (w_info w)) in *.
  assert (Hpos : 0 < ia /\ ia + 4096 <= chip_size sdk_flashchip) by (destruct Hinfo; subst ia ic; lia).
  destruct (write_region_header_ok w ia ic true) as (f1 & H1 & Hok1 & C1); [apply (rh_flash _ _ H)|lia|lia| |].
  { apply writable_erased; [|apply enc_region_byte]. rewrite length_enc_region. intros x Hx. apply (al_head _ _ Ho).
    subst ia. lia. }
  run H1. cbn [is_err status_code Z.ltb Z.compare]. erewrite bind_Done by reflexivity. wcbn. fold ic.
  destruct (write_region_header_ok (with_flash w f1) ic ia false) as (f2 & H2 & Hok2 & C2); [done|lia|lia| |].
  { apply writable_over with (enc_region_header (region_header_for ic ia true)); rewrite ?length_enc_region;
      [|done|apply header_deactivate].
    rewrite <-Hcur. apply cells_ext. intros x Hx. unfold wcell. wcbn. rewrite C1, put_bytes_out; [done|].
    rewrite length_enc_region. lia. }
  run H2. cbn [is_err status_code Z.ltb Z.compare]. eexists. split; [reflexivity|]. wcbn.
  split; [|done]. wcbn.
  assert (Hsame : forall x, ia + 8 <= x < ia + region_size (w_info w) -> flash_cell f2 x = wcell w x).
  { intros x Hx. rewrite C2, put_bytes_out by (rewrite length_enc_region; lia). wcbn.
    rewrite C1, put_bytes_out by (rewrite length_enc_region; lia). done. }
  destruct Ho as [Hlog Hhead Hblank _ Hent]. split; try done.
  - split; cbn; try done; fold ia ic.
    + by apply info_ok_swap.
    + eapply log_at_ext; [|exact Hlog]. intros x Hx. symmetry. apply Hsame. subst ia. lia.
    + unfold region_top. cbn. intros x Hx. unfold wcell. wcbn. rewrite Hsame by (subst ia; lia). apply Hblank. subst ia. lia.
  - unfold wcell. cbn. fold ia ic.
    transitivity (cells (flash_cell f1) ia 8); [|by apply cells_of_put with (wcell w)].
    apply cells_ext. intros x Hx. rewrite C2, put_bytes_out by (rewrite length_enc_region; lia). done.
  - unfold wcell. cbn. fold ia ic. by apply cells_of_put with (flash_cell f1).
Qed.

(** ** [_compact_params] *)

Lemma num_sectors_ok w es : region_holds w es ->
  u16 (region_size (w_info w) / sector_size sdk_flashchip) * 4096 = region_size (w_info w) /\
  0 <= u16 (region_size (w_info w) / sector_size sdk_flashchip).
Proof.
  intros H. destruct (io_size _ (rh_info _ _ H)) as (n & Hn & Hr). unfold REGION_MASK_SIZE in Hr.
  rewrite (geo_sector _ flash_geometry), Hn, Z.div_mul, u16_small by lia. lia.
Qed.

(** After the alternate region was erased. *)
Lemma format_alt_ok w es : region_holds w es ->
  exists w', _format_region (alt_base (w_info w)) (u16 (region_size (w_info w) / sector_size sdk_flashchip)) w =
      Done (SYSPARAM_OK, w') /\ alt_update w w' /\ alt_log w' [].
Proof.
  intros H. destruct (num_sectors_ok w es H) as [Hn Hn0]. pose proof (region_bounds _ _ H) as B.
  pose proof (regions_apart _ _ H) as Hap. destruct (rh_info _ _ H) as [? ? ? ? _ ? ?]. unfold region_top in *.
  destruct (format_region_ok w (alt_base (w_info w)) (u16 (region_size (w_info w) / sector_size sdk_flashchip)))
    as (f' & Hrun & Hok & Hc); [apply (rh_flash _ _ H)|lia|done|done|lia|].
  rewrite Hn in Hc. exists (with_flash w f'). split; [done|]. split.
  - split; [done|]. split; [done|]. split; [done|]. split; [done|]. intros x Hx. unfold wcell at 1. wcbn. rewrite Hc.
    unfold erase_bytes. case_if; [zbool; lia|done].
  - assert (Hb : forall x, alt_base (w_info w) <= x < alt_top w -> wcell (with_flash w f') x = 255).
    { intros x Hx. unfold wcell. wcbn. rewrite Hc. unfold erase_bytes. case_if; [done|zbool; lia]. }
    split; wcbn; cbn [log_size foldr log_at]; try done; try lia; intros x Hx; apply Hb; lia.
Qed.

(** The header of the region in use. *)
Definition cur_header w : Prop :=
  cells (wcell w) (cur_base (w_info w)) 8 =
    enc_region_header (region_header_for (cur_base (w_info w)) (alt_base (w_info w)) true).

Lemma cur_header_alt_update w w' es : region_holds w es -> cur_header w -> alt_update w w' -> cur_header w'.
Proof.
  unfold cur_header. intros H Hcur Hu. pose proof Hu as (_ & -> & _ & _ & Hx). rewrite <-Hcur.
  pose proof (region_bounds _ _ H). pose proof (regions_apart _ _ H).
  apply cells_ext. intros x Hr. apply Hx. unfold region_top in *. lia.
Qed.

(** The result of a compaction that drops the value of the id [kid]. *)
Record compaction w w' (kid : option Z) (es : list entry) : Prop := {
  cp_store : store w' (compacted kid es);
  cp_sem : sem (w_info w') = sem (w_info w);
  cp_alloc : w_alloc w' = w_alloc w;
  cp_live : w_live w' = w_live w;
  cp_cur : cur_base (w_info w') = alt_base (w_info w);
  cp_alt : alt_base (w_info w') = cur_base (w_info w);
  cp_size : region_size (w_info w') = region_size (w_info w);
  cp_end : end_addr (w_info w') = alt_start w + log_size (compacted kid es);
}.

Lemma pairs_length es : Z.of_nat (length (pairs es)) <= Z.of_nat (length es).
Proof.
  induction es as [|e es IH]; cbn [pairs length]; [lia|]. destruct (live_key e); [|lia].
  destruct (find_val (e_id e) es); cbn [length]; lia.
Qed.

(** The context [_compact_params] hands back to its caller. *)
Definition compact_ctx w (kid : option Z) (es : list entry) (ctx : option sysparam_context) : option sysparam_context :=
  match ctx with
  | Some _ => Some (set_max_key_id (Z.of_nat (length (pairs es)))
                      (zero_context (alt_start w + log_size (compacted kid es))))
  | None => None
  end.

Lemma compact_params_ok w es ctx kid :
  region_holds w es -> wf_log es -> cur_header w -> w_alloc w = [] ->
  exists w', _compact_params ctx kid w =
      Done ((SYSPARAM_OK, (compact_ctx w kid es ctx, ckid kid 0 (pairs es))), w') /\ compaction w w' kid es.
Proof.
  intros H Hwf Hcur Hal. pose proof (region_bounds _ _ H) as B.
  pose proof (regions_apart _ _ H) as Hap. pose proof (compacted_size kid es Hwf) as Hsz.
  unfold _compact_params. erewrite bind_Done by reflexivity.
  destruct (format_alt_ok w es H) as (w1 & Hrun1 & Hu1 & Ho1). run Hrun1. cbn [is_err status_code Z.ltb Z.compare].
  pose proof Hu1 as (_ & Hi1 & Ha1 & Hl1 & _). pose proof (alt_update_region _ _ _ H Hu1) as H1.
  destruct (iter_start_ok w1 es H1 ltac:(congruence)) as (it & Hrun2 & Hbuf & Hpos). run Hrun2.
  set (w2 := Build_world _ _ _ _).
  assert (H2 : region_holds w2 es) by (destruct H1; by split).
  assert (Ho2 : alt_log w2 []) by (destruct Ho1; by split).
  assert (Hfits : alt_start w2 + log_size ([] ++ compacted kid es) <= alt_top w2).
  { cbn [w2 w_info app]. rewrite Hi1. unfold part_of, region_top in *. lia. }
  pose proof (scan_fuel_enough w es [] es H eq_refl) as Hfuel. pose proof (pairs_length es) as Hpl.
  destruct (compact_loop_ok (scan_fuel (w_info w)) es Hwf w2 it [] es [] kid 0 H2 eq_refl eq_refl Hbuf Hpos Ho2
    ltac:(lia) (pairs_pairs_ok es Hwf) Hfits ltac:(lia)) as (res & w3 & Hrun3 & Hu3 & Ho3 & ->).
  fold (compacted kid es) in *. cbn [app] in *.
  replace (u32 (alt_base (w_info w) + REGION_HEADER_SIZE)) with (alt_start w2 + log_size []).
  2: { cbn [w2 w_info log_size foldr]. rewrite Hi1, u32_small, Z.add_0_r; [done|].
       unfold REGION_HEADER_SIZE. destruct (rh_info _ _ H). unfold region_top in *. lia. }
  run Hrun3. cbn [is_err status_code Z.ltb Z.compare].
  erewrite bind_Done by reflexivity. set (w4 := Build_world _ _ _ _).
  pose proof Hu3 as (_ & Hi3 & Ha3 & Hl3 & Hx3). cbn [w2 w_info w_alloc w_live] in Hi3, Ha3, Hl3.
  assert (Hu4 : alt_update w w4).
  { apply alt_update_trans with w1; [done|]. destruct Hu3 as (? & ? & ? & ? & ?). split; [done|]. cbn. split; [done|].
    split; [congruence|]. split; [rewrite Hl3; lia|]. done. }
  pose proof Hu4 as (_ & Hi4 & Ha4 & Hl4 & _).
  assert (Ho4 : alt_log w4 (compacted kid es)) by (destruct Ho3; by split).
  pose proof (alt_update_region _ _ _ H Hu4) as H4. pose proof (cur_header_alt_update _ _ _ H Hcur Hu4) as Hcur4.
  destruct (compact_switch_ok w4 es (compacted kid es) H4) as (w5 & Hrun5 & Hst5 & Ha5 & Hl5 & Hi5);
    [done|done|by apply compacted_spec| |].
  { rewrite Hi4. pose proof (rh_last _ _ H). unfold part_of, region_top in *. lia. }
  rewrite Hi4 in *. cbn [w2 w_info]. rewrite Hi1. run Hrun5. cbn [is_err status_code Z.ltb Z.compare].
  exists w5. split; [unfold ret, compact_ctx; by destruct ctx|].
  split; try done; try congruence; rewrite ?Hi5; done.
Qed.

End Compact.
