(* ===== verification/SysparamReclaim.v ===== *)
(** * Writing a value when room has to be made

    [sysparam_set_data] of [core/sysparam.c] when the value does not fit
    behind the log: the store is compacted, with the old value of the key
    left out, and the value is then written if it fits. *)

From stdpp Require Import sorting.
From S2P Require Import Prelude CStrings Flash Sysparam SysparamLog SysparamProofs SysparamScan SysparamStore SysparamSet SysparamPairs SysparamCompact.

Section Reclaim.
Context {F : Type} `{HF : !Flash F} `{HL : !FlashLaws F}.
Implicit Types (w : world F) (f : F).
Abbreviation log_start w := (cur_base (w_info w) + 8).
Abbreviation free_bytes w := (region_top (w_info w) - end_addr (w_info w)).

(** ** The scan for the end of the log *)

(** The flag [force_compact] is the only thing a scan may change. *)
Definition force w (b : bool) : world F := with_info w (set_force_compact b (w_info w)).

Lemma force_region w es b : region_holds w es -> region_holds (force w b) es.
Proof. intros [? [] ? ? ? ? ? ?]. by split. Qed.

Lemma force_self w : force_compact (w_info w) = false -> force w false = w.
Proof. unfold force, with_info. destruct w as [f [] al lv]. cbn. by intros ->. Qed.

(** The counters of two contexts agree. *)
Definition same_counters (c c' : sysparam_context) : Prop :=
  c_unused_keys c' = c_unused_keys c /\ c_compactable c' = c_compactable c /\ c_max_key_id c' = c_max_key_id c.

(** A search that found nothing has left the context at the end of the log
    with an empty entry; the scan goes on four bytes further. *)
Lemma find_end_after_miss w es ctx :
  region_holds w es -> force_compact (w_info w) = false ->
  c_addr ctx = end_addr (w_info w) -> c_len ctx = 0 -> free_bytes w <> 5 ->
  exists ctx' b, _find_entry ctx ENTRY_ID_END false w = Done ((SYSPARAM_OK, ctx'), force w b) /\ same_counters ctx ctx'.
Proof.
  intros H Hclean Ha Hl H5. pose proof (region_bounds _ _ H) as B. pose proof (scan_fuel_enough w es es [] H ltac:(by rewrite app_nil_r)) as Hf.
  unfold _find_entry. erewrite bind_Done by reflexivity. destruct (scan_fuel (w_info w)) as [|fuel]; [lia|].
  cbn [find_entry_loop]. erewrite bind_Done by reflexivity. rewrite Ha, Hl. fold (region_top (w_info w)).
  rewrite (proj2 (Z.eqb_neq (end_addr (w_info w)) (cur_base (w_info w)))) by lia. cbn [negb andb].
  unfold ENTRY_SIZE, ENTRY_HEADER_SIZE. rewrite !u32_small by lia. rewrite Z.add_0_r.
  case_if; zbool.
  - exists ctx, true. by split.
  - cbn [set_addr c_addr]. case_if; zbool.
    + exists (set_addr (end_addr (w_info w) + 4) ctx), false. by rewrite force_self.
    + run (read_ok w (end_addr (w_info w) + 4) 4 (rh_flash _ _ H) ltac:(lia) ltac:(lia) ltac:(lia)).
      assert (Hd : fst (dec_entry_header (cells (wcell w) (end_addr (w_info w) + 4) 4)) = 0xffff).
      { rewrite !cells_cons by lia. cbn. rewrite !(rh_blank _ _ H) by lia. done. }
      destruct (dec_entry_header _) as [i l]. cbn [fst] in Hd. subst i. cbn [Z.eqb Pos.eqb].
      eexists _, false. rewrite force_self by done. split; [reflexivity|done].
Qed.

Lemma end_ctx_counters c top ctx a : same_counters ctx (end_ctx c top ctx a).
Proof. unfold end_ctx. case_if; [done|]. by destruct (dec_entry_header _). Qed.

Lemma miss_ctx_facts w es : region_holds w es ->
  c_addr (miss_ctx w (scanned w es)) = end_addr (w_info w) /\ c_len (miss_ctx w (scanned w es)) = 0 /\
  c_unused_keys (miss_ctx w (scanned w es)) = count_live es /\
  c_compactable (miss_ctx w (scanned w es)) = dead_size es.
Proof.
  intros H. pose proof (region_bounds _ _ H) as B. unfold miss_ctx.
  cbn [set_entry c_addr c_len c_unused_keys c_compactable].
  destruct (end_ctx_counters (wcell w) (region_top (w_info w)) (scanned w es) (end_addr (w_info w))) as (-> & -> & _).
  split; [unfold end_ctx; case_if; [done|]; by destruct (dec_entry_header _)|]. split; [done|]. unfold scanned.
  rewrite visits_unused, visits_compactable; cbn; lia.
Qed.

(** From an entry of the log the scan counts the rest of the entries. *)
Lemma find_end_from w es k e r ctx :
  region_holds w es -> wf_log es -> es = k ++ e :: r -> stands_at w ctx k e ->
  exists ctx', _find_entry ctx ENTRY_ID_END false w = Done ((SYSPARAM_OK, ctx'), w) /\
    same_counters (visits ctx (log_start w + log_size (k ++ [e])) r) ctx'.
Proof.
  intros H Hwf Hes (Ha & Hi & Hl). pose proof (region_bounds _ _ H) as B. pose proof (log_size_nonneg k).
  eexists. split; [|apply end_ctx_counters].
  rewrite (find_entry_none w es (k ++ [e]) r ctx ENTRY_ID_END false H); [done| | |].
  - by rewrite <-app_assoc.
  - right. rewrite Ha, Hl. fold (e_size e). rewrite log_size_app, log_size_cons. cbn [log_size foldr]. lia.
  - apply Forall_forall. intros x Hx. unfold matches. destruct (live_key x) eqn:E; [|done]. cbn [andb].
    pose proof (key_id_range es x Hwf ltac:(rewrite Hes; set_solver) E) as Hr. unfold MAX_KEY_ID in Hr.
    rewrite (proj2 (Z.eqb_neq _ _)); [done|]. unfold ENTRY_ID_END. lia.
Qed.

(** ** [set_room] *)

(** The locals after a compaction. *)
Definition compact_locals w (kid : Z) (es : list entry) : set_locals := {|
  l_ctx := set_max_key_id (Z.of_nat (length (pairs es)))
             (zero_context (alt_base (w_info w) + 8 + log_size (compacted (Some kid) es)));
  l_key_id := default kid (ckid (Some kid) 0 (pairs es));
  l_old_value_addr := 0 |}.

Lemma set_compact_ok w es l b :
  store w es -> w_alloc w = [] ->
  exists w', set_compact l (force w b) = Done ((SYSPARAM_OK, compact_locals w (l_key_id l) es), w') /\
    compaction w w' (Some (l_key_id l)) es.
Proof.
  intros [H Hwf _ Hcur _] Hal. unfold set_compact.
  destruct (compact_params_ok (force w b) es (Some (l_ctx l)) (Some (l_key_id l)) (force_region _ _ _ H) Hwf Hcur Hal)
    as (w' & Hrun & Hc). run Hrun. cbn [compact_ctx is_err status_code Z.ltb Z.compare].
  exists w'. split; [unfold ret, compact_locals; by destruct (ckid _ _ _)|]. by destruct Hc.
Qed.

(** The test that decides on a compaction. *)
Definition reclaimable (needed free compactable unused : Z) : bool :=
  (needed <=? u32 (free + compactable)) || (0 <? unused).

(** Too little room: compact if that may help, then look again. *)
Lemma set_room_short w es l ctx' b needed :
  store w es -> w_alloc w = [] -> free_bytes w < needed ->
  _find_entry (l_ctx l) ENTRY_ID_END false w = Done ((SYSPARAM_OK, ctx'), force w b) ->
  if reclaimable needed (free_bytes w) (c_compactable ctx') (c_unused_keys ctx') then
    exists w', compaction w w' (Some (l_key_id l)) es /\
      set_room l needed w =
        Done ((if free_bytes w' <? needed then SYSPARAM_ERR_FULL else SYSPARAM_OK,
               compact_locals w (l_key_id l) es), w')
  else exists l', set_room l needed w = Done ((SYSPARAM_ERR_FULL, l'), force w b).
Proof.
  intros Hst Hal Hlt Hfind. pose proof (st_region _ _ Hst) as H. unfold set_room. erewrite bind_Done by reflexivity.
  rewrite (free_space_ok _ _ H), (proj2 (Z.ltb_lt _ _) Hlt). rewrite bind_assoc. run Hfind.
  cbn [l_key_id l_old_value_addr].
  set (l1 := {| l_ctx := ctx'; l_key_id := l_key_id l; l_old_value_addr := l_old_value_addr l |}).
  destruct (set_compact_ok w es l1 b Hst Hal) as (w' & Hrun & Hc). cbn [l_key_id l1] in Hrun, Hc.
  assert (Hgo : bind (set_compact l1) (fun '(status, l) =>
      if is_err status then ret (status, l)
      else let! i := get_info in
           if free_space i <? needed then ret (SYSPARAM_ERR_FULL, l) else ret (SYSPARAM_OK, l)) (force w b) =
    Done ((if free_bytes w' <? needed then SYSPARAM_ERR_FULL else SYSPARAM_OK,
           compact_locals w (l_key_id l) es), w')).
  { run Hrun. cbn [is_err status_code Z.ltb Z.compare]. erewrite bind_Done by reflexivity.
    rewrite (free_space_ok _ _ (st_region _ _ (cp_store _ _ _ _ Hc))). by case_if. }
  unfold reclaimable. destruct (needed <=? _); cbn [orb]; [eauto|]. destruct (0 <? c_unused_keys ctx'); [eauto|].
  erewrite bind_Done by reflexivity. cbn [is_err status_code Z.ltb Z.compare]. erewrite bind_Done by reflexivity.
  rewrite (free_space_ok _ _ (force_region _ _ b H)).
  change (free_bytes (force w b)) with (free_bytes w). rewrite (proj2 (Z.ltb_lt _ _) Hlt). eauto.
Qed.

(** ** [sysparam_set_data] with a compaction *)

(** The bytes free after a compaction that drops the value of the id [kid]. *)
Definition room_after w (kid : Z) (es : list entry) : Z :=
  region_size (w_info w) - 8 - log_size (compacted (Some kid) es).

Lemma compaction_free w w' kid es : compaction w w' (Some kid) es -> free_bytes w' = room_after w kid es.
Proof. intros []. unfold room_after, region_top. rewrite cp_cur, cp_size, cp_end. lia. Qed.

(** After the compaction the rest of [sysparam_set_data] is [set_append]. *)
Lemma set_write_compacted w w1 es l l1 key value n b :
  store w1 es -> l_old_value_addr l1 = 0 ->
  (l_key_id l1 < 0 -> c_max_key_id (l_ctx l1) < MAX_KEY_ID) -> Z.of_nat (length key) <= 65535 ->
  set_room l (needed_space (l_key_id l) key n) w = Done ((SYSPARAM_OK, l1), w1) ->
  (let! (status, old) := set_write l key (Z.of_nat (length key)) value n (bin_flag b) in
   if is_err status then ret status else set_delete_old status old) w =
  set_append l1 key (Z.of_nat (length key)) value n (bin_flag b) w1.
Proof.
  intros Hst Hold Hids Hkl Hroom. unfold bind at 1, set_write, ENTRY_SIZE, ENTRY_HEADER_SIZE, strlen.
  rewrite u16_small by lia. fold (needed_space (l_key_id l) key n). run Hroom. cbn [is_err status_code Z.ltb Z.compare].
  run (set_ids_ok w1 l1 Hids). cbn [is_err status_code Z.ltb Z.compare].
  run (set_forced_ok w1 l1 (st_clean _ _ Hst)). unfold bind, ret, set_delete_old. cbn [is_err status_code Z.ltb Z.compare].
  rewrite Hold. cbn [Z.eqb negb].
  destruct (set_append l1 _ _ _ _ _ w1) as [[st w2]| |]; try done. by destruct (is_err st).
Qed.

(** An update of the compacted log is an update of the log. *)
Lemma set_result_compaction w w1 w' kid es key o :
  compaction w w1 (Some kid) es -> set_result w1 w' (compacted (Some kid) es) key o ->
  (forall k, k <> key -> kv (compacted (Some kid) es) k = kv es k) -> set_result w w' es key o.
Proof.
  intros [] (S1 & S2 & S3 & es' & Hst & Hwf & Hkv) Hother. split; [congruence|]. split; [congruence|]. split; [congruence|].
  exists es'. split; [done|]. split; [done|]. intros k. rewrite Hkv. case_decide; [done|]. by apply Hother.
Qed.

Lemma no_pair_negative es p : wf_log es -> p ∈ pairs es -> Some (-1) <> Some (e_id (fst p)).
Proof.
  intros Hwf (H1 & H2 & _)%pairs_elem [= Heq]. pose proof (key_id_range es (fst p) Hwf H1 H2). lia.
Qed.

(** [sysparam_set_data] up to the check for room, for a key without value. *)
Lemma set_locked_miss w es key value n b :
  store w es -> set_args key value n -> kv es key = None -> free_bytes w <> 5 ->
  exists lc ctx' fb, l_old_value_addr lc = 0 /\
    ((key ∉ key_names es) /\ l_key_id lc = -1 \/
     exists ke, ke ∈ es /\ names (Some key) ke = true /\ l_key_id lc = e_id ke) /\
    _find_entry (l_ctx lc) ENTRY_ID_END false w = Done ((SYSPARAM_OK, ctx'), force w fb) /\
    c_compactable ctx' = dead_size es /\
    set_data_locked key (Z.of_nat (length key)) value n b w =
      (let! (status, old) := set_write lc key (Z.of_nat (length key)) value n (bin_flag b) in
       if is_err status then ret status else set_delete_old status old) w.
Proof.
  intros Hst Ha Hnone H5. pose proof Hst as [H Hwf Hclean _ _]. pose proof Ha as [_ _ Hn _ _].
  destruct (miss_ctx_facts w es H) as (Mc & Ml & Mu & Mk).
  destruct (find_end_after_miss w es (miss_ctx w (scanned w es)) H Hclean Mc Ml H5) as (ctx' & fb & Hfind & _ & Hc' & _).
  rewrite Mk in Hc'. unfold set_data_locked. erewrite bind_Done by reflexivity. rewrite (cur_base_nz _ _ H).
  destruct (set_find_ok w es key H Hwf) as (res & Hrun & Hres). run Hrun.
  change (if b then ENTRY_FLAG_BINARY else 0) with (bin_flag b).
  destruct Hres as [(Hno & Hkv & ->)|[(k & ke & r & Hes & Hke & _ & _ & ->)|(k & ke & m & ve & r & _ & _ & _ & Hkv & _)]];
    [| |congruence]; eexists {| l_ctx := _; l_key_id := _; l_old_value_addr := 0 |}, ctx', fb;
    (split; [done|]; split; [|split; [exact Hfind|split; [done|]]]).
  - left. split; [by apply names_absent|done].
  - by rewrite (proj2 (Z.eqb_neq n 0)) by lia.
  - right. exists ke. split; [rewrite Hes; set_solver|done].
  - by rewrite (proj2 (Z.eqb_neq n 0)) by lia.
Qed.

(** A new key, room made by compaction. *)
Lemma set_locked_reclaim_new w es key value n b :
  store w es -> set_args key value n -> w_alloc w = [] -> key ∉ key_names es ->
  Z.of_nat (length (pairs es)) < MAX_KEY_ID ->
  let needed := space_for es key n in
  free_bytes w < needed <= free_bytes w + dead_size es -> free_bytes w <> 5 ->
  needed + 1 <> room_after w (-1) es ->
  exists w', set_data_locked key (Z.of_nat (length key)) value n b w = Done (SYSPARAM_OK, w') /\
    set_result w w' es key (Some (b, val_of value n)).
Proof.
  intros Hst Ha Hal Hno Hids needed Hlt H5 Hlast. pose proof Hst as [H Hwf _ _ _]. pose proof Ha as [Hkl _ Hn _ _].
  assert (Hneed : needed = 4 + n + (4 + Z.of_nat (length key))) by (subst needed; unfold space_for; by rewrite decide_False).
  assert (Hnone : kv es key = None).
  { apply kv_None; [done|]. intros b1 v1 (ke & ve & H1 & H2 & H3 & _). destruct Hno. apply elem_key_names. eauto. }
  destruct (set_locked_miss w es key value n b Hst Ha Hnone H5) as (lc & ctx' & fb & Hold & Hid & Hfind & Hc' & ->).
  destruct Hid as [[_ Hid]|(ke & Hin & Hke & _)]; [|by destruct Hno; eapply found_key_name].
  pose proof (region_bounds _ _ H) as B. pose proof (dead_size_bounds es) as Hd.
  pose proof (set_room_short w es lc ctx' fb needed Hst Hal ltac:(lia) Hfind) as Hroom.
  assert (Hrec : reclaimable needed (free_bytes w) (c_compactable ctx') (c_unused_keys ctx') = true).
  { unfold reclaimable. rewrite Hc', u32_small, (proj2 (Z.leb_le _ _)) by lia. done. }
  rewrite Hrec, Hid in Hroom. destruct Hroom as (w1 & Hcp & Hroom).
  pose proof (compacted_reclaims (Some (-1)) es Hwf). pose proof (compaction_free _ _ _ _ Hcp) as Hfree.
  assert (Hge : needed <= room_after w (-1) es) by (unfold room_after, region_top in *; lia).
  rewrite Hfree, (proj2 (Z.ltb_ge _ _) Hge) in Hroom.
  assert (Hck : ckid (Some (-1)) 0 (pairs es) = Some (-1)) by (apply ckid_other; intros p; by apply no_pair_negative).
  assert (Hnsp : needed_space (l_key_id lc) key n = needed) by (rewrite Hid, Hneed; done).
  rewrite <-Hnsp in Hroom. pose proof (cp_store _ _ _ _ Hcp) as Hst1.
  rewrite (set_write_compacted w w1 _ lc (compact_locals w (-1) es) key value n b Hst1 eq_refl
    ltac:(cbn; lia) ltac:(lia) Hroom).
  pose proof (compacted_length es Hwf).
  destruct (store_append_new w1 (compacted (Some (-1)) es) (compact_locals w (-1) es) key value n b) as (w' & Hap & Hsr);
    try done.
  - intros Hin. by apply compacted_names in Hin.
  - cbn. rewrite Hck. done.
  - cbn [compact_locals l_ctx c_max_key_id set_max_key_id]. unfold compacted. rewrite cout_last_id; lia.
  - unfold compacted. rewrite cout_last_id; lia.
  - unfold room. rewrite Hfree. lia.
  - exists w'. split; [done|]. eapply set_result_compaction; [done|done|]. intros k _. apply compacted_keep; [done|].
    intros p. by apply no_pair_negative.
Qed.

Lemma count_live_app l r : count_live (l ++ r) = count_live l + count_live r.
Proof. unfold count_live. induction l as [|e l IH]; cbn [app foldr]; [done|]. rewrite IH. lia. Qed.

(** The context counts the dead entries and the value to be replaced. *)
Lemma replace_counters w es k ve r :
  region_holds w es -> es = k ++ ve :: r ->
  let ctx := add_compactable (ENTRY_SIZE (c_len (scanned w (k ++ [ve])))) (scanned w (k ++ [ve])) in
  stands_at w ctx k ve /\
  c_compactable (visits ctx (log_start w + log_size (k ++ [ve])) r) = dead_size es + e_size ve /\
  c_unused_keys (visits ctx (log_start w + log_size (k ++ [ve])) r) = count_live es.
Proof.
  intros H Hes ctx. pose proof (region_bounds _ _ H) as B. destruct (scanned_entry w k ve) as (Ha & Hi & Hl).
  split; [by repeat split|]. split.
  2: { rewrite visits_unused. subst ctx. cbn [add_compactable c_unused_keys]. unfold scanned. rewrite visits_unused.
       cbn [zero_context c_unused_keys]. rewrite Hes. change (ve :: r) with ([ve] ++ r). rewrite app_assoc, (count_live_app _ r). lia. }
  pose proof (log_size_app k (ve :: r)) as Hs. rewrite log_size_cons, <-Hes in Hs.
  pose proof (log_size_nonneg k). pose proof (log_size_nonneg r). pose proof (e_size_pos ve).
  pose proof (dead_size_bounds (k ++ [ve])) as Hd. rewrite log_size_app, log_size_cons in Hd. cbn [log_size foldr] in Hd.
  assert (Hc : c_compactable ctx = dead_size (k ++ [ve]) + e_size ve).
  { subst ctx. cbn [add_compactable c_compactable]. rewrite Hl. fold (e_size ve). unfold scanned.
    rewrite visits_compactable; cbn [zero_context c_compactable];
      rewrite ?log_size_app, ?log_size_cons; cbn [log_size foldr]; [rewrite u32_small; lia|lia|lia]. }
  rewrite visits_compactable by lia. rewrite Hc.
  assert (Hde : dead_size es = dead_size (k ++ [ve]) + dead_size r).
  { rewrite <-dead_size_app, <-app_assoc. by rewrite Hes. }
  lia.
Qed.

(** [sysparam_set_data] up to the check for room, for a key with a value. *)
Lemma set_locked_old w es key value n b b' v' :
  store w es -> set_args key value n -> kv es key = Some (b', v') -> (b', v') <> (b, val_of value n) ->
  exists ke ve lc ctx', find_name key es = Some ke /\ (ke, ve) ∈ pairs es /\ e_payload ke = key /\ e_payload ve = v' /\
    l_key_id lc = e_id ke /\
    _find_entry (l_ctx lc) ENTRY_ID_END false w = Done ((SYSPARAM_OK, ctx'), force w false) /\
    c_compactable ctx' = dead_size es + e_size ve /\ c_unused_keys ctx' = count_live es /\
    set_data_locked key (Z.of_nat (length key)) value n b w =
      (let! (status, old) := set_write lc key (Z.of_nat (length key)) value n (bin_flag b) in
       if is_err status then ret status else set_delete_old status old) w.
Proof.
  intros Hst Ha Hval Hdiff. pose proof Hst as [H Hwf Hclean _ _]. pose proof Ha as [Hkl _ Hn Hnl _].
  unfold set_data_locked. erewrite bind_Done by reflexivity. rewrite (cur_base_nz _ _ H).
  destruct (set_find_ok w es key H Hwf) as (res & Hrun & Hres). run Hrun.
  change (if b then ENTRY_FLAG_BINARY else 0) with (bin_flag b).
  destruct Hres as [(_ & Hkv & _)|[(k & ke1 & r & _ & _ & _ & Hkv & _)|(l & ke & m & ve & r & Hes & Hke & Hve & Hkv & ->)]];
    [congruence..|]. rewrite Hval in Hkv. injection Hkv as -> ->.
  pose proof Hke as [Hlk Hnm]%names_true. pose proof Hve as [Hlv Hide]%values_true.
  assert (Hin : ke ∈ es /\ ve ∈ es) by (rewrite Hes; set_solver). destruct Hin as [Hin Hinv].
  rewrite app_comm_cons, app_assoc in Hes. replace (l ++ ke :: m ++ [ve]) with ((l ++ ke :: m) ++ [ve]) by (by rewrite <-app_assoc).
  set (k := l ++ ke :: m) in *. pose proof (region_bounds _ _ H) as B. pose proof (log_size_nonneg k).
  cbn [is_err status_code Z.ltb Z.compare]. rewrite (proj2 (Z.eqb_neq n 0)) by lia. cbn [negb].
  destruct (scanned_entry w k ve) as (Hca & Hci & Hcl). assert (Hold : log_start w + log_size k <> 0) by lia.
  unfold bind at 1. rewrite (set_same_ok w es k ve r) by (done || lia).
  rewrite bool_decide_eq_false_2 by (intros [E1 E2]; apply Hdiff; congruence).
  unfold count_old_value. cbn [l_old_value_addr]. rewrite (proj2 (Z.eqb_neq _ _) Hold). cbn [negb l_ctx l_key_id].
  set (lc := {| l_ctx := _; l_key_id := _; l_old_value_addr := _ |}).
  destruct (replace_counters w es k ve r H Hes) as (Hat & Hcnt & Hunu).
  destruct (find_end_from w es k ve r (l_ctx lc) H Hwf Hes Hat) as (ctx' & Hfind & Hu' & Hc' & _).
  rewrite <-(force_self w) in Hfind at 2 by done.
  exists ke, ve, lc, ctx'. split; [by apply find_name_iff|]. split; [by apply pairs_elem_iff|]. split; [done|]. split; [done|].
  split; [done|]. split; [done|]. split; [by rewrite Hc', <-Hcnt|]. split; [by rewrite Hu', <-Hunu|done].
Qed.

(** A key with a value, room made by compaction, which drops the old value. *)
Lemma set_locked_reclaim_old w es key value n b ke b' v' :
  store w es -> set_args key value n -> w_alloc w = [] ->
  find_name key es = Some ke -> kv es key = Some (b', v') -> (b', v') <> (b, val_of value n) ->
  let needed := space_for es key n in
  free_bytes w < needed <= free_bytes w + dead_size es + ENTRY_SIZE (Z.of_nat (length v')) ->
  needed + 1 <> room_after w (e_id ke) es ->
  exists w', set_data_locked key (Z.of_nat (length key)) value n b w = Done (SYSPARAM_OK, w') /\
    set_result w w' es key (Some (b, val_of value n)).
Proof.
  intros Hst Ha Hal Hname Hval Hdiff needed Hlt Hlast. pose proof Hst as [H Hwf _ _ _].
  destruct (set_locked_old w es key value n b b' v' Hst Ha Hval Hdiff)
    as (ke1 & ve & lc & ctx' & Hname1 & Hpair & Hnm & Hv' & Hid & Hfind & Hc' & _ & ->).
  rewrite Hname in Hname1. injection Hname1 as <-. subst v'. fold (e_len ve) in Hlt. fold (e_size ve) in Hlt.
  pose proof Hpair as (Hin & Hlk & _)%pairs_elem. cbn [fst snd] in Hin, Hlk.
  assert (Hneed : needed = 4 + n).
  { subst needed. unfold space_for. rewrite decide_True by (apply elem_key_names; eauto). lia. }
  pose proof (region_bounds _ _ H) as B. pose proof (dead_size_bounds es) as Hd. pose proof (e_size_pos ve).
  pose proof Ha as [Hkl _ Hn _ _].
  pose proof (set_room_short w es lc ctx' false needed Hst Hal ltac:(lia) Hfind) as Hroom.
  pose proof (compacted_drop_reclaims es ke ve Hwf Hpair) as Hrc. pose proof (log_size_nonneg (compacted (Some (e_id ke)) es)).
  assert (Hrec : reclaimable needed (free_bytes w) (c_compactable ctx') (c_unused_keys ctx') = true).
  { unfold reclaimable. rewrite Hc', u32_small, (proj2 (Z.leb_le _ _)) by lia. done. }
  rewrite Hrec, Hid in Hroom. destruct Hroom as (w1 & Hcp & Hroom). pose proof (compaction_free _ _ _ _ Hcp) as Hfree.
  assert (Hge : needed <= room_after w (e_id ke) es) by (unfold room_after, region_top in *; lia).
  rewrite Hfree, (proj2 (Z.ltb_ge _ _) Hge) in Hroom. pose proof (key_id_range es ke Hwf Hin Hlk) as Hidr.
  assert (Hnsp : needed_space (l_key_id lc) key n = needed).
  { unfold needed_space. rewrite Hid, (proj2 (Z.ltb_ge _ _)) by lia. lia. }
  rewrite <-Hnsp in Hroom. pose proof (cp_store _ _ _ _ Hcp) as Hst1.
  destruct (compacted_key es ke ve Hwf Hpair) as (ke' & Hck & Hin' & Hnames' & Hnov).
  pose proof Hnames' as [Hlk' _]%names_true. pose proof (key_id_range _ ke' (st_wf _ _ Hst1) Hin' Hlk') as Hid'.
  rewrite (set_write_compacted w w1 _ lc (compact_locals w (e_id ke) es) key value n b Hst1 eq_refl
    ltac:(cbn [compact_locals l_key_id]; rewrite Hck; cbn; lia) ltac:(lia) Hroom).
  destruct (store_append_known w1 _ (compact_locals w (e_id ke) es) key ke' value n b Hst1 Ha Hin')
    as (w' & Hap & Hsr); try done.
  - by rewrite <-Hnm.
  - cbn [compact_locals l_key_id]. by rewrite Hck.
  - unfold room. rewrite Hfree. lia.
  - exists w'. split; [done|]. eapply set_result_compaction; [done|done|]. intros k' Hk'.
    rewrite compacted_drop by done. rewrite decide_False; [done|congruence].
Qed.

End Reclaim.
