(* ===== verification/SysparamSpec.v ===== *)
(** * The contract of the parameter store

    The public functions of [core/sysparam.c] on a store that satisfies the
    invariant [store] of [SysparamStore]: [sysparam_get_data] and its
    variants read the map [kv] of the log, [sysparam_set_data] updates it at
    one key, and the mutex is free again afterwards. *)

From stdpp Require Import sorting.
From S2P Require Import Prelude CStrings Flash Spiflash Sysparam SysparamLog SysparamProofs SysparamScan SysparamStore SysparamSet SysparamPairs SysparamCompact SysparamReclaim.

Section Spec.
Context {F : Type} `{HF : !Flash F} `{HL : !FlashLaws F}.
Implicit Types (w : world F) (f : F).
Abbreviation log_start w := (cur_base (w_info w) + 8).

(** ** Reading *)

(** The state the mutex calls leave when nothing else changed. *)
Definition heap_world w (al : list bool) (lv : Z) : world F := Build_world (w_flash w) (w_info w) al lv.

Lemma relock_twice w s s' al al' lv lv' :
  relock (relock w s al lv) s' al' lv' = relock w s' al' lv'.
Proof. done. Qed.

Lemma relock_same w s al lv : sem (w_info w) = s -> relock w s al lv = heap_world w al lv.
Proof. intros <-. unfold relock, heap_world. destruct w as [f [] ? ?]. done. Qed.

Lemma heap_world_same w : heap_world w (w_alloc w) (w_live w) = w.
Proof. by destruct w. Qed.

(** Does the next allocation succeed? *)
Definition can_alloc w : bool := hd true (w_alloc w).

(** What [sysparam_get_data] returns for the contents [o] of the key. *)
Definition data_of (o : option (bool * list Z)) (mem : bool) : sysparam_status_t * option read_result :=
  match o with
  | None => (SYSPARAM_NOTFOUND, None)
  | Some (b, v) =>
    if mem then
      (SYSPARAM_OK, Some {| r_data := v ++ [0]; r_len := Z.of_nat (length v); r_binary := b |})
    else (SYSPARAM_ERR_NOMEM, None)
  end.

(** The heap afterwards: the caller owns one more block if data was returned. *)
Definition heap_after w (o : option (bool * list Z)) : world F :=
  match o with
  | None => w
  | Some _ => heap_world w (tail (w_alloc w)) (w_live w + if can_alloc w then 1 else 0)
  end.

Lemma malloc_ok w :
  malloc w = Done (can_alloc w, heap_world w (tail (w_alloc w)) (w_live w + if can_alloc w then 1 else 0)).
Proof.
  unfold malloc, can_alloc, heap_world. destruct (w_alloc w) as [|[] al]; cbn; [done|done|].
  by rewrite Z.add_0_r.
Qed.

Lemma buf_set_last v i : i = Z.of_nat (length v) -> buf_set (v ++ [0]) i 0 = Some (v ++ [0]).
Proof.
  intros ->. unfold buf_set. rewrite length_app. cbn [length].
  rewrite (proj2 (andb_true_iff _ _)) by (split; [apply Z.leb_le|apply Z.ltb_lt]; lia).
  rewrite Nat2Z.id. f_equal. rewrite <-(Nat.add_0_r (length v)). by rewrite insert_app_r.
Qed.

(** The body of [sysparam_get_data] under the mutex. *)
Lemma get_data_ok w es key :
  store w es -> unlocked w -> Z.of_nat (length key) <= 65535 ->
  sysparam_get_data key w = Done (data_of (kv es key) (can_alloc w), heap_after w (kv es key)).
Proof.
  intros Hst Hun Hkl. unfold sysparam_get_data. run (take_mutex w Hun).
  set (wl := relock _ _ _ _). pose proof (store_relock w es (Some true) (w_alloc w) (w_live w) Hst) as Hl.
  fold wl in Hl. erewrite bind_Done by reflexivity. pose proof (st_region _ _ Hl) as Hr.
  rewrite (cur_base_nz _ _ Hr). unfold strlen. rewrite u16_small by lia. rewrite bind_assoc.
  destruct (lookup_value_ok wl es key Hr (st_wf _ _ Hst)) as (st & ctx & Hrun & Hres). run Hrun.
  destruct (kv es key) as [[b v]|].
  - destruct Hres as (-> & k & e & r & Hes & Ha & Hlen & Hb & Hv). cbn [is_ok status_code Z.eqb negb].
    rewrite bind_assoc. run (malloc_ok wl). unfold can_alloc. change (w_alloc wl) with (w_alloc w).
    fold (can_alloc w). destruct (can_alloc w) eqn:Hm; cbn [negb].
    2: { erewrite bind_Done by reflexivity. erewrite bind_Done by (eapply give_mutex; reflexivity).
         unfold ret. f_equal. f_equal. cbn. rewrite Hm. by apply (relock_same w (Some false)). }
    set (wa := heap_world _ _ _).
    pose proof (store_relock w es (Some true) (tail (w_alloc w)) (w_live w + 1) Hst) as Hs2.
    change (relock w (Some true) (tail (w_alloc w)) (w_live w + 1)) with wa in Hs2.
    pose proof (region_bounds _ _ Hr) as B. destruct (entry_on_flash wl es k e r Hr Hes) as (_ & _ & Hlo & Hhi).
    unfold e_size, ENTRY_SIZE, ENTRY_HEADER_SIZE in Hhi.
    destruct (read_payload_ok wa es k e r ctx (c_len ctx) (st_region _ _ Hs2) Hes Ha) as (bs & Hrd & Hbl & Hbs & _).
    { unfold e_len in *. lia. }
    { change (region_size (w_info wa)) with (region_size (w_info wl)). lia. }
    rewrite bind_assoc. run Hrd. cbn [is_ok status_code Z.eqb negb].
    assert (bs = v) as ->.
    { rewrite !take_ge in Hbs by (unfold e_len in *; lia). congruence. }
    rewrite buf_set_last by lia. erewrite bind_Done by reflexivity.
    erewrite bind_Done by (eapply give_mutex; reflexivity). rewrite Hb, <-Hbl. unfold ret. f_equal. f_equal.
    cbn [heap_after]. rewrite Hm. by apply (relock_same w (Some false)).
  - subst st. cbn [is_ok status_code Z.eqb negb]. erewrite bind_Done by reflexivity.
    erewrite bind_Done by (eapply give_mutex; reflexivity). unfold ret. f_equal. f_equal.
    etransitivity; [exact (relock_same w (Some false) _ _ Hun)|exact (heap_world_same w)].
Qed.

(** ** Reading into a buffer of the caller *)

Lemma get_data_static_ok w es key n :
  store w es -> unlocked w -> Z.of_nat (length key) <= 65535 -> 0 <= n <= region_size (w_info w) ->
  match kv es key with
  | None => sysparam_get_data_static key n w = Done ((SYSPARAM_NOTFOUND, None), w)
  | Some (b, v) => exists dest, Z.of_nat (length dest) = n /\
      take (length v) dest = take (Z.to_nat n) v /\ Forall byteP dest /\
      sysparam_get_data_static key n w =
        Done ((SYSPARAM_OK, Some {| r_data := dest; r_len := Z.of_nat (length v); r_binary := b |}), w)
  end.
Proof.
  intros Hst Hun Hkl Hn. unfold sysparam_get_data_static. rewrite (bind_Done _ _ _ _ _ (take_mutex w Hun)).
  set (wl := relock _ _ _ _). pose proof (store_relock w es (Some true) (w_alloc w) (w_live w) Hst) as Hl.
  fold wl in Hl. pose proof (st_region _ _ Hl) as Hr.
  assert (Hgive : forall r : sysparam_status_t * option read_result,
    (do! xSemaphoreGive then ret r) wl = Done (r, w)).
  { intros r. erewrite bind_Done by (eapply give_mutex; reflexivity). unfold ret. f_equal. f_equal.
    etransitivity; [exact (relock_same w (Some false) _ _ Hun)|exact (heap_world_same w)]. }
  rewrite (bind_Done get_info _ wl (w_info wl) wl) by reflexivity.
  rewrite (cur_base_nz _ _ Hr). unfold strlen. rewrite u16_small by lia. rewrite !bind_assoc.
  destruct (lookup_value_ok wl es key Hr (st_wf _ _ Hst)) as (st & ctx & Hrun & Hres). rewrite (bind_Done _ _ _ _ _ Hrun).
  destruct (kv es key) as [[b v]|].
  - destruct Hres as (-> & k & e & r & Hes & Ha & Hlen & Hb & Hv). cbn [is_ok status_code Z.eqb negb].
    destruct (read_payload_ok wl es k e r ctx n Hr Hes Ha (proj1 Hn) (proj2 Hn)) as (bs & Hrd & Hbl & Hbs & Hby).
    exists bs. split; [done|]. unfold e_len in *. rewrite Hv in *. rewrite Nat2Z.id in Hbs. split; [done|]. split; [done|].
    rewrite bind_assoc. run Hrd. cbn [is_ok status_code Z.eqb negb]. erewrite bind_Done by reflexivity.
    rewrite Hgive, Hb, Hlen. done.
  - subst st. cbn [is_ok status_code Z.eqb negb]. erewrite bind_Done by reflexivity. apply Hgive.
Qed.

(** ** Writing *)

Definition key_id_of (es : list entry) (key : list Z) : Z :=
  match find_name key es with Some ke => e_id ke | None => -1 end.

(** The bytes a compaction gives back for a new value of [key]. *)
Definition reclaimable_bytes (es : list entry) (key : list Z) : Z :=
  dead_size es + match kv es key with Some (_, v) => ENTRY_SIZE (Z.of_nat (length v)) | None => 0 end.

Abbreviation free_bytes w := (region_top (w_info w) - end_addr (w_info w)).

(** A value of [n] bytes can be set under [key].  Either there is room at the
    end of the log ([room]: the entries fit and do not leave exactly one byte
    behind them) and, for a new key, a number; or a compaction gains the room.
    In the second case the key has a value or was never stored (one that was
    deleted before gets lost, see [sysparam_set_data_lost_write]), for a new
    key there are not exactly five bytes free, and not exactly one byte is left
    over after the compaction. *)
Inductive can_set w (es : list entry) (key : list Z) (n : Z) : Prop :=
| can_append :
    (key ∈ key_names es \/ last_key_id 0 es < MAX_KEY_ID) -> room w (space_for es key n) ->
    can_set w es key n
| can_reclaim :
    ((key ∉ key_names es) /\ Z.of_nat (length (pairs es)) < MAX_KEY_ID /\ free_bytes w <> 5 \/ kv es key <> None) ->
    free_bytes w < space_for es key n <= free_bytes w + reclaimable_bytes es key ->
    space_for es key n + 1 <> room_after w (key_id_of es key) es ->
    can_set w es key n.

(** The value is already there: nothing is written, so no room is needed. *)
Lemma set_locked_same w es key value n b :
  store w es -> set_args key value n -> kv es key = Some (b, val_of value n) ->
  set_data_locked key (Z.of_nat (length key)) value n b w = Done (SYSPARAM_OK, w).
Proof.
  intros Hst Ha Hval. pose proof Hst as [H Hwf _ _ _]. pose proof Ha as [Hkl _ Hn Hnl _].
  unfold set_data_locked. erewrite bind_Done by reflexivity. rewrite (cur_base_nz _ _ H).
  destruct (set_find_ok w es key H Hwf) as (res & Hrun & Hres). run Hrun.
  change (if b then ENTRY_FLAG_BINARY else 0) with (bin_flag b).
  destruct Hres as [(_ & Hkv & _)|[(k & ke & r & _ & _ & _ & Hkv & _)|(l & ke & m & ve & r & Hes & Hke & Hve & Hkv & ->)]];
    [congruence..|]. rewrite Hval in Hkv. injection Hkv as Hb Hv.
  rewrite app_comm_cons, app_assoc in Hes. replace (l ++ ke :: m ++ [ve]) with ((l ++ ke :: m) ++ [ve]) by (by rewrite <-app_assoc).
  set (k := l ++ ke :: m) in *. pose proof (region_bounds _ _ H) as B. pose proof (log_size_nonneg k).
  cbn [is_err status_code Z.ltb Z.compare]. rewrite (proj2 (Z.eqb_neq n 0)) by lia. cbn [negb].
  destruct (scanned_entry w k ve) as (Hca & Hci & Hcl). assert (Hold : log_start w + log_size k <> 0) by lia.
  unfold bind at 1. rewrite (set_same_ok w es k ve r) by (done || lia). by rewrite bool_decide_eq_true_2.
Qed.

Lemma set_locked_ok w es key value n b :
  store w es -> set_args key value n -> w_alloc w = [] -> can_set w es key n ->
  exists w', set_data_locked key (Z.of_nat (length key)) value n b w = Done (SYSPARAM_OK, w') /\
    set_result w w' es key (Some (b, val_of value n)).
Proof.
  intros Hst Ha Hal [Hids Hroom|Hcase Hfree Hlast]; [by apply set_locked_fits|].
  destruct (decide (kv es key = Some (b, val_of value n))) as [Hsame|Hdiff].
  { exists w. split; [by eapply set_locked_same|]. by apply set_result_refl. }
  unfold reclaimable_bytes, key_id_of in *. destruct (kv es key) as [[b' v']|] eqn:Ekv.
  - destruct (find_name key es) as [ke|] eqn:En; [|unfold kv in Ekv; by rewrite En in Ekv].
    eapply set_locked_reclaim_old; try done; [congruence|lia].
  - destruct Hcase as [(Hno & Hp & H5)|?]; [|done].
    destruct (find_name key es) as [ke|] eqn:En.
    { destruct Hno. apply find_name_iff in En as (? & ? & ?); [|apply Hst]. apply elem_key_names. eauto. }
    apply set_locked_reclaim_new; try done. lia.
Qed.

(** The public function takes and gives the mutex around the update. *)
Lemma set_data_wrap w es key value n b st o :
  store w es -> unlocked w -> 1 <= Z.of_nat (length key) <= 65535 -> n <= 65535 ->
  let m := match value with None => 0 | Some _ => n end in
  (forall wl, wl = relock w (Some true) (w_alloc w) (w_live w) -> store wl es ->
   exists w', set_data_locked key (Z.of_nat (length key)) (default [] value) m b wl = Done (st, w') /\
     set_result wl w' es key o) ->
  exists w', sysparam_set_data key value n b w = Done (st, w') /\ set_result w w' es key o.
Proof.
  intros Hst Hun Hkl Hn m Hbody. unfold sysparam_set_data, strlen. rewrite u16_small by lia.
  rewrite (proj2 (Z.eqb_neq _ _)) by lia. unfold MAX_KEY_LEN, MAX_VALUE_LEN.
  rewrite (proj2 (Z.ltb_ge 0xffff _)) by lia. rewrite (proj2 (Z.ltb_ge 0xffff n)) by lia.
  run (take_mutex w Hun).
  destruct (Hbody _ eq_refl (store_relock w es (Some true) (w_alloc w) (w_live w) Hst)) as (w1 & Hrun & Hs & Ha & Hl & es' & Hst' & Hup).
  fold m. run Hrun. erewrite bind_Done by (eapply give_mutex; rewrite Hs; reflexivity).
  eexists. split; [reflexivity|]. unfold unlocked in Hun. cbn in *.
  split; [by rewrite Hun|]. split; [done|]. split; [done|]. exists es'. split; [by apply store_relock|done].
Qed.

Lemma can_set_relock w es key n s al lv : can_set w es key n -> can_set (relock w s al lv) es key n.
Proof. intros [H1 H2|H1 H2 H3]; [by apply can_append|by apply can_reclaim]. Qed.

Lemma set_data_ok w es key value n b :
  store w es -> unlocked w -> set_args key value n -> w_alloc w = [] -> can_set w es key n ->
  exists w', sysparam_set_data key (Some value) n b w = Done (SYSPARAM_OK, w') /\
    set_result w w' es key (Some (b, val_of value n)).
Proof.
  intros Hst Hun Ha Hal Hc. apply set_data_wrap; [done|done|apply Ha|apply Ha|].
  intros wl -> Hl. apply set_locked_ok; [done|done|done|]. by apply can_set_relock.
Qed.

Lemma set_data_delete w es key value n b :
  store w es -> unlocked w -> 1 <= Z.of_nat (length key) <= 65535 -> n <= 65535 -> value = None \/ n = 0 ->
  exists w', sysparam_set_data key value n b w =
      Done (match kv es key with Some _ => SYSPARAM_OK | None => SYSPARAM_NOTFOUND end, w') /\
    set_result w w' es key None.
Proof.
  intros Hst Hun Hkl Hn Hz. apply set_data_wrap; [done|done|done|done|]. intros wl -> Hl.
  replace (match value with Some _ => n | None => 0 end) with 0 by (destruct value; naive_solver).
  apply set_locked_delete; [done|lia].
Qed.

End Spec.
