(* ===== verification/SysparamInit.v ===== *)
(** * The typed accessors of the parameter store

    Strings, integers and booleans of [core/sysparam.c] on top of the
    untyped contract of [SysparamSpec]. *)

From stdpp Require Import sorting.
From S2P Require Import Prelude CStrings Flash Sysparam SysparamLog SysparamProofs SysparamScan SysparamStore SysparamSet SysparamPairs SysparamCompact SysparamReclaim SysparamSpec.

Section Typed.
Context {F : Type} `{HF : !Flash F} `{HL : !FlashLaws F}.
Implicit Types (w : world F) (f : F).

(** ** Texts *)

Lemma c_string_app_zero s t : c_string (s ++ 0 :: t) = c_string s.
Proof. induction s as [|c s IH]; cbn; [done|]. by destruct (c =? 0); [|rewrite IH]. Qed.

Lemma c_string_id s : 0 ∉ s -> c_string s = s.
Proof.
  induction s as [|c s IH]; [done|]. rewrite not_elem_of_cons. intros [Hc Hs]. cbn.
  rewrite (proj2 (Z.eqb_neq _ _)) by congruence. by rewrite IH.
Qed.

Lemma take_all_eq (dest v : list Z) n :
  Z.of_nat (length dest) = n -> Z.of_nat (length v) = n -> take (length v) dest = take (Z.to_nat n) v -> dest = v.
Proof. intros Hd Hv. rewrite !take_ge by lia. done. Qed.

(** ** Integers *)

Definition int_of (n : Z) (o : option (bool * list Z)) (sgn : Z -> Z) : sysparam_status_t * option Z :=
  match o with
  | None => (SYSPARAM_NOTFOUND, None)
  | Some (b, v) =>
    if negb b || negb (Z.of_nat (length v) =? n) then (SYSPARAM_PARSEFAILED, None)
    else (SYSPARAM_OK, Some (sgn (le_val v)))
  end.

Lemma get_int32_ok w es key :
  store w es -> unlocked w -> Z.of_nat (length key) <= 65535 ->
  sysparam_get_int32 key w = Done (int_of 4 (kv es key) s32, w).
Proof.
  intros Hst Hun Hkl. pose proof (region_bounds _ _ (st_region _ _ Hst)) as B. unfold sysparam_get_int32.
  pose proof (get_data_static_ok w es key 4 Hst Hun Hkl ltac:(lia)) as Hg. destruct (kv es key) as [[b v]|]; cbn [int_of].
  - destruct Hg as (dest & Hd & Ht & _ & Hrun). run Hrun. cbn [r_binary r_len r_data].
    destruct (negb b || negb _) eqn:E; [done|]. zbool.
    by rewrite (take_all_eq dest v 4 Hd ltac:(done) Ht).
  - by run Hg.
Qed.

Lemma get_int8_ok w es key :
  store w es -> unlocked w -> Z.of_nat (length key) <= 65535 ->
  sysparam_get_int8 key w = Done (int_of 1 (kv es key) s8, w).
Proof.
  intros Hst Hun Hkl. pose proof (region_bounds _ _ (st_region _ _ Hst)) as B. unfold sysparam_get_int8.
  pose proof (get_data_static_ok w es key 1 Hst Hun Hkl ltac:(lia)) as Hg. destruct (kv es key) as [[b v]|]; cbn [int_of].
  - destruct Hg as (dest & Hd & Ht & _ & Hrun). run Hrun. cbn [r_binary r_len r_data].
    destruct (negb b || negb _) eqn:E; [done|]. zbool.
    by rewrite (take_all_eq dest v 1 Hd ltac:(done) Ht).
  - by run Hg.
Qed.

(** ** Booleans *)

(** What a stored value means as a boolean. *)
Definition bool_of (b : bool) (v : list Z) : option bool :=
  if b then
    if (Z.of_nat (length v) =? 1) || (Z.of_nat (length v) =? 4) then Some (negb (le_val v =? 0)) else None
  else parse_bool (c_string v).

Definition bool_result (o : option (bool * list Z)) : sysparam_status_t * option bool :=
  match o with
  | None => (SYSPARAM_NOTFOUND, None)
  | Some (b, v) =>
    match bool_of b v with
    | Some x => (SYSPARAM_OK, Some x)
    | None => (SYSPARAM_PARSEFAILED, None)
    end
  end.

(** The local buffer of [sysparam_get_bool] is long enough for the value. *)
Definition bool_readable (o : option (bool * list Z)) : Prop :=
  match o with Some (false, v) => Z.of_nat (length v) <= 8 | _ => True end.

Lemma prefix_sub (dest v : list Z) n r :
  Z.of_nat (length v) = n -> n <= Z.of_nat (length dest) ->
  take (length v) dest = v -> sub_bytes (dest ++ r) 0 n = v.
Proof.
  intros Hv Hd Ht. unfold sub_bytes. rewrite drop_0, take_app_le by lia. by replace (Z.to_nat n) with (length v) by lia.
Qed.

(** The text read is the value up to its first zero byte. *)
Lemma text_read (dest v : list Z) :
  (length v < length dest)%nat -> take (length v) dest = v ->
  c_string (<[length v := 0]> dest) = c_string v.
Proof.
  intros Hl Ht. rewrite <-(take_drop (S (length v)) (<[length v := 0]> dest)).
  rewrite (take_S_r _ _ 0) by (by apply list_lookup_insert_eq). rewrite take_insert_ge, Ht by lia.
  rewrite <-app_assoc. apply c_string_app_zero.
Qed.

Lemma get_bool_ok w es key :
  store w es -> unlocked w -> Z.of_nat (length key) <= 65535 -> bool_readable (kv es key) ->
  sysparam_get_bool key w = Done (bool_result (kv es key), w).
Proof.
  intros Hst Hun Hkl Hrd. pose proof (region_bounds _ _ (st_region _ _ Hst)) as B. unfold sysparam_get_bool.
  pose proof (get_data_static_ok w es key 8 Hst Hun Hkl ltac:(lia)) as Hg.
  destruct (kv es key) as [[b v]|]; cbn [bool_result bool_readable] in *; [|by run Hg].
  destruct Hg as (dest & Hd & Ht & _ & Hrun). run Hrun. cbn [r_binary r_len r_data]. unfold bool_of. destruct b.
  - assert (Hp : forall n, Z.of_nat (length v) = n -> n <= 8 -> sub_bytes (dest ++ [0]) 0 n = v).
    { intros n Hv Hn. apply prefix_sub; [done|lia|]. rewrite Ht. apply take_ge. lia. }
    destruct (Z.of_nat (length v) =? 1) eqn:E1; zbool; [by rewrite (Hp 1)|]. cbn [orb].
    destruct (Z.of_nat (length v) =? 4) eqn:E4; zbool; [by rewrite (Hp 4)|done].
  - rewrite buf_set_in by (rewrite length_app; cbn [length]; lia).
    rewrite Nat2Z.id, text_read.
    + by destruct (parse_bool _).
    + rewrite length_app. cbn [length]. lia.
    + rewrite take_app_le by lia. rewrite Ht. apply take_ge. lia.
Qed.

(** ** Strings *)

Definition string_of (o : option (bool * list Z)) : sysparam_status_t * option (list Z) :=
  match o with
  | None => (SYSPARAM_NOTFOUND, None)
  | Some (true, _) => (SYSPARAM_PARSEFAILED, None)
  | Some (false, v) => (SYSPARAM_OK, Some (c_string v))
  end.

Lemma get_string_ok w es key :
  store w es -> unlocked w -> Z.of_nat (length key) <= 65535 -> w_alloc w = [] ->
  exists w', sysparam_get_string key w = Done (string_of (kv es key), w') /\
    w' = heap_world w [] (w_live w + match kv es key with Some (false, _) => 1 | _ => 0 end).
Proof.
  intros Hst Hun Hkl Hal. unfold sysparam_get_string. run (get_data_ok w es key Hst Hun Hkl).
  unfold heap_after, can_alloc. rewrite Hal. cbn [hd tail]. destruct (kv es key) as [[b v]|]; cbn [data_of string_of].
  - cbn [r_binary r_data]. destruct b; eexists; (split; [|reflexivity]).
    + unfold bind, free, modify, ret, heap_world. cbn. replace (w_live w + 1 - 1) with (w_live w + 0) by lia. done.
    + by rewrite c_string_app_zero.
  - eexists. split; [reflexivity|]. rewrite Z.add_0_r, <-Hal. symmetry. apply heap_world_same.
Qed.

End Typed.

(** * Creating and mounting a parameter area

    [sysparam_create_area] and [sysparam_init] of [core/sysparam.c]: a new
    area is an empty store, and mounting an area gives back the store whose
    contents the flash holds, whatever the RAM contained. *)

Section Init.
Context {F : Type} `{HF : !Flash F} `{HL : !FlashLaws F}.
Implicit Types (w : world F) (f : F).
Abbreviation log_start w := (cur_base (w_info w) + 8).

(** ** Region headers *)

Definition size_check (n : Z) : bool :=
  (Z.land (s16 n) REGION_MASK_SIZE =? n) &&
  forallb (fun '(sec, act) =>
    let fl := Z.lor (Z.lor n sec) act in
    (0 <=? fl) && (fl <? 65536) && (Z.land fl REGION_MASK_SIZE =? n) &&
    Bool.eqb (has_flag fl REGION_FLAG_SECOND) (negb (sec =? 0)) &&
    Bool.eqb (has_flag fl REGION_FLAG_ACTIVE) (negb (act =? 0)))
    [(0, 0); (REGION_FLAG_SECOND, 0); (0, REGION_FLAG_ACTIVE); (REGION_FLAG_SECOND, REGION_FLAG_ACTIVE)].

Lemma size_check_all : forallb size_check (seqZ 0 4096) = true.
Proof. vm_compute. reflexivity. Qed.

(** The header of the first or second region of an area of [2 * n] sectors. *)
Definition header_of (n : Z) (second active : bool) : region_header := {|
  magic := SYSPARAM_MAGIC;
  flags_size := Z.lor (Z.lor n (if second then REGION_FLAG_SECOND else 0)) (if active then REGION_FLAG_ACTIVE else 0);
  reserved := 0 |}.

Lemma header_of_facts n second active : 0 <= n <= REGION_MASK_SIZE ->
  let fl := flags_size (header_of n second active) in
  0 <= fl < 65536 /\ Z.land fl REGION_MASK_SIZE = n /\
  has_flag fl REGION_FLAG_SECOND = second /\ has_flag fl REGION_FLAG_ACTIVE = active.
Proof.
  unfold REGION_MASK_SIZE. intros Hn. pose proof (small_id_facts size_check 4096 n size_check_all ltac:(lia)) as Hc.
  unfold size_check in Hc. apply andb_true_iff in Hc as [_ Hc]. cbn [forallb] in Hc. rewrite !andb_true_r in Hc.
  cbn [flags_size header_of].
  destruct second, active; zbool;
    repeat match goal with H : Bool.eqb _ _ = true |- _ => apply eqb_prop in H end; cbn in *; tauto.
Qed.

Lemma region_header_for_ok (addr other : Z) (active : bool) (n : Z) (second : bool) : 1 <= n <= REGION_MASK_SIZE ->
  other = (if second then addr - n * 4096 else addr + n * 4096) ->
  region_header_for addr other active = header_of n second active.
Proof.
  unfold REGION_MASK_SIZE. intros Hn ->. pose proof (small_id_facts size_check 4096 n size_check_all ltac:(lia)) as Hc.
  unfold size_check in Hc. apply andb_true_iff in Hc as [Hc _]. apply Z.eqb_eq in Hc.
  unfold region_header_for, header_of. rewrite (geo_sector _ flash_geometry).
  destruct second; [rewrite (proj2 (Z.ltb_ge _ _)) by lia|rewrite (proj2 (Z.ltb_lt _ _)) by lia].
  - replace (addr - (addr - n * 4096)) with (n * 4096) by lia. rewrite Z.div_mul, Hc by lia.
    destruct active; [done|]. by rewrite Z.lor_0_r.
  - replace (addr + n * 4096 - addr) with (n * 4096) by lia. rewrite Z.div_mul, Hc, Z.lor_0_r by lia.
    destruct active; [done|]. by rewrite Z.lor_0_r.
Qed.

Lemma dec_enc_region n second active : 0 <= n <= REGION_MASK_SIZE ->
  dec_region_header (enc_region_header (header_of n second active)) = header_of n second active.
Proof.
  intros Hn. destruct (header_of_facts n second active Hn) as (Hr & _).
  unfold dec_region_header, enc_region_header, sub_bytes. set (h := header_of n second active) in *.
  change (le_bytes 4 (magic h)) with (le_bytes 4 SYSPARAM_MAGIC). change (le_bytes 2 (reserved h)) with [0; 0].
  replace (take (Z.to_nat 2) _) with (le_bytes 2 (flags_size h)) by done.
  rewrite le_val_2 by done. done.
Qed.

(** ** The scan does not look at the end address *)

Definition at_end w (a : Z) : world F := with_info w (set_end_addr a (w_info w)).

Definition map_end {A} (a : Z) (o : outcome (A * world F)) : outcome (A * world F) :=
  match o with
  | Done (x, w) => Done (x, at_end w a)
  | OutOfFuel => OutOfFuel
  | Undefined => Undefined
  end.

Lemma flash_op_end {A} (m : M F A) a w : flash_op m (at_end w a) = map_end a (flash_op m w).
Proof. unfold flash_op. cbn. by destruct (m (w_flash w)) as [[x f]| |]. Qed.

Lemma find_entry_loop_end fuel : forall ctx m fv a w,
  find_entry_loop fuel ctx m fv (at_end w a) = map_end a (find_entry_loop fuel ctx m fv w).
Proof.
  induction fuel as [|fuel IH]; intros ctx m fv a w; [done|]. cbn [find_entry_loop].
  rewrite !(bind_Done get_info _ _ _ _ eq_refl).
  change (cur_base (w_info (at_end w a))) with (cur_base (w_info w)).
  change (region_size (w_info (at_end w a))) with (region_size (w_info w)).
  case_if; [done|]. case_if; [done|]. unfold bind at 1 2. rewrite flash_op_end.
  destruct (flash_op _ w) as [[[bs|] w']| |]; try done. cbn [map_end].
  destruct (dec_entry_header bs) as [i l]. case_if; [done|]. destruct (visit_entry _ m fv) as [ctx' []]; [done|]. apply IH.
Qed.

(** ** Mounting *)

(** The scan for the end of the log from the start of the region. *)
Lemma find_end_start w es a : region_holds w es -> wf_log es ->
  exists ctx, _find_entry (zero_context (cur_base (w_info w))) ENTRY_ID_END false (at_end w a) =
      Done ((SYSPARAM_OK, ctx), at_end w a) /\ c_addr ctx = end_addr (w_info w).
Proof.
  intros H Hwf. pose proof (region_bounds _ _ H) as B.
  assert (Hno : Forall (fun x => matches ENTRY_ID_END false x = false) es).
  { apply Forall_forall. intros x Hx. unfold matches. destruct (live_key x) eqn:E; [|done]. cbn [andb].
    pose proof (key_id_range es x Hwf Hx E) as Hr. unfold MAX_KEY_ID in Hr.
    rewrite (proj2 (Z.eqb_neq _ _)); [done|]. unfold ENTRY_ID_END. lia. }
  pose proof (find_entry_none w es [] es (zero_context (cur_base (w_info w))) ENTRY_ID_END false H eq_refl
    (at_pos_start w) Hno) as Hf.
  unfold _find_entry in *. rewrite (bind_Done get_info _ _ _ _ eq_refl) in Hf. erewrite bind_Done by reflexivity.
  change (scan_fuel (w_info (at_end w a))) with (scan_fuel (w_info w)). rewrite find_entry_loop_end, Hf.
  eexists. split; [reflexivity|]. unfold end_ctx. case_if; [done|]. by destruct (dec_entry_header _).
Qed.

(** The two headers of a store, by position. *)
Lemma store_headers w es : store w es -> exists n : Z, exists second : bool,
  let base := if second then alt_base (w_info w) else cur_base (w_info w) in
  let other := if second then cur_base (w_info w) else alt_base (w_info w) in
  1 <= n <= REGION_MASK_SIZE /\ region_size (w_info w) = n * 4096 /\ other = base + n * 4096 /\
  base = Z.min (cur_base (w_info w)) (alt_base (w_info w)) /\
  cells (wcell w) base 8 = enc_region_header (header_of n false (negb second)) /\
  cells (wcell w) other 8 = enc_region_header (header_of n true second).
Proof.
  intros [H _ _ Hcur Halt]. destruct (rh_info _ _ H) as [? ? ? ? (n & Hn & Hr) Hadj ?]. exists n.
  exists (alt_base (w_info w) <? cur_base (w_info w)). unfold REGION_MASK_SIZE in *.
  destruct (alt_base (w_info w) <? cur_base (w_info w)) eqn:E; zbool; cbn zeta;
    (split; [lia|]; split; [done|]; split; [lia|]; split; [lia|]).
  - rewrite (region_header_for_ok (cur_base (w_info w)) (alt_base (w_info w)) true n true) in Hcur by (unfold REGION_MASK_SIZE; lia).
    rewrite (region_header_for_ok (alt_base (w_info w)) (cur_base (w_info w)) false n false) in Halt by (unfold REGION_MASK_SIZE; lia).
    done.
  - rewrite (region_header_for_ok (cur_base (w_info w)) (alt_base (w_info w)) true n false) in Hcur by (unfold REGION_MASK_SIZE; lia).
    rewrite (region_header_for_ok (alt_base (w_info w)) (cur_base (w_info w)) false n true) in Halt by (unfold REGION_MASK_SIZE; lia).
    done.
Qed.

Lemma init_finish_ok w es w0 (n : Z) (second : bool) :
  store w es -> w_flash w0 = w_flash w -> 1 <= n <= REGION_MASK_SIZE -> region_size (w_info w) = n * 4096 ->
  let base := if second then alt_base (w_info w) else cur_base (w_info w) in
  let other := if second then cur_base (w_info w) else alt_base (w_info w) in
  init_finish base other (header_of n false (negb second)) w0 =
    Done (SYSPARAM_OK, Build_world (w_flash w) (set_sem (sem (w_info w0)) (w_info w)) (w_alloc w0) (w_live w0)).
Proof.
  intros Hst Hfl Hn Hrs base other. pose proof Hst as [H Hwf Hclean _ _]. pose proof (region_bounds _ _ H) as B.
  destruct (header_of_facts n false (negb second) ltac:(lia)) as (_ & Hsz & _ & Hact). unfold init_finish.
  rewrite Hsz, Hact, (geo_sector _ flash_geometry). rewrite (u32_small (n * 4096)) by (unfold REGION_MASK_SIZE in *; lia).
  replace (if negb second then (base, other) else (other, base)) with (cur_base (w_info w), alt_base (w_info w))
    by (by destruct second).
  erewrite bind_Done by reflexivity. set (w1 := Build_world _ _ _ _).
  set (wt := Build_world (w_flash w) (set_sem (sem (w_info w0)) (w_info w)) (w_alloc w0) (w_live w0)).
  pose proof (st_region _ _ (store_relock w es (sem (w_info w0)) (w_alloc w0) (w_live w0) Hst)) as Ht.
  change (relock _ _ _ _) with wt in Ht.
  assert (E1 : w1 = at_end wt (cur_base (w_info w) + region_size (w_info w))).
  { unfold w1, wt, at_end, with_info, set_end_addr, set_force_compact, set_bases, set_region_size, set_sem.
    cbn. rewrite Hfl, Hclean, <-Hrs, u32_small by (unfold region_top in *; lia). done. }
  rewrite E1. erewrite bind_Done by reflexivity.
  destruct (find_end_start wt es (cur_base (w_info w) + region_size (w_info w)) Ht Hwf) as (ctx & Hf & Hc).
  change (cur_base (w_info (at_end wt _))) with (cur_base (w_info wt)).
  run Hf. cbn [is_err is_ok status_code Z.ltb Z.eqb Z.compare]. erewrite bind_Done by reflexivity. unfold ret. rewrite Hc. f_equal.
Qed.

Lemma init_ok w es w0 top :
  store w es -> w_flash w0 = w_flash w -> can_alloc w0 = true ->
  let base := Z.min (cur_base (w_info w)) (alt_base (w_info w)) in
  base < top ->
  sysparam_init base top w0 =
    Done (SYSPARAM_OK, Build_world (w_flash w) (set_sem (Some false) (w_info w)) (tail (w_alloc w0)) (w_live w0 + 1)).
Proof.
  intros Hst Hfl Hal base Htop. pose proof Hst as [H Hwf _ _ _]. pose proof (region_bounds _ _ H) as B.
  destruct (store_headers w es Hst) as (n & second & Hn & Hrs & Hother & Hbase & Hh0 & Hh1). fold base in Hbase.
  set (bs := if second then alt_base (w_info w) else cur_base (w_info w)) in *.
  set (ot := if second then cur_base (w_info w) else alt_base (w_info w)) in *.
  destruct (rh_info _ _ H) as [? ? Hm1 Hm2 _ ? ?]. unfold region_top, REGION_MASK_SIZE in *.
  assert (Hmod : base mod 4096 = 0) by (subst base; destruct (Z.min_spec (cur_base (w_info w)) (alt_base (w_info w))) as [[_ ->]|[_ ->]]; done).
  unfold sysparam_init. run (malloc_ok w0). rewrite Hal. erewrite bind_Done by reflexivity.
  rewrite (geo_sector _ flash_geometry), Hmod, Z.sub_0_r.
  rewrite (proj2 (Z.eqb_neq top 0)) by lia. rewrite (proj2 (Z.eqb_neq top base)) by lia. cbn [orb].
  set (w1 := Build_world _ _ _ _). assert (Hok : flash_ok (w_flash w1)) by (cbn; rewrite Hfl; apply (rh_flash _ _ H)).
  assert (Hcell : wcell w1 = wcell w) by (unfold wcell; cbn; by rewrite Hfl).
  destruct (Z.to_nat _) as [|fuel] eqn:Ef.
  { exfalso. pose proof (Z.div_pos (top - base) 4096 ltac:(lia) ltac:(lia)). lia. }
  cbn [init_scan]. rewrite (proj2 (Z.ltb_lt base top)) by lia. rewrite !bind_assoc. unfold REGION_HEADER_SIZE.
  run (read_ok w1 base 8 Hok ltac:(lia) ltac:(lia) ltac:(lia)). rewrite Hcell, <-Hbase, Hh0, dec_enc_region by (unfold REGION_MASK_SIZE; lia).
  cbn [magic header_of]. rewrite Z.eqb_refl. erewrite bind_Done by reflexivity.
  change {| magic := SYSPARAM_MAGIC; flags_size := _; reserved := 0 |} with (header_of n false (negb second)).
  destruct (header_of_facts n false (negb second) ltac:(unfold REGION_MASK_SIZE; lia)) as (_ & Hsz & Hs0 & _).
  destruct (header_of_facts n true second ltac:(unfold REGION_MASK_SIZE; lia)) as (_ & _ & Hs1 & _).
  rewrite Hs0, Hsz, u32_small, <-Hother by lia.
  run (read_ok w1 ot 8 Hok ltac:(lia) ltac:(lia) ltac:(lia)). rewrite Hcell, Hh1, dec_enc_region by (unfold REGION_MASK_SIZE; lia).
  unfold init_other. cbn [magic header_of]. rewrite Z.eqb_refl.
  unfold has_flag in Hs0, Hs1. apply negb_false_iff, Z.eqb_eq in Hs0. apply negb_true_iff, Z.eqb_neq in Hs1.
  change (flags_size (header_of n true second)) with (flags_size (header_of n true second)).
  rewrite Hs0, (proj2 (Z.eqb_neq 0 _)) by congruence. erewrite bind_Done by reflexivity. cbn [is_ok status_code Z.eqb negb].
  apply (init_finish_ok w es w1 n second Hst Hfl ltac:(unfold REGION_MASK_SIZE; lia) Hrs).
Qed.

(** ** The check for an empty area *)

Lemma le_val_ones bs : Forall byteP bs -> length bs = 4%nat ->
  (le_val bs =? 0xffffffff) = true <-> Forall (fun b => b = 255) bs.
Proof.
  intros Hb Hl. rewrite Z.eqb_eq. split.
  - intros Hv. pose proof (le_bytes_val bs Hb) as He. rewrite Hl, Hv in He. rewrite <-He. by repeat constructor.
  - intros Hf. destruct bs as [|? [|? [|? [|? [|]]]]]; try done. rewrite !Forall_cons in Hf.
    destruct Hf as (-> & -> & -> & -> & _). done.
Qed.

Definition blank_from (c : Z -> Z) (a b : Z) : Prop := forall x, a <= x < b -> c x = 255.

Lemma cells_blank c a n : 0 <= n -> Forall (fun b => b = 255) (cells c a n) <-> blank_from c a (a + n).
Proof.
  intros Hn. unfold blank_from. rewrite Forall_forall. split.
  - intros H x Hx. apply H. apply list_elem_of_lookup. exists (Z.to_nat (x - a)). rewrite lookup_cells by lia. do 2 f_equal. lia.
  - intros H b (i & Hi)%list_elem_of_lookup. assert (i < Z.to_nat n)%nat by (apply lookup_lt_Some in Hi; by rewrite length_cells in Hi).
    rewrite lookup_cells in Hi by done. injection Hi as <-. apply H. lia.
Qed.

Lemma wcell_bytes w a n : flash_ok (w_flash w) -> Forall byteP (cells (wcell w) a n).
Proof. intros Hok. apply cells_byte. intros x. by apply flash_cell_byte. Qed.

(** The test of one block of eight words. *)
Lemma block_test w a : flash_ok (w_flash w) ->
  forallb (fun i => le_val (sub_bytes (cells (wcell w) a 32) (4 * Z.of_nat i) 4) =? 0xffffffff)
    (seq 0 (Z.to_nat SCAN_BUFFER_SIZE)) = true <-> blank_from (wcell w) a (a + 32).
Proof.
  intros Hok. rewrite forallb_forall. unfold SCAN_BUFFER_SIZE.
  assert (Hone : forall i, (i < 8)%nat ->
    (le_val (sub_bytes (cells (wcell w) a 32) (4 * Z.of_nat i) 4) =? 0xffffffff) = true <->
    blank_from (wcell w) (a + 4 * Z.of_nat i) (a + 4 * Z.of_nat i + 4)).
  { intros i Hi. rewrite sub_bytes_cells by lia. rewrite le_val_ones; [|by apply wcell_bytes|by rewrite length_cells].
    by apply cells_blank. }
  split.
  - intros H x Hx. specialize (H (Z.to_nat ((x - a) / 4))). rewrite Hone in H by divlia.
    apply H; [apply in_seq; divlia|]. rewrite Z2Nat.id by divlia. divlia.
  - intros H i Hi%in_seq. apply Hone; [cbn in Hi; lia|]. intros x Hx. apply H. cbn in Hi. lia.
Qed.

Lemma area_scan_ok fuel w : forall a k,
  flash_ok (w_flash w) -> 0 <= a -> 0 <= k -> a + k * 32 <= chip_size sdk_flashchip -> k < Z.of_nat fuel ->
  exists st, area_scan fuel a (a + k * 32) w = Done (st, w) /\
    (st = SYSPARAM_OK /\ blank_from (wcell w) a (a + k * 32) \/
     st = SYSPARAM_NOTFOUND /\ ~ blank_from (wcell w) a (a + k * 32)).
Proof.
  pose proof chip_top_le as Ht. change (2 ^ 24) with 16777216 in Ht.
  induction fuel as [|fuel IH]; intros a k Hok Ha Hk Htop Hf; [lia|]. cbn [area_scan].
  change (SCAN_BUFFER_SIZE * 4) with 32. case_if; zbool.
  - run (read_ok w a 32 Hok ltac:(lia) ltac:(lia) ltac:(lia)).
    pose proof (block_test w a Hok) as Hb. destruct (forallb _ _).
    + rewrite u32_small by lia. destruct (IH (a + 32) (k - 1)) as (st & Hrun & Hst); [done|lia..|].
      replace (a + 32 + (k - 1) * 32) with (a + k * 32) in * by lia. exists st. split; [done|].
      assert (Hiff : blank_from (wcell w) a (a + k * 32) <-> blank_from (wcell w) (a + 32) (a + k * 32)).
      { split; intros H x Hx; [apply H; lia|]. destruct (decide (x < a + 32)); [apply (proj1 Hb eq_refl); lia|apply H; lia]. }
      tauto.
    + exists SYSPARAM_NOTFOUND. split; [done|]. right. split; [done|]. intros H.
      assert (blank_from (wcell w) a (a + 32)) as H'%Hb by (intros x Hx; apply H; lia). done.
  - exists SYSPARAM_OK. split; [done|]. left. split; [done|]. intros x Hx. lia.
Qed.

(** ** Creating an area *)

Definition area_info (base n : Z) : sysparam_info := {|
  cur_base := base; alt_base := base + n * 4096; end_addr := base + 8; region_size := n * 4096;
  force_compact := false; sem := Some false |}.

(** Room for the two regions and, above them, for one more (reads of the
    iterator run past the end of a payload). *)
Definition area_fits (base n : Z) : Prop :=
  0 < base /\ base mod 4096 = 0 /\ 1 <= n <= REGION_MASK_SIZE /\ base + 3 * (n * 4096) <= chip_size sdk_flashchip.

(** The flash after the two regions were erased and their headers written. *)
Lemma fresh_area f c base n :
  flash_ok f -> area_fits base n ->
  (forall x, flash_cell f x =
    put_bytes (put_bytes (erase_bytes (erase_bytes c base (n * 4096)) (base + n * 4096) (n * 4096))
      base (enc_region_header (header_of n false true)))
      (base + n * 4096) (enc_region_header (header_of n true false)) x) ->
  store (Build_world f (area_info base n) [] 0) [].
Proof.
  intros Hok (Hb & Hm & Hn & Htop) Hc. unfold REGION_MASK_SIZE in Hn.
  assert (Hlen : forall h, Z.of_nat (length (enc_region_header h)) = 8) by (intros; by rewrite length_enc_region).
  assert (Hblank : forall x, base + 8 <= x < base + n * 4096 -> flash_cell f x = 255).
  { intros x Hx. rewrite Hc, !put_bytes_out by (rewrite Hlen; lia). unfold erase_bytes.
    repeat case_if; zbool; try done; lia. }
  split; [|apply wf_nil|done|..].
  - split; cbn; try done.
    + split; cbn; try done; try lia; [|exists n; unfold REGION_MASK_SIZE; lia]. rewrite Z.add_mod, Z.mod_mul, Hm by lia. done.
    + lia.
    + unfold region_top. cbn. lia.
    + unfold region_top. cbn. lia.
  - cbn [w_info area_info cur_base alt_base]. rewrite (region_header_for_ok base _ true n false) by (unfold REGION_MASK_SIZE; lia).
    transitivity (cells (put_bytes c base (enc_region_header (header_of n false true))) base 8).
    + apply cells_ext. intros x Hx. unfold wcell. cbn [w_flash]. rewrite Hc, put_bytes_out by (rewrite ?Hlen; lia).
      rewrite !put_bytes_in by (rewrite Hlen; lia). done.
    + by apply cells_of_put with c.
  - cbn [w_info area_info cur_base alt_base]. rewrite (region_header_for_ok (base + n * 4096) base false n true) by (unfold REGION_MASK_SIZE; lia).
    by apply cells_of_put with (put_bytes (erase_bytes (erase_bytes c base (n * 4096)) (base + n * 4096) (n * 4096))
      base (enc_region_header (header_of n false true))).
Qed.

(** Erasing and writing the headers, whatever the flash held. *)
Lemma make_area w base n :
  flash_ok (w_flash w) -> area_fits base n ->
  exists f', (let! status := _format_region base n in
      if is_err status then ret status
      else
        let! status := _format_region (u32 (base + u32 (n * 4096))) n in
        if is_err status then ret status
        else
          let! status := _write_region_header base (u32 (base + u32 (n * 4096))) true in
          if is_err status then ret status
          else
            let! status := _write_region_header (u32 (base + u32 (n * 4096))) base false in
            if is_err status then ret status else ret SYSPARAM_OK) w = Done (SYSPARAM_OK, with_flash w f') /\
    store (Build_world f' (area_info base n) [] 0) [] /\
    (forall x, x < base \/ base + 2 * (n * 4096) <= x -> flash_cell f' x = wcell w x).
Proof.
  intros Hok Hfit. pose proof Hfit as (Hb & Hm & Hn & Htop). unfold REGION_MASK_SIZE in Hn.
  pose proof chip_top_le as Ht. change (2 ^ 24) with 16777216 in Ht. rewrite !(u32_small (n * 4096)) by lia.
  rewrite !(u32_small (base + n * 4096)) by lia.
  assert (Hlen : forall h, Z.of_nat (length (enc_region_header h)) = 8) by (intros; by rewrite length_enc_region).
  destruct (format_region_ok w base n) as (f1 & H1 & Hok1 & C1); [done|lia|done|lia|lia|].
  run H1. cbn [is_err status_code Z.ltb Z.compare].
  destruct (format_region_ok (with_flash w f1) (base + n * 4096) n) as (f2 & H2 & Hok2 & C2);
    [done|lia|by rewrite Z.mod_add|lia|lia|].
  run H2. cbn [is_err status_code Z.ltb Z.compare]. unfold wcell in C2. cbn [with_flash w_flash] in *.
  assert (Hbl : forall x, base <= x < base + 2 * (n * 4096) -> flash_cell f2 x = 255).
  { intros x Hx. rewrite C2. unfold erase_bytes at 1. case_if; [done|]. rewrite C1. unfold erase_bytes.
    case_if; [done|zbool; lia]. }
  destruct (write_region_header_ok (with_flash (with_flash w f1) f2) base (base + n * 4096) true) as (f3 & H3 & Hok3 & C3);
    [done|lia|lia| |].
  { apply writable_erased; [|apply enc_region_byte]. rewrite Hlen. intros x Hx. apply Hbl. lia. }
  run H3. cbn [is_err status_code Z.ltb Z.compare].
  destruct (write_region_header_ok (with_flash (with_flash (with_flash w f1) f2) f3) (base + n * 4096) base false)
    as (f4 & H4 & Hok4 & C4); [done|lia|lia| |].
  { apply writable_erased; [|apply enc_region_byte]. rewrite Hlen. intros x Hx. unfold wcell. cbn [with_flash w_flash].
    rewrite C3, put_bytes_out by (rewrite Hlen; lia). apply Hbl. lia. }
  run H4. cbn [is_err status_code Z.ltb Z.compare]. exists f4. split; [done|].
  cbn [with_flash w_flash] in C3, C4.
  rewrite (region_header_for_ok base _ true n false) in C3 by (unfold REGION_MASK_SIZE; lia).
  rewrite (region_header_for_ok (base + n * 4096) base false n true) in C4 by (unfold REGION_MASK_SIZE; lia).
  split.
  - apply fresh_area with (wcell w); [done|done|]. intros x. rewrite C4. apply put_bytes_ext. rewrite C3.
    apply put_bytes_ext. rewrite C2. unfold erase_bytes. case_if; [done|]. rewrite C1. done.
  - intros x Hx. rewrite C4, put_bytes_out by (rewrite Hlen; lia). rewrite C3, put_bytes_out by (rewrite Hlen; lia).
    rewrite C2. unfold erase_bytes. case_if; [zbool; lia|]. rewrite C1. unfold erase_bytes. case_if; [zbool; lia|done].
Qed.

(** Is the area one of the regions in use? *)
Definition in_use w (base : Z) : bool := (cur_base (w_info w) =? base) || (alt_base (w_info w) =? base).

Lemma even_sectors n : 1 <= n ->
  (2 * n <? 1) || negb (Z.land (2 * n) 1 =? 0) = false /\ Z.shiftr (2 * n) 1 = n.
Proof.
  intros Hn. rewrite (proj2 (Z.ltb_ge _ _)) by lia. change 1 with (2 ^ 1 - 1) at 1. rewrite land_mask by lia.
  replace (2 * n mod 2 ^ 1) with 0 by (rewrite Z.mul_comm, Z.mod_mul; lia). split; [done|].
  rewrite Z.shiftr_div_pow2 by lia. rewrite Z.mul_comm. by apply Z.div_mul.
Qed.

Lemma create_area_ok w base n force :
  flash_ok (w_flash w) -> area_fits base n ->
  force = true \/ blank_from (wcell w) base (base + 2 * (n * 4096)) ->
  exists f', sysparam_create_area base (2 * n) force w =
      Done (SYSPARAM_OK, Build_world f' (if in_use w base then zero_info else w_info w) (w_alloc w) (w_live w)) /\
    store (Build_world f' (area_info base n) [] 0) [] /\
    (forall x, x < base \/ base + 2 * (n * 4096) <= x -> flash_cell f' x = wcell w x).
Proof.
  intros Hok Hfit Hforce. pose proof Hfit as (Hb & Hm & Hn & Htop). unfold REGION_MASK_SIZE in Hn.
  pose proof chip_top_le as Ht. change (2 ^ 24) with 16777216 in Ht.
  unfold sysparam_create_area. destruct (even_sectors n ltac:(lia)) as [-> ->]. rewrite (geo_sector _ flash_geometry).
  assert (Hscan : (if force then ret SYSPARAM_OK
    else area_scan (Z.to_nat (2 * u32 (n * 4096) / (SCAN_BUFFER_SIZE * 4) + 2)) base (u32 (base + u32 (n * 4096) * 2))) w =
    Done (SYSPARAM_OK, w)).
  { destruct force; [done|]. destruct Hforce as [|Hblank]; [done|].
    rewrite !u32_small by (rewrite ?u32_small; lia). unfold SCAN_BUFFER_SIZE. change (8 * 4) with 32.
    replace (base + n * 4096 * 2) with (base + (n * 256) * 32) by lia.
    destruct (area_scan_ok (Z.to_nat (2 * (n * 4096) / 32 + 2)) w base (n * 256)) as (st & -> & Hst); [done|lia|lia|lia|divlia|].
    replace (base + n * 256 * 32) with (base + 2 * (n * 4096)) in Hst by lia. naive_solver. }
  run Hscan. cbn [is_ok status_code Z.eqb negb]. erewrite bind_Done by reflexivity. fold (in_use w base).
  set (w1 := Build_world _ _ _ _). destruct (make_area w1 base n Hok Hfit) as (f' & Hrun & Hst & Hout).
  exists f'. split; [exact Hrun|]. by split.
Qed.

(** Without [force] an area that is not empty is left alone. *)
Lemma create_area_refuses w base n :
  flash_ok (w_flash w) -> area_fits base n -> ~ blank_from (wcell w) base (base + 2 * (n * 4096)) ->
  sysparam_create_area base (2 * n) false w = Done (SYSPARAM_NOTFOUND, w).
Proof.
  intros Hok (Hb & Hm & Hn & Htop) Hne. unfold REGION_MASK_SIZE in Hn.
  pose proof chip_top_le as Ht. change (2 ^ 24) with 16777216 in Ht.
  unfold sysparam_create_area. destruct (even_sectors n ltac:(lia)) as [-> ->]. rewrite (geo_sector _ flash_geometry). rewrite !u32_small by (rewrite ?u32_small; lia).
  unfold SCAN_BUFFER_SIZE. change (8 * 4) with 32. replace (base + n * 4096 * 2) with (base + (n * 256) * 32) by lia.
  destruct (area_scan_ok (Z.to_nat (2 * (n * 4096) / 32 + 2)) w base (n * 256)) as (st & Hrun & Hst); [done|lia|lia|lia|divlia|].
  replace (base + n * 256 * 32) with (base + 2 * (n * 4096)) in Hst by lia. run Hrun.
  destruct Hst as [[_ ?]|[-> _]]; done.
Qed.

End Init.
