(* ===== verification/SysparamTotal.v ===== *)
(** * The mutex of the parameter store

    On any flash, a failing one included: the routines of
    [core/sysparam.c] that run under the mutex never touch it, so every
    public function that returns has given the mutex back. *)

From S2P Require Import Prelude CStrings Flash Sysparam SysparamLog SysparamProofs SysparamScan SysparamStore SysparamSpec.

Section Lock.
Context {F : Type} `{HF : !Flash F}.
Implicit Types (w : world F).

(** [m] leaves the mutex as it found it. *)
Definition sem_kept {A} (m : M (world F) A) : Prop :=
  forall w a w', m w = Done (a, w') -> sem (w_info w') = sem (w_info w).

Lemma kept_ret {A} (a : A) : sem_kept (ret a).
Proof. by intros w x w' [= <- <-]. Qed.

Lemma kept_bind {A B} (m : M (world F) A) (k : A -> M (world F) B) :
  sem_kept m -> (forall a, sem_kept (k a)) -> sem_kept (bind m k).
Proof.
  intros Hm Hk w b w'' (a & w' & H1 & H2)%bind_inv. rewrite (Hk a w' b w'' H2). by apply (Hm w a).
Qed.

Lemma kept_flash {A} (m : M F A) : sem_kept (flash_op m).
Proof. intros w a w'. unfold flash_op. destruct (m (w_flash w)) as [[x f]| |]; [|done..]. by intros [= <- <-]. Qed.

Lemma kept_get : sem_kept get_info.
Proof. by intros w a w' [= <- <-]. Qed.

Lemma kept_mod f : (forall i, sem (f i) = sem i) -> sem_kept (mod_info f).
Proof. intros Hf w a w' [= <- <-]. apply Hf. Qed.

Lemma kept_malloc : sem_kept malloc.
Proof. intros w a w'. unfold malloc. destruct (w_alloc w) as [|[] l]; by intros [= <- <-]. Qed.

Lemma kept_realloc : sem_kept realloc.
Proof. intros w a w'. unfold realloc. destruct (w_alloc w) as [|[] l]; by intros [= <- <-]. Qed.

Lemma kept_free : sem_kept free.
Proof. by intros w a w' [= <- <-]. Qed.

Lemma kept_undefined {A} : sem_kept (undefined : M (world F) A).
Proof. done. Qed.

Lemma kept_fuel {A} : sem_kept (out_of_fuel : M (world F) A).
Proof. done. Qed.

Create HintDb kept discriminated.
Hint Resolve kept_ret kept_flash kept_get kept_malloc kept_realloc kept_free kept_undefined kept_fuel : kept.

(** Walk through the body of a routine. *)
Ltac kept :=
  repeat match goal with
  | |- sem_kept (bind _ _) => apply kept_bind; [|intros ?]
  | |- sem_kept (mod_info _) => apply kept_mod; intros ?; repeat case_match; reflexivity
  | |- sem_kept (match ?x with _ => _ end) => destruct x
  | |- sem_kept (let '(_, _) := ?x in _) => destruct x
  | |- sem_kept _ => solve [auto with kept]
  | |- sem_kept _ => progress cbn beta zeta
  end.

Lemma kept_write_and_verify addr data : sem_kept (_write_and_verify addr data).
Proof.
  unfold _write_and_verify. generalize 0 as i. generalize (S (length data)) as fuel.
  induction fuel as [|fuel IH]; intros i; cbn [write_and_verify_loop]; kept.
Qed.
Hint Resolve kept_write_and_verify : kept.

Lemma kept_format addr n : sem_kept (_format_region addr n).
Proof.
  unfold _format_region. generalize 0 as i. induction (Z.to_nat n) as [|k IH]; intros i; cbn [format_loop]; kept.
Qed.
Hint Resolve kept_format : kept.

Lemma kept_write_header addr other act : sem_kept (_write_region_header addr other act).
Proof. unfold _write_region_header. kept. Qed.

Lemma kept_find_entry ctx m fv : sem_kept (_find_entry ctx m fv).
Proof.
  unfold _find_entry. apply kept_bind; [apply kept_get|]. intros i. generalize (scan_fuel i) as fuel. intros fuel.
  revert ctx. induction fuel as [|fuel IH]; intros ctx; cbn [find_entry_loop]; kept.
Qed.
Hint Resolve kept_write_header kept_find_entry : kept.

Lemma kept_compare ctx v n : sem_kept (_compare_payload ctx v n).
Proof.
  unfold _compare_payload. case_if; [auto with kept|]. generalize 0 as i. induction (S (Z.to_nat n)) as [|k IH];
    intros i; cbn [compare_loop]; kept.
Qed.
Hint Resolve kept_compare : kept.

Lemma kept_find_key ctx key n : sem_kept (_find_key ctx key n).
Proof.
  unfold _find_key. apply kept_bind; [apply kept_get|]. intros i. generalize (scan_fuel i) as fuel. intros fuel.
  revert ctx. induction fuel as [|fuel IH]; intros ctx; cbn [find_key_loop]; kept.
Qed.

Lemma kept_find_value ctx i : sem_kept (_find_value ctx i).
Proof. apply kept_find_entry. Qed.

Lemma kept_read_payload ctx n : sem_kept (_read_payload ctx n).
Proof. unfold _read_payload. kept. Qed.

Lemma kept_bump a n : sem_kept (bump_end_addr a n).
Proof. unfold bump_end_addr. kept. Qed.
Hint Resolve kept_find_key kept_find_value kept_read_payload kept_bump : kept.

Lemma kept_write_entry addr id p n : sem_kept (_write_entry addr id p n).
Proof. unfold _write_entry. kept. Qed.

Lemma kept_delete addr : sem_kept (_delete_entry addr).
Proof. unfold _delete_entry. kept. Qed.
Hint Resolve kept_write_entry kept_delete : kept.

Lemma kept_iter_fetch it c : sem_kept (iter_fetch it c).
Proof. unfold iter_fetch, grow_buffer. kept. Qed.
Hint Resolve kept_iter_fetch : kept.

Lemma kept_iter_next it : sem_kept (sysparam_iter_next it).
Proof.
  unfold sysparam_iter_next. apply kept_bind; [apply kept_get|]. intros i. generalize (scan_fuel i) as fuel. intros fuel.
  revert it. induction fuel as [|fuel IH]; intros it; cbn [iter_next_loop]; kept.
Qed.

Lemma kept_iter_start : sem_kept sysparam_iter_start.
Proof. unfold sysparam_iter_start, _init_context. kept. Qed.

Lemma kept_iter_end : sem_kept sysparam_iter_end.
Proof. unfold sysparam_iter_end. kept. Qed.
Hint Resolve kept_iter_next kept_iter_start kept_iter_end : kept.

Lemma kept_compact_loop fuel : forall it addr cur kid, sem_kept (compact_loop fuel it addr cur kid).
Proof. induction fuel as [|fuel IH]; intros it addr cur kid; cbn [compact_loop]; kept. Qed.

Lemma kept_switch base addr : sem_kept (compact_switch base addr).
Proof. unfold compact_switch. kept. Qed.
Hint Resolve kept_compact_loop kept_switch : kept.

Lemma kept_compact_params ctx kid : sem_kept (_compact_params ctx kid).
Proof. unfold _compact_params. kept. Qed.

Lemma kept_lookup key n : sem_kept (lookup_value key n).
Proof. unfold lookup_value, _init_context. kept. Qed.
Hint Resolve kept_compact_params kept_lookup : kept.

Lemma kept_set_compact l : sem_kept (set_compact l).
Proof. unfold set_compact. kept. Qed.
Hint Resolve kept_set_compact : kept.

Lemma kept_set_data_locked key n v vn b : sem_kept (set_data_locked key n v vn b).
Proof.
  unfold set_data_locked, set_find, set_same, set_write, set_room, set_ids, set_forced, set_append, set_delete_old,
    init_write_context, _init_context. kept.
Qed.
Hint Resolve kept_set_data_locked : kept.

(** The bodies of the readers and of the compaction call. *)
Lemma kept_get_body key n i : sem_kept (
  if cur_base i =? 0 then ret (SYSPARAM_ERR_NOINIT, None)
  else
    let! (status, ctx) := lookup_value key n in
    if negb (is_ok status) then ret (status, None)
    else
      let! ok := malloc in
      if negb ok then ret (SYSPARAM_ERR_NOMEM, None)
      else
        let! (status, buffer) := _read_payload ctx (c_len ctx) in
        if negb (is_ok status) then
          do! free then
          ret (status, None)
        else
          match buf_set (buffer ++ [0]) (c_len ctx) 0 with
          | None => undefined
          | Some buffer =>
            ret (SYSPARAM_OK, Some {| r_data := buffer; r_len := c_len ctx; r_binary := is_binary ctx |})
          end).
Proof. kept. Qed.

Lemma kept_get_static_body key n size i : sem_kept (
  if cur_base i =? 0 then ret (SYSPARAM_ERR_NOINIT, None)
  else
    let! (status, ctx) := lookup_value key n in
    if negb (is_ok status) then ret (status, None)
    else
      let! (status, dest) := _read_payload ctx size in
      if negb (is_ok status) then ret (status, None)
      else ret (SYSPARAM_OK, Some {| r_data := dest; r_len := c_len ctx; r_binary := is_binary ctx |})).
Proof. kept. Qed.

Lemma kept_compact_body i : sem_kept (
  if cur_base i =? 0 then ret SYSPARAM_ERR_NOINIT
  else let! (status, _) := _compact_params None None in ret status).
Proof. kept. Qed.

(** Take, do something that leaves the mutex alone, give: nothing changed. *)
Lemma take_give {A} (m : M (world F) A) w a w' :
  sem_kept m -> (do! xSemaphoreTake then let! x := m in do! xSemaphoreGive then ret x) w = Done (a, w') ->
  sem (w_info w) = Some false /\ sem (w_info w') = Some false.
Proof.
  intros Hm H. apply bind_inv in H as ([] & w1 & H1 & H). apply bind_inv in H as (x & w2 & H2 & H).
  apply bind_inv in H as ([] & w3 & H3 & H). unfold ret in H. injection H as <- <-.
  unfold xSemaphoreTake in H1. destruct (sem (w_info w)) as [[]|]; try done. split; [done|].
  unfold xSemaphoreGive in H3. destruct (sem (w_info w2)); [|done]. by injection H3 as <-.
Qed.

End Lock.

(** * Scans end on any flash contents

    Whatever bytes the flash holds, the scans of [core/sysparam.c] stop:
    every step moves on by at least an entry header and none goes past the
    top of the region.  The loop bounds of the model are therefore never
    reached. *)

Section Total.
Context {F : Type} `{HF : !Flash F} `{HL : !FlashLaws F}.
Implicit Types (w : world F) (f : F).

(** A working device and a region inside it, with arbitrary contents. *)
Record mounted w : Prop := {
  mo_flash : flash_ok (w_flash w);
  mo_base : 0 < cur_base (w_info w);
  mo_size : 4096 <= region_size (w_info w);
  mo_chip : region_top (w_info w) <= chip_size sdk_flashchip;
}.

(** A payload of the longest length may reach past the end of the chip. *)
Definition near_end w : Prop := chip_size sdk_flashchip < region_top (w_info w) + 65540.

(** What the scans can return: a read fails only near the end of the chip. *)
Definition scan_status w (st : sysparam_status_t) : Prop :=
  st = SYSPARAM_OK \/ st = SYSPARAM_NOTFOUND \/ st = SYSPARAM_ERR_IO /\ near_end w.

(** Only [force_compact] may differ. *)
Definition same_but_force w w' : Prop :=
  w_flash w' = w_flash w /\ w_alloc w' = w_alloc w /\ w_live w' = w_live w /\
  exists b, w_info w' = set_force_compact b (w_info w).

Lemma same_refl w : same_but_force w w.
Proof. repeat split. exists (force_compact (w_info w)). by destruct (w_info w). Qed.

Lemma same_trans w1 w2 w3 : same_but_force w1 w2 -> same_but_force w2 w3 -> same_but_force w1 w3.
Proof.
  intros (F1 & A1 & L1 & b1 & I1) (F2 & A2 & L2 & b2 & I2). repeat split; [congruence..|]. exists b2. by rewrite I2, I1.
Qed.

Lemma same_mounted w w' : same_but_force w w' -> mounted w -> mounted w'.
Proof.
  intros (Hf & _ & _ & b & Hi) []. split; by rewrite ?Hf, ?Hi.
Qed.

Lemma same_bases w w' : same_but_force w w' ->
  cur_base (w_info w') = cur_base (w_info w) /\ region_size (w_info w') = region_size (w_info w).
Proof. intros (_ & _ & _ & b & ->). done. Qed.

(** The context lies in the region, at its start or at an entry. *)
Definition in_region w (ctx : sysparam_context) : Prop :=
  cur_base (w_info w) <= c_addr ctx <= region_top (w_info w) /\ 0 <= c_len ctx <= 65535.

Lemma mounted_bounds w : mounted w ->
  4096 <= region_size (w_info w) /\ region_top (w_info w) = cur_base (w_info w) + region_size (w_info w) /\
  0 < cur_base (w_info w) /\ region_top (w_info w) <= chip_size sdk_flashchip /\
  chip_size sdk_flashchip <= 16777216.
Proof.
  intros []. pose proof chip_top_le as Ht. change (2 ^ 24) with 16777216 in Ht.
  unfold region_top in *. lia.
Qed.

(** A read that starts in the region returns the bytes, or fails near the end
    of the chip. *)
Lemma read_total w a n : mounted w ->
  0 <= a -> 0 <= n -> a + n <= region_top (w_info w) + 65540 ->
  near_end w /\ flash_op (spiflash_read a n) w = Done (None, w) \/
  flash_op (spiflash_read a n) w = Done (Some (cells (wcell w) a n), w).
Proof.
  intros Hm H1 H2 H3. pose proof (mounted_bounds w Hm) as B.
  destruct (decide (a + n <= chip_size sdk_flashchip)); [right; apply read_ok; first [apply Hm|lia]|].
  pose proof (flash_read_past (w_flash w) a n (mo_flash _ Hm) ltac:(lia) ltac:(lia) ltac:(lia)) as E.
  apply flash_op_Done in E. replace (with_flash w (w_flash w)) with w in E by (by destruct w).
  destruct (n =? 0) eqn:E0; zbool; [right|left; split; [unfold near_end; lia|done]]. subst. by rewrite E, cells_nil by lia.
Qed.

Lemma le_val_pair a b : byteP a -> byteP b -> 0 <= le_val [a; b] <= 65535.
Proof. unfold byteP. cbn. lia. Qed.

Lemma dec_header_range w a : flash_ok (w_flash w) ->
  let '(i, l) := dec_entry_header (cells (wcell w) a 4) in 0 <= i <= 65535 /\ 0 <= l <= 65535.
Proof.
  intros Hok. rewrite !cells_cons by lia. rewrite (cells_nil _ _ (4 - 1 - 1 - 1 - 1)) by lia.
  assert (H : forall x, byteP (wcell w x)) by (intros; by apply flash_cell_byte).
  split; apply le_val_pair; apply H.
Qed.

Lemma visit_entry_addr ctx m fv :
  c_addr (fst (visit_entry ctx m fv)) = c_addr ctx /\ c_len (fst (visit_entry ctx m fv)) = c_len ctx.
Proof. unfold visit_entry. by repeat case_if. Qed.

(** The outcome of a scan: it stops; if an entry was found it lies at least
    four bytes further. *)
Definition scan_outcome w (m : Z) (ctx : sysparam_context) (o : outcome ((sysparam_status_t * sysparam_context) * world F)) : Prop :=
  exists st ctx' w', o = Done ((st, ctx'), w') /\ same_but_force w w' /\ in_region w ctx' /\
    scan_status w st /\ c_addr ctx <= c_addr ctx' /\
    (st = SYSPARAM_OK -> m <> ENTRY_ID_END -> c_addr ctx + 4 <= c_addr ctx').

Lemma find_entry_break_cases ctx m :
  let '(st, ctx') := find_entry_break ctx m in
  (st = SYSPARAM_OK /\ m = ENTRY_ID_END \/ st = SYSPARAM_NOTFOUND) /\ c_addr ctx' = c_addr ctx /\
  (c_len ctx' = c_len ctx \/ c_len ctx' = 0).
Proof. unfold find_entry_break. case_if; zbool; cbn; auto. Qed.

Lemma break_outcome w w' ctx0 ctx m :
  same_but_force w w' -> in_region w ctx -> c_addr ctx0 <= c_addr ctx ->
  scan_outcome w m ctx0 (ret (find_entry_break ctx m) w').
Proof.
  intros Hs [H1 H2] Hle. pose proof (find_entry_break_cases ctx m) as Hb. destruct (find_entry_break ctx m) as [st ctx'].
  destruct Hb as (Hst & Ha & Hl). exists st, ctx', w'. split; [done|]. split; [done|]. unfold in_region. rewrite Ha.
  split; [lia|]. split; [unfold scan_status; tauto|]. split; [lia|]. intros -> Hne. by destruct Hst as [[_ ?]|?].
Qed.

(** What the loop needs of its continuation. *)
Definition scans w (fuel : nat) : Prop := forall ctx m fv,
  in_region w ctx ->
  region_top (w_info w) - c_addr ctx + (if c_addr ctx =? cur_base (w_info w) then 4 else 0) < 4 * Z.of_nat fuel ->
  scan_outcome w m ctx (find_entry_loop fuel ctx m fv w).

(** One iteration from the point where the address of the next entry is known. *)
Lemma scan_read w fuel ctx ctx1 m fv :
  mounted w -> scans w fuel -> 0 <= c_len ctx1 <= 65535 ->
  cur_base (w_info w) < c_addr ctx1 < region_top (w_info w) -> c_addr ctx + 4 <= c_addr ctx1 ->
  region_top (w_info w) - c_addr ctx1 < 4 * Z.of_nat fuel ->
  scan_outcome w m ctx
    ((let! r := flash_op (spiflash_read (c_addr ctx1) ENTRY_HEADER_SIZE) in
      match r with
      | None => ret (SYSPARAM_ERR_IO, ctx1)
      | Some bs =>
        let '(idflags, len) := dec_entry_header bs in
        let ctx := set_entry idflags len ctx1 in
        if idflags =? 0xffff then ret (find_entry_break ctx m)
        else
          let '(ctx, found) := visit_entry ctx m fv in
          if found then ret (SYSPARAM_OK, ctx) else find_entry_loop fuel ctx m fv
      end) w).
Proof.
  intros Hm IH Hl Ha Hle Hf. pose proof (mounted_bounds w Hm) as B. unfold ENTRY_HEADER_SIZE.
  destruct (read_total w (c_addr ctx1) 4 Hm) as [[Hnear Hrd]|Hrd]; [lia..| |]; run Hrd.
  { exists SYSPARAM_ERR_IO, ctx1, w. split; [done|]. split; [apply same_refl|]. split; [split; lia|].
    split; [by right; right|]. split; [lia|done]. }
  pose proof (dec_header_range w (c_addr ctx1) (mo_flash _ Hm)) as Hd. destruct (dec_entry_header _) as [i l].
  cbn zeta. case_if.
  { apply break_outcome; [apply same_refl|split; cbn; lia|cbn; lia]. }
  pose proof (visit_entry_addr (set_entry i l ctx1) m fv) as [Va Vl].
  destruct (visit_entry (set_entry i l ctx1) m fv) as [ctx2 found]. cbn [fst set_entry c_addr c_len] in Va, Vl.
  destruct found.
  - exists SYSPARAM_OK, ctx2, w. split; [done|]. split; [apply same_refl|]. unfold in_region. rewrite Va, Vl.
    split; [lia|]. split; [by left|]. lia.
  - destruct (IH ctx2 m fv) as (st & c' & w' & Hrun & Hs & Hin & Hst & Hle2 & _).
    { unfold in_region. rewrite Va, Vl. lia. }
    { rewrite Va. rewrite (proj2 (Z.eqb_neq _ _)) by lia. lia. }
    exists st, c', w'. rewrite Va in Hle2. repeat split; try done; try lia; apply Hin || apply Hs.
Qed.

Lemma find_entry_loop_total fuel w : mounted w -> scans w fuel.
Proof.
  intros Hm. pose proof (mounted_bounds w Hm) as B. induction fuel as [|fuel IH]; intros ctx m fv [Hin Hl] Hf.
  { exfalso. case_if; lia. }
  cbn [find_entry_loop]. erewrite bind_Done by reflexivity. fold (region_top (w_info w)).
  assert (Hnx : u32 (c_addr ctx + ENTRY_SIZE (c_len ctx)) = c_addr ctx + (4 + c_len ctx))
    by (apply u32_small; unfold ENTRY_SIZE, ENTRY_HEADER_SIZE; lia).
  assert (Hn8 : u32 (c_addr ctx + REGION_HEADER_SIZE) = c_addr ctx + 8) by (apply u32_small; unfold REGION_HEADER_SIZE; lia).
  rewrite Hnx, Hn8, (u32_small (region_top (w_info w))) by lia. clear Hnx Hn8.
  destruct (c_addr ctx =? cur_base (w_info w)) eqn:Estart; zbool; cbn [negb andb].
  - apply (scan_read w fuel ctx (set_addr (c_addr ctx + 8) ctx)); [done|done|done|cbn; lia..].
  - destruct (region_top (w_info w) <? c_addr ctx + (4 + c_len ctx)) eqn:Etop; zbool.
    { apply break_outcome; [|done|lia]. repeat split. by exists true. }
    cbn [set_addr c_addr]. destruct (c_addr ctx + (4 + c_len ctx) =? region_top (w_info w)) eqn:Eend; zbool.
    { apply break_outcome; [apply same_refl|split; cbn; lia|cbn; lia]. }
    apply (scan_read w fuel ctx (set_addr (c_addr ctx + (4 + c_len ctx)) ctx)); [done|done|done|cbn; lia..].
Qed.

Lemma find_entry_total w ctx m fv : mounted w -> in_region w ctx -> scan_outcome w m ctx (_find_entry ctx m fv w).
Proof.
  intros Hm Hin. unfold _find_entry. erewrite bind_Done by reflexivity.
  apply find_entry_loop_total; [done|done|]. pose proof (mounted_bounds w Hm). destruct Hin. unfold scan_fuel.
  rewrite Z2Nat.id by divlia. case_if; divlia.
Qed.

(** The search for a key and its value. *)
Lemma near_end_same w w' : same_but_force w w' -> near_end w' -> near_end w.
Proof. intros Hs. destruct (same_bases w w' Hs) as [H1 H2]. unfold near_end, region_top. by rewrite H1, H2. Qed.

Lemma scan_status_same w w' st : same_but_force w w' -> scan_status w' st -> scan_status w st.
Proof. intros Hs [->|[->|[-> Hn]]]; [by left|by right; left|right; right]. split; [done|by eapply near_end_same]. Qed.

Lemma compare_loop_total w addr value n : mounted w ->
  0 <= addr <= region_top (w_info w) + 4 -> n <= 65535 -> forall fuel i,
  0 <= i -> n - i <= Z.of_nat fuel -> exists st, compare_loop (S fuel) addr value n i w = Done (st, w) /\ scan_status w st.
Proof.
  intros Hm Ha Hn. pose proof (mounted_bounds w Hm) as B. unfold near_end, region_top in *.
  induction fuel as [|fuel IH]; intros i Hi Hf; [|remember (S fuel) as fuel']; cbn [compare_loop];
    (case_if; zbool; [|by exists SYSPARAM_OK; split; [|left]]); [lia|].
  unfold BOUNCE_BUFFER_SIZE, BOUNCE_BUFFER_WORDS in *. change (3 * 4) with 12 in *. rewrite u32_small by lia.
  destruct (read_total w (addr + i) (Z.min (n - i) 12) Hm) as [[Hnear Hrd]|Hrd]; [unfold region_top; lia..| |].
  - exists SYSPARAM_ERR_IO. run Hrd. split; [done|by right; right].
  - set (bs := cells _ _ _) in Hrd. destruct (negb (bytes_eqb (sub_bytes value i (Z.min (n - i) 12)) bs)) eqn:E.
    + exists SYSPARAM_NOTFOUND. run Hrd. rewrite E. split; [done|by right; left].
    + destruct (IH (i + 12)) as (st & Er & Hst); [lia..|]. exists st. run Hrd. by rewrite E.
Qed.

Lemma compare_payload_total w ctx key : mounted w -> in_region w ctx -> Z.of_nat (length key) <= 65535 ->
  exists st, _compare_payload ctx key (Z.of_nat (length key)) w = Done (st, w) /\
    scan_status w st.
Proof.
  intros Hm [Hin Hl] Hk. pose proof (mounted_bounds w Hm) as B. unfold _compare_payload, ENTRY_HEADER_SIZE.
  case_if; [by exists SYSPARAM_NOTFOUND; split; [|right; left]|]. zbool. rewrite u32_small by lia.
  apply compare_loop_total; [done|lia|lia|lia|lia].
Qed.

Definition key_outcome w (o : outcome ((sysparam_status_t * sysparam_context) * world F)) : Prop :=
  exists st ctx' w', o = Done ((st, ctx'), w') /\ same_but_force w w' /\ in_region w ctx' /\ scan_status w st.

Lemma in_region_same w w' ctx : same_but_force w w' -> in_region w' ctx -> in_region w ctx.
Proof. intros Hs. unfold in_region, region_top. destruct (same_bases w w' Hs) as [-> ->]. done. Qed.

Lemma same_sym w w' : same_but_force w w' -> same_but_force w' w.
Proof.
  intros (Hf & Ha & Hl & b & Hi). repeat split; [congruence..|]. exists (force_compact (w_info w)). rewrite Hi.
  by destruct (w_info w).
Qed.

Lemma find_key_loop_total key : Z.of_nat (length key) <= 65535 -> forall fuel w ctx,
  mounted w -> in_region w ctx -> region_top (w_info w) - c_addr ctx < 4 * Z.of_nat fuel ->
  key_outcome w (find_key_loop fuel ctx (Some key) (Z.of_nat (length key)) w).
Proof.
  intros Hk. induction fuel as [|fuel IH]; intros w ctx Hm Hin Hf; [destruct Hin; lia|]. cbn [find_key_loop].
  destruct (find_entry_total w ctx ENTRY_ID_ANY false Hm Hin) as (st & ctx1 & w1 & Hrun & Hs & Hin1 & Hst & Hle & Hstep).
  run Hrun. destruct Hst as [->|Hst]; cycle 1.
  { exists st, ctx1, w1. split; [by destruct Hst as [->|[-> _]]|]. do 2 (split; [done|]). by right. }
  cbn [is_ok status_code Z.eqb negb]. specialize (Hstep eq_refl ltac:(done)).
  pose proof (same_mounted _ _ Hs Hm) as Hm1. pose proof (in_region_same w1 w ctx1 (same_sym _ _ Hs) Hin1) as Hin1'.
  assert (Hrec : key_outcome w (find_key_loop fuel ctx1 (Some key) (Z.of_nat (length key)) w1)).
  { destruct (IH w1 ctx1 Hm1 Hin1') as (st & c' & w' & -> & Hs' & Hin' & Hst').
    - destruct (same_bases _ _ Hs) as [Hc Hr]. unfold region_top in *. rewrite Hc, Hr. lia.
    - exists st, c', w'. split; [done|]. split; [by eapply same_trans|]. split; [by eapply in_region_same|by eapply scan_status_same]. }
  case_if; [|done].
  destruct (compare_payload_total w1 ctx1 key Hm1 Hin1' Hk) as (st & Hcmp & Hst). run Hcmp.
  destruct Hst as [->|[->|[-> Hn]]]; [|done|].
  - exists SYSPARAM_OK, ctx1, w1. do 3 (split; [done|]). by left.
  - exists SYSPARAM_ERR_IO, ctx1, w1. do 3 (split; [done|]). eapply scan_status_same; [exact Hs|]. by right; right.
Qed.

Lemma lookup_total w key : mounted w -> Z.of_nat (length key) <= 65535 ->
  key_outcome w (lookup_value key (Z.of_nat (length key)) w).
Proof.
  intros Hm Hk. pose proof (mounted_bounds w Hm) as B. unfold lookup_value. run (init_context_ok w). unfold _find_key.
  rewrite (bind_assoc get_info). erewrite bind_Done by reflexivity.
  destruct (find_key_loop_total key Hk (scan_fuel (w_info w)) w (zero_context (cur_base (w_info w))) Hm)
    as (st & ctx & w1 & Hrun & Hs & Hin & Hst); [split; cbn; lia|unfold scan_fuel; cbn [zero_context c_addr]; divlia|].
  run Hrun. destruct Hst as [->|Hst]; cycle 1.
  { exists st, ctx, w1. split; [by destruct Hst as [->|[-> _]]|]. do 2 (split; [done|]). by right. }
  cbn [is_ok status_code Z.eqb negb].
  unfold _find_value. pose proof (same_mounted _ _ Hs Hm) as Hm1.
  destruct (find_entry_total w1 ctx (Z.land (c_idflags ctx) ENTRY_MASK_ID) true Hm1
    (in_region_same w1 w ctx (same_sym _ _ Hs) Hin)) as (st & c' & w' & -> & Hs' & Hin' & Hst & _).
  exists st, c', w'. split; [done|]. split; [by eapply same_trans|]. split; [by eapply in_region_same|by eapply scan_status_same].
Qed.

Lemma mounted_relock w s al lv : mounted w -> mounted (relock w s al lv).
Proof. intros []. by split. Qed.

Lemma mounted_heap w al lv : mounted w -> mounted (heap_world w al lv).
Proof. intros []. by split. Qed.

Lemma get_data_total w key : mounted w -> unlocked w -> Z.of_nat (length key) <= 65535 ->
  exists st r w', sysparam_get_data key w = Done ((st, r), w') /\ w_flash w' = w_flash w /\ unlocked w' /\
    (scan_status w st \/ st = SYSPARAM_ERR_NOMEM) /\ (r = None <-> st <> SYSPARAM_OK).
Proof.
  intros Hm Hun Hk. pose proof (mounted_bounds w Hm) as B. unfold sysparam_get_data. run (take_mutex w Hun).
  set (wl := relock _ _ _ _). pose proof (mounted_relock w (Some true) (w_alloc w) (w_live w) Hm) as Hml. fold wl in Hml.
  erewrite bind_Done by reflexivity.
  rewrite (proj2 (Z.eqb_neq (cur_base (w_info wl)) 0)) by (change (cur_base (w_info wl)) with (cur_base (w_info w)); lia).
  unfold strlen. rewrite u16_small by lia. rewrite bind_assoc.
  destruct (lookup_total wl key Hml Hk) as (st & ctx & w1 & Hrun & Hs & Hin & Hst). run Hrun.
  pose proof Hs as (Hf1 & _ & _ & b & Hi1).
  assert (Hsem : sem (w_info w1) = Some true) by (rewrite Hi1; done).
  assert (Hgive : forall (w2 : world F) st (r : option read_result), w_flash w2 = w_flash w1 -> sem (w_info w2) = Some true ->
    scan_status w st \/ st = SYSPARAM_ERR_NOMEM -> (r = None <-> st <> SYSPARAM_OK) ->
    exists st' r' w', (do! xSemaphoreGive then ret (st, r)) w2 = Done ((st', r'), w') /\ w_flash w' = w_flash w /\ unlocked w' /\
      (scan_status w st' \/ st' = SYSPARAM_ERR_NOMEM) /\ (r' = None <-> st' <> SYSPARAM_OK)).
  { intros w2 st' r E1 E2 E3 E4. erewrite bind_Done by (eapply give_mutex; exact E2). exists st', r. eexists. split; [reflexivity|].
    split; [exact (eq_trans E1 Hf1)|]. by split. }
  assert (Hst' : scan_status w st) by exact Hst.
  destruct Hst as [->|Hne]; cbn [is_ok status_code Z.eqb negb].
  - rewrite bind_assoc. run (malloc_ok w1). destruct (can_alloc w1); cbn [negb].
    2: { erewrite bind_Done by reflexivity. apply Hgive; [done|exact Hsem|by right|by split]. }
    set (w2 := heap_world _ _ _). rewrite bind_assoc. unfold _read_payload, ENTRY_HEADER_SIZE. rewrite bind_assoc.
    destruct Hin as [Hin Hlen]. change (region_top (w_info wl)) with (region_top (w_info w)) in Hin.
    change (cur_base (w_info wl)) with (cur_base (w_info w)) in Hin. rewrite u32_small by lia.
    assert (Hm2 : mounted w2) by (by apply mounted_heap, (same_mounted wl w1)).
    assert (Ht : region_top (w_info w2) = region_top (w_info w)).
    { unfold w2, region_top. cbn. by rewrite Hi1. }
    destruct (read_total w2 (c_addr ctx + 4) (c_len ctx) Hm2) as [[Hn Hrd]|Hrd]; [lia..| |]; run Hrd; erewrite bind_Done by reflexivity;
      cbn [is_ok status_code Z.eqb negb].
    + erewrite bind_Done by reflexivity. apply Hgive; [done|exact Hsem| |by split].
      left. right; right. split; [done|]. unfold near_end in *. by rewrite <-Ht.
    + rewrite buf_set_last by (rewrite length_cells; lia). erewrite bind_Done by reflexivity.
      apply Hgive; [done|exact Hsem|by left; left|by split].
  - destruct Hne as [->|[-> Hn]]; cbn [is_ok status_code Z.eqb negb]; erewrite bind_Done by reflexivity;
      (apply Hgive; [done|exact Hsem|by left|by split]).
Qed.

End Total.
