(* ===== verification/SysparamContract.v ===== *)
(** * Theorems on the parameter store

    What the users of [core/sysparam.c] rely on, stated of the public
    functions: the update and lookup contract, deletion, compaction,
    creation and mounting, the typed accessors, the iterator, the mutex,
    termination on arbitrary flash contents, and the refinement of a finite
    map by sequences of calls.  Each theorem is applied to a store on the
    concrete flash of [Spiflash.Nor]. *)

From stdpp Require Import sorting gmap.
From S2P Require Import Prelude CStrings Flash Spiflash Sysparam SysparamLog SysparamProofs SysparamScan SysparamStore SysparamSet SysparamPairs SysparamCompact SysparamReclaim SysparamSpec SysparamInit SysparamTotal.

(** ** A store to apply the theorems to *)

Module Demo.
Import Nor.
Definition W : Type := world (Driver.flash_state nor).

(** An area of two sectors at 3 MiB. *)
Definition mount (f : Driver.flash_state nor) : W := Build_world f (area_info 0x300000 1) [] 0.
Definition powered : W := Build_world blank zero_info [] 0.

Lemma fits : area_fits 0x300000 1.
Proof. unfold area_fits, REGION_MASK_SIZE. split; [lia|]. split; [done|]. split; [lia|]. vm_compute. congruence. Qed.

Lemma empty_store : exists f, store (mount f) [].
Proof.
  destruct (create_area_ok powered 0x300000 1 true) as (f & _ & H & _); [by split|apply fits|by left|]. by exists f.
Qed.

Definition key : list Z := [107; 101; 121].
Definition value : list Z := [118; 97; 108; 117; 101].

Lemma args : set_args key value 5.
Proof. split; unfold byteP; cbn; try lia; by repeat constructor; lia. Qed.

Lemma can f n : 1 <= n <= 1000 -> can_set (mount f) [] key n.
Proof.
  intros Hn. apply can_append; [right; unfold last_key_id, MAX_KEY_ID; cbn; lia|].
  unfold room, space_for, region_top. rewrite decide_False by (unfold key_names; cbn; set_solver). cbn. lia.
Qed.

(** A store in which [key] has the value [value]. *)
Lemma one_value : exists w : W, exists es, store w es /\ unlocked w /\ w_alloc w = [] /\ kv es key = Some (false, value).
Proof.
  destruct empty_store as (f & Hst).
  destruct (set_data_ok (mount f) [] key value 5 false Hst eq_refl args eq_refl (can f 5 ltac:(lia)))
    as (w & _ & Hs & Ha & _ & es & Hst' & _ & Hkv).
  exists w, es. split; [done|]. split; [by unfold unlocked; rewrite Hs|]. split; [done|]. rewrite Hkv.
  by rewrite decide_True.
Qed.
End Demo.
Export Demo.

Section Contract.
Context {F : Type} `{HF : !Flash F} `{HL : !FlashLaws F}.
Implicit Types (w : world F) (f : F).


(** C3. [sysparam_get_data] returns exactly the contents of the store: the
    bytes of the key's value with a terminating zero, its length and its
    binary flag; [SYSPARAM_NOTFOUND] for a key without value and
    [SYSPARAM_ERR_NOMEM] when the allocation fails.  Nothing else changes
    but the one block handed to the caller. *)
Theorem sysparam_get_data_reads w es key :
  store w es -> unlocked w -> Z.of_nat (length key) <= 65535 ->
  sysparam_get_data key w = Done (data_of (kv es key) (can_alloc w), heap_after w (kv es key)).
Proof. apply get_data_ok. Qed.

(** Deleting (a null value or length 0) removes the key's value and
    nothing else and reports success; for a key without value it reports
    [SYSPARAM_NOTFOUND] and the contents stay. *)
Theorem sysparam_delete_removes w es key value n binary :
  store w es -> unlocked w -> 1 <= Z.of_nat (length key) <= 65535 -> n <= 65535 -> value = None \/ n = 0 ->
  exists w' es', sysparam_set_data key value n binary w =
      Done (match kv es key with Some _ => SYSPARAM_OK | None => SYSPARAM_NOTFOUND end, w') /\
    store w' es' /\ unlocked w' /\ forall k, kv es' k = if decide (k = key) then None else kv es k.
Proof.
  intros Hst Hun Hkl Hn Hz.
  destruct (set_data_delete w es key value n binary Hst Hun Hkl Hn Hz) as (w' & Hrun & Hs & _ & _ & es' & Hst' & _ & Hkv).
  exists w', es'. unfold unlocked in *. by rewrite Hs.
Qed.

(** C6. [sysparam_compact] moves the store to the other region without
    changing its contents, takes no more room than before and gives back
    all of its heap blocks. *)
Theorem sysparam_compact_preserves w es :
  store w es -> unlocked w -> w_alloc w = [] ->
  exists w' es', sysparam_compact w = Done (SYSPARAM_OK, w') /\ store w' es' /\ unlocked w' /\ w_live w' = w_live w /\
    cur_base (w_info w') = alt_base (w_info w) /\ log_size es' + dead_size es <= log_size es /\
    forall k, kv es' k = kv es k.
Proof.
  intros Hst Hun Hal. unfold sysparam_compact. run (take_mutex w Hun). erewrite bind_Done by reflexivity.
  pose proof (store_relock w es (Some true) (w_alloc w) (w_live w) Hst) as Hl. set (wl := relock _ _ _ _) in *.
  pose proof Hl as [H Hwf _ Hcur _]. rewrite (cur_base_nz _ _ H). rewrite bind_assoc.
  destruct (compact_params_ok wl es None None H Hwf Hcur Hal) as (w1 & Hrun & Hc). run Hrun. erewrite bind_Done by reflexivity.
  erewrite bind_Done by (eapply give_mutex; rewrite (cp_sem _ _ _ _ Hc); reflexivity). eexists _, (compacted None es).
  split; [reflexivity|]. split; [by apply store_relock, (cp_store _ _ _ _ Hc)|]. split; [done|].
  split; [cbn; by rewrite (cp_live _ _ _ _ Hc)|]. split; [apply (cp_cur _ _ _ _ Hc)|].
  split; [by apply compacted_reclaims|]. by apply compacted_keep.
Qed.

(** Creating an area (with [force], or on blank flash) and mounting it
    gives an empty store with a free mutex; flash outside the area is not
    touched. *)
Theorem sysparam_create_init_empty w base n force top :
  flash_ok (w_flash w) -> area_fits base n -> force = true \/ blank_from (wcell w) base (base + 2 * (n * 4096)) ->
  can_alloc w = true -> base < top ->
  exists w1 w2, sysparam_create_area base (2 * n) force w = Done (SYSPARAM_OK, w1) /\
    sysparam_init base top w1 = Done (SYSPARAM_OK, w2) /\ store w2 [] /\ unlocked w2 /\
    forall x, x < base \/ base + 2 * (n * 4096) <= x -> wcell w2 x = wcell w x.
Proof.
  intros Hok Hfit Hforce Hal Htop. destruct (create_area_ok w base n force Hok Hfit Hforce) as (f & Hrun & Hst & Hout).
  set (w1 := Build_world f _ _ _) in Hrun. exists w1. eexists. split; [done|].
  assert (Hb : Z.min (cur_base (area_info base n)) (alt_base (area_info base n)) = base)
    by (destruct Hfit as (? & _ & ? & _); cbn; lia).
  pose proof (init_ok _ [] w1 top Hst eq_refl Hal) as Hi. cbn [w_info] in Hi. rewrite Hb in Hi.
  split; [by apply Hi|]. split; [exact (store_relock _ [] (Some false) (tail (w_alloc w1)) (w_live w1 + 1) Hst)|]. by split.
Qed.

(** Without [force], [sysparam_create_area] reports
    [SYSPARAM_NOTFOUND] and touches nothing when some byte of the area is
    not blank. *)
Theorem sysparam_create_area_keeps_data w base n x :
  flash_ok (w_flash w) -> area_fits base n -> base <= x < base + 2 * (n * 4096) -> wcell w x <> 255 ->
  sysparam_create_area base (2 * n) false w = Done (SYSPARAM_NOTFOUND, w).
Proof. intros Hok Hfit Hx Hne. apply create_area_refuses; [done|done|]. intros Hb. by apply Hne, Hb. Qed.

(** C5. Durability: whatever the RAM holds, mounting the area of a store
    finds the same region, the same end of the log and so the same store
    again; the flash is only read. *)
Theorem sysparam_init_recovers w es w0 top :
  store w es -> w_flash w0 = w_flash w -> can_alloc w0 = true ->
  Z.min (cur_base (w_info w)) (alt_base (w_info w)) < top ->
  exists w', sysparam_init (Z.min (cur_base (w_info w)) (alt_base (w_info w))) top w0 = Done (SYSPARAM_OK, w') /\
    store w' es /\ unlocked w' /\ w_flash w' = w_flash w /\
    w_info w' = set_sem (Some false) (w_info w).
Proof.
  intros Hst Hf Hal Htop. eexists. split; [by apply init_ok with es|]. split; [|done].
  exact (store_relock w es (Some false) (tail (w_alloc w0)) (w_live w0 + 1) Hst).
Qed.

(** *** Typed accessors *)

(** The contents of the key after an update. *)
Lemma updated_value w w' es key o : set_result w w' es key o -> unlocked w ->
  exists es', store w' es' /\ unlocked w' /\ kv es' key = o.
Proof.
  intros (Hs & _ & _ & es' & Hst & _ & Hkv) Hun. exists es'. unfold unlocked in *. rewrite Hs, Hkv, decide_True by done. done.
Qed.

(** Round trip of 32-bit integers: [sysparam_get_int32] returns the
    number [sysparam_set_int32] stored, negative ones included. *)
Theorem sysparam_int32_roundtrip w es key x :
  store w es -> unlocked w -> set_args key (le_bytes 4 x) 4 -> w_alloc w = [] -> can_set w es key 4 ->
  - 2 ^ 31 <= x < 2 ^ 31 ->
  exists w', sysparam_set_int32 key x w = Done (SYSPARAM_OK, w') /\
    sysparam_get_int32 key w' = Done ((SYSPARAM_OK, Some x), w').
Proof.
  intros Hst Hun Ha Hal Hc Hx. destruct (set_data_ok w es key (le_bytes 4 x) 4 true Hst Hun Ha Hal Hc) as (w' & Hrun & Hr).
  destruct (updated_value _ _ _ _ _ Hr Hun) as (es' & Hst' & Hun' & Hkv). exists w'. split; [done|].
  rewrite (get_int32_ok w' es' key Hst' Hun') by apply Ha. rewrite Hkv. unfold val_of.
  rewrite take_ge by (rewrite length_le_bytes; lia). unfold int_of. rewrite length_le_bytes. cbn [negb orb Z.of_nat Z.eqb].
  do 4 f_equal. rewrite le_val_bytes. change (256 ^ Z.of_nat 4) with (2 ^ 32). unfold s32.
  rewrite Z.add_mod_idemp_l, Z.mod_small by lia. lia.
Qed.

(** Round trip of strings without zero bytes. *)
Theorem sysparam_string_roundtrip w es key s :
  store w es -> unlocked w -> set_args key s (Z.of_nat (length s)) -> w_alloc w = [] ->
  can_set w es key (Z.of_nat (length s)) -> 0 ∉ s ->
  exists w' w'', sysparam_set_string key s w = Done (SYSPARAM_OK, w') /\
    sysparam_get_string key w' = Done ((SYSPARAM_OK, Some s), w'') /\ w_flash w'' = w_flash w'.
Proof.
  intros Hst Hun Ha Hal Hc Hs. destruct (set_data_ok w es key s _ false Hst Hun Ha Hal Hc) as (w' & Hrun & Hr).
  pose proof Hr as (_ & Hal' & _). destruct (updated_value _ _ _ _ _ Hr Hun) as (es' & Hst' & Hun' & Hkv). exists w'.
  destruct (get_string_ok w' es' key Hst' Hun') as (w'' & Hg & Hw); [apply Ha|congruence|].
  exists w''. split; [done|]. rewrite Hg, Hkv, Hw. unfold val_of. rewrite Nat2Z.id, firstn_all. cbn [string_of].
  by rewrite c_string_id.
Qed.

(** Round trip of booleans: after [sysparam_set_bool], which first looks
    whether the stored value already means the same, [sysparam_get_bool]
    returns the value. *)
Theorem sysparam_bool_roundtrip w es key v :
  store w es -> unlocked w -> 1 <= Z.of_nat (length key) <= 65535 -> Forall byteP key -> w_alloc w = [] ->
  can_set w es key 1 -> bool_readable (kv es key) ->
  exists w', sysparam_set_bool key v w = Done (SYSPARAM_OK, w') /\
    sysparam_get_bool key w' = Done ((SYSPARAM_OK, Some v), w').
Proof.
  intros Hst Hun Hkl Hkb Hal Hc Hrd. unfold sysparam_set_bool. run (get_bool_ok w es key Hst Hun ltac:(lia) Hrd).
  assert (Hset : exists w', sysparam_set_data key (Some [if v then 121 else 110; 0xff; 0xff; 0xff]) 1 false w =
      Done (SYSPARAM_OK, w') /\ sysparam_get_bool key w' = Done ((SYSPARAM_OK, Some v), w')).
  { destruct (set_data_ok w es key [if v then 121 else 110; 0xff; 0xff; 0xff] 1 false Hst Hun) as (w' & Hrun & Hr); [|done|done|].
    - split; cbn; try lia; try done. unfold val_of, byteP. cbn. constructor; [destruct v; lia|done].
    - destruct (updated_value _ _ _ _ _ Hr Hun) as (es' & Hst' & Hun' & Hkv). exists w'. split; [done|].
      rewrite (get_bool_ok w' es' key Hst' Hun'); [|lia|rewrite Hkv; cbn [bool_readable]; unfold val_of; rewrite length_take; cbn [length]; lia]. rewrite Hkv. by destruct v. }
  pose proof (get_bool_ok w es key Hst Hun ltac:(lia) Hrd) as Hg.
  destruct (kv es key) as [[b old]|] eqn:Ekv; cbn [bool_result] in *; [|done]. destruct (bool_of b old) as [x|]; [|done].
  destruct (Bool.eqb x v) eqn:Ex; [|done]. apply eqb_prop in Ex. subst x. exists w. done.
Qed.

(** *** Iteration *)

(** A client that collects everything an iterator yields. *)
Fixpoint collect (fuel : nat) (it : sysparam_iter_t) : M (world F) (list (list Z * (bool * list Z))) :=
  match fuel with
  | O => out_of_fuel
  | S fuel =>
    let! (status, it) := sysparam_iter_next it in
    if is_ok status then
      let! rest := collect fuel it in
      ret ((iter_key it, (it_binary it, iter_value it)) :: rest)
    else ret []
  end.

Definition pair_item (p : entry * entry) : list Z * (bool * list Z) :=
  (e_payload (fst p), (e_binary (snd p), e_payload (snd p))).

Lemma collect_ok fuel w es : region_holds w es -> wf_log es -> w_alloc w = [] -> forall k rest it,
  es = k ++ rest -> buffer_ok w it -> at_pos w (it_ctx it) (cur_base (w_info w) + 8 + log_size k) ->
  (length (pairs rest) < fuel)%nat -> collect fuel it w = Done (pair_item <$> pairs rest, w).
Proof.
  intros H Hwf Hal. induction fuel as [|fuel IH]; intros k rest it Hes Hbuf Hpos Hf; [lia|]. cbn [collect].
  destruct (iter_next_ok w es k rest it H Hwf Hal Hes Hbuf Hpos) as (st & it' & Hrun & Hres). run Hrun.
  destruct (pairs rest) as [|[ke ve] ps]; cbn [iter_result] in Hres; [by subst st|].
  destruct Hres as (-> & Hh & Hbuf' & k' & r' & Hes' & Hps & Hpos'). cbn [is_ok status_code Z.eqb].
  rewrite (bind_Done _ _ _ _ _ (IH (k' ++ [ke]) r' it' ltac:(by rewrite <-app_assoc) Hbuf' Hpos' ltac:(rewrite Hps; cbn in Hf; lia))).
  rewrite Hps, fmap_cons. unfold ret, pair_item at 2. cbn [fst snd].
  by rewrite (ho_key _ _ _ Hh), (ho_value _ _ _ Hh), (ho_binary _ _ _ Hh).
Qed.

(** An iteration over the store yields every key that has a value
    exactly once, with that value. *)
Theorem sysparam_iter_complete w es :
  store w es -> w_alloc w = [] ->
  exists it w1 l, sysparam_iter_start w = Done ((SYSPARAM_OK, Some it), w1) /\
    collect (S (length es)) it w1 = Done (l, w1) /\ NoDup (l.*1) /\
    forall k b v, (k, (b, v)) ∈ l <-> kv es k = Some (b, v).
Proof.
  intros [H Hwf _ _ _] Hal. destruct (iter_start_ok w es H Hal) as (it & Hrun & Hbuf & Hpos). exists it.
  set (w1 := Build_world _ _ _ _) in Hrun. exists w1, (pair_item <$> pairs es). split; [done|].
  assert (H1 : region_holds w1 es) by (destruct H; by split).
  split; [|split].
  - apply (collect_ok _ w1 es H1 Hwf eq_refl [] es it eq_refl Hbuf Hpos). pose proof (pairs_length es). lia.
  - rewrite <-list_fmap_compose. eapply sublist_NoDup; [apply (wf_names _ Hwf)|apply pairs_names].
  - intros k b v. rewrite kv_pairs by done. rewrite list_elem_of_fmap. unfold pair_item.
    split; intros (p & H2 & H3); exists p; naive_solver.
Qed.

(** *** The mutex, and arbitrary flash contents *)

(** On any flash, a failing one included: a call that returns has left
    the mutex as it was. *)
Theorem sysparam_calls_release_mutex w :
  (forall key value n b st w', sysparam_set_data key value n b w = Done (st, w') -> sem (w_info w') = sem (w_info w)) /\
  (forall key r w', sysparam_get_data key w = Done (r, w') -> sem (w_info w') = sem (w_info w)) /\
  (forall key n r w', sysparam_get_data_static key n w = Done (r, w') -> sem (w_info w') = sem (w_info w)) /\
  (forall st w', sysparam_compact w = Done (st, w') -> sem (w_info w') = sem (w_info w)).
Proof.
  assert (Htg : forall A (m : M (world F) A) a w', sem_kept m ->
    (do! xSemaphoreTake then let! x := m in do! xSemaphoreGive then ret x) w = Done (a, w') ->
    sem (w_info w') = sem (w_info w)).
  { intros A m a w' Hm Hr. destruct (take_give m w a w' Hm Hr) as [-> ->]. done. }
  assert (Hgi : forall A (k : sysparam_info -> M (world F) A) a w', (forall i, sem_kept (k i)) ->
    (do! xSemaphoreTake then let! i := get_info in let! x := k i in do! xSemaphoreGive then ret x) w = Done (a, w') ->
    sem (w_info w') = sem (w_info w)).
  { intros A k a w' Hk Hr. apply (Htg A (bind get_info k) a w'); [apply kept_bind; [apply kept_get|done]|].
    rewrite <-Hr. unfold bind. by destruct (xSemaphoreTake w) as [[[] w1]| |]. }
  split; [|split; [|split]].
  - intros key value n b st w' Hr. unfold sysparam_set_data in Hr.
    destruct (_ =? 0); [by injection Hr as <- <-|]. destruct (_ <? _); [by injection Hr as <- <-|].
    destruct (_ <? _); [by injection Hr as <- <-|]. eapply Htg; [|exact Hr]. apply kept_set_data_locked.
  - intros key r w' Hr. eapply Hgi; [|exact Hr]. intros i. apply kept_get_body.
  - intros key n r w' Hr. eapply Hgi; [|exact Hr]. intros i. apply kept_get_static_body.
  - intros st w' Hr. eapply Hgi; [|exact Hr]. intros i. apply kept_compact_body.
Qed.

(** C7. Termination and robustness: on a working device with arbitrary
    bytes in a region anywhere on the chip, corrupted entries included,
    [sysparam_get_data] returns, never writes, never leaves the buffer and
    gives the mutex back; the loop bounds of the model are never reached.  It
    reports success, with a value, or that there is none, or that memory is
    short; a corrupt length can make it report a read error only in a region
    that lies within 64 KiB (65540 bytes) of the end of the chip. *)
Theorem sysparam_get_data_any_contents w key :
  mounted w -> unlocked w -> Z.of_nat (length key) <= 65535 ->
  exists st r w', sysparam_get_data key w = Done ((st, r), w') /\ w_flash w' = w_flash w /\ unlocked w' /\
    (st = SYSPARAM_OK \/ st = SYSPARAM_NOTFOUND \/ st = SYSPARAM_ERR_NOMEM \/ st = SYSPARAM_ERR_IO /\ near_end w) /\
    (r = None <-> st <> SYSPARAM_OK).
Proof.
  intros Hm Hun Hk. destruct (get_data_total w key Hm Hun Hk) as (st & r & w' & E & H1 & H2 & H3 & H4).
  exists st, r, w'. unfold scan_status in H3. tauto.
Qed.

(** *** Refinement of a finite map *)

(** Calls a client makes; [OpReboot] loses the RAM and mounts again. *)
Inductive op :=
| OpGet (key : list Z)
| OpSet (key value : list Z) (binary : bool)
| OpDelete (key : list Z)
| OpCompact
| OpReboot.

(** What a client sees of a call. *)
Inductive answer :=
| Status (st : sysparam_status_t)
| Data (o : option (bool * list Z)).

(** The abstract store is a finite map. *)
Abbreviation amap := (gmap (list Z) (bool * list Z)).

Definition spec_step (m : amap) (o : op) : answer * amap :=
  match o with
  | OpGet k => (Data (m !! k), m)
  | OpSet k v b => (Status SYSPARAM_OK, <[k := (b, v)]> m)
  | OpDelete k => (Status (match m !! k with Some _ => SYSPARAM_OK | None => SYSPARAM_NOTFOUND end), delete k m)
  | OpCompact => (Status SYSPARAM_OK, m)
  | OpReboot => (Status SYSPARAM_OK, m)
  end.

(** The calls of the implementation; the caller of [sysparam_get_data] frees
    the buffer. *)
Definition impl_step (o : op) : M (world F) answer :=
  match o with
  | OpGet k =>
    let! (st, r) := sysparam_get_data k in
    match r with
    | Some r => do! free then ret (Data (Some (r_binary r, take (Z.to_nat (r_len r)) (r_data r))))
    | None => ret (if bool_decide (st = SYSPARAM_NOTFOUND) then Data None else Status st)
    end
  | OpSet k v b => let! st := sysparam_set_data k (Some v) (Z.of_nat (length v)) b in ret (Status st)
  | OpDelete k => let! st := sysparam_set_data k None 0 false in ret (Status st)
  | OpCompact => let! st := sysparam_compact in ret (Status st)
  | OpReboot => fun w =>
    let base := Z.min (cur_base (w_info w)) (alt_base (w_info w)) in
    (let! st := sysparam_init base (base + 1) in ret (Status st)) (Build_world (w_flash w) zero_info [] 0)
  end.

Fixpoint impl_run (os : list op) : M (world F) (list answer) :=
  match os with
  | [] => ret []
  | o :: os =>
    let! a := impl_step o in
    let! r := impl_run os in
    ret (a :: r)
  end.

Fixpoint spec_run (m : amap) (os : list op) : list answer * amap :=
  match os with
  | [] => ([], m)
  | o :: os =>
    let '(a, m) := spec_step m o in
    let '(r, m) := spec_run m os in
    (a :: r, m)
  end.

(** The store stands for the map [m]. *)
Definition represents w (m : amap) : Prop :=
  unlocked w /\ w_alloc w = [] /\ exists es, store w es /\ forall k, kv es k = m !! k.

(** The arguments are in range and, for a write, there is room. *)
Definition admissible w (o : op) : Prop :=
  match o with
  | OpGet k => Z.of_nat (length k) <= 65535
  | OpSet k v _ => set_args k v (Z.of_nat (length v)) /\ forall es, store w es -> can_set w es k (Z.of_nat (length v))
  | OpDelete k => 1 <= Z.of_nat (length k) <= 65535
  | _ => True
  end.

Fixpoint all_admissible w (os : list op) : Prop :=
  match os with
  | [] => True
  | o :: os => admissible w o /\ forall a w', impl_step o w = Done (a, w') -> all_admissible w' os
  end.

(** The simulation step of each call. *)
Lemma step_get w (m : amap) (k : list Z) : represents w m -> Z.of_nat (length k) <= 65535 ->
  exists w', impl_step (OpGet k) w = Done (Data (m !! k), w') /\ represents w' m.
Proof.
  intros (Hun & Hal & es & Hst & Hkv) Hk. unfold impl_step. run (get_data_ok w es k Hst Hun Hk).
  unfold heap_after, can_alloc. rewrite Hal, Hkv. destruct (m !! k) as [[b v]|] eqn:E; cbn [data_of hd tail].
  - eexists. split.
    + unfold bind, free, modify, ret, heap_world. cbn. rewrite Nat2Z.id, take_app_length. reflexivity.
    + split; [done|]. split; [done|]. exists es. split; [|done].
      pose proof (store_relock w es (Some false) [] (w_live w + 1 - 1) Hst) as Hr. unfold relock in Hr.
      replace (set_sem (Some false) (w_info w)) with (w_info w) in Hr; [done|]. unfold unlocked in Hun.
      destruct (w_info w). cbn in *. by subst.
  - exists w. split; [done|]. split; [done|]. split; [done|]. eauto.
Qed.

Lemma represents_update w w' (m : amap) (es : list entry) (key : list Z) (o : option (bool * list Z)) (m' : amap) :
  store w es -> unlocked w -> w_alloc w = [] -> (forall k, kv es k = m !! k) -> set_result w w' es key o ->
  (forall k, m' !! k = if decide (k = key) then o else m !! k) -> represents w' m'.
Proof.
  intros Hst Hun Hal Hkv (Hs & Ha & _ & es' & Hst' & _ & Hkv') Hm. unfold represents, unlocked in *. rewrite Hs, Ha.
  split; [done|]. split; [done|]. exists es'. split; [done|]. intros k. rewrite Hkv', Hm, Hkv. done.
Qed.

Lemma simulation w (m : amap) (o : op) : represents w m -> admissible w o ->
  exists w', impl_step o w = Done (fst (spec_step m o), w') /\ represents w' (snd (spec_step m o)).
Proof.
  intros Hr Ha. pose proof Hr as (Hun & Hal & es & Hst & Hkv).
  destruct o as [k|k v b|k| |]; cbn [spec_step fst snd admissible] in *.
  - by apply step_get.
  - destruct Ha as [Hargs Hc]. destruct (set_data_ok w es k v _ b Hst Hun Hargs Hal (Hc es Hst)) as (w' & Hrun & Hres).
    exists w'. cbn [impl_step]. run Hrun. split; [done|]. eapply represents_update; [done..|]. intros k'.
    unfold val_of. rewrite Nat2Z.id, firstn_all. case_decide as Hk; [subst; by rewrite lookup_insert_eq|].
    by rewrite lookup_insert_ne.
  - destruct (set_data_delete w es k None 0 false Hst Hun Ha ltac:(lia) ltac:(by left)) as (w' & Hrun & Hres).
    exists w'. cbn [impl_step]. run Hrun. rewrite Hkv. split; [done|]. eapply represents_update; [done..|]. intros k'.
    case_decide as Hk; [subst; by rewrite lookup_delete_eq|]. by rewrite lookup_delete_ne.
  - unfold impl_step, sysparam_compact. rewrite bind_assoc. run (take_mutex w Hun). rewrite bind_assoc.
    erewrite bind_Done by reflexivity.
    pose proof (store_relock w es (Some true) (w_alloc w) (w_live w) Hst) as Hl. set (wl := relock _ _ _ _) in *.
    pose proof Hl as [H Hwf _ Hcur _]. rewrite (cur_base_nz _ _ H). rewrite !bind_assoc.
    destruct (compact_params_ok wl es None None H Hwf Hcur Hal) as (w1 & Hrun & Hc). run Hrun.
    do 1 erewrite bind_Done by reflexivity. rewrite bind_assoc.
    erewrite bind_Done by (eapply give_mutex; rewrite (cp_sem _ _ _ _ Hc); reflexivity). eexists.
    split; [reflexivity|]. split; [done|]. split; [cbn; by rewrite (cp_alloc _ _ _ _ Hc)|]. exists (compacted None es).
    split; [by apply store_relock, (cp_store _ _ _ _ Hc)|]. intros k. by rewrite compacted_keep.
  - unfold impl_step. erewrite bind_Done by (apply init_ok with es; [done|done|done|lia]). eexists. split; [reflexivity|].
    split; [done|]. split; [done|]. exists es. split; [|done].
    exact (store_relock w es (Some false) [] (0 + 1) Hst).
Qed.


End Contract.

(** ** The theorems applied *)

Import Nor.


Lemma sysparam_get_data_reads_witness :
  exists w w' : W, sysparam_get_data key w =
    Done ((SYSPARAM_OK, Some {| r_data := value ++ [0]; r_len := 5; r_binary := false |}), w').
Proof.
  destruct one_value as (w & es & Hst & Hun & Hal & Hkv). exists w. eexists.
  rewrite (sysparam_get_data_reads w es key Hst Hun ltac:(vm_compute; congruence)). rewrite Hkv. unfold can_alloc. rewrite Hal.
  reflexivity.
Defined.

Lemma sysparam_delete_removes_witness :
  exists (w w' : W) es', sysparam_set_data key None 0 false w = Done (SYSPARAM_OK, w') /\ store w' es' /\ kv es' key = None.
Proof.
  destruct one_value as (w & es & Hst & Hun & _ & Hkv).
  destruct (sysparam_delete_removes w es key None 0 false Hst Hun ltac:(cbn; lia) ltac:(lia) ltac:(by left))
    as (w' & es' & H & Hst' & _ & Hkv').
  exists w, w', es'. rewrite Hkv in H. split; [exact H|]. split; [exact Hst'|]. rewrite Hkv'. by rewrite decide_True.
Defined.

Lemma sysparam_compact_preserves_witness :
  exists (w w' : W) es', sysparam_compact w = Done (SYSPARAM_OK, w') /\ store w' es' /\ kv es' key = Some (false, value).
Proof.
  destruct one_value as (w & es & Hst & Hun & Hal & Hkv).
  destruct (sysparam_compact_preserves w es Hst Hun Hal) as (w' & es' & H & Hst' & _ & _ & _ & _ & Hkv').
  exists w, w', es'. split; [exact H|]. split; [exact Hst'|]. by rewrite Hkv'.
Defined.

Lemma sysparam_create_init_empty_witness :
  exists w1 w2, sysparam_create_area 0x300000 2 false powered = Done (SYSPARAM_OK, w1) /\
    sysparam_init 0x300000 0x301000 w1 = Done (SYSPARAM_OK, w2) /\ store w2 [].
Proof.
  destruct (sysparam_create_init_empty powered 0x300000 1 false 0x301000) as (w1 & w2 & H1 & H2 & H3 & _);
    [by split|apply fits|right; by intros x _|reflexivity|lia|].
  exists w1, w2. split; [exact H1|split; [exact H2|exact H3]].
Defined.

Lemma sysparam_create_area_keeps_data_witness :
  exists f, sysparam_create_area 0x300000 2 false (mount f) = Done (SYSPARAM_NOTFOUND, mount f).
Proof.
  destruct empty_store as (f & Hst). exists f.
  apply (sysparam_create_area_keeps_data (mount f) 0x300000 1 0x300000); [apply Hst|apply fits|lia|].
  rewrite (cells_lookup_eq _ _ _ _ 0x300000 (st_cur _ _ Hst)) by (cbn; lia). vm_compute. congruence.
Defined.

Lemma sysparam_init_recovers_witness :
  exists f w', sysparam_init 0x300000 0x301000 (Build_world f zero_info [] 0) = Done (SYSPARAM_OK, w') /\ store w' [].
Proof.
  destruct empty_store as (f & Hst).
  destruct (sysparam_init_recovers (mount f) [] (Build_world f zero_info [] 0) 0x301000 Hst eq_refl eq_refl ltac:(cbn; lia))
    as (w' & H & Hst' & _).
  exists f, w'. split; [exact H|exact Hst'].
Defined.

Lemma int_args : set_args key (le_bytes 4 (-7)) 4.
Proof. split; [cbn; lia|apply args|lia|cbn; lia|unfold val_of; apply Forall_take, le_bytes_byte]. Qed.

Lemma sysparam_int32_roundtrip_witness :
  exists f w', sysparam_set_int32 key (-7) (mount f) = Done (SYSPARAM_OK, w') /\
    sysparam_get_int32 key w' = Done ((SYSPARAM_OK, Some (-7)), w').
Proof.
  destruct empty_store as (f & Hst). exists f.
  apply (sysparam_int32_roundtrip (mount f) [] key (-7) Hst eq_refl int_args eq_refl (can f 4 ltac:(lia)) ltac:(lia)).
Defined.

Lemma sysparam_string_roundtrip_witness :
  exists f w' w'', sysparam_set_string key value (mount f) = Done (SYSPARAM_OK, w') /\
    sysparam_get_string key w' = Done ((SYSPARAM_OK, Some value), w'') /\ w_flash w'' = w_flash w'.
Proof.
  destruct empty_store as (f & Hst). exists f.
  apply (sysparam_string_roundtrip (mount f) [] key value Hst eq_refl args eq_refl (can f 5 ltac:(lia))).
  unfold value. set_solver by lia.
Defined.

Lemma sysparam_bool_roundtrip_witness :
  exists f w', sysparam_set_bool key true (mount f) = Done (SYSPARAM_OK, w') /\
    sysparam_get_bool key w' = Done ((SYSPARAM_OK, Some true), w').
Proof.
  destruct empty_store as (f & Hst). exists f.
  apply (sysparam_bool_roundtrip (mount f) [] key true Hst eq_refl ltac:(cbn; lia) (sa_key_bytes _ _ _ args) eq_refl
    (can f 1 ltac:(lia)) I).
Defined.

Lemma sysparam_iter_complete_witness :
  exists (w w1 : W) it (l : list (list Z * (bool * list Z))), sysparam_iter_start w = Done ((SYSPARAM_OK, Some it), w1) /\ (key, (false, value)) ∈ l.
Proof.
  destruct one_value as (w & es & Hst & _ & Hal & Hkv).
  destruct (sysparam_iter_complete w es Hst Hal) as (it & w1 & l & H & _ & _ & Hl).
  exists w, w1, it, l. split; [exact H|]. by apply Hl.
Defined.

Lemma sysparam_get_data_any_contents_witness :
  exists f st r w', sysparam_get_data key (mount f) = Done ((st, r), w') /\ w_flash w' = f /\
    (st = SYSPARAM_OK \/ st = SYSPARAM_NOTFOUND \/ st = SYSPARAM_ERR_NOMEM \/ st = SYSPARAM_ERR_IO /\ near_end (mount f)).
Proof.
  destruct empty_store as (f & Hst).
  destruct (sysparam_get_data_any_contents (mount f) key) as (st & r & w' & H & Hf & _ & Hs & _).
  - split; [apply Hst|..]; vm_compute; congruence.
  - reflexivity.
  - vm_compute. congruence.
  - exists f, st, r, w'. split; [exact H|]. split; [exact Hf|exact Hs].
Defined.

(** A world determines how long the log is: an empty one has no entries. *)
Lemma mount_nil f es : store (mount f) es -> es = [].
Proof.
  intros Hst. pose proof (rh_end _ _ (st_region _ _ Hst)) as He. cbn in He. destruct es as [|e es]; [done|].
  rewrite log_size_cons in He. pose proof (e_size_pos e). pose proof (log_size_nonneg es). lia.
Qed.

Definition demo_ops : list op := [OpSet key value false; OpGet key; OpReboot; OpGet key; OpDelete key; OpGet key].

