(* ===== verification/SysparamDefects.v ===== *)
(** * What the parameter store does not do

    Behaviours of [core/sysparam.c] that contradict its documentation
    ([core/include/sysparam.h]), proved of the code as it is: a write that
    reports success and is lost, a failing write that destroys the old
    value, a buffer overrun, and the use of a null semaphore. *)

From stdpp Require Import sorting.
From S2P Require Import Prelude CStrings Flash Spiflash Sysparam SysparamLog SysparamProofs SysparamScan SysparamStore SysparamSet SysparamPairs SysparamCompact SysparamReclaim SysparamSpec SysparamInit.

(** ** Any well-formed log occurs *)

(** The image of a log and its place on a flash. *)
Definition log_image (es : list entry) : list Z := concat (enc_entry <$> es).

Lemma length_log_image es : Z.of_nat (length (log_image es)) = log_size es.
Proof.
  unfold log_image. induction es as [|e es IH]; [done|]. rewrite fmap_cons. cbn [concat].
  rewrite length_app, log_size_cons, <-IH, <-length_enc_entry. lia.
Qed.

Lemma log_at_image es : forall c a, (forall x, a <= x < a + log_size es -> c x = as_mem (log_image es) (x - a)) -> log_at c a es.
Proof.
  induction es as [|e es IH]; intros c a Hc; [done|]. rewrite log_size_cons in Hc. cbn [log_at].
  pose proof (length_enc_entry e) as Hl. pose proof (e_size_pos e). pose proof (log_size_nonneg es).
  unfold log_image in Hc. rewrite fmap_cons in Hc. cbn [concat] in Hc. fold (log_image es) in Hc. split.
  - rewrite <-Hl. apply cells_eq_as_mem. intros x Hx. rewrite Hc by lia. apply as_mem_app_l. lia.
  - apply IH. intros x Hx. rewrite Hc by lia. rewrite as_mem_app_r by lia. f_equal. lia.
Qed.

Module Image.
Import Nor.

(** A flash with an area of two sectors at 3 MiB whose first region holds [es]. *)
Definition image (es : list entry) : Driver.flash_state nor := {|
  Driver.fs_dev := {|
    nor_mem := put_bytes (put_bytes (put_bytes (fun _ => 255)
      0x300000 (enc_region_header (header_of 1 false true)))
      0x301000 (enc_region_header (header_of 1 true false)))
      0x300008 (log_image es);
    nor_busy := false; nor_wel := false |};
  Driver.fs_critical := 0; Driver.fs_cache := true |}.

Definition image_world (es : list entry) : world (Driver.flash_state nor) :=
  Build_world (image es) (set_end_addr (0x300008 + log_size es) (area_info 0x300000 1)) [] 0.

Lemma as_mem_enc h i : u8 (as_mem (enc_region_header h) i) = as_mem (enc_region_header h) i.
Proof. apply u8_small. pose proof (as_mem_byte _ i (enc_region_byte h)) as Hb. unfold byteP in Hb. lia. Qed.

Lemma image_bytes es : Forall entry_ok es -> Forall byteP (log_image es).
Proof.
  unfold log_image. induction 1 as [|e es (_ & _ & He) _ IH]; [constructor|]. rewrite fmap_cons. cbn [concat].
  apply Forall_app; split; [|done]. unfold enc_entry. apply Forall_app; split; [apply enc_header_byte|done].
Qed.

Lemma image_store es : wf_log es -> log_size es <= 4088 -> log_size es <> 4087 -> store (image_world es) es.
Proof.
  intros Hwf Hs Hne. pose proof (log_size_nonneg es) as H0. pose proof (length_log_image es) as Hl.
  assert (Hlen : forall h, Z.of_nat (length (enc_region_header h)) = 8) by (intros; by rewrite length_enc_region).
  assert (Hc : forall x, wcell (image_world es) x = u8 (nor_mem (Driver.fs_dev (image es)) x)) by done.
  cbn [image Driver.fs_dev nor_mem] in Hc. split; [|done|done|..].
  - split; try done; unfold region_top; cbn [w_info image_world set_end_addr area_info end_addr cur_base region_size]; try lia.
    + split; cbn; try done; try lia. exists 1. unfold REGION_MASK_SIZE. lia.
    + change (0x300000 + 8) with 0x300008. apply log_at_image. intros x Hx. rewrite Hc, put_bytes_in by lia. apply u8_small.
      pose proof (as_mem_byte _ (x - 0x300008) (image_bytes es (wf_entries _ Hwf))) as Hb. unfold byteP in Hb. lia.
    + intros x Hx. rewrite Hc, !put_bytes_out by (rewrite ?Hlen; lia). done.
    + apply (wf_entries _ Hwf).
  - cbn [w_info image_world set_end_addr area_info cur_base alt_base].
    rewrite (region_header_for_ok 0x300000 _ true 1 false) by (unfold REGION_MASK_SIZE; lia).
    rewrite <-(Hlen (header_of 1 false true)) at 1. apply cells_eq_as_mem. rewrite Hlen. intros x Hx.
    rewrite Hc, put_bytes_out by lia. rewrite put_bytes_out by (rewrite Hlen; lia). rewrite put_bytes_in by (rewrite Hlen; lia).
    apply as_mem_enc.
  - cbn [w_info image_world set_end_addr area_info cur_base alt_base].
    rewrite (region_header_for_ok (0x300000 + 1 * 4096) _ false 1 true) by (unfold REGION_MASK_SIZE; lia).
    rewrite <-(Hlen (header_of 1 true false)) at 1. apply cells_eq_as_mem. rewrite Hlen. intros x Hx.
    rewrite Hc, put_bytes_out by lia. rewrite put_bytes_in by (rewrite Hlen; lia).
    apply as_mem_enc.
Qed.
End Image.

Section Defects.
Context {F : Type} `{HF : !Flash F} `{HL : !FlashLaws F}.
Implicit Types (w : world F) (f : F).
Abbreviation free_bytes w := (region_top (w_info w) - end_addr (w_info w)).

(** A lookup fails on any log without the name, well-formed or not. *)
Lemma get_data_unnamed w es key :
  region_holds w es -> unlocked w -> Z.of_nat (length key) <= 65535 -> key ∉ key_names es ->
  sysparam_get_data key w = Done ((SYSPARAM_NOTFOUND, None), w).
Proof.
  intros H Hun Hkl Hno. unfold sysparam_get_data. run (take_mutex w Hun). set (wl := relock _ _ _ _).
  assert (Hr : region_holds wl es) by (destruct H as [? [] ? ? ? ? ? ?]; by split).
  erewrite bind_Done by reflexivity. rewrite (cur_base_nz _ _ Hr). unfold strlen. rewrite u16_small by lia.
  unfold lookup_value. rewrite !bind_assoc. run (init_context_ok wl). rewrite !bind_assoc.
  run (find_key_start_none wl es (Some key) Hr ltac:(by apply names_absent)). cbn [is_ok status_code Z.eqb negb].
  do 2 erewrite bind_Done by reflexivity. erewrite bind_Done by (eapply give_mutex; reflexivity).
  unfold ret. f_equal. f_equal.
  etransitivity; [exact (relock_same w (Some false) _ _ Hun)|exact (heap_world_same w)].
Qed.

(** A name without a value has no pair, so compaction drops it. *)
Lemma no_pair_of_deleted es key ke :
  wf_log es -> ke ∈ es -> names (Some key) ke = true -> live_key ke = true -> kv es key = None ->
  forall p, p ∈ pairs es -> Some (e_id ke) <> Some (e_id (fst p)).
Proof.
  intros Hwf Hke Hname Hlk Hnone p Hp [= Heq]. pose proof Hp as (P1 & P2 & _)%pairs_elem. pose proof Hname as [_ Hpay]%names_true.
  assert (fst p = ke) as Hpk by (by apply (key_id_unique es)).
  enough (kv es key = Some (e_binary (snd p), e_payload (snd p))) by congruence.
  apply kv_pairs; [done|]. exists p. rewrite Hpk. done.
Qed.

Lemma compacted_drops_name es kid key :
  wf_log es -> kv es key = None -> key ∉ key_names (compacted kid es).
Proof.
  intros Hwf Hnone. pose proof (compacted_length es Hwf).
  unfold compacted. rewrite cout_names by lia. intros (p & Hpk & Hp)%list_elem_of_fmap. cbn in Hpk.
  enough (kv es key = Some (e_binary (snd p), e_payload (snd p))) by congruence. apply kv_pairs; [done|]. by exists p.
Qed.

(** A lost write.  For a key that once had a value and was deleted, when
    the new value only fits after a compaction: the compaction drops the
    key's entry, the value is then written under the stale key id, and
    [sysparam_set_data] reports success although a following
    [sysparam_get_data] reports [SYSPARAM_NOTFOUND]. *)
Theorem sysparam_set_data_lost_write w es key value n binary :
  store w es -> unlocked w -> set_args key value n -> w_alloc w = [] ->
  key ∈ key_names es -> kv es key = None ->
  free_bytes w < 4 + n <= free_bytes w + dead_size es -> free_bytes w <> 5 ->
  5 + n <> room_after w (key_id_of es key) es ->
  exists w', sysparam_set_data key (Some value) n binary w = Done (SYSPARAM_OK, w') /\
    sysparam_get_data key w' = Done ((SYSPARAM_NOTFOUND, None), w').
Proof.
  intros Hst Hun Ha Hal Hin Hnone Hlt H5 Hlast. pose proof Ha as [Hkl Hkb Hn Hnl Hvb].
  pose proof (store_relock w es (Some true) (w_alloc w) (w_live w) Hst) as Hl. set (wl := relock _ _ _ _) in Hl.
  pose proof Hl as [H Hwf _ _ _]. pose proof (region_bounds _ _ H) as B. pose proof (dead_size_bounds es) as Hd.
  change (region_top (w_info w)) with (region_top (w_info wl)) in *. change (end_addr (w_info w)) with (end_addr (w_info wl)) in *.
  destruct (set_locked_miss wl es key value n binary Hl Ha Hnone H5) as (lc & ctx' & fb & Hold & Hid & Hfind & Hc' & Hset).
  destruct Hid as [[? _]|(ke & Hke & Hname & Hid)]; [done|]. pose proof Hname as [Hlk Hpay]%names_true.
  assert (Hkid : key_id_of es key = e_id ke).
  { unfold key_id_of. by rewrite (proj2 (find_name_iff es key ke Hwf)). }
  pose proof (key_id_range es ke Hwf Hke Hlk) as Hidr.
  assert (Hnp : forall p, p ∈ pairs es -> Some (e_id ke) <> Some (e_id (fst p))) by (by apply (no_pair_of_deleted es key)).
  pose proof (set_room_short wl es lc ctx' fb (4 + n) Hl Hal ltac:(lia) Hfind) as Hroom.
  assert (Hrec : reclaimable (4 + n) (free_bytes wl) (c_compactable ctx') (c_unused_keys ctx') = true).
  { unfold reclaimable. rewrite Hc', u32_small, (proj2 (Z.leb_le _ _)) by lia. done. }
  rewrite Hrec, Hid in Hroom. destruct Hroom as (w1 & Hcp & Hroom). pose proof (compaction_free _ _ _ _ Hcp) as Hfree.
  pose proof (compacted_reclaims (Some (e_id ke)) es Hwf) as Hrc.
  assert (Hge : 4 + n <= room_after wl (e_id ke) es) by (unfold room_after, region_top in *; lia).
  rewrite Hfree, (proj2 (Z.ltb_ge _ _) Hge) in Hroom.
  assert (Hnsp : needed_space (l_key_id lc) key n = 4 + n).
  { unfold needed_space. rewrite Hid, (proj2 (Z.ltb_ge _ _)) by lia. lia. }
  rewrite <-Hnsp in Hroom. pose proof (cp_store _ _ _ _ Hcp) as Hst1.
  assert (Hloc : l_key_id (compact_locals wl (e_id ke) es) = e_id ke) by (cbn; by rewrite ckid_other).
  assert (Hrun : exists w2, set_data_locked key (Z.of_nat (length key)) value n binary wl = Done (SYSPARAM_OK, w2) /\
    region_holds w2 (compacted (Some (e_id ke)) es ++ [val_entry (e_id ke) binary (val_of value n)]) /\
    sem (w_info w2) = Some true).
  { rewrite Hset, (set_write_compacted wl w1 _ lc (compact_locals wl (e_id ke) es) key value n binary Hst1 eq_refl
      ltac:(rewrite Hloc; lia) ltac:(lia) Hroom).
    rewrite Hkid in Hlast. change (room_after w) with (room_after wl) in Hlast.
    destruct (set_append_known w1 _ (compact_locals wl (e_id ke) es) key value n binary (st_region _ _ Hst1))
      as (w2 & Hap & Hr2 & Hi2 & _); rewrite ?Hloc; try done; try lia.
    rewrite Hloc in Hr2. exists w2. split; [done|]. split; [done|]. rewrite Hi2. cbn. by rewrite (cp_sem _ _ _ _ Hcp). }
  destruct Hrun as (w2 & Hrun & Hr2 & Hsem).
  unfold sysparam_set_data, strlen. rewrite u16_small by lia. rewrite (proj2 (Z.eqb_neq _ _)) by lia.
  unfold MAX_KEY_LEN, MAX_VALUE_LEN. rewrite (proj2 (Z.ltb_ge 0xffff _)) by lia. rewrite (proj2 (Z.ltb_ge 0xffff n)) by lia.
  run (take_mutex w Hun). fold wl. cbn [default]. run Hrun.
  erewrite bind_Done by (eapply give_mutex; exact Hsem). eexists. split; [reflexivity|].
  apply get_data_unnamed with (compacted (Some (e_id ke)) es ++ [val_entry (e_id ke) binary (val_of value n)]);
    [destruct Hr2 as [? [] ? ? ? ? ? ?]; by split|done|lia|].
  destruct (val_entry_facts (e_id ke) binary (val_of value n) ltac:(lia)) as (G1 & G2 & _).
  rewrite key_names_app, key_names_cons, G2. cbn [app]. rewrite app_nil_r. by apply compacted_drops_name.
Qed.

(** A failing write that destroys data.  When a value too large for the
    region is stored under a key that has a value, while some other key has
    been deleted, [sysparam_set_data] reports [SYSPARAM_ERR_FULL] and the
    old value of the key is gone. *)
Theorem sysparam_failed_set_drops_value w es key value n binary b' v' :
  store w es -> unlocked w -> set_args key value n -> w_alloc w = [] -> kv es key = Some (b', v') ->
  region_size (w_info w) < n -> 0 < count_live es ->
  exists w' es', sysparam_set_data key (Some value) n binary w = Done (SYSPARAM_ERR_FULL, w') /\
    store w' es' /\ unlocked w' /\ kv es' key = None.
Proof.
  intros Hst Hun Ha Hal Hval Hbig Hunused. pose proof Ha as [Hkl Hkb Hn Hnl Hvb].
  pose proof (store_relock w es (Some true) (w_alloc w) (w_live w) Hst) as Hl. set (wl := relock _ _ _ _) in Hl.
  pose proof Hl as [H Hwf _ _ _]. pose proof (region_bounds _ _ H) as B. pose proof (dead_size_bounds es) as Hd.
  change (region_size (w_info w)) with (region_size (w_info wl)) in Hbig.
  assert (Hvl : Z.of_nat (length v') < n).
  { apply kv_binds in Hval as (ke & ve & _ & _ & _ & Hve & _ & _ & _ & Hv); [|done].
    apply list_elem_of_split in Hve as (l & r & Hes). subst es. rewrite log_size_app, log_size_cons in B.
    pose proof (log_size_nonneg l). pose proof (log_size_nonneg r).
    unfold e_size, ENTRY_SIZE, ENTRY_HEADER_SIZE, e_len in B. rewrite Hv in B. unfold region_top in *. lia. }
  assert (Hdiff : (b', v') <> (binary, val_of value n)).
  { intros [= _ Heq]. rewrite Heq in Hvl. unfold val_of in Hvl. rewrite length_take in Hvl. lia. }
  destruct (set_locked_old wl es key value n binary b' v' Hl Ha Hval Hdiff)
    as (ke & ve & lc & ctx' & Hname & Hpair & Hnm & Hv' & Hid & Hfind & Hc' & Hu' & Hset).
  pose proof Hpair as (Hin & Hlk & _)%pairs_elem. cbn [fst snd] in Hin, Hlk. pose proof (key_id_range es ke Hwf Hin Hlk).
  assert (Hnsp : needed_space (l_key_id lc) key n = 4 + n).
  { unfold needed_space. rewrite Hid, (proj2 (Z.ltb_ge _ _)) by lia. lia. }
  pose proof (set_room_short wl es lc ctx' false (needed_space (l_key_id lc) key n) Hl Hal) as Hroom.
  assert (Hshort : free_bytes wl < needed_space (l_key_id lc) key n) by (unfold region_top in *; lia).
  specialize (Hroom Hshort Hfind).
  assert (Hrec : reclaimable (needed_space (l_key_id lc) key n) (free_bytes wl) (c_compactable ctx') (c_unused_keys ctx') = true).
  { unfold reclaimable. rewrite Hu', (proj2 (Z.ltb_lt _ _)) by lia. apply orb_true_r. }
  rewrite Hrec in Hroom. destruct Hroom as (w1 & Hcp & Hroom). rewrite Hid in Hcp.
  pose proof (compaction_free _ _ _ _ Hcp) as Hfree. pose proof (log_size_nonneg (compacted (Some (e_id ke)) es)).
  rewrite (proj2 (Z.ltb_lt (free_bytes w1) _)) in Hroom by (rewrite Hfree; unfold room_after; lia).
  assert (Hrun : set_data_locked key (Z.of_nat (length key)) value n binary wl = Done (SYSPARAM_ERR_FULL, w1)).
  { rewrite Hset. unfold bind at 1, set_write, ENTRY_SIZE, ENTRY_HEADER_SIZE, strlen. rewrite u16_small by lia.
    fold (needed_space (l_key_id lc) key n). run Hroom. done. }
  unfold sysparam_set_data, strlen. rewrite u16_small by lia. rewrite (proj2 (Z.eqb_neq _ _)) by lia.
  unfold MAX_KEY_LEN, MAX_VALUE_LEN. rewrite (proj2 (Z.ltb_ge 0xffff _)) by lia. rewrite (proj2 (Z.ltb_ge 0xffff n)) by lia.
  run (take_mutex w Hun). fold wl. cbn [default]. run Hrun.
  erewrite bind_Done by (eapply give_mutex; rewrite (cp_sem _ _ _ _ Hcp); reflexivity). eexists _, _.
  split; [reflexivity|]. split; [apply store_relock, (cp_store _ _ _ _ Hcp)|]. split; [done|].
  rewrite compacted_drop by done. by rewrite decide_True.
Qed.

(** A buffer overrun.  [sysparam_get_bool] of a text value longer than
    eight bytes stores the terminator outside its local buffer. *)
Theorem sysparam_get_bool_overrun w es key v :
  store w es -> unlocked w -> Z.of_nat (length key) <= 65535 -> kv es key = Some (false, v) ->
  8 < Z.of_nat (length v) -> sysparam_get_bool key w = Undefined.
Proof.
  intros Hst Hun Hkl Hkv Hlen. pose proof (region_bounds _ _ (st_region _ _ Hst)) as B. unfold sysparam_get_bool.
  pose proof (get_data_static_ok w es key 8 Hst Hun Hkl ltac:(lia)) as Hg. rewrite Hkv in Hg.
  destruct Hg as (dest & Hd & _ & _ & Hrun). run Hrun. cbn [r_binary r_len r_data]. unfold buf_set.
  rewrite (proj2 (andb_false_iff _ _)); [done|]. right. apply Z.ltb_ge. rewrite length_app. cbn [length]. lia.
Qed.

(** Creating an area over the one in use clears the semaphore handle
    along with the rest of the state, so the next access, instead of
    reporting [SYSPARAM_ERR_NOINIT], takes a null semaphore. *)
Theorem sysparam_create_area_breaks_mutex w base n key :
  flash_ok (w_flash w) -> area_fits base n -> cur_base (w_info w) = base ->
  exists w', sysparam_create_area base (2 * n) true w = Done (SYSPARAM_OK, w') /\
    sysparam_get_data key w' = Undefined.
Proof.
  intros Hok Hfit Hcur. destruct (create_area_ok w base n true Hok Hfit ltac:(by left)) as (f & Hrun & _).
  eexists. split; [exact Hrun|]. unfold in_use. rewrite Hcur, Z.eqb_refl. done.
Qed.

End Defects.

(** ** The theorems applied *)

Module Cases.
Import Nor Image.

Definition k1 : list Z := [107; 49].
Definition k2 : list Z := [107; 50].
Definition old : list Z := replicate 3000 7.

(** [k1] was stored and deleted. *)
Definition deleted : list entry := [key_entry 1 k1] ++ [kill (val_entry 1 false old)].

Lemma old_ok : Z.of_nat (length old) = 3000 /\ Forall byteP old.
Proof. unfold old. rewrite length_replicate. split; [done|]. apply Forall_replicate. unfold byteP. lia. Qed.

Lemma stored_wf : updates [] [key_entry 1 k1; val_entry 1 false old] k1 (Some (false, old)).
Proof.
  destruct old_ok as [Hl Hb].
  apply (updates_new [] k1 false old wf_nil); [constructor|cbn; lia| |lia|done|cbn; unfold MAX_KEY_ID; lia].
  repeat constructor; unfold byteP; lia.
Qed.

Lemma deleted_wf : wf_log deleted /\ kv deleted k1 = None.
Proof.
  destruct stored_wf as [Hwf _]. destruct old_ok as [Hl Hb].
  destruct (updates_kill [key_entry 1 k1] (val_entry 1 false old) [] (key_entry 1 k1) k1) as [H1 H2];
    [exact Hwf|reflexivity|set_solver|reflexivity|reflexivity|]. split; [exact H1|]. unfold deleted. rewrite H2. by rewrite decide_True.
Qed.

Lemma deleted_size : log_size deleted = 3010 /\ dead_size deleted = 3004.
Proof.
  destruct old_ok as [Hl _]. unfold deleted. rewrite log_size_app, dead_size_app, !log_size_cons, !dead_size_cons.
  rewrite kill_size, kill_dead. unfold e_size, ENTRY_SIZE, ENTRY_HEADER_SIZE, e_len. cbn [key_entry val_entry mk_entry e_payload].
  rewrite Hl. done.
Qed.

Lemma deleted_store : store (image_world deleted) deleted.
Proof. destruct deleted_size as [Hs _]. apply image_store; [apply deleted_wf|lia|lia]. Qed.

Lemma big_args k n : (k = k1 \/ k = k2) -> 1 <= n <= 65535 -> set_args k (replicate (Z.to_nat n) 1) n.
Proof.
  intros Hk Hn. split; [destruct Hk as [-> | ->]; cbn; lia| |done|rewrite length_replicate; lia|].
  - destruct Hk as [-> | ->]; repeat constructor; unfold byteP; lia.
  - unfold val_of. apply Forall_take, Forall_replicate. unfold byteP. lia.
Qed.

(** Then [k2] was stored. *)
Definition both : list entry := deleted ++ [key_entry 2 k2; val_entry 2 false [1; 2; 3]].

Lemma both_wf : updates deleted both k2 (Some (false, [1; 2; 3])).
Proof.
  apply (updates_new deleted k2 false [1; 2; 3]); [apply deleted_wf| |cbn; lia| |cbn; lia| |vm_compute; reflexivity].
  - apply names_absent. unfold deleted. rewrite key_names_app, !key_names_cons, kill_dead_key.
    change (live_key (key_entry 1 k1)) with true. cbn. unfold k1, k2. set_solver by lia.
  - repeat constructor; unfold byteP; lia.
  - repeat constructor; unfold byteP; lia.
Qed.

Lemma both_store : store (image_world both) both.
Proof.
  destruct deleted_size as [Hs _]. apply image_store; [apply both_wf|..]; unfold both; rewrite log_size_app, Hs;
    vm_compute; congruence.
Qed.
End Cases.
Import Nor Image Cases.

Lemma sysparam_set_data_lost_write_witness :
  exists w', sysparam_set_data k1 (Some (replicate (Z.to_nat 2000) 1)) 2000 false (image_world deleted) =
      Done (SYSPARAM_OK, w') /\
    sysparam_get_data k1 w' = Done ((SYSPARAM_NOTFOUND, None), w').
Proof.
  destruct deleted_size as [Hs Hd]. destruct deleted_wf as [Hwf Hkv].
  apply (sysparam_set_data_lost_write (image_world deleted) deleted k1 _ 2000 false deleted_store);
    [reflexivity|apply big_args; [by left|lia]|reflexivity| |exact Hkv|..].
  - unfold deleted. rewrite key_names_app, key_names_cons. set_solver.
  - rewrite Hd. unfold region_top. cbn [w_info image_world set_end_addr area_info end_addr cur_base region_size]. rewrite Hs. lia.
  - unfold region_top. cbn [w_info image_world set_end_addr area_info end_addr cur_base region_size]. rewrite Hs. lia.
  - unfold room_after. cbn [w_info image_world set_end_addr area_info region_size].
    pose proof (compacted_reclaims (Some (key_id_of deleted k1)) deleted Hwf).
    pose proof (log_size_nonneg (compacted (Some (key_id_of deleted k1)) deleted)). lia.
Defined.

Lemma sysparam_failed_set_drops_value_witness :
  exists w' es', sysparam_set_data k2 (Some (replicate (Z.to_nat 5000) 1)) 5000 false (image_world both) =
      Done (SYSPARAM_ERR_FULL, w') /\ store w' es' /\ kv es' k2 = None.
Proof.
  destruct (sysparam_failed_set_drops_value (image_world both) both k2 (replicate (Z.to_nat 5000) 1) 5000 false false [1; 2; 3])
    as (w' & es' & H & Hst & _ & Hkv).
  - exact both_store.
  - reflexivity.
  - apply big_args; [by right|lia].
  - reflexivity.
  - destruct both_wf as [_ H]. rewrite H. by rewrite decide_True.
  - cbn. lia.
  - vm_compute. reflexivity.
  - exists w', es'. split; [exact H|split; [exact Hst|exact Hkv]].
Defined.

Lemma sysparam_get_bool_overrun_witness : exists w : world (Driver.flash_state nor), sysparam_get_bool k1 w = Undefined.
Proof.
  destruct stored_wf as [Hwf Hkv]. destruct old_ok as [Hl _].
  exists (image_world [key_entry 1 k1; val_entry 1 false old]).
  assert (Hs : log_size [key_entry 1 k1; val_entry 1 false old] = 3010).
  { rewrite !log_size_cons. unfold e_size, ENTRY_SIZE, ENTRY_HEADER_SIZE, e_len. cbn [key_entry val_entry mk_entry e_payload].
    rewrite Hl. done. }
  apply (sysparam_get_bool_overrun _ [key_entry 1 k1; val_entry 1 false old] k1 old).
  - apply image_store; [exact Hwf|rewrite Hs; lia|rewrite Hs; lia].
  - reflexivity.
  - vm_compute. congruence.
  - rewrite Hkv. by rewrite decide_True.
  - rewrite Hl. lia.
Defined.

Lemma sysparam_create_area_breaks_mutex_witness :
  exists w', sysparam_create_area 0x300000 2 true (image_world []) = Done (SYSPARAM_OK, w') /\
    sysparam_get_data k1 w' = Undefined.
Proof.
  apply (sysparam_create_area_breaks_mutex (image_world []) 0x300000 1 k1); [by split| |reflexivity].
  split; [lia|]. split; [reflexivity|]. split; [unfold REGION_MASK_SIZE; lia|]. vm_compute. congruence.
Defined.
