(* ===== verification/SdkFlash.v ===== *)
(** * The SDK flash and RTC memory calls

    [open_esplibs/libmain/spi_flash.c] and the RTC memory functions of
    [open_esplibs/libmain/user_interface.c].  The routines in the boot ROM
    are the class [SpiRom], whose laws are those of a serial NOR flash behind
    them; [Calls] translates the functions, and the class [SdkFlash] with its
    laws is what the code above (the rboot API) relies on. *)

From S2P Require Import Prelude Flash.

(** ** The boot ROM *)

Module Rom.

(** Routines of [core/include/esp/rom.h] return 0 on success.
    [SPI_read_data] also gives the bytes it stored. *)
Class SpiRom (D : Type) := {
  rom_cell : D -> Z -> Z;
  rom_wel : D -> bool;
  SPI_page_program : Z -> (Z -> Z) -> Z -> D -> Z * D;
  SPI_read_data : Z -> Z -> D -> Z * list Z;
  SPI_write_enable : D -> Z * D;
  SPI_sector_erase : Z -> D -> Z * D;
  SPI_read_status : D -> Z * Z;
  SPI_write_status : Z -> D -> Z * D;
  Wait_SPI_Idle : D -> D;
  Enable_QMode : D -> D;
  Disable_QMode : D -> D;
  (** the word the controller leaves in [W[0]] after the [READ_ID] command *)
  cmd_READ_ID : D -> Z;
}.

(** The ROM routines on a chip in good order: a page program inside one page
    clears bits (a program of no bytes does nothing), a read gives the bytes
    of the array, an erase of an aligned sector needs the write enable. *)
Class SpiRomLaws (D : Type) `{SpiRom D} (chip : sdk_flashchip_t) := {
  rom_cell_byte d x : byteP (rom_cell d x);
  rom_program d a buf n :
    0 <= a -> 0 <= n -> a mod 256 + n <= 256 -> a + n <= chip_size chip ->
    fst (SPI_page_program a buf n d) = 0 /\
    forall x, rom_cell (snd (SPI_page_program a buf n d)) x = and_bytes (rom_cell d) a buf n x;
  rom_read d a n :
    0 <= a -> 0 <= n -> a + n <= chip_size chip ->
    SPI_read_data a n d = (0, cells (rom_cell d) a n);
  rom_wren d :
    fst (SPI_write_enable d) = 0 /\ rom_wel (snd (SPI_write_enable d)) = true /\
    forall x, rom_cell (snd (SPI_write_enable d)) x = rom_cell d x;
  rom_erase d a :
    rom_wel d = true -> 0 <= a -> a mod 4096 = 0 -> a + 4096 <= chip_size chip ->
    fst (SPI_sector_erase a d) = 0 /\
    forall x, rom_cell (snd (SPI_sector_erase a d)) x = erase_bytes (rom_cell d) a 4096 x;
}.

End Rom.

(** ** The calls *)

(** [sdk_SpiFlashOpResult] of [include/espressif/spi_flash.h]. *)
Inductive sdk_SpiFlashOpResult :=
| SPI_FLASH_RESULT_OK
| SPI_FLASH_RESULT_ERR
| SPI_FLASH_RESULT_TIMEOUT.

#[export] Instance sdk_SpiFlashOpResult_eq_dec : EqDecision sdk_SpiFlashOpResult.
Proof. solve_decision. Defined.

Definition result_code (r : sdk_SpiFlashOpResult) : Z :=
  match r with
  | SPI_FLASH_RESULT_OK => 0
  | SPI_FLASH_RESULT_ERR => 1
  | SPI_FLASH_RESULT_TIMEOUT => 2
  end.

(** The chip description the file initialises [sdk_flashchip] with. *)
Definition sdk_flashchip_init : sdk_flashchip_t := {|
  device_id := 0x001640ef;
  chip_size := 4 * 1024 * 1024;
  block_size := 65536;
  sector_size := 4096;
  page_size := 256;
  status_mask := 0x0000ffff;
|}.

Lemma sdk_flashchip_geometry : chip_geometry sdk_flashchip_init.
Proof. split; cbn; lia. Qed.

Module Calls.
Import Rom.

Section Calls.
Context {D : Type} `{!SpiRom D}.
Variable sdk_flashchip : sdk_flashchip_t.

Record state := {
  st_dev : D;
  st_critical : Z;
  st_cache : bool;
  (** the [CTRL0] register of SPI controller 0 *)
  st_CTRL0 : Z;
}.

Definition set_dev (d : D) : M state unit :=
  modify (fun s => {| st_dev := d; st_critical := st_critical s; st_cache := st_cache s; st_CTRL0 := st_CTRL0 s |}).

(** Call of a ROM routine: its result code, with the device updated. *)
Definition rom_call (f : D -> Z * D) : M state Z :=
  let! s := get in
  do! set_dev (snd (f (st_dev s))) then
  ret (fst (f (st_dev s))).

Definition portENTER_CRITICAL : M state unit :=
  modify (fun s => {| st_dev := st_dev s; st_critical := st_critical s + 1; st_cache := st_cache s; st_CTRL0 := st_CTRL0 s |}).
Definition portEXIT_CRITICAL : M state unit :=
  modify (fun s => {| st_dev := st_dev s; st_critical := st_critical s - 1; st_cache := st_cache s; st_CTRL0 := st_CTRL0 s |}).
Definition Cache_Read_Disable : M state unit :=
  modify (fun s => {| st_dev := st_dev s; st_critical := st_critical s; st_cache := false; st_CTRL0 := st_CTRL0 s |}).
Definition Cache_Read_Enable : M state unit :=
  modify (fun s => {| st_dev := st_dev s; st_critical := st_critical s; st_cache := true; st_CTRL0 := st_CTRL0 s |}).
Definition set_CTRL0 (v : Z) : M state unit :=
  modify (fun s => {| st_dev := st_dev s; st_critical := st_critical s; st_cache := st_cache s; st_CTRL0 := v |}).

Definition SPI_CTRL0_QIO_MODE : Z := Z.shiftl 1 24.
Definition SPI_CTRL0_DIO_MODE : Z := Z.shiftl 1 23.
Definition SPI_CTRL0_QOUT_MODE : Z := Z.shiftl 1 20.
Definition SPI_CTRL0_DOUT_MODE : Z := Z.shiftl 1 14.
Definition SPI_CTRL0_FASTRD_MODE : Z := Z.shiftl 1 13.

Definition SPI_CTRL0_MODES : Z :=
  Z.lor (Z.lor (Z.lor (Z.lor SPI_CTRL0_FASTRD_MODE SPI_CTRL0_DOUT_MODE) SPI_CTRL0_QOUT_MODE)
    SPI_CTRL0_DIO_MODE) SPI_CTRL0_QIO_MODE.

Definition mode_bits (mode : Z) : Z :=
  if mode =? 0 then Z.lor SPI_CTRL0_FASTRD_MODE SPI_CTRL0_QIO_MODE
  else if mode =? 1 then Z.lor SPI_CTRL0_FASTRD_MODE SPI_CTRL0_QOUT_MODE
  else if mode =? 2 then Z.lor SPI_CTRL0_FASTRD_MODE SPI_CTRL0_DIO_MODE
  else if mode =? 3 then Z.lor SPI_CTRL0_FASTRD_MODE SPI_CTRL0_DOUT_MODE
  else if mode =? 4 then SPI_CTRL0_FASTRD_MODE
  else 0.

Definition sdk_SPIReadModeCnfig (mode : Z) : M state Z :=
  let! s := get in
  do! set_CTRL0 (Z.ldiff (st_CTRL0 s) SPI_CTRL0_MODES) then
  let ctrl_bits := mode_bits mode in
  do! (if (mode =? 0) || (mode =? 1) then set_dev (Enable_QMode (st_dev s))
       else set_dev (Disable_QMode (st_dev s))) then
  let! s := get in
  do! set_CTRL0 (Z.lor (st_CTRL0 s) ctrl_bits) then
  ret 0.

(** The [for] loop over the full pages; [src_addr] is a pointer to words, so
    [src_addr + pos / 4] is [4 * (pos / 4)] bytes further. *)
Fixpoint write_full_pages (n : nat) (des_addr : Z) (src_addr : Z -> Z) (pos : Z)
    : M state (option Z) :=
  match n with
  | O => ret (Some pos)
  | S n =>
    let! r := rom_call (SPI_page_program (u32 (des_addr + pos))
                (fun i => src_addr (4 * (pos / 4) + i)) (page_size sdk_flashchip)) in
    if negb (r =? 0) then ret None
    else write_full_pages n des_addr src_addr (u32 (pos + page_size sdk_flashchip))
  end.

Definition sdk_SPIWrite (des_addr : Z) (src_addr : Z -> Z) (size : Z) : M state sdk_SpiFlashOpResult :=
  if chip_size sdk_flashchip <? u32 (des_addr + size) then ret SPI_FLASH_RESULT_ERR
  else
    let first_page_portion := page_size sdk_flashchip - des_addr mod page_size sdk_flashchip in
    if size <? first_page_portion then
      let! r := rom_call (SPI_page_program des_addr src_addr size) in
      ret (if r =? 0 then SPI_FLASH_RESULT_OK else SPI_FLASH_RESULT_ERR)
    else
      let! r := rom_call (SPI_page_program des_addr src_addr first_page_portion) in
      if negb (r =? 0) then ret SPI_FLASH_RESULT_ERR
      else
        let pos := first_page_portion in
        let bytes_remaining := size - first_page_portion in
        let full_pages := bytes_remaining / page_size sdk_flashchip in
        let! p := write_full_pages (Z.to_nat full_pages) des_addr src_addr pos in
        match p with
        | None => ret SPI_FLASH_RESULT_ERR
        | Some pos =>
          let bytes_remaining := if full_pages =? 0 then bytes_remaining else u32 (size - pos) in
          let! r := rom_call (SPI_page_program (u32 (des_addr + pos))
                      (fun i => src_addr (4 * (pos / 4) + i)) bytes_remaining) in
          ret (if r =? 0 then SPI_FLASH_RESULT_OK else SPI_FLASH_RESULT_ERR)
        end.

(** The bytes stored to [des_addr] come with the result. *)
Definition sdk_SPIRead (src_addr size : Z) : M state (sdk_SpiFlashOpResult * list Z) :=
  let! s := get in
  let '(r, bs) := SPI_read_data src_addr size (st_dev s) in
  ret (if r =? 0 then SPI_FLASH_RESULT_OK else SPI_FLASH_RESULT_ERR, bs).

Definition sdk_SPIEraseSector (sec : Z) : M state sdk_SpiFlashOpResult :=
  if chip_size sdk_flashchip / sector_size sdk_flashchip <=? sec then ret SPI_FLASH_RESULT_ERR
  else
    let! r := rom_call SPI_write_enable in
    if negb (r =? 0) then ret SPI_FLASH_RESULT_ERR
    else
      let! r := rom_call (SPI_sector_erase (u32 (sector_size sdk_flashchip * sec))) in
      ret (if r =? 0 then SPI_FLASH_RESULT_OK else SPI_FLASH_RESULT_ERR).

(** What every call below does around its work: a critical section with the
    flash cache off. *)
Definition uncached {A} (body : M state A) : M state A :=
  do! portENTER_CRITICAL then
  do! Cache_Read_Disable then
  let! result := body in
  do! Cache_Read_Enable then
  do! portEXIT_CRITICAL then
  ret result.

Definition sdk_spi_flash_get_id : M state Z :=
  uncached (
    let! s := get in
    do! set_dev (Wait_SPI_Idle (st_dev s)) then
    let! s := get in
    ret (Z.land (cmd_READ_ID (st_dev s)) 0x00ffffff)).

Definition status_result (r : Z) : sdk_SpiFlashOpResult :=
  if r =? 0 then SPI_FLASH_RESULT_OK else if r =? 1 then SPI_FLASH_RESULT_ERR else SPI_FLASH_RESULT_TIMEOUT.

Definition sdk_spi_flash_read_status : M state (sdk_SpiFlashOpResult * Z) :=
  uncached (
    let! s := get in
    let '(r, status) := SPI_read_status (st_dev s) in
    ret (status_result r, status)).

Definition sdk_spi_flash_write_status (status : Z) : M state sdk_SpiFlashOpResult :=
  uncached (
    let! r := rom_call (SPI_write_status status) in
    ret (status_result r)).

(** The parameter [sec] is 16 bits wide. *)
Definition sdk_spi_flash_erase_sector (sec : Z) : M state sdk_SpiFlashOpResult :=
  uncached (sdk_SPIEraseSector (u16 sec)).

(** [src_addr] is [None] for a null pointer. *)
Definition sdk_spi_flash_write (des_addr : Z) (src_addr : option (Z -> Z)) (size : Z)
    : M state sdk_SpiFlashOpResult :=
  match src_addr with
  | None => ret SPI_FLASH_RESULT_ERR
  | Some src_addr =>
    let size := if negb (Z.land size 3 =? 0) then u32 (Z.ldiff size 3 + 4) else size in
    uncached (sdk_SPIWrite des_addr src_addr size)
  end.

(** [des_null]: is the destination a null pointer? *)
Definition sdk_spi_flash_read (src_addr : Z) (des_null : bool) (size : Z)
    : M state (sdk_SpiFlashOpResult * list Z) :=
  if des_null then ret (SPI_FLASH_RESULT_ERR, [])
  else uncached (sdk_SPIRead src_addr size).

End Calls.
Arguments state : clear implicits.
End Calls.

(** ** The interface for the code above

    What the functions of the rboot API use: writes and reads of the flash by
    byte address and erases by sector number. *)

Class SdkFlash (F : Type) := {
  sf_chip_size : Z;
  sf_cell : F -> Z -> Z;
  spi_flash_read : Z -> Z -> M F (sdk_SpiFlashOpResult * list Z);
  spi_flash_write : Z -> (Z -> Z) -> Z -> M F sdk_SpiFlashOpResult;
  spi_flash_erase_sector : Z -> M F sdk_SpiFlashOpResult;
}.

Class SdkFlashLaws (F : Type) `{SdkFlash F} := {
  sf_ok : F -> Prop;
  sf_size_bound : 0 <= sf_chip_size <= 2 ^ 24;
  sf_cell_byte f x : sf_ok f -> byteP (sf_cell f x);
  sf_read_ok f a n :
    sf_ok f -> 0 <= a -> 0 <= n -> a + n <= sf_chip_size ->
    spi_flash_read a n f = Done ((SPI_FLASH_RESULT_OK, cells (sf_cell f) a n), f);
  (** the source is a word-aligned buffer, whole words are written *)
  sf_write_ok f a buf n :
    sf_ok f -> 0 <= a -> 0 <= n -> a mod 4 = 0 -> n mod 4 = 0 -> a + n <= sf_chip_size ->
    exists f', spi_flash_write a buf n f = Done (SPI_FLASH_RESULT_OK, f') /\ sf_ok f' /\
      forall x, sf_cell f' x = and_bytes (sf_cell f) a buf n x;
  sf_erase_ok f sec :
    sf_ok f -> 0 <= sec -> 4096 * (sec + 1) <= sf_chip_size ->
    exists f', spi_flash_erase_sector sec f = Done (SPI_FLASH_RESULT_OK, f') /\ sf_ok f' /\
      forall x, sf_cell f' x = erase_bytes (sf_cell f) (4096 * sec) 4096 x;
}.

(** ** Correctness of the calls *)

Module CallProofs.
Import Rom Calls.

Section Proofs.
Context {D : Type} `{HD : SpiRom D}.
Variable chip : sdk_flashchip_t.
Context {Laws : SpiRomLaws D chip}.
Hypothesis Hgeo : chip_geometry chip.

Abbreviation ST := (state D).
Implicit Types s : ST.

(** [s'] is [s] but for the device, whose array is [c]. *)
Definition becomes s s' (c : Z -> Z) : Prop :=
  (forall x, rom_cell (st_dev s') x = c x) /\
  st_critical s' = st_critical s /\ st_cache s' = st_cache s /\ st_CTRL0 s' = st_CTRL0 s.

Definition st_ok s : Prop := st_cache s = true.

Lemma becomes_refl s : becomes s s (rom_cell (st_dev s)).
Proof. done. Qed.

Lemma becomes_trans s s1 s2 c1 c2 c :
  becomes s s1 c1 -> becomes s1 s2 c2 -> (forall x, c2 x = c x) -> becomes s s2 c.
Proof. intros (_ & ? & ? & ?) (E & ? & ? & ?) Hc. split; [|repeat split; congruence]. intros x. by rewrite E. Qed.

Lemma program_ok s a buf n :
  0 <= a -> 0 <= n -> a mod 256 + n <= 256 -> a + n <= chip_size chip ->
  exists s', rom_call (SPI_page_program a buf n) s = Done (0, s') /\
    becomes s s' (and_bytes (rom_cell (st_dev s)) a buf n).
Proof.
  intros Ha Hn Hp Hc. destruct (rom_program (st_dev s) a buf n) as [H1 H2]; [done..|].
  unfold rom_call, set_dev, modify, ret, bind, get. cbn. rewrite H1.
  eexists. split; [reflexivity|]. by split; [exact H2|].
Qed.

Lemma write_full_pages_ok n : forall s a buf pos,
  0 <= a -> 0 <= pos -> pos mod 4 = 0 -> (a + pos) mod 256 = 0 ->
  a + pos + 256 * Z.of_nat n <= chip_size chip ->
  exists s', write_full_pages chip n a buf pos s = Done (Some (pos + 256 * Z.of_nat n), s') /\
    becomes s s' (and_bytes (rom_cell (st_dev s)) (a + pos) (fun i => buf (i + pos)) (256 * Z.of_nat n)).
Proof.
  pose proof (geo_chip _ Hgeo) as [_ Hchip].
  induction n as [|n IH]; intros s a buf pos Ha Hp Hw Hal Hb; cbn [write_full_pages].
  - exists s. rewrite Z.mul_0_r, Z.add_0_r. split; [done|]. split; [|done]. intros x.
    unfold and_bytes. case_if; [zbool; lia|done].
  - rewrite (geo_page _ Hgeo), !u32_small by lia.
    edestruct (program_ok s (a + pos) (fun i => buf (4 * (pos / 4) + i)) 256) as (s1 & H1 & B1); [lia..|].
    run H1. cbn [Z.eqb negb].
    destruct (IH s1 a buf (pos + 256)) as (s2 & H2 & B2); [divlia..|].
    exists s2. rewrite H2. split; [do 3 f_equal; lia|].
    apply (becomes_trans _ _ _ _ _ _ B1 B2). intros x. destruct B1 as [B1 _].
    replace (256 * Z.of_nat (S n)) with (256 + 256 * Z.of_nat n) by lia.
    rewrite <-and_bytes_compose by lia.
    transitivity (and_bytes (rom_cell (st_dev s1)) (a + pos + 256) (fun i => buf (i + 256 + pos)) (256 * Z.of_nat n) x).
    + unfold and_bytes. replace (a + (pos + 256)) with (a + pos + 256) by lia.
      case_if; [do 2 f_equal; lia|done].
    + apply and_bytes_ext. intros y. rewrite B1. unfold and_bytes. case_if; [do 2 f_equal; divlia|done].
Qed.

Lemma and_bytes_buf c a buf buf' n x :
  (forall i, 0 <= i < n -> buf i = buf' i) -> and_bytes c a buf n x = and_bytes c a buf' n x.
Proof. intros H. unfold and_bytes. case_if; [|done]. zbool. f_equal. apply H. lia. Qed.

Lemma sdk_SPIWrite_ok s a buf n :
  0 <= a -> 0 <= n -> a mod 4 = 0 -> a + n <= chip_size chip ->
  exists s', sdk_SPIWrite chip a buf n s = Done (SPI_FLASH_RESULT_OK, s') /\
    becomes s s' (and_bytes (rom_cell (st_dev s)) a buf n).
Proof.
  intros Ha Hn Hal Hc. pose proof (geo_chip _ Hgeo) as [_ Hchip]. unfold sdk_SPIWrite.
  rewrite (geo_page _ Hgeo), u32_small by lia. case_if; zbool; [lia|].
  pose proof (Z.mod_pos_bound a 256 ltac:(lia)) as Hm. set (w := 256 - a mod 256).
  assert (Hw : w mod 4 = 0 /\ (a + w) mod 256 = 0) by (subst w; split; divlia).
  case_if; zbool.
  - destruct (program_ok s a buf n) as (s1 & H1 & B1); [lia..|]. run H1. by exists s1.
  - destruct (program_ok s a buf w) as (s1 & H1 & B1); [lia..|]. run H1. cbn [Z.eqb negb].
    set (k := (n - w) / 256). assert (Hk : 0 <= k /\ 256 * k <= n - w < 256 * k + 256) by (subst k; divlia).
    destruct (write_full_pages_ok (Z.to_nat k) s1 a buf w) as (s2 & H2 & B2); [lia..|].
    rewrite Z2Nat.id in * by lia. run H2. set (p := w + 256 * k) in *.
    replace (if k =? 0 then n - w else u32 (n - p)) with (n - p)
      by (case_if; zbool; [lia|rewrite u32_small by lia; lia]).
    rewrite u32_small by lia.
    assert (Hp : p mod 4 = 0 /\ (a + p) mod 256 = 0) by (subst p; split; divlia).
    destruct (program_ok s2 (a + p) (fun i => buf (4 * (p / 4) + i)) (n - p)) as (s3 & H3 & B3); [lia..|].
    run H3. exists s3. split; [done|].
    refine (becomes_trans _ _ _ _ _ _ (becomes_trans _ _ _ _ _ _ B1 B2 (fun x => eq_refl)) B3 _).
    intros x. destruct B1 as [B1 _], B2 as [B2 _].
    rewrite (and_bytes_buf _ _ _ (fun i => buf (i + p))) by (intros; f_equal; divlia).
    replace n with (p + (n - p)) at 2 by lia. rewrite <-and_bytes_compose by lia.
    apply and_bytes_ext. intros y. rewrite B2. unfold p. rewrite <-and_bytes_compose by lia.
    apply and_bytes_ext. intros z. by rewrite B1.
Qed.

Lemma uncached_ok {A} (body : M ST A) s (r : A) c :
  (forall s0, st_dev s0 = st_dev s -> exists s', body s0 = Done (r, s') /\ becomes s0 s' c) ->
  st_ok s -> exists s', uncached body s = Done (r, s') /\ becomes s s' c.
Proof.
  intros H Hok. unfold uncached. do 2 (erewrite bind_Done by reflexivity).
  edestruct H as (s1 & H1 & Hc & Hcr & _ & Hct); [|run H1]; [done|].
  do 2 (erewrite bind_Done by reflexivity). eexists. split; [reflexivity|].
  split; [done|]. cbn in *. split; [lia|]. unfold st_ok in Hok. by rewrite Hok, Hct.
Qed.

(** The call rounds the size up to whole words. *)
Definition words_up (n : Z) : Z := if n mod 4 =? 0 then n else 4 * (n / 4) + 4.

Lemma words_up_ok n :
  0 <= n < 2 ^ 31 -> (if negb (Z.land n 3 =? 0) then u32 (Z.ldiff n 3 + 4) else n) = words_up n.
Proof.
  intros Hn. unfold words_up. change 3 with (2 ^ 2 - 1) at 1. rewrite land_mask by lia. change (2 ^ 2) with 4.
  destruct (n mod 4 =? 0) eqn:E; [done|]. cbn [negb].
  change 3 with (Z.ones 2). rewrite Z.ldiff_ones_r, Z.shiftl_mul_pow2, Z.shiftr_div_pow2 by lia.
  change (2 ^ 2) with 4. rewrite u32_small by (zbool; divlia). lia.
Qed.

Lemma words_up_range n : n <= words_up n < n + 4.
Proof. unfold words_up. case_if; zbool; divlia. Qed.

Lemma sdk_spi_flash_write_ok s a buf n :
  0 <= a -> 0 <= n -> a mod 4 = 0 -> a + words_up n <= chip_size chip -> st_ok s ->
  exists s', sdk_spi_flash_write chip a (Some buf) n s = Done (SPI_FLASH_RESULT_OK, s') /\
    becomes s s' (and_bytes (rom_cell (st_dev s)) a buf (words_up n)).
Proof.
  intros Ha Hn Hal Hc Hok. pose proof (geo_chip _ Hgeo) as [_ Hchip]. pose proof (words_up_range n).
  unfold sdk_spi_flash_write. rewrite words_up_ok by lia.
  apply uncached_ok; [|done]. intros s0 <-. apply sdk_SPIWrite_ok; done || lia.
Qed.

Lemma sdk_spi_flash_write_past s a buf n :
  0 <= a -> 0 <= n < 2 ^ 31 -> a + n < 2 ^ 31 -> chip_size chip < a + words_up n -> st_ok s ->
  exists s', sdk_spi_flash_write chip a (Some buf) n s = Done (SPI_FLASH_RESULT_ERR, s') /\
    becomes s s' (rom_cell (st_dev s)).
Proof.
  intros Ha Hn Han Hc Hok. pose proof (words_up_range n). unfold sdk_spi_flash_write. rewrite words_up_ok by lia.
  apply uncached_ok; [|done]. intros s0 <-. exists s0. split; [|done]. unfold sdk_SPIWrite.
  rewrite u32_small by lia. by rewrite (proj2 (Z.ltb_lt _ _)) by lia.
Qed.

Lemma sdk_spi_flash_read_ok s a n :
  0 <= a -> 0 <= n -> a + n <= chip_size chip -> st_ok s ->
  sdk_spi_flash_read a false n s = Done ((SPI_FLASH_RESULT_OK, cells (rom_cell (st_dev s)) a n), s).
Proof.
  intros Ha Hn Hc Hok. unfold sdk_spi_flash_read, uncached.
  do 2 (erewrite bind_Done by reflexivity). unfold sdk_SPIRead.
  erewrite bind_Done by (erewrite bind_Done by reflexivity; cbn [st_dev]; rewrite rom_read by done; reflexivity).
  do 2 (erewrite bind_Done by reflexivity). unfold ret. cbn. do 2 f_equal.
  unfold st_ok in Hok. destruct s. cbn in *. subst. f_equal. lia.
Qed.

Lemma sdk_spi_flash_erase_sector_ok s sec :
  0 <= sec -> 4096 * (sec + 1) <= chip_size chip -> st_ok s ->
  exists s', sdk_spi_flash_erase_sector chip sec s = Done (SPI_FLASH_RESULT_OK, s') /\
    becomes s s' (erase_bytes (rom_cell (st_dev s)) (4096 * sec) 4096).
Proof.
  intros Hs Hc Hok. pose proof (geo_chip _ Hgeo) as [_ Hchip]. unfold sdk_spi_flash_erase_sector.
  apply uncached_ok; [|done]. intros s0 <-. unfold sdk_SPIEraseSector.
  rewrite (geo_sector _ Hgeo), u16_small, u32_small by lia. case_if; zbool; [divlia|].
  destruct (rom_wren (st_dev s0)) as (H1 & H2 & H3).
  destruct (rom_erase (snd (SPI_write_enable (st_dev s0))) (4096 * sec)) as (H4 & H5); [done|divlia..|].
  unfold rom_call, set_dev, modify, bind, get, ret. cbn. rewrite H1. cbn. rewrite H4. cbn.
  eexists. split; [reflexivity|]. split; [|done]. intros x. cbn. rewrite H5.
  unfold erase_bytes. by rewrite H3.
Qed.

End Proofs.
End CallProofs.

(** The calls discharge the interface. *)
#[export] Instance calls_flash {D} `{!Rom.SpiRom D} (chip : sdk_flashchip_t) : SdkFlash (Calls.state D) := {
  sf_chip_size := chip_size chip;
  sf_cell s := Rom.rom_cell (Calls.st_dev s);
  spi_flash_read a n := Calls.sdk_spi_flash_read a false n;
  spi_flash_write a buf n := Calls.sdk_spi_flash_write chip a (Some buf) n;
  spi_flash_erase_sector sec := Calls.sdk_spi_flash_erase_sector chip sec;
}.

Lemma calls_flash_laws {D} `{!Rom.SpiRom D} (chip : sdk_flashchip_t) `{!Rom.SpiRomLaws D chip}
    (Hgeo : chip_geometry chip) : @SdkFlashLaws (Calls.state D) (calls_flash chip).
Proof.
  refine {| sf_ok := CallProofs.st_ok : Calls.state D -> Prop |}.
  - apply Hgeo.
  - intros f x _. apply Rom.rom_cell_byte.
  - intros. by apply (CallProofs.sdk_spi_flash_read_ok chip).
  - intros f a buf n Hok Ha Hn Hal Hw Hc.
    assert (CallProofs.words_up n = n) as E by (unfold CallProofs.words_up; by rewrite Hw).
    destruct (CallProofs.sdk_spi_flash_write_ok chip Hgeo f a buf n) as (s' & H1 & H2 & _ & Hca & _);
      rewrite ?E; [done..|]. rewrite E in H2. exists s'. split; [done|]. split; [|done].
    unfold CallProofs.st_ok. congruence.
  - intros f sec Hok Hs Hc.
    destruct (CallProofs.sdk_spi_flash_erase_sector_ok chip Hgeo f sec) as (s' & H1 & H2 & _ & Hca & _); [done..|].
    exists s'. split; [done|]. split; [|done]. unfold CallProofs.st_ok. congruence.
Defined.

(** ** RTC memory *)

Module Rtc.

(** [RTCMEM_SYSTEM]: 192 words, by word index. *)
Definition rtcmem := Z -> Z.

Definition word_at (buf : Z -> Z) (i : Z) : Z := le_val (cells buf (4 * i) 4).

(** The copy loops, with their 8-bit counter [i]. *)
Fixpoint rtc_write_loop (fuel : nat) (i des_addr : Z) (src_buf : Z -> Z) (words : Z) (m : rtcmem) : outcome rtcmem :=
  match fuel with
  | O => OutOfFuel
  | S fuel =>
    if i <? words then
      rtc_write_loop fuel (u8 (i + 1)) des_addr src_buf words
        (fun x => if x =? des_addr + i then word_at src_buf i else m x)
    else Done m
  end.

Fixpoint rtc_read_loop (fuel : nat) (i src_addr words : Z) (m : rtcmem) : outcome (list Z) :=
  match fuel with
  | O => OutOfFuel
  | S fuel =>
    if i <? words then
      match rtc_read_loop fuel (u8 (i + 1)) src_addr words m with
      | Done bs => Done (le_bytes 4 (m (src_addr + i)) ++ bs)
      | OutOfFuel => OutOfFuel
      | Undefined => Undefined
      end
    else Done []
  end.

Definition rtc_round (save_size : Z) : Z :=
  if negb (Z.land save_size 3 =? 0) then Z.ldiff save_size 3 + 4 else save_size.

(** [src_aligned]: is the pointer [src_addr] a multiple of 4? *)
Definition sdk_system_rtc_mem_write (des_addr : Z) (src_aligned : bool) (src_buf : Z -> Z) (save_size : Z)
    : M rtcmem bool := fun m =>
  if 191 <? des_addr then Done (false, m)
  else if negb src_aligned then Done (false, m)
  else if 768 - des_addr * 4 <? save_size then Done (false, m)
  else
    match rtc_write_loop 193 0 des_addr src_buf (Z.shiftr (rtc_round save_size) 2) m with
    | Done m => Done (true, m)
    | OutOfFuel => OutOfFuel
    | Undefined => Undefined
    end.

(** The bytes stored to the destination, or [None] for [false]. *)
Definition sdk_system_rtc_mem_read (src_addr : Z) (des_aligned : bool) (save_size : Z)
    : M rtcmem (option (list Z)) := fun m =>
  if 191 <? src_addr then Done (None, m)
  else if negb des_aligned then Done (None, m)
  else if 768 - src_addr * 4 <? save_size then Done (None, m)
  else
    match rtc_read_loop 193 0 src_addr (Z.shiftr (rtc_round save_size) 2) m with
    | Done bs => Done (Some bs, m)
    | OutOfFuel => OutOfFuel
    | Undefined => Undefined
    end.

Lemma rtc_write_loop_ok k : forall fuel i d buf words m,
  Z.of_nat k = words - i -> (k < fuel)%nat -> 0 <= i -> words <= 192 ->
  exists m', rtc_write_loop fuel i d buf words m = Done m' /\
    forall x, m' x = if (d + i <=? x) && (x <? d + words) then word_at buf (x - d) else m x.
Proof.
  induction k as [|k IH]; intros fuel i d buf words m Hk Hf Hi Hw; destruct fuel as [|fuel]; try lia; cbn [rtc_write_loop].
  - case_if; zbool; [lia|]. exists m. split; [done|]. intros x. case_if; zbool; [lia|done].
  - case_if; zbool; [|lia]. rewrite u8_small by lia.
    destruct (IH fuel (i + 1) d buf words (fun x => if x =? d + i then word_at buf i else m x)) as (m' & -> & E); [lia..|].
    exists m'. split; [done|]. intros x. rewrite E.
    destruct (x =? d + i) eqn:Ex; zbool; [subst|]; repeat case_if; zbool; try done; try lia. f_equal; lia.
Qed.

Lemma rtc_read_loop_ok k : forall fuel i a words m,
  Z.of_nat k = words - i -> (k < fuel)%nat -> 0 <= i -> words <= 192 ->
  rtc_read_loop fuel i a words m =
    Done (concat ((fun j => le_bytes 4 (m (a + Z.of_nat j))) <$> seq (Z.to_nat i) k)).
Proof.
  induction k as [|k IH]; intros fuel i a words m Hk Hf Hi Hw; destruct fuel as [|fuel]; try lia; cbn [rtc_read_loop].
  - case_if; zbool; [lia|done].
  - case_if; zbool; [|lia]. rewrite u8_small by lia. rewrite (IH fuel) by lia.
    cbn [seq fmap list_fmap concat]. rewrite Z2Nat.id by lia. do 2 f_equal.
    by replace (Z.to_nat (i + 1)) with (S (Z.to_nat i)) by lia.
Qed.

Lemma rtc_round_ok n : 0 <= n -> n mod 4 = 0 -> Z.shiftr (rtc_round n) 2 = n / 4.
Proof.
  intros Hn Hm. unfold rtc_round. change 3 with (2 ^ 2 - 1) at 1. rewrite land_mask by lia.
  change (2 ^ 2) with 4. rewrite Hm. cbn [Z.eqb negb]. by rewrite Z.shiftr_div_pow2 by lia.
Qed.

Lemma concat_words c k : forall i,
  concat ((fun j => cells c (4 * Z.of_nat j) 4) <$> seq i k) = cells c (4 * Z.of_nat i) (4 * Z.of_nat k).
Proof.
  induction k as [|k IH]; intros i; cbn [seq fmap list_fmap concat]; [by rewrite cells_nil by lia|].
  rewrite IH. replace (4 * Z.of_nat (S k)) with (4 + 4 * Z.of_nat k) by lia.
  rewrite cells_app by lia. by replace (4 * Z.of_nat i + 4) with (4 * Z.of_nat (S i)) by lia.
Qed.

(** Whole words written to the RTC memory are read back, the other words
    keep their value. *)
Lemma rtc_write_read a bs m :
  0 <= a <= 191 -> Z.of_nat (length bs) <= 768 - a * 4 -> Z.of_nat (length bs) mod 4 = 0 -> Forall byteP bs ->
  exists m', sdk_system_rtc_mem_write a true (as_mem bs) (Z.of_nat (length bs)) m = Done (true, m') /\
    sdk_system_rtc_mem_read a true (Z.of_nat (length bs)) m' = Done (Some bs, m') /\
    forall x, x < a \/ a + Z.of_nat (length bs) / 4 <= x -> m' x = m x.
Proof.
  intros Ha Hn Hm Hb. unfold sdk_system_rtc_mem_write, sdk_system_rtc_mem_read. cbn [negb].
  repeat (case_if; zbool; [lia|]). rewrite rtc_round_ok by (done || lia).
  set (n := Z.of_nat (length bs)) in *. set (k := Z.to_nat (n / 4)).
  assert (Hk : Z.of_nat k = n / 4 /\ n = 4 * Z.of_nat k) by (subst k; divlia).
  clearbody k. destruct (rtc_write_loop_ok k 193 0 a (as_mem bs) (n / 4) m) as (m' & -> & E); [lia..|].
  exists m'. split; [done|]. split.
  - rewrite (rtc_read_loop_ok k) by lia. do 3 f_equal.
    transitivity (concat ((fun j => cells (as_mem bs) (4 * Z.of_nat j) 4) <$> seq 0 k)).
    + f_equal. apply list_fmap_ext. intros i j Hj. apply lookup_seq in Hj as [-> Hi]. rewrite E.
      case_if; zbool; [|destruct Heqb1; zbool; lia]. unfold word_at.
      replace (a + Z.of_nat (0 + i) - a) with (Z.of_nat (0 + i)) by lia.
      set (ws := cells _ _ _). change 4%nat with (length ws). apply le_bytes_val.
      apply Forall_fmap, Forall_true. intros ?. by apply as_mem_byte.
    + rewrite concat_words. rewrite <-(cells_as_mem bs) at 2. f_equal. lia.
  - intros x Hx. rewrite E. case_if; zbool; [lia|done].
Qed.

End Rtc.

(** ** A concrete boot ROM with its flash

    Used to run the development on concrete inputs. *)

Module SimRom.

Record rom := { r_mem : Z -> Z; r_wel : bool }.

#[export] Instance sim_rom : Rom.SpiRom rom := {
  rom_cell d x := u8 (r_mem d x);
  rom_wel := r_wel;
  SPI_page_program a buf n d :=
    (0, {| r_mem := and_bytes (fun x => u8 (r_mem d x)) a buf n; r_wel := false |});
  SPI_read_data a n d := (0, cells (fun x => u8 (r_mem d x)) a n);
  SPI_write_enable d := (0, {| r_mem := r_mem d; r_wel := true |});
  SPI_sector_erase a d :=
    if r_wel d then (0, {| r_mem := erase_bytes (fun x => u8 (r_mem d x)) a 4096; r_wel := false |}) else (1, d);
  SPI_read_status d := (0, 0);
  SPI_write_status _ d := (0, d);
  Wait_SPI_Idle d := d;
  Enable_QMode d := d;
  Disable_QMode d := d;
  cmd_READ_ID _ := 0x001640ef;
}.

#[export] Instance sim_rom_laws chip : Rom.SpiRomLaws rom chip.
Proof.
split.
- intros. apply u8_range.
- intros d a buf n ? ? ? ?. cbn. split; [done|]. intros x. apply u8_small. unfold and_bytes.
  case_if; [apply land_byte|]; apply u8_range.
- done.
- done.
- intros d a Hw ? ? ?. cbn in *. rewrite Hw. cbn. split; [done|]. intros x. apply u8_small.
  unfold erase_bytes. case_if; [lia|apply u8_range].
Qed.

(** A device with the contents [mem]. *)
Definition device (mem : Z -> Z) : Calls.state rom :=
  {| Calls.st_dev := {| r_mem := mem; r_wel := false |}; Calls.st_critical := 0; Calls.st_cache := true;
     Calls.st_CTRL0 := 0 |}.

#[export] Instance sim_flash : SdkFlash (Calls.state rom) := calls_flash sdk_flashchip_init.
#[export] Instance sim_flash_laws : SdkFlashLaws (Calls.state rom) :=
  calls_flash_laws sdk_flashchip_init sdk_flashchip_geometry.

End SimRom.

(** ** Property of the calls *)

Section Properties.
Context {D : Type} `{HD : Rom.SpiRom D}.
Variable chip : sdk_flashchip_t.
Context {Laws : Rom.SpiRomLaws D chip}.
Hypothesis Hgeo : chip_geometry chip.

(** C25. [sdk_spi_flash_write] to a word-aligned address programs exactly the
    data, rounded up to whole words, however it lies across pages, and
    leaves the cache on and the critical section closed; a null source or a
    range past the end of the chip is refused with an error and nothing is
    programmed. *)
Theorem sdk_spi_flash_write_programs (s : Calls.state D) a buf n :
  0 <= a -> 0 <= n < 2 ^ 31 -> a mod 4 = 0 -> a + n < 2 ^ 31 -> Calls.st_cache s = true ->
  let n' := CallProofs.words_up n in
  exists s', Calls.st_cache s' = true /\ Calls.st_critical s' = Calls.st_critical s /\
    Calls.sdk_spi_flash_write chip a None n s = Done (SPI_FLASH_RESULT_ERR, s) /\
    if a + n' <=? chip_size chip then
      Calls.sdk_spi_flash_write chip a (Some buf) n s = Done (SPI_FLASH_RESULT_OK, s') /\
      forall x, Rom.rom_cell (Calls.st_dev s') x =
        if (a <=? x) && (x <? a + n') then Z.land (Rom.rom_cell (Calls.st_dev s) x) (buf (x - a))
        else Rom.rom_cell (Calls.st_dev s) x
    else
      Calls.sdk_spi_flash_write chip a (Some buf) n s = Done (SPI_FLASH_RESULT_ERR, s') /\
      forall x, Rom.rom_cell (Calls.st_dev s') x = Rom.rom_cell (Calls.st_dev s) x.
Proof.
  intros Ha Hn Hal Han Hok n'. subst n'. case_if; zbool.
  - destruct (CallProofs.sdk_spi_flash_write_ok chip Hgeo s a buf n) as (s' & E & Hc & Hcr & Hca & _); [done || lia..|].
    exists s'. repeat split; [congruence|done..].
  - destruct (CallProofs.sdk_spi_flash_write_past chip s a buf n) as (s' & E & Hc & Hcr & Hca & _); [done || lia..|].
    exists s'. repeat split; [congruence|done..].
Qed.

End Properties.

Import SimRom.

Lemma sdk_spi_flash_write_programs_witness :
  exists s', Calls.sdk_spi_flash_write sdk_flashchip_init 252 (Some (as_mem [1; 2; 3; 4; 5; 6])) 6
    (SimRom.device (fun _ => 255)) = Done (SPI_FLASH_RESULT_OK, s') /\
    Rom.rom_cell (Calls.st_dev s') 257 = 6.
Proof.
  destruct (sdk_spi_flash_write_programs sdk_flashchip_init sdk_flashchip_geometry
    (SimRom.device (fun _ => 255)) 252 (as_mem [1; 2; 3; 4; 5; 6]) 6) as (s' & _ & _ & _ & E & Hc);
    [lia|lia|reflexivity|lia|reflexivity|].
  exists s'. split; [exact E|]. rewrite Hc. vm_compute. reflexivity.
Defined.
