(* ===== verification/Rboot.v ===== *)
(** * The rboot API: [extras/rboot-ota/rboot-api.c]

    The boot configuration kept in a flash sector, the write session used to
    store a new firmware image, the data shared with the boot loader in RTC
    memory, and the check of an image before it is booted.  Module [Api] has
    the functions over the flash interface [SdkFlash]; the data types and
    constants of the boot loader's own [rboot.h] (a separate project) are the
    class [RbootH]. *)

From stdpp Require Import strings.
From S2P Require Import Prelude Flash SdkFlash.
Open Scope Z_scope.

(** ** What [rboot.h] defines

    [rboot_config] and [rboot_rtc_data] are structures of the boot loader;
    the code uses some of their members, here byte offsets into their
    representation. *)

Class RbootH := {
  SECTOR_SIZE : Z;
  BOOT_CONFIG_SECTOR : Z;
  CHKSUM_INIT : Z;
  (** [rboot_config] *)
  sizeof_rboot_config : Z;
  off_current_rom : Z;
  off_count : Z;
  MAX_ROMS : Z;
  off_roms : Z;
  off_chksum : Z;
  (** [rboot_rtc_data] *)
  RBOOT_RTC_ADDR : Z;
  RBOOT_RTC_MAGIC : Z;
  MODE_STANDARD : Z;
  MODE_TEMP_ROM : Z;
  sizeof_rboot_rtc_data : Z;
  off_rtc_magic : Z;
  off_next_mode : Z;
  off_last_mode : Z;
  off_last_rom : Z;
  off_temp_rom : Z;
  off_rtc_chksum : Z;
}.

Module Api.

Section Api.
Context {F : Type} `{!SdkFlash F} `{!RbootH}.

(** [w_alloc] says which allocations succeed (all of them once the list is
    used up), [w_junk] is what uninitialised memory holds. *)
Record world := {
  w_flash : F;
  w_rtc : Rtc.rtcmem;
  w_critical : Z;
  w_alloc : list bool;
  w_junk : Z -> Z;
}.

Definition set_flash (w : world) (f : F) : world :=
  {| w_flash := f; w_rtc := w_rtc w; w_critical := w_critical w; w_alloc := w_alloc w; w_junk := w_junk w |}.
Definition set_rtc (w : world) (r : Rtc.rtcmem) : world :=
  {| w_flash := w_flash w; w_rtc := r; w_critical := w_critical w; w_alloc := w_alloc w; w_junk := w_junk w |}.

Definition on_flash {A} (m : M F A) : M world A := fun w =>
  match m (w_flash w) with
  | Done (a, f) => Done (a, set_flash w f)
  | OutOfFuel => OutOfFuel
  | Undefined => Undefined
  end.

Definition on_rtc {A} (m : M Rtc.rtcmem A) : M world A := fun w =>
  match m (w_rtc w) with
  | Done (a, r) => Done (a, set_rtc w r)
  | OutOfFuel => OutOfFuel
  | Undefined => Undefined
  end.

Definition add_critical (d : Z) : M world unit :=
  modify (fun w => {| w_flash := w_flash w; w_rtc := w_rtc w; w_critical := w_critical w + d;
                      w_alloc := w_alloc w; w_junk := w_junk w |}).
Definition vPortEnterCritical : M world unit := add_critical 1.
Definition vPortExitCritical : M world unit := add_critical (-1).

(** Does the next [os_malloc] succeed? *)
Definition os_malloc : M world bool := fun w =>
  match w_alloc w with
  | [] => Done (true, w)
  | b :: bs => Done (b, {| w_flash := w_flash w; w_rtc := w_rtc w; w_critical := w_critical w;
                           w_alloc := bs; w_junk := w_junk w |})
  end.

(** An uninitialised object of [n] bytes. *)
Definition uninit (n : Z) : M world (list Z) :=
  let! w := get in
  ret (cells (w_junk w) 0 n).

(** [bs] stored at the start of the object [obj]. *)
Definition overlay (bs obj : list Z) : list Z := bs ++ drop (length bs) obj.

(** [spi_flash_read] into the object [obj]. *)
Definition read_into (addr : Z) (obj : list Z) (size : Z) : M world (sdk_SpiFlashOpResult * list Z) :=
  let! (r, bs) := on_flash (spi_flash_read addr size) in
  ret (r, overlay bs obj).

(** The byte and the 32-bit member at an offset of an object, and their stores. *)
Definition get_u8 (obj : list Z) (off : Z) : Z := as_mem obj off.
Definition get_u32 (obj : list Z) (off : Z) : Z := le_val (cells (as_mem obj) off 4).
Definition set_u8 (obj : list Z) (off v : Z) : list Z := <[Z.to_nat off := v]> obj.
Definition set_u32 (obj : list Z) (off v : Z) : list Z :=
  list_inserts (Z.to_nat off) (le_bytes 4 v) obj.

(** Checksum of the bytes of [obj] before the offset [stop]. *)
Definition calc_chksum (obj : list Z) (stop : Z) : Z :=
  foldl Z.lxor CHKSUM_INIT (take (Z.to_nat stop) obj).

Definition rboot_get_config : M world (list Z) :=
  let! conf := uninit sizeof_rboot_config in
  let! (_, conf) := read_into (u32 (BOOT_CONFIG_SECTOR * SECTOR_SIZE)) conf sizeof_rboot_config in
  ret conf.

(** The caller's structure gets the checksum: it is returned with the result. *)
Definition rboot_set_config (conf : list Z) : M world (bool * list Z) :=
  let! ok := os_malloc in
  if negb ok then ret (false, conf)
  else
    let! buffer := uninit SECTOR_SIZE in
    let conf := set_u8 conf off_chksum (calc_chksum conf off_chksum) in
    let! (_, buffer) := read_into (u32 (BOOT_CONFIG_SECTOR * SECTOR_SIZE)) buffer SECTOR_SIZE in
    let buffer := overlay conf buffer in
    do! vPortEnterCritical then
    let! _ := on_flash (spi_flash_erase_sector BOOT_CONFIG_SECTOR) in
    do! vPortExitCritical then
    do! vPortEnterCritical then
    let! _ := on_flash (spi_flash_write (u32 (BOOT_CONFIG_SECTOR * SECTOR_SIZE)) (as_mem buffer) SECTOR_SIZE) in
    do! vPortExitCritical then
    ret (true, conf).

Definition rboot_get_current_rom : M world Z :=
  let! conf := rboot_get_config in
  ret (get_u8 conf off_current_rom).

Definition rboot_set_current_rom (rom : Z) : M world bool :=
  let! conf := rboot_get_config in
  if get_u8 conf off_count <=? rom then ret false
  else
    let conf := set_u8 conf off_current_rom rom in
    let! (r, _) := rboot_set_config conf in
    ret r.

(** [rboot_write_status] of [rboot-api.h]. *)
Record rboot_write_status := {
  start_addr : Z;
  start_sector : Z;
  last_sector_erased : Z;
  extra_count : Z;
  extra_bytes : list Z;
}.

Definition rboot_write_init (addr : Z) : rboot_write_status := {|
  start_addr := addr;
  start_sector := addr / SECTOR_SIZE;
  last_sector_erased := s32 (u32 (addr / SECTOR_SIZE - 1));
  extra_count := 0;
  extra_bytes := [0; 0; 0; 0];
|}.

(** The loop that erases the sectors up to [lastsect]. *)
Fixpoint erase_sectors (fuel : nat) (lastsect last_erased : Z) : M world Z :=
  match fuel with
  | O => out_of_fuel
  | S fuel =>
    if last_erased <? lastsect then
      let last_erased := last_erased + 1 in
      let! _ := on_flash (spi_flash_erase_sector (u16 last_erased)) in
      erase_sectors fuel lastsect last_erased
    else ret last_erased
  end.

(** [data] is [None] for a null pointer, otherwise the memory it points to. *)
Definition rboot_write_flash (status : rboot_write_status) (data : option (Z -> Z)) (len : Z)
    : M world (bool * rboot_write_status) :=
  match data with
  | None => ret (true, status)
  | Some data =>
    if len =? 0 then ret (true, status)
    else
      let! ok := os_malloc in
      if negb ok then ret (false, status)
      else if 4 <? extra_count status then undefined
      else
        let buffer := take (Z.to_nat (extra_count status)) (extra_bytes status) ++ cells data 0 len in
        let len := u16 (len + extra_count status) in
        let extra := len mod 4 in
        let len := len - extra in
        let extra_bytes' := overlay (sub_bytes buffer len extra) (extra_bytes status) in
        let lastsect := s32 (u32 (u32 (start_addr status + len) - 1) / SECTOR_SIZE) in
        let! erased := erase_sectors (S (Z.to_nat (lastsect - last_sector_erased status)))
                         lastsect (last_sector_erased status) in
        let! r := on_flash (spi_flash_write (start_addr status) (as_mem buffer) len) in
        let ok := bool_decide (r = SPI_FLASH_RESULT_OK) in
        ret (ok, {| start_addr := if ok then u32 (start_addr status + len) else start_addr status;
                    start_sector := start_sector status;
                    last_sector_erased := erased;
                    extra_count := extra;
                    extra_bytes := extra_bytes' |})
  end.

(** The structure [rtc] is updated when the read succeeds; it is word
    aligned. *)
Definition rboot_get_rtc_data (rtc : list Z) : M world (bool * list Z) :=
  let! r := on_rtc (Rtc.sdk_system_rtc_mem_read RBOOT_RTC_ADDR true sizeof_rboot_rtc_data) in
  match r with
  | Some bs =>
    let rtc := overlay bs rtc in
    ret (get_u8 rtc off_rtc_chksum =? calc_chksum rtc off_rtc_chksum, rtc)
  | None => ret (false, rtc)
  end.

Definition rboot_set_rtc_data (rtc : list Z) : M world (bool * list Z) :=
  let rtc := set_u8 rtc off_rtc_chksum (calc_chksum rtc off_rtc_chksum) in
  let! r := on_rtc (Rtc.sdk_system_rtc_mem_write RBOOT_RTC_ADDR true (as_mem rtc) sizeof_rboot_rtc_data) in
  ret (r, rtc).

Definition rboot_set_temp_rom (rom : Z) : M world bool :=
  let! rtc := uninit sizeof_rboot_rtc_data in
  let! (ok, rtc) := rboot_get_rtc_data rtc in
  let rtc := if negb ok then
      let rtc := set_u32 rtc off_rtc_magic RBOOT_RTC_MAGIC in
      let rtc := set_u8 rtc off_last_mode MODE_STANDARD in
      set_u8 rtc off_last_rom 0
    else rtc in
  let rtc := set_u8 rtc off_next_mode MODE_TEMP_ROM in
  let rtc := set_u8 rtc off_temp_rom rom in
  let! (r, _) := rboot_set_rtc_data rtc in
  ret r.

(** The rom stored through the pointer, or [None] for [false]. *)
Definition rboot_get_last_boot_rom : M world (option Z) :=
  let! rtc := uninit sizeof_rboot_rtc_data in
  let! (ok, rtc) := rboot_get_rtc_data rtc in
  ret (if ok : bool then Some (get_u8 rtc off_last_rom) else None).

Definition rboot_get_last_boot_mode : M world (option Z) :=
  let! rtc := uninit sizeof_rboot_rtc_data in
  let! (ok, rtc) := rboot_get_rtc_data rtc in
  ret (if ok : bool then Some (get_u8 rtc off_last_mode) else None).

Definition rboot_get_slot_offset (slot : Z) : M world Z :=
  let! conf := rboot_get_config in
  if get_u8 conf off_count <=? slot then ret (u32 (-1))
  else ret (get_u32 conf (off_roms + 4 * slot)).

(** *** Image verification *)

(** [image_header_t] and [section_header_t], read from their packed bytes. *)
Record image_header_t := { magic : Z; section_count : Z; val : list Z; entrypoint : Z }.
Record section_header_t := { load_addr : Z; length_ : Z }.

Definition sizeof_image_header_t : Z := 8.
Definition sizeof_section_header_t : Z := 8.

Definition dec_image_header (bs : list Z) : image_header_t := {|
  magic := get_u8 bs 0; section_count := get_u8 bs 1; val := sub_bytes bs 2 2; entrypoint := get_u32 bs 4 |}.
Definition dec_section_header (bs : list Z) : section_header_t := {|
  load_addr := get_u32 bs 0; length_ := get_u32 bs 4 |}.

Definition ROM_MAGIC_OLD : Z := 0xe9.
Definition ROM_MAGIC_NEW : Z := 0xea.

Inductive image_error :=
| Unaligned_flash_offset
| Flash_fail
| Missing_initial_magic
| Header_length_not_modulo_4
| Bad_second_magic
| Image_truncated
| Invalid_checksum.

(** [(offset + k) & ~k] for [k = 3] and [k = 15]. *)
Definition pad4 (offset : Z) : Z := Z.ldiff (u32 (offset + 3)) 3.
Definition pad16 (offset : Z) : Z := Z.ldiff (u32 (offset + 15)) 15.

(** The loop over the bytes of a section: [n] bytes are left from index [i]
    on, [chunk] is the local buffer. *)
Fixpoint section_checksum (n : nat) (i offset : Z) (chunk : list Z) (checksum : Z) : M world Z :=
  match n with
  | O => ret checksum
  | S n =>
    let! chunk := (if i mod 16 =? 0 then
                     let! (_, chunk) := read_into (u32 (offset + i)) chunk 16 in
                     ret chunk
                   else ret chunk) in
    section_checksum n (i + 1) offset chunk (u8 (Z.lxor checksum (as_mem chunk (i mod 16))))
  end.

(** How the section loop ends (below, [ibuf] holds the image header read last): at the [fail] label, or with the offset, the
    checksum and the sections that remain. *)
Inductive verify_state :=
| Fail (offset : Z) (error : image_error)
| Sections (offset checksum remaining_sections : Z).

Fixpoint verify_sections (fuel : nat) (end_limit offset checksum remaining_sections : Z) (is_new_header : bool)
    (ibuf : list Z) : M world verify_state :=
  match fuel with
  | O => out_of_fuel
  | S fuel =>
    if (0 <? remaining_sections) && (offset <? end_limit) then
      let! hbuf := uninit sizeof_section_header_t in
      let! (r, hbuf) := read_into offset hbuf sizeof_section_header_t in
      if negb (bool_decide (r = SPI_FLASH_RESULT_OK)) then ret (Fail offset Flash_fail)
      else
        let header := dec_section_header hbuf in
        let offset := u32 (offset + sizeof_section_header_t) in
        if end_limit <? u32 (length_ header + offset) then ret (Sections offset checksum remaining_sections)
        else if negb (length_ header mod 4 =? 0) then ret (Fail offset Header_length_not_modulo_4)
        else
          let! checksum := (if is_new_header then ret checksum
                            else if 2 ^ 31 <=? length_ header then undefined
                            else
                              let! chunk := uninit 16 in
                              section_checksum (Z.to_nat (length_ header)) 0 offset chunk checksum) in
          let offset := u32 (offset + length_ header) in
          let offset := pad4 offset in
          let remaining_sections := remaining_sections - 1 in
          if is_new_header then
            let offset := pad16 offset in
            let! (_, ibuf) := read_into offset ibuf sizeof_image_header_t in
            let image_header := dec_image_header ibuf in
            let offset := u32 (offset + sizeof_image_header_t) in
            if negb (magic image_header =? ROM_MAGIC_OLD) then ret (Fail offset Bad_second_magic)
            else verify_sections fuel end_limit offset checksum (section_count image_header) false ibuf
          else verify_sections fuel end_limit offset checksum remaining_sections false ibuf
    else ret (Sections offset checksum remaining_sections)
  end.

(** The loop runs at most once with the new header and once per section of a
    header, whose count is a byte. *)
Definition verify_fuel : nat := 257.

(** The result with [*image_length] and, on failure, [*error_message]. *)
Definition rboot_verify_image (initial_offset : Z) : M world (bool * Z * option image_error) :=
  let fail offset error := ret (false, u32 (offset - initial_offset), Some error) in
  let offset := initial_offset in
  if negb (offset mod 4 =? 0) then fail offset Unaligned_flash_offset
  else
    let end_limit := u32 (offset + 0x100000) in
    let! ibuf := uninit sizeof_image_header_t in
    let! (r, ibuf) := read_into offset ibuf sizeof_image_header_t in
    if negb (bool_decide (r = SPI_FLASH_RESULT_OK)) then fail offset Flash_fail
    else
      let image_header := dec_image_header ibuf in
      let offset := u32 (offset + sizeof_image_header_t) in
      if negb (magic image_header =? ROM_MAGIC_OLD) && negb (magic image_header =? ROM_MAGIC_NEW)
      then fail offset Missing_initial_magic
      else
        let is_new_header := magic image_header =? ROM_MAGIC_NEW in
        let! r := verify_sections verify_fuel end_limit offset (u8 CHKSUM_INIT)
                    (section_count image_header) is_new_header ibuf in
        match r with
        | Fail offset error => fail offset error
        | Sections offset checksum remaining_sections =>
          if 0 <? remaining_sections then fail offset Image_truncated
          else
            let offset := u32 (offset + 1) in
            let offset := pad16 offset in
            let! cbuf := uninit 4 in
            let! (_, cbuf) := read_into (u32 (offset - 1)) cbuf 1 in
            let read_checksum := get_u32 cbuf 0 in
            if negb (u8 read_checksum =? checksum) then fail offset Invalid_checksum
            else ret (true, u32 (offset - initial_offset), None)
        end.

(** [update_fn] acts on the context [ctx]; [n] is the number of turns left.
    The local counter [i] is an [int]. *)
Fixpoint digest_loop {C : Type} (update_fn : C -> list Z -> C) (fuel : nat) (i offset image_length : Z)
    (buf : list Z) (ctx : C) : M world (bool * C) :=
  match fuel with
  | O => out_of_fuel
  | S fuel =>
    if u32 i <? image_length then
      let! (r, buf) := read_into (u32 (offset + i)) buf 32 in
      if negb (bool_decide (r = SPI_FLASH_RESULT_OK)) then ret (false, ctx)
      else
        let digest_len := if image_length <? u32 (i + 32) then u32 (image_length - i) else 32 in
        let ctx := update_fn ctx (take (Z.to_nat digest_len) buf) in
        if 2 ^ 31 <=? i + 32 then undefined
        else digest_loop update_fn fuel (i + 32) offset image_length buf ctx
    else ret (true, ctx)
  end.

Definition rboot_digest_image {C : Type} (update_fn : C -> list Z -> C) (offset image_length : Z) (ctx : C)
    : M world (bool * C) :=
  let! buf := uninit 32 in
  digest_loop update_fn (S (Z.to_nat (image_length / 32 + 1))) 0 offset image_length buf ctx.

End Api.
Arguments world : clear implicits.
End Api.
