(* ===== verification/RbootProofs.v ===== *)
(** * Runs of the rboot API

    What the configuration, write session and RTC memory functions of
    [extras/rboot-ota/rboot-api.c] do on a flash that obeys [SdkFlashLaws]. *)

From S2P Require Import Prelude Flash SdkFlash Rboot.
Open Scope Z_scope.

(** What the code relies on of [rboot.h]: 4 KiB sectors, a configuration
    structure that fits its sector and has the checksum behind the members
    used here, and RTC data of whole words inside the RTC memory. *)
Class RbootHLaws `{RbootH} := {
  rb_sector : SECTOR_SIZE = 4096;
  rb_config_sector : 0 <= BOOT_CONFIG_SECTOR;
  rb_chksum_init : byteP CHKSUM_INIT;
  rb_sizeof : off_chksum < sizeof_rboot_config <= 4096;
  rb_current_rom : 0 <= off_current_rom < off_chksum;
  rb_count : 0 <= off_count < off_chksum;
  rb_count_rom : off_count <> off_current_rom;
  rb_roms : off_current_rom < off_roms;
  rb_roms_chksum : off_roms + 4 * MAX_ROMS <= off_chksum;
  rb_rtc_addr : 0 <= RBOOT_RTC_ADDR <= 191;
  rb_rtc_fits : 4 * RBOOT_RTC_ADDR + sizeof_rboot_rtc_data <= 768;
  rb_rtc_words : sizeof_rboot_rtc_data mod 4 = 0;
  rb_rtc_chksum : 0 <= off_rtc_chksum < sizeof_rboot_rtc_data;
  rb_rtc_offs : Forall (fun o => 0 <= o < off_rtc_chksum) [off_next_mode; off_last_mode; off_last_rom; off_temp_rom];
  rb_rtc_magic : 0 <= off_rtc_magic /\ off_rtc_magic + 4 <= off_rtc_chksum;
  rb_rtc_apart : Forall (fun o => o < off_rtc_magic \/ off_rtc_magic + 4 <= o) [off_next_mode; off_last_mode; off_last_rom; off_temp_rom];
  rb_rtc_nodup : NoDup [off_next_mode; off_last_mode; off_last_rom; off_temp_rom];
  rb_modes : byteP MODE_STANDARD /\ byteP MODE_TEMP_ROM;
}.

Module ApiProofs.
Import Api.

(** The bytes of the flash. *)
Abbreviation cell w := (sf_cell (w_flash w)).

Section Proofs.
Context {F : Type} `{HF : SdkFlash F} {FL : SdkFlashLaws F} `{HR : RbootH} {RL : RbootHLaws}.
Implicit Types w : world F.

Definition w_ok w : Prop := sf_ok (w_flash w).

(** ** Steps *)

Lemma on_flash_Done {A} (m : M F A) w (a : A) f :
  m (w_flash w) = Done (a, f) -> on_flash m w = Done (a, set_flash w f).
Proof. unfold on_flash. by intros ->. Qed.

Lemma set_flash_same w : set_flash w (w_flash w) = w.
Proof. by destruct w. Qed.

Lemma uninit_Done n w : uninit n w = Done (cells (w_junk w) 0 n, w).
Proof. done. Qed.

Lemma overlay_full bs obj : length bs = length obj -> overlay bs obj = bs.
Proof. intros H. unfold overlay. by rewrite H, drop_all, app_nil_r. Qed.

Lemma read_into_Done a obj n w :
  w_ok w -> 0 <= a -> 0 <= n -> a + n <= sf_chip_size ->
  read_into a obj n w = Done ((SPI_FLASH_RESULT_OK, overlay (cells (cell w) a n) obj), w).
Proof.
  intros. unfold read_into. erewrite bind_Done by (apply on_flash_Done; by apply sf_read_ok).
  by rewrite set_flash_same.
Qed.

Lemma read_fresh_Done a n w :
  w_ok w -> 0 <= a -> 0 <= n -> a + n <= sf_chip_size ->
  read_into a (cells (w_junk w) 0 n) n w = Done ((SPI_FLASH_RESULT_OK, cells (cell w) a n), w).
Proof. intros. rewrite read_into_Done by done. by rewrite overlay_full by (by rewrite !length_cells). Qed.

(** ** The configuration sector *)

Hypothesis Hconf : 4096 * (BOOT_CONFIG_SECTOR + 1) <= sf_chip_size.

Definition conf_addr : Z := BOOT_CONFIG_SECTOR * 4096.
(** The configuration as the flash has it. *)
Definition config_of w : list Z := cells (cell w) conf_addr sizeof_rboot_config.

Lemma conf_addr_u32 : u32 (BOOT_CONFIG_SECTOR * SECTOR_SIZE) = conf_addr.
Proof.
  rewrite rb_sector. pose proof rb_config_sector. pose proof sf_size_bound. unfold conf_addr. apply u32_small. lia.
Qed.

Lemma length_config w : Z.of_nat (length (config_of w)) = sizeof_rboot_config.
Proof. pose proof rb_sizeof. pose proof rb_count. unfold config_of. rewrite length_cells. lia. Qed.

(** The members of the configuration, byte by byte. *)
Lemma config_bytes w i : 0 <= i < sizeof_rboot_config -> get_u8 (config_of w) i = cell w (conf_addr + i).
Proof.
  intros Hi. unfold get_u8, config_of. rewrite (cells_lookup_eq (cell w) conf_addr sizeof_rboot_config _ (conf_addr + i) eq_refl) by lia.
  f_equal. lia.
Qed.

Lemma config_byte w : w_ok w -> Forall byteP (config_of w).
Proof. intros. apply cells_byte. intros x. by apply sf_cell_byte. Qed.

Lemma get_config_Done w : w_ok w -> rboot_get_config w = Done (config_of w, w).
Proof.
  intros Hw. pose proof rb_config_sector. pose proof rb_sizeof. pose proof rb_count. unfold rboot_get_config.
  run (uninit_Done sizeof_rboot_config w). rewrite conf_addr_u32.
  erewrite bind_Done by (apply read_fresh_Done; unfold conf_addr; first [done|lia]). done.
Qed.

Lemma set_u8_byte obj off v : Forall byteP obj -> byteP v -> Forall byteP (set_u8 obj off v).
Proof. intros. by apply Forall_insert. Qed.

Lemma get_set_u8 obj off v : 0 <= off < Z.of_nat (length obj) -> get_u8 (set_u8 obj off v) off = v.
Proof.
  intros. unfold get_u8, set_u8, as_mem. apply nth_lookup_Some. apply list_lookup_insert_eq. lia.
Qed.

Lemma get_set_u8_ne obj off off' v : 0 <= off -> 0 <= off' -> off <> off' -> get_u8 (set_u8 obj off v) off' = get_u8 obj off'.
Proof.
  intros. unfold get_u8, set_u8, as_mem. rewrite !nth_lookup, list_lookup_insert_ne by lia. done.
Qed.

Lemma length_set_u8 obj off v : length (set_u8 obj off v) = length obj.
Proof. apply length_insert. Qed.

Lemma foldl_lxor_byte bs : forall a, byteP a -> Forall byteP bs -> byteP (foldl Z.lxor a bs).
Proof.
  induction bs as [|b bs IH]; intros a Ha Hb; [done|]. inversion Hb; subst. apply IH; [|done]. by apply lxor_byte.
Qed.

Lemma calc_chksum_byte obj n : Forall byteP obj -> byteP (calc_chksum obj n).
Proof. intros. apply foldl_lxor_byte; [apply rb_chksum_init|]. by apply Forall_take. Qed.

(** The configuration with its checksum filled in. *)
Definition sealed (conf : list Z) : list Z := set_u8 conf off_chksum (calc_chksum conf off_chksum).

Lemma set_config_Done w conf :
  w_ok w -> w_alloc w = [] -> Z.of_nat (length conf) = sizeof_rboot_config -> Forall byteP conf ->
  exists f, rboot_set_config conf w = Done ((true, sealed conf), set_flash w f) /\ sf_ok f /\
    forall x, sf_cell f x = put_bytes (cell w) conf_addr (sealed conf) x.
Proof.
  intros Hw Ha Hl Hb. pose proof rb_config_sector. pose proof rb_sizeof. pose proof rb_count. pose proof sf_size_bound.
  unfold rboot_set_config. erewrite bind_Done by (unfold os_malloc; by rewrite Ha). cbn [negb].
  run (uninit_Done SECTOR_SIZE w). rewrite conf_addr_u32, rb_sector. fold (sealed conf).
  erewrite bind_Done by (apply read_fresh_Done; unfold conf_addr; first [done|lia]).
  cbn beta iota. set (buf := overlay (sealed conf) _).
  assert (Hls : Z.of_nat (length (sealed conf)) = sizeof_rboot_config) by (unfold sealed; by rewrite length_set_u8).
  assert (Hbuf : forall i, 0 <= i < 4096 -> as_mem buf i = put_bytes (cell w) conf_addr (sealed conf) (conf_addr + i)).
  { intros i Hi. unfold buf, overlay. destruct (decide (i < sizeof_rboot_config)).
    - rewrite as_mem_app_l, put_bytes_in by lia. f_equal. lia.
    - rewrite as_mem_app_r, put_bytes_out by lia. rewrite <-(Nat2Z.id (length (sealed conf))), as_mem_drop by lia.
      rewrite (cells_lookup_eq _ conf_addr 4096 _ (conf_addr + i) eq_refl) by lia. f_equal. lia. }
  erewrite bind_Done by reflexivity.
  destruct (sf_erase_ok (w_flash w) BOOT_CONFIG_SECTOR) as (f1 & E1 & O1 & C1); [done|done|lia|].
  erewrite bind_Done by (apply on_flash_Done; exact E1). do 2 (erewrite bind_Done by reflexivity).
  destruct (sf_write_ok f1 conf_addr (as_mem buf) 4096) as (f2 & E2 & O2 & C2); [done|unfold conf_addr; divlia..|].
  erewrite bind_Done by (apply on_flash_Done; exact E2). erewrite bind_Done by reflexivity.
  exists f2. unfold ret. split; [|split; [done|]].
  - do 2 f_equal. destruct w. cbn. unfold set_flash. cbn. f_equal. lia.
  - intros x. rewrite C2. unfold and_bytes. case_if; zbool.
    + rewrite C1. unfold erase_bytes. rewrite (proj2 (andb_true_iff _ _)) by (unfold conf_addr in *; split; lia).
      rewrite Hbuf by lia. replace (conf_addr + (x - conf_addr)) with x by lia. apply land_255_l.
      unfold put_bytes. case_if; [|by apply sf_cell_byte]. apply as_mem_byte.
      apply set_u8_byte; [done|]. by apply calc_chksum_byte.
    + rewrite C1. unfold erase_bytes. rewrite put_bytes_out by lia. case_if; [|done]. zbool. unfold conf_addr in *. lia.
Qed.

Lemma config_of_put w f bs :
  Z.of_nat (length bs) = sizeof_rboot_config ->
  (forall x, sf_cell f x = put_bytes (cell w) conf_addr bs x) -> config_of (set_flash w f) = bs.
Proof. intros Hl H. unfold config_of. by apply (cells_of_put (cell w)). Qed.

Lemma set_current_rom_Done w rom :
  w_ok w -> w_alloc w = [] -> byteP rom ->
  if get_u8 (config_of w) off_count <=? rom then rboot_set_current_rom rom w = Done (false, w)
  else exists f, rboot_set_current_rom rom w = Done (true, set_flash w f) /\ sf_ok f /\
    forall x, sf_cell f x = put_bytes (cell w) conf_addr (sealed (set_u8 (config_of w) off_current_rom rom)) x.
Proof.
  intros Hw Ha Hr. unfold rboot_set_current_rom. case_if.
  - run (get_config_Done w Hw). by rewrite Heqb.
  - destruct (set_config_Done w (set_u8 (config_of w) off_current_rom rom)) as (f & E & ? & ?); [done|done|..].
    + by rewrite length_set_u8, length_config.
    + apply set_u8_byte; [by apply config_byte|done].
    + exists f. split; [|done]. run (get_config_Done w Hw). rewrite Heqb. by run E.
Qed.

(** ** The write session *)

Lemma erase_sectors_Done k : forall fuel w last lastsect,
  Z.of_nat k = Z.max 0 (lastsect - last) -> (k < fuel)%nat -> -1 <= last -> 4096 * (lastsect + 1) <= sf_chip_size -> w_ok w ->
  exists f, erase_sectors fuel lastsect last w = Done (Z.max last lastsect, set_flash w f) /\ sf_ok f /\
    forall x, sf_cell f x = erase_bytes (cell w) (4096 * (last + 1)) (4096 * Z.max 0 (lastsect - last)) x.
Proof.
  pose proof sf_size_bound. induction k as [|k IH]; intros fuel w last lastsect Hk Hf Hl Hc Hw;
    destruct fuel as [|fuel]; try lia; cbn [erase_sectors].
  - case_if; zbool; [lia|]. exists (w_flash w). rewrite set_flash_same. split; [unfold ret; do 2 f_equal; lia|].
    split; [done|]. intros x. unfold erase_bytes. case_if; [zbool; lia|done].
  - case_if; zbool; [|lia]. rewrite u16_small by lia.
    destruct (sf_erase_ok (w_flash w) (last + 1)) as (f1 & E1 & O1 & C1); [done|lia..|].
    erewrite bind_Done by (apply on_flash_Done; exact E1).
    destruct (IH fuel (set_flash w f1) (last + 1) lastsect) as (f2 & E2 & O2 & C2); [lia..|done|].
    rewrite E2. exists f2. split; [do 2 f_equal; lia|]. split; [done|]. intros x. rewrite C2. cbn.
    unfold erase_bytes. rewrite C1. unfold erase_bytes. repeat case_if; zbool; try done; lia.
Qed.

(** Whole words among the first [n] bytes. *)
Abbreviation words n := (4 * (n / 4)).

(** The session that started at [S0] on the flash of [w0] has taken the
    bytes [D]: whole words are on the flash, up to three bytes wait in the
    status, and only the sectors from that of [S0] on have been erased, each
    once. *)
Record session (w0 : world F) (S0 : Z) (D : list Z) (w : world F) (st : rboot_write_status) : Prop := {
  se_data : Forall byteP D;
  se_start : start_addr st = S0 + words (Z.of_nat (length D));
  se_count : extra_count st = Z.of_nat (length D) mod 4;
  se_room : length (extra_bytes st) = 4%nat;
  se_bytes : take (Z.to_nat (extra_count st)) (extra_bytes st) = drop (Z.to_nat (words (Z.of_nat (length D)))) D;
  se_erased : last_sector_erased st = match D with [] => S0 / 4096 - 1 | _ => (start_addr st - 1) / 4096 end;
  se_world : exists f, w = set_flash w0 f;
  se_ok : w_ok w;
  se_cells : forall x, cell w x =
    if (S0 <=? x) && (x <? start_addr st) then as_mem D (x - S0)
    else if (4096 * (S0 / 4096) <=? x) && (x <? 4096 * (last_sector_erased st + 1)) then 255
    else cell w0 x;
}.

Lemma write_init_session w0 S0 :
  w_ok w0 -> 0 < S0 <= sf_chip_size -> session w0 S0 [] w0 (rboot_write_init S0).
Proof.
  intros Hw HS. pose proof sf_size_bound. unfold rboot_write_init. rewrite rb_sector.
  assert (E : s32 (u32 (S0 / 4096 - 1)) = S0 / 4096 - 1) by (rewrite s32_u32, s32_small; divlia).
  split; cbn; rewrite ?E; try done.
  - exact (eq_sym (Z.add_0_r S0)).
  - exists (w_flash w0). by rewrite set_flash_same.
  - intros x. repeat case_if; zbool; try done; divlia.
Qed.

(** The array after one more chunk: the erases to the end of sector [sect]
    and the program of [L] bytes of [buffer] at [start]. *)
Lemma session_cells (c0 c c1 c2 : Z -> Z) S0 start L last sect (D D' buffer : list Z) :
  S0 <= start -> 0 <= L -> S0 / 4096 - 1 <= last -> start <= 4096 * (last + 1) \/ start = S0 ->
  start + L <= 4096 * (sect + 1) ->
  (forall x, c x = if (S0 <=? x) && (x <? start) then as_mem D (x - S0)
             else if (4096 * (S0 / 4096) <=? x) && (x <? 4096 * (last + 1)) then 255 else c0 x) ->
  (forall x, c1 x = erase_bytes c (4096 * (last + 1)) (4096 * Z.max 0 (sect - last)) x) ->
  (forall x, c2 x = and_bytes c1 start (as_mem buffer) L x) ->
  (forall x, S0 <= x < start -> as_mem D' (x - S0) = as_mem D (x - S0)) ->
  (forall x, start <= x -> as_mem D' (x - S0) = as_mem buffer (x - start)) ->
  (forall i, byteP (as_mem buffer i)) ->
  forall x, c2 x = if (S0 <=? x) && (x <? start + L) then as_mem D' (x - S0)
                   else if (4096 * (S0 / 4096) <=? x) && (x <? 4096 * (Z.max last sect + 1)) then 255 else c0 x.
Proof.
  intros HS HL Hla Hst Hse Hce C1 C2 Hold Hnew Hbb x. assert (Hbase : 4096 * (S0 / 4096) <= S0) by divlia.
  rewrite C2. unfold and_bytes. case_if; zbool.
  - rewrite (proj2 (andb_true_iff (S0 <=? x) _)) by (split; lia). rewrite Hnew by lia.
    rewrite C1. unfold erase_bytes. case_if; [by rewrite land_255_l|]. rewrite Hce.
    rewrite (proj2 (andb_false_iff _ (x <? start))) by lia.
    rewrite (proj2 (andb_true_iff (_ <=? x) _)); [by rewrite land_255_l|]. zbool. split; lia.
  - rewrite C1. unfold erase_bytes. rewrite Hce. clear C1 C2 Hce. destruct (decide (S0 <= x < start)).
    + rewrite (proj2 (andb_true_iff _ (x <? start + L))) by (split; lia). rewrite Hold by lia.
      rewrite (proj2 (andb_true_iff _ (x <? start))) by (split; lia). case_if; [|done]. zbool. lia.
    + rewrite (proj2 (andb_false_iff _ (x <? start + L))), (proj2 (andb_false_iff _ (x <? start))) by lia.
      repeat case_if; zbool; try done; lia.
Qed.

(** The buffer of a chunk: the bytes kept from the last one and the new ones. *)
Lemma chunk_buffer D (extra : list Z) e data len :
  let n := Z.of_nat (length D) in
  let buffer := take (Z.to_nat e) extra ++ cells data 0 len in
  take (Z.to_nat e) extra = drop (Z.to_nat (words n)) D -> 0 <= words n <= n -> n = words n + e -> 0 <= len ->
  D ++ cells data 0 len = take (Z.to_nat (words n)) D ++ buffer /\ Z.of_nat (length buffer) = len + e /\
  Z.of_nat (length (D ++ cells data 0 len)) = n + len /\
  forall k, words n <= k -> drop (Z.to_nat k) (D ++ cells data 0 len) = drop (Z.to_nat (k - words n)) buffer.
Proof.
  intros n buffer Hby Hw Hn Hlen.
  assert (HD : D ++ cells data 0 len = take (Z.to_nat (words n)) D ++ buffer).
  { unfold buffer. rewrite Hby, app_assoc, take_drop. done. }
  split; [done|]. assert (HlD : Z.of_nat (length (D ++ cells data 0 len)) = n + len) by (rewrite length_app, length_cells; lia).
  split.
  { apply (f_equal length) in HD. rewrite !length_app, length_take, length_cells in HD. lia. }
  split; [done|]. intros k Hk. rewrite HD, drop_app_ge by (rewrite length_take; lia). rewrite length_take. f_equal. lia.
Qed.

(** The bytes that are kept for the next chunk. *)
Lemma extra_next (buffer extra : list Z) L r :
  0 <= L -> 0 <= r < 4 -> Z.of_nat (length buffer) = L + r -> length extra = 4%nat ->
  length (overlay (sub_bytes buffer L r) extra) = 4%nat /\
  take (Z.to_nat r) (overlay (sub_bytes buffer L r) extra) = drop (Z.to_nat L) buffer.
Proof.
  intros HL Hr Hb Hx. unfold overlay, sub_bytes. split.
  - rewrite length_app, length_drop, length_take, length_drop. lia.
  - rewrite take_app_le by (rewrite length_take, length_drop; lia). rewrite take_take, Nat.min_id. apply take_ge.
    rewrite length_drop. lia.
Qed.

Lemma write_flash_session w0 S0 D w st data len :
  session w0 S0 D w st -> w_alloc w0 = [] -> 0 < S0 -> S0 mod 4 = 0 -> sf_chip_size mod 4096 = 0 ->
  0 <= len <= 65532 -> S0 + Z.of_nat (length D) + len <= sf_chip_size -> (forall i, byteP (data i)) ->
  exists w' st', rboot_write_flash st (Some data) len w = Done ((true, st'), w') /\
    session w0 S0 (D ++ cells data 0 len) w' st'.
Proof.
  intros [HDb Hst Hco Hro Hby Her [f Hf] Hok Hce] Ha HS Hal Hch Hlen Hend Hdata. pose proof sf_size_bound.
  unfold rboot_write_flash. destruct (len =? 0) eqn:El; zbool.
  { exists w, st. split; [done|]. rewrite El, cells_nil, app_nil_r by lia. split; eauto. }
  assert (Ha' : w_alloc w = []) by (by subst w).
  erewrite bind_Done by (unfold os_malloc; rewrite Ha'; reflexivity). cbn [negb].
  assert (Hla : S0 / 4096 - 1 <= last_sector_erased st <= (start_addr st - 1) / 4096 /\
    (start_addr st <= 4096 * (last_sector_erased st + 1) \/ start_addr st = S0)).
  { rewrite Her, Hst. clear -HS. destruct D; cbn [length]; [split; [|right]; divlia|split; [|left]; divlia]. }
  destruct Hla as [Hla Hla'].
  set (n := Z.of_nat (length D)) in *. set (e := extra_count st) in *.
  assert (He : 0 <= e < 4) by (rewrite Hco; apply Z.mod_pos_bound; lia).
  case_if; zbool; [lia|]. clear Heqb. rewrite u16_small by lia.
  set (L := len + e - (len + e) mod 4). set (buffer := take _ _ ++ _).
  assert (HL : words n + L = words (n + len) /\ 0 <= L /\ L mod 4 = 0) by (subst L; rewrite Hco; divlia).
  assert (Hwn : 0 <= words n <= n /\ words (n + len) <= n + len /\ n = words n + e) by (rewrite Hco; divlia).
  assert (Hrem : 0 <= (len + e) mod 4 < 4 /\ (len + e) mod 4 = (n + len) mod 4 /\ L + (len + e) mod 4 = len + e)
    by (subst L; rewrite Hco; divlia).
  set (r := (len + e) mod 4) in *. clearbody r.
  rewrite rb_sector, (u32_small (start_addr st + L)), u32_small by lia.
  set (lastsect := s32 _). assert (Hls : lastsect = (start_addr st + L - 1) / 4096).
  { unfold lastsect, s32. rewrite Z.mod_small by divlia. lia. }
  destruct (erase_sectors_Done (Z.to_nat (lastsect - last_sector_erased st))
    (S (Z.to_nat (lastsect - last_sector_erased st))) w (last_sector_erased st) lastsect)
    as (f1 & E1 & O1 & C1); [lia|lia|divlia|divlia|done|].
  run E1. destruct (sf_write_ok f1 (start_addr st) (as_mem buffer) L) as (f2 & E2 & O2 & C2); [done|divlia..|].
  erewrite bind_Done by (apply on_flash_Done; exact E2).
  rewrite bool_decide_true by done.
  destruct (chunk_buffer D (extra_bytes st) e data len Hby (proj1 Hwn) (proj2 (proj2 Hwn)) (proj1 Hlen))
    as (HD & Hlb & HlD & Hdrop).
  fold n buffer in HD, Hlb, HlD, Hdrop. set (D' := D ++ cells data 0 len) in *.
  destruct (extra_next buffer (extra_bytes st) L r ltac:(lia) ltac:(lia) ltac:(lia) Hro) as [Hx4 Hxr].
  eexists _, _. split; [reflexivity|].
  split; cbn; rewrite ?HlD.
  - unfold D'. apply Forall_app. split; [done|]. by apply cells_byte.
  - lia.
  - lia.
  - exact Hx4.
  - rewrite Hxr, Hdrop by lia. do 2 f_equal. lia.
  - rewrite Hls. replace (Z.max _ _) with ((start_addr st + L - 1) / 4096) by divlia. destruct D' eqn:E'; [|f_equal; lia].
    cbn in HlD. lia.
  - subst w. by eexists.
  - done.
  - assert (Hold : forall x, S0 <= x < start_addr st -> as_mem D' (x - S0) = as_mem D (x - S0)).
    { intros x Hx. apply as_mem_app_l. lia. }
    assert (Hnew : forall x, start_addr st <= x -> as_mem D' (x - S0) = as_mem buffer (x - start_addr st)).
    { intros x Hx. rewrite HD, as_mem_app_r by (rewrite length_take; lia). rewrite length_take. f_equal. lia. }
    assert (Hbb : forall i, byteP (as_mem buffer i)).
    { intros i. apply as_mem_byte. unfold buffer. rewrite Hby. apply Forall_app. split; [by apply Forall_drop|by apply cells_byte]. }
    intros x. rewrite (session_cells (cell w0) (cell w) (sf_cell f1) (sf_cell f2) S0 (start_addr st) L
      (last_sector_erased st) lastsect D D' buffer) by (done || divlia). done.
Qed.


(** ** Data shared with the boot loader *)

(** The bytes of the RTC data. *)
Definition rtc_bytes (m : Rtc.rtcmem) : list Z :=
  concat ((fun j => le_bytes 4 (m (RBOOT_RTC_ADDR + Z.of_nat j))) <$> seq 0 (Z.to_nat (sizeof_rboot_rtc_data / 4))).

Lemma rtc_size : 0 < sizeof_rboot_rtc_data /\ sizeof_rboot_rtc_data = 4 * (sizeof_rboot_rtc_data / 4).
Proof. pose proof rb_rtc_words. pose proof rb_rtc_chksum. divlia. Qed.

Lemma length_words (g : nat -> Z) n : forall i,
  length (concat ((fun j => le_bytes 4 (g j)) <$> seq i n)) = (4 * n)%nat.
Proof.
  induction n as [|n IH]; intros i; cbn [seq fmap list_fmap concat]; [done|].
  rewrite length_app, length_le_bytes, IH. lia.
Qed.

Lemma length_rtc_bytes m : Z.of_nat (length (rtc_bytes m)) = sizeof_rboot_rtc_data.
Proof. pose proof rtc_size. unfold rtc_bytes. rewrite length_words. lia. Qed.

Lemma rtc_bytes_byte m : Forall byteP (rtc_bytes m).
Proof. apply Forall_concat, Forall_fmap, Forall_true. intros i. apply le_bytes_byte. Qed.

Lemma rtc_read_Done m :
  Rtc.sdk_system_rtc_mem_read RBOOT_RTC_ADDR true sizeof_rboot_rtc_data m = Done (Some (rtc_bytes m), m).
Proof.
  pose proof rtc_size. pose proof rb_rtc_addr. pose proof rb_rtc_fits. pose proof rb_rtc_words.
  unfold Rtc.sdk_system_rtc_mem_read. cbn [negb]. repeat (case_if; zbool; [lia|]).
  rewrite Rtc.rtc_round_ok by (done || lia).
  by rewrite (Rtc.rtc_read_loop_ok (Z.to_nat (sizeof_rboot_rtc_data / 4))) by lia.
Qed.

(** Is the checksum of the stored data right? *)
Definition rtc_valid (rtc : list Z) : bool := get_u8 rtc off_rtc_chksum =? calc_chksum rtc off_rtc_chksum.

Lemma get_rtc_data_Done rtc w :
  Z.of_nat (length rtc) = sizeof_rboot_rtc_data ->
  rboot_get_rtc_data rtc w = Done ((rtc_valid (rtc_bytes (w_rtc w)), rtc_bytes (w_rtc w)), w).
Proof.
  intros Hl. unfold rboot_get_rtc_data.
  erewrite bind_Done by (unfold on_rtc; rewrite rtc_read_Done; reflexivity). cbn beta iota.
  rewrite overlay_full by (pose proof (length_rtc_bytes (w_rtc w)); lia).
  unfold rtc_valid, ret. f_equal. f_equal. by destruct w.
Qed.

Lemma calc_chksum_set obj off v : calc_chksum (set_u8 obj off v) off = calc_chksum obj off.
Proof. unfold calc_chksum, set_u8. by rewrite take_insert_ge by lia. Qed.

Lemma set_rtc_data_Done rtc w :
  Z.of_nat (length rtc) = sizeof_rboot_rtc_data -> Forall byteP rtc ->
  exists m, rboot_set_rtc_data rtc w = Done ((true, set_u8 rtc off_rtc_chksum (calc_chksum rtc off_rtc_chksum)), set_rtc w m) /\
    rtc_bytes m = set_u8 rtc off_rtc_chksum (calc_chksum rtc off_rtc_chksum) /\
    (forall x, x < RBOOT_RTC_ADDR \/ RBOOT_RTC_ADDR + sizeof_rboot_rtc_data / 4 <= x -> m x = w_rtc w x).
Proof.
  intros Hl Hb. set (rtc' := set_u8 rtc _ _). pose proof rtc_size. pose proof rb_rtc_fits.
  assert (Hl' : Z.of_nat (length rtc') = sizeof_rboot_rtc_data) by (unfold rtc'; by rewrite length_set_u8).
  destruct (Rtc.rtc_write_read RBOOT_RTC_ADDR rtc' (w_rtc w)) as (m & E & R & Ho);
    rewrite ?Hl'; [apply rb_rtc_addr|lia|apply rb_rtc_words|by apply set_u8_byte, calc_chksum_byte|].
  rewrite Hl' in *. exists m. rewrite rtc_read_Done in R. injection R as R. split; [|done].
  unfold rboot_set_rtc_data. fold rtc'. by erewrite bind_Done by (unfold on_rtc; rewrite E; reflexivity).
Qed.

Lemma set_u32_ne obj off off' v :
  0 <= off -> 0 <= off' -> off' < off \/ off + 4 <= off' -> get_u8 (set_u32 obj off v) off' = get_u8 obj off'.
Proof.
  intros. unfold get_u8, set_u32, as_mem. rewrite !nth_lookup. f_equal.
  destruct (decide (off' < off)); [by rewrite list_lookup_inserts_lt by lia|].
  by rewrite list_lookup_inserts_ge by (rewrite length_le_bytes; lia).
Qed.

Lemma length_set_u32 obj off v : length (set_u32 obj off v) = length obj.
Proof. apply length_inserts. Qed.

Lemma set_u32_byte obj off v : Forall byteP obj -> Forall byteP (set_u32 obj off v).
Proof.
  intros Hb. unfold set_u32. generalize (Z.to_nat off). pose proof (le_bytes_byte 4 v) as H. induction H; intros i; cbn; [done|].
  by apply Forall_insert.
Qed.

(** The RTC data that asks for [rom] once. *)
Definition temp_rtc (rtc : list Z) (rom : Z) : list Z :=
  let rtc := if negb (rtc_valid rtc) then
      set_u8 (set_u8 (set_u32 rtc off_rtc_magic RBOOT_RTC_MAGIC) off_last_mode MODE_STANDARD) off_last_rom 0
    else rtc in
  set_u8 (set_u8 rtc off_next_mode MODE_TEMP_ROM) off_temp_rom rom.

Lemma temp_rtc_ok rtc rom :
  Z.of_nat (length rtc) = sizeof_rboot_rtc_data -> Forall byteP rtc -> byteP rom ->
  let new := temp_rtc rtc rom in
  Z.of_nat (length new) = sizeof_rboot_rtc_data /\ Forall byteP new /\
  get_u8 new off_next_mode = MODE_TEMP_ROM /\ get_u8 new off_temp_rom = rom /\
  get_u8 new off_last_rom = (if rtc_valid rtc then get_u8 rtc off_last_rom else 0) /\
  get_u8 new off_last_mode = (if rtc_valid rtc then get_u8 rtc off_last_mode else MODE_STANDARD).
Proof.
  intros Hl Hb Hr new. pose proof rb_rtc_offs as Ho. pose proof rb_rtc_nodup as Hn. pose proof rb_rtc_chksum.
  rewrite !Forall_cons in Ho. destruct Ho as (? & ? & ? & ? & _).
  rewrite !NoDup_cons, !not_elem_of_cons in Hn. destruct Hn as ((? & ? & ? & _) & (? & ? & _) & (? & _) & _).
  pose proof rb_modes as [? ?]. unfold new, temp_rtc. destruct (rtc_valid rtc); cbn [negb].
  all: rewrite !length_set_u8, ?length_set_u32; split; [done|].
  all: split; [repeat match goal with
    | |- Forall byteP (set_u8 _ _ _) => apply set_u8_byte
    | |- Forall byteP (set_u32 _ _ _) => apply set_u32_byte
    end; first [done|unfold byteP; lia]|].
  all: repeat split; repeat first [rewrite get_set_u8 by (rewrite ?length_set_u8, ?length_set_u32; lia)
      | rewrite get_set_u8_ne by lia].
  all: done.
Qed.

Lemma set_temp_rom_Done w rom :
  byteP rom -> let new := temp_rtc (rtc_bytes (w_rtc w)) rom in
  exists m, rboot_set_temp_rom rom w = Done (true, set_rtc w m) /\
    rtc_bytes m = set_u8 new off_rtc_chksum (calc_chksum new off_rtc_chksum) /\
    (forall x, x < RBOOT_RTC_ADDR \/ RBOOT_RTC_ADDR + sizeof_rboot_rtc_data / 4 <= x -> m x = w_rtc w x).
Proof.
  intros Hr new. pose proof rtc_size. unfold rboot_set_temp_rom. run (uninit_Done sizeof_rboot_rtc_data w).
  erewrite bind_Done by (apply get_rtc_data_Done; rewrite length_cells; lia). cbn beta iota.
  destruct (temp_rtc_ok (rtc_bytes (w_rtc w)) rom) as (Hl & Hb & _); [apply length_rtc_bytes|apply rtc_bytes_byte|done|].
  destruct (set_rtc_data_Done _ w Hl Hb) as (m & E & Hm). exists m. split; [|done].
  fold (temp_rtc (rtc_bytes (w_rtc w)) rom). by run E.
Qed.

Lemma last_boot_Done {A} (g : list Z -> A) w (k : M (world F) (option A)) :
  k = (let! rtc := uninit sizeof_rboot_rtc_data in
       let! (ok, rtc) := rboot_get_rtc_data rtc in
       ret (if ok : bool then Some (g rtc) else None)) ->
  rtc_valid (rtc_bytes (w_rtc w)) = true -> k w = Done (Some (g (rtc_bytes (w_rtc w))), w).
Proof.
  intros -> Hv. pose proof rtc_size. run (uninit_Done sizeof_rboot_rtc_data w).
  erewrite bind_Done by (apply get_rtc_data_Done; rewrite length_cells; lia). by rewrite Hv.
Qed.

End Proofs.
End ApiProofs.
