(* ===== verification/RbootImage.v ===== *)
(** * Image verification of the rboot API

    The layout of a firmware image in flash, and what [rboot_verify_image]
    and [rboot_digest_image] make of it. *)

From S2P Require Import Prelude Flash SdkFlash Rboot RbootProofs.
Open Scope Z_scope.

Module Image.
Import Api ApiProofs.

(** ** The layout of an image *)

(** The sections [ds] lie one after the other from [off] to [stop], each
    behind a header with its load address and length. *)
Fixpoint sections_at (c : Z -> Z) (limit off : Z) (ds : list (list Z)) (stop : Z) : Prop :=
  match ds with
  | [] => stop = off
  | d :: ds =>
    let n := Z.of_nat (length d) in
    le_val (cells c (off + 4) 4) = n /\ cells c (off + 8) n = d /\ n mod 4 = 0 /\
    off + 8 + n <= limit /\ sections_at c limit (off + 8 + n) ds stop
  end.

(** How far the code lets an image at [s] reach. *)
Definition image_limit (s : Z) : Z := s + 0x100000.

Definition up16 (x : Z) : Z := 16 * ((x + 15) / 16).

(** An image at [s]: an old header with its sections, or a new header with
    one section that is mapped in place, followed by an old image at the next
    multiple of 16. *)
Inductive layout (c : Z -> Z) (s : Z) : list (list Z) -> Z -> Prop :=
| old_image ds stop :
    c s = ROM_MAGIC_OLD -> c (s + 1) = Z.of_nat (length ds) ->
    sections_at c (image_limit s) (s + 8) ds stop ->
    layout c s ds stop
| new_image n ds stop :
    c s = ROM_MAGIC_NEW -> 0 < c (s + 1) ->
    le_val (cells c (s + 12) 4) = n -> n mod 4 = 0 -> s + 16 + n <= image_limit s ->
    c (up16 (s + 16 + n)) = ROM_MAGIC_OLD ->
    c (up16 (s + 16 + n) + 1) = Z.of_nat (length ds) ->
    sections_at c (image_limit s) (up16 (s + 16 + n) + 8) ds stop ->
    layout c s ds stop.

(** The image ends at the next multiple of 16, its last byte is the checksum
    of the section data. *)
Definition image_end (stop : Z) : Z := up16 (stop + 1).
Definition data_checksum `{RbootH} (ds : list (list Z)) : Z := foldl Z.lxor CHKSUM_INIT (concat ds).

Section Verify.
Context {F : Type} `{HF : SdkFlash F} {FL : SdkFlashLaws F} `{HR : RbootH} {RL : RbootHLaws}.
Implicit Types w : world F.

Lemma pad4_ok x : 0 <= x < 2 ^ 32 - 4 -> x mod 4 = 0 -> pad4 x = x.
Proof.
  intros Hx Hm. unfold pad4. rewrite u32_small by lia. change 3 with (Z.ones 2) at 2.
  rewrite Z.ldiff_ones_r, Z.shiftl_mul_pow2, Z.shiftr_div_pow2 by lia. change (2 ^ 2) with 4. divlia.
Qed.

Lemma pad16_ok x : 0 <= x < 2 ^ 32 - 16 -> pad16 x = up16 x.
Proof.
  intros Hx. unfold pad16, up16. rewrite u32_small by lia. change 15 with (Z.ones 4) at 2.
  rewrite Z.ldiff_ones_r, Z.shiftl_mul_pow2, Z.shiftr_div_pow2 by lia. change (2 ^ 4) with 16. lia.
Qed.

Lemma section_checksum_Done w offset n : forall i chunk ck,
  w_ok w -> 0 <= offset -> 0 <= i -> length chunk = 16%nat -> byteP ck ->
  (i mod 16 <> 0 -> chunk = cells (cell w) (offset + i - i mod 16) 16) ->
  offset + i + Z.of_nat n + 16 <= sf_chip_size ->
  section_checksum n i offset chunk ck w = Done (foldl Z.lxor ck (cells (cell w) (offset + i) (Z.of_nat n)), w).
Proof.
  pose proof sf_size_bound as Hsz. induction n as [|n IH]; intros i chunk ck Hw Ho Hi Hl Hck Hch Hc; cbn [section_checksum].
  { by rewrite cells_nil by lia. }
  rewrite (cells_cons _ _ (Z.of_nat (S n))) by lia. cbn [foldl].
  set (chunk' := cells (cell w) (offset + i - i mod 16) 16).
  erewrite bind_Done with (a := chunk') (s' := w).
  - assert (Hb : byteP (Z.lxor ck (cell w (offset + i)))) by (apply lxor_byte; [done|by apply sf_cell_byte]).
    assert (E : as_mem chunk' (i mod 16) = cell w (offset + i)).
    { pose proof (Z.mod_pos_bound i 16 ltac:(lia)).
      rewrite (cells_lookup_eq _ _ _ _ (offset + i) (eq_refl chunk')) by lia. f_equal. lia. }
    rewrite E, (u8_small (Z.lxor _ _)) by done. rewrite IH; try done; try lia.
    + do 4 f_equal; lia.
    + intros Hm. unfold chunk'. f_equal. divlia.
  - case_if; zbool.
    + rewrite u32_small by lia. erewrite bind_Done by (apply read_into_Done; first [done|lia]).
      rewrite overlay_full by (by rewrite length_cells). unfold chunk', ret. do 3 f_equal. lia.
    + by rewrite (Hch Heqb).
Qed.

Lemma read_header_Done w off :
  w_ok w -> 0 <= off -> off + 8 <= sf_chip_size ->
  read_into off (cells (w_junk w) 0 8) 8 w = Done ((SPI_FLASH_RESULT_OK, cells (cell w) off 8), w).
Proof. intros. apply read_fresh_Done; first [done|lia]. Qed.

Lemma section_length w off :
  length_ (dec_section_header (cells (cell w) off 8)) = le_val (cells (cell w) (off + 4) 4).
Proof.
  cbn. unfold get_u32. f_equal. rewrite (cells_shift _ (off + 4)), (cells_shift _ 4). apply cells_ext. intros x Hx.
  replace (4 + x) with (off + (4 + x) - off) by lia.
  rewrite <-(cells_lookup_eq _ off 8 _ (off + (4 + x)) eq_refl) by lia. f_equal. lia.
Qed.

Lemma header_byte w off i :
  0 <= i < 8 -> get_u8 (cells (cell w) off 8) i = cell w (off + i).
Proof.
  intros. unfold get_u8. rewrite (cells_lookup_eq _ off 8 _ (off + i) eq_refl) by lia. f_equal. lia.
Qed.

Lemma sections_stop c limit ds : forall off stop, sections_at c limit off ds stop -> off <= stop.
Proof.
  induction ds as [|d ds IH]; intros off stop; cbn; [lia|]. intros (_ & _ & _ & _ & H). apply IH in H. lia.
Qed.

Lemma verify_sections_Done w limit ibuf ds : forall fuel off ck stop,
  w_ok w -> sections_at (cell w) limit off ds stop -> (length ds < fuel)%nat -> 0 <= off -> off mod 4 = 0 ->
  byteP ck -> limit < 2 ^ 31 -> stop + 16 <= sf_chip_size ->
  verify_sections fuel limit off ck (Z.of_nat (length ds)) false ibuf w =
    Done (Sections stop (foldl Z.lxor ck (concat ds)) 0, w).
Proof.
  pose proof sf_size_bound as Hsz.
  induction ds as [|d ds IH]; intros fuel off ck stop Hw Hs Hf Ho Hm Hck Hlim Hstop;
    (destruct fuel as [|fuel]; [cbn in Hf; lia|]); cbn [verify_sections].
  { cbn in Hs. by subst. }
  destruct Hs as (Hlen & Hd & Hmod & Hin & Hs). pose proof (sections_stop _ _ _ _ _ Hs) as Hst. cbn [length] in Hf |- *.
  rewrite (proj2 (andb_true_iff _ _)) by (split; apply Z.ltb_lt; lia). unfold sizeof_section_header_t.
  run (uninit_Done 8 w). erewrite bind_Done by (apply read_header_Done; first [done|lia]). cbn beta iota.
  rewrite bool_decide_true by done. cbn [negb]. rewrite section_length, Hlen, (u32_small (off + 8)), !u32_small by lia.
  case_if; zbool; [lia|]. rewrite Hmod. cbn [Z.eqb negb]. case_if; zbool; [lia|].
  erewrite bind_Done; cycle 1.
  { run (uninit_Done 16 w). apply section_checksum_Done; try done; try lia. }
  rewrite Nat2Z.id, Z.add_0_r, Hd. rewrite pad4_ok by (lia || divlia).
  replace (Z.of_nat (S (length ds)) - 1) with (Z.of_nat (length ds)) by lia.
  rewrite (IH fuel _ _ stop) ; try done; try lia; try divlia.
  - cbn [concat]. by rewrite foldl_app.
  - apply foldl_lxor_byte; [done|]. rewrite <-Hd. apply cells_byte. intros x. by apply sf_cell_byte.
Qed.

(** What follows the section loop. *)
Lemma up16_range x : x <= up16 x < x + 16.
Proof. unfold up16. divlia. Qed.

Lemma u8_le_val b bs : byteP b -> u8 (le_val (b :: bs)) = b.
Proof. intros Hb. cbn. unfold u8. change (2 ^ 8) with 256. unfold byteP in Hb. rewrite Z.mul_comm, Z.mod_add, Z.mod_small; lia. Qed.

Lemma read_checksum_Done w x :
  w_ok w -> 0 <= x -> x + 1 <= sf_chip_size ->
  exists cbuf, read_into x (cells (w_junk w) 0 4) 1 w = Done ((SPI_FLASH_RESULT_OK, cbuf), w) /\
    u8 (get_u32 cbuf 0) = cell w x.
Proof.
  intros Hw Hx Hc. eexists. split; [apply read_into_Done; first [done|lia]|].
  assert (E : as_mem (overlay (cells (cell w) x 1) (cells (w_junk w) 0 4)) 0 = cell w x).
  { unfold overlay. rewrite as_mem_app_l by (rewrite length_cells; lia). replace 0 with (x - x) by lia.
    rewrite <-(cells_lookup_eq (cell w) x 1 _ x eq_refl) by lia. done. }
  unfold get_u32. rewrite cells_cons, E by lia. apply u8_le_val. by apply sf_cell_byte.
Qed.

(** What [rboot_verify_image] does once the header is read. *)
Lemma verify_image_tail w s ds stop (isnew : bool) :
  w_ok w -> 0 <= s -> s mod 4 = 0 -> s + 0x100000 < 2 ^ 31 -> stop + 16 <= sf_chip_size -> s + 8 <= stop ->
  cell w s = (if isnew then ROM_MAGIC_NEW else ROM_MAGIC_OLD) ->
  verify_sections verify_fuel (image_limit s) (s + 8) CHKSUM_INIT (cell w (s + 1)) isnew (cells (cell w) s 8) w
    = Done (Sections stop (data_checksum ds) 0, w) ->
  rboot_verify_image s w =
    Done (if cell w (image_end stop - 1) =? data_checksum ds
          then (true, image_end stop - s, None)
          else (false, image_end stop - s, Some Invalid_checksum), w).
Proof.
  intros Hw Hs Hm Hlim Hstop Hs8 Hmag Hsec. pose proof sf_size_bound as Hsz.
  pose proof (up16_range (stop + 1)) as Hup. fold (image_end stop) in Hup.
  unfold rboot_verify_image. rewrite Hm. cbn [Z.eqb negb]. unfold sizeof_image_header_t.
  run (uninit_Done 8 w). erewrite bind_Done by (apply read_header_Done; first [done|lia]). cbn beta iota.
  rewrite bool_decide_true by done. cbn [negb]. unfold dec_image_header. cbn [magic section_count].
  rewrite !header_byte, Z.add_0_r, Hmag, (u8_small CHKSUM_INIT rb_chksum_init), !(u32_small (s + _)) by lia.
  fold (image_limit s). replace (_ && _) with false by (by destruct isnew).
  replace (_ =? ROM_MAGIC_NEW) with isnew by (by destruct isnew). run Hsec. cbn [Z.ltb Z.compare].
  rewrite (u32_small (stop + 1)), pad16_ok by lia. fold (image_end stop).
  run (uninit_Done 4 w). destruct (read_checksum_Done w (image_end stop - 1)) as (cbuf & E & Ec); [done|lia..|].
  rewrite !u32_small by lia. run E. cbn beta iota. rewrite Ec. by destruct (_ =? _).
Qed.

Lemma verify_new_Done w s n ds stop :
  w_ok w -> 0 <= s -> s mod 4 = 0 -> s + 0x100000 < 2 ^ 31 -> stop + 16 <= sf_chip_size ->
  0 < cell w (s + 1) -> le_val (cells (cell w) (s + 12) 4) = n -> n mod 4 = 0 -> 0 <= n -> s + 16 + n <= image_limit s ->
  cell w (up16 (s + 16 + n)) = ROM_MAGIC_OLD ->
  cell w (up16 (s + 16 + n) + 1) = Z.of_nat (length ds) -> (length ds < 256)%nat ->
  sections_at (cell w) (image_limit s) (up16 (s + 16 + n) + 8) ds stop ->
  verify_sections verify_fuel (image_limit s) (s + 8) CHKSUM_INIT (cell w (s + 1)) true (cells (cell w) s 8) w
    = Done (Sections stop (data_checksum ds) 0, w).
Proof.
  intros Hw Hs Hm Hlim Hstop Hcnt Hn Hnm Hn0 Hin Hmag Hc2 Hlt Hsec. pose proof sf_size_bound as Hsz.
  pose proof (sections_stop _ _ _ _ _ Hsec) as Hst. pose proof (up16_range (s + 16 + n)) as Hup. unfold image_limit in *.
  unfold verify_fuel. change 257%nat with (S 256). remember 256%nat as fuel eqn:Hfuel. cbn [verify_sections].
  rewrite (proj2 (andb_true_iff _ _)) by (split; apply Z.ltb_lt; lia). unfold sizeof_section_header_t, sizeof_image_header_t.
  run (uninit_Done 8 w). erewrite bind_Done by (apply read_header_Done; first [done|lia]). cbn beta iota.
  rewrite bool_decide_true by done. cbn [negb]. rewrite section_length.
  replace (s + 8 + 4) with (s + 12) by lia. rewrite Hn, (u32_small (s + 8 + 8)) by lia.
  replace (s + 8 + 8) with (s + 16) by lia. rewrite !u32_small by lia. case_if; zbool; [lia|].
  rewrite Hnm. cbn [Z.eqb negb]. erewrite bind_Done by reflexivity.
  rewrite pad4_ok, pad16_ok by (lia || divlia).
  erewrite bind_Done by (apply read_into_Done; first [done|lia]). cbn beta iota.
  rewrite overlay_full by (by rewrite !length_cells). unfold dec_image_header. cbn [magic section_count].
  rewrite !header_byte, Z.add_0_r, Hmag, Hc2 by lia. cbn [Z.eqb negb ROM_MAGIC_OLD].
  rewrite u32_small by lia. apply verify_sections_Done; try done; try lia; [|apply rb_chksum_init].
  unfold up16. divlia.
Qed.

Lemma verify_image_layout w s ds stop :
  w_ok w -> 0 <= s -> s mod 4 = 0 -> s + 0x100000 < 2 ^ 31 -> stop + 16 <= sf_chip_size ->
  layout (cell w) s ds stop ->
  rboot_verify_image s w =
    Done (if cell w (image_end stop - 1) =? data_checksum ds
          then (true, image_end stop - s, None)
          else (false, image_end stop - s, Some Invalid_checksum), w).
Proof.
  intros Hw Hs Hm Hlim Hstop Hlay. pose proof (sf_cell_byte (w_flash w)) as Hb. unfold byteP in Hb.
  destruct Hlay as [ds stop H1 H2 H3|n ds stop H1 H2 H3 H4 H5 H6 H7 H8].
  - pose proof (sections_stop _ _ _ _ _ H3). specialize (Hb (s + 1) Hw).
    apply verify_image_tail with (isnew := false); try done; try lia. rewrite H2.
    apply verify_sections_Done; unfold image_limit, verify_fuel;
      first [done|lia|exact rb_chksum_init|divlia].
  - pose proof (sections_stop _ _ _ _ _ H8). pose proof (up16_range (s + 16 + n)).
    assert (Hn : 0 <= n) by (rewrite <-H3; apply le_val_range, cells_byte; intros; by apply sf_cell_byte).
    apply verify_image_tail with (isnew := true); try done; try lia.
    apply (verify_new_Done w s n); try done. pose proof (Hb (up16 (s + 16 + n) + 1) Hw). lia.
Qed.

(** ** The bytes that matter *)

Lemma sections_ext c c' limit ds : forall off stop,
  sections_at c limit off ds stop -> (forall x, off <= x < stop -> c' x = c x) -> sections_at c' limit off ds stop.
Proof.
  induction ds as [|d ds IH]; intros off stop; cbn [sections_at]; [done|]. intros (H1 & H2 & H3 & H4 & H5) Hc.
  pose proof (sections_stop _ _ _ _ _ H5) as Hs.
  split; [rewrite <-H1; f_equal; apply cells_ext; intros; apply Hc; lia|].
  split; [rewrite <-H2 at 2; apply cells_ext; intros; apply Hc; lia|]. do 2 (split; [done|]).
  apply IH; [done|]. intros. apply Hc. lia.
Qed.

(** An image is the same on any flash with the same bytes. *)
Lemma layout_ext c c' s ds stop :
  layout c s ds stop -> (forall x, byteP (c x)) -> (forall x, s <= x < stop -> c' x = c x) -> layout c' s ds stop.
Proof.
  intros Hl Hb Hc. destruct Hl as [ds stop H1 H2 H3|n ds stop H1 H2 H3 H4 H5 H6 H7 H8].
  - pose proof (sections_stop _ _ _ _ _ H3). apply old_image; rewrite ?Hc by lia; try done.
    eapply sections_ext; [done|]. intros. apply Hc. lia.
  - pose proof (sections_stop _ _ _ _ _ H8). pose proof (up16_range (s + 16 + n)).
    assert (Hn : 0 <= n) by (rewrite <-H3; by apply le_val_range, cells_byte).
    apply (new_image c' s n); rewrite ?Hc by lia; try done.
    + rewrite <-H3. f_equal. apply cells_ext. intros. apply Hc. lia.
    + eapply sections_ext; [done|]. intros. apply Hc. lia.
Qed.

Lemma layout_stop c s ds stop : layout c s ds stop -> (forall x, byteP (c x)) -> s + 8 <= stop.
Proof.
  intros [ds' stop' _ _ H|n ds' stop' _ _ H3 _ _ _ _ H] Hb; apply sections_stop in H; [lia|].
  pose proof (up16_range (s + 16 + n)). assert (0 <= n) by (rewrite <-H3; by apply le_val_range, cells_byte). lia.
Qed.

(** ** Digests *)

Lemma take_cells c a n m : 0 <= n <= m -> take (Z.to_nat n) (cells c a m) = cells c a n.
Proof.
  intros H. replace m with (n + (m - n)) by lia. rewrite cells_app by lia. apply take_app_length'.
  by rewrite length_cells.
Qed.

Lemma digest_loop_Done {C} (update : C -> list Z -> C) w offset len k : forall fuel i buf ctx,
  w_ok w -> 0 <= offset -> 0 <= len -> 0 <= i < len + 32 -> offset + len + 32 <= sf_chip_size ->
  length buf = 32%nat -> len - i <= 32 * Z.of_nat k -> (k < fuel)%nat ->
  exists chunks, digest_loop update fuel i offset len buf ctx w = Done ((true, foldl update ctx chunks), w) /\
    concat chunks = cells (cell w) (offset + i) (len - i).
Proof.
  pose proof sf_size_bound as Hsz.
  induction k as [|k IH]; intros fuel i buf ctx Hw Ho Hlen Hi Hc Hl Hk Hf; (destruct fuel as [|fuel]; [lia|]);
    cbn [digest_loop]; rewrite (u32_small i) by lia; case_if; zbool; try lia;
    try (exists []; split; [done|by rewrite cells_nil by lia]).
  rewrite (u32_small (offset + i)) by lia.
  erewrite bind_Done by (apply read_into_Done; first [done|lia]). cbn beta iota.
  rewrite overlay_full by (by rewrite length_cells). rewrite bool_decide_true by done. cbn [negb].
  rewrite !u32_small by lia. set (n := if len <? i + 32 then len - i else 32).
  assert (Hn : n = Z.min 32 (len - i)) by (unfold n; case_if; zbool; lia). rewrite take_cells by lia.
  case_if; zbool; [lia|].
  destruct (IH fuel (i + 32) (cells (cell w) (offset + i) 32) (update ctx (cells (cell w) (offset + i) n)))
    as (chunks & E & Ec); [done|lia..|by rewrite length_cells|lia|lia|].
  exists (cells (cell w) (offset + i) n :: chunks). split; [done|]. cbn [concat]. rewrite Ec.
  destruct (decide (len - i <= 32)).
  - rewrite (cells_nil _ _ (len - (i + 32))), app_nil_r by lia. f_equal. lia.
  - replace n with 32 by lia. replace (offset + (i + 32)) with (offset + i + 32) by lia.
    rewrite <-cells_app by lia. f_equal. lia.
Qed.

End Verify.
(** ** Termination on any flash contents *)

Section Ends.
Context {F : Type} `{HF : SdkFlash F} `{HR : RbootH}.
Implicit Types w : world F.

(** Every read returns, with bytes, and keeps what is known of the state; it
    may fail. *)
Context (I : world F -> Prop).
Hypothesis read_returns : forall a n w, I w -> exists r bs f',
  spi_flash_read a n (w_flash w) = Done ((r, bs), f') /\ Forall byteP bs /\ I (set_flash w f').

Definition junk_bytes w : Prop := I w /\ forall x, byteP (w_junk w x).

Lemma read_into_ends a obj n :
  Forall byteP obj -> ends junk_bytes (read_into a obj n) (fun r w => Forall byteP (snd r) /\ junk_bytes w).
Proof.
  intros Ho w [Hi Hw]. unfold read_into, on_flash, bind.
  destruct (read_returns a n w Hi) as (r & bs & f & E & Hb & Hf). rewrite E. cbn. split; [|done]. apply Forall_app. split; [done|by apply Forall_drop].
Qed.

Lemma uninit_ends n : ends junk_bytes (uninit n) (fun r w => Forall byteP r /\ junk_bytes w).
Proof. intros w [Hi Hw]. cbn. split; [|done]. by apply cells_byte. Qed.

(** A fact about the result so far is kept beside the state's. *)
Lemma ends_pure {A} (X : Prop) (P : world F -> Prop) (m : M (world F) A) Q :
  (X -> ends P m Q) -> ends (fun w => X /\ P w) m Q.
Proof. intros H w [HX HP]. by apply H. Qed.

Lemma section_checksum_ends n : forall i offset chunk ck,
  Forall byteP chunk -> ends junk_bytes (section_checksum n i offset chunk ck) (fun _ => junk_bytes).
Proof.
  induction n as [|n IH]; intros i offset chunk ck Hc; cbn [section_checksum]; [by apply ends_ret|].
  apply ends_bind with (fun c w => Forall byteP c /\ junk_bytes w).
  - case_if; [|by apply ends_ret]. eapply ends_bind; [by apply read_into_ends|].
    intros [r c]. apply ends_pure. intros Hb. by apply ends_ret.
  - intros c. apply ends_pure. apply IH.
Qed.

Lemma get_u8_byte obj i : Forall byteP obj -> byteP (get_u8 obj i).
Proof. apply as_mem_byte. Qed.

Lemma verify_sections_ends fuel : forall limit off ck rem (isnew : bool) ibuf,
  Forall byteP ibuf -> (if isnew then 257 <= Z.of_nat fuel else rem < Z.of_nat fuel) -> 0 < Z.of_nat fuel ->
  ends junk_bytes (verify_sections fuel limit off ck rem isnew ibuf) (fun _ => junk_bytes).
Proof.
  induction fuel as [|fuel IH]; intros limit off ck rem isnew ibuf Hi Hf Hpos; [lia|]. cbn [verify_sections].
  destruct (0 <? rem) eqn:Hrem; zbool; [|by apply ends_ret]. case_if; [|by apply ends_ret].
  eapply ends_bind; [apply uninit_ends|]. intros hb. apply ends_pure. intros Hhb.
  eapply ends_bind; [by apply read_into_ends|]. intros [r hb']. apply ends_pure. intros Hhb'.
  case_if; [by apply ends_ret|]. case_if; [by apply ends_ret|]. case_if; [by apply ends_ret|].
  apply ends_bind with (fun _ => junk_bytes).
  { destruct isnew; [by apply ends_ret|]. case_if; [apply ends_undefined|].
    eapply ends_bind; [apply uninit_ends|]. intros ch. apply ends_pure. apply section_checksum_ends. }
  intros ck'. destruct isnew; [|apply IH; [done|lia..]].
  eapply ends_bind; [by apply read_into_ends|]. intros [r2 ib]. apply ends_pure. intros Hib.
  case_if; [by apply ends_ret|]. apply IH; [done| |lia]. cbn [section_count dec_image_header].
  pose proof (get_u8_byte ib 1 Hib) as Hb. unfold byteP in Hb. lia.
Qed.

Lemma rboot_verify_image_ends s : ends junk_bytes (rboot_verify_image s) (fun _ => junk_bytes).
Proof.
  unfold rboot_verify_image. case_if; [by apply ends_ret|].
  eapply ends_bind; [apply uninit_ends|]. intros ib. apply ends_pure. intros Hib.
  eapply ends_bind; [by apply read_into_ends|]. intros [r ib']. apply ends_pure. intros Hib'.
  case_if; [by apply ends_ret|]. case_if; [by apply ends_ret|].
  eapply ends_bind.
  { apply verify_sections_ends; [done| |done].
    pose proof (get_u8_byte ib' 1 Hib') as Hb. unfold byteP in Hb. cbn -[get_u8]. unfold verify_fuel; case_if; lia. }
  intros [o e|o c rem]; [by apply ends_ret|]. case_if; [by apply ends_ret|].
  eapply ends_bind; [apply uninit_ends|]. intros cb. apply ends_pure. intros Hcb.
  eapply ends_bind; [by apply read_into_ends|]. intros [r3 cb']. apply ends_pure. intros _.
  case_if; by apply ends_ret.
Qed.

End Ends.

End Image.
