(* ===== verification/RbootContract.v ===== *)
(** * What the rboot API promises

    The properties of [extras/rboot-ota/rboot-api.c] that its users rely on,
    with concrete runs.  Module [Board] has a layout of the boot loader's
    structures and a simulated flash for these runs. *)

From stdpp Require Import strings.
From S2P Require Import Prelude Flash SdkFlash Rboot RbootProofs RbootImage.
Open Scope Z_scope.

Import Api ApiProofs Image.

Section Contract.
Context {F : Type} `{HF : SdkFlash F} {FL : SdkFlashLaws F} `{HR : RbootH} {RL : RbootHLaws}.
Implicit Types w : world F.

(** ** Configuration *)

(** C24. Saving a configuration: [rboot_set_config] reports success, the next
    [rboot_get_config] returns the structure with its checksum over all
    bytes before the checksum filled in, and no byte of the flash outside the
    structure changes, in particular not the rest of its sector. *)
Theorem rboot_set_config_roundtrip w conf :
  4096 * (BOOT_CONFIG_SECTOR + 1) <= sf_chip_size ->
  w_ok w -> w_alloc w = [] -> Z.of_nat (length conf) = sizeof_rboot_config -> Forall byteP conf ->
  exists w' conf',
    rboot_set_config conf w = Done ((true, conf'), w') /\
    rboot_get_config w' = Done (conf', w') /\
    get_u8 conf' off_chksum = calc_chksum conf' off_chksum /\
    (forall i, 0 <= i -> i <> off_chksum -> get_u8 conf' i = get_u8 conf i) /\
    (forall x, x < conf_addr \/ conf_addr + sizeof_rboot_config <= x -> cell w' x = cell w x) /\
    w_critical w' = w_critical w.
Proof.
  intros Hconf Hw Ha Hl Hb. pose proof rb_sizeof. pose proof rb_count.
  destruct (set_config_Done Hconf w conf Hw Ha Hl Hb) as (f & E & Ok & C).
  assert (Hls : Z.of_nat (length (sealed conf)) = sizeof_rboot_config) by (unfold sealed; by rewrite length_set_u8).
  exists (set_flash w f), (sealed conf). split; [done|]. split.
  { rewrite get_config_Done by done. by rewrite (config_of_put w f (sealed conf)). }
  unfold sealed. split; [rewrite get_set_u8 by lia; by rewrite calc_chksum_set|].
  split; [intros; by apply get_set_u8_ne; [lia..|]|]. split; [|done].
  intros x Hx. cbn. rewrite C. apply put_bytes_out. lia.
Qed.

(** Selecting the rom to boot: a rom number outside the configured count
    is refused and nothing is written; otherwise the configuration then names
    that rom, its checksum is right, the number of roms and every slot offset
    stay, and the flash outside the structure is untouched. *)
Theorem rboot_set_current_rom_selects w rom :
  4096 * (BOOT_CONFIG_SECTOR + 1) <= sf_chip_size ->
  w_ok w -> w_alloc w = [] -> byteP rom -> get_u8 (config_of w) off_count <= MAX_ROMS ->
  let count := get_u8 (config_of w) off_count in
  if count <=? rom then rboot_set_current_rom rom w = Done (false, w)
  else exists w',
    rboot_set_current_rom rom w = Done (true, w') /\
    rboot_get_current_rom w' = Done (rom, w') /\
    get_u8 (config_of w') off_count = count /\
    get_u8 (config_of w') off_chksum = calc_chksum (config_of w') off_chksum /\
    (forall slot, 0 <= slot -> exists o,
       rboot_get_slot_offset slot w = Done (o, w) /\ rboot_get_slot_offset slot w' = Done (o, w')) /\
    (forall x, x < conf_addr \/ conf_addr + sizeof_rboot_config <= x -> cell w' x = cell w x).
Proof.
  intros Hconf Hw Ha Hr Hmax count. pose proof (set_current_rom_Done Hconf w rom Hw Ha Hr) as H.
  unfold count. case_if; [done|]. destruct H as (f & E & Ok & C). zbool.
  set (conf1 := set_u8 (config_of w) off_current_rom rom) in *.
  pose proof rb_sizeof. pose proof rb_count. pose proof rb_current_rom. pose proof rb_count_rom. pose proof rb_roms.
  pose proof rb_roms_chksum. pose proof (length_config w) as Hl.
  assert (Hl1 : Z.of_nat (length (sealed conf1)) = sizeof_rboot_config)
    by (unfold sealed, conf1; by rewrite !length_set_u8).
  assert (Hc : config_of (set_flash w f) = sealed conf1) by (by apply config_of_put).
  assert (Hget : rboot_get_config (set_flash w f) = Done (sealed conf1, set_flash w f)).
  { rewrite get_config_Done by done. by rewrite Hc. }
  assert (Hcnt : get_u8 (sealed conf1) off_count = get_u8 (config_of w) off_count).
  { unfold sealed, conf1. rewrite !get_set_u8_ne by lia. done. }
  exists (set_flash w f). rewrite Hc. split; [done|]. split.
  { unfold rboot_get_current_rom. run Hget. unfold ret. do 2 f_equal. unfold sealed, conf1.
    rewrite get_set_u8_ne, get_set_u8 by lia. done. }
  split; [done|]. split.
  { unfold sealed. rewrite get_set_u8, calc_chksum_set by (unfold conf1; rewrite length_set_u8; lia). done. }
  split; [|intros x Hx; cbn; rewrite C; apply put_bytes_out; lia].
  intros slot Hs. unfold rboot_get_slot_offset. run (get_config_Done Hconf w Hw). run Hget. rewrite Hcnt.
  case_if; zbool; [by eexists|]. eexists. split; [reflexivity|]. unfold ret. do 2 f_equal.
  unfold get_u32. f_equal. apply cells_ext. intros x Hx. change as_mem with get_u8. unfold sealed, conf1.
  rewrite !get_set_u8_ne by lia. done.
Qed.

(** ** Storing an image *)

(** A user's loop over the chunks of an image. *)
Fixpoint write_chunks (st : rboot_write_status) (chunks : list (list Z)) : M (world F) (bool * rboot_write_status) :=
  match chunks with
  | [] => ret (true, st)
  | c :: cs =>
    let! (ok, st) := rboot_write_flash st (Some (as_mem c)) (Z.of_nat (length c)) in
    if ok : bool then write_chunks st cs else ret (false, st)
  end.

Lemma write_chunks_session w0 S0 chunks : forall D w st,
  session w0 S0 D w st -> w_alloc w0 = [] -> 0 < S0 -> S0 mod 4 = 0 -> sf_chip_size mod 4096 = 0 ->
  Forall (fun c => Forall byteP c /\ Z.of_nat (length c) <= 4096) chunks ->
  S0 + Z.of_nat (length (D ++ concat chunks)) <= sf_chip_size ->
  exists w' st', write_chunks st chunks w = Done ((true, st'), w') /\ session w0 S0 (D ++ concat chunks) w' st'.
Proof.
  induction chunks as [|c cs IH]; intros D w st Hse Ha HS Hm Hc Hf Hlen; cbn [write_chunks concat].
  - exists w, st. by rewrite app_nil_r.
  - inversion Hf as [|? ? [Hb Hl] Hf']; subst. cbn [concat] in Hlen. rewrite !length_app in Hlen.
    destruct (write_flash_session w0 S0 D w st (as_mem c) (Z.of_nat (length c)))
      as (w1 & st1 & E1 & S1); [done || lia..|intros; by apply as_mem_byte|].
    run E1. rewrite cells_as_mem in S1.
    destruct (IH (D ++ c) w1 st1) as (w2 & st2 & E2 & S2); [done..|rewrite !length_app; lia|].
    exists w2, st2. rewrite <-app_assoc in S2. done.
Qed.

(** C8. A write session: an image passed to [rboot_write_flash] in chunks of
    any lengths up to 4 KiB ends up on the flash from the start address on,
    but for the last one to three bytes of an image that is not a whole
    number of words, which stay in the status.  The start address is word
    aligned and not 0, the image fits the chip and the buffers are allocated.
    Every call reports success and no byte before the sector of the start
    address or behind the last sector needed changes; the bytes of the first
    sector before a start address inside it are erased. *)
Theorem rboot_write_session w S0 chunks :
  w_ok w -> w_alloc w = [] -> 0 < S0 -> S0 mod 4 = 0 -> sf_chip_size mod 4096 = 0 ->
  Forall (fun c => Forall byteP c /\ Z.of_nat (length c) <= 4096) chunks ->
  S0 + Z.of_nat (length (concat chunks)) <= sf_chip_size ->
  let image := concat chunks in let n := 4 * (Z.of_nat (length image) / 4) in
  exists w' st,
    write_chunks (rboot_write_init S0) chunks w = Done ((true, st), w') /\
    cells (cell w') S0 n = take (Z.to_nat n) image /\
    take (Z.to_nat (extra_count st)) (extra_bytes st) = drop (Z.to_nat n) image /\
    (forall x, x < 4096 * (S0 / 4096) \/ 4096 * ((S0 + n - 1) / 4096 + 1) <= x -> cell w' x = cell w x) /\
    (forall x, 4096 * (S0 / 4096) <= x < S0 -> cell w' x = match image with [] => cell w x | _ => 255 end).
Proof.
  intros Hw Ha HS Hm Hc Hf Hlen image n. pose proof (Zle_0_nat (length image)).
  destruct (write_chunks_session w S0 chunks [] w (rboot_write_init S0)) as (w' & st & E & [? Hst Hco _ Hby Her _ _ Hce]);
    [apply write_init_session; first [done|lia]|done..|].
  cbn [app] in *. fold image n in Hst, Hco, Hby, Her, Hce. exists w', st. split; [done|].
  assert (Hn : 0 <= n <= Z.of_nat (length image)) by (subst n; divlia). split; [|split; [done|]].
  - replace n with (Z.of_nat (length (take (Z.to_nat n) image))) at 1 by (rewrite length_take; lia).
    apply cells_eq_as_mem. rewrite length_take. intros x Hx. rewrite as_mem_take by lia. rewrite Hce, Hst.
    case_if; zbool; [done|]. destruct Heqb; zbool; lia.
  - rewrite Hst in Her. split; intros x Hx; rewrite Hce, Her, Hst; destruct image; cbn [length] in *; repeat case_if; zbool; try done;
      divlia.
Qed.

(** ** Checking an image *)

(** [rboot_verify_image] accepts every well-formed image, of the old and
    of the new format, whose last byte is the checksum of its sections, and
    reports its length rounded up to 16 bytes. *)
Theorem rboot_verify_image_accepts w s ds stop :
  w_ok w -> 0 <= s -> s mod 4 = 0 -> stop + 16 <= sf_chip_size ->
  layout (cell w) s ds stop -> cell w (image_end stop - 1) = data_checksum ds -> s <= stop ->
  rboot_verify_image s w = Done ((true, image_end stop - s, None), w).
Proof.
  intros Hw Hs Hm Hc Hlay Hck Hss. pose proof sf_size_bound.
  rewrite (verify_image_layout w s ds stop) by (done || lia). by rewrite Hck, Z.eqb_refl.
Qed.

Lemma foldl_lxor_change l : forall (r : list Z) a b b',
  foldl Z.lxor a (l ++ b :: r) = foldl Z.lxor a (l ++ b' :: r) -> b = b'.
Proof.
  assert (Hr : forall r a a', foldl Z.lxor a r = foldl Z.lxor a' r -> a = a').
  { induction r as [|x r IH]; intros a a'; [done|]. cbn. intros H%IH.
    apply (f_equal (fun z => Z.lxor z x)) in H. by rewrite !Z.lxor_assoc, !Z.lxor_nilpotent, !Z.lxor_0_r in H. }
  intros r a b b'. rewrite !foldl_app. cbn. set (c := foldl Z.lxor a l). intros H%Hr.
  apply (f_equal (Z.lxor c)) in H. by rewrite <-!Z.lxor_assoc, !Z.lxor_nilpotent, !Z.lxor_0_l in H.
Qed.

(** A changed byte is noticed: when the flash holds an image whose
    checksum byte was made for sections that differ from the stored ones in
    exactly one byte, [rboot_verify_image] fails with the checksum error. *)
Theorem rboot_verify_image_detects_change w s ds1 l b b' r ds2 stop :
  w_ok w -> 0 <= s -> s mod 4 = 0 -> stop + 16 <= sf_chip_size -> s <= stop ->
  layout (cell w) s (ds1 ++ (l ++ b' :: r) :: ds2) stop ->
  cell w (image_end stop - 1) = data_checksum (ds1 ++ (l ++ b :: r) :: ds2) -> b <> b' ->
  rboot_verify_image s w = Done ((false, image_end stop - s, Some Invalid_checksum), w).
Proof.
  intros Hw Hs Hm Hc Hss Hlay Hck Hb. pose proof sf_size_bound.
  rewrite (verify_image_layout w s _ stop Hw Hs Hm ltac:(lia) Hc Hlay), Hck.
  destruct (_ =? _) eqn:E; [|done]. zbool. destruct Hb. unfold data_checksum in E.
  rewrite !concat_app in E. cbn [concat] in E. rewrite <-!app_assoc in E. cbn [app] in E.
  rewrite !app_assoc in E. by apply foldl_lxor_change in E.
Qed.

(** [rboot_digest_image] hands the bytes of the image, all of them and in
    order, to the update function. *)
Theorem rboot_digest_image_covers {C} (update : C -> list Z -> C) w s len ctx :
  w_ok w -> 0 <= s -> 0 <= len -> s + len + 32 <= sf_chip_size ->
  exists pieces, rboot_digest_image update s len ctx w = Done ((true, foldl update ctx pieces), w) /\
    concat pieces = cells (cell w) s len.
Proof.
  intros Hw Hs Hl Hc. unfold rboot_digest_image. run (uninit_Done 32 w).
  destruct (digest_loop_Done update w s len (Z.to_nat (len / 32 + 1)) (S (Z.to_nat (len / 32 + 1))) 0
    (cells (w_junk w) 0 32) ctx) as (pieces & E & Ec); [done|lia..|by rewrite length_cells|divlia|lia|].
  exists pieces. rewrite Z.add_0_r, Z.sub_0_r in Ec. done.
Qed.

(** The check of a section's length overflows: an image whose first,
    unchecked section claims a length of 4 GiB less 8 bytes passes, although
    no such section can lie within the limit of 1 MiB. *)
Theorem rboot_verify_image_length_overflow w s :
  w_ok w -> 0 <= s -> s mod 16 = 0 -> s + 0x100000 <= sf_chip_size ->
  cell w s = ROM_MAGIC_NEW -> 0 < cell w (s + 1) -> le_val (cells (cell w) (s + 12) 4) = 2 ^ 32 - 8 ->
  cell w (s + 16) = ROM_MAGIC_OLD -> cell w (s + 17) = 0 -> cell w (s + 31) = CHKSUM_INIT ->
  rboot_verify_image s w = Done ((true, 32, None), w).
Proof.
  intros Hw Hs Hm Hc Hmag Hcnt Hlen Hmag2 Hcnt2 Hck. pose proof sf_size_bound as Hsz.
  assert (Hend : image_end (s + 24) = s + 32) by (unfold image_end, up16; divlia).
  rewrite (verify_image_tail w s [] (s + 24) true); try (done || lia || divlia).
  { rewrite Hend. replace (s + 32 - 1) with (s + 31) by lia. rewrite Hck. unfold data_checksum. cbn [concat foldl].
    rewrite Z.eqb_refl. do 4 f_equal. lia. }
  unfold verify_fuel, image_limit. change 257%nat with (S (S 255)). remember 255%nat as fuel eqn:Hfuel. clear Hfuel.
  cbn [verify_sections].
  rewrite (proj2 (andb_true_iff _ _)) by (split; apply Z.ltb_lt; lia).
  unfold sizeof_section_header_t, sizeof_image_header_t.
  run (uninit_Done 8 w). erewrite bind_Done by (apply read_header_Done; first [done|lia]). cbn beta iota.
  rewrite bool_decide_true by done. cbn [negb]. rewrite section_length.
  replace (s + 8 + 4) with (s + 12) by lia. rewrite Hlen, (u32_small (s + 8 + 8)) by lia.
  replace (u32 (2 ^ 32 - 8 + (s + 8 + 8))) with (s + 8) by (unfold u32; divlia).
  replace (u32 (s + 8 + 8 + (2 ^ 32 - 8))) with (s + 8) by (unfold u32; divlia).
  case_if; zbool; [lia|]. replace ((2 ^ 32 - 8) mod 4) with 0 by done. cbn [Z.eqb negb].
  erewrite bind_Done by reflexivity. rewrite pad4_ok, pad16_ok by (lia || divlia).
  replace (up16 (s + 8)) with (s + 16) by (unfold up16; divlia).
  erewrite bind_Done by (apply read_into_Done; first [done|lia]). cbn beta iota.
  rewrite overlay_full by (by rewrite !length_cells). unfold dec_image_header. cbn [magic section_count].
  rewrite !header_byte, Z.add_0_r, Hmag2 by lia. cbn [Z.eqb negb ROM_MAGIC_OLD].
  replace (s + 16 + 1) with (s + 17) by lia. rewrite Hcnt2, u32_small by lia.
  replace (s + 16 + 8) with (s + 24) by lia. reflexivity.
Qed.

(** ** Booting a rom once *)

(** [rboot_set_temp_rom] asks the boot loader, through the RTC memory, to
    boot the rom once: the data stored is valid and names the rom and the
    temporary mode.  What it says of the last boot is kept when it was valid
    and reset to the standard mode and rom 0 when not; nothing else in the
    RTC memory and no flash changes. *)
Theorem rboot_set_temp_rom_stores w rom :
  byteP rom ->
  let old := rtc_bytes (w_rtc w) in
  exists w' new,
    rboot_set_temp_rom rom w = Done (true, w') /\ w_flash w' = w_flash w /\
    (forall x, x < RBOOT_RTC_ADDR \/ RBOOT_RTC_ADDR + sizeof_rboot_rtc_data / 4 <= x -> w_rtc w' x = w_rtc w x) /\
    (forall rtc, Z.of_nat (length rtc) = sizeof_rboot_rtc_data ->
       rboot_get_rtc_data rtc w' = Done ((true, new), w')) /\
    get_u8 new off_next_mode = MODE_TEMP_ROM /\ get_u8 new off_temp_rom = rom /\
    rboot_get_last_boot_rom w' = Done (Some (if rtc_valid old then get_u8 old off_last_rom else 0), w') /\
    rboot_get_last_boot_mode w' = Done (Some (if rtc_valid old then get_u8 old off_last_mode else MODE_STANDARD), w').
Proof.
  intros Hr old. pose proof rb_rtc_offs as Ho. pose proof rb_rtc_chksum.
  rewrite !Forall_cons in Ho. destruct Ho as (? & ? & ? & ? & _).
  destruct (set_temp_rom_Done w rom Hr) as (m & E & Hm & Hout). fold old in Hm.
  destruct (temp_rtc_ok old rom) as (Hl & Hb & Hg1 & Hg2 & Hg3 & Hg4); [apply length_rtc_bytes|apply rtc_bytes_byte|done|].
  set (new := set_u8 (temp_rtc old rom) _ _) in *.
  assert (Hv : rtc_valid (rtc_bytes (w_rtc (set_rtc w m))) = true).
  { cbn. rewrite Hm. unfold rtc_valid, new. rewrite get_set_u8, calc_chksum_set by lia. apply Z.eqb_refl. }
  assert (Hne : forall o, 0 <= o < off_rtc_chksum -> get_u8 new o = get_u8 (temp_rtc old rom) o).
  { intros o Hoo. unfold new. apply get_set_u8_ne; lia. }
  exists (set_rtc w m), new. split; [done|]. split; [done|]. split; [done|]. split.
  { intros rtc Hrl. rewrite get_rtc_data_Done by done. rewrite Hv. cbn [w_rtc set_rtc]. by rewrite Hm. }
  rewrite !Hne, Hg1, Hg2 by done. do 2 (split; [done|]).
  rewrite <-Hg3, <-Hg4, <-!Hne by done. rewrite <-Hm.
  split; by apply (last_boot_Done (fun rtc => get_u8 rtc _)).
Qed.

End Contract.

(** [rboot_verify_image] ends on every flash contents, also when reads
    fail: its loops never exceed the number of sections a header can name. *)
Theorem rboot_verify_image_terminates {F : Type} `{HF : SdkFlash F} `{HR : RbootH} (w : world F) s :
  (forall a n f, exists r bs f', spi_flash_read a n f = Done ((r, bs), f') /\ Forall byteP bs) ->
  (forall x, byteP (w_junk w x)) ->
  rboot_verify_image s w <> OutOfFuel.
Proof.
  intros Hr Hj. pose proof (rboot_verify_image_ends (fun _ => True)) as H.
  specialize (H ltac:(intros a n v _; destruct (Hr a n (w_flash v)) as (r & bs & f' & ? & ?); by exists r, bs, f') s w (conj I Hj)).
  by destruct (rboot_verify_image s w) as [[]| |].
Qed.

(** ** Concrete runs *)

Module Board.
Import SimRom.

(** A layout of the boot loader's structures. *)
#[export] Instance rboot_h : RbootH := {
  SECTOR_SIZE := 4096; BOOT_CONFIG_SECTOR := 1; CHKSUM_INIT := 0xef;
  sizeof_rboot_config := 28; off_current_rom := 3; off_count := 5; MAX_ROMS := 4; off_roms := 8; off_chksum := 24;
  RBOOT_RTC_ADDR := 64; RBOOT_RTC_MAGIC := 0x2334ae68; MODE_STANDARD := 0; MODE_TEMP_ROM := 2;
  sizeof_rboot_rtc_data := 12; off_rtc_magic := 0; off_next_mode := 4; off_last_mode := 5; off_last_rom := 6;
  off_temp_rom := 7; off_rtc_chksum := 8;
}.

#[export] Instance rboot_h_laws : RbootHLaws.
Proof.
  split; cbn; unfold byteP; try lia; try done.
  - repeat constructor; lia.
  - repeat constructor; lia.
  - rewrite !NoDup_cons, !not_elem_of_cons. repeat split; try lia; try apply not_elem_of_nil. constructor.
Qed.

Definition board (mem : Z -> Z) : world (Calls.state rom) := {|
  w_flash := device mem; w_rtc := fun _ => 0; w_critical := 0; w_alloc := []; w_junk := fun _ => 0xa5 |}.

Lemma board_ok mem : w_ok (board mem).
Proof. done. Qed.

Definition blank : Z -> Z := fun _ => 255.

(** Two slots, the first one current. *)
Definition config : list Z :=
  [0xe1; 1; 0; 0; 0; 2; 0; 0] ++ le_bytes 4 0x2000 ++ le_bytes 4 0x102000 ++ replicate 12 0.

(** An image with one section of eight bytes; [ck] is its checksum byte. *)
Definition image (data : list Z) (ck : Z) : list Z :=
  [0xe9; 1; 0; 0] ++ le_bytes 4 0x40100000 ++ le_bytes 4 0x40200000 ++ le_bytes 4 8 ++ data ++ replicate 7 0 ++ [ck].

Definition payload : list Z := [1; 2; 3; 4; 5; 6; 7; 8].

Definition image_board (data : list Z) (ck : Z) : world (Calls.state rom) := board (put_bytes blank 0x2000 (image data ck)).

(** A new-format image whose section claims 4 GiB less 8 bytes. *)
Definition huge : list Z :=
  [0xea; 4; 0; 0] ++ le_bytes 4 0 ++ le_bytes 4 0 ++ le_bytes 4 (2 ^ 32 - 8) ++
  [0xe9; 0; 0; 0] ++ replicate 11 0 ++ [0xef].

End Board.

Import Board SimRom.

Lemma byteP_all (l : list Z) : forallb (fun b => (0 <=? b) && (b <? 256)) l = true -> Forall byteP l.
Proof.
  intros H. rewrite forallb_forall in H. apply Forall_forall. intros x Hx%list_elem_of_In. apply H in Hx.
  zbool. unfold byteP. lia.
Qed.

Lemma rboot_set_config_roundtrip_witness :
  exists w' conf', rboot_set_config config (board blank) = Done ((true, conf'), w') /\
    rboot_get_config w' = Done (conf', w') /\ cell w' 5000 = 255.
Proof.
  destruct (rboot_set_config_roundtrip (board blank) config) as (w' & conf' & H1 & H2 & _ & _ & H3 & _);
    [vm_compute; congruence|apply board_ok|reflexivity|reflexivity|apply byteP_all; reflexivity|].
  exists w', conf'. split; [exact H1|]. split; [exact H2|]. rewrite H3; [reflexivity|right; vm_compute; congruence].
Defined.

Lemma rboot_set_current_rom_selects_witness :
  exists w', rboot_set_current_rom 1 (board (put_bytes blank 4096 config)) = Done (true, w') /\
    rboot_get_current_rom w' = Done (1, w').
Proof.
  destruct (rboot_set_current_rom_selects (board (put_bytes blank 4096 config)) 1) as (w' & H1 & H2 & _);
    [vm_compute; congruence|apply board_ok|reflexivity|unfold byteP; lia|vm_compute; congruence|].
  exists w'. split; [exact H1|exact H2].
Defined.

Lemma rboot_write_session_witness :
  exists w' st,
    write_chunks (rboot_write_init 0x2000) [[1; 2; 3]; [4; 5; 6; 7]; [8; 9; 10]] (board blank) = Done ((true, st), w') /\
    cells (cell w') 0x2000 8 = [1; 2; 3; 4; 5; 6; 7; 8].
Proof.
  destruct (rboot_write_session (board blank) 0x2000 [[1; 2; 3]; [4; 5; 6; 7]; [8; 9; 10]])
    as (w' & st & H1 & H2 & _);
    [apply board_ok|reflexivity|lia|reflexivity|reflexivity| |vm_compute; congruence|].
  - repeat (constructor; [split; [apply byteP_all; reflexivity|vm_compute; congruence]|]). constructor.
  - exists w', st. split; [exact H1|exact H2].
Defined.

Lemma rboot_verify_image_accepts_witness :
  rboot_verify_image 0x2000 (image_board payload 0xe7) = Done ((true, 32, None), image_board payload 0xe7).
Proof.
  apply (rboot_verify_image_accepts (image_board payload 0xe7) 0x2000 [payload] (0x2000 + 24));
    [apply board_ok|lia|reflexivity|vm_compute; congruence| |reflexivity|lia].
  apply old_image; [reflexivity|reflexivity|]. vm_compute. repeat split; congruence.
Defined.

Lemma rboot_verify_image_detects_change_witness :
  rboot_verify_image 0x2000 (image_board [1; 2; 3; 0; 5; 6; 7; 8] 0xe7) =
    Done ((false, 32, Some Invalid_checksum), image_board [1; 2; 3; 0; 5; 6; 7; 8] 0xe7).
Proof.
  apply (rboot_verify_image_detects_change (image_board [1; 2; 3; 0; 5; 6; 7; 8] 0xe7) 0x2000
    [] [1; 2; 3] 4 0 [5; 6; 7; 8] [] (0x2000 + 24));
    [apply board_ok|lia|reflexivity|vm_compute; congruence|lia| |reflexivity|congruence].
  apply old_image; [reflexivity|reflexivity|]. vm_compute. repeat split; congruence.
Defined.

Lemma rboot_digest_image_covers_witness :
  exists pieces, rboot_digest_image (fun c bs => c ++ bs) 0x2000 20 [] (image_board payload 0xe7) =
      Done ((true, foldl (fun c bs => c ++ bs) [] pieces), image_board payload 0xe7) /\
    concat pieces = cells (cell (image_board payload 0xe7)) 0x2000 20.
Proof.
  apply (rboot_digest_image_covers (fun c bs => c ++ bs) (image_board payload 0xe7) 0x2000 20 []);
    [apply board_ok|lia|lia|vm_compute; congruence].
Defined.

Lemma rboot_verify_image_length_overflow_witness :
  rboot_verify_image 0x2000 (board (put_bytes blank 0x2000 huge)) =
    Done ((true, 32, None), board (put_bytes blank 0x2000 huge)).
Proof.
  apply (rboot_verify_image_length_overflow (board (put_bytes blank 0x2000 huge)) 0x2000);
    [apply board_ok|lia|reflexivity|vm_compute; congruence|reflexivity|reflexivity|vm_compute; reflexivity..].
Defined.

Lemma rboot_set_temp_rom_stores_witness :
  exists w', rboot_set_temp_rom 1 (board blank) = Done (true, w') /\
    rboot_get_last_boot_rom w' = Done (Some 0, w').
Proof.
  destruct (rboot_set_temp_rom_stores (board blank) 1) as (w' & new & H1 & _ & _ & _ & _ & _ & H2 & _);
    [unfold byteP; lia|].
  exists w'. split; [exact H1|exact H2].
Defined.

Lemma rboot_verify_image_terminates_witness : rboot_verify_image 0x2000 (board blank) <> OutOfFuel.
Proof.
  apply (rboot_verify_image_terminates (board blank) 0x2000).
  - intros a n f. exists SPI_FLASH_RESULT_OK, (cells (sf_cell f) a n). eexists. split; [vm_compute; reflexivity|].
    apply cells_byte. intros x. apply u8_range.
  - intros x. cbn. unfold byteP. lia.
Defined.
