(* ===== verification/OneWire.v ===== *)
(** * The 1-Wire bus: [extras/onewire/onewire.c]

    The functions over a GPIO line.  The bit functions drive the line with
    the timing of the source; the byte, select and search functions are built
    on them as in the source; the CRC functions are pure. *)

From S2P Require Import Prelude.
Open Scope Z_scope.

(** [gpio_direction_t] of [core/include/esp/gpio.h], the values used here. *)
Inductive gpio_direction_t := GPIO_OUTPUT | GPIO_OUT_OPEN_DRAIN.

(** The pin, the delay of the SDK, and the critical sections and the task
    delay (in ticks) of FreeRTOS. *)
Class Line (W : Type) := {
  gpio_enable : Z -> gpio_direction_t -> W -> W;
  gpio_write : Z -> bool -> W -> W;
  gpio_read : Z -> W -> bool;
  sdk_os_delay_us : Z -> W -> W;
  taskENTER_CRITICAL : W -> W;
  taskEXIT_CRITICAL : W -> W;
  vTaskDelay : Z -> W -> W;
}.

Definition ONEWIRE_SELECT_ROM : Z := 0x55.
Definition ONEWIRE_SKIP_ROM : Z := 0xcc.
Definition ONEWIRE_SEARCH : Z := 0xf0.

(** An address is 64 bits wide. *)
Definition ONEWIRE_NONE : Z := 2 ^ 64 - 1.

Record onewire_search_t := {
  rom_no : list Z;
  last_discrepancy : Z;
  last_device_found : bool;
}.

Module Onewire.

Section Onewire.
Context {W : Type} `{!Line W}.
Variable pin : Z.

(** ** Bits *)

Definition read_pin : M W bool := fun w => Done (gpio_read pin w, w).
Definition set_pin (v : bool) : M W unit := modify (gpio_write pin v).
Definition delay (us : Z) : M W unit := modify (sdk_os_delay_us us).
Definition enter_critical : M W unit := modify taskENTER_CRITICAL.
Definition exit_critical : M W unit := modify taskEXIT_CRITICAL.

(** At most [n] polls of the line, 5 us apart. *)
Fixpoint poll_bus (n : nat) : M W unit :=
  match n with
  | O => ret tt
  | S n =>
    let! high := read_pin in
    if high then ret tt
    else
      do! delay 5 then
      poll_bus n
  end.

Definition _onewire_wait_for_bus (max_wait : Z) : M W bool :=
  do! poll_bus (Z.to_nat ((max_wait + 4) / 5)) then
  let! state := read_pin in
  do! delay 1 then
  ret state.

Definition onewire_reset : M W bool :=
  do! modify (gpio_enable pin GPIO_OUT_OPEN_DRAIN) then
  do! set_pin true then
  let! ok := _onewire_wait_for_bus 250 in
  if negb ok then ret false
  else
    do! set_pin false then
    do! delay 480 then
    do! enter_critical then
    do! set_pin true then
    do! delay 70 then
    let! level := read_pin in
    let r := negb level in
    do! exit_critical then
    let! ok := _onewire_wait_for_bus 410 in
    if negb ok then ret false
    else ret r.

Definition _onewire_write_bit (v : bool) : M W bool :=
  let! ok := _onewire_wait_for_bus 10 in
  if negb ok then ret false
  else
    do! (if v then
           do! enter_critical then
           do! set_pin false then
           do! delay 10 then
           do! set_pin true then
           do! exit_critical then
           delay 55
         else
           do! enter_critical then
           do! set_pin false then
           do! delay 65 then
           do! set_pin true then
           exit_critical) then
    do! delay 1 then
    ret true.

(** The bit read, or -1. *)
Definition _onewire_read_bit : M W Z :=
  let! ok := _onewire_wait_for_bus 10 in
  if negb ok then ret (-1)
  else
    do! enter_critical then
    do! set_pin false then
    do! delay 2 then
    do! set_pin true then
    do! delay 11 then
    let! r := read_pin in
    do! exit_critical then
    do! delay 48 then
    ret (Z.b2z r).

(** ** Bytes *)

(** The loops over the eight values of [bitMask]: it is shifted out of its
    byte after the last one. *)
Fixpoint write_loop (n : nat) (bitMask v : Z) : M W bool :=
  match n with
  | O => ret true
  | S n =>
    if bitMask =? 0 then ret true
    else
      let! ok := _onewire_write_bit (negb (Z.land bitMask v =? 0)) in
      if negb ok then ret false
      else write_loop n (u8 (Z.shiftl bitMask 1)) v
  end.

Definition onewire_write (v : Z) : M W bool := write_loop 9 0x01 v.

Fixpoint onewire_write_bytes (buf : list Z) : M W bool :=
  match buf with
  | [] => ret true
  | b :: buf =>
    let! ok := onewire_write b in
    if negb ok then ret false
    else onewire_write_bytes buf
  end.

Fixpoint read_loop (n : nat) (bitMask r : Z) : M W Z :=
  match n with
  | O => ret r
  | S n =>
    if bitMask =? 0 then ret r
    else
      let! bit := _onewire_read_bit in
      if bit <? 0 then ret (-1)
      else read_loop n (u8 (Z.shiftl bitMask 1)) (if negb (bit =? 0) then Z.lor r bitMask else r)
  end.

Definition onewire_read : M W Z := read_loop 9 0x01 0.

(** The bytes stored to [buf]: all of them, or those before the error. *)
Fixpoint onewire_read_bytes (count : nat) : M W (bool * list Z) :=
  match count with
  | O => ret (true, [])
  | S count =>
    let! b := onewire_read in
    if b <? 0 then ret (false, [])
    else
      let! (ok, bs) := onewire_read_bytes count in
      ret (ok, b :: bs)
  end.

Fixpoint select_loop (n : nat) (addr : Z) : M W bool :=
  match n with
  | O => ret true
  | S n =>
    let! ok := onewire_write (Z.land addr 0xff) in
    if negb ok then ret false
    else select_loop n (Z.shiftr addr 8)
  end.

Definition onewire_select (addr : Z) : M W bool :=
  let! ok := onewire_write ONEWIRE_SELECT_ROM in
  if negb ok then ret false
  else select_loop 8 addr.

Definition onewire_skip_rom : M W bool := onewire_write ONEWIRE_SKIP_ROM.

Definition onewire_power : M W bool :=
  let! ok := _onewire_wait_for_bus 10 in
  if negb ok then ret false
  else
    do! modify (gpio_enable pin GPIO_OUTPUT) then
    do! set_pin true then
    ret true.

Definition onewire_depower : M W unit := modify (gpio_enable pin GPIO_OUT_OPEN_DRAIN).

(** ** Search *)

Definition onewire_search_start : onewire_search_t :=
  {| rom_no := replicate 8 0; last_discrepancy := 0; last_device_found := false |}.

Definition onewire_search_prefix (family_code : Z) : onewire_search_t :=
  {| rom_no := family_code :: replicate 7 0; last_discrepancy := 64; last_device_found := false |}.

(** The variables of the search loop. *)
Record search_vars := {
  id_bit_number : Z;
  last_zero : Z;
  rom_byte_number : Z;
  rom_byte_mask : Z;
  s_rom_no : list Z;
}.

Definition rom_at (rom : list Z) (i : Z) : Z := nth (Z.to_nat i) rom 0.

(** The direction taken where both bit values occur. *)
Definition discrepancy_direction (ld : Z) (v : search_vars) : bool :=
  if id_bit_number v <? ld then
    0 <? Z.land (rom_at (s_rom_no v) (rom_byte_number v)) (rom_byte_mask v)
  else id_bit_number v =? ld.

(** One turn of the loop once the direction is known, up to the counters. *)
Definition search_step (v : search_vars) (search_direction : bool) (lz : Z) : search_vars :=
  let old := rom_at (s_rom_no v) (rom_byte_number v) in
  let new := if search_direction then Z.lor old (rom_byte_mask v)
             else Z.ldiff old (rom_byte_mask v) in
  let mask := u8 (Z.shiftl (rom_byte_mask v) 1) in
  {| id_bit_number := u8 (id_bit_number v + 1);
     last_zero := lz;
     rom_byte_number := if mask =? 0 then rom_byte_number v + 1 else rom_byte_number v;
     rom_byte_mask := if mask =? 0 then 1 else mask;
     s_rom_no := <[Z.to_nat (rom_byte_number v) := new]> (s_rom_no v) |}.

(** The search loop; it ends at the last ROM byte or at the [break]s. *)
Fixpoint search_loop (fuel : nat) (ld : Z) (v : search_vars) : M W search_vars :=
  match fuel with
  | O => out_of_fuel
  | S fuel =>
    let! id_bit := _onewire_read_bit in
    let! cmp_id_bit := _onewire_read_bit in
    if (id_bit <? 0) || (cmp_id_bit <? 0) then ret v
    else if (id_bit =? 1) && (cmp_id_bit =? 1) then ret v
    else
      let search_direction := if negb (id_bit =? cmp_id_bit) then negb (id_bit =? 0)
                              else discrepancy_direction ld v in
      let lz := if negb (id_bit =? cmp_id_bit) then last_zero v
                else if negb search_direction then id_bit_number v else last_zero v in
      let v' := search_step v search_direction lz in
      let! _ := _onewire_write_bit search_direction in
      if rom_byte_number v' <? 8 then search_loop fuel ld v' else ret v'
  end.

(** The address from the bytes, [rom_no[7]] first. *)
Definition rom_addr (rom : list Z) : Z :=
  foldl (fun addr b => Z.lor (Z.shiftl addr 8 mod 2 ^ 64) b) 0 (reverse rom).

(** What follows the loop: [search_result] and the state reached. *)
Definition search_finish (search_result : bool) (search : onewire_search_t) : Z * onewire_search_t :=
  if negb search_result || (rom_at (rom_no search) 0 =? 0) then
    (ONEWIRE_NONE, {| rom_no := rom_no search; last_discrepancy := 0; last_device_found := false |})
  else (rom_addr (rom_no search), search).

Definition onewire_search_next (search : onewire_search_t) : M W (Z * onewire_search_t) :=
  if last_device_found search then ret (search_finish false search)
  else
    let! present := onewire_reset in
    if negb present then
      ret (ONEWIRE_NONE, {| rom_no := rom_no search; last_discrepancy := 0; last_device_found := false |})
    else
      let! _ := onewire_write ONEWIRE_SEARCH in
      let! v := search_loop 65 (last_discrepancy search)
                  {| id_bit_number := 1; last_zero := 0; rom_byte_number := 0; rom_byte_mask := 1;
                     s_rom_no := rom_no search |} in
      if negb (id_bit_number v <? 65) then
        ret (search_finish true {| rom_no := s_rom_no v; last_discrepancy := last_zero v;
                                   last_device_found := if last_zero v =? 0 then true else last_device_found search |})
      else
        ret (search_finish false {| rom_no := s_rom_no v; last_discrepancy := last_discrepancy search;
                                    last_device_found := last_device_found search |}).

End Onewire.
End Onewire.

(** ** Checksums *)

Module Crc.

(** The variant with [ONEWIRE_CRC8_TABLE]. *)
Definition dscrc_table : list Z :=
  [0; 94; 188; 226; 97; 63; 221; 131; 194; 156; 126; 32; 163; 253; 31; 65;
   157; 195; 33; 127; 252; 162; 64; 30; 95; 1; 227; 189; 62; 96; 130; 220;
   35; 125; 159; 193; 66; 28; 254; 160; 225; 191; 93; 3; 128; 222; 60; 98;
   190; 224; 2; 92; 223; 129; 99; 61; 124; 34; 192; 158; 29; 67; 161; 255;
   70; 24; 250; 164; 39; 121; 155; 197; 132; 218; 56; 102; 229; 187; 89; 7;
   219; 133; 103; 57; 186; 228; 6; 88; 25; 71; 165; 251; 120; 38; 196; 154;
   101; 59; 217; 135; 4; 90; 184; 230; 167; 249; 27; 69; 198; 152; 122; 36;
   248; 166; 68; 26; 153; 199; 37; 123; 58; 100; 134; 216; 91; 5; 231; 185;
   140; 210; 48; 110; 237; 179; 81; 15; 78; 16; 242; 172; 47; 113; 147; 205;
   17; 79; 173; 243; 112; 46; 204; 146; 211; 141; 111; 49; 178; 236; 14; 80;
   175; 241; 19; 77; 206; 144; 114; 44; 109; 51; 209; 143; 12; 82; 176; 238;
   50; 108; 142; 208; 83; 13; 239; 177; 240; 174; 76; 18; 145; 207; 45; 115;
   202; 148; 118; 40; 171; 245; 23; 73; 8; 86; 180; 234; 105; 55; 213; 139;
   87; 9; 235; 181; 54; 104; 138; 212; 149; 203; 41; 119; 244; 170; 72; 22;
   233; 183; 85; 11; 136; 214; 52; 106; 43; 117; 151; 201; 74; 20; 246; 168;
   116; 42; 200; 150; 21; 75; 169; 247; 182; 232; 10; 84; 215; 137; 107; 53].

(** [while (len--)] over the bytes at [data], at least [len] of them. *)
Fixpoint crc8_loop (turn : Z -> Z -> Z) (len : nat) (data : list Z) (crc : Z) : Z :=
  match len, data with
  | S len, b :: data => crc8_loop turn len data (turn crc b)
  | _, _ => crc
  end.

(** [len] is a [uint8_t]. *)
Definition onewire_crc8_table (data : list Z) (len : Z) : Z :=
  crc8_loop (fun crc b => nth (Z.to_nat (Z.lxor crc b)) dscrc_table 0) (Z.to_nat (u8 len)) data 0.

(** The inner loop of the variant without the table: [n] bits are left. *)
Fixpoint crc8_byte (n : nat) (crc inbyte : Z) : Z :=
  match n with
  | O => crc
  | S n =>
    let mix := Z.land (Z.lxor crc inbyte) 0x01 in
    let crc := Z.shiftr crc 1 in
    let crc := if negb (mix =? 0) then Z.lxor crc 0x8C else crc in
    crc8_byte n crc (Z.shiftr inbyte 1)
  end.

Definition onewire_crc8 (data : list Z) (len : Z) : Z :=
  crc8_loop (fun crc inbyte => crc8_byte 8 crc inbyte) (Z.to_nat (u8 len)) data 0.

Definition oddparity : list Z := [0; 1; 1; 0; 1; 0; 0; 1; 1; 0; 0; 1; 0; 1; 1; 0].

(** One turn of the loop over the input, in 16-bit arithmetic. *)
Definition crc16_step (crc b : Z) : Z :=
  let cdata := Z.land (Z.lxor b crc) 0xff in
  let crc := Z.shiftr crc 8 in
  let odd := Z.lxor (nth (Z.to_nat (Z.land cdata 0x0F)) oddparity 0)
                    (nth (Z.to_nat (Z.shiftr cdata 4)) oddparity 0) in
  let crc := if negb (odd =? 0) then Z.lxor crc 0xC001 else crc in
  let cdata := u16 (Z.shiftl cdata 6) in
  let crc := Z.lxor crc cdata in
  let cdata := u16 (Z.shiftl cdata 1) in
  Z.lxor crc cdata.

(** The loop over the input; its counter [i] is 16 bits wide. *)
Fixpoint crc16_loop (fuel : nat) (i : Z) (input : list Z) (crc : Z) : outcome Z :=
  match fuel with
  | O => OutOfFuel
  | S fuel =>
    if i <? Z.of_nat (length input) then
      crc16_loop fuel (u16 (i + 1)) input (crc16_step crc (nth (Z.to_nat i) input 0))
    else Done crc
  end.

Definition onewire_crc16 (fuel : nat) (input : list Z) (crc_iv : Z) : outcome Z :=
  crc16_loop fuel 0 input crc_iv.

Definition onewire_check_crc16 (fuel : nat) (input : list Z) (inverted_crc : list Z) (crc_iv : Z) : outcome bool :=
  match onewire_crc16 fuel input crc_iv with
  | Done crc =>
    let crc := u16 (Z.lnot crc) in
    Done ((Z.land crc 0xFF =? nth 0 inverted_crc 0) && (Z.shiftr crc 8 =? nth 1 inverted_crc 0))
  | OutOfFuel => OutOfFuel
  | Undefined => Undefined
  end.

End Crc.
