(* ===== verification/OneWireLine.v ===== *)
(** * The timing of the 1-Wire line

    The devices on the bus are an automaton that advances once per time slot
    (class [Slaves]); the class [BitBus] says what the bit functions of
    [extras/onewire/onewire.c] do to it and is what the functions above them
    rely on.  Module [Timed] has the line itself: who pulls it low, since
    when and until when, with the slot and presence timing of the 1-Wire
    standard, and shows that the delays of the bit functions meet it. *)

From S2P Require Import Prelude OneWire.
Open Scope Z_scope.

(** Devices on the bus: [out_bit] is the level they leave in the next slot
    (several devices: the and of their bits), [on_slot] their reaction to a
    slot in which the master sent a bit.  [elapse] is what the time, in us, for
    which a task sleeps does to them; the far shorter slots count as no time,
    so that devices are never ahead of real ones. *)
Class Slaves (S : Type) := {
  present : S -> bool;
  on_reset : S -> S;
  out_bit : S -> bool;
  on_slot : bool -> S -> S;
  elapse : Z -> S -> S;
}.

(** How long [vTaskDelay] of [n] ticks of 10 ms at least takes: the first of
    the ticks may already have begun. *)
Definition delay_at_least (n : Z) : Z := 10000 * (n - 1) + 1.

Class BitBus (W S : Type) `{!Line W} `{!Slaves S} (pin : Z) := {
  bus_slaves : W -> S;
  bus_ready : W -> Prop;
  bus_reset w : bus_ready w -> exists w', Onewire.onewire_reset pin w = Done (present (bus_slaves w), w') /\
    bus_ready w' /\ bus_slaves w' = on_reset (bus_slaves w);
  bus_write w v : bus_ready w -> exists w', Onewire._onewire_write_bit pin v w = Done (true, w') /\
    bus_ready w' /\ bus_slaves w' = on_slot v (bus_slaves w);
  bus_read w : bus_ready w -> exists w', Onewire._onewire_read_bit pin w = Done (Z.b2z (out_bit (bus_slaves w)), w') /\
    bus_ready w' /\ bus_slaves w' = on_slot true (bus_slaves w);
  bus_power w : bus_ready w -> exists w', Onewire.onewire_power pin w = Done (true, w') /\
    bus_ready w' /\ bus_slaves w' = bus_slaves w;
  bus_depower w : bus_ready w -> exists w', Onewire.onewire_depower pin w = Done (tt, w') /\
    bus_ready w' /\ bus_slaves w' = bus_slaves w;
  bus_delay w n : bus_ready w -> 0 < n -> exists us, delay_at_least n <= us <= 10000 * n /\
    bus_ready (vTaskDelay n w) /\ bus_slaves (vTaskDelay n w) = elapse us (bus_slaves w);
  bus_enter w : bus_ready w -> bus_ready (taskENTER_CRITICAL w) /\ bus_slaves (taskENTER_CRITICAL w) = bus_slaves w;
  bus_exit w : bus_ready w -> bus_ready (taskEXIT_CRITICAL w) /\ bus_slaves (taskEXIT_CRITICAL w) = bus_slaves w;
}.

Module Timed.

(** Times in us: how long a device holds a slot low, how long after a reset
    pulse it waits and how long its presence pulse is. *)
Class Timing := { t_hold : Z; t_pdelay : Z; t_plen : Z }.

(** The limits of the 1-Wire standard. *)
Class TimingLaws `{Timing} := {
  hold_range : 15 <= t_hold <= 60;
  pdelay_range : 15 <= t_pdelay <= 60;
  plen_range : 60 <= t_plen <= 240;
}.

Section Timed.
Context {S : Type} `{HS : !Slaves S} `{HT : Timing}.

(** The master pulls low since [low_since], the devices during
    [pull_from .. pull_until]. *)
Record line := {
  now : Z;
  low_since : option Z;
  pull_from : Z;
  pull_until : Z;
  slaves : S;
  critical : Z;
  push_pull : bool;
}.

Definition falling (l : line) : line :=
  match low_since l with
  | Some _ => l
  | None =>
    let pulls := negb (out_bit (slaves l)) in
    {| now := now l; low_since := Some (now l);
       pull_from := if pulls then now l else pull_from l;
       pull_until := if pulls then now l + t_hold else pull_until l;
       slaves := slaves l; critical := critical l; push_pull := push_pull l |}
  end.

(** A low time of 480 us is a reset, less than 15 us a one, more a zero. *)
Definition rising (l : line) : line :=
  match low_since l with
  | None => l
  | Some t0 =>
    let d := now l - t0 in
    if 480 <=? d then
      {| now := now l; low_since := None;
         pull_from := if present (slaves l) then now l + t_pdelay else pull_from l;
         pull_until := if present (slaves l) then now l + t_pdelay + t_plen else pull_until l;
         slaves := on_reset (slaves l); critical := critical l; push_pull := push_pull l |}
    else
      {| now := now l; low_since := None; pull_from := pull_from l; pull_until := pull_until l;
         slaves := on_slot (d <? 15) (slaves l); critical := critical l; push_pull := push_pull l |}
  end.

Definition level (l : line) : bool :=
  match low_since l with Some _ => false | None => negb ((pull_from l <=? now l) && (now l <? pull_until l)) end.

Definition wait (us : Z) (l : line) : line :=
  {| now := now l + us; low_since := low_since l; pull_from := pull_from l; pull_until := pull_until l;
     slaves := slaves l; critical := critical l; push_pull := push_pull l |}.

(** The task sleeps until the [ticks]-th tick from now; ticks are 10 ms apart. *)
Definition sleep (ticks : Z) (l : line) : line :=
  if ticks <=? 0 then l
  else
    let us := (now l / 10000 + ticks) * 10000 - now l in
    {| now := now l + us; low_since := low_since l; pull_from := pull_from l; pull_until := pull_until l;
       slaves := elapse us (slaves l); critical := critical l; push_pull := push_pull l |}.

Definition set_critical (d : Z) (l : line) : line :=
  {| now := now l; low_since := low_since l; pull_from := pull_from l; pull_until := pull_until l;
     slaves := slaves l; critical := critical l + d; push_pull := push_pull l |}.

Definition set_mode (m : gpio_direction_t) (l : line) : line :=
  {| now := now l; low_since := low_since l; pull_from := pull_from l; pull_until := pull_until l;
     slaves := slaves l; critical := critical l;
     push_pull := match m with GPIO_OUTPUT => true | GPIO_OUT_OPEN_DRAIN => false end |}.

#[export] Instance timed_line : Line line := {
  gpio_enable _ m := set_mode m;
  gpio_write _ v := if v then rising else falling;
  gpio_read _ := level;
  sdk_os_delay_us := wait;
  taskENTER_CRITICAL := set_critical 1;
  taskEXIT_CRITICAL := set_critical (-1);
  vTaskDelay := sleep;
}.

(** Nobody pulls the line, now or later. *)
Definition idle (l : line) : Prop := low_since l = None /\ pull_until l <= now l.

Lemma level_idle l : idle l -> level l = true.
Proof. intros [H1 H2]. unfold level. rewrite H1. apply negb_true_iff, andb_false_iff. right. apply Z.ltb_ge. lia. Qed.

Lemma poll_high pin n l : level l = true -> Onewire.poll_bus pin n l = Done (tt, l).
Proof. intros H. destruct n; [done|]. cbn. unfold bind, Onewire.read_pin. cbn. by rewrite H. Qed.

Lemma wait_idle pin n l : idle l -> Onewire._onewire_wait_for_bus pin n l = Done (true, wait 1 l).
Proof.
  intros H. unfold Onewire._onewire_wait_for_bus. run (poll_high pin (Z.to_nat ((n + 4) / 5)) l (level_idle l H)).
  unfold bind, Onewire.read_pin. cbn. by rewrite level_idle.
Qed.

Lemma wait_wait a b l : wait a (wait b l) = wait (b + a) l.
Proof. unfold wait. cbn. f_equal. lia. Qed.

(** A pulled line is polled until it is released. *)
Lemma poll_release pin n : forall l,
  low_since l = None -> pull_from l <= now l -> pull_until l <= now l + 5 * Z.of_nat n ->
  exists us, Onewire.poll_bus pin n l = Done (tt, wait us l) /\ idle (wait us l).
Proof.
  induction n as [|n IH]; intros l H1 H2 H3.
  - exists 0. cbn. unfold wait. split; [|split; cbn; [done|lia]]. unfold ret. destruct l. cbn. do 3 f_equal. lia.
  - destruct (level l) eqn:E.
    + exists 0. rewrite poll_high by done. unfold level in E. rewrite H1 in E. zbool.
      split; [unfold wait; destruct l; cbn; do 3 f_equal; lia|]. split; [done|]. cbn. destruct E; zbool; lia.
    + destruct (IH (wait 5 l)) as (us & E1 & Hi); [done|cbn; lia..|]. exists (5 + us).
      rewrite <-wait_wait. split; [|done].
      change (Onewire.poll_bus pin (Datatypes.S n) l) with
        ((if level l then ret tt else do! Onewire.delay 5 then Onewire.poll_bus pin n) l).
      rewrite E. erewrite bind_Done by reflexivity. exact E1.
Qed.

Lemma wait_release pin n l :
  low_since l = None -> pull_from l <= now l -> pull_until l <= now l + 5 * ((n + 4) / 5) -> 0 <= n ->
  exists us, Onewire._onewire_wait_for_bus pin n l = Done (true, wait us l) /\ idle (wait us l).
Proof.
  intros H1 H2 H3 Hn. destruct (poll_release pin (Z.to_nat ((n + 4) / 5)) l) as (us & E & Hi); [done|done|divlia|].
  exists (us + 1). unfold Onewire._onewire_wait_for_bus. run E. unfold bind, Onewire.read_pin. cbn.
  rewrite level_idle by done. change (sdk_os_delay_us 1 (wait us l)) with (wait 1 (wait us l)).
  rewrite wait_wait. split; [done|]. destruct Hi. split; cbn in *; [done|lia].
Qed.

Lemma idle_wait us l : 0 <= us -> idle l -> idle (wait us l).
Proof. intros ? [? ?]. split; cbn; [done|lia]. Qed.

Context {HTL : TimingLaws}.

(** The end of a slot of [d] us low, as long as it is no reset. *)
Ltac slot_times :=
  cbn; rewrite ?(proj2 (Z.leb_gt _ _)) by lia; cbn; repeat split; cbn; try lia; try (f_equal; apply Z.ltb_lt || apply Z.ltb_ge; lia).

Lemma write_bit_idle pin v l : idle l ->
  exists l', Onewire._onewire_write_bit pin v l = Done (true, l') /\ idle l' /\
    slaves l' = on_slot v (slaves l) /\ critical l' = critical l.
Proof.
  intros Hi. pose proof hold_range. unfold Onewire._onewire_write_bit. run (wait_idle pin 10 l Hi).
  destruct l as [t [|] pf pu sl cr pp], Hi as [H1 H2]; [done|]. cbn in H2.
  destruct v; (eexists; split; [reflexivity|]); cbn; unfold falling, rising, idle; cbn.
  - destruct (out_bit sl); slot_times.
  - destruct (out_bit sl); slot_times.
Qed.

Lemma read_bit_idle pin l : idle l ->
  exists l', Onewire._onewire_read_bit pin l = Done (Z.b2z (out_bit (slaves l)), l') /\ idle l' /\
    slaves l' = on_slot true (slaves l) /\ critical l' = critical l.
Proof.
  intros Hi. pose proof hold_range. unfold Onewire._onewire_read_bit. run (wait_idle pin 10 l Hi). cbn [negb].
  destruct l as [t [|] pf pu sl cr pp], Hi as [H1 H2]; [done|]. cbn in H2.
  do 5 (erewrite bind_Done by reflexivity). cbn. unfold falling, rising. cbn.
  rewrite (proj2 (Z.leb_gt _ _)) by lia.
  unfold level. cbn.
  destruct (out_bit sl); cbn.
  - replace (_ && _) with false by (symmetry; apply andb_false_iff; right; apply Z.ltb_ge; lia).
    eexists. split; [reflexivity|]. unfold idle. slot_times.
  - replace (_ && _) with true by (symmetry; apply andb_true_iff; split; [apply Z.leb_le|apply Z.ltb_lt]; lia).
    eexists. split; [reflexivity|]. unfold idle. slot_times.
Qed.

Lemma reset_idle pin l : idle l ->
  exists l', Onewire.onewire_reset pin l = Done (present (slaves l), l') /\ idle l' /\
    slaves l' = on_reset (slaves l) /\ critical l' = critical l.
Proof.
  intros Hi. pose proof hold_range. pose proof pdelay_range. pose proof plen_range. unfold Onewire.onewire_reset.
  destruct l as [t [|] pf pu sl cr pp], Hi as [H1' H2']; [done|]. cbn in H2'.
  do 2 (erewrite bind_Done by reflexivity).
  erewrite bind_Done by (apply wait_idle; split; cbn; [done|lia]). cbn [negb].
  do 5 (erewrite bind_Done by reflexivity). cbn. unfold falling, rising. cbn.
  rewrite (proj2 (Z.leb_le _ _)) by lia.
  unfold level. cbn. set (l1 := set_critical _ _). destruct (present sl) eqn:Hp; cbn in l1.
  - replace (_ && _) with true by (symmetry; apply andb_true_iff; split; [apply Z.leb_le|apply Z.ltb_lt]; lia).
    destruct (wait_release pin 410 l1) as (us & E & Hi); [done|unfold l1; cbn; lia| |lia|].
    { change ((410 + 4) / 5) with 82. unfold l1. cbn [pull_until now set_critical wait]. lia. }
    run E. eexists. split; [reflexivity|]. split; [done|]. split; [done|]. unfold l1. cbn. lia.
  - replace (_ && _) with false
      by (symmetry; apply andb_false_iff; right; apply Z.ltb_ge; destruct (out_bit sl); cbn; lia).
    assert (Hi : idle l1) by (split; [done|]; unfold l1; cbn; destruct (out_bit sl); cbn; lia).
    run (wait_idle pin 410 l1 Hi). eexists. split; [reflexivity|]. split; [by apply idle_wait|].
    split; [done|]. unfold l1. cbn. lia.
Qed.

Lemma power_idle pin l : idle l ->
  exists l', Onewire.onewire_power pin l = Done (true, l') /\ idle l' /\ slaves l' = slaves l.
Proof.
  intros Hi. unfold Onewire.onewire_power. run (wait_idle pin 10 l Hi). eexists. split; [reflexivity|].
  destruct l as [t [|] pf pu sl cr pp], Hi as [H1 H2]; [done|]. cbn in H2. unfold idle. slot_times.
Qed.

(** The line with these devices is a bus of bits. *)
#[export] Program Instance timed_bus pin : BitBus line S pin := {
  bus_slaves := slaves;
  bus_ready := idle;
}.
Next Obligation. intros pin l Hi. destruct (reset_idle pin l Hi) as (l' & ? & ? & ? & _). by exists l'. Qed.
Next Obligation. intros pin l v Hi. destruct (write_bit_idle pin v l Hi) as (l' & ? & ? & ? & _). by exists l'. Qed.
Next Obligation. intros pin l Hi. destruct (read_bit_idle pin l Hi) as (l' & ? & ? & ? & _). by exists l'. Qed.
Next Obligation. intros pin l Hi. destruct (power_idle pin l Hi) as (l' & ? & ? & ?). by exists l'. Qed.
Next Obligation. intros pin l [H1 H2]. eexists. split; [reflexivity|]. by split. Qed.
Next Obligation.
  intros pin l n [H1 H2] Hn. cbn. unfold sleep, delay_at_least. rewrite (proj2 (Z.leb_gt _ _)) by lia.
  exists ((now l / 10000 + n) * 10000 - now l). split; [divlia|]. split; [|done]. split; cbn; [done|divlia].
Qed.
Next Obligation. done. Qed.
Next Obligation. done. Qed.

End Timed.
End Timed.
