(* ===== verification/OneWireBus.v ===== *)
(** * Bytes on the 1-Wire bus, and a bus of devices

    The byte functions in terms of time slots, against the interface
    [BitBus]; module [Devices] is a bus of thermometers of the DS18B20 family
    that follows the ROM and function commands of their data sheets. *)

From S2P Require Import Prelude OneWire OneWireLine.
Open Scope Z_scope.

(** The low [n] bits of [v], least significant first, and back. *)
Definition bits_of (n : nat) (v : Z) : list bool := (fun i => Z.testbit v (Z.of_nat i)) <$> seq 0 n.

Fixpoint bits_val (bs : list bool) : Z :=
  match bs with
  | [] => 0
  | b :: bs => Z.b2z b + 2 * bits_val bs
  end.

Lemma length_bits_of n v : length (bits_of n v) = n.
Proof. unfold bits_of. by rewrite length_fmap, length_seq. Qed.

Lemma bits_val_range bs : 0 <= bits_val bs < 2 ^ Z.of_nat (length bs).
Proof.
  induction bs as [|b bs IH]; cbn [bits_val length]; [lia|].
  rewrite Nat2Z.inj_succ, Z.pow_succ_r by lia. destruct b; cbn; lia.
Qed.

Lemma bits_of_S n v : bits_of (S n) v = Z.odd v :: bits_of n (Z.div2 v).
Proof.
  unfold bits_of. cbn [seq fmap list_fmap]. f_equal.
  rewrite <-fmap_S_seq, <-list_fmap_compose. apply list_fmap_ext. intros i j _. cbn.
  rewrite Z.div2_spec, Z.shiftr_spec by lia. f_equal. lia.
Qed.

Lemma bits_val_of n : forall v, bits_val (bits_of n v) = v mod 2 ^ Z.of_nat n.
Proof.
  induction n as [|n IH]; intros v; [by rewrite Z.mod_1_r|].
  rewrite bits_of_S. cbn [bits_val]. rewrite IH, Nat2Z.inj_succ, Z.pow_succ_r, Z.rem_mul_r by lia.
  rewrite Z.div2_div. f_equal. by rewrite Zmod_odd; destruct (Z.odd v).
Qed.

Lemma land_pow2 i v : 0 <= i -> (Z.land (2 ^ i) v =? 0) = negb (Z.testbit v i).
Proof.
  intros Hi. assert (E : Z.land (2 ^ i) v = if Z.testbit v i then 2 ^ i else 0).
  { apply Z.bits_inj'. intros j Hj. rewrite Z.land_spec, Z.pow2_bits_eqb by done.
    destruct (i =? j) eqn:Eij; zbool; subst; cbn.
    - destruct (Z.testbit v j); [by rewrite Z.pow2_bits_true|by rewrite Z.bits_0].
    - destruct (Z.testbit v i); [by rewrite Z.pow2_bits_false|by rewrite Z.bits_0]. }
  rewrite E. destruct (Z.testbit v i); [|done]. cbn. apply Z.eqb_neq. pose proof (Z.pow_pos_nonneg 2 i). lia.
Qed.

Section Bytes.
Context {W S : Type} `{HL : !Line W} `{HS : !Slaves S} {pin : Z} `{HB : !BitBus W S pin}.
Implicit Types (w : W) (s : S).

(** The devices after the master has sent bits, and what a read of [n] bits
    yields. *)
Definition slots (bs : list bool) s : S := foldl (fun s b => on_slot b s) s bs.

Fixpoint sent (n : nat) s : list bool :=
  match n with
  | O => []
  | Datatypes.S n => out_bit s :: sent n (on_slot true s)
  end.

Lemma length_sent n : forall s, length (sent n s) = n.
Proof. induction n as [|n IH]; intros s; cbn; [done|]. by rewrite IH. Qed.

(** [m] returns [a] and turns the devices into [s]. *)
Definition does {A} (m : M W A) w (a : A) s : Prop :=
  exists w', m w = Done (a, w') /\ bus_ready w' /\ bus_slaves w' = s.

Lemma does_bind {A B} (m : M W A) (k : A -> M W B) w a s b s' :
  does m w a s -> (forall w', bus_ready w' -> bus_slaves w' = s -> does (k a) w' b s') -> does (bind m k) w b s'.
Proof. intros (w1 & E & Hr & Hs) Hk. destruct (Hk w1 Hr Hs) as (w2 & E2 & ?). exists w2. by run E. Qed.

(** The same when the final state depends on something the first part finds. *)
Lemma does_bind_ex {A B X} (P : X -> Prop) (f : X -> S) (m : M W A) (k : A -> M W B) w a s b :
  does m w a s -> (forall w', bus_ready w' -> bus_slaves w' = s -> exists x, P x /\ does (k a) w' b (f x)) ->
  exists x, P x /\ does (bind m k) w b (f x).
Proof.
  intros (w1 & E & Hr & Hs) Hk. destruct (Hk w1 Hr Hs) as (x & HP & w2 & E2 & ?). exists x. split; [done|]. exists w2. by run E.
Qed.

Lemma does_eq {A} (m m' : M W A) w w' (a : A) s : m w = m' w' -> does m' w' a s -> does m w a s.
Proof. intros E (w2 & ? & ?). exists w2. by rewrite E. Qed.

Lemma does_ret {A} (a : A) w s : bus_ready w -> bus_slaves w = s -> does (ret a) w a s.
Proof. intros. by exists w. Qed.

Lemma u8_mask k : (k <= 8)%nat -> u8 (2 ^ (8 - Z.of_nat k)) = if (k =? 0)%nat then 0 else 2 ^ (8 - Z.of_nat k).
Proof.
  intros Hk. destruct k as [|k]; [done|]. cbn [Nat.eqb]. apply u8_small.
  split; [apply Z.pow_nonneg; lia|apply Z.pow_lt_mono_r; lia].
Qed.

Lemma next_mask k : (k < 8)%nat -> u8 (Z.shiftl (2 ^ (8 - Z.of_nat (Datatypes.S k))) 1) = u8 (2 ^ (8 - Z.of_nat k)).
Proof.
  intros Hk. f_equal. rewrite Z.shiftl_mul_pow2, <-Z.pow_add_r by lia. f_equal. lia.
Qed.

Lemma write_loop_does k : forall w v, (k <= 8)%nat -> bus_ready w ->
  does (Onewire.write_loop pin (Datatypes.S k) (u8 (2 ^ (8 - Z.of_nat k))) v) w true
    (slots ((fun i => Z.testbit v (Z.of_nat i)) <$> seq (8 - k) k) (bus_slaves w)).
Proof.
  induction k as [|k IH]; intros w v Hk Hr; cbn [Onewire.write_loop]; rewrite u8_mask by lia; [by apply does_ret|].
  cbn [Nat.eqb]. rewrite (proj2 (Z.eqb_neq _ _)) by (pose proof (Z.pow_pos_nonneg 2 (8 - Z.of_nat (Datatypes.S k))); lia).
  rewrite land_pow2, negb_involutive by lia.
  eapply does_bind; [apply (bus_write w _ Hr)|]. intros w' Hr' Hs. cbn [negb]. rewrite next_mask by lia.
  replace (8 - Datatypes.S k)%nat with (7 - k)%nat by lia. cbn [seq fmap list_fmap].
  replace (Datatypes.S (7 - k)) with (8 - k)%nat by lia. unfold slots. cbn [foldl].
  replace (Z.of_nat (7 - k)) with (8 - Z.of_nat (Datatypes.S k)) by lia. rewrite <-Hs. apply IH; [lia|done].
Qed.

Lemma write_does w v : bus_ready w ->
  does (Onewire.onewire_write pin v) w true (slots (bits_of 8 v) (bus_slaves w)).
Proof. intros Hr. apply (write_loop_does 8 w v ltac:(lia) Hr). Qed.

Lemma read_loop_does k : forall w r, (k <= 8)%nat -> bus_ready w -> 0 <= r < 2 ^ (8 - Z.of_nat k) ->
  does (Onewire.read_loop pin (Datatypes.S k) (u8 (2 ^ (8 - Z.of_nat k))) r) w
    (r + 2 ^ (8 - Z.of_nat k) * bits_val (sent k (bus_slaves w))) (slots (replicate k true) (bus_slaves w)).
Proof.
  induction k as [|k IH]; intros w r Hk Hr Hrr; cbn [Onewire.read_loop]; rewrite u8_mask by lia.
  { cbn [Nat.eqb Z.eqb]. eexists. split; [|done]. unfold ret. do 2 f_equal. cbn. lia. }
  cbn [Nat.eqb]. rewrite (proj2 (Z.eqb_neq _ _)) by (pose proof (Z.pow_pos_nonneg 2 (8 - Z.of_nat (Datatypes.S k))); lia).
  eapply does_bind; [apply (bus_read w Hr)|]. intros w' Hr' Hs.
  set (b := out_bit (bus_slaves w)). rewrite (proj2 (Z.ltb_ge (Z.b2z b) 0)) by (destruct b; cbn; lia).
  rewrite next_mask by lia. set (e := 8 - Z.of_nat (Datatypes.S k)) in *.
  assert (He : 2 ^ (8 - Z.of_nat k) = 2 * 2 ^ e) by (rewrite <-Z.pow_succ_r by lia; f_equal; lia).
  assert (Hor : (if negb (Z.b2z b =? 0) then Z.lor r (2 ^ e) else r) = r + Z.b2z b * 2 ^ e).
  { destruct b; cbn [Z.b2z Z.eqb negb]; [|lia]. rewrite <-(Z.mul_1_l (2 ^ e)) at 1. apply lor_disjoint_add; lia. }
  rewrite Hor. destruct (IH w' (r + Z.b2z b * 2 ^ e)) as (w2 & E & Hr2 & Hs2); [lia|done|destruct b; cbn; lia|].
  rewrite Hs in E, Hs2. exists w2. split; [|done]. etransitivity; [exact E|]. do 2 f_equal. cbn [sent bits_val]. fold b. rewrite He. lia.
Qed.

(** A byte read is the next eight bits the devices send. *)
Lemma read_does w : bus_ready w ->
  does (Onewire.onewire_read pin) w (bits_val (sent 8 (bus_slaves w))) (slots (replicate 8 true) (bus_slaves w)).
Proof.
  intros Hr. destruct (read_loop_does 8 w 0 ltac:(lia) Hr ltac:(cbn; lia)) as (w' & E & ?). exists w'. split; [|done].
  unfold Onewire.onewire_read. change 0x01 with (u8 (2 ^ (8 - Z.of_nat 8))). rewrite E. do 2 f_equal.
  change (2 ^ (8 - Z.of_nat 8)) with 1. lia.
Qed.

Lemma slots_app bs bs' s : slots (bs ++ bs') s = slots bs' (slots bs s).
Proof. apply foldl_app. Qed.

Lemma bits_of_byte v : bits_of 8 (Z.land v 0xff) = bits_of 8 v.
Proof.
  unfold bits_of. apply list_fmap_ext. intros i j Hj. apply lookup_seq in Hj as [-> Hj].
  change 0xff with (Z.ones 8). rewrite Z.land_spec, Z.ones_spec_low by lia. apply andb_true_r.
Qed.

Lemma bits_of_app n m v : bits_of (n + m) v = bits_of n v ++ bits_of m (Z.shiftr v (Z.of_nat n)).
Proof.
  unfold bits_of. rewrite seq_app, fmap_app. f_equal. rewrite Nat.add_0_l, <-(Nat.add_0_r n) at 1. rewrite <-fmap_add_seq.
  rewrite <-list_fmap_compose. apply list_fmap_ext. intros i j _. cbn. rewrite Z.shiftr_spec by lia. f_equal. lia.
Qed.

Lemma select_loop_does n : forall w addr, bus_ready w ->
  does (Onewire.select_loop pin n addr) w true (slots (bits_of (8 * n) addr) (bus_slaves w)).
Proof.
  induction n as [|n IH]; intros w addr Hr; cbn [Onewire.select_loop]; [by apply does_ret|].
  eapply does_bind; [by apply write_does|]. intros w' Hr' Hs. cbn [negb]. rewrite bits_of_byte in Hs.
  replace (8 * Datatypes.S n)%nat with (8 + 8 * n)%nat by lia. rewrite bits_of_app, slots_app, <-Hs.
  by apply IH.
Qed.

Lemma select_does w addr : bus_ready w ->
  does (Onewire.onewire_select pin addr) w true
    (slots (bits_of 8 ONEWIRE_SELECT_ROM ++ bits_of 64 addr) (bus_slaves w)).
Proof.
  intros Hr. unfold Onewire.onewire_select. eapply does_bind; [by apply write_does|]. intros w' Hr' Hs. cbn [negb].
  rewrite slots_app, <-Hs. by apply (select_loop_does 8).
Qed.

End Bytes.

(** ** A bus of thermometers *)

Module Devices.

(** A device: its ROM number, its scratchpad (nine bytes, the last one the
    CRC), the scratchpad the next conversion leaves, the time in us that a
    conversion takes, and the time that one under way still needs. *)
Record device := { d_rom : Z; d_pad : list Z; d_conv : list Z; d_time : Z; d_left : option Z }.

(** A conversion begins. *)
Definition started (d : device) : device :=
  {| d_rom := d_rom d; d_pad := d_pad d; d_conv := d_conv d; d_time := d_time d; d_left := Some (d_time d) |}.

(** Time passes: the scratchpad changes when the conversion is done. *)
Definition elapsed (us : Z) (d : device) : device :=
  match d_left d with
  | None => d
  | Some t =>
    if t <=? us then {| d_rom := d_rom d; d_pad := d_conv d; d_conv := d_conv d; d_time := d_time d; d_left := None |}
    else {| d_rom := d_rom d; d_pad := d_pad d; d_conv := d_conv d; d_time := d_time d; d_left := Some (t - us) |}
  end.

(** Where the bus is in a transaction: in the ROM command, the search, the
    64 bits of a match, the function command, or an answer. *)
Inductive phase :=
| PRom (k : nat) (acc : Z)
| PSearch (i step : nat) (active : list Z)
| PMatch (k : nat) (acc : Z)
| PFun (sel : list Z) (k : nat) (acc : Z)
| PSend (bits : list (list bool))
| PIdle.

Record bus := { devices : list device; b_phase : phase }.

Definition roms (b : bus) : list Z := d_rom <$> devices b.

Definition pad_bits (pad : list Z) : list bool := concat (bits_of 8 <$> pad).

Definition rom_command (b : bus) (cmd : Z) : phase :=
  if cmd =? 0xF0 then PSearch 0 0 (roms b)
  else if cmd =? 0x55 then PMatch 0 0
  else if cmd =? 0xCC then PFun (roms b) 0 0
  else PIdle.

Definition is_selected (sel : list Z) (d : device) : bool := bool_decide (d_rom d ∈ sel).

Definition function_command (b : bus) (sel : list Z) (cmd : Z) : bus :=
  if cmd =? 0x44 then
    {| devices := (fun d => if is_selected sel d then started d else d) <$> devices b; b_phase := PIdle |}
  else if cmd =? 0xBE then
    {| devices := devices b; b_phase := PSend ((pad_bits ∘ d_pad) <$> base.filter (fun d => is_selected sel d = true) (devices b)) |}
  else {| devices := devices b; b_phase := PIdle |}.

Definition set_phase (b : bus) (p : phase) : bus := {| devices := devices b; b_phase := p |}.

Definition add_bit (acc : Z) (k : nat) (v : bool) : Z := acc + Z.b2z v * 2 ^ Z.of_nat k.

#[export] Instance device_bus : Slaves bus := {
  present b := match devices b with [] => false | _ :: _ => true end;
  on_reset b := set_phase b (PRom 0 0);
  out_bit b :=
    match b_phase b with
    | PSearch i 0 act => forallb (fun r => Z.testbit r (Z.of_nat i)) act
    | PSearch i 1 act => forallb (fun r => negb (Z.testbit r (Z.of_nat i))) act
    | PSend bits => forallb (hd true) bits
    | _ => true
    end;
  on_slot v b :=
    match b_phase b with
    | PRom k acc =>
      if (k =? 7)%nat then set_phase b (rom_command b (add_bit acc k v)) else set_phase b (PRom (S k) (add_bit acc k v))
    | PSearch i step act =>
      if (step =? 2)%nat then
        let act := base.filter (fun r => Z.testbit r (Z.of_nat i) = v) act in
        set_phase b (if (i =? 63)%nat then PIdle else PSearch (S i) 0 act)
      else set_phase b (PSearch i (S step) act)
    | PMatch k acc =>
      let acc := add_bit acc k v in
      if (k =? 63)%nat then set_phase b (PFun (base.filter (fun r => r = acc) (roms b)) 0 0)
      else set_phase b (PMatch (S k) acc)
    | PFun sel k acc =>
      if (k =? 7)%nat then function_command b sel (add_bit acc k v) else set_phase b (PFun sel (S k) (add_bit acc k v))
    | PSend bits => set_phase b (PSend (tl <$> bits))
    | PIdle => b
    end;
  elapse us b := {| devices := elapsed us <$> devices b; b_phase := b_phase b |};
}.

(** Command bytes, bit by bit. *)
Lemma slots_search b : slots (bits_of 8 0xF0) (set_phase b (PRom 0 0)) = set_phase b (PSearch 0 0 (roms b)).
Proof. reflexivity. Qed.

Lemma slots_match b : slots (bits_of 8 0x55) (set_phase b (PRom 0 0)) = set_phase b (PMatch 0 0).
Proof. reflexivity. Qed.

Lemma slots_skip b : slots (bits_of 8 0xCC) (set_phase b (PRom 0 0)) = set_phase b (PFun (roms b) 0 0).
Proof. reflexivity. Qed.

Lemma slots_convert b sel : slots (bits_of 8 0x44) (set_phase b (PFun sel 0 0)) = function_command b sel 0x44.
Proof. reflexivity. Qed.

Lemma slots_read_pad b sel : slots (bits_of 8 0xBE) (set_phase b (PFun sel 0 0)) = function_command b sel 0xBE.
Proof. reflexivity. Qed.

(** The 64 bits after a match command select the device with that number. *)
Lemma slots_match_rom b n : forall k acc addr,
  (k + n = 64)%nat -> (0 < n)%nat ->
  slots (bits_of n addr) (set_phase b (PMatch k acc)) =
    set_phase b (PFun (base.filter (fun r => r = acc + 2 ^ Z.of_nat k * (addr mod 2 ^ Z.of_nat n)) (roms b)) 0 0).
Proof.
  induction n as [|n IH]; intros k acc addr Hk Hn; [lia|]. rewrite bits_of_S. cbn [slots foldl].
  change (foldl (fun s b => on_slot b s) ?s ?l) with (slots l s). cbn [on_slot device_bus b_phase set_phase].
  assert (Hval : acc + 2 ^ Z.of_nat k * (addr mod 2 ^ Z.of_nat (S n)) =
    add_bit acc k (Z.odd addr) + 2 ^ Z.of_nat (S k) * (Z.div2 addr mod 2 ^ Z.of_nat n)).
  { rewrite !Nat2Z.inj_succ, !Z.pow_succ_r, Z.rem_mul_r, Z.div2_div by lia.
    unfold add_bit. rewrite Zmod_odd. destruct (Z.odd addr); cbn [Z.b2z]; lia. }
  destruct (k =? 63)%nat eqn:Ek.
  - apply Nat.eqb_eq in Ek. assert (n = 0%nat) as -> by lia. cbn [bits_of seq fmap list_fmap slots foldl].
    rewrite Hval. change (Z.of_nat 0) with 0. rewrite Z.mod_1_r, Z.mul_0_r, Z.add_0_r. done.
  - apply Nat.eqb_neq in Ek. rewrite Hval. change (set_phase (set_phase b _) ?p) with (set_phase b p).
    apply IH; lia.
Qed.

End Devices.
