(* ===== verification/OneWireSearch.v ===== *)
(** * Enumerating ROM numbers bit by bit

    The search algorithm of [extras/onewire/onewire.c] walks a binary tree of
    ROM numbers.  Here the walk is a function on lists of bits: [enum] lists
    the numbers in the order of the tree, and the theorems show that one walk
    from the last discrepancy finds the next of them. *)

From S2P Require Import Prelude OneWire OneWireLine OneWireBus.
Open Scope Z_scope.

(** What follows the first bit [b] of the numbers that start with it. *)
Definition tails (b : bool) (L : list (list bool)) : list (list bool) :=
  omap (fun x => match x with c :: r => if Bool.eqb c b then Some r else None | [] => None end) L.

Definition has (b : bool) (L : list (list bool)) : bool :=
  match tails b L with [] => false | _ :: _ => true end.

(** The [n]-bit numbers of [L], each once, zeros first. *)
Fixpoint enum (n : nat) (L : list (list bool)) : list (list bool) :=
  match n with
  | O => match L with [] => [] | _ :: _ => [[]] end
  | S n => (cons false <$> enum n (tails false L)) ++ (cons true <$> enum n (tails true L))
  end.

(** The position, counted from [p], of the last zero on the path [x] taken
    where a one was possible; 0 if there is none. *)
Fixpoint last_choice (p : Z) (L : list (list bool)) (x : list bool) : Z :=
  match x with
  | [] => 0
  | b :: x =>
    let r := last_choice (p + 1) (tails b L) x in
    if r =? 0 then (if negb b && has true L then p else 0) else r
  end.

(** The bit chosen at position [p]: the only one possible, or, where both
    are, the previous one before the discrepancy [ld], a one there and a zero
    behind it. *)
Definition choose (p ld : Z) (L : list (list bool)) (prev : bool) : bool :=
  if has false L && has true L then (if p <? ld then prev else p =? ld) else has true L.

(** The walk, with the last zero chosen at a discrepancy so far. *)
Fixpoint walk (n : nat) (p ld : Z) (L : list (list bool)) (prev : list bool) (lz : Z) : list bool * Z :=
  match n with
  | O => ([], lz)
  | S n =>
    let b := choose p ld L (hd false prev) in
    let lz := if has false L && has true L && negb b then p else lz in
    let '(path, lz) := walk n (p + 1) ld (tails b L) (tl prev) lz in
    (b :: path, lz)
  end.

Definition full (n : nat) (L : list (list bool)) : Prop := Forall (fun x => length x = n) L.

Lemma elem_tails b L x : x ∈ tails b L <-> (b :: x) ∈ L.
Proof.
  unfold tails. rewrite list_elem_of_omap. split.
  - intros ([|c r] & Hin & H); [done|]. destruct (Bool.eqb c b) eqn:E; [|done]. apply Bool.eqb_prop in E as ->. by injection H as ->.
  - intros H. exists (b :: x). split; [done|]. by rewrite Bool.eqb_reflx.
Qed.

Lemma full_tails n b L : full (S n) L -> full n (tails b L).
Proof.
  unfold full. rewrite !Forall_forall. intros H x Hx%elem_tails. specialize (H _ Hx). cbn in H. lia.
Qed.

Lemma has_true b L : has b L = true <-> exists x, x ∈ tails b L.
Proof.
  unfold has. destruct (tails b L) as [|x l] eqn:E; split; [done|intros [x Hx]; by apply not_elem_of_nil in Hx|intros _; exists x; left|done].
Qed.

Lemma has_nil b L : has b L = false -> tails b L = [].
Proof. unfold has. by destruct (tails b L). Qed.

Lemma has_some n L : full (S n) L -> L <> [] -> has false L = true \/ has true L = true.
Proof.
  intros Hf Hn. destruct L as [|x L]; [done|]. inversion Hf as [|? ? Hx _]; subst. destruct x as [|[] x]; [done|right|left];
    apply has_true; exists x; apply elem_tails; left.
Qed.

Lemma enum_nil n : enum n [] = [].
Proof. induction n as [|n IH]; [done|]. cbn. by rewrite IH. Qed.

Lemma elem_enum n : forall L x, full n L -> x ∈ enum n L <-> x ∈ L.
Proof.
  induction n as [|n IH]; intros L x Hf.
  - cbn. destruct L as [|y L]; [done|]. inversion Hf as [|? ? Hy HL]; subst. destruct y; [|done].
    rewrite list_elem_of_singleton. split; [intros ->; left|]. intros [->|Hx]%elem_of_cons; [done|].
    eapply Forall_forall in HL; [|exact Hx]. by apply length_zero_iff_nil in HL.
  - cbn [enum]. rewrite elem_of_app, !list_elem_of_fmap. split.
    + intros [(y & -> & Hy)|(y & -> & Hy)]; 
      apply (IH _ _ (full_tails n _ L Hf)), elem_tails in Hy; exact Hy.
    + intros Hx. destruct x as [|[] x].
      * eapply Forall_forall in Hf; [|exact Hx]. done.
      * right. exists x. split; [done|]. apply IH; [by apply full_tails|]. by apply elem_tails.
      * left. exists x. split; [done|]. apply IH; [by apply full_tails|]. by apply elem_tails.
Qed.

Lemma enum_NoDup n : forall L, NoDup (enum n L).
Proof.
  induction n as [|n IH]; intros L; cbn [enum].
  - destruct L; [constructor|apply NoDup_singleton].
  - apply NoDup_app. split; [apply NoDup_fmap_2; [congruence|apply IH]|]. split; [|apply NoDup_fmap_2; [congruence|apply IH]].
    intros x (y & -> & _)%list_elem_of_fmap (z & E & _)%list_elem_of_fmap. done.
Qed.

Lemma last_choice_range L x : forall p, 0 < p -> last_choice p L x = 0 \/ p <= last_choice p L x.
Proof.
  revert L. induction x as [|b x IH]; intros L p Hp; cbn; [by left|].
  destruct (IH (tails b L) (p + 1)) as [->|H]; [lia| |].
  - cbn. case_if; [right; lia|by left].
  - case_if; zbool; lia.
Qed.

(** The walk keeps the last choice of its path. *)
Lemma walk_choice n : forall p ld L prev lz,
  full n L -> L <> [] -> 0 < p ->
  let '(path, lz') := walk n p ld L prev lz in
  path ∈ L /\ lz' = (if last_choice p L path =? 0 then lz else last_choice p L path).
Proof.
  induction n as [|n IH]; intros p ld L prev lz Hf Hn Hp; cbn [walk].
  - destruct L as [|y L]; [done|]. inversion Hf as [|? ? Hy _]; subst. destruct y; [|done]. split; [left|done].
  - set (b := choose p ld L (hd false prev)). set (lz1 := if _ && _ && _ then p else lz).
    assert (Hb : has b L = true).
    { unfold b, choose. destruct (has_some n L Hf Hn) as [H|H]; rewrite H; [destruct (has true L) eqn:E|destruct (has false L) eqn:E]; cbn; try done.
      - by destruct (if p <? ld then _ else _).
      - by destruct (if p <? ld then _ else _). }
    specialize (IH (p + 1) ld (tails b L) (tl prev) lz1 (full_tails n b L Hf)).
    destruct (walk n (p + 1) ld (tails b L) (tl prev) lz1) as [path lz'].
    destruct IH as [Hin Hlz]; [|lia|].
    { apply has_true in Hb as [x Hx]. intros E. rewrite E in Hx. by apply not_elem_of_nil in Hx. }
    split; [by apply elem_tails|]. rewrite Hlz. cbn [last_choice].
    destruct (last_choice (p + 1) (tails b L) path =? 0) eqn:E; [|by rewrite E].
    unfold lz1. destruct b; cbn [negb andb]; [by rewrite andb_false_r|].
    rewrite Hb. cbn. destruct (has true L); [|done]. cbn. by rewrite (proj2 (Z.eqb_neq _ _)) by lia.
Qed.

(** Behind the discrepancy the walk finds the first number. *)
Lemma walk_first n : forall p ld L prev lz,
  full n L -> L <> [] -> ld < p -> exists rest, enum n L = fst (walk n p ld L prev lz) :: rest.
Proof.
  induction n as [|n IH]; intros p ld L prev lz Hf Hn Hld; cbn [walk enum].
  - destruct L; [done|]. by exists [].
  - set (b := choose p ld L (hd false prev)). set (lz1 := if _ && _ && _ then p else lz).
    specialize (IH (p + 1) ld (tails b L) (tl prev) lz1 (full_tails n b L Hf)).
    destruct (walk n (p + 1) ld (tails b L) (tl prev) lz1) as [path lz'] eqn:Ew.
    assert (Hb : b = negb (has false L)).
    { unfold b, choose. destruct (has_some n L Hf Hn) as [H|H]; rewrite H; [|destruct (has false L); [|done]]; cbn.
      - destruct (has true L) eqn:E; [|done]. by rewrite (proj2 (Z.ltb_ge _ _)), (proj2 (Z.eqb_neq _ _)) by lia.
      - by rewrite (proj2 (Z.ltb_ge _ _)), (proj2 (Z.eqb_neq _ _)) by lia. }
    clearbody b. destruct (has false L) eqn:E; subst b; cbn [negb] in *; destruct IH as [rest E2]; try lia.
    + intros H. unfold has in E. by rewrite H in E.
    + rewrite E2. cbn. by eexists.
    + intros H. destruct (has_some n L Hf Hn) as [?|H']; [congruence|]. unfold has in H'. by rewrite H in H'.
    + rewrite (has_nil _ _ E), enum_nil. cbn. rewrite E2. by eexists.
Qed.

(** A path without a choice left is the last number. *)
Lemma last_choice_last n : forall p L x,
  full n L -> x ∈ L -> 0 < p -> last_choice p L x = 0 -> exists l, enum n L = l ++ [x].
Proof.
  induction n as [|n IH]; intros p L x Hf Hx Hp H0.
  - destruct x; [|eapply Forall_forall in Hf; [|exact Hx]; done]. destruct L; [by apply not_elem_of_nil in Hx|]. by exists [].
  - assert (Hl : length x = S n) by (eapply Forall_forall in Hf; [|exact Hx]; done). destruct x as [|b x]; [done|].
    cbn [last_choice] in H0. destruct (_ =? 0) eqn:E in H0; zbool; [|lia].
    destruct (IH (p + 1) (tails b L) x) as [l El]; [by apply full_tails|by apply elem_tails|lia|done|].
    cbn [enum]. destruct b; cbn [negb andb] in H0.
    + rewrite El, fmap_app, app_assoc. cbn. by eexists.
    + destruct (has true L) eqn:E1; [lia|]. rewrite (has_nil _ _ E1), enum_nil, El, fmap_app. cbn. rewrite app_nil_r. by eexists.
Qed.

(** From the last choice of [prev] the walk finds its successor. *)
Lemma walk_next n : forall p L prev lz,
  full n L -> prev ∈ L -> 0 < p -> last_choice p L prev <> 0 ->
  exists l1 l2, enum n L = l1 ++ prev :: fst (walk n p (last_choice p L prev) L prev lz) :: l2.
Proof.
  induction n as [|n IH]; intros p L prev lz Hf Hx Hp H0.
  - destruct prev; [done|]. eapply Forall_forall in Hf; [|exact Hx]. done.
  - assert (Hl : length prev = S n) by (eapply Forall_forall in Hf; [|exact Hx]; done). destruct prev as [|b x]; [done|].
    assert (Hxt : x ∈ tails b L) by (by apply elem_tails).
    assert (Hb : has b L = true) by (apply has_true; by exists x).
    pose proof (last_choice_range (tails b L) x (p + 1) ltac:(lia)) as Hr.
    cbn [walk enum hd tl]. cbn [last_choice] in H0 |- *.
    set (r := last_choice (p + 1) (tails b L) x) in *. set (lz1 := if _ && _ && _ then p else lz).
    destruct (r =? 0) eqn:E; zbool.
    + destruct b; [done|]. cbn [negb andb] in *. destruct (has true L) eqn:Ht; [|done].
      destruct (last_choice_last n (p + 1) (tails false L) x) as [l El]; [by apply full_tails|done|lia|done|].
      assert (Hc : choose p p L false = true) by (unfold choose; rewrite Hb, Ht; cbn; by rewrite Z.ltb_irrefl, Z.eqb_refl).
      rewrite Hc. destruct (walk_first n (p + 1) p (tails true L) x lz1) as [rest Er];
        [by apply full_tails|intros H; unfold has in Ht; by rewrite H in Ht|lia|].
      destruct (walk n (p + 1) p (tails true L) x lz1) as [path lz']. cbn [fst] in *.
      rewrite El, Er, fmap_app, fmap_cons. cbn. rewrite <-app_assoc. by eexists _, _.
    + assert (Hc : choose p r L b = b).
      { unfold choose. destruct (has false L) eqn:E0, (has true L) eqn:E1; cbn; try (destruct b; congruence).
        by rewrite (proj2 (Z.ltb_lt _ _)) by lia. }
      rewrite Hc. destruct (IH (p + 1) (tails b L) x lz1) as (l1 & l2 & El); [by apply full_tails|done|lia|done|].
      fold r in El. destruct (walk n (p + 1) r (tails b L) x lz1) as [path lz']. cbn [fst] in *.
      destruct b; rewrite El, fmap_app, !fmap_cons.
      * rewrite app_assoc. by eexists _, _.
      * rewrite <-app_assoc. cbn. by eexists _, _.
Qed.

(** * The 1-Wire search finds every device

    [onewire_search_next] on a bus of devices is one walk in the tree of ROM
    numbers; repeated until it returns [ONEWIRE_NONE] it yields the number of
    every device once. *)

Import Onewire Devices.

(** ** ROM numbers as bytes and as bits *)

Definition rom_bits (r : Z) : list bool := bits_of 64 r.

(** Bit [i] of the array [rom_no]. *)
Definition rom_bit (rom : list Z) (i : nat) : bool := Z.testbit (nth (i / 8) rom 0) (Z.of_nat (i mod 8)).

Definition bits64 (rom : list Z) : list bool := rom_bit rom <$> seq 0 64.

(** [rom_no] is an array of eight bytes. *)
Definition rom_ok (rom : list Z) : Prop := length rom = 8%nat /\ Forall byteP rom.

Lemma length_bits64 rom : length (bits64 rom) = 64%nat.
Proof. unfold bits64. by rewrite length_fmap, length_seq. Qed.

Lemma lookup_bits64 rom i : (i < 64)%nat -> bits64 rom !! i = Some (rom_bit rom i).
Proof. intros. unfold bits64. by rewrite list_lookup_fmap, lookup_seq_lt. Qed.

Definition set_bit (old : Z) (b : bool) (k : nat) : Z :=
  if b then Z.lor old (2 ^ Z.of_nat k) else Z.ldiff old (2 ^ Z.of_nat k).

Lemma testbit_set_bit old b k j :
  Z.testbit (set_bit old b k) (Z.of_nat j) = if (j =? k)%nat then b else Z.testbit old (Z.of_nat j).
Proof.
  unfold set_bit. destruct (j =? k)%nat eqn:E.
  - apply Nat.eqb_eq in E as ->. destruct b.
    + rewrite Z.lor_spec, Z.pow2_bits_true by lia. apply orb_true_r.
    + rewrite Z.ldiff_spec, Z.pow2_bits_true by lia. apply andb_false_r.
  - apply Nat.eqb_neq in E. destruct b.
    + rewrite Z.lor_spec, Z.pow2_bits_false by lia. apply orb_false_r.
    + rewrite Z.ldiff_spec, Z.pow2_bits_false by lia. apply andb_true_r.
Qed.

Lemma set_bit_byte old b k : byteP old -> (k < 8)%nat -> byteP (set_bit old b k).
Proof.
  intros Ho Hk. unfold set_bit. destruct b.
  - assert (Hp : byteP (2 ^ Z.of_nat k)).
    { unfold byteP. split; [apply Z.pow_nonneg; lia|]. change 256 with (2 ^ 8). apply Z.pow_lt_mono_r; lia. }
    unfold byteP in *. split; [apply Z.lor_nonneg; lia|]. destruct (decide (Z.lor old (2 ^ Z.of_nat k) = 0)) as [->|]; [lia|].
    change 256 with (2 ^ 8). apply Z.log2_lt_pow2; [pose proof (proj2 (Z.lor_nonneg old (2 ^ Z.of_nat k))); lia|].
    rewrite Z.log2_lor by lia. apply Z.max_lub_lt.
    + destruct (decide (old = 0)) as [->|]; [done|]. apply Z.log2_lt_pow2; lia.
    + rewrite Z.log2_pow2; lia.
  - replace (Z.ldiff old (2 ^ Z.of_nat k)) with (Z.land old (Z.lnot (2 ^ Z.of_nat k))) by (by rewrite Z.ldiff_land).
    by apply land_byte.
Qed.

Lemma rom_bit_insert rom i b j : rom_ok rom -> (i < 64)%nat -> (j < 64)%nat ->
  rom_bit (<[(i / 8)%nat := set_bit (nth (i / 8) rom 0) b (i mod 8)]> rom) j = if (j =? i)%nat then b else rom_bit rom j.
Proof.
  intros [Hl _] Hi Hj. unfold rom_bit. destruct (decide (j / 8 = i / 8)%nat) as [E|E].
  - rewrite !E. rewrite nth_lookup, list_lookup_insert_eq by (rewrite Hl; apply Nat.Div0.div_lt_upper_bound; lia).
    change (default 0 (Some ?x)) with x. rewrite testbit_set_bit.
    pose proof (Nat.div_mod_eq j 8). pose proof (Nat.div_mod_eq i 8).
    destruct (j mod 8 =? i mod 8)%nat eqn:Em; [apply Nat.eqb_eq in Em|apply Nat.eqb_neq in Em].
    + by rewrite (proj2 (Nat.eqb_eq j i)) by lia.
    + by rewrite (proj2 (Nat.eqb_neq j i)) by lia.
  - rewrite !nth_lookup, list_lookup_insert_ne by done.
    rewrite (proj2 (Nat.eqb_neq j i)) by congruence. done.
Qed.

Lemma bits64_insert rom i b : rom_ok rom -> (i < 64)%nat ->
  bits64 (<[(i / 8)%nat := set_bit (nth (i / 8) rom 0) b (i mod 8)]> rom) = <[i := b]> (bits64 rom).
Proof.
  intros Hr Hi. apply list_eq_same_length with 64%nat; [by rewrite length_insert, length_bits64|apply length_bits64|].
  intros j x y Hj. rewrite lookup_bits64, rom_bit_insert by done. intros Hx Hy. apply Some_inj in Hx. subst x.
  destruct (j =? i)%nat eqn:E; [apply Nat.eqb_eq in E as ->|apply Nat.eqb_neq in E].
  - rewrite list_lookup_insert_eq in Hy by (by rewrite length_bits64). congruence.
  - rewrite list_lookup_insert_ne, lookup_bits64 in Hy by done. congruence.
Qed.

Lemma rom_ok_insert rom i b k : rom_ok rom -> (k < 8)%nat -> rom_ok (<[i := set_bit (nth i rom 0) b k]> rom).
Proof.
  intros [Hl Hb] Hk. split; [by rewrite length_insert|]. apply Forall_insert; [done|]. apply set_bit_byte; [|done].
  by apply (as_mem_byte rom (Z.of_nat i)) in Hb; unfold as_mem in Hb; rewrite Nat2Z.id in Hb.
Qed.

Lemma testbit_le_val bs : Forall byteP bs -> forall j, (j < 8 * length bs)%nat ->
  Z.testbit (le_val bs) (Z.of_nat j) = Z.testbit (nth (j / 8) bs 0) (Z.of_nat (j mod 8)).
Proof.
  induction 1 as [|b bs Hb Hbs IH]; intros j Hj; [cbn in Hj; lia|]. cbn [le_val length] in *.
  rewrite (Z.mul_comm 256). change 256 with (2 ^ 8). rewrite <-lor_disjoint_add by (lia || exact Hb).
  rewrite <-Z.shiftl_mul_pow2, Z.lor_spec by lia. destruct (decide (j < 8)%nat).
  - rewrite Z.shiftl_spec_low, orb_false_r, Nat.div_small, Nat.mod_small by lia. done.
  - rewrite Z.shiftl_spec by lia. replace j with (j - 8 + 1 * 8)%nat by lia. set (i := (j - 8)%nat).
    rewrite Nat.div_add, Nat.Div0.mod_add, Nat.add_1_r by lia. cbn [nth]. rewrite <-IH by lia.
    replace (Z.of_nat (i + 1 * 8) - 8) with (Z.of_nat i) by lia.
    destruct (decide (b = 0)) as [->|]; [by rewrite Z.bits_0|].
    rewrite (Z.bits_above_log2 b); [done|unfold byteP in Hb; lia|]. unfold byteP in Hb.
    apply Z.lt_le_trans with 8; [apply Z.log2_lt_pow2; lia|lia].
Qed.

Lemma bits64_le_val rom : rom_ok rom -> bits64 rom = rom_bits (le_val rom).
Proof.
  intros [Hl Hb]. unfold bits64, rom_bits, bits_of. apply list_fmap_ext. intros i j Hj. apply lookup_seq in Hj as [-> Hj].
  rewrite testbit_le_val by (done || lia). done.
Qed.

Lemma rom_bits_inj r r' : 0 <= r < 2 ^ 64 -> 0 <= r' < 2 ^ 64 -> rom_bits r = rom_bits r' -> r = r'.
Proof.
  intros Hr Hr' E. apply (f_equal bits_val) in E. unfold rom_bits in E. rewrite !bits_val_of in E.
  change (2 ^ Z.of_nat 64) with (2 ^ 64) in E. by rewrite !Z.mod_small in E.
Qed.

Lemma rom_addr_le_val_gen bs : Forall byteP bs -> (length bs <= 8)%nat -> rom_addr bs = le_val bs.
Proof.
  unfold rom_addr. induction 1 as [|b bs Hb Hbs IH]; intros Hl; [done|]. cbn [length] in Hl.
  rewrite reverse_cons, foldl_app. cbn [foldl le_val]. rewrite IH by lia.
  assert (Hr : 0 <= le_val bs < 2 ^ 56).
  { pose proof (le_val_range bs Hbs). change (2 ^ 56) with (256 ^ 7).
    assert (256 ^ Z.of_nat (length bs) <= 256 ^ 7) by (apply Z.pow_le_mono_r; lia). lia. }
  rewrite Z.shiftl_mul_pow2, Z.mod_small by lia. rewrite Z.lor_comm. rewrite lor_disjoint_add by (lia || exact Hb). lia.
Qed.

Lemma rom_addr_le_val rom : rom_ok rom -> rom_addr rom = le_val rom.
Proof. intros [Hl Hb]. apply rom_addr_le_val_gen; [done|lia]. Qed.

(** ** The devices that answer *)

(** What the numbers of the active devices have left from bit [i] on. *)
Definition left_of (i : nat) (A : list Z) : list (list bool) := (fun r => drop i (rom_bits r)) <$> A.

Lemma drop_rom_bits i r : (i < 64)%nat -> drop i (rom_bits r) = Z.testbit r (Z.of_nat i) :: drop (S i) (rom_bits r).
Proof.
  intros Hi. apply drop_S. unfold rom_bits, bits_of. by rewrite list_lookup_fmap, lookup_seq_lt by done.
Qed.

Lemma tails_left b i A : (i < 64)%nat ->
  tails b (left_of i A) = left_of (S i) (base.filter (fun r => Z.testbit r (Z.of_nat i) = b) A).
Proof.
  intros Hi. unfold tails, left_of. induction A as [|r A IH]; [done|]. cbn [fmap list_fmap omap list_omap].
  rewrite drop_rom_bits, filter_cons by done. destruct (Z.testbit r (Z.of_nat i)) eqn:E, b; cbn [Bool.eqb decide];
    rewrite IH; try (rewrite decide_True by done); try (rewrite decide_False by done); done.
Qed.

Lemma has_left b i A : (i < 64)%nat ->
  has b (left_of i A) = existsb (fun r => Bool.eqb (Z.testbit r (Z.of_nat i)) b) A.
Proof.
  intros Hi. unfold has. rewrite tails_left by done. induction A as [|r A IH]; [done|]. cbn [existsb].
  rewrite filter_cons. destruct (Z.testbit r (Z.of_nat i)) eqn:E, b; cbn [Bool.eqb orb];
    try (rewrite decide_True by done); try (rewrite decide_False by done); done.
Qed.

Lemma forallb_left i A : (i < 64)%nat ->
  forallb (fun r => Z.testbit r (Z.of_nat i)) A = negb (has false (left_of i A)) /\
  forallb (fun r => negb (Z.testbit r (Z.of_nat i))) A = negb (has true (left_of i A)).
Proof.
  intros Hi. rewrite !has_left by done. split; induction A as [|r A IH]; [done| |done|]; cbn [forallb existsb];
    rewrite IH; by destruct (Z.testbit r (Z.of_nat i)).
Qed.

Lemma full_left i A : (i <= 64)%nat -> full (64 - i) (left_of i A).
Proof.
  intros Hi. apply Forall_fmap, Forall_true. intros r. unfold compose, rom_bits. by rewrite length_drop, length_bits_of.
Qed.

(** ** The search loop *)

(** The loop's variables at bit [i]. *)
Definition vars_at (i : nat) (rom : list Z) (lz : Z) : search_vars := {|
  id_bit_number := Z.of_nat i + 1; last_zero := lz; rom_byte_number := Z.of_nat (i / 8);
  rom_byte_mask := 2 ^ Z.of_nat (i mod 8); s_rom_no := rom |}.

Lemma vars_step i rom lz0 b lz : (i < 64)%nat ->
  search_step (vars_at i rom lz0) b lz =
    vars_at (S i) (<[(i / 8)%nat := set_bit (nth (i / 8) rom 0) b (i mod 8)]> rom) lz.
Proof.
  intros Hi. unfold search_step, vars_at, rom_at, set_bit.
  cbn [id_bit_number last_zero rom_byte_number rom_byte_mask s_rom_no]. rewrite !Nat2Z.id.
  pose proof (Nat.div_mod_eq i 8) as Ed. pose proof (Nat.mod_upper_bound i 8 ltac:(lia)) as Hm.
  pose proof (Nat.div_mod_eq (S i) 8) as Ed'. pose proof (Nat.mod_upper_bound (S i) 8 ltac:(lia)) as Hm'.
  assert (Hmask : u8 (Z.shiftl (2 ^ Z.of_nat (i mod 8)) 1) = if (i mod 8 =? 7)%nat then 0 else 2 ^ Z.of_nat (S (i mod 8))).
  { rewrite Z.shiftl_mul_pow2, <-Z.pow_add_r by lia. replace (Z.of_nat (i mod 8) + 1) with (Z.of_nat (S (i mod 8))) by lia.
    destruct (i mod 8 =? 7)%nat eqn:E; [apply Nat.eqb_eq in E; by rewrite E|]. apply Nat.eqb_neq in E. apply u8_small.
    split; [apply Z.pow_nonneg; lia|apply Z.pow_lt_mono_r; lia]. }
  rewrite Hmask, u8_small by lia. destruct (i mod 8 =? 7)%nat eqn:E.
  - apply Nat.eqb_eq in E. assert (S i / 8 = S (i / 8) /\ S i mod 8 = 0)%nat as [-> ->] by lia.
    rewrite Z.eqb_refl. f_equal; first [done|lia].
  - apply Nat.eqb_neq in E. assert (S i / 8 = i / 8 /\ S i mod 8 = S (i mod 8))%nat as [-> ->] by lia.
    rewrite (proj2 (Z.eqb_neq _ _)) by (pose proof (Z.pow_pos_nonneg 2 (Z.of_nat (S (i mod 8)))); lia). f_equal; first [done|lia].
Qed.

Lemma discrepancy_choose i rom lz ld : (i < 64)%nat ->
  discrepancy_direction ld (vars_at i rom lz) =
    if Z.of_nat i + 1 <? ld then hd false (drop i (bits64 rom)) else Z.of_nat i + 1 =? ld.
Proof.
  intros Hi. unfold discrepancy_direction, vars_at, rom_at.
  cbn [id_bit_number last_zero rom_byte_number rom_byte_mask s_rom_no]. case_if; [|done].
  rewrite (drop_S _ (rom_bit rom i)) by (by apply lookup_bits64). cbn [hd]. rewrite Nat2Z.id. unfold rom_bit.
  rewrite Z.land_comm. pose proof (land_pow2 (Z.of_nat (i mod 8)) (nth (i / 8) rom 0) ltac:(lia)) as H.
  set (x := Z.land _ _) in *. assert (0 <= x) by (apply Z.land_nonneg; left; apply Z.pow_nonneg; lia).
  destruct (x =? 0) eqn:E; zbool.
  - rewrite E. destruct (Z.testbit _ _); [done|]. done.
  - rewrite (proj2 (Z.ltb_lt 0 x)) by lia. destruct (Z.testbit _ _); [done|]. done.
Qed.

Lemma insert_take_drop {A} (l : list A) i x : (i < length l)%nat ->
  take (S i) (<[i := x]> l) = take i l ++ [x] /\ drop (S i) (<[i := x]> l) = drop (S i) l.
Proof.
  intros Hi. split.
  - rewrite (take_S_r _ _ x) by (by apply list_lookup_insert_eq). by rewrite take_insert_ge by lia.
  - by rewrite drop_insert_lt by lia.
Qed.

Section Search.
Context {W : Type} `{HL : !Line W} {pin : Z} `{HB : !BitBus W bus pin}.
Implicit Types (w : W) (b : bus).

(** One turn: the bit chosen, the last zero, the array and the devices that
    stay. *)
Definition turn_bit ld i A rom : bool := choose (Z.of_nat i + 1) ld (left_of i A) (hd false (drop i (bits64 rom))).
Definition turn_zero ld i A rom lz : Z :=
  if has false (left_of i A) && has true (left_of i A) && negb (turn_bit ld i A rom) then Z.of_nat i + 1 else lz.
Definition turn_rom (ld : Z) i A rom : list Z :=
  <[(i / 8)%nat := set_bit (nth (i / 8) rom 0) (turn_bit ld i A rom) (i mod 8)]> rom.
Definition turn_active (ld : Z) (i : nat) (A rom : list Z) : list Z :=
  base.filter (fun r => Z.testbit r (Z.of_nat i) = turn_bit ld i A rom) A.

Lemma left_some i A : (i < 64)%nat -> A <> [] -> has false (left_of i A) = true \/ has true (left_of i A) = true.
Proof.
  intros Hi HA. apply (has_some (63 - i)); [|by destruct A]. replace (S (63 - i)) with (64 - i)%nat by lia.
  apply full_left. lia.
Qed.

Lemma search_turn ld b i A rom lz fuel w :
  (i < 64)%nat -> bus_ready w -> bus_slaves w = set_phase b (PSearch i 0 A) -> A <> [] -> rom_ok rom ->
  let v := vars_at (S i) (turn_rom ld i A rom) (turn_zero ld i A rom lz) in
  exists w', bus_ready w' /\
    bus_slaves w' = set_phase b (if (i =? 63)%nat then PIdle else PSearch (S i) 0 (turn_active ld i A rom)) /\
    search_loop pin (S fuel) ld (vars_at i rom lz) w =
      (if rom_byte_number v <? 8 then search_loop pin fuel ld v else ret v) w'.
Proof.
  intros Hi Hr Hs HA Hok v. destruct (forallb_left i A Hi) as [F0 F1]. pose proof (left_some i A Hi HA) as Hsome.
  set (L := left_of i A) in *. set (dir := turn_bit ld i A rom).
  cbn [search_loop]. destruct (bus_read w Hr) as (w1 & E1 & R1 & S1). rewrite Hs in E1, S1. run E1.
  destruct (bus_read w1 R1) as (w2 & E2 & R2 & S2). rewrite S1 in E2, S2. run E2.
  cbn [out_bit device_bus b_phase set_phase on_slot Nat.eqb] in *. rewrite F0, F1.
  destruct (bus_write w2 dir R2) as (w3 & E3 & R3 & S3). rewrite S2 in S3.
  exists w3. split; [done|]. split; [exact S3|].
  assert (Hdir : (if negb (Z.b2z (negb (has false L)) =? Z.b2z (negb (has true L))) then negb (Z.b2z (negb (has false L)) =? 0)
           else discrepancy_direction ld (vars_at i rom lz)) = dir).
  { rewrite discrepancy_choose by lia. unfold dir, turn_bit, choose. fold L.
    destruct (has false L), (has true L); try done. by destruct Hsome. }
  rewrite Hdir, vars_step by lia.
  replace (if negb (Z.b2z (negb (has false L)) =? Z.b2z (negb (has true L))) then last_zero (vars_at i rom lz)
    else if negb dir then id_bit_number (vars_at i rom lz) else last_zero (vars_at i rom lz)) with (turn_zero ld i A rom lz).
  2: { unfold turn_zero. fold L dir. cbn [last_zero id_bit_number vars_at]. by destruct (has false L), (has true L); destruct Hsome. }
  replace ((_ <? 0) || (_ <? 0)) with false by (by destruct (has false L), (has true L)).
  replace ((_ =? 1) && (_ =? 1)) with false by (by destruct (has false L), (has true L); destruct Hsome).
  by run E3.
Qed.

Lemma turn_ok ld i A rom lz n :
  (i < 64)%nat -> A <> [] -> rom_ok rom ->
  let rom1 := turn_rom ld i A rom in
  rom_ok rom1 /\ turn_active ld i A rom <> [] /\
  take (S i) (bits64 rom1) = take i (bits64 rom) ++ [turn_bit ld i A rom] /\
  walk (S n) (Z.of_nat i + 1) ld (left_of i A) (drop i (bits64 rom)) lz =
    (let '(path, z) := walk n (Z.of_nat (S i) + 1) ld (left_of (S i) (turn_active ld i A rom))
                         (drop (S i) (bits64 rom1)) (turn_zero ld i A rom lz) in
     (turn_bit ld i A rom :: path, z)).
Proof.
  intros Hi HA Hok rom1. set (dir := turn_bit ld i A rom).
  assert (Hb1 : bits64 rom1 = <[i := dir]> (bits64 rom)) by (by apply bits64_insert).
  destruct (insert_take_drop (bits64 rom) i dir) as [Htake Hdrop]; [rewrite length_bits64; lia|].
  assert (HtL : tails dir (left_of i A) = left_of (S i) (turn_active ld i A rom)) by (by apply tails_left).
  split; [apply rom_ok_insert; [done|apply Nat.mod_upper_bound; lia]|]. split; [|split; [by rewrite Hb1|]].
  - intros E. rewrite E in HtL. pose proof (left_some i A Hi HA) as Hsome.
    assert (has dir (left_of i A) = true); [|unfold has in *; by rewrite HtL in *].
    unfold dir, turn_bit, choose. destruct (has false (left_of i A)) eqn:E0, (has true (left_of i A)) eqn:E1; cbn; try done.
    + by destruct (if _ <? _ then _ else _).
    + by destruct Hsome.
  - cbn [walk]. fold (turn_bit ld i A rom). fold dir. rewrite HtL, Hb1, Hdrop. fold (turn_zero ld i A rom lz).
    replace (Z.of_nat i + 1 + 1) with (Z.of_nat (S i) + 1) by lia.
    rewrite (drop_S _ (rom_bit rom i)) by (by apply lookup_bits64). done.
Qed.

Lemma search_loop_does ld b n : forall i A rom lz fuel w,
  (i + n = 64)%nat -> (0 < n <= fuel)%nat -> bus_ready w -> bus_slaves w = set_phase b (PSearch i 0 A) -> A <> [] ->
  rom_ok rom ->
  exists rom' lz', does (search_loop pin fuel ld (vars_at i rom lz)) w (vars_at 64 rom' lz') (set_phase b PIdle) /\
    rom_ok rom' /\
    let '(path, z) := walk n (Z.of_nat i + 1) ld (left_of i A) (drop i (bits64 rom)) lz in
    bits64 rom' = take i (bits64 rom) ++ path /\ lz' = z.
Proof.
  induction n as [|n IH]; intros i A rom lz fuel w Hin Hf Hr Hs HA Hok; [lia|]. destruct fuel as [|fuel]; [lia|].
  destruct (search_turn ld b i A rom lz fuel w) as (w' & R' & S' & E); [lia|done..|].
  destruct (turn_ok ld i A rom lz n) as (Hok1 & HA1 & Htake & Hw); [lia|done..|]. rewrite Hw. clear Hw.
  set (rom1 := turn_rom ld i A rom) in *. set (lz1 := turn_zero ld i A rom lz) in *.
  cbn [rom_byte_number vars_at] in E. pose proof (Nat.div_mod_eq (S i) 8). pose proof (Nat.mod_upper_bound (S i) 8 ltac:(lia)).
  destruct n as [|n].
  - assert (i = 63)%nat as -> by lia. exists rom1, lz1. split; [|split; [done|]].
    + eapply does_eq; [exact E|]. by apply does_ret.
    + cbn [walk]. split; [|done]. rewrite <-Htake. symmetry. apply take_ge. by rewrite length_bits64.
  - rewrite (proj2 (Nat.eqb_neq i 63)) in S' by lia. rewrite (proj2 (Z.ltb_lt _ 8)) in E by lia.
    destruct (IH (S i) (turn_active ld i A rom) rom1 lz1 fuel w') as (rom' & lz' & Hd & Hok' & Hwalk); [lia|lia|done..|].
    exists rom', lz'. split; [by eapply does_eq|]. split; [done|]. destruct (walk _ _ _ _ _ _) as [path z].
    destruct Hwalk as [Hb Hz]. split; [|done]. rewrite Hb, Htake, <-app_assoc. done.
Qed.

(** ** One call of [onewire_search_next] *)

(** The numbers on the bus, as bits. *)
Abbreviation numbers b := (rom_bits <$> roms b).

(** Numbers of 64 bits with a family code, none of them [ONEWIRE_NONE]. *)
Definition bus_ok b : Prop :=
  devices b <> [] /\ Forall (fun r => 0 <= r < ONEWIRE_NONE /\ r mod 256 <> 0) (roms b).

(** The search state after the number [x] was found. *)
Record found b (x : list bool) (s : onewire_search_t) : Prop := {
  fo_rom : rom_ok (rom_no s);
  fo_bits : bits64 (rom_no s) = x;
  fo_disc : last_discrepancy s = last_choice 1 (numbers b) x;
  fo_last : last_device_found s = (last_choice 1 (numbers b) x =? 0);
}.

Lemma full_numbers b : full 64 (numbers b).
Proof. apply Forall_fmap, Forall_true. intros r. unfold compose, rom_bits. by rewrite length_bits_of. Qed.

Lemma roms_nonempty b : devices b <> [] -> roms b <> [].
Proof. unfold roms. by destruct (devices b). Qed.

Lemma numbers_nonempty b : devices b <> [] -> numbers b <> [].
Proof. intros H E. apply fmap_nil_inv in E. by apply (roms_nonempty b). Qed.

Lemma le_val_number b rom :
  bus_ok b -> rom_ok rom -> bits64 rom ∈ numbers b -> le_val rom ∈ roms b /\ rom_at rom 0 <> 0.
Proof.
  intros [_ Hb] Hok Hin. rewrite bits64_le_val in Hin by done. apply list_elem_of_fmap in Hin as (r & E & Hr).
  pose proof (proj1 (Forall_forall _ _) Hb r Hr) as [Hrange Hfam]. unfold ONEWIRE_NONE in Hrange.
  destruct Hok as [Hl Hby]. pose proof (le_val_range rom Hby) as Hv. rewrite Hl in Hv. change (256 ^ Z.of_nat 8) with (2 ^ 64) in Hv.
  apply rom_bits_inj in E; [|lia..]. split; [by rewrite E|]. intros H0. destruct Hfam. rewrite <-E.
  destruct rom as [|c rom]; [done|]. change (c = 0) in H0. subst c. cbn [le_val].
  rewrite Z.add_0_l, Z.mul_comm. by apply Z.mod_mul.
Qed.

#[local] Opaque walk last_choice enum.

Lemma search_next_does b s w p :
  bus_ok b -> rom_ok (rom_no s) -> last_device_found s = false -> bus_ready w -> bus_slaves w = set_phase b p ->
  let path := fst (walk 64 1 (last_discrepancy s) (numbers b) (bits64 (rom_no s)) 0) in
  exists s', found b path s' /\ path ∈ numbers b /\
    does (onewire_search_next pin s) w (bits_val path, s') (set_phase b PIdle).
Proof.
  intros Hb Hok Hldf Hr Hs path. pose proof Hb as [Hd _]. unfold onewire_search_next. rewrite Hldf.
  destruct (bus_reset w Hr) as (w1 & E1 & R1 & S1). rewrite Hs in E1, S1. cbn [present on_reset device_bus] in E1, S1.
  replace (match devices (set_phase b p) with [] => false | _ :: _ => true end) with true in E1 by (cbn; by destruct (devices b)).
  change (set_phase (set_phase b p) (PRom 0 0)) with (set_phase b (PRom 0 0)) in S1.
  destruct (write_does w1 ONEWIRE_SEARCH R1) as (w2 & E2 & R2 & S2). rewrite S1 in S2.
  unfold ONEWIRE_SEARCH in S2. rewrite slots_search in S2.
  destruct (search_loop_does (last_discrepancy s) b 64 0 (roms b) (rom_no s) 0 65 w2)
    as (rom' & lz' & (w3 & E3 & R3 & S3) & Hok' & Hwalk); [lia|lia|done|done|by apply roms_nonempty|done|].
  change (left_of 0 (roms b)) with (numbers b) in Hwalk.
  pose proof (walk_choice 64 1 (last_discrepancy s) (numbers b) (bits64 (rom_no s)) 0 (full_numbers b)) as Hc.
  specialize (Hc (numbers_nonempty b Hd) ltac:(lia)).
  change (Z.of_nat 0 + 1) with 1 in Hwalk. rewrite drop_0 in Hwalk.
  subst path. destruct (walk 64 1 _ _ _ _) as [path z]. cbn [fst]. destruct Hwalk as [Hbits Hz], Hc as [Hin Hz'].
  rewrite take_0, app_nil_l in Hbits. destruct (le_val_number b rom' Hb Hok') as [Hval Hne]; [by rewrite Hbits|].
  assert (Hlz : lz' = last_choice 1 (numbers b) path) by (rewrite Hz, Hz'; case_if; zbool; congruence).
  exists {| rom_no := rom'; last_discrepancy := lz'; last_device_found := if lz' =? 0 then true else false |}.
  split; [|split; [done|]].
  - split; cbn; [done|done|done|]. rewrite Hlz. by destruct (_ =? 0).
  - exists w3. run E1. cbn [negb]. run E2. change (vars_at 0 (rom_no s) 0) with
      {| id_bit_number := 1; last_zero := 0; rom_byte_number := 0; rom_byte_mask := 1; s_rom_no := rom_no s |} in E3.
    run E3. split; [|done]. cbn [id_bit_number vars_at Z.ltb last_zero s_rom_no].
    unfold search_finish. cbn [negb orb rom_no]. rewrite (proj2 (Z.eqb_neq _ 0)) by done.
    rewrite rom_addr_le_val by done. rewrite bits64_le_val in Hbits by done. rewrite <-Hbits.
    unfold rom_bits. rewrite bits_val_of. destruct Hok' as [Hl Hby]. pose proof (le_val_range rom' Hby) as Hv.
    rewrite Hl in Hv. change (256 ^ Z.of_nat 8) with (2 ^ Z.of_nat 64) in Hv. by rewrite Z.mod_small.
Qed.

Lemma search_next_none b x s w :
  found b x s -> last_choice 1 (numbers b) x = 0 -> bus_ready w ->
  exists s', onewire_search_next pin s w = Done ((ONEWIRE_NONE, s'), w).
Proof.
  intros [_ _ _ Hf] H0 Hr. unfold onewire_search_next. rewrite Hf, H0. cbn. by eexists.
Qed.

(** ** A whole search *)

(** A user's loop: search until there is nothing more. *)
Fixpoint search_all (fuel : nat) (s : onewire_search_t) : M W (list Z) :=
  match fuel with
  | O => out_of_fuel
  | S fuel =>
    let! (addr, s) := onewire_search_next pin s in
    if addr =? ONEWIRE_NONE then ret []
    else
      let! addrs := search_all fuel s in
      ret (addr :: addrs)
  end.

Lemma search_all_S fuel s :
  search_all (S fuel) s =
    (let! (addr, s) := onewire_search_next pin s in
     if addr =? ONEWIRE_NONE then ret [] else let! addrs := search_all fuel s in ret (addr :: addrs)).
Proof. reflexivity. Qed.

Lemma cons_inj {A} (x y : A) l l' : x :: l = y :: l' -> x = y /\ l = l'.
Proof. by intros [= -> ->]. Qed.

Lemma NoDup_split_unique {A} (l1 l1' l2 l2' : list A) x :
  NoDup (l1 ++ x :: l2) -> l1 ++ x :: l2 = l1' ++ x :: l2' -> l2 = l2'.
Proof.
  revert l1'. induction l1 as [|y l1 IH]; intros [|z l1']; cbn; intros Hn E.
  - congruence.
  - injection E as -> E. apply NoDup_cons in Hn as [Hn _]. destruct Hn. rewrite E. apply elem_of_app. right. left.
  - injection E as -> E. apply NoDup_cons in Hn as [Hn _]. destruct Hn. apply elem_of_app. right. left.
  - injection E as -> E. apply NoDup_cons in Hn as [_ Hn]. by apply (IH l1').
Qed.

Lemma number_not_none b path : bus_ok b -> path ∈ numbers b -> (bits_val path =? ONEWIRE_NONE) = false /\ bits_val path ∈ roms b.
Proof.
  intros [_ Hb] Hin. apply list_elem_of_fmap in Hin as (r & -> & Hr).
  pose proof (proj1 (Forall_forall _ _) Hb r Hr) as [Hrange _]. unfold rom_bits, ONEWIRE_NONE in *.
  rewrite bits_val_of, Z.mod_small by (change (2 ^ Z.of_nat 64) with (2 ^ 64); lia). split; [apply Z.eqb_neq; lia|done].
Qed.

Lemma search_rest b l2 : forall l1 x s w p,
  bus_ok b -> found b x s -> enum 64 (numbers b) = l1 ++ x :: l2 -> bus_ready w -> bus_slaves w = set_phase b p ->
  exists p', does (search_all (S (length l2)) s) w (bits_val <$> l2) (set_phase b p').
Proof.
  induction l2 as [|y l2 IH]; intros l1 x s w p Hb Hf He Hr Hs; pose proof Hb as [Hd _];
    pose proof (enum_NoDup 64 (numbers b)) as Hnd; rewrite He in Hnd;
    (assert (Hx : x ∈ numbers b) by (apply (elem_enum 64 _ _ (full_numbers b)); rewrite He; apply elem_of_app; right; left));
    destruct (decide (last_choice 1 (numbers b) x = 0)) as [H0|H0].
  - destruct (search_next_none b x s w Hf H0 Hr) as [s' E]. exists p, w. rewrite search_all_S. run E.
    by rewrite Z.eqb_refl.
  - destruct (walk_next 64 1 (numbers b) x 0 (full_numbers b) Hx ltac:(lia) H0) as (m1 & m2 & E). rewrite He in E.
    by apply (NoDup_split_unique _ m1) in E.
  - destruct (last_choice_last 64 1 (numbers b) x (full_numbers b) Hx ltac:(lia) H0) as [m E]. rewrite He in E.
    by apply (NoDup_split_unique l1 m _ []) in E.
  - destruct (walk_next 64 1 (numbers b) x 0 (full_numbers b) Hx ltac:(lia) H0) as (m1 & m2 & E). rewrite He in E.
    apply (NoDup_split_unique _ m1) in E; [|done]. apply cons_inj in E as [Ey E2]. subst m2.
    destruct (search_next_does b s w p Hb (fo_rom _ _ _ Hf)) as (s' & Hf' & Hin & w1 & E1 & R1 & S1); [|done|done|].
    { rewrite (fo_last _ _ _ Hf). by apply Z.eqb_neq. }
    rewrite (fo_bits _ _ _ Hf), (fo_disc _ _ _ Hf), <-Ey in *.
    destruct (IH (l1 ++ [x]) y s' w1 PIdle Hb Hf') as (p' & w2 & E2 & R2 & S2); [by rewrite <-app_assoc|done|done|].
    exists p', w2. split; [|exact (conj R2 S2)]. rewrite search_all_S. run E1.
    rewrite (proj1 (number_not_none b y Hb Hin)). change (length (y :: l2)) with (S (length l2)). by run E2.
Qed.

Lemma search_all_does b w p :
  bus_ok b -> bus_ready w -> bus_slaves w = set_phase b p ->
  exists p', does (search_all (S (length (enum 64 (numbers b)))) onewire_search_start) w
    (bits_val <$> enum 64 (numbers b)) (set_phase b p').
Proof.
  intros Hb Hr Hs. pose proof Hb as [Hd _].
  assert (H0 : rom_ok (rom_no onewire_search_start)) by (split; [done|]; cbn; repeat constructor; unfold byteP; lia).
  destruct (search_next_does b onewire_search_start w p Hb H0) as (s' & Hf & Hin & w1 & E1 & R1 & S1); [done..|].
  destruct (walk_first 64 1 0 (numbers b) (bits64 (rom_no onewire_search_start)) 0 (full_numbers b)
    (numbers_nonempty b Hd) ltac:(lia)) as [rest E]. cbn [last_discrepancy onewire_search_start] in *.
  set (x := fst _) in *. destruct (search_rest b rest [] x s' w1 PIdle Hb Hf E R1 S1) as (p' & w2 & E2 & R2 & S2).
  exists p', w2. split; [|exact (conj R2 S2)]. rewrite E, search_all_S. change (length (x :: rest)) with (S (length rest)).
  run E1. rewrite (proj1 (number_not_none b x Hb Hin)). by run E2.
Qed.

Lemma enum_numbers b : bus_ok b -> NoDup (roms b) -> bits_val <$> enum 64 (numbers b) ≡ₚ roms b.
Proof.
  intros [_ Hb] Hn.
  assert (Hp : enum 64 (numbers b) ≡ₚ numbers b).
  { apply NoDup_Permutation; [apply enum_NoDup| |intros x; apply elem_enum, full_numbers].
    apply NoDup_fmap_2_strong; [|done]. intros r r' Hr Hr' E.
    pose proof (proj1 (Forall_forall _ _) Hb r Hr) as [? _]. pose proof (proj1 (Forall_forall _ _) Hb r' Hr') as [? _].
    unfold ONEWIRE_NONE in *. apply rom_bits_inj in E; lia. }
  rewrite Hp, <-list_fmap_compose. rewrite <-(list_fmap_id (roms b)) at 2.
  enough (E : (bits_val ∘ rom_bits) <$> roms b = id <$> roms b) by (by rewrite E). apply list_fmap_ext.
  intros i r Hr%list_elem_of_lookup_2. pose proof (proj1 (Forall_forall _ _) Hb r Hr) as [? _].
  unfold compose, rom_bits, ONEWIRE_NONE, id in *. rewrite bits_val_of. apply Z.mod_small. change (2 ^ Z.of_nat 64) with (2 ^ 64). lia.
Qed.

End Search.
