(* ===== verification/OneWireCrc.v ===== *)
(** * The checksums of the 1-Wire bus

    The table and the bit-by-bit variant of [onewire_crc8] agree, data
    followed by its checksum checks to zero and a changed byte is noticed;
    [onewire_crc16] is the CRC with the reflected polynomial 0xA001. *)

From S2P Require Import Prelude OneWire.
Open Scope Z_scope.

Import Crc.

(** ** Shifting registers *)

(** [n] steps of a reflected CRC register with polynomial [poly]. *)
Fixpoint crc_reg (poly : Z) (n : nat) (x : Z) : Z :=
  match n with
  | O => x
  | S n => crc_reg poly n (Z.lxor (Z.shiftr x 1) (if Z.odd x then poly else 0))
  end.

Lemma odd_lxor x y : Z.odd (Z.lxor x y) = xorb (Z.odd x) (Z.odd y).
Proof. rewrite <-!Z.bit0_odd. apply Z.lxor_spec. Qed.

Lemma lxor_cancel x y z : Z.lxor (Z.lxor x z) (Z.lxor y z) = Z.lxor x y.
Proof.
  rewrite (Z.lxor_comm y z), Z.lxor_assoc, <-(Z.lxor_assoc z z y), Z.lxor_nilpotent, Z.lxor_0_l. done.
Qed.

(** The register is linear. *)
Lemma crc_reg_lxor poly n : forall x y, crc_reg poly n (Z.lxor x y) = Z.lxor (crc_reg poly n x) (crc_reg poly n y).
Proof.
  induction n as [|n IH]; intros x y; cbn; [done|]. rewrite <-IH. f_equal. rewrite odd_lxor, Z.shiftr_lxor.
  destruct (Z.odd x), (Z.odd y); cbn; rewrite ?Z.lxor_0_r.
  - by rewrite lxor_cancel.
  - rewrite !Z.lxor_assoc. f_equal. apply Z.lxor_comm.
  - by rewrite Z.lxor_assoc.
  - done.
Qed.

(** ** CRC8 *)

Lemma land_1 x : (Z.land x 0x01 =? 0) = negb (Z.odd x).
Proof.
  change 0x01 with (Z.ones 1). rewrite Z.land_ones by lia. change (2 ^ 1) with 2. rewrite Zmod_odd. by destruct (Z.odd x).
Qed.

(** The inner loop is the register fed with the byte. *)
Lemma crc8_byte_reg n : forall crc b,
  Z.lxor (crc8_byte n crc b) (Z.shiftr b (Z.of_nat n)) = crc_reg 0x8C n (Z.lxor crc b).
Proof.
  induction n as [|n IH]; intros crc b; cbn [crc8_byte crc_reg]; [by rewrite Z.shiftr_0_r|].
  rewrite land_1, negb_involutive. replace (Z.of_nat (S n)) with (1 + Z.of_nat n) by lia.
  rewrite <-Z.shiftr_shiftr by lia. rewrite IH. f_equal. rewrite Z.shiftr_lxor.
  destruct (Z.odd (Z.lxor crc b)); [|by rewrite Z.lxor_0_r].
  rewrite !Z.lxor_assoc. f_equal. apply Z.lxor_comm.
Qed.

Lemma crc8_byte_8 crc b : byteP b -> crc8_byte 8 crc b = crc_reg 0x8C 8 (Z.lxor crc b).
Proof.
  intros Hb. rewrite <-crc8_byte_reg. change (Z.of_nat 8) with 8.
  rewrite Z.shiftr_div_pow2, Z.div_small by (lia || exact Hb). by rewrite Z.lxor_0_r.
Qed.

Lemma table_reg x : byteP x -> nth (Z.to_nat x) dscrc_table 0 = crc_reg 0x8C 8 x.
Proof.
  intros Hx. apply Z.eqb_eq. revert x Hx. apply (byte_check (fun x => nth (Z.to_nat x) dscrc_table 0 =? crc_reg 0x8C 8 x)).
  vm_compute. reflexivity.
Qed.

Lemma reg_byte x : byteP x -> byteP (crc_reg 0x8C 8 x).
Proof.
  intros Hx. assert (H : (0 <=? crc_reg 0x8C 8 x) && (crc_reg 0x8C 8 x <? 256) = true); [|zbool; unfold byteP; lia].
  revert x Hx. apply byte_check. vm_compute. reflexivity.
Qed.

(** The register loses nothing: only zero goes to zero. *)
Lemma reg_zero x : byteP x -> crc_reg 0x8C 8 x = 0 -> x = 0.
Proof.
  intros Hx H0. assert (H : negb (crc_reg 0x8C 8 x =? 0) || (x =? 0) = true).
  { revert x Hx H0. intros x Hx _. revert x Hx. apply (byte_check (fun x => negb (crc_reg 0x8C 8 x =? 0) || (x =? 0))). vm_compute. reflexivity. }
  rewrite H0 in H. cbn in H. by apply Z.eqb_eq.
Qed.

(** Both loops as one fold over the register. *)
Definition crc8_fold (crc : Z) (data : list Z) : Z := foldl (fun crc b => crc_reg 0x8C 8 (Z.lxor crc b)) crc data.

(** The loop as a fold over the bytes it reads. *)
Lemma crc8_loop_foldl turn n : forall data crc, crc8_loop turn n data crc = foldl turn crc (take n data).
Proof. induction n as [|n IH]; intros [|b data] crc; try done. apply IH. Qed.

Lemma crc8_fold_eq data len : Forall byteP data -> onewire_crc8 data len = crc8_fold 0 (take (Z.to_nat (u8 len)) data).
Proof.
  intros H. unfold onewire_crc8, crc8_fold. rewrite crc8_loop_foldl. apply (Forall_take _ (Z.to_nat (u8 len))) in H.
  revert H. generalize (take (Z.to_nat (u8 len)) data) as l. generalize 0 as c. intros c l H. revert c.
  induction H as [|b l Hb _ IH]; intros c; cbn [foldl]; [done|]. by rewrite crc8_byte_8, IH.
Qed.

Lemma crc8_table_fold data len : Forall byteP data -> onewire_crc8_table data len = crc8_fold 0 (take (Z.to_nat (u8 len)) data).
Proof.
  intros H. unfold onewire_crc8_table, crc8_fold. rewrite crc8_loop_foldl. apply (Forall_take _ (Z.to_nat (u8 len))) in H.
  revert H. generalize (take (Z.to_nat (u8 len)) data) as l.
  assert (Hc : byteP 0) by (unfold byteP; lia). revert Hc. generalize 0 at 1 3 4 as c.
  intros c Hc l H. revert c Hc. induction H as [|b l Hb _ IH]; intros c Hc; cbn [foldl]; [done|].
  assert (Hx : byteP (Z.lxor c b)) by (by apply lxor_byte). rewrite table_reg by done. apply IH. by apply reg_byte.
Qed.

(** All of at most 255 bytes are read. *)
Lemma crc8_whole data : Forall byteP data -> Z.of_nat (length data) <= 255 ->
  onewire_crc8 data (Z.of_nat (length data)) = crc8_fold 0 data.
Proof. intros Hd Hl. rewrite crc8_fold_eq, u8_small, Nat2Z.id, firstn_all by (unfold byteP; (done || lia)). done. Qed.

Lemma crc8_fold_byte data : forall c, byteP c -> Forall byteP data -> byteP (crc8_fold c data).
Proof.
  induction data as [|b data IH]; intros c Hc Hd; [done|]. inversion Hd; subst. apply (IH (crc_reg 0x8C 8 (Z.lxor c b))); [|done].
  by apply reg_byte, lxor_byte.
Qed.

Lemma lxor_eq_0 x y : Z.lxor x y = 0 -> x = y.
Proof. apply Z.lxor_eq. Qed.

Lemma crc8_fold_cons c b data : crc8_fold c (b :: data) = crc8_fold (crc_reg 0x8C 8 (Z.lxor c b)) data.
Proof. reflexivity. Qed.

(** From different register contents the same bytes lead to different ones. *)
Lemma crc8_fold_inj data : forall c c', byteP c -> byteP c' -> Forall byteP data ->
  crc8_fold c data = crc8_fold c' data -> c = c'.
Proof.
  induction data as [|b data IH]; intros c c' Hc Hc' Hd E; [done|]. inversion Hd; subst. rewrite !crc8_fold_cons in E.
  apply IH in E; [|by apply reg_byte, lxor_byte..|done]. apply lxor_eq_0, reg_zero; [by apply lxor_byte|].
  rewrite <-(lxor_cancel c c' b), crc_reg_lxor, E. apply Z.lxor_nilpotent.
Qed.

(** ** CRC16 *)

(** The high byte only moves down. *)
Lemma reg16_high y : byteP y -> crc_reg 0xA001 8 (y * 256) = y.
Proof.
  intros Hy. apply Z.eqb_eq. revert y Hy. apply (byte_check (fun y => crc_reg 0xA001 8 (y * 256) =? y)). vm_compute. reflexivity.
Qed.

(** The part of a step that depends on the low byte, as the code computes it. *)
Definition crc16_low (c : Z) : Z :=
  let odd := Z.lxor (nth (Z.to_nat (Z.land c 0x0F)) oddparity 0) (nth (Z.to_nat (Z.shiftr c 4)) oddparity 0) in
  let r := if negb (odd =? 0) then 0xC001 else 0 in
  Z.lxor (Z.lxor r (u16 (Z.shiftl c 6))) (u16 (Z.shiftl (u16 (Z.shiftl c 6)) 1)).

Lemma crc16_low_reg c : byteP c -> crc16_low c = crc_reg 0xA001 8 c.
Proof.
  intros Hc. apply Z.eqb_eq. revert c Hc. apply (byte_check (fun c => crc16_low c =? crc_reg 0xA001 8 c)). vm_compute. reflexivity.
Qed.

Lemma crc16_step_low crc b :
  crc16_step crc b = Z.lxor (Z.shiftr crc 8) (crc16_low (Z.land (Z.lxor b crc) 0xff)).
Proof.
  unfold crc16_step, crc16_low. set (c := Z.land (Z.lxor b crc) 0xff). case_if; rewrite ?Z.lxor_0_l, <-?Z.lxor_assoc; done.
Qed.

Lemma crc16_step_reg crc b : 0 <= crc < 65536 -> byteP b -> crc16_step crc b = crc_reg 0xA001 8 (Z.lxor crc b).
Proof.
  intros Hc Hb. rewrite crc16_step_low. set (x := Z.lxor crc b). rewrite (Z.lxor_comm b crc). fold x.
  assert (Hx : 0 <= x < 65536) by (apply (lxor_range 16); unfold byteP in Hb; lia).
  change 0xff with (2 ^ 8 - 1). rewrite land_mask by lia. change (2 ^ 8) with 256.
  assert (Hlow : byteP (x mod 256)) by (unfold byteP; apply Z.mod_pos_bound; lia). rewrite crc16_low_reg by done.
  assert (Hhigh : Z.shiftr crc 8 = x / 256).
  { rewrite <-(Z.lxor_0_r (Z.shiftr crc 8)). change 256 with (2 ^ 8). rewrite <-Z.shiftr_div_pow2 by lia. unfold x.
    rewrite Z.shiftr_lxor. f_equal. rewrite Z.shiftr_div_pow2 by lia. symmetry. by apply Z.div_small. }
  rewrite Hhigh, <-(reg16_high (x / 256)) by (unfold byteP; divlia). rewrite <-crc_reg_lxor. f_equal.
  rewrite (Z.div_mod x 256) at 3 by lia. rewrite (Z.mul_comm 256), Z.add_comm. rewrite Z.lxor_comm.
  rewrite <-(lor_disjoint_add (x mod 256) 8) by (lia || exact Hlow). change (2 ^ 8) with 256.
  apply Z.bits_inj'. intros k Hk. rewrite Z.lxor_spec, Z.lor_spec. change 256 with (2 ^ 8).
  rewrite <-Z.shiftl_mul_pow2 by lia. destruct (decide (k < 8)).
  - rewrite Z.shiftl_spec_low by lia. by destruct (Z.testbit _ k).
  - rewrite Z.mod_pow2_bits_high by lia. by destruct (Z.testbit _ k).
Qed.

Lemma crc_reg16_range n : forall x, 0 <= x < 65536 -> 0 <= crc_reg 0xA001 n x < 65536.
Proof.
  induction n as [|n IH]; intros x Hx; cbn [crc_reg]; [done|]. apply IH, (lxor_range 16); [lia|..].
  - rewrite Z.shiftr_div_pow2 by lia. change (2 ^ 1) with 2. divlia.
  - case_if; lia.
Qed.

(** ** Properties *)

(** C39. The two variants of [onewire_crc8], with and without the table,
    compute the same checksum, for every value of the length argument (a
    [uint8_t], so its low byte counts); data followed by its checksum has the
    checksum 0, where the length of the whole fits the argument; and data of up
    to 255 bytes that differ in one byte have different checksums. *)
Theorem onewire_crc8_correct data :
  Forall byteP data ->
  let n := Z.of_nat (length data) in
  (forall len, onewire_crc8_table data len = onewire_crc8 data len) /\
  (n < 255 -> onewire_crc8 (data ++ [onewire_crc8 data n]) (n + 1) = 0) /\
  (forall l b b' r, n <= 255 -> data = l ++ b :: r -> byteP b' -> b <> b' ->
     onewire_crc8 (l ++ b' :: r) n <> onewire_crc8 data n).
Proof.
  intros Hd n. assert (H0 : byteP 0) by (unfold byteP; lia). split; [intros; by rewrite crc8_table_fold, crc8_fold_eq|]. split.
  - intros Hn. assert (Hc : byteP (onewire_crc8 data n)) by (unfold n; rewrite crc8_whole by (done || lia); by apply crc8_fold_byte).
    replace (n + 1) with (Z.of_nat (length (data ++ [onewire_crc8 data n]))) by (rewrite length_app; cbn; lia).
    rewrite crc8_whole by (first [apply Forall_app; auto|rewrite length_app; cbn; lia]). unfold crc8_fold. rewrite foldl_app. cbn [foldl].
    fold (crc8_fold 0 data). unfold n. rewrite <-crc8_whole, Z.lxor_nilpotent by (done || lia). reflexivity.
  - intros l b b' r Hn Ed Hb' Hne E. unfold n in E, Hn. clear n. subst data.
    assert (El : length (l ++ b :: r) = length (l ++ b' :: r)) by (by rewrite !length_app).
    apply Forall_app in Hd as [Hl Hbr]. inversion Hbr; subst. rewrite El in E at 1.
    rewrite !crc8_whole in E by (first [apply Forall_app; auto|lia]). unfold crc8_fold in E. rewrite !foldl_app in E. cbn [foldl] in E.
    pose proof (crc8_fold_byte l 0 H0 Hl) as Hcl. unfold crc8_fold in Hcl. set (c := foldl _ 0 l) in *.
    apply crc8_fold_inj in E; [|by apply reg_byte, lxor_byte..|done].
    destruct Hne. symmetry. apply lxor_eq_0, reg_zero; [by apply lxor_byte|].
    rewrite <-(lxor_cancel b' b c), (Z.lxor_comm b' c), (Z.lxor_comm b c), crc_reg_lxor, E. apply Z.lxor_nilpotent.
Qed.

(** The loop from index [i] on is a fold while the counter does not wrap. *)
Lemma crc16_loop_fold n : forall fuel i input crc,
  Z.of_nat n = Z.of_nat (length input) - i -> (n < fuel)%nat -> 0 <= i -> Z.of_nat (length input) < 65536 ->
  crc16_loop fuel i input crc = Done (foldl crc16_step crc (drop (Z.to_nat i) input)).
Proof.
  induction n as [|n IH]; intros fuel i input crc Hn Hf Hi Hl; (destruct fuel as [|fuel]; [lia|]); cbn [crc16_loop].
  - rewrite (proj2 (Z.ltb_ge _ _)) by lia. by rewrite drop_ge by lia.
  - rewrite (proj2 (Z.ltb_lt _ _)) by lia. unfold u16. rewrite Z.mod_small, IH by lia.
    destruct (lookup_lt_is_Some_2 input (Z.to_nat i)) as [b Hb]; [lia|].
    rewrite (drop_S _ _ _ Hb). cbn [foldl]. rewrite (nth_lookup_Some _ _ _ _ Hb).
    do 2 f_equal. f_equal. lia.
Qed.

(** With 64 KiB or more of input the counter wraps before it reaches the end. *)
Lemma crc16_loop_endless fuel : forall i input crc,
  0 <= i < 65536 -> 65536 <= Z.of_nat (length input) -> crc16_loop fuel i input crc = OutOfFuel.
Proof.
  induction fuel as [|fuel IH]; intros i input crc Hi Hl; [done|]. cbn [crc16_loop].
  rewrite (proj2 (Z.ltb_lt _ _)) by lia. apply IH; [unfold u16; divlia|done].
Qed.

(** [onewire_crc16], with its parity table, is the CRC register of the
    reflected polynomial 0xA001 run over the bits of an input below 64 KiB,
    and [onewire_check_crc16] accepts exactly the inverted checksum, low byte
    first; the loop of a longer input never ends. *)
Theorem onewire_crc16_correct fuel data iv lo hi :
  Forall byteP data -> 0 <= iv < 65536 -> byteP lo -> byteP hi -> (length data < fuel)%nat ->
  let crc := foldl (fun c b => crc_reg 0xA001 8 (Z.lxor c b)) iv data in
  if Z.of_nat (length data) <? 65536 then
    onewire_crc16 fuel data iv = Done crc /\
    onewire_check_crc16 fuel data [lo; hi] iv = Done (lo + 256 * hi =? 65535 - crc)
  else forall fuel', onewire_crc16 fuel' data iv = OutOfFuel.
Proof.
  intros Hd Hiv Hlo Hhi Hf crc. destruct (_ <? _) eqn:Hl; zbool; [|intros; apply crc16_loop_endless; lia].
  assert (H : foldl crc16_step iv data = crc /\ 0 <= crc < 65536).
  { unfold crc. clear crc Hl Hf. revert iv Hiv. induction Hd as [|b data Hb _ IH]; intros iv Hiv; cbn [foldl]; [done|].
    rewrite crc16_step_reg by done. apply IH. apply crc_reg16_range, (lxor_range 16); unfold byteP in Hb; lia. }
  destruct H as [E Hc].
  assert (E' : onewire_crc16 fuel data iv = Done crc).
  { unfold onewire_crc16. rewrite (crc16_loop_fold (length data)) by lia. by rewrite drop_0, E. }
  split; [done|]. unfold onewire_check_crc16. rewrite E'. clearbody crc. clear E E'.
  replace (u16 (Z.lnot crc)) with (65535 - crc)
    by (unfold u16, Z.lnot; replace (Z.pred (- crc)) with (65535 - crc + -1 * 2 ^ 16) by lia;
        rewrite Z.mod_add, Z.mod_small by lia; done).
  cbn [nth]. change 0xFF with (2 ^ 8 - 1). rewrite land_mask, Z.shiftr_div_pow2 by lia. change (2 ^ 8) with 256.
  f_equal. apply Bool.eq_iff_eq_true. rewrite andb_true_iff, !Z.eqb_eq. unfold byteP in *. split; intros; divlia.
Qed.

Lemma onewire_crc8_correct_witness :
  onewire_crc8_table [0x28; 0xff; 0x64; 0x1e; 0x81; 0x16; 0x03] 7 = onewire_crc8 [0x28; 0xff; 0x64; 0x1e; 0x81; 0x16; 0x03] 7.
Proof.
  apply (onewire_crc8_correct [0x28; 0xff; 0x64; 0x1e; 0x81; 0x16; 0x03]).
  repeat (constructor; [unfold byteP; lia|]). constructor.
Defined.

Lemma onewire_crc16_correct_witness : onewire_check_crc16 4 [0xF0; 0x88; 0x00] [0x99; 0xcc] 0 = Done true.
Proof.
  apply (onewire_crc16_correct 4 [0xF0; 0x88; 0x00] 0 0x99 0xcc); [|lia|unfold byteP; lia|unfold byteP; lia|cbn; lia].
  repeat (constructor; [unfold byteP; lia|]). constructor.
Defined.
