(* ===== verification/Ds18b20.v ===== *)
(** * The DS18B20 thermometers: [extras/ds18b20/ds18b20.c]

    The functions over the 1-Wire bus.  Temperatures are [float]s, computed
    in [double] as the constants of the source demand. *)

From Stdlib Require Import SpecFloat.
From S2P Require Import Prelude Floats OneWire.
Open Scope Z_scope.

Import Onewire.

Definition DS18B20_READ_SCRATCHPAD : Z := 0xBE.
Definition DS18B20_CONVERT_T : Z := 0x44.
Definition DS18B20_FAMILY_ID : Z := 0x28.
Definition DS18S20_FAMILY_ID : Z := 0x10.
Definition DS18B20_ANY : Z := ONEWIRE_NONE.

(** [configTICK_RATE_HZ] is 100. *)
Definition portTICK_PERIOD_MS : Z := 10.

Definition os_sleep_ms_ticks (x : Z) : Z := (x + portTICK_PERIOD_MS - 1) / portTICK_PERIOD_MS.

Record ds_sensor_t := { id_ : Z; value : spec_float }.

(** [(x * 625.0) / 10000] of a [double]. *)
Definition scaled (x : spec_float) : spec_float := double_div (double_mul x (double_of_Z 625)) (double_of_Z 10000).

(** The conversion of a [uint16_t] in [ds18b20_read_all] and
    [ds18b20_read_single]. *)
Definition unsigned_degrees (temp : Z) : spec_float := to_float (scaled (double_of_Z temp)).

Section Ds18b20.
Context {W : Type} `{!Line W}.
Variable pin : Z.

(** [n] bytes read into an array of [uint8_t]. *)
Fixpoint read_array (n : nat) : M W (list Z) :=
  match n with
  | O => ret []
  | S n =>
    let! b := onewire_read pin in
    let! bs := read_array n in
    ret (u8 b :: bs)
  end.

(** Eight bytes of an address in memory order. *)
Definition addr_bytes (addr : Z) : list Z := le_bytes 8 addr.

(** The loop of [ds18b20_read_all]: the entries stored to [result] and the
    value returned. *)
Fixpoint read_all_loop (fuel : nat) (search : onewire_search_t) (sensor_id : Z)
    : M W (Z * list ds_sensor_t) :=
  match fuel with
  | O => out_of_fuel
  | S fuel =>
    let! (addr, search) := onewire_search_next pin search in
    if addr =? ONEWIRE_NONE then ret (sensor_id, [])
    else
      let crc := Crc.onewire_crc8 (addr_bytes addr) 7 in
      if negb (crc =? Z.shiftr addr 56) then ret (0, [])
      else
        let! _ := onewire_reset pin in
        let! _ := onewire_select pin addr in
        let! _ := onewire_write pin DS18B20_CONVERT_T in
        let! _ := onewire_power pin in
        do! modify (vTaskDelay (750 / portTICK_PERIOD_MS)) then
        let! _ := onewire_reset pin in
        let! _ := onewire_select pin addr in
        let! _ := onewire_write pin DS18B20_READ_SCRATCHPAD in
        let! get := read_array 9 in
        let crc := Crc.onewire_crc8 get 8 in
        if negb (crc =? nth 8 get 0) then ret (0, [])
        else
          let temp := Z.lor (Z.shiftl (nth 1 get 0) 8) (nth 0 get 0) in
          let! (count, rest) := read_all_loop fuel search (u8 (sensor_id + 1)) in
          ret (count, {| id_ := sensor_id; value := unsigned_degrees temp |} :: rest)
  end.

Definition ds18b20_read_all (fuel : nat) : M W (Z * list ds_sensor_t) :=
  read_all_loop fuel onewire_search_start 0.

Definition ds18b20_read_single : M W spec_float :=
  let! _ := onewire_reset pin in
  let! _ := onewire_skip_rom pin in
  let! _ := onewire_write pin DS18B20_CONVERT_T in
  let! _ := onewire_power pin in
  do! modify (vTaskDelay (750 / portTICK_PERIOD_MS)) then
  let! _ := onewire_reset pin in
  let! _ := onewire_skip_rom pin in
  let! _ := onewire_write pin DS18B20_READ_SCRATCHPAD in
  let! get := read_array 9 in
  let crc := Crc.onewire_crc8 get 8 in
  if negb (crc =? nth 8 get 0) then ret (float_of_Z 0)
  else
    let temp := Z.lor (Z.shiftl (nth 1 get 0) 8) (nth 0 get 0) in
    ret (unsigned_degrees temp).

(** The device or all devices are addressed. *)
Definition address (addr : Z) : M W bool :=
  if addr =? DS18B20_ANY then onewire_skip_rom pin else onewire_select pin addr.

Definition ds18b20_measure (addr : Z) (wait : bool) : M W bool :=
  let! ok := onewire_reset pin in
  if negb ok then ret false
  else
    let! _ := address addr in
    do! modify taskENTER_CRITICAL then
    let! _ := onewire_write pin DS18B20_CONVERT_T in
    let! _ := onewire_power pin in
    do! modify taskEXIT_CRITICAL then
    do! (if wait then
           do! modify (vTaskDelay (os_sleep_ms_ticks 750)) then
           onewire_depower pin
         else ret tt) then
    ret true.

(** The eight bytes of the buffer, or [None] for [false]. *)
Definition ds18b20_read_scratchpad (addr : Z) : M W (option (list Z)) :=
  let! ok := onewire_reset pin in
  if negb ok then ret None
  else
    let! _ := address addr in
    let! _ := onewire_write pin DS18B20_READ_SCRATCHPAD in
    let! buffer := read_array 8 in
    let! crc := onewire_read pin in
    let crc := u8 crc in
    let expected_crc := Crc.onewire_crc8 buffer 8 in
    if negb (crc =? expected_crc) then ret None else ret (Some buffer).

(** The value of the scratchpad, by the family in the address. *)
Definition decode (addr : Z) (scratchpad : list Z) : spec_float :=
  let temp := s16 (Z.lor (Z.shiftl (nth 1 scratchpad 0) 8) (nth 0 scratchpad 0)) in
  if u8 addr =? DS18B20_FAMILY_ID then to_float (scaled (to_double (float_of_Z temp)))
  else
    let temp := s16 (Z.shiftl (Z.land temp 0xfffe) 3 + (16 - nth 6 scratchpad 0) - 4) in
    to_float (double_sub (scaled (to_double (float_of_Z temp))) quarter).

Definition ds18b20_read_temperature (addr : Z) : M W spec_float :=
  let! r := ds18b20_read_scratchpad addr in
  match r with
  | None => ret NAN
  | Some scratchpad => ret (decode addr scratchpad)
  end.

Definition ds18b20_measure_and_read (addr : Z) : M W spec_float :=
  let! ok := ds18b20_measure addr true in
  if negb ok then ret NAN else ds18b20_read_temperature addr.

(** The results stored to [result_list] come with the value returned. *)
Fixpoint ds18b20_read_temp_multi (addr_list : list Z) : M W (bool * list spec_float) :=
  match addr_list with
  | [] => ret (true, [])
  | addr :: addr_list =>
    let! t := ds18b20_read_temperature addr in
    let! (result, rest) := ds18b20_read_temp_multi addr_list in
    ret (if isnan t then false else result, t :: rest)
  end.

Definition ds18b20_measure_and_read_multi (addr_list : list Z) : M W (bool * list spec_float) :=
  let! ok := ds18b20_measure DS18B20_ANY true in
  if negb ok then ret (false, (fun _ => NAN) <$> addr_list) else ds18b20_read_temp_multi addr_list.

(** The addresses stored to [addr_list], at most [addr_count], and the number
    of devices found. *)
Fixpoint scan_loop (fuel : nat) (search : onewire_search_t) (addr_list : list Z) (addr_count found : Z)
    : M W (Z * list Z) :=
  match fuel with
  | O => out_of_fuel
  | S fuel =>
    let! (addr, search) := onewire_search_next pin search in
    if addr =? ONEWIRE_NONE then ret (found, addr_list)
    else
      let family_id := u8 addr in
      if (family_id =? DS18B20_FAMILY_ID) || (family_id =? DS18S20_FAMILY_ID) then
        scan_loop fuel search (if found <? addr_count then addr_list ++ [addr] else addr_list) addr_count (found + 1)
      else scan_loop fuel search addr_list addr_count found
  end.

Definition ds18b20_scan_devices (fuel : nat) (addr_count : Z) : M W (Z * list Z) :=
  scan_loop fuel onewire_search_start [] addr_count 0.

End Ds18b20.
