(* ===== verification/Ds18b20Proofs.v ===== *)
(** * Properties of the DS18B20 functions

    Scans, conversions and readings on a bus of devices, against the 1-Wire
    interfaces; the theorems hold on the timed line, where they are run. *)

From Stdlib Require Import SpecFloat.
From S2P Require Import Prelude Floats OneWire OneWireLine OneWireBus OneWireSearch OneWireCrc Ds18b20.
Open Scope Z_scope.

Import Onewire Devices.

(** ** Temperatures *)

(** The product and the quotient are exact: the value is [t / 16]. *)
Lemma scaled_exact x t : denotes x t 0 -> Z.abs t < 2 ^ 17 -> denotes (scaled x) t (-4).
Proof.
  intros Hx Ht. unfold scaled, double_div, double_mul.
  assert (H625 : denotes (double_of_Z 625) 625 0) by (apply double_of_Z_exact; lia).
  assert (H10000 : denotes (double_of_Z 10000) 625 4) by (apply (denotes_same _ 10000 0); [apply double_of_Z_exact; lia|reflexivity]).
  apply (div_exact 53 1024 ltac:(lia) ltac:(lia) _ _ t 625 0 4); [|done|lia|].
  - apply (mul_exact 53 1024 ltac:(lia) ltac:(lia) _ _ t 0 625 0); [done..|]. apply (representable_bits _ _ 27); unfold emin; lia.
  - apply (representable_bits _ _ 17); unfold emin; lia.
Qed.

Lemma to_float_exact x n : denotes x n (-4) -> Z.abs n < 2 ^ 17 -> denotes (to_float x) n (-4).
Proof. intros. apply round_to_exact; [lia|lia|done|]. apply (representable_bits _ _ 17); unfold emin; lia. Qed.

(** What the conversions of the register yield, exactly: an unsigned number
    of sixteenths in two functions, ... *)
Lemma unsigned_degrees_exact t : 0 <= t < 2 ^ 16 -> denotes (unsigned_degrees t) t (-4).
Proof. intros. apply to_float_exact; [|lia]. apply scaled_exact; [apply double_of_Z_exact|]; lia. Qed.

(** ... and in the others the signed register of a DS18B20, or the formula
    for the half degrees and the counter of a DS18S20. *)
Definition register (pad : list Z) : Z := s16 (le_val (take 2 pad)).

Lemma register_bytes pad : Forall byteP pad -> (2 <= length pad)%nat ->
  Z.lor (Z.shiftl (nth 1 pad 0) 8) (nth 0 pad 0) = le_val (take 2 pad) /\ 0 <= le_val (take 2 pad) < 2 ^ 16.
Proof.
  intros Hb Hl. destruct pad as [|lo [|hi pad]]; cbn in Hl; [lia..|]. inversion Hb as [|? ? Hlo Hb']; subst. inversion Hb' as [|? ? Hhi _]; subst.
  cbn [nth take le_val]. rewrite Z.lor_comm, Z.shiftl_mul_pow2, lor_disjoint_add by (lia || exact Hlo).
  rewrite firstn_O. cbn [le_val]. unfold byteP in *. change (2 ^ 8) with 256. lia.
Qed.

Definition sixteenths (rom : Z) (pad : list Z) : Z :=
  if u8 rom =? DS18B20_FAMILY_ID then register pad
  else s16 (8 * Z.land (register pad) 0xfffe + 16 - nth 6 pad 0 - 4) - 4.

Lemma s16_bound t : - 2 ^ 15 <= s16 t < 2 ^ 15.
Proof. unfold s16. divlia. Qed.

Lemma sixteenths_take rom pad : length pad = 9%nat -> sixteenths rom (take 8 pad) = sixteenths rom pad.
Proof. intros H. do 9 (destruct pad as [|? pad]; [done|]). done. Qed.

Lemma decode_exact rom pad : Forall byteP pad -> (2 <= length pad)%nat -> denotes (decode rom pad) (sixteenths rom pad) (-4).
Proof.
  intros Hb Hl. destruct (register_bytes pad Hb Hl) as [Er _].
  assert (Hf : forall t, - 2 ^ 15 <= t < 2 ^ 15 -> denotes (scaled (to_double (float_of_Z t))) t (-4)).
  { intros t Ht. apply scaled_exact; [|lia]. apply round_to_exact; [lia|lia|apply float_of_Z_exact; lia|].
    apply (representable_bits _ _ 17); unfold emin; lia. }
  unfold decode, sixteenths. rewrite Er. fold (register pad). case_if.
  - pose proof (s16_bound _ : - 2 ^ 15 <= register pad < 2 ^ 15). apply to_float_exact; [by apply Hf|lia].
  - rewrite Z.shiftl_mul_pow2 by lia. replace (_ * 2 ^ 3 + (16 - nth 6 pad 0) - 4)
      with (8 * Z.land (register pad) 0xfffe + 16 - nth 6 pad 0 - 4) by lia.
    set (t := s16 _). pose proof (s16_bound _ : - 2 ^ 15 <= t < 2 ^ 15). apply to_float_exact; [|lia].
    apply (sub_exact 53 1024 ltac:(lia) ltac:(lia) (-4) _ _ t (-4) 1 (-2)); [by apply Hf|reflexivity|lia..| |].
    + change (-4 - -4) with 0. change (-2 - -4) with 2. lia.
    + apply (representable_bits _ _ 17); unfold emin; lia.
Qed.

(** ** Answers *)

Section Answers.
Context {W : Type} `{HL : !Line W} {pin : Z} `{HB : !BitBus W bus pin}.
Implicit Types (w : W) (b : bus) (d : device).

Lemma slots_send n : forall b l,
  slots (replicate n true) (set_phase b (PSend [l])) = set_phase b (PSend [drop n l]).
Proof.
  induction n as [|n IH]; intros b l; [by rewrite drop_0|].
  change (replicate (S n) true) with (true :: replicate n true). unfold slots. cbn [foldl].
  change (foldl (fun s v => on_slot v s) ?s ?l) with (slots l s).
  change (on_slot true (set_phase b (PSend [l]))) with (set_phase b (PSend [tl l])). rewrite IH.
  destruct l; [cbn; by rewrite drop_nil|done].
Qed.

Lemma sent_send n : forall b l, (n <= length l)%nat -> sent n (set_phase b (PSend [l])) = take n l.
Proof.
  induction n as [|n IH]; intros b l Hl; [done|]. destruct l as [|x l]; [cbn in Hl; lia|]. cbn [sent].
  change (on_slot true (set_phase b (PSend [x :: l]))) with (set_phase b (PSend [l])).
  rewrite IH by (cbn in Hl; lia). cbn. by rewrite andb_true_r.
Qed.

Lemma pad_bits_cons c pad : pad_bits (c :: pad) = bits_of 8 c ++ pad_bits pad.
Proof. reflexivity. Qed.

Lemma pad_bits_byte c pad : byteP c ->
  (8 <= length (pad_bits (c :: pad)))%nat /\ bits_val (take 8 (pad_bits (c :: pad))) = c /\ drop 8 (pad_bits (c :: pad)) = pad_bits pad.
Proof.
  intros Hc. rewrite pad_bits_cons. pose proof (length_bits_of 8 c) as Hl. split; [rewrite length_app; lia|]. split.
  - rewrite take_app_length' by done. rewrite bits_val_of. by apply Z.mod_small.
  - by rewrite drop_app_length' by done.
Qed.

Lemma read_byte_does b c pad w :
  byteP c -> bus_ready w -> bus_slaves w = set_phase b (PSend [pad_bits (c :: pad)]) ->
  does (onewire_read pin) w c (set_phase b (PSend [pad_bits pad])).
Proof.
  intros Hc Hr Hs. destruct (pad_bits_byte c pad Hc) as (Hl & Hv & Hd). destruct (read_does w Hr) as (w' & E & R & S').
  rewrite Hs, sent_send, Hv in E by done. rewrite Hs, slots_send, Hd in S'. by exists w'.
Qed.

Lemma read_array_does b n : forall pad w,
  Forall byteP pad -> (n <= length pad)%nat -> bus_ready w -> bus_slaves w = set_phase b (PSend [pad_bits pad]) ->
  does (read_array pin n) w (take n pad) (set_phase b (PSend [pad_bits (drop n pad)])).
Proof.
  induction n as [|n IH]; intros pad w Hb Hl Hr Hs; cbn [read_array].
  { rewrite take_0, drop_0. by apply does_ret. }
  destruct pad as [|c pad]; [cbn in Hl; lia|]. inversion Hb; subst. eapply does_bind; [by apply read_byte_does|].
  intros w' Hr' Hs'. eapply does_bind; [apply IH; [done|cbn in Hl; lia|done|exact Hs']|].
  intros w2 Hr2 Hs2. rewrite u8_small by done. by apply does_ret.
Qed.

(** ** Addressing one device *)

(** Distinct ROM numbers of 64 bits and scratchpads of nine bytes. *)
Definition devices_ok b : Prop :=
  NoDup (roms b) /\ bus_ok b /\
  Forall (fun d => length (d_pad d) = 9%nat /\ Forall byteP (d_pad d) /\
                   length (d_conv d) = 9%nat /\ Forall byteP (d_conv d)) (devices b).

Lemma rom_range b d : devices_ok b -> d ∈ devices b -> 0 <= d_rom d < ONEWIRE_NONE.
Proof.
  intros (_ & [_ Hf] & _) Hd. eapply Forall_forall in Hf; [apply Hf|]. apply list_elem_of_fmap. by exists d.
Qed.

Lemma select_one b d : d ∈ devices b -> base.filter (fun r => r = d_rom d) (roms b) <> [].
Proof.
  intros Hd E. assert (H : d_rom d ∈ base.filter (fun r => r = d_rom d) (roms b)).
  { apply list_elem_of_filter. split; [done|]. apply list_elem_of_fmap. by exists d. }
  rewrite E in H. by apply not_elem_of_nil in H.
Qed.

Lemma selected_iff b d d' : d ∈ devices b ->
  is_selected (base.filter (fun r => r = d_rom d) (roms b)) d' = bool_decide (d_rom d' = d_rom d).
Proof.
  intros Hd. unfold is_selected. apply bool_decide_ext. rewrite list_elem_of_filter. split; [by intros [? _]|].
  intros E. split; [done|]. rewrite E. apply list_elem_of_fmap. by exists d.
Qed.

Lemma filter_one (ds : list device) d :
  NoDup (d_rom <$> ds) -> d ∈ ds -> base.filter (fun d' => bool_decide (d_rom d' = d_rom d) = true) ds = [d].
Proof.
  induction ds as [|e ds IH]; intros Hn Hd; [by apply not_elem_of_nil in Hd|].
  rewrite fmap_cons in Hn. apply NoDup_cons in Hn as [Hne Hn]. rewrite filter_cons.
  apply elem_of_cons in Hd as [->|Hd].
  - rewrite decide_True by (by apply bool_decide_eq_true). f_equal.
    enough (H : forall x, x ∉ base.filter (fun d' => bool_decide (d_rom d' = d_rom e) = true) ds).
    { destruct (base.filter _ ds) as [|x l]; [done|]. destruct (H x). left. }
    intros x [Hx Hin]%list_elem_of_filter. apply bool_decide_eq_true in Hx. destruct Hne. rewrite <-Hx.
    apply list_elem_of_fmap. by exists x.
  - rewrite decide_False; [by apply IH|]. intros H%bool_decide_eq_true. destruct Hne. rewrite H. apply list_elem_of_fmap. by exists d.
Qed.

(** The reset and the match command leave the device waiting for a function
    command. *)
Lemma reset_does b p w :
  bus_ready w -> bus_slaves w = set_phase b p -> devices b <> [] ->
  does (onewire_reset pin) w true (set_phase b (PRom 0 0)).
Proof.
  intros Hr Hs Hd. destruct (bus_reset w Hr) as (w' & E & R & S'). rewrite Hs in E, S'. exists w'.
  cbn [present device_bus set_phase devices] in E. destruct (devices b); [done|]. by rewrite E.
Qed.

Lemma select_device b d w :
  devices_ok b -> d ∈ devices b -> bus_ready w -> bus_slaves w = set_phase b (PRom 0 0) ->
  does (address pin (d_rom d)) w true (set_phase b (PFun (base.filter (fun r => r = d_rom d) (roms b)) 0 0)).
Proof.
  intros Hb Hd Hr Hs. pose proof (rom_range b d Hb Hd) as Hrange. unfold address.
  rewrite (proj2 (Z.eqb_neq _ _)) by (unfold DS18B20_ANY; lia). destruct (select_does w (d_rom d) Hr) as (w' & E & R & S').
  exists w'. split; [done|]. split; [done|]. rewrite S', Hs, slots_app. unfold ONEWIRE_SELECT_ROM.
  rewrite slots_match, slots_match_rom by lia. unfold ONEWIRE_NONE in Hrange.
  rewrite Z.mod_small by (change (2 ^ Z.of_nat 64) with (2 ^ 64); lia). by replace (0 + 2 ^ Z.of_nat 0 * d_rom d) with (d_rom d) by lia.
Qed.

Lemma read_command b d w :
  devices_ok b -> d ∈ devices b -> bus_ready w ->
  bus_slaves w = set_phase b (PFun (base.filter (fun r => r = d_rom d) (roms b)) 0 0) ->
  does (onewire_write pin DS18B20_READ_SCRATCHPAD) w true (set_phase b (PSend [pad_bits (d_pad d)])).
Proof.
  intros (Hn & _) Hd Hr Hs. destruct (write_does w DS18B20_READ_SCRATCHPAD Hr) as (w' & E & R & S'). exists w'.
  split; [done|]. split; [done|]. rewrite S', Hs. unfold DS18B20_READ_SCRATCHPAD. rewrite slots_read_pad.
  unfold function_command. cbn [Z.eqb Pos.eqb]. unfold set_phase. f_equal. f_equal.
  rewrite (list_filter_iff _ (fun d' => bool_decide (d_rom d' = d_rom d) = true)), filter_one; [done|done|done|].
  intros d'. by rewrite selected_iff.
Qed.

(** ** Reading and converting *)

(** Is the last byte of a scratchpad its checksum? *)
Definition pad_valid (pad : list Z) : bool := nth 8 pad 0 =? Crc.onewire_crc8 pad 8.

Lemma crc8_take pad : Crc.onewire_crc8 (take 8 pad) 8 = Crc.onewire_crc8 pad 8.
Proof. unfold Crc.onewire_crc8. rewrite !crc8_loop_foldl. by rewrite take_take. Qed.

Lemma pad_ok b d : devices_ok b -> d ∈ devices b -> length (d_pad d) = 9%nat /\ Forall byteP (d_pad d).
Proof. intros (_ & _ & Hp) Hd. eapply Forall_forall in Hp; [|exact Hd]. tauto. Qed.

Lemma drop_8_nine (pad : list Z) : length pad = 9%nat -> drop 8 pad = [nth 8 pad 0].
Proof. do 9 (destruct pad as [|? pad]; [done|]). by destruct pad. Qed.

Lemma devices_nonempty b : devices_ok b -> devices b <> [].
Proof. by intros (_ & [? _] & _). Qed.

Lemma scratchpad_does b d p w :
  devices_ok b -> d ∈ devices b -> bus_ready w -> bus_slaves w = set_phase b p ->
  exists p', does (ds18b20_read_scratchpad pin (d_rom d)) w
    (if pad_valid (d_pad d) then Some (take 8 (d_pad d)) else None) (set_phase b p').
Proof.
  intros Hb Hd Hr Hs. destruct (pad_ok b d Hb Hd) as [Hl Hby]. exists (PSend [pad_bits []]). unfold ds18b20_read_scratchpad.
  eapply does_bind; [by apply (reset_does b p), devices_nonempty|]. intros w1 R1 S1. cbn [negb].
  eapply does_bind; [by apply select_device|]. intros w2 R2 S2.
  eapply does_bind; [by apply (read_command b d)|]. intros w3 R3 S3.
  eapply does_bind; [apply (read_array_does b 8 (d_pad d)); [done|lia|done|done]|]. intros w4 R4 S4.
  rewrite drop_8_nine in S4 by done.
  assert (H8 : byteP (nth 8 (d_pad d) 0)) by (apply (as_mem_byte _ 8 Hby)).
  eapply does_bind; [by apply read_byte_does|]. intros w5 R5 S5. rewrite u8_small by done.
  rewrite crc8_take. unfold pad_valid. by destruct (_ =? _); apply does_ret.
Qed.

(** The temperature a device reports, NaN when its checksum is wrong. *)
Definition reading (rom : Z) (pad : list Z) : spec_float :=
  if pad_valid pad then decode rom (take 8 pad) else NAN.

Lemma temperature_does b d p w :
  devices_ok b -> d ∈ devices b -> bus_ready w -> bus_slaves w = set_phase b p ->
  exists p', does (ds18b20_read_temperature pin (d_rom d)) w (reading (d_rom d) (d_pad d)) (set_phase b p').
Proof.
  intros Hb Hd Hr Hs. destruct (scratchpad_does b d p w Hb Hd Hr Hs) as (p' & Hdo). exists p'.
  unfold ds18b20_read_temperature. eapply does_bind; [exact Hdo|]. intros w' R' S'. unfold reading.
  by destruct (pad_valid (d_pad d)); apply does_ret.
Qed.

(** The bus after the selected devices were told to convert. *)
Definition convert (sel : list Z) (b : bus) : bus := function_command b sel 0x44.

Lemma roms_convert sel b : roms (convert sel b) = roms b.
Proof.
  unfold roms, convert, function_command. cbn [Z.eqb Pos.eqb devices]. rewrite <-list_fmap_compose. apply list_fmap_ext.
  intros i d _. cbn. by destruct (is_selected sel d).
Qed.

Lemma convert_ok sel b : devices_ok b -> devices_ok (convert sel b).
Proof.
  intros (Hn & [Hne Hf] & Hp). split; [by rewrite roms_convert|]. split.
  - split; [|by rewrite roms_convert]. intros E. apply fmap_nil_inv in E. done.
  - apply Forall_fmap. eapply Forall_impl; [exact Hp|]. intros d (? & ? & ? & ?). unfold compose.
    by destruct (is_selected sel d).
Qed.

(** Time passes on the bus. *)
Lemma elapsed_rom us d : d_rom (elapsed us d) = d_rom d.
Proof. unfold elapsed. destruct (d_left d); [|done]. by case_if. Qed.

Lemma roms_elapse us b : roms (elapse us b) = roms b.
Proof.
  unfold roms. cbn [elapse device_bus devices]. rewrite <-list_fmap_compose. apply list_fmap_ext.
  intros i d _. apply elapsed_rom.
Qed.

Lemma elapse_ok us b : devices_ok b -> devices_ok (elapse us b).
Proof.
  intros (Hn & [Hne Hf] & Hp). split; [by rewrite roms_elapse|]. split.
  - split; [|by rewrite roms_elapse]. intros E. apply fmap_nil_inv in E. done.
  - apply Forall_fmap. eapply Forall_impl; [exact Hp|]. intros d (? & ? & ? & ?). unfold compose, elapsed.
    destruct (d_left d); [|done]. by case_if.
Qed.

(** A device that was told to convert, after a time [us] that is enough. *)
Lemma elapsed_started us d : d_time d <= us -> d_rom (elapsed us (started d)) = d_rom d /\ d_pad (elapsed us (started d)) = d_conv d.
Proof. intros H. unfold elapsed. cbn. by rewrite (proj2 (Z.leb_le _ _)) by lia. Qed.

(** The devices after the selected ones were told to convert and [us] have
    passed. *)
Lemma elapse_convert us sel b :
  devices (elapse us (convert sel b)) = (fun d => elapsed us (if is_selected sel d then started d else d)) <$> devices b.
Proof. unfold convert, function_command. cbn [Z.eqb Pos.eqb devices elapse device_bus]. by rewrite <-list_fmap_compose. Qed.

Lemma convert_command b sel w :
  bus_ready w -> bus_slaves w = set_phase b (PFun sel 0 0) ->
  does (onewire_write pin DS18B20_CONVERT_T) w true (convert sel b).
Proof.
  intros Hr Hs. destruct (write_does w DS18B20_CONVERT_T Hr) as (w' & E & R & S'). exists w'.
  by rewrite S', Hs.
Qed.

Lemma modify_does (g : W -> W) w s : bus_ready (g w) /\ bus_slaves (g w) = s -> does (modify g) w tt s.
Proof. intros [? ?]. by exists (g w). Qed.

Lemma measure_does b addr sel p w (wt : bool) :
  devices b <> [] -> bus_ready w -> bus_slaves w = set_phase b p ->
  (forall w', bus_ready w' -> bus_slaves w' = set_phase b (PRom 0 0) ->
     does (address pin addr) w' true (set_phase b (PFun sel 0 0))) ->
  exists us, delay_at_least 75 <= us <= 750000 /\
    does (ds18b20_measure pin addr wt) w true (if wt then elapse us (convert sel b) else convert sel b).
Proof.
  intros Hb Hr Hs Haddr. unfold ds18b20_measure.
  eapply does_bind_ex; [by apply (reset_does b p)|]. intros w1 R1 S1. cbn [negb].
  eapply does_bind_ex; [by apply Haddr|]. intros w2 R2 S2.
  destruct (bus_enter w2 R2) as [Hr3 Hs3].
  eapply does_bind_ex; [by apply modify_does|]. intros w3 R3 S3.
  eapply does_bind_ex; [apply (convert_command b sel); [done|congruence]|]. intros w4 R4 S4.
  eapply does_bind_ex; [apply (bus_power w4 R4)|]. intros w5 R5 S5.
  destruct (bus_exit w5 R5) as [Hr6 Hs6].
  eapply does_bind_ex; [by apply modify_does|]. intros w6 R6 S6.
  assert (Hw6 : bus_slaves w6 = convert sel b) by congruence.
  destruct (bus_delay w6 (os_sleep_ms_ticks 750) R6) as (us & Hus & Hr7 & Hs7); [by vm_compute|].
  exists us. split; [exact Hus|]. eapply does_bind; [|intros; by apply does_ret]. destruct wt; [|by apply does_ret].
  eapply does_bind; [by apply modify_does|]. intros w7 R7 S7. destruct (bus_depower w7 R7) as (w8 & E & ? & ?).
  exists w8. split; [done|]. split; [done|]. congruence.
Qed.

Lemma measure_and_read_does b d p w :
  devices_ok b -> d ∈ devices b -> bus_ready w -> bus_slaves w = set_phase b p ->
  let sel := base.filter (fun r => r = d_rom d) (roms b) in
  exists us pad p', delay_at_least 75 <= us <= 750000 /\ (d_time d <= us -> pad = d_conv d) /\ (us < d_time d -> pad = d_pad d) /\
    does (ds18b20_measure_and_read pin (d_rom d)) w (reading (d_rom d) pad) (set_phase (elapse us (convert sel b)) p').
Proof.
  intros Hb Hd Hr Hs sel.
  destruct (measure_does b (d_rom d) sel p w true) as (us & Hus & w1 & E1 & R1 & S1);
    [by apply devices_nonempty|done|done|intros w' R' S'; by apply select_device|].
  set (b' := elapse us (convert sel b)) in *. assert (Hb' : devices_ok b') by (by apply elapse_ok, convert_ok).
  set (d' := elapsed us (started d)). assert (Hd' : d' ∈ devices b').
  { unfold b'. rewrite elapse_convert. apply list_elem_of_fmap. exists d. split; [|done]. unfold sel. rewrite selected_iff by done.
    by rewrite bool_decide_true. }
  destruct (temperature_does b' d' PIdle w1 Hb' Hd' R1 S1) as (p' & w2 & E2 & R2 & S2).
  replace (d_rom d') with (d_rom d) in E2 by (unfold d'; by rewrite elapsed_rom).
  exists us, (d_pad d'), p'. split; [done|]. split; [intros; by apply elapsed_started|]. split.
  - intros Hlt. unfold d', elapsed. cbn. by rewrite (proj2 (Z.leb_gt _ _)) by lia.
  - exists w2. split; [|done]. unfold ds18b20_measure_and_read. by run E1.
Qed.

(** ** A single device, addressed as any *)

Lemma skip_does b w :
  bus_ready w -> bus_slaves w = set_phase b (PRom 0 0) ->
  does (onewire_skip_rom pin) w true (set_phase b (PFun (roms b) 0 0)).
Proof.
  intros Hr Hs. destruct (write_does w ONEWIRE_SKIP_ROM Hr) as (w' & E & R & S'). exists w'.
  split; [done|]. split; [done|]. by rewrite S', Hs.
Qed.

Lemma roms_single b d : devices b = [d] -> roms b = base.filter (fun r => r = d_rom d) (roms b).
Proof. intros E. unfold roms. rewrite E. cbn. by rewrite decide_True. Qed.

Lemma read_single_does b d p w :
  devices_ok b -> devices b = [d] -> bus_ready w -> bus_slaves w = set_phase b p ->
  pad_valid (d_conv d) = true -> d_time d <= delay_at_least 75 ->
  exists us, True /\ does (ds18b20_read_single pin) w
    (unsigned_degrees (Z.lor (Z.shiftl (nth 1 (d_conv d) 0) 8) (nth 0 (d_conv d) 0)))
    (set_phase (elapse us (convert (roms b) b)) (PSend [pad_bits (drop 9 (d_conv d))])).
Proof.
  intros Hb Hone Hr Hs Hv Ht. pose proof (devices_nonempty b Hb) as Hne. unfold ds18b20_read_single.
  eapply does_bind_ex; [by apply (reset_does b p)|]. intros w1 R1 S1.
  eapply does_bind_ex; [by apply skip_does|]. intros w2 R2 S2.
  eapply does_bind_ex; [by apply convert_command|]. intros w3 R3 S3.
  eapply does_bind_ex; [apply (bus_power w3 R3)|]. intros w4 R4 S4. rewrite S3 in S4.
  destruct (bus_delay w4 (750 / portTICK_PERIOD_MS) R4) as (us & [Hus _] & Hr5 & Hs5); [by vm_compute|].
  exists us. split; [done|]. set (b1 := elapse us (convert (roms b) b)). set (d1 := elapsed us (started d)).
  assert (Hb1 : devices_ok b1) by (by apply elapse_ok, convert_ok).
  assert (Hone1 : devices b1 = [d1]).
  { unfold b1. rewrite elapse_convert, Hone. cbn. unfold is_selected. rewrite bool_decide_true; [done|]. unfold roms. rewrite Hone. left. }
  destruct (elapsed_started us d) as [_ Hpad]; [change (750 / portTICK_PERIOD_MS) with 75 in Hus; lia|]. fold d1 in Hpad.
  destruct (pad_ok b1 d1 Hb1) as [Hl Hby]; [rewrite Hone1; left|]. rewrite Hpad in Hl, Hby.
  eapply does_bind; [by apply modify_does|]. intros w5 R5 S5. rewrite S4 in S5. fold b1 in S5.
  eapply does_bind; [apply (reset_does b1 PIdle); [done|exact S5|by rewrite Hone1]|]. intros w6 R6 S6.
  eapply does_bind; [by apply skip_does|]. intros w7 R7 S7. rewrite (roms_single b1 _ Hone1) in S7.
  eapply does_bind; [apply (read_command b1 d1); [done|rewrite Hone1; left|done|done]|]. intros w8 R8 S8. rewrite Hpad in S8.
  eapply does_bind; [apply (read_array_does b1 9 (d_conv d)); [done|lia|done|done]|]. intros w9 R9 S9.
  rewrite (take_ge (d_conv d) 9) by lia. unfold pad_valid in Hv. rewrite Z.eqb_sym in Hv. rewrite Hv. by apply does_ret.
Qed.

(** ** Scanning *)

Definition is_thermometer (r : Z) : bool := (u8 r =? DS18B20_FAMILY_ID) || (u8 r =? DS18S20_FAMILY_ID).

Lemma scan_loop_all fuel : forall s w l w' acc cnt found,
  search_all (pin := pin) fuel s w = Done (l, w') ->
  let found_list := base.filter (fun r => is_thermometer r = true) l in
  scan_loop pin fuel s acc cnt found w =
    Done ((found + Z.of_nat (length found_list), acc ++ take (Z.to_nat (cnt - found)) found_list), w').
Proof.
  induction fuel as [|fuel IH]; intros s w l w' acc cnt found E; [done|]. rewrite search_all_S in E.
  cbn [scan_loop]. apply bind_inv in E as ([addr s'] & w1 & E1 & E2). run E1.
  destruct (addr =? ONEWIRE_NONE) eqn:En.
  - injection E2 as <- <-. unfold ret. cbn. rewrite take_nil, app_nil_r. do 3 f_equal. lia.
  - apply bind_inv in E2 as (l' & w2 & E2 & E3). injection E3 as <- <-. cbn zeta. rewrite filter_cons.
    fold (is_thermometer addr). destruct (is_thermometer addr) eqn:Et.
    + rewrite decide_True by done. rewrite (IH s' w1 l' w2) by done. cbn [length]. do 2 f_equal. f_equal; [lia|].
      case_if; zbool.
      * replace (Z.to_nat (cnt - found)) with (S (Z.to_nat (cnt - (found + 1)))) by lia. rewrite <-app_assoc. done.
      * replace (Z.to_nat (cnt - found)) with 0%nat by lia. by replace (Z.to_nat (cnt - (found + 1))) with 0%nat by lia.
    + rewrite decide_False by done. by rewrite (IH s' w1 l' w2).
Qed.

End Answers.
