(* ===== verification/OneWireContract.v ===== *)
(** * What the 1-Wire and thermometer functions promise

    The properties of [extras/onewire/onewire.c] and
    [extras/ds18b20/ds18b20.c] that their users rely on, for every bus of
    devices behind the timed line, with concrete runs. *)

From Stdlib Require Import SpecFloat.
From S2P Require Import Prelude Floats OneWire OneWireLine OneWireBus OneWireSearch OneWireCrc Ds18b20 Ds18b20Proofs.
Open Scope Z_scope.

Import Onewire Devices Timed.

(** ** The line *)

Section LineTiming.
Context {S : Type} `{HS : !Slaves S} `{HT : Timed.Timing} {HTL : Timed.TimingLaws}.

(** C37. On an idle line with devices that keep the 1-Wire timing limits, a
    reset reports whether a device is present and resets the devices; a bit
    written is the bit the devices sample; a bit read is the bit they send;
    and each leaves the line idle and the critical section as it was. *)
Theorem onewire_bit_timing pin (l : Timed.line (S := S)) v :
  Timed.idle l ->
  (exists l', onewire_reset pin l = Done (present (Timed.slaves l), l') /\ Timed.idle l' /\
     Timed.slaves l' = on_reset (Timed.slaves l) /\ Timed.critical l' = Timed.critical l) /\
  (exists l', _onewire_write_bit pin v l = Done (true, l') /\ Timed.idle l' /\
     Timed.slaves l' = on_slot v (Timed.slaves l) /\ Timed.critical l' = Timed.critical l) /\
  (exists l', _onewire_read_bit pin l = Done (Z.b2z (out_bit (Timed.slaves l)), l') /\ Timed.idle l' /\
     Timed.slaves l' = on_slot true (Timed.slaves l) /\ Timed.critical l' = Timed.critical l).
Proof.
  intros Hi. split; [by apply Timed.reset_idle|]. split; [by apply Timed.write_bit_idle|by apply Timed.read_bit_idle].
Qed.
End LineTiming.

(** ** The bus *)

Section Bus.
Context {W : Type} `{HL : !Line W} {pin : Z} `{HB : !BitBus W bus pin}.

(** C9. Calling [onewire_search_next] from a fresh search state until it
    returns [ONEWIRE_NONE] gives the ROM number of every device on the bus,
    each exactly once; one call more than there are devices is enough. *)
Theorem onewire_search_enumerates w :
  let b := bus_slaves w in
  bus_ready w -> bus_ok b -> NoDup (roms b) ->
  exists addrs w',
    search_all (pin := pin) (S (length (roms b))) onewire_search_start w = Done (addrs, w') /\
    addrs ≡ₚ roms b /\ bus_ready w' /\ devices (bus_slaves w') = devices b.
Proof.
  intros b Hr Hb Hn. assert (Hs : bus_slaves w = set_phase b (b_phase b)) by (unfold b; by destruct (bus_slaves w)).
  destruct (search_all_does b w (b_phase b) Hb Hr Hs) as (p' & w' & E & R' & S').
  pose proof (enum_numbers b Hb Hn) as Hp. exists (bits_val <$> enum 64 (rom_bits <$> roms b)), w'.
  assert (Hlen : length (enum 64 (rom_bits <$> roms b)) = length (roms b)).
  { apply Permutation_length in Hp. by rewrite length_fmap in Hp. }
  rewrite Hlen in E. split; [done|]. split; [done|]. split; [done|]. by rewrite S'.
Qed.

(** [ds18b20_scan_devices] returns how many thermometers (family codes
    0x28 and 0x10) are on the bus and stores the addresses of
    [addr_count] of them, or of all when there are fewer. *)
Theorem ds18b20_scan_devices_finds w addr_count :
  let b := bus_slaves w in
  bus_ready w -> bus_ok b -> NoDup (roms b) -> 0 <= addr_count ->
  exists all w',
    ds18b20_scan_devices pin (S (length (roms b))) addr_count w =
      Done ((Z.of_nat (length all), take (Z.to_nat addr_count) all), w') /\
    all ≡ₚ base.filter (fun r => is_thermometer r = true) (roms b).
Proof.
  intros b Hr Hb Hn Hc. assert (Hs : bus_slaves w = set_phase b (b_phase b)) by (unfold b; by destruct (bus_slaves w)).
  destruct (search_all_does b w (b_phase b) Hb Hr Hs) as (p' & w' & E & R' & S').
  pose proof (enum_numbers b Hb Hn) as Hp. set (l := bits_val <$> enum 64 (rom_bits <$> roms b)) in *.
  assert (Hlen : length (enum 64 (rom_bits <$> roms b)) = length (roms b)).
  { apply Permutation_length in Hp. unfold l in Hp. by rewrite length_fmap in Hp. }
  rewrite Hlen in E. exists (base.filter (fun r => is_thermometer r = true) l), w'. split.
  - unfold ds18b20_scan_devices. rewrite (scan_loop_all _ _ _ _ _ _ _ _ E). by rewrite Z.sub_0_r.
  - by rewrite Hp.
Qed.

(** C38. [ds18b20_measure_and_read] of a device on the bus makes that device
    convert and returns its new temperature, as a [float] that is exact: for
    a DS18B20 (family 0x28) the signed register divided by 16, for any other
    family what the code makes of a DS18S20; NaN when the checksum of the
    scratchpad read is wrong.  The conversion takes at most the time for which
    the code waits for certain, 740 ms: a sleep of 75 ticks ends up to a tick
    early.  The other devices are not told to convert; time passes for them. *)
Theorem ds18b20_measure_and_read_returns w d :
  let b := bus_slaves w in
  bus_ready w -> devices_ok b -> d ∈ devices b -> d_time d <= delay_at_least 75 ->
  exists us f w',
    ds18b20_measure_and_read pin (d_rom d) w = Done (f, w') /\
    (if pad_valid (d_conv d) then denotes f (sixteenths (d_rom d) (d_conv d)) (-4) else f = NAN) /\
    bus_ready w' /\ delay_at_least 75 <= us <= 750000 /\
    devices (bus_slaves w') =
      (fun d' => elapsed us (if bool_decide (d_rom d' = d_rom d) then started d' else d')) <$> devices b.
Proof.
  intros b Hr Hb Hd Ht. assert (Hs : bus_slaves w = set_phase b (b_phase b)) by (unfold b; by destruct (bus_slaves w)).
  destruct (measure_and_read_does b d (b_phase b) w Hb Hd Hr Hs) as (us & pad & p' & Hus & Hpad & _ & w' & E & R' & S').
  rewrite Hpad in E by lia. exists us, (reading (d_rom d) (d_conv d)), w'. split; [done|].
  assert (Hp : length (d_conv d) = 9%nat /\ Forall byteP (d_conv d))
    by (destruct Hb as (_ & _ & Hp); eapply Forall_forall in Hp; [|exact Hd]; tauto).
  split; [|split; [done|split; [done|]]].
  - unfold reading. destruct (pad_valid (d_conv d)); [|done]. rewrite <-sixteenths_take by tauto.
    apply decode_exact; [apply Forall_take; tauto|rewrite length_take; lia].
  - rewrite S'. cbn [set_phase devices]. rewrite elapse_convert. apply list_fmap_ext. intros i d' _. by rewrite selected_iff.
Qed.

(** [ds18b20_read_single] keeps the register in an unsigned variable:
    with one device on the bus it returns the register value as an unsigned
    number, so that a temperature below zero comes out 4096 degrees too
    high. *)
Theorem ds18b20_read_single_unsigned w d t :
  let b := bus_slaves w in
  bus_ready w -> devices_ok b -> devices b = [d] -> pad_valid (d_conv d) = true -> d_time d <= delay_at_least 75 ->
  s16 (le_val (take 2 (d_conv d))) = t -> t < 0 ->
  exists f w', ds18b20_read_single pin w = Done (f, w') /\ denotes f (t + 16 * 4096) (-4).
Proof.
  intros b Hr Hb Hone Hv Hd Ht Hneg. assert (Hs : bus_slaves w = set_phase b (b_phase b)) by (unfold b; by destruct (bus_slaves w)).
  destruct (read_single_does b d (b_phase b) w Hb Hone Hr Hs Hv Hd) as (us & _ & w' & E & _).
  destruct Hb as (_ & _ & Hp). rewrite Hone in Hp. inversion Hp as [|? ? (_ & _ & Hl & Hby) _]; subst.
  destruct (register_bytes (d_conv d) Hby ltac:(lia)) as [Er Hrange]. rewrite Er in E.
  eexists _, w'. split; [exact E|]. replace (_ + _) with (le_val (take 2 (d_conv d))); [by apply unsigned_degrees_exact|].
  unfold s16 in *. divlia.
Qed.

End Bus.

(** ** Concrete runs *)

Module Bench.

#[export] Instance timing : Timed.Timing := { t_hold := 30; t_pdelay := 30; t_plen := 120 }.
#[export] Instance timing_laws : Timed.TimingLaws.
Proof. split; cbn; lia. Qed.

(** A scratchpad with the register [t] and its checksum. *)
Definition pad (lo hi : Z) : list Z :=
  let p := [lo; hi; 0x4b; 0x46; 0x7f; 0xff; 0x0c; 0x10] in p ++ [Crc.onewire_crc8 p 8].

(** A sensor whose scratchpad has 85 degrees and whose conversion takes [time]. *)
Definition sensor_of (time rom lo hi : Z) : device :=
  {| d_rom := rom; d_pad := pad 0x50 0x05; d_conv := pad lo hi; d_time := time; d_left := None |}.
Definition sensor : Z -> Z -> Z -> device := sensor_of 700000.

Definition bench_at (now : Z) (ds : list device) : Timed.line (S := bus) := {|
  Timed.now := now; Timed.low_since := None; Timed.pull_from := 0; Timed.pull_until := 0;
  Timed.slaves := {| devices := ds; b_phase := PIdle |}; Timed.critical := 0; Timed.push_pull := false |}.
Definition bench : list device -> Timed.line (S := bus) := bench_at 0.

(** A DS18B20 at 25.0625 degrees, a DS18S20 and a switch. *)
Definition three : list device :=
  [sensor 0x6f00000123456728 0x91 0x01; sensor 0x1200000000765410 0x32 0x00; sensor 0x7700000000765405 0 0].

End Bench.

Import Bench.

Lemma onewire_bit_timing_witness :
  exists l', _onewire_read_bit 4 (bench three) = Done (1, l') /\ Timed.idle l'.
Proof.
  destruct (onewire_bit_timing 4 (bench three) true) as (_ & _ & l' & H1 & H2 & _); [split; cbn; [reflexivity|lia]|].
  exists l'. split; [exact H1|exact H2].
Defined.

Lemma onewire_search_enumerates_witness :
  exists addrs w', search_all (pin := 4) 4 onewire_search_start (bench three) = Done (addrs, w') /\
    addrs ≡ₚ [0x6f00000123456728; 0x1200000000765410; 0x7700000000765405].
Proof.
  destruct (onewire_search_enumerates (pin := 4) (bench three)) as (addrs & w' & H1 & H2 & _).
  - split; cbn; [reflexivity|lia].
  - split; [discriminate|]. repeat (constructor; [split; vm_compute; [split; congruence|congruence]|]). constructor.
  - refine (bool_decide_unpack _ _); vm_compute; exact I.
  - exists addrs, w'. split; [exact H1|exact H2].
Defined.

Lemma ds18b20_scan_devices_finds_witness :
  exists all w', ds18b20_scan_devices 4 4 8 (bench three) = Done ((Z.of_nat (length all), take 8 all), w') /\
    all ≡ₚ [0x6f00000123456728; 0x1200000000765410].
Proof.
  destruct (ds18b20_scan_devices_finds (pin := 4) (bench three) 8) as (all & w' & H1 & H2).
  - split; cbn; [reflexivity|lia].
  - split; [discriminate|]. repeat (constructor; [split; vm_compute; [split; congruence|congruence]|]). constructor.
  - refine (bool_decide_unpack _ _); vm_compute; exact I.
  - lia.
  - exists all, w'. split; [exact H1|exact H2].
Defined.

Ltac bench_ok :=
  split; [refine (bool_decide_unpack _ _); vm_compute; exact I|]; split;
  [split; [discriminate|]; repeat (constructor; [split; vm_compute; [split; congruence|congruence]|]); constructor|];
  repeat (constructor; [split; [reflexivity|]; split; [|split; [reflexivity|]];
    repeat (constructor; [vm_compute; split; congruence|]); constructor|]); constructor.

Lemma devices_ok_three : devices_ok {| devices := three; b_phase := PIdle |}.
Proof. bench_ok. Qed.

Lemma devices_ok_cold : devices_ok {| devices := [sensor 0x6f00000123456728 0xff 0xff]; b_phase := PIdle |}.
Proof. bench_ok. Qed.

(** 25.0625 degrees are 401 sixteenths. *)
Lemma ds18b20_measure_and_read_returns_witness :
  exists f w', ds18b20_measure_and_read 4 0x6f00000123456728 (bench three) = Done (f, w') /\ denotes f 401 (-4).
Proof.
  destruct (ds18b20_measure_and_read_returns (pin := 4) (bench three) (sensor 0x6f00000123456728 0x91 0x01))
    as (us & f & w' & H1 & H2 & _).
  - split; cbn; [reflexivity|lia].
  - apply devices_ok_three.
  - left.
  - vm_compute. discriminate.
  - exists f, w'. split; [exact H1|exact H2].
Defined.

(** A single sensor at -0.0625 degrees reads as 4095.9375. *)
Lemma ds18b20_read_single_unsigned_witness :
  exists f w', ds18b20_read_single 4 (bench [sensor 0x6f00000123456728 0xff 0xff]) = Done (f, w') /\ denotes f 65535 (-4).
Proof.
  destruct (ds18b20_read_single_unsigned (pin := 4) (bench [sensor 0x6f00000123456728 0xff 0xff])
    (sensor 0x6f00000123456728 0xff 0xff) (-1)) as (f & w' & H1 & H2).
  - split; cbn; [reflexivity|lia].
  - apply devices_ok_cold.
  - reflexivity.
  - vm_compute. reflexivity.
  - vm_compute. discriminate.
  - vm_compute. reflexivity.
  - lia.
  - exists f, w'. split; [exact H1|exact H2].
Defined.

(** The 75 ticks for which [ds18b20_measure] waits may be over after 740 ms: a
    sensor that needs the 750 ms its data sheet allows for a conversion is read
    before it is done (746 ms after the command, addressing it included), and
    the function returns the temperature of the conversion before. *)
Theorem ds18b20_measure_waits_short :
  exists w', ds18b20_measure_and_read 4 0x6f00000123456728 (bench_at 4000 [sensor_of 750000 0x6f00000123456728 0x91 0x01]) =
    Done (float_of_Z 85, w').
Proof. eexists. vm_compute. reflexivity. Qed.
