(* ===== verification/EtsTimer.v ===== *)
(** * The software timers: [open_esplibs/libmain/ets_timer.c]

    Timers are structures owned by their users, linked through their [next]
    members into one list that is kept in the order in which they fire; the
    FRC2 counter raises an interrupt when it reaches the alarm value, and the
    timer task then runs the callbacks of the timers that are due.  Here the
    structures live in a store indexed by address, [next] is an address, and
    the value of the counter at each of its reads is the parameter [clock]. *)

From stdpp Require Import gmap sorting.
From S2P Require Import Prelude.
Open Scope Z_scope.

Module Ets.

(** [ets_timer_t]; the members [timer_handle] and [repeat] are not used. *)
Record ets_timer_t := {
  next : Z;
  fire_ticks : Z;
  period_ticks : Z;
  callback : Z;
  timer_arg : Z;
}.

Definition ETS_TIMER_NOT_ARMED : Z := 0xffffffff.
Definition ETS_TIMER_LIST_END : Z := 0.

Definition set_next (t : ets_timer_t) (v : Z) : ets_timer_t :=
  {| next := v; fire_ticks := fire_ticks t; period_ticks := period_ticks t; callback := callback t; timer_arg := timer_arg t |}.
Definition set_fire (t : ets_timer_t) (v : Z) : ets_timer_t :=
  {| next := next t; fire_ticks := v; period_ticks := period_ticks t; callback := callback t; timer_arg := timer_arg t |}.
Definition set_period (t : ets_timer_t) (v : Z) : ets_timer_t :=
  {| next := next t; fire_ticks := fire_ticks t; period_ticks := v; callback := callback t; timer_arg := timer_arg t |}.

Section Ets.
(** [A] is the state of the application, which the callbacks change. *)
Context {A : Type}.

(** [mem] holds the timer structures, [alarm], [ctrl], [load_] and
    [int_enable] are the registers written, [critical] is the nesting of
    critical sections, [reads] counts the reads of [TIMER_FRC2.COUNT] and
    [notified] is the pending notification of the timer task. *)
Record state := {
  mem : gmap Z ets_timer_t;
  timer_list : Z;
  alarm : Z;
  ctrl : Z;
  load_ : Z;
  int_enable : Z;
  isr_unmasked : bool;
  task_created : bool;
  notified : bool;
  critical : Z;
  reads : nat;
  app : A;
}.

Definition with_mem (s : state) (m : gmap Z ets_timer_t) : state :=
  {| mem := m; timer_list := timer_list s; alarm := alarm s; ctrl := ctrl s; load_ := load_ s; int_enable := int_enable s;
     isr_unmasked := isr_unmasked s; task_created := task_created s; notified := notified s; critical := critical s;
     reads := reads s; app := app s |}.
Definition with_list (s : state) (p : Z) : state :=
  {| mem := mem s; timer_list := p; alarm := alarm s; ctrl := ctrl s; load_ := load_ s; int_enable := int_enable s;
     isr_unmasked := isr_unmasked s; task_created := task_created s; notified := notified s; critical := critical s;
     reads := reads s; app := app s |}.
Definition with_alarm (s : state) (v : Z) : state :=
  {| mem := mem s; timer_list := timer_list s; alarm := v; ctrl := ctrl s; load_ := load_ s; int_enable := int_enable s;
     isr_unmasked := isr_unmasked s; task_created := task_created s; notified := notified s; critical := critical s;
     reads := reads s; app := app s |}.
Definition with_critical (s : state) (d : Z) : state :=
  {| mem := mem s; timer_list := timer_list s; alarm := alarm s; ctrl := ctrl s; load_ := load_ s; int_enable := int_enable s;
     isr_unmasked := isr_unmasked s; task_created := task_created s; notified := notified s; critical := critical s + d;
     reads := reads s; app := app s |}.
Definition with_read (s : state) : state :=
  {| mem := mem s; timer_list := timer_list s; alarm := alarm s; ctrl := ctrl s; load_ := load_ s; int_enable := int_enable s;
     isr_unmasked := isr_unmasked s; task_created := task_created s; notified := notified s; critical := critical s;
     reads := S (reads s); app := app s |}.
Definition with_notified (s : state) (b : bool) : state :=
  {| mem := mem s; timer_list := timer_list s; alarm := alarm s; ctrl := ctrl s; load_ := load_ s; int_enable := int_enable s;
     isr_unmasked := isr_unmasked s; task_created := task_created s; notified := b; critical := critical s;
     reads := reads s; app := app s |}.
Definition with_app (s : state) (a : A) : state :=
  {| mem := mem s; timer_list := timer_list s; alarm := alarm s; ctrl := ctrl s; load_ := load_ s; int_enable := int_enable s;
     isr_unmasked := isr_unmasked s; task_created := task_created s; notified := notified s; critical := critical s;
     reads := reads s; app := a |}.

(** The counter at the [k]-th read, in ticks since the start. *)
Variable clock : nat -> Z.
(** What a callback does with its argument. *)
Variable call : Z -> Z -> M state unit.

(** Accesses through a pointer: only to timers that exist. *)
Definition load (p : Z) : M state ets_timer_t := fun s =>
  match mem s !! p with
  | Some t => Done (t, s)
  | None => Undefined
  end.
Definition store (p : Z) (t : ets_timer_t) : M state unit := fun s =>
  match mem s !! p with
  | Some _ => Done (tt, with_mem s (<[p := t]> (mem s)))
  | None => Undefined
  end.

(** [TIMER_FRC2.COUNT]. *)
Definition COUNT : M state Z := fun s => Done (u32 (clock (reads s)), with_read s).

Definition vPortEnterCritical : M state unit := modify (fun s => with_critical s 1).
Definition vPortExitCritical : M state unit := modify (fun s => with_critical s (-1)).

(** The difference of two [int32_t] values: signed overflow is undefined. *)
Definition sub32 (a b : Z) : M state Z :=
  if (- 2 ^ 31 <=? a - b) && (a - b <? 2 ^ 31) then ret (a - b) else undefined.

(** [while (1);] *)
Definition halt {B} : M state B := out_of_fuel.

(** The caller's structure becomes a timer that is not armed. *)
Definition sdk_ets_timer_setfn (timer func parg : Z) : M state unit :=
  modify (fun s => with_mem s (<[timer := {| callback := func; timer_arg := parg; fire_ticks := 0; period_ticks := 0;
                                             next := ETS_TIMER_NOT_ARMED |}]> (mem s))).

Definition set_alarm_value (value : Z) : M state unit := modify (fun s => with_alarm s value).

Definition set_alarm (ticks : Z) : M state unit :=
  let! curr_time := COUNT in
  let delta := s32 (ticks - curr_time) in
  let! d40 := sub32 delta 40 in
  if d40 <? 1 then
    if delta <? 1 then set_alarm_value (u32 (curr_time + 40))
    else set_alarm_value (u32 (ticks + 44))
  else set_alarm_value ticks.

(** The search of [add_pending_timer]: the values of [prev] and [curr]. *)
Fixpoint find_later (fuel : nat) (ticks prev curr : Z) : M state (Z * Z) :=
  match fuel with
  | O => out_of_fuel
  | S fuel =>
    if curr =? 0 then ret (prev, curr)
    else
      let! c := load curr in
      let! d := sub32 (s32 ticks) (s32 (fire_ticks c)) in
      if d <? 1 then ret (prev, curr) else find_later fuel ticks curr (next c)
  end.

(** No list is longer than the number of timers. *)
Definition list_fuel (s : state) : nat := S (size (mem s)).

Definition add_pending_timer (ticks timer : Z) : M state unit :=
  let! s := get in
  let! (prev, curr) := find_later (list_fuel s) ticks 0 (timer_list s) in
  let! t := load timer in
  do! store timer (set_fire (set_next t curr) ticks) then
  do! (if negb (prev =? 0) then
         let! p := load prev in
         store prev (set_next p timer)
       else
         do! modify (fun s => with_list s timer) then
         set_alarm ticks) then
  let! t := load timer in
  if timer =? next t then halt else ret tt.

Definition sdk_ets_timer_arm_ms_us (timer value : Z) (repeat_flag value_in_ms : bool) : M state unit :=
  let! t := load timer in
  if negb (next t =? ETS_TIMER_NOT_ARMED) then halt
  else
    let ticks := if value_in_ms then u32 (value * 5000) else u32 (value * 5) in
    do! (if repeat_flag then store timer (set_period t ticks) else ret tt) then
    do! vPortEnterCritical then
    let! count := COUNT in
    do! add_pending_timer (u32 (count + ticks)) timer then
    vPortExitCritical.

Definition sdk_ets_timer_arm (timer milliseconds : Z) (repeat_flag : bool) : M state unit :=
  sdk_ets_timer_arm_ms_us timer milliseconds repeat_flag true.

Definition sdk_ets_timer_arm_us (timer useconds : Z) (repeat_flag : bool) : M state unit :=
  sdk_ets_timer_arm_ms_us timer useconds repeat_flag false.

(** The loop of [sdk_ets_timer_disarm]. *)
Fixpoint unlink (fuel : nat) (timer prev curr : Z) : M state unit :=
  match fuel with
  | O => out_of_fuel
  | S fuel =>
    if curr =? 0 then ret tt
    else
      let! c := load curr in
      if curr =? timer then
        if negb (prev =? 0) then
          let! p := load prev in
          store prev (set_next p (next c))
        else modify (fun s => with_list s (next c))
      else unlink fuel timer curr (next c)
  end.

Definition sdk_ets_timer_disarm (timer : Z) : M state unit :=
  do! vPortEnterCritical then
  let! s := get in
  do! unlink (list_fuel s) timer 0 (timer_list s) then
  let! t := load timer in
  do! store timer (set_period (set_next t ETS_TIMER_NOT_ARMED) 0) then
  vPortExitCritical.

(** A repeating timer that its callback has not armed goes back to the list. *)
Definition rearm (timer : Z) : M state unit :=
  let! t := load timer in
  if next t =? ETS_TIMER_NOT_ARMED then
    if negb (period_ticks t =? 0) then
      let fire := u32 (fire_ticks t + period_ticks t) in
      do! store timer (set_fire t fire) then
      add_pending_timer fire timer
    else ret tt
  else ret tt.

(** The first timer of the list, [timer] with contents [t], is due.  Between
    the two critical sections [call] stands for the callback and whatever
    else runs then. *)
Definition fire_timer (timer : Z) (t : ets_timer_t) : M state unit :=
  do! modify (fun s => with_list s (next t)) then
  do! store timer (set_next t ETS_TIMER_NOT_ARMED) then
  do! vPortExitCritical then
  do! call (callback t) (timer_arg t) then
  do! vPortEnterCritical then
  rearm timer.

(** The loop of [process_pending_timers]; [ticks] is an [int32_t]. *)
Fixpoint process_loop (fuel : nat) (ticks : Z) : M state unit :=
  match fuel with
  | O => out_of_fuel
  | S fuel =>
    let! s := get in
    if timer_list s =? 0 then ret tt
    else
      let timer := timer_list s in
      let! t := load timer in
      let! d := sub32 (s32 (fire_ticks t)) ticks in
      if d <? 1 then
        do! fire_timer timer t then
        let! count := COUNT in
        process_loop fuel (s32 count)
      else set_alarm (fire_ticks t)
  end.

Definition process_pending_timers (fuel : nat) : M state unit :=
  do! vPortEnterCritical then
  let! count := COUNT in
  do! process_loop fuel (s32 count) then
  vPortExitCritical.

(** The interrupt notifies the task; [xTaskNotifyFromISR] with [eNoAction]
    leaves a notification pending. *)
Definition frc2_isr : M state unit := modify (fun s => with_notified s true).

(** One turn of the loop of the task: nothing happens until it is notified. *)
Definition timer_task_turn (fuel : nat) : M state unit :=
  let! s := get in
  if notified s then
    do! modify (fun s => with_notified s false) then
    process_pending_timers fuel
  else ret tt.

Definition TIMER_CTRL_CLKDIV_S : Z := 2.
Definition TIMER_CLKDIV_16 : Z := 1.
Definition TIMER_CTRL_RUN : Z := Z.shiftl 1 7.
Definition DPORT_INT_ENABLE_TIMER1 : Z := Z.shiftl 1 2.

Definition sdk_ets_timer_init : M state unit :=
  modify (fun s =>
    {| mem := mem s; timer_list := 0; alarm := 0;
       ctrl := Z.lor (Z.shiftl TIMER_CLKDIV_16 TIMER_CTRL_CLKDIV_S) TIMER_CTRL_RUN;
       load_ := 0; int_enable := Z.lor (int_enable s) DPORT_INT_ENABLE_TIMER1;
       isr_unmasked := true; task_created := true; notified := notified s; critical := critical s;
       reads := reads s; app := app s |}).

End Ets.
Arguments state : clear implicits.
End Ets.
