(* ===== verification/EtsTimerProofs.v ===== *)
(** * The list of pending timers

    The linked list as an abstract list of addresses: the invariant
    [pending], what adding, removing and firing timers does to it, and the
    run of the timer task over it. *)

From stdpp Require Import gmap sorting fin_maps.
From S2P Require Import Prelude EtsTimer.
Open Scope Z_scope.

Import Ets.

(** ** Segments of the list *)

Definition valid (p : Z) : Prop := 0 < p < ETS_TIMER_NOT_ARMED.

(** Following [next] from [p] visits the timers [l] and leads to [q]. *)
Fixpoint seg (m : gmap Z ets_timer_t) (p : Z) (l : list Z) (q : Z) : Prop :=
  match l with
  | [] => p = q
  | a :: l => p = a /\ valid a /\ exists t, m !! a = Some t /\ seg m (next t) l q
  end.

(** When a timer fires, as the signed value the code compares. *)
Definition fire (m : gmap Z ets_timer_t) (p : Z) : Z :=
  match m !! p with Some t => s32 (fire_ticks t) | None => 0 end.

(** Two [int32_t] values whose difference is one, too. *)
Definition apart (a b : Z) : Prop := - 2 ^ 31 <= a - b < 2 ^ 31.

Lemma seg_app m l1 l2 p q : seg m p (l1 ++ l2) q <-> exists r, seg m p l1 r /\ seg m r l2 q.
Proof.
  revert p. induction l1 as [|a l1 IH]; intros p; cbn.
  - split; [by exists p|intros (r & -> & ?); done].
  - split.
    + intros (-> & Hv & t & Ht & (r & H1 & H2)%IH). eauto 10.
    + intros (r & (-> & Hv & t & Ht & H1) & H2). split; [done|]. split; [done|]. exists t. split; [done|]. apply IH. eauto.
Qed.

Lemma seg_frame m l p q a t : a ∉ l -> seg m p l q -> seg (<[a := t]> m) p l q.
Proof.
  revert p. induction l as [|b l IH]; intros p Ha; cbn; [done|]. intros (-> & Hv & tb & Hb & Hl).
  apply not_elem_of_cons in Ha as [Hne Ha]. split; [done|]. split; [done|]. exists tb.
  rewrite lookup_insert_ne by done. split; [done|]. by apply IH.
Qed.

Lemma seg_head m p l : seg m p l 0 -> p = default 0 (head l).
Proof. destruct l; cbn; [done|by intros [-> _]]. Qed.

Lemma seg_elem m p l q a : seg m p l q -> a ∈ l -> valid a /\ is_Some (m !! a).
Proof.
  revert p. induction l as [|b l IH]; intros p; cbn; [by intros _ ?%not_elem_of_nil|].
  intros (-> & Hv & t & Ht & Hl) [->|Ha]%elem_of_cons; [split; [done|by exists t]|by eapply IH].
Qed.

Lemma fire_insert m p t : fire (<[p := t]> m) p = s32 (fire_ticks t).
Proof. unfold fire. by rewrite lookup_insert_eq. Qed.

Lemma fire_insert_ne m p q t : p <> q -> fire (<[p := t]> m) q = fire m q.
Proof. intros. unfold fire. by rewrite lookup_insert_ne. Qed.

(** A store that leaves the firing time alone. *)
Lemma fire_insert_same m p q t t' :
  m !! p = Some t -> fire_ticks t' = fire_ticks t -> fire (<[p := t']> m) q = fire m q.
Proof.
  intros Hp Ht. destruct (decide (p = q)) as [->|Hne]; [|by apply fire_insert_ne].
  rewrite fire_insert, Ht. unfold fire. by rewrite Hp.
Qed.

Lemma StronglySorted_weaken {X} (R R' : X -> X -> Prop) l :
  StronglySorted R l -> (forall a b, a ∈ l -> b ∈ l -> R a b -> R' a b) -> StronglySorted R' l.
Proof.
  induction 1 as [|a l Hl IH Ha]; intros H; constructor.
  - apply IH. intros. apply H; [by right..|done].
  - apply Forall_forall. intros b Hb. eapply Forall_forall in Ha; [|exact Hb]. apply H; [left|by right|done].
Qed.

(** The segment with [a] linked in between [l1] and [l2]. *)
Lemma seg_splice m p l1 b tb l2 a ta :
  seg m p (l1 ++ b :: l2) 0 -> NoDup (l1 ++ b :: l2) -> a ∉ l1 ++ b :: l2 -> valid a ->
  m !! b = Some tb -> next ta = default 0 (head l2) ->
  seg (<[b := set_next tb a]> (<[a := ta]> m)) p ((l1 ++ [b]) ++ a :: l2) 0.
Proof.
  intros Hs Hn Ha Hv Hb Hta. apply seg_app in Hs as (r & H1 & H2). cbn in H2. destruct H2 as (-> & Hvb & tb' & Hb' & H2).
  rewrite Hb in Hb'. injection Hb' as <-. pose proof (seg_head _ _ _ H2) as Hnext.
  apply NoDup_app in Hn as (_ & Hdis & Hn2). apply NoDup_cons in Hn2 as [Hb2 _].
  apply not_elem_of_app in Ha as [Ha1 Ha2]. apply not_elem_of_cons in Ha2 as [Hab Ha2].
  assert (Hb1 : b ∉ l1) by (intros H; apply (Hdis b H); left).
  apply seg_app. exists a. split.
  - apply seg_app. exists b. split; [by apply seg_frame, seg_frame|]. cbn. split; [done|]. split; [done|].
    exists (set_next tb a). by rewrite lookup_insert_eq.
  - cbn. split; [done|]. split; [done|]. exists ta. rewrite lookup_insert_ne, lookup_insert_eq by done. split; [done|].
    rewrite Hta, <-Hnext. by apply seg_frame, seg_frame.
Qed.

Lemma seg_length m p l : seg m p l 0 -> NoDup l -> (length l <= size m)%nat.
Proof.
  intros Hs Hn. rewrite <-size_dom, <-(size_list_to_set (C := gset Z)) by done.
  apply subseteq_size. intros a Ha%elem_of_list_to_set. apply elem_of_dom. by eapply seg_elem.
Qed.

(** ** The invariant *)

Section Proofs.
Context {A : Type} (clock : nat -> Z).
Abbreviation ST := (state A).
Implicit Types s : ST.

(** The pending timers are [l]: the list visits them in the order in which
    they fire, and they are the timers that are armed. *)
Record pending_in (m : gmap Z ets_timer_t) (p : Z) (l : list Z) : Prop := {
  pn_seg : seg m p l 0;
  pn_nodup : NoDup l;
  pn_sorted : StronglySorted (fun a b => fire m a <= fire m b) l;
  pn_valid a : is_Some (m !! a) -> valid a;
  pn_armed a t : m !! a = Some t -> (next t <> ETS_TIMER_NOT_ARMED <-> a ∈ l);
}.
Definition pending s l : Prop := pending_in (mem s) (timer_list s) l.

Lemma pending_elem s l a : pending s l -> a ∈ l -> valid a /\ is_Some (mem s !! a).
Proof. intros [Hs _ _ _ _]. by apply (seg_elem _ _ _ _ _ Hs). Qed.

Lemma pending_fuel s l : pending s l -> (length l < list_fuel s)%nat.
Proof. intros [Hs Hn _ _ _]. unfold list_fuel. pose proof (seg_length _ _ _ Hs Hn). lia. Qed.

(** Timers that are not in the list can be written freely, as long as they
    stay unarmed. *)
Lemma pending_store_other m p l a t :
  pending_in m p l -> a ∉ l -> valid a -> next t = ETS_TIMER_NOT_ARMED -> pending_in (<[a := t]> m) p l.
Proof.
  intros [Hs Hn Hst Hv Har] Ha Hva Ht. split; [by apply seg_frame|done| | |].
  - apply (StronglySorted_weaken _ _ _ Hst). intros x y Hx Hy ?. by rewrite !fire_insert_ne by (by intros <-).
  - intros b Hb. destruct (decide (a = b)) as [<-|]; [done|]. rewrite lookup_insert_ne in Hb by done. by apply Hv.
  - intros b tb Hb. destruct (decide (a = b)) as [<-|].
    + rewrite lookup_insert_eq in Hb. injection Hb as <-. rewrite Ht. split; [done|]. intros ?. done.
    + rewrite lookup_insert_ne in Hb by done. by apply Har.
Qed.

(** ** Inserting *)

(** [p], which fires at [k], in front of the first timer that does not fire
    earlier. *)
Fixpoint insert_by (f : Z -> Z) (k p : Z) (l : list Z) : list Z :=
  match l with
  | [] => [p]
  | q :: l' => if k <=? f q then p :: l else q :: insert_by f k p l'
  end.

Lemma insert_by_split f k p l1 l2 :
  Forall (fun q => f q < k) l1 -> (forall q, head l2 = Some q -> k <= f q) -> insert_by f k p (l1 ++ l2) = l1 ++ p :: l2.
Proof.
  induction l1 as [|a l1 IH]; intros H1 H2; cbn.
  - destruct l2 as [|q l2]; [done|]. cbn. by rewrite (proj2 (Z.leb_le _ _)) by by apply H2.
  - inversion H1; subst. rewrite (proj2 (Z.leb_gt _ _)) by done. by rewrite IH.
Qed.

Lemma insert_by_perm f k p l : insert_by f k p l ≡ₚ p :: l.
Proof. induction l as [|q l IH]; cbn; [done|]. case_if; [done|]. rewrite IH. apply perm_swap. Qed.

(** The sorted list stays sorted. *)
Lemma insert_by_sorted f k p l :
  f p = k -> StronglySorted (fun a b => f a <= f b) l -> StronglySorted (fun a b => f a <= f b) (insert_by f k p l).
Proof.
  intros Hk. induction 1 as [|q l Hl IH Hq]; cbn; [by repeat constructor|]. case_if; zbool.
  - constructor; [by constructor|]. constructor; [lia|]. eapply Forall_impl; [exact Hq|]. cbn. intros; lia.
  - constructor; [done|]. rewrite insert_by_perm. by constructor; [lia|].
Qed.

Lemma insert_by_ext f g k p l : (forall a, a ∈ l -> f a = g a) -> insert_by f k p l = insert_by g k p l.
Proof.
  induction l as [|q l IH]; intros H; cbn; [done|]. rewrite (H q) by left. rewrite IH; [done|]. intros; apply H. by right.
Qed.

Lemma sub32_Done a b s : apart a b -> sub32 a b s = Done (a - b, s).
Proof.
  intros H. unfold sub32. unfold apart in H. rewrite (proj2 (andb_true_iff _ _)); [done|].
  split; [apply Z.leb_le|apply Z.ltb_lt]; lia.
Qed.

Lemma load_Done s p t : mem s !! p = Some t -> load p s = Done (t, s).
Proof. intros H. unfold load. by rewrite H. Qed.

Lemma store_Done s p t : is_Some (mem s !! p) -> store p t s = Done (tt, with_mem s (<[p := t]> (mem s))).
Proof. intros [t' H]. unfold store. by rewrite H. Qed.

Lemma find_later_ok ticks s : forall l fuel prev p,
  seg (mem s) p l 0 -> (length l < fuel)%nat -> Forall (fun q => apart (s32 ticks) (fire (mem s) q)) l ->
  exists l1 l2, l = l1 ++ l2 /\
    find_later fuel ticks prev p s = Done ((default prev (last l1), default 0 (head l2)), s) /\
    Forall (fun q => fire (mem s) q < s32 ticks) l1 /\ (forall q, head l2 = Some q -> s32 ticks <= fire (mem s) q).
Proof.
  induction l as [|a l IH]; intros fuel prev p Hs Hf Ha; (destruct fuel as [|fuel]; [cbn in Hf; lia|]); cbn [find_later].
  - cbn in Hs. subst p. exists [], []. repeat split; [constructor|done].
  - cbn in Hs. destruct Hs as (-> & Hv & t & Ht & Hs). unfold valid in Hv.
    rewrite (proj2 (Z.eqb_neq a 0)) by lia. run (load_Done s a t Ht).
    inversion Ha as [|? ? Hap Ha']; subst. assert (Hfa : fire (mem s) a = s32 (fire_ticks t)) by (unfold fire; by rewrite Ht).
    rewrite Hfa in Hap. run (sub32_Done _ _ s Hap). destruct (_ <? 1) eqn:E; zbool.
    + exists [], (a :: l). repeat split; [constructor|]. intros q [= <-]. lia.
    + destruct (IH fuel a (next t) Hs) as (l1 & l2 & -> & E1 & H1 & H2); [cbn in Hf; lia|done|].
      exists (a :: l1), l2. split; [done|]. split; [|split; [constructor; [lia|done]|done]].
      rewrite E1. rewrite last_cons. by destruct (last l1).
Qed.

(** ** The alarm *)

(** The value [set_alarm] stores. *)
Definition alarm_value (cur ticks : Z) : Z :=
  let delta := s32 (ticks - cur) in
  if delta <? 1 then u32 (cur + 40) else if delta <? 41 then u32 (ticks + 44) else ticks.

Definition now s : Z := u32 (clock (reads s)).

Lemma set_alarm_Done s ticks :
  - 2 ^ 31 + 40 <= s32 (ticks - now s) ->
  set_alarm clock ticks s = Done (tt, with_alarm (with_read s) (alarm_value (now s) ticks)).
Proof.
  intros H. unfold set_alarm. unfold bind at 1, COUNT. fold (now s). set (delta := s32 (ticks - now s)) in *.
  assert (delta < 2 ^ 31) by (unfold delta, s32; divlia).
  run (sub32_Done delta 40 (with_read s) ltac:(unfold apart; lia)). unfold alarm_value. fold delta.
  destruct (delta - 40 <? 1) eqn:E1, (delta <? 1) eqn:E2, (delta <? 41) eqn:E3; zbool; (done || lia).
Qed.

(** The alarm lies at least 40 ticks in the future, so that the counter does
    not pass it before it is set, and at most 44 ticks behind the later of
    the wanted and the current time. *)
Lemma alarm_future cur ticks :
  s32 (ticks - cur) < 2 ^ 31 - 44 ->
  40 <= s32 (alarm_value cur ticks - cur) /\
  Z.max 0 (s32 (ticks - cur)) <= s32 (alarm_value cur ticks - cur) <= Z.max 0 (s32 (ticks - cur)) + 44.
Proof.
  intros Hd. unfold alarm_value. set (delta := s32 (ticks - cur)) in *.
  assert (Hlow : - 2 ^ 31 <= delta) by (unfold delta, s32; divlia).
  destruct (delta <? 1) eqn:E1; [|destruct (delta <? 41) eqn:E2]; zbool.
  - assert (E : s32 (u32 (cur + 40) - cur) = 40) by (rewrite s32_u32_sub; replace (cur + 40 - cur) with 40 by lia; done). lia.
  - assert (E : s32 (u32 (ticks + 44) - cur) = delta + 44)
      by (rewrite s32_u32_sub; replace (ticks + 44 - cur) with (ticks - cur + 44) by lia; apply s32_add; fold delta; lia). lia.
  - fold delta. lia.
Qed.

(** ** Adding a timer *)

Lemma seg_armed m p l a t : seg m p l 0 -> a ∈ l -> m !! a = Some t -> next t <> ETS_TIMER_NOT_ARMED.
Proof.
  revert p. induction l as [|b l IH]; intros p; cbn; [by intros _ ?%not_elem_of_nil|].
  intros (-> & Hv & tb & Htb & Hl) [->|Ha]%elem_of_cons Ht; [|by eapply IH].
  rewrite Ht in Htb. injection Htb as <-. destruct l as [|c l]; cbn in Hl.
  - rewrite Hl. done.
  - destruct Hl as (-> & Hc & _). unfold valid in Hc. lia.
Qed.

Lemma pending_intro m p l :
  seg m p l 0 -> NoDup l -> StronglySorted (fun a b => fire m a <= fire m b) l ->
  (forall a, is_Some (m !! a) -> valid a) ->
  (forall a t, a ∉ l -> m !! a = Some t -> next t = ETS_TIMER_NOT_ARMED) -> pending_in m p l.
Proof.
  intros Hs Hn Hst Hv Hu. split; try done. intros a t Ha. split.
  - intros Hne. destruct (decide (a ∈ l)) as [|Hout]; [done|]. by destruct Hne; apply (Hu a t).
  - intros Hin. by apply (seg_armed m p l a t).
Qed.

(** What a timer holds besides its link. *)
Definition data (t : ets_timer_t) : Z * Z * Z * Z := (fire_ticks t, period_ticks t, callback t, timer_arg t).

Lemma data_fire (m m' : gmap Z ets_timer_t) p : data <$> m !! p = data <$> m' !! p -> fire m p = fire m' p.
Proof. unfold fire. destruct (m !! p), (m' !! p); cbn; unfold data; intros [=]; congruence. Qed.

Lemma data_lookup (m m' : gmap Z ets_timer_t) p : data <$> m = data <$> m' -> data <$> m !! p = data <$> m' !! p.
Proof. intros H. rewrite <-!lookup_fmap. by rewrite H. Qed.

Lemma data_dom (m m' : gmap Z ets_timer_t) p : data <$> m = data <$> m' -> is_Some (m !! p) -> is_Some (m' !! p).
Proof. intros Hd%(data_lookup _ _ p) H. apply (fmap_is_Some data). rewrite <-Hd. by apply fmap_is_Some. Qed.

(** What the functions on the list leave alone. *)
Definition same_rest s s' : Prop :=
  critical s' = critical s /\ app s' = app s /\ notified s' = notified s /\ ctrl s' = ctrl s /\ load_ s' = load_ s /\
  int_enable s' = int_enable s /\ isr_unmasked s' = isr_unmasked s /\ task_created s' = task_created s.

(** Linking [timer] in keeps the list in order. *)
Lemma pending_linked m m' p l timer t ticks p' l1 l2 :
  pending_in m p l -> l = l1 ++ l2 -> timer ∉ l -> m !! timer = Some t ->
  Forall (fun q => fire m q < s32 ticks) l1 -> (forall q, head l2 = Some q -> s32 ticks <= fire m q) ->
  seg m' p' (l1 ++ timer :: l2) 0 -> data <$> m' = data <$> <[timer := set_fire t ticks]> m ->
  (forall a, a ∉ timer :: l -> m' !! a = m !! a) ->
  pending_in m' p' (insert_by (fire m) (s32 ticks) timer l).
Proof.
  intros [Hs Hn Hst Hv Har] -> Ht Hm H1 H2 Hs' Hd Hout.
  assert (Hfire : forall a, fire m' a = fire (<[timer := set_fire t ticks]> m) a).
  { intros a. by apply data_fire, data_lookup. }
  assert (Hself : fire m' timer = s32 ticks) by (rewrite Hfire; apply fire_insert).
  assert (Hother : forall a, a ∈ l1 ++ l2 -> fire m a = fire m' a).
  { intros a Ha. rewrite Hfire, fire_insert_ne; [done|]. by intros <-. }
  pose proof (insert_by_perm (fire m) (s32 ticks) timer (l1 ++ l2)) as Hp.
  apply pending_intro.
  - by rewrite insert_by_split.
  - rewrite Hp. by constructor.
  - rewrite (insert_by_ext _ (fire m')) by done. apply insert_by_sorted; [done|].
    apply (StronglySorted_weaken _ _ _ Hst). intros a b Ha Hb. by rewrite !Hother.
  - intros a Ha. destruct (decide (a ∈ timer :: l1 ++ l2)) as [Hin|Hin].
    + rewrite <-Hp, insert_by_split in Hin by done. by apply (seg_elem _ _ _ _ _ Hs').
    + rewrite Hout in Ha by done. by apply Hv.
  - intros a ta Ha Hta. rewrite Hp in Ha. rewrite Hout in Hta by done. apply not_elem_of_cons in Ha as [_ Ha].
    destruct (decide (next ta = ETS_TIMER_NOT_ARMED)) as [|Hne]; [done|]. by apply (Har a ta Hta) in Hne.
Qed.

(** What adding gives. *)
Definition added s (l : list Z) (timer : Z) (t : ets_timer_t) (ticks : Z) s' : Prop :=
  let l' := insert_by (fire (mem s)) (s32 ticks) timer l in
  pending s' l' /\ data <$> mem s' = data <$> <[timer := set_fire t ticks]> (mem s) /\ same_rest s s' /\
  (reads s <= reads s' <= S (reads s))%nat /\ (head l' = Some timer -> alarm s' = alarm_value (now s) ticks).

(** The place found and the timer stored, the links are set: behind [b] ... *)
Lemma link_behind s l timer t ticks l1 b l2 :
  pending s l -> mem s !! timer = Some t -> timer ∉ l -> l = (l1 ++ [b]) ++ l2 ->
  Forall (fun q => fire (mem s) q < s32 ticks) (l1 ++ [b]) -> (forall q, head l2 = Some q -> s32 ticks <= fire (mem s) q) ->
  let t1 := set_fire (set_next t (default 0 (head l2))) ticks in
  exists s2, (let! p := load b in store b (set_next p timer)) (with_mem s (<[timer := t1]> (mem s))) = Done (tt, s2) /\
    mem s2 !! timer = Some t1 /\ added s l timer t ticks s2.
Proof.
  intros Hp Ht Hni El H1 H2 t1. pose proof Hp as [Hs Hn _ Hv _].
  assert (Hvt : valid timer) by (apply Hv; by exists t). assert (Hb : b ∈ l) by (rewrite El; set_solver).
  destruct (pending_elem s l b Hp Hb) as [Hvb [tb Htb]]. assert (Hbt : timer <> b) by (by intros ->).
  set (s1 := with_mem s _). assert (Htb1 : mem s1 !! b = Some tb) by (unfold s1; cbn; by rewrite lookup_insert_ne).
  run (load_Done s1 b tb Htb1). rewrite store_Done by (by exists tb). set (s2 := with_mem s1 _). exists s2. split; [done|].
  split; [unfold s2, s1; cbn; by rewrite lookup_insert_ne, lookup_insert_eq|].
  assert (Hdata : data <$> mem s2 = data <$> <[timer := set_fire t ticks]> (mem s)).
  { transitivity (data <$> <[timer := t1]> (mem s)); [|by rewrite !fmap_insert].
    unfold s2, s1. cbn. rewrite fmap_insert, insert_id; [done|]. by rewrite lookup_fmap, lookup_insert_ne, Htb. }
  split; [|split; [done|split; [done|split; [cbn; lia|]]]].
  - apply (pending_linked (mem s) (mem s2) (timer_list s) l timer t ticks (timer_list s) (l1 ++ [b]) l2); try done.
    + unfold s2, s1. cbn. apply seg_splice; try done; rewrite <-?app_assoc, ?El in *; cbn in *; rewrite <-?app_assoc in *; done.
    + intros a [Ha1 Ha2]%not_elem_of_cons. unfold s2, s1. cbn. rewrite !lookup_insert_ne by (done || (by intros <-)). done.
  - rewrite El, insert_by_split by done. rewrite <-app_assoc. intros Hh. destruct Hni. rewrite El.
    destruct l1; cbn in Hh; injection Hh as <-; set_solver.
Qed.

(** ... or in front of all others. *)
Lemma link_first s l timer t ticks :
  pending s l -> mem s !! timer = Some t -> timer ∉ l -> (forall q, head l = Some q -> s32 ticks <= fire (mem s) q) ->
  - 2 ^ 31 + 40 <= s32 (ticks - now s) ->
  let t1 := set_fire (set_next t (default 0 (head l))) ticks in
  exists s2, (do! modify (fun s => with_list s timer) then set_alarm clock ticks) (with_mem s (<[timer := t1]> (mem s))) = Done (tt, s2) /\
    mem s2 !! timer = Some t1 /\ added s l timer t ticks s2.
Proof.
  intros Hp Ht Hni H2 Hal t1. pose proof Hp as [Hs Hn _ Hv _]. assert (Hvt : valid timer) by (apply Hv; by exists t).
  erewrite bind_Done by reflexivity. rewrite set_alarm_Done by exact Hal. eexists. split; [reflexivity|].
  split; [cbn; apply lookup_insert_eq|]. split; [|split; [cbn; by rewrite !fmap_insert|split; [done|split; [cbn; lia|done]]]].
  eapply (pending_linked (mem s) _ (timer_list s) l timer t ticks timer [] l); try done.
  - cbn. split; [done|]. split; [done|]. exists t1. rewrite lookup_insert_eq. split; [done|]. cbn.
    rewrite <-(seg_head _ _ _ Hs). by apply seg_frame.
  - cbn. by rewrite !fmap_insert.
  - intros a [Ha1 Ha2]%not_elem_of_cons. cbn. by rewrite lookup_insert_ne.
Qed.

Lemma add_pending_found s l timer t ticks l1 l2 :
  pending s l -> mem s !! timer = Some t -> timer ∉ l -> l = l1 ++ l2 ->
  find_later (list_fuel s) ticks 0 (timer_list s) s = Done ((default 0 (last l1), default 0 (head l2)), s) ->
  Forall (fun q => fire (mem s) q < s32 ticks) l1 -> (forall q, head l2 = Some q -> s32 ticks <= fire (mem s) q) ->
  (l1 = [] -> - 2 ^ 31 + 40 <= s32 (ticks - now s)) ->
  exists s', add_pending_timer clock ticks timer s = Done (tt, s') /\ added s l timer t ticks s'.
Proof.
  intros Hp Ht Hni El E H1 H2 Hal. assert (Hvt : valid timer) by (apply (pn_valid _ _ _ Hp); by exists t).
  assert (Ht1 : timer <> default 0 (head l2)).
  { destruct l2 as [|q l2]; cbn; [unfold valid in Hvt; lia|]. intros ->. apply Hni. rewrite El. apply elem_of_app. right. left. }
  unfold add_pending_timer. unfold bind at 1, get. run E. run (load_Done s timer t Ht).
  erewrite bind_Done by (apply store_Done; by exists t).
  assert (Hlink : exists s2, (if negb (default 0 (last l1) =? 0) then let! p := load (default 0 (last l1)) in store (default 0 (last l1)) (set_next p timer)
      else do! modify (fun s => with_list s timer) then set_alarm clock ticks)
      (with_mem s (<[timer := set_fire (set_next t (default 0 (head l2))) ticks]> (mem s))) = Done (tt, s2) /\
    mem s2 !! timer = Some (set_fire (set_next t (default 0 (head l2))) ticks) /\ added s l timer t ticks s2).
  { destruct (last l1) as [b|] eqn:Hlast; cbn [from_option id].
    - apply last_Some in Hlast as (l1' & ->). destruct (pending_elem s l b Hp) as [Hvb _]; [set_solver|].
      rewrite (proj2 (Z.eqb_neq b 0)) by (unfold valid in Hvb; lia). cbn [negb]. by apply (link_behind _ _ _ _ _ l1').
    - apply last_None in Hlast as ->. change ([] ++ l2) with l2 in El. rewrite <-El in *. cbn [negb Z.eqb].
      apply link_first; auto. }
  destruct Hlink as (s2 & E2 & Ht2 & Hadd). run E2. run (load_Done s2 timer _ Ht2).
  cbn [next set_fire set_next]. rewrite (proj2 (Z.eqb_neq _ _)) by done. by exists s2.
Qed.

Lemma add_pending_ok s l timer t ticks :
  pending s l -> mem s !! timer = Some t -> timer ∉ l ->
  Forall (fun q => apart (s32 ticks) (fire (mem s) q)) l -> - 2 ^ 31 + 40 <= s32 (ticks - now s) ->
  exists s', add_pending_timer clock ticks timer s = Done (tt, s') /\ added s l timer t ticks s'.
Proof.
  intros Hp Ht Hni Hap Hal.
  destruct (find_later_ok ticks s l (list_fuel s) 0 (timer_list s)) as (l1 & l2 & El & E & H1 & H2);
    [apply Hp|by apply pending_fuel|done|]. by apply (add_pending_found s l timer t ticks l1 l2).
Qed.

(** ** Removing a timer *)

Lemma seg_unlink m p l1 b tb timer t l2 :
  seg m p (l1 ++ b :: timer :: l2) 0 -> NoDup (l1 ++ b :: timer :: l2) -> m !! b = Some tb -> m !! timer = Some t ->
  seg (<[b := set_next tb (next t)]> m) p (l1 ++ b :: l2) 0.
Proof.
  intros Hs Hn Hb Ht. apply seg_app in Hs as (r & H1 & (-> & Hvb & tb' & Hb' & (Hnext & Hvt & t' & Ht' & H2))).
  rewrite Hb in Hb'. injection Hb' as <-. rewrite Ht in Ht'. injection Ht' as <-.
  apply NoDup_app in Hn as (_ & Hdis & Hn2). apply NoDup_cons in Hn2 as [Hb2 _].
  apply not_elem_of_cons in Hb2 as [_ Hb2].
  apply seg_app. exists b. split; [apply seg_frame; [|done]; intros H; apply (Hdis b H); left|].
  cbn. split; [done|]. split; [done|]. exists (set_next tb (next t)). rewrite lookup_insert_eq. split; [done|]. by apply seg_frame.
Qed.

Lemma pending_unlinked m m' p p' l1 timer l2 t' :
  pending_in m p (l1 ++ timer :: l2) -> seg m' p' (l1 ++ l2) 0 -> data <$> m' = data <$> m ->
  (forall a, a ∉ l1 ++ timer :: l2 -> m' !! a = m !! a) -> next t' = ETS_TIMER_NOT_ARMED ->
  pending_in (<[timer := t']> m') p' (l1 ++ l2).
Proof.
  intros [Hs Hn Hst Hv Har] Hs' Hd Hout Ht'. rewrite <-Permutation_middle in Hn. apply NoDup_cons in Hn as [Hni Hn].
  assert (Hf : forall a, fire m' a = fire m a) by (intros a; by apply data_fire, data_lookup).
  apply pending_intro.
  - by apply seg_frame.
  - done.
  - apply StronglySorted_app in Hst as (H12 & H1 & H2). apply StronglySorted_cons in H2 as [_ H2].
    apply (StronglySorted_weaken (fun a b => fire m a <= fire m b)).
    + apply StronglySorted_app. split; [|done]. intros a b Ha Hb. apply H12; [done|by right].
    + intros a b Ha Hb. by rewrite !fire_insert_ne, !Hf by (by intros <-).
  - intros a Ha. apply Hv. destruct (decide (timer = a)) as [<-|Hne].
    + eapply seg_elem; [exact Hs|]. apply elem_of_app. right. left.
    + rewrite lookup_insert_ne in Ha by done. by apply (data_dom m').
  - intros a ta Ha Hta. destruct (decide (timer = a)) as [<-|Hne]; [rewrite lookup_insert_eq in Hta; by injection Hta as <-|].
    assert (Ha' : a ∉ l1 ++ timer :: l2) by set_solver. rewrite lookup_insert_ne, Hout in Hta by done.
    destruct (decide (next ta = ETS_TIMER_NOT_ARMED)) as [|Hn']; [done|]. by apply (Har a ta Hta) in Hn'.
Qed.

Lemma unlink_none timer s : forall l fuel prev p,
  seg (mem s) p l 0 -> (length l < fuel)%nat -> timer ∉ l -> unlink fuel timer prev p s = Done (tt, s).
Proof.
  induction l as [|a l IH]; intros fuel prev p Hs Hf Hni; (destruct fuel as [|fuel]; [cbn in Hf; lia|]); cbn [unlink].
  - cbn in Hs. by subst p.
  - cbn in Hs. destruct Hs as (-> & Hv & t & Ht & Hs). apply not_elem_of_cons in Hni as [Hne Hni]. unfold valid in Hv.
    rewrite (proj2 (Z.eqb_neq a 0)) by lia. run (load_Done s a t Ht). rewrite (proj2 (Z.eqb_neq a timer)) by done.
    apply IH; [done|cbn in Hf; lia|done].
Qed.

Lemma unlink_found timer t l2 s : mem s !! timer = Some t -> forall l1 fuel prev p,
  seg (mem s) p (l1 ++ timer :: l2) 0 -> (length l1 < fuel)%nat -> timer ∉ l1 ->
  unlink fuel timer prev p s =
    (if negb (default prev (last l1) =? 0) then
       let! b := load (default prev (last l1)) in store (default prev (last l1)) (set_next b (next t))
     else modify (fun s => with_list s (next t))) s.
Proof.
  intros Ht. induction l1 as [|a l1 IH]; intros fuel prev p Hs Hf Hni; (destruct fuel as [|fuel]; [cbn in Hf; lia|]); cbn [unlink].
  - destruct Hs as (-> & Hv & t' & Ht' & _). unfold valid in Hv. rewrite (proj2 (Z.eqb_neq timer 0)) by lia.
    run (load_Done s timer t Ht). by rewrite Z.eqb_refl.
  - destruct Hs as (-> & Hv & ta & Hta & Hs). apply not_elem_of_cons in Hni as [Hne Hni]. unfold valid in Hv.
    rewrite (proj2 (Z.eqb_neq a 0)) by lia. run (load_Done s a ta Hta). rewrite (proj2 (Z.eqb_neq a timer)) by done.
    rewrite (IH fuel a (next ta)); [|done|cbn in Hf; lia|done]. rewrite last_cons. by destruct (last l1).
Qed.

Lemma filter_absent (timer : Z) (l : list Z) : timer ∉ l -> base.filter (fun a => a <> timer) l = l.
Proof.
  induction l as [|a l IH]; intros H; [done|]. apply not_elem_of_cons in H as [Hne H]. rewrite filter_cons_True by done. by rewrite IH.
Qed.

Lemma filter_out (timer : Z) (l1 l2 : list Z) : timer ∉ l1 -> timer ∉ l2 -> base.filter (fun a => a <> timer) (l1 ++ timer :: l2) = l1 ++ l2.
Proof. intros H1 H2. rewrite filter_app, filter_cons_False by (by intros []). by rewrite !filter_absent. Qed.

Lemma unlink_ok s l timer t :
  pending s l -> mem s !! timer = Some t ->
  exists s2, unlink (list_fuel s) timer 0 (timer_list s) s = Done (tt, s2) /\ mem s2 !! timer = Some t /\
    data <$> mem s2 = data <$> mem s /\ same_rest s s2 /\ reads s2 = reads s /\ alarm s2 = alarm s /\
    forall t', next t' = ETS_TIMER_NOT_ARMED ->
      pending_in (<[timer := t']> (mem s2)) (timer_list s2) (base.filter (fun a => a <> timer) l).
Proof.
  intros Hp Ht. pose proof Hp as [Hs Hn _ Hv _]. pose proof (pending_fuel s l Hp) as Hf.
  destruct (decide (timer ∈ l)) as [Hin|Hni].
  - apply list_elem_of_split in Hin as (l1 & l2 & ->). pose proof Hn as Hn'. rewrite <-Permutation_middle in Hn'.
    apply NoDup_cons in Hn' as [Hni _]. apply not_elem_of_app in Hni as [Hni1 Hni2]. rewrite filter_out by done.
    pose proof (unlink_found timer t l2 s Ht l1 (list_fuel s) 0 (timer_list s) Hs) as E.
    rewrite length_app in Hf. rewrite E by (done || lia). clear E. destruct (last l1) as [b|] eqn:Hlast; cbn [from_option id].
    + apply last_Some in Hlast as (l1' & ->).
      destruct (pending_elem s _ b Hp) as [Hvb [tb Htb]]; [set_solver|].
      rewrite (proj2 (Z.eqb_neq b 0)) by (unfold valid in Hvb; lia). cbn [negb].
      run (load_Done s b tb Htb). rewrite store_Done by (by exists tb).
      assert (Hbt : b <> timer) by (intros ->; set_solver).
      assert (Hd : data <$> <[b := set_next tb (next t)]> (mem s) = data <$> mem s)
        by (rewrite fmap_insert, insert_id; [done|]; by rewrite lookup_fmap, Htb).
      eexists. split; [reflexivity|]. split; [cbn; by rewrite lookup_insert_ne|]. do 4 (split; [done|]). intros t' Ht'.
      apply (pending_unlinked (mem s) _ (timer_list s)); try done.
      * cbn. rewrite <-app_assoc in *. by apply (seg_unlink _ _ _ _ _ timer).
      * intros a Ha. cbn. rewrite lookup_insert_ne; [done|]. intros <-. set_solver.
    + apply last_None in Hlast as ->. destruct Hs as (Hl & Hvt & t0 & Ht0 & Hs). rewrite Ht in Ht0. injection Ht0 as <-.
      eexists. split; [reflexivity|]. do 5 (split; [done|]). intros t' Ht'.
      by apply (pending_unlinked (mem s) _ (timer_list s) _ []).
  - rewrite (unlink_none timer s l) by done. exists s. do 6 (split; [done|]). intros t' Ht'.
    rewrite filter_absent by done. apply pending_store_other; [done..| |done].
    apply Hv. by exists t.
Qed.

(** Disarming takes the timer off the list, wherever it is, and clears its
    period; the other timers and the alarm stay. *)
Lemma disarm_ok s l timer t :
  pending s l -> mem s !! timer = Some t ->
  exists s', sdk_ets_timer_disarm timer s = Done (tt, s') /\ pending s' (base.filter (fun a => a <> timer) l) /\
    data <$> mem s' = data <$> <[timer := set_period t 0]> (mem s) /\ same_rest s s' /\
    reads s' = reads s /\ alarm s' = alarm s.
Proof.
  intros Hp Ht. destruct (unlink_ok (with_critical s 1) l timer t Hp Ht) as (s2 & E & Ht2 & Hd & (Hcr & Hr) & Hrd & Hal & Hp2).
  unfold sdk_ets_timer_disarm. erewrite bind_Done by reflexivity. unfold bind at 1, get. run E. run (load_Done s2 timer t Ht2).
  erewrite bind_Done by (apply store_Done; by exists t). eexists. split; [reflexivity|].
  split; [by apply Hp2|]. split; [cbn; by rewrite !fmap_insert, Hd|]. split; [split; [cbn; cbn in Hcr; lia|exact Hr]|]. done.
Qed.

(** ** Arming *)

Definition arm_ticks (value : Z) (value_in_ms : bool) : Z := if value_in_ms then u32 (value * 5000) else u32 (value * 5).

Lemma unarmed_out s l timer t :
  pending s l -> mem s !! timer = Some t -> next t = ETS_TIMER_NOT_ARMED -> timer ∉ l.
Proof. intros [_ _ _ _ Har] Ht Hn Hin. by apply (Har timer t Ht) in Hin. Qed.

Lemma arm_ok s l timer t value repeat_flag value_in_ms :
  pending s l -> mem s !! timer = Some t -> next t = ETS_TIMER_NOT_ARMED ->
  let ticks := arm_ticks value value_in_ms in let due := u32 (now s + ticks) in
  Forall (fun q => apart (s32 due) (fire (mem s) q)) l -> - 2 ^ 31 + 40 <= s32 (due - now (with_read s)) ->
  let l' := insert_by (fire (mem s)) (s32 due) timer l in
  exists s', sdk_ets_timer_arm_ms_us clock timer value repeat_flag value_in_ms s = Done (tt, s') /\ pending s' l' /\
    data <$> mem s' = data <$> <[timer := set_fire (if repeat_flag then set_period t ticks else t) due]> (mem s) /\
    same_rest s s' /\ (reads s < reads s')%nat /\ (head l' = Some timer -> alarm s' = alarm_value (now (with_read s)) due).
Proof.
  intros Hp Ht Hu ticks due Hap Hal l'. pose proof (unarmed_out s l timer t Hp Ht Hu) as Hni.
  unfold sdk_ets_timer_arm_ms_us. run (load_Done s timer t Ht). rewrite Hu, Z.eqb_refl. cbn [negb].
  change (if value_in_ms then _ else _) with ticks. set (t1 := if repeat_flag then set_period t ticks else t).
  set (s1 := with_mem s (<[timer := t1]> (mem s))).
  assert (E1 : (if repeat_flag then store timer (set_period t ticks) else ret tt) s = Done (tt, s1)).
  { unfold s1, t1. destruct repeat_flag; [apply store_Done; by exists t|]. rewrite insert_id by done. by destruct s. }
  run E1. erewrite bind_Done by reflexivity. erewrite bind_Done by reflexivity. set (s2 := with_read (with_critical s1 1)).
  assert (Hf : forall a, a ∈ l -> fire (mem s2) a = fire (mem s) a) by (intros a Ha; apply fire_insert_ne; by intros <-).
  destruct (add_pending_ok s2 l timer t1 due) as (s3 & E & Hp3 & Hd & (Hcr & Hr) & Hrd & Hal3).
  - apply pending_store_other; [done|done| |by unfold t1; destruct repeat_flag]. apply (pn_valid _ _ _ Hp). by exists t.
  - apply lookup_insert_eq.
  - done.
  - apply Forall_forall. intros q Hq. rewrite Hf by done. eapply Forall_forall in Hap; [|exact Hq]. done.
  - exact Hal.
  - rewrite (insert_by_ext _ (fire (mem s))) in Hp3, Hal3 by done.
    change (clock (reads (with_critical s1 1))) with (clock (reads s)). fold (now s). fold due.
    run E. eexists. split; [reflexivity|]. split; [done|]. split; [cbn; rewrite Hd; cbn; by rewrite insert_insert_eq|].
    split; [split; [cbn; cbn in Hcr; lia|exact Hr]|]. split; [cbn in *; lia|done].
Qed.

(** Arming a timer that is armed stops the system. *)
Lemma arm_armed s timer t value repeat_flag value_in_ms :
  mem s !! timer = Some t -> next t <> ETS_TIMER_NOT_ARMED ->
  sdk_ets_timer_arm_ms_us clock timer value repeat_flag value_in_ms s = OutOfFuel.
Proof.
  intros Ht Hn. unfold sdk_ets_timer_arm_ms_us. run (load_Done s timer t Ht). by rewrite (proj2 (Z.eqb_neq _ _)).
Qed.

Lemma setfn_ok s l timer func parg :
  pending s l -> timer ∉ l -> valid timer ->
  exists s', sdk_ets_timer_setfn timer func parg s = Done (tt, s') /\ pending s' l /\ same_rest s s' /\
    mem s' !! timer = Some {| next := ETS_TIMER_NOT_ARMED; fire_ticks := 0; period_ticks := 0; callback := func; timer_arg := parg |}.
Proof.
  intros Hp Hni Hv. eexists. split; [reflexivity|]. split; [by apply pending_store_other|]. split; [done|]. apply lookup_insert_eq.
Qed.

(** ** Firing *)

Lemma pending_pop s a l t :
  pending s (a :: l) -> mem s !! a = Some t ->
  pending_in (<[a := set_next t ETS_TIMER_NOT_ARMED]> (mem s)) (next t) l.
Proof.
  intros Hp Ht. pose proof Hp as [(_ & _ & t' & Ht' & Hs) _ _ _ _]. rewrite Ht in Ht'. injection Ht' as <-.
  by apply (pending_unlinked (mem s) (mem s) (timer_list s) _ []).
Qed.

End Proofs.

(** ** Running the timers that are due

    [process_pending_timers] calls every timer whose time has come, puts the
    repeating ones back and sets the alarm for the next one.  The callbacks
    here act on the application only; times lie in a window of half the range
    of an [int32_t], outside which the comparisons of the code overflow. *)

Section Run.
Context {A : Type} (clock : nat -> Z) (call : Z -> Z -> M (state A) unit).
(** What a callback does to the application. *)
Variable effect : Z -> Z -> A -> A.
Hypothesis call_effect : forall f x s, call f x s = Done (tt, with_app s (effect f x (app s))).

(** The counter at the [k]-th read as an [int32_t]. *)
Definition tm (k : nat) : Z := s32 (u32 (clock k)).

(** Up to its [L]-th read the counter does not run backwards and stays in the
    window, below [T]; what it does later is open.  Repeating timers have
    periods of at most [P]. *)
Variable T P : Z.
Variable L : nat.
Hypothesis clock_up : forall j k, (j <= k < L)%nat -> tm j <= tm k.
Hypothesis clock_window : forall k, (k < L)%nat -> - 2 ^ 30 <= tm k <= T.
Hypothesis window : 0 <= P /\ T + P < 2 ^ 30 - 44.

Abbreviation ST := (state A).
Implicit Types s : ST.

Definition bounded (m : gmap Z ets_timer_t) (l : list Z) : Prop :=
  forall a t, a ∈ l -> m !! a = Some t -> - 2 ^ 30 + 40 <= s32 (fire_ticks t) < 2 ^ 30 - 44 /\ 0 <= period_ticks t <= P.

(** Period, callback and argument never change here. *)
Definition info (t : ets_timer_t) : Z * Z * Z := (period_ticks t, callback t, timer_arg t).

Definition act (m : gmap Z ets_timer_t) (x : A) (a : Z) : A :=
  match m !! a with Some t => effect (callback t) (timer_arg t) x | None => x end.

Lemma act_info m m' x a : info <$> m = info <$> m' -> act m x a = act m' x a.
Proof.
  intros H. apply (f_equal (fun m => m !! a)) in H. rewrite !lookup_fmap in H. unfold act.
  destruct (m !! a), (m' !! a); cbn in H; unfold info in H; inversion H; congruence.
Qed.

(** When the timer [t] fires again. *)
Definition next_fire (t : ets_timer_t) : Z := u32 (fire_ticks t + period_ticks t).

Definition after_fire (m : gmap Z ets_timer_t) (a : Z) (t : ets_timer_t) : gmap Z ets_timer_t :=
  if period_ticks t =? 0 then m else <[a := set_fire t (next_fire t)]> m.

Definition list_after (m : gmap Z ets_timer_t) (a : Z) (t : ets_timer_t) (l : list Z) : list Z :=
  if period_ticks t =? 0 then l else insert_by (fire m) (s32 (next_fire t)) a l.

(** One timer is taken off the list, called and put back if it repeats. *)
Lemma fire_step s a l t :
  pending s (a :: l) -> mem s !! a = Some t -> bounded (mem s) (a :: l) -> s32 (fire_ticks t) <= T -> (reads s < L)%nat ->
  exists s1, fire_timer clock call a t s = Done (tt, s1) /\
    pending s1 (list_after (mem s) a t l) /\ data <$> mem s1 = data <$> after_fire (mem s) a t /\
    app s1 = act (mem s) (app s) a /\ critical s1 = critical s /\ (reads s <= reads s1 <= S (reads s))%nat.
Proof.
  intros Hp Ht Hb HT HL. pose proof (pending_pop s a l t Hp Ht) as Hpop.
  destruct (Hb a t) as [Hfire Hper]; [left|done|].
  assert (Hni : a ∉ l) by (pose proof (pn_nodup _ _ _ Hp) as Hn; by apply NoDup_cons in Hn as [? _]).
  set (t0 := set_next t ETS_TIMER_NOT_ARMED) in *. unfold fire_timer.
  erewrite bind_Done by reflexivity. erewrite bind_Done by (apply store_Done; by exists t).
  erewrite bind_Done by reflexivity. erewrite bind_Done by apply call_effect. erewrite bind_Done by reflexivity.
  match goal with |- context [rearm clock a ?x = _] => set (s0 := x) end.
  assert (Hm0 : mem s0 = <[a := t0]> (mem s)) by done. assert (Hl0 : timer_list s0 = next t) by done.
  assert (Ha0 : app s0 = act (mem s) (app s) a) by (unfold act; by rewrite Ht).
  assert (Hc0 : critical s0 = critical s) by (cbn; lia). assert (Hr0 : reads s0 = reads s) by done. clearbody s0.
  unfold rearm. erewrite bind_Done by (apply load_Done; rewrite Hm0; apply lookup_insert_eq).
  cbn [next t0 set_next period_ticks fire_ticks]. rewrite Z.eqb_refl. unfold list_after, after_fire.
  destruct (period_ticks t =? 0) eqn:Hz; cbn [negb]; zbool.
  - exists s0. split; [done|]. split; [unfold pending; by rewrite Hm0, Hl0|]. rewrite Hm0, fmap_insert. split; [|rewrite Hr0; auto].
    rewrite insert_id; [done|]. by rewrite lookup_fmap, Ht.
  - fold (next_fire t). erewrite bind_Done by (apply store_Done; rewrite Hm0, lookup_insert_eq; by exists t0).
    set (s2 := with_mem s0 _). assert (Hm2 : mem s2 = <[a := set_fire t0 (next_fire t)]> (mem s)).
    { unfold s2. cbn. rewrite Hm0. apply insert_insert_eq. }
    assert (Hnf : s32 (next_fire t) = s32 (fire_ticks t) + period_ticks t)
      by (unfold next_fire; rewrite s32_u32; apply s32_add; lia).
    assert (Hf2 : forall q, q ∈ l -> fire (mem s2) q = fire (mem s) q).
    { intros q Hq. rewrite Hm2. apply fire_insert_ne. by intros ->. }
    destruct (add_pending_ok clock s2 l a (set_fire t0 (next_fire t)) (next_fire t)) as (s3 & E & Hp3 & Hd & (Hcr & Hap & _) & Hrd & _).
    + unfold pending. rewrite Hm2. change (timer_list s2) with (timer_list s0). rewrite Hl0.
      rewrite <-(insert_insert_eq (mem s) a _ t0). apply pending_store_other; try done. apply (pn_valid _ _ _ Hp). by exists t.
    + rewrite Hm2. apply lookup_insert_eq.
    + done.
    + apply Forall_forall. intros q Hq. rewrite Hf2 by done.
      destruct (pending_elem _ _ q Hp) as [_ [tq Htq]]; [by right|]. destruct (Hb q tq) as [Hq' _]; [by right|done|].
      unfold apart, fire. rewrite Htq. lia.
    + unfold now. change (reads s2) with (reads s0). rewrite Hr0. pose proof (clock_window _ HL) as Hw. unfold tm in Hw. rewrite s32_sub; lia.
    + exists s3. split; [done|]. rewrite (insert_by_ext _ (fire (mem s))) in Hp3 by done. split; [done|].
      split; [rewrite Hd, Hm2, insert_insert_eq; by rewrite !fmap_insert|].
      split; [by rewrite Hap|]. split; [rewrite Hcr; done|]. cbn in Hrd. lia.
Qed.

(** The calls of a timer that are due until [T]: one, or one per period. *)
Definition calls_due (t : ets_timer_t) : Z :=
  if T <? s32 (fire_ticks t) then 0
  else if period_ticks t =? 0 then 1
  else (T - s32 (fire_ticks t)) / period_ticks t + 1.

(** The calls of all pending timers that are due until [T]. *)
Fixpoint budget (m : gmap Z ets_timer_t) (l : list Z) : nat :=
  match l with
  | [] => O
  | a :: l => (match m !! a with Some t => Z.to_nat (calls_due t) | None => O end + budget m l)%nat
  end.

Lemma budget_perm m l l' : l ≡ₚ l' -> budget m l = budget m l'.
Proof. induction 1; cbn; lia. Qed.

Lemma budget_ext m m' l : (forall a, a ∈ l -> data <$> m !! a = data <$> m' !! a) -> budget m l = budget m' l.
Proof.
  induction l as [|a l IH]; intros H; cbn; [done|]. rewrite IH by (intros; apply H; by right). f_equal.
  specialize (H a ltac:(by left)). destruct (m !! a), (m' !! a); cbn in H; try done. unfold data in H. injection H as H1 H2 _ _.
  unfold calls_due. by rewrite H1, H2.
Qed.

(** A call uses up one of the calls that are due. *)
Lemma calls_due_next t :
  - 2 ^ 30 <= s32 (fire_ticks t) <= T -> 0 <= period_ticks t <= P ->
  1 <= calls_due t /\ (period_ticks t <> 0 -> 0 <= calls_due (set_fire t (next_fire t)) < calls_due t).
Proof.
  intros Hf Hp. unfold calls_due. cbn [fire_ticks period_ticks set_fire]. rewrite (proj2 (Z.ltb_ge T _)) by lia.
  assert (En : s32 (next_fire t) = s32 (fire_ticks t) + period_ticks t) by (unfold next_fire; rewrite s32_u32; apply s32_add; lia).
  rewrite En. destruct (period_ticks t =? 0) eqn:Hz; zbool; [by split|].
  pose proof (Z.div_pos (T - s32 (fire_ticks t)) (period_ticks t)). split; [lia|]. intros _. case_if; zbool; [lia|].
  replace (T - (s32 (fire_ticks t) + period_ticks t)) with (T - s32 (fire_ticks t) + -1 * period_ticks t) by lia.
  rewrite Z.div_add by lia. split; [|lia].
  pose proof (Z.div_le_mono (period_ticks t) (T - s32 (fire_ticks t)) (period_ticks t)). rewrite Z_div_same_full in *; lia.
Qed.

Lemma after_fire_ne m a t q : q <> a -> fire (after_fire m a t) q = fire m q.
Proof. intros. unfold after_fire. case_if; [done|]. by apply fire_insert_ne. Qed.

Lemma list_after_sub m a t l q : q ∈ list_after m a t l -> q = a /\ period_ticks t <> 0 \/ q ∈ l.
Proof. unfold list_after. case_if; zbool; [by right|]. rewrite insert_by_perm, elem_of_cons. tauto. Qed.

Lemma list_after_keeps m a t l q : q ∈ l -> q ∈ list_after m a t l.
Proof. intros Hq. unfold list_after. case_if; [done|]. rewrite insert_by_perm. by right. Qed.

Lemma budget_after m m' a l t :
  m !! a = Some t -> bounded m (a :: l) -> s32 (fire_ticks t) <= T -> a ∉ l ->
  data <$> m' = data <$> after_fire m a t -> (budget m' (list_after m a t l) < budget m (a :: l))%nat.
Proof.
  intros Ht Hb HT Hni Hd. destruct (Hb a t) as [Hfa Hpa]; [left|done|].
  assert (Hl : budget m' l = budget m l).
  { apply budget_ext. intros q Hq. assert (Hqa : q <> a) by (by intros ->). rewrite (data_lookup _ _ q Hd).
    unfold after_fire. case_if; [done|]. by rewrite lookup_insert_ne. }
  destruct (calls_due_next t ltac:(lia) ltac:(lia)) as [H1 H2].
  unfold list_after. destruct (period_ticks t =? 0) eqn:Hz; zbool; cbn [budget]; [rewrite Ht; lia|].
  rewrite (budget_perm _ _ _ (insert_by_perm _ _ _ _)). cbn [budget]. rewrite Hl, Ht. specialize (H2 Hz).
  pose proof (data_lookup _ _ a Hd) as Hda. unfold after_fire in Hda. rewrite (proj2 (Z.eqb_neq _ _)), lookup_insert_eq in Hda by done.
  destruct (m' !! a) as [t'|]; [|done]. cbn in Hda. unfold data in Hda. injection Hda as E1 E2 _ _.
  replace (calls_due t') with (calls_due (set_fire t (next_fire t))) by (unfold calls_due; by rewrite E1, E2). lia.
Qed.

Lemma bounded_after m m' a l t :
  m !! a = Some t -> bounded m (a :: l) -> s32 (fire_ticks t) <= T -> a ∉ l ->
  data <$> m' = data <$> after_fire m a t -> bounded m' (list_after m a t l).
Proof.
  intros Ht Hb HT Hni Hd q tq Hq Htq. pose proof (data_lookup _ _ q Hd) as Hdq. rewrite Htq in Hdq. cbn in Hdq.
  destruct (Hb a t) as [Hfa Hpa]; [left|done|].
  destruct (list_after_sub _ _ _ _ _ Hq) as [[-> Hz]|Hin].
  - unfold after_fire in Hdq. rewrite (proj2 (Z.eqb_neq _ _)), lookup_insert_eq in Hdq by done.
    unfold data in Hdq. cbn in Hdq. injection Hdq as H1 H2 _ _. rewrite H1, H2. unfold next_fire. rewrite s32_u32, s32_add; lia.
  - assert (Hqa : q <> a) by (by intros ->).
    assert (E : after_fire m a t !! q = m !! q) by (unfold after_fire; case_if; [done|by apply lookup_insert_ne]).
    rewrite E in Hdq. destruct (m !! q) as [t'|] eqn:Hm; [|done]. unfold data in Hdq. cbn in Hdq. injection Hdq as H1 H2 _ _.
    rewrite H1, H2. apply (Hb q t'); [by right|done].
Qed.

Lemma info_after m m' a t : m !! a = Some t -> data <$> m' = data <$> after_fire m a t -> info <$> m' = info <$> m.
Proof.
  intros Ht Hd. assert (E : forall m : gmap Z ets_timer_t, info <$> m = (fun d : Z * Z * Z * Z => (snd (fst (fst d)), snd (fst d), snd d)) <$> (data <$> m)).
  { intros m0. rewrite <-map_fmap_compose. by apply map_fmap_ext. }
  rewrite E, Hd, <-E. unfold after_fire. case_if; [done|]. rewrite fmap_insert, insert_id; [done|]. by rewrite lookup_fmap, Ht.
Qed.

(** What a run of the loop from [s] with pending timers [l] gives: [fired]
    are the timers called, in order. *)
Record ran s (l : list Z) (ticks : Z) s' (l' fired : list Z) : Prop := {
  rn_pending : pending s' l';
  rn_bounded : bounded (mem s') l';
  rn_critical : critical s' = critical s;
  rn_app : app s' = foldl (act (mem s)) (app s) fired;
  rn_due a : a ∈ l -> fire (mem s) a <= ticks -> a ∈ fired;
  rn_not_early a : a ∈ fired -> a ∈ l /\ (fire (mem s) a <= ticks \/ exists k, (k < reads s')%nat /\ fire (mem s) a <= tm k);
  rn_info : info <$> mem s' = info <$> mem s;
  rn_reads : (reads s <= reads s')%nat;
  rn_alarm a : head l' = Some a -> exists t k, mem s' !! a = Some t /\ reads s' = S k /\
    (k < L)%nat /\ ticks <= fire (mem s') a /\ alarm s' = alarm_value (u32 (clock k)) (fire_ticks t);
}.

Lemma ran_fire s s1 a l t ticks s' l' fired :
  mem s !! a = Some t -> s32 (fire_ticks t) <= ticks -> a ∉ l -> (forall k, (reads s <= k < L)%nat -> ticks <= tm k) ->
  data <$> mem s1 = data <$> after_fire (mem s) a t -> app s1 = act (mem s) (app s) a -> critical s1 = critical s ->
  (reads s <= reads s1 < L)%nat -> ran (with_read s1) (list_after (mem s) a t l) (tm (reads s1)) s' l' fired ->
  ran s (a :: l) ticks s' l' (a :: fired).
Proof.
  intros Hta Hdue Hni Hk Hd1 Ha1 Hc1 Hr1 [Rp Rb Rc Ra Rd Rn Ri Rr Ral]. pose proof (info_after _ _ _ _ Hta Hd1) as Hi1.
  assert (Efa : fire (mem s) a = s32 (fire_ticks t)) by (unfold fire; by rewrite Hta). cbn in Rr.
  assert (Hf1 : forall q, q ∈ l -> fire (mem s1) q = fire (mem s) q).
  { intros q Hq. rewrite (data_fire (mem s1) (after_fire (mem s) a t)) by (by apply data_lookup).
    apply after_fire_ne. by intros ->. }
  assert (Hact : forall x q, act (mem s1) x q = act (mem s) x q) by (intros; by apply act_info).
  pose proof (Hk (reads s1) Hr1) as Hk1.
  split; [done|done|by rewrite Rc| |intros q Hq Hq'|intros q Hq|by rewrite Ri|lia|].
  - rewrite Ra. cbn. rewrite Ha1. clear -Hact. generalize (act (mem s) (app s) a).
    induction fired as [|q fired IH]; intros x; cbn; [done|]. rewrite Hact. apply IH.
  - apply elem_of_cons. apply elem_of_cons in Hq as [->|Hq]; [by left|right]. apply Rd; [by apply list_after_keeps|].
    cbn. rewrite Hf1 by done. lia.
  - destruct (decide (q = a)) as [->|Hqa]; [split; [left|left; lia]|]. apply elem_of_cons in Hq as [->|Hq]; [done|].
    destruct (Rn q Hq) as [Hin Hearly]. destruct (list_after_sub _ _ _ _ _ Hin) as [[-> _]|Hql]; [done|].
    split; [by right|]. right. cbn in Hearly. rewrite Hf1 in Hearly by done.
    destruct Hearly as [Hearly|Hearly]; [|done]. exists (reads s1). split; [lia|done].
  - intros q Hq. destruct (Ral q Hq) as (t' & k & H1 & H2 & H3 & H4 & H5). exists t', k. split; [done|]. split; [done|]. split; [done|]. split; [lia|done].
Qed.

Lemma process_loop_ok n : forall fuel s l ticks,
  (budget (mem s) l <= n)%nat -> (n < fuel)%nat -> (reads s + 2 * n < L)%nat -> pending s l -> bounded (mem s) l ->
  - 2 ^ 30 <= ticks <= T -> (forall k, (reads s <= k < L)%nat -> ticks <= tm k) ->
  exists s' l' fired, process_loop clock call fuel ticks s = Done (tt, s') /\ ran s l ticks s' l' fired.
Proof.
  induction n as [n IH] using lt_wf_ind. intros fuel s l ticks Hn Hf HL Hp Hb Ht Hk. destruct fuel as [|fuel]; [lia|].
  cbn [process_loop]. unfold bind at 1, get. pose proof Hp as [Hs Hnd Hst Hv _].
  destruct l as [|a l].
  { cbn in Hs. rewrite Hs. exists s, [], []. split; [done|]. split; try done; by intros ? ?%not_elem_of_nil. }
  pose proof Hs as (Hl & Hva & t & Hta & Hs'). rewrite Hl. rewrite (proj2 (Z.eqb_neq a 0)) by (unfold valid in Hva; lia).
  run (load_Done s a t Hta). destruct (Hb a t) as [Hfa Hpa]; [left|done|].
  assert (Efa : fire (mem s) a = s32 (fire_ticks t)) by (unfold fire; by rewrite Hta).
  assert (Hap : apart (s32 (fire_ticks t)) ticks) by (unfold apart; lia). run (sub32_Done _ _ s Hap).
  apply NoDup_cons in Hnd as [Hni _].
  destruct (s32 (fire_ticks t) - ticks <? 1) eqn:E; zbool.
  - destruct (fire_step s a l t Hp Hta Hb ltac:(lia) ltac:(lia)) as (s1 & E1 & Hp1 & Hd1 & Ha1 & Hc1 & Hr1).
    pose proof (budget_after _ _ _ _ _ Hta Hb ltac:(lia) Hni Hd1) as Hbud.
    pose proof (bounded_after _ _ _ _ _ Hta Hb ltac:(lia) Hni Hd1) as Hb1.
    destruct (IH (budget (mem s1) (list_after (mem s) a t l)) ltac:(lia) fuel (with_read s1) (list_after (mem s) a t l)
      (tm (reads s1))) as (s' & l' & fired & E2 & R); [cbn; lia|lia|cbn; lia|done|done|apply clock_window; lia| |].
    { intros k Hk'. apply clock_up. cbn in Hk'. lia. }
    exists s', l', (a :: fired). split; [run E1; erewrite bind_Done by reflexivity; exact E2|].
    apply (ran_fire s s1 a l t); done || lia.
  - assert (Hal : - 2 ^ 31 + 40 <= s32 (fire_ticks t - now clock s)).
    { unfold now. pose proof (clock_window (reads s) ltac:(lia)) as Hw. unfold tm in Hw. rewrite s32_sub; lia. }
    rewrite (set_alarm_Done clock s (fire_ticks t) Hal). eexists _, (a :: l), []. split; [reflexivity|].
    split; [done|done|done|done| |by intros q ?%not_elem_of_nil|done|cbn; lia|].
    + intros q Hq Hdue. exfalso. apply elem_of_cons in Hq as [->|Hq]; [lia|].
      apply StronglySorted_cons in Hst as [Hst _]. eapply Forall_forall in Hst; [|exact Hq]. cbn in Hst. lia.
    + intros q [= <-]. exists t, (reads s). split; [done|]. split; [done|]. split; [lia|]. split; [cbn; lia|done].
Qed.

End Run.
