(* ===== verification/EtsTimerContract.v ===== *)
(** * What the software timers promise

    The properties of [open_esplibs/libmain/ets_timer.c]: an invariant of
    every state the functions, the interrupt and the timer task can reach,
    with callbacks that use the timers themselves; what arming, disarming and
    the timer task do; and the limits of the comparison of times. *)

From stdpp Require Import gmap sorting.
From S2P Require Import Prelude EtsTimer EtsTimerProofs.
Open Scope Z_scope.

Import Ets.

(** ** Programs over the timers *)

(** A call of the interface. *)
Inductive api_call :=
| Setfn (timer func parg : Z)
| Arm (timer value : Z) (repeat_flag value_in_ms : bool)
| Disarm (timer : Z).

Section Reach.
Context {A : Type} (clock : nat -> Z).
(** The calls a callback makes, which may depend on the application. *)
Variable program : Z -> Z -> A -> list api_call.
Variable effect : Z -> Z -> A -> A.

Abbreviation ST := (state A).
Implicit Types s : ST.

(** [sdk_ets_timer_setfn] is for timers that are not armed; elsewhere the
    behaviour of the program is not defined. *)
Definition may_setfn s (timer : Z) : bool :=
  (0 <? timer) && (timer <? ETS_TIMER_NOT_ARMED) &&
  match mem s !! timer with Some t => next t =? ETS_TIMER_NOT_ARMED | None => true end.

Definition run_call (c : api_call) : M ST unit :=
  match c with
  | Setfn timer func parg => let! s := get in if may_setfn s timer then sdk_ets_timer_setfn timer func parg else undefined
  | Arm timer value r ms => sdk_ets_timer_arm_ms_us clock timer value r ms
  | Disarm timer => sdk_ets_timer_disarm timer
  end.

Fixpoint run_calls (cs : list api_call) : M ST unit :=
  match cs with
  | [] => ret tt
  | c :: cs => do! run_call c then run_calls cs
  end.

(** A callback changes the application and uses the timers. *)
Definition api_callback (f x : Z) : M ST unit :=
  let! s := get in
  do! modify (fun s => with_app s (effect f x (app s))) then
  run_calls (program f x (app s)).

(** The steps of the system: a call by a task, the interrupt, and the timer
    task, from the state after [sdk_ets_timer_init]. *)
Inductive step : ST -> ST -> Prop :=
| step_call c s s' : run_call c s = Done (tt, s') -> step s s'
| step_isr s s' : frc2_isr s = Done (tt, s') -> step s s'
| step_task fuel s s' : timer_task_turn clock api_callback fuel s = Done (tt, s') -> step s s'.

Inductive reachable : ST -> Prop :=
| reach_init s s' : mem s = ∅ -> sdk_ets_timer_init s = Done (tt, s') -> reachable s'
| reach_step s s' : reachable s -> step s s' -> reachable s'.

(** ** The invariant is kept by whatever returns *)

Definition keeps (m : M ST unit) : Prop :=
  forall s l s', pending s l -> m s = Done (tt, s') -> exists l', pending s' l'.

Lemma sub32_cases a b s : sub32 a b s = Done (a - b, s) \/ sub32 (A := A) a b s = Undefined.
Proof. unfold sub32. case_if; [by left|by right]. Qed.

Lemma find_later_cases ticks s : forall l fuel prev p,
  seg (mem s) p l 0 -> (length l < fuel)%nat ->
  find_later fuel ticks prev p s = Undefined \/
  exists l1 l2, l = l1 ++ l2 /\
    find_later fuel ticks prev p s = Done ((default prev (last l1), default 0 (head l2)), s) /\
    Forall (fun q => fire (mem s) q < s32 ticks) l1 /\ (forall q, head l2 = Some q -> s32 ticks <= fire (mem s) q).
Proof.
  induction l as [|a l IH]; intros fuel prev p Hs Hf; (destruct fuel as [|fuel]; [cbn in Hf; lia|]); cbn [find_later].
  - cbn in Hs. subst p. right. exists [], []. repeat split; [constructor|done].
  - cbn in Hs. destruct Hs as (-> & Hv & t & Ht & Hs). unfold valid in Hv.
    rewrite (proj2 (Z.eqb_neq a 0)) by lia. run (load_Done s a t Ht).
    assert (Hfa : fire (mem s) a = s32 (fire_ticks t)) by (unfold fire; by rewrite Ht).
    destruct (sub32_cases (s32 ticks) (s32 (fire_ticks t)) s) as [E|E]; [|left; unfold bind at 1; by rewrite E].
    run E. destruct (_ <? 1) eqn:E1; zbool.
    + right. exists [], (a :: l). repeat split; [constructor|]. intros q [= <-]. lia.
    + destruct (IH fuel a (next t) Hs) as [E2|(l1 & l2 & -> & E2 & H1 & H2)]; [cbn in Hf; lia|by left|].
      right. exists (a :: l1), l2. split; [done|]. split; [|split; [constructor; [lia|done]|done]].
      rewrite E2, last_cons. by destruct (last l1).
Qed.

Lemma set_alarm_undefined ticks s : s32 (ticks - now clock s) < - 2 ^ 31 + 40 -> set_alarm clock ticks s = Undefined.
Proof.
  intros H. unfold set_alarm. unfold bind at 1, COUNT. fold (now clock s). unfold bind, sub32.
  rewrite (proj2 (andb_false_iff _ _)); [done|]. left. apply Z.leb_gt. lia.
Qed.

Lemma add_pending_cases s l timer t ticks :
  pending s l -> mem s !! timer = Some t -> timer ∉ l ->
  add_pending_timer clock ticks timer s = Undefined \/
  exists s', add_pending_timer clock ticks timer s = Done (tt, s') /\ added clock s l timer t ticks s'.
Proof.
  intros Hp Ht Hni.
  destruct (find_later_cases ticks s l (list_fuel s) 0 (timer_list s)) as [E|(l1 & l2 & El & E & H1 & H2)];
    [apply Hp|by apply pending_fuel|left; unfold add_pending_timer; unfold bind at 1, get; unfold bind at 1; by rewrite E|].
  destruct l1 as [|b l1]; [|right; by apply (add_pending_found clock s l timer t ticks (b :: l1) l2)].
  destruct (decide (- 2 ^ 31 + 40 <= s32 (ticks - now clock s))) as [Hal|Hal];
    [right; by apply (add_pending_found clock s l timer t ticks [] l2)|left].
  unfold add_pending_timer. unfold bind at 1, get. run E. run (load_Done s timer t Ht).
  erewrite bind_Done by (apply store_Done; by exists t). cbn [from_option id last negb Z.eqb]. unfold bind at 1.
  erewrite bind_Done by reflexivity. rewrite set_alarm_undefined; [done|]. cbn. unfold now in *. cbn. lia.
Qed.

Lemma keeps_ret : keeps (ret tt).
Proof. intros s l s' Hp [= <-]. by exists l. Qed.

Lemma keeps_bind (m1 m2 : M ST unit) : keeps m1 -> keeps m2 -> keeps (do! m1 then m2).
Proof. intros H1 H2 s l s' Hp ([] & s1 & E1 & E2)%bind_inv. destruct (H1 _ _ _ Hp E1) as [l1 Hp1]. by apply (H2 _ _ _ Hp1 E2). Qed.

Lemma keeps_get (k : ST -> M ST unit) : (forall s, keeps (k s)) -> keeps (let! s := get in k s).
Proof. intros H s l s' Hp E. by apply (H s s l s' Hp E). Qed.

(** Changes outside the list. *)
Lemma keeps_modify f : (forall s, mem (f s) = mem s /\ timer_list (f s) = timer_list s) -> keeps (modify f).
Proof. intros H s l s' Hp [= <-]. exists l. unfold pending. by destruct (H s) as [-> ->]. Qed.

Lemma keeps_critical d : keeps (modify (fun s => with_critical s d)).
Proof. by apply keeps_modify. Qed.

Lemma arm_cases s l timer value r ms s' :
  pending s l -> sdk_ets_timer_arm_ms_us clock timer value r ms s = Done (tt, s') -> exists l', pending s' l'.
Proof.
  intros Hp E. unfold sdk_ets_timer_arm_ms_us in E. apply bind_inv in E as (t & s0 & E0 & E).
  unfold load in E0. destruct (mem s !! timer) as [t'|] eqn:Ht; [|done]. injection E0 as -> <-.
  destruct (next t =? ETS_TIMER_NOT_ARMED) eqn:Hu; [|done]. cbn [negb] in E. zbool.
  pose proof (unarmed_out s l timer t Hp Ht Hu) as Hni.
  assert (Hst : forall t1, next t1 = ETS_TIMER_NOT_ARMED -> pending_in (<[timer := t1]> (mem s)) (timer_list s) l).
  { intros t1 Ht1. apply pending_store_other; try done. apply (pn_valid _ _ _ Hp). by exists t. }
  apply bind_inv in E as ([] & s1 & E1 & E). apply bind_inv in E as ([] & s2 & E2 & E). apply bind_inv in E as (c & s3 & E3 & E).
  apply bind_inv in E as ([] & s4 & E4 & E). injection E2 as <-. injection E3 as <- <-. injection E as <-.
  assert (H1 : exists t1, mem s1 !! timer = Some t1 /\ pending s1 l).
  { destruct r; [|injection E1 as <-; eauto]. rewrite store_Done in E1 by (by exists t). injection E1 as <-.
    eexists. split; [apply lookup_insert_eq|by apply Hst]. }
  destruct H1 as (t1 & Ht1 & Hp1).
  match type of E4 with add_pending_timer _ ?k _ ?x = _ =>
    destruct (add_pending_cases x l timer t1 k Hp1 Ht1 Hni) as [E5|(s5 & E5 & Hadd & _)] end;
    rewrite E5 in E4; [done|]. injection E4 as <-. eexists. exact Hadd.
Qed.

Lemma keeps_call c : keeps (run_call c).
Proof.
  intros s l s' Hp E. destruct c as [timer func parg|timer value r ms|timer]; cbn [run_call] in E.
  - unfold bind, get in E. destruct (may_setfn s timer) eqn:Hm; [|done]. unfold may_setfn in Hm. zbool.
    destruct (setfn_ok s l timer func parg) as (s1 & E1 & Hp1 & _); [done| |unfold valid; lia|].
    + intros Hin. destruct (pending_elem s l timer Hp Hin) as [_ [t Ht]]. rewrite Ht in *. zbool.
      by apply (unarmed_out s l timer t Hp Ht).
    + rewrite E1 in E. injection E as <-. by exists l.
  - by apply (arm_cases s l timer value r ms).
  - destruct (mem s !! timer) as [t|] eqn:Ht.
    + destruct (disarm_ok s l timer t Hp Ht) as (s1 & E1 & Hp1 & _). rewrite E1 in E. injection E as <-. eauto.
    + unfold sdk_ets_timer_disarm in E. apply bind_inv in E as ([] & s1 & E1 & E). injection E1 as <-.
      apply bind_inv in E as (s2 & s3 & E1 & E). injection E1 as <- <-. apply bind_inv in E as ([] & s4 & E1 & E).
      rewrite (unlink_none timer (with_critical s 1) l) in E1; [|apply Hp|by apply pending_fuel|].
      * injection E1 as <-. unfold bind, load in E. cbn in E. by rewrite Ht in E.
      * intros Hin. destruct (pending_elem s l timer Hp Hin) as [_ [t Ht']]. congruence.
Qed.

Lemma keeps_calls cs : keeps (run_calls cs).
Proof. induction cs; [apply keeps_ret|]. by apply keeps_bind; [apply keeps_call|]. Qed.

Lemma keeps_callback f x : keeps (api_callback f x).
Proof. apply keeps_get. intros s. apply keeps_bind; [by apply keeps_modify|apply keeps_calls]. Qed.

Lemma keeps_rearm timer : keeps (rearm clock timer).
Proof.
  intros s l s' Hp E. unfold rearm in E. apply bind_inv in E as (t & s0 & E0 & E).
  unfold load in E0. destruct (mem s !! timer) as [t'|] eqn:Ht; [|done]. injection E0 as -> <-.
  destruct (next t =? ETS_TIMER_NOT_ARMED) eqn:Hu; [|injection E as <-; by exists l].
  destruct (period_ticks t =? 0); cbn [negb] in E; [injection E as <-; by exists l|]. zbool.
  pose proof (unarmed_out s l timer t Hp Ht Hu) as Hni. erewrite bind_Done in E by (apply store_Done; by exists t).
  match type of E with add_pending_timer _ ?k _ ?x = _ => destruct (add_pending_cases x l timer (set_fire t k) k) as [E5|(s5 & E5 & Hadd & _)] end.
  - apply pending_store_other; try done. apply (pn_valid _ _ _ Hp). by exists t.
  - apply lookup_insert_eq.
  - done.
  - by rewrite E5 in E.
  - rewrite E5 in E. injection E as <-. by eexists.
Qed.

Lemma keeps_process fuel : forall ticks, keeps (process_loop clock api_callback fuel ticks).
Proof.
  induction fuel as [|fuel IH]; intros ticks s l s' Hp E; [done|]. cbn [process_loop] in E. unfold bind at 1, get in E.
  destruct (timer_list s =? 0) eqn:Hz; [injection E as <-; by exists l|]. zbool.
  pose proof Hp as [Hs _ _ _ _]. destruct l as [|a l]; [done|]. destruct Hs as (Hl & _ & _). rewrite Hl in *.
  destruct (pending_elem s (a :: l) a Hp) as [_ [t Ht]]; [left|]. erewrite bind_Done in E by (by apply load_Done).
  destruct (sub32_cases (s32 (fire_ticks t)) ticks s) as [E1|E1]; [|unfold bind at 1 in E; by rewrite E1 in E].
  erewrite bind_Done in E by exact E1. destruct (_ <? 1).
  - apply bind_inv in E as ([] & s1 & E2 & E). apply bind_inv in E as (c & s2 & E3 & E). injection E3 as <- <-.
    unfold fire_timer in E2. erewrite bind_Done in E2 by reflexivity. erewrite bind_Done in E2 by (apply store_Done; by exists t).
    match type of E2 with _ ?x = _ => set (s0 := x) in E2 end.
    assert (Hp0 : pending s0 l) by exact (pending_pop s a l t Hp Ht).
    assert (Hk : keeps (do! vPortExitCritical then do! api_callback (callback t) (timer_arg t) then
      do! vPortEnterCritical then rearm clock a)).
    { apply keeps_bind; [apply keeps_critical|]. apply keeps_bind; [apply keeps_callback|].
      apply keeps_bind; [apply keeps_critical|apply keeps_rearm]. }
    destruct (Hk _ _ _ Hp0 E2) as [l1 Hp1]. by apply (IH _ (with_read s1) l1 s' Hp1 E).
  - destruct (decide (- 2 ^ 31 + 40 <= s32 (fire_ticks t - now clock s))) as [Hal|Hal].
    + rewrite set_alarm_Done in E by done. injection E as <-. by exists (a :: l).
    + rewrite set_alarm_undefined in E by lia. done.
Qed.

Lemma keeps_task fuel : keeps (timer_task_turn clock api_callback fuel).
Proof.
  apply keeps_get. intros s. case_if; [|apply keeps_ret]. apply keeps_bind; [by apply keeps_modify|].
  apply keeps_bind; [apply keeps_critical|]. intros s1 l s' Hp (c & s2 & E1 & E)%bind_inv. injection E1 as <- <-.
  refine (keeps_bind _ _ (keeps_process fuel _) (keeps_critical _) (with_read s1) l s' Hp E).
Qed.

(** C10. In every state the system can reach (calls from tasks, the interrupt,
    runs of the timer task, callbacks that arm, disarm and set up timers,
    their own included) the linked list ends, visits each timer once, in the
    order in which they fire, and holds exactly the timers that are armed.
    Calls that leave the language reach no state: [sdk_ets_timer_setfn] on a
    timer that is armed, and comparisons of fire times that overflow where one
    is beyond 2^31 ticks ([ets_timer_arm_overflow]). *)
Theorem ets_timer_list_invariant s :
  reachable s ->
  exists l, seg (mem s) (timer_list s) l 0 /\ NoDup l /\
    StronglySorted (fun a b => fire (mem s) a <= fire (mem s) b) l /\
    (forall a t, mem s !! a = Some t -> (next t <> ETS_TIMER_NOT_ARMED <-> a ∈ l)).
Proof.
  intros Hr. assert (H : exists l, pending s l).
  { induction Hr as [s s' Hm E|s s' _ [l Hp] Hst].
    - injection E as <-. exists []. split; cbn; [done|constructor|constructor| |]; rewrite Hm; [by intros a []|done].
    - destruct Hst as [c s s' E|s s' E|fuel s s' E].
      + by apply (keeps_call c s l).
      + by apply (keeps_modify (fun s => with_notified s true) ltac:(done) s l).
      + by apply (keeps_task fuel s l). }
  destruct H as [l [Hs Hn Hst _ Har]]. by exists l.
Qed.

End Reach.

(** ** The timer task *)

Section Task.
Context {A : Type} (clock : nat -> Z) (call : Z -> Z -> M (state A) unit) (effect : Z -> Z -> A -> A) (T P : Z) (L : nat).
Hypothesis call_effect : forall f x s, call f x s = Done (tt, with_app s (effect f x (app s))).
Hypothesis clock_up : forall j k, (j <= k < L)%nat -> tm clock j <= tm clock k.
Hypothesis clock_window : forall k, (k < L)%nat -> - 2 ^ 30 <= tm clock k <= T.
Hypothesis window : 0 <= P /\ T + P < 2 ^ 30 - 44.

(** C11. Let the callbacks act on the application only (none arms, disarms or
    sets up a timer), let all times lie in a window of [2 ^ 30] ticks in which
    the counter does not wrap, and let the timers be handled fast enough: for
    some time [T] the counter is still at or before [T] when it has been read
    twice for every call that is due until [T], and twice more (the counter
    may run on after that, as it does).  Then a run of the timer task ends,
    also with repeating timers; every timer that is due when it starts is
    called, no timer is called before its time, the critical section is closed
    again, and when timers remain the alarm is set at least 40 ticks into the
    future, not before the first of them fires and at most 44 ticks late. *)
Theorem ets_timers_due_are_called (s : state A) l :
  pending s l -> bounded P (mem s) l -> (reads s + 2 * budget T (mem s) l + 2 <= L)%nat ->
  exists n, forall fuel, (n <= fuel)%nat -> exists s' l' fired,
    process_pending_timers clock call fuel s = Done (tt, s') /\ pending s' l' /\ critical s' = critical s /\
    app s' = foldl (act effect (mem s)) (app s) fired /\
    (forall a, a ∈ l -> fire (mem s) a <= tm clock (reads s) -> a ∈ fired) /\
    (forall a, a ∈ fired -> a ∈ l /\ exists k, (k < reads s')%nat /\ fire (mem s) a <= tm clock k) /\
    (forall a, head l' = Some a -> exists cur t, mem s' !! a = Some t /\ 40 <= s32 (alarm s' - cur) /\
       s32 (fire_ticks t - cur) <= s32 (alarm s' - cur) <= Z.max 0 (s32 (fire_ticks t - cur)) + 44).
Proof.
  intros Hp Hb HL. exists (S (budget T (mem s) l)). intros fuel Hf.
  destruct (process_loop_ok clock call effect call_effect T P L clock_up clock_window window (budget T (mem s) l) fuel
    (with_read (with_critical s 1)) l (tm clock (reads s))) as (s' & l' & fired & E & [Rp Rb Rc Ra Rd Rn Ri Rr Ral]);
    [done|lia|cbn; lia|done|done|apply clock_window; lia|intros k Hk; apply clock_up; cbn in Hk; lia|].
  exists (with_critical s' (-1)), l', fired. cbn in Rr. split.
  { unfold process_pending_timers. erewrite bind_Done by reflexivity. erewrite bind_Done by reflexivity. by run E. }
  split; [done|]. split; [cbn in *; lia|]. split; [done|]. split; [done|]. split.
  - intros a Ha. destruct (Rn a Ha) as [Hin [Hd|Hd]]; (split; [done|]); [|done]. exists (reads s). cbn. split; [lia|done].
  - intros a Ha. destruct (Ral a Ha) as (t & k & Ht & _ & HkL & _ & Hal). exists (u32 (clock k)), t. split; [done|].
    cbn. rewrite Hal. destruct (alarm_future (u32 (clock k)) (fire_ticks t)) as [H1 H2]; [|lia].
    destruct l' as [|b l']; [done|]. injection Ha as ->. destruct (Rb a t) as [Hft _]; [left|done|].
    pose proof (clock_window k HkL) as Hw. unfold tm in Hw. rewrite s32_sub; lia.
Qed.
End Task.

(** ** The limits of the comparison *)

Section Overflow.
Context {A : Type} (clock : nat -> Z).

(** The order of two firing times is decided with a signed subtraction:
    when the first pending timer fires before the counter reaches 2^31 and
    the new one, less than 2^31 ticks later, after that, the subtraction
    overflows and the behaviour of [sdk_ets_timer_arm] is undefined. *)
Theorem ets_timer_arm_overflow (s : state A) q l tq timer t value repeat_flag value_in_ms :
  let due := u32 (now clock s + arm_ticks value value_in_ms) in
  pending s (q :: l) -> mem s !! q = Some tq -> mem s !! timer = Some t -> next t = ETS_TIMER_NOT_ARMED ->
  0 <= fire_ticks tq < 2 ^ 31 -> 2 ^ 31 <= due < fire_ticks tq + 2 ^ 31 ->
  sdk_ets_timer_arm_ms_us clock timer value repeat_flag value_in_ms s = Undefined.
Proof.
  intros due Hp Hq Ht Hu Hf Hdue. pose proof (unarmed_out s _ timer t Hp Ht Hu) as Hni. apply not_elem_of_cons in Hni as [Hne _].
  unfold sdk_ets_timer_arm_ms_us. run (load_Done s timer t Ht). rewrite Hu, Z.eqb_refl. cbn [negb].
  change (if value_in_ms then _ else _) with (arm_ticks value value_in_ms).
  assert (E1 : exists s1, (if repeat_flag then store timer (set_period t (arm_ticks value value_in_ms)) else ret tt) s = Done (tt, s1) /\
    mem s1 !! q = Some tq /\ timer_list s1 = q /\ reads s1 = reads s).
  { pose proof Hp as [(Hl & _) _ _ _ _]. destruct repeat_flag; [rewrite store_Done by (by exists t)|]; (eexists; split; [reflexivity|]); [|done].
    cbn. by rewrite lookup_insert_ne. }
  destruct E1 as (s1 & E1 & Hq1 & Hl1 & Hr1). run E1. erewrite bind_Done by reflexivity. erewrite bind_Done by reflexivity.
  cbn [with_critical reads]. rewrite Hr1. fold (now clock s). fold due. clearbody due.
  unfold bind at 1, add_pending_timer. unfold bind at 1, get, list_fuel. cbn [find_later with_read with_critical timer_list].
  rewrite Hl1. destruct (pending_elem s _ q Hp) as [Hv _]; [left|]. rewrite (proj2 (Z.eqb_neq q 0)) by (unfold valid in Hv; lia).
  unfold bind at 1. unfold bind at 1, load. cbn. rewrite Hq1. unfold bind at 1, sub32.
  rewrite (proj2 (andb_false_iff _ _)); [done|]. left. apply Z.leb_gt. unfold s32. divlia.
Qed.
End Overflow.

(** ** Concrete runs *)

Module TimerDemo.

Definition blank (m : gmap Z ets_timer_t) (p : Z) : state Z :=
  {| mem := m; timer_list := p; alarm := 0; ctrl := 0; load_ := 0; int_enable := 0; isr_unmasked := false;
     task_created := false; notified := false; critical := 0; reads := 0; app := 0 |}.

(** A timer with a callback that adds its argument to the application's number. *)
Definition timer_at (nx ticks : Z) : ets_timer_t :=
  {| next := nx; fire_ticks := ticks; period_ticks := 0; callback := 1; timer_arg := 7 |}.

Definition add_effect (f x n : Z) : Z := n + x.
Definition add_call (f x : Z) : M (state Z) unit := fun s => Done (tt, with_app s (add_effect f x (app s))).

(** A callback that arms its timer again. *)
Definition again (f x n : Z) : list api_call := [Arm x 20 false true].

Definition after (m : M (state Z) unit) (s : state Z) : state Z :=
  match m s with Done (_, s') => s' | _ => s end.

Definition ticking (k : nat) : Z := 1000 + 30000 * Z.of_nat k.

(** A timer that fires every [period] ticks, and a counter that runs on. *)
Definition every (period ticks : Z) : ets_timer_t :=
  {| next := 0; fire_ticks := ticks; period_ticks := period; callback := 1; timer_arg := 7 |}.
Definition running (k : nat) : Z := 4000 + 300 * Z.of_nat k.
Definition call_of (c : api_call) : M (state Z) unit := run_call ticking c.

Definition s0 := after sdk_ets_timer_init (blank ∅ 0).
Definition s1 := after (call_of (Setfn 16 1 16)) s0.
Definition s2 := after (call_of (Arm 16 10 false true)) s1.
Definition s3 := after frc2_isr s2.
Definition s4 := after (timer_task_turn ticking (api_callback ticking again add_effect) 3) s3.

Lemma s4_reachable : reachable ticking again add_effect s4.
Proof.
  apply (reach_step _ _ _ s3); [|by apply (step_task _ _ _ 3); vm_compute].
  apply (reach_step _ _ _ s2); [|by apply step_isr].
  apply (reach_step _ _ _ s1); [|by apply (step_call _ _ _ (Arm 16 10 false true)); vm_compute].
  apply (reach_step _ _ _ s0); [|by apply (step_call _ _ _ (Setfn 16 1 16)); vm_compute].
  by apply (reach_init _ _ _ (blank ∅ 0)).
Qed.

Lemma alone_pending t1 : next t1 = 0 -> pending (blank {[16 := t1]} 16) [16].
Proof.
  intros Hn. assert (Hl : forall a t, ({[16 := t1]} : gmap Z ets_timer_t) !! a = Some t -> a = 16 /\ t = t1)
    by (intros a t [<- <-]%lookup_singleton_Some; done).
  split; cbn.
  - split; [done|]. split; [by split|]. eexists. split; [apply lookup_singleton_Some; done|done].
  - apply NoDup_singleton.
  - repeat constructor.
  - intros a [t [-> _]%Hl]. by split.
  - intros a t [-> ->]%Hl. rewrite Hn. split; [by left|done].
Qed.

Lemma one_pending nx ticks : nx = 0 -> pending (blank {[16 := timer_at nx ticks]} 16) [16].
Proof. intros ->. by apply alone_pending. Qed.

End TimerDemo.

Import TimerDemo.

(** A timer armed, fired and armed again by its own callback. *)
Lemma ets_timer_list_invariant_witness : exists l, seg (mem s4) (timer_list s4) l 0 /\ 16 ∈ l.
Proof.
  destruct (ets_timer_list_invariant ticking again add_effect s4 s4_reachable) as (l & H1 & _ & _ & H2).
  exists l. split; [exact H1|]. eapply H2; [vm_compute; reflexivity|]. vm_compute. discriminate.
Defined.

(** A timer of 1000 ticks, 1000 ticks late, and a counter that runs on: the
    timer is called until it is in time again. *)
Lemma ets_timers_due_are_called_witness :
  exists fuel s' fired, process_pending_timers running add_call fuel (blank {[16 := every 1000 3000]} 16) = Done (tt, s') /\
    16 ∈ fired /\ app s' = foldl (act add_effect {[16 := every 1000 3000]}) 0 fired.
Proof.
  destruct (ets_timers_due_are_called running add_call add_effect 8000 1000 14) with
    (s := blank {[16 := every 1000 3000]} 16) (l := [16]) as (n & H).
  - reflexivity.
  - intros j k Hjk. unfold tm. unfold running. rewrite !s32_u32, !s32_small by lia. lia.
  - intros k Hk. unfold tm. unfold running. rewrite !s32_u32, !s32_small by lia. lia.
  - lia.
  - apply alone_pending. reflexivity.
  - intros a t _ Ht. cbn [mem blank] in Ht. apply lookup_singleton_Some in Ht as [<- <-]. vm_compute. repeat split; discriminate.
  - vm_compute. lia.
  - destruct (H n (Nat.le_refl n)) as (s' & l' & fired & E & _ & _ & Ha & Hd & _).
    exists n, s', fired. split; [exact E|]. split; [|exact Ha]. apply Hd; [left|]. vm_compute. discriminate.
Defined.

Lemma ets_timer_arm_overflow_witness :
  sdk_ets_timer_arm_us (fun _ => 0x7fffff00) 32 100 false
    (blank (<[32 := timer_at ETS_TIMER_NOT_ARMED 0]> {[16 := timer_at 0 0x7ffffff0]}) 16) = Undefined.
Proof.
  apply (ets_timer_arm_overflow (fun _ => 0x7fffff00) _ 16 [] (timer_at 0 0x7ffffff0) 32 (timer_at ETS_TIMER_NOT_ARMED 0) 100 false false).
  - apply (pending_store_other _ 16 [16]); [by apply (one_pending 0)| |by split|reflexivity].
    intros H. apply list_elem_of_singleton in H. discriminate.
  - reflexivity.
  - reflexivity.
  - reflexivity.
  - cbn. lia.
  - vm_compute. split; [discriminate|reflexivity].
Defined.
