(* ===== verification/I2c.v ===== *)
(** * The I2C bus master: [extras/i2c/i2c.c]

    All functions of the file in the default configuration
    ([I2C_USE_GPIO16] is 0).  The hardware they use (GPIO registers, the time
    a delay loop takes, the tick counter and the CPU frequency) is the class
    [Gpio]; the array [i2c_bus] is part of the state. *)

From S2P Require Import Prelude.
Open Scope Z_scope.

Module I2c.

(** The hardware.  [GPIO_IN] reads the input register; reading is an
    operation on the state because the other side of the wires may move. *)
Class Gpio (H : Type) := {
  gpio_set_pullup : Z -> H -> H;
  gpio_enable_open_drain : Z -> H -> H;
  gpio_write : Z -> bool -> H -> H;
  GPIO_OUT_SET : Z -> H -> H;
  GPIO_OUT_CLEAR : Z -> H -> H;
  GPIO_IN : H -> Z * H;
  delay_rounds : Z -> H -> H;
  xTaskGetTickCount : H -> Z;
  vTaskDelay : Z -> H -> H;
  cpu_freq_160 : H -> bool;
}.

(** The results of the functions: 0 or a negative error number. *)
Inductive result := I2C_OK | EINVAL | ENOTSUP | EBUSY | EIO.

#[export] Instance result_eq_dec : EqDecision result.
Proof. solve_decision. Defined.

Definition DELAY_LOOPS_PER_US_160MHZ : Z := 40.
Definition DELAY_OVERHEAD_80MHZ : Z := 12.
Definition DELAY_OVERHEAD_160MHZ : Z := 14.
Definition I2C_MAX_BUS : Z := 2.
Definition I2C_MAX_PIN : Z := 15.
Definition portTICK_PERIOD_MS : Z := 10.
Definition I2C_DEFAULT_CLK_STRETCH : Z := 250 / portTICK_PERIOD_MS.
Definition I2C_CLK_STRETCH_SPIN : nat := 1024.

Record i2c_bus_description_t := {
  g_scl_mask : Z;
  g_sda_mask : Z;
  delay_80 : Z;
  delay_160 : Z;
  delay : Z;
  started : bool;
  flag : bool;
  force : bool;
  clk_stretch : Z;
}.

Inductive i2c_freq_t :=
| I2C_FREQ_80K | I2C_FREQ_100K | I2C_FREQ_400K | I2C_FREQ_500K
| I2C_FREQ_600K | I2C_FREQ_800K | I2C_FREQ_1000K | I2C_FREQ_1300K.

Definition freq_t_to_hz (freq : i2c_freq_t) : Z :=
  match freq with
  | I2C_FREQ_80K => 80000
  | I2C_FREQ_100K => 100000
  | I2C_FREQ_400K => 400000
  | I2C_FREQ_500K => 500000
  | I2C_FREQ_600K => 600000
  | I2C_FREQ_800K => 800000
  | I2C_FREQ_1000K => 1000000
  | I2C_FREQ_1300K => 1300000
  end.

Definition set_started (d : i2c_bus_description_t) (v : bool) : i2c_bus_description_t :=
  {| g_scl_mask := g_scl_mask d; g_sda_mask := g_sda_mask d; delay_80 := delay_80 d; delay_160 := delay_160 d;
     delay := delay d; started := v; flag := flag d; force := force d; clk_stretch := clk_stretch d |}.
Definition set_flag (d : i2c_bus_description_t) (v : bool) : i2c_bus_description_t :=
  {| g_scl_mask := g_scl_mask d; g_sda_mask := g_sda_mask d; delay_80 := delay_80 d; delay_160 := delay_160 d;
     delay := delay d; started := started d; flag := v; force := force d; clk_stretch := clk_stretch d |}.
Definition set_force (d : i2c_bus_description_t) (v : bool) : i2c_bus_description_t :=
  {| g_scl_mask := g_scl_mask d; g_sda_mask := g_sda_mask d; delay_80 := delay_80 d; delay_160 := delay_160 d;
     delay := delay d; started := started d; flag := flag d; force := v; clk_stretch := clk_stretch d |}.
Definition set_delay (d : i2c_bus_description_t) (v : Z) : i2c_bus_description_t :=
  {| g_scl_mask := g_scl_mask d; g_sda_mask := g_sda_mask d; delay_80 := delay_80 d; delay_160 := delay_160 d;
     delay := v; started := started d; flag := flag d; force := force d; clk_stretch := clk_stretch d |}.
Definition set_delays (d : i2c_bus_description_t) (v80 v160 : Z) : i2c_bus_description_t :=
  {| g_scl_mask := g_scl_mask d; g_sda_mask := g_sda_mask d; delay_80 := v80; delay_160 := v160;
     delay := delay d; started := started d; flag := flag d; force := force d; clk_stretch := clk_stretch d |}.
Definition set_clk_stretch (d : i2c_bus_description_t) (v : Z) : i2c_bus_description_t :=
  {| g_scl_mask := g_scl_mask d; g_sda_mask := g_sda_mask d; delay_80 := delay_80 d; delay_160 := delay_160 d;
     delay := delay d; started := started d; flag := flag d; force := force d; clk_stretch := v |}.
Definition set_masks (d : i2c_bus_description_t) (scl sda : Z) : i2c_bus_description_t :=
  {| g_scl_mask := scl; g_sda_mask := sda; delay_80 := delay_80 d; delay_160 := delay_160 d;
     delay := delay d; started := started d; flag := flag d; force := force d; clk_stretch := clk_stretch d |}.

Section I2c.
Context {H : Type} `{!Gpio H}.

Record world := {
  i2c_bus : Z -> i2c_bus_description_t;
  hw : H;
  critical : Z;
}.

(** [i2c_bus[bus]], for an index inside the array. *)
Definition desc (bus : Z) : M world i2c_bus_description_t := fun w =>
  if (0 <=? bus) && (bus <? I2C_MAX_BUS) then Done (i2c_bus w bus, w) else Undefined.
Definition update (bus : Z) (f : i2c_bus_description_t -> i2c_bus_description_t) : M world unit := fun w =>
  if (0 <=? bus) && (bus <? I2C_MAX_BUS) then
    Done (tt, {| i2c_bus := fun b => if b =? bus then f (i2c_bus w b) else i2c_bus w b; hw := hw w; critical := critical w |})
  else Undefined.
Definition gpio (f : H -> H) : M world unit :=
  modify (fun w => {| i2c_bus := i2c_bus w; hw := f (hw w); critical := critical w |}).
Definition taskENTER_CRITICAL : M world unit :=
  modify (fun w => {| i2c_bus := i2c_bus w; hw := hw w; critical := critical w + 1 |}).
Definition taskEXIT_CRITICAL : M world unit :=
  modify (fun w => {| i2c_bus := i2c_bus w; hw := hw w; critical := critical w - 1 |}).

Definition i2c_status (bus : Z) : M world bool :=
  let! d := desc bus in ret (started d).

(** A delay clipped to 8 bits, and whether it had to be. *)
Definition clip (d : Z) : Z * bool :=
  if 255 <? d then (255, true) else if d <? 0 then (0, true) else (d, false).

Definition i2c_set_frequency_hz (bus freq : Z) : M world result :=
  if freq =? 0 then ret EINVAL
  else if u32 (2 * freq) =? 0 then undefined
  else
    let tick_count := (1000000 * DELAY_LOOPS_PER_US_160MHZ) / u32 (2 * freq) in
    let '(d80, bad80) := clip (s32 (tick_count / 2 - DELAY_OVERHEAD_80MHZ)) in
    let '(d160, bad160) := clip (s32 (tick_count - DELAY_OVERHEAD_160MHZ)) in
    do! update bus (fun d => set_delays d d80 d160) then
    ret (if bad80 || bad160 then EINVAL else I2C_OK).

Definition i2c_set_frequency (bus : Z) (freq : i2c_freq_t) : M world result :=
  i2c_set_frequency_hz bus (freq_t_to_hz freq).

Definition BIT (n : Z) : Z := Z.shiftl 1 n.

Definition i2c_init_hz (bus scl_pin sda_pin freq : Z) : M world result :=
  if I2C_MAX_BUS <=? bus then ret EINVAL
  else if (I2C_MAX_PIN <? scl_pin) || (I2C_MAX_PIN <? sda_pin) then ret EINVAL
  else
    do! update bus (fun d => set_started d false) then
    do! update bus (fun d => set_flag d false) then
    do! update bus (fun d => set_masks d (BIT scl_pin) (BIT sda_pin)) then
    do! update bus (fun d => set_clk_stretch d I2C_DEFAULT_CLK_STRETCH) then
    do! gpio (gpio_set_pullup scl_pin) then
    do! gpio (gpio_set_pullup sda_pin) then
    do! gpio (gpio_enable_open_drain scl_pin) then
    do! gpio (gpio_enable_open_drain sda_pin) then
    do! gpio (gpio_write scl_pin true) then
    do! gpio (gpio_write sda_pin true) then
    let! r := i2c_set_frequency_hz bus freq in
    if negb (bool_decide (r = I2C_OK)) then ret ENOTSUP else ret I2C_OK.

Definition i2c_init (bus scl_pin sda_pin : Z) (freq : i2c_freq_t) : M world result :=
  i2c_init_hz bus scl_pin sda_pin (freq_t_to_hz freq).

Definition i2c_set_clock_stretch (bus v : Z) : M world unit := update bus (fun d => set_clk_stretch d v).

(** The rounds of the loop [do delay--; while (delay != 0);] on a 32-bit
    register: from 0 it counts all the way round. *)
Definition loop_rounds (d : Z) : Z := u32 (d - 1) + 1.

Definition i2c_delay (bus : Z) : M world unit :=
  let! d := desc bus in gpio (delay_rounds (loop_rounds (delay d))).

(** [GPIO.IN & mask]. *)
Definition read_mask (mask : Z) : M world bool := fun w =>
  let '(v, h) := GPIO_IN (hw w) in
  Done (negb (Z.land v mask =? 0), {| i2c_bus := i2c_bus w; hw := h; critical := critical w |}).

Definition read_scl (bus : Z) : M world bool := let! d := desc bus in read_mask (g_scl_mask d).
Definition read_sda (bus : Z) : M world bool := let! d := desc bus in read_mask (g_sda_mask d).
Definition clear_scl (bus : Z) : M world unit := let! d := desc bus in gpio (GPIO_OUT_CLEAR (g_scl_mask d)).
Definition clear_sda (bus : Z) : M world unit := let! d := desc bus in gpio (GPIO_OUT_CLEAR (g_sda_mask d)).
Definition set_sda (bus : Z) : M world unit := let! d := desc bus in gpio (GPIO_OUT_SET (g_sda_mask d)).

(** The frequent sampling: is SCL seen high within [n] samples? *)
Fixpoint stretch_spin (n : nat) (bus : Z) : M world bool :=
  match n with
  | O => ret false
  | S n => let! high := read_scl bus in if high : bool then ret true else stretch_spin n bus
  end.

(** The longer wait, until SCL is high or [limit] ticks have passed. *)
Fixpoint stretch_wait (fuel : nat) (bus start limit : Z) : M world unit :=
  match fuel with
  | O => out_of_fuel
  | S fuel =>
    do! gpio (vTaskDelay (20 / portTICK_PERIOD_MS)) then
    let! high := read_scl bus in
    if high : bool then ret tt
    else
      let! w := get in
      let elapsed := u32 (xTaskGetTickCount (hw w) - start) in
      if limit <? elapsed then ret tt else stretch_wait fuel bus start limit
  end.

Definition set_scl (bus : Z) : M world unit :=
  let! d := desc bus in
  do! gpio (GPIO_OUT_SET (g_scl_mask d)) then
  let! high := stretch_spin I2C_CLK_STRETCH_SPIN bus in
  if high : bool then ret tt
  else
    let! d := desc bus in
    let! w := get in
    stretch_wait (Z.to_nat (clk_stretch d) + 2) bus (xTaskGetTickCount (hw w)) (clk_stretch d).

(** The samples of SDA that only decide about a debug message are kept, as
    reads of the input register. *)
Definition i2c_start (bus : Z) : M world unit :=
  let! w := get in
  do! (if cpu_freq_160 (hw w) then update bus (fun d => set_delay d (delay_160 d))
       else update bus (fun d => set_delay d (delay_80 d))) then
  let! d := desc bus in
  do! (if started d then
         do! set_sda bus then
         do! i2c_delay bus then
         do! set_scl bus then
         i2c_delay bus
       else ret tt) then
  do! update bus (fun d => set_started d true) then
  do! set_sda bus then
  let! _ := read_sda bus in
  do! clear_sda bus then
  do! i2c_delay bus then
  clear_scl bus.

Definition i2c_stop (bus : Z) : M world bool :=
  do! clear_sda bus then
  do! i2c_delay bus then
  do! set_scl bus then
  do! i2c_delay bus then
  do! set_sda bus then
  do! i2c_delay bus then
  let! _ := read_sda bus in
  do! i2c_delay bus then
  let! d := desc bus in
  if negb (started d) then ret false
  else
    do! update bus (fun d => set_started d false) then
    ret true.

Definition i2c_write_bit (bus : Z) (bit : bool) : M world unit :=
  do! (if bit then set_sda bus else clear_sda bus) then
  do! i2c_delay bus then
  do! set_scl bus then
  do! (if bit then let! _ := read_sda bus in ret tt else ret tt) then
  do! i2c_delay bus then
  clear_scl bus.

Definition i2c_read_bit (bus : Z) : M world bool :=
  do! set_sda bus then
  do! i2c_delay bus then
  do! set_scl bus then
  let! bit := read_sda bus in
  do! i2c_delay bus then
  do! clear_scl bus then
  ret bit.

(** [n] bits of [byte] are left. *)
Fixpoint write_bits (n : nat) (bus byte : Z) : M world unit :=
  match n with
  | O => ret tt
  | S n =>
    do! i2c_write_bit bus (negb (Z.land byte 0x80 =? 0)) then
    write_bits n bus (u8 (Z.shiftl byte 1))
  end.

(** The result: was the byte acknowledged? *)
Definition i2c_write (bus byte : Z) : M world bool :=
  do! write_bits 8 bus byte then
  let! nack := i2c_read_bit bus in
  ret (negb nack).

Fixpoint read_bits (n : nat) (bus byte : Z) : M world Z :=
  match n with
  | O => ret byte
  | S n =>
    let! bit := i2c_read_bit bus in
    read_bits n bus (u8 (Z.lor (Z.shiftl byte 1) (Z.b2z bit)))
  end.

Definition i2c_read (bus : Z) (ack : bool) : M world Z :=
  let! byte := read_bits 8 bus 0 in
  do! i2c_write_bit bus ack then
  ret byte.

Definition i2c_force_bus (bus : Z) (state : bool) : M world unit := update bus (fun d => set_force d state).

Definition i2c_bus_test (bus : Z) : M world result :=
  do! taskENTER_CRITICAL then
  let! d := desc bus in
  let status := flag d in
  if force d then
    do! update bus (fun d => set_flag d true) then
    do! taskEXIT_CRITICAL then
    do! (if status then let! _ := i2c_stop bus in ret tt else ret tt) then
    ret I2C_OK
  else if status then
    do! taskEXIT_CRITICAL then
    ret EBUSY
  else
    do! update bus (fun d => set_flag d true) then
    do! taskEXIT_CRITICAL then
    ret I2C_OK.

(** Bytes written until one is not acknowledged. *)
Fixpoint write_all (bus : Z) (bytes : list Z) : M world bool :=
  match bytes with
  | [] => ret true
  | b :: bytes =>
    let! ok := i2c_write bus b in
    if negb ok then ret false else write_all bus bytes
  end.

(** The end of a transfer: the stop condition and the label [error]. *)
Definition finish (bus : Z) (ok : bool) : M world result :=
  let! stopped := (if ok then i2c_stop bus else ret false) in
  if stopped : bool then
    do! update bus (fun d => set_flag d false) then
    ret I2C_OK
  else
    let! _ := i2c_stop bus in
    do! update bus (fun d => set_flag d false) then
    ret EIO.

(** [data] is [None] for a null pointer; [buf] are the bytes written. *)
Definition i2c_slave_write (bus slave_addr : Z) (data : option Z) (buf : list Z) : M world result :=
  let! r := i2c_bus_test bus in
  if negb (bool_decide (r = I2C_OK)) then ret EBUSY
  else
    do! i2c_start bus then
    let! ok := i2c_write bus (u8 (Z.shiftl slave_addr 1)) in
    let! ok := (if negb ok then ret false
                else match data with None => ret true | Some reg => i2c_write bus reg end) in
    let! ok := (if negb ok then ret false else write_all bus buf) in
    finish bus ok.

(** The bytes stored to [buf]. *)
Fixpoint read_all (len : nat) (bus : Z) : M world (list Z) :=
  match len with
  | O => ret []
  | S len =>
    let! b := i2c_read bus (Nat.eqb len 0) in
    let! bs := read_all len bus in
    ret (b :: bs)
  end.

Definition i2c_slave_read (bus slave_addr : Z) (data : option Z) (len : nat) : M world (result * list Z) :=
  let! r := i2c_bus_test bus in
  if negb (bool_decide (r = I2C_OK)) then ret (EBUSY, [])
  else
    let! ok := (match data with
                | None => ret true
                | Some reg =>
                  do! i2c_start bus then
                  let! ok := i2c_write bus (u8 (Z.shiftl slave_addr 1)) in
                  if negb ok then ret false else i2c_write bus reg
                end) in
    let! (ok, bs) := (if negb ok then ret (false, [])
                      else
                        do! i2c_start bus then
                        let! ok := i2c_write bus (u8 (Z.lor (Z.shiftl slave_addr 1) 1)) in
                        if negb ok then ret (false, [])
                        else let! bs := read_all len bus in ret (true, bs)) in
    let! r := finish bus ok in
    ret (r, bs).

End I2c.
Arguments world : clear implicits.
End I2c.
