(* ===== verification/I2cWires.v ===== *)
(** * The two wires of the I2C bus

    The bus behind the GPIO registers: both wires are pulled up, the master
    and the device can pull SDA low, and the device may hold SCL low for some
    samples at every clock pulse.  The device (class [I2cSlave]) sees start
    and stop conditions and one bit per clock pulse.  The lemmas say what the
    bit functions of [extras/i2c/i2c.c] do to it. *)

From S2P Require Import Prelude I2c.
Open Scope Z_scope.

Import I2c.

(** A device: [s_out] is the level it leaves on SDA for the coming pulse. *)
Class I2cSlave (S : Type) := {
  s_start : S -> S;
  s_stop : S -> S;
  s_clock : bool -> S -> S;
  s_out : S -> bool;
}.

(** How the bus [bus] is wired: the pins, whether the CPU runs at 160 MHz, and
    for how many samples the device holds SCL low at the [n]-th pulse. *)
Class Wiring := {
  scl_pin : Z;
  sda_pin : Z;
  pins : 0 <= scl_pin /\ 0 <= sda_pin /\ scl_pin <> sda_pin;
  fast : bool;
  stretch : nat -> nat;
  stretch_short n : (stretch n < I2C_CLK_STRETCH_SPIN)%nat;
  bus : Z;
  bus_range : 0 <= bus < I2C_MAX_BUS;
}.

Section Wires.
Context {S : Type} `{HS : !I2cSlave S} `{HW : Wiring}.

(** [scl] and [sda]: does the master release the wire?  [sampled] is the bit
    of the pulse in progress. *)
Record wires := {
  scl : bool;
  sda : bool;
  held : nat;
  pulse : nat;
  sampled : option bool;
  slave : S;
  ticks : Z;
  rounds : Z;
}.

Definition line_sda (h : wires) : bool := sda h && s_out (slave h).
Definition scl_high (h : wires) : bool := scl h && Nat.eqb (held h) 0.

Definition with_scl (h : wires) (v : bool) (n p : nat) (b : option bool) (s : S) : wires :=
  {| scl := v; sda := sda h; held := n; pulse := p; sampled := b; slave := s; ticks := ticks h; rounds := rounds h |}.
Definition with_sda (h : wires) (v : bool) (b : option bool) (s : S) : wires :=
  {| scl := scl h; sda := v; held := held h; pulse := pulse h; sampled := b; slave := s; ticks := ticks h; rounds := rounds h |}.

Definition release_scl (h : wires) : wires :=
  if scl h then h
  else with_scl h true (stretch (pulse h)) (Datatypes.S (pulse h))
         (if Nat.eqb (stretch (pulse h)) 0 then Some (line_sda h) else None) (slave h).

Definition pull_scl (h : wires) : wires :=
  if scl h then with_scl h false 0 (pulse h) None (match sampled h with Some b => s_clock b (slave h) | None => slave h end)
  else h.

(** SDA changes while SCL is high are the start and stop conditions. *)
Definition release_sda (h : wires) : wires :=
  if sda h then h
  else if scl_high h && s_out (slave h) then with_sda h true None (s_stop (slave h))
  else with_sda h true (sampled h) (slave h).

Definition pull_sda (h : wires) : wires :=
  if negb (sda h) then h
  else if scl_high h && s_out (slave h) then with_sda h false None (s_start (slave h))
  else with_sda h false (sampled h) (slave h).

(** A sample of the input register brings the end of a stretched pulse nearer. *)
Definition sample (h : wires) : Z * wires :=
  (Z.lor (if scl_high h then BIT scl_pin else 0) (if line_sda h then BIT sda_pin else 0),
   match held h with
   | O => h
   | Datatypes.S n => with_scl h (scl h) n (pulse h) (if Nat.eqb n 0 then Some (line_sda h) else sampled h) (slave h)
   end).

#[export] Instance wires_gpio : Gpio wires := {
  gpio_set_pullup _ h := h;
  gpio_enable_open_drain _ h := h;
  gpio_write pin v h :=
    if pin =? scl_pin then (if v then release_scl h else pull_scl h)
    else if pin =? sda_pin then (if v then release_sda h else pull_sda h) else h;
  GPIO_OUT_SET mask h := if mask =? BIT scl_pin then release_scl h else if mask =? BIT sda_pin then release_sda h else h;
  GPIO_OUT_CLEAR mask h := if mask =? BIT scl_pin then pull_scl h else if mask =? BIT sda_pin then pull_sda h else h;
  GPIO_IN := sample;
  delay_rounds n h :=
    {| scl := scl h; sda := sda h; held := held h; pulse := pulse h; sampled := sampled h; slave := slave h;
       ticks := ticks h; rounds := rounds h + n |};
  xTaskGetTickCount := ticks;
  vTaskDelay n h :=
    {| scl := scl h; sda := sda h; held := held h; pulse := pulse h; sampled := sampled h; slave := slave h;
       ticks := ticks h + n; rounds := rounds h |};
  cpu_freq_160 _ := fast;
}.

Abbreviation W := (world wires).
Implicit Types w : W.

Lemma bit_neq : (BIT sda_pin =? BIT scl_pin) = false.
Proof.
  pose proof pins. unfold BIT. rewrite !Z.shiftl_1_l. apply Z.eqb_neq. intros E. apply Z.pow_inj_r in E; lia.
Qed.

Lemma land_bits a b :
  (Z.land (Z.lor (if a : bool then BIT scl_pin else 0) (if b : bool then BIT sda_pin else 0)) (BIT scl_pin) =? 0) = negb a /\
  (Z.land (Z.lor (if a then BIT scl_pin else 0) (if b then BIT sda_pin else 0)) (BIT sda_pin) =? 0) = negb b.
Proof.
  pose proof pins. unfold BIT. rewrite !Z.shiftl_1_l. assert (E : Z.land (2 ^ scl_pin) (2 ^ sda_pin) = 0).
  { apply Z.bits_inj'. intros n Hn. rewrite Z.land_spec, Z.bits_0, !Z.pow2_bits_eqb by lia.
    destruct (scl_pin =? n) eqn:E1, (sda_pin =? n) eqn:E2; zbool; (done || lia). }
  pose proof (Z.pow_pos_nonneg 2 scl_pin). pose proof (Z.pow_pos_nonneg 2 sda_pin).
  destruct a, b; rewrite ?Z.lor_0_l, ?Z.lor_0_r, ?Z.land_lor_distr_l, ?Z.land_diag, ?Z.land_0_l, ?E, ?(Z.land_comm (2 ^ sda_pin) (2 ^ scl_pin)), ?E, ?Z.lor_0_l, ?Z.lor_0_r;
    split; (done || (apply Z.eqb_neq; lia)).
Qed.

(** ** Steps of the bus *)

(** The descriptor [d], the nesting [c] of critical sections, and the wires
    and the device. *)
Record here w (d : i2c_bus_description_t) (c : Z) (vscl vsda : bool) (b : option bool) (s : S) : Prop := {
  h_desc : i2c_bus w bus = d;
  h_critical : critical w = c;
  h_scl : scl (hw w) = vscl;
  h_sda : sda (hw w) = vsda;
  h_held : held (hw w) = 0%nat;
  h_sampled : sampled (hw w) = b;
  h_slave : slave (hw w) = s;
}.

Definition connected (d : i2c_bus_description_t) : Prop := g_scl_mask d = BIT scl_pin /\ g_sda_mask d = BIT sda_pin.

(** From such a state [m] gives [r] and leads to another one. *)
Definition goes {A} (m : M W A) w (r : A) d c vscl vsda b s : Prop :=
  exists w', m w = Done (r, w') /\ here w' d c vscl vsda b s.

Lemma goes_bind {A B} (m : M W A) (k : A -> M W B) w r d c v1 v2 b s r' d' c' v1' v2' b' s' :
  goes m w r d c v1 v2 b s -> (forall w', here w' d c v1 v2 b s -> goes (k r) w' r' d' c' v1' v2' b' s') ->
  goes (let! x := m in k x) w r' d' c' v1' v2' b' s'.
Proof. intros (w' & E & Hh) Hk. destruct (Hk w' Hh) as (w'' & E' & Hh'). exists w''. split; [by run E|done]. Qed.

Lemma goes_ret {A} (r : A) w d c v1 v2 b s : here w d c v1 v2 b s -> goes (ret r) w r d c v1 v2 b s.
Proof. intros Hh. by exists w. Qed.

Lemma desc_Done w : desc bus w = Done (i2c_bus w bus, w).
Proof.
  pose proof bus_range. unfold desc. rewrite (proj2 (andb_true_iff _ _)); [done|]. split; [apply Z.leb_le|apply Z.ltb_lt]; lia.
Qed.

Lemma desc_goes w d c v1 v2 b s : here w d c v1 v2 b s -> goes (desc bus) w d d c v1 v2 b s.
Proof. intros Hh. exists w. rewrite desc_Done. by rewrite (h_desc _ _ _ _ _ _ _ Hh). Qed.

Lemma update_goes f w d c v1 v2 b s : here w d c v1 v2 b s -> goes (update bus f) w tt (f d) c v1 v2 b s.
Proof.
  intros [Hd Hc H1 H2 H3 H4 H5]. pose proof bus_range. unfold goes, update. rewrite (proj2 (andb_true_iff _ _)) by (split; [apply Z.leb_le|apply Z.ltb_lt]; lia).
  eexists. split; [reflexivity|]. split; cbn; try done. by rewrite Z.eqb_refl, Hd.
Qed.

Lemma delay_goes w d c v1 v2 b s : here w d c v1 v2 b s -> goes (i2c_delay bus) w tt d c v1 v2 b s.
Proof. intros Hh. unfold i2c_delay. eapply goes_bind; [by apply desc_goes|]. intros w' []. eexists. split; [reflexivity|]. by split. Qed.

(** SDA moves freely while SCL is low. *)
Lemma set_sda_low w d c v b s : connected d -> here w d c false v b s -> goes (set_sda bus) w tt d c false true b s.
Proof.
  intros [_ Hm] Hh. unfold set_sda. eapply goes_bind; [by apply desc_goes|]. intros w' [Hd Hc H1 H2 H3 H4 H5].
  eexists. split; [reflexivity|]. split; cbn; try done; rewrite Hm, bit_neq, Z.eqb_refl; unfold release_sda, scl_high; rewrite H1, H2;
    destruct v; cbn; done.
Qed.

Lemma clear_sda_low w d c v b s : connected d -> here w d c false v b s -> goes (clear_sda bus) w tt d c false false b s.
Proof.
  intros [_ Hm] Hh. unfold clear_sda. eapply goes_bind; [by apply desc_goes|]. intros w' [Hd Hc H1 H2 H3 H4 H5].
  eexists. split; [reflexivity|]. split; cbn; try done; rewrite Hm, bit_neq, Z.eqb_refl; unfold pull_sda, scl_high; rewrite H1, H2;
    destruct v; cbn; done.
Qed.

(** The start and the stop condition. *)
Lemma clear_sda_high w d c b s : connected d -> here w d c true true b s -> s_out s = true ->
  goes (clear_sda bus) w tt d c true false None (s_start s).
Proof.
  intros [_ Hm] Hh Ho. unfold clear_sda. eapply goes_bind; [by apply desc_goes|]. intros w' [Hd Hc H1 H2 H3 H4 H5].
  eexists. split; [reflexivity|]. split; cbn; try done; rewrite Hm, bit_neq, Z.eqb_refl; unfold pull_sda, scl_high; rewrite H1, H2, H3, H5, Ho; done.
Qed.

Lemma set_sda_high w d c b s : connected d -> here w d c true false b s -> s_out s = true ->
  goes (set_sda bus) w tt d c true true None (s_stop s).
Proof.
  intros [_ Hm] Hh Ho. unfold set_sda. eapply goes_bind; [by apply desc_goes|]. intros w' [Hd Hc H1 H2 H3 H4 H5].
  eexists. split; [reflexivity|]. split; cbn; try done; rewrite Hm, bit_neq, Z.eqb_refl; unfold release_sda, scl_high; rewrite H1, H2, H3, H5, Ho; done.
Qed.

Lemma set_sda_same w d c v1 b s : connected d -> here w d c v1 true b s -> goes (set_sda bus) w tt d c v1 true b s.
Proof.
  intros [_ Hm] Hh. unfold set_sda. eapply goes_bind; [by apply desc_goes|]. intros w' [Hd Hc H1 H2 H3 H4 H5].
  eexists. split; [reflexivity|]. split; cbn; try done; rewrite Hm, bit_neq, Z.eqb_refl; unfold release_sda; rewrite H2; done.
Qed.

(** The falling edge of SCL gives the device the bit of the pulse. *)
Lemma clear_scl_goes w d c v b s : connected d -> here w d c true v b s ->
  goes (clear_scl bus) w tt d c false v None (match b with Some x => s_clock x s | None => s end).
Proof.
  intros [Hm _] Hh. unfold clear_scl. eapply goes_bind; [by apply desc_goes|]. intros w' [Hd Hc H1 H2 H3 H4 H5].
  eexists. split; [reflexivity|]. split; cbn; try done; rewrite Hm, Z.eqb_refl; unfold pull_scl; rewrite H1; cbn; try done. by rewrite H4, H5.
Qed.

Lemma read_sda_goes w d c v1 v2 b s : connected d -> here w d c v1 v2 b s ->
  goes (read_sda bus) w (v2 && s_out s) d c v1 v2 b s.
Proof.
  intros [_ Hm] Hh. unfold read_sda. eapply goes_bind; [by apply desc_goes|]. intros w' [Hd Hc H1 H2 H3 H4 H5].
  exists w'. unfold read_mask. cbn. rewrite H3, Hm.
  destruct (land_bits (scl_high (hw w')) (line_sda (hw w'))) as [_ ->]. rewrite negb_involutive. unfold line_sda. rewrite H2, H5.
  split; [|done]. by destruct w'.
Qed.

(** A pulse the device stretches is waited for. *)
Lemma spin_goes k : forall n w d c v s,
  connected d -> i2c_bus w bus = d -> critical w = c -> scl (hw w) = true -> sda (hw w) = v -> slave (hw w) = s ->
  held (hw w) = k -> sampled (hw w) = (if Nat.eqb k 0 then Some (v && s_out s) else None) -> (k < n)%nat ->
  goes (stretch_spin n bus) w true d c true v (Some (v && s_out s)) s.
Proof.
  induction k as [|k IH]; intros n w d c v s Hm Hd Hc H1 H2 H5 H3 H4 Hn; (destruct n as [|n]; [lia|]); cbn [stretch_spin];
    unfold goes, read_scl; rewrite bind_assoc; run (desc_Done w); rewrite Hd; destruct Hm as [Hm Hm']; rewrite Hm;
    unfold bind at 1, read_mask; cbn [GPIO_IN wires_gpio]; unfold sample; rewrite H3;
    destruct (land_bits (scl_high (hw w)) (line_sda (hw w))) as [-> _]; rewrite negb_involutive; unfold scl_high at 1; rewrite H1, H3; cbn [Nat.eqb andb].
  - eexists. split; [reflexivity|]. by split.
  - apply (IH n); cbn; try done; [|lia]. unfold line_sda. rewrite H2, H5, H4. by destruct k.
Qed.

Lemma set_scl_goes w d c v b s : connected d -> here w d c false v b s ->
  goes (set_scl bus) w tt d c true v (Some (v && s_out s)) s.
Proof.
  intros Hm Hh. unfold set_scl. eapply goes_bind; [by apply desc_goes|]. intros w1 [Hd Hc H1 H2 H3 H4 H5].
  unfold goes. erewrite bind_Done by reflexivity. set (w2 := {| i2c_bus := _ |}).
  assert (Hh2 : hw w2 = release_scl (hw w1)) by (cbn; destruct Hm as [-> _]; by rewrite Z.eqb_refl).
  unfold release_scl in Hh2. rewrite H1 in Hh2.
  destruct (spin_goes (stretch (pulse (hw w1))) I2C_CLK_STRETCH_SPIN w2 d c v s) as (w3 & E & Hh3); rewrite ?Hh2; try done; [|apply stretch_short|].
  { cbn. unfold line_sda. by rewrite H2, H5. }
  run E. by exists w3.
Qed.

(** ** Bits, bytes and conditions *)

(** Two steps in a row, with the state in between found by unification. *)
Ltac step L :=
  eapply goes_bind; [eapply L; eassumption|]; let w' := fresh "w" in let H' := fresh "Hh" in intros w' H'.

Lemma write_bit_goes w d c v b s bit : connected d -> here w d c false v b s ->
  goes (i2c_write_bit bus bit) w tt d c false bit None (s_clock (bit && s_out s) s).
Proof.
  intros Hm Hh. unfold i2c_write_bit.
  eapply (goes_bind _ _ _ tt d c false bit b s); [destruct bit; [by eapply set_sda_low|by eapply clear_sda_low]|]. intros w1 Hh1.
  step delay_goes. step set_scl_goes.
  apply (goes_bind _ _ _ tt d c true bit (Some (bit && s_out s)) s);
    [destruct bit; [eapply goes_bind; [by eapply read_sda_goes|]; intros; by apply goes_ret|by apply goes_ret]|].
  intros w3 Hh3. step delay_goes. by eapply clear_scl_goes in Hh4.
Qed.

Lemma read_bit_goes w d c v b s : connected d -> here w d c false v b s ->
  goes (i2c_read_bit bus) w (s_out s) d c false true None (s_clock (s_out s) s).
Proof.
  intros Hm Hh. unfold i2c_read_bit. step set_sda_low. step delay_goes. step set_scl_goes. step read_sda_goes. step delay_goes.
  step clear_scl_goes. by apply goes_ret.
Qed.

(** The bits of a byte, the highest first. *)
Fixpoint msb_bits (n : nat) (v : Z) : list bool :=
  match n with
  | O => []
  | Datatypes.S n => Z.testbit v (Z.of_nat n) :: msb_bits n v
  end.

(** What the device makes of the bits the master puts on the wire. *)
Definition clocks (bits : list bool) (s : S) : S := foldl (fun s b => s_clock (b && s_out s) s) s bits.

(** The bits [write_bits] takes from the byte. *)
Fixpoint shifted (n : nat) (byte : Z) : list bool :=
  match n with
  | O => []
  | Datatypes.S n => negb (Z.land byte 0x80 =? 0) :: shifted n (u8 (Z.shiftl byte 1))
  end.

Lemma shifted_msb v : byteP v -> shifted 8 v = msb_bits 8 v.
Proof.
  intros Hv. apply (bool_decide_eq_true_1 (shifted 8 v = msb_bits 8 v)). revert v Hv.
  apply (byte_check (fun v => bool_decide (shifted 8 v = msb_bits 8 v))). vm_compute. reflexivity.
Qed.

Lemma write_bits_goes n : forall w d c v s byte, connected d -> here w d c false v None s ->
  exists v', goes (write_bits n bus byte) w tt d c false v' None (clocks (shifted n byte) s).
Proof.
  induction n as [|n IH]; intros w d c v s byte Hm Hh; cbn [write_bits shifted clocks foldl]; [exists v; by apply goes_ret|].
  destruct (write_bit_goes w d c v None s (negb (Z.land byte 128 =? 0)) Hm Hh) as (w1 & E & Hh1).
  destruct (IH w1 d c _ _ (u8 (Z.shiftl byte 1)) Hm Hh1) as (v' & w2 & E2 & Hh2). exists v', w2. split; [by run E|done].
Qed.

(** A byte is written and its acknowledge bit read. *)
Lemma write_goes w d c v s byte : connected d -> here w d c false v None s -> byteP byte ->
  let s1 := clocks (msb_bits 8 byte) s in
  goes (i2c_write bus byte) w (negb (s_out s1)) d c false true None (s_clock (s_out s1) s1).
Proof.
  intros Hm Hh Hb. unfold i2c_write. destruct (write_bits_goes 8 w d c v s byte Hm Hh) as (v' & w1 & E & Hh1).
  rewrite shifted_msb in Hh1 by done. cbn zeta. eapply goes_bind; [by exists w1|]. clear w1 E Hh1. intros w1 Hh1.
  step read_bit_goes. by apply goes_ret.
Qed.

(** What the device sends during [n] pulses with SDA released, and its state
    afterwards. *)
Fixpoint outs (n : nat) (s : S) : list bool :=
  match n with
  | O => []
  | Datatypes.S n => s_out s :: outs n (s_clock (s_out s) s)
  end.

Definition collect (byte : Z) (bits : list bool) : Z :=
  foldl (fun byte bit => u8 (Z.lor (Z.shiftl byte 1) (Z.b2z bit))) byte bits.

Lemma read_bits_goes n : forall w d c v s byte, connected d -> here w d c false v None s ->
  exists v', goes (read_bits n bus byte) w (collect byte (outs n s)) d c false v' None (clocks (repeat true n) s).
Proof.
  induction n as [|n IH]; intros w d c v s byte Hm Hh; cbn [read_bits outs]; [exists v; by apply goes_ret|].
  destruct (read_bit_goes w d c v None s Hm Hh) as (w1 & E & Hh1).
  destruct (IH w1 d c _ _ (u8 (Z.lor (Z.shiftl byte 1) (Z.b2z (s_out s)))) Hm Hh1) as (v' & w2 & E2 & Hh2).
  exists v', w2. split; [by run E|done].
Qed.

Lemma read_goes w d c v s ack : connected d -> here w d c false v None s ->
  let s1 := clocks (repeat true 8) s in
  goes (i2c_read bus ack) w (collect 0 (outs 8 s)) d c false ack None (s_clock (ack && s_out s1) s1).
Proof.
  intros Hm Hh. unfold i2c_read. destruct (read_bits_goes 8 w d c v s 0 Hm Hh) as (v' & H). cbn zeta.
  eapply goes_bind; [exact H|]. clear H. intros w1 Hh1. step write_bit_goes. by apply goes_ret.
Qed.

Definition begun (d : i2c_bus_description_t) : i2c_bus_description_t :=
  set_started (set_delay d (if fast then delay_160 d else delay_80 d)) true.

(** The delay for the CPU frequency is chosen first. *)
Lemma start_delay (k : unit -> M W unit) w d c v1 v2 b s d' c' v1' v2' b' s' :
  here w d c v1 v2 b s ->
  (forall w', here w' (set_delay d (if fast then delay_160 d else delay_80 d)) c v1 v2 b s -> goes (k tt) w' tt d' c' v1' v2' b' s') ->
  goes (let! w := get in let! u := (if cpu_freq_160 (hw w) then update bus (fun d => set_delay d (delay_160 d))
                                    else update bus (fun d => set_delay d (delay_80 d))) in k u) w tt d' c' v1' v2' b' s'.
Proof.
  intros Hh Hk. apply (goes_bind get _ w w d c v1 v2 b s); [by exists w|]. intros w0 Hh0.
  eapply goes_bind; [|exact Hk]. cbn [cpu_freq_160 wires_gpio]. destruct fast; by apply (update_goes (fun d => set_delay d _)).
Qed.

(** The start condition on a bus with both wires high. *)
Lemma start_condition w d c b s : connected d -> here w d c true true b s -> s_out s = true ->
  goes (do! update bus (fun d => set_started d true) then do! set_sda bus then let! _ := read_sda bus in
        do! clear_sda bus then do! i2c_delay bus then clear_scl bus) w tt (set_started d true) c false false None (s_start s).
Proof.
  intros Hm Hh Ho. eapply goes_bind; [by apply update_goes|]. cbn beta. intros w1 Hh1. assert (Hm1 : connected (set_started d true)) by exact Hm.
  step set_sda_same. step read_sda_goes. step clear_sda_high. step delay_goes. by eapply (clear_scl_goes _ _ _ _ None).
Qed.

Lemma start_idle w d c b s : connected d -> here w d c true true b s -> started d = false -> s_out s = true ->
  goes (i2c_start bus) w tt (begun d) c false false None (s_start s).
Proof.
  intros Hm Hh Hs Ho. unfold i2c_start. eapply start_delay; [done|]. intros w1 Hh1.
  step desc_goes. cbn [started set_delay]. rewrite Hs. eapply goes_bind; [by apply goes_ret|]. intros w3 Hh3. by eapply start_condition.
Qed.

(** A repeated start condition within a transfer. *)
Lemma start_again w d c v s : connected d -> here w d c false v None s -> started d = true -> s_out s = true ->
  goes (i2c_start bus) w tt (begun d) c false false None (s_start s).
Proof.
  intros Hm Hh Hs Ho. unfold i2c_start. eapply start_delay; [done|]. intros w1 Hh1.
  set (d1 := set_delay d _) in *. assert (Hm1 : connected d1) by exact Hm.
  step desc_goes. change (started d1) with (started d). rewrite Hs.
  apply (goes_bind _ _ _ tt d1 c true true (Some (true && s_out s)) s).
  - step set_sda_low. step delay_goes. step set_scl_goes. by eapply delay_goes.
  - intros w3 Hh3. by eapply start_condition.
Qed.

Lemma stop_goes w d c v s : connected d -> here w d c false v None s -> started d = true -> s_out s = true ->
  goes (i2c_stop bus) w true (set_started d false) c true true None (s_stop s).
Proof.
  intros Hm Hh Hs Ho. unfold i2c_stop. step clear_sda_low. step delay_goes. step set_scl_goes. step delay_goes. step set_sda_high.
  step delay_goes. step read_sda_goes. step delay_goes. step desc_goes. rewrite Hs. cbn [negb].
  eapply goes_bind; [by apply update_goes|]. intros. by apply goes_ret.
Qed.

End Wires.
