(* ===== verification/I2cDevice.v ===== *)
(** * A device with registers on the I2C bus

    The transfers of [extras/i2c/i2c.c] with a device that has numbered
    registers and a register pointer which moves on with every byte, as
    sensors and clocks have.  The class [I2cOps] is the interface of the bus
    for their drivers, [RegBus] what they rely on; the functions of the file
    over the wires implement it. *)

From S2P Require Import Prelude I2c I2cWires.
Open Scope Z_scope.

Import I2c.

(** ** The interface for drivers *)

Class I2cOps (W : Type) := {
  bus_write : Z -> Z -> option Z -> list Z -> M W result;
  bus_read : Z -> Z -> option Z -> nat -> M W (result * list Z);
}.

(** Registers [0 .. n-1]; the pointer wraps. *)
Fixpoint store_at (n : Z) (r : Z -> Z) (p : Z) (bs : list Z) : Z -> Z :=
  match bs with
  | [] => r
  | b :: bs => store_at n (fun x => if x =? p then b else r x) ((p + 1) mod n) bs
  end.

Fixpoint fetch_at (n : Z) (r : Z -> Z) (p : Z) (len : nat) : list Z :=
  match len with
  | O => []
  | S len => r p :: fetch_at n r ((p + 1) mod n) len
  end.

(** A device with [n] registers answers at [addr] on [bus]. *)
Class RegBus (W : Type) `{!I2cOps W} (bus addr n : Z) := {
  rb_ready : W -> Prop;
  rb_regs : W -> Z -> Z;
  rb_byte w x : rb_ready w -> 0 <= x < n -> byteP (rb_regs w x);
  rb_write w reg buf : rb_ready w -> 0 <= reg < n -> Forall byteP buf ->
    exists w', bus_write bus addr (Some reg) buf w = Done (I2C_OK, w') /\ rb_ready w' /\
      forall x, rb_regs w' x = store_at n (rb_regs w) reg buf x;
  rb_read w reg len : rb_ready w -> 0 <= reg < n -> (0 < len)%nat ->
    exists w', bus_read bus addr (Some reg) len w = Done ((I2C_OK, fetch_at n (rb_regs w) reg len), w') /\ rb_ready w' /\
      forall x, rb_regs w' x = rb_regs w x;
}.

(** ** The device *)

Inductive kind := KAddr | KReg | KData.
Inductive phase :=
| PIdle
| PRecv (k : kind) (bits : list bool)
| PAckRecv (k : kind)
| PAckSend
| PSend (bits : list bool)
| PMaster.

Record device := { dev_addr : Z; reg_count : Z; regs : Z -> Z; ptr : Z; dev_phase : phase }.

Definition set_phase (d : device) (p : phase) : device :=
  {| dev_addr := dev_addr d; reg_count := reg_count d; regs := regs d; ptr := ptr d; dev_phase := p |}.
Definition set_ptr (d : device) (p : Z) : device :=
  {| dev_addr := dev_addr d; reg_count := reg_count d; regs := regs d; ptr := p; dev_phase := dev_phase d |}.
Definition set_regs (d : device) (r : Z -> Z) : device :=
  {| dev_addr := dev_addr d; reg_count := reg_count d; regs := r; ptr := ptr d; dev_phase := dev_phase d |}.

Definition next_ptr (d : device) : Z := (ptr d + 1) mod reg_count d.

Definition byte_of (bits : list bool) : Z := foldl (fun a b => 2 * a + Z.b2z b) 0 bits.

(** A byte has arrived. *)
Definition received (k : kind) (byte : Z) (d : device) : device :=
  match k with
  | KAddr => if byte / 2 =? dev_addr d then set_phase d (if Z.odd byte then PAckSend else PAckRecv KReg) else set_phase d PIdle
  | KReg => set_phase (set_ptr d (byte mod reg_count d)) (PAckRecv KData)
  | KData => set_phase (set_ptr (set_regs d (fun x => if x =? ptr d then byte else regs d x)) (next_ptr d)) (PAckRecv KData)
  end.

Definition sending (d : device) : device := set_phase d (PSend (msb_bits 8 (regs d (ptr d)))).

Definition dev_clock (b : bool) (d : device) : device :=
  match dev_phase d with
  | PIdle => d
  | PRecv k bits =>
    let bits := bits ++ [b] in
    if Nat.eqb (length bits) 8 then received k (byte_of bits) d else set_phase d (PRecv k bits)
  | PAckRecv k => set_phase d (PRecv k [])
  | PAckSend => sending d
  | PSend bits => match tail bits with [] => set_phase d PMaster | rest => set_phase d (PSend rest) end
  | PMaster => if b then set_phase (set_ptr d (next_ptr d)) PIdle else sending (set_ptr d (next_ptr d))
  end.

Definition dev_out (d : device) : bool :=
  match dev_phase d with
  | PAckRecv _ | PAckSend => false
  | PSend (x :: _) => x
  | _ => true
  end.

#[export] Instance device_slave : I2cSlave device := {
  s_start d := set_phase d (PRecv KAddr []);
  s_stop d := set_phase d PIdle;
  s_clock := dev_clock;
  s_out := dev_out;
}.

(** ** Bytes *)

Lemma clocks_cons b bits (d : device) : clocks (b :: bits) d = clocks bits (dev_clock (b && dev_out d) d).
Proof. done. Qed.

Lemma clocks_recv k bits : forall d bits0,
  dev_phase d = PRecv k bits0 -> (length bits0 + length bits = 8)%nat -> bits <> [] ->
  clocks bits d = received k (byte_of (bits0 ++ bits)) d.
Proof.
  induction bits as [|b bits IH]; intros d bits0 Hp Hl Hn; [done|]. cbn [length] in Hl.
  rewrite clocks_cons. unfold dev_clock, dev_out. rewrite Hp, andb_true_r, length_app. cbn [length].
  destruct (decide (bits = [])) as [->|Hne].
  - cbn [length] in Hl. replace (length bits0 + 1 =? 8)%nat with true by (symmetry; apply Nat.eqb_eq; lia). done.
  - assert (length bits <> 0)%nat by (by destruct bits).
    replace (length bits0 + 1 =? 8)%nat with false by (symmetry; apply Nat.eqb_neq; lia).
    rewrite (IH (set_phase d (PRecv k (bits0 ++ [b]))) (bits0 ++ [b]) eq_refl); [|rewrite length_app; cbn; lia|done].
    rewrite <-app_assoc. by destruct k.
Qed.

Lemma byte_of_msb v : byteP v -> byte_of (msb_bits 8 v) = v.
Proof.
  intros Hv. apply Z.eqb_eq. revert v Hv. apply (byte_check (fun v => byte_of (msb_bits 8 v) =? v)). vm_compute. reflexivity.
Qed.

Lemma collect_msb v : byteP v -> collect 0 (msb_bits 8 v) = v.
Proof.
  intros Hv. apply Z.eqb_eq. revert v Hv. apply (byte_check (fun v => collect 0 (msb_bits 8 v) =? v)). vm_compute. reflexivity.
Qed.

Lemma clocks_byte k v d : dev_phase d = PRecv k [] -> byteP v -> clocks (msb_bits 8 v) d = received k v d.
Proof. intros Hp Hv. rewrite (clocks_recv k _ d [] Hp); [|done|done]. cbn [app]. by rewrite byte_of_msb. Qed.

Lemma clocks_idle bits d : dev_phase d = PIdle -> clocks bits d = d.
Proof. intros Hp. induction bits as [|b bits IH]; [done|]. rewrite clocks_cons. unfold dev_clock. by rewrite Hp. Qed.

(** The device sends the byte [msb_bits 8 v] and waits for the master. *)
Lemma send_byte d v : dev_phase d = PSend (msb_bits 8 v) ->
  outs 8 d = msb_bits 8 v /\ clocks (repeat true 8) d = set_phase d PMaster.
Proof. intros Hp. destruct d as [a n r p ph]. cbn in Hp. subst ph. split; reflexivity. Qed.


(** ** Transfers *)

Section Transfers.
Context `{HW : Wiring}.

Abbreviation W := (world (wires (S := device))).
Implicit Types w : W.

Lemma dev_write w d c v dev k byte : connected d -> here w d c false v None dev -> dev_phase dev = PRecv k [] -> byteP byte ->
  goes (i2c_write bus byte) w (negb (dev_out (received k byte dev))) d c false true None
    (dev_clock (dev_out (received k byte dev)) (received k byte dev)).
Proof.
  intros Hm Hh Hp Hb. pose proof (write_goes w d c v dev byte Hm Hh Hb) as H. cbn zeta in H.
  rewrite (clocks_byte k byte dev Hp Hb) in H. exact H.
Qed.

(** The address is taken by the device it names, and ignored by another. *)
Lemma write_address w d c v dev a rd : connected d -> here w d c false v None dev -> dev_phase dev = PRecv KAddr [] ->
  0 <= a < 128 ->
  goes (i2c_write bus (2 * a + Z.b2z rd)) w (a =? dev_addr dev) d c false true None
    (if a =? dev_addr dev then (if rd then sending dev else set_phase dev (PRecv KReg [])) else set_phase dev PIdle).
Proof.
  intros Hm Hh Hp Ha. assert (Hb : byteP (2 * a + Z.b2z rd)) by (unfold byteP; destruct rd; cbn; lia).
  assert (Hdiv : (2 * a + Z.b2z rd) / 2 = a) by (destruct rd; cbn [Z.b2z]; divlia).
  assert (Hodd : Z.odd (2 * a + Z.b2z rd) = rd) by (rewrite Z.add_comm, Z.odd_add_mul_2; by destruct rd).
  pose proof (dev_write w d c v dev KAddr _ Hm Hh Hp Hb) as H. cbn [received] in H. rewrite Hdiv, Hodd in H.
  destruct (a =? dev_addr dev); [destruct rd|]; exact H.
Qed.

Lemma write_register w d c v dev reg : connected d -> here w d c false v None dev -> dev_phase dev = PRecv KReg [] -> byteP reg ->
  goes (i2c_write bus reg) w true d c false true None (set_phase (set_ptr dev (reg mod reg_count dev)) (PRecv KData [])).
Proof. intros Hm Hh Hp Hb. exact (dev_write w d c v dev KReg reg Hm Hh Hp Hb). Qed.

(** The device after a byte, and after all bytes, have been stored. *)
Definition put_byte (dev : device) (b : Z) : device :=
  set_phase (set_ptr (set_regs dev (fun x => if x =? ptr dev then b else regs dev x)) (next_ptr dev)) (PRecv KData []).

Lemma put_bytes_regs bs : forall dev, let dev' := foldl put_byte dev bs in
  dev_addr dev' = dev_addr dev /\ reg_count dev' = reg_count dev /\
  regs dev' = store_at (reg_count dev) (regs dev) (ptr dev) bs /\ (dev_phase dev = PRecv KData [] -> dev_phase dev' = PRecv KData []).
Proof.
  induction bs as [|b bs IH]; intros dev; [done|]. cbn [foldl store_at]. destruct (IH (put_byte dev b)) as (-> & -> & -> & H).
  do 3 (split; [done|]). intros _. by apply H.
Qed.

Lemma write_all_goes bs : forall w d c v dev, connected d -> here w d c false v None dev -> dev_phase dev = PRecv KData [] ->
  Forall byteP bs -> exists v', goes (write_all bus bs) w true d c false v' None (foldl put_byte dev bs).
Proof.
  induction bs as [|b bs IH]; intros w d c v dev Hm Hh Hp Hb; cbn [write_all foldl]; [exists v; by apply goes_ret|].
  inversion Hb as [|? ? Hb1 Hbs]; subst. destruct (dev_write w d c v dev KData b Hm Hh Hp Hb1) as (w1 & E & Hh1).
  destruct (IH w1 d c true (put_byte dev b) Hm Hh1 eq_refl Hbs) as (v' & w2 & E2 & Hh2). exists v', w2. split; [by run E|done].
Qed.

(** Reading: the pointer moves on, the registers stay. *)
Fixpoint after_read (len : nat) (dev : device) : device :=
  match len with
  | O => dev
  | S len => after_read len (if Nat.eqb len 0 then set_phase (set_ptr dev (next_ptr dev)) PIdle else sending (set_ptr dev (next_ptr dev)))
  end.

Lemma after_read_same len : forall dev, regs (after_read len dev) = regs dev /\ dev_addr (after_read len dev) = dev_addr dev /\
  reg_count (after_read len dev) = reg_count dev /\ (len <> O -> dev_phase (after_read len dev) = PIdle).
Proof.
  induction len as [|len IH]; intros dev; [done|]. cbn [after_read].
  destruct len as [|len]; cbn [Nat.eqb]; [done|]. destruct (IH (sending (set_ptr dev (next_ptr dev)))) as (-> & -> & -> & H).
  do 3 (split; [done|]). intros _. by apply H.
Qed.

Lemma read_all_goes len : forall w d c v dev, connected d -> here w d c false v None dev ->
  (len <> O -> dev_phase dev = PSend (msb_bits 8 (regs dev (ptr dev)))) -> (forall x, byteP (regs dev x)) ->
  exists v', goes (read_all len bus) w (fetch_at (reg_count dev) (regs dev) (ptr dev) len) d c false v' None (after_read len dev).
Proof.
  induction len as [|len IH]; intros w d c v dev Hm Hh Hp Hr; cbn [read_all fetch_at after_read]; [exists v; by apply goes_ret|].
  destruct (send_byte dev (regs dev (ptr dev)) (Hp ltac:(done))) as [Ho Hc].
  pose proof (read_goes w d c v dev (Nat.eqb len 0) Hm Hh) as H. cbn zeta in H. rewrite Ho, Hc, collect_msb in H by apply Hr.
  destruct H as (w1 & E & Hh1).
  set (dev1 := if Nat.eqb len 0 then set_phase (set_ptr dev (next_ptr dev)) PIdle else sending (set_ptr dev (next_ptr dev))).
  assert (Hh1' : here w1 d c false (Nat.eqb len 0) None dev1) by (unfold dev1; destruct len; exact Hh1).
  destruct (IH w1 d c _ dev1 Hm Hh1') as (v' & w2 & E2 & Hh2); [by destruct len|by unfold dev1; destruct len|].
  exists v', w2. split; [|done]. run E. run E2. unfold dev1. by destruct len.
Qed.

(** The bus is taken when it is free. *)
Lemma bus_test_free w d c v1 v2 b (dev : device) : here w d c v1 v2 b dev -> flag d = false ->
  goes (i2c_bus_test bus) w I2C_OK (set_flag d true) c v1 v2 b dev.
Proof.
  intros Hh Hf. unfold i2c_bus_test.
  assert (Henter : goes taskENTER_CRITICAL w tt d (c + 1) v1 v2 b dev) by (destruct Hh; eexists; split; [reflexivity|]; split; cbn; congruence).
  assert (Hexit : forall w' d', here w' d' (c + 1) v1 v2 b dev -> goes taskEXIT_CRITICAL w' tt d' c v1 v2 b dev)
    by (intros w' d' [? Hc]; eexists; split; [reflexivity|]; split; cbn; try congruence; lia).
  eapply goes_bind; [exact Henter|]. intros w1 Hh1. eapply goes_bind; [by apply desc_goes|]. intros w2 Hh2. rewrite Hf.
  destruct (force d); (eapply goes_bind; [by apply update_goes|]; intros w3 Hh3; eapply goes_bind; [by apply Hexit|]; intros w4 Hh4).
  - eapply (goes_bind (ret tt)); [by apply goes_ret|]. intros. by apply goes_ret.
  - by apply goes_ret.
Qed.

(** A busy bus is left alone. *)
Lemma bus_test_busy w d : i2c_bus w bus = d -> flag d = true -> force d = false ->
  exists w', i2c_bus_test bus w = Done (EBUSY, w') /\ i2c_bus w' = i2c_bus w /\ hw w' = hw w /\ critical w' = critical w.
Proof.
  intros Hd Hf Hfo. unfold i2c_bus_test. erewrite bind_Done by reflexivity.
  erewrite bind_Done by apply desc_Done. cbn [i2c_bus]. rewrite Hd, Hf, Hfo.
  eexists. split; [reflexivity|]. cbn. split; [done|]. split; [done|lia].
Qed.

Lemma finish_goes w d c v (dev : device) ok : connected d -> here w d c false v None dev -> started d = true -> s_out dev = true ->
  goes (finish bus ok) w (if ok then I2C_OK else EIO) (set_flag (set_started d false) false) c true true None (s_stop dev).
Proof.
  intros Hm Hh Hs Ho. unfold finish. destruct ok.
  - eapply goes_bind; [by apply (stop_goes w d c v)|]. intros w1 Hh1. eapply goes_bind; [by apply update_goes|]. intros. by apply goes_ret.
  - eapply (goes_bind (ret false)); [by apply goes_ret|]. intros w1 Hh1. eapply goes_bind; [by apply (stop_goes w1 d c v)|].
    intros w2 Hh2. eapply goes_bind; [by apply update_goes|]. intros. by apply goes_ret.
Qed.

Lemma address_byte a rd : 0 <= a < 128 -> u8 (Z.lor (Z.shiftl a 1) (Z.b2z rd)) = 2 * a + Z.b2z rd.
Proof.
  intros Ha. rewrite Z.lor_comm, Z.shiftl_mul_pow2, lor_disjoint_add by (destruct rd; cbn; lia). rewrite u8_small; destruct rd; cbn; lia.
Qed.

(** What the descriptor is after a transfer. *)
Definition ended (d : i2c_bus_description_t) : i2c_bus_description_t :=
  set_flag (set_started (begun (set_flag d true)) false) false.

(** The bus is free and both wires are high. *)
Record idle w (d : i2c_bus_description_t) (c : Z) (dev : device) : Prop := {
  i_conn : connected d;
  i_here : exists b, here w d c true true b dev;
  i_free : flag d = false;
  i_stopped : started d = false;
  i_dev : dev_phase dev = PIdle;
}.

Lemma slave_write_goes w d c dev a reg buf :
  idle w d c dev -> 0 <= a < 128 -> byteP reg -> Forall byteP buf ->
  goes (i2c_slave_write bus a (Some reg) buf) w (if a =? dev_addr dev then I2C_OK else EIO) (ended d) c true true None
    (set_phase (if a =? dev_addr dev then foldl put_byte (set_ptr dev (reg mod reg_count dev)) buf else dev) PIdle).
Proof.
  intros [Hm [b Hh] Hf Hs Hp] Ha Hr Hb. unfold i2c_slave_write.
  eapply goes_bind; [by apply bus_test_free|]. intros w1 Hh1. rewrite bool_decide_true by done. cbn [negb].
  eapply goes_bind; [apply (start_idle w1 (set_flag d true) c b dev); [done|done|done|by cbn; unfold dev_out; rewrite Hp]|]. intros w2 Hh2.
  assert (Hm2 : connected (begun (set_flag d true))) by exact Hm.
  replace (u8 (Z.shiftl a 1)) with (2 * a + Z.b2z false) by (rewrite <-address_byte by done; by rewrite Z.lor_0_r).
  eapply goes_bind; [by eapply write_address|]. intros w3 Hh3.
  destruct (a =? dev_addr dev) eqn:Ea; cbn [s_start device_slave set_phase dev_addr] in Hh3; rewrite Ea in Hh3; cbn [s_start device_slave set_phase dev_addr]; rewrite Ea; cbn [negb].
  - eapply goes_bind; [by eapply write_register|]. intros w4 Hh4. cbn [negb].
    destruct (write_all_goes buf _ _ _ _ _ Hm2 Hh4 eq_refl Hb) as (v & H). eapply goes_bind; [exact H|]. intros w5 Hh5.
    set (dev5 := foldl put_byte _ buf) in Hh5.
    assert (Hp5 : dev_phase dev5 = PRecv KData []) by (by apply put_bytes_regs).
    pose proof (finish_goes w5 _ c v dev5 true Hm2 Hh5 eq_refl) as Hfin. cbn [s_out device_slave] in Hfin. unfold dev_out in Hfin.
    rewrite Hp5 in Hfin. specialize (Hfin eq_refl). cbn [s_stop device_slave] in Hfin.
    replace (set_phase dev5 PIdle) with (set_phase (foldl put_byte (set_ptr dev (reg mod reg_count dev)) buf) PIdle) in Hfin; [exact Hfin|].
    unfold dev5. destruct buf as [|x buf]; [done|]. done.
  - eapply (goes_bind (ret false)); [by apply goes_ret|]. intros w4 Hh4. cbn [negb].
    eapply (goes_bind (ret false)); [by apply goes_ret|]. intros w5 Hh5.
    exact (finish_goes w5 _ c true _ false Hm2 Hh5 eq_refl eq_refl).
Qed.

(** The first part of a read: the register number is sent. *)
Lemma send_register w d c b dev a reg :
  connected d -> here w d c true true b dev -> started d = false -> dev_phase dev = PIdle -> 0 <= a < 128 -> byteP reg ->
  goes (do! i2c_start bus then let! ok := i2c_write bus (u8 (Z.shiftl a 1)) in if negb ok then ret false else i2c_write bus reg)
    w (a =? dev_addr dev) (begun d) c false true None
    (if a =? dev_addr dev then set_phase (set_ptr dev (reg mod reg_count dev)) (PRecv KData []) else set_phase dev PIdle).
Proof.
  intros Hm Hh Hs Hp Ha Hr.
  eapply goes_bind; [apply (start_idle w d c b dev); [done|done|done|by cbn; unfold dev_out; rewrite Hp]|]. intros w2 Hh2.
  assert (Hm2 : connected (begun d)) by exact Hm.
  replace (u8 (Z.shiftl a 1)) with (2 * a + Z.b2z false) by (rewrite <-address_byte by done; by rewrite Z.lor_0_r).
  eapply goes_bind; [by eapply write_address|]. intros w3 Hh3. cbn [s_start device_slave set_phase dev_addr] in Hh3 |- *.
  destruct (a =? dev_addr dev) eqn:Ea; cbn [negb]; [exact (write_register w3 _ c _ _ reg Hm2 Hh3 eq_refl Hr)|by apply goes_ret].
Qed.

Lemma begun_twice d : begun (begun d) = begun d.
Proof. unfold begun. by destruct fast. Qed.

Lemma slave_read_goes w d c dev a reg len :
  idle w d c dev -> 0 <= a < 128 -> byteP reg -> (forall x, byteP (regs dev x)) -> (0 < len)%nat ->
  goes (i2c_slave_read bus a (Some reg) len) w
    (if a =? dev_addr dev then (I2C_OK, fetch_at (reg_count dev) (regs dev) (reg mod reg_count dev) len) else (EIO, []))
    (ended d) c true true None
    (set_phase (if a =? dev_addr dev then after_read len (set_ptr dev (reg mod reg_count dev)) else dev) PIdle).
Proof.
  intros [Hm [b Hh] Hf Hs Hp] Ha Hr Hb Hl. unfold i2c_slave_read.
  eapply goes_bind; [by apply bus_test_free|]. intros w1 Hh1. rewrite bool_decide_true by done. cbn [negb].
  eapply goes_bind; [by apply (send_register w1 (set_flag d true) c b dev a reg)|]. intros w2 Hh2.
  assert (Hm2 : connected (begun (set_flag d true))) by exact Hm.
  destruct (a =? dev_addr dev) eqn:Ea; cbn [negb].
  - set (dev1 := set_phase (set_ptr dev (reg mod reg_count dev)) (PRecv KData [])) in Hh2.
    set (dev2 := sending (set_ptr dev (reg mod reg_count dev))).
    assert (Hsame : after_read len dev2 = after_read len (set_ptr dev (reg mod reg_count dev))) by (destruct len; [lia|done]).
    destruct (after_read_same len dev2) as (_ & _ & _ & Hidle). specialize (Hidle ltac:(lia)).
    assert (Hread : exists v, goes (do! i2c_start bus then let! ok := i2c_write bus (u8 (Z.lor (Z.shiftl a 1) 1)) in
        if negb ok then ret (false, []) else let! bs := read_all len bus in ret (true, bs)) w2
        (true, fetch_at (reg_count dev) (regs dev) (reg mod reg_count dev) len) (begun (set_flag d true)) c false v None (after_read len dev2)).
    { destruct (start_again (HS := device_slave) w2 _ c _ dev1 Hm2 Hh2 eq_refl eq_refl) as (w3 & E3 & Hh3). rewrite begun_twice in Hh3.
      pose proof (write_address w3 _ c _ _ a true Hm2 Hh3 eq_refl Ha) as (w4 & E4 & Hh4).
      cbn [s_start device_slave set_phase dev_addr set_ptr dev1] in E4, Hh4. rewrite Ea in E4, Hh4.
      destruct (read_all_goes len w4 _ c _ dev2 Hm2 Hh4) as (v & w5 & E5 & Hh5); [done|done|].
      exists v, w5. split; [|done]. run E3. change 1 with (Z.b2z true) at 2. rewrite address_byte by done. run E4. cbn [negb]. by run E5. }
    destruct Hread as (v & Hread). eapply goes_bind; [exact Hread|]. intros w5 Hh5. cbn beta iota.
    pose proof (finish_goes w5 _ c v _ true Hm2 Hh5 eq_refl) as Hfin. cbn [s_out device_slave] in Hfin. unfold dev_out in Hfin.
    rewrite Hidle in Hfin. specialize (Hfin eq_refl). rewrite Hsame in Hfin.
    eapply goes_bind; [exact Hfin|]. intros. by apply goes_ret.
  - eapply (goes_bind (ret (false, []))); [by apply goes_ret|]. intros w5 Hh5. cbn beta iota.
    eapply goes_bind; [exact (finish_goes w5 _ c true _ false Hm2 Hh5 eq_refl eq_refl)|]. intros. by apply goes_ret.
Qed.

End Transfers.

(** ** The wires implement the interface *)

#[export] Instance i2c_ops {H} `{!Gpio H} : I2cOps (world H) := {
  bus_write := i2c_slave_write;
  bus_read := i2c_slave_read;
}.

Section Implements.
Context `{HW : Wiring} (addr n : Z).

Lemma store_at_byte bs : forall r p, (forall x, byteP (r x)) -> Forall byteP bs -> forall x, byteP (store_at n r p bs x).
Proof.
  induction bs as [|b bs IH]; intros r p Hr Hb x; cbn [store_at]; [done|]. inversion Hb; subst. apply IH; [|done].
  intros y. by case_if.
Qed.

(** A device at [addr] with [n] registers, on a free bus. *)
Definition attached (w : world (wires (S := device))) : Prop :=
  exists d c dev, idle w d c dev /\ dev_addr dev = addr /\ reg_count dev = n /\ (forall x, byteP (regs dev x)) /\
    0 <= addr < 128 /\ 0 < n <= 256.

Lemma attached_regs w d c dev : idle w d c dev -> slave (hw w) = dev.
Proof. intros [_ [b Hh] _ _ _]. apply Hh. Qed.

Lemma ended_idle w d c dev :
  connected d -> here w (ended d) c true true None (set_phase dev PIdle) -> idle w (ended d) c (set_phase dev PIdle).
Proof. intros Hm Hh. by split; [|exists None|..]. Qed.

#[export] Program Instance wires_regs : RegBus (world (wires (S := device))) bus addr n := {
  rb_ready := attached;
  rb_regs w := regs (slave (hw w));
}.
Next Obligation. intros w x (d & c & dev & Hi & _ & _ & Hb & _) _. by rewrite (attached_regs _ _ _ _ Hi). Qed.
Next Obligation.
  intros w reg buf (d & c & dev & Hi & Ha & Hn & Hb & Hr & Hn') Hreg Hbuf. pose proof (i_conn _ _ _ _ Hi) as Hm.
  destruct (slave_write_goes w d c dev addr reg buf Hi Hr) as (w' & E & Hh); [unfold byteP; lia|done|].
  rewrite Ha, Z.eqb_refl in E, Hh. exists w'. split; [exact E|].
  destruct (put_bytes_regs buf (set_ptr dev (reg mod reg_count dev))) as (H1 & H2 & H3 & _). cbn [reg_count regs ptr set_ptr dev_addr] in H1, H2, H3.
  rewrite Hn, (Z.mod_small reg) in H3 by lia. split.
  - exists (ended d), c, (set_phase (foldl put_byte (set_ptr dev (reg mod reg_count dev)) buf) PIdle).
    split; [by apply ended_idle|]. cbn [dev_addr reg_count regs set_phase].
    rewrite H1, H2, Hn, (Z.mod_small reg), H3 by lia. do 3 (split; [done || by apply store_at_byte|]). done.
  - intros x. rewrite (h_slave _ _ _ _ _ _ _ Hh), (attached_regs _ _ _ _ Hi). cbn [regs set_phase]. by rewrite Hn, (Z.mod_small reg), H3 by lia.
Qed.
Next Obligation.
  intros w reg len (d & c & dev & Hi & Ha & Hn & Hb & Hr & Hn') Hreg Hlen. pose proof (i_conn _ _ _ _ Hi) as Hm.
  destruct (slave_read_goes w d c dev addr reg len Hi Hr) as (w' & E & Hh); [unfold byteP; lia|done|done|].
  rewrite Ha, Z.eqb_refl in E, Hh. exists w'. rewrite (attached_regs _ _ _ _ Hi).
  destruct (after_read_same len (set_ptr dev (reg mod reg_count dev))) as (H1 & H2 & H3 & _).
  split; [|split].
  - rewrite Hn, (Z.mod_small reg) in E by lia. exact E.
  - exists (ended d), c, (set_phase (after_read len (set_ptr dev (reg mod reg_count dev))) PIdle).
    split; [by apply ended_idle|]. cbn [dev_addr reg_count regs set_phase]. by rewrite H1, H2, H3.
  - intros x. rewrite (h_slave _ _ _ _ _ _ _ Hh). cbn [regs set_phase]. by rewrite H1.
Qed.
End Implements.
