(* ===== verification/Ds3231.v ===== *)
(** * The DS3231 real-time clock: [extras/ds3231/ds3231.c]

    All functions of the driver over the I2C interface.  [struct tm] is the
    record [tm]; a result stored through a pointer is returned instead, and
    [None] stands for [false]. *)

From Stdlib Require Import SpecFloat.
From S2P Require Import Prelude Floats I2c I2cDevice.
Open Scope Z_scope.

Import I2c.

Record i2c_dev_t := { dev_bus : Z; dev_address : Z }.

Record tm := {
  tm_sec : Z; tm_min : Z; tm_hour : Z; tm_mday : Z; tm_mon : Z; tm_year : Z; tm_wday : Z; tm_isdst : Z;
}.

Definition DS3231_STAT_OSCILLATOR : Z := 0x80.
Definition DS3231_STAT_32KHZ : Z := 0x08.
Definition DS3231_CTRL_SQWAVE_8192HZ : Z := 0x18.
Definition DS3231_CTRL_ALARM_INTS : Z := 0x04.
Definition DS3231_ALARM_WDAY : Z := 0x40.
Definition DS3231_ALARM_NOTSET : Z := 0x80.
Definition DS3231_ADDR_TIME : Z := 0x00.
Definition DS3231_ADDR_ALARM1 : Z := 0x07.
Definition DS3231_ADDR_ALARM2 : Z := 0x0b.
Definition DS3231_ADDR_CONTROL : Z := 0x0e.
Definition DS3231_ADDR_STATUS : Z := 0x0f.
Definition DS3231_ADDR_TEMP : Z := 0x11.
Definition DS3231_12HOUR_FLAG : Z := 0x40.
Definition DS3231_12HOUR_MASK : Z := 0x1f.
Definition DS3231_PM_FLAG : Z := 0x20.
Definition DS3231_MONTH_MASK : Z := 0x1f.

Inductive set_mode := DS3231_SET | DS3231_CLEAR | DS3231_REPLACE.

Definition DS3231_ALARM_1 : Z := 1.
Definition DS3231_ALARM_2 : Z := 2.
Definition DS3231_ALARM_BOTH : Z := 3.
Definition DS3231_ALARM1_MATCH_SEC : Z := 1.
Definition DS3231_ALARM1_MATCH_SECMIN : Z := 2.
Definition DS3231_ALARM1_MATCH_SECMINHOUR : Z := 3.
Definition DS3231_ALARM1_MATCH_SECMINHOURDAY : Z := 4.
Definition DS3231_ALARM1_MATCH_SECMINHOURDATE : Z := 5.
Definition DS3231_ALARM2_MATCH_MIN : Z := 1.
Definition DS3231_ALARM2_MATCH_MINHOUR : Z := 2.
Definition DS3231_ALARM2_MATCH_MINHOURDAY : Z := 3.
Definition DS3231_ALARM2_MATCH_MINHOURDATE : Z := 4.

(** The arguments are converted to [uint8_t]. *)
Definition decToBcd (x : Z) : Z := let dec := u8 x in u8 ((dec / 10) * 16 + dec mod 10).
Definition bcdToDec (x : Z) : Z := let bcd := u8 x in u8 ((bcd / 16) * 10 + bcd mod 16).

Section Ds3231.
Context {W : Type} `{!I2cOps W}.
Variable dev : i2c_dev_t.

Definition ds3231_send (reg : Z) (data : list Z) : M W result := bus_write (dev_bus dev) (dev_address dev) (Some reg) data.
Definition ds3231_recv (reg : Z) (len : nat) : M W (result * list Z) := bus_read (dev_bus dev) (dev_address dev) (Some reg) len.

(** The seven registers of a time. *)
Definition time_bytes (time : tm) : list Z :=
  [decToBcd (tm_sec time); decToBcd (tm_min time); decToBcd (tm_hour time); decToBcd (tm_wday time + 1);
   decToBcd (tm_mday time); decToBcd (tm_mon time + 1); decToBcd (tm_year time - 100)].

Definition ds3231_setTime (time : tm) : M W result := ds3231_send DS3231_ADDR_TIME (time_bytes time).

(** The day register of an alarm. *)
Definition alarm_day (day date : bool) (time : tm) : Z :=
  if day then Z.land (decToBcd (tm_wday time + 1)) DS3231_ALARM_WDAY
  else if date then decToBcd (tm_mday time) else DS3231_ALARM_NOTSET.

Definition alarm1_bytes (time1 : tm) (option1 : Z) : list Z :=
  [if DS3231_ALARM1_MATCH_SEC <=? option1 then decToBcd (tm_sec time1) else DS3231_ALARM_NOTSET;
   if DS3231_ALARM1_MATCH_SECMIN <=? option1 then decToBcd (tm_min time1) else DS3231_ALARM_NOTSET;
   if DS3231_ALARM1_MATCH_SECMINHOUR <=? option1 then decToBcd (tm_hour time1) else DS3231_ALARM_NOTSET;
   alarm_day (option1 =? DS3231_ALARM1_MATCH_SECMINHOURDAY) (option1 =? DS3231_ALARM1_MATCH_SECMINHOURDATE) time1].

Definition alarm2_bytes (time2 : tm) (option2 : Z) : list Z :=
  [if DS3231_ALARM2_MATCH_MIN <=? option2 then decToBcd (tm_min time2) else DS3231_ALARM_NOTSET;
   if DS3231_ALARM2_MATCH_MINHOUR <=? option2 then decToBcd (tm_hour time2) else DS3231_ALARM_NOTSET;
   alarm_day (option2 =? DS3231_ALARM2_MATCH_MINHOURDAY) (option2 =? DS3231_ALARM2_MATCH_MINHOURDATE) time2].

Definition ds3231_setAlarm (alarms : Z) (time1 : tm) (option1 : Z) (time2 : tm) (option2 : Z) : M W result :=
  let data := (if negb (alarms =? DS3231_ALARM_2) then alarm1_bytes time1 option1 else []) ++
              (if negb (alarms =? DS3231_ALARM_1) then alarm2_bytes time2 option2 else []) in
  ds3231_send (if alarms =? DS3231_ALARM_2 then DS3231_ADDR_ALARM2 else DS3231_ADDR_ALARM1) data.

(** One register is read; [None] when the transfer fails. *)
Definition ds3231_getFlag (addr mask : Z) : M W (option Z) :=
  let! (r, data) := ds3231_recv addr 1 in
  ret (if bool_decide (r = I2C_OK) then Some (Z.land (nth 0 data 0) mask) else None).

Definition ds3231_setFlag (addr bits : Z) (mode : set_mode) : M W bool :=
  let! (r, data) := ds3231_recv addr 1 in
  if bool_decide (r = I2C_OK) then
    let data := nth 0 data 0 in
    let data := match mode with
                | DS3231_REPLACE => bits
                | DS3231_SET => Z.lor data bits
                | DS3231_CLEAR => u8 (Z.ldiff data bits)
                end in
    let! r := ds3231_send addr [data] in
    ret (bool_decide (r = I2C_OK))
  else ret false.

Definition ds3231_getOscillatorStopFlag : M W (option bool) :=
  let! f := ds3231_getFlag DS3231_ADDR_STATUS DS3231_STAT_OSCILLATOR in
  ret (match f with Some f => Some (negb (f =? 0)) | None => None end).

Definition ds3231_clearOscillatorStopFlag : M W bool :=
  ds3231_setFlag DS3231_ADDR_STATUS DS3231_STAT_OSCILLATOR DS3231_CLEAR.
Definition ds3231_getAlarmFlags : M W (option Z) := ds3231_getFlag DS3231_ADDR_STATUS DS3231_ALARM_BOTH.
Definition ds3231_clearAlarmFlags (alarms : Z) : M W bool := ds3231_setFlag DS3231_ADDR_STATUS alarms DS3231_CLEAR.
Definition ds3231_enableAlarmInts (alarms : Z) : M W bool :=
  ds3231_setFlag DS3231_ADDR_CONTROL (Z.lor DS3231_CTRL_ALARM_INTS alarms) DS3231_SET.
Definition ds3231_disableAlarmInts (alarms : Z) : M W bool := ds3231_setFlag DS3231_ADDR_CONTROL alarms DS3231_CLEAR.
Definition ds3231_enable32khz : M W bool := ds3231_setFlag DS3231_ADDR_STATUS DS3231_STAT_32KHZ DS3231_SET.
Definition ds3231_disable32khz : M W bool := ds3231_setFlag DS3231_ADDR_STATUS DS3231_STAT_32KHZ DS3231_CLEAR.
Definition ds3231_enableSquarewave : M W bool := ds3231_setFlag DS3231_ADDR_CONTROL DS3231_CTRL_ALARM_INTS DS3231_CLEAR.
Definition ds3231_disableSquarewave : M W bool := ds3231_setFlag DS3231_ADDR_CONTROL DS3231_CTRL_ALARM_INTS DS3231_SET.

Definition ds3231_setSquarewaveFreq (freq : Z) : M W bool :=
  let! flag := ds3231_getFlag DS3231_ADDR_CONTROL 0xff in
  match flag with
  | Some flag =>
    let flag := Z.ldiff flag DS3231_CTRL_SQWAVE_8192HZ in
    let flag := Z.lor flag freq in
    ds3231_setFlag DS3231_ADDR_CONTROL flag DS3231_REPLACE
  | None => ret false
  end.

Definition ds3231_getRawTemp : M W (option Z) :=
  let! (r, data) := ds3231_recv DS3231_ADDR_TEMP 2 in
  ret (if bool_decide (r = I2C_OK) then
         Some (s16 (Z.lor (Z.shiftl (s8 (nth 0 data 0)) 2) (Z.shiftr (nth 1 data 0) 6)))
       else None).

Definition ds3231_getTempInteger : M W (option Z) :=
  let! t := ds3231_getRawTemp in
  ret (match t with Some tInt => Some (s8 (Z.shiftr tInt 2)) | None => None end).

Definition ds3231_getTempFloat : M W (option spec_float) :=
  let! t := ds3231_getRawTemp in
  ret (match t with Some tInt => Some (to_float (double_mul (double_of_Z tInt) quarter)) | None => None end).

(** The hour register, in its 12 and 24 hour formats. *)
Definition hour_of (b : Z) : Z :=
  if negb (Z.land b DS3231_12HOUR_FLAG =? 0) then
    let h := bcdToDec (Z.land b DS3231_12HOUR_MASK) - 1 in
    if negb (Z.land b DS3231_PM_FLAG =? 0) then h + 12 else h
  else bcdToDec b.

Definition time_of (data : list Z) : tm := {|
  tm_sec := bcdToDec (nth 0 data 0);
  tm_min := bcdToDec (nth 1 data 0);
  tm_hour := hour_of (nth 2 data 0);
  tm_wday := bcdToDec (nth 3 data 0) - 1;
  tm_mday := bcdToDec (nth 4 data 0);
  tm_mon := bcdToDec (Z.land (nth 5 data 0) DS3231_MONTH_MASK) - 1;
  tm_year := bcdToDec (nth 6 data 0) + 100;
  tm_isdst := 0;
|}.

Definition ds3231_getTime : M W (option tm) :=
  let! (r, data) := ds3231_recv DS3231_ADDR_TIME 7 in
  ret (if bool_decide (r = I2C_OK) then Some (time_of data) else None).

End Ds3231.
