(* ===== verification/I2cContract.v ===== *)
(** * What the I2C bus and the clock driver promise

    The properties of [extras/i2c/i2c.c] and [extras/ds3231/ds3231.c] their
    users rely on, with concrete runs. *)

From S2P Require Import Prelude I2c I2cWires I2cDevice Ds3231.
Open Scope Z_scope.

Import I2c.

(** ** Transfers *)

Section Transfer.
Context `{HW : Wiring}.

(** C12. Transfers on a free bus with a device that may stretch the clock:
    [i2c_slave_write] to its address stores the bytes from the given register
    on, [i2c_slave_read] returns the registers from the given one on and
    changes none; to another address both fail with [EIO] and the device is
    untouched.  Afterwards the bus is free, both wires are high and no
    critical section is open.  On a bus that is busy and not forced both give
    up with [EBUSY] without touching the wires. *)
Theorem i2c_slave_transfers w d c dev a reg buf len :
  idle w d c dev -> 0 <= a < 128 -> 0 <= reg < reg_count dev -> reg_count dev <= 256 -> Forall byteP buf ->
  (forall x, byteP (regs dev x)) -> (0 < len)%nat ->
  let mine := a =? dev_addr dev in
  (exists w' d' dev', i2c_slave_write bus a (Some reg) buf w = Done (if mine then I2C_OK else EIO, w') /\ idle w' d' c dev' /\
     regs dev' = (if mine then store_at (reg_count dev) (regs dev) reg buf else regs dev)) /\
  (exists w' d' dev', i2c_slave_read bus a (Some reg) len w =
     Done (if mine then (I2C_OK, fetch_at (reg_count dev) (regs dev) reg len) else (EIO, []), w') /\ idle w' d' c dev' /\
     regs dev' = regs dev) /\
  (forall v : world wires, flag (i2c_bus v bus) = true -> force (i2c_bus v bus) = false ->
     (exists v', i2c_slave_write bus a (Some reg) buf v = Done (EBUSY, v') /\ hw v' = hw v /\ critical v' = critical v) /\
     (exists v', i2c_slave_read bus a (Some reg) len v = Done ((EBUSY, []), v') /\ hw v' = hw v /\ critical v' = critical v)).
Proof.
  intros Hi Ha Hreg Hn Hb Hr Hl mine. pose proof (i_conn _ _ _ _ Hi) as Hm. assert (Hbr : byteP reg) by (unfold byteP; lia).
  assert (Hmod : reg mod reg_count dev = reg) by (apply Z.mod_small; lia). split; [|split].
  - destruct (slave_write_goes w d c dev a reg buf Hi Ha Hbr Hb) as (w' & E & Hh). exists w', (ended d). eexists.
    split; [exact E|]. split; [by apply ended_idle|]. cbn [regs set_phase]. unfold mine. destruct (a =? dev_addr dev); [|done].
    destruct (put_bytes_regs buf (set_ptr dev (reg mod reg_count dev))) as (_ & _ & -> & _). cbn. by rewrite Hmod.
  - destruct (slave_read_goes w d c dev a reg len Hi Ha Hbr Hr Hl) as (w' & E & Hh). rewrite Hmod in E. exists w', (ended d). eexists.
    split; [exact E|]. split; [by apply ended_idle|]. cbn [regs set_phase]. destruct (a =? dev_addr dev); [|done].
    by destruct (after_read_same len (set_ptr dev (reg mod reg_count dev))) as (-> & _).
  - intros v Hf Hfo. destruct (bus_test_busy v _ eq_refl Hf Hfo) as (v' & E & _ & H1 & H2). split; exists v'; (split; [|done]).
    + unfold i2c_slave_write. run E. by rewrite bool_decide_false.
    + unfold i2c_slave_read. run E. by rewrite bool_decide_false.
Qed.
End Transfer.

(** ** The delay loop *)

(** The value for 800 kHz is accepted, but its delay at 80 MHz is zero, and
    the delay loop runs through all values of a 32-bit register. *)
Theorem i2c_800k_delay_wraps {H} `{!Gpio H} (w : world H) scl_pin sda_pin :
  0 <= scl_pin <= 15 -> 0 <= sda_pin <= 15 ->
  exists w', i2c_init 0 scl_pin sda_pin I2C_FREQ_800K w = Done (I2C_OK, w') /\ delay_80 (i2c_bus w' 0) = 0 /\ loop_rounds 0 = 2 ^ 32.
Proof.
  intros H1 H2. unfold i2c_init, i2c_init_hz. cbn [I2C_MAX_BUS Z.leb Z.compare].
  rewrite (proj2 (orb_false_iff _ _)) by (split; apply Z.ltb_ge; unfold I2C_MAX_PIN; lia).
  eexists. split; [reflexivity|]. done.
Qed.

(** ** The clock *)

Definition tm_ok (t : tm) : Prop :=
  0 <= tm_sec t < 60 /\ 0 <= tm_min t < 60 /\ 0 <= tm_hour t < 24 /\ 0 <= tm_wday t < 7 /\ 1 <= tm_mday t < 32 /\
  0 <= tm_mon t < 12 /\ 100 <= tm_year t < 200 /\ tm_isdst t = 0.

Lemma bcd_check v : 0 <= v < 100 ->
  bcdToDec (decToBcd v) = v /\ byteP (decToBcd v) /\ (v < 24 -> hour_of (decToBcd v) = v) /\
  (v < 13 -> bcdToDec (Z.land (decToBcd v) DS3231_MONTH_MASK) = v).
Proof.
  intros Hv. assert (Hall : forall v, byteP v -> implb (v <? 100) ((bcdToDec (decToBcd v) =? v) && (0 <=? decToBcd v) && (decToBcd v <? 256) &&
    implb (v <? 24) (hour_of (decToBcd v) =? v) && implb (v <? 13) (bcdToDec (Z.land (decToBcd v) DS3231_MONTH_MASK) =? v)) = true).
  { apply (byte_check (fun v => implb (v <? 100) ((bcdToDec (decToBcd v) =? v) && (0 <=? decToBcd v) && (decToBcd v <? 256) &&
      implb (v <? 24) (hour_of (decToBcd v) =? v) && implb (v <? 13) (bcdToDec (Z.land (decToBcd v) DS3231_MONTH_MASK) =? v)))).
    vm_compute. reflexivity. }
  specialize (Hall v ltac:(unfold byteP; lia)). rewrite (proj2 (Z.ltb_lt v 100)) in Hall by lia. cbn [implb] in Hall. zbool.
  split; [done|]. split; [done|]. split; intros Hlt; [rewrite (proj2 (Z.ltb_lt v 24)) in *|rewrite (proj2 (Z.ltb_lt v 13)) in *]; try lia; cbn [implb] in *; zbool; done.
Qed.

Lemma fetch_ext n r r' p len : (forall x, r x = r' x) -> fetch_at n r p len = fetch_at n r' p len.
Proof. intros H. revert p. induction len as [|len IH]; intros p; cbn [fetch_at]; [done|]. by rewrite H, IH. Qed.

Lemma fetch_seven r t : fetch_at 19 (store_at 19 r DS3231_ADDR_TIME (time_bytes t)) DS3231_ADDR_TIME 7 = time_bytes t.
Proof. reflexivity. Qed.

Section Clock.
Context {W : Type} `{HO : !I2cOps W} (bus addr : Z) `{HR : !RegBus W bus addr 19}.

(** C40. [ds3231_setTime] stores a time of the years 2000 to 2099 so that
    [ds3231_getTime] returns it, and changes no register other than the seven
    of the time. *)
Theorem ds3231_time_roundtrip w t :
  rb_ready w -> tm_ok t ->
  let dev := {| dev_bus := bus; dev_address := addr |} in
  exists w1 w2, ds3231_setTime dev t w = Done (I2C_OK, w1) /\ ds3231_getTime dev w1 = Done (Some t, w2) /\
    rb_ready w2 /\ forall x, 7 <= x < 19 -> rb_regs w2 x = rb_regs w x.
Proof.
  intros Hw (H1 & H2 & H3 & H4 & H5 & H6 & H7 & H8) dev.
  destruct (bcd_check (tm_sec t)) as (E1 & B1 & _); [lia|]. destruct (bcd_check (tm_min t)) as (E2 & B2 & _); [lia|].
  destruct (bcd_check (tm_hour t)) as (_ & B3 & E3 & _); [lia|]. destruct (bcd_check (tm_wday t + 1)) as (E4 & B4 & _); [lia|].
  destruct (bcd_check (tm_mday t)) as (E5 & B5 & _); [lia|]. destruct (bcd_check (tm_mon t + 1)) as (_ & B6 & _ & E6); [lia|].
  destruct (bcd_check (tm_year t - 100)) as (E7 & B7 & _); [lia|].
  destruct (rb_write w DS3231_ADDR_TIME (time_bytes t) Hw) as (w1 & Ew & Hw1 & Hr1); [done|unfold time_bytes; do 7 (constructor; [done|]); constructor|].
  destruct (rb_read w1 DS3231_ADDR_TIME 7 Hw1) as (w2 & Er & Hw2 & Hr2); [done|lia|].
  exists w1, w2. split; [exact Ew|]. split.
  - unfold ds3231_getTime, ds3231_recv. cbn [dev_bus dev_address dev]. run Er. rewrite bool_decide_true by done. unfold ret. do 3 f_equal.
    rewrite (fetch_ext _ _ _ _ _ Hr1), fetch_seven. unfold time_of, time_bytes. cbn [nth].
    rewrite E1, E2, E3, E4, E5, E6, E7 by lia. destruct t; cbn in *. f_equal; lia.
  - split; [done|]. intros x Hx. rewrite Hr2, Hr1. unfold time_bytes, DS3231_ADDR_TIME. cbn [store_at].
    repeat match goal with |- context [(?a + 1) mod 19] => let v := eval vm_compute in ((a + 1) mod 19) in change ((a + 1) mod 19) with v end.
    rewrite !(proj2 (Z.eqb_neq x _)) by lia. done.
Qed.

(** The weekday of an alarm is lost: the register always gets zero. *)
Theorem ds3231_alarm_day_lost t date : 0 <= tm_wday t < 7 -> alarm_day true date t = 0.
Proof.
  intros Hd. unfold alarm_day. assert (Hc : tm_wday t = 0 \/ tm_wday t = 1 \/ tm_wday t = 2 \/ tm_wday t = 3 \/ tm_wday t = 4 \/
    tm_wday t = 5 \/ tm_wday t = 6) by lia. repeat destruct Hc as [->|Hc]; try reflexivity. rewrite Hc. reflexivity.
Qed.
End Clock.

(** ** Concrete runs *)

Module I2cBench.

#[export] Program Instance wiring : Wiring := {
  scl_pin := 5; sda_pin := 4; fast := false; stretch n := (n mod 3)%nat; bus := 0;
}.
Next Obligation. lia. Qed.
Next Obligation. intros n. cbn beta. pose proof (Nat.mod_upper_bound n 3). unfold I2C_CLK_STRETCH_SPIN. lia. Qed.
Next Obligation. unfold I2C_MAX_BUS. lia. Qed.

Definition clock_chip : device :=
  {| dev_addr := 0x68; reg_count := 19; regs := fun x => 0; ptr := 3; dev_phase := PIdle |}.

Definition descriptor : i2c_bus_description_t :=
  {| g_scl_mask := 0x20; g_sda_mask := 0x10; delay_80 := 88; delay_160 := 186; delay := 0; started := false;
     flag := false; force := false; clk_stretch := 25 |}.

Definition bench : world (wires (S := device)) :=
  {| i2c_bus := fun _ => descriptor; critical := 0;
     hw := {| scl := true; sda := true; held := 0; pulse := 0; sampled := None; slave := clock_chip; ticks := 0; rounds := 0 |} |}.

Lemma bench_idle : idle bench descriptor 0 clock_chip.
Proof. split; [by split|by exists None|done..]. Qed.

Lemma bench_attached : attached 0x68 19 bench.
Proof.
  exists descriptor, 0, clock_chip. split; [apply bench_idle|]. split; [done|]. split; [done|].
  split; [intros x; unfold byteP; cbn; lia|lia].
Qed.

End I2cBench.

Import I2cBench.

Lemma i2c_slave_transfers_witness :
  exists w' d' dev', i2c_slave_write 0 0x68 (Some 14) [0x1c; 0x88] bench = Done (I2C_OK, w') /\ idle w' d' 0 dev' /\
    regs dev' 15 = 0x88.
Proof.
  destruct (i2c_slave_transfers bench descriptor 0 clock_chip 0x68 14 [0x1c; 0x88] 2) as [(w' & d' & dev' & E & Hi & Hr) _].
  - apply bench_idle.
  - lia.
  - cbn. lia.
  - cbn. lia.
  - repeat (constructor; [unfold byteP; lia|]). constructor.
  - intros x. unfold byteP. cbn. lia.
  - lia.
  - exists w', d', dev'. split; [exact E|]. split; [exact Hi|]. rewrite Hr. reflexivity.
Defined.

Lemma i2c_800k_delay_wraps_witness :
  exists w', i2c_init 0 5 4 I2C_FREQ_800K bench = Done (I2C_OK, w') /\ delay_80 (i2c_bus w' 0) = 0.
Proof.
  destruct (i2c_800k_delay_wraps bench 5 4) as (w' & E & H & _); [lia|lia|]. exists w'. split; [exact E|exact H].
Defined.

Definition noon : tm :=
  {| tm_sec := 59; tm_min := 30; tm_hour := 12; tm_mday := 29; tm_mon := 1; tm_year := 124; tm_wday := 4; tm_isdst := 0 |}.

Lemma ds3231_time_roundtrip_witness :
  exists w1 w2, ds3231_setTime {| dev_bus := 0; dev_address := 0x68 |} noon bench = Done (I2C_OK, w1) /\
    ds3231_getTime {| dev_bus := 0; dev_address := 0x68 |} w1 = Done (Some noon, w2).
Proof.
  destruct (ds3231_time_roundtrip 0 0x68 (HR := wires_regs (HW := wiring) 0x68 19) bench noon) as (w1 & w2 & E1 & E2 & _).
  - exact bench_attached.
  - unfold tm_ok. cbn. lia.
  - exists w1, w2. split; [exact E1|exact E2].
Defined.
