(* ===== verification/Dhcp.v ===== *)
(** * The DHCP server: [extras/dhcpserver/dhcpserver.c]

    A table of leases, one for each of [max_leases] consecutive addresses; a
    task that receives messages, lets leases expire, and answers DISCOVER and
    REQUEST with broadcasts.  The message structure is the record [dhcp_msg];
    option pointers are indices into its [options] array.  Addresses
    ([ip4_addr_t], network byte order) are lists of four octets.  The
    constants of lwIP's headers and its buffers are the class [LwipH]. *)

From stdpp Require Import strings.
From S2P Require Import Prelude.
Open Scope Z_scope.

(** The options field is grown by the server's own definition. *)
Definition DHCP_OPTIONS_LEN : Z := 312.
Definition DHCPSERVER_LEASE_TIME : Z := 3600.
Definition configTICK_RATE_HZ : Z := 100.

Definition ip4_addr_t : Type := list Z.

(** [struct dhcp_msg], a DHCP message as in RFC 2131. *)
Record dhcp_msg := {
  op : Z;
  htype : Z;
  hlen : Z;
  hops : Z;
  xid : list Z;
  secs_flags : list Z;
  ciaddr : ip4_addr_t;
  yiaddr : ip4_addr_t;
  siaddr : ip4_addr_t;
  giaddr : ip4_addr_t;
  chaddr : list Z;
  sname_file_cookie : list Z;
  options : list Z;
}.

(** [htonl] stored to memory, [ntohl] of what is there, and the octets. *)
Definition lwip_htonl (x : Z) : list Z := rev (le_bytes 4 x).
Definition lwip_ntohl (bs : list Z) : Z := le_val (rev bs).
Definition ip4_addr1 (a : ip4_addr_t) : Z := as_mem a 0.
Definition ip4_addr2 (a : ip4_addr_t) : Z := as_mem a 1.
Definition ip4_addr3 (a : ip4_addr_t) : Z := as_mem a 2.
Definition ip4_addr4 (a : ip4_addr_t) : Z := as_mem a 3.
Definition IP4_ADDR_ANY4 : ip4_addr_t := [0; 0; 0; 0].
Definition ip4_addr_cmp (a b : ip4_addr_t) : bool := bool_decide (a = b).
Definition ip4_addr_isany_val (a : ip4_addr_t) : bool := ip4_addr_cmp a IP4_ADDR_ANY4.

(** What the server uses of lwIP: the constants of [lwip/prot/dhcp.h],
    [lwip/prot/iana.h] and [lwip/netif.h], and received buffers with their
    length and their copy into a zeroed [struct dhcp_msg]. *)
Class LwipH := {
  NETIF_MAX_HWADDR_LEN : Z;
  LWIP_IANA_HWTYPE_ETHERNET : Z;
  DHCP_BOOTREPLY : Z;
  DHCP_DISCOVER : Z;
  DHCP_OFFER : Z;
  DHCP_REQUEST : Z;
  DHCP_ACK : Z;
  DHCP_NAK : Z;
  DHCP_RELEASE : Z;
  DHCP_OPTION_SUBNET_MASK : Z;
  DHCP_OPTION_ROUTER : Z;
  DHCP_OPTION_DNS_SERVER : Z;
  DHCP_OPTION_REQUESTED_IP : Z;
  DHCP_OPTION_LEASE_TIME : Z;
  DHCP_OPTION_MESSAGE_TYPE : Z;
  DHCP_OPTION_MESSAGE_TYPE_LEN : Z;
  DHCP_OPTION_SERVER_ID : Z;
  DHCP_OPTION_END : Z;
  offsetof_options : Z;
  netbuf : Type;
  netbuf_len : netbuf -> Z;
  netbuf_copy : netbuf -> dhcp_msg;
}.

(** Type of a message as it lies in memory. *)
Definition msg_wf (m : dhcp_msg) : Prop :=
  byteP (op m) /\ byteP (htype m) /\ byteP (hlen m) /\
  (length (ciaddr m) = 4%nat /\ Forall byteP (ciaddr m)) /\
  (length (yiaddr m) = 4%nat /\ Forall byteP (yiaddr m)) /\
  (length (chaddr m) = 16%nat /\ Forall byteP (chaddr m)) /\
  (length (options m) = Z.to_nat DHCP_OPTIONS_LEN /\ Forall byteP (options m)).

(** The numbers of RFC 2131 and RFC 2132, six octets of hardware address, and
    received messages that fit their types. *)
Class LwipHLaws `{!LwipH} := {
  hwaddr_len : NETIF_MAX_HWADDR_LEN = 6;
  message_types :
    [DHCP_DISCOVER; DHCP_OFFER; DHCP_REQUEST; DHCP_ACK; DHCP_NAK; DHCP_RELEASE] = [1; 2; 3; 5; 6; 7];
  option_numbers :
    [DHCP_OPTION_SUBNET_MASK; DHCP_OPTION_ROUTER; DHCP_OPTION_DNS_SERVER; DHCP_OPTION_REQUESTED_IP;
     DHCP_OPTION_LEASE_TIME; DHCP_OPTION_MESSAGE_TYPE; DHCP_OPTION_SERVER_ID; DHCP_OPTION_END]
    = [1; 3; 6; 50; 51; 53; 54; 255];
  message_type_len : DHCP_OPTION_MESSAGE_TYPE_LEN = 1;
  bootreply : DHCP_BOOTREPLY = 2;
  netbuf_copy_wf (nb : netbuf) : msg_wf (netbuf_copy nb);
}.

Module Dhcp.

(** [dhcp_lease_t] *)
Record dhcp_lease_t := {
  hwaddr : list Z;
  active : Z;
  expires : Z;
}.

(** The parts of [struct netif] that are read. *)
Record netif := {
  ip_addr : ip4_addr_t;
  netmask : ip4_addr_t;
}.

(** [server_state_t]; [nc] says whether the connection is allocated. *)
Record server_state_t := {
  nc : bool;
  max_leases : Z;
  first_client_addr : ip4_addr_t;
  server_if : option netif;
  leases : list dhcp_lease_t;
  router : ip4_addr_t;
  dns : ip4_addr_t;
}.

(** The globals of the file and what surrounds it: the interface list of
    lwIP, the number of reads of the tick counter, the outcomes of
    allocations (success once the list is used up), what the uninitialised
    stack memory holds each time it is used, the messages broadcast and the
    stations reported to the SDK. *)
Record world := {
  dhcpserver_task_handle : bool;
  state : option server_state_t;
  netif_list : option netif;
  reads : nat;
  w_alloc : list bool;
  w_junk : nat -> ip4_addr_t;
  sent : list dhcp_msg;
  stations : list (list Z * ip4_addr_t);
}.

Definition with_state (w : world) (st : option server_state_t) : world :=
  {| dhcpserver_task_handle := dhcpserver_task_handle w; state := st; netif_list := netif_list w; reads := reads w;
     w_alloc := w_alloc w; w_junk := w_junk w; sent := sent w; stations := stations w |}.
Definition with_handle (w : world) (b : bool) : world :=
  {| dhcpserver_task_handle := b; state := state w; netif_list := netif_list w; reads := reads w;
     w_alloc := w_alloc w; w_junk := w_junk w; sent := sent w; stations := stations w |}.
Definition with_read (w : world) : world :=
  {| dhcpserver_task_handle := dhcpserver_task_handle w; state := state w; netif_list := netif_list w; reads := S (reads w);
     w_alloc := w_alloc w; w_junk := w_junk w; sent := sent w; stations := stations w |}.
Definition with_alloc (w : world) (l : list bool) : world :=
  {| dhcpserver_task_handle := dhcpserver_task_handle w; state := state w; netif_list := netif_list w; reads := reads w;
     w_alloc := l; w_junk := w_junk w; sent := sent w; stations := stations w |}.
Definition with_sent (w : world) (l : list dhcp_msg) : world :=
  {| dhcpserver_task_handle := dhcpserver_task_handle w; state := state w; netif_list := netif_list w; reads := reads w;
     w_alloc := w_alloc w; w_junk := w_junk w; sent := l; stations := stations w |}.
Definition with_stations (w : world) (l : list (list Z * ip4_addr_t)) : world :=
  {| dhcpserver_task_handle := dhcpserver_task_handle w; state := state w; netif_list := netif_list w; reads := reads w;
     w_alloc := w_alloc w; w_junk := w_junk w; sent := sent w; stations := l |}.

Definition with_junk (w : world) (f : nat -> ip4_addr_t) : world :=
  {| dhcpserver_task_handle := dhcpserver_task_handle w; state := state w; netif_list := netif_list w; reads := reads w;
     w_alloc := w_alloc w; w_junk := f; sent := sent w; stations := stations w |}.

Definition set_nc (st : server_state_t) (b : bool) : server_state_t :=
  {| nc := b; max_leases := max_leases st; first_client_addr := first_client_addr st; server_if := server_if st;
     leases := leases st; router := router st; dns := dns st |}.
Definition set_server_if (st : server_state_t) (i : option netif) : server_state_t :=
  {| nc := nc st; max_leases := max_leases st; first_client_addr := first_client_addr st; server_if := i;
     leases := leases st; router := router st; dns := dns st |}.
Definition set_leases (st : server_state_t) (ls : list dhcp_lease_t) : server_state_t :=
  {| nc := nc st; max_leases := max_leases st; first_client_addr := first_client_addr st; server_if := server_if st;
     leases := ls; router := router st; dns := dns st |}.
Definition set_router (st : server_state_t) (a : ip4_addr_t) : server_state_t :=
  {| nc := nc st; max_leases := max_leases st; first_client_addr := first_client_addr st; server_if := server_if st;
     leases := leases st; router := a; dns := dns st |}.
Definition set_dns (st : server_state_t) (a : ip4_addr_t) : server_state_t :=
  {| nc := nc st; max_leases := max_leases st; first_client_addr := first_client_addr st; server_if := server_if st;
     leases := leases st; router := router st; dns := a |}.

Definition set_active (l : dhcp_lease_t) (v : Z) : dhcp_lease_t :=
  {| hwaddr := hwaddr l; active := v; expires := expires l |}.

(** The message as a reply: its operation code, address and options. *)
Definition set_reply (m : dhcp_msg) (o : Z) (y : ip4_addr_t) (opts : list Z) : dhcp_msg :=
  {| op := o; htype := htype m; hlen := hlen m; hops := hops m; xid := xid m; secs_flags := secs_flags m;
     ciaddr := ciaddr m; yiaddr := y; siaddr := siaddr m; giaddr := giaddr m; chaddr := chaddr m;
     sname_file_cookie := sname_file_cookie m; options := opts |}.

(** [memcmp(a, b, n) == 0]; both objects must have [n] bytes. *)
Definition memcmp_eq {S} (a b : list Z) (n : Z) : M S bool :=
  if (n <=? Z.of_nat (length a)) && (n <=? Z.of_nat (length b))
  then ret (bool_decide (sub_bytes a 0 n = sub_bytes b 0 n))
  else undefined.

Section Dhcp.
Context `{!LwipH}.
(** The tick counter at each of its reads. *)
Context (clock : nat -> Z).

Definition xTaskGetTickCount : M world Z := fun w => Done (u32 (clock (reads w)), with_read w).

Definition alloc_ok : M world bool := fun w =>
  match w_alloc w with
  | [] => Done (true, w)
  | b :: l => Done (b, with_alloc w l)
  end.

(** [*state] *)
Definition get_state : M world server_state_t :=
  let! w := get in
  deref (state w).
Definition put_state (st : server_state_t) : M world unit := modify (fun w => with_state w (Some st)).

(** ** Options *)

(** The loop of [find_dhcp_option] at the pointer [p]; the result is the
    pointer to the option's data and its length. *)
Fixpoint find_loop {S} (fuel : nat) (opts : list Z) (option_num min_length p : Z) : M S (option (Z * Z)) :=
  match fuel with
  | O => out_of_fuel
  | S fuel =>
    if p <? DHCP_OPTIONS_LEN - 2 then
      let! type := deref (opts !! Z.to_nat p) in
      let! len := deref (opts !! Z.to_nat (p + 1)) in
      let p := p + 2 in
      if type =? DHCP_OPTION_END then ret None
      else if DHCP_OPTIONS_LEN <=? p + len then ret None
      else if type =? option_num then
        if len <? min_length then ret None else ret (Some (p, len))
      else find_loop fuel opts option_num min_length (p + len)
    else ret None
  end.

Definition find_dhcp_option {S} (msg : dhcp_msg) (option_num min_length : Z) : M S (option (Z * Z)) :=
  find_loop (Z.to_nat (DHCP_OPTIONS_LEN / 2)) (options msg) option_num min_length 0.

(** A store through an option pointer; the state is the options array. *)
Definition store (opt v : Z) : M (list Z) unit := fun opts =>
  match buf_set opts opt v with
  | Some opts => Done (tt, opts)
  | None => Undefined
  end.

Fixpoint store_all (opt : Z) (vs : list Z) : M (list Z) unit :=
  match vs with
  | [] => ret tt
  | v :: vs => do! store opt v then store_all (opt + 1) vs
  end.

Definition add_dhcp_option_byte (opt type value : Z) : M (list Z) Z :=
  do! store opt type then
  do! store (opt + 1) 1 then
  do! store (opt + 2) value then
  ret (opt + 3).

(** [len] is the length of [value]. *)
Definition add_dhcp_option_bytes (opt type : Z) (value : list Z) : M (list Z) Z :=
  let len := Z.of_nat (length value) in
  do! store opt type then
  let opt := opt + 1 in
  if len =? 0 then ret opt else
  do! store opt len then
  let opt := opt + 1 in
  do! store_all opt value then
  ret (opt + len).

Definition add_if (b : bool) (opt type : Z) (value : list Z) : M (list Z) Z :=
  if b then add_dhcp_option_bytes opt type value else ret opt.

(** ** Leases *)

Fixpoint find_lease_loop {S} (n : nat) (i : Z) (ls : list dhcp_lease_t) (hw : list Z) (empty_lease : option Z)
    : M S (option Z) :=
  match n with
  | O => ret empty_lease
  | S n =>
    let! l := deref (ls !! Z.to_nat i) in
    if (active l =? 0) && negb (bool_decide (is_Some empty_lease)) then
      find_lease_loop n (i + 1) ls hw (Some i)
    else
      let! same := memcmp_eq hw (hwaddr l) 6 in
      if same then ret (Some i) else find_lease_loop n (i + 1) ls hw empty_lease
  end.

Definition find_lease_slot (hw : list Z) : M world (option Z) :=
  let! st := get_state in
  find_lease_loop (Z.to_nat (max_leases st)) 0 (leases st) hw None.

(** ** Replies *)

(** [bzero] of the options, the stores through [opt], and the broadcast. *)
Definition send_reply (m : dhcp_msg) (y : ip4_addr_t) (build : M (list Z) Z) : M world unit :=
  match build (replicate (Z.to_nat DHCP_OPTIONS_LEN) 0) with
  | Done (_, opts) => modify (fun w => with_sent w (sent w ++ [set_reply m DHCP_BOOTREPLY y opts]))
  | OutOfFuel => out_of_fuel
  | Undefined => undefined
  end.

Definition offer_options (st : server_state_t) (i : netif) : M (list Z) Z :=
  let! opt := add_dhcp_option_byte 0 DHCP_OPTION_MESSAGE_TYPE DHCP_OFFER in
  let! opt := add_dhcp_option_bytes opt DHCP_OPTION_SERVER_ID (ip_addr i) in
  let! opt := add_dhcp_option_bytes opt DHCP_OPTION_SUBNET_MASK (netmask i) in
  let! opt := add_if (negb (ip4_addr_isany_val (router st))) opt DHCP_OPTION_ROUTER (router st) in
  let! opt := add_if (negb (ip4_addr_isany_val (dns st))) opt DHCP_OPTION_DNS_SERVER (dns st) in
  let! opt := add_dhcp_option_bytes opt DHCP_OPTION_LEASE_TIME (lwip_htonl DHCPSERVER_LEASE_TIME) in
  add_dhcp_option_bytes opt DHCP_OPTION_END [].

Definition handle_dhcp_discover (m : dhcp_msg) : M world unit :=
  if negb (htype m =? LWIP_IANA_HWTYPE_ETHERNET) then ret tt else
  if NETIF_MAX_HWADDR_LEN <? hlen m then ret tt else
  let! freelease := find_lease_slot (chaddr m) in
  match freelease with
  | None => ret tt
  | Some k =>
    let! st := get_state in
    let! i := deref (server_if st) in
    send_reply m (lwip_htonl (u32 (lwip_ntohl (first_client_addr st) + k))) (offer_options st i)
  end.

Definition nak_options (i : netif) : M (list Z) Z :=
  let! opt := add_dhcp_option_byte 0 DHCP_OPTION_MESSAGE_TYPE DHCP_NAK in
  let! opt := add_dhcp_option_bytes opt DHCP_OPTION_SERVER_ID (ip_addr i) in
  add_dhcp_option_bytes opt DHCP_OPTION_END [].

Definition send_dhcp_nak (m : dhcp_msg) : M world unit :=
  let! st := get_state in
  let! i := deref (server_if st) in
  send_reply m (yiaddr m) (nak_options i).

Definition ack_options (st : server_state_t) (i : netif) : M (list Z) Z :=
  let! opt := add_dhcp_option_byte 0 DHCP_OPTION_MESSAGE_TYPE DHCP_ACK in
  let! opt := add_dhcp_option_bytes opt DHCP_OPTION_LEASE_TIME (lwip_htonl DHCPSERVER_LEASE_TIME) in
  let! opt := add_dhcp_option_bytes opt DHCP_OPTION_SERVER_ID (ip_addr i) in
  let! opt := add_dhcp_option_bytes opt DHCP_OPTION_SUBNET_MASK (netmask i) in
  let! opt := add_if (negb (ip4_addr_isany_val (router st))) opt DHCP_OPTION_ROUTER (router st) in
  let! opt := add_if (negb (ip4_addr_isany_val (dns st))) opt DHCP_OPTION_DNS_SERVER (dns st) in
  add_dhcp_option_bytes opt DHCP_OPTION_END [].

(** An address in an uninitialised variable: any value, another one at each
    use. *)
Definition uninit_ip : M world ip4_addr_t := fun w => Done (w_junk w 0%nat, with_junk w (fun k => w_junk w (S k))).

(** The address asked for: the option, or [ciaddr] when the uninitialised
    variable happens to be zero; [None] leads to a NAK. *)
Definition requested_address (m : dhcp_msg) : M world (option ip4_addr_t) :=
  let! o := find_dhcp_option m DHCP_OPTION_REQUESTED_IP 4 in
  match o with
  | Some (p, _) => ret (Some (sub_bytes (options m) p 4))
  | None =>
    let! requested_ip := uninit_ip in
    if ip4_addr_cmp requested_ip IP4_ADDR_ANY4 then ret (Some (ciaddr m)) else ret None
  end.

(** The lease is entered in the table, reported and acknowledged. *)
Definition grant (m : dhcp_msg) (requested_ip : ip4_addr_t) (octet_offs : Z) (l : dhcp_lease_t) : M world unit :=
  let hw := sub_bytes (chaddr m) 0 (hlen m) ++ drop (Z.to_nat (hlen m)) (hwaddr l) in
  let! now := xTaskGetTickCount in
  let! st := get_state in
  let l' := {| hwaddr := hw; active := 1; expires := u32 (now + DHCPSERVER_LEASE_TIME * configTICK_RATE_HZ) |} in
  do! put_state (set_leases st (<[Z.to_nat octet_offs := l']> (leases st))) then
  do! modify (fun w => with_stations w (stations w ++ [(hw, requested_ip)])) then
  let! i := deref (server_if st) in
  send_reply m requested_ip (ack_options st i).

Definition handle_dhcp_request (m : dhcp_msg) : M world unit :=
  if negb (htype m =? LWIP_IANA_HWTYPE_ETHERNET) then ret tt else
  if NETIF_MAX_HWADDR_LEN <? hlen m then ret tt else
  let! requested := requested_address m in
  match requested with
  | None => send_dhcp_nak m
  | Some requested_ip =>
    let! st := get_state in
    if negb (ip4_addr1 requested_ip =? ip4_addr1 (first_client_addr st))
       || negb (ip4_addr2 requested_ip =? ip4_addr2 (first_client_addr st))
       || negb (ip4_addr3 requested_ip =? ip4_addr3 (first_client_addr st)) then send_dhcp_nak m else
    let octet_offs := s16 (ip4_addr4 requested_ip - ip4_addr4 (first_client_addr st)) in
    if (octet_offs <? 0) || (max_leases st <=? octet_offs) then send_dhcp_nak m else
    let! l := deref (leases st !! Z.to_nat octet_offs) in
    let! same := (if active l =? 0 then ret true else memcmp_eq (hwaddr l) (chaddr m) (hlen m)) in
    if same then grant m requested_ip octet_offs l else send_dhcp_nak m
  end.

Definition handle_dhcp_release (m : dhcp_msg) : M world unit :=
  let! lease := find_lease_slot (chaddr m) in
  match lease with
  | None => ret tt
  | Some k =>
    let! st := get_state in
    let! l := deref (leases st !! Z.to_nat k) in
    put_state (set_leases st (<[Z.to_nat k := {| hwaddr := hwaddr l; active := 0; expires := 0 |}]> (leases st)))
  end.

(** ** The task *)

(** The expiry of one lease. *)
Definition expire (now : Z) (l : dhcp_lease_t) : dhcp_lease_t :=
  if active l =? 0 then l
  else if 0x80000000 <=? u32 (expires l - now) then set_active l 0 else l.

(** The loop over the first [max_leases] slots. *)
Fixpoint expire_loop (n : nat) (i : Z) (now : Z) : M world unit :=
  match n with
  | O => ret tt
  | S n =>
    let! st := get_state in
    let! l := deref (leases st !! Z.to_nat i) in
    do! put_state (set_leases st (<[Z.to_nat i := expire now l]> (leases st))) then
    expire_loop n (i + 1) now
  end.

(** What a message does once it is in [received]. *)
Definition dispatch (received : dhcp_msg) : M world unit :=
  let! o := find_dhcp_option received DHCP_OPTION_MESSAGE_TYPE DHCP_OPTION_MESSAGE_TYPE_LEN in
  match o with
  | None => ret tt
  | Some (p, _) =>
    let! message_type := deref (options received !! Z.to_nat p) in
    if message_type =? DHCP_DISCOVER then handle_dhcp_discover received
    else if message_type =? DHCP_REQUEST then handle_dhcp_request received
    else if message_type =? DHCP_RELEASE then handle_dhcp_release received
    else ret tt
  end.

(** One turn of the task's loop; [None] is a failed [netconn_recv]. *)
Definition dhcpserver_turn (r : option netbuf) : M world unit :=
  match r with
  | None => ret tt
  | Some nb =>
    let! now := xTaskGetTickCount in
    let! st := get_state in
    do! expire_loop (Z.to_nat (max_leases st)) 0 now then
    if netbuf_len nb <? offsetof_options then ret tt
    else dispatch (netbuf_copy nb)
  end.

(** The task on the packets received while it runs. *)
Fixpoint dhcpserver_loop (rs : list (option netbuf)) : M world unit :=
  match rs with
  | [] => ret tt
  | r :: rs => do! dhcpserver_turn r then dhcpserver_loop rs
  end.

(** A task function must not return, which it does without a socket. *)
Definition dhcpserver_task (rs : list (option netbuf)) : M world unit :=
  let! w := get in
  let! st := get_state in
  do! put_state (set_server_if st (netif_list w)) then
  let! ok := alloc_ok in
  let! st := get_state in
  do! put_state (set_nc st ok) then
  if negb ok then undefined else
  let! st := get_state in
  do! deref (server_if st) then
  dhcpserver_loop rs.

(** ** Public functions *)

Definition dhcpserver_stop : M world unit :=
  let! w := get in
  if dhcpserver_task_handle w then
    do! modify (fun w => with_handle w false) then
    do! get_state then
    modify (fun w => with_state w None)
  else ret tt.

Definition dhcpserver_start (first : ip4_addr_t) (n : Z) : M world unit :=
  let! w := get in
  do! (if dhcpserver_task_handle w then dhcpserver_stop else ret tt) then
  let! ok := alloc_ok in
  if negb ok then undefined else
  let! ok := alloc_ok in
  if negb ok then undefined else
  do! put_state
    {| nc := false; max_leases := n; first_client_addr := first; server_if := None;
       leases := replicate (Z.to_nat n)
         {| hwaddr := replicate (Z.to_nat NETIF_MAX_HWADDR_LEN) 0; active := 0; expires := 0 |};
       router := IP4_ADDR_ANY4; dns := IP4_ADDR_ANY4 |} then
  let! ok := alloc_ok in
  modify (fun w => with_handle w (ok || dhcpserver_task_handle w)).

Definition dhcpserver_set_router (a : ip4_addr_t) : M world unit :=
  let! st := get_state in
  put_state (set_router st a).

Definition dhcpserver_set_dns (a : ip4_addr_t) : M world unit :=
  let! st := get_state in
  put_state (set_dns st a).

End Dhcp.
End Dhcp.
