(* ===== verification/DhcpOptions.v ===== *)
(** * DHCP options: the writer and the parser

    The options [add_dhcp_option_bytes] writes are the bytes [encode] gives
    for a list of (number, value) pairs; [find_dhcp_option] finds the first
    pair with a number in them, and on any contents it ends inside the
    array. *)

From stdpp Require Import strings.
From S2P Require Import Prelude Dhcp.
Open Scope Z_scope.
Import Dhcp.

(** ** Lists of options and their bytes *)

Definition encode1 (t : Z * list Z) : list Z := t.1 :: Z.of_nat (length t.2) :: t.2.
Definition encode (ts : list (Z * list Z)) : list Z := concat (encode1 <$> ts).

(** The first option with a number. *)
Fixpoint first_option (ts : list (Z * list Z)) (num : Z) : option (list Z) :=
  match ts with
  | [] => None
  | (t, v) :: ts => if t =? num then Some v else first_option ts num
  end.

(** The options array: the pairs, the end mark [e], zeros. *)
Definition pad (e : Z) (ts : list (Z * list Z)) : list Z :=
  encode ts ++ e :: replicate (Z.to_nat (DHCP_OPTIONS_LEN - 1) - length (encode ts)) 0.

Lemma encode_cons t ts : encode (t :: ts) = encode1 t ++ encode ts.
Proof. done. Qed.

Lemma encode_app ts ts' : encode (ts ++ ts') = encode ts ++ encode ts'.
Proof. unfold encode. by rewrite fmap_app, concat_app. Qed.

Lemma length_encode1 t : length (encode1 t) = (2 + length t.2)%nat.
Proof. done. Qed.

Lemma length_pad e ts :
  Z.of_nat (length (encode ts)) < DHCP_OPTIONS_LEN -> length (pad e ts) = Z.to_nat DHCP_OPTIONS_LEN.
Proof. unfold pad, DHCP_OPTIONS_LEN. intros. rewrite length_app. cbn [length]. rewrite length_replicate. lia. Qed.

(** ** The writer *)

Section Writer.

Lemma snoc_cons (x : Z) l k : l ++ x :: k = (l ++ [x]) ++ k.
Proof. by rewrite <-app_assoc. Qed.

Lemma store_at i pre x rest v :
  i = Z.of_nat (length pre) -> store i v (pre ++ x :: rest) = Done (tt, pre ++ v :: rest).
Proof.
  intros ->. unfold store, buf_set. rewrite length_app. cbn [length].
  case_if; zbool; [|destruct Heqb; zbool; lia]. by rewrite Nat2Z.id, insert_app_r_alt, Nat.sub_diag by lia.
Qed.

Lemma store_all_at i pre xs rest vs :
  i = Z.of_nat (length pre) -> length xs = length vs ->
  store_all i vs (pre ++ xs ++ rest) = Done (tt, pre ++ vs ++ rest).
Proof.
  revert i pre xs. induction vs as [|v vs IH]; intros i pre [|x xs] Hi Hl; try done. cbn [store_all app].
  erewrite bind_Done by by apply store_at.
  rewrite (snoc_cons v pre (xs ++ rest)). rewrite IH; [by rewrite <-app_assoc|rewrite length_app; cbn [length]; lia|cbn in Hl; lia].
Qed.

(** The first [n] of at least [n] zeros. *)
Lemma zeros_split (n k : nat) : (n <= k)%nat -> replicate k 0 = replicate n 0 ++ replicate (k - n) 0.
Proof. intros. rewrite <-replicate_add. f_equal. lia. Qed.

Lemma add_bytes_at pre k t v :
  v <> [] -> (2 + length v <= k)%nat ->
  add_dhcp_option_bytes (Z.of_nat (length pre)) t v (pre ++ replicate k 0)
  = Done (Z.of_nat (length (pre ++ encode1 (t, v))), (pre ++ encode1 (t, v)) ++ replicate (k - (2 + length v)) 0).
Proof.
  intros Hv Hk. rewrite (zeros_split (2 + length v) k Hk). unfold add_dhcp_option_bytes. cbn [Nat.add replicate app].
  erewrite bind_Done by by apply store_at.
  destruct v as [|b v]; [done|]. set (vs := b :: v) in *. rewrite (proj2 (Z.eqb_neq _ _)) by (cbn; lia).
  rewrite (snoc_cons t pre). erewrite bind_Done by (apply store_at; rewrite length_app; cbn [length]; lia).
  rewrite (snoc_cons (Z.of_nat (length vs)) (pre ++ [t])).
  erewrite bind_Done by (apply store_all_at; [rewrite !length_app; cbn [length]; lia|apply length_replicate]).
  unfold ret, encode1. cbn [fst snd]. rewrite !length_app. cbn [length]. do 2 f_equal; [lia|]. by rewrite <-!app_assoc.
Qed.

(** The end mark. *)
Lemma add_end_at pre k t :
  (0 < k)%nat ->
  add_dhcp_option_bytes (Z.of_nat (length pre)) t [] (pre ++ replicate k 0)
  = Done (Z.of_nat (length pre) + 1, pre ++ t :: replicate (k - 1) 0).
Proof.
  intros Hk. destruct k as [|k]; [lia|]. unfold add_dhcp_option_bytes. cbn [replicate].
  erewrite bind_Done by by apply store_at. cbn. unfold ret. by rewrite Nat.sub_0_r.
Qed.

Lemma add_byte_is_bytes opt t v opts :
  add_dhcp_option_byte opt t v opts = add_dhcp_option_bytes opt t [v] opts.
Proof.
  unfold add_dhcp_option_byte, add_dhcp_option_bytes. change (Z.of_nat (length [v])) with 1.
  change (1 =? 0) with false. cbn [store_all].
  unfold bind. destruct (store opt t opts) as [[[] o1]| |]; [|done..].
  destruct (store (opt + 1) 1 o1) as [[[] o2]| |]; [|done..].
  replace (opt + 1 + 1) with (opt + 2) by lia. destruct (store (opt + 2) v o2) as [[[] o3]| |]; [|done..].
  unfold ret. do 2 f_equal. lia.
Qed.

(** Writing a list of options one after the other. *)
Fixpoint add_all (opt : Z) (ts : list (Z * list Z)) : M (list Z) Z :=
  match ts with
  | [] => ret opt
  | (t, v) :: ts => let! opt := add_dhcp_option_bytes opt t v in add_all opt ts
  end.

Definition zero_options : list Z := replicate (Z.to_nat DHCP_OPTIONS_LEN) 0.

Lemma add_all_at pre k ts :
  Forall (fun t => t.2 <> []) ts -> (length (encode ts) <= k)%nat ->
  add_all (Z.of_nat (length pre)) ts (pre ++ replicate k 0)
  = Done (Z.of_nat (length (pre ++ encode ts)), (pre ++ encode ts) ++ replicate (k - length (encode ts)) 0).
Proof.
  revert pre k. induction ts as [|[t v] ts IH]; intros pre k Hne Hk.
  { cbn. unfold ret. by rewrite app_nil_r, Nat.sub_0_r. }
  rewrite encode_cons in Hk |- *. apply Forall_cons in Hne as [Hv Hne]. cbn [add_all snd] in *.
  assert (He : length (encode1 (t, v) ++ encode ts) = (2 + length v + length (encode ts))%nat)
    by by rewrite length_app, length_encode1.
  rewrite He in *. erewrite bind_Done by (apply add_bytes_at; [done|lia]).
  rewrite IH by (done || lia). rewrite <-!app_assoc. by replace (k - (2 + length v) - length (encode ts))%nat
    with (k - (2 + length v + length (encode ts)))%nat by lia.
Qed.

(** A whole set of options, ended and padded. *)
Lemma add_all_pad e ts :
  Forall (fun t => t.2 <> []) ts -> Z.of_nat (length (encode ts)) < DHCP_OPTIONS_LEN ->
  exists q, (let! opt := add_all 0 ts in add_dhcp_option_bytes opt e []) zero_options = Done (q, pad e ts).
Proof.
  intros Hne Hl. eexists. unfold zero_options, DHCP_OPTIONS_LEN in *.
  erewrite bind_Done by (apply (add_all_at []); [done|lia]).
  rewrite add_end_at by lia. unfold pad, DHCP_OPTIONS_LEN. do 5 f_equal. lia.
Qed.

End Writer.

(** ** The parser *)

Section Parser.
Context `{!LwipH}.

(** On any bytes the parser ends, and what it finds lies in the array. *)
Lemma find_loop_any {S} fuel opts num minl p (s : S) :
  length opts = Z.to_nat DHCP_OPTIONS_LEN -> Forall byteP opts -> 0 <= p ->
  310 - p <= 2 * (Z.of_nat fuel - 1) -> (0 < fuel)%nat ->
  exists r, find_loop fuel opts num minl p s = Done (r, s) /\
    forall q len, r = Some (q, len) -> 0 <= q /\ minl <= len /\ 0 <= len /\ q + len < DHCP_OPTIONS_LEN.
Proof.
  intros Hl Hb. revert p. induction fuel as [|fuel IH]; intros p Hp Hf H0; [lia|]. cbn [find_loop].
  unfold DHCP_OPTIONS_LEN in *. case_if; zbool; [|eexists; split; [done|done]].
  destruct (lookup_lt_is_Some_2 opts (Z.to_nat p)) as [ty Hty]; [lia|].
  destruct (lookup_lt_is_Some_2 opts (Z.to_nat (p + 1))) as [len Hlen]; [lia|].
  rewrite Hty, Hlen. cbn [deref]. unfold bind at 1 2, ret at 1 2.
  assert (byteP len) as Hbl by (rewrite Forall_lookup in Hb; by eapply Hb).
  unfold byteP in Hbl.
  repeat case_if; zbool; try (eexists; split; [done|]; intros; simplify_eq; try done; lia).
  apply IH; lia.
Qed.

Lemma find_dhcp_option_any {S} m num minl (s : S) :
  msg_wf m ->
  exists r, find_dhcp_option m num minl s = Done (r, s) /\
    forall q len, r = Some (q, len) -> 0 <= q /\ minl <= len /\ 0 <= len /\ q + len < DHCP_OPTIONS_LEN.
Proof. intros (_&_&_&_&_&_&Hl&Hb). apply find_loop_any; [done|done|lia|vm_compute; congruence|vm_compute; lia]. Qed.

(** The parser over written options. *)
Lemma find_loop_encode {S} fuel pre ts rest num minl (s : S) :
  Forall (fun t => t.1 <> DHCP_OPTION_END) ts ->
  Z.of_nat (length pre) + Z.of_nat (length (encode ts)) < DHCP_OPTIONS_LEN ->
  310 - Z.of_nat (length pre) <= 2 * (Z.of_nat fuel - 1) -> (0 < fuel)%nat ->
  length (pre ++ encode ts ++ DHCP_OPTION_END :: rest) = Z.to_nat DHCP_OPTIONS_LEN ->
  exists r, find_loop fuel (pre ++ encode ts ++ DHCP_OPTION_END :: rest) num minl (Z.of_nat (length pre)) s = Done (r, s) /\
    match first_option ts num with
    | Some v =>
      if Z.of_nat (length v) <? minl then r = None
      else exists q, r = Some (q, Z.of_nat (length v)) /\ 0 <= q /\
        sub_bytes (pre ++ encode ts ++ DHCP_OPTION_END :: rest) q (Z.of_nat (length v)) = v
    | None => r = None
    end.
Proof.
  revert pre fuel. induction ts as [|[t v] ts IH]; intros pre fuel Hne Hl Hf H0 Hlen;
    (destruct fuel as [|fuel]; [lia|]); cbn [find_loop first_option]; unfold DHCP_OPTIONS_LEN in *.
  - cbn [encode fmap list_fmap concat app] in *. rewrite length_app in Hlen. cbn [length] in Hlen.
    case_if; zbool; [|by eexists].
    rewrite Nat2Z.id, list_lookup_middle by done. cbn [deref]. unfold bind at 1, ret at 1.
    destruct (lookup_lt_is_Some_2 (pre ++ DHCP_OPTION_END :: rest) (Z.to_nat (Z.of_nat (length pre) + 1))) as [x Hx].
    { rewrite length_app. cbn [length]. lia. }
    rewrite Hx. cbn [deref]. unfold bind at 1, ret at 1. rewrite Z.eqb_refl. by eexists.
  - rewrite encode_cons in *. unfold encode1 in *. cbn [fst snd] in *. cbn [app] in *.
    cbn [length] in Hl. rewrite length_app in Hl.
    apply Forall_cons in Hne as [Ht Hne]. cbn [fst] in Ht.
    rewrite (proj2 (Z.ltb_lt _ _)) by lia.
    rewrite Nat2Z.id, list_lookup_middle by done. cbn [deref]. unfold bind at 1, ret at 1.
    replace (Z.to_nat (Z.of_nat (length pre) + 1)) with (length pre + 1)%nat by lia.
    rewrite lookup_app_r by lia. replace (length pre + 1 - length pre)%nat with 1%nat by lia.
    cbn [lookup list_lookup deref]. unfold bind at 1, ret at 1.
    rewrite (proj2 (Z.eqb_neq _ _)) by done. rewrite (proj2 (Z.leb_gt _ _)) by lia.
    set (pre' := pre ++ t :: Z.of_nat (length v) :: v).
    assert (Hp' : Z.of_nat (length pre) + 2 + Z.of_nat (length v) = Z.of_nat (length pre'))
      by (unfold pre'; rewrite length_app; cbn [length]; lia).
    assert (Hsplit : pre ++ t :: Z.of_nat (length v) :: (v ++ encode ts) ++ DHCP_OPTION_END :: rest
                     = pre' ++ encode ts ++ DHCP_OPTION_END :: rest)
      by (unfold pre'; repeat (rewrite <-app_assoc || cbn [app]); done).
    destruct (t =? num) eqn:Et.
    + case_if; [by eexists|]. eexists. split; [done|]. eexists. split; [done|]. split; [lia|].
      replace (pre ++ t :: Z.of_nat (length v) :: (v ++ encode ts) ++ DHCP_OPTION_END :: rest)
        with ((pre ++ [t; Z.of_nat (length v)]) ++ v ++ encode ts ++ DHCP_OPTION_END :: rest)
        by (rewrite <-!app_assoc; done).
      unfold sub_bytes. rewrite drop_app_length' by (rewrite length_app; cbn [length]; lia).
      by rewrite take_app_length' by lia.
    + rewrite Hp', Hsplit. apply IH; [done|lia|lia|lia|]. by rewrite <-Hsplit.
Qed.

(** The value of an option as the parser finds it. *)
Definition option_value (m : dhcp_msg) (num minl : Z) : option (list Z) :=
  match find_dhcp_option m num minl tt with
  | Done (Some (p, len), _) => Some (sub_bytes (options m) p len)
  | _ => None
  end.

Lemma option_value_pad m ts num minl :
  options m = pad DHCP_OPTION_END ts -> Forall (fun t => t.1 <> DHCP_OPTION_END) ts ->
  Z.of_nat (length (encode ts)) < DHCP_OPTIONS_LEN ->
  option_value m num minl =
    match first_option ts num with
    | Some v => if Z.of_nat (length v) <? minl then None else Some v
    | None => None
    end.
Proof.
  intros Ho Hne Hl. unfold option_value, find_dhcp_option. rewrite Ho. unfold pad.
  edestruct (find_loop_encode (Z.to_nat (DHCP_OPTIONS_LEN / 2)) [] ts
    (replicate (Z.to_nat (DHCP_OPTIONS_LEN - 1) - length (encode ts)) 0) num minl tt) as (r & Hr & Hs); [done|cbn; lia|vm_compute; congruence|
    vm_compute; lia| |].
  { apply (length_pad _ _ Hl). }
  cbn [app length] in Hr. change (Z.of_nat 0) with 0 in Hr. rewrite Hr. cbn [app] in Hs. destruct (first_option ts num) as [v|]; [|by subst].
  case_if; [by subst|]. destruct Hs as (q & -> & _ & Hq). by rewrite Hq.
Qed.

(** The parser does not look at the state. *)
Lemma find_loop_state {S S'} fuel opts num minl p (s : S) (s' : S') :
  match find_loop fuel opts num minl p s, find_loop fuel opts num minl p s' with
  | Done (r, t), Done (r', t') => r = r' /\ t = s /\ t' = s'
  | OutOfFuel, OutOfFuel => True
  | Undefined, Undefined => True
  | _, _ => False
  end.
Proof.
  revert p. induction fuel as [|fuel IH]; intros p; [done|]. cbn [find_loop]. case_if; [|done].
  unfold bind. destruct (opts !! Z.to_nat p) as [ty|]; [|done]. destruct (opts !! Z.to_nat (p + 1)) as [len|]; [|done].
  cbn [deref]. unfold ret. destruct (ty =? DHCP_OPTION_END); [done|]. case_if; [done|]. case_if; [by case_if|]. apply IH.
Qed.

(** Finding an option of a message that has it. *)
Lemma find_dhcp_option_value {S} m num minl v (s : S) :
  msg_wf m -> option_value m num minl = Some v ->
  exists p, find_dhcp_option m num minl s = Done (Some (p, Z.of_nat (length v)), s) /\
    0 <= p /\ minl <= Z.of_nat (length v) /\ sub_bytes (options m) p (Z.of_nat (length v)) = v.
Proof.
  intros Hm Hv. unfold option_value in Hv. destruct (find_dhcp_option_any m num minl tt Hm) as (r & Hr & Hb).
  rewrite Hr in Hv. destruct r as [[p len]|]; [|done]. destruct (Hb p len eq_refl) as (H1 & H2 & H3 & H4).
  injection Hv as Hv. assert (Hlen : len = Z.of_nat (length v)).
  { destruct Hm as (_&_&_&_&_&_&Hl&_). rewrite <-Hv. unfold sub_bytes, DHCP_OPTIONS_LEN in *.
    rewrite length_take, length_drop. lia. }
  subst len. exists p. split; [|done].
  pose proof (find_loop_state (Z.to_nat (DHCP_OPTIONS_LEN / 2)) (options m) num minl 0 tt s) as Hst.
  unfold find_dhcp_option in *. rewrite Hr in Hst.
  destruct (find_loop _ _ _ _ _ s) as [[r' t']| |]; [|done..]. by destruct Hst as (<- & _ & ->).
Qed.

Lemma find_dhcp_option_none {S} m num minl (s : S) :
  msg_wf m -> option_value m num minl = None -> find_dhcp_option m num minl s = Done (None, s).
Proof.
  intros Hm Hv. unfold option_value in Hv. destruct (find_dhcp_option_any m num minl tt Hm) as (r & Hr & _).
  rewrite Hr in Hv. destruct r as [[p len]|]; [done|].
  pose proof (find_loop_state (Z.to_nat (DHCP_OPTIONS_LEN / 2)) (options m) num minl 0 tt s) as Hst.
  unfold find_dhcp_option in *. rewrite Hr in Hst.
  destruct (find_loop _ _ _ _ _ s) as [[r' t']| |]; [|done..]. by destruct Hst as (<- & _ & ->).
Qed.

End Parser.
