(* ===== verification/DhcpProofs.v ===== *)
(** * The DHCP server's handlers and its task

    The well-formedness of the server's state, the runs of the functions on
    the lease table, and the relation [served]: what one received message may
    do to the table and which reply it may cause.  Every turn of the task is
    such a step. *)

From stdpp Require Import strings.
From S2P Require Import Prelude Dhcp DhcpOptions.
Open Scope Z_scope.
Import Dhcp.

(** ** Well-formed state *)

Definition ip_wf (a : ip4_addr_t) : Prop := length a = 4%nat /\ Forall byteP a.

Definition lease_wf (l : dhcp_lease_t) : Prop :=
  length (hwaddr l) = 6%nat /\ Forall byteP (hwaddr l) /\ 0 <= expires l < 2 ^ 32.

Definition st_wf (st : server_state_t) : Prop :=
  0 <= max_leases st < 256 /\ length (leases st) = Z.to_nat (max_leases st) /\ Forall lease_wf (leases st) /\
  ip_wf (first_client_addr st) /\ ip_wf (router st) /\ ip_wf (dns st) /\
  exists i, server_if st = Some i /\ ip_wf (ip_addr i) /\ ip_wf (netmask i).

(** The hardware address a message comes from, as leases keep it. *)
Definition mac (m : dhcp_msg) : list Z := take 6 (chaddr m).

(** The address of a slot. *)
Definition lease_addr (st : server_state_t) (k : Z) : ip4_addr_t :=
  lwip_htonl (u32 (lwip_ntohl (first_client_addr st) + k)).

Lemma length_mac m : msg_wf m -> length (mac m) = 6%nat.
Proof. intros (_&_&_&_&_&(H&_)&_). unfold mac. rewrite length_take. lia. Qed.

Lemma mac_bytes m : msg_wf m -> Forall byteP (mac m).
Proof. intros (_&_&_&_&_&(_&H)&_). by apply Forall_take. Qed.

Lemma st_wf_leases st ls :
  st_wf st -> length ls = length (leases st) -> Forall lease_wf ls -> st_wf (set_leases st ls).
Proof. intros (H1&H2&H3&H4&H5&H6&H7) Hl Hw. unfold st_wf. cbn. rewrite Hl. repeat split; try done; apply H1 || apply H4 || apply H5 || apply H6. Qed.

Lemma st_wf_insert st k l :
  st_wf st -> lease_wf l -> st_wf (set_leases st (<[k := l]> (leases st))).
Proof.
  intros Hw Hl. apply st_wf_leases; [done|apply length_insert|].
  destruct Hw as (_&_&Hf&_). by apply Forall_insert.
Qed.

(** ** Network byte order *)

Lemma length_htonl x : length (lwip_htonl x) = 4%nat.
Proof. unfold lwip_htonl. by rewrite length_rev, length_le_bytes. Qed.

Lemma htonl_bytes x : Forall byteP (lwip_htonl x).
Proof. unfold lwip_htonl. apply Forall_rev, le_bytes_byte. Qed.

Lemma ntohl_htonl x : lwip_ntohl (lwip_htonl x) = u32 x.
Proof. unfold lwip_ntohl, lwip_htonl. rewrite rev_involutive, le_val_bytes. done. Qed.

Lemma htonl_ntohl a : ip_wf a -> lwip_htonl (lwip_ntohl a) = a.
Proof.
  intros [Hl Hb]. unfold lwip_htonl, lwip_ntohl.
  replace 4%nat with (length (rev a)) by (by rewrite length_rev).
  rewrite le_bytes_val by by apply Forall_rev. apply rev_involutive.
Qed.

Lemma ntohl_octets a :
  ip_wf a -> lwip_ntohl a = ip4_addr1 a * 2 ^ 24 + ip4_addr2 a * 2 ^ 16 + ip4_addr3 a * 2 ^ 8 + ip4_addr4 a.
Proof.
  intros [Hl _]. destruct a as [|a [|b [|c [|d [|]]]]]; try done.
  unfold lwip_ntohl, ip4_addr1, ip4_addr2, ip4_addr3, ip4_addr4, as_mem. cbn [rev app le_val]. change (Z.to_nat 0) with 0%nat. change (Z.to_nat 1) with 1%nat.
  change (Z.to_nat 2) with 2%nat. change (Z.to_nat 3) with 3%nat. cbn [nth]. lia.
Qed.

Lemma octet_byte a i : ip_wf a -> byteP (as_mem a i).
Proof. intros [_ Hb]. by apply as_mem_byte. Qed.

Lemma ntohl_range a : ip_wf a -> 0 <= lwip_ntohl a < 2 ^ 32.
Proof.
  intros [Hl Hb]. unfold lwip_ntohl. pose proof (le_val_range (rev a) ltac:(by apply Forall_rev)) as H.
  rewrite length_rev, Hl in H. done.
Qed.

(** An address that passes the tests of a request is the slot's address. *)
Lemma requested_is_slot st a k :
  ip_wf (first_client_addr st) -> ip_wf a ->
  ip4_addr1 a = ip4_addr1 (first_client_addr st) -> ip4_addr2 a = ip4_addr2 (first_client_addr st) ->
  ip4_addr3 a = ip4_addr3 (first_client_addr st) -> k = ip4_addr4 a - ip4_addr4 (first_client_addr st) ->
  a = lease_addr st k.
Proof.
  intros Hf Ha H1 H2 H3 ->. unfold lease_addr. rewrite <-(htonl_ntohl a) at 1 by done. f_equal.
  pose proof (ntohl_range a Ha). pose proof (ntohl_octets a Ha). pose proof (ntohl_octets _ Hf).
  rewrite u32_small by lia. lia.
Qed.

Lemma lease_addr_inj st k k' :
  0 <= k < 256 -> 0 <= k' < 256 -> lease_addr st k = lease_addr st k' -> k = k'.
Proof.
  intros Hk Hk' H. apply (f_equal lwip_ntohl) in H. unfold lease_addr in H. rewrite !ntohl_htonl in H.
  unfold u32 in H. divlia.
Qed.

(** The slot's address passes the tests when the last octet has room. *)
Lemma slot_is_requested st k :
  ip_wf (first_client_addr st) -> 0 <= k -> ip4_addr4 (first_client_addr st) + k < 256 ->
  let a := lease_addr st k in
  ip4_addr1 a = ip4_addr1 (first_client_addr st) /\ ip4_addr2 a = ip4_addr2 (first_client_addr st) /\
  ip4_addr3 a = ip4_addr3 (first_client_addr st) /\ ip4_addr4 a = ip4_addr4 (first_client_addr st) + k.
Proof.
  intros Hf Hk H4 a.
  assert (Ha : ip_wf a) by (split; [apply length_htonl|apply htonl_bytes]).
  pose proof (ntohl_octets a Ha) as E. pose proof (ntohl_octets _ Hf) as E'. pose proof (ntohl_range _ Hf) as R.
  assert (En : lwip_ntohl a = u32 (u32 (lwip_ntohl (first_client_addr st) + k))) by apply ntohl_htonl. rewrite En in E.
  unfold ip4_addr1, ip4_addr2, ip4_addr3, ip4_addr4 in *.
  pose proof (octet_byte a 0 Ha). pose proof (octet_byte a 1 Ha). pose proof (octet_byte a 2 Ha). pose proof (octet_byte a 3 Ha).
  pose proof (octet_byte _ 0 Hf). pose proof (octet_byte _ 1 Hf). pose proof (octet_byte _ 2 Hf). pose proof (octet_byte _ 3 Hf).
  unfold byteP in *. rewrite !u32_small in E by (rewrite ?u32_small; lia). lia.
Qed.

(** ** The lease table *)

Lemma memcmp_eq_6 {S} (a b : list Z) (s : S) :
  (6 <= length a)%nat -> length b = 6%nat -> memcmp_eq a b 6 s = Done (bool_decide (take 6 a = b), s).
Proof.
  intros Ha Hb. unfold memcmp_eq. rewrite (proj2 (andb_true_iff _ _)) by (split; apply Z.leb_le; lia).
  unfold sub_bytes, ret. change (Z.to_nat 0) with 0%nat. change (Z.to_nat 6) with 6%nat. rewrite !drop_0.
  by rewrite (take_ge b) by lia.
Qed.

(** A slot that can be offered to [hw]: free, or its own. *)
Definition usable (ls : list dhcp_lease_t) (hw : list Z) (k : Z) : Prop :=
  0 <= k /\ exists l, ls !! Z.to_nat k = Some l /\ (active l = 0 \/ hwaddr l = hw).

Lemma find_lease_loop_spec {S} n i ls hw empty (s : S) :
  Forall lease_wf ls -> (6 <= length hw)%nat -> 0 <= i -> (Z.to_nat i + n = length ls)%nat ->
  (forall k, empty = Some k -> usable ls (take 6 hw) k) ->
  exists r, find_lease_loop n i ls hw empty s = Done (r, s) /\
    match r with
    | Some k => usable ls (take 6 hw) k
    | None => empty = None /\ forall k, i <= k -> ~ usable ls (take 6 hw) k
    end.
Proof.
  intros Hw Hh. revert i empty. induction n as [|n IH]; intros i empty Hi Hn He; cbn [find_lease_loop].
  { exists empty. split; [done|]. destruct empty as [k|]; [by apply He|]. split; [done|].
    intros k Hk (_ & l & Hl & _). apply lookup_lt_Some in Hl. lia. }
  destruct (lookup_lt_is_Some_2 ls (Z.to_nat i)) as [l Hl]; [lia|]. rewrite Hl. cbn [deref].
  erewrite bind_Done by done. assert (Hlw : lease_wf l) by (rewrite Forall_lookup in Hw; by eapply Hw).
  destruct ((active l =? 0) && _) eqn:Ec.
  - zbool. assert (Hu : usable ls (take 6 hw) i) by (split; [lia|eauto]).
    destruct (IH (i + 1) (Some i)) as (r & Hr & Hs); [lia|lia|by intros k [= <-]|].
    exists r. split; [done|]. destruct r; [done|]. by destruct Hs.
  - erewrite bind_Done by (apply memcmp_eq_6; [done|apply Hlw]). destruct (decide (take 6 hw = hwaddr l)) as [Hd|Hd].
    { rewrite bool_decide_true by done. exists (Some i). split; [done|]. split; [lia|]. eauto. }
    rewrite bool_decide_false by done. destruct (IH (i + 1) empty) as (r & Hr & Hs); [lia|lia|done|].
    exists r. split; [done|]. destruct r; [done|]. destruct Hs as [-> Hs]. split; [done|].
    intros k Hk Hu. destruct (decide (k = i)) as [->|]; [|apply (Hs k); [lia|done]].
    destruct Hu as (_ & l' & Hl' & [Ha|Ha]); rewrite Hl in Hl'; injection Hl' as <-; [|by rewrite Ha in Hd].
    rewrite Ha in Ec. done.
Qed.

Section Runs.
Context `{!LwipH} `{!LwipHLaws} (clock : nat -> Z).

Lemma get_state_run w st : state w = Some st -> get_state w = Done (st, w).
Proof. unfold get_state, bind, get. by intros ->. Qed.

Lemma find_lease_slot_run w st m :
  state w = Some st -> st_wf st -> msg_wf m ->
  exists r, find_lease_slot (chaddr m) w = Done (r, w) /\
    match r with
    | Some k => usable (leases st) (mac m) k
    | None => forall k, ~ usable (leases st) (mac m) k
    end.
Proof.
  intros Hs (_ & Hl & Hf & _) (_&_&_&_&_&[Hc _]&_). unfold find_lease_slot. run (get_state_run _ _ Hs).
  destruct (find_lease_loop_spec (Z.to_nat (max_leases st)) 0 (leases st) (chaddr m) None w) as (r & Hr & Hc');
    [done|lia|lia|lia|done|].
  exists r. split; [done|]. destruct r; [done|]. destruct Hc' as [_ HH]. intros k Hu. apply (HH k); [apply Hu|done].
Qed.

Lemma expire_loop_run now done_ rest w st :
  state w = Some st -> leases st = done_ ++ rest ->
  expire_loop (length rest) (Z.of_nat (length done_)) now w
  = Done (tt, with_state w (Some (set_leases st (done_ ++ (expire now <$> rest))))).
Proof.
  revert done_ w st. induction rest as [|l rest IH]; intros d w st Hs Hl; cbn [length expire_loop].
  { unfold ret. cbn [fmap list_fmap]. rewrite <-Hl. by destruct w, st; simplify_eq/=. }
  run (get_state_run _ _ Hs). rewrite Hl, Nat2Z.id, list_lookup_middle by done. cbn [deref].
  erewrite bind_Done by done. rewrite insert_app_r_alt, Nat.sub_diag by lia. cbn [insert list_insert].
  unfold put_state, modify. erewrite bind_Done by done.
  replace (Z.of_nat (length d) + 1) with (Z.of_nat (length (d ++ [expire now l]))) by (rewrite length_app; cbn; lia).
  rewrite (IH _ _ (set_leases st (d ++ expire now l :: rest))); [|done|cbn; by rewrite <-app_assoc].
  cbn [fmap list_fmap]. by rewrite <-app_assoc.
Qed.

Lemma expire_wf now l : lease_wf l -> lease_wf (expire now l).
Proof. unfold expire. intros. by repeat case_if. Qed.

Lemma expire_leases_wf now st : st_wf st -> st_wf (set_leases st (expire now <$> leases st)).
Proof.
  intros Hw. apply st_wf_leases; [done|by rewrite length_fmap|].
  apply Forall_fmap. destruct Hw as (_&_&Hf&_). eapply Forall_impl; [done|]. intros l. apply expire_wf.
Qed.

(** ** Replies *)

Definition router_list (st : server_state_t) : list (Z * list Z) :=
  (if ip4_addr_isany_val (router st) then [] else [(DHCP_OPTION_ROUTER, router st)]) ++
  (if ip4_addr_isany_val (dns st) then [] else [(DHCP_OPTION_DNS_SERVER, dns st)]).

Definition offer_list (st : server_state_t) (i : netif) : list (Z * list Z) :=
  (DHCP_OPTION_MESSAGE_TYPE, [DHCP_OFFER]) :: (DHCP_OPTION_SERVER_ID, ip_addr i) ::
  (DHCP_OPTION_SUBNET_MASK, netmask i) :: router_list st ++
  [(DHCP_OPTION_LEASE_TIME, lwip_htonl DHCPSERVER_LEASE_TIME)].

Definition ack_list (st : server_state_t) (i : netif) : list (Z * list Z) :=
  (DHCP_OPTION_MESSAGE_TYPE, [DHCP_ACK]) :: (DHCP_OPTION_LEASE_TIME, lwip_htonl DHCPSERVER_LEASE_TIME) ::
  (DHCP_OPTION_SERVER_ID, ip_addr i) :: (DHCP_OPTION_SUBNET_MASK, netmask i) :: router_list st.

Definition nak_list (i : netif) : list (Z * list Z) :=
  [(DHCP_OPTION_MESSAGE_TYPE, [DHCP_NAK]); (DHCP_OPTION_SERVER_ID, ip_addr i)].

(** The reply to [m] with an address and a list of options. *)
Definition reply_of (m : dhcp_msg) (y : ip4_addr_t) (ts : list (Z * list Z)) : dhcp_msg :=
  set_reply m DHCP_BOOTREPLY y (pad DHCP_OPTION_END ts).

Ltac step_options :=
  repeat match goal with
  | |- context [add_dhcp_option_bytes ?a ?b ?c ?d] =>
      destruct (add_dhcp_option_bytes a b c d) as [[? ?]| |]; cbn beta iota; try done
  end.

Lemma offer_options_all st i opts :
  offer_options st i opts = (let! opt := add_all 0 (offer_list st i) in add_dhcp_option_bytes opt DHCP_OPTION_END []) opts.
Proof.
  unfold offer_options, offer_list, router_list, add_if, bind. rewrite add_byte_is_bytes.
  destruct (ip4_addr_isany_val (router st)), (ip4_addr_isany_val (dns st)); cbn [negb app add_all]; unfold bind, ret; step_options.
Qed.

Lemma ack_options_all st i opts :
  ack_options st i opts = (let! opt := add_all 0 (ack_list st i) in add_dhcp_option_bytes opt DHCP_OPTION_END []) opts.
Proof.
  unfold ack_options, ack_list, router_list, add_if, bind. rewrite add_byte_is_bytes.
  destruct (ip4_addr_isany_val (router st)), (ip4_addr_isany_val (dns st)); cbn [negb app add_all]; unfold bind, ret; step_options.
Qed.

Lemma nak_options_all i opts :
  nak_options i opts = (let! opt := add_all 0 (nak_list i) in add_dhcp_option_bytes opt DHCP_OPTION_END []) opts.
Proof.
  unfold nak_options, nak_list, bind. rewrite add_byte_is_bytes. cbn [add_all]. unfold bind, ret. step_options.
Qed.

(** All options of a reply are short, numbered below the end mark and not
    empty, so they fit. *)
Definition reply_list_ok (ts : list (Z * list Z)) : Prop :=
  Forall (fun t => t.2 <> [] /\ t.1 <> DHCP_OPTION_END) ts /\ Z.of_nat (length (encode ts)) < DHCP_OPTIONS_LEN.

Lemma reply_list_ok_intro ts :
  (length ts <= 10)%nat -> Forall (fun t => (1 <= length t.2 <= 4)%nat /\ t.1 <> DHCP_OPTION_END) ts -> reply_list_ok ts.
Proof.
  intros Hn Hf. split.
  { eapply Forall_impl; [done|]. intros [t v] [Hv Ht]. split; [|done]. cbn in *. intros ->. cbn in Hv. lia. }
  assert (length (encode ts) <= 6 * length ts)%nat; [|unfold DHCP_OPTIONS_LEN; lia].
  clear Hn. induction Hf as [|[t v] ts [Hv _] _ IH]; [done|]. rewrite encode_cons, length_app, length_encode1. cbn [snd length] in *. lia.
Qed.

Lemma send_reply_run m y build ts w :
  (forall opts, build opts = (let! opt := add_all 0 ts in add_dhcp_option_bytes opt DHCP_OPTION_END []) opts) ->
  reply_list_ok ts ->
  send_reply m y build w = Done (tt, with_sent w (sent w ++ [reply_of m y ts])).
Proof.
  intros Hb [Hf Hl]. unfold send_reply. rewrite Hb.
  destruct (add_all_pad DHCP_OPTION_END ts) as [q Hq]; [|done|unfold zero_options in Hq; by rewrite Hq].
  eapply Forall_impl; [done|]. by intros ? [? _].
Qed.

(** Numbers of options, from the law that lists them. *)
Lemma option_number_values :
  DHCP_OPTION_SUBNET_MASK = 1 /\ DHCP_OPTION_ROUTER = 3 /\ DHCP_OPTION_DNS_SERVER = 6 /\ DHCP_OPTION_REQUESTED_IP = 50 /\
  DHCP_OPTION_LEASE_TIME = 51 /\ DHCP_OPTION_MESSAGE_TYPE = 53 /\ DHCP_OPTION_SERVER_ID = 54 /\ DHCP_OPTION_END = 255.
Proof. pose proof option_numbers as E. by injection E. Qed.

Lemma message_type_values :
  DHCP_DISCOVER = 1 /\ DHCP_OFFER = 2 /\ DHCP_REQUEST = 3 /\ DHCP_ACK = 5 /\ DHCP_NAK = 6 /\ DHCP_RELEASE = 7.
Proof. pose proof message_types as E. by injection E. Qed.

Ltac lwip_numbers :=
  let o1 := fresh in let o2 := fresh in let o3 := fresh in let o4 := fresh in
  let o5 := fresh in let o6 := fresh in let o7 := fresh in let o8 := fresh in
  let t1 := fresh in let t2 := fresh in let t3 := fresh in let t4 := fresh in let t5 := fresh in let t6 := fresh in
  pose proof option_number_values as (o1 & o2 & o3 & o4 & o5 & o6 & o7 & o8);
  pose proof message_type_values as (t1 & t2 & t3 & t4 & t5 & t6);
  rewrite ?o1, ?o2, ?o3, ?o4, ?o5, ?o6, ?o7, ?o8, ?t1, ?t2, ?t3, ?t4, ?t5, ?t6;
  clear o1 o2 o3 o4 o5 o6 o7 o8 t1 t2 t3 t4 t5 t6.

Lemma router_list_ok st :
  st_wf st -> (length (router_list st) <= 2)%nat /\
  Forall (fun t => (1 <= length t.2 <= 4)%nat /\ t.1 <> DHCP_OPTION_END) (router_list st).
Proof.
  intros (_&_&_&_&[Hr _]&[Hd _]&_). unfold router_list. lwip_numbers.
  split; [repeat case_if; cbn; lia|]. repeat case_if; cbn [app]; rewrite ?Forall_cons, ?Forall_nil; cbn; rewrite ?Hr, ?Hd; lia.
Qed.

Lemma offer_list_ok st i : st_wf st -> server_if st = Some i -> reply_list_ok (offer_list st i).
Proof.
  intros Hw Hi. destruct (router_list_ok st Hw) as [Hl Hf].
  destruct Hw as (_&_&_&_&_&_&i'&Hi'&[Ha _]&[Hm _]). rewrite Hi in Hi'. simplify_eq.
  apply reply_list_ok_intro; unfold offer_list.
  - cbn [length]. rewrite length_app. cbn [length]. lia.
  - repeat apply Forall_cons_2; cbn; rewrite ?Ha, ?Hm; try (lwip_numbers; lia).
    apply Forall_app. split; [done|]. constructor; [|done]. cbn. lwip_numbers. lia.
Qed.

Lemma ack_list_ok st i : st_wf st -> server_if st = Some i -> reply_list_ok (ack_list st i).
Proof.
  intros Hw Hi. destruct (router_list_ok st Hw) as [Hl Hf].
  destruct Hw as (_&_&_&_&_&_&i'&Hi'&[Ha _]&[Hm _]). rewrite Hi in Hi'. simplify_eq.
  apply reply_list_ok_intro.
  { unfold ack_list. cbn [length]. lia. }
  unfold ack_list.
  repeat apply Forall_cons_2; cbn; rewrite ?Ha, ?Hm; try (lwip_numbers; lia). done.
Qed.

Lemma nak_list_ok st i : st_wf st -> server_if st = Some i -> reply_list_ok (nak_list i).
Proof.
  intros (_&_&_&_&_&_&i'&Hi'&[Ha _]&_) Hi. rewrite Hi in Hi'. simplify_eq.
  apply reply_list_ok_intro; unfold nak_list; [cbn; lia|].
  repeat apply Forall_cons_2; cbn; rewrite ?Ha; try (lwip_numbers; lia). done.
Qed.

End Runs.
