(* ===== verification/DhcpServe.v ===== *)
(** * What a message does: the relation [served] and the turns of the task *)

From stdpp Require Import strings.
From S2P Require Import Prelude Dhcp DhcpOptions DhcpProofs.
Open Scope Z_scope.
Import Dhcp.

Section Serve.
Context `{!LwipH} `{!LwipHLaws} (clock : nat -> Z).

(** The type of a message, as the task reads it. *)
Definition message_type (m : dhcp_msg) : option Z :=
  match option_value m DHCP_OPTION_MESSAGE_TYPE DHCP_OPTION_MESSAGE_TYPE_LEN with
  | Some (b :: _) => Some b
  | _ => None
  end.

(** The entry of a lease granted to the sender of [m]. *)
Definition granted (now : Z) (m : dhcp_msg) (l : dhcp_lease_t) : dhcp_lease_t :=
  {| hwaddr := sub_bytes (chaddr m) 0 (hlen m) ++ drop (Z.to_nat (hlen m)) (hwaddr l); active := 1;
     expires := u32 (now + DHCPSERVER_LEASE_TIME * configTICK_RATE_HZ) |}.

(** [served st now m ls ls' rs]: in a server configured as [st], at time
    [now], the message [m] may change the table [ls] to [ls'] and make the
    server broadcast [rs]. *)
Inductive served (st : server_state_t) (now : Z) (m : dhcp_msg) (ls : list dhcp_lease_t)
    : list dhcp_lease_t -> list dhcp_msg -> Prop :=
| served_none : served st now m ls ls []
| served_offer k i :
    message_type m = Some DHCP_DISCOVER -> usable ls (mac m) k -> server_if st = Some i ->
    served st now m ls ls [reply_of m (lease_addr st k) (offer_list st i)]
| served_nak i :
    message_type m = Some DHCP_REQUEST -> server_if st = Some i ->
    served st now m ls ls [reply_of m (yiaddr m) (nak_list i)]
| served_ack k l i :
    message_type m = Some DHCP_REQUEST -> 0 <= hlen m <= 6 -> 0 <= k -> ls !! Z.to_nat k = Some l ->
    (active l = 0 \/ take (Z.to_nat (hlen m)) (hwaddr l) = take (Z.to_nat (hlen m)) (chaddr m)) ->
    server_if st = Some i ->
    served st now m ls (<[Z.to_nat k := granted now m l]> ls) [reply_of m (lease_addr st k) (ack_list st i)]
| served_release k l :
    message_type m = Some DHCP_RELEASE -> usable ls (mac m) k -> ls !! Z.to_nat k = Some l ->
    served st now m ls (<[Z.to_nat k := {| hwaddr := hwaddr l; active := 0; expires := 0 |}]> ls) [].

(** What of the world a handler leaves: the server with a new table, and
    messages added to those sent, after at most [n] reads of the clock. *)
Definition left_with (n : nat) (w w' : world) (st : server_state_t) (ls : list dhcp_lease_t) (rs : list dhcp_msg) : Prop :=
  state w' = Some (set_leases st ls) /\ sent w' = sent w ++ rs /\
  (reads w <= reads w' <= reads w + n)%nat.

Lemma set_leases_id st : set_leases st (leases st) = st.
Proof. by destruct st. Qed.

Lemma left_with_same w st : state w = Some st -> left_with 1 w w st (leases st) [].
Proof. intros Hs. unfold left_with. rewrite set_leases_id, app_nil_r. repeat split; try done; lia. Qed.

Lemma left_with_reply w st r : state w = Some st -> left_with 1 w (with_sent w (sent w ++ [r])) st (leases st) [r].
Proof. intros Hs. unfold left_with. rewrite set_leases_id. cbn. repeat split; try done; lia. Qed.

Lemma wf_netif st : st_wf st -> exists i, server_if st = Some i.
Proof. intros (_&_&_&_&_&_&i&Hi&_). eauto. Qed.

(** ** The handlers *)

Lemma send_dhcp_nak_run w st i m :
  state w = Some st -> st_wf st -> server_if st = Some i ->
  send_dhcp_nak m w = Done (tt, with_sent w (sent w ++ [reply_of m (yiaddr m) (nak_list i)])).
Proof.
  intros Hs Hw Hi. unfold send_dhcp_nak. run (get_state_run _ _ Hs). rewrite Hi. cbn [deref]. erewrite bind_Done by done.
  apply send_reply_run; [apply nak_options_all|by eapply nak_list_ok].
Qed.

Lemma handle_discover_run w st m :
  state w = Some st -> st_wf st -> msg_wf m -> message_type m = Some DHCP_DISCOVER ->
  exists w' rs, handle_dhcp_discover m w = Done (tt, w') /\ left_with 1 w w' st (leases st) rs /\
    served st (u32 (clock (reads w))) m (leases st) (leases st) rs /\
    ((htype m = LWIP_IANA_HWTYPE_ETHERNET -> hlen m <= 6 -> (exists k, usable (leases st) (mac m) k) ->
      exists k i, usable (leases st) (mac m) k /\ server_if st = Some i /\
        rs = [reply_of m (lease_addr st k) (offer_list st i)])).
Proof.
  intros Hs Hw Hm Ht. unfold handle_dhcp_discover. destruct (wf_netif st Hw) as [i Hi].
  destruct (htype m =? LWIP_IANA_HWTYPE_ETHERNET) eqn:Eh; zbool; cbn [negb].
  2:{ exists w, []. split; [done|]. split; [by apply left_with_same|]. split; [constructor|done]. }
  rewrite hwaddr_len. destruct (6 <? hlen m) eqn:El; zbool.
  { exists w, []. split; [done|]. split; [by apply left_with_same|]. split; [constructor|lia]. }
  destruct (find_lease_slot_run w st m Hs Hw Hm) as (r & Hr & Hu). run Hr.
  destruct r as [k|].
  2:{ exists w, []. split; [done|]. split; [by apply left_with_same|]. split; [constructor|]. intros _ _ [k Hk]. by destruct (Hu k). }
  run (get_state_run _ _ Hs). rewrite Hi. cbn [deref]. erewrite bind_Done by done.
  erewrite send_reply_run; [|apply offer_options_all|by eapply offer_list_ok].
  eexists _, [_]. split; [done|]. split; [by apply left_with_reply|]. split; [by econstructor|]. intros. by exists k, i.
Qed.

Lemma handle_release_run w st m :
  state w = Some st -> st_wf st -> msg_wf m -> message_type m = Some DHCP_RELEASE ->
  exists w' ls, handle_dhcp_release m w = Done (tt, w') /\ left_with 1 w w' st ls [] /\
    served st (u32 (clock (reads w))) m (leases st) ls [].
Proof.
  intros Hs Hw Hm Ht. unfold handle_dhcp_release.
  destruct (find_lease_slot_run w st m Hs Hw Hm) as (r & Hr & Hu). run Hr. destruct r as [k|].
  2:{ exists w, (leases st). split; [done|]. split; [by apply left_with_same|constructor]. }
  run (get_state_run _ _ Hs). pose proof Hu as (Hk & l & Hl & _). rewrite Hl. cbn [deref]. erewrite bind_Done by done.
  eexists _, _. split; [done|]. split; [|by eapply served_release].
  unfold left_with. cbn. rewrite app_nil_r. repeat split; try done; lia.
Qed.

(** *** Requests *)

(** The address a request asks for, when it carries one. *)
Lemma requested_address_option m v w :
  msg_wf m -> option_value m DHCP_OPTION_REQUESTED_IP 4 = Some v ->
  requested_address m w = Done (Some (take 4 v), w).
Proof.
  intros Hm Hv. unfold requested_address. destruct (find_dhcp_option_value m _ _ v w Hm Hv) as (p & Hp & Hp0 & Hl & Hsub).
  run Hp. unfold ret. do 3 f_equal. rewrite <-Hsub. unfold sub_bytes. rewrite take_take. f_equal. lia.
Qed.

Lemma requested_address_any m w :
  msg_wf m -> exists r f, requested_address m w = Done (r, f) /\ (f = w \/ exists j, f = with_junk w j) /\
    forall a, r = Some a -> ip_wf a.
Proof.
  intros Hm. unfold requested_address. destruct (option_value m DHCP_OPTION_REQUESTED_IP 4) as [v|] eqn:Hv.
  - destruct (find_dhcp_option_value m _ _ v w Hm Hv) as (p & Hp & Hp0 & Hl & Hsub). run Hp.
    eexists _, w. split; [done|]. split; [by left|]. intros a [= <-].
    assert (Ha : sub_bytes (options m) p 4 = take 4 v)
      by (rewrite <-Hsub; unfold sub_bytes; rewrite take_take; f_equal; lia).
    split; [rewrite Ha, length_take; lia|]. destruct Hm as (_&_&_&_&_&_&_&Hb). unfold sub_bytes. by apply Forall_take, Forall_drop.
  - erewrite bind_Done by by apply find_dhcp_option_none. cbn beta iota. erewrite bind_Done by reflexivity. cbn beta iota.
    destruct Hm as (_&_&_&Hc&_). case_if; (eexists _, _; split; [done|]; split; [right; by eexists|]; intros a Ha; by simplify_eq).
Qed.

(** The slot of an address a request may have. *)
Definition slot_of (st : server_state_t) (a : ip4_addr_t) (k : Z) : Prop :=
  ip4_addr1 a = ip4_addr1 (first_client_addr st) /\ ip4_addr2 a = ip4_addr2 (first_client_addr st) /\
  ip4_addr3 a = ip4_addr3 (first_client_addr st) /\ k = ip4_addr4 a - ip4_addr4 (first_client_addr st) /\
  0 <= k < max_leases st.

Lemma memcmp_eq_run {S} (a b : list Z) n (s : S) :
  0 <= n -> (Z.to_nat n <= length a)%nat -> (Z.to_nat n <= length b)%nat ->
  memcmp_eq a b n s = Done (bool_decide (take (Z.to_nat n) a = take (Z.to_nat n) b), s).
Proof.
  intros Hn Ha Hb. unfold memcmp_eq. rewrite (proj2 (andb_true_iff _ _)) by (split; apply Z.leb_le; lia). done.
Qed.

Lemma granted_wf now m l : msg_wf m -> 0 <= hlen m <= 6 -> lease_wf l -> lease_wf (granted now m l).
Proof.
  intros (_&_&_&_&_&(Hc&Hb)&_) Hh (Hl & Hlb & _). unfold lease_wf, granted, sub_bytes. cbn [hwaddr expires].
  split; [rewrite length_app, length_take, length_drop, length_drop; lia|].
  split; [apply Forall_app; split; [by apply Forall_take, Forall_drop|by apply Forall_drop]|].
  apply u32_range.
Qed.

Lemma grant_run w st i m a k l :
  state w = Some st -> st_wf st -> server_if st = Some i ->
  exists w', grant clock m a k l w = Done (tt, w') /\
    left_with 1 w w' st (<[Z.to_nat k := granted (u32 (clock (reads w))) m l]> (leases st)) [reply_of m a (ack_list st i)].
Proof.
  intros Hs Hw Hi. unfold grant, xTaskGetTickCount. erewrite bind_Done by done.
  erewrite bind_Done by by apply get_state_run. unfold put_state, modify. erewrite bind_Done by done.
  erewrite bind_Done by done. rewrite Hi. cbn [deref]. erewrite bind_Done by done.
  erewrite send_reply_run; [|apply ack_options_all|by eapply ack_list_ok].
  eexists. split; [done|]. unfold left_with. cbn. repeat split; try done; lia.
Qed.

(** A request either is ignored, or gets a NAK, or is granted, and it is
    granted when the slot of the address is free or the sender's. *)
Lemma handle_request_run w st m :
  state w = Some st -> st_wf st -> msg_wf m -> message_type m = Some DHCP_REQUEST ->
  exists w' ls rs, handle_dhcp_request clock m w = Done (tt, w') /\ left_with 1 w w' st ls rs /\
    served st (u32 (clock (reads w))) m (leases st) ls rs.
Proof.
  intros Hs Hw Hm Ht. unfold handle_dhcp_request. destruct (wf_netif st Hw) as [i Hi].
  assert (Hignore : exists w' ls rs, ret tt w = Done (tt, w') /\ left_with 1 w w' st ls rs /\
    served st (u32 (clock (reads w))) m (leases st) ls rs)
    by (exists w, (leases st), []; split; [done|]; split; [by apply left_with_same|constructor]).
  destruct (negb (htype m =? _)); [done|]. rewrite hwaddr_len. destruct (6 <? hlen m) eqn:El; zbool; [done|].
  destruct (requested_address_any m w Hm) as (r & w0 & Hr & Hw0 & Ha). run Hr. clear Hignore Hr.
  assert (Hst0 : state w0 = state w /\ forall w' ls rs, left_with 1 w0 w' st ls rs -> left_with 1 w w' st ls rs)
    by (destruct Hw0 as [->|[j ->]]; done).
  assert (Hr0 : reads w0 = reads w) by (destruct Hw0 as [->|[j ->]]; done). rewrite <-Hr0. clear Hw0 Hr0.
  destruct Hst0 as [Hs0 Hback]. rewrite Hs in Hs0.
  assert (Hnak : exists w' ls rs, send_dhcp_nak m w0 = Done (tt, w') /\ left_with 1 w w' st ls rs /\
    served st (u32 (clock (reads w0))) m (leases st) ls rs).
  { erewrite send_dhcp_nak_run by done. eexists _, _, [_]. split; [done|]. split; [by apply Hback, left_with_reply|by constructor]. }
  destruct r as [a|]; [|done]. clear Hs. rename Hs0 into Hs.
  specialize (Ha a eq_refl). run (get_state_run _ _ Hs). case_if; [done|]. zbool.
  pose proof Hw as (Hmax & Hlen & Hf & Hfirst & _).
  pose proof (octet_byte a 3 Ha) as B1. pose proof (octet_byte _ 3 Hfirst) as B2. unfold byteP in B1, B2.
  set (k := s16 _). assert (Hk : k = ip4_addr4 a - ip4_addr4 (first_client_addr st)).
  { unfold k, s16, ip4_addr4. rewrite Z.mod_small by lia. lia. }
  case_if; [done|]. zbool.
  destruct (lookup_lt_is_Some_2 (leases st) (Z.to_nat k)) as [l Hl]; [lia|]. rewrite Hl. cbn [deref].
  erewrite bind_Done by done. assert (Hlw : lease_wf l) by (rewrite Forall_lookup in Hf; by eapply Hf).
  assert (Hh : 0 <= hlen m) by (destruct Hm as (_&_&Hh&_); unfold byteP in Hh; lia).
  assert (Hgrant : active l = 0 \/ take (Z.to_nat (hlen m)) (hwaddr l) = take (Z.to_nat (hlen m)) (chaddr m) ->
    exists w' ls rs, grant clock m a k l w0 = Done (tt, w') /\ left_with 1 w w' st ls rs /\
      served st (u32 (clock (reads w0))) m (leases st) ls rs).
  { intros Hfree. destruct (grant_run w0 st i m a k l Hs Hw Hi) as (w' & Hg & Hleft).
    exists w', (<[Z.to_nat k := granted (u32 (clock (reads w0))) m l]> (leases st)), [reply_of m a (ack_list st i)].
    split; [done|]. split; [by apply Hback|]. rewrite (requested_is_slot st a k) by done. apply served_ack; try done; lia. }
  destruct (active l =? 0) eqn:Ea; zbool.
  { erewrite bind_Done by done. apply Hgrant. by left. }
  erewrite bind_Done by (apply memcmp_eq_run; [lia| |]; [destruct Hlw; lia|destruct Hm as (_&_&_&_&_&(Hc&_)&_); lia]).
  case_bool_decide as Hd; [apply Hgrant; by right|done].
Qed.

(** A request for the address of a slot that is free or the sender's. *)
Lemma handle_request_granted w st i m v k l :
  state w = Some st -> st_wf st -> msg_wf m -> server_if st = Some i ->
  htype m = LWIP_IANA_HWTYPE_ETHERNET -> hlen m <= 6 ->
  option_value m DHCP_OPTION_REQUESTED_IP 4 = Some v -> slot_of st (take 4 v) k ->
  leases st !! Z.to_nat k = Some l ->
  active l = 0 \/ take (Z.to_nat (hlen m)) (hwaddr l) = take (Z.to_nat (hlen m)) (chaddr m) ->
  exists w', handle_dhcp_request clock m w = Done (tt, w') /\
    left_with 1 w w' st (<[Z.to_nat k := granted (u32 (clock (reads w))) m l]> (leases st))
      [reply_of m (take 4 v) (ack_list st i)].
Proof.
  intros Hs Hw Hm Hi Hh Hl6 Hv (E1 & E2 & E3 & Ek & Hk) Hl Hfree. unfold handle_dhcp_request.
  rewrite Hh, Z.eqb_refl. cbn [negb]. rewrite hwaddr_len, (proj2 (Z.ltb_ge _ _)) by lia.
  erewrite bind_Done by by apply requested_address_option. cbn beta iota. run (get_state_run _ _ Hs).
  rewrite E1, E2, E3, !Z.eqb_refl. cbn [negb orb]. rewrite <-Ek.
  pose proof Hw as (Hmax & Hlen & Hf & _).
  assert (Hs16 : s16 k = k) by (unfold s16; rewrite Z.mod_small by lia; lia). rewrite Hs16.
  rewrite (proj2 (Z.ltb_ge _ _)) by lia. rewrite (proj2 (Z.leb_gt _ _)) by lia. cbn [orb]. rewrite Hl. cbn [deref].
  erewrite bind_Done by done. assert (Hlw : lease_wf l) by (rewrite Forall_lookup in Hf; by eapply Hf).
  assert (Hsame : (if active l =? 0 then ret true else memcmp_eq (hwaddr l) (chaddr m) (hlen m)) w = Done (true, w)).
  { destruct (active l =? 0) eqn:Ea; [done|]. zbool. destruct Hlw as [Hlen6 _].
    destruct Hm as (_&_&Hb&_&_&(Hc&_)&_). unfold byteP in Hb. rewrite memcmp_eq_run by lia.
    rewrite bool_decide_true; [done|]. by destruct Hfree. }
  run Hsame. by apply grant_run.
Qed.

(** ** The task *)

Lemma dispatch_type m w :
  msg_wf m ->
  dispatch clock m w =
    match message_type m with
    | Some t => if t =? DHCP_DISCOVER then handle_dhcp_discover m w
                else if t =? DHCP_REQUEST then handle_dhcp_request clock m w
                else if t =? DHCP_RELEASE then handle_dhcp_release m w
                else Done (tt, w)
    | None => Done (tt, w)
    end.
Proof.
  intros Hm. unfold dispatch, message_type.
  destruct (option_value m DHCP_OPTION_MESSAGE_TYPE DHCP_OPTION_MESSAGE_TYPE_LEN) as [v|] eqn:Hv.
  - destruct (find_dhcp_option_value m _ _ v w Hm Hv) as (p & Hp & Hp0 & Hl & Hsub). run Hp.
    rewrite message_type_len in Hl. destruct v as [|b v]; [cbn in Hl; lia|].
    apply (f_equal (lookup 0%nat)) in Hsub. unfold sub_bytes in Hsub. rewrite lookup_take_lt in Hsub by (cbn; lia).
    rewrite lookup_drop, Nat.add_0_r in Hsub. rewrite Hsub. cbn [lookup list_lookup deref]. erewrite bind_Done by done.
    by repeat case_if.
  - erewrite bind_Done by by apply find_dhcp_option_none. done.
Qed.

Lemma dispatch_run w st m :
  state w = Some st -> st_wf st -> msg_wf m ->
  exists w' ls rs, dispatch clock m w = Done (tt, w') /\ left_with 1 w w' st ls rs /\
    served st (u32 (clock (reads w))) m (leases st) ls rs.
Proof.
  intros Hs Hw Hm. rewrite dispatch_type by done.
  assert (Hignore : exists w' ls rs, Done (tt, w) = Done (tt, w') /\ left_with 1 w w' st ls rs /\
    served st (u32 (clock (reads w))) m (leases st) ls rs)
    by (exists w, (leases st), []; split; [done|]; split; [by apply left_with_same|constructor]).
  destruct (message_type m) as [t|] eqn:Ht; [|done].
  case_if; zbool; subst.
  { destruct (handle_discover_run w st m Hs Hw Hm Ht) as (w' & rs & H1 & H2 & H3 & _). by exists w', (leases st), rs. }
  case_if; zbool; subst; [by apply handle_request_run|].
  case_if; zbool; subst; [|done].
  destruct (handle_release_run w st m Hs Hw Hm Ht) as (w' & ls & H1 & H2 & H3). by exists w', ls, [].
Qed.

Lemma served_wf st now m ls ls' rs :
  msg_wf m -> Forall lease_wf ls -> served st now m ls ls' rs -> Forall lease_wf ls' /\ length ls' = length ls.
Proof.
  intros Hm Hf. destruct 1; try done; rewrite length_insert; (split; [|done]).
  - apply Forall_insert; [done|]. apply granted_wf; [done|done|]. rewrite Forall_lookup in Hf. by eapply Hf.
  - apply Forall_insert; [done|]. rewrite Forall_lookup in Hf. destruct (Hf _ _ H3) as (? & ? & _). split; [done|]. split; [done|]. cbn. lia.
Qed.

(** The step depends on the configuration only. *)
Lemma served_config st l0 now m ls ls' rs : served (set_leases st l0) now m ls ls' rs -> served st now m ls ls' rs.
Proof.
  destruct 1 as [|k i ? ? ?|i ? ?|k l i ? ? ? ? ? ?|k l ? ? ?];
    [apply served_none|by apply (served_offer st now m ls k i)|by apply (served_nak st now m ls i)
    |by apply (served_ack st now m ls k l i)|by apply served_release].
Qed.

(** The table once leases have expired at the time of the first read. *)
Definition table (st : server_state_t) (w : world) : list dhcp_lease_t :=
  expire (u32 (clock (reads w))) <$> leases st.

(** The part of a turn up to the dispatch. *)
Lemma turn_expire w st nb :
  state w = Some st -> st_wf st ->
  dhcpserver_turn clock (Some nb) w =
    (if netbuf_len nb <? offsetof_options then ret tt else dispatch clock (netbuf_copy nb))
      (with_state (with_read w) (Some (set_leases st (table st w)))).
Proof.
  intros Hs Hw. unfold dhcpserver_turn, xTaskGetTickCount. erewrite bind_Done by done.
  erewrite bind_Done by by apply get_state_run.
  pose proof (expire_loop_run (u32 (clock (reads w))) [] (leases st) (with_read w) st Hs eq_refl) as He.
  cbn [app length] in He. destruct Hw as (_ & Hl & _). rewrite Hl in He. change (Z.of_nat 0) with 0 in He. by run He.
Qed.

(** One turn on a received packet. *)
Lemma turn_run w st nb :
  state w = Some st -> st_wf st ->
  exists w' ls rs, dhcpserver_turn clock (Some nb) w = Done (tt, w') /\ left_with 2 w w' st ls rs /\
    st_wf (set_leases st ls) /\
    served st (u32 (clock (S (reads w)))) (netbuf_copy nb) (table st w) ls rs.
Proof.
  intros Hs Hw. rewrite (turn_expire _ _ _ Hs Hw). set (w1 := with_state _ _).
  set (st1 := set_leases st (table st w)). assert (Hw1 : st_wf st1) by by apply expire_leases_wf.
  assert (Hm : msg_wf (netbuf_copy nb)) by apply netbuf_copy_wf.
  case_if.
  { exists w1, (table st w), []. split; [done|]. split; [|split; [done|constructor]].
    unfold left_with. cbn. rewrite app_nil_r. repeat split; try done; lia. }
  destruct (dispatch_run w1 st1 (netbuf_copy nb) eq_refl Hw1 Hm) as (w' & ls & rs & Hd & (HA & HB & HC) & Hsv).
  exists w', ls, rs. split; [done|]. split; [|].
  { unfold left_with. rewrite HA, HB. cbn in *. repeat split; try done; lia. }
  assert (Hsv' : served st (u32 (clock (S (reads w)))) (netbuf_copy nb) (table st w) ls rs).
  { by apply served_config in Hsv. }
  split; [|done]. pose proof (served_wf _ _ _ _ _ _ Hm (proj1 (proj2 (proj2 Hw1))) Hsv) as [H1 H2].
  apply st_wf_leases; [done|by rewrite H2; unfold st1, table; cbn; rewrite length_fmap|done].
Qed.

End Serve.
