(* ===== verification/DhcpContract.v ===== *)
(** * The contract of the DHCP server

    From its start the server survives any packets; a lease stays with its
    holder until it expires or the holder gives it up; a DISCOVER followed by
    a REQUEST gets a lease; options written are the options parsed; and two
    ways in which leases go wrong.  The last section has lwIP's constants and
    the layout of RFC 2131 as an instance, and concrete runs. *)

From stdpp Require Import strings.
From S2P Require Import Prelude Dhcp DhcpOptions DhcpProofs DhcpServe.
Open Scope Z_scope.
Import Dhcp.

Section Contract.
Context `{!LwipH} `{!LwipHLaws} (clock : nat -> Z).

(** ** Replies as the clients parse them *)

Lemma reply_option m y ts num minl :
  reply_list_ok ts ->
  option_value (reply_of m y ts) num minl =
    match first_option ts num with
    | Some v => if Z.of_nat (length v) <? minl then None else Some v
    | None => None
    end.
Proof.
  intros [Hf Hl]. apply option_value_pad; [done| |done]. eapply Forall_impl; [done|]. by intros t [_ ?].
Qed.

Lemma reply_type m y t ts :
  reply_list_ok ((DHCP_OPTION_MESSAGE_TYPE, [t]) :: ts) ->
  message_type (reply_of m y ((DHCP_OPTION_MESSAGE_TYPE, [t]) :: ts)) = Some t.
Proof.
  intros Hok. unfold message_type. rewrite (reply_option _ _ _ _ _ Hok). cbn [first_option].
  rewrite Z.eqb_refl, message_type_len. done.
Qed.

Lemma offer_type m y st i : st_wf st -> server_if st = Some i -> message_type (reply_of m y (offer_list st i)) = Some DHCP_OFFER.
Proof. intros Hw Hi. apply reply_type. by eapply offer_list_ok. Qed.

Lemma ack_type m y st i : st_wf st -> server_if st = Some i -> message_type (reply_of m y (ack_list st i)) = Some DHCP_ACK.
Proof. intros Hw Hi. apply reply_type. by eapply ack_list_ok. Qed.

Lemma nak_type m y st i : st_wf st -> server_if st = Some i -> message_type (reply_of m y (nak_list i)) = Some DHCP_NAK.
Proof. intros Hw Hi. apply reply_type. by eapply nak_list_ok. Qed.

(** ** Any packets *)

Lemma served_replies st now m ls ls' rs : served st now m ls ls' rs -> (length rs <= 1)%nat.
Proof. destruct 1; cbn; lia. Qed.

Lemma loop_run rs w st :
  state w = Some st -> st_wf st ->
  exists w' ls, dhcpserver_loop clock rs w = Done (tt, w') /\ state w' = Some (set_leases st ls) /\
    st_wf (set_leases st ls) /\ (length (sent w') <= length (sent w) + length rs)%nat.
Proof.
  revert w st. induction rs as [|[nb|] rs IH]; intros w st Hs Hw; cbn [dhcpserver_loop].
  - exists w, (leases st). rewrite set_leases_id. cbn. repeat split; try done; try apply Hw; lia.
  - destruct (turn_run clock w st nb Hs Hw) as (w1 & ls & out & Ht & (Hs1 & Ho & _) & Hw1 & Hsv). run Ht.
    destruct (IH w1 _ Hs1 Hw1) as (w' & ls' & Hl & Hs' & Hw' & Hn). exists w', ls'. split; [done|]. split; [done|]. split; [done|].
    apply served_replies in Hsv. rewrite Ho, length_app in Hn. cbn [length]. lia.
  - unfold dhcpserver_turn. erewrite bind_Done by done.
    destruct (IH w st Hs Hw) as (w' & ls & Hl & Hs' & Hw' & Hn). exists w', ls. repeat split; try done; try apply Hw'. cbn [length]. lia.
Qed.

Lemma alloc_ok_run w : w_alloc w = [] -> alloc_ok w = Done (true, w).
Proof. unfold alloc_ok. by intros ->. Qed.

Lemma start_run w first n :
  w_alloc w = [] -> (dhcpserver_task_handle w = true -> state w <> None) ->
  exists w', dhcpserver_start first n w = Done (tt, w') /\ dhcpserver_task_handle w' = true /\ w_alloc w' = [] /\
    sent w' = sent w /\ netif_list w' = netif_list w /\
    state w' = Some {| nc := false; max_leases := n; first_client_addr := first; server_if := None;
      leases := replicate (Z.to_nat n) {| hwaddr := replicate (Z.to_nat NETIF_MAX_HWADDR_LEN) 0; active := 0; expires := 0 |};
      router := IP4_ADDR_ANY4; dns := IP4_ADDR_ANY4 |}.
Proof.
  intros Ha Hh. unfold dhcpserver_start. erewrite bind_Done by done.
  assert (Hstop : exists w0, (if dhcpserver_task_handle w then dhcpserver_stop else ret tt) w = Done (tt, w0) /\
    w_alloc w0 = [] /\ sent w0 = sent w /\ netif_list w0 = netif_list w).
  { destruct (dhcpserver_task_handle w) eqn:Et; [|by eexists]. unfold dhcpserver_stop, bind, get. rewrite Et. cbn.
    destruct (state w) as [st|] eqn:Es; [|by destruct Hh]. unfold get_state, bind, get. cbn. rewrite ?Es. cbn. by eexists. }
  destruct Hstop as (w0 & H1 & H2 & H3 & H4). run H1. run (alloc_ok_run w0 H2). cbn [negb]. run (alloc_ok_run w0 H2). cbn [negb].
  unfold put_state, modify. erewrite bind_Done by done. erewrite bind_Done by by apply alloc_ok_run.
  eexists. split; [done|]. done.
Qed.

(** C36. Type safety of the server.  Started with an address and a number of
    leases, on an interface that is up and with memory, the server answers any
    sequence of packets and receive errors, whatever the packets contain:
    every access stays inside its buffers, every loop ends, the lease table
    keeps its type and length, and at most one reply is sent for each packet. *)
Theorem dhcp_server_survives (w : world) (first : ip4_addr_t) (n : Z) (i : netif) (rs : list (option netbuf)) :
  w_alloc w = [] -> (dhcpserver_task_handle w = true -> state w <> None) ->
  netif_list w = Some i -> ip_wf (ip_addr i) -> ip_wf (netmask i) -> ip_wf first -> 0 <= n < 256 ->
  exists w1 w2 st, dhcpserver_start first n w = Done (tt, w1) /\ dhcpserver_task clock rs w1 = Done (tt, w2) /\
    state w2 = Some st /\ st_wf st /\ max_leases st = n /\ first_client_addr st = first /\
    (length (sent w2) <= length (sent w) + length rs)%nat.
Proof.
  intros Ha Hh Hi Hip Hmask Hf Hn. destruct (start_run w first n Ha Hh) as (w1 & H1 & _ & Ha1 & Hs1 & Hn1 & Hst1).
  exists w1. unfold dhcpserver_task. erewrite bind_Done by done. erewrite bind_Done by by apply get_state_run.
  unfold put_state, modify. erewrite bind_Done by done. erewrite bind_Done by by apply alloc_ok_run.
  erewrite bind_Done by done. erewrite bind_Done by done. cbn [negb].
  erewrite bind_Done by done. cbn [server_if set_nc set_server_if]. rewrite Hn1, Hi. cbn [deref]. erewrite bind_Done by done.
  set (w2 := with_state _ _).
  edestruct (loop_run rs w2) as (w' & ls & Hl & Hs' & Hw' & Hlen); [done| |].
  - unfold st_wf. cbn. rewrite length_replicate. split; [lia|]. split; [done|]. split.
    { apply Forall_replicate. unfold lease_wf. cbn [hwaddr expires]. rewrite hwaddr_len. cbn. split; [done|].
      split; [|lia]. repeat constructor; unfold byteP; lia. }
    assert (ip_wf IP4_ADDR_ANY4) by (split; [done|repeat constructor; unfold byteP; lia]). eauto 10.
  - eexists w', _. split; [done|]. split; [exact Hl|]. split; [exact Hs'|]. split; [done|]. cbn in *. rewrite Hs1 in Hlen. done.
Qed.

(** ** Leases and their holders *)

(** The packet may arrive without endangering the lease of [hw]: requests
    carry whole hardware addresses and [hw] does not release. *)
Definition harmless (hw : list Z) (r : option netbuf) : Prop :=
  match r with
  | None => True
  | Some nb =>
    (message_type (netbuf_copy nb) = Some DHCP_REQUEST -> hlen (netbuf_copy nb) = 6) /\
    (message_type (netbuf_copy nb) = Some DHCP_RELEASE -> mac (netbuf_copy nb) <> hw)
  end.

(** [hw] holds the slot [k] at least until [E], renewals included. *)
Definition holds (st : server_state_t) (k : Z) (hw : list Z) (E : Z) : Prop :=
  exists l E', leases st !! Z.to_nat k = Some l /\ active l <> 0 /\ hwaddr l = hw /\ expires l = u32 E' /\
    E <= E' <= E + DHCPSERVER_LEASE_TIME * configTICK_RATE_HZ.

Lemma expire_keeps l E' t :
  active l <> 0 -> expires l = u32 E' -> 0 <= E' - t < 2 ^ 31 -> expire (u32 t) l = l.
Proof.
  intros Ha He Ht. unfold expire. rewrite (proj2 (Z.eqb_neq _ _)) by done.
  rewrite He. case_if; [|done]. zbool. unfold u32 in *. exfalso. divlia.
Qed.

Lemma granted_6 now m l : msg_wf m -> lease_wf l -> hlen m = 6 -> hwaddr (granted now m l) = mac m.
Proof.
  intros (_&_&_&_&_&(Hc&_)&_) (Hl & _) Hh. unfold granted, sub_bytes, mac. cbn [hwaddr]. rewrite Hh.
  change (Z.to_nat 6) with 6%nat. change (Z.to_nat 0) with 0%nat. rewrite drop_0, (drop_ge (hwaddr l)) by lia. apply app_nil_r.
Qed.

(** A reply gives the address [a] to its addressee. *)
Definition gives (a : ip4_addr_t) (r : dhcp_msg) : Prop :=
  yiaddr r = a /\ (message_type r = Some DHCP_OFFER \/ message_type r = Some DHCP_ACK).

Lemma served_keeps st now t m ls ls' rs k hw E l E' :
  st_wf st -> msg_wf m -> length ls = Z.to_nat (max_leases st) -> Forall lease_wf ls ->
  served st now m ls ls' rs -> 0 <= k -> now = u32 t ->
  ls !! Z.to_nat k = Some l -> active l <> 0 -> hwaddr l = hw -> expires l = u32 E' ->
  E <= E' <= E + DHCPSERVER_LEASE_TIME * configTICK_RATE_HZ -> t <= E <= t + DHCPSERVER_LEASE_TIME * configTICK_RATE_HZ ->
  (message_type m = Some DHCP_REQUEST -> hlen m = 6) -> (message_type m = Some DHCP_RELEASE -> mac m <> hw) ->
  holds (set_leases st ls') k hw E /\ Forall (fun r => gives (lease_addr st k) r -> mac r = hw) rs.
Proof.
  intros Hw Hm Hlen Hlf Hsv Hk Hnow Hl Ha Hh He HE Ht Hreq Hrel.
  pose proof Hw as (Hmax & _). assert (Hkm : k < max_leases st) by (apply lookup_lt_Some in Hl; lia).
  assert (Hsame : holds (set_leases st ls) k hw E) by by exists l, E'.
  destruct Hsv as [|k' i Hty Hu Hi|i Hty Hi|k' l' i Hty Hh6 Hk' Hl' Hfree Hi|k' l' Hty Hu Hl'].
  - done.
  - split; [done|]. constructor; [|done]. intros [Hy _]. cbn in Hy. destruct Hu as (Hk' & l' & Hl' & Hfree).
    assert (k' = k); [|subst k'; rewrite Hl in Hl'; injection Hl' as <-; destruct Hfree as [?|Hf]; [done|by rewrite <-Hh, Hf]].
    apply (lease_addr_inj st); [|lia|done]. apply lookup_lt_Some in Hl'. lia.
  - split; [done|]. constructor; [|done]. intros [_ Hty']. rewrite (nak_type _ _ st) in Hty' by done.
    pose proof message_type_values as (_&E2&_&E5&E6&_). rewrite E2, E5, E6 in Hty'. by destruct Hty'.
  - specialize (Hreq Hty). assert (Hkm' : k' < max_leases st) by (apply lookup_lt_Some in Hl'; lia).
    destruct (decide (k' = k)) as [->|Hne].
    + rewrite Hl in Hl'. injection Hl' as <-. assert (Hmac : mac m = hw).
      { destruct Hfree as [?|Hf]; [done|]. rewrite Hreq in Hf. change (Z.to_nat 6) with 6%nat in Hf.
        unfold mac. rewrite <-Hf, take_ge; [done|]. rewrite Forall_lookup in Hlf. destruct (Hlf _ _ Hl) as [-> _]. lia. }
      split; [|by constructor].
      exists (granted now m l), (t + DHCPSERVER_LEASE_TIME * configTICK_RATE_HZ). cbn [leases set_leases].
      rewrite list_lookup_insert_eq by (apply lookup_lt_Some in Hl; done).
      rewrite granted_6 by (done || rewrite Forall_lookup in Hlf; by eapply Hlf).
      split; [done|]. split; [done|]. split; [done|]. split; [|lia]. cbn. rewrite Hnow. unfold u32. by rewrite Zplus_mod_idemp_l.
    + split.
      * exists l, E'. cbn [leases set_leases]. by rewrite list_lookup_insert_ne by lia.
      * constructor; [|done]. intros [Hy _]. cbn in Hy. destruct Hne. by apply (lease_addr_inj st); [lia|lia|].
  - specialize (Hrel Hty). split; [|done]. destruct Hu as (Hk' & l2 & Hl2 & Hfree). rewrite Hl' in Hl2. injection Hl2 as <-.
    exists l, E'. cbn [leases set_leases]. rewrite list_lookup_insert_ne; [done|]. intros Heq.
    rewrite Heq, Hl in Hl'. injection Hl' as <-. destruct Hfree as [?|Hf]; [done|]. by rewrite Hf in Hh.
Qed.

Lemma holds_loop rs w st k hw T E :
  state w = Some st -> st_wf st -> 0 <= k -> holds st k hw E ->
  E <= T + DHCPSERVER_LEASE_TIME * configTICK_RATE_HZ ->
  (forall n, (reads w <= n <= reads w + 2 * length rs)%nat -> T <= clock n <= E) ->
  Forall (harmless hw) rs ->
  exists w' ls out, dhcpserver_loop clock rs w = Done (tt, w') /\ state w' = Some (set_leases st ls) /\
    holds (set_leases st ls) k hw E /\ sent w' = sent w ++ out /\
    Forall (fun r => gives (lease_addr st k) r -> mac r = hw) out.
Proof.
  intros Hs Hw Hk. revert w st Hs Hw. induction rs as [|[nb|] rs IH]; intros w st Hs Hw Hh HT Hc Hrs; cbn [dhcpserver_loop].
  { exists w, (leases st), []. rewrite set_leases_id, app_nil_r. done. }
  all: apply Forall_cons in Hrs as [Hr Hrs].
  - destruct (turn_run clock w st nb Hs Hw) as (w1 & ls & out & Ht & (Hs1 & Ho & Hrd) & Hw1 & Hsv). run Ht.
    destruct Hr as [Hr1 Hr2]. destruct Hh as (l & E' & Hl & Ha & Hhw & He & HE).
    assert (Hc0 : T <= clock (reads w) <= E) by (apply Hc; cbn [length]; lia).
    assert (Hc1 : T <= clock (S (reads w)) <= E) by (apply Hc; cbn [length]; lia).
    assert (Htab : table clock st w !! Z.to_nat k = Some l).
    { unfold table. rewrite list_lookup_fmap, Hl. cbn. f_equal. apply (expire_keeps l E'); [done|done|].
      unfold DHCPSERVER_LEASE_TIME, configTICK_RATE_HZ in *. lia. }
    pose proof (expire_leases_wf (u32 (clock (reads w))) st Hw) as (_ & Hlen & Hlf & _).
    destruct (served_keeps st _ (clock (S (reads w))) _ _ _ _ k hw E l E' Hw (netbuf_copy_wf nb) Hlen Hlf Hsv) as [Hh1 Ho1];
      try done; [unfold DHCPSERVER_LEASE_TIME, configTICK_RATE_HZ in *; lia|].
    destruct (IH w1 (set_leases st ls)) as (w' & ls' & out' & HL & Hs' & Hh' & Ho' & Hf'); try done.
    { intros n Hn. apply Hc. cbn [length]. lia. }
    exists w', ls', (out ++ out'). split; [done|]. split; [done|]. split; [done|].
    split; [by rewrite Ho', Ho, app_assoc|]. apply Forall_app. split; [done|exact Hf'].
  - unfold dhcpserver_turn. erewrite bind_Done by done. apply (IH w st); try done. intros n Hn. apply Hc. cbn [length]. lia.
Qed.

(** C19. A lease belongs to its holder.  Once an address is leased to a
    hardware address, then until the lease expires, whatever packets arrive
    (requests with whole hardware addresses, no release by the holder), the
    lease stays with its holder, renewals by the holder included, and no OFFER
    or ACK gives the address to anybody else. *)
Theorem dhcp_lease_exclusive (w : world) (st : server_state_t) (k : Z) (hw : list Z) (T E : Z) (rs : list (option netbuf)) :
  state w = Some st -> st_wf st -> 0 <= k -> holds st k hw E ->
  E <= T + DHCPSERVER_LEASE_TIME * configTICK_RATE_HZ ->
  (forall n, (reads w <= n <= reads w + 2 * length rs)%nat -> T <= clock n <= E) ->
  Forall (harmless hw) rs ->
  exists w' ls out, dhcpserver_loop clock rs w = Done (tt, w') /\ state w' = Some (set_leases st ls) /\
    holds (set_leases st ls) k hw E /\ sent w' = sent w ++ out /\
    Forall (fun r => gives (lease_addr st k) r -> mac r = hw) out.
Proof. apply holds_loop. Qed.

(** ** Getting a lease *)

Lemma expire_usable now ls hw k : usable ls hw k -> usable (expire now <$> ls) hw k.
Proof.
  intros (Hk & l & Hl & Hf). split; [done|]. exists (expire now l). rewrite list_lookup_fmap, Hl. split; [done|].
  unfold expire. destruct (active l =? 0) eqn:Ea; [done|]. case_if; [by left|done].
Qed.

(** A packet that reaches its handler. *)
Definition from_client (nb : netbuf) (t : Z) : Prop :=
  offsetof_options <= netbuf_len nb /\ message_type (netbuf_copy nb) = Some t /\
  htype (netbuf_copy nb) = LWIP_IANA_HWTYPE_ETHERNET.

Lemma turn_dispatch w st nb t :
  state w = Some st -> st_wf st -> from_client nb t ->
  dhcpserver_turn clock (Some nb) w =
    dispatch clock (netbuf_copy nb) (with_state (with_read w) (Some (set_leases st (table clock st w)))).
Proof. intros Hs Hw (Hl & _). rewrite (turn_expire _ _ _ _ Hs Hw). by rewrite (proj2 (Z.ltb_ge _ _)). Qed.

Lemma turn_discover w st nb :
  state w = Some st -> st_wf st -> from_client nb DHCP_DISCOVER -> hlen (netbuf_copy nb) <= 6 ->
  (exists k, usable (table clock st w) (mac (netbuf_copy nb)) k) ->
  exists w' k i, dhcpserver_turn clock (Some nb) w = Done (tt, w') /\ server_if st = Some i /\
    usable (table clock st w) (mac (netbuf_copy nb)) k /\
    left_with 2 w w' st (table clock st w) [reply_of (netbuf_copy nb) (lease_addr st k) (offer_list st i)].
Proof.
  intros Hs Hw Hp H6 Hu. rewrite (turn_dispatch _ _ _ _ Hs Hw Hp). set (w1 := with_state _ _).
  set (st1 := set_leases st (table clock st w)). assert (Hw1 : st_wf st1) by by apply expire_leases_wf.
  destruct Hp as (_ & Hty & Hh). rewrite dispatch_type, Hty, Z.eqb_refl by apply netbuf_copy_wf.
  destruct (handle_discover_run clock w1 st1 (netbuf_copy nb) eq_refl Hw1 (netbuf_copy_wf nb) Hty)
    as (w' & rs & Hd & (HA & HB & HC) & _ & Hoff).
  destruct (Hoff Hh H6 Hu) as (k & i & Hk & Hi & ->). exists w', k, i. split; [done|]. split; [done|]. split; [done|].
  unfold left_with. rewrite HA, HB. cbn in *. repeat split; try done; lia.
Qed.

Lemma turn_request w st nb i v k l :
  state w = Some st -> st_wf st -> server_if st = Some i -> from_client nb DHCP_REQUEST -> hlen (netbuf_copy nb) <= 6 ->
  option_value (netbuf_copy nb) DHCP_OPTION_REQUESTED_IP 4 = Some v -> slot_of st (take 4 v) k ->
  table clock st w !! Z.to_nat k = Some l ->
  active l = 0 \/ take (Z.to_nat (hlen (netbuf_copy nb))) (hwaddr l)
                  = take (Z.to_nat (hlen (netbuf_copy nb))) (chaddr (netbuf_copy nb)) ->
  exists w', dhcpserver_turn clock (Some nb) w = Done (tt, w') /\
    left_with 2 w w' st (<[Z.to_nat k := granted (u32 (clock (S (reads w)))) (netbuf_copy nb) l]> (table clock st w))
      [reply_of (netbuf_copy nb) (take 4 v) (ack_list st i)].
Proof.
  intros Hs Hw Hi Hp H6 Hv Hslot Hl Hfree. rewrite (turn_dispatch _ _ _ _ Hs Hw Hp). set (w1 := with_state _ _).
  set (st1 := set_leases st (table clock st w)). assert (Hw1 : st_wf st1) by by apply expire_leases_wf.
  destruct Hp as (_ & Hty & Hh). rewrite dispatch_type, Hty by apply netbuf_copy_wf.
  pose proof message_type_values as (E1&_&E3&_). rewrite E1, E3. cbn [Z.eqb Pos.eqb].
  destruct (handle_request_granted clock w1 st1 i (netbuf_copy nb) v k l eq_refl Hw1 (netbuf_copy_wf nb) Hi Hh H6 Hv Hslot Hl Hfree)
    as (w' & Hg & (HA & HB & HC)).
  exists w'. split; [done|]. unfold left_with. rewrite HA, HB. cbn in *. repeat split; try done; lia.
Qed.

(** What an ACK tells the client. *)
Lemma ack_values m y st i :
  st_wf st -> server_if st = Some i ->
  option_value (reply_of m y (ack_list st i)) DHCP_OPTION_LEASE_TIME 4 = Some (lwip_htonl DHCPSERVER_LEASE_TIME) /\
  option_value (reply_of m y (ack_list st i)) DHCP_OPTION_SERVER_ID 4 = Some (ip_addr i) /\
  option_value (reply_of m y (ack_list st i)) DHCP_OPTION_SUBNET_MASK 4 = Some (netmask i).
Proof.
  intros Hw Hi. pose proof option_number_values as (N1&_&_&_&N51&N53&N54&_).
  assert (Hil : length (ip_addr i) = 4%nat /\ length (netmask i) = 4%nat).
  { destruct Hw as (_&_&_&_&_&_&i'&Hi'&[? _]&[? _]). rewrite Hi in Hi'. by injection Hi' as <-. }
  rewrite !reply_option by by apply ack_list_ok. unfold ack_list. cbn [first_option]. rewrite N1, N51, N53, N54. cbn [Z.eqb Pos.eqb].
  by rewrite length_htonl, (proj1 Hil), (proj2 Hil).
Qed.

(** A lease granted is held for the lease time. *)
Lemma granted_holds st ls k l m t :
  msg_wf m -> hlen m = 6 -> lease_wf l -> ls !! Z.to_nat k = Some l ->
  holds (set_leases st (<[Z.to_nat k := granted (u32 t) m l]> ls)) k (mac m) (t + DHCPSERVER_LEASE_TIME * configTICK_RATE_HZ).
Proof.
  intros Hm Hh Hlw Hl. exists (granted (u32 t) m l), (t + DHCPSERVER_LEASE_TIME * configTICK_RATE_HZ). cbn [leases set_leases].
  rewrite list_lookup_insert_eq by (by eapply lookup_lt_Some). split; [done|]. split; [done|].
  split; [by apply granted_6|]. split; [|unfold DHCPSERVER_LEASE_TIME, configTICK_RATE_HZ; lia].
  cbn. unfold u32. by rewrite Zplus_mod_idemp_l.
Qed.

(** C21. The handshake.  When all addresses of the server differ in their last
    octet only and a slot is free or the client's own, a DISCOVER is answered
    by an OFFER, and a REQUEST of the same client for the offered address is
    acknowledged with that address, the lease time, the server's identifier
    and the netmask; the client then holds the lease for the lease time. *)
Theorem dhcp_handshake (w : world) (st : server_state_t) (nb1 : netbuf) :
  state w = Some st -> st_wf st -> ip4_addr4 (first_client_addr st) + max_leases st <= 256 ->
  from_client nb1 DHCP_DISCOVER -> hlen (netbuf_copy nb1) <= 6 ->
  (exists k, usable (table clock st w) (mac (netbuf_copy nb1)) k) ->
  exists w1 offer i, dhcpserver_turn clock (Some nb1) w = Done (tt, w1) /\ sent w1 = sent w ++ [offer] /\
    message_type offer = Some DHCP_OFFER /\ chaddr offer = chaddr (netbuf_copy nb1) /\ server_if st = Some i /\
    forall nb2,
      from_client nb2 DHCP_REQUEST -> hlen (netbuf_copy nb2) = 6 -> mac (netbuf_copy nb2) = mac (netbuf_copy nb1) ->
      option_value (netbuf_copy nb2) DHCP_OPTION_REQUESTED_IP 4 = Some (yiaddr offer) ->
      exists w2 st2 ack k, dhcpserver_turn clock (Some nb2) w1 = Done (tt, w2) /\ sent w2 = sent w1 ++ [ack] /\
        message_type ack = Some DHCP_ACK /\ yiaddr ack = yiaddr offer /\ yiaddr ack = lease_addr st k /\
        option_value ack DHCP_OPTION_LEASE_TIME 4 = Some (lwip_htonl DHCPSERVER_LEASE_TIME) /\
        option_value ack DHCP_OPTION_SERVER_ID 4 = Some (ip_addr i) /\
        option_value ack DHCP_OPTION_SUBNET_MASK 4 = Some (netmask i) /\
        state w2 = Some st2 /\
        holds st2 k (mac (netbuf_copy nb1)) (clock (S (reads w1)) + DHCPSERVER_LEASE_TIME * configTICK_RATE_HZ).
Proof.
  intros Hs Hw Hroom Hp1 Hh1 Hu.
  destruct (turn_discover w st nb1 Hs Hw Hp1 Hh1 Hu) as (w1 & k & i & Ht1 & Hi & Huk & (Hs1 & Ho1 & _)).
  set (st1 := set_leases st (table clock st w)) in *. assert (Hw1 : st_wf st1) by by apply expire_leases_wf.
  exists w1, (reply_of (netbuf_copy nb1) (lease_addr st k) (offer_list st i)), i.
  split; [done|]. split; [done|]. split; [by apply offer_type|]. split; [done|]. split; [done|].
  intros nb2 Hp2 Hh2 Hmac Hv. cbn [yiaddr reply_of set_reply] in *.
  pose proof (expire_usable (u32 (clock (reads w1))) _ _ _ Huk) as (Hk & l & Hl & Hfree).
  assert (Hkm : k < max_leases st).
  { apply lookup_lt_Some in Hl. destruct Hw1 as (_ & Hlen & _). rewrite length_fmap in Hl. cbn in Hlen. lia. }
  destruct Hw as (Hmax & Hw'). destruct (slot_is_requested st k) as (A1 & A2 & A3 & A4); [apply Hw'|done|lia|].
  assert (Hlw : lease_wf l).
  { destruct Hw1 as (_ & _ & Hf & _). rewrite Forall_lookup in Hf.
    rewrite list_lookup_fmap in Hl. destruct (_ !! _) as [l0|] eqn:El0; [|done]. injection Hl as <-. apply expire_wf. by eapply Hf. }
  assert (Htake : take 4 (lease_addr st k) = lease_addr st k) by (apply take_ge; unfold lease_addr; rewrite length_htonl; lia).
  destruct (turn_request w1 st1 nb2 i (lease_addr st k) k l) as (w2 & Ht2 & (Hs2 & Ho2 & _)); try done; [lia| | |].
  { rewrite Htake. unfold slot_of, st1. cbn [first_client_addr max_leases set_leases]. lia. }
  { rewrite Hh2. change (Z.to_nat 6) with 6%nat. destruct Hfree as [?|Hf]; [by left|right].
    rewrite take_ge by (destruct Hlw; lia). by rewrite Hf, <-Hmac. }
  rewrite Htake in Ho2. eexists w2, _, _, k. split; [done|]. split; [done|]. split; [by apply ack_type|].
  split; [done|]. split; [done|].
  destruct (ack_values (netbuf_copy nb2) (lease_addr st k) st1 i Hw1 Hi) as (V1 & V2 & V3).
  split; [done|]. split; [done|]. split; [done|]. split; [done|]. rewrite <-Hmac. by apply granted_holds; [apply netbuf_copy_wf| | |].
Qed.

(** Options written and parsed.  Writing a list of non-empty options of
    at most 255 bytes one after the other, ended by the end mark, into the
    cleared array succeeds when they fit, and the parser then finds, for every
    number, the value of the first option with that number, unless it is
    shorter than the length asked for. *)
Theorem dhcp_options_roundtrip (ts : list (Z * list Z)) :
  Forall (fun t => t.1 <> DHCP_OPTION_END /\ (1 <= length t.2 <= 255)%nat) ts ->
  Z.of_nat (length (encode ts)) < DHCP_OPTIONS_LEN ->
  exists q opts, (let! opt := add_all 0 ts in add_dhcp_option_bytes opt DHCP_OPTION_END []) zero_options = Done (q, opts) /\
    forall m num minl, options m = opts ->
      option_value m num minl =
        match first_option ts num with
        | Some v => if Z.of_nat (length v) <? minl then None else Some v
        | None => None
        end.
Proof.
  intros Hf Hl. destruct (add_all_pad DHCP_OPTION_END ts) as [q Hq]; [|done|].
  { eapply Forall_impl; [done|]. intros [t v] [_ Hv] E. cbn in *. subst v. cbn in Hv. lia. }
  exists q, (pad DHCP_OPTION_END ts). split; [done|]. intros m num minl Hm. apply option_value_pad; [done| |done].
  eapply Forall_impl; [done|]. by intros t [? _].
Qed.

(** A hardware address of length zero takes any lease.  The comparison
    of a request with the holder of the address is over [hlen] bytes; a request
    with [hlen] zero for the address of another client's active lease is
    acknowledged, to both clients' harm. *)
Theorem dhcp_empty_hwaddr_takes_lease (w : world) (st : server_state_t) (nb : netbuf) (k : Z) (l : dhcp_lease_t) :
  state w = Some st -> st_wf st -> from_client nb DHCP_REQUEST -> hlen (netbuf_copy nb) = 0 ->
  0 <= k < max_leases st -> ip4_addr4 (first_client_addr st) + max_leases st <= 256 ->
  option_value (netbuf_copy nb) DHCP_OPTION_REQUESTED_IP 4 = Some (lease_addr st k) ->
  table clock st w !! Z.to_nat k = Some l -> active l <> 0 -> hwaddr l <> mac (netbuf_copy nb) ->
  exists w' ack, dhcpserver_turn clock (Some nb) w = Done (tt, w') /\ sent w' = sent w ++ [ack] /\
    message_type ack = Some DHCP_ACK /\ yiaddr ack = lease_addr st k /\ mac ack = mac (netbuf_copy nb).
Proof.
  intros Hs Hw Hp Hh Hk Hroom Hv Hl Ha Hne. destruct (wf_netif st Hw) as [i Hi]. pose proof Hw as (_&_&_&Hf&_).
  destruct (slot_is_requested st k) as (A1 & A2 & A3 & A4); [done|lia|lia|].
  assert (Htake : take 4 (lease_addr st k) = lease_addr st k) by (apply take_ge; unfold lease_addr; rewrite length_htonl; lia).
  destruct (turn_request w st nb i (lease_addr st k) k l) as (w' & Ht & (Hs' & Ho & _)); try done; [lia| | |].
  { rewrite Htake. unfold slot_of. lia. }
  { right. by rewrite Hh. }
  rewrite Htake in Ho. eexists w', _. split; [done|]. split; [done|]. split; [by apply ack_type|done].
Qed.

End Contract.

(** ** lwIP's constants, and messages laid out as in RFC 2131 *)

(** A packet's bytes in the zeroed structure. *)
Definition struct_bytes (bs : list Z) : list Z := take 552 ((u8 <$> bs) ++ replicate 552 0).

Definition parse_msg (bs : list Z) : dhcp_msg :=
  let b := struct_bytes bs in
  {| op := as_mem b 0; htype := as_mem b 1; hlen := as_mem b 2; hops := as_mem b 3;
     xid := sub_bytes b 4 4; secs_flags := sub_bytes b 8 4; ciaddr := sub_bytes b 12 4; yiaddr := sub_bytes b 16 4;
     siaddr := sub_bytes b 20 4; giaddr := sub_bytes b 24 4; chaddr := sub_bytes b 28 16;
     sname_file_cookie := sub_bytes b 44 196; options := sub_bytes b 240 312 |}.

#[export] Instance lwip_h : LwipH := {|
  NETIF_MAX_HWADDR_LEN := 6; LWIP_IANA_HWTYPE_ETHERNET := 1; DHCP_BOOTREPLY := 2;
  DHCP_DISCOVER := 1; DHCP_OFFER := 2; DHCP_REQUEST := 3; DHCP_ACK := 5; DHCP_NAK := 6; DHCP_RELEASE := 7;
  DHCP_OPTION_SUBNET_MASK := 1; DHCP_OPTION_ROUTER := 3; DHCP_OPTION_DNS_SERVER := 6; DHCP_OPTION_REQUESTED_IP := 50;
  DHCP_OPTION_LEASE_TIME := 51; DHCP_OPTION_MESSAGE_TYPE := 53; DHCP_OPTION_MESSAGE_TYPE_LEN := 1;
  DHCP_OPTION_SERVER_ID := 54; DHCP_OPTION_END := 255; offsetof_options := 240;
  netbuf := list Z; netbuf_len bs := Z.of_nat (length bs); netbuf_copy := parse_msg
|}.

Lemma length_struct_bytes bs : length (struct_bytes bs) = 552%nat.
Proof. unfold struct_bytes. rewrite length_take, length_app, length_replicate. lia. Qed.

Lemma struct_bytes_byte bs : Forall byteP (struct_bytes bs).
Proof.
  unfold struct_bytes. apply Forall_take, Forall_app. split.
  - apply Forall_fmap, Forall_true. intros x. apply u8_range.
  - apply Forall_replicate. unfold byteP. lia.
Qed.

Lemma sub_struct_wf bs i n :
  0 <= i -> 0 <= n -> i + n <= 552 ->
  length (sub_bytes (struct_bytes bs) i n) = Z.to_nat n /\ Forall byteP (sub_bytes (struct_bytes bs) i n).
Proof.
  intros. unfold sub_bytes. rewrite length_take, length_drop, length_struct_bytes. split; [lia|].
  apply Forall_take, Forall_drop, struct_bytes_byte.
Qed.

#[export] Instance lwip_h_laws : LwipHLaws.
Proof.
  split; try done. intros bs. pose proof (struct_bytes_byte bs).
  unfold msg_wf, DHCP_OPTIONS_LEN. cbn [netbuf_copy lwip_h parse_msg op htype hlen ciaddr yiaddr chaddr options].
  repeat split; try (apply as_mem_byte; done); by apply sub_struct_wf.
Qed.

(** A client's message of type [t] from the hardware address [hw], whose
    length is announced as [n], with a requested address or without. *)
Definition packet (t : Z) (hw : list Z) (n : Z) (req : list Z) : netbuf :=
  [1; 1; n; 0] ++ replicate 24 0 ++ hw ++ replicate (212 - length hw)%nat 0 ++ [53; 1; t] ++
  (if bool_decide (req = []) then [] else [50; 4] ++ req) ++ [255].

Definition client_a : list Z := [10; 11; 12; 13; 14; 15].
Definition client_b : list Z := [20; 21; 22; 23; 24; 25].

Definition eth0 : netif := {| ip_addr := [172; 16; 0; 1]; netmask := [255; 255; 0; 0] |}.

Definition fresh_world : world :=
  {| dhcpserver_task_handle := false; state := None; netif_list := Some eth0; reads := 0; w_alloc := [];
     w_junk := fun k => [1; 2; 3; Z.of_nat k]; sent := []; stations := [] |}.

Definition still_clock : nat -> Z := fun n => 1000 + Z.of_nat n.

(** The server of the examples: three addresses from 172.16.0.2 on. *)
Definition example_state : server_state_t :=
  {| nc := true; max_leases := 3; first_client_addr := [172; 16; 0; 2]; server_if := Some eth0;
     leases := [ {| hwaddr := client_a; active := 1; expires := 361000 |};
                 {| hwaddr := replicate 6 0; active := 0; expires := 0 |};
                 {| hwaddr := replicate 6 0; active := 0; expires := 0 |} ];
     router := [172; 16; 0; 1]; dns := IP4_ADDR_ANY4 |}.

Definition example_world : world := with_state fresh_world (Some example_state).

Lemma ip_wf_check a : bool_decide (length a = 4%nat) && forallb (fun x => (0 <=? x) && (x <? 256)) a = true -> ip_wf a.
Proof.
  intros E. apply andb_prop in E as [E1 E2]. apply bool_decide_eq_true in E1. split; [done|].
  apply Forall_forall. intros x Hx. apply list_elem_of_In in Hx. rewrite forallb_forall in E2. specialize (E2 x Hx). unfold byteP. zbool. lia.
Qed.

Lemma example_state_wf : st_wf example_state.
Proof.
  unfold st_wf, example_state. cbn [max_leases leases first_client_addr router dns server_if].
  split; [lia|]. split; [done|]. split.
  { repeat constructor; unfold byteP; cbn; lia. }
  split; [by apply ip_wf_check|]. split; [by apply ip_wf_check|]. split; [by apply ip_wf_check|].
  exists eth0. split; [done|]. split; by apply ip_wf_check.
Defined.

(** The hypotheses hold for a fresh system. *)
Lemma dhcp_server_survives_witness :
  exists w1 w2 st, dhcpserver_start [172; 16; 0; 2] 3 fresh_world = Done (tt, w1) /\
    dhcpserver_task still_clock [Some (packet 1 client_a 6 []); None; Some [1; 2; 3]] w1 = Done (tt, w2) /\
    state w2 = Some st /\ st_wf st /\ max_leases st = 3 /\ first_client_addr st = [172; 16; 0; 2] /\
    (length (sent w2) <= 0 + 3)%nat.
Proof.
  apply (dhcp_server_survives still_clock fresh_world [172; 16; 0; 2] 3 eth0
    [Some (packet 1 client_a 6 []); None; Some [1; 2; 3]]); try done; try (by apply ip_wf_check).
Defined.

(** The first client holds its lease while the second one asks for it. *)
Lemma dhcp_lease_exclusive_witness :
  exists w' ls out,
    dhcpserver_loop still_clock [Some (packet 1 client_b 6 []); Some (packet 3 client_b 6 [172; 16; 0; 2])] example_world
      = Done (tt, w') /\
    state w' = Some (set_leases example_state ls) /\ holds (set_leases example_state ls) 0 client_a 361000 /\
    sent w' = [] ++ out /\ Forall (fun r => gives (lease_addr example_state 0) r -> mac r = client_a) out.
Proof.
  apply (dhcp_lease_exclusive still_clock example_world example_state 0 client_a 1000 361000); try done.
  - apply example_state_wf.
  - eexists _, 361000. split; [done|]. split; [done|]. split; [done|]. split; [done|]. vm_compute. split; congruence.
  - intros n Hn. unfold still_clock. cbn in Hn. lia.
  - apply Forall_cons. split; [|apply Forall_cons; split; [|by apply Forall_nil]]; split; vm_compute; congruence.
Defined.

Definition discover_b : netbuf := packet 1 client_b 6 [].
Definition steal_b : netbuf := packet 3 client_b 0 [172; 16; 0; 2].

Lemma from_client_check nb t :
  (offsetof_options <=? netbuf_len nb) && bool_decide (message_type (netbuf_copy nb) = Some t) &&
  (htype (netbuf_copy nb) =? LWIP_IANA_HWTYPE_ETHERNET) = true -> from_client nb t.
Proof. intros E. zbool. split; [done|]. split; [by apply bool_decide_eq_true in H1|done]. Qed.

(** The second client discovers a free address. *)
Lemma dhcp_handshake_witness :
  exists w1 offer i, dhcpserver_turn still_clock (Some discover_b) example_world = Done (tt, w1) /\
    sent w1 = sent example_world ++ [offer] /\
    message_type offer = Some DHCP_OFFER /\ chaddr offer = chaddr (netbuf_copy discover_b) /\ server_if example_state = Some i /\
    forall nb2,
      from_client nb2 DHCP_REQUEST -> hlen (netbuf_copy nb2) = 6 -> mac (netbuf_copy nb2) = mac (netbuf_copy discover_b) ->
      option_value (netbuf_copy nb2) DHCP_OPTION_REQUESTED_IP 4 = Some (yiaddr offer) ->
      exists w2 st2 ack k, dhcpserver_turn still_clock (Some nb2) w1 = Done (tt, w2) /\ sent w2 = sent w1 ++ [ack] /\
        message_type ack = Some DHCP_ACK /\ yiaddr ack = yiaddr offer /\ yiaddr ack = lease_addr example_state k /\
        option_value ack DHCP_OPTION_LEASE_TIME 4 = Some (lwip_htonl DHCPSERVER_LEASE_TIME) /\
        option_value ack DHCP_OPTION_SERVER_ID 4 = Some (ip_addr i) /\
        option_value ack DHCP_OPTION_SUBNET_MASK 4 = Some (netmask i) /\
        state w2 = Some st2 /\
        holds st2 k (mac (netbuf_copy discover_b)) (still_clock (S (reads w1)) + DHCPSERVER_LEASE_TIME * configTICK_RATE_HZ).
Proof.
  apply (dhcp_handshake still_clock example_world example_state discover_b).
  - reflexivity.
  - apply example_state_wf.
  - vm_compute. congruence.
  - apply from_client_check. vm_compute. reflexivity.
  - vm_compute. congruence.
  - exists 1. split; [lia|]. eexists. split; [vm_compute; reflexivity|]. left. reflexivity.
Defined.

Lemma dhcp_options_roundtrip_witness :
  exists q opts, (let! opt := add_all 0 [(53, [5]); (54, [1; 2; 3; 4])] in add_dhcp_option_bytes opt DHCP_OPTION_END []) zero_options
      = Done (q, opts) /\
    forall m num minl, options m = opts ->
      option_value m num minl =
        match first_option [(53, [5]); (54, [1; 2; 3; 4])] num with
        | Some v => if Z.of_nat (length v) <? minl then None else Some v
        | None => None
        end.
Proof.
  apply (dhcp_options_roundtrip [(53, [5]); (54, [1; 2; 3; 4])]); [|vm_compute; reflexivity].
  repeat constructor; vm_compute; (congruence || lia).
Defined.

(** The second client takes the first one's address. *)
Lemma dhcp_empty_hwaddr_takes_lease_witness :
  exists w' ack, dhcpserver_turn still_clock (Some steal_b) example_world = Done (tt, w') /\
    sent w' = sent example_world ++ [ack] /\
    message_type ack = Some DHCP_ACK /\ yiaddr ack = lease_addr example_state 0 /\ mac ack = mac (netbuf_copy steal_b).
Proof.
  apply (dhcp_empty_hwaddr_takes_lease still_clock example_world example_state steal_b 0
    {| hwaddr := client_a; active := 1; expires := 361000 |}).
  - reflexivity.
  - apply example_state_wf.
  - apply from_client_check. vm_compute. reflexivity.
  - vm_compute. reflexivity.
  - cbn. lia.
  - vm_compute. congruence.
  - vm_compute. reflexivity.
  - vm_compute. reflexivity.
  - cbn. lia.
  - vm_compute. congruence.
Defined.

(** The second client gets the address of slot 1, releases it, gets that of
    slot 2 and releases it, on a server without leases. *)
Definition two_leases_run : outcome (unit * world) :=
  dhcpserver_loop still_clock
    [Some (packet 3 client_b 6 [172; 16; 0; 3]); Some (packet 7 client_b 6 []);
     Some (packet 3 client_b 6 [172; 16; 0; 4]); Some (packet 7 client_b 6 [])]
    (with_state fresh_world
      (Some (set_leases example_state (replicate 3 {| hwaddr := replicate 6 0; active := 0; expires := 0 |})))).

(** A release can miss its lease.  The search prefers any slot that still
    carries the client's hardware address over its active one: a client that
    gave up one address and got a later one cannot release the later one; its
    lease is still active after the server has handled the RELEASE. *)
Theorem dhcp_release_misses_lease :
  match two_leases_run with
  | Done (_, w) =>
    map message_type (sent w) = [Some DHCP_ACK; Some DHCP_ACK] /\
    match state w with
    | Some st => exists l, leases st !! 2%nat = Some l /\ active l = 1 /\ hwaddr l = client_b
    | None => False
    end
  | _ => False
  end.
Proof. vm_compute. split; [reflexivity|]. eexists. split; [reflexivity|]. split; reflexivity. Qed.
