(* ===== verification/Timekeeping.v ===== *)
(** * The time of day: [extras/timekeeping/timekeeping.c]

    The wall clock is the free running 32-bit microsecond counter plus a
    64-bit offset, which is increased whenever the counter is seen to have
    wrapped.  [adjtime] slews the clock: one microsecond in two thousand until
    the wanted difference is reached.  The value of the counter at each of its
    reads is the parameter [clock], in microseconds since the start. *)

From stdpp Require Import strings.
From S2P Require Import Prelude.
Open Scope Z_scope.

Module Time.

Definition SYSTEM_CLOCK_WRAP_US : Z := 0x100000000.
Definition ADJTIME_SLEW_PERIOD : Z := 2000.
Definition ADJTIME_MAX_SECS_ALLOWED : Z := 2000.
Definition EINVAL : Z := 22.

(** [struct timeval]: 64-bit seconds, 32-bit microseconds. *)
Record timeval := { tv_sec : Z; tv_usec : Z }.

(** [timekeeping_state], the error number of the caller, the depth of the
    lock and the number of reads of the counter. *)
Record state := {
  clock_offset : Z;
  last_system_clock_value : Z;
  adjtime_delta : Z;
  slew_start_time : Z;
  slew_complete_time : Z;
  errno : Z;
  locked : Z;
  reads : nat;
}.

Definition set_offset (s : state) (v : Z) : state :=
  {| clock_offset := v; last_system_clock_value := last_system_clock_value s; adjtime_delta := adjtime_delta s;
     slew_start_time := slew_start_time s; slew_complete_time := slew_complete_time s; errno := errno s;
     locked := locked s; reads := reads s |}.
Definition set_last (s : state) (v : Z) : state :=
  {| clock_offset := clock_offset s; last_system_clock_value := v; adjtime_delta := adjtime_delta s;
     slew_start_time := slew_start_time s; slew_complete_time := slew_complete_time s; errno := errno s;
     locked := locked s; reads := reads s |}.
Definition set_slew (s : state) (delta start complete : Z) : state :=
  {| clock_offset := clock_offset s; last_system_clock_value := last_system_clock_value s; adjtime_delta := delta;
     slew_start_time := start; slew_complete_time := complete; errno := errno s; locked := locked s; reads := reads s |}.
Definition set_errno (s : state) (v : Z) : state :=
  {| clock_offset := clock_offset s; last_system_clock_value := last_system_clock_value s; adjtime_delta := adjtime_delta s;
     slew_start_time := slew_start_time s; slew_complete_time := slew_complete_time s; errno := v;
     locked := locked s; reads := reads s |}.
Definition add_lock (s : state) (d : Z) : state :=
  {| clock_offset := clock_offset s; last_system_clock_value := last_system_clock_value s; adjtime_delta := adjtime_delta s;
     slew_start_time := slew_start_time s; slew_complete_time := slew_complete_time s; errno := errno s;
     locked := locked s + d; reads := reads s |}.
Definition add_read (s : state) : state :=
  {| clock_offset := clock_offset s; last_system_clock_value := last_system_clock_value s; adjtime_delta := adjtime_delta s;
     slew_start_time := slew_start_time s; slew_complete_time := slew_complete_time s; errno := errno s;
     locked := locked s; reads := S (reads s) |}.

(** The result of a signed computation at its width; overflow is undefined. *)
Definition int64 (x : Z) : M state Z :=
  if (- 2 ^ 63 <=? x) && (x <? 2 ^ 63) then ret x else undefined.

Section Time.
Context (clock : nat -> Z).

Definition GET_SYSTEM_CLOCK_US : M state Z := fun s => Done (u32 (clock (reads s)), add_read s).

(** The lock is not recursive. *)
Definition TIMEKEEPING_LOCK : M state unit := fun s =>
  if locked s =? 0 then Done (tt, add_lock s 1) else Undefined.
Definition TIMEKEEPING_UNLOCK : M state unit := modify (fun s => add_lock s (-1)).

Definition SIGNED_ADJTIME_SLEW_PERIOD (s : state) : Z :=
  if adjtime_delta s <? 0 then - ADJTIME_SLEW_PERIOD else ADJTIME_SLEW_PERIOD.

Definition _reset_adjtime_state : M state unit := modify (fun s => set_slew s 0 0 0).

Definition _check_system_clock : M state unit :=
  let! current_system_clock := GET_SYSTEM_CLOCK_US in
  let! s := get in
  do! (if current_system_clock <? last_system_clock_value s then
         let! o := int64 (clock_offset s + SYSTEM_CLOCK_WRAP_US) in
         modify (fun s => set_offset s o)
       else ret tt) then
  do! modify (fun s => set_last s current_system_clock) then
  let! s := get in
  if slew_complete_time s =? 0 then ret tt else
  let! now := GET_SYSTEM_CLOCK_US in
  let! now := int64 (now + clock_offset s) in
  if slew_complete_time s <=? now then
    let! o := int64 (clock_offset s + adjtime_delta s) in
    do! modify (fun s => set_offset s o) then
    _reset_adjtime_state
  else ret tt.

Definition _settimeofday_r (tv : option timeval) : M state Z :=
  let! retval :=
    match tv with
    | Some tv =>
      if (tv_usec tv <? 0) || (1000000 <=? tv_usec tv) || (tv_sec tv <? 0)
      then do! modify (fun s => set_errno s EINVAL) then ret (-1)
      else ret 0
    | None => ret 0
    end in
  do! TIMEKEEPING_LOCK then
  do! _check_system_clock then
  do! match tv with
      | Some tv =>
        if retval =? 0 then
          let! current_system_clock := GET_SYSTEM_CLOCK_US in
          let! p := int64 (tv_sec tv * 1000000) in
          let! desired_internal_clock := int64 (p + tv_usec tv) in
          let! o := int64 (desired_internal_clock - current_system_clock) in
          do! modify (fun s => set_offset s o) then
          _reset_adjtime_state
        else ret tt
      | None => ret tt
      end then
  do! TIMEKEEPING_UNLOCK then
  ret retval.

(** What the clock shows, once the counter has been read and checked. *)
Definition internal_clock (current_system_clock : Z) : M state Z :=
  let! s := get in
  let! system_plus_offset := int64 (current_system_clock + clock_offset s) in
  if slew_complete_time s =? 0 then ret system_plus_offset
  else
    let! d := int64 (system_plus_offset - slew_start_time s) in
    int64 (system_plus_offset + Z.quot d (SIGNED_ADJTIME_SLEW_PERIOD s)).

(** [want] says whether [tv] is not null; the result holds what is stored. *)
Definition _gettimeofday_r (want : bool) : M state (Z * option timeval) :=
  let! current_system_clock := GET_SYSTEM_CLOCK_US in
  do! TIMEKEEPING_LOCK then
  do! _check_system_clock then
  let! tv :=
    (if want then
       let! internal_clock := internal_clock current_system_clock in
       ret (Some {| tv_sec := Z.quot internal_clock 1000000; tv_usec := Z.rem internal_clock 1000000 |})
     else ret None) in
  do! TIMEKEEPING_UNLOCK then
  ret (0, tv).

(** The outstanding part of a slew, for [olddelta]. *)
Definition old_delta (s : state) (system_plus_offset : Z) : M state timeval :=
  if slew_complete_time s =? 0 then ret {| tv_sec := 0; tv_usec := 0 |}
  else
    let! d := int64 (slew_complete_time s - system_plus_offset) in
    let slew := s32 (Z.quot d (SIGNED_ADJTIME_SLEW_PERIOD s)) in
    ret {| tv_sec := Z.quot slew 1000000; tv_usec := Z.rem slew 1000000 |}.

Definition start_slew (delta : timeval) (system_plus_offset : Z) : M state unit :=
  let! p := int64 (tv_sec delta * 1000000) in
  let! d := int64 (p + tv_usec delta) in
  let d := s32 d in
  do! modify (fun s => set_slew s d system_plus_offset (slew_complete_time s)) then
  let! s := get in
  let! dur := int64 (d * SIGNED_ADJTIME_SLEW_PERIOD s) in
  let! c := int64 (system_plus_offset + dur) in
  modify (fun s => set_slew s d system_plus_offset c).

Definition _adjtime_r (delta : option timeval) (want_old : bool) : M state (Z * option timeval) :=
  let! current_system_clock := GET_SYSTEM_CLOCK_US in
  let! retval :=
    match delta with
    | Some d =>
      if (tv_usec d <=? -1000000) || (1000000 <=? tv_usec d)
         || (ADJTIME_MAX_SECS_ALLOWED <? tv_sec d) || (tv_sec d <? - ADJTIME_MAX_SECS_ALLOWED)
      then do! modify (fun s => set_errno s EINVAL) then ret (-1)
      else ret 0
    | None => ret 0
    end in
  do! TIMEKEEPING_LOCK then
  do! _check_system_clock then
  let! old :=
    (if retval =? 0 then
       let! s := get in
       let! system_plus_offset := int64 (current_system_clock + clock_offset s) in
       let! old := (if want_old then let! o := old_delta s system_plus_offset in ret (Some o) else ret None) in
       do! match delta with Some d => start_slew d system_plus_offset | None => ret tt end then
       ret old
     else ret None) in
  do! TIMEKEEPING_UNLOCK then
  ret (retval, old).

Definition settimeofday (tv : option timeval) : M state Z := _settimeofday_r tv.
Definition adjtime (delta : option timeval) (want_old : bool) : M state (Z * option timeval) := _adjtime_r delta want_old.

End Time.
End Time.
