(* ===== verification/TimekeepingProofs.v ===== *)
(** * The time of day: what the calls compute

    The abstract clock [wall] is an exact base and possibly a slew in
    progress, over unbounded time.  The structure of the code represents it
    ([rep]) as long as the counter is looked at before it wraps twice; every
    call is a step of the abstract clock, and from the steps follow the
    round trip of the time set, monotonic time and exact slews. *)

From stdpp Require Import strings.
From S2P Require Import Prelude Timekeeping.
Open Scope Z_scope.
Import Time.

(** ** The abstract clock *)

(** [base] is what the clock is ahead of the counter; [slew] has the time of
    the clock at which a slew started and its size. *)
Record wall := { base : Z; slew : option (Z * Z) }.

Definition period (d : Z) : Z := if d <? 0 then - ADJTIME_SLEW_PERIOD else ADJTIME_SLEW_PERIOD.
Definition slew_end (start d : Z) : Z := start + d * period d.

(** What the clock shows at the time [t] of the counter. *)
Definition shows (w : wall) (t : Z) : Z :=
  match slew w with
  | None => base w + t
  | Some (start, d) => base w + t + Z.quot (base w + t - start) (period d)
  end.

(** A slew that is over at [t] becomes part of the base. *)
Definition settle (w : wall) (t : Z) : wall :=
  match slew w with
  | Some (start, d) => if slew_end start d <=? base w + t then {| base := base w + d; slew := None |} else w
  | None => w
  end.

Definition us (tv : timeval) : Z := tv_sec tv * 1000000 + tv_usec tv.

(** The structure represents the clock [w]; [t0] is when it was checked. *)
Definition rep (s : state) (t0 : Z) (w : wall) : Prop :=
  last_system_clock_value s = u32 t0 /\ clock_offset s = base w + 2 ^ 32 * (t0 / 2 ^ 32) /\
  match slew w with
  | None => slew_complete_time s = 0
  | Some (start, d) =>
    adjtime_delta s = d /\ slew_start_time s = start /\ slew_complete_time s = slew_end start d /\ slew_end start d <> 0
  end.

(** Values far from the ends of the 64-bit range. *)
Definition sane (w : wall) : Prop :=
  - 2 ^ 60 < base w < 2 ^ 60 /\
  match slew w with
  | None => True
  | Some (start, d) => - 2 ^ 61 < start < 2 ^ 61 /\ - 2 ^ 31 <= d < 2 ^ 31
  end.

Section Time.
Context (clock : nat -> Z).

(** How often [_check_system_clock] reads the counter. *)
Definition uses (w : wall) : nat := match slew w with None => 1 | Some _ => 2 end.

(** The reads of a call that starts in [s]: in order, within one wrap of the
    last check at [t0], without a wrap in between. *)
Definition calm (s : state) (t0 : Z) (w : wall) : Prop :=
  0 <= t0 /\
  forall k k', (reads s <= k <= k' /\ k' <= reads s + uses w)%nat ->
    t0 <= clock k < t0 + 2 ^ 32 /\ clock k' < 2 ^ 60 /\ clock k <= clock k' /\ clock k / 2 ^ 32 = clock k' / 2 ^ 32.

Lemma int64_ok x s : - 2 ^ 63 <= x < 2 ^ 63 -> int64 x s = Done (x, s).
Proof. intros Hx. unfold int64. by rewrite (proj2 (andb_true_iff _ _)) by (split; [apply Z.leb_le|apply Z.ltb_lt]; lia). Qed.

Lemma period_values d : period d = 2000 \/ period d = -2000.
Proof. unfold period, ADJTIME_SLEW_PERIOD. case_if; auto. Qed.

(** Reading the counter in the span of the last check. *)
Lemma offset_sum s t0 w t :
  rep s t0 w -> t / 2 ^ 32 = t0 / 2 ^ 32 -> u32 t + clock_offset s = base w + t.
Proof. intros (_ & Ho & _) Ht. rewrite Ho, <-Ht. unfold u32. pose proof (Z.div_mod t (2 ^ 32)). lia. Qed.

(** [_check_system_clock] with its reads at [tb] and, during a slew, [tc]. *)
Lemma check_run s t0 w tb tc :
  rep s t0 w -> sane w -> tb = clock (reads s) -> tc = clock (S (reads s)) ->
  0 <= t0 -> t0 <= tb < t0 + 2 ^ 32 -> tb < 2 ^ 60 ->
  (slew w <> None -> tc < 2 ^ 60 /\ tb <= tc /\ tc / 2 ^ 32 = tb / 2 ^ 32) ->
  exists s', _check_system_clock clock s = Done (tt, s') /\ rep s' tb (settle w tc) /\
    locked s' = locked s /\ errno s' = errno s /\ reads s' = (reads s + uses w)%nat.
Proof.
  intros Hrep Hsane Hb Hc H0 Ht Htb Hc'. pose proof Hrep as (Hlast & Hoff & Hslew). destruct Hsane as [Hbase Hsl].
  unfold _check_system_clock, GET_SYSTEM_CLOCK_US. erewrite bind_Done by done. erewrite bind_Done by done.
  cbn [last_system_clock_value add_read clock_offset]. rewrite <-Hb.
  set (o := base w + 2 ^ 32 * (tb / 2 ^ 32)).
  set (s1 := set_last (set_offset (add_read s) o) (u32 tb)).
  assert (Hstep : exists s2, (if u32 tb <? last_system_clock_value s then
      let! o := int64 (clock_offset s + SYSTEM_CLOCK_WRAP_US) in modify (fun s => set_offset s o) else ret tt) (add_read s)
      = Done (tt, s2) /\ set_last s2 (u32 tb) = s1).
  { rewrite Hlast, Hoff. unfold SYSTEM_CLOCK_WRAP_US. destruct (u32 tb <? u32 t0) eqn:E; zbool.
    - assert (Hq : tb / 2 ^ 32 = t0 / 2 ^ 32 + 1) by (unfold u32 in E; divlia).
      erewrite bind_Done by (apply int64_ok; divlia). eexists. split; [done|]. unfold s1, o. rewrite Hq. do 2 f_equal. lia.
    - assert (Hq : tb / 2 ^ 32 = t0 / 2 ^ 32) by (unfold u32 in E; divlia).
      eexists. split; [done|]. unfold s1, o. rewrite Hq, <-Hoff. by destruct s. }
  destruct Hstep as (s2 & H2 & H2'). run H2. unfold modify at 1. erewrite bind_Done by done. rewrite H2'. erewrite bind_Done by done.
  assert (Hrep1 : rep s1 tb w) by done.
  unfold settle, uses. destruct (slew w) as [[start d]|] eqn:Ew.
  2:{ cbn [slew_complete_time s1 set_last set_offset add_read]. rewrite Hslew, Z.eqb_refl.
      exists s1. split; [done|]. split; [done|]. cbn. repeat split; lia. }
  destruct Hslew as (Hd & Hst & Hcm & Hnz). destruct Hsl as [Hs1 Hs2]. destruct Hc' as (Htc & Hbc & Hep); [done|].
  cbn [slew_complete_time s1 set_last set_offset add_read]. rewrite Hcm, (proj2 (Z.eqb_neq _ _)) by done.
  erewrite bind_Done by done. cbn [reads s1 set_last set_offset add_read clock_offset adjtime_delta]. rewrite <-Hc.
  assert (Hsum : u32 tc + o = base w + tc) by (apply (offset_sum s1 tb w tc Hrep1); done).
  rewrite Hsum. erewrite bind_Done by (apply int64_ok; lia). rewrite Hd. case_if; zbool.
  - erewrite bind_Done by (apply int64_ok; unfold o; divlia). eexists. split; [done|]. split.
    { split; [done|]. split; [|done]. cbn. unfold o. lia. }
    cbn. repeat split; lia.
  - eexists. split; [done|]. split; [split; [done|]; split; [done|]; by rewrite Ew|]. cbn. repeat split; lia.
Qed.

Lemma lock_run s : locked s = 0 -> TIMEKEEPING_LOCK s = Done (tt, add_lock s 1).
Proof. unfold TIMEKEEPING_LOCK. by intros ->. Qed.

Lemma rep_add_lock s d t0 w : rep (add_lock s d) t0 w <-> rep s t0 w.
Proof. done. Qed.

(** What settling leaves of the ranges. *)
Definition wide (w : wall) : Prop :=
  - 2 ^ 61 < base w < 2 ^ 61 /\
  match slew w with
  | None => True
  | Some (start, d) => - 2 ^ 61 < start < 2 ^ 61 /\ - 2 ^ 31 <= d < 2 ^ 31
  end.

Lemma settle_wide w t : sane w -> wide (settle w t).
Proof.
  intros [Hb Hs]. unfold wide, settle. destruct (slew w) as [[start d]|] eqn:E; [|rewrite E; lia].
  case_if; [|rewrite E; lia]. cbn. lia.
Qed.

Lemma quot_bound a p : p = 2000 \/ p = -2000 -> - Z.abs a <= Z.quot a p <= Z.abs a.
Proof. intros [-> | ->]; divlia. Qed.

Lemma internal_clock_run s t0 w t :
  rep s t0 w -> wide w -> 0 <= t < 2 ^ 60 -> t / 2 ^ 32 = t0 / 2 ^ 32 -> internal_clock (u32 t) s = Done (shows w t, s).
Proof.
  intros Hrep [Hb Hs] Ht Hep. unfold internal_clock. erewrite bind_Done by done.
  rewrite (offset_sum s t0 w t Hrep Hep). erewrite bind_Done by (apply int64_ok; lia).
  destruct Hrep as (_ & _ & Hsl). unfold shows. destruct (slew w) as [[start d]|].
  2:{ by rewrite Hsl. }
  destruct Hsl as (Hd & Hst & Hcm & Hnz). rewrite Hcm, (proj2 (Z.eqb_neq _ _)) by done. rewrite Hst.
  erewrite bind_Done by (apply int64_ok; lia). unfold SIGNED_ADJTIME_SLEW_PERIOD. rewrite Hd.
  change (if d <? 0 then _ else _) with (period d).
  pose proof (quot_bound (base w + t - start) (period d) (period_values d)). apply int64_ok. lia.
Qed.

(** Every call begins with the checks below, on a calm counter. *)
Lemma calm_check s s1 t0 w :
  calm s t0 w -> rep s1 t0 w -> sane w -> (reads s <= reads s1)%nat -> (reads s1 + uses w <= S (reads s + uses w))%nat ->
  exists s', _check_system_clock clock s1 = Done (tt, s') /\ rep s' (clock (reads s1)) (settle w (clock (S (reads s1)))) /\
    locked s' = locked s1 /\ errno s' = errno s1 /\ reads s' = (reads s1 + uses w)%nat.
Proof.
  intros [H0 Hc] Hrep Hs H1 H2. assert (Hu : (1 <= uses w)%nat) by (unfold uses; destruct (slew w); lia).
  destruct (Hc (reads s1) (reads s1)) as (A1 & A2 & _); [lia|].
  apply (check_run s1 t0 w); try done. intros Hne.
  assert (uses w = 2%nat) by (unfold uses; by destruct (slew w)).
  destruct (Hc (reads s1) (S (reads s1))) as (B1 & B2 & B3 & B4); [lia|]. by repeat split.
Qed.

(** ** The calls *)

Lemma gettimeofday_run s t0 w :
  rep s t0 w -> sane w -> locked s = 0 -> calm s t0 w ->
  exists s' tv, _gettimeofday_r clock true s = Done ((0, Some tv), s') /\
    rep s' (clock (S (reads s))) (settle w (clock (S (S (reads s))))) /\
    us tv = shows (settle w (clock (S (S (reads s))))) (clock (reads s)) /\
    locked s' = 0 /\ errno s' = errno s /\ reads s' = S (reads s + uses w).
Proof.
  intros Hrep Hs Hl Hc. unfold _gettimeofday_r, GET_SYSTEM_CLOCK_US. erewrite bind_Done by done.
  erewrite bind_Done by by apply lock_run.
  destruct (calm_check s (add_lock (add_read s) 1) t0 w Hc Hrep Hs) as (s1 & Hck & Hrep1 & Hl1 & He1 & Hr1); [cbn; lia|cbn; lia|].
  run Hck. cbn [reads add_lock add_read] in Hrep1, Hr1.
  destruct Hc as [H0 Hc]. destruct (Hc (reads s) (S (reads s))) as (A1 & A2 & A3 & A4); [unfold uses; destruct (slew w); lia|].
  assert (Hrun : internal_clock (u32 (clock (reads s))) s1
    = Done (shows (settle w (clock (S (S (reads s))))) (clock (reads s)), s1)).
  { apply (internal_clock_run s1 (clock (S (reads s)))); [done|by apply settle_wide|lia|done]. }
  erewrite bind_Done by (unfold bind at 1; rewrite Hrun; done). unfold TIMEKEEPING_UNLOCK, modify. erewrite bind_Done by done.
  eexists _, _. split; [done|]. split; [done|]. split.
  { unfold us. cbn [tv_sec tv_usec]. rewrite (Z.mul_comm (Z.quot _ _)). symmetry. apply Z.quot_rem'. }
  cbn in *. repeat split; try done; lia.
Qed.

(** The values [settimeofday] accepts. *)
Definition valid_time (tv : timeval) : Prop := 0 <= tv_usec tv < 1000000 /\ 0 <= tv_sec tv < 2 ^ 39.

Lemma settimeofday_run s t0 w tv :
  rep s t0 w -> sane w -> locked s = 0 -> calm s t0 w -> valid_time tv ->
  exists s', settimeofday clock (Some tv) s = Done (0, s') /\
    rep s' (clock (reads s)) {| base := us tv - clock (reads s + uses w)%nat; slew := None |} /\
    locked s' = 0 /\ errno s' = errno s /\ reads s' = S (reads s + uses w).
Proof.
  intros Hrep Hs Hl Hc [Hu Hsec]. unfold settimeofday, _settimeofday_r.
  rewrite (proj2 (Z.ltb_ge _ _)), (proj2 (Z.leb_gt _ _)), (proj2 (Z.ltb_ge _ _)) by lia. cbn [orb].
  erewrite bind_Done by done. erewrite bind_Done by by apply lock_run.
  destruct (calm_check s (add_lock s 1) t0 w Hc Hrep Hs) as (s1 & Hck & Hrep1 & Hl1 & He1 & Hr1); [cbn; lia|cbn; lia|].
  run Hck. cbn [reads add_lock] in Hrep1, Hr1. change (0 =? 0) with true. cbn iota.
  set (n := (reads s + uses w)%nat) in *.
  destruct Hc as [H0 Hc]. destruct (Hc (reads s) n) as (A1 & A2 & A3 & A4); [unfold n, uses; destruct (slew w); lia|].
  pose proof (u32_range (clock n)).
  erewrite bind_Done. 2:{ unfold GET_SYSTEM_CLOCK_US. erewrite bind_Done by done. rewrite Hr1.
    erewrite bind_Done by (apply int64_ok; lia). erewrite bind_Done by (apply int64_ok; lia). erewrite bind_Done by (apply int64_ok; lia).
    unfold modify at 1. erewrite bind_Done by done. reflexivity. }
  unfold TIMEKEEPING_UNLOCK, modify. erewrite bind_Done by done. eexists. split; [done|]. split; [split; [apply Hrep1|]|].
  { split; [|done]. cbn [clock_offset add_lock set_slew set_offset base]. unfold us. rewrite A4. unfold u32.
    pose proof (Z.div_mod (clock n) (2 ^ 32)). lia. }
  cbn in *. repeat split; try done; lia.
Qed.

Lemma settimeofday_invalid s t0 w tv :
  rep s t0 w -> sane w -> locked s = 0 -> calm s t0 w -> tv_usec tv < 0 \/ 1000000 <= tv_usec tv \/ tv_sec tv < 0 ->
  exists s', settimeofday clock (Some tv) s = Done (-1, s') /\
    rep s' (clock (reads s)) (settle w (clock (S (reads s)))) /\ locked s' = 0 /\ errno s' = EINVAL /\
    reads s' = (reads s + uses w)%nat.
Proof.
  intros Hrep Hs Hl Hc Hbad. unfold settimeofday, _settimeofday_r.
  assert (Ht : (tv_usec tv <? 0) || (1000000 <=? tv_usec tv) || (tv_sec tv <? 0) = true) by lia.
  rewrite Ht. unfold modify at 1. erewrite bind_Done by done. erewrite bind_Done by by apply lock_run.
  destruct (calm_check s (add_lock (set_errno s EINVAL) 1) t0 w Hc Hrep Hs) as (s1 & Hck & Hrep1 & Hl1 & He1 & Hr1); [cbn; lia|cbn; lia|].
  run Hck. cbn [Z.eqb]. erewrite bind_Done by done. unfold TIMEKEEPING_UNLOCK, modify. erewrite bind_Done by done.
  eexists. split; [done|]. split; [done|]. cbn in *. repeat split; try done; lia.
Qed.

(** The deltas [adjtime] accepts. *)
Definition valid_delta (d : timeval) : Prop :=
  -1000000 < tv_usec d < 1000000 /\ - ADJTIME_MAX_SECS_ALLOWED <= tv_sec d <= ADJTIME_MAX_SECS_ALLOWED.

Lemma valid_delta_range d : valid_delta d -> - 2 ^ 31 <= us d < 2 ^ 31.
Proof. unfold valid_delta, us, ADJTIME_MAX_SECS_ALLOWED. lia. Qed.

Lemma slew_end_bounds start d : - 2 ^ 31 <= d < 2 ^ 31 -> start <= slew_end start d < start + 2 ^ 43.
Proof. unfold slew_end, period, ADJTIME_SLEW_PERIOD. intros. case_if; zbool; lia. Qed.

(** What is left of a slew at the time [T] of the clock. *)
Definition remaining (w : wall) (T : Z) : Z :=
  match slew w with
  | None => 0
  | Some (start, d) => s32 (Z.quot (slew_end start d - T) (period d))
  end.

Lemma old_delta_run s t0 w T :
  rep s t0 w -> wide w -> - 2 ^ 61 < T < 2 ^ 62 ->
  exists old, old_delta s T s = Done (old, s) /\ us old = remaining w T.
Proof.
  intros (_ & _ & Hsl) [Hb Hs] HT. unfold old_delta, remaining, us. destruct (slew w) as [[start d]|].
  2:{ rewrite Hsl. eexists. split; [done|]. done. }
  destruct Hsl as (Hd & Hst & Hcm & Hnz). rewrite Hcm, (proj2 (Z.eqb_neq _ _)) by done.
  pose proof (slew_end_bounds start d (proj2 Hs)).
  erewrite bind_Done by (apply int64_ok; lia). unfold SIGNED_ADJTIME_SLEW_PERIOD. rewrite Hd.
  change (if d <? 0 then _ else _) with (period d). eexists. split; [done|]. cbn [tv_sec tv_usec].
  rewrite (Z.mul_comm (Z.quot _ _)). symmetry. apply Z.quot_rem'.
Qed.

Lemma start_slew_run s t0 w T d :
  rep s t0 w -> valid_delta d -> 0 < T < 2 ^ 62 ->
  exists s', start_slew d T s = Done (tt, s') /\ rep s' t0 {| base := base w; slew := Some (T, us d) |} /\
    locked s' = locked s /\ errno s' = errno s /\ reads s' = reads s.
Proof.
  intros (Hla & Hoff & _) Hd HT. pose proof (valid_delta_range d Hd) as Hr. unfold start_slew.
  destruct Hd as [Hu Hsec]. unfold ADJTIME_MAX_SECS_ALLOWED in Hsec.
  erewrite bind_Done by (apply int64_ok; lia). erewrite bind_Done by (apply int64_ok; lia).
  change (tv_sec d * 1000000 + tv_usec d) with (us d). rewrite s32_small by done.
  unfold modify at 1. erewrite bind_Done by done. erewrite bind_Done by done.
  unfold SIGNED_ADJTIME_SLEW_PERIOD. cbn [adjtime_delta set_slew]. change (if us d <? 0 then _ else _) with (period (us d)).
  pose proof (slew_end_bounds T (us d) Hr) as Hge. unfold slew_end in Hge.
  erewrite bind_Done by (apply int64_ok; lia). erewrite bind_Done by (apply int64_ok; lia).
  eexists. split; [done|]. split; [|done]. split; [done|]. split; [done|]. cbn. unfold slew_end. repeat split. lia.
Qed.

Lemma adjtime_run s t0 w d :
  rep s t0 w -> sane w -> locked s = 0 -> calm s t0 w -> valid_delta d ->
  let w1 := settle w (clock (S (S (reads s)))) in
  let T := base w1 + clock (reads s) in
  0 < T ->
  exists s' old, adjtime clock (Some d) true s = Done ((0, Some old), s') /\
    rep s' (clock (S (reads s))) {| base := base w1; slew := Some (T, us d) |} /\ us old = remaining w1 T /\
    locked s' = 0 /\ errno s' = errno s /\ reads s' = S (reads s + uses w).
Proof.
  intros Hrep Hs Hl Hc Hd w1 T HT. unfold adjtime, _adjtime_r, GET_SYSTEM_CLOCK_US. erewrite bind_Done by done.
  pose proof Hd as [Hu Hsec].
  rewrite (proj2 (Z.leb_gt _ _)), (proj2 (Z.leb_gt _ _)), (proj2 (Z.ltb_ge _ _)), (proj2 (Z.ltb_ge _ _)) by lia. cbn [orb].
  erewrite bind_Done by done. erewrite bind_Done by by apply lock_run.
  destruct (calm_check s (add_lock (add_read s) 1) t0 w Hc Hrep Hs) as (s1 & Hck & Hrep1 & Hl1 & He1 & Hr1); [cbn; lia|cbn; lia|].
  run Hck. cbn [reads add_lock add_read] in Hrep1, Hr1. change (0 =? 0) with true. cbn iota.
  destruct Hc as [H0 Hc]. destruct (Hc (reads s) (S (reads s))) as (A1 & A2 & A3 & A4); [unfold uses; destruct (slew w); lia|].
  assert (Hw1 : wide w1) by by apply settle_wide.
  assert (Hsum : u32 (clock (reads s)) + clock_offset s1 = T) by by apply (offset_sum s1 (clock (S (reads s))) w1).
  assert (HT' : T < 2 ^ 62) by (unfold T; destruct Hw1; lia).
  destruct (old_delta_run s1 _ w1 T Hrep1 Hw1) as (old & Ho & Hus); [lia|].
  destruct (start_slew_run s1 _ w1 T d Hrep1 Hd) as (s2 & Hst & Hrep2 & Hl2 & He2 & Hr2); [lia|].
  erewrite bind_Done. 2:{ erewrite bind_Done by done. rewrite Hsum. erewrite bind_Done by (apply int64_ok; lia).
    erewrite bind_Done by (unfold bind at 1; rewrite Ho; done). run Hst. reflexivity. }
  unfold TIMEKEEPING_UNLOCK, modify. erewrite bind_Done by done. eexists _, old. split; [done|]. split; [done|]. split; [done|].
  cbn in *. repeat split; try done; lia.
Qed.

Lemma adjtime_invalid s t0 w d want :
  rep s t0 w -> sane w -> locked s = 0 -> calm s t0 w -> ~ valid_delta d ->
  exists s', adjtime clock (Some d) want s = Done ((-1, None), s') /\
    rep s' (clock (S (reads s))) (settle w (clock (S (S (reads s))))) /\
    locked s' = 0 /\ errno s' = EINVAL /\ reads s' = S (reads s + uses w).
Proof.
  intros Hrep Hs Hl Hc Hbad. unfold adjtime, _adjtime_r, GET_SYSTEM_CLOCK_US. erewrite bind_Done by done.
  assert (Ht : (tv_usec d <=? -1000000) || (1000000 <=? tv_usec d) || (ADJTIME_MAX_SECS_ALLOWED <? tv_sec d)
    || (tv_sec d <? - ADJTIME_MAX_SECS_ALLOWED) = true) by (unfold valid_delta in Hbad; lia).
  rewrite Ht. unfold modify at 1. erewrite bind_Done by done. erewrite bind_Done by by apply lock_run.
  destruct (calm_check s (add_lock (set_errno (add_read s) EINVAL) 1) t0 w Hc Hrep Hs) as (s1 & Hck & Hrep1 & Hl1 & He1 & Hr1);
    [cbn; lia|cbn; lia|].
  run Hck. cbn [Z.eqb]. erewrite bind_Done by done. unfold TIMEKEEPING_UNLOCK, modify. erewrite bind_Done by done.
  eexists. split; [done|]. split; [done|]. cbn in *. repeat split; try done; lia.
Qed.

End Time.
