(* ===== verification/TimekeepingContract.v ===== *)
(** * The contract of the time of day

    Every call refines the abstract clock; the time set is the time shown,
    over any number of wraps of the counter; time does not run backwards
    between two readings, slews included; a slew ends with exactly its size.
    And what goes wrong: a wrap within a call, and a second [adjtime]. *)

From stdpp Require Import strings.
From S2P Require Import Prelude Timekeeping TimekeepingProofs.
Open Scope Z_scope.
Import Time.

(** ** Calls and what they do to the abstract clock *)

Inductive call :=
| Get
| SetTime (tv : timeval)
| Adjust (delta : timeval).

Definition run_call (clock : nat -> Z) (c : call) : M state (Z * option timeval) :=
  match c with
  | Get => _gettimeofday_r clock true
  | SetTime tv => let! r := settimeofday clock (Some tv) in ret (r, None)
  | Adjust d => adjtime clock (Some d) true
  end.

(** [spec w c ts w' r v e]: with its reads of the counter at [ts 0], [ts 1],
    .., the call [c] turns the clock [w] into [w'], returns [r], stores the
    time [v] for the caller and sets the error number [e]. *)
Inductive spec (w : wall) (ts : nat -> Z) : call -> wall -> Z -> option Z -> option Z -> Prop :=
| spec_get : spec w ts Get (settle w (ts 2%nat)) 0 (Some (shows (settle w (ts 2%nat)) (ts 0%nat))) None
| spec_set tv : valid_time tv -> spec w ts (SetTime tv) {| base := us tv - ts (uses w); slew := None |} 0 None None
| spec_set_bad tv :
    tv_usec tv < 0 \/ 1000000 <= tv_usec tv \/ tv_sec tv < 0 ->
    spec w ts (SetTime tv) (settle w (ts 1%nat)) (-1) None (Some EINVAL)
| spec_adjust d :
    valid_delta d ->
    let w1 := settle w (ts 2%nat) in
    let T := base w1 + ts 0%nat in
    spec w ts (Adjust d) {| base := base w1; slew := Some (T, us d) |} 0 (Some (remaining w1 T)) None
| spec_adjust_bad d :
    ~ valid_delta d -> spec w ts (Adjust d) (settle w (ts 2%nat)) (-1) None (Some EINVAL).

(** Arguments within range, and for a slew a clock after its epoch. *)
Definition call_ok (w : wall) (ts : nat -> Z) (c : call) : Prop :=
  match c with
  | Get => True
  | SetTime tv => tv_sec tv < 2 ^ 39
  | Adjust d => 0 < base (settle w (ts 2%nat)) + ts 0%nat
  end.

Section Contract.
Context (clock : nat -> Z).

(** C20. Every call refines the abstract clock.  From a state that represents
    a clock, with the counter read in order, within one wrap of the last look
    at it and not wrapping during the call ([timekeeping_wrap_race] shows what
    a wrap there does), each of the three calls returns what the abstract clock
    says (errors included), leaves a state that represents the abstract clock
    after the call, and gives the lock back. *)
Theorem timekeeping_call_refines (s : state) (t0 : Z) (w : wall) (c : call) :
  rep s t0 w -> sane w -> locked s = 0 -> calm clock s t0 w ->
  call_ok w (fun k => clock (reads s + k)%nat) c ->
  exists s' r tv w' t' e, run_call clock c s = Done ((r, tv), s') /\ rep s' t' w' /\
    spec w (fun k => clock (reads s + k)%nat) c w' r (us <$> tv) e /\
    t0 <= t' /\ locked s' = 0 /\ errno s' = default (errno s) e.
Proof.
  intros Hrep Hs Hl Hc Hok. set (ts := fun k => clock (reads s + k)%nat) in *.
  assert (E0 : clock (reads s) = ts 0%nat) by (unfold ts; f_equal; lia).
  assert (E1 : clock (S (reads s)) = ts 1%nat) by (unfold ts; f_equal; lia).
  assert (E2 : clock (S (S (reads s))) = ts 2%nat) by (unfold ts; f_equal; lia).
  assert (Ht : t0 <= ts 0%nat /\ t0 <= ts 1%nat).
  { destruct Hc as [_ Hc]. assert (1 <= uses w)%nat by (unfold uses; destruct (slew w); lia). rewrite <-E0, <-E1.
    destruct (Hc (reads s) (reads s)) as (? & _); [lia|]. destruct (Hc (S (reads s)) (S (reads s))) as (? & _); [lia|]. lia. }
  destruct c as [|tv|d]; cbn [run_call call_ok] in *.
  - destruct (gettimeofday_run clock s t0 w Hrep Hs Hl Hc) as (s' & tv & Hrun & Hrep' & Hus & Hl' & He & _).
    rewrite E0, E1, E2 in *. eexists s', 0, (Some tv), _, _, None. split; [done|]. split; [done|].
    cbn. rewrite Hus. split; [constructor|]. by destruct Ht.
  - destruct (decide (tv_usec tv < 0 \/ 1000000 <= tv_usec tv \/ tv_sec tv < 0)) as [Hbad|Hgood].
    + destruct (settimeofday_invalid clock s t0 w tv Hrep Hs Hl Hc Hbad) as (s' & Hrun & Hrep' & Hl' & He & _).
      rewrite E0, E1 in *. eexists s', (-1), None, _, _, (Some EINVAL). split; [by run Hrun|]. split; [done|].
      split; [by constructor|]. by destruct Ht.
    + assert (Hv : valid_time tv) by (unfold valid_time; lia).
      destruct (settimeofday_run clock s t0 w tv Hrep Hs Hl Hc Hv) as (s' & Hrun & Hrep' & Hl' & He & _).
      rewrite E0 in *. eexists s', 0, None, _, _, None. split; [by run Hrun|]. split; [done|].
      split; [by apply (spec_set w ts)|]. by destruct Ht.
  - rewrite <-E0, <-E2 in Hok.
    assert (Hdec : valid_delta d \/ ~ valid_delta d) by (unfold valid_delta; lia). destruct Hdec as [Hv|Hv].
    + destruct (adjtime_run clock s t0 w d Hrep Hs Hl Hc Hv Hok) as (s' & old & Hrun & Hrep' & Hus & Hl' & He & _).
      rewrite E0, E1, E2 in *. eexists s', 0, (Some old), _, _, None. split; [done|]. split; [done|].
      cbn. rewrite Hus. split; [by apply (spec_adjust w ts)|]. by destruct Ht.
    + destruct (adjtime_invalid clock s t0 w d true Hrep Hs Hl Hc Hv) as (s' & Hrun & Hrep' & Hl' & He & _).
      rewrite E1, E2 in *. eexists s', (-1), None, _, _, (Some EINVAL). split; [done|]. split; [done|].
      split; [by constructor|]. by destruct Ht.
Qed.

(** ** The time set is the time shown *)

(** [n] readings one after the other. *)
Fixpoint readings (n : nat) : M state (list Z) :=
  match n with
  | O => ret []
  | S n =>
    let! (_, tv) := _gettimeofday_r clock true in
    let! l := readings n in
    ret (match tv with Some tv => us tv :: l | None => l end)
  end.

(** The counter is read in order from the [j]-th read on, and any three
    reads in a row lie within one wrap. *)
Definition watched (j : nat) : Prop :=
  0 <= clock j /\
  forall k, (j <= k)%nat -> clock k <= clock (S k) /\ clock (S (S k)) < clock k + 2 ^ 32.

Lemma readings_run n s t0 b :
  rep s t0 {| base := b; slew := None |} -> - 2 ^ 60 < b < 2 ^ 60 -> locked s = 0 ->
  0 <= t0 <= clock (reads s) -> clock (S (reads s)) < t0 + 2 ^ 32 -> watched (reads s) ->
  (forall i, (i < n)%nat ->
     clock (S (reads s + 2 * i)) < 2 ^ 60 /\ clock (reads s + 2 * i)%nat / 2 ^ 32 = clock (S (reads s + 2 * i)) / 2 ^ 32) ->
  exists s', readings n s = Done ((fun i => b + clock (reads s + 2 * i)%nat) <$> seq 0 n, s').
Proof.
  revert s t0. induction n as [|n IH]; intros s t0 Hrep Hb Hl H0 H1 [Hw0 Hw] Hi; [by eexists|].
  destruct (Hi 0%nat) as [Hmax Hep]; [lia|]. rewrite Nat.add_0_r in Hmax, Hep.
  destruct (Hw (reads s)) as [Hm1 Hm2]; [lia|].
  assert (Hcalm : calm clock s t0 {| base := b; slew := None |}).
  { split; [lia|]. cbn [uses slew]. intros k k' Hk. assert (k = reads s \/ k = S (reads s)) as [-> | ->] by lia;
      (assert (k' = reads s \/ k' = S (reads s)) as [-> | ->] by lia); lia. }
  destruct (gettimeofday_run clock s t0 _ Hrep) as (s1 & tv & Hrun & Hrep1 & Hus & Hl1 & _ & Hr1); [by split|done|done|].
  cbn [readings]. run Hrun. cbn [settle slew shows base uses] in Hrep1, Hus, Hr1.
  assert (Hr : reads s1 = S (S (reads s))) by lia.
  destruct (IH s1 (clock (S (reads s)))) as (s2 & H2); try done; try (rewrite Hr).
  - destruct (Hw (S (reads s))); lia.
  - apply Hw. lia.
  - split; [destruct (Hw (S (reads s))); lia|]. intros k Hk. apply Hw. lia.
  - intros i Hlt. destruct (Hi (S i)) as [A B]; [lia|].
    by replace (reads s + 2 * S i)%nat with (S (S (reads s)) + 2 * i)%nat in A, B by lia.
  - run H2. exists s2. unfold ret. rewrite Hus. do 2 f_equal. cbn [seq fmap list_fmap]. f_equal; [by rewrite Nat.add_0_r|].
    rewrite <-fmap_S_seq, <-list_fmap_compose. apply list_fmap_ext. intros i x _. cbn [compose]. do 2 f_equal. lia.
Qed.

(** The time set is the time shown.  After [settimeofday] with a valid
    time, any number of readings show that time plus the time that has passed
    on the counter since it was set, across any number of wraps of the 32-bit
    counter, as long as no three of its reads in a row are further apart than
    a wrap and none falls between the two reads of a call. *)
Theorem timekeeping_set_get (s : state) (t0 : Z) (w : wall) (tv : timeval) (n : nat) :
  let j := (reads s + uses w)%nat in
  rep s t0 w -> sane w -> locked s = 0 -> calm clock s t0 w -> valid_time tv ->
  watched (reads s) -> clock (S (S j)) < clock (reads s) + 2 ^ 32 ->
  (forall i, (i < n)%nat ->
     clock (S (S j + 2 * i)) < 2 ^ 60 /\ clock (S j + 2 * i)%nat / 2 ^ 32 = clock (S (S j + 2 * i)) / 2 ^ 32) ->
  exists s1 s2, settimeofday clock (Some tv) s = Done (0, s1) /\
    readings n s1 = Done ((fun i => us tv + (clock (S j + 2 * i)%nat - clock j)) <$> seq 0 n, s2).
Proof.
  intros j Hrep Hs Hl Hc Hv [Hw0 Hw] Hj Hi.
  destruct (settimeofday_run clock s t0 w tv Hrep Hs Hl Hc Hv) as (s1 & Hrun & Hrep1 & Hl1 & _ & Hr1).
  fold j in Hrep1, Hr1. assert (Hu : (1 <= uses w)%nat) by (unfold uses; destruct (slew w); lia).
  assert (Hcj : 0 <= t0 <= clock (reads s) /\ clock (reads s) <= clock j < 2 ^ 60).
  { destruct Hc as [? Hc]. destruct (Hc (reads s) j) as (? & ? & ? & _); [unfold j; lia|]. lia. }
  pose proof (Hw j ltac:(unfold j; lia)) as [Hwj _].
  destruct (readings_run n s1 (clock (reads s)) (us tv - clock j)) as (s2 & H2); try done; rewrite ?Hr1; try done.
  - destruct Hv. unfold us. lia.
  - lia.
  - split; [lia|]. intros k Hk. apply Hw. unfold j in *. lia.
  - exists s1, s2. split; [done|]. rewrite H2. do 2 f_equal. rewrite Hr1. apply list_fmap_ext. intros i x _. lia.
Qed.

(** ** Slews *)

(** The clock of two readings in a row. *)
Lemma shows_mono w t1 c1 t2 c2 :
  (forall start d, slew w = Some (start, d) -> start <= base w + t1) ->
  t1 <= c1 -> t1 < t2 -> c1 <= t2 -> t2 <= c2 < t2 + 2000 ->
  shows (settle w c1) t1 <= shows (settle (settle w c1) c2) t2.
Proof.
  intros Hst H1 H2 H3 H4. unfold settle at 1 3. destruct (slew w) as [[start d]|] eqn:Ew.
  2:{ unfold settle. rewrite Ew. unfold shows. rewrite Ew. lia. }
  specialize (Hst start d eq_refl). destruct (slew_end start d <=? base w + c1) eqn:E1; zbool.
  { unfold settle, shows. cbn. lia. }
  unfold settle, shows. rewrite Ew. destruct (slew_end start d <=? base w + c2) eqn:E2; zbool; cbn [slew base]; rewrite ?Ew;
    unfold slew_end, period, ADJTIME_SLEW_PERIOD in *; destruct (d <? 0) eqn:Ed; zbool; divlia.
Qed.

Lemma settle_sane w t : sane w -> - 2 ^ 59 < base w < 2 ^ 59 -> sane (settle w t).
Proof.
  intros [Hb Hs] Hb'. unfold settle. destruct (slew w) as [[start d]|] eqn:E; [|by split; rewrite ?E].
  case_if; [|split; [lia|by rewrite E]]. split; cbn; lia.
Qed.

Lemma mono_le j : (forall k, (j <= k)%nat -> clock k <= clock (S k)) -> forall k k', (j <= k <= k')%nat -> clock k <= clock k'.
Proof.
  intros H k k' [Hj Hk]. induction Hk as [|k' Hk IH]; [lia|]. specialize (H k' ltac:(lia)). lia.
Qed.

(** Time does not run backwards.  Of two readings in a row, at least a
    microsecond apart, each on a calm counter and the second done within two
    milliseconds, the second is not earlier than the first, whether a slew of either sign is in progress, ends between
    them or ends during one of the calls. *)
Theorem timekeeping_monotonic (s : state) (t0 : Z) (w : wall) :
  rep s t0 w -> sane w -> - 2 ^ 59 < base w < 2 ^ 59 -> locked s = 0 -> calm clock s t0 w ->
  (forall k, (reads s <= k)%nat -> clock k <= clock (S k)) ->
  (forall start d, slew w = Some (start, d) -> start <= base w + clock (reads s)) ->
  exists s1 tv1, _gettimeofday_r clock true s = Done ((0, Some tv1), s1) /\
    (calm clock s1 (clock (S (reads s))) (settle w (clock (S (S (reads s))))) -> clock (reads s) < clock (reads s1) ->
     clock (S (S (reads s1))) < clock (reads s1) + 2000 ->
     exists s2 tv2, _gettimeofday_r clock true s1 = Done ((0, Some tv2), s2) /\ us tv1 <= us tv2).
Proof.
  intros Hrep Hs Hb Hl Hc Hmono Hst.
  destruct (gettimeofday_run clock s t0 w Hrep Hs Hl Hc) as (s1 & tv1 & Hrun & Hrep1 & Hus & Hl1 & _ & Hr1).
  exists s1, tv1. split; [done|]. intros Hc1 Hlt Hshort.
  destruct (gettimeofday_run clock s1 _ _ Hrep1 (settle_sane _ _ Hs Hb) Hl1 Hc1) as (s2 & tv2 & Hrun2 & _ & Hus2 & _).
  exists s2, tv2. split; [done|]. rewrite Hus, Hus2.
  pose proof (mono_le (reads s) Hmono) as Hm. apply shows_mono; [done|apply Hm; lia|done| |split; [apply Hm; lia|done]].
  apply Hm. rewrite Hr1. unfold uses. destruct (slew w); lia.
Qed.

(** A slew ends with exactly its size.  After [adjtime] with a valid
    delta on a clock without a slew, a later reading is between the unchanged
    time and the time with the delta added; once two thousand times the delta
    have passed it is exactly the delta more. *)
Theorem timekeeping_slew_exact (s : state) (t0 : Z) (b : Z) (d : timeval) :
  let w := {| base := b; slew := None |} in
  rep s t0 w -> - 2 ^ 59 < b < 2 ^ 59 -> locked s = 0 -> calm clock s t0 w -> valid_delta d -> 0 < b + clock (reads s) ->
  (forall k, (reads s <= k)%nat -> clock k <= clock (S k)) ->
  exists s1 old, adjtime clock (Some d) true s = Done ((0, Some old), s1) /\ us old = 0 /\
    (calm clock s1 (clock (S (reads s))) {| base := b; slew := Some (b + clock (reads s), us d) |} ->
     exists s2 tv, _gettimeofday_r clock true s1 = Done ((0, Some tv), s2) /\
       let t := clock (reads s1) in
       (0 <= us d -> b + t <= us tv <= b + t + us d) /\ (us d <= 0 -> b + t + us d <= us tv <= b + t) /\
       (clock (reads s) + 2000 * Z.abs (us d) <= t -> us tv = b + t + us d)).
Proof.
  intros w Hrep Hb Hl Hc Hd HT Hmono.
  assert (Hs : sane w) by (split; [cbn; lia|done]).
  destruct (adjtime_run clock s t0 w d Hrep Hs Hl Hc Hd HT) as (s1 & old & Hrun & Hrep1 & Hold & Hl1 & _ & Hr1).
  cbn in Hold, Hrep1. exists s1, old. split; [done|]. split; [done|]. intros Hc1. pose proof (valid_delta_range d Hd) as Hrange.
  assert (Hct : clock (reads s) < 2 ^ 60) by (destruct Hc as [_ Hc]; destruct (Hc (reads s) (reads s)) as (_ & ? & _); [lia|done]).
  edestruct (gettimeofday_run clock s1 _ _ Hrep1) as (s2 & tv & Hrun2 & _ & Hus & _); [|done|done|].
  { split; [cbn; lia|]. cbn. lia. }
  exists s2, tv. split; [done|]. cbv zeta. rewrite Hus.
  pose proof (mono_le (reads s) Hmono) as Hm. set (t := clock (reads s1)). set (c := clock (S (S (reads s1)))).
  assert (Hle : clock (reads s) <= t) by (apply Hm; rewrite Hr1; lia).
  assert (Hle2 : t <= c) by (apply Hm; lia).
  unfold settle, shows. cbn [slew base]. destruct (slew_end (b + clock (reads s)) (us d) <=? b + c) eqn:E; zbool; cbn [slew base];
    unfold slew_end, period, ADJTIME_SLEW_PERIOD in *; destruct (us d <? 0) eqn:Ed; zbool; divlia.
Qed.

(** ** What goes wrong *)

(** A wrap inside a reading.  When the counter wraps between the read
    that is shown and the check that follows it, [gettimeofday] is 2^32
    microseconds (71 minutes) ahead. *)
Theorem timekeeping_wrap_race (s : state) (t0 b : Z) :
  rep s t0 {| base := b; slew := None |} -> - 2 ^ 60 < b < 2 ^ 60 -> locked s = 0 ->
  0 <= t0 <= clock (reads s) -> clock (reads s) < clock (S (reads s)) < t0 + 2 ^ 32 -> clock (S (reads s)) < 2 ^ 60 ->
  clock (reads s) / 2 ^ 32 = t0 / 2 ^ 32 -> clock (S (reads s)) / 2 ^ 32 = t0 / 2 ^ 32 + 1 ->
  exists s' tv, _gettimeofday_r clock true s = Done ((0, Some tv), s') /\ us tv = b + clock (reads s) + 2 ^ 32.
Proof.
  intros Hrep Hb Hl H0 H1 Hmax E1 E2. unfold _gettimeofday_r, GET_SYSTEM_CLOCK_US. erewrite bind_Done by done.
  erewrite bind_Done by by apply lock_run.
  destruct (check_run clock (add_lock (add_read s) 1) t0 {| base := b; slew := None |} (clock (S (reads s))) (clock (S (S (reads s)))))
    as (s1 & Hck & (_ & Hoff & Hz) & _); try done; [lia|lia|].
  run Hck. cbn in Hoff, Hz.
  assert (Hrun : internal_clock (u32 (clock (reads s))) s1 = Done (b + clock (reads s) + 2 ^ 32, s1)).
  { unfold internal_clock. erewrite bind_Done by done. rewrite Hoff, E2, <-E1.
    replace (u32 (clock (reads s)) + (b + 2 ^ 32 * (clock (reads s) / 2 ^ 32 + 1))) with (b + clock (reads s) + 2 ^ 32)
      by (unfold u32; pose proof (Z.div_mod (clock (reads s)) (2 ^ 32)); lia).
    erewrite bind_Done by (apply int64_ok; lia). by rewrite Hz. }
  erewrite bind_Done by (unfold bind at 1; rewrite Hrun; done).
  unfold TIMEKEEPING_UNLOCK, modify. erewrite bind_Done by done. eexists _, _. split; [done|].
  unfold us. cbn [tv_sec tv_usec]. rewrite (Z.mul_comm (Z.quot _ _)). symmetry. apply Z.quot_rem'.
Qed.

End Contract.

(** ** Concrete runs *)

Definition boot : state :=
  {| clock_offset := 0; last_system_clock_value := 0; adjtime_delta := 0; slew_start_time := 0; slew_complete_time := 0;
     errno := 0; locked := 0; reads := 0 |}.
Definition fresh : wall := {| base := 0; slew := None |}.

(** A counter with a microsecond from read to read, and one with an hour. *)
Definition fast (n : nat) : Z := 5 + Z.of_nat n.
Definition hourly (n : nat) : Z := 3600000000 * (Z.of_nat n / 2).

Lemma boot_rep : rep boot 0 fresh.
Proof. split; [done|]. split; done. Defined.

Lemma fresh_sane : sane fresh.
Proof. split; [cbn; lia|exact I]. Defined.

Lemma boot_calm : calm fast boot 0 fresh.
Proof. split; [lia|]. unfold fast. cbn. intros k k' Hk. rewrite !Z.div_small by lia. lia. Defined.

(** An [adjtime] of half a second right after the start. *)
Lemma timekeeping_call_refines_witness :
  exists s' r tv w' t' e, run_call fast (Adjust {| tv_sec := 0; tv_usec := 500000 |}) boot = Done ((r, tv), s') /\ rep s' t' w' /\
    spec fresh (fun k => fast (0 + k)%nat) (Adjust {| tv_sec := 0; tv_usec := 500000 |}) w' r (us <$> tv) e /\
    0 <= t' /\ locked s' = 0 /\ errno s' = default (errno boot) e.
Proof.
  apply (timekeeping_call_refines fast boot 0 fresh (Adjust {| tv_sec := 0; tv_usec := 500000 |}) boot_rep fresh_sane).
  - reflexivity.
  - exact boot_calm.
  - vm_compute. reflexivity.
Defined.

(** Ten readings an hour apart, with a wrap of the counter between most. *)
Lemma timekeeping_set_get_witness :
  exists s1 s2, settimeofday hourly (Some {| tv_sec := 1518798027; tv_usec := 0 |}) boot = Done (0, s1) /\
    readings hourly 10 s1
      = Done ((fun i => 1518798027000000 + (hourly (2 + 2 * i)%nat - hourly 1)) <$> seq 0 10, s2).
Proof.
  apply (timekeeping_set_get hourly boot 0 fresh {| tv_sec := 1518798027; tv_usec := 0 |} 10 boot_rep fresh_sane).
  - reflexivity.
  - split; [lia|]. cbn. intros k k' Hk. assert (k = 0%nat \/ k = 1%nat) as [-> | ->] by lia;
      (assert (k' = 0%nat \/ k' = 1%nat) as [-> | ->] by lia); vm_compute; repeat split; congruence.
  - split; cbn; lia.
  - split; [vm_compute; congruence|]. intros k _. unfold hourly. split; divlia.
  - vm_compute. reflexivity.
  - intros i Hi. do 10 (destruct i as [|i]; [vm_compute; split; reflexivity|]). lia.
Defined.

(** A negative slew in progress. *)
Definition slewing : state :=
  {| clock_offset := 0; last_system_clock_value := 5; adjtime_delta := -500000; slew_start_time := 3;
     slew_complete_time := 1000000003; errno := 0; locked := 0; reads := 0 |}.
Definition slewing_wall : wall := {| base := 0; slew := Some (3, -500000) |}.

Lemma timekeeping_monotonic_witness :
  exists s1 tv1, _gettimeofday_r fast true slewing = Done ((0, Some tv1), s1) /\
    (calm fast s1 (fast 1) (settle slewing_wall (fast 2)) -> fast 0 < fast (reads s1) ->
     fast (S (S (reads s1))) < fast (reads s1) + 2000 ->
     exists s2 tv2, _gettimeofday_r fast true s1 = Done ((0, Some tv2), s2) /\ us tv1 <= us tv2).
Proof.
  apply (timekeeping_monotonic fast slewing 5 slewing_wall).
  - split; [reflexivity|]. split; [reflexivity|]. vm_compute. repeat split; congruence.
  - split; cbn; lia.
  - cbn. lia.
  - reflexivity.
  - split; [lia|]. unfold fast. cbn. intros k k' Hk. rewrite !Z.div_small by lia. lia.
  - intros k _. unfold fast. lia.
  - intros start d [= <- <-]. vm_compute. congruence.
Defined.

Lemma timekeeping_slew_exact_witness :
  exists s1 old, adjtime fast (Some {| tv_sec := 0; tv_usec := 500000 |}) true boot = Done ((0, Some old), s1) /\ us old = 0 /\
    (calm fast s1 (fast 1) {| base := 0; slew := Some (0 + fast 0, 500000) |} ->
     exists s2 tv, _gettimeofday_r fast true s1 = Done ((0, Some tv), s2) /\
       let t := fast (reads s1) in
       (0 <= 500000 -> 0 + t <= us tv <= 0 + t + 500000) /\ (500000 <= 0 -> 0 + t + 500000 <= us tv <= 0 + t) /\
       (fast 0 + 2000 * Z.abs 500000 <= t -> us tv = 0 + t + 500000)).
Proof.
  apply (timekeeping_slew_exact fast boot 0 0 {| tv_sec := 0; tv_usec := 500000 |}).
  - exact boot_rep.
  - lia.
  - reflexivity.
  - exact boot_calm.
  - split; vm_compute; split; congruence.
  - vm_compute. reflexivity.
  - intros k _. unfold fast. lia.
Defined.

(** The counter at its last value and just after it. *)
Definition wrapping (n : nat) : Z := 4294967295 + Z.of_nat n.
Definition before_wrap : state :=
  {| clock_offset := 0; last_system_clock_value := 4294967295; adjtime_delta := 0; slew_start_time := 0; slew_complete_time := 0;
     errno := 0; locked := 0; reads := 0 |}.

Lemma timekeeping_wrap_race_witness :
  exists s' tv, _gettimeofday_r wrapping true before_wrap = Done ((0, Some tv), s') /\ us tv = 0 + 4294967295 + 2 ^ 32.
Proof.
  apply (timekeeping_wrap_race wrapping before_wrap 4294967295 0).
  - split; [reflexivity|]. split; reflexivity.
  - lia.
  - reflexivity.
  - vm_compute. split; congruence.
  - vm_compute. split; reflexivity.
  - vm_compute. reflexivity.
  - reflexivity.
  - reflexivity.
Defined.

(** A second [adjtime]: a slew of a second is started, the time read a
    thousand seconds later, the same slew requested again and the time read. *)
Definition second_adjtime_clock (n : nat) : Z :=
  if (n <? 4)%nat then 100 else if (n <? 7)%nat then 1000000100 else if (n <? 10)%nat then 1000000200 else 1000000300.

Definition second_adjtime_run : outcome (list Z * state) :=
  (do! settimeofday second_adjtime_clock (Some {| tv_sec := 1518798027; tv_usec := 0 |}) then
   do! adjtime second_adjtime_clock (Some {| tv_sec := 1; tv_usec := 0 |}) false then
   let! before := readings second_adjtime_clock 1 in
   do! adjtime second_adjtime_clock (Some {| tv_sec := 1; tv_usec := 0 |}) false then
   let! after := readings second_adjtime_clock 1 in
   ret (before ++ after)) boot.

(** A second slew steps the clock back.  [adjtime] during a slew starts
    the new slew from the unslewed time: what the old slew has added so far is
    lost.  Half way through a slew of one second, the reading two hundred
    microseconds later is almost half a second earlier. *)
Theorem timekeeping_second_adjtime_steps_back :
  match second_adjtime_run with
  | Done ([before; after], _) => before - after = 499800
  | _ => False
  end.
Proof. vm_compute. reflexivity. Qed.
