(* ===== verification/Mdns.v ===== *)
(** * The multicast DNS responder: [extras/mdnsresponder/mdnsresponder.c]

    A list of resource records, built by the program, and a callback that
    answers the questions of a received packet from it.  A pointer to a record
    is its position in the list; a pointer into a packet is an offset.  The
    buffers a reply is built in, and the string a question is unpacked to, are
    memory with arbitrary first contents.  lwIP's constants are the class
    [DnsH]. *)

From stdpp Require Import strings.
From S2P Require Import Prelude CStrings.
Open Scope Z_scope.

(** Numbers of [lwip/prot/dns.h], and whether lwIP is built with IPv6
    ([lwipopts.h] leaves it out unless the build says otherwise). *)
Class DnsH := {
  DNS_RRTYPE_A : Z;
  DNS_RRTYPE_PTR : Z;
  DNS_RRTYPE_TXT : Z;
  DNS_RRCLASS_IN : Z;
  LWIP_IPV6 : bool;
}.

(** The numbers of RFC 1035. *)
Class DnsHLaws `{!DnsH} := {
  dns_numbers : [DNS_RRTYPE_A; DNS_RRTYPE_PTR; DNS_RRTYPE_TXT; DNS_RRCLASS_IN] = [1; 12; 16; 1];
}.

Module Mdns.

Definition SIZEOF_DNS_HDR : Z := 12.
Definition SIZEOF_DNS_QUERY : Z := 4.
Definition SIZEOF_DNS_ANSWER : Z := 10.
Definition SIZEOF_DNS_RR_SRV : Z := 6.
Definition kMaxNameSize : Z := 64.
Definition kMaxQStr : Z := 128.
Definition MDNS_RESPONDER_REPLY_SIZE : Z := 320.
Definition DNS_RRTYPE_AAAA : Z := 28.
Definition DNS_RRTYPE_SRV : Z := 33.
Definition DNS_RRTYPE_ANY : Z := 255.
Definition DNS_RRCLASS_ANY : Z := 255.
Definition DNS_FLAG1_RESP : Z := 0x80.
Definition DNS_FLAG1_OPMASK : Z := 0x78.
Definition DNS_FLAG1_AUTH : Z := 0x04.
Definition DNS_FLAG1_TRUNC : Z := 0x02.

(** [mdns_flags], used as bits. *)
Definition mdns_TCP : Z := 0.
Definition mdns_UDP : Z := 1.
Definition mdns_Browsable : Z := 2.

(** ** State *)

(** A resource record; its key, as a C string, and its data lie in [rData]. *)
Record mdns_rsrc := {
  rType : Z;
  rTTL : Z;
  rKeySize : Z;
  rDataSize : Z;
  rData : list Z;
}.

Inductive group := gMulticastV4Addr | gMulticastV6Addr.
#[export] Instance group_eq_dec : EqDecision group.
Proof. solve_decision. Defined.

(** The parts of lwIP's [struct netif] that are used: the addresses (those of
    IPv6 with their validity), the flag, and what [igmp_start] and the joins
    have done. *)
Record netif := {
  ip4 : list Z;
  ip6 : list (bool * list Z);
  igmp_flag : bool;
  igmp_running : bool;
  groups : list group;
}.

(** The globals of the file and what surrounds it: the interfaces, the
    outcomes of allocations and of lwIP calls (success once the lists are used
    up), the contents of fresh memory, the blocks and packet buffers allocated,
    and the packets sent. *)
Record world := {
  gDictP : list mdns_rsrc;
  gMDNS_pcb : bool;
  receiving : bool;
  station_netif : option netif;
  softap_netif : option netif;
  input_netif : netif;
  w_alloc : list bool;
  w_err : list bool;
  w_junk : list (list Z);
  heap : Z;
  pbufs : Z;
  sent : list (group * list Z);
}.

Definition with_dict (w : world) (d : list mdns_rsrc) : world :=
  {| gDictP := d; gMDNS_pcb := gMDNS_pcb w; receiving := receiving w; station_netif := station_netif w;
     softap_netif := softap_netif w; input_netif := input_netif w; w_alloc := w_alloc w; w_err := w_err w;
     w_junk := w_junk w; heap := heap w; pbufs := pbufs w; sent := sent w |}.
Definition with_pcb (w : world) (b r : bool) : world :=
  {| gDictP := gDictP w; gMDNS_pcb := b; receiving := r; station_netif := station_netif w;
     softap_netif := softap_netif w; input_netif := input_netif w; w_alloc := w_alloc w; w_err := w_err w;
     w_junk := w_junk w; heap := heap w; pbufs := pbufs w; sent := sent w |}.
Definition with_station (w : world) (n : option netif) : world :=
  {| gDictP := gDictP w; gMDNS_pcb := gMDNS_pcb w; receiving := receiving w; station_netif := n;
     softap_netif := softap_netif w; input_netif := input_netif w; w_alloc := w_alloc w; w_err := w_err w;
     w_junk := w_junk w; heap := heap w; pbufs := pbufs w; sent := sent w |}.
Definition with_softap (w : world) (n : option netif) : world :=
  {| gDictP := gDictP w; gMDNS_pcb := gMDNS_pcb w; receiving := receiving w; station_netif := station_netif w;
     softap_netif := n; input_netif := input_netif w; w_alloc := w_alloc w; w_err := w_err w;
     w_junk := w_junk w; heap := heap w; pbufs := pbufs w; sent := sent w |}.
Definition with_alloc (w : world) (l : list bool) (h p : Z) : world :=
  {| gDictP := gDictP w; gMDNS_pcb := gMDNS_pcb w; receiving := receiving w; station_netif := station_netif w;
     softap_netif := softap_netif w; input_netif := input_netif w; w_alloc := l; w_err := w_err w;
     w_junk := w_junk w; heap := h; pbufs := p; sent := sent w |}.
Definition with_err (w : world) (l : list bool) : world :=
  {| gDictP := gDictP w; gMDNS_pcb := gMDNS_pcb w; receiving := receiving w; station_netif := station_netif w;
     softap_netif := softap_netif w; input_netif := input_netif w; w_alloc := w_alloc w; w_err := l;
     w_junk := w_junk w; heap := heap w; pbufs := pbufs w; sent := sent w |}.
Definition with_junk (w : world) (j : list (list Z)) : world :=
  {| gDictP := gDictP w; gMDNS_pcb := gMDNS_pcb w; receiving := receiving w; station_netif := station_netif w;
     softap_netif := softap_netif w; input_netif := input_netif w; w_alloc := w_alloc w; w_err := w_err w;
     w_junk := j; heap := heap w; pbufs := pbufs w; sent := sent w |}.
Definition with_sent (w : world) (l : list (group * list Z)) : world :=
  {| gDictP := gDictP w; gMDNS_pcb := gMDNS_pcb w; receiving := receiving w; station_netif := station_netif w;
     softap_netif := softap_netif w; input_netif := input_netif w; w_alloc := w_alloc w; w_err := w_err w;
     w_junk := w_junk w; heap := heap w; pbufs := pbufs w; sent := l |}.

Definition with_data (r : mdns_rsrc) (bs : list Z) : mdns_rsrc :=
  {| rType := rType r; rTTL := rTTL r; rKeySize := rKeySize r; rDataSize := rDataSize r; rData := bs |}.

(** ** Memory *)

(** A byte of an object, and some bytes of it ([memcpy] from it). *)
Definition byte_at {W} (mem : list Z) (p : Z) : M W Z :=
  if 0 <=? p then deref (mem !! Z.to_nat p) else undefined.
Definition bytes_at {W} (mem : list Z) (p n : Z) : M W (list Z) :=
  if (0 <=? p) && (p + n <=? Z.of_nat (length mem)) then ret (sub_bytes mem p n) else undefined.

(** [memcpy] to an object. *)
Definition copy_to {W} (mem : list Z) (p : Z) (bs : list Z) : M W (list Z) :=
  if (0 <=? p) && (p + Z.of_nat (length bs) <=? Z.of_nat (length mem))
  then ret (take (Z.to_nat p) mem ++ bs ++ drop (Z.to_nat p + length bs) mem)
  else undefined.

Definition malloc : M world bool := fun w =>
  match w_alloc w with
  | [] => Done (true, with_alloc w [] (heap w + 1) (pbufs w))
  | b :: l => Done (b, with_alloc w l (heap w + if b then 1 else 0) (pbufs w))
  end.
Definition free : M world unit := modify (fun w => with_alloc w (w_alloc w) (heap w - 1) (pbufs w)).

Definition pbuf_alloc : M world bool := fun w =>
  match w_alloc w with
  | [] => Done (true, with_alloc w [] (heap w) (pbufs w + 1))
  | b :: l => Done (b, with_alloc w l (heap w) (pbufs w + if b then 1 else 0))
  end.
Definition pbuf_free : M world unit := modify (fun w => with_alloc w (w_alloc w) (heap w) (pbufs w - 1)).

(** Fresh memory of [n] bytes. *)
Definition fresh (n : Z) : M world (list Z) := fun w =>
  Done (resize (Z.to_nat n) 0 (default [] (head (w_junk w))), with_junk w (tail (w_junk w))).

(** The outcome of the next call to lwIP that can fail. *)
Definition lwip_ok : M world bool := fun w =>
  match w_err w with
  | [] => Done (true, w)
  | b :: l => Done (b, with_err w l)
  end.

(** ** Names *)

(** The buffer of a question's name and the position to write at. *)
Record qbuf := { qStr : list Z; qpos : Z }.

(** [*qStr++ = c] *)
Definition push {W} (q : qbuf) (c : Z) : M W qbuf :=
  let! b := deref (buf_set (qStr q) (qpos q) c) in
  ret {| qStr := b; qpos := qpos q + 1 |}.

(** [for (i = 0; i < n; i++) *qStr++ = *p++;] *)
Fixpoint copy_label {W} (n : nat) (hdr : list Z) (p : Z) (q : qbuf) : M W (Z * qbuf) :=
  match n with
  | O => ret (p, q)
  | S n =>
    let! c := byte_at hdr p in
    let! q := push q c in
    copy_label n hdr (p + 1) q
  end.

(** The loop of [mdns_labels2str] and its recursive call. *)
Fixpoint labels2str_loop {W} (fuel : nat) (hdr : list Z) (p : Z) (q : qbuf) : M W (Z * qbuf) :=
  match fuel with
  | O => out_of_fuel
  | S fuel =>
    let! n := byte_at hdr p in
    let p := p + 1 in
    if Z.land n 0xC0 =? 0xC0 then
      let! c := byte_at hdr p in
      let n := Z.lor (Z.shiftl (Z.land n 0x3F) 8) c in
      let! (_, q) := labels2str_loop fuel hdr n q in
      ret (p + 1, q)
    else if negb (Z.land n 0xC0 =? 0) then ret (p, q)
    else
      let! (p, q) := copy_label (Z.to_nat n) hdr p q in
      if n =? 0 then
        let! q := push q 0 in
        ret (p, q)
      else
        let! q := push q 46 in
        labels2str_loop fuel hdr p q
  end.

(** Turns that are enough: one for each pair of a position in the packet and a
    position in the buffer. *)
Definition labels_fuel (hdr : list Z) : nat := S (Z.to_nat (kMaxQStr + 1) * length hdr).

Definition mdns_labels2str {W} (hdr : list Z) (p : Z) (qStr : list Z) : M W (Z * list Z) :=
  let! (p, q) := labels2str_loop (labels_fuel hdr) hdr p {| qStr := qStr; qpos := 0 |} in
  ret (p, Mdns.qStr q).

(** [while (name[idx] != '.' && name[idx] != 0) idx++;]: the characters passed
    and the memory from [name[idx]] on. *)
Fixpoint label_span (name : list Z) : option (list Z * list Z) :=
  match name with
  | [] => None
  | c :: name' =>
    if (c =? 46) || (c =? 0) then Some ([], name)
    else match label_span name' with
         | Some (l, rest) => Some (c :: l, rest)
         | None => None
         end
  end.

(** The loop of [mdns_str2labels] from [name[idx]] on, with [lc] bytes already
    stored; its result is the value returned and the bytes it stores.  Every
    turn but the last passes a character. *)
Fixpoint str2labels_loop {W} (fuel : nat) (name : list Z) (lc max : Z) : M W (Z * list Z) :=
  match fuel with
  | O => out_of_fuel
  | S fuel =>
    let! (l, rest) := deref (label_span name) in
    let n := Z.of_nat (length l) in
    if max <? lc + 1 + n then ret (0, [])
    else
      let lc := lc + 1 + n in
      let rest := match rest with 46 :: rest' => rest' | _ => rest end in
      if 0 <? n then
        let! (r, out) := str2labels_loop fuel rest lc max in
        ret (r, u8 n :: l ++ out)
      else ret (lc, [u8 n])
  end.

Definition mdns_str2labels {W} (name : list Z) (max : Z) : M W (Z * list Z) :=
  str2labels_loop (S (length name)) name 0 max.

(** The question at [qp]: the pointer to the next one, the name, the class,
    the type and whether a unicast reply is wanted. *)
Definition mdns_get_question {W} (hdr : list Z) (qp : Z) (qStr : list Z) : M W (Z * list Z * Z * Z * Z) :=
  let! (qp, qStr) := mdns_labels2str hdr qp qStr in
  let! qr := bytes_at hdr qp SIZEOF_DNS_QUERY in
  let qType := be_val (sub_bytes qr 0 2) in
  let cls := be_val (sub_bytes qr 2 2) in
  ret (qp + SIZEOF_DNS_QUERY, qStr, Z.land cls 0x7FFF, qType, Z.shiftr cls 15).

Section Mdns.
Context `{!DnsH}.

(** ** Adding records *)

Definition mdns_add_response (vKey : list Z) (vType ttl : Z) (dataP : list Z) (vDataSize : Z) : M world unit :=
  let keyLen := strlen vKey + 1 in
  let! ok := malloc in
  if negb ok then ret tt
  else
    let! data := bytes_at dataP 0 vDataSize in
    modify (fun w => with_dict w
      ({| rType := vType; rTTL := ttl; rKeySize := u16 keyLen; rDataSize := vDataSize;
          rData := vKey ++ [0] ++ data |} :: gDictP w)).

Definition mdns_add_PTR (rKey : list Z) (ttl : Z) (nmStr : list Z) : M world unit :=
  let! (nl, lBuff) := mdns_str2labels (nmStr ++ [0]) kMaxNameSize in
  if 0 <? nl then mdns_add_response rKey DNS_RRTYPE_PTR ttl lBuff nl else ret tt.

Definition mdns_add_SRV (rKey : list Z) (ttl rPort : Z) (targName : list Z) : M world unit :=
  let srvRR := be_bytes 2 0 ++ be_bytes 2 0 ++ be_bytes 2 rPort in
  let! (nl, lBuff) := mdns_str2labels (targName ++ [0]) kMaxNameSize in
  if 0 <? nl then mdns_add_response rKey DNS_RRTYPE_SRV ttl (srvRR ++ lBuff) (SIZEOF_DNS_RR_SRV + nl) else ret tt.

Definition mdns_add_TXT (rKey : list Z) (ttl : Z) (txStr : list Z) : M world unit :=
  let n := u16 (strlen txStr) in
  if 255 <? n then ret tt
  else
    let! ok := malloc in
    if negb ok then undefined
    else
      let! text := bytes_at txStr 0 n in
      do! mdns_add_response rKey DNS_RRTYPE_TXT ttl (n :: text) (n + 1) then
      free.

Definition mdns_add_A (rKey : list Z) (ttl : Z) (addr : list Z) : M world unit :=
  mdns_add_response rKey DNS_RRTYPE_A ttl addr 4.

Definition mdns_add_AAAA (rKey : list Z) (ttl : Z) (addr : list Z) : M world unit :=
  mdns_add_response rKey DNS_RRTYPE_AAAA ttl addr 16.

Definition mdns_add_facility (instanceName serviceName : list Z) (addText : option (list Z)) (flags onPort ttl : Z)
    : M world unit :=
  let key_len := strlen serviceName + 12 in
  let! key_ok := malloc in
  let full_name_len := strlen instanceName + 1 + key_len in
  let! full_ok := malloc in
  let dev_name_len := strlen instanceName + 7 in
  let! dev_ok := malloc in
  if negb (key_ok && full_ok && dev_ok) then undefined
  else
    let proto := if Z.land flags mdns_UDP =? 0 then str "_tcp" else str "_udp" in
    let key := snprintf (key_len + 1) (serviceName ++ str "." ++ proto ++ str ".local.") in
    let fullName := snprintf (full_name_len + 1) (instanceName ++ str "." ++ key) in
    let devName := snprintf (dev_name_len + 1) (instanceName ++ str ".local.") in
    do! match addText with
        | Some text => mdns_add_TXT fullName ttl text
        | None => ret tt
        end then
    do! (if LWIP_IPV6 then mdns_add_AAAA devName ttl (replicate 16 0) else ret tt) then
    do! mdns_add_A devName ttl [0; 0; 0; 0] then
    do! mdns_add_SRV fullName ttl onPort devName then
    do! mdns_add_PTR key ttl fullName then
    do! (if negb (Z.land flags mdns_Browsable =? 0)
         then mdns_add_PTR (str "_services._dns-sd._udp.local.") ttl key else ret tt) then
    do! free then
    do! free then
    free.

(** ** Answering *)

(** The loop of [mdns_match] from the record [i], the first of [rs], on. *)
Fixpoint match_from {W} (i : nat) (rs : list mdns_rsrc) (qstr : list Z) (qType : Z) : M W (option nat) :=
  match rs with
  | [] => ret None
  | rp :: rs =>
    if (rType rp =? qType) || (qType =? DNS_RRTYPE_ANY) then
      let! eq := deref (strcasecmp_eq (rData rp) qstr) in
      if (eq : bool) then ret (Some i) else match_from (S i) rs qstr qType
    else match_from (S i) rs qstr qType
  end.

Definition mdns_match (qstr : list Z) (qType : Z) : M world (option nat) :=
  let! w := get in
  match_from 0 (gDictP w) qstr qType.

(** The new length of the reply and its buffer. *)
Definition mdns_add_to_answer {W} (rsrcP : mdns_rsrc) (resp : list Z) (respLen : Z) : M W (Z * list Z) :=
  let rem := MDNS_RESPONDER_REPLY_SIZE - respLen in
  let! (len, labels) := mdns_str2labels (rData rsrcP) rem in
  let! resp := copy_to resp respLen labels in
  if len =? 0 then ret (respLen, resp)
  else if rem <? len + SIZEOF_DNS_ANSWER + rDataSize rsrcP then ret (respLen, resp)
  else
    let respLen := respLen + len in
    let ans := be_bytes 2 (rType rsrcP) ++ be_bytes 2 DNS_RRCLASS_IN ++ be_bytes 4 (rTTL rsrcP) ++
               be_bytes 2 (rDataSize rsrcP) in
    let! resp := copy_to resp respLen ans in
    let respLen := respLen + SIZEOF_DNS_ANSWER in
    let! data := bytes_at (rData rsrcP) (rKeySize rsrcP) (rDataSize rsrcP) in
    let! resp := copy_to resp respLen data in
    ret (respLen + rDataSize rsrcP, resp).

Definition udp_sendto_if (dest : group) (payload : list Z) : M world bool :=
  let! ok := lwip_ok in
  do! modify (fun w => if ok then with_sent w (sent w ++ [(dest, payload)]) else w) then
  ret ok.

(** [v6] says whether the packet came from an IPv6 address. *)
Definition mdns_send_mcast (v6 : bool) (msgP : list Z) (nBytes : Z) : M world unit :=
  let! p := pbuf_alloc in
  if negb p then ret tt
  else
    let! payload := bytes_at msgP 0 nBytes in
    let! dest_addr := if v6 then (if LWIP_IPV6 then ret gMulticastV6Addr else undefined) else ret gMulticastV4Addr in
    do! udp_sendto_if dest_addr payload then
    pbuf_free.

(** A record, and a store of [addr] as its data. *)
Definition record_at (i : nat) : M world mdns_rsrc :=
  let! w := get in
  deref (gDictP w !! i).
Definition set_address (i : nat) (addr : list Z) : M world unit :=
  let! r := record_at i in
  let! bs := copy_to (rData r) (rKeySize r) addr in
  modify (fun w => with_dict w (<[i := with_data r bs]> (gDictP w))).

(** The reply being built. *)
Record reply := { resp : list Z; respLen : Z; extra : option nat }.

(** [rHdr->field = htons(htons(rHdr->field) + 1)] at an offset. *)
Definition count_up {W} (resp : list Z) (off : Z) : M W (list Z) :=
  let! n := bytes_at resp off 2 in
  copy_to resp off (be_bytes 2 (be_val n + 1)).

Definition off_numanswers : Z := 6.
Definition off_numextrarr : Z := 10.

(** Append the answer and count it at [off] if there was room. *)
Definition answer_with (i : nat) (off : Z) (a : reply) : M world reply :=
  let! r := record_at i in
  let! (new_len, rsp) := mdns_add_to_answer r (resp a) (respLen a) in
  if respLen a <? new_len then
    let! rsp := count_up rsp off in
    ret {| resp := rsp; respLen := new_len; extra := extra a |}
  else ret {| resp := rsp; respLen := respLen a; extra := extra a |}.

(** The loop over the IPv6 addresses of the interface. *)
Fixpoint answer_ip6 (i : nat) (addrs : list (bool * list Z)) (a : reply) : M world reply :=
  match addrs with
  | [] => ret a
  | (valid, addr6) :: addrs =>
    if (valid : bool) then
      do! set_address i addr6 then
      let! a := answer_with i off_numanswers a in
      answer_ip6 i addrs a
    else answer_ip6 i addrs a
  end.

(** The record after [i], if it has the type. *)
Definition next_of_type (i : nat) (type : Z) : M world (option nat) :=
  let! w := get in
  match gDictP w !! S i with
  | Some r => ret (if rType r =? type then Some (S i) else None)
  | None => ret None
  end.

Definition set_extra (a : reply) (o : option nat) : reply :=
  {| resp := resp a; respLen := respLen a; extra := match o with Some i => Some i | None => extra a end |}.

(** The body of the loop over the questions, after a match. *)
Definition answer_question (i : nat) (qType : Z) (a : reply) : M world reply :=
  let! r := record_at i in
  let! w := get in
  if LWIP_IPV6 && (rType r =? DNS_RRTYPE_AAAA) then answer_ip6 i (ip6 (input_netif w)) a
  else
    do! (if rType r =? DNS_RRTYPE_A then set_address i (ip4 (input_netif w)) else ret tt) then
    let! a := answer_with i off_numanswers a in
    let! x := if qType =? DNS_RRTYPE_PTR then next_of_type i DNS_RRTYPE_SRV
              else if qType =? DNS_RRTYPE_SRV then next_of_type i DNS_RRTYPE_A
              else ret None in
    ret (set_extra a x).

Fixpoint questions_loop (n : nat) (hdr : list Z) (qp : Z) (a : reply) : M world reply :=
  match n with
  | O => ret a
  | S n =>
    let! qStr := fresh kMaxQStr in
    let! (qp, qStr, qClass, qType, _) := mdns_get_question hdr qp qStr in
    let! a := if (qClass =? DNS_RRCLASS_IN) || (qClass =? DNS_RRCLASS_ANY) then
                let! o := mdns_match qStr qType in
                match o with
                | Some i => answer_question i qType a
                | None => ret a
                end
              else ret a in
    questions_loop n hdr qp a
  end.

(** The volunteered record. *)
Definition answer_extra (a : reply) : M world reply :=
  match extra a with
  | None => ret a
  | Some i =>
    let! r := record_at i in
    let! w := get in
    do! (if rType r =? DNS_RRTYPE_A then set_address i (ip4 (input_netif w)) else ret tt) then
    answer_with i off_numextrarr a
  end.

Definition mdns_reply (v6 : bool) (hdr : list Z) : M world unit :=
  let! ok := malloc in
  if negb ok then ret tt
  else
    let! rsp := fresh MDNS_RESPONDER_REPLY_SIZE in
    let! id := bytes_at hdr 0 2 in
    let! rsp := copy_to rsp 0 (id ++ [DNS_FLAG1_RESP + DNS_FLAG1_AUTH; 0; 0; 0; 0; 0; 0; 0; 0; 0]) in
    let! numquestions := bytes_at hdr 4 2 in
    let nquestions := be_val numquestions in
    let! a := questions_loop (Z.to_nat nquestions) hdr SIZEOF_DNS_HDR
                {| resp := rsp; respLen := SIZEOF_DNS_HDR; extra := None |} in
    do! (if SIZEOF_DNS_HDR <? respLen a then
           let! a := answer_extra a in
           mdns_send_mcast v6 (resp a) (respLen a)
         else ret tt) then
    free.

(** A packet buffer: the length it claims and the bytes of its chain. *)
Record pbuf := { tot_len : Z; chain : list Z }.

Definition mdns_recv (p : pbuf) (v6 : bool) : M world unit :=
  let plen := tot_len p in
  do! (if MDNS_RESPONDER_REPLY_SIZE <? plen then ret tt
       else if plen <? SIZEOF_DNS_HDR + SIZEOF_DNS_QUERY + 1 + SIZEOF_DNS_ANSWER + 1 then ret tt
       else
         let! ok := malloc in
         if negb ok then ret tt
         else
           let payload := take (Z.to_nat plen) (chain p) in
           do! (if Z.of_nat (length payload) =? plen then
                  let! flags1 := byte_at payload 2 in
                  let! numquestions := bytes_at payload 4 2 in
                  if (Z.land flags1 (DNS_FLAG1_RESP + DNS_FLAG1_OPMASK + DNS_FLAG1_TRUNC) =? 0) &&
                     (0 <? be_val numquestions)
                  then mdns_reply v6 payload
                  else ret tt
                else ret tt) then
           free) then
  pbuf_free.

(** ** Start *)

Definition with_flag (n : netif) (f r : bool) : netif :=
  {| ip4 := ip4 n; ip6 := ip6 n; igmp_flag := f; igmp_running := r; groups := groups n |}.
Definition with_group (n : netif) (g : group) : netif :=
  {| ip4 := ip4 n; ip6 := ip6 n; igmp_flag := igmp_flag n; igmp_running := igmp_running n; groups := g :: groups n |}.

(** The same steps for either interface: start IGMP if it is not enabled and
    join the groups.  The result says whether to go on. *)
Definition join_groups (n : netif) : M world (bool * netif) :=
  let! (ok, n) := if igmp_flag n then ret (true, n)
                   else let! ok := lwip_ok in ret (ok, with_flag n true ok) in
  if negb ok then ret (false, n)
  else
    let! ok := lwip_ok in
    if negb ok then ret (false, n)
    else
      let n := with_group n gMulticastV4Addr in
      if LWIP_IPV6 then
        let! ok := lwip_ok in
        if negb ok then ret (false, n) else ret (true, with_group n gMulticastV6Addr)
      else ret (true, n).

Definition mdns_init : M world unit :=
  let! w := get in
  let! go_on := match station_netif w with
                | None => ret true
                | Some n =>
                  let! (ok, n) := join_groups n in
                  do! modify (fun w => with_station w (Some n)) then
                  ret ok
                end in
  if negb go_on then ret tt
  else
    let! go_on := match softap_netif w with
                  | None => ret true
                  | Some n =>
                    let! (ok, n) := join_groups n in
                    do! modify (fun w => with_softap w (Some n)) then
                    ret ok
                  end in
    if negb go_on then ret tt
    else
      match station_netif w, softap_netif w with
      | None, None => ret tt
      | _, _ =>
        let! pcb := lwip_ok in
        do! modify (fun w => with_pcb w pcb (receiving w)) then
        if negb pcb then ret tt
        else
          let! ok := lwip_ok in
          if negb ok then ret tt else modify (fun w => with_pcb w true true)
      end.

End Mdns.

(** The numbers of the standard. *)
Definition dns_h (v6 : bool) : DnsH :=
  {| DNS_RRTYPE_A := 1; DNS_RRTYPE_PTR := 12; DNS_RRTYPE_TXT := 16; DNS_RRCLASS_IN := 1; LWIP_IPV6 := v6 |}.
#[export] Instance dns_h_laws v6 : @DnsHLaws (dns_h v6).
Proof. done. Qed.

End Mdns.
