(* ===== verification/MdnsNames.v ===== *)
(** * Names of the multicast DNS responder

    What a name on the wire is (RFC 1035, with compression), and that
    [mdns_str2labels] writes it and [mdns_labels2str] reads it; when the
    latter ends. *)

From stdpp Require Import strings.
From S2P Require Import Prelude CStrings Mdns.
Open Scope Z_scope.

Module MdnsNames.
Import Mdns.

Definition DOT : Z := 46.

(** A label, and a name as a string with a dot after every label. *)
Definition label_ok (l : list Z) : Prop := 0 < strlen l < 64 /\ Forall (fun c => 0 < c < 256 /\ c <> DOT) l.
Definition dotted (ls : list (list Z)) : list Z := concat ((fun l => l ++ [DOT]) <$> ls).

(** The name on the wire, and its length. *)
Definition wire (ls : list (list Z)) : list Z := concat ((fun l => u8 (strlen l) :: l) <$> ls) ++ [0].
Definition wire_size (ls : list (list Z)) : Z := strlen (wire ls).

(** The labels of a string, up to an empty one. *)
Fixpoint labels_from (acc s : list Z) : list (list Z) :=
  match s with
  | [] => match acc with [] => [] | _ => [acc] end
  | c :: s =>
    if c =? DOT then match acc with [] => [] | _ => acc :: labels_from [] s end
    else labels_from (acc ++ [c]) s
  end.
Definition labels_of (s : list Z) : list (list Z) := labels_from [] s.

(** A name in the packet [hdr] at the offset [p], that ends before [p']. *)
Inductive name_at (hdr : list Z) : Z -> list (list Z) -> Z -> Prop :=
| name_end p :
    0 <= p -> hdr !! Z.to_nat p = Some 0 -> name_at hdr p [] (p + 1)
| name_label p l ls p' :
    0 <= p -> label_ok l -> hdr !! Z.to_nat p = Some (strlen l) ->
    p + 1 + strlen l <= Z.of_nat (length hdr) -> sub_bytes hdr (p + 1) (strlen l) = l ->
    name_at hdr (p + 1 + strlen l) ls p' -> name_at hdr p (l :: ls) p'
| name_pointer p b c ls p' :
    0 <= p -> 192 <= b < 256 -> 0 <= c < 256 -> hdr !! Z.to_nat p = Some b -> hdr !! Z.to_nat (p + 1) = Some c ->
    name_at hdr ((b - 192) * 256 + c) ls p' -> name_at hdr p ls (p + 2).

(** ** Strings to labels *)

Lemma wire_cons l ls : wire (l :: ls) = u8 (strlen l) :: l ++ wire ls.
Proof. unfold wire. cbn. by rewrite <-app_assoc. Qed.

Lemma wire_size_cons l ls : wire_size (l :: ls) = 1 + strlen l + wire_size ls.
Proof. unfold wire_size, strlen. rewrite wire_cons. cbn [length]. rewrite length_app. lia. Qed.

Lemma wire_size_nil : wire_size [] = 1.
Proof. done. Qed.

Lemma wire_size_pos ls : 1 <= wire_size ls.
Proof. unfold wire_size, wire, strlen. rewrite length_app. cbn. lia. Qed.

Lemma labels_from_app acc l s : Forall (fun c => c <> DOT) l -> labels_from acc (l ++ s) = labels_from (acc ++ l) s.
Proof.
  intros H. revert acc. induction H as [|c l Hc H IH]; intros acc; cbn [app labels_from]; [by rewrite app_nil_r|].
  rewrite (proj2 (Z.eqb_neq c DOT)) by done. rewrite IH. by rewrite <-app_assoc.
Qed.

(** A string is a label and what follows it: nothing, or a dot and a string. *)
Lemma label_span_spec s rest :
  cstr s ->
  exists l s', s = l ++ s' /\ Forall (fun c => c <> DOT) l /\ cstr l /\
    label_span (s ++ 0 :: rest) = Some (l, s' ++ 0 :: rest) /\ (s' = [] \/ exists s'', s' = DOT :: s'').
Proof.
  induction 1 as [|c s Hc Hs IH]; [exists [], []; split_and!; auto; constructor|]. destruct (decide (c = DOT)) as [->|Hne].
  - exists [], (DOT :: s). split_and!; eauto; constructor.
  - destruct IH as (l & s' & -> & Hl & Hc' & E & Hs'). exists (c :: l), s'. cbn [app label_span].
    rewrite (proj2 (Z.eqb_neq c 46)), (proj2 (Z.eqb_neq c 0)) by (done || lia). cbn [orb]. rewrite E.
    repeat split; try done; by constructor.
Qed.

Lemma labels_of_span l s' :
  Forall (fun c => c <> DOT) l ->
  labels_of (l ++ s') = match l with [] => labels_of s' | _ => l :: labels_of (tail s') end \/ ~ (s' = [] \/ exists s'', s' = DOT :: s'').
Proof.
  intros Hl. unfold labels_of. rewrite labels_from_app by done. cbn [app].
  destruct l as [|c l]; [by left|]. destruct s' as [|x s']; [by left|]. cbn [labels_from tail].
  destruct (x =? DOT) eqn:E; zbool; [by left|]. right. intros [|[s'' [=]]]; [done|lia].
Qed.

Lemma str2labels_loop_spec {W} fuel s rest lc max (w : W) :
  cstr s -> (length s < fuel)%nat -> 0 <= lc <= max ->
  exists out, str2labels_loop fuel (s ++ 0 :: rest) lc max w =
      Done ((if lc + wire_size (labels_of s) <=? max then lc + wire_size (labels_of s) else 0, out), w) /\
    lc + strlen out <= max /\ (lc + wire_size (labels_of s) <= max -> out = wire (labels_of s)).
Proof.
  revert s lc. induction fuel as [|fuel IH]; intros s lc Hs Hf Hlc; [lia|]. cbn [str2labels_loop].
  destruct (label_span_spec s rest Hs) as (l & s' & Es & Hl & Hcl & E & Hs'). rewrite E. cbn [deref].
  rewrite (bind_Done _ _ _ _ _ eq_refl). fold (strlen l).
  destruct (labels_of_span l s' Hl) as [El|]; [|done]. rewrite <-Es in El.
  assert (0 <= strlen l) by (unfold strlen; lia). pose proof (wire_size_pos (labels_of (tail s'))) as Hp.
  destruct l as [|c l].
  { assert (labels_of s = []) as ->.
    { rewrite El. by destruct Hs' as [->|[s'' ->]]. }
    rewrite wire_size_nil. change (strlen []) with 0 in *. destruct (_ <? _) eqn:H0; zbool.
    - exists []. rewrite (proj2 (Z.leb_gt _ _)) by lia. split; [done|]. change (strlen []) with 0. split; lia.
    - rewrite (proj2 (Z.ltb_ge 0 0)) by lia. exists [0]. rewrite (proj2 (Z.leb_le _ _)) by lia.
      split; [by rewrite Z.add_0_r|]. change (strlen [0]) with 1. split; [lia|done]. }
  rewrite El, wire_size_cons. set (L := c :: l) in *.
  assert (0 < strlen L) by (unfold strlen, L; cbn; lia).
  destruct (max <? _) eqn:H1; zbool.
  { exists []. rewrite (proj2 (Z.leb_gt _ _)) by lia. split; [done|]. change (strlen []) with 0. split; lia. }
  rewrite (proj2 (Z.ltb_lt 0 _)) by lia.
  assert (match s' ++ 0 :: rest with 46 :: rest' => rest' | _ => s' ++ 0 :: rest end = tail s' ++ 0 :: rest) as ->
    by (by destruct Hs' as [->|[s'' ->]]).
  destruct (IH (tail s') (lc + 1 + strlen L)) as (out & E' & Hle & Hout).
  - apply Forall_tail. rewrite Es in Hs. by apply cstr_app in Hs as [_ Hs].
  - rewrite Es, length_app in Hf. unfold strlen, L in *. cbn in *. destruct s'; cbn in *; lia.
  - lia.
  - run E'. exists (u8 (strlen L) :: L ++ out). cbn [fst snd].
    replace (lc + (1 + strlen L + wire_size (labels_of (tail s')))) with (lc + 1 + strlen L + wire_size (labels_of (tail s'))) by lia.
    split; [done|]. split.
    + unfold strlen in *. cbn [length]. rewrite length_app. lia.
    + intros Hfit. rewrite wire_cons, Hout by lia. done.
Qed.

(** What [mdns_str2labels] does on any string: it returns the length of the
    encoded name and stores it, or returns 0 when there is no room; it never
    stores more than it may. *)
Lemma str2labels_spec {W} s rest max (w : W) :
  cstr s -> 0 <= max ->
  exists out, mdns_str2labels (s ++ 0 :: rest) max w =
      Done ((if wire_size (labels_of s) <=? max then wire_size (labels_of s) else 0, out), w) /\
    strlen out <= max /\ (wire_size (labels_of s) <= max -> out = wire (labels_of s)).
Proof.
  intros Hs Hm. apply (str2labels_loop_spec _ s rest 0 max w Hs); [|lia]. rewrite length_app. lia.
Qed.

(** The labels of a dotted name. *)
Lemma labels_of_dotted ls : Forall label_ok ls -> labels_of (dotted ls) = ls.
Proof.
  induction 1 as [|l ls [Hn Hl] H IH]; [done|]. unfold dotted. cbn [fmap list_fmap concat]. fold (dotted ls).
  unfold labels_of. rewrite <-app_assoc, labels_from_app by (eapply Forall_impl; [exact Hl|]; by intros c [_ ?]).
  cbn. destruct l as [|c l]; [change (strlen []) with 0 in Hn; lia|]. cbn. by rewrite <-IH at 2.
Qed.

Lemma dotted_cstr ls : Forall label_ok ls -> cstr (dotted ls).
Proof.
  induction 1 as [|l ls [Hn Hl] H IH]; [constructor|]. unfold dotted. cbn [fmap list_fmap concat]. fold (dotted ls).
  apply Forall_app. split; [|exact IH]. apply Forall_app. split; [|by constructor].
  eapply Forall_impl; [exact Hl|]. by intros c [? _].
Qed.

Lemma strlen_dotted ls : strlen (dotted ls) + 1 = wire_size ls.
Proof.
  induction ls as [|l ls IH]; [done|]. rewrite wire_size_cons, <-IH. unfold dotted, strlen. cbn [fmap list_fmap concat].
  rewrite !length_app. cbn. lia.
Qed.

(** ** Labels to strings *)

Lemma mask_pointer n : byteP n -> (Z.land n 0xC0 =? 0xC0) = (192 <=? n).
Proof. intros H. apply eqb_prop. revert n H. by apply byte_check. Qed.

Lemma mask_plain n : byteP n -> (Z.land n 0xC0 =? 0) = (n <? 64).
Proof. intros H. apply eqb_prop. revert n H. by apply byte_check. Qed.

Lemma pointer_value b c :
  192 <= b < 256 -> 0 <= c < 256 -> Z.lor (Z.shiftl (Z.land b 0x3F) 8) c = (b - 192) * 256 + c.
Proof.
  intros Hb Hc. replace (Z.land b 0x3F) with (b - 192).
  - rewrite Z.lor_comm, Z.shiftl_mul_pow2, lor_disjoint_add by lia. lia.
  - change 63 with (2 ^ 6 - 1). rewrite land_mask by lia. divlia.
Qed.

Lemma hdr_byte hdr p n : Forall byteP hdr -> hdr !! p = Some n -> byteP n.
Proof. intros H. by apply Forall_lookup_1. Qed.

(** The buffer with [out] written and [junk] left. *)
Definition q_of (out junk : list Z) : qbuf := {| qStr := out ++ junk; qpos := strlen out |}.

Lemma push_Done {W} out j junk c (w : W) : push (q_of out (j :: junk)) c w = Done (q_of (out ++ [c]) junk, w).
Proof.
  unfold push, buf_set, q_of, strlen. cbn [qStr qpos]. rewrite (proj2 (andb_true_iff _ _))
    by (rewrite length_app; cbn [length]; split; [apply Z.leb_le|apply Z.ltb_lt]; lia).
  cbn. rewrite Nat2Z.id, insert_app_r_alt, Nat.sub_diag by lia. unfold ret. rewrite length_app, <-app_assoc. cbn.
  do 3 f_equal. lia.
Qed.

Lemma push_full {W} out c (w : W) : push (q_of out []) c w = Undefined.
Proof.
  unfold push, buf_set, q_of, strlen. cbn [qStr qpos]. rewrite (proj2 (andb_false_iff _ _)); [done|]. right.
  rewrite app_nil_r. lia.
Qed.

Lemma byte_at_Done {W} mem p c (w : W) : 0 <= p -> mem !! Z.to_nat p = Some c -> byte_at mem p w = Done (c, w).
Proof. intros Hp H. unfold byte_at. rewrite (proj2 (Z.leb_le _ _)) by done. by rewrite H. Qed.

Lemma byte_at_None {W} mem p (w : W) : mem !! Z.to_nat p = None -> byte_at mem p w = Undefined.
Proof. intros H. unfold byte_at. case_if; [by rewrite H|done]. Qed.

(** Copying a label needs its bytes in the packet and room in the buffer. *)
Lemma copy_label_cases {W} n hdr p out junk (w : W) :
  0 <= p ->
  if decide (p + Z.of_nat n <= Z.of_nat (length hdr) /\ (n <= length junk)%nat)
  then copy_label n hdr p (q_of out junk) w =
    Done ((p + Z.of_nat n, q_of (out ++ sub_bytes hdr p (Z.of_nat n)) (drop n junk)), w)
  else n <> O -> copy_label n hdr p (q_of out junk) w = Undefined.
Proof.
  revert p out junk. induction n as [|n IH]; intros p out junk Hp.
  - destruct (decide _); [|done]. cbn. unfold sub_bytes. cbn. by rewrite app_nil_r, Z.add_0_r.
  - specialize (IH (p + 1)). cbn [copy_label].
    destruct (hdr !! Z.to_nat p) as [c|] eqn:E.
    + rewrite (bind_Done _ _ _ _ _ (byte_at_Done _ _ _ w Hp E)). apply lookup_lt_Some in E as Hlt.
      destruct junk as [|j junk].
      { rewrite decide_False by (cbn; lia). intros _. unfold bind. by rewrite push_full. }
      rewrite (bind_Done _ _ _ _ _ (push_Done out j junk c w)).
      specialize (IH (out ++ [c]) junk ltac:(lia)). cbn [length]. destruct (decide _) as [Hd|Hd] in IH.
      * rewrite decide_True by lia. rewrite IH. unfold sub_bytes. rewrite !Nat2Z.id.
        replace (Z.to_nat (p + 1)) with (S (Z.to_nat p)) by lia. rewrite <-app_assoc. cbn [app].
        rewrite (drop_S _ _ _ E). cbn [take drop]. do 3 f_equal. lia.
      * rewrite decide_False by lia. intros _. destruct n; [exfalso; apply Hd; cbn; lia|]. by apply IH.
    + rewrite decide_False; [intros _; unfold bind; by rewrite byte_at_None|]. apply lookup_ge_None in E. lia.
Qed.

(** [mdns_labels2str] on a name that fits into the buffer. *)
Lemma labels2str_loop_name {W} hdr p ls p' :
  Forall byteP hdr -> name_at hdr p ls p' ->
  exists n, forall fuel out junk (w : W), (n <= fuel)%nat -> wire_size ls <= strlen junk ->
    labels2str_loop fuel hdr p (q_of out junk) w =
      Done ((p', q_of (out ++ dotted ls ++ [0]) (drop (Z.to_nat (wire_size ls)) junk)), w).
Proof.
  intros Hb. induction 1 as [p Hp E|p l ls p' Hp [Hn Hl] E Hlen Hsub _ [n IH]|p b c ls p' Hp Hb1 Hc E Ec _ [n IH]].
  - exists 1%nat. intros fuel out junk w Hf Hj. destruct fuel as [|fuel]; [lia|]. cbn [labels2str_loop].
    rewrite (bind_Done _ _ _ _ _ (byte_at_Done _ _ _ w Hp E)).
    change (Z.land 0 192) with 0. cbn [Z.eqb negb Z.to_nat copy_label].
    rewrite (bind_Done _ _ _ _ _ eq_refl). destruct junk as [|j junk]; [cbv in Hj; by destruct Hj|].
    by rewrite (bind_Done _ _ _ _ _ (push_Done out j junk 0 w)).
  - exists (S n). intros fuel out junk w Hf Hj. destruct fuel as [|fuel]; [lia|]. cbn [labels2str_loop].
    rewrite (bind_Done _ _ _ _ _ (byte_at_Done _ _ _ w Hp E)).
    rewrite mask_pointer, mask_plain by (unfold byteP; lia).
    rewrite (proj2 (Z.leb_gt _ _)), (proj2 (Z.ltb_lt _ _)) by lia. cbn [negb].
    rewrite wire_size_cons in *. pose proof (wire_size_pos ls).
    pose proof (copy_label_cases (Z.to_nat (strlen l)) hdr (p + 1) out junk w ltac:(lia)) as Hc.
    rewrite decide_True in Hc by (unfold strlen in *; lia). run Hc. rewrite Z2Nat.id, Hsub by lia.
    rewrite (proj2 (Z.eqb_neq _ 0)) by lia.
    destruct (drop (Z.to_nat (strlen l)) junk) as [|j junk'] eqn:Ej.
    { apply (f_equal length) in Ej. rewrite length_drop in Ej. unfold strlen in *. cbn in Ej. lia. }
    rewrite (bind_Done _ _ _ _ _ (push_Done _ j junk' 46 w)). rewrite IH; [|lia|].
    + unfold dotted. cbn [fmap list_fmap concat]. rewrite <-!app_assoc. do 4 f_equal.
      replace (Z.to_nat (1 + strlen l + wire_size ls)) with (Z.to_nat (strlen l) + S (Z.to_nat (wire_size ls)))%nat by lia.
      by rewrite <-drop_drop, Ej.
    + apply (f_equal length) in Ej. rewrite length_drop in Ej. unfold strlen in *. cbn in Ej. lia.
  - exists (S n). intros fuel out junk w Hf Hj. destruct fuel as [|fuel]; [lia|]. cbn [labels2str_loop].
    rewrite (bind_Done _ _ _ _ _ (byte_at_Done _ _ _ w Hp E)).
    rewrite mask_pointer by (unfold byteP; lia). rewrite (proj2 (Z.leb_le _ _)) by lia.
    rewrite (bind_Done _ _ _ _ _ (byte_at_Done hdr (p + 1) c w ltac:(lia) Ec)), pointer_value by done.
    rewrite (bind_Done _ _ _ _ _ (IH fuel out junk w ltac:(lia) Hj)). unfold ret. do 3 f_equal. lia.
Qed.

(** ** When reading a name ends *)

(** Iterating a partial step: a run longer than the number of states from
    which there is a step goes on for ever. *)
Section Orbit.
Context {A : Type} `{!EqDecision A} (next : A -> option A).

Fixpoint steps (n : nat) (c : A) : option A :=
  match n with
  | O => Some c
  | S n => next c ≫= steps n
  end.

Lemma steps_add n m c : steps (n + m) c = steps n c ≫= steps m.
Proof. revert c. induction n as [|n IH]; intros c; [done|]. cbn. destruct (next c); [apply IH|done]. Qed.

Lemma steps_le n m c : (m <= n)%nat -> is_Some (steps n c) -> is_Some (steps m c).
Proof.
  intros Hle. replace n with (m + (n - m))%nat by lia. rewrite steps_add.
  destruct (steps m c); [eauto|]. cbn. by intros [? [=]].
Qed.

Lemma steps_cycle i j c x n :
  (i < j)%nat -> steps i c = Some x -> steps j c = Some x -> is_Some (steps n c).
Proof.
  intros Hij Hi Hj. induction n as [n IH] using lt_wf_ind. destruct (decide (n <= j)%nat).
  - by apply (steps_le j); [|exists x].
  - replace n with (j + (n - j))%nat by lia. rewrite steps_add, Hj. cbn.
    assert (H : is_Some (steps (i + (n - j)) c)) by (apply IH; lia). by rewrite steps_add, Hi in H.
Qed.

Lemma steps_for_ever (L : list A) c :
  (forall x y, is_Some (steps (S y) c) -> steps y c = Some x -> x ∈ L) ->
  is_Some (steps (S (length L)) c) -> forall n, is_Some (steps n c).
Proof.
  intros HL HF n. destruct (steps n c) eqn:En; [by eexists|]. exfalso.
  set (F := S (length L)) in *. set (at_ i := default c (steps i c)).
  assert (Hat : forall i, (i < F)%nat -> steps i c = Some (at_ i)).
  { intros i Hi. unfold at_. destruct (steps_le F i c ltac:(lia) HF) as [x ->]. done. }
  assert (Hnd : NoDup (at_ <$> seq 0 F)).
  { apply NoDup_fmap_2_strong; [|apply NoDup_seq]. intros i j Hi Hj E. apply elem_of_seq in Hi, Hj.
    destruct (lt_eq_lt_dec i j) as [[Hlt| ->]|Hlt]; [|done|]; exfalso.
    - destruct (steps_cycle i j c (at_ j) n Hlt) as [y Hy]; [by rewrite Hat, E by lia|by rewrite Hat by lia|congruence].
    - destruct (steps_cycle j i c (at_ i) n Hlt) as [y Hy]; [by rewrite Hat, E by lia|by rewrite Hat by lia|congruence]. }
  assert (Hsub : at_ <$> seq 0 F ⊆+ L).
  { apply NoDup_submseteq; [done|]. intros x Hx. apply list_elem_of_fmap in Hx as (i & -> & Hi). apply elem_of_seq in Hi.
    apply (HL _ i); [|by apply Hat; lia]. by apply (steps_le F); [lia|]. }
  apply submseteq_length in Hsub. rewrite length_fmap, length_seq in Hsub. unfold F in Hsub. lia.
Qed.
End Orbit.

(** What a turn that goes on does to the position in the packet and the
    number of characters written, with [cap] bytes in the buffer. *)
Definition next (hdr : list Z) (cap : Z) (c : Z * Z) : option (Z * Z) :=
  let '(p, k) := c in
  n ← hdr !! Z.to_nat p;
  if 192 <=? n then b ← hdr !! Z.to_nat (p + 1); Some ((n - 192) * 256 + b, k)
  else if (64 <=? n) || (n =? 0) then None
  else if (p + 1 + n <=? Z.of_nat (length hdr)) && (k + n + 1 <=? cap) then Some (p + 1 + n, k + n + 1)
  else None.

Lemma next_range hdr cap p k p' k' :
  Forall byteP hdr -> 0 <= p -> 0 <= k <= cap -> next hdr cap (p, k) = Some (p', k') -> 0 <= p' /\ 0 <= k' <= cap.
Proof.
  intros Hb Hp Hk. unfold next. destruct (hdr !! Z.to_nat p) as [n|] eqn:En; [|done]. cbn [mbind option_bind].
  pose proof (hdr_byte _ _ _ Hb En) as Hn. unfold byteP in Hn. destruct (192 <=? n) eqn:E1; zbool.
  - destruct (hdr !! Z.to_nat (p + 1)) as [b|] eqn:Eb; [|done]. cbn [mbind option_bind]. intros [= <- <-].
    pose proof (hdr_byte _ _ _ Hb Eb) as Hbb. unfold byteP in Hbb. lia.
  - destruct (_ || _); [done|]. destruct (_ && _) eqn:E2; [|done]. zbool. intros [= <- <-]. lia.
Qed.

Lemma steps_range hdr cap n p k p' k' :
  Forall byteP hdr -> 0 <= p -> 0 <= k <= cap -> steps (next hdr cap) n (p, k) = Some (p', k') -> 0 <= p' /\ 0 <= k' <= cap.
Proof.
  intros Hb. revert p k. induction n as [|n IH]; intros p k Hp Hk; [by intros [= <- <-]|]. cbn [steps].
  destruct (next hdr cap (p, k)) as [[p1 k1]|] eqn:En; [|done]. cbn [mbind option_bind].
  destruct (next_range hdr cap p k p1 k1 Hb Hp Hk En). by apply IH.
Qed.

Lemma loop_out_of_fuel {W} hdr fuel p out junk (w : W) :
  Forall byteP hdr -> 0 <= p ->
  labels2str_loop fuel hdr p (q_of out junk) w = OutOfFuel <->
  is_Some (steps (next hdr (strlen out + strlen junk)) fuel (p, strlen out)).
Proof.
  intros Hb. revert p out junk. induction fuel as [|fuel IH]; intros p out junk Hp; [by split; [eexists|]|].
  cbn [labels2str_loop steps next]. set (cap := strlen out + strlen junk).
  destruct (hdr !! Z.to_nat p) as [n|] eqn:E.
  2:{ unfold bind at 1. rewrite byte_at_None by done. split; [done|by intros [? [=]]]. }
  rewrite (bind_Done _ _ _ _ _ (byte_at_Done _ _ _ w Hp E)). pose proof (hdr_byte _ _ _ Hb E) as Hn. unfold byteP in Hn.
  rewrite mask_pointer, mask_plain by done. cbn [mbind option_bind]. destruct (192 <=? n) eqn:E1; zbool.
  { destruct (hdr !! Z.to_nat (p + 1)) as [b|] eqn:Eb.
    2:{ unfold bind at 1. rewrite byte_at_None by done. split; [done|by intros [? [=]]]. }
    rewrite (bind_Done _ _ _ _ _ (byte_at_Done hdr (p + 1) b w ltac:(lia) Eb)). pose proof (hdr_byte _ _ _ Hb Eb) as Hbb.
    unfold byteP in Hbb. rewrite pointer_value by lia. cbn [mbind option_bind]. unfold cap. rewrite <-IH by lia.
    unfold bind. by destruct (labels2str_loop fuel _ _ _ _) as [[[? ?] ?]| |]. }
  destruct (n <? 64) eqn:E2; zbool; cbn [negb].
  2:{ rewrite (proj2 (Z.leb_le 64 n)) by lia. split; [done|by intros [? [=]]]. }
  rewrite (proj2 (Z.leb_gt 64 n)) by lia. cbn [orb].
  pose proof (copy_label_cases (Z.to_nat n) hdr (p + 1) out junk w ltac:(lia)) as Hc. rewrite Z2Nat.id in Hc by lia.
  destruct (n =? 0) eqn:E3; zbool.
  { subst n. cbn [Z.to_nat copy_label]. rewrite (bind_Done _ _ _ _ _ eq_refl). split; [|by intros [? [=]]].
    destruct junk; unfold bind; [by rewrite push_full|by rewrite push_Done]. }
  destruct (decide _) as [[H1 H2]|Hd] in Hc.
  - run Hc. destruct (drop (Z.to_nat n) junk) as [|j junk'] eqn:Ej;
      apply (f_equal length) in Ej; rewrite length_drop in Ej; cbn in Ej.
    + unfold bind at 1. rewrite push_full. rewrite (proj2 (andb_false_iff _ _)); [split; [done|by intros [? [=]]]|].
      right. apply Z.leb_gt. unfold cap, strlen. lia.
    + rewrite (bind_Done _ _ _ _ _ (push_Done _ j junk' 46 w)). rewrite IH by lia.
      rewrite (proj2 (andb_true_iff _ _)) by (split; apply Z.leb_le; unfold cap, strlen; lia). cbn [mbind option_bind].
      assert (length (sub_bytes hdr (p + 1) n) = Z.to_nat n) as Hl
        by (unfold sub_bytes; rewrite length_take, length_drop; lia).
      unfold cap, strlen. rewrite !length_app, Hl. cbn [length].
      by replace (Z.of_nat (length out + Z.to_nat n + 1) + Z.of_nat (length junk')) with
        (Z.of_nat (length out) + Z.of_nat (length junk)) by lia;
      replace (Z.of_nat (length out + Z.to_nat n + 1)) with (Z.of_nat (length out) + n + 1) by lia.
  - unfold bind at 1. rewrite Hc by lia. split; [done|]. intros [? H]. exfalso.
    case_if; [|by inversion H]. zbool. apply Hd. unfold cap, strlen in *. lia.
Qed.

Lemma length_bind_const {A} (f : nat -> list A) k s n :
  (forall x, length (f x) = k) -> length (x ← seq s n; f x) = (k * n)%nat.
Proof.
  intros Hf. revert s. induction n as [|n IH]; intros s; cbn [seq]; [rewrite Nat.mul_0_r; done|].
  rewrite bind_cons, length_app, Hf, IH. lia.
Qed.

(** The bound of [mdns_labels2str] is enough: where it is reached, the code
    never returns. *)
Lemma labels2str_for_ever {W} hdr p buf (w : W) :
  Forall byteP hdr -> 0 <= p -> strlen buf = kMaxQStr ->
  mdns_labels2str hdr p buf w = OutOfFuel ->
  forall fuel, labels2str_loop fuel hdr p (q_of [] buf) w = OutOfFuel.
Proof.
  intros Hb Hp Hbuf H fuel. apply loop_out_of_fuel; [done..|]. unfold mdns_labels2str in H.
  change {| qStr := buf; qpos := 0 |} with (q_of [] buf) in H. unfold bind in H.
  destruct (labels2str_loop _ _ _ _ _) as [[[? ?] ?]| |] eqn:E in H; [done| |done]. clear H.
  apply loop_out_of_fuel in E; [|done..]. change (strlen []) with 0 in *. rewrite Hbuf, Z.add_0_l in *.
  set (L := x ← seq 0 (length hdr); (fun k => (Z.of_nat x, Z.of_nat k)) <$> seq 0 (Z.to_nat (kMaxQStr + 1))).
  assert (length L = (Z.to_nat (kMaxQStr + 1) * length hdr)%nat) as HL.
  { apply length_bind_const. intros x. by rewrite length_fmap, length_seq. }
  unfold labels_fuel in E. rewrite <-HL in E. revert fuel. apply steps_for_ever with (L := L); [|done].
  clear E. intros [p' k'] y Hy Ey.
  destruct (steps_range hdr kMaxQStr y p 0 p' k' Hb Hp) as [Hp' Hk']; [done..|].
  replace (S y) with (y + 1)%nat in Hy by lia. rewrite steps_add, Ey in Hy. cbn [steps mbind option_bind] in Hy.
  unfold L. apply list_elem_of_bind. exists (Z.to_nat p'). split.
  - apply list_elem_of_fmap. exists (Z.to_nat k'). rewrite !Z2Nat.id by lia. split; [done|]. apply elem_of_seq. lia.
  - apply elem_of_seq. unfold next in Hy. destruct (hdr !! Z.to_nat p') eqn:El; [|by destruct Hy].
    apply lookup_lt_Some in El. lia.
Qed.

(** With more turns a run that ends is the same. *)
Lemma loop_more {W} hdr m fuel p q (w : W) :
  labels2str_loop fuel hdr p q w <> OutOfFuel ->
  labels2str_loop (fuel + m) hdr p q w = labels2str_loop fuel hdr p q w.
Proof.
  revert p q w. induction fuel as [|fuel IH]; intros p q w H; [done|]. cbn [Nat.add labels2str_loop] in *. unfold bind in *.
  destruct (byte_at hdr p w) as [[n w1]| |]; [|done..]. destruct (_ =? 0xC0).
  { destruct (byte_at hdr (p + 1) w1) as [[b w2]| |]; [|done..].
    rewrite IH; [done|]. by destruct (labels2str_loop fuel _ _ _ _) as [[[? ?] ?]| |]. }
  destruct (negb _); [done|]. destruct (copy_label _ _ _ _ w1) as [[[p1 q1] w2]| |]; [|done..].
  destruct (_ =? 0); [done|]. destruct (push q1 46 w2) as [[q2 w3]| |]; [by apply IH|done..].
Qed.

(** Reading a name. *)
Lemma labels2str_name {W} hdr p ls p' buf (w : W) :
  Forall byteP hdr -> 0 <= p -> strlen buf = kMaxQStr -> name_at hdr p ls p' -> wire_size ls <= kMaxQStr ->
  mdns_labels2str hdr p buf w = Done ((p', dotted ls ++ 0 :: drop (Z.to_nat (wire_size ls)) buf), w).
Proof.
  intros Hb Hp Hbuf Hn Hfit. destruct (labels2str_loop_name (W := W) hdr p ls p' Hb Hn) as [n Hrun].
  unfold mdns_labels2str. change {| qStr := buf; qpos := 0 |} with (q_of [] buf).
  assert (E : labels2str_loop (labels_fuel hdr) hdr p (q_of [] buf) w <> OutOfFuel).
  { intros E. pose proof (labels2str_for_ever hdr p buf w Hb Hp Hbuf) as H. unfold mdns_labels2str, bind in H.
    change {| qStr := buf; qpos := 0 |} with (q_of [] buf) in H. rewrite E in H. specialize (H eq_refl n).
    by rewrite (Hrun n [] buf w) in H by lia. }
  apply (loop_more _ n) in E. rewrite (Hrun _ [] buf w) in E by lia.
  rewrite (bind_Done _ _ _ _ _ (eq_sym E)). cbn [app]. unfold ret. cbn [q_of Mdns.qStr]. by rewrite <-app_assoc.
Qed.

(** The encoded name is a name, wherever it stands. *)
Lemma wire_name_at pre ls post :
  Forall label_ok ls ->
  name_at (pre ++ wire ls ++ post) (strlen pre) ls (strlen pre + wire_size ls).
Proof.
  intros H. revert pre. induction H as [|l ls Hl H IH]; intros pre.
  - apply name_end; [unfold strlen; lia|]. change (wire [] ++ post) with (0 :: post). unfold strlen. by rewrite Nat2Z.id, list_lookup_middle by done.
  - pose proof Hl as [Hn _]. assert (u8 (strlen l) = strlen l) as Hu by (apply u8_small; lia).
    specialize (IH (pre ++ strlen l :: l)). rewrite wire_cons, Hu, wire_size_cons.
    assert (strlen (pre ++ strlen l :: l) = strlen pre + 1 + strlen l) as E
      by (unfold strlen; rewrite length_app; cbn; lia).
    rewrite E, <-app_assoc in IH. cbn [app] in *. rewrite <-!app_assoc in *.
    replace (strlen pre + (1 + strlen l + wire_size ls)) with (strlen pre + 1 + strlen l + wire_size ls) by lia.
    apply name_label; try done.
    + unfold strlen. lia.
    + unfold strlen at 1. by rewrite Nat2Z.id, list_lookup_middle by done.
    + unfold strlen. rewrite length_app. cbn. rewrite length_app. lia.
    + unfold sub_bytes, strlen. rewrite Nat2Z.id. replace (Z.to_nat (Z.of_nat (length pre) + 1)) with (length pre + 1)%nat by lia.
      rewrite <-drop_drop, drop_app_length. cbn. by rewrite drop_0, take_app_length.
Qed.

(** A name that is a pointer to itself is never read to its end. *)
Lemma self_pointer {W} hdr p b c fuel buf (w : W) :
  Forall byteP hdr -> 0 <= p -> 192 <= b -> hdr !! Z.to_nat p = Some b -> hdr !! Z.to_nat (p + 1) = Some c ->
  (b - 192) * 256 + c = p ->
  labels2str_loop fuel hdr p (q_of [] buf) w = OutOfFuel.
Proof.
  intros Hb Hp Hb1 E Ec Hs. apply loop_out_of_fuel; [done..|]. set (cap := _ + _). clearbody cap.
  induction fuel as [|fuel IH]; [by eexists|]. cbn [steps next]. rewrite E. cbn [mbind option_bind].
  rewrite (proj2 (Z.leb_le 192 b)) by lia. rewrite Ec. cbn [mbind option_bind]. by rewrite Hs.
Qed.

End MdnsNames.

(** * Records and answers of the multicast DNS responder

    The invariant of the record list, the abstract view of a question and its
    answers, and what the functions that build a reply do in these terms. *)

Module MdnsAnswer.
Import Mdns MdnsNames.

(** ** Records *)

Definition key_of (r : mdns_rsrc) : list Z := take (Z.to_nat (rKeySize r - 1)) (rData r).
Definition data_of (r : mdns_rsrc) : list Z := drop (Z.to_nat (rKeySize r)) (rData r).

(** A record with the data [addr]. *)
Definition readdress (r : mdns_rsrc) (addr : list Z) : mdns_rsrc := with_data r (key_of r ++ 0 :: addr).

Section Answer.
Context {HD : DnsH}.

(** A record: a string, its terminator and the data, of the sizes given. *)
Record rr_ok (r : mdns_rsrc) : Prop := {
  rr_split : rData r = key_of r ++ 0 :: data_of r;
  rr_key : cstr (key_of r);
  rr_keysize : rKeySize r = strlen (key_of r) + 1;
  rr_datasize : rDataSize r = strlen (data_of r);
  rr_A : rType r = DNS_RRTYPE_A -> rDataSize r = 4;
  rr_AAAA : rType r = DNS_RRTYPE_AAAA -> rDataSize r = 16;
}.

(** The record of a key and data. *)
Lemma rr_ok_intro type ttl key data :
  cstr key -> (type = DNS_RRTYPE_A -> strlen data = 4) -> (type = DNS_RRTYPE_AAAA -> strlen data = 16) ->
  let r := {| rType := type; rTTL := ttl; rKeySize := strlen key + 1; rDataSize := strlen data; rData := key ++ 0 :: data |} in
  rr_ok r /\ key_of r = key /\ data_of r = data.
Proof.
  intros Hk HA H6 r.
  assert (key_of r = key) as Ek.
  { unfold key_of, r. cbn. replace (Z.to_nat (strlen key + 1 - 1)) with (length key) by (unfold strlen; lia). apply take_app_length. }
  assert (data_of r = data) as Ed.
  { unfold data_of, r. cbn. replace (Z.to_nat (strlen key + 1)) with (length key + 1)%nat by (unfold strlen; lia).
    by rewrite <-drop_drop, drop_app_length. }
  split; [|done]. split; rewrite ?Ek, ?Ed; done.
Qed.

Lemma readdress_ok r addr :
  rr_ok r -> strlen addr = rDataSize r ->
  rr_ok (readdress r addr) /\ key_of (readdress r addr) = key_of r /\ data_of (readdress r addr) = addr.
Proof.
  intros [H1 H2 H3 H4 H5 H6] Ha. unfold readdress, with_data. rewrite H3, <-Ha.
  apply rr_ok_intro; [done|..]; rewrite Ha; done.
Qed.

(** Is the data of the record an address of the interface? *)
Definition addressed (r : mdns_rsrc) : bool :=
  (LWIP_IPV6 && (rType r =? DNS_RRTYPE_AAAA)) || (rType r =? DNS_RRTYPE_A).

(** Records that differ in the addresses stored at most. *)
Record same_rr (r r' : mdns_rsrc) : Prop := {
  same_ok : rr_ok r -> rr_ok r';
  same_key : key_of r' = key_of r;
  same_type : rType r' = rType r;
  same_ttl : rTTL r' = rTTL r;
  same_data : addressed r = false -> data_of r' = data_of r;
}.

#[export] Instance same_rr_refl : Reflexive same_rr.
Proof. by split. Qed.
#[export] Instance same_rr_trans : Transitive same_rr.
Proof.
  intros x y z [A1 A2 A3 A4 A5] [B1 B2 B3 B4 B5]. split; [by auto|congruence..|].
  intros H1. unfold addressed in *. rewrite A3 in B5. rewrite B5 by done. auto.
Qed.

Lemma readdress_same r addr :
  rr_ok r -> strlen addr = rDataSize r -> addressed r = true -> same_rr r (readdress r addr).
Proof. intros Hr Ha Ht. destruct (readdress_ok r addr Hr Ha) as (H1 & H2 & H3). split; try done. by rewrite Ht. Qed.

(** ** Questions and answers *)

Record question := { q_name : list (list Z); q_type : Z; q_class : Z }.

(** An answer on the wire. *)
Definition rr_bytes (r : mdns_rsrc) (data : list Z) : list Z :=
  wire (labels_of (key_of r)) ++ be_bytes 2 (rType r) ++ be_bytes 2 DNS_RRCLASS_IN ++ be_bytes 4 (rTTL r) ++
  be_bytes 2 (strlen data) ++ data.

(** The data a record is answered with: the addresses of the interface, or
    what is stored. *)
Definition answer_data (nif : netif) (r : mdns_rsrc) : list (list Z) :=
  if LWIP_IPV6 && (rType r =? DNS_RRTYPE_AAAA) then snd <$> filter (fun a => fst a = true) (ip6 nif)
  else if rType r =? DNS_RRTYPE_A then [ip4 nif]
  else [data_of r].
Definition answers_of (nif : netif) (r : mdns_rsrc) : list (list Z) := rr_bytes r <$> answer_data nif r.

(** The record that answers a question: the first of the type asked for whose
    key is the name, in capitals or not. *)
Definition asked (q : question) (r : mdns_rsrc) : Prop :=
  (rType r = q_type q \/ q_type q = DNS_RRTYPE_ANY) /\ tolower <$> key_of r = tolower <$> dotted (q_name q).
#[export] Instance asked_dec q r : Decision (asked q r).
Proof. unfold asked. apply _. Defined.

Definition class_ok (q : question) : bool :=
  let c := Z.land (q_class q) 0x7FFF in (c =? DNS_RRCLASS_IN) || (c =? DNS_RRCLASS_ANY).

Definition hit (d : list mdns_rsrc) (q : question) : option (nat * mdns_rsrc) :=
  if class_ok q then list_find (asked q) d else None.

Definition question_answers (nif : netif) (d : list mdns_rsrc) (q : question) : list (list Z) :=
  match hit d q with Some (_, r) => answers_of nif r | None => [] end.

(** The record volunteered with the answer to a question. *)
Definition follower (d : list mdns_rsrc) (i : nat) (type : Z) : option nat :=
  r ← d !! S i; if rType r =? type then Some (S i) else None.
Definition volunteered (d : list mdns_rsrc) (q : question) : option nat :=
  match hit d q with
  | Some (i, _) =>
    if q_type q =? DNS_RRTYPE_PTR then follower d i DNS_RRTYPE_SRV
    else if q_type q =? DNS_RRTYPE_SRV then follower d i DNS_RRTYPE_A
    else None
  | None => None
  end.

(** The answers that find room when [len] bytes are used. *)
Fixpoint pack (len : Z) (rrs : list (list Z)) : list (list Z) :=
  match rrs with
  | [] => []
  | x :: rrs => if len + strlen x <=? MDNS_RESPONDER_REPLY_SIZE then x :: pack (len + strlen x) rrs else pack len rrs
  end.

Definition header (id : list Z) (na nx : Z) : list Z :=
  id ++ [0x84; 0; 0; 0] ++ be_bytes 2 na ++ [0; 0] ++ be_bytes 2 nx.

(** The last of several values, if there is one. *)
Definition last_of {A} (o : option A) (l : list (option A)) : option A :=
  foldl (fun acc x => match x with Some a => Some a | None => acc end) o l.

(** What is sent for a list of questions: the answers that fit, and one record
    more. *)
Definition extra_answers (nif : netif) (d : list mdns_rsrc) (o : option nat) : list (list Z) :=
  match o with
  | Some i => match d !! i with Some r => answers_of nif r | None => [] end
  | None => []
  end.
Definition reply_to (nif : netif) (d : list mdns_rsrc) (id : list Z) (qs : list question) : option (list Z) :=
  let ans := pack SIZEOF_DNS_HDR (qs ≫= question_answers nif d) in
  let ext := pack (SIZEOF_DNS_HDR + strlen (concat ans)) (extra_answers nif d (last_of None (volunteered d <$> qs))) in
  if decide (ans = []) then None
  else Some (header id (Z.of_nat (length ans)) (Z.of_nat (length ext)) ++ concat ans ++ concat ext).

(** *** The view does not depend on stored addresses *)

Lemma strlen_nonneg s : 0 <= strlen s.
Proof. unfold strlen. lia. Qed.
Lemma strlen_app a b : strlen (a ++ b) = strlen a + strlen b.
Proof. unfold strlen. rewrite length_app. lia. Qed.

Context {DL : DnsHLaws}.

Lemma type_numbers : DNS_RRTYPE_A = 1 /\ DNS_RRTYPE_PTR = 12 /\ DNS_RRTYPE_TXT = 16 /\ DNS_RRCLASS_IN = 1.
Proof. pose proof dns_numbers as H. injection H as -> -> -> ->. done. Qed.

Lemma rr_bytes_same r r' data : same_rr r r' -> rr_bytes r' data = rr_bytes r data.
Proof. intros [_ H1 H2 H3 _]. unfold rr_bytes. by rewrite H1, H2, H3. Qed.

(** The records as they are told apart by [asked]. *)
Lemma list_find_same q d d' :
  Forall2 same_rr d d' ->
  match list_find (asked q) d, list_find (asked q) d' with
  | Some (i, r), Some (i', r') => i' = i /\ same_rr r r'
  | None, None => True
  | _, _ => False
  end.
Proof.
  induction 1 as [|r r' d d' Hr Hd IH]; [done|]. cbn [list_find].
  assert (asked q r <-> asked q r') as Hq by (unfold asked; by destruct Hr as [_ -> -> _ _]).
  destruct (decide (asked q r)) as [Ha|Ha], (decide (asked q r')) as [Ha'|Ha']; try tauto.
  destruct (list_find _ d) as [[i x]|], (list_find _ d') as [[i' x']|]; try done. cbn. by destruct IH as [-> ?].
Qed.

Lemma follower_same d d' i type : Forall2 same_rr d d' -> follower d' i type = follower d i type.
Proof.
  intros H. unfold follower. pose proof (Forall2_lookup_lr same_rr d d' (S i)) as Hl.
  destruct (d !! S i) as [r|] eqn:E, (d' !! S i) as [r'|] eqn:E'; try done.
  - cbn. by rewrite (same_type r r' (Hl r r' H eq_refl eq_refl)).
  - apply lookup_lt_Some in E. apply lookup_ge_None in E'. apply Forall2_length in H. lia.
  - apply lookup_lt_Some in E'. apply lookup_ge_None in E. apply Forall2_length in H. lia.
Qed.

End Answer.
End MdnsAnswer.
