(* ===== verification/MdnsReply.v ===== *)
(** * Building a reply

    What each function on the way from a packet to the reply does, in the
    terms of [MdnsAnswer] (in [MdnsNames]). *)

From stdpp Require Import strings.
From S2P Require Import Prelude CStrings Mdns MdnsNames.
Open Scope Z_scope.

Module MdnsReply.
Import Mdns MdnsNames MdnsAnswer.

(** ** Memory *)

Lemma copy_to_app {W} X junk bs (w : W) :
  strlen bs <= strlen junk ->
  copy_to (X ++ junk) (strlen X) bs w = Done (X ++ bs ++ drop (length bs) junk, w).
Proof.
  unfold copy_to, strlen. intros H. rewrite (proj2 (andb_true_iff _ _)).
  - unfold ret. rewrite Nat2Z.id, take_app_length, <-drop_drop, drop_app_length. done.
  - rewrite length_app. split; apply Z.leb_le; lia.
Qed.

Lemma bytes_at_app {W} pre bs post (w : W) n :
  n = strlen bs -> bytes_at (pre ++ bs ++ post) (strlen pre) n w = Done (bs, w).
Proof.
  unfold bytes_at, strlen. intros ->. rewrite (proj2 (andb_true_iff _ _)).
  - unfold ret, sub_bytes. by rewrite !Nat2Z.id, drop_app_length, take_app_length.
  - rewrite !length_app. split; apply Z.leb_le; lia.
Qed.

Lemma bytes_at_end {W} pre bs (w : W) n :
  n = strlen bs -> bytes_at (pre ++ bs) (strlen pre) n w = Done (bs, w).
Proof. intros H. rewrite <-(app_nil_r bs) at 1. by apply bytes_at_app. Qed.

Lemma strlen_cons c s : strlen (c :: s) = 1 + strlen s.
Proof. unfold strlen. cbn [length]. lia. Qed.

Lemma strlen_be n z : strlen (be_bytes n z) = Z.of_nat n.
Proof. unfold strlen. by rewrite length_be_bytes. Qed.

Lemma count_up_Done {W} pre post n off (w : W) :
  off = strlen pre ->
  count_up (pre ++ be_bytes 2 n ++ post) off w = Done (pre ++ be_bytes 2 (n + 1) ++ post, w).
Proof.
  intros ->. unfold count_up. rewrite (bind_Done _ _ _ _ _ (bytes_at_app pre (be_bytes 2 n) post w 2 eq_refl)).
  rewrite copy_to_app by (rewrite strlen_app, !strlen_be; pose proof (strlen_nonneg post); lia).
  rewrite length_be_bytes. rewrite drop_app_ge by (rewrite length_be_bytes; lia).
  rewrite length_be_bytes, drop_0. do 4 f_equal. unfold be_bytes. f_equal. unfold be_val. rewrite rev_involutive.
  cbn [le_bytes le_val]. f_equal; [divlia|f_equal; divlia].
Qed.

Section Reply.
Context {HD : DnsH} {DL : DnsHLaws}.
Implicit Types (w : world) (r : mdns_rsrc) (a : reply).

(** ** The records *)

(** A change of the world that stores addresses in records and uses up fresh
    memory. *)
Definition moved w w' : Prop :=
  exists d j, w' = with_junk (with_dict w d) j /\ Forall2 same_rr (gDictP w) d.

#[export] Instance moved_refl : Reflexive moved.
Proof. intros w. exists (gDictP w), (w_junk w). split; [by destruct w|]. reflexivity. Qed.
#[export] Instance moved_trans : Transitive moved.
Proof.
  intros x y z (d & j & -> & H1) (d' & j' & -> & H2). exists d', j'. split; [done|]. cbn in H2. by transitivity d.
Qed.

Lemma set_address_Done w i r addr :
  gDictP w !! i = Some r -> rr_ok r -> strlen addr = rDataSize r ->
  set_address i addr w = Done (tt, with_dict w (<[i := readdress r addr]> (gDictP w))).
Proof.
  intros Hi Hr Ha. unfold set_address, record_at.
  rewrite (bind_Done _ _ w r w) by (unfold bind, get; by rewrite Hi).
  pose proof (rr_keysize r Hr) as Hk.
  rewrite (bind_Done _ _ w (key_of r ++ 0 :: addr) w); [done|]. rewrite (rr_split r Hr) at 1.
  replace (key_of r ++ 0 :: data_of r) with ((key_of r ++ [0]) ++ data_of r) by (by rewrite <-app_assoc).
  replace (rKeySize r) with (strlen (key_of r ++ [0])) by (by rewrite strlen_app).
  rewrite copy_to_app by (rewrite (rr_datasize r Hr) in Ha; lia).
  rewrite drop_ge by (rewrite (rr_datasize r Hr) in Ha; unfold strlen in Ha; lia). by rewrite app_nil_r, <-app_assoc.
Qed.

Lemma moved_readdress w i r addr :
  gDictP w !! i = Some r -> rr_ok r -> strlen addr = rDataSize r -> addressed r = true ->
  moved w (with_dict w (<[i := readdress r addr]> (gDictP w))).
Proof.
  intros Hi Hr Ha Ht. exists (<[i := readdress r addr]> (gDictP w)), (w_junk w). split; [done|].
  apply Forall2_same_length_lookup_2; [by rewrite length_insert|]. intros j x y Hx Hy.
  destruct (decide (i = j)) as [<-|Hne].
  - rewrite list_lookup_insert_eq in Hy by (by eapply lookup_lt_Some). simplify_eq. by apply readdress_same.
  - rewrite list_lookup_insert_ne in Hy by done. simplify_eq. done.
Qed.

(** ** Answers *)

(** A reply of [na] answers and [nx] extra records with the bytes [body]. *)
Definition building (id : list Z) (na nx : Z) (body : list Z) a : Prop :=
  exists junk, resp a = header id na nx ++ body ++ junk /\ respLen a = SIZEOF_DNS_HDR + strlen body /\
    strlen (resp a) = MDNS_RESPONDER_REPLY_SIZE.

Lemma strlen_header id na nx : strlen id = 2 -> strlen (header id na nx) = SIZEOF_DNS_HDR.
Proof. intros H. unfold header. rewrite !strlen_app, !strlen_be, H. done. Qed.

Lemma add_to_answer_spec {W} r X junk (w : W) :
  rr_ok r -> strlen (X ++ junk) = MDNS_RESPONDER_REPLY_SIZE ->
  exists junk', mdns_add_to_answer r (X ++ junk) (strlen X) w =
    Done (if strlen X + strlen (rr_bytes r (data_of r)) <=? MDNS_RESPONDER_REPLY_SIZE
          then (strlen (X ++ rr_bytes r (data_of r)), X ++ rr_bytes r (data_of r) ++ junk')
          else (strlen X, X ++ junk'), w) /\
    (strlen X + strlen (rr_bytes r (data_of r)) <= MDNS_RESPONDER_REPLY_SIZE ->
       strlen (X ++ rr_bytes r (data_of r) ++ junk') = MDNS_RESPONDER_REPLY_SIZE) /\
    (MDNS_RESPONDER_REPLY_SIZE < strlen X + strlen (rr_bytes r (data_of r)) ->
       strlen (X ++ junk') = MDNS_RESPONDER_REPLY_SIZE).
Proof.
  intros Hr Hlen. rewrite strlen_app in Hlen. pose proof (strlen_nonneg junk) as Hj. unfold mdns_add_to_answer.
  destruct (str2labels_spec (key_of r) (data_of r) (MDNS_RESPONDER_REPLY_SIZE - strlen X) w (rr_key r Hr)) as (out & E & Hout & Hw); [lia|].
  rewrite <-(rr_split r Hr) in E. run E. rewrite (bind_Done _ _ _ _ _ (copy_to_app X junk out w ltac:(lia))).
  set (L := wire_size (labels_of (key_of r))) in *. pose proof (wire_size_pos (labels_of (key_of r))) as HL. fold L in HL.
  set (D := data_of r) in *. set (A := be_bytes 2 (rType r) ++ be_bytes 2 DNS_RRCLASS_IN ++ be_bytes 4 (rTTL r) ++ be_bytes 2 (rDataSize r)).
  assert (HA : strlen A = SIZEOF_DNS_ANSWER) by (unfold A; by rewrite !strlen_app, !strlen_be).
  assert (HB : rr_bytes r D = wire (labels_of (key_of r)) ++ A ++ D).
  { unfold rr_bytes, A. rewrite (rr_datasize r Hr). by rewrite <-!app_assoc. }
  assert (HBl : strlen (rr_bytes r D) = L + SIZEOF_DNS_ANSWER + rDataSize r).
  { rewrite HB, !strlen_app, HA, (rr_datasize r Hr). fold (wire_size (labels_of (key_of r))). fold L D. lia. }
  pose proof (strlen_nonneg D) as HD0. pose proof (rr_datasize r Hr) as HDs. fold D in HDs.
  assert (Hcut : strlen (X ++ out ++ drop (length out) junk) = MDNS_RESPONDER_REPLY_SIZE).
  { rewrite !strlen_app. unfold strlen in *. rewrite length_drop. lia. }
  rewrite HBl. unfold SIZEOF_DNS_ANSWER in *.
  destruct (L <=? MDNS_RESPONDER_REPLY_SIZE - strlen X) eqn:H1; zbool.
  2:{ exists (out ++ drop (length out) junk). rewrite Z.eqb_refl, (proj2 (Z.leb_gt _ _)) by lia. split; [done|]. by split; [lia|]. }
  rewrite (proj2 (Z.eqb_neq L 0)) by lia. specialize (Hw H1). destruct (_ <? L + 10 + rDataSize r) eqn:H2; zbool.
  { exists (out ++ drop (length out) junk). rewrite (proj2 (Z.leb_gt _ _)) by lia. split; [done|]. by split; [lia|]. }
  rewrite (proj2 (Z.leb_le _ _)) by lia. assert (Hol : strlen out = L) by (by rewrite Hw).
  set (J1 := drop (length out) junk) in *. rewrite !strlen_app in Hcut. pose proof (strlen_nonneg J1) as HJ1.
  replace (X ++ out ++ J1) with ((X ++ out) ++ J1) by (by rewrite <-app_assoc).
  replace (strlen X + L) with (strlen (X ++ out)) by (rewrite strlen_app; lia). fold A.
  rewrite (bind_Done _ _ _ _ _ (copy_to_app (X ++ out) J1 A w ltac:(lia))). set (J2 := drop (length A) J1).
  assert (HJ2 : strlen J2 = strlen J1 - 10) by (unfold J2, strlen in *; rewrite length_drop; lia).
  rewrite (bind_Done _ _ w D w).
  2:{ rewrite (rr_split r Hr) at 1. replace (key_of r ++ 0 :: data_of r) with ((key_of r ++ [0]) ++ data_of r) by (by rewrite <-app_assoc).
      rewrite (rr_keysize r Hr). replace (strlen (key_of r) + 1) with (strlen (key_of r ++ [0])) by (by rewrite strlen_app).
      by apply bytes_at_end. }
  replace ((X ++ out) ++ A ++ J2) with ((X ++ out ++ A) ++ J2) by (by rewrite <-!app_assoc).
  replace (strlen (X ++ out) + 10) with (strlen (X ++ out ++ A)) by (rewrite !strlen_app; lia).
  rewrite (bind_Done _ _ _ _ _ (copy_to_app (X ++ out ++ A) J2 D w ltac:(lia))). exists (drop (length D) J2).
  unfold ret. rewrite HB, <-Hw. split; [|split; [|lia]].
  - rewrite <-!app_assoc, !strlen_app. do 3 f_equal. lia.
  - intros _. rewrite !strlen_app. unfold strlen in *. rewrite length_drop. lia.
Qed.

Lemma answer_with_spec w i r off a id na nx body :
  gDictP w !! i = Some r -> rr_ok r -> strlen id = 2 -> building id na nx body a -> off = off_numanswers \/ off = off_numextrarr ->
  let x := rr_bytes r (data_of r) in
  let fits := SIZEOF_DNS_HDR + strlen body + strlen x <=? MDNS_RESPONDER_REPLY_SIZE in
  exists a', answer_with i off a w = Done (a', w) /\ extra a' = extra a /\
    building id (na + (if fits && (off =? off_numanswers) then 1 else 0)) (nx + (if fits && (off =? off_numextrarr) then 1 else 0))
      (if fits then body ++ x else body) a'.
Proof.
  intros Hi Hr Hid (junk & Er & El & Hlen) Hoff x fits. unfold answer_with, record_at.
  rewrite (bind_Done _ _ w r w) by (unfold bind, get; by rewrite Hi).
  rewrite Er in *. rewrite app_assoc in *.
  destruct (add_to_answer_spec r (header id na nx ++ body) junk w Hr Hlen) as (junk' & E & H1 & H2).
  rewrite strlen_app, strlen_header in * by done. rewrite <-El in E. rewrite El in E at 2. fold x in E, H1, H2. fold fits in E.
  assert (Hx : 0 < strlen x).
  { unfold x, rr_bytes. rewrite !strlen_app, !strlen_be. pose proof (wire_size_pos (labels_of (key_of r))) as Hp.
    unfold wire_size in Hp. pose proof (strlen_nonneg (data_of r)). lia. }
  destruct fits eqn:Hf; unfold fits in Hf; zbool; run E; cbn [andb].
  - rewrite !strlen_app, strlen_header by done. rewrite (proj2 (Z.ltb_lt _ _)) by lia.
    specialize (H1 ltac:(lia)). unfold header in *. rewrite <-!app_assoc in *.
    assert (C : count_up (id ++ [132; 0; 0; 0] ++ be_bytes 2 na ++ [0; 0] ++ be_bytes 2 nx ++ body ++ x ++ junk') off w =
      Done (header id (na + (if off =? off_numanswers then 1 else 0)) (nx + (if off =? off_numextrarr then 1 else 0)) ++ (body ++ x) ++ junk', w)).
    { unfold header. destruct Hoff as [-> | ->].
      - pose proof (count_up_Done (id ++ [132; 0; 0; 0]) ([0; 0] ++ be_bytes 2 nx ++ body ++ x ++ junk') na off_numanswers w) as C.
        rewrite <-!app_assoc in *. rewrite C by (by rewrite strlen_app, Hid). by rewrite Z.add_0_r.
      - pose proof (count_up_Done (id ++ [132; 0; 0; 0] ++ be_bytes 2 na ++ [0; 0]) (body ++ x ++ junk') nx off_numextrarr w) as C.
        rewrite <-!app_assoc in *. rewrite C by (by rewrite !strlen_app, strlen_be, Hid). by rewrite Z.add_0_r. }
    run C. eexists. split; [done|]. split; [done|]. exists junk'. cbn [resp respLen]. split; [by rewrite <-!app_assoc|].
    split; [rewrite strlen_app; lia|]. revert H1. unfold header. rewrite !strlen_app, !strlen_be. lia.
  - rewrite (proj2 (Z.ltb_ge _ _)) by lia. rewrite !Z.add_0_r. eexists. split; [done|]. split; [done|]. exists junk'.
    cbn [resp respLen]. rewrite <-app_assoc. split; [done|]. split; [lia|]. rewrite app_assoc. apply H2. lia.
Qed.

Lemma pack_app len xs ys : pack len (xs ++ ys) = pack len xs ++ pack (len + strlen (concat (pack len xs))) ys.
Proof.
  revert len. induction xs as [|x xs IH]; intros len; cbn [pack app concat]; [by rewrite Z.add_0_r|].
  destruct (_ <=? _); [|apply IH]. cbn [app concat]. rewrite IH, strlen_app. by rewrite Z.add_assoc.
Qed.

(** A record is answered with the data [data] it holds. *)
Lemma answer_one w i r a id na nx body :
  gDictP w !! i = Some r -> rr_ok r -> strlen id = 2 -> building id na nx body a ->
  let P := pack (SIZEOF_DNS_HDR + strlen body) [rr_bytes r (data_of r)] in
  (exists a', answer_with i off_numanswers a w = Done (a', w) /\ extra a' = extra a /\
    building id (na + Z.of_nat (length P)) nx (body ++ concat P) a') /\
  (exists a', answer_with i off_numextrarr a w = Done (a', w) /\ extra a' = extra a /\
    building id na (nx + Z.of_nat (length P)) (body ++ concat P) a').
Proof.
  intros Hi Hr Hid Hb P. unfold P. cbn [pack].
  destruct (answer_with_spec w i r off_numanswers a id na nx body Hi Hr Hid Hb (or_introl eq_refl)) as (a1 & E1 & X1 & B1).
  destruct (answer_with_spec w i r off_numextrarr a id na nx body Hi Hr Hid Hb (or_intror eq_refl)) as (a2 & E2 & X2 & B2).
  destruct (_ <=? _); cbn in B1, B2; cbn [concat length]; rewrite !app_nil_r in *; rewrite ?Z.add_0_r in *; split; eauto.
Qed.

(** What the code relies on: addresses of the size of their types. *)
Definition netif_ok (nif : netif) : Prop := strlen (ip4 nif) = 4 /\ Forall (fun x => strlen (snd x) = 16) (ip6 nif).

Lemma input_netif_moved w w' : moved w w' -> input_netif w' = input_netif w.
Proof. by intros (d & j & -> & _). Qed.

Lemma answer_ip6_spec addrs i w r a id na nx body :
  gDictP w !! i = Some r -> rr_ok r -> LWIP_IPV6 && (rType r =? DNS_RRTYPE_AAAA) = true -> Forall (fun x => strlen (snd x) = 16) addrs ->
  strlen id = 2 -> building id na nx body a ->
  let P := pack (SIZEOF_DNS_HDR + strlen body) (rr_bytes r <$> (snd <$> filter (fun x => fst x = true) addrs)) in
  exists a' w', answer_ip6 i addrs a w = Done (a', w') /\ moved w w' /\ extra a' = extra a /\
    building id (na + Z.of_nat (length P)) nx (body ++ concat P) a'.
Proof.
  intros Hi Hr Ht Ha Hid Hb. revert w r a na body Hi Hr Ht Hb.
  induction Ha as [|[valid addr] addrs Hs Ha IH]; intros w r a na body Hi Hr Ht Hb P.
  { exists a, w. cbn. rewrite app_nil_r, Z.add_0_r. by repeat split. }
  cbn [answer_ip6]. destruct valid; [|by apply IH]. cbn in Hs. assert (Ht' : rType r = DNS_RRTYPE_AAAA) by (apply andb_prop in Ht as [_ Ht']; by apply Z.eqb_eq).
  assert (Hs' : strlen addr = rDataSize r) by (by rewrite (rr_AAAA r Hr Ht')).
  assert (Had : addressed r = true) by (unfold addressed; by rewrite Ht).
  rewrite (bind_Done _ _ _ _ _ (set_address_Done w i r addr Hi Hr Hs')).
  destruct (readdress_ok r addr Hr Hs') as (Hr' & Hk & Hd). set (r' := readdress r addr) in *.
  pose proof (moved_readdress w i r addr Hi Hr Hs' Had) as Hm. fold r' in Hm. set (w1 := with_dict w _) in *.
  assert (Hi' : gDictP w1 !! i = Some r') by (apply list_lookup_insert_eq; by eapply lookup_lt_Some).
  pose proof (readdress_same r addr Hr Hs' Had) as Hsame. fold r' in Hsame.
  destruct (answer_one w1 i r' a id na nx body Hi' Hr' Hid Hb) as [(a1 & E1 & X1 & B1) _].
  rewrite Hd, (rr_bytes_same r r' addr Hsame) in B1. run E1.
  destruct (IH w1 r' a1 _ _ Hi' Hr' Ht B1) as (a2 & w2 & E2 & Hm2 & X2 & B2).
  exists a2, w2. split; [done|]. split; [by transitivity w1|]. split; [congruence|]. revert B2.
  unfold P. rewrite filter_cons_True by done. rewrite !fmap_cons. cbn [snd].
  set (l := rr_bytes r <$> _). change (rr_bytes r addr :: l) with ([rr_bytes r addr] ++ l).
  rewrite (pack_app _ [_] l), length_app, concat_app.
  rewrite (list_fmap_ext (rr_bytes r') (rr_bytes r)) by (intros; by apply rr_bytes_same).
  rewrite strlen_app, <-app_assoc, !Z.add_assoc, Nat2Z.inj_add, Z.add_assoc. done.
Qed.

(** A record with its address, where it has one, stored first. *)
Lemma answer_stored w i r (b : bool) off a id na nx body :
  gDictP w !! i = Some r -> rr_ok r -> strlen (ip4 (input_netif w)) = 4 -> LWIP_IPV6 && (rType r =? DNS_RRTYPE_AAAA) = false ->
  strlen id = 2 -> building id na nx body a -> off = (if b then off_numanswers else off_numextrarr) ->
  let P := pack (SIZEOF_DNS_HDR + strlen body) (answers_of (input_netif w) r) in
  let n := Z.of_nat (length P) in
  exists a' w', bind (if rType r =? DNS_RRTYPE_A then set_address i (ip4 (input_netif w)) else ret tt)
                  (fun _ => answer_with i off a) w = Done (a', w') /\ moved w w' /\ extra a' = extra a /\
    building id (na + if b then n else 0) (nx + if b then 0 else n) (body ++ concat P) a'.
Proof.
  intros Hi Hr Hn H6 Hid Hb -> P n. unfold n, P, answers_of, answer_data. rewrite H6. destruct (_ =? DNS_RRTYPE_A) eqn:Ht.
  - apply Z.eqb_eq in Ht. assert (Hs : strlen (ip4 (input_netif w)) = rDataSize r) by (by rewrite (rr_A r Hr Ht)).
    rewrite (bind_Done _ _ _ _ _ (set_address_Done w i r _ Hi Hr Hs)).
    destruct (readdress_ok r _ Hr Hs) as (Hr' & Hk & Hd).
    assert (Had : addressed r = true) by (unfold addressed; by rewrite H6, Ht, Z.eqb_refl).
    pose proof (moved_readdress w i r _ Hi Hr Hs Had) as Hm. pose proof (readdress_same r _ Hr Hs Had) as Hsame.
    set (r' := readdress r _) in *. set (w1 := with_dict w _) in *.
    assert (Hi' : gDictP w1 !! i = Some r') by (apply list_lookup_insert_eq; by eapply lookup_lt_Some).
    destruct (answer_one w1 i r' a id na nx body Hi' Hr' Hid Hb) as [(a1 & E1 & X1 & B1) (a2 & E2 & X2 & B2)].
    rewrite Hd, (rr_bytes_same r r' _ Hsame) in B1, B2. destruct b; [exists a1, w1|exists a2, w1]; rewrite ?Z.add_0_r; eauto.
  - rewrite (bind_Done _ _ w tt w) by done.
    destruct (answer_one w i r a id na nx body Hi Hr Hid Hb) as [(a1 & E1 & X1 & B1) (a2 & E2 & X2 & B2)].
    destruct b; [exists a1, w|exists a2, w]; rewrite ?Z.add_0_r; split_and!; eauto; reflexivity.
Qed.

Lemma record_at_Done w i r : gDictP w !! i = Some r -> record_at i w = Done (r, w).
Proof. intros Hi. unfold record_at, bind, get. by rewrite Hi. Qed.

Lemma next_of_type_Done w i type : next_of_type i type w = Done (follower (gDictP w) i type, w).
Proof. unfold next_of_type, follower, bind, get. by destruct (gDictP w !! S i). Qed.

Definition volunteer (d : list mdns_rsrc) (i : nat) (type : Z) : option nat :=
  if type =? DNS_RRTYPE_PTR then follower d i DNS_RRTYPE_SRV
  else if type =? DNS_RRTYPE_SRV then follower d i DNS_RRTYPE_A
  else None.
Definition or_else (o p : option nat) : option nat := match o with Some i => Some i | None => p end.

Lemma answer_question_spec w i r qType a id na nx body :
  gDictP w !! i = Some r -> rr_ok r -> netif_ok (input_netif w) -> rType r = qType \/ qType = DNS_RRTYPE_ANY ->
  strlen id = 2 -> building id na nx body a ->
  let P := pack (SIZEOF_DNS_HDR + strlen body) (answers_of (input_netif w) r) in
  exists a' w', answer_question i qType a w = Done (a', w') /\ moved w w' /\
    extra a' = or_else (volunteer (gDictP w) i qType) (extra a) /\
    building id (na + Z.of_nat (length P)) nx (body ++ concat P) a'.
Proof.
  intros Hi Hr [Hn4 Hn6] Hq Hid Hb P. unfold answer_question. rewrite (bind_Done _ _ _ _ _ (record_at_Done w i r Hi)).
  rewrite (bind_Done _ _ w w w) by done. destruct type_numbers as (TA & TP & TT & TI). unfold volunteer.
  destruct (LWIP_IPV6 && _) eqn:H6.
  - assert (rType r = DNS_RRTYPE_AAAA) as Ht by (apply andb_prop in H6 as [_ Ht]; by apply Z.eqb_eq).
    destruct (answer_ip6_spec (ip6 (input_netif w)) i w r a id na nx body) as (a' & w' & E & Hm & X & B); try done.
    exists a', w'. split; [done|]. split; [done|]. rewrite (proj2 (Z.eqb_neq qType _)), (proj2 (Z.eqb_neq qType _))
      by (unfold DNS_RRTYPE_ANY, DNS_RRTYPE_AAAA, DNS_RRTYPE_SRV in *; lia). split; [done|].
    unfold P, answers_of, answer_data. by rewrite H6.
  - destruct (answer_stored w i r true off_numanswers a id na nx body) as (a' & w' & E & Hm & X & B); try done.
    rewrite Z.add_0_r in B. fold P in B. pose proof E as E'. rewrite <-bind_assoc. run E'.
    exists (set_extra a' (volunteer (gDictP w) i qType)), w'. split_and!.
    + pose proof Hm as (d & j & -> & Hd). unfold volunteer.
      destruct (qType =? DNS_RRTYPE_PTR); [|destruct (qType =? DNS_RRTYPE_SRV)];
        (rewrite (bind_Done _ _ _ _ _ (next_of_type_Done _ i _)) || rewrite (bind_Done _ _ _ None _ eq_refl));
        cbn [gDictP with_junk with_dict]; rewrite ?(follower_same _ d) by done; done.
    + done.
    + cbn [set_extra extra]. by rewrite X.
    + destruct B as (junk & B1 & B2 & B3). by exists junk.
Qed.

(** ** Questions *)

(** The questions [qs] in the packet [hdr] from [p] on. *)
Inductive questions_at (hdr : list Z) : Z -> list question -> Prop :=
| questions_nil p : questions_at hdr p []
| questions_cons p q p' qs :
    name_at hdr p (q_name q) p' -> wire_size (q_name q) <= kMaxQStr -> 0 <= q_type q < 65536 -> 0 <= q_class q < 65536 ->
    p' + SIZEOF_DNS_QUERY <= Z.of_nat (length hdr) ->
    sub_bytes hdr p' SIZEOF_DNS_QUERY = be_bytes 2 (q_type q) ++ be_bytes 2 (q_class q) ->
    questions_at hdr (p' + SIZEOF_DNS_QUERY) qs -> questions_at hdr p (q :: qs).

Lemma name_at_pos hdr p ls p' : name_at hdr p ls p' -> 0 <= p /\ 0 <= p'.
Proof. induction 1; lia. Qed.

Lemma name_at_labels hdr p ls p' : name_at hdr p ls p' -> Forall label_ok ls.
Proof. induction 1; [constructor|by constructor|done]. Qed.

Lemma be_val_2 x : 0 <= x < 65536 -> be_val (be_bytes 2 x) = x.
Proof. intros. rewrite be_val_bytes. by apply Z.mod_small. Qed.

Lemma get_question_Done {W} hdr p q p' buf (w : W) :
  Forall byteP hdr -> strlen buf = kMaxQStr -> name_at hdr p (q_name q) p' -> wire_size (q_name q) <= kMaxQStr ->
  0 <= q_type q < 65536 -> 0 <= q_class q < 65536 -> p' + SIZEOF_DNS_QUERY <= Z.of_nat (length hdr) ->
  sub_bytes hdr p' SIZEOF_DNS_QUERY = be_bytes 2 (q_type q) ++ be_bytes 2 (q_class q) ->
  exists junk, mdns_get_question hdr p buf w =
    Done ((p' + SIZEOF_DNS_QUERY, dotted (q_name q) ++ 0 :: junk, Z.land (q_class q) 0x7FFF, q_type q, Z.shiftr (q_class q) 15), w).
Proof.
  intros Hb Hbuf Hn Hfit Ht Hc Hlen Hsub. destruct (name_at_pos _ _ _ _ Hn) as [Hp Hp']. unfold mdns_get_question.
  rewrite (bind_Done _ _ _ _ _ (labels2str_name hdr p _ p' buf w Hb Hp Hbuf Hn Hfit)). unfold bytes_at.
  rewrite (proj2 (andb_true_iff _ _)) by (split; apply Z.leb_le; lia). rewrite (bind_Done _ _ w _ w eq_refl), Hsub.
  eexists. unfold ret, sub_bytes. do 2 f_equal. change (Z.to_nat 2) with 2%nat. change (Z.to_nat 0) with 0%nat.
  rewrite drop_0, take_app_length', drop_app_length', take_ge by (rewrite ?length_be_bytes; done).
  by rewrite !be_val_2.
Qed.

Lemma match_from_Done {W} i rs q junk (w : W) :
  Forall rr_ok rs -> Forall label_ok (q_name q) ->
  match_from i rs (dotted (q_name q) ++ 0 :: junk) (q_type q) w =
    Done ((fun x => i + x)%nat <$> (fst <$> list_find (asked q) rs), w).
Proof.
  intros Hrs Hq. revert i. induction Hrs as [|r rs Hr Hrs IH]; intros i; [done|]. cbn [match_from list_find].
  destruct (_ || _) eqn:E.
  - assert (Ht : rType r = q_type q \/ q_type q = DNS_RRTYPE_ANY) by (apply orb_prop in E as [E|E]; zbool; auto).
    rewrite (rr_split r Hr), strcasecmp_eq_spec; [|apply (rr_key r Hr)|by apply dotted_cstr].
    cbn [deref]. rewrite (bind_Done _ _ w _ w eq_refl).
    destruct (decide (asked q r)) as [Ha|Ha].
    + rewrite bool_decide_true by apply Ha. cbn. by rewrite Nat.add_0_r.
    + rewrite bool_decide_false by (intros Hk; by apply Ha). rewrite IH.
      destruct (list_find _ rs) as [[j x]|]; [|done]. cbn. do 3 f_equal. lia.
  - assert (Ht : ~ (rType r = q_type q \/ q_type q = DNS_RRTYPE_ANY)) by (apply orb_false_elim in E as [E1 E2]; zbool; tauto).
    rewrite decide_False by (intros [? _]; tauto). rewrite IH. destruct (list_find _ rs) as [[j x]|]; [|done]. cbn. do 3 f_equal. lia.
Qed.

Lemma fresh_Done w n : 0 <= n -> exists bs j, fresh n w = Done (bs, with_junk w j) /\ strlen bs = n.
Proof. intros H. unfold fresh. do 2 eexists. split; [done|]. unfold strlen. rewrite length_resize. lia. Qed.

Lemma with_junk_moved w j : moved w (with_junk w j).
Proof. exists (gDictP w), j. split; [by destruct w|]. reflexivity. Qed.

(** One question. *)
Lemma question_spec w q buf_junk a id na nx body :
  Forall rr_ok (gDictP w) -> netif_ok (input_netif w) -> Forall label_ok (q_name q) ->
  strlen id = 2 -> building id na nx body a ->
  let P := pack (SIZEOF_DNS_HDR + strlen body) (question_answers (input_netif w) (gDictP w) q) in
  exists a' w',
    (let qClass := Z.land (q_class q) 0x7FFF in
     if (qClass =? DNS_RRCLASS_IN) || (qClass =? DNS_RRCLASS_ANY) then
       let! o := mdns_match (dotted (q_name q) ++ 0 :: buf_junk) (q_type q) in
       match o with
       | Some i => answer_question i (q_type q) a
       | None => ret a
       end
     else ret a) w = Done (a', w') /\ moved w w' /\
    extra a' = or_else (volunteered (gDictP w) q) (extra a) /\
    building id (na + Z.of_nat (length P)) nx (body ++ concat P) a'.
Proof.
  intros Hd Hn Hq Hid Hb P. unfold P, question_answers, volunteered, hit. cbn zeta. fold (class_ok q).
  assert (Hnone : exists a' w', ret a w = Done (a', w') /\ moved w w' /\ extra a' = extra a /\
    building id (na + Z.of_nat 0) nx (body ++ concat []) a').
  { exists a, w. cbn. rewrite app_nil_r, Z.add_0_r. by split_and!. }
  destruct (class_ok q); [|exact Hnone]. unfold mdns_match. rewrite bind_assoc, (bind_Done _ _ w w w) by done.
  rewrite (bind_Done _ _ _ _ _ (match_from_Done 0 (gDictP w) q buf_junk w Hd Hq)).
  destruct (list_find (asked q) (gDictP w)) as [[i r]|] eqn:E; [|exact Hnone]. cbn [fmap option_fmap option_map fst].
  apply list_find_Some in E as (Hi & [Ht _] & _). assert (Hr : rr_ok r) by (by eapply Forall_lookup_1).
  apply (answer_question_spec w i r (q_type q) a id na nx body); done.
Qed.

Lemma moved_ok w w' : moved w w' -> Forall rr_ok (gDictP w) -> Forall rr_ok (gDictP w').
Proof.
  intros (d & j & -> & H) Hd. cbn. induction H as [|x y l l' Hxy H IH]; [constructor|].
  inversion Hd; subst. constructor; [by apply Hxy|by apply IH].
Qed.

Lemma answers_of_same nif r r' : same_rr r r' -> answers_of nif r' = answers_of nif r.
Proof.
  intros H. unfold answers_of, answer_data. rewrite (same_type r r' H).
  rewrite (list_fmap_ext (rr_bytes r') (rr_bytes r)) by (intros; by apply rr_bytes_same). f_equal.
  destruct (LWIP_IPV6 && _) eqn:E6; [done|]. destruct (_ =? DNS_RRTYPE_A) eqn:EA; [done|].
  rewrite (same_data r r' H); [done|]. unfold addressed. by rewrite E6, EA.
Qed.

(** The view of the records is the same after addresses have been stored. *)
Lemma question_answers_same nif d d' q :
  Forall2 same_rr d d' -> question_answers nif d' q = question_answers nif d q.
Proof.
  intros H. unfold question_answers, hit. destruct (class_ok q); [|done]. pose proof (list_find_same q d d' H) as Hf.
  destruct (list_find _ d) as [[i r]|], (list_find _ d') as [[i' r']|]; try done. destruct Hf as [_ Hr]. by apply answers_of_same.
Qed.

Lemma volunteered_same d d' q : Forall2 same_rr d d' -> volunteered d' q = volunteered d q.
Proof.
  intros H. unfold volunteered, hit. destruct (class_ok q); [|done]. pose proof (list_find_same q d d' H) as Hf.
  destruct (list_find _ d) as [[i r]|], (list_find _ d') as [[i' r']|]; try done. destruct Hf as [-> _].
  by rewrite !(follower_same d d') by done.
Qed.

Lemma extra_answers_same nif d d' o : Forall2 same_rr d d' -> extra_answers nif d' o = extra_answers nif d o.
Proof.
  intros H. destruct o as [i|]; [|done]. cbn. destruct (d !! i) as [r|] eqn:E.
  - destruct (Forall2_lookup_l _ _ _ _ _ H E) as (r' & -> & Hr). by apply answers_of_same.
  - apply lookup_ge_None in E. rewrite (Forall2_length _ _ _ H) in E. by rewrite (lookup_ge_None_2 d').
Qed.

Lemma last_of_cons (o x : option nat) l : last_of o (x :: l) = last_of (or_else x o) l.
Proof. done. Qed.

Lemma questions_loop_spec hdr qs p w a id na nx body :
  Forall byteP hdr -> questions_at hdr p qs -> Forall rr_ok (gDictP w) -> netif_ok (input_netif w) ->
  strlen id = 2 -> building id na nx body a ->
  let P := pack (SIZEOF_DNS_HDR + strlen body) (qs ≫= question_answers (input_netif w) (gDictP w)) in
  exists a' w', questions_loop (length qs) hdr p a w = Done (a', w') /\ moved w w' /\
    extra a' = last_of (extra a) (volunteered (gDictP w) <$> qs) /\
    building id (na + Z.of_nat (length P)) nx (body ++ concat P) a'.
Proof.
  intros Hb Hq Hd Hn Hid. revert w a na body Hd Hn. induction Hq as [p|p q p' qs Hname Hfit Ht Hc Hlen Hsub _ IH];
    intros w a na body Hd Hn Hbld P.
  { exists a, w. cbn. rewrite app_nil_r, Z.add_0_r. by split_and!. }
  cbn [length questions_loop]. destruct (fresh_Done w kMaxQStr ltac:(done)) as (buf & j & Ef & Hbuf). run Ef.
  set (w0 := with_junk w j). destruct (get_question_Done hdr p q p' buf w0) as (junk & Eg); [done..|]. run Eg.
  destruct (question_spec w0 q junk a id na nx body) as (a1 & w1 & E1 & Hm1 & X1 & B1); try done.
  { by eapply name_at_labels. }
  cbn zeta in E1. run E1. assert (Hm : moved w w1) by (transitivity w0; [apply with_junk_moved|done]).
  change (gDictP w0) with (gDictP w) in *. change (input_netif w0) with (input_netif w) in *.
  destruct (IH w1 a1 _ _ (moved_ok w w1 Hm Hd) ltac:(by rewrite (input_netif_moved w w1 Hm)) B1) as (a2 & w2 & E2 & Hm2 & X2 & B2).
  exists a2, w2. split; [done|]. split; [by transitivity w1|]. rewrite (input_netif_moved w w1 Hm) in B2.
  pose proof Hm as (d & j' & Ew & Hsame). rewrite Ew in X2, B2. cbn [gDictP with_junk with_dict] in X2, B2.
  rewrite (list_fmap_ext (volunteered d) (volunteered (gDictP w))) in X2 by (intros; by apply volunteered_same).
  rewrite (list_bind_ext (question_answers (input_netif w) d) (question_answers (input_netif w) (gDictP w)) qs qs) in B2
    by (done || intros; by apply question_answers_same).
  split; [by rewrite X2, X1, fmap_cons, last_of_cons|]. unfold P. rewrite bind_cons, pack_app, length_app, concat_app.
  rewrite strlen_app, <-app_assoc, !Z.add_assoc, Nat2Z.inj_add, Z.add_assoc in *. done.
Qed.

Lemma last_of_Some (o : option nat) l i : last_of o l = Some i -> o = Some i \/ Some i ∈ l.
Proof.
  revert o. induction l as [|x l IH]; intros o; [by left|]. rewrite last_of_cons. intros H.
  destruct (IH _ H) as [E|Hin]; [|by right; right]. destruct x as [j|]; [|by left]. cbn in E. right. rewrite E. left.
Qed.

(** The record volunteered is in the list and is no IPv6 address. *)
Lemma volunteered_record d qs i :
  last_of None (volunteered d <$> qs) = Some i ->
  exists r, d !! i = Some r /\ LWIP_IPV6 && (rType r =? DNS_RRTYPE_AAAA) = false.
Proof.
  intros H. apply last_of_Some in H as [|H]; [done|]. apply list_elem_of_fmap in H as (q & E & _). symmetry in E.
  unfold volunteered in E. destruct (hit d q) as [[j x]|]; [|done]. destruct type_numbers as (TA & _).
  assert (Hf : forall t, t = 1 \/ t = 33 -> follower d j t = Some i ->
    exists r, d !! i = Some r /\ LWIP_IPV6 && (rType r =? DNS_RRTYPE_AAAA) = false).
  { unfold follower. intros t Ht. destruct (d !! S j) as [r|] eqn:Er; [|done]. cbn. destruct (_ =? t) eqn:Et; [|done].
    intros [= <-]. exists r. split; [done|]. apply Z.eqb_eq in Et. rewrite (proj2 (Z.eqb_neq _ _)); [by rewrite andb_false_r|].
    unfold DNS_RRTYPE_AAAA. lia. }
  destruct (_ =? DNS_RRTYPE_PTR); [apply (Hf DNS_RRTYPE_SRV); [by right|done]|].
  destruct (_ =? DNS_RRTYPE_SRV); [apply (Hf DNS_RRTYPE_A); [by left|done]|done].
Qed.

Lemma answer_extra_spec w a id na body :
  Forall rr_ok (gDictP w) -> netif_ok (input_netif w) -> strlen id = 2 -> building id na 0 body a ->
  (forall i, extra a = Some i -> exists r, gDictP w !! i = Some r /\ LWIP_IPV6 && (rType r =? DNS_RRTYPE_AAAA) = false) ->
  let P := pack (SIZEOF_DNS_HDR + strlen body) (extra_answers (input_netif w) (gDictP w) (extra a)) in
  exists a' w', answer_extra a w = Done (a', w') /\ moved w w' /\
    building id na (Z.of_nat (length P)) (body ++ concat P) a'.
Proof.
  intros Hd [Hn _] Hid Hb Hx. unfold answer_extra, extra_answers. destruct (extra a) as [i|].
  - destruct (Hx i eq_refl) as (r & Hi & H6). assert (Hr : rr_ok r) by (by eapply Forall_lookup_1). rewrite Hi.
    rewrite (bind_Done _ _ _ _ _ (record_at_Done w i r Hi)), (bind_Done _ _ w w w) by done.
    destruct (answer_stored w i r false off_numextrarr a id na 0 body) as (a' & w' & E & Hm & _ & B); try done.
    rewrite Z.add_0_r in B. exists a', w'. by rewrite Z.add_0_l in B.
  - exists a, w. cbn. rewrite app_nil_r. by split_and!.
Qed.

(** ** Packets *)

Definition dest (v6 : bool) : group := if v6 then gMulticastV6Addr else gMulticastV4Addr.

(** From [w] to [w'] at most [out] is sent, and it is sent when allocations
    and lwIP succeed; otherwise only addresses are stored. *)
Record sends (v6 : bool) (out : option (list Z)) w w' : Prop := {
  sends_dict : Forall2 same_rr (gDictP w) (gDictP w');
  sends_rest : (gMDNS_pcb w', receiving w', station_netif w', softap_netif w', input_netif w') =
    (gMDNS_pcb w, receiving w, station_netif w, softap_netif w, input_netif w);
  sends_most : sent w' = sent w \/ exists m, out = Some m /\ sent w' = sent w ++ [(dest v6, m)];
  sends_all : w_alloc w = [] -> w_err w = [] ->
    w_alloc w' = [] /\ w_err w' = [] /\ sent w' = sent w ++ match out with Some m => [(dest v6, m)] | None => [] end;
}.

Lemma sends_after v6 out w w1 w2 :
  moved w w1 -> sends v6 out w1 w2 -> sends v6 out w w2.
Proof.
  intros (d & j & -> & Hd) [H1 H2 H3 H4]. split; try done. cbn in H1. by transitivity d.
Qed.

(** Steps that only allocate and free. *)
Lemma sends_alloc v6 out w l h p w2 :
  (w_alloc w = [] -> l = []) -> sends v6 out (with_alloc w l h p) w2 -> sends v6 out w w2.
Proof. intros Hl [H1 H2 H3 H4]. split; try done. intros Ha He. apply H4; [by apply Hl|done]. Qed.

Lemma sends_free v6 out w w1 h p : sends v6 out w w1 -> sends v6 out w (with_alloc w1 (w_alloc w1) h p).
Proof. intros [H1 H2 H3 H4]. by split. Qed.

Lemma sends_nothing v6 w w' : moved w w' -> sends v6 None w w'.
Proof.
  intros (d & j & -> & Hd). split; [done|done|by left|]. intros Ha He. cbn. rewrite app_nil_r. by split_and!.
Qed.

(** Nothing can be sent without memory. *)
Lemma sends_not v6 out w l h p : w_alloc w <> [] -> sends v6 out w (with_alloc w l h p).
Proof. intros Hl. split; [done|done|by left|done]. Qed.

Lemma malloc_cases w :
  exists (ok : bool) l, malloc w = Done (ok, with_alloc w l (heap w + if ok then 1 else 0) (pbufs w)) /\
    (w_alloc w = [] -> ok = true /\ l = []).
Proof. unfold malloc. destruct (w_alloc w) as [|b l]; [by exists true, []|by exists b, l]. Qed.

Lemma pbuf_alloc_cases w :
  exists (ok : bool) l, pbuf_alloc w = Done (ok, with_alloc w l (heap w) (pbufs w + if ok then 1 else 0)) /\
    (w_alloc w = [] -> ok = true /\ l = []).
Proof. unfold pbuf_alloc. destruct (w_alloc w) as [|b l]; [by exists true, []|by exists b, l]. Qed.

Lemma udp_sendto_cases w g msg :
  exists (ok : bool) e, udp_sendto_if g msg w = Done (ok, if ok then with_sent (with_err w e) (sent w ++ [(g, msg)]) else with_err w e) /\
    (w_err w = [] -> ok = true /\ e = []).
Proof.
  unfold udp_sendto_if, lwip_ok. destruct (w_err w) as [|b e] eqn:E.
  - exists true, []. unfold bind. rewrite E. split; [|done]. by destruct w; cbn in *; subst.
  - exists b, e. unfold bind. rewrite E. by destruct b.
Qed.

Lemma send_mcast_spec v6 w msg junk :
  (v6 = true -> LWIP_IPV6 = true) ->
  exists w', mdns_send_mcast v6 (msg ++ junk) (strlen msg) w = Done (tt, w') /\ sends v6 (Some msg) w w' /\
    heap w' = heap w /\ pbufs w' = pbufs w.
Proof.
  intros Hv. unfold mdns_send_mcast. destruct (pbuf_alloc_cases w) as (ok & l & E & Hl). run E. destruct ok; cbn [negb].
  2:{ eexists. split; [done|]. split; [|cbn; by rewrite Z.add_0_r]. apply sends_not. intros Ha. by destruct (Hl Ha). }
  set (w1 := with_alloc _ _ _ _). pose proof (bytes_at_app [] msg junk w1 (strlen msg) eq_refl) as Eb.
  cbn [app] in Eb. change (strlen []) with 0 in Eb. run Eb.
  rewrite (bind_Done _ _ w1 (dest v6) w1) by (destruct v6; [by rewrite Hv|done]).
  destruct (udp_sendto_cases w1 (dest v6) msg) as (ok' & e & Eu & He). run Eu.
  eexists. split; [reflexivity|]. split; [|destruct ok'; cbn; lia]. split; [by destruct ok'|by destruct ok'| |].
  - destruct ok'; [right; eauto|by left].
  - intros Ha Hw. destruct (He Hw) as [-> ->], (Hl Ha) as [_ ->]. done.
Qed.

Lemma concat_pack_nil len xs : concat (pack len xs) = [] -> Forall (fun x => x <> []) xs -> pack len xs = [].
Proof.
  intros H Hx. revert len H. induction Hx as [|x xs Hne Hx IH]; intros len H; [done|]. cbn [pack] in *.
  destruct (_ <=? _); [|by apply IH]. by destruct x.
Qed.

Lemma answers_nonempty nif d qs : Forall (fun x => x <> []) (qs ≫= question_answers nif d).
Proof.
  apply Forall_bind. apply Forall_true. intros q. unfold compose, question_answers.
  destruct (hit d q) as [[i r]|]; [|by apply Forall_nil].
  unfold answers_of. apply Forall_fmap, Forall_true. intros x. cbn. unfold rr_bytes, wire. by destruct (concat _).
Qed.

(** The end of [mdns_reply], once the questions have been answered. *)
Lemma reply_end v6 w w3 a id qs :
  (v6 = true -> LWIP_IPV6 = true) -> Forall rr_ok (gDictP w) -> netif_ok (input_netif w) -> strlen id = 2 -> moved w w3 ->
  let A := pack SIZEOF_DNS_HDR (qs ≫= question_answers (input_netif w) (gDictP w)) in
  building id (Z.of_nat (length A)) 0 (concat A) a -> extra a = last_of None (volunteered (gDictP w) <$> qs) ->
  exists w4, (if SIZEOF_DNS_HDR <? respLen a then
      let! a := answer_extra a in mdns_send_mcast v6 (resp a) (respLen a) else ret tt) w3 = Done (tt, w4) /\
    sends v6 (reply_to (input_netif w) (gDictP w) id qs) w3 w4 /\ heap w4 = heap w3 /\ pbufs w4 = pbufs w3.
Proof.
  intros Hv Hd Hn Hid Hm A HB HX. unfold reply_to. fold A. pose proof HB as (_ & _ & El & _).
  pose proof Hm as (d & j & Ew & Hs).
  assert (HA : A = [] <-> concat A = []) by (split; [by intros ->|intros H; by apply concat_pack_nil, answers_nonempty]).
  destruct (decide (A = [])) as [E|E].
  - rewrite El, E. cbn. exists w3. split; [done|]. split; [|done]. by apply sends_nothing.
  - assert (0 < strlen (concat A)) as Hpos.
    { assert (concat A <> []) as Hne by tauto. destruct (concat A); [done|]. rewrite strlen_cons. pose proof (strlen_nonneg l). lia. }
    rewrite El, (proj2 (Z.ltb_lt _ _)) by lia.
    destruct (answer_extra_spec w3 a id _ _ (moved_ok w w3 Hm Hd) ltac:(by rewrite (input_netif_moved w w3 Hm)) Hid HB) as (a' & w4 & E4 & Hm4 & B4).
    { rewrite HX. intros i Hi. destruct (volunteered_record _ _ _ Hi) as (r & Hr & H6).
      destruct (Forall2_lookup_l _ _ _ _ _ Hs Hr) as (r' & Hr' & Hrr). exists r'. rewrite Ew. split; [done|]. by rewrite (same_type r r' Hrr). }
    run E4. rewrite HX, (input_netif_moved w w3 Hm) in B4. rewrite Ew in B4 at 1 2. cbn [gDictP with_junk with_dict] in B4.
    rewrite (extra_answers_same _ (gDictP w) d) in B4 by done. destruct B4 as (junk & Er & El' & _).
    rewrite Er, El'. set (X := pack _ (extra_answers _ _ _)).
    set (m := header id (Z.of_nat (length A)) (Z.of_nat (length X)) ++ concat A ++ concat X).
    destruct (send_mcast_spec v6 w4 m junk Hv) as (w5 & E5 & S5 & H5 & P5).
    exists w5. split.
    { rewrite <-E5. unfold m. f_equal; [by rewrite <-!app_assoc|]. rewrite !strlen_app, strlen_header by done. lia. }
    destruct Hm4 as (d4 & j4 & -> & Hd4). split; [|done]. eapply sends_after; [|exact S5]. by exists d4, j4.
Qed.

Lemma reply_spec v6 hdr id qs w :
  Forall byteP hdr -> (v6 = true -> LWIP_IPV6 = true) -> Forall rr_ok (gDictP w) -> netif_ok (input_netif w) ->
  sub_bytes hdr 0 2 = id -> be_val (sub_bytes hdr 4 2) = Z.of_nat (length qs) -> 6 <= strlen hdr ->
  questions_at hdr SIZEOF_DNS_HDR qs ->
  exists w', mdns_reply v6 hdr w = Done (tt, w') /\ sends v6 (reply_to (input_netif w) (gDictP w) id qs) w w' /\
    heap w' = heap w /\ pbufs w' = pbufs w.
Proof.
  intros Hb Hv Hd Hn Eid Enq Hlen Hq. unfold mdns_reply. destruct (malloc_cases w) as (ok & l & E & Hl). run E.
  destruct ok; cbn [negb].
  2:{ eexists. split; [done|]. split; [|cbn; by rewrite Z.add_0_r]. apply sends_not. intros Ha. by destruct (Hl Ha). }
  set (w1 := with_alloc _ _ _ _). destruct (fresh_Done w1 MDNS_RESPONDER_REPLY_SIZE ltac:(done)) as (buf & j & Ef & Hbuf). run Ef.
  set (w2 := with_junk w1 j). assert (Hid : strlen id = 2).
  { rewrite <-Eid. unfold strlen, sub_bytes in *. rewrite length_take, length_drop. lia. }
  assert (Hbytes : forall i, 0 <= i <= 4 -> bytes_at hdr i 2 w2 = Done (sub_bytes hdr i 2, w2)).
  { intros i Hi. unfold bytes_at, strlen in *. rewrite (proj2 (andb_true_iff _ _)); [done|split; apply Z.leb_le; lia]. }
  rewrite (bind_Done _ _ _ _ _ (Hbytes 0 ltac:(lia))), Eid. set (h := id ++ _).
  assert (Hh : h = header id 0 0) by done.
  pose proof (copy_to_app [] buf h w2) as Ec. cbn [app] in Ec. change (strlen []) with 0 in Ec.
  rewrite (bind_Done _ _ _ _ _ (Ec ltac:(rewrite Hh, strlen_header, Hbuf by done; done))). clear Ec.
  rewrite (bind_Done _ _ _ _ _ (Hbytes 4 ltac:(lia))), Enq, Nat2Z.id. set (a0 := {| resp := _ |}).
  assert (B0 : building id 0 0 [] a0).
  { exists (drop (length h) buf). cbn [resp respLen a0 app]. rewrite Hh. split; [done|]. split; [done|].
    rewrite strlen_app, strlen_header by done. unfold strlen in *. rewrite length_drop.
    pose proof (strlen_header id 0 0 Hid) as Hs. unfold strlen in Hs. unfold SIZEOF_DNS_HDR, MDNS_RESPONDER_REPLY_SIZE in *. lia. }
  destruct (questions_loop_spec hdr qs SIZEOF_DNS_HDR w2 a0 id 0 0 [] Hb Hq Hd Hn Hid B0) as (a1 & w3 & E1 & Hm & X1 & B1).
  run E1. change (strlen []) with 0 in B1. change (gDictP w2) with (gDictP w) in *. change (input_netif w2) with (input_netif w) in *.
  cbn [app extra a0] in B1, X1. rewrite Z.add_0_l, Z.add_0_r in B1.
  assert (Hfin : exists w4, (if SIZEOF_DNS_HDR <? respLen a1 then
      let! a := answer_extra a1 in mdns_send_mcast v6 (resp a) (respLen a) else ret tt) w3 = Done (tt, w4) /\
      sends v6 (reply_to (input_netif w) (gDictP w) id qs) w3 w4 /\ heap w4 = heap w3 /\ pbufs w4 = pbufs w3).
  { apply (reply_end v6 w1 w3); try done. }
  destruct Hfin as (w4 & E4 & S4 & H4 & P4). run E4. eexists. split; [done|]. split; [|].
  - eapply sends_alloc; [|apply sends_free; eapply sends_after; [|exact S4]]; [intros Ha; by apply Hl|].
    transitivity w2; [apply with_junk_moved|done].
  - cbn. rewrite H4, P4. destruct Hm as (d & j' & -> & _). cbn. lia.
Qed.

(** ** The callback *)

(** A packet that holds a standard query with the identifier [id] and the
    questions [qs]: well-formed, with names of at most [kMaxQStr] bytes. *)
Record query_packet (p : pbuf) (id : list Z) (qs : list question) : Prop := {
  qp_len : tot_len p = strlen (chain p);
  qp_bytes : Forall byteP (chain p);
  qp_id : sub_bytes (chain p) 0 2 = id;
  qp_flags : exists f, chain p !! 2%nat = Some f /\ Z.land f (DNS_FLAG1_RESP + DNS_FLAG1_OPMASK + DNS_FLAG1_TRUNC) = 0;
  qp_count : be_val (sub_bytes (chain p) 4 2) = Z.of_nat (length qs);
  qp_some : qs <> [];
  qp_questions : questions_at (chain p) SIZEOF_DNS_HDR qs;
}.

(** The sizes that are accepted: a header, a question and an answer. *)
Definition size_accepted (p : pbuf) : bool := (28 <=? tot_len p) && (tot_len p <=? MDNS_RESPONDER_REPLY_SIZE).

Lemma recv_size p v6 w : size_accepted p = false ->
  mdns_recv p v6 w = Done (tt, with_alloc w (w_alloc w) (heap w) (pbufs w - 1)).
Proof.
  unfold size_accepted, mdns_recv. intros H. destruct (MDNS_RESPONDER_REPLY_SIZE <? tot_len p) eqn:E1; [done|]. zbool.
  destruct H as [H|H]; [|lia].
  rewrite (proj2 (Z.ltb_lt (tot_len p) _)) by (unfold SIZEOF_DNS_HDR, SIZEOF_DNS_QUERY, SIZEOF_DNS_ANSWER; lia). done.
Qed.

Lemma recv_spec p v6 id qs w :
  size_accepted p = true -> query_packet p id qs -> (v6 = true -> LWIP_IPV6 = true) -> Forall rr_ok (gDictP w) -> netif_ok (input_netif w) ->
  exists w', mdns_recv p v6 w = Done (tt, w') /\ sends v6 (reply_to (input_netif w) (gDictP w) id qs) w w' /\
    heap w' = heap w /\ pbufs w' = pbufs w - 1.
Proof.
  intros Hsize [Hlen Hb Hid (f & Ef & Hf) Hc Hne Hq] Hv Hd Hn. unfold mdns_recv, size_accepted in *. zbool.
  rewrite (proj2 (Z.ltb_ge _ _)) by lia. rewrite (proj2 (Z.ltb_ge (tot_len p) _))
     by (unfold SIZEOF_DNS_HDR, SIZEOF_DNS_QUERY, SIZEOF_DNS_ANSWER; lia).
  assert (Hin : exists w1, (let! ok := malloc in
      if negb ok then ret tt
      else
        let payload := take (Z.to_nat (tot_len p)) (chain p) in
        do! (if Z.of_nat (length payload) =? tot_len p then
               let! flags1 := byte_at payload 2 in
               let! numquestions := bytes_at payload 4 2 in
               if (Z.land flags1 (DNS_FLAG1_RESP + DNS_FLAG1_OPMASK + DNS_FLAG1_TRUNC) =? 0) && (0 <? be_val numquestions)
               then mdns_reply v6 payload else ret tt
             else ret tt) then free) w = Done (tt, w1) /\
      sends v6 (reply_to (input_netif w) (gDictP w) id qs) w w1 /\ heap w1 = heap w /\ pbufs w1 = pbufs w).
  { destruct (malloc_cases w) as (ok & l & E & Hl). run E. destruct ok; cbn [negb].
    2:{ eexists. split; [done|]. split; [|cbn; by rewrite Z.add_0_r]. apply sends_not. intros Ha. by destruct (Hl Ha). }
    cbn zeta. rewrite Hlen in *. unfold strlen in *. rewrite Nat2Z.id, take_ge, Z.eqb_refl by lia. set (w1 := with_alloc _ _ _ _).
    destruct (reply_spec v6 (chain p) id qs w1 Hb Hv Hd Hn Hid Hc ltac:(unfold strlen; lia) Hq) as (w2 & E2 & S2 & H2 & P2).
    unfold bind at 1. rewrite (bind_Done _ _ _ _ _ (byte_at_Done (chain p) 2 f w1 ltac:(lia) Ef)).
    rewrite (bind_Done _ _ w1 (sub_bytes (chain p) 4 2) w1)
      by (unfold bytes_at; rewrite (proj2 (andb_true_iff _ _)); [done|split; apply Z.leb_le; lia]).
    rewrite Hf, Hc. rewrite (proj2 (Z.ltb_lt _ _)) by (destruct qs; [done|cbn; lia]). cbn [Z.eqb andb]. rewrite E2.
    eexists. split; [done|]. split; [|cbn; rewrite H2, P2; cbn; lia].
    eapply sends_alloc; [|apply sends_free; exact S2]. intros Ha. by apply Hl. }
  destruct Hin as (w1 & E1 & S1 & H1 & P1). run E1. eexists. split; [done|]. split; [by apply sends_free|]. cbn. lia.
Qed.

Lemma sends_ok v6 out w w' : sends v6 out w w' -> Forall rr_ok (gDictP w) -> Forall rr_ok (gDictP w').
Proof. intros [H _ _ _] Hd. apply (moved_ok w (with_dict w (gDictP w'))); [|done]. exists (gDictP w'), (w_junk w). by split. Qed.

(** A reply is never longer than the buffer. *)
Lemma strlen_pack len xs : len <= MDNS_RESPONDER_REPLY_SIZE -> len + strlen (concat (pack len xs)) <= MDNS_RESPONDER_REPLY_SIZE.
Proof.
  revert len. induction xs as [|x xs IH]; intros len H; cbn [pack concat]; [change (strlen []) with 0; lia|].
  destruct (_ <=? _) eqn:E; [|by apply IH]. apply Z.leb_le in E. cbn [concat]. rewrite strlen_app. specialize (IH _ E). lia.
Qed.

Lemma reply_size nif d id qs m :
  strlen id = 2 -> reply_to nif d id qs = Some m -> SIZEOF_DNS_HDR < strlen m <= MDNS_RESPONDER_REPLY_SIZE.
Proof.
  unfold reply_to. intros Hid. destruct (decide _) as [|Hne]; [done|]. intros [= <-].
  rewrite !strlen_app, strlen_header by done. set (A := pack SIZEOF_DNS_HDR _) in *.
  pose proof (strlen_pack SIZEOF_DNS_HDR (qs ≫= question_answers nif d) ltac:(done)) as H1. fold A in H1.
  pose proof (strlen_pack _ (extra_answers nif d (last_of None (volunteered d <$> qs))) H1) as H2. split; [|lia].
  assert (concat A <> []) as HA by (intros HA; apply Hne, concat_pack_nil; [done|apply answers_nonempty]).
  destruct (concat A) eqn:E; [done|]. rewrite strlen_cons. pose proof (strlen_nonneg l).
  match goal with |- context [concat (pack ?a ?b)] => pose proof (strlen_nonneg (concat (pack a b))) end. lia.
Qed.
End Reply.
End MdnsReply.
