(* ===== verification/MdnsRecords.v ===== *)
(** * Adding records

    What the functions that build the record list add to it, and the records of
    a service. *)

From stdpp Require Import strings.
From S2P Require Import Prelude CStrings Mdns MdnsNames MdnsReply.
Open Scope Z_scope.

Module MdnsRecords.
Import Mdns MdnsNames MdnsAnswer MdnsReply.

(** The record with a key and data. *)
Definition rr (type ttl : Z) (key data : list Z) : mdns_rsrc :=
  {| rType := type; rTTL := ttl; rKeySize := strlen key + 1; rDataSize := strlen data; rData := key ++ 0 :: data |}.

(** [w] with the records [rs] added, when allocations succeed. *)
Definition added (w : world) (rs : list mdns_rsrc) : world :=
  with_alloc (with_dict w (rs ++ gDictP w)) [] (heap w + Z.of_nat (length rs)) (pbufs w).

Lemma added_added w rs rs' : added (added w rs) rs' = added w (rs' ++ rs).
Proof. unfold added, with_alloc, with_dict. cbn. f_equal; [by rewrite app_assoc|rewrite length_app; lia]. Qed.

Lemma added_nil w : w_alloc w = [] -> added w [] = w.
Proof. intros H. unfold added, with_alloc, with_dict. cbn. rewrite Z.add_0_r. destruct w. cbn in *. by subst. Qed.

Section Records.
Context {HD : DnsH} {DL : DnsHLaws}.

Lemma malloc_Done w : w_alloc w = [] -> malloc w = Done (true, with_alloc w [] (heap w + 1) (pbufs w)).
Proof. intros H. unfold malloc. by rewrite H. Qed.

Lemma malloc_again w h p : malloc (with_alloc w [] h p) = Done (true, with_alloc w [] (h + 1) p).
Proof. done. Qed.

Lemma bytes_at_0 {W} mem n (w : W) : 0 <= n <= strlen mem -> bytes_at mem 0 n w = Done (take (Z.to_nat n) mem, w).
Proof.
  intros H. unfold bytes_at, strlen in *. by rewrite (proj2 (andb_true_iff _ _)) by (split; apply Z.leb_le; lia).
Qed.

Lemma add_response_Done key type ttl dataP n w :
  w_alloc w = [] -> strlen key + 1 < 65536 -> 0 <= n <= strlen dataP ->
  mdns_add_response key type ttl dataP n w = Done (tt, added w [rr type ttl key (take (Z.to_nat n) dataP)]).
Proof.
  intros Ha Hk Hn. unfold mdns_add_response. rewrite (bind_Done _ _ _ _ _ (malloc_Done w Ha)). cbn [negb].
  rewrite (bind_Done _ _ _ _ _ (bytes_at_0 dataP n _ Hn)). pose proof (strlen_nonneg key).
  unfold modify, added, rr. rewrite u16_small by lia.
  replace (strlen (take (Z.to_nat n) dataP)) with n by (unfold strlen in *; rewrite length_take; lia). done.
Qed.

(** Records that point to a name are left out when the name is too long. *)
Definition named (type ttl : Z) (key pre name : list Z) : list mdns_rsrc :=
  if wire_size (labels_of name) <=? kMaxNameSize then [rr type ttl key (pre ++ wire (labels_of name))] else [].

Lemma add_PTR_Done key ttl name w :
  w_alloc w = [] -> strlen key + 1 < 65536 -> cstr name ->
  mdns_add_PTR key ttl name w = Done (tt, added w (named DNS_RRTYPE_PTR ttl key [] name)).
Proof.
  intros Ha Hk Hn. unfold mdns_add_PTR, named.
  destruct (str2labels_spec name [] kMaxNameSize w Hn ltac:(done)) as (out & E & Hout & Hw). run E.
  pose proof (wire_size_pos (labels_of name)). destruct (_ <=? _) eqn:E1.
  - apply Z.leb_le in E1. rewrite (proj2 (Z.ltb_lt 0 _)) by lia. rewrite (Hw E1). fold (wire_size (labels_of name)).
    rewrite add_response_Done by (unfold wire_size in *; done || lia). unfold wire_size, strlen. by rewrite Nat2Z.id, take_ge.
  - rewrite added_nil; done.
Qed.

Lemma add_SRV_Done key ttl port name w :
  w_alloc w = [] -> strlen key + 1 < 65536 -> cstr name ->
  mdns_add_SRV key ttl port name w =
    Done (tt, added w (named DNS_RRTYPE_SRV ttl key ([0; 0; 0; 0] ++ be_bytes 2 port) name)).
Proof.
  intros Ha Hk Hn. unfold mdns_add_SRV, named.
  destruct (str2labels_spec name [] kMaxNameSize w Hn ltac:(done)) as (out & E & Hout & Hw). run E.
  pose proof (wire_size_pos (labels_of name)). destruct (_ <=? _) eqn:E1.
  - apply Z.leb_le in E1. rewrite (proj2 (Z.ltb_lt 0 _)) by lia. rewrite (Hw E1). set (pre := _ ++ _ ++ _).
    assert (Hs : SIZEOF_DNS_RR_SRV + wire_size (labels_of name) = strlen (pre ++ wire (labels_of name))) by (by rewrite strlen_app).
    rewrite Hs. rewrite add_response_Done by (done || (split; [apply strlen_nonneg|lia])). unfold strlen. by rewrite Nat2Z.id, take_ge.
  - rewrite added_nil; done.
Qed.

(** Texts of more than 255 characters are left out. *)
Definition texts (ttl : Z) (key text : list Z) : list mdns_rsrc :=
  if strlen text <=? 255 then [rr DNS_RRTYPE_TXT ttl key (strlen text :: text)] else [].

Lemma add_TXT_Done key ttl text w :
  w_alloc w = [] -> strlen key + 1 < 65536 -> strlen text < 65536 ->
  mdns_add_TXT key ttl text w = Done (tt, added w (texts ttl key text)).
Proof.
  intros Ha Hk Hn. unfold mdns_add_TXT, texts. pose proof (strlen_nonneg text). rewrite u16_small by lia.
  destruct (_ <=? 255) eqn:E; [apply Z.leb_le in E; rewrite (proj2 (Z.ltb_ge _ _)) by lia|
    apply Z.leb_gt in E; rewrite (proj2 (Z.ltb_lt _ _)), added_nil by (done || lia); done].
  rewrite (bind_Done _ _ _ _ _ (malloc_Done w Ha)). cbn [negb]. set (w1 := with_alloc _ _ _ _).
  rewrite (bind_Done _ _ _ _ _ (bytes_at_0 text (strlen text) w1 ltac:(lia))).
  assert (take (Z.to_nat (strlen text)) text = text) as -> by (unfold strlen; rewrite Nat2Z.id; by apply take_ge).
  rewrite (bind_Done _ _ _ _ _ (add_response_Done key DNS_RRTYPE_TXT ttl (strlen text :: text) (strlen text + 1) w1 eq_refl Hk ltac:(rewrite strlen_cons; lia))).
  replace (take (Z.to_nat (strlen text + 1)) (strlen text :: text)) with (strlen text :: text)
    by (rewrite take_ge; [done|unfold strlen; cbn [length]; lia]).
  unfold free, modify, added, with_alloc, with_dict, w1. cbn. do 3 f_equal. lia.
Qed.

Lemma add_A_Done key ttl addr w :
  w_alloc w = [] -> strlen key + 1 < 65536 -> strlen addr = 4 ->
  mdns_add_A key ttl addr w = Done (tt, added w [rr DNS_RRTYPE_A ttl key addr]).
Proof.
  intros Ha Hk Hn. unfold mdns_add_A. rewrite add_response_Done by (done || lia). unfold strlen in Hn.
  by rewrite take_ge by lia.
Qed.

Lemma add_AAAA_Done key ttl addr w :
  w_alloc w = [] -> strlen key + 1 < 65536 -> strlen addr = 16 ->
  mdns_add_AAAA key ttl addr w = Done (tt, added w [rr DNS_RRTYPE_AAAA ttl key addr]).
Proof.
  intros Ha Hk Hn. unfold mdns_add_AAAA. rewrite add_response_Done by (done || lia). unfold strlen in Hn.
  by rewrite take_ge by lia.
Qed.

(** ** A service *)

Definition proto (flags : Z) : list Z := if Z.land flags mdns_UDP =? 0 then str "_tcp" else str "_udp".
Definition service_key (svc : list Z) (flags : Z) : list Z := svc ++ str "." ++ proto flags ++ str ".local.".
Definition full_name (inst svc : list Z) (flags : Z) : list Z := inst ++ str "." ++ service_key svc flags.
Definition dev_name (inst : list Z) : list Z := inst ++ str ".local.".
Definition services_key : list Z := str "_services._dns-sd._udp.local.".

(** The records of a service, as they come to stand in the list. *)
Definition facility_records (inst svc : list Z) (text : option (list Z)) (flags port ttl : Z) : list mdns_rsrc :=
  (if negb (Z.land flags mdns_Browsable =? 0)
   then named DNS_RRTYPE_PTR ttl services_key [] (service_key svc flags) else []) ++
  named DNS_RRTYPE_PTR ttl (service_key svc flags) [] (full_name inst svc flags) ++
  named DNS_RRTYPE_SRV ttl (full_name inst svc flags) ([0; 0; 0; 0] ++ be_bytes 2 port) (dev_name inst) ++
  [rr DNS_RRTYPE_A ttl (dev_name inst) [0; 0; 0; 0]] ++
  (if LWIP_IPV6 then [rr DNS_RRTYPE_AAAA ttl (dev_name inst) (replicate 16 0)] else []) ++
  match text with Some t => texts ttl (full_name inst svc flags) t | None => [] end.

Lemma snprintf_all size s : size = strlen s + 1 -> snprintf size s = s.
Proof. intros ->. unfold snprintf. apply take_ge. unfold strlen. lia. Qed.

Lemma proto_size flags : strlen (proto flags) = 4.
Proof. unfold proto. by destruct (_ =? 0). Qed.

Lemma proto_cstr flags : cstr (proto flags).
Proof. unfold proto. destruct (_ =? 0); repeat constructor; done. Qed.

Lemma names_cstr inst svc flags :
  cstr inst -> cstr svc -> cstr (service_key svc flags) /\ cstr (full_name inst svc flags) /\ cstr (dev_name inst).
Proof.
  intros Hi Hs. pose proof (proto_cstr flags) as Hp. unfold full_name, dev_name, service_key.
  rewrite !cstr_app. split_and!; try done; repeat constructor; done.
Qed.

Lemma names_size inst svc flags :
  strlen (service_key svc flags) = strlen svc + 12 /\ strlen (full_name inst svc flags) = strlen inst + 1 + (strlen svc + 12) /\
  strlen (dev_name inst) = strlen inst + 7.
Proof.
  unfold full_name, dev_name, service_key. rewrite !strlen_app, proto_size.
  change (strlen (str ".")) with 1. change (strlen (str ".local.")) with 7. lia.
Qed.

Lemma add_facility_Done inst svc text flags port ttl w :
  w_alloc w = [] -> cstr inst -> cstr svc -> strlen inst + strlen svc + 14 < 65536 ->
  (forall t, text = Some t -> strlen t < 65536) ->
  mdns_add_facility inst svc text flags port ttl w = Done (tt, added w (facility_records inst svc text flags port ttl)).
Proof.
  intros Ha Hi Hs Hlen Ht. unfold mdns_add_facility.
  rewrite (bind_Done _ _ _ _ _ (malloc_Done w Ha)), (bind_Done _ _ _ _ _ (malloc_again w _ _)), (bind_Done _ _ _ _ _ (malloc_again w _ _)).
  cbn [negb andb]. destruct (names_size inst svc flags) as (L1 & L2 & L3). destruct (names_cstr inst svc flags Hi Hs) as (C1 & C2 & C3).
  pose proof (strlen_nonneg inst). pose proof (strlen_nonneg svc). fold (proto flags). fold (service_key svc flags).
  rewrite !(snprintf_all _ (service_key svc flags)) by lia. fold (full_name inst svc flags). fold (dev_name inst).
  rewrite (snprintf_all _ (full_name inst svc flags)) by lia. rewrite (snprintf_all _ (dev_name inst)) by lia.
  set (w0 := with_alloc _ _ _ _).
  assert (E1 : match text with Some t => mdns_add_TXT (full_name inst svc flags) ttl t | None => ret tt end w0 =
    Done (tt, added w0 (match text with Some t => texts ttl (full_name inst svc flags) t | None => [] end))).
  { destruct text as [t|]; [apply add_TXT_Done; [done|lia|by apply Ht]|by rewrite added_nil]. }
  run E1. set (w1 := added w0 _).
  assert (E2 : (if LWIP_IPV6 then mdns_add_AAAA (dev_name inst) ttl (replicate 16 0) else ret tt) w1 =
    Done (tt, added w1 (if LWIP_IPV6 then [rr DNS_RRTYPE_AAAA ttl (dev_name inst) (replicate 16 0)] else []))).
  { destruct LWIP_IPV6; [apply add_AAAA_Done; [done|lia|done]|by rewrite added_nil]. }
  run E2. erewrite bind_Done by (apply add_A_Done; [done|lia|done]).
  erewrite bind_Done by (apply add_SRV_Done; [done|lia|done]).
  erewrite bind_Done by (apply add_PTR_Done; [done|lia|done]).
  set (w5 := added _ _).
  assert (E6 : (if negb (Z.land flags mdns_Browsable =? 0) then mdns_add_PTR services_key ttl (service_key svc flags) else ret tt) w5 =
    Done (tt, added w5 (if negb (Z.land flags mdns_Browsable =? 0)
      then named DNS_RRTYPE_PTR ttl services_key [] (service_key svc flags) else []))).
  { destruct (negb _); [apply add_PTR_Done; done|by rewrite added_nil]. }
  run E6. unfold w5, w1, facility_records. rewrite !added_added. set (rs := _ ++ _).
  replace (_ ++ _ ++ _ ++ _) with rs by (unfold rs; by rewrite <-!app_assoc).
  unfold free, modify, bind, added, w0, with_alloc, with_dict. cbn. do 3 f_equal. lia.
Qed.
End Records.
End MdnsRecords.
