(* ===== verification/MdnsContract.v ===== *)
(** * What the multicast DNS responder promises

    The properties of [extras/mdnsresponder/mdnsresponder.c]: queries get the
    answers of the record list, a service added can be found, names are read as
    they were written, and what the responder does not withstand. *)

From stdpp Require Import strings.
From S2P Require Import Prelude CStrings Mdns MdnsNames MdnsReply MdnsRecords.
Open Scope Z_scope.

Module MdnsContract.
Import Mdns MdnsNames MdnsAnswer MdnsReply MdnsRecords.

Section Contract.
Context {HD : DnsH} {DL : DnsHLaws}.

(** A query with one question, as a resolver sends it. *)
Definition encode_query (id : list Z) (q : question) : list Z :=
  id ++ [0; 0; 0; 1; 0; 0; 0; 0; 0; 0] ++ wire (q_name q) ++ be_bytes 2 (q_type q) ++ be_bytes 2 (q_class q).
Definition query_pbuf (id : list Z) (q : question) : pbuf :=
  {| tot_len := strlen (encode_query id q); chain := encode_query id q |}.

Definition question_ok (q : question) : Prop :=
  Forall label_ok (q_name q) /\ wire_size (q_name q) <= kMaxQStr /\ 0 <= q_type q < 65536 /\ 0 <= q_class q < 65536.

Lemma strlen_encode_query id q : strlen id = 2 -> strlen (encode_query id q) = 16 + wire_size (q_name q).
Proof.
  intros Hid. unfold encode_query. rewrite !strlen_app, !strlen_be, Hid. unfold wire_size.
  change (strlen [0; 0; 0; 1; 0; 0; 0; 0; 0; 0]) with 10. lia.
Qed.

Lemma encode_query_questions id q :
  strlen id = 2 -> question_ok q -> questions_at (encode_query id q) SIZEOF_DNS_HDR [q].
Proof.
  intros Hid (Hl & Hfit & Ht & Hc). pose proof (strlen_encode_query id q Hid) as Hn. unfold encode_query in *.
  set (pre := id ++ [0; 0; 0; 1; 0; 0; 0; 0; 0; 0]). set (t := be_bytes 2 (q_type q) ++ be_bytes 2 (q_class q)) in *.
  assert (Hpre : strlen pre = 12) by (unfold pre; by rewrite strlen_app, Hid).
  rewrite app_assoc in *. fold pre in Hn |- *. pose proof (wire_name_at pre (q_name q) t Hl) as Hname. rewrite Hpre in Hname.
  econstructor; [exact Hname|done|done|done| | |constructor].
  - unfold SIZEOF_DNS_QUERY, strlen in *. lia.
  - unfold sub_bytes, wire_size, strlen in *. rewrite drop_app_ge by lia.
    replace (Z.to_nat _ - length pre)%nat with (length (wire (q_name q))) by lia.
    rewrite drop_app_length. apply take_ge. unfold t. by rewrite length_app, !length_be_bytes.
Qed.

Lemma wire_byte ls : Forall label_ok ls -> Forall byteP (wire ls).
Proof.
  intros Hl. unfold wire. apply Forall_app. split; [|by repeat constructor]. induction Hl as [|l ls [Hn Hl] _ IH]; [constructor|].
  cbn [fmap list_fmap concat app]. constructor; [apply u8_range|]. apply Forall_app. split; [|exact IH].
  eapply Forall_impl; [exact Hl|]. intros c [? _]. unfold byteP. lia.
Qed.

Lemma encode_query_packet id q :
  strlen id = 2 -> Forall byteP id -> question_ok q -> query_packet (query_pbuf id q) id [q].
Proof.
  intros Hid Hb Hq. destruct Hq as (Hl & Hfit & Ht & Hc).
  destruct id as [|x [|y [|z id]]]; try (unfold strlen in Hid; cbn in Hid; lia).
  split; cbn [query_pbuf tot_len chain]; [done| |done|by exists 0|done|done|by apply encode_query_questions].
  - unfold encode_query. rewrite !Forall_app. split_and!; [done|by repeat constructor|by apply wire_byte|apply be_bytes_byte..].
Qed.

(** ** Queries *)

(** C26. A query gets its answers.  For a packet of 28 to 320 bytes that holds a
    standard query, with well-formed names of at most 128 bytes, the callback
    returns with every buffer freed, and multicasts one reply, of at most 320
    bytes: the identifier of the query, the number of answers and extra
    records, for each question the records of the type asked for under the
    name asked for (in capitals or not) with the current addresses of the
    interface, as far as there is room, and the SRV or A record that follows the
    last PTR or SRV record found.  Without an answer nothing is sent; when
    memory is short or sending fails nothing else changes.  A query of any
    other size is dropped.  (Longer names overrun the buffer,
    [mdns_recv_name_overflow]; a question for a host of up to three letters is
    a packet that is too short, [mdns_short_query_ignored].) *)
Theorem mdns_recv_answers p v6 id qs w :
  query_packet p id qs -> (v6 = true -> LWIP_IPV6 = true) -> Forall rr_ok (gDictP w) -> netif_ok (input_netif w) ->
  if size_accepted p then
    exists w', mdns_recv p v6 w = Done (tt, w') /\
      sends v6 (reply_to (input_netif w) (gDictP w) id qs) w w' /\ heap w' = heap w /\ pbufs w' = pbufs w - 1 /\
      Forall rr_ok (gDictP w') /\
      (forall m, reply_to (input_netif w) (gDictP w) id qs = Some m -> strlen m <= MDNS_RESPONDER_REPLY_SIZE)
  else mdns_recv p v6 w = Done (tt, with_alloc w (w_alloc w) (heap w) (pbufs w - 1)).
Proof.
  intros Hq Hv Hd Hn. destruct (size_accepted p) eqn:Hs; [|by apply recv_size].
  destruct (recv_spec p v6 id qs w Hs Hq Hv Hd Hn) as (w' & E & S & H1 & H2).
  exists w'. split_and!; try done; [by eapply sends_ok|]. intros m Hm. apply reply_size in Hm; [lia|].
  rewrite <-(qp_id p id qs Hq). unfold strlen, sub_bytes. rewrite length_take, length_drop.
  pose proof (qp_len p id qs Hq). unfold size_accepted, strlen in *. zbool. lia.
Qed.

(** ** Services *)

Lemma hit_middle pre r post q :
  class_ok q = true -> Forall (fun x => ~ asked q x) pre -> asked q r -> hit (pre ++ r :: post) q = Some (length pre, r).
Proof.
  intros Hc Hpre Hr. unfold hit. rewrite Hc. rewrite list_find_app_r by (by apply list_find_None).
  cbn [list_find]. rewrite decide_True by done. cbn. do 2 f_equal; lia.
Qed.

Lemma follower_middle pre r n post type :
  follower (pre ++ r :: n :: post) (length pre) type = if rType n =? type then Some (S (length pre)) else None.
Proof.
  unfold follower. replace (S (length pre)) with (length pre + 1)%nat by lia.
  rewrite lookup_app_r by lia. by replace (length pre + 1 - length pre)%nat with 1%nat by lia.
Qed.

(** The reply to one question with one answer and at most one record more. *)
Lemma reply_one nif d id q i r x X :
  hit d q = Some (i, r) -> answers_of nif r = [x] ->
  extra_answers nif d (volunteered d q) = X -> (length X <= 1)%nat ->
  SIZEOF_DNS_HDR + strlen x + strlen (concat X) <= MDNS_RESPONDER_REPLY_SIZE ->
  reply_to nif d id [q] = Some (header id 1 (Z.of_nat (length X)) ++ x ++ concat X).
Proof.
  intros Hh Hx HX Hl Hs. unfold reply_to. change ([q] ≫= question_answers nif d) with (question_answers nif d q ++ []).
  rewrite app_nil_r. unfold question_answers. change (volunteered d <$> [q]) with [volunteered d q].
  rewrite Hh, Hx. change (last_of None [volunteered d q]) with (or_else (volunteered d q) None).
  replace (or_else (volunteered d q) None) with (volunteered d q) by (by destruct (volunteered d q)). rewrite HX.
  pose proof (strlen_nonneg (concat X)). cbn [pack]. rewrite (proj2 (Z.leb_le _ _)) by lia. cbn [pack].
  rewrite decide_False by done. cbn [concat length]. rewrite app_nil_r.
  assert (pack (SIZEOF_DNS_HDR + strlen x) X = X) as ->; [|done].
  destruct X as [|y [|z X]]; [done| |cbn in Hl; lia]. cbn [pack concat] in *. rewrite app_nil_r in Hs. by rewrite (proj2 (Z.leb_le _ _)).
Qed.

(** A record found with the record behind it volunteered. *)
Lemma reply_middle nif id pre r n post q x y :
  class_ok q = true -> Forall (fun x => ~ asked q x) pre -> asked q r -> answers_of nif r = [x] -> answers_of nif n = [y] ->
  q_type q = DNS_RRTYPE_PTR /\ rType n = DNS_RRTYPE_SRV \/ q_type q = DNS_RRTYPE_SRV /\ rType n = DNS_RRTYPE_A ->
  SIZEOF_DNS_HDR + strlen x + strlen y <= MDNS_RESPONDER_REPLY_SIZE ->
  reply_to nif (pre ++ r :: n :: post) id [q] = Some (header id 1 1 ++ x ++ y).
Proof.
  intros Hc Hpre Hr Hx Hy Ht. assert (concat [y] = y) as <- by apply app_nil_r. intros Hs. pose proof (hit_middle pre r (n :: post) q Hc Hpre Hr) as Hh.
  apply (reply_one nif _ id q _ _ x [y] Hh Hx); [|done|done].
  assert (Hv : volunteered (pre ++ r :: n :: post) q = Some (S (length pre))).
  { unfold volunteered. rewrite Hh. destruct type_numbers as (TA & TP & _). unfold DNS_RRTYPE_SRV in *.
    destruct Ht as [[Eq En]|[Eq En]]; rewrite Eq, follower_middle, ?follower_middle, ?En.
    - by rewrite !Z.eqb_refl.
    - by rewrite (proj2 (Z.eqb_neq 33 _)), !Z.eqb_refl by lia. }
  rewrite Hv. cbn [extra_answers]. rewrite lookup_app_r by lia. by replace (S (length pre) - length pre)%nat with 1%nat by lia.
Qed.

(** A record found for a question that volunteers nothing. *)
Lemma reply_alone nif id pre r post q x :
  class_ok q = true -> Forall (fun x => ~ asked q x) pre -> asked q r -> answers_of nif r = [x] ->
  q_type q <> DNS_RRTYPE_PTR -> q_type q <> DNS_RRTYPE_SRV -> SIZEOF_DNS_HDR + strlen x <= MDNS_RESPONDER_REPLY_SIZE ->
  reply_to nif (pre ++ r :: post) id [q] = Some (header id 1 0 ++ x).
Proof.
  intros Hc Hpre Hr Hx H1 H2 Hs. pose proof (hit_middle pre r post q Hc Hpre Hr) as Hh.
  rewrite <-(app_nil_r x). change (@nil Z) with (concat (@nil (list Z))).
  apply (reply_one nif _ id q _ _ x [] Hh Hx); [|cbn; lia|change (strlen (concat [])) with 0; lia].
  unfold volunteered. by rewrite Hh, (proj2 (Z.eqb_neq _ _)), (proj2 (Z.eqb_neq _ _)).
Qed.

(** Names as labels. *)
Definition service_labels (svc : list Z) (flags : Z) : list (list Z) := [svc; proto flags; str "local"].

Lemma service_key_dotted svc flags : service_key svc flags = dotted (service_labels svc flags).
Proof. unfold service_key, dotted, service_labels. cbn [fmap list_fmap concat]. by rewrite <-!app_assoc. Qed.
Lemma full_name_dotted inst svc flags : full_name inst svc flags = dotted (inst :: service_labels svc flags).
Proof. unfold full_name. rewrite service_key_dotted. unfold dotted. cbn [fmap list_fmap concat]. by rewrite <-!app_assoc. Qed.
Lemma dev_name_dotted inst : dev_name inst = dotted [inst; str "local"].
Proof. unfold dev_name, dotted. cbn [fmap list_fmap concat]. by rewrite <-!app_assoc. Qed.

Lemma proto_label flags : label_ok (proto flags).
Proof. unfold proto. destruct (_ =? 0); (split; [done|]); repeat constructor; done. Qed.
Lemma local_label : label_ok (str "local").
Proof. split; [done|]. repeat constructor; done. Qed.
Lemma service_labels_ok svc flags : label_ok svc -> Forall label_ok (service_labels svc flags).
Proof. intros H. unfold service_labels. rewrite !Forall_cons. split_and!; [done|apply proto_label|apply local_label|done]. Qed.

(** The number of dots tells names of different length apart. *)
Definition dots (s : list Z) : nat := length (filter (fun c => c = DOT) s).

Lemma dots_app a b : dots (a ++ b) = (dots a + dots b)%nat.
Proof. unfold dots. by rewrite filter_app, length_app. Qed.

Lemma dots_tolower s : dots (tolower <$> s) = dots s.
Proof.
  unfold dots. induction s as [|c s IH]; [done|]. rewrite fmap_cons.
  assert (tolower c = DOT <-> c = DOT) by (unfold tolower, DOT; destruct (_ && _) eqn:E; zbool; lia).
  destruct (decide (c = DOT)); [rewrite !filter_cons_True by tauto; cbn; by rewrite IH|by rewrite !filter_cons_False by tauto].
Qed.

Lemma dots_dotted ls : Forall label_ok ls -> dots (dotted ls) = length ls.
Proof.
  induction 1 as [|l ls [_ Hl] _ IH]; [done|]. unfold dotted. cbn [fmap list_fmap concat length]. fold (dotted ls).
  rewrite !dots_app, IH. replace (dots l) with 0%nat; [done|]. clear IH. induction Hl as [|c l [_ Hc] _ IHl]; [done|].
  unfold dots. by rewrite filter_cons_False.
Qed.

(** The packet makes [w] multicast the message [m], and nothing else. *)
Definition multicasts (p : pbuf) w (m : list Z) : Prop :=
  exists w', mdns_recv p false w = Done (tt, w') /\ sent w' = sent w ++ [(gMulticastV4Addr, m)].

Lemma multicasts_intro p id qs w m :
  w_alloc w = [] -> w_err w = [] -> Forall rr_ok (gDictP w) -> netif_ok (input_netif w) -> size_accepted p = true -> query_packet p id qs ->
  reply_to (input_netif w) (gDictP w) id qs = Some m -> multicasts p w m.
Proof.
  intros Ha He Hd Hn Hsz Hq Hm. destruct (recv_spec p false id qs w Hsz Hq ltac:(done) Hd Hn) as (w' & E & S & _ & _).
  exists w'. split; [done|]. destruct (sends_all _ _ _ _ S Ha He) as (_ & _ & Hs). by rewrite Hm in Hs.
Qed.

Definition same_name (q : question) (ls : list (list Z)) : Prop := tolower <$> dotted (q_name q) = tolower <$> dotted ls.

Lemma rr_is_ok type ttl key data :
  cstr key -> (type = DNS_RRTYPE_A -> strlen data = 4) -> (type = DNS_RRTYPE_AAAA -> strlen data = 16) ->
  rr_ok (rr type ttl key data).
Proof. intros. by apply rr_ok_intro. Qed.

Lemma rr_parts type ttl key data : key_of (rr type ttl key data) = key /\ data_of (rr type ttl key data) = data.
Proof.
  unfold key_of, data_of, rr, strlen. cbn [rKeySize rData]. replace (Z.to_nat (Z.of_nat (length key) + 1 - 1)) with (length key) by lia.
  rewrite take_app_length. split; [done|]. replace (Z.to_nat (Z.of_nat (length key) + 1)) with (length key + 1)%nat by lia.
  by rewrite <-drop_drop, drop_app_length.
Qed.

Lemma answers_stored nif r :
  rType r = 12 \/ rType r = 16 \/ rType r = 33 -> answers_of nif r = [rr_bytes r (data_of r)].
Proof.
  intros Ht. destruct type_numbers as (TA & _). unfold answers_of, answer_data, DNS_RRTYPE_AAAA.
  by rewrite (proj2 (Z.eqb_neq _ 28)), (proj2 (Z.eqb_neq (rType r) _)), andb_false_r by lia.
Qed.

Lemma answers_address nif r : rType r = DNS_RRTYPE_A -> answers_of nif r = [rr_bytes r (ip4 nif)].
Proof.
  intros Ht. destruct type_numbers as (TA & _). unfold answers_of, answer_data, DNS_RRTYPE_AAAA.
  by rewrite Ht, (proj2 (Z.eqb_neq _ 28)), andb_false_r, Z.eqb_refl by lia.
Qed.

Lemma strlen_rr_bytes type ttl ls data data' :
  Forall label_ok ls -> strlen (rr_bytes (rr type ttl (dotted ls) data) data') = wire_size ls + 10 + strlen data'.
Proof.
  intros Hl. unfold rr_bytes. rewrite (proj1 (rr_parts _ _ _ _)), labels_of_dotted by done.
  rewrite !strlen_app, !strlen_be. unfold wire_size. lia.
Qed.

(** The name asked for is the key. *)
Lemma asked_rr q type ttl ls data : same_name q ls -> q_type q = type -> asked q (rr type ttl (dotted ls) data).
Proof. intros Hn <-. split; [by left|]. by rewrite (proj1 (rr_parts _ _ _ _)). Qed.

Lemma not_asked_type q type ttl key data : q_type q <> type -> q_type q <> DNS_RRTYPE_ANY -> ~ asked q (rr type ttl key data).
Proof. intros H1 H2 [[H|H] _]; cbn in H; congruence. Qed.

Lemma not_asked_dots q type ttl key data ls :
  Forall label_ok ls -> same_name q ls -> dots key <> length ls -> ~ asked q (rr type ttl key data).
Proof.
  intros Hl Hn Hd [_ H]. rewrite (proj1 (rr_parts _ _ _ _)), Hn in H. apply (f_equal dots) in H.
  rewrite !dots_tolower, dots_dotted in H by done. done.
Qed.

Ltac size := unfold SIZEOF_DNS_HDR, MDNS_RESPONDER_REPLY_SIZE, DNS_RRTYPE_SRV; lia.

(** The records of a service with short names. *)
Section Service.
Context (inst svc text : list Z) (flags port ttl : Z).
Context (Hinst : label_ok inst) (Hsvc : label_ok svc) (Hsize : strlen inst + strlen svc <= 50) (Htext : strlen text <= 200).

Let SL := service_labels svc flags.
Definition ptr_rr : mdns_rsrc := rr DNS_RRTYPE_PTR ttl (dotted SL) (wire (inst :: SL)).
Definition srv_rr : mdns_rsrc :=
  rr DNS_RRTYPE_SRV ttl (dotted (inst :: SL)) (([0; 0; 0; 0] ++ be_bytes 2 port) ++ wire [inst; str "local"]).
Definition a_rr : mdns_rsrc := rr DNS_RRTYPE_A ttl (dotted [inst; str "local"]) [0; 0; 0; 0].
Definition txt_rr : mdns_rsrc := rr DNS_RRTYPE_TXT ttl (dotted (inst :: SL)) (strlen text :: text).

Definition browse_rrs : list mdns_rsrc :=
  if negb (Z.land flags mdns_Browsable =? 0) then [rr DNS_RRTYPE_PTR ttl services_key (wire SL)] else [].
Definition ip6_rrs : list mdns_rsrc :=
  if LWIP_IPV6 then [rr DNS_RRTYPE_AAAA ttl (dotted [inst; str "local"]) (replicate 16 0)] else [].

Lemma sizes :
  wire_size SL = strlen svc + 13 /\ wire_size (inst :: SL) = strlen inst + strlen svc + 14 /\
  wire_size [inst; str "local"] = strlen inst + 8.
Proof.
  unfold SL, service_labels. rewrite !wire_size_cons, wire_size_nil, proto_size. change (strlen (str "local")) with 5. lia.
Qed.

Lemma labels_ok : Forall label_ok SL /\ Forall label_ok (inst :: SL) /\ Forall label_ok [inst; str "local"].
Proof.
  pose proof (service_labels_ok svc flags Hsvc). split_and!; [done|by constructor|]. rewrite !Forall_cons. split_and!; [done|apply local_label|done].
Qed.

Ltac others := repeat first [apply Forall_cons_2|apply Forall_nil_2]; cbn [rType rr ptr_rr srv_rr a_rr]; size.

Lemma facility_records_eq :
  facility_records inst svc (Some text) flags port ttl = browse_rrs ++ ptr_rr :: srv_rr :: a_rr :: ip6_rrs ++ [txt_rr].
Proof.
  destruct sizes as (S1 & S2 & S3). destruct labels_ok as (L1 & L2 & L3). pose proof (strlen_nonneg inst). pose proof (strlen_nonneg svc).
  unfold facility_records, named, texts. rewrite service_key_dotted, full_name_dotted, dev_name_dotted. fold SL.
  rewrite !labels_of_dotted by done. unfold kMaxNameSize. rewrite S1, S2, S3. rewrite !(proj2 (Z.leb_le _ _)) by lia. done.
Qed.

Lemma facility_ok : Forall rr_ok (facility_records inst svc (Some text) flags port ttl).
Proof.
  rewrite facility_records_eq. destruct labels_ok as (L1 & L2 & L3). destruct type_numbers as (TA & TP & TT & _).
  assert (Hk : cstr services_key) by (repeat constructor; done).
  unfold browse_rrs, ip6_rrs, DNS_RRTYPE_AAAA, ptr_rr, srv_rr, a_rr, txt_rr, DNS_RRTYPE_SRV in *.
  apply Forall_app. split; [destruct (negb _)|]; repeat first [apply Forall_cons_2|apply Forall_nil_2].
  5: apply Forall_app; split; [destruct LWIP_IPV6|]; repeat first [apply Forall_cons_2|apply Forall_nil_2].
  all: apply rr_is_ok; [done || by apply dotted_cstr|unfold DNS_RRTYPE_AAAA; try (intros; lia); done..].
Qed.

(** What is sent for a question about the service, with other records behind. *)
Lemma service_replies nif old id q :
  netif_ok nif -> q_class q = DNS_RRCLASS_IN ->
  let d := facility_records inst svc (Some text) flags port ttl ++ old in
  let ptr := rr_bytes ptr_rr (data_of ptr_rr) in
  let srv := rr_bytes srv_rr (data_of srv_rr) in
  let a := rr_bytes a_rr (ip4 nif) in
  let txt := rr_bytes txt_rr (data_of txt_rr) in
  (q_type q = DNS_RRTYPE_PTR -> same_name q SL -> reply_to nif d id [q] = Some (header id 1 1 ++ ptr ++ srv)) /\
  (q_type q = DNS_RRTYPE_SRV -> same_name q (inst :: SL) -> reply_to nif d id [q] = Some (header id 1 1 ++ srv ++ a)) /\
  (q_type q = DNS_RRTYPE_A -> same_name q [inst; str "local"] -> reply_to nif d id [q] = Some (header id 1 0 ++ a)) /\
  (q_type q = DNS_RRTYPE_TXT -> same_name q (inst :: SL) -> reply_to nif d id [q] = Some (header id 1 0 ++ txt)).
Proof.
  intros [Hn _] Hc d ptr srv a txt. unfold d. rewrite facility_records_eq. clear d.
  destruct type_numbers as (TA & TP & TT & TI). destruct labels_ok as (L1 & L2 & L3). destruct sizes as (S1 & S2 & S3).
  pose proof (strlen_nonneg inst) as N1. pose proof (strlen_nonneg svc) as N2.
  assert (Hcl : class_ok q = true) by (unfold class_ok; by rewrite Hc, TI).
  assert (Eptr : strlen ptr = strlen svc + 13 + 10 + (strlen inst + strlen svc + 14)).
  { unfold ptr, ptr_rr. rewrite strlen_rr_bytes, (proj2 (rr_parts _ _ _ _)) by done. fold (wire_size (inst :: SL)). by rewrite S1, S2. }
  assert (Esrv : strlen srv = strlen inst + strlen svc + 14 + 10 + (6 + (strlen inst + 8))).
  { unfold srv, srv_rr. rewrite strlen_rr_bytes, (proj2 (rr_parts _ _ _ _)), !strlen_app, strlen_be by done.
    fold (wire_size [inst; str "local"]). by rewrite S2, S3. }
  assert (Ea : strlen a = strlen inst + 8 + 10 + 4) by (unfold a, a_rr; by rewrite strlen_rr_bytes, Hn, S3 by done).
  assert (Etxt : strlen txt = strlen inst + strlen svc + 14 + 10 + (1 + strlen text)).
  { unfold txt, txt_rr. by rewrite strlen_rr_bytes, (proj2 (rr_parts _ _ _ _)), strlen_cons, S2 by done. }
  assert (Hbrowse : forall t, q_type q = t -> t <> DNS_RRTYPE_PTR -> t <> DNS_RRTYPE_ANY -> Forall (fun x => ~ asked q x) browse_rrs).
  { intros t Ht H1 H2. unfold browse_rrs. destruct (negb _); [|done]. constructor; [|done]. apply not_asked_type; congruence. }
  rewrite <-!app_assoc. cbn [app]. rewrite <-app_assoc.
  assert (Hsk : dots services_key = 4%nat) by done.
  unfold DNS_RRTYPE_SRV, DNS_RRTYPE_ANY, SIZEOF_DNS_HDR, MDNS_RESPONDER_REPLY_SIZE in *.
  assert (Hskip : forall rs, q_type q <> 255 -> Forall (fun r => rType r <> q_type q) rs -> Forall (fun r => ~ asked q r) rs).
  { intros rs Ha Hrs. eapply Forall_impl; [exact Hrs|]. intros r Hr [[H|H] _]; [by apply Hr|by apply Ha]. }
  assert (Hb : Forall (fun r => rType r = 12) browse_rrs).
  { unfold browse_rrs. destruct (negb _); [|done]. constructor; [exact TP|done]. }
  assert (H6 : Forall (fun r => rType r = 28) ip6_rrs) by (unfold ip6_rrs; destruct LWIP_IPV6; [by constructor|done]).
  split_and!; intros Ht Hname.
  - apply reply_middle with (r := ptr_rr) (n := srv_rr); try done; [|by apply asked_rr|by apply answers_stored; left|by apply answers_stored; do 2 right|by left|size].
    unfold browse_rrs. destruct (negb _); [|done]. constructor; [|done]. by eapply not_asked_dots; [exact L1| |rewrite Hsk].
  - rewrite cons_middle, app_assoc. apply reply_middle with (r := srv_rr) (n := a_rr); try done;
      [|by apply asked_rr|by apply answers_stored; do 2 right|by apply answers_address|by right|size].
    apply Hskip; [lia|]. apply Forall_app. split; [eapply Forall_impl; [exact Hb|]; cbn; lia|others].
  - replace (browse_rrs ++ _) with ((browse_rrs ++ [ptr_rr; srv_rr]) ++ a_rr :: ip6_rrs ++ txt_rr :: old) by (by rewrite <-app_assoc).
    apply reply_alone with (r := a_rr); try done;
      [|by apply asked_rr|by apply answers_address|size..].
    apply Hskip; [lia|]. apply Forall_app. split; [eapply Forall_impl; [exact Hb|]; cbn; lia|others].
  - replace (browse_rrs ++ _) with ((browse_rrs ++ [ptr_rr; srv_rr; a_rr] ++ ip6_rrs) ++ txt_rr :: old) by (by rewrite <-!app_assoc).
    apply reply_alone with (r := txt_rr); try done; [|by apply asked_rr|by apply answers_stored; right; left|size..].
    apply Hskip; [lia|]. rewrite !Forall_app.
    split_and!; [eapply Forall_impl; [exact Hb|]; cbn; lia|others|eapply Forall_impl; [exact H6|]; cbn; lia].
Qed.
End Service.

(** A resource record on the wire. *)
Definition wire_rr (ls : list (list Z)) (type ttl : Z) (data : list Z) : list Z :=
  wire ls ++ be_bytes 2 type ++ be_bytes 2 DNS_RRCLASS_IN ++ be_bytes 4 ttl ++ be_bytes 2 (strlen data) ++ data.

Lemma rr_bytes_wire type ttl ls data data' :
  Forall label_ok ls -> rr_bytes (rr type ttl (dotted ls) data) data' = wire_rr ls type ttl data'.
Proof. intros H. unfold rr_bytes, wire_rr. by rewrite (proj1 (rr_parts _ _ _ _)), labels_of_dotted. Qed.

(** C27. A service can be found.  After [mdns_add_facility] of an instance and a
    service whose names have at most 50 characters together (either of 1 to 63,
    without dots) with a text of at most 200, a query of 28 to 320 bytes for the
    pointers of the service type is answered with the full name of the
    instance, and port and host come along; a query for the service record of
    the instance with port and host, and the address comes along; a query for
    the host with the present address of the interface; and a query for the
    text with the text.  This holds whatever records were there before, and
    whatever the case of the letters in the query; the allocations and the
    sending have to succeed.  The plain query for the host of an instance of up
    to three letters is shorter than 28 bytes and is dropped
    ([mdns_short_query_ignored]). *)
Theorem mdns_service_resolved inst svc text flags port ttl w :
  w_alloc w = [] -> w_err w = [] -> Forall rr_ok (gDictP w) -> netif_ok (input_netif w) ->
  label_ok inst -> label_ok svc -> strlen inst + strlen svc <= 50 -> strlen text <= 200 ->
  let service := service_labels svc flags in
  let host := [inst; str "local"] in
  let ptr := wire_rr service DNS_RRTYPE_PTR ttl (wire (inst :: service)) in
  let srv := wire_rr (inst :: service) DNS_RRTYPE_SRV ttl ([0; 0; 0; 0] ++ be_bytes 2 port ++ wire host) in
  let a := wire_rr host DNS_RRTYPE_A ttl (ip4 (input_netif w)) in
  let txt := wire_rr (inst :: service) DNS_RRTYPE_TXT ttl (strlen text :: text) in
  exists w', mdns_add_facility inst svc (Some text) flags port ttl w = Done (tt, w') /\
    forall p id q, size_accepted p = true -> query_packet p id [q] -> q_class q = DNS_RRCLASS_IN ->
      (q_type q = DNS_RRTYPE_PTR -> same_name q service -> multicasts p w' (header id 1 1 ++ ptr ++ srv)) /\
      (q_type q = DNS_RRTYPE_SRV -> same_name q (inst :: service) -> multicasts p w' (header id 1 1 ++ srv ++ a)) /\
      (q_type q = DNS_RRTYPE_A -> same_name q host -> multicasts p w' (header id 1 0 ++ a)) /\
      (q_type q = DNS_RRTYPE_TXT -> same_name q (inst :: service) -> multicasts p w' (header id 1 0 ++ txt)).
Proof.
  intros Ha He Hd Hn Hi Hs Hsize Htext service host ptr srv a txt. pose proof (strlen_nonneg inst). pose proof (strlen_nonneg svc).
  assert (Hc : forall l, label_ok l -> cstr l) by (intros l [_ Hl]; eapply Forall_impl; [exact Hl|]; by intros c [? _]).
  exists (added w (facility_records inst svc (Some text) flags port ttl)). split.
  { apply add_facility_Done; [done|by apply Hc|by apply Hc|lia|]. intros t [= <-]. lia. }
  set (w' := added w _). intros p id q Hsz Hq Hcl.
  assert (Hd' : Forall rr_ok (gDictP w')) by (apply Forall_app; split; [by apply facility_ok|done]).
  destruct (labels_ok inst svc flags Hi Hs) as (L1 & L2 & L3).
  destruct (service_replies inst svc text flags port ttl Hi Hs Hsize Htext (input_netif w') (gDictP w) id q Hn Hcl) as (R1 & R2 & R3 & R4).
  unfold ptr_rr, srv_rr, a_rr, txt_rr in R1, R2, R3, R4.
  rewrite !(proj2 (rr_parts _ _ _ _)), !rr_bytes_wire in R1 by done. rewrite (proj2 (rr_parts _ _ _ _)), !rr_bytes_wire in R2 by done.
  rewrite rr_bytes_wire in R3 by done. rewrite (proj2 (rr_parts _ _ _ _)), rr_bytes_wire in R4 by done.
  unfold srv. rewrite (app_assoc [0; 0; 0; 0]).
  split_and!; intros Ht Hname; (eapply multicasts_intro; [done|done|exact Hd'|exact Hn|exact Hsz|exact Hq|]).
  - by apply R1.
  - by apply R2.
  - by apply R3.
  - by apply R4.
Qed.

(** ** Names *)

(** Names are read as they were written: [mdns_str2labels] encodes a
    dotted name of proper labels, and [mdns_labels2str] gets it back from the
    encoded name, wherever that stands in a packet, and from a compression
    pointer to it. *)
Theorem mdns_name_roundtrip ls max pre mid post buf (w : world) :
  Forall label_ok ls -> wire_size ls <= max -> wire_size ls <= kMaxQStr -> strlen buf = kMaxQStr ->
  Forall byteP (pre ++ mid ++ post) -> strlen pre < 2 ^ 14 ->
  exists out, mdns_str2labels (dotted ls ++ [0]) max w = Done ((wire_size ls, out), w) /\ strlen out = wire_size ls /\
    let pointer := [192 + strlen pre / 256; strlen pre mod 256] in
    let packet := pre ++ out ++ mid ++ pointer ++ post in
    let at_pointer := strlen (pre ++ out ++ mid) in
    let read := dotted ls ++ 0 :: drop (Z.to_nat (wire_size ls)) buf in
    mdns_labels2str packet (strlen pre) buf w = Done ((strlen pre + wire_size ls, read), w) /\
    mdns_labels2str packet at_pointer buf w = Done ((at_pointer + 2, read), w).
Proof.
  intros Hl Hmax Hfit Hbuf Hb Hpre. pose proof (wire_size_pos ls).
  destruct (str2labels_spec (dotted ls) [] max w (dotted_cstr ls Hl) ltac:(lia)) as (out & E & _ & Hout).
  rewrite labels_of_dotted in E, Hout by done. rewrite (proj2 (Z.leb_le _ _)) in E by lia. rewrite (Hout Hmax) in E.
  exists (wire ls). split; [done|]. split; [done|]. cbn zeta. set (ptr := [_; _]). set (hdr := pre ++ wire ls ++ mid ++ ptr ++ post).
  pose proof (strlen_nonneg pre) as Hp0. rewrite !Forall_app in Hb. destruct Hb as (B1 & B2 & B3).
  assert (Bp : byteP (192 + strlen pre / 256) /\ byteP (strlen pre mod 256)) by (unfold byteP; divlia).
  assert (Hbytes : Forall byteP hdr).
  { unfold hdr, ptr. rewrite !Forall_app. split_and!; try done; [by apply wire_byte|repeat constructor; apply Bp]. }
  assert (Hname : name_at hdr (strlen pre) ls (strlen pre + wire_size ls)) by (by apply wire_name_at).
  split; [by apply labels2str_name|]. apply labels2str_name; try done; [apply strlen_nonneg|].
  assert (Hlook : forall i, hdr !! Z.to_nat (strlen (pre ++ wire ls ++ mid) + i) = (ptr ++ post) !! Z.to_nat i \/ i < 0).
  { intros i. destruct (decide (i < 0)); [by right|left]. unfold hdr, strlen. rewrite !app_assoc, <-(app_assoc _ ptr post).
    rewrite lookup_app_r by lia. f_equal. lia. }
  destruct (Hlook 0) as [H0|]; [|lia]. destruct (Hlook 1) as [H1|]; [|lia]. rewrite Z.add_0_r in H0. unfold byteP in Bp.
  eapply (name_pointer hdr _ (192 + strlen pre / 256) (strlen pre mod 256)); try done; [apply strlen_nonneg|divlia|lia|].
  replace ((192 + strlen pre / 256 - 192) * 256 + strlen pre mod 256) with (strlen pre) by divlia. exact Hname.
Qed.

(** Reading a name ends when every compression pointer points back: no
    chain of pointers and labels keeps [mdns_labels2str] busy for ever. *)
Theorem mdns_labels2str_ends hdr p buf (w : world) :
  Forall byteP hdr -> 0 <= p -> strlen buf = kMaxQStr ->
  (forall i b c, hdr !! Z.to_nat i = Some b -> 192 <= b -> hdr !! Z.to_nat (i + 1) = Some c -> (b - 192) * 256 + c < i) ->
  mdns_labels2str hdr p buf w <> OutOfFuel.
Proof.
  intros Hb Hp Hbuf Hback E. pose proof (labels2str_for_ever hdr p buf w Hb Hp Hbuf E) as H.
  set (N := strlen hdr + 1). assert (HN : 0 < N) by (unfold N; pose proof (strlen_nonneg hdr); lia).
  assert (Hm : forall n p k, 0 <= p -> 0 <= k <= kMaxQStr -> (kMaxQStr - k) * N + p < Z.of_nat n ->
    ~ is_Some (steps (next hdr kMaxQStr) n (p, k))).
  { clear - Hb Hback HN. induction n as [|n IH]; intros p k Hp Hk Hlt; [nia|]. cbn [steps].
    destruct (next hdr kMaxQStr (p, k)) as [[p' k']|] eqn:En; [|by intros [? [=]]].
    destruct (next_range hdr kMaxQStr p k p' k' Hb Hp Hk En) as [Hp' Hk']. apply IH; [done|done|].
    revert En. unfold next. destruct (hdr !! Z.to_nat p) as [b|] eqn:Eb; [|done]. cbn [mbind option_bind].
    pose proof (hdr_byte _ _ _ Hb Eb) as Hbb. unfold byteP in Hbb. destruct (192 <=? b) eqn:E1; zbool.
    - destruct (hdr !! Z.to_nat (p + 1)) as [c|] eqn:Ec; [|done]. cbn [mbind option_bind]. intros [= <- <-].
      pose proof (Hback p b c Eb E1 Ec). lia.
    - destruct (_ || _); [done|]. destruct (_ && _) eqn:E2; [|done]. zbool. intros [= <- <-].
      unfold N, strlen in *. nia. }
  specialize (H (Z.to_nat (kMaxQStr * N + p + 1))). apply loop_out_of_fuel in H; [|done..].
  change (strlen []) with 0 in H. rewrite Hbuf, Z.add_0_l in H. revert H. apply Hm; [done|done|].
  unfold kMaxQStr in *. lia.
Qed.

(** C35. A pointer that points to itself: on any packet of an accepted size that
    holds a query whose first name is the compression pointer to its own
    position (the bytes C0 0C), the callback never returns; [mdns_labels2str]
    calls itself without end. *)
Theorem mdns_recv_pointer_loop p v6 f n w :
  w_alloc w = [] -> tot_len p = strlen (chain p) -> 28 <= tot_len p <= MDNS_RESPONDER_REPLY_SIZE -> Forall byteP (chain p) ->
  chain p !! 2%nat = Some f -> Z.land f (DNS_FLAG1_RESP + DNS_FLAG1_OPMASK + DNS_FLAG1_TRUNC) = 0 ->
  be_val (sub_bytes (chain p) 4 2) = n -> 0 < n ->
  chain p !! 12%nat = Some 0xC0 -> chain p !! 13%nat = Some 12 ->
  mdns_recv p v6 w = OutOfFuel /\
  forall fuel buf, labels2str_loop fuel (chain p) SIZEOF_DNS_HDR (q_of [] buf) w = OutOfFuel.
Proof.
  intros Ha Hlen Hsize Hb Ef Hf Hn Hpos E1 E2.
  assert (Hloop : forall fuel buf (w : world), labels2str_loop fuel (chain p) SIZEOF_DNS_HDR (q_of [] buf) w = OutOfFuel).
  { intros fuel buf w'. by apply (self_pointer (chain p) SIZEOF_DNS_HDR 0xC0 12). }
  split; [|done]. unfold mdns_recv. rewrite (proj2 (Z.ltb_ge _ _)) by lia.
  rewrite (proj2 (Z.ltb_ge (tot_len p) _)) by (unfold SIZEOF_DNS_HDR, SIZEOF_DNS_QUERY, SIZEOF_DNS_ANSWER; lia).
  unfold bind at 1. rewrite (bind_Done _ _ _ _ _ (malloc_Done w Ha)). cbn [negb]. cbn zeta. unfold strlen in *.
  rewrite Hlen, Nat2Z.id, take_ge, Z.eqb_refl by lia. set (w1 := with_alloc _ _ _ _). unfold bind at 1.
  rewrite (bind_Done _ _ _ _ _ (byte_at_Done (chain p) 2 f w1 ltac:(lia) Ef)).
  assert (Hbytes : forall i (w : world), 0 <= i <= 4 -> bytes_at (chain p) i 2 w = Done (sub_bytes (chain p) i 2, w)).
  { intros i w' Hi. unfold bytes_at. rewrite (proj2 (andb_true_iff _ _)); [done|split; apply Z.leb_le; lia]. }
  rewrite (bind_Done _ _ _ _ _ (Hbytes 4 w1 ltac:(lia))), Hf, Hn, (proj2 (Z.ltb_lt 0 n)) by lia. cbn [Z.eqb andb].
  unfold mdns_reply. rewrite (bind_Done _ _ _ _ _ (malloc_Done w1 eq_refl)). cbn [negb].
  destruct (fresh_Done (with_alloc w1 [] (heap w1 + 1) (pbufs w1)) MDNS_RESPONDER_REPLY_SIZE ltac:(done)) as (rsp & j & Er & Hr). run Er.
  rewrite (bind_Done _ _ _ _ _ (Hbytes 0 _ ltac:(lia))). set (h := _ ++ _).
  assert (Hh : strlen h = 12).
  { unfold h. rewrite strlen_app. unfold strlen, sub_bytes. rewrite length_take, length_drop. cbn [length]. lia. }
  pose proof (copy_to_app [] rsp h (with_junk (with_alloc w1 [] (heap w1 + 1) (pbufs w1)) j)) as Ec. cbn [app] in Ec.
  change (strlen []) with 0 in Ec. unfold strlen in *. rewrite (bind_Done _ _ _ _ _ (Ec ltac:(rewrite Hh, Hr; done))).
  rewrite (bind_Done _ _ _ _ _ (Hbytes 4 _ ltac:(lia))), Hn. destruct (Z.to_nat n) as [|m] eqn:Em; [lia|]. cbn [questions_loop].
  unfold bind at 1. set (w2 := with_junk _ _).
  destruct (fresh_Done w2 kMaxQStr ltac:(done)) as (qs & j' & Eq & Hq). run Eq.
  unfold bind at 1, mdns_get_question. unfold bind at 1, mdns_labels2str. unfold bind at 1.
  by change {| qStr := qs; qpos := 0 |} with (q_of [] qs); rewrite Hloop.
Qed.

(** Short queries are dropped: a packet of less than 28 bytes is ignored,
    and the only question for the host of a service whose instance name has up
    to three letters is such a packet. *)
Theorem mdns_short_query_ignored inst id v6 w :
  label_ok inst -> strlen inst <= 3 -> strlen id = 2 ->
  let q := {| q_name := [inst; str "local"]; q_type := DNS_RRTYPE_A; q_class := DNS_RRCLASS_IN |} in
  questions_at (encode_query id q) SIZEOF_DNS_HDR [q] /\
  mdns_recv (query_pbuf id q) v6 w = Done (tt, with_alloc w (w_alloc w) (heap w) (pbufs w - 1)).
Proof.
  intros Hi Hs Hid q. destruct type_numbers as (TA & _ & _ & TI).
  assert (Hls : Forall label_ok [inst; str "local"])
    by (repeat first [apply Forall_cons_2|apply Forall_nil_2]; [done|apply local_label]).
  assert (Hws : wire_size [inst; str "local"] = strlen inst + 8).
  { rewrite !wire_size_cons, wire_size_nil. change (strlen (str "local")) with 5. lia. }
  split.
  - apply encode_query_questions; [done|]. unfold question_ok, q, kMaxQStr. cbn [q_name q_type q_class]. split_and!; done || lia.
  - unfold mdns_recv. pose proof (strlen_encode_query id q Hid) as Hn. cbn [q q_name] in Hn. cbn [query_pbuf tot_len].
    rewrite (proj2 (Z.ltb_ge _ _)) by (unfold MDNS_RESPONDER_REPLY_SIZE; lia).
    rewrite (proj2 (Z.ltb_lt (strlen _) _)) by (unfold SIZEOF_DNS_HDR, SIZEOF_DNS_QUERY, SIZEOF_DNS_ANSWER; lia). done.
Qed.

(** An allocation that fails is not noticed by [mdns_add_facility]. *)
Lemma mdns_add_facility_no_memory inst svc text flags port ttl w l :
  w_alloc w = false :: l -> mdns_add_facility inst svc text flags port ttl w = Undefined.
Proof.
  intros Ha. unfold mdns_add_facility. unfold malloc at 1, bind at 1. rewrite Ha. set (w1 := with_alloc _ _ _ _).
  destruct (malloc_cases w1) as (ok & l1 & E1 & _). run E1. set (w2 := with_alloc _ _ _ _).
  destruct (malloc_cases w2) as (ok2 & l2 & E2 & _). by run E2.
Qed.

(** ** Start *)

Lemma join_groups_ok n w :
  w_err w = [] -> exists n', join_groups n w = Done ((true, n'), w) /\ igmp_flag n' = true /\ gMulticastV4Addr ∈ groups n' /\
    (LWIP_IPV6 = true -> gMulticastV6Addr ∈ groups n').
Proof.
  intros He. assert (Hl : lwip_ok w = Done (true, w)) by (unfold lwip_ok; by rewrite He).
  unfold join_groups. set (n1 := if igmp_flag n then n else with_flag n true true).
  assert (E1 : (if igmp_flag n then ret (true, n) else let! ok := lwip_ok in ret (ok, with_flag n true ok)) w = Done ((true, n1), w)).
  { unfold n1. destruct (igmp_flag n); [done|]. by run Hl. }
  run E1. cbn [negb]. run Hl. cbn [negb].
  assert (igmp_flag n1 = true) by (unfold n1; by destruct (igmp_flag n) eqn:E).
  destruct LWIP_IPV6.
  - run Hl. cbn [negb]. eexists. split; [reflexivity|]. cbn. split_and!; [done|right; left|left].
  - eexists. split; [reflexivity|]. cbn. split_and!; [done|left|done].
Qed.

(** The responder starts on every interface there is: with the groups joined
    and the callback installed; without an interface nothing happens. *)
Lemma mdns_init_starts w :
  w_err w = [] ->
  exists w', mdns_init w = Done (tt, w') /\
    (station_netif w = None -> softap_netif w = None -> w' = w) /\
    (station_netif w <> None \/ softap_netif w <> None -> gMDNS_pcb w' = true /\ receiving w' = true) /\
    (forall n, station_netif w' = Some n \/ softap_netif w' = Some n ->
      igmp_flag n = true /\ gMulticastV4Addr ∈ groups n /\ (LWIP_IPV6 = true -> gMulticastV6Addr ∈ groups n)).
Proof.
  intros He. unfold mdns_init. rewrite (bind_Done _ _ w w w) by done.
  assert (Hl : forall w, w_err w = [] -> lwip_ok w = Done (true, w)) by (intros w0 H; unfold lwip_ok; by rewrite H).
  destruct (station_netif w) as [n1|] eqn:E1, (softap_netif w) as [n2|] eqn:E2.
  - destruct (join_groups_ok n1 w He) as (m1 & J1 & Q1).
    rewrite (bind_Done _ _ w true (with_station w (Some m1))) by (by run J1). cbn [negb].
    destruct (join_groups_ok n2 (with_station w (Some m1)) He) as (m2 & J2 & Q2).
    rewrite (bind_Done _ _ _ true (with_softap (with_station w (Some m1)) (Some m2))) by (by run J2). cbn [negb].
    run (Hl (with_softap (with_station w (Some m1)) (Some m2)) He). eexists. split.
    { unfold bind at 1. cbn [modify negb]. unfold bind. rewrite Hl by done. reflexivity. }
    cbn. split_and!; try done. intros n [[= <-]|[= <-]]; done.
  - destruct (join_groups_ok n1 w He) as (m1 & J1 & Q1).
    rewrite (bind_Done _ _ w true (with_station w (Some m1))) by (by run J1). cbn [negb].
    rewrite (bind_Done _ _ _ true (with_station w (Some m1)) eq_refl). cbn [negb].
    run (Hl (with_station w (Some m1)) He). eexists. split.
    { unfold bind at 1. cbn [modify negb]. unfold bind. rewrite Hl by done. reflexivity. }
    cbn. split_and!; try done. intros n [[= <-]|Hn]; [done|congruence].
  - rewrite (bind_Done _ _ w true w eq_refl). cbn [negb].
    destruct (join_groups_ok n2 w He) as (m2 & J2 & Q2).
    rewrite (bind_Done _ _ _ true (with_softap w (Some m2))) by (by run J2). cbn [negb].
    run (Hl (with_softap w (Some m2)) He). eexists. split.
    { unfold bind at 1. cbn [modify negb]. unfold bind. rewrite Hl by done. reflexivity. }
    cbn. split_and!; try done. intros n [Hn|[= <-]]; [congruence|done].
  - rewrite (bind_Done _ _ w true w eq_refl). cbn [negb]. rewrite (bind_Done _ _ w true w eq_refl). cbn [negb].
    exists w. rewrite E1, E2. split; [done|]. split; [done|]. split; [tauto|]. intros n [|]; done.
Qed.
End Contract.

(** ** Concrete runs *)

Ltac label := split; [done|repeat constructor; done].
Ltac labels := repeat first [apply Forall_cons_2; [label|]|apply Forall_nil_2].

Definition demo_netif : netif :=
  {| ip4 := [192; 168; 4; 7]; ip6 := []; igmp_flag := true; igmp_running := true; groups := [gMulticastV4Addr] |}.
Definition demo_world (d : list mdns_rsrc) : world :=
  {| gDictP := d; gMDNS_pcb := true; receiving := true; station_netif := Some demo_netif; softap_netif := None;
     input_netif := demo_netif; w_alloc := []; w_err := []; w_junk := [[7; 7; 7]]; heap := 3; pbufs := 1; sent := [] |}.
Definition demo_dict : list mdns_rsrc :=
  @facility_records (dns_h false) (str "esp") (str "_http") (Some (str "a=1")) (mdns_TCP + mdns_Browsable) 80 600.
Definition demo_question : question := {| q_name := [str "_HTTP"; str "_tcp"; str "local"]; q_type := 12; q_class := 1 |}.

Lemma demo_netif_ok : netif_ok demo_netif.
Proof. split; [done|constructor]. Qed.

Lemma demo_query : query_packet (query_pbuf [1; 2] demo_question) [1; 2] [demo_question].
Proof.
  apply encode_query_packet; [done|by repeat constructor|]. unfold question_ok. split; [labels|]. done.
Qed.

(** A question of 27 bytes. *)
Definition short_question : question := {| q_name := [str "esp"; str "local"]; q_type := 1; q_class := 1 |}.

Lemma short_query : query_packet (query_pbuf [1; 2] short_question) [1; 2] [short_question].
Proof.
  apply encode_query_packet; [done|by repeat constructor|]. unfold question_ok. split; [labels|]. done.
Qed.

Lemma mdns_recv_answers_witness :
  let H := dns_h false in
  query_packet (query_pbuf [1; 2] demo_question) [1; 2] [demo_question] /\
  (exists w', mdns_recv (query_pbuf [1; 2] demo_question) false (demo_world demo_dict) = Done (tt, w') /\
    sends false (reply_to demo_netif demo_dict [1; 2] [demo_question]) (demo_world demo_dict) w' /\ heap w' = 3 /\ pbufs w' = 0) /\
  mdns_recv (query_pbuf [1; 2] short_question) false (demo_world demo_dict) = Done (tt, with_alloc (demo_world demo_dict) [] 3 0).
Proof.
  intros H. split; [apply demo_query|].
  assert (Hd : Forall rr_ok (gDictP (demo_world demo_dict))) by (by apply (@facility_ok H (dns_h_laws false)); [label|label|..]).
  split.
  - pose proof (@mdns_recv_answers H (dns_h_laws false) (query_pbuf [1; 2] demo_question) false [1; 2] [demo_question] (demo_world demo_dict)
      demo_query ltac:(done) Hd demo_netif_ok) as R.
    destruct R as (w' & E & S & H1 & H2 & _). exists w'. exact (conj E (conj S (conj H1 H2))).
  - exact (@mdns_recv_answers H (dns_h_laws false) (query_pbuf [1; 2] short_question) false [1; 2] [short_question] (demo_world demo_dict)
      short_query ltac:(done) Hd demo_netif_ok).
Defined.

(** The pointer of the service, and the host. *)
Definition host_question : question := {| q_name := [str "Kitchen"; str "local"]; q_type := 1; q_class := 1 |}.

Lemma host_query : query_packet (query_pbuf [3; 4] host_question) [3; 4] [host_question].
Proof.
  apply encode_query_packet; [done|by repeat constructor|]. unfold question_ok. split; [labels|]. done.
Qed.

Lemma mdns_service_resolved_witness :
  let H := dns_h false in
  exists w', mdns_add_facility (str "kitchen") (str "_http") (Some (str "a=1")) mdns_TCP 80 600 (demo_world []) = Done (tt, w') /\
    multicasts (query_pbuf [1; 2] demo_question) w'
      (header [1; 2] 1 1 ++
       wire_rr [str "_http"; str "_tcp"; str "local"] 12 600 (wire [str "kitchen"; str "_http"; str "_tcp"; str "local"]) ++
       wire_rr [str "kitchen"; str "_http"; str "_tcp"; str "local"] 33 600 ([0; 0; 0; 0] ++ be_bytes 2 80 ++ wire [str "kitchen"; str "local"])) /\
    multicasts (query_pbuf [3; 4] host_question) w' (header [3; 4] 1 0 ++ wire_rr [str "kitchen"; str "local"] 1 600 [192; 168; 4; 7]).
Proof.
  intros H. destruct (@mdns_service_resolved H (dns_h_laws false) (str "kitchen") (str "_http") (str "a=1") mdns_TCP 80 600 (demo_world []))
    as (w' & E & R); [done|done|constructor|apply demo_netif_ok|label|label|done|done|].
  exists w'. split; [exact E|]. split.
  - by apply (R (query_pbuf [1; 2] demo_question) [1; 2] demo_question); [reflexivity|apply demo_query|..].
  - by apply (R (query_pbuf [3; 4] host_question) [3; 4] host_question); [reflexivity|apply host_query|..].
Defined.

Lemma mdns_name_roundtrip_witness :
  exists out, mdns_str2labels (dotted [str "esp"; str "local"] ++ [0]) 64 (demo_world []) = Done ((11, out), demo_world []) /\
    mdns_labels2str ([1; 2; 3] ++ out ++ [4] ++ [192; 3] ++ [5]) 15 (replicate 128 7) (demo_world []) =
      Done ((17, dotted [str "esp"; str "local"] ++ 0 :: replicate 117 7), demo_world []).
Proof.
  destruct (mdns_name_roundtrip [str "esp"; str "local"] 64 [1; 2; 3] [4] [5] (replicate 128 7) (demo_world [])) as (out & E & Hl & _ & R).
  - labels.
  - done.
  - done.
  - done.
  - by repeat constructor.
  - done.
  - exists out. split; [exact E|]. cbn zeta in R.
    replace (strlen ([1; 2; 3] ++ out ++ [4])) with 15 in R by (rewrite !strlen_app, Hl; done). exact R.
Defined.

Lemma mdns_labels2str_ends_witness :
  let hdr := [5; 108; 111; 99; 97; 108; 0; 3; 101; 115; 112; 192; 0] in
  mdns_labels2str hdr 7 (replicate 128 7) (demo_world []) <> OutOfFuel.
Proof.
  intros hdr. apply (mdns_labels2str_ends hdr 7 (replicate 128 7) (demo_world [])); [by repeat constructor|done|done|].
  intros i b c Hb H192 Hc.
  assert (Hi : (Z.to_nat i < 13)%nat) by (by apply lookup_lt_Some in Hb).
  assert (Hn : Z.to_nat i = 11%nat \/ b < 192).
  { destruct (decide (Z.to_nat i = 11%nat)) as [|Hne]; [by left|right]. revert Hb Hi Hne. generalize (Z.to_nat i) as n. intros n.
    do 13 (destruct n as [|n]; [intros [= <-] ? ?; lia|]). lia. }
  destruct Hn as [Hn|]; [|lia]. assert (i = 11) as -> by lia. injection Hb as <-. by injection Hc as <-.
Defined.

(** A query for the record at C0 0C, its own first byte. *)
Definition loop_pbuf : pbuf :=
  {| tot_len := 28;
     chain := [1; 2; 0; 0; 0; 1; 0; 0; 0; 0; 0; 0; 192; 12; 0; 1; 0; 1; 0; 0; 0; 0; 0; 0; 0; 0; 0; 0] |}.

Lemma mdns_recv_pointer_loop_witness : @mdns_recv (dns_h false) loop_pbuf false (demo_world []) = OutOfFuel.
Proof.
  by apply (@mdns_recv_pointer_loop (dns_h false) loop_pbuf false 0 1 (demo_world [])); try done; repeat constructor.
Defined.

Lemma mdns_short_query_ignored_witness :
  let H := dns_h false in
  let q := {| q_name := [str "esp"; str "local"]; q_type := 1; q_class := 1 |} in
  reply_to demo_netif demo_dict [1; 2] [q] <> None /\
  mdns_recv (query_pbuf [1; 2] q) false (demo_world demo_dict) =
    Done (tt, with_alloc (demo_world demo_dict) [] 3 0).
Proof.
  intros H q. split; [by vm_compute|].
  apply (@mdns_short_query_ignored H (dns_h_laws false) (str "esp") [1; 2] false (demo_world demo_dict)); [label|done|done].
Defined.

(** A name of two labels of 63 characters, which RFC 1035 allows, is written past the end of
    the buffer. *)
Lemma mdns_recv_name_overflow :
  let q := {| q_name := [replicate 63 97; replicate 63 98]; q_type := 1; q_class := 1 |} in
  Forall label_ok (q_name q) /\
  @mdns_recv (dns_h false) (query_pbuf [1; 2] q) false (demo_world []) = Undefined.
Proof. split; [repeat first [apply Forall_cons_2; [split; [done|cbn; repeat constructor; done]|]|apply Forall_nil_2]|by vm_compute]. Qed.

End MdnsContract.
