(* ===== verification/Tftp.v ===== *)
(** * Updates over TFTP: [extras/rboot-ota/ota-tftp.c]

    A server task that receives a firmware image and boots it, and a client
    that downloads one.  Both store DATA blocks in the flash slot, have the
    image verified by the rboot API before the last block is acknowledged, and
    the server then makes the slot the current one and restarts.  The flash is
    the interface [SdkFlash], the configuration is the rboot API's.  What the
    network delivers is a list of receive results; a loop that has used up the
    list is waiting.  A received [netbuf] is a chain of segments in memory. *)

From stdpp Require Import strings.
From S2P Require Import Prelude CStrings Flash SdkFlash Rboot.
Open Scope Z_scope.

Module Tftp.
Import Api.

(** lwIP's error codes; [ERR_OTHER] stands for those the code does not name. *)
Inductive err_t :=
| ERR_OK
| ERR_TIMEOUT
| ERR_VAL
| ERR_IF
| ERR_USE
| ERR_OTHER (code : Z).

#[export] Instance err_t_eq_dec : EqDecision err_t.
Proof. solve_decision. Defined.

Definition TFTP_FIRMWARE_FILE : list Z := str "firmware.bin".
Definition TFTP_OCTET_MODE : list Z := str "octet".
Definition TFTP_OP_RRQ : Z := 1.
Definition TFTP_OP_WRQ : Z := 2.
Definition TFTP_OP_DATA : Z := 3.
Definition TFTP_OP_ACK : Z := 4.
Definition TFTP_OP_ERROR : Z := 5.
Definition TFTP_ERR_FILENOTFOUND : Z := 1.
Definition TFTP_ERR_FULL : Z := 3.
Definition TFTP_ERR_ILLEGAL : Z := 4.
Definition MAX_IMAGE_SIZE : Z := 0x100000.
Definition TFTP_TIMEOUT_RETRANSMITS : Z := 10.
Definition DATA_PACKET_SZ : Z := 512 + 4.

(** ** Buffers *)

(** A segment: the alignment of its payload's address, its length and the
    memory seen from the payload pointer. *)
Record seg := { seg_align : Z; seg_len : Z; seg_mem : Z -> Z }.

Record netbuf := { segs : list seg; fromaddr : Z; fromport : Z }.

Inductive recv_result :=
| Received (nb : netbuf)
| Failed (e : err_t).

Definition seg_bytes (s : seg) : list Z := cells (seg_mem s) 0 (seg_len s).
Definition netbuf_bytes (nb : netbuf) : list Z := concat (seg_bytes <$> segs nb).
Definition netbuf_len (nb : netbuf) : Z := Z.of_nat (length (netbuf_bytes nb)).

(** [htons] stored to memory, and [ntohs] of two bytes of memory. *)
Definition htons (x : Z) : list Z := [u8 (Z.shiftr x 8); u8 x].
Definition ntohs (bs : list Z) : Z := as_mem bs 0 * 256 + as_mem bs 1.

(** A C string in a buffer. *)
Fixpoint c_str (bs : list Z) : list Z :=
  match bs with
  | [] => []
  | b :: bs => if b =? 0 then [] else b :: c_str bs
  end.

Section Tftp.
Context {F : Type} `{!SdkFlash F} `{!RbootH}.

(** [peer] is where the connection sends to, [sent] what was sent and to
    whom, [send_results] the results of sends to come ([ERR_OK] once the list
    is used up), [netbufs] and [netconns] count what is allocated and
    [progress] has the arguments of the callback. *)
Record world := {
  api : Api.world F;
  sent : list (option (Z * Z) * list Z);
  send_results : list err_t;
  peer : option (Z * Z);
  netbufs : Z;
  netconns : Z;
  progress : list Z;
  restarted : bool;
}.

Definition with_api (w : world) (a : Api.world F) : world :=
  {| api := a; sent := sent w; send_results := send_results w; peer := peer w; netbufs := netbufs w;
     netconns := netconns w; progress := progress w; restarted := restarted w |}.
Definition with_sent (w : world) (l : list (option (Z * Z) * list Z)) (rs : list err_t) : world :=
  {| api := api w; sent := l; send_results := rs; peer := peer w; netbufs := netbufs w;
     netconns := netconns w; progress := progress w; restarted := restarted w |}.
Definition with_peer (w : world) (p : option (Z * Z)) : world :=
  {| api := api w; sent := sent w; send_results := send_results w; peer := p; netbufs := netbufs w;
     netconns := netconns w; progress := progress w; restarted := restarted w |}.
Definition with_netbufs (w : world) (n : Z) : world :=
  {| api := api w; sent := sent w; send_results := send_results w; peer := peer w; netbufs := n;
     netconns := netconns w; progress := progress w; restarted := restarted w |}.
Definition with_netconns (w : world) (n : Z) : world :=
  {| api := api w; sent := sent w; send_results := send_results w; peer := peer w; netbufs := netbufs w;
     netconns := n; progress := progress w; restarted := restarted w |}.
Definition with_progress (w : world) (l : list Z) : world :=
  {| api := api w; sent := sent w; send_results := send_results w; peer := peer w; netbufs := netbufs w;
     netconns := netconns w; progress := l; restarted := restarted w |}.
Definition with_restart (w : world) : world :=
  {| api := api w; sent := sent w; send_results := send_results w; peer := peer w; netbufs := netbufs w;
     netconns := netconns w; progress := progress w; restarted := true |}.

Definition on_api {A} (m : M (Api.world F) A) : M world A := fun w =>
  match m (api w) with
  | Done (a, s) => Done (a, with_api w s)
  | OutOfFuel => OutOfFuel
  | Undefined => Undefined
  end.

(** ** The network *)

Definition netbuf_taken : M world unit := modify (fun w => with_netbufs w (netbufs w + 1)).
Definition netbuf_delete : M world unit := modify (fun w => with_netbufs w (netbufs w - 1)).
Definition netconn_connect (p : Z * Z) : M world unit := modify (fun w => with_peer w (Some p)).
Definition netconn_disconnect : M world unit := modify (fun w => with_peer w None).
Definition netconn_delete : M world unit := modify (fun w => with_netconns w (netconns w - 1)).

Definition netconn_send (bs : list Z) : M world err_t := fun w =>
  let log := sent w ++ [(peer w, bs)] in
  match send_results w with
  | [] => Done (ERR_OK, with_sent w log [])
  | r :: rs => Done (r, with_sent w log rs)
  end.

(** A buffer is made, sent and deleted. *)
Definition send_packet (bs : list Z) : M world err_t :=
  do! netbuf_taken then
  let! e := netconn_send bs in
  do! netbuf_delete then
  ret e.

Definition tftp_send_ack (block : Z) : M world err_t :=
  send_packet (htons TFTP_OP_ACK ++ htons block).

Definition tftp_send_error (err_code : Z) (err_msg : list Z) : M world unit :=
  let! _ := send_packet (htons TFTP_OP_ERROR ++ htons err_code ++ err_msg ++ [0]) in
  ret tt.

Definition tftp_send_rrq (filename : list Z) : M world err_t :=
  send_packet (htons TFTP_OP_RRQ ++ filename ++ [0] ++ TFTP_OCTET_MODE ++ [0]).

(** The bytes a buffer has, over what the variable held. *)
Definition netbuf_read_u16_n (nb : netbuf) (offs : Z) : M world Z :=
  let! raw := on_api (uninit 2) in
  ret (ntohs (overlay (sub_bytes (netbuf_bytes nb) offs 2) raw)).

(** ** Fields of a request *)

(** The loop of [tftp_get_field] over the bytes from [offs] on. *)
Fixpoint field_loop (bs : list Z) (field offs field_offs field_len : Z) : Z * Z * Z :=
  match bs with
  | [] => (field, field_offs, field_len)
  | c :: bs =>
    if field <? 0 then (field, field_offs, field_len)
    else
      let offs := offs + 1 in
      let field_len := if field =? 0 then field_len + 1 else field_len in
      if c =? 0 then
        let field := field - 1 in
        field_loop bs field offs (if field =? 0 then offs else field_offs) field_len
      else field_loop bs field offs field_offs field_len
  end.

Definition tftp_get_field (field : Z) (nb : netbuf) : M world (option (list Z)) :=
  let '(field, field_offs, field_len) := field_loop (drop 2 (netbuf_bytes nb)) field 2 2 0 in
  if negb (field =? -1) then ret None
  else
    let! ok := on_api os_malloc in
    if negb ok then ret None
    else ret (Some (sub_bytes (netbuf_bytes nb) field_offs field_len)).

(** ** Storing a block *)

Definition flash_write (addr : Z) (buf : Z -> Z) (n : Z) : M world sdk_SpiFlashOpResult :=
  on_api (on_flash (spi_flash_write (u32 addr) buf n)).

(** One segment: [offset] bytes of the block are on the flash before it. *)
Definition write_segment (write_offs offset : Z) (first_chunk : bool) (s : seg) : M world Z :=
  let chunk := if first_chunk then 4 else 0 in
  let chunk_len := if first_chunk then u16 (seg_len s - 4) else seg_len s in
  if seg_len s <? chunk + chunk_len then undefined else
  let misalign := (seg_align s + chunk) mod 4 in
  if negb (chunk_len =? 0) && negb (misalign =? 0) then
    if chunk_len <? 4 then undefined else
    let! _ := flash_write (write_offs + offset) (fun i => seg_mem s (chunk + i)) 4 in
    let aligned := chunk + (4 - misalign) in
    let n := chunk_len - 4 in
    let mem x := if (aligned <=? x) && (x <? aligned + n) then seg_mem s (x - aligned + chunk + 4) else seg_mem s x in
    let! _ := flash_write (write_offs + (offset + 4)) (fun i => mem (aligned + i)) n in
    ret (offset + 4 + n)
  else
    let! _ := flash_write (write_offs + offset) (fun i => seg_mem s (chunk + i)) chunk_len in
    ret (offset + chunk_len).

Fixpoint write_segments (write_offs offset : Z) (first_chunk : bool) (ss : list seg) : M world Z :=
  match ss with
  | [] => ret offset
  | s :: ss =>
    let! offset := write_segment write_offs offset first_chunk s in
    write_segments write_offs offset false ss
  end.

Definition message (e : image_error) : list Z :=
  str match e with
      | Unaligned_flash_offset => "Unaligned flash offset"
      | Flash_fail => "Flash fail"
      | Missing_initial_magic => "Missing initial magic"
      | Header_length_not_modulo_4 => "Header length not modulo 4"
      | Bad_second_magic => "Bad second magic"
      | Image_truncated => "Image truncated"
      | Invalid_checksum => "Invalid checksum"
      end.

(** After a block: go on, or return. *)
Inductive block_end :=
| Next (received_len : Z)
| Stop (e : err_t) (received_len : Z).

(** Behind the write of a block of [len] bytes with its header: the image is
    verified when the block was the last, the block is acknowledged and the
    progress reported. *)
Definition finish_block (start_offs : Z) (receive_cb : bool) (block received_len len : Z) : M world block_end :=
  let! bad :=
    (if len <? DATA_PACKET_SZ then
       let! (ok, image_length, err) := on_api (rboot_verify_image start_offs) in
       if negb ok || negb (image_length =? received_len)
       then ret (Some (match err with Some e => message e | None => str "Unknown validation error" end))
       else ret None
     else ret None) in
  match bad with
  | Some msg =>
    do! tftp_send_error TFTP_ERR_ILLEGAL msg then
    ret (Stop ERR_VAL received_len)
  | None =>
    let! ack_err := tftp_send_ack block in
    if negb (bool_decide (ack_err = ERR_OK)) then ret (Stop ack_err received_len)
    else
      do! (if receive_cb then modify (fun w => with_progress w (progress w ++ [received_len])) else ret tt) then
      if len <? DATA_PACKET_SZ then ret (Stop ERR_OK received_len) else ret (Next received_len)
  end.

(** A block in order: erase, write and finish. *)
Definition store_block (start_offs limit_offs : Z) (receive_cb : bool) (write_offs block received_len : Z) (nb : netbuf)
    : M world block_end :=
  do! (if write_offs mod SECTOR_SIZE =? 0
       then let! _ := on_api (on_flash (spi_flash_erase_sector (u16 (write_offs / SECTOR_SIZE)))) in ret tt
       else ret tt) then
  let len := netbuf_len nb in
  if limit_offs <=? u32 (write_offs + len) then
    do! tftp_send_error TFTP_ERR_FULL (str "Image too large") then
    ret (Stop ERR_VAL received_len)
  else
  if bool_decide (segs nb = []) then undefined else
  let! _ := write_segments write_offs 0 true (segs nb) in
  do! netbuf_delete then
  finish_block start_offs receive_cb block (u32 (received_len + (len - 4))) len.

(** ** The transfer *)

(** How a transfer ends: it still waits for packets, or it has returned, with
    the receive results that are left. *)
Inductive recv_end :=
| Blocked
| Returned (e : err_t) (received_len : Z) (rest : list recv_result).

(** The address a client connects to: that of the first packet, or for the
    time being that of the server. *)
Definition follow_peer (peer_addr : option (Z * Z)) (r : recv_result) : M world (option (Z * Z)) :=
  match peer_addr, r with
  | None, _ => ret None
  | Some _, Received nb => do! netconn_connect (fromaddr nb, fromport nb) then ret None
  | Some p, Failed _ => do! netconn_connect p then ret (Some p)
  end.

Fixpoint receive_loop (start_offs limit_offs : Z) (receive_cb : bool) (ins : list recv_result)
    (write_offs block retries received_len : Z) (peer_addr : option (Z * Z)) : M world recv_end :=
  do! (if bool_decide (is_Some peer_addr) then netconn_disconnect else ret tt) then
  match ins with
  | [] => ret Blocked
  | r :: ins =>
    let again := receive_loop start_offs limit_offs receive_cb ins in
    do! (match r with Received _ => netbuf_taken | Failed _ => ret tt end) then
    let! peer_addr := follow_peer peer_addr r in
    match r with
    | Failed e =>
      if bool_decide (e = ERR_TIMEOUT) then
        if (0 <? retries) && (1 <? block) then
          let! _ := tftp_send_ack (block - 1) in
          again write_offs block (retries - 1) received_len peer_addr
        else
          do! tftp_send_error TFTP_ERR_ILLEGAL (str "Timeout") then
          ret (Returned ERR_TIMEOUT received_len ins)
      else
        do! tftp_send_error TFTP_ERR_ILLEGAL (str "Failed to receive packet") then
        ret (Returned e received_len ins)
    | Received nb =>
      let! opcode := netbuf_read_u16_n nb 0 in
      if negb (opcode =? TFTP_OP_DATA) then
        do! tftp_send_error TFTP_ERR_ILLEGAL (str "Unknown opcode") then
        do! netbuf_delete then
        ret (Returned ERR_VAL received_len ins)
      else
      let! client_block := netbuf_read_u16_n nb 2 in
      if negb (client_block =? block) then
        do! netbuf_delete then
        if client_block =? block - 1 then
          let! _ := tftp_send_ack (block - 1) in
          again write_offs block retries received_len peer_addr
        else
          do! tftp_send_error TFTP_ERR_ILLEGAL (str "Block# out of order") then
          ret (Returned ERR_VAL received_len ins)
      else
      let! r := store_block start_offs limit_offs receive_cb write_offs block received_len nb in
      match r with
      | Stop e received_len => ret (Returned e received_len ins)
      | Next received_len => again (u32 (write_offs + 512)) (block + 1) TFTP_TIMEOUT_RETRANSMITS received_len peer_addr
      end
    end
  end.

Definition tftp_receive_data (ins : list recv_result) (write_offs limit_offs : Z) (peer_addr : option (Z * Z))
    (receive_cb : bool) : M world recv_end :=
  receive_loop write_offs limit_offs receive_cb ins write_offs 1 TFTP_TIMEOUT_RETRANSMITS 0 peer_addr.

(** ** The server *)

(** What a turn of the server's loop leads to. *)
Inductive turn_end :=
| Again (rest : list recv_result)
| Waiting
| Restarting.

(** The request is for the firmware file in octet mode. *)
Definition check_field (field : Z) (nb : netbuf) (expected : list Z) : M world bool :=
  let! f := tftp_get_field field nb in
  ret (match f with Some s => bool_decide (c_str s = expected) | None => false end).

Definition tftp_turn (nb : netbuf) (ins : list recv_result) : M world turn_end :=
  do! netbuf_taken then
  if u16 (netbuf_len nb) <? 6 then do! netbuf_delete then ret (Again ins) else
  let! opcode := netbuf_read_u16_n nb 0 in
  if negb (opcode =? TFTP_OP_WRQ) then do! netbuf_delete then ret (Again ins) else
  let! ok := check_field 0 nb TFTP_FIRMWARE_FILE in
  if negb ok then
    do! tftp_send_error TFTP_ERR_FILENOTFOUND (str "File must be firmware.bin") then
    do! netbuf_delete then
    ret (Again ins)
  else
  let! ok := check_field 1 nb TFTP_OCTET_MODE in
  if negb ok then
    do! tftp_send_error TFTP_ERR_ILLEGAL (str "Mode must be octet/binary") then
    do! netbuf_delete then
    ret (Again ins)
  else
  do! netconn_connect (fromaddr nb, fromport nb) then
  do! netbuf_delete then
  let! conf := on_api rboot_get_config in
  let count := get_u8 conf off_count in
  let current_rom := get_u8 conf off_current_rom in
  if count =? 0 then undefined else
  let slot := (current_rom + 1) mod count in
  if MAX_ROMS <=? slot then undefined else
  if slot =? current_rom then
    do! tftp_send_error TFTP_ERR_ILLEGAL (str "Only one OTA slot!") then
    do! netconn_disconnect then
    ret (Again ins)
  else
  let! ack_err := tftp_send_ack 0 in
  if negb (bool_decide (ack_err = ERR_OK)) then do! netconn_disconnect then ret (Again ins) else
  let start := get_u32 conf (off_roms + 4 * slot) in
  let! r := tftp_receive_data ins start (u32 (start + MAX_IMAGE_SIZE)) None false in
  match r with
  | Blocked => ret Waiting
  | Returned recv_err received_len ins =>
    do! netconn_disconnect then
    if bool_decide (recv_err = ERR_OK) then
      do! on_api vPortEnterCritical then
      let! _ := on_api (rboot_set_current_rom slot) in
      do! modify with_restart then
      ret Restarting
    else ret (Again ins)
  end.

(** The loop of the task, until it waits or the system restarts. *)
Fixpoint tftp_loop (fuel : nat) (ins : list recv_result) : M world bool :=
  match fuel with
  | O => out_of_fuel
  | S fuel =>
    match ins with
    | [] => ret false
    | Failed _ :: ins => tftp_loop fuel ins
    | Received nb :: ins =>
      let! r := tftp_turn nb ins in
      match r with
      | Again rest => tftp_loop fuel rest
      | Waiting => ret false
      | Restarting => ret true
      end
    end
  end.

(** A task function must not return, which it does without a socket. *)
Definition tftp_task (ins : list recv_result) : M world bool :=
  let! ok := on_api os_malloc in
  if negb ok then undefined else
  do! modify (fun w => with_netconns w (netconns w + 1)) then
  tftp_loop (S (length ins)) ins.

(** ** The client *)

(** The results of binding a port and of resolving a name. *)
Context (netconn_bind : Z -> err_t) (netconn_gethostbyname : list Z -> err_t * Z).

(** The ports [local_port + 1 ..] are tried while they are in use, up to
    [limit]; [n] is their number. *)
Fixpoint bind_loop (n : nat) (local_port limit : Z) : err_t :=
  match n with
  | O => ERR_USE
  | S n =>
    let local_port := local_port + 1 in
    let err := netconn_bind local_port in
    if bool_decide (err = ERR_USE) && (local_port <? limit) then bind_loop n local_port limit else err
  end.

(** [None]: the download still waits for packets. *)
Definition ota_tftp_download (server : list Z) (port : Z) (filename : list Z) (ota_slot : Z) (receive_cb : bool)
    (ins : list recv_result) : M world (option err_t) :=
  let! conf := on_api rboot_get_config in
  if (get_u8 conf off_current_rom =? ota_slot) || (get_u8 conf off_count <=? ota_slot) then ret (Some ERR_VAL) else
  if (ota_slot <? 0) || (MAX_ROMS <=? ota_slot) then undefined else
  let flash_offset := get_u32 conf (off_roms + 4 * ota_slot) in
  let! ok := on_api os_malloc in
  if negb ok then ret (Some ERR_IF) else
  do! modify (fun w => with_netconns w (netconns w + 1)) then
  let fail e := do! netconn_delete then ret (Some e) in
  let err := bind_loop 11 (port - 1) (port + 10) in
  if negb (bool_decide (err = ERR_OK)) then fail err else
  let '(err, addr) := netconn_gethostbyname server in
  if negb (bool_decide (err = ERR_OK)) then fail err else
  do! netconn_connect (addr, port) then
  let! err := tftp_send_rrq filename in
  if negb (bool_decide (err = ERR_OK)) then fail err else
  let! r := tftp_receive_data ins flash_offset (u32 (flash_offset + MAX_IMAGE_SIZE)) (Some (addr, port)) receive_cb in
  match r with
  | Blocked => ret None
  | Returned err _ _ => fail err
  end.

End Tftp.
Arguments world : clear implicits.
End Tftp.
