(* ===== verification/TftpProofs.v ===== *)
(** * TFTP updates: storing blocks

    The buffers the code can handle, what storing the segments of a packet
    does to the flash, and the flash during a transfer. *)

From stdpp Require Import strings.
From S2P Require Import Prelude CStrings Flash SdkFlash Rboot RbootProofs RbootImage Tftp.
Open Scope Z_scope.

Module TftpProofs.
Import Tftp Api ApiProofs Image.

(** ** Packets *)

(** Segments of whole words, the header in the first one. *)
Definition seg_ok (s : seg) : Prop :=
  0 <= seg_len s < 65536 /\ seg_len s mod 4 = 0 /\ forall x, byteP (seg_mem s x).

Definition nb_ok (nb : netbuf) : Prop :=
  exists s ss, segs nb = s :: ss /\ 4 <= seg_len s /\ Forall seg_ok (segs nb) /\ netbuf_len nb < 65536.

(** What may arrive: DATA packets as above, and any other packets that have
    an operation code. *)
Definition recv_ok (r : recv_result) : Prop :=
  match r with
  | Received nb => nb_ok nb \/ (2 <= length (netbuf_bytes nb))%nat /\ ntohs (netbuf_bytes nb) <> TFTP_OP_DATA
  | Failed e => e <> ERR_OK
  end.

(** The operation code of a packet. *)
Lemma ntohs_overlay bs raw : (2 <= length bs)%nat -> ntohs (overlay (sub_bytes bs 0 2) raw) = ntohs bs.
Proof. destruct bs as [|b0 [|b1 bs]]; cbn [length]; [lia..|]. done. Qed.

Lemma length_seg_bytes s : seg_ok s -> Z.of_nat (length (seg_bytes s)) = seg_len s.
Proof. intros [? _]. unfold seg_bytes. rewrite length_cells. lia. Qed.

Lemma seg_bytes_byte s : seg_ok s -> Forall byteP (seg_bytes s).
Proof. intros (_ & _ & H). by apply cells_byte. Qed.

(** The payload behind the header. *)
Definition data_of (nb : netbuf) : list Z := drop 4 (netbuf_bytes nb).

Lemma concat_segs_ok ss :
  Forall seg_ok ss -> Z.of_nat (length (concat (seg_bytes <$> ss))) mod 4 = 0 /\ Forall byteP (concat (seg_bytes <$> ss)).
Proof.
  induction 1 as [|s ss Hs _ [IH1 IH2]]; [done|]. cbn. rewrite length_app, Nat2Z.inj_add, length_seg_bytes by done.
  split; [destruct Hs as (_ & ? & _); divlia|]. apply Forall_app. split; [by apply seg_bytes_byte|done].
Qed.

Lemma nb_len_ok nb : nb_ok nb -> 4 <= netbuf_len nb < 65536 /\ netbuf_len nb mod 4 = 0 /\ Forall byteP (netbuf_bytes nb).
Proof.
  intros (s & ss & Hs & H4 & Hok & Hl). destruct (concat_segs_ok _ Hok) as [H1 H2].
  split; [split; [|done]|done]. unfold netbuf_len, netbuf_bytes in *. rewrite Hs in *. cbn in *.
  inversion Hok; subst. rewrite length_app, Nat2Z.inj_add, length_seg_bytes by done. lia.
Qed.

Lemma length_data nb : nb_ok nb -> Z.of_nat (length (data_of nb)) = netbuf_len nb - 4.
Proof. intros H. apply nb_len_ok in H as [H _]. unfold data_of, netbuf_len in *. rewrite length_drop. lia. Qed.

Lemma data_byte nb : nb_ok nb -> Forall byteP (data_of nb).
Proof. intros H. apply nb_len_ok in H as (_ & _ & H). by apply Forall_drop. Qed.

Section Proofs.
Context {F : Type} `{HF : SdkFlash F} {FL : SdkFlashLaws F} `{HR : RbootH} {RL : RbootHLaws}.
Implicit Types w : Tftp.world F.

Definition t_ok w : Prop := w_ok (api w).
Definition with_flash w (f : F) : Tftp.world F := with_api w (set_flash (api w) f).
Definition fcell w : Z -> Z := sf_cell (w_flash (api w)).

Lemma on_api_Done {A} (m : M (Api.world F) A) w (a : A) s :
  m (api w) = Done (a, s) -> on_api m w = Done (a, with_api w s).
Proof. unfold on_api. by intros ->. Qed.

Lemma with_api_same w : with_api w (api w) = w.
Proof. by destruct w. Qed.

Lemma with_flash_same w : with_flash w (w_flash (api w)) = w.
Proof. unfold with_flash. by rewrite set_flash_same, with_api_same. Qed.

(** ** Writing *)

Lemma flash_write_Done w a buf n :
  t_ok w -> 0 <= a -> 0 <= n -> a mod 4 = 0 -> n mod 4 = 0 -> a + n <= sf_chip_size ->
  exists f, flash_write a buf n w = Done (SPI_FLASH_RESULT_OK, with_flash w f) /\ sf_ok f /\
    forall x, sf_cell f x = and_bytes (fcell w) a buf n x.
Proof.
  intros Hw Ha Hn H1 H2 Hc. pose proof sf_size_bound. unfold flash_write. rewrite u32_small by lia.
  destruct (sf_write_ok (w_flash (api w)) a buf n) as (f & E & Ho & Hx); try done.
  exists f. split; [|done]. apply on_api_Done. by apply on_flash_Done.
Qed.

(** One segment, whatever its alignment. *)
Lemma write_segment_Done w wo offset (first : bool) s :
  let n := if first then seg_len s - 4 else seg_len s in
  t_ok w -> seg_ok s -> (first = true -> 4 <= seg_len s) -> 0 <= wo -> 0 <= offset -> wo mod 4 = 0 -> offset mod 4 = 0 ->
  wo + offset + n <= sf_chip_size ->
  exists f, write_segment wo offset first s w = Done (offset + n, with_flash w f) /\ sf_ok f /\
    forall x, sf_cell f x = and_bytes (fcell w) (wo + offset) (fun i => seg_mem s ((if first then 4 else 0) + i)) n x.
Proof.
  intros n Hw (Hl & Hm & _) Hf Ho Hoff H1 H2 Hc. unfold write_segment.
  assert (Hn : (if first then u16 (seg_len s - 4) else seg_len s) = n).
  { unfold n. destruct first; [|done]. apply u16_small. specialize (Hf eq_refl). lia. }
  rewrite Hn. set (chunk := if first then 4 else 0).
  assert (Hcn : chunk + n = seg_len s) by (unfold chunk, n; destruct first; lia).
  assert (Hn0 : 0 <= n) by (unfold n; destruct first; [specialize (Hf eq_refl)|]; lia).
  assert (Hn4 : n mod 4 = 0) by (unfold n; destruct first; divlia).
  rewrite (proj2 (Z.ltb_ge _ _)) by lia. cbv zeta. case_if; zbool.
  - case_if; zbool; [exfalso; divlia|].
    set (mis := (seg_align s + chunk) mod 4) in *. assert (0 <= mis < 4) by (apply Z.mod_pos_bound; lia).
    destruct (flash_write_Done w (wo + offset) (fun i => seg_mem s (chunk + i)) 4) as (f1 & E1 & O1 & C1); [done|lia|lia|divlia|done|lia|].
    run E1.
    set (mem := fun x : Z => if (chunk + (4 - mis) <=? x) && (x <? chunk + (4 - mis) + (n - 4))
                             then seg_mem s (x - (chunk + (4 - mis)) + chunk + 4) else seg_mem s x).
    destruct (flash_write_Done (with_flash w f1) (wo + (offset + 4)) (fun i => mem (chunk + (4 - mis) + i)) (n - 4))
      as (f2 & E2 & O2 & C2); [done|lia|lia|divlia|divlia|lia|].
    run E2. exists f2. unfold ret. split; [do 2 f_equal; lia|]. split; [done|]. intros x. rewrite C2.
    rewrite (CallProofs.and_bytes_buf _ _ _ (fun i => seg_mem s (chunk + (i + 4)))).
    2:{ intros i Hi. unfold mem. rewrite (proj2 (andb_true_iff _ _)) by (split; [apply Z.leb_le|apply Z.ltb_lt]; lia). f_equal. lia. }
    rewrite (and_bytes_ext _ (and_bytes (fcell w) (wo + offset) (fun i => seg_mem s (chunk + i)) 4)) by apply C1.
    replace (wo + (offset + 4)) with (wo + offset + 4) by lia.
    rewrite (and_bytes_compose (fcell w) (wo + offset) (fun i => seg_mem s (chunk + i)) 4 (n - 4)) by lia.
    f_equal. lia.
  - destruct (flash_write_Done w (wo + offset) (fun i => seg_mem s (chunk + i)) n) as (f1 & E1 & O1 & C1); [done|lia|lia|divlia|done|lia|].
    run E1. exists f1. by split.
Qed.

Lemma seg_mem_bytes s k i : 0 <= k -> 0 <= i -> k + i < seg_len s -> seg_mem s (k + i) = as_mem (drop (Z.to_nat k) (seg_bytes s)) i.
Proof.
  intros. rewrite as_mem_drop by lia. rewrite (cells_lookup_eq (seg_mem s) 0 (seg_len s) (seg_bytes s)) by (done || lia).
  f_equal. lia.
Qed.

Lemma and_bytes_app c a b1 b2 x :
  and_bytes (and_bytes c a (as_mem b1) (Z.of_nat (length b1))) (a + Z.of_nat (length b1)) (as_mem b2) (Z.of_nat (length b2)) x
  = and_bytes c a (as_mem (b1 ++ b2)) (Z.of_nat (length (b1 ++ b2))) x.
Proof.
  rewrite length_app, Nat2Z.inj_add, <-and_bytes_compose by lia.
  rewrite (CallProofs.and_bytes_buf _ _ (fun i => as_mem (b1 ++ b2) (i + Z.of_nat (length b1))) (as_mem b2)).
  2:{ intros i Hi. rewrite as_mem_app_r by lia. f_equal. lia. }
  apply and_bytes_ext. intros y. apply CallProofs.and_bytes_buf. intros i Hi. by rewrite as_mem_app_l by lia.
Qed.

Lemma write_rest_Done ss : forall w wo offset,
  t_ok w -> Forall seg_ok ss -> 0 <= wo -> 0 <= offset -> wo mod 4 = 0 -> offset mod 4 = 0 ->
  let D := concat (seg_bytes <$> ss) in
  wo + offset + Z.of_nat (length D) <= sf_chip_size ->
  exists f, write_segments wo offset false ss w = Done (offset + Z.of_nat (length D), with_flash w f) /\ sf_ok f /\
    forall x, sf_cell f x = and_bytes (fcell w) (wo + offset) (as_mem D) (Z.of_nat (length D)) x.
Proof.
  induction ss as [|s ss IH]; intros w wo offset Hw Hok H0 H1 H2 H3 D Hc; cbn [write_segments].
  { exists (w_flash (api w)). rewrite with_flash_same. unfold ret. split; [do 2 f_equal; cbn; lia|]. split; [done|].
    intros x. unfold and_bytes. case_if; [zbool; cbn in *; lia|done]. }
  apply Forall_cons in Hok as [Hs Hok]. unfold D in Hc |- *. cbn [fmap list_fmap concat] in Hc |- *.
  rewrite length_app, Nat2Z.inj_add, length_seg_bytes in Hc by done.
  destruct (write_segment_Done w wo offset false s) as (f1 & E1 & O1 & C1); try done; [lia|]. run E1.
  destruct Hs as (Hl & Hm & Hb). destruct (IH (with_flash w f1) wo (offset + seg_len s)) as (f2 & E2 & O2 & C2); try done; [lia|divlia|lia|].
  rewrite E2. exists f2. split; [unfold D; do 2 f_equal; rewrite length_app, Nat2Z.inj_add, length_seg_bytes by done; lia|].
  split; [done|]. intros x. rewrite C2, <-and_bytes_app. rewrite length_seg_bytes by done.
  replace (wo + (offset + seg_len s)) with (wo + offset + seg_len s) by lia. apply and_bytes_ext. intros y.
  change (fcell (with_flash w f1) y) with (sf_cell f1 y). rewrite C1. apply CallProofs.and_bytes_buf.
  intros i Hi. apply (seg_mem_bytes s 0 i); lia.
Qed.

(** The payload of a packet ends up at [wo]. *)
Lemma write_packet_Done w wo nb :
  t_ok w -> nb_ok nb -> 0 <= wo -> wo mod 4 = 0 -> wo + netbuf_len nb - 4 <= sf_chip_size ->
  exists f, write_segments wo 0 true (segs nb) w = Done (netbuf_len nb - 4, with_flash w f) /\ sf_ok f /\
    forall x, sf_cell f x = and_bytes (fcell w) wo (as_mem (data_of nb)) (netbuf_len nb - 4) x.
Proof.
  intros Hw Hnb H0 H1 Hc. pose proof (length_data nb Hnb) as Hld. destruct Hnb as (s & ss & Hs & H4 & Hok & Hl).
  rewrite Hs in *. apply Forall_cons in Hok as [Hs1 Hok]. cbn [write_segments].
  set (D := concat (seg_bytes <$> ss)).
  assert (Hd : data_of nb = drop 4 (seg_bytes s) ++ D).
  { unfold data_of, netbuf_bytes. rewrite Hs. cbn. apply drop_app_le. pose proof (length_seg_bytes s Hs1). lia. }
  assert (Hl4 : Z.of_nat (length (drop 4 (seg_bytes s))) = seg_len s - 4).
  { rewrite length_drop. pose proof (length_seg_bytes s Hs1). lia. }
  rewrite Hd, length_app, Nat2Z.inj_add, Hl4 in Hld.
  destruct (write_segment_Done w wo 0 true s) as (f1 & E1 & O1 & C1); try done; [lia|]. run E1.
  destruct Hs1 as (Hl1 & Hm & Hb).
  destruct (write_rest_Done ss (with_flash w f1) wo (0 + (seg_len s - 4))) as (f2 & E2 & O2 & C2); try done; [lia|divlia|fold D; lia|].
  fold D in E2, C2. rewrite E2. exists f2. split; [do 2 f_equal; lia|]. split; [done|]. intros x. rewrite C2, Hd.
  replace (netbuf_len nb - 4) with (Z.of_nat (length (drop 4 (seg_bytes s) ++ D))) by (rewrite length_app, Nat2Z.inj_add, Hl4; lia).
  rewrite <-and_bytes_app, Hl4. replace (wo + (0 + (seg_len s - 4))) with (wo + (seg_len s - 4)) by lia.
  apply and_bytes_ext. intros y. change (fcell (with_flash w f1) y) with (sf_cell f1 y). rewrite C1.
  replace (wo + 0) with wo by lia. apply CallProofs.and_bytes_buf. intros i Hi. apply (seg_mem_bytes s 4 i); lia.
Qed.

(** ** The flash during a transfer *)

(** The flash that was [c0] has taken the data [D] from [S0] on; it is erased
    behind the data up to [S0 + e] and otherwise as it was. *)
Definition stored (c0 : Z -> Z) (S0 : Z) (D : list Z) (e : Z) (c : Z -> Z) : Prop :=
  forall x, c x =
    if (S0 <=? x) && (x <? S0 + Z.of_nat (length D)) then as_mem D (x - S0)
    else if (S0 + Z.of_nat (length D) <=? x) && (x <? S0 + e) then 255 else c0 x.

Definition sectors (n : Z) : Z := 4096 * ((n + 4095) / 4096).

Definition erased_to (n : Z) : Z := if n mod 4096 =? 0 then n + 4096 else sectors n.

Definition erased_for (c : Z -> Z) (wo : Z) : Z -> Z := if wo mod 4096 =? 0 then erase_bytes c wo 4096 else c.

Lemma stored_block c0 S0 D d c c2 :
  let n := Z.of_nat (length D) in
  S0 mod 4096 = 0 -> n mod 512 = 0 -> Z.of_nat (length d) <= 512 -> Forall byteP d ->
  stored c0 S0 D (sectors n) c ->
  (forall x, c2 x = and_bytes (erased_for c (S0 + n)) (S0 + n) (as_mem d) (Z.of_nat (length d)) x) ->
  stored c0 S0 (D ++ d) (erased_to n) c2.
Proof.
  intros n H0 Hn Hd Hb Hst Hc2 x. rewrite Hc2. rewrite length_app, Nat2Z.inj_add. fold n.
  assert (Hm : (S0 + n) mod 4096 = n mod 4096) by (rewrite Zplus_mod, H0; apply Z.mod_mod; lia).
  assert (Hc : erased_for c (S0 + n) x =
    if (S0 <=? x) && (x <? S0 + n) then as_mem D (x - S0)
    else if (S0 + n <=? x) && (x <? S0 + erased_to n) then 255 else c0 x).
  { unfold erased_for, erased_to, sectors in *. rewrite Hm. specialize (Hst x). cbv beta in Hst. fold n in Hst.
    destruct (n mod 4096 =? 0) eqn:E; [|done]. zbool.
    assert (He : 4096 * ((n + 4095) / 4096) = n) by divlia. rewrite He in Hst.
    unfold erase_bytes. rewrite Hst. repeat case_if; zbool; try done; lia. }
  assert (He : n + 512 <= erased_to n) by (unfold erased_to, sectors; case_if; zbool; divlia).
  unfold and_bytes. rewrite Hc. destruct ((S0 + n <=? x) && (x <? S0 + n + Z.of_nat (length d))) eqn:E; zbool.
  - rewrite (proj2 (andb_false_iff _ _)) by (right; apply Z.ltb_ge; lia).
    rewrite (proj2 (andb_true_iff _ _)) by (split; [apply Z.leb_le|apply Z.ltb_lt]; lia).
    rewrite (proj2 (andb_true_iff _ _)) by (split; [apply Z.leb_le|apply Z.ltb_lt]; lia).
    rewrite land_255_l by by apply as_mem_byte. rewrite as_mem_app_r by lia. f_equal. lia.
  - destruct ((S0 <=? x) && (x <? S0 + n)) eqn:E2; zbool.
    + rewrite (proj2 (andb_true_iff _ _)) by (split; [apply Z.leb_le|apply Z.ltb_lt]; lia). by rewrite as_mem_app_l by lia.
    + rewrite (proj2 (andb_false_iff (S0 <=? x) _)) by (rewrite Z.leb_gt, Z.ltb_ge; destruct E, E2; zbool; lia).
      destruct ((S0 + n <=? x) && (x <? S0 + erased_to n)) eqn:E3, ((S0 + (n + Z.of_nat (length d)) <=? x) && (x <? S0 + erased_to n)) eqn:E4;
        zbool; try done; destruct E, E3 || destruct E, E4; zbool; lia.
Qed.

(** ** One block *)

(** The first block of a sector has it erased. *)
Lemma erase_step w wo :
  t_ok w -> 0 <= wo -> 4096 * (wo / 4096) + 4096 <= sf_chip_size ->
  exists f, (if wo mod 4096 =? 0
             then let! _ := on_api (on_flash (spi_flash_erase_sector (u16 (wo / 4096)))) in ret tt
             else ret tt) w = Done (tt, with_flash w f) /\ sf_ok f /\ forall x, sf_cell f x = erased_for (fcell w) wo x.
Proof.
  intros Hw H0 Hc. pose proof sf_size_bound. unfold erased_for. destruct (wo mod 4096 =? 0) eqn:E; zbool.
  - rewrite u16_small by divlia. destruct (sf_erase_ok (w_flash (api w)) (wo / 4096)) as (f & E1 & O1 & C1); [done|divlia|divlia|].
    exists f. erewrite bind_Done by (apply on_api_Done; by apply on_flash_Done). split; [done|]. split; [done|].
    intros x. rewrite C1. unfold fcell. f_equal. divlia.
  - exists (w_flash (api w)). by rewrite with_flash_same.
Qed.

Lemma store_block_flash w S0 limit cb wo block rl nb :
  t_ok w -> nb_ok nb -> 0 <= S0 <= wo -> wo mod 512 = 0 -> limit mod 4096 = 0 -> limit <= sf_chip_size ->
  wo + netbuf_len nb < limit ->
  exists f, sf_ok f /\ (forall x, sf_cell f x = and_bytes (erased_for (fcell w) wo) wo (as_mem (data_of nb)) (netbuf_len nb - 4) x) /\
    store_block S0 limit cb wo block rl nb w =
      finish_block S0 cb block (u32 (rl + (netbuf_len nb - 4))) (netbuf_len nb)
        (with_netbufs (with_flash w f) (netbufs w - 1)).
Proof.
  intros Hw Hnb H0 Hwo Hlim Hchip Hlen. pose proof sf_size_bound. pose proof (nb_len_ok nb Hnb) as (Hl & _ & _).
  unfold store_block. rewrite rb_sector.
  destruct (erase_step w wo) as (f1 & E1 & O1 & C1); [done|lia|divlia|].
  run E1. rewrite u32_small, (proj2 (Z.leb_gt _ _)) by lia.
  rewrite bool_decide_false by (destruct Hnb as (s & ss & -> & _); done).
  destruct (write_packet_Done (with_flash w f1) wo nb) as (f2 & E2 & O2 & C2); [done|done|lia|divlia|lia|]. run E2.
  exists f2. split; [done|]. split; [|done]. intros x. rewrite C2. apply and_bytes_ext. intros y. apply C1.
Qed.

(** A packet that does not fit: its sector may be erased, nothing is written. *)
Lemma store_block_full w S0 limit cb wo block rl nb :
  t_ok w -> 0 <= S0 <= wo -> wo < limit -> limit mod 4096 = 0 -> limit <= sf_chip_size -> netbuf_len nb < 65536 ->
  limit <= wo + netbuf_len nb ->
  exists f w', sf_ok f /\ (forall x, sf_cell f x = erased_for (fcell w) wo x) /\
    store_block S0 limit cb wo block rl nb w = Done (Stop ERR_VAL rl, w') /\ api w' = set_flash (api w) f /\
    netbufs w' = netbufs w /\ restarted w' = restarted w.
Proof.
  intros Hw H0 Hwo Hlim Hchip Hl Hlen. pose proof sf_size_bound. unfold store_block. rewrite rb_sector.
  destruct (erase_step w wo) as (f1 & E1 & O1 & C1); [done|lia|divlia|].
  run E1. rewrite u32_small by lia. rewrite (proj2 (Z.leb_le _ _)) by lia.
  unfold tftp_send_error, send_packet, netbuf_taken, netbuf_delete, netconn_send, bind, modify, ret.
  cbn [sent send_results with_netbufs with_flash with_api]. exists f1.
  destruct (send_results w); eexists; (split; [done|]); (split; [done|]); (split; [done|]); cbn; repeat split; lia.
Qed.

End Proofs.
End TftpProofs.

(** * TFTP updates: a transfer

    What the network may deliver while a sender transmits an image in blocks
    of 512 bytes, and the run of the receive loop on it. *)

Module TftpTransfer.
Import Tftp Api ApiProofs Image TftpProofs.

(** ** What a sender causes to be received *)

Definition u16P (x : Z) : Prop := 0 <= x < 65536.

(** The header of a packet: an operation and a number. *)
Definition headed (op num : Z) (nb : netbuf) : Prop :=
  u16P op /\ u16P num /\ take 4 (netbuf_bytes nb) = htons op ++ htons num.

Definition data_packet (num : Z) (nb : netbuf) : Prop := headed TFTP_OP_DATA num nb.

(** The receiver waits for block [b] and has [k] retransmissions left; the
    sender still has to deliver the blocks, the last one shorter than 512
    bytes.  Time-outs may come while retransmissions are left (none before
    the first block), and the block before may come again.  The last index
    is what is acknowledged before the last block. *)
Inductive transfer (rest : list recv_result) : Z -> Z -> list (list Z) -> list recv_result -> list Z -> Prop :=
| lost b k blocks ins acks :
    0 < k -> 1 < b -> transfer rest b (k - 1) blocks ins acks ->
    transfer rest b k blocks (Failed ERR_TIMEOUT :: ins) (b - 1 :: acks)
| repeated b k nb blocks ins acks :
    data_packet (b - 1) nb -> transfer rest b k blocks ins acks ->
    transfer rest b k blocks (Received nb :: ins) (b - 1 :: acks)
| full_block b k nb blocks ins acks :
    data_packet b nb -> nb_ok nb -> length (data_of nb) = 512%nat ->
    transfer rest (b + 1) TFTP_TIMEOUT_RETRANSMITS blocks ins acks ->
    transfer rest b k (data_of nb :: blocks) (Received nb :: ins) (b :: acks)
| last_block b k nb :
    data_packet b nb -> nb_ok nb -> (length (data_of nb) < 512)%nat ->
    transfer rest b k [data_of nb] (Received nb :: rest) [].

(** What the callback is told: the bytes received so far. *)
Fixpoint totals (n : Z) (blocks : list (list Z)) : list Z :=
  match blocks with
  | [] => []
  | d :: blocks => n + Z.of_nat (length d) :: totals (n + Z.of_nat (length d)) blocks
  end.

Lemma ntohs_htons x bs : u16P x -> ntohs (htons x ++ bs) = x.
Proof.
  intros Hx. unfold ntohs, htons, u8, u16P in *. rewrite Z.shiftr_div_pow2 by lia.
  change (2 ^ 8) with 256. change (x / 256 mod 256 * 256 + x mod 256 = x). divlia.
Qed.

Section Transfer.
Context {F : Type} `{HF : SdkFlash F} {FL : SdkFlashLaws F} `{HR : RbootH} {RL : RbootHLaws}.
Implicit Types w : Tftp.world F.

(** ** The state during a transfer *)

Definition ack_packet (b : Z) : list Z := htons TFTP_OP_ACK ++ htons b.

(** [w] after acknowledgements of the blocks [l] and reports [p], with the
    flash [f]. *)
Definition moved w (f : F) (l p : list Z) : Tftp.world F := {|
  api := set_flash (api w) f;
  sent := sent w ++ ((fun b => (peer w, ack_packet b)) <$> l);
  send_results := [];
  peer := peer w;
  netbufs := netbufs w;
  netconns := netconns w;
  progress := progress w ++ p;
  restarted := restarted w;
|}.

Lemma send_packet_Done w bs :
  send_results w = [] -> send_packet bs w = Done (ERR_OK, with_sent w (sent w ++ [(peer w, bs)]) []).
Proof.
  intros Hs. unfold send_packet, netbuf_taken, netbuf_delete, netconn_send, bind, modify, ret. cbn. rewrite Hs.
  unfold with_sent, with_netbufs. cbn. do 3 f_equal. lia.
Qed.

Lemma send_ack_moved w f l p b : tftp_send_ack b (moved w f l p) = Done (ERR_OK, moved w f (l ++ [b]) p).
Proof.
  unfold tftp_send_ack. rewrite send_packet_Done by done. unfold with_sent, moved. cbn. by rewrite fmap_app, app_assoc.
Qed.

Lemma read_u16 w nb offs x bs :
  u16P x -> drop (Z.to_nat offs) (netbuf_bytes nb) = htons x ++ bs -> netbuf_read_u16_n nb offs w = Done (x, w).
Proof.
  intros Hx Hd. unfold netbuf_read_u16_n, on_api, uninit, get, bind, ret. rewrite with_api_same. do 2 f_equal.
  unfold sub_bytes. rewrite Hd. unfold overlay. rewrite take_app_ge by done. cbn [length htons Nat.sub take].
  rewrite <-app_assoc. by apply ntohs_htons.
Qed.

Lemma read_header w nb op num :
  headed op num nb -> netbuf_read_u16_n nb 0 w = Done (op, w) /\ netbuf_read_u16_n nb 2 w = Done (num, w).
Proof.
  intros (H1 & H2 & H3).
  assert (E : netbuf_bytes nb = htons op ++ htons num ++ data_of nb).
  { unfold data_of. by rewrite app_assoc, <-H3, take_drop. }
  split; eapply read_u16; try done; rewrite E; done.
Qed.

(** ** The receive loop *)

Lemma erased_next n : n mod 512 = 0 -> erased_to n = sectors (n + 512).
Proof.
  intros Hn. unfold sectors, erased_to.
  assert (Hr : exists a r, n = 4096 * a + 512 * r /\ 0 <= r <= 7 /\ n mod 4096 = 512 * r).
  { exists (n / 4096), (n mod 4096 / 512). divlia. }
  destruct Hr as (a & r & -> & Hr & ->).
  rewrite <-(Z.div_unique (4096 * a + 512 * r + 512 + 4095) 4096 (a + 1) (512 * r + 511)) by lia. case_if; zbool; [lia|].
  unfold sectors. rewrite <-(Z.div_unique (4096 * a + 512 * r + 4095) 4096 (a + 1) (512 * r - 1)) by lia. done.
Qed.

Context (w : Tftp.world F) (S0 limit : Z) (cb : bool).
Hypothesis Hslot : 0 <= S0 /\ S0 mod 4096 = 0 /\ limit mod 4096 = 0 /\ limit <= sf_chip_size.

Lemma loop_timeout ins wo b k rl f l p :
  0 < k -> 1 < b ->
  receive_loop S0 limit cb (Failed ERR_TIMEOUT :: ins) wo b k rl None (moved w f l p) =
  receive_loop S0 limit cb ins wo b (k - 1) rl None (moved w f (l ++ [b - 1]) p).
Proof.
  intros Hk Hb. cbn [receive_loop]. rewrite bool_decide_false by (by intros [? ?]).
  do 3 (erewrite bind_Done by reflexivity). rewrite bool_decide_true by done.
  rewrite (proj2 (andb_true_iff _ _)) by (split; apply Z.ltb_lt; lia). by run (send_ack_moved w f l p (b - 1)).
Qed.

(** A packet has been taken. *)
Definition taken (W : Tftp.world F) : Tftp.world F := with_netbufs W (netbufs W + 1).

Lemma taken_delete f l p : netbuf_delete (taken (moved w f l p)) = Done (tt, moved w f l p).
Proof. unfold netbuf_delete, modify, taken, with_netbufs. cbn. unfold moved. do 3 f_equal. lia. Qed.

Lemma loop_repeated nb ins wo b k rl f l p :
  data_packet (b - 1) nb ->
  receive_loop S0 limit cb (Received nb :: ins) wo b k rl None (moved w f l p) =
  receive_loop S0 limit cb ins wo b k rl None (moved w f (l ++ [b - 1]) p).
Proof.
  intros Hd. destruct (read_header (taken (moved w f l p)) nb _ _ Hd) as [R1 R2].
  cbn [receive_loop]. rewrite bool_decide_false by (by intros [? ?]). do 3 (erewrite bind_Done by reflexivity).
  fold (taken (moved w f l p)). run R1. cbn [Z.eqb negb Pos.eqb TFTP_OP_DATA]. run R2.
  case_if; zbool; [|lia]. run (taken_delete f l p). rewrite Z.eqb_refl. by run (send_ack_moved w f l p (b - 1)).
Qed.

Lemma loop_block nb ins wo b k rl f l p :
  data_packet b nb ->
  receive_loop S0 limit cb (Received nb :: ins) wo b k rl None (moved w f l p) =
  (let! r := store_block S0 limit cb wo b rl nb in
   match r with
   | Stop e rl => ret (Returned e rl ins)
   | Next rl => receive_loop S0 limit cb ins (u32 (wo + 512)) (b + 1) TFTP_TIMEOUT_RETRANSMITS rl None
   end) (taken (moved w f l p)).
Proof.
  intros Hd. destruct (read_header (taken (moved w f l p)) nb _ _ Hd) as [R1 R2].
  cbn [receive_loop]. rewrite bool_decide_false by (by intros [? ?]). do 3 (erewrite bind_Done by reflexivity).
  fold (taken (moved w f l p)). run R1. cbn [Z.eqb negb Pos.eqb TFTP_OP_DATA]. run R2. by rewrite Z.eqb_refl.
Qed.

Definition reports (rl : Z) : list Z := if cb then [rl] else [].

Lemma finish_full f l p b rl len :
  DATA_PACKET_SZ <= len ->
  finish_block S0 cb b rl len (moved w f l p) = Done (Next rl, moved w f (l ++ [b]) (p ++ reports rl)).
Proof.
  intros Hl. unfold finish_block. rewrite (proj2 (Z.ltb_ge _ _)) by done.
  erewrite (bind_Done (ret None)) by reflexivity. cbn beta iota. run (send_ack_moved w f l p b). rewrite bool_decide_true by done. cbn [negb]. unfold reports.
  destruct cb; erewrite bind_Done by reflexivity; unfold ret, with_progress, moved; cbn; [by rewrite app_assoc|by rewrite app_nil_r].
Qed.

(** A block that fits is put behind the data stored so far. *)
Lemma store_block_moved nb D f l p b :
  let n := Z.of_nat (length D) in
  sf_ok f -> nb_ok nb -> n mod 512 = 0 -> Z.of_nat (length (data_of nb)) <= 512 -> S0 + n + netbuf_len nb < limit ->
  stored (fcell w) S0 D (sectors n) (sf_cell f) ->
  exists f', sf_ok f' /\ stored (fcell w) S0 (D ++ data_of nb) (erased_to n) (sf_cell f') /\
    store_block S0 limit cb (S0 + n) b n nb (taken (moved w f l p)) =
      finish_block S0 cb b (Z.of_nat (length (D ++ data_of nb))) (netbuf_len nb) (moved w f' l p).
Proof.
  intros n Hf Hnb Hn Hd Hlen Hst. destruct Hslot as (H0 & HS & Hlim & Hchip). pose proof sf_size_bound.
  pose proof (length_data nb Hnb) as Hld. pose proof (nb_len_ok nb Hnb) as (Hl4 & _).
  destruct (store_block_flash (taken (moved w f l p)) S0 limit cb (S0 + n) b n nb) as (f' & Ok & C & E);
    [done|done|lia|divlia|done|done|lia|].
  exists f'. split; [done|]. split.
  - apply stored_block with (sf_cell f); try done; [by apply data_byte|]. rewrite Hld. exact C.
  - rewrite E, u32_small by lia. rewrite length_app, Nat2Z.inj_add, Hld. f_equal.
    unfold taken, with_netbufs, with_flash, with_api, moved. cbn. f_equal. lia.
Qed.

Lemma transfer_blocks rest b k blocks ins acks : transfer rest b k blocks ins acks -> blocks <> [].
Proof. by induction 1. Qed.

Lemma totals_cons n d blocks :
  blocks <> [] -> totals n (removelast (d :: blocks)) = n + Z.of_nat (length d) :: totals (n + Z.of_nat (length d)) (removelast blocks).
Proof. by destruct blocks. Qed.

(** Up to the last block: the image is on the flash, and the verdict on the
    last block decides. *)
Lemma loop_transfer rest blocks ins acks b k :
  transfer rest b k blocks ins acks -> forall D f l p,
  let n := Z.of_nat (length D) in
  let D' := D ++ concat blocks in
  b = n / 512 + 1 -> n mod 512 = 0 -> sf_ok f -> stored (fcell w) S0 D (sectors n) (sf_cell f) ->
  S0 + Z.of_nat (length D') + 4 < limit ->
  exists f' e len, sf_ok f' /\ stored (fcell w) S0 D' e (sf_cell f') /\ len < DATA_PACKET_SZ /\
    S0 + e <= limit /\
    forall r rl w',
      finish_block S0 cb (b + Z.of_nat (length blocks) - 1) (Z.of_nat (length D')) len
        (moved w f' (l ++ acks) (p ++ if cb then totals n (removelast blocks) else [])) = Done (Stop r rl, w') ->
      receive_loop S0 limit cb ins (S0 + n) b k n None (moved w f l p) = Done (Returned r rl rest, w').
Proof.
  pose proof sf_size_bound as Hsz. destruct Hslot as (H0 & HS & Hlim & Hchip).
  induction 1 as [b k blocks ins acks Hk Hb _ IH|b k nb blocks ins acks Hp _ IH
    |b k nb blocks ins acks Hp Hnb Hlen Ht IH|b k nb Hp Hnb Hlen]; intros D f l p n D' Hbn Hn Hf Hst Hroom.
  - destruct (IH D f (l ++ [b - 1]) p) as (f' & e & len & ? & ? & ? & ? & E); try done.
    exists f', e, len. repeat split; try done. intros r rl w' Hr. rewrite loop_timeout by done. apply E. by rewrite <-app_assoc.
  - destruct (IH D f (l ++ [b - 1]) p) as (f' & e & len & ? & ? & ? & ? & E); try done.
    exists f', e, len. repeat split; try done. intros r rl w' Hr. rewrite loop_repeated by done. apply E. by rewrite <-app_assoc.
  - assert (HD : D' = (D ++ data_of nb) ++ concat blocks) by (unfold D'; cbn; by rewrite app_assoc).
    pose proof (length_data nb Hnb) as Hl. rewrite HD, !length_app, !Nat2Z.inj_add, Hlen in Hroom. fold n in Hroom.
    destruct (store_block_moved nb D f l p b) as (f1 & O1 & S1 & E1); try done; [lia|fold n; lia|]. fold n in S1, E1.
    assert (Hn1 : Z.of_nat (length (D ++ data_of nb)) = n + 512) by (rewrite length_app; lia).
    rewrite finish_full in E1 by (unfold DATA_PACKET_SZ; lia).
    destruct (IH (D ++ data_of nb) f1 (l ++ [b]) (p ++ reports (n + 512))) as (f' & e & len & ? & ? & ? & ? & E); rewrite ?Hn1.
    + rewrite Hbn. divlia.
    + divlia.
    + done.
    + replace (sectors (n + 512)) with (erased_to n); [done|by apply erased_next].
    + rewrite !length_app, !Nat2Z.inj_add. lia.
    + exists f', e, len. rewrite HD. repeat split; try done. intros r rl w' Hr.
      rewrite loop_block by done. run E1. cbn beta iota. rewrite Hn1, u32_small by lia.
      replace (S0 + n + 512) with (S0 + (n + 512)) by lia. rewrite Hn1 in E. apply E. rewrite <-Hr.
      rewrite totals_cons by (eapply transfer_blocks; exact Ht). rewrite Hlen. change (Z.of_nat 512) with 512.
      replace (b + Z.of_nat (length (data_of nb :: blocks)) - 1) with (b + 1 + Z.of_nat (length blocks) - 1) by (cbn [length]; lia).
      f_equal. rewrite <-!app_assoc. unfold reports. by destruct cb.
  - assert (HD : D' = D ++ data_of nb) by (unfold D'; cbn; by rewrite app_nil_r).
    pose proof (length_data nb Hnb) as Hl. rewrite HD in Hroom |- *. rewrite length_app, Nat2Z.inj_add in Hroom. fold n in Hroom.
    destruct (store_block_moved nb D f l p b) as (f1 & O1 & S1 & E1); try done; [lia|fold n; lia|]. fold n in S1, E1.
    exists f1, (erased_to n), (netbuf_len nb). split; [done|]. split; [done|]. split; [unfold DATA_PACKET_SZ; lia|].
    split; [unfold erased_to, sectors; case_if; zbool; divlia|]. intros r rl w' Hr. rewrite loop_block by done.
    rewrite app_nil_r in Hr. replace (p ++ _) with p in Hr by (destruct cb; by rewrite app_nil_r).
    replace (b + _ - 1) with b in Hr by (cbn; lia). rewrite Hr in E1. by run E1.
Qed.

(** ** The verdict *)

(** The image on the flash after the transfer. *)
Lemma stored_image D e f :
  stored (fcell w) S0 D e (sf_cell f) -> cells (sf_cell f) S0 (Z.of_nat (length D)) = D.
Proof.
  intros Hst. apply cells_eq_as_mem. intros x Hx. rewrite Hst.
  by rewrite (proj2 (andb_true_iff _ _)) by (split; [apply Z.leb_le|apply Z.ltb_lt]; lia).
Qed.

Lemma stored_outside D e f x :
  stored (fcell w) S0 D e (sf_cell f) -> S0 + e <= limit -> S0 + Z.of_nat (length D) <= limit ->
  x < S0 \/ limit <= x -> sf_cell f x = fcell w x.
Proof. intros Hst He HD Hx. rewrite Hst. repeat case_if; zbool; try done; lia. Qed.

Lemma verify_stored D e f ds stop :
  t_ok w -> sf_ok f -> Forall byteP D -> stored (fcell w) S0 D e (sf_cell f) ->
  let c := put_bytes (fcell w) S0 D in
  layout c S0 ds stop -> image_end stop <= S0 + Z.of_nat (length D) -> S0 + Z.of_nat (length D) + 16 <= sf_chip_size ->
  rboot_verify_image S0 (set_flash (api w) f) =
    Done (if c (image_end stop - 1) =? data_checksum ds
          then (true, image_end stop - S0, None)
          else (false, image_end stop - S0, Some Invalid_checksum), set_flash (api w) f).
Proof.
  intros Hw Hf HD Hst c Hlay Hend Hchip. destruct Hslot as (H0 & HS & _). pose proof sf_size_bound.
  assert (Hc : forall x, byteP (c x)).
  { intros x. unfold c, put_bytes. case_if; [by apply as_mem_byte|by apply sf_cell_byte]. }
  assert (Hx : forall x, S0 <= x < image_end stop -> sf_cell f x = c x).
  { intros x Hx. rewrite Hst, (proj2 (andb_true_iff _ _)) by (split; [apply Z.leb_le|apply Z.ltb_lt]; lia).
    unfold c. by rewrite put_bytes_in by lia. }
  pose proof (up16_range (stop + 1)) as Hup. fold (image_end stop) in Hup. pose proof (layout_stop _ _ _ _ Hlay Hc) as Hstop.
  rewrite <-(Hx (image_end stop - 1)) by lia.
  apply (verify_image_layout (set_flash (api w) f) S0 ds stop); [done|done|divlia|lia|lia|].
  eapply layout_ext; [done|done|]. intros x Hr. apply Hx. lia.
Qed.

(** The image received is [image], its checksum byte being right. *)
Definition valid_image (D : list Z) : Prop := exists ds stop,
  layout (put_bytes (fcell w) S0 D) S0 ds stop /\ image_end stop = S0 + Z.of_nat (length D) /\
  put_bytes (fcell w) S0 D (image_end stop - 1) = data_checksum ds.

Lemma finish_valid D e f l p b len :
  t_ok w -> sf_ok f -> Forall byteP D -> stored (fcell w) S0 D e (sf_cell f) -> valid_image D ->
  S0 + Z.of_nat (length D) + 16 <= sf_chip_size -> len < DATA_PACKET_SZ ->
  finish_block S0 cb b (Z.of_nat (length D)) len (moved w f l p) =
    Done (Stop ERR_OK (Z.of_nat (length D)), moved w f (l ++ [b]) (p ++ reports (Z.of_nat (length D)))).
Proof.
  intros Hw Hf HD Hst (ds & stop & Hlay & Hend & Hck) Hchip Hlen.
  pose proof (verify_stored D e f ds stop Hw Hf HD Hst Hlay ltac:(lia) Hchip) as V. cbv zeta in V.
  rewrite Hck, Z.eqb_refl in V. unfold finish_block. rewrite (proj2 (Z.ltb_lt _ _)) by done.
  erewrite bind_Done; cycle 1.
  { erewrite bind_Done by (apply on_api_Done; exact V). cbn beta iota.
    replace (image_end stop - S0) with (Z.of_nat (length D)) by lia. rewrite Z.eqb_refl. reflexivity. }
  cbn beta iota. change (with_api (moved w f l p) (set_flash (api w) f)) with (moved w f l p).
  run (send_ack_moved w f l p b). rewrite bool_decide_true by done. cbn [negb]. unfold reports.
  destruct cb; erewrite bind_Done by reflexivity; unfold ret, with_progress, moved; cbn; [by rewrite app_assoc|by rewrite app_nil_r].
Qed.

Definition error_packet (code : Z) (msg : list Z) : list Z := htons TFTP_OP_ERROR ++ htons code ++ msg ++ [0].

(** [W] after one more packet to the peer. *)
Definition replied (W : Tftp.world F) (bs : list Z) : Tftp.world F := with_sent W (sent W ++ [(peer W, bs)]) [].

Lemma send_error_Done W code msg :
  send_results W = [] -> tftp_send_error code msg W = Done (tt, replied W (error_packet code msg)).
Proof. intros H. unfold tftp_send_error. by erewrite bind_Done by (by apply send_packet_Done). Qed.

(** An image with a wrong checksum. *)
Definition corrupt_image (D : list Z) : Prop := exists ds stop,
  layout (put_bytes (fcell w) S0 D) S0 ds stop /\ image_end stop <= S0 + Z.of_nat (length D) /\
  put_bytes (fcell w) S0 D (image_end stop - 1) <> data_checksum ds.

Lemma finish_corrupt D e f l p b len :
  t_ok w -> sf_ok f -> Forall byteP D -> stored (fcell w) S0 D e (sf_cell f) -> corrupt_image D ->
  S0 + Z.of_nat (length D) + 16 <= sf_chip_size -> len < DATA_PACKET_SZ ->
  finish_block S0 cb b (Z.of_nat (length D)) len (moved w f l p) =
    Done (Stop ERR_VAL (Z.of_nat (length D)),
          replied (moved w f l p) (error_packet TFTP_ERR_ILLEGAL (message Invalid_checksum))).
Proof.
  intros Hw Hf HD Hst (ds & stop & Hlay & Hend & Hck) Hchip Hlen.
  pose proof (verify_stored D e f ds stop Hw Hf HD Hst Hlay ltac:(lia) Hchip) as V. cbv zeta in V.
  rewrite (proj2 (Z.eqb_neq _ _)) in V by done. unfold finish_block. rewrite (proj2 (Z.ltb_lt _ _)) by done.
  erewrite bind_Done; cycle 1.
  { erewrite bind_Done by (apply on_api_Done; exact V). reflexivity. }
  cbn beta iota. change (with_api (moved w f l p) (set_flash (api w) f)) with (moved w f l p).
  erewrite bind_Done by (by apply send_error_Done). done.
Qed.

(** ** Whole transfers *)

Lemma transfer_bytes rest b k blocks ins acks : transfer rest b k blocks ins acks -> Forall byteP (concat blocks).
Proof.
  induction 1; cbn [concat]; try done; apply Forall_app; (split; [by apply data_byte|done]).
Qed.

Lemma moved_start : send_results w = [] -> moved w (w_flash (api w)) [] [] = w.
Proof. intros H. destruct w. unfold moved. cbn in *. rewrite set_flash_same, !app_nil_r. by rewrite H. Qed.

Lemma receive_start rest blocks ins acks :
  t_ok w -> send_results w = [] -> transfer rest 1 TFTP_TIMEOUT_RETRANSMITS blocks ins acks ->
  let D := concat blocks in
  S0 + Z.of_nat (length D) + 4 < limit ->
  exists f e len, sf_ok f /\ stored (fcell w) S0 D e (sf_cell f) /\ len < DATA_PACKET_SZ /\ S0 + e <= limit /\
    forall r rl w',
      finish_block S0 cb (Z.of_nat (length blocks)) (Z.of_nat (length D)) len
        (moved w f acks (if cb then totals 0 (removelast blocks) else [])) = Done (Stop r rl, w') ->
      tftp_receive_data ins S0 limit None cb w = Done (Returned r rl rest, w').
Proof.
  intros Hw Hs Ht D Hroom.
  destruct (loop_transfer rest blocks ins acks 1 _ Ht [] (w_flash (api w)) [] []) as (f & e & len & Hf & Hst & Hl & He & E); try done.
  { intros x. change (sectors (Z.of_nat (length []))) with 0. cbn [length Z.of_nat]. repeat case_if; zbool; try done; lia. }
  exists f, e, len. repeat split; try done. intros r rl w' Hr. unfold tftp_receive_data.
  rewrite (moved_start Hs) in E. cbn [length app Z.of_nat] in E. rewrite Z.add_0_r in E. apply E.
  replace (1 + Z.of_nat (length blocks) - 1) with (Z.of_nat (length blocks)) by lia. exact Hr.
Qed.

End Transfer.
End TftpTransfer.
