(* ===== verification/TftpServer.v ===== *)
(** * TFTP updates: requests and the server's turn

    The fields of a request, and a turn of the server on a good request
    followed by a transfer. *)

From stdpp Require Import strings.
From S2P Require Import Prelude CStrings Flash SdkFlash Rboot RbootProofs RbootImage Tftp TftpProofs.
Open Scope Z_scope.

Module TftpServer.
Import Tftp Api ApiProofs Image TftpProofs TftpTransfer.

(** ** Fields *)

(** A field has no zero inside; its end is marked by one. *)
Definition fieldP (f : list Z) : Prop := Forall (fun b => b <> 0) f.
Definition flatten (fs : list (list Z)) : list Z := concat ((fun f => f ++ [0]) <$> fs).

Lemma c_str_field f bs : fieldP f -> c_str (f ++ 0 :: bs) = f.
Proof. induction 1 as [|b f Hb _ IH]; cbn; [done|]. rewrite (proj2 (Z.eqb_neq _ _)) by done. by rewrite IH. Qed.

Lemma field_loop_bytes f : forall bs field offs fo fl,
  fieldP f -> 0 <= field ->
  field_loop (f ++ bs) field offs fo fl =
  field_loop bs field (offs + Z.of_nat (length f)) fo (if field =? 0 then fl + Z.of_nat (length f) else fl).
Proof.
  induction f as [|b f IH]; intros bs field offs fo fl Hf H0.
  { cbn [app length]. rewrite !Z.add_0_r. by destruct (field =? 0). }
  inversion Hf as [|? ? Hb Hf']; subst. cbn [app field_loop length]. rewrite (proj2 (Z.ltb_ge _ _)) by done. cbv zeta.
  rewrite (proj2 (Z.eqb_neq b 0)), IH by done. destruct (field =? 0); f_equal; lia.
Qed.

Lemma field_loop_found bs offs fo fl : field_loop (0 :: bs) 0 offs fo fl = (-1, fo, fl + 1).
Proof. cbn. by destruct bs. Qed.

Lemma field_loop_skip bs field offs fo fl :
  0 < field -> field_loop (0 :: bs) field offs fo fl = field_loop bs (field - 1) (offs + 1) (if field - 1 =? 0 then offs + 1 else fo) fl.
Proof. intros H. cbn [field_loop]. rewrite (proj2 (Z.ltb_ge _ _)), (proj2 (Z.eqb_neq field 0)) by lia. done. Qed.

Lemma length_flatten_cons f fs : Z.of_nat (length (flatten (f :: fs))) = Z.of_nat (length f) + 1 + Z.of_nat (length (flatten fs)).
Proof. unfold flatten. cbn. rewrite !length_app. cbn. lia. Qed.

Lemma flatten_cons f fs bs : flatten (f :: fs) ++ bs = f ++ 0 :: flatten fs ++ bs.
Proof. unfold flatten. cbn. by rewrite <-!app_assoc. Qed.

Lemma field_loop_fields fs : forall i f bs offs fo,
  Forall fieldP fs -> fs !! i = Some f -> (i = 0%nat -> fo = offs) ->
  field_loop (flatten fs ++ bs) (Z.of_nat i) offs fo 0 =
    (-1, offs + Z.of_nat (length (flatten (take i fs))), Z.of_nat (length f) + 1).
Proof.
  induction fs as [|g fs IH]; intros i f bs offs fo Hfs Hi Hfo; [done|]. apply Forall_cons in Hfs as [Hg Hfs].
  rewrite flatten_cons, field_loop_bytes by (done || lia). destruct i as [|i].
  - cbn in Hi. simplify_eq. rewrite Hfo by done. rewrite field_loop_found. cbn. f_equal. f_equal. lia.
  - rewrite field_loop_skip by lia. replace (Z.of_nat (S i) - 1) with (Z.of_nat i) by lia.
    rewrite (proj2 (Z.eqb_neq (Z.of_nat (S i)) 0)) by lia. rewrite (IH i f); [|done..|].
    + cbn [take]. rewrite length_flatten_cons. f_equal. f_equal. lia.
    + intros ->. done.
Qed.

Lemma field_loop_missing fs : forall i bs offs fo,
  Forall fieldP fs -> fieldP bs -> (length fs <= i)%nat ->
  exists field fo' fl, field_loop (flatten fs ++ bs) (Z.of_nat i) offs fo 0 = (field, fo', fl) /\ 0 <= field.
Proof.
  induction fs as [|g fs IH]; intros i bs offs fo Hfs Hbs Hi.
  - rewrite <-(app_nil_r bs), app_assoc. cbn [flatten fmap list_fmap concat app]. rewrite field_loop_bytes by (done || lia).
    do 3 eexists. split; [reflexivity|lia].
  - apply Forall_cons in Hfs as [Hg Hfs]. cbn in Hi. destruct i as [|i]; [lia|].
    rewrite flatten_cons, field_loop_bytes, field_loop_skip by (done || lia).
    rewrite (proj2 (Z.eqb_neq (Z.of_nat (S i)) 0)) by lia.
    replace (Z.of_nat (S i) - 1) with (Z.of_nat i) by lia. apply IH; [done|done|lia].
Qed.

Lemma flatten_lookup fs i f bs :
  fs !! i = Some f -> flatten fs ++ bs = flatten (take i fs) ++ (f ++ [0]) ++ flatten (drop (S i) fs) ++ bs.
Proof.
  intros Hi. rewrite <-(take_drop_middle fs i f Hi) at 1. unfold flatten. rewrite fmap_app, concat_app. cbn.
  by rewrite <-!app_assoc.
Qed.

Section Server.
Context {F : Type} `{HF : SdkFlash F} {FL : SdkFlashLaws F} `{HR : RbootH} {RL : RbootHLaws}.
Implicit Types w : Tftp.world F.

(** A request for an operation with the fields, and more behind them. *)
Definition request (op : Z) (fs : list (list Z)) (tail : list Z) (nb : netbuf) : Prop :=
  netbuf_bytes nb = htons op ++ flatten fs ++ tail /\ Forall fieldP fs.

Lemma get_field_Done w op fs tail nb i f :
  request op fs tail nb -> w_alloc (api w) = [] -> fs !! i = Some f ->
  tftp_get_field (Z.of_nat i) nb w = Done (Some (f ++ [0]), w).
Proof.
  intros [Hnb Hfs] Ha Hi. unfold tftp_get_field. rewrite Hnb. change (drop 2 (htons op ++ ?l)) with l.
  rewrite (field_loop_fields fs i f) by done. cbn beta iota. rewrite Z.eqb_refl. cbn [negb].
  erewrite bind_Done by (apply on_api_Done; unfold os_malloc; rewrite Ha; reflexivity). rewrite with_api_same. cbn [negb].
  unfold ret. do 3 f_equal. unfold sub_bytes. rewrite (flatten_lookup fs i f tail Hi).
  replace (Z.to_nat (2 + _)) with (length (htons op ++ flatten (take i fs))) by (rewrite length_app; cbn; lia).
  rewrite app_assoc, drop_app_length. rewrite take_app_ge by (rewrite length_app; cbn; lia).
  replace (_ - _)%nat with 0%nat by (rewrite length_app; cbn; lia). by rewrite app_nil_r.
Qed.

Lemma get_field_missing w op fs tail nb i :
  request op fs tail nb -> fieldP tail -> (length fs <= i)%nat -> tftp_get_field (Z.of_nat i) nb w = Done (None, w).
Proof.
  intros [Hnb Hfs] Ht Hi. unfold tftp_get_field. rewrite Hnb. change (drop 2 (htons op ++ ?l)) with l.
  destruct (field_loop_missing fs i tail 2 2 Hfs Ht Hi) as (field & fo & fl & E & H0). rewrite E.
  by rewrite (proj2 (Z.eqb_neq field (-1))) by lia.
Qed.

Lemma check_field_Done w op fs tail nb i f expected :
  request op fs tail nb -> w_alloc (api w) = [] -> fs !! i = Some f ->
  check_field (Z.of_nat i) nb expected w = Done (bool_decide (f = expected), w).
Proof.
  intros Hr Ha Hi. unfold check_field. erewrite bind_Done by (by eapply get_field_Done).
  cbn beta iota. rewrite c_str_field; [done|]. destruct Hr as [_ Hfs]. by eapply Forall_lookup_1.
Qed.

(** ** A turn of the server *)

Definition next_slot (conf : list Z) : Z := (get_u8 conf off_current_rom + 1) mod get_u8 conf off_count.
Definition slot_start (conf : list Z) (slot : Z) : Z := get_u32 conf (off_roms + 4 * slot).

(** A configuration with another slot for the update, a megabyte of flash
    that does not overlap the sector of the configuration. *)
Record updatable (conf : list Z) : Prop := {
  up_count : 1 < get_u8 conf off_count <= MAX_ROMS;
  up_current : 0 <= get_u8 conf off_current_rom < get_u8 conf off_count;
  up_start : 0 <= slot_start conf (next_slot conf);
  up_aligned : slot_start conf (next_slot conf) mod 4096 = 0;
  up_fits : slot_start conf (next_slot conf) + MAX_IMAGE_SIZE <= sf_chip_size;
  up_config : conf_addr + 4096 <= slot_start conf (next_slot conf) \/
              slot_start conf (next_slot conf) + MAX_IMAGE_SIZE <= conf_addr;
}.

Lemma next_slot_ok conf : updatable conf -> 0 <= next_slot conf < get_u8 conf off_count /\ next_slot conf <> get_u8 conf off_current_rom.
Proof.
  intros [H1 H2 _ _ _ _]. unfold next_slot. destruct (decide (get_u8 conf off_current_rom + 1 = get_u8 conf off_count)) as [E|].
  - rewrite E, Z.mod_same; lia.
  - rewrite Z.mod_small; lia.
Qed.

(** The request the server answers. *)
Definition firmware_request (tail : list Z) (nb : netbuf) : Prop :=
  request TFTP_OP_WRQ [TFTP_FIRMWARE_FILE; TFTP_OCTET_MODE] tail nb /\ netbuf_len nb < 65536.

Lemma firmware_fields : Forall fieldP [TFTP_FIRMWARE_FILE; TFTP_OCTET_MODE].
Proof. repeat constructor; cbn; lia. Qed.

(** What the server does with the result of the transfer. *)
Definition turn_result (slot : Z) (r : recv_end) : M (Tftp.world F) turn_end :=
  match r with
  | Blocked => ret Waiting
  | Returned recv_err received_len ins =>
    do! netconn_disconnect then
    if bool_decide (recv_err = ERR_OK) then
      do! on_api vPortEnterCritical then
      let! _ := on_api (rboot_set_current_rom slot) in
      do! modify with_restart then
      ret Restarting
    else ret (Again ins)
  end.

(** [w] connected to the sender, with the request acknowledged. *)
Definition accepted w (nb : netbuf) : Tftp.world F :=
  replied (with_peer w (Some (fromaddr nb, fromport nb))) (ack_packet 0).

Hypothesis Hconf : 4096 * (BOOT_CONFIG_SECTOR + 1) <= sf_chip_size.

Lemma turn_accepts w tail nb ins :
  t_ok w -> send_results w = [] -> w_alloc (api w) = [] -> firmware_request tail nb ->
  let conf := config_of (api w) in
  updatable conf ->
  let slot := next_slot conf in
  tftp_turn nb ins w =
    (let! r := tftp_receive_data ins (slot_start conf slot) (slot_start conf slot + MAX_IMAGE_SIZE) None false in
     turn_result slot r) (accepted w nb).
Proof.
  intros Hw Hs Ha [Hreq Hlen] conf Hup slot. pose proof (next_slot_ok conf Hup) as [Hsl Hne]. pose proof sf_size_bound.
  pose proof Hup as [U1 U2 U3 U4 U5 U6]. fold slot in Hsl, Hne, U3, U4, U5, U6. unfold MAX_IMAGE_SIZE in U5.
  unfold tftp_turn. erewrite bind_Done by reflexivity. set (w1 := with_netbufs w (netbufs w + 1)).
  pose proof Hreq as [Hb _]. cbv zeta.
  assert (H6 : 6 <= netbuf_len nb).
  { unfold netbuf_len. rewrite Hb, !length_app. cbn. lia. }
  rewrite u16_small, (proj2 (Z.ltb_ge _ _)) by lia.
  erewrite bind_Done by (eapply (read_u16 w1 nb 0 TFTP_OP_WRQ); [done|exact Hb]). cbn [Z.eqb Pos.eqb negb TFTP_OP_WRQ].
  erewrite bind_Done by (by apply (check_field_Done w1 _ _ _ nb 0 TFTP_FIRMWARE_FILE TFTP_FIRMWARE_FILE Hreq)).
  rewrite bool_decide_true by done. cbn [negb].
  erewrite bind_Done by (by apply (check_field_Done w1 _ _ _ nb 1 TFTP_OCTET_MODE TFTP_OCTET_MODE Hreq)).
  rewrite bool_decide_true by done. cbn [negb]. do 2 (erewrite bind_Done by reflexivity).
  set (w2 := with_netbufs _ _). assert (Hw2 : w2 = with_peer w (Some (fromaddr nb, fromport nb))).
  { unfold w2, w1, with_netbufs, with_peer. cbn. f_equal. lia. }
  rewrite Hw2. erewrite bind_Done by (apply on_api_Done; by apply get_config_Done). rewrite with_api_same.
  cbv zeta. cbn [api with_peer]. fold conf. rewrite (proj2 (Z.eqb_neq (get_u8 conf off_count) 0)) by lia.
  fold (next_slot conf). fold slot. rewrite (proj2 (Z.leb_gt _ _)), (proj2 (Z.eqb_neq _ _)) by lia.
  erewrite bind_Done by (unfold tftp_send_ack; by apply send_packet_Done).
  rewrite bool_decide_true by done. cbn [negb]. fold (slot_start conf slot).
  rewrite u32_small by (unfold MAX_IMAGE_SIZE in *; lia). reflexivity.
Qed.

(** ** After the transfer *)

(** The image is in the slot, the rest of the flash is as it was. *)
Definition installed w (D : list Z) (start limit : Z) (f : F) : Prop :=
  sf_ok f /\ cells (sf_cell f) start (Z.of_nat (length D)) = D /\
  forall x, x < start \/ limit <= x -> sf_cell f x = fcell w x.

Lemma totals_last blocks : forall n,
  blocks <> [] -> totals n (removelast blocks) ++ [n + Z.of_nat (length (concat blocks))] = totals n blocks.
Proof.
  induction blocks as [|d blocks IH]; intros n Hb; [done|]. cbn [concat totals]. destruct (decide (blocks = [])) as [->|Hne].
  - cbn. by rewrite app_nil_r.
  - rewrite totals_cons by done. cbn [app]. rewrite <-IH by done. rewrite length_app. by rewrite Nat2Z.inj_add, Z.add_assoc.
Qed.

Lemma receive_installs w start limit cb rest blocks ins acks :
  0 <= start -> start mod 4096 = 0 -> limit mod 4096 = 0 -> limit <= sf_chip_size ->
  t_ok w -> send_results w = [] -> transfer rest 1 TFTP_TIMEOUT_RETRANSMITS blocks ins acks ->
  let D := concat blocks in
  start + Z.of_nat (length D) < limit -> valid_image w start D ->
  exists f, installed w D start limit f /\
    tftp_receive_data ins start limit None cb w =
      Done (Returned ERR_OK (Z.of_nat (length D)) rest,
            moved w f (acks ++ [Z.of_nat (length blocks)]) (if cb then totals 0 blocks else [])).
Proof.
  intros H0 HS Hlim Hchip Hw Hs Ht D Hroom Hv.
  assert (H16 : start + Z.of_nat (length D) + 16 <= limit).
  { destruct Hv as (ds & stop & _ & Hend & _). unfold image_end, up16 in Hend. divlia. }
  pose proof (transfer_bytes _ _ _ _ _ _ Ht) as HD.
  assert (Hslot : 0 <= start /\ start mod 4096 = 0 /\ limit mod 4096 = 0 /\ limit <= sf_chip_size) by done.
  destruct (receive_start w start limit cb Hslot rest blocks ins acks Hw Hs Ht) as (f & e & len & Hf & Hst & Hl & He & E); [fold D; lia|].
  exists f. split.
  - split; [done|]. split; [by eapply stored_image|]. intros x Hx. eapply stored_outside; [done|done|fold D; lia|done].
  - erewrite E by (eapply finish_valid; [done|done|done|done|exact Hst|done|fold D; lia|done]). do 3 f_equal.
    unfold reports. destruct cb; [|done]. by rewrite <-(totals_last blocks) by (by eapply transfer_blocks).
Qed.

Lemma config_of_same (w w' : Api.world F) start limit :
  (forall x, x < start \/ limit <= x -> cell w' x = cell w x) ->
  conf_addr + 4096 <= start \/ limit <= conf_addr -> config_of w' = config_of w.
Proof. intros H Hc. pose proof rb_sizeof. unfold config_of. apply cells_ext. intros x Hx. apply H. lia. Qed.

(** The image is verified and installed: the slot is made current. *)
Lemma turn_result_ok w slot rl ins :
  t_ok w -> w_alloc (api w) = [] -> byteP slot ->
  slot < get_u8 (config_of (api w)) off_count ->
  exists w', turn_result slot (Returned ERR_OK rl ins) w = Done (Restarting, w') /\
    restarted w' = true /\ sent w' = sent w /\ t_ok w' /\
    config_of (api w') = sealed (set_u8 (config_of (api w)) off_current_rom slot) /\
    forall x, x < conf_addr \/ conf_addr + sizeof_rboot_config <= x -> fcell w' x = fcell w x.
Proof.
  intros Hw Ha Hb Hs. unfold turn_result. erewrite bind_Done by reflexivity. rewrite bool_decide_true by done.
  erewrite bind_Done by reflexivity. set (w1 := with_api _ _).
  pose proof (set_current_rom_Done Hconf (api w1) slot Hw Ha Hb) as E.
  change (config_of (api w1)) with (config_of (api w)) in E. rewrite (proj2 (Z.leb_gt _ _)) in E by done.
  destruct E as (f & E & Of & C). erewrite bind_Done by (apply on_api_Done; exact E).
  assert (Hl : Z.of_nat (length (sealed (set_u8 (config_of (api w)) off_current_rom slot))) = sizeof_rboot_config).
  { unfold sealed. by rewrite !length_set_u8, length_config. }
  eexists. split; [reflexivity|]. do 3 (split; [done|]). split.
  - exact (config_of_put (api w1) f _ Hl C).
  - intros x Hx. etransitivity; [apply C|]. apply put_bytes_out. lia.
Qed.

Lemma receive_refuses w start limit cb rest blocks ins acks :
  0 <= start -> start mod 4096 = 0 -> limit mod 4096 = 0 -> limit <= sf_chip_size ->
  t_ok w -> send_results w = [] -> transfer rest 1 TFTP_TIMEOUT_RETRANSMITS blocks ins acks ->
  let D := concat blocks in
  start + Z.of_nat (length D) + 16 <= limit -> corrupt_image w start D ->
  exists f, sf_ok f /\ (forall x, x < start \/ limit <= x -> sf_cell f x = fcell w x) /\
    tftp_receive_data ins start limit None cb w =
      Done (Returned ERR_VAL (Z.of_nat (length D)) rest,
            replied (moved w f acks (if cb then totals 0 (removelast blocks) else []))
              (error_packet TFTP_ERR_ILLEGAL (message Invalid_checksum))).
Proof.
  intros H0 HS Hlim Hchip Hw Hs Ht D Hroom Hv. pose proof (transfer_bytes _ _ _ _ _ _ Ht) as HD.
  assert (Hslot : 0 <= start /\ start mod 4096 = 0 /\ limit mod 4096 = 0 /\ limit <= sf_chip_size) by done.
  destruct (receive_start w start limit cb Hslot rest blocks ins acks Hw Hs Ht) as (f & e & len & Hf & Hst & Hl & He & E); [fold D; lia|].
  exists f. split; [done|]. split; [intros x Hx; eapply stored_outside; [done|done|fold D; lia|done]|].
  erewrite E by (eapply finish_corrupt; [done|done|done|done|exact Hst|done|fold D; lia|done]). done.
Qed.

(** ** The client *)

(** A client connects to where the first packet comes from. *)
Lemma receive_follows start limit cb nb ins p w :
  tftp_receive_data (Received nb :: ins) start limit (Some p) cb w =
  tftp_receive_data (Received nb :: ins) start limit None cb (with_peer w (Some (fromaddr nb, fromport nb))).
Proof. reflexivity. Qed.

Lemma transfer_first rest k blocks ins acks :
  transfer rest 1 k blocks ins acks -> exists nb ins', ins = Received nb :: ins'.
Proof. inversion 1; subst; try lia; eauto. Qed.

Lemma bind_loop_finds (netconn_bind : Z -> err_t) k : forall n port limit,
  (forall j, 0 <= j < Z.of_nat k -> netconn_bind (port + j) = ERR_USE) -> netconn_bind (port + Z.of_nat k) = ERR_OK ->
  (k < n)%nat -> port + Z.of_nat k <= limit ->
  bind_loop netconn_bind n (port - 1) limit = ERR_OK.
Proof.
  induction k as [|k IH]; intros n port limit Huse Hok Hn Hl; (destruct n as [|n]; [lia|]); cbn [bind_loop];
    replace (port - 1 + 1) with port by lia.
  - rewrite Z.add_0_r in Hok. by rewrite Hok.
  - pose proof (Huse 0 ltac:(lia)) as Hu. rewrite Z.add_0_r in Hu.
    rewrite Hu, bool_decide_true by done. rewrite (proj2 (Z.ltb_lt _ _)) by lia. cbn [andb].
    replace port with (port + 1 - 1) by lia. apply IH; [|rewrite <-Hok; f_equal; lia|lia..].
    intros j Hj. rewrite <-(Huse (1 + j)) by lia. f_equal. lia.
Qed.

End Server.
End TftpServer.

(** * TFTP updates: what any traffic can do

    Whatever packets arrive and whichever sends fail, the server changes the
    slot of the update only, until an image in it has been verified. *)

Module TftpSafety.
Import Tftp Api ApiProofs Image TftpProofs TftpTransfer TftpServer.

Create HintDb tftp.

Section Safety.
Context {F : Type} `{HF : SdkFlash F} {FL : SdkFlashLaws F} `{HR : RbootH} {RL : RbootHLaws}.
Implicit Types w : Tftp.world F.

(** A read returns bytes and keeps the array; it may fail. *)
Definition reads_keep : Prop := forall a n f, sf_ok f -> exists r bs f',
  spi_flash_read a n f = Done ((r, bs), f') /\ Forall byteP bs /\ sf_ok f' /\ forall x, sf_cell f' x = sf_cell f x.

(** When the code may leave the C language. *)
Context (U : Prop).
Abbreviation ends := (ends_or U).

Lemma read_opcode (P : Tftp.world F -> Prop) nb : (forall w, P w -> P (with_api w (api w))) ->
  ends P (netbuf_read_u16_n nb 0) (fun v w => (recv_ok (Received nb) -> v = TFTP_OP_DATA -> nb_ok nb) /\ P w).
Proof.
  intros HP w Hw. unfold netbuf_read_u16_n, on_api, bind, ret. cbn. split; [|by apply HP].
  intros [H|[H1 H2]]; [done|]. by rewrite ntohs_overlay.
Qed.

(** What is said of the API's state and the restart. *)
Definition view (P : Api.world F -> bool -> Prop) w : Prop := P (api w) (restarted w).

Lemma view_modify P g : (forall w, api (g w) = api w /\ restarted (g w) = restarted w) ->
  ends (view P) (modify g) (fun _ => view P).
Proof. intros H w Hw. unfold modify. destruct (H w) as [E1 E2]. unfold view in *. by rewrite E1, E2. Qed.

Lemma view_send_packet P bs : ends (view P) (send_packet bs) (fun _ => view P).
Proof.
  intros w Hw. unfold send_packet, netbuf_taken, netbuf_delete, netconn_send, modify, bind, ret. cbn.
  by destruct (send_results w).
Qed.

Lemma view_send_error P code msg : ends (view P) (tftp_send_error code msg) (fun _ => view P).
Proof. unfold tftp_send_error. eapply ends_bind; [apply view_send_packet|]. intros ?. by apply ends_ret. Qed.

Lemma view_send_ack P b : ends (view P) (tftp_send_ack b) (fun _ => view P).
Proof. apply view_send_packet. Qed.

Lemma view_read_u16 P nb offs : ends (view P) (netbuf_read_u16_n nb offs) (fun _ => view P).
Proof. intros w Hw. unfold netbuf_read_u16_n, on_api, bind, ret. cbn. by rewrite with_api_same. Qed.

Lemma view_follow_peer P p r : ends (view P) (follow_peer p r) (fun _ => view P).
Proof.
  destruct p as [p|]; [|by apply ends_ret]. destruct r; (eapply ends_bind; [by apply view_modify|]; intros ?; by apply ends_ret).
Qed.

Lemma view_if P (b : bool) m : ends (view P) m (fun _ => view P) -> ends (view P) (if b then m else ret tt) (fun _ => view P).
Proof. intros H. destruct b; [done|by apply ends_ret]. Qed.

Hint Resolve view_send_packet view_send_error view_send_ack view_read_u16 view_follow_peer view_if : tftp.
Hint Extern 3 (ends _ (modify _) _) => by apply view_modify : tftp.
Hint Extern 3 (ends _ netbuf_taken _) => by apply view_modify : tftp.
Hint Extern 3 (ends _ netbuf_delete _) => by apply view_modify : tftp.
Hint Extern 3 (ends _ netconn_disconnect _) => by apply view_modify : tftp.
Hint Extern 3 (ends _ (netconn_connect _) _) => by apply view_modify : tftp.

(** A step that the view does not see. *)
Ltac unseen := eapply ends_bind; [solve [eauto with tftp]|]; intros ?.

(** ** The slot *)

Context (c0 : Z -> Z).
Let conf : list Z := cells c0 conf_addr sizeof_rboot_config.
Let slot : Z := next_slot conf.
Let start : Z := slot_start conf slot.
Let limit : Z := start + MAX_IMAGE_SIZE.
Hypothesis Hup : updatable conf.
Hypothesis Hreads : reads_keep.
Hypothesis Hconf : 4096 * (BOOT_CONFIG_SECTOR + 1) <= sf_chip_size.

(** Only the slot may differ from [c0]. *)
Definition kept (a : Api.world F) : Prop :=
  w_ok a /\ w_alloc a = [] /\ (forall x, byteP (w_junk a x)) /\ forall x, x < start \/ limit <= x -> cell a x = c0 x.

Definition serving (a : Api.world F) (r : bool) : Prop := kept a /\ r = false.

(** The verification of an image leaves it on some contents of the slot. *)
Hypothesis Hleaves : forall a, kept a -> rboot_verify_image start a = Undefined -> U.

Lemma slot_range : 0 <= start /\ start mod 4096 = 0 /\ limit mod 4096 = 0 /\ limit <= sf_chip_size /\ limit = start + 1048576.
Proof. destruct Hup as [_ _ H1 H2 H3 _]. fold slot start in H1, H2, H3. unfold limit, MAX_IMAGE_SIZE in *. divlia. Qed.

(** The image in the slot was verified, and has [n] bytes. *)
Definition verified (c : Z -> Z) (n : Z) : Prop := exists s s' err,
  rboot_verify_image start s = Done ((true, n, err), s') /\ forall x, start <= x < limit -> cell s x = c x.

Lemma verify_serving :
  ends (view serving) (on_api (rboot_verify_image start)) (fun r w =>
    view (fun a re => serving a re /\ (fst (fst r) = true -> verified (cell a) (snd (fst r)))) w).
Proof.
  intros w [(Hw & Ha & Hj & Hc) Hre].
  pose proof (rboot_verify_image_ends (fun a => w_ok a /\ w_alloc a = [] /\ forall x, cell a x = cell (api w) x)) as H.
  specialize (H ltac:(intros a n v (V1 & V2 & V3); destruct (Hreads a n (w_flash v) V1) as (r & bs & f' & E & Hb & Ok & C);
    exists r, bs, f'; repeat split; try done; intros x; by rewrite <-V3)).
  specialize (H start (api w) (conj (conj Hw (conj Ha (fun x => eq_refl))) Hj)). unfold on_api.
  destruct (rboot_verify_image start (api w)) as [[[[ok n] err] a']| |] eqn:E; [|done|by apply (Hleaves (api w))].
  destruct H as ((Ok & Al & C) & J). split; [split; [split_and!|]|]; try done.
  - intros x Hx. cbn. rewrite C. by apply Hc.
  - cbn. intros ->. exists (api w), a', err. split; [done|]. intros x _. by rewrite C.
Qed.

Lemma view_weaken P P' {A} (m : M (Tftp.world F) A) Q Q' :
  ends (view P) m Q -> (forall a r, P' a r -> P a r) -> (forall x w, Q x w -> Q' x w) -> ends (view P') m Q'.
Proof. intros H HP HQ. eapply ends_weaken; [exact H| |exact HQ]. intros w. apply HP. Qed.

(** ** Blocks *)

(** What is known when the receive loop returns. *)
Definition returned (e : err_t) (n : Z) : Api.world F -> bool -> Prop := fun a r =>
  serving a r /\ (e = ERR_OK -> verified (cell a) n).

Lemma returned_error e n a r : e <> ERR_OK -> serving a r -> returned e n a r.
Proof. by split. Qed.

Definition block_post (len : Z) (r : block_end) w : Prop :=
  match r with
  | Next _ => view serving w /\ DATA_PACKET_SZ <= len
  | Stop e n => view (returned e n) w
  end.

Lemma finish_block_ends cb b rl len :
  ends (view serving) (finish_block start cb b rl len) (block_post len).
Proof.
  unfold finish_block.
  apply ends_bind with (fun bad => view (fun a r => serving a r /\ (bad = None -> len < DATA_PACKET_SZ -> verified (cell a) rl))).
  - case_if; zbool; [|apply ends_ret; intros w Hw; split; [done|lia]].
    eapply ends_bind; [apply verify_serving|]. intros [[ok n] err]. cbn [fst snd].
    destruct (negb ok || _) eqn:Hbad; apply ends_ret; intros w [Hw Hv]; (split; [done|]); [done|]. intros _ _.
    apply orb_false_iff in Hbad as [H1 H2]. apply negb_false_iff in H1, H2. zbool. rewrite <-H2. by apply Hv.
  - intros [msg|].
    + unseen. apply ends_ret. intros w [Hw _]. by apply returned_error.
    + unseen. destruct (decide (a = ERR_OK)) as [->|Hne].
      * rewrite bool_decide_true by done. cbn [negb]. unseen. case_if; zbool; apply ends_ret; intros w [Hw Hv].
        -- split; [done|]. intros _. by apply Hv.
        -- split; [exact Hw|lia].
      * rewrite bool_decide_false by done. apply ends_ret. intros w [Hw _]. by apply returned_error.
Qed.

(** An erase inside the slot. *)
Lemma erased_outside a wo x :
  kept a -> start <= wo < limit -> x < start \/ limit <= x -> erased_for (cell a) wo x = c0 x.
Proof.
  intros (_ & _ & _ & Hc) Hwo Hx. pose proof slot_range as (H0 & H1 & H2 & H3 & H4).
  unfold erased_for, erase_bytes. repeat case_if; zbool; try by apply Hc. divlia.
Qed.

Lemma store_block_ends cb wo b rl nb :
  nb_ok nb -> start <= wo < limit -> wo mod 512 = 0 ->
  ends (view serving) (store_block start limit cb wo b rl nb) (fun r w => block_post (netbuf_len nb) r w /\
    match r with Next _ => wo + netbuf_len nb < limit | Stop _ _ => True end).
Proof.
  intros Hnb Hwo Hm w [Hk Hr]. pose proof Hk as (Hw & Ha & Hj & Hc).
  pose proof slot_range as (H0 & H1 & H2 & H3 & H4). pose proof (nb_len_ok nb Hnb) as (Hl & _ & _).
  destruct (decide (wo + netbuf_len nb < limit)).
  - destruct (store_block_flash w start limit cb wo b rl nb) as (f & Ok & C & E); [done|done|lia|done|done|done|done|].
    rewrite E. eapply (ends_weaken _ _ _ _ _ _ (finish_block_ends cb b _ _)); [intros ? H; exact H| |].
    + intros r w' Hr'. split; [done|]. by destruct r.
    + split; [|done]. cbn. split_and!; try done. intros x Hx. cbn. rewrite C. unfold and_bytes.
      case_if; zbool; [lia|]. by apply erased_outside.
  - destruct (store_block_full w start limit cb wo b rl nb) as (f & w' & Ok & C & E & Ea & _ & Er); [done|lia|lia|done|done|lia|lia|].
    rewrite E. split; [|done]. apply returned_error; [done|]. rewrite Ea, Er. split; [|done].
    split_and!; try done. intros x Hx. cbn. rewrite C. by apply erased_outside.
Qed.

(** ** The receive loop *)

Definition receive_post (ins : list recv_result) (r : recv_end) w : Prop :=
  match r with
  | Blocked => view serving w
  | Returned e n rest => view (returned e n) w /\ Forall recv_ok rest /\ (length rest <= length ins)%nat
  end.

Lemma receive_post_cons r ins e w : receive_post ins e w -> receive_post (r :: ins) e w.
Proof. destruct e; [done|]. intros (? & ? & ?). repeat split; try done; try apply H. cbn. lia. Qed.

(** The loop gives up. *)
Lemma loop_ends_with ins r e n :
  Forall recv_ok (r :: ins) -> e <> ERR_OK -> ends (view serving) (ret (Returned e n ins)) (receive_post (r :: ins)).
Proof.
  intros Hok He. apply ends_ret. intros w Hw. split; [by apply returned_error|]. inversion Hok. split; [done|]. cbn. lia.
Qed.

Lemma receive_loop_ends cb ins : forall wo b k rl pa,
  Forall recv_ok ins -> start <= wo < limit -> wo mod 512 = 0 ->
  ends (view serving) (receive_loop start limit cb ins wo b k rl pa) (receive_post ins).
Proof.
  pose proof slot_range as (H0 & H1 & H2 & H3 & H4). pose proof sf_size_bound.
  induction ins as [|r ins IH]; intros wo b k rl pa Hok Hwo Hm; cbn [receive_loop]; (unseen); [by apply ends_ret|].
  pose proof (loop_ends_with ins r) as Hend. inversion Hok as [|? ? Hr Hok']; subst.
  assert (Hagain : forall wo b k rl pa, start <= wo < limit -> wo mod 512 = 0 ->
    ends (view serving) (receive_loop start limit cb ins wo b k rl pa) (receive_post (r :: ins))).
  { intros. eapply ends_weaken; [by apply IH|done|]. intros. by apply receive_post_cons. }
  eapply ends_bind; [destruct r; [eauto with tftp|by apply ends_ret]|]. intros ?. unseen. destruct r as [nb|e].
  - eapply ends_bind; [apply (read_opcode (view serving)); intros w Hw; by rewrite with_api_same|]. intros op w [Hop Hv]. revert w Hv.
    apply (ends_elim U (view serving)). case_if; [do 2 unseen; by apply Hend|]. zbool. specialize (Hop Hr Heqb0). unseen. case_if.
    + unseen. case_if; unseen; [by apply Hagain|by apply Hend].
    + eapply ends_bind; [by apply store_block_ends|]. intros [rl'|e rl'].
      * intros w [[Hv Hl] Hlt]. unfold DATA_PACKET_SZ in Hl. rewrite u32_small by lia.
        eapply Hagain; [lia|divlia|exact Hv].
      * apply ends_ret. intros w [Hv _]. split; [exact Hv|]. split; [done|]. cbn. lia.
  - case_if.
    + case_if; unseen; [by apply Hagain|by apply Hend].
    + unseen. by apply Hend.
Qed.

(** ** The server *)

Definition turn_post (ins : list recv_result) (t : turn_end) w : Prop :=
  match t with
  | Again rest => view serving w /\ Forall recv_ok rest /\ (length rest <= length ins)%nat
  | Waiting => view serving w
  | Restarting => restarted w = true /\
      (forall x, x < start \/ limit <= x -> x < conf_addr \/ conf_addr + sizeof_rboot_config <= x -> fcell w x = c0 x) /\
      get_u8 (config_of (api w)) off_current_rom = slot /\ exists n, verified (fcell w) n
  end.

Lemma check_field_ends i nb expected : ends (view serving) (check_field i nb expected) (fun _ => view serving).
Proof.
  unfold check_field. apply ends_bind with (fun _ => view serving); [|intros ?; by apply ends_ret]. unfold tftp_get_field.
  destruct (field_loop _ _ _ _ _) as [[? ?] ?]. case_if; [by apply ends_ret|].
  intros w [(Hw & Ha & Hj & Hc) Hre]. unfold on_api, os_malloc, bind. rewrite Ha. cbn. by rewrite with_api_same.
Qed.

Lemma kept_config a : kept a -> config_of a = conf.
Proof.
  intros (_ & _ & _ & Hc). pose proof rb_sizeof. destruct Hup as [_ _ _ _ _ Hcs]. fold slot start limit in Hcs.
  apply cells_ext. intros x Hx. apply Hc. lia.
Qed.

Lemma turn_result_ends ins r :
  ends (receive_post ins r) (turn_result slot r) (turn_post ins).
Proof.
  pose proof (next_slot_ok conf Hup) as [Hsl _]. fold slot in Hsl. pose proof rb_sizeof. destruct Hup as [_ _ _ _ _ Hcs]. fold slot start limit in Hcs.
  destruct r as [|e n rest]; [by apply ends_ret|]. intros w ((Hs & Hv) & Hrest & Hl). pose proof Hs as [Hk Hre].
  destruct (decide (e = ERR_OK)) as [->|He]; cycle 1.
  { unfold turn_result. erewrite bind_Done by reflexivity. rewrite bool_decide_false by done. exact (conj Hs (conj Hrest Hl)). }
  pose proof (kept_config _ Hk) as Hc. pose proof Hk as (Hw & Ha & _ & Hout).
  assert (Hb : byteP (get_u8 conf off_count)) by (rewrite <-Hc; by apply as_mem_byte, config_byte).
  destruct (turn_result_ok Hconf w slot n rest) as (w' & E & R & _ & _ & Hc' & Hx);
    [done|done|unfold byteP in *; lia|rewrite Hc; lia|]. rewrite E. pose proof rb_current_rom.
  split; [done|]. split; [intros x H1 H2; rewrite Hx by done; by apply Hout|]. split.
  - pose proof (length_config (api w)). rewrite Hc'. unfold sealed. rewrite get_set_u8_ne, get_set_u8 by lia. done.
  - destruct (Hv eq_refl) as (s & s' & err & V & C). exists n, s, s', err. split; [done|]. intros x Hr.
    rewrite C by done. symmetry. apply Hx. lia.
Qed.

Lemma turn_post_again ins : forall w, view serving w -> Forall recv_ok ins -> turn_post ins (Again ins) w.
Proof. by repeat split; try apply H. Qed.

Lemma tftp_turn_ends nb ins : Forall recv_ok ins -> ends (view serving) (tftp_turn nb ins) (turn_post ins).
Proof.
  intros Hok. pose proof (next_slot_ok conf Hup) as [Hsl Hne]. fold slot in Hsl, Hne. pose proof slot_range as (H0 & H1 & H2 & H3 & H4).
  pose proof sf_size_bound. pose proof Hup as [U1 U2 _ _ _ _].
  assert (Hret : ends (view serving) (ret (Again ins)) (turn_post ins)).
  { apply ends_ret. intros w Hw. by apply turn_post_again. }
  unfold tftp_turn. unseen. case_if; [unseen; exact Hret|]. unseen. case_if; [unseen; exact Hret|].
  eapply ends_bind; [apply check_field_ends|]. intros ok. destruct ok; cbn [negb]; [|do 2 unseen; exact Hret].
  eapply ends_bind; [apply check_field_ends|]. intros ok. destruct ok; cbn [negb]; [|do 2 unseen; exact Hret].
  do 2 unseen. apply ends_bind with (fun c => view (fun a r => c = conf /\ serving a r)).
  { intros w Hw. pose proof Hw as [Hk _]. erewrite on_api_Done by (apply get_config_Done; [done|by destruct Hk]).
    rewrite with_api_same. split; [|exact Hw]. by apply kept_config. }
  intros c w [-> Hw]. cbv zeta. rewrite (proj2 (Z.eqb_neq (get_u8 conf off_count) 0)) by lia.
  fold (next_slot conf). fold slot. rewrite (proj2 (Z.leb_gt _ _)), (proj2 (Z.eqb_neq _ _)) by lia.
  revert w Hw. apply (ends_elim U (view serving)). unseen. case_if; [unseen; exact Hret|].
  fold (slot_start conf slot). fold start. rewrite u32_small by (unfold MAX_IMAGE_SIZE; lia). fold limit.
  eapply ends_bind; [apply receive_loop_ends; [done|lia|divlia]|]. apply turn_result_ends.
Qed.

Definition loop_post (b : bool) w : Prop := if b then turn_post [] Restarting w else view serving w.

Lemma tftp_loop_ends fuel : forall ins,
  (length ins < fuel)%nat -> Forall recv_ok ins -> ends (view serving) (tftp_loop fuel ins) loop_post.
Proof.
  induction fuel as [|fuel IH]; intros ins Hf Hok; [lia|]. cbn [tftp_loop].
  destruct Hok as [|r ins Hr Hok]; [by apply ends_ret|]. cbn in Hf. destruct r as [nb|e]; [|apply IH; [lia|done]].
  eapply ends_bind; [by apply tftp_turn_ends|]. intros [rest| |]; [|by apply ends_ret..].
  intros w (Hw & Hrest & Hl). by apply IH; [lia|..].
Qed.

End Safety.
End TftpSafety.
