(* ===== verification/TftpContract.v ===== *)
(** * What updates over TFTP promise

    The properties of [extras/rboot-ota/ota-tftp.c]: installing an image,
    refusing one, the fields of requests, and what any traffic can change. *)

From stdpp Require Import strings.
From S2P Require Import Prelude CStrings Flash SdkFlash Rboot RbootProofs RbootImage RbootContract Tftp TftpProofs TftpServer.
Open Scope Z_scope.

Import Tftp Api ApiProofs Image TftpProofs TftpTransfer TftpServer TftpSafety.

Section Contract.
Context {F : Type} `{HF : SdkFlash F} {FL : SdkFlashLaws F} `{HR : RbootH} {RL : RbootHLaws}.
Implicit Types w : Tftp.world F.

(** A state after the update of [w] with the image [D] from the sender of [nb]. *)
Definition updated w (nb : netbuf) (slot start : Z) (D : list Z) (acked : list Z) w' : Prop :=
  restarted w' = true /\
  rboot_get_current_rom (api w') = Done (slot, api w') /\
  cells (fcell w') start (Z.of_nat (length D)) = D /\
  (forall i, 0 <= i < sizeof_rboot_config -> i <> off_current_rom -> i <> off_chksum ->
     fcell w' (conf_addr + i) = fcell w (conf_addr + i)) /\
  (forall x, x < start \/ start + MAX_IMAGE_SIZE <= x ->
     x < conf_addr \/ conf_addr + sizeof_rboot_config <= x -> fcell w' x = fcell w x) /\
  sent w' = sent w ++ ((fun b => (Some (fromaddr nb, fromport nb), ack_packet b)) <$> acked).

Lemma turn_installs w nb tail blocks ins rest acks :
  let conf := config_of (api w) in
  let slot := next_slot conf in
  let start := slot_start conf slot in
  let D := concat blocks in
  4096 * (BOOT_CONFIG_SECTOR + 1) <= sf_chip_size ->
  t_ok w -> send_results w = [] -> w_alloc (api w) = [] -> updatable conf ->
  firmware_request tail nb -> transfer rest 1 TFTP_TIMEOUT_RETRANSMITS blocks ins acks ->
  Z.of_nat (length D) < MAX_IMAGE_SIZE -> valid_image w start D ->
  exists w', tftp_turn nb ins w = Done (Restarting, w') /\
    updated w nb slot start D (0 :: acks ++ [Z.of_nat (length blocks)]) w'.
Proof.
  intros conf slot start D Hconf Hw Hs Ha Hup Hreq Ht Hlen Hv. pose proof Hup as [U1 U2 U3 U4 U5 U6].
  pose proof (next_slot_ok conf Hup) as [Hsl _]. fold slot start in U3, U4, U5, U6, Hsl.
  pose proof rb_current_rom as Hcr. pose proof rb_sizeof as Hsz. set (w1 := accepted w nb).
  destruct (receive_installs w1 start (start + MAX_IMAGE_SIZE) false rest blocks ins acks) as (f & (Hf & Himg & Hout) & E);
    [done|done|unfold MAX_IMAGE_SIZE in *; divlia|done|done|done|done|fold D; lia|exact Hv|]. fold D in Himg, E.
  set (w2 := moved w1 f _ _) in E.
  assert (Hc2 : config_of (api w2) = conf) by exact (config_of_same (api w) (api w2) _ _ Hout U6).
  assert (Hbs : byteP (get_u8 conf off_count)) by (apply as_mem_byte, config_byte; done).
  destruct (turn_result_ok Hconf w2 slot (Z.of_nat (length D)) rest) as (w' & E' & R & Hsent & Hok & Hc & Hx);
    [done|done|unfold byteP in *; lia|rewrite Hc2; lia|]. rewrite Hc2 in Hc.
  exists w'. split; [by rewrite (turn_accepts Hconf w tail nb ins Hw Hs Ha Hreq Hup); fold conf slot start w1; run E|].
  assert (Hg : forall i, 0 <= i -> i <> off_chksum -> get_u8 (config_of (api w')) i = get_u8 (set_u8 conf off_current_rom slot) i).
  { intros i Hi Hne. rewrite Hc. apply get_set_u8_ne; lia. }
  pose proof (length_config (api w)) as Hlc. fold conf in Hlc. split; [done|]. split.
  { unfold rboot_get_current_rom. run (get_config_Done Hconf (api w') Hok). by rewrite Hg, get_set_u8 by lia. }
  split; [rewrite <-Himg at 2; apply cells_ext; intros x Hr; apply Hx; lia|]. split; [|split].
  - intros i Hi H1 H2. unfold fcell. rewrite <-!config_bytes by done. rewrite Hg by lia. by rewrite get_set_u8_ne by lia.
  - intros x H1 H2. rewrite Hx by done. by apply Hout.
  - rewrite Hsent. cbn. by rewrite <-app_assoc.
Qed.

(** C13. An update is installed: the server that gets a write request for the
    firmware file and then a valid image in blocks of 512 bytes, with time-outs
    and repeated blocks in between, acknowledges the request and every block,
    stores the image in the slot after the current one, makes that slot the
    current one and restarts.  No byte outside the slot and the configuration
    changes, and the configuration is the old one but for the current slot and
    the checksum. *)
Theorem tftp_task_installs w nb tail blocks ins rest acks :
  let conf := config_of (api w) in
  let slot := next_slot conf in
  let start := slot_start conf slot in
  let D := concat blocks in
  4096 * (BOOT_CONFIG_SECTOR + 1) <= sf_chip_size ->
  t_ok w -> send_results w = [] -> w_alloc (api w) = [] -> updatable conf ->
  firmware_request tail nb -> transfer rest 1 TFTP_TIMEOUT_RETRANSMITS blocks ins acks ->
  Z.of_nat (length D) < MAX_IMAGE_SIZE -> valid_image w start D ->
  exists w', tftp_task (Received nb :: ins) w = Done (true, w') /\
    updated w nb slot start D (0 :: acks ++ [Z.of_nat (length blocks)]) w'.
Proof.
  intros conf slot start D Hconf Hw Hs Ha Hup Hreq Ht Hlen Hv.
  destruct (turn_installs (with_netconns w (netconns w + 1)) nb tail blocks ins rest acks) as (w' & E & Hu); try done.
  exists w'. split; [|done]. unfold tftp_task.
  erewrite bind_Done by (apply on_api_Done; unfold os_malloc; rewrite Ha; reflexivity).
  rewrite with_api_same. cbn [negb]. erewrite bind_Done by reflexivity. cbn [length tftp_loop]. by run E.
Qed.

(** An image whose checksum byte is wrong is refused: the sender gets an
    ERROR packet with the message of [rboot_verify_image] instead of the last
    acknowledgement, the configuration and the rest of the flash stay as they
    were, and the server goes on with the next request. *)
Theorem tftp_turn_refuses_corrupt w nb tail blocks ins rest acks :
  let conf := config_of (api w) in
  let start := slot_start conf (next_slot conf) in
  let D := concat blocks in
  4096 * (BOOT_CONFIG_SECTOR + 1) <= sf_chip_size ->
  t_ok w -> send_results w = [] -> w_alloc (api w) = [] -> updatable conf ->
  firmware_request tail nb -> transfer rest 1 TFTP_TIMEOUT_RETRANSMITS blocks ins acks ->
  Z.of_nat (length D) + 16 <= MAX_IMAGE_SIZE -> corrupt_image w start D ->
  exists w', tftp_turn nb ins w = Done (Again rest, w') /\ restarted w' = restarted w /\
    (forall x, x < start \/ start + MAX_IMAGE_SIZE <= x -> fcell w' x = fcell w x) /\ config_of (api w') = conf /\
    sent w' = sent w ++ ((fun b => (Some (fromaddr nb, fromport nb), ack_packet b)) <$> 0 :: acks) ++
      [(Some (fromaddr nb, fromport nb), error_packet TFTP_ERR_ILLEGAL (str "Invalid checksum"))].
Proof.
  intros conf start D Hconf Hw Hs Ha Hup Hreq Ht Hlen Hv. pose proof Hup as [U1 U2 U3 U4 U5 U6]. fold start in U3, U4, U5, U6.
  destruct (receive_refuses (accepted w nb) start (start + MAX_IMAGE_SIZE) false rest blocks ins acks) as (f & Hf & Hout & E);
    [done|done|unfold MAX_IMAGE_SIZE in *; divlia|done|done|done|done|fold D; lia|exact Hv|].
  eexists. split; [rewrite (turn_accepts Hconf w tail nb ins Hw Hs Ha Hreq Hup); fold conf start; run E; reflexivity|].
  do 2 (split; [done|]). split; [exact (config_of_same (api w) (set_flash (api w) f) _ _ Hout U6)|]. cbn. by rewrite <-!app_assoc.
Qed.

(** A download: when one of the eleven local ports is free and the server
    sends a valid image in blocks of 512 bytes, with time-outs and repeated
    blocks in between, [ota_tftp_download] returns 0 with the image in the
    slot.  It has sent the request to the given port and the acknowledgements
    to the port the first packet came from, reported the bytes received after
    every block, and freed its buffers and its socket. *)
Theorem ota_tftp_download_installs w netconn_bind netconn_gethostbyname server addr port k filename ota_slot cb nb ins rest blocks acks :
  let conf := config_of (api w) in
  let start := slot_start conf ota_slot in
  let D := concat blocks in
  4096 * (BOOT_CONFIG_SECTOR + 1) <= sf_chip_size ->
  t_ok w -> send_results w = [] -> w_alloc (api w) = [] ->
  0 <= ota_slot < get_u8 conf off_count -> ota_slot < MAX_ROMS -> ota_slot <> get_u8 conf off_current_rom ->
  0 <= start -> start mod 4096 = 0 -> start + MAX_IMAGE_SIZE <= sf_chip_size ->
  (k <= 10)%nat -> (forall j, 0 <= j < Z.of_nat k -> netconn_bind (port + j) = ERR_USE) ->
  netconn_bind (port + Z.of_nat k) = ERR_OK -> netconn_gethostbyname server = (ERR_OK, addr) ->
  transfer rest 1 TFTP_TIMEOUT_RETRANSMITS blocks (Received nb :: ins) acks ->
  Z.of_nat (length D) < MAX_IMAGE_SIZE -> valid_image w start D ->
  exists w',
    ota_tftp_download netconn_bind netconn_gethostbyname server port filename ota_slot cb (Received nb :: ins) w
      = Done (Some ERR_OK, w') /\
    cells (fcell w') start (Z.of_nat (length D)) = D /\
    (forall x, x < start \/ start + MAX_IMAGE_SIZE <= x -> fcell w' x = fcell w x) /\
    sent w' = sent w ++ (Some (addr, port), htons TFTP_OP_RRQ ++ filename ++ [0] ++ TFTP_OCTET_MODE ++ [0]) ::
      ((fun b => (Some (fromaddr nb, fromport nb), ack_packet b)) <$> acks ++ [Z.of_nat (length blocks)]) /\
    progress w' = progress w ++ (if cb then totals 0 blocks else []) /\
    netbufs w' = netbufs w /\ netconns w' = netconns w.
Proof.
  intros conf start D Hconf Hw Hs Ha Hsl Hmax Hne H0 HS Hchip Hk Huse Hbind Hhost Ht Hlen Hv. pose proof sf_size_bound.
  set (w1 := with_peer (with_netconns w (netconns w + 1)) (Some (addr, port))).
  set (w2 := replied w1 (htons TFTP_OP_RRQ ++ filename ++ [0] ++ TFTP_OCTET_MODE ++ [0])).
  set (w3 := with_peer w2 (Some (fromaddr nb, fromport nb))).
  destruct (receive_installs w3 start (start + MAX_IMAGE_SIZE) cb rest blocks (Received nb :: ins) acks) as (f & (Hf & Himg & Hout) & E);
    [done|done|unfold MAX_IMAGE_SIZE in *; divlia|done|done|done|done|fold D; lia|exact Hv|]. fold D in Himg, E.
  unfold w3 in E. rewrite <-(receive_follows _ _ _ _ _ (addr, port)) in E.
  eexists. split.
  - unfold ota_tftp_download. erewrite bind_Done by (apply on_api_Done; by apply get_config_Done). rewrite with_api_same.
    fold conf. rewrite (proj2 (Z.eqb_neq _ _)), (proj2 (Z.leb_gt _ _)) by lia. cbn [orb].
    rewrite (proj2 (Z.ltb_ge _ _)), (proj2 (Z.leb_gt MAX_ROMS _)) by lia. cbn [orb].
    erewrite bind_Done by (apply on_api_Done; unfold os_malloc; rewrite Ha; reflexivity). rewrite with_api_same. cbn [negb].
    erewrite bind_Done by reflexivity. rewrite (bind_loop_finds _ k) by (done || lia). rewrite bool_decide_true by done. cbn [negb].
    rewrite Hhost, bool_decide_true by done. cbn [negb]. erewrite bind_Done by reflexivity. fold w1.
    erewrite bind_Done by (by apply send_packet_Done). rewrite bool_decide_true by done. cbn [negb].
    fold (slot_start conf ota_slot) start. rewrite u32_small by (unfold MAX_IMAGE_SIZE in *; lia). change (with_sent w1 _ []) with w2.
    run E. cbn beta iota. erewrite bind_Done by reflexivity. reflexivity.
  - split; [exact Himg|]. split; [exact Hout|]. split; [cbn; by rewrite <-app_assoc|]. split; [done|]. split; [done|]. cbn. lia.
Qed.

(** A request and its fields: of the packet [tftp_send_rrq] sends, the
    receiving side reads the operation, the file name and the mode back, and
    finds no further field. *)
Theorem tftp_request_roundtrip w w2 nb filename :
  fieldP filename -> send_results w = [] -> w_alloc (api w2) = [] ->
  exists w', tftp_send_rrq filename w = Done (ERR_OK, w') /\
    (last (sent w') = Some (peer w, netbuf_bytes nb) ->
     netbuf_read_u16_n nb 0 w2 = Done (TFTP_OP_RRQ, w2) /\
     tftp_get_field 0 nb w2 = Done (Some (filename ++ [0]), w2) /\
     tftp_get_field 1 nb w2 = Done (Some (TFTP_OCTET_MODE ++ [0]), w2) /\
     forall i, (2 <= i)%nat -> tftp_get_field (Z.of_nat i) nb w2 = Done (None, w2)).
Proof.
  intros Hf Hs Ha. eexists. split; [by apply send_packet_Done|]. intros Hl. cbn [sent with_sent] in Hl.
  rewrite last_snoc in Hl. injection Hl as Hnb.
  assert (Hr : request TFTP_OP_RRQ [filename; TFTP_OCTET_MODE] [] nb).
  { split; [by rewrite <-Hnb, app_nil_r; unfold flatten; cbn; rewrite <-!app_assoc|].
    constructor; [done|]. constructor; [|constructor]. repeat constructor; cbn; lia. }
  split; [eapply read_u16; [done|]; rewrite <-Hnb; reflexivity|].
  split; [exact (get_field_Done w2 _ _ _ nb 0 filename Hr Ha eq_refl)|].
  split; [exact (get_field_Done w2 _ _ _ nb 1 TFTP_OCTET_MODE Hr Ha eq_refl)|].
  intros i Hi. eapply get_field_missing; [exact Hr|constructor|cbn; lia].
Qed.


End Contract.

(** ** Concrete runs *)

Module TftpRun.
Import Board SimRom.

Definition station : Tftp.world (Calls.state rom) := {|
  api := board (put_bytes blank 4096 config); sent := []; send_results := []; peer := None; netbufs := 0; netconns := 0;
  progress := []; restarted := false |}.

(** A packet in segments of the given lengths, at an odd half-word address. *)
Fixpoint cut (lens : list nat) (bs : list Z) : list seg :=
  match lens with
  | [] => []
  | n :: lens => {| seg_align := 2; seg_len := Z.of_nat n; seg_mem := as_mem (take n bs) |} :: cut lens (drop n bs)
  end.

Definition packet (lens : list nat) (bs : list Z) : netbuf := {| segs := cut lens bs; fromaddr := 7; fromport := 4711 |}.

(** An image with one section of 520 bytes, and the packets that carry it. *)
Definition firmware (ck : Z) : list Z :=
  [0xe9; 1; 0; 0] ++ le_bytes 4 0x40100000 ++ le_bytes 4 0x40200000 ++ le_bytes 4 520 ++ replicate 520 9 ++ replicate 7 0 ++ [ck].

Definition wrq : netbuf := packet [21%nat] ([0; 2] ++ str "firmware.bin" ++ [0] ++ str "octet" ++ [0]).
Definition data1 (ck : Z) : netbuf := packet [260%nat; 256%nat] ([0; 3; 0; 1] ++ take 512 (firmware ck)).
Definition data2 (ck : Z) : netbuf := packet [36%nat] ([0; 3; 0; 2] ++ drop 512 (firmware ck)).

(** The second block is waited for in vain once and the first one repeated. *)
Definition traffic (ck : Z) : list recv_result :=
  [Received (data1 ck); Failed ERR_TIMEOUT; Received (data1 ck); Received (data2 ck)].
Definition blocks (ck : Z) : list (list Z) := [data_of (data1 ck); data_of (data2 ck)].

Lemma cut_ok lens : forall bs,
  forallb (fun n => Z.of_nat n mod 4 =? 0) lens = true -> forallb (fun n => Z.of_nat n <? 65536) lens = true ->
  Forall byteP bs -> Forall seg_ok (cut lens bs).
Proof.
  induction lens as [|n lens IH]; intros bs H1 H2 Hb; cbn in *; [constructor|].
  apply andb_true_iff in H1 as [H1 H1'], H2 as [H2 H2']. zbool. constructor.
  - split; cbn; [lia|]. split; [done|]. intros x. apply as_mem_byte. by apply Forall_take.
  - apply IH; try done. by apply Forall_drop.
Qed.

Lemma packet_ok n lens bs :
  (4 <= n)%nat -> forallb (fun n => Z.of_nat n mod 4 =? 0) (n :: lens) = true ->
  forallb (fun n => Z.of_nat n <? 65536) (n :: lens) = true -> Forall byteP bs ->
  netbuf_len (packet (n :: lens) bs) < 65536 -> nb_ok (packet (n :: lens) bs).
Proof.
  intros H H1 H2 Hb Hl. do 2 eexists. split; [reflexivity|]. split; [change (4 <= Z.of_nat n); lia|].
  split; [by apply cut_ok|done].
Qed.

Lemma data1_ok ck : ck = 0xef \/ ck = 0xee -> nb_ok (data1 ck).
Proof. intros [-> | ->]; apply packet_ok; try lia; try reflexivity; apply byteP_all; reflexivity. Qed.

Lemma data2_ok ck : ck = 0xef \/ ck = 0xee -> nb_ok (data2 ck).
Proof. intros [-> | ->]; apply packet_ok; try lia; try reflexivity; apply byteP_all; reflexivity. Qed.

Lemma traffic_transfer ck :
  ck = 0xef \/ ck = 0xee -> transfer [] 1 TFTP_TIMEOUT_RETRANSMITS (blocks ck) (traffic ck) [1; 1; 1].
Proof.
  assert (H1 : forall ck, data_packet 1 (data1 ck)) by (intros; split; [|split]; [vm_compute; split; congruence..|reflexivity]).
  intros Hck. apply full_block; [done|by apply data1_ok|by destruct Hck as [-> | ->]|].
  apply (lost _ (1 + 1)); [done|lia|]. apply (repeated _ (1 + 1)); [done|]. apply last_block; [|by apply data2_ok|].
  - destruct Hck as [-> | ->]; (split; [|split]; [vm_compute; split; congruence..|reflexivity]).
  - destruct Hck as [-> | ->]; vm_compute; lia.
Qed.

Lemma wrq_request : firmware_request [] wrq.
Proof. split; [|vm_compute; congruence]. split; [reflexivity|]. repeat constructor; cbn; lia. Qed.

Lemma station_updatable : updatable (config_of (api station)).
Proof.
  split.
  - vm_compute. split; congruence.
  - vm_compute. split; congruence.
  - vm_compute. congruence.
  - reflexivity.
  - vm_compute. congruence.
  - left. vm_compute. congruence.
Qed.

Lemma firmware_layout ck : ck = 0xef \/ ck = 0xee ->
  layout (put_bytes (fcell station) 0x102000 (concat (blocks ck))) 0x102000 [replicate 520 9] (0x102000 + 536).
Proof.
  intros [-> | ->]; (apply old_image; [reflexivity|reflexivity|]); vm_compute; repeat split; congruence.
Qed.

Lemma sim_reads_keep : reads_keep (F := Calls.state rom).
Proof.
  intros a n f Hf. exists SPI_FLASH_RESULT_OK, (cells (sf_cell f) a n). eexists. split; [vm_compute; reflexivity|].
  split; [apply cells_byte; intros x; apply u8_range|]. split; done.
Qed.

End TftpRun.

Import TftpRun Board SimRom.

Lemma tftp_task_installs_witness :
  exists w', tftp_task (Received wrq :: traffic 0xef) station = Done (true, w') /\
    rboot_get_current_rom (api w') = Done (1, api w') /\ cells (fcell w') 0x102000 544 = firmware 0xef.
Proof.
  destruct (tftp_task_installs station wrq [] (blocks 0xef) (traffic 0xef) [] [1; 1; 1]) as (w' & E & _ & H1 & H2 & _);
    [vm_compute; congruence|done|reflexivity|reflexivity|apply station_updatable|apply wrq_request
    |apply traffic_transfer; by left|vm_compute; congruence| |].
  - exists [replicate 520 9], (0x102000 + 536). split; [apply firmware_layout; by left|]. split; reflexivity.
  - exists w'. split; [exact E|]. split; [exact H1|exact H2].
Defined.

Lemma tftp_turn_refuses_corrupt_witness :
  exists w', tftp_turn wrq (traffic 0xee) station = Done (Again [], w') /\ restarted w' = false.
Proof.
  destruct (tftp_turn_refuses_corrupt station wrq [] (blocks 0xee) (traffic 0xee) [] [1; 1; 1]) as (w' & E & H1 & _);
    [vm_compute; congruence|done|reflexivity|reflexivity|apply station_updatable|apply wrq_request
    |apply traffic_transfer; by right|vm_compute; congruence| |].
  - exists [replicate 520 9], (0x102000 + 536). split; [apply firmware_layout; by right|].
    split; [vm_compute; congruence|vm_compute; congruence].
  - exists w'. split; [exact E|exact H1].
Defined.

Lemma ota_tftp_download_installs_witness :
  exists w', ota_tftp_download (fun p => if p =? 69 then ERR_USE else ERR_OK) (fun _ => (ERR_OK, 9)) (str "host") 69 (str "f") 1 true
      (traffic 0xef) station = Done (Some ERR_OK, w') /\
    cells (fcell w') 0x102000 544 = firmware 0xef /\ progress w' = [512; 544].
Proof.
  destruct (ota_tftp_download_installs station (fun p => if p =? 69 then ERR_USE else ERR_OK) (fun _ => (ERR_OK, 9)) (str "host") 9 69 1
    (str "f") 1 true (data1 0xef) [Failed ERR_TIMEOUT; Received (data1 0xef); Received (data2 0xef)] [] (blocks 0xef) [1; 1; 1])
    as (w' & E & H1 & _ & _ & H2 & _);
    [vm_compute; congruence|done|reflexivity|reflexivity|vm_compute; split; congruence|vm_compute; congruence|vm_compute; congruence
    |vm_compute; congruence|reflexivity|vm_compute; congruence|lia| |reflexivity|reflexivity
    |apply traffic_transfer; by left|vm_compute; congruence| |].
  - intros j Hj. replace j with 0 by lia. reflexivity.
  - exists [replicate 520 9], (0x102000 + 536). split; [apply firmware_layout; by left|]. split; reflexivity.
  - exists w'. split; [exact E|]. split; [exact H1|exact H2].
Defined.

Lemma tftp_request_roundtrip_witness :
  tftp_get_field 0 (packet [11%nat] ([0; 1] ++ str "fw" ++ [0] ++ str "octet" ++ [0])) station = Done (Some (str "fw" ++ [0]), station).
Proof.
  destruct (tftp_request_roundtrip station station (packet [11%nat] ([0; 1] ++ str "fw" ++ [0] ++ str "octet" ++ [0])) (str "fw"))
    as (w' & E & H); [repeat constructor; cbn; lia|reflexivity|reflexivity|].
  assert (Hw : w' = with_sent station [(None, [0; 1] ++ str "fw" ++ [0] ++ str "octet" ++ [0])] []).
  { vm_compute in E. injection E as <-. reflexivity. }
  apply H. rewrite Hw. reflexivity.
Defined.

(** A request, an image with a wrong checksum, blocks out of order, a failure
    and another request. *)
Definition hostile : list recv_result :=
  [Received wrq; Received (data1 0xef); Received (data2 0xee); Received (data1 0xef); Failed ERR_TIMEOUT; Received wrq].


