(* ===== verification/Softuart.v ===== *)
(** * Software UART: [extras/softuart/softuart.c]

    Serial ports on arbitrary pins: bytes are sent by timing the pin in a
    loop, and received by an interrupt handler that samples the pin and puts
    the byte into a ring buffer.  Pins, clock and delays are the class
    [Pins]. *)

From S2P Require Import Prelude.
Open Scope Z_scope.

Module Softuart.

(** ** Pins and clock *)

Inductive direction := GPIO_INPUT | GPIO_OUTPUT.
Inductive inttype := GPIO_INTTYPE_NONE | GPIO_INTTYPE_EDGE_NEG.
(** A handler for the interrupt of a pin: none or [handle_rx]. *)
Inductive handler := NULL | handle_rx_handler.

(** [sdk_system_get_time] is the microsecond counter of 32 bits; looking at
    it takes time as well. *)
Class Pins (W : Type) := {
  gpio_enable : Z -> direction -> W -> W;
  gpio_set_pullup : Z -> bool -> bool -> W -> W;
  gpio_set_interrupt : Z -> inttype -> handler -> W -> W;
  gpio_write : Z -> bool -> W -> W;
  gpio_read : Z -> W -> bool * W;
  sdk_os_delay_us : Z -> W -> W;
  sdk_system_get_time : W -> Z * W;
}.

(** ** Data *)

Definition SOFTUART_MAX_UARTS : Z := 2.
Definition SOFTUART_MAX_RX_BUFF : Z := 64.

Record softuart_buffer_t := {
  receive_buffer : list Z;
  receive_buffer_tail : Z;
  receive_buffer_head : Z;
  buffer_overflow : Z;
}.

Record softuart_t := {
  rx_pin : Z;
  tx_pin : Z;
  baudrate : Z;
  buffer : softuart_buffer_t;
  bit_time : Z;
}.

Definition zero_uart : softuart_t := {|
  rx_pin := 0; tx_pin := 0; baudrate := 0; bit_time := 0;
  buffer := {| receive_buffer := replicate (Z.to_nat SOFTUART_MAX_RX_BUFF) 0; receive_buffer_tail := 0;
               receive_buffer_head := 0; buffer_overflow := 0 |};
|}.

Definition initial_uarts : list softuart_t := replicate (Z.to_nat SOFTUART_MAX_UARTS) zero_uart.

Definition with_buffer (u : softuart_t) (b : softuart_buffer_t) : softuart_t :=
  {| rx_pin := rx_pin u; tx_pin := tx_pin u; baudrate := baudrate u; buffer := b; bit_time := bit_time u |}.
Definition with_baudrate (u : softuart_t) (b : Z) : softuart_t :=
  {| rx_pin := rx_pin u; tx_pin := tx_pin u; baudrate := b; buffer := buffer u; bit_time := bit_time u |}.

Section Softuart.
Context {W : Type} `{!Pins W}.

(** The table of ports and the hardware. *)
Record world := { uarts : list softuart_t; hw : W }.

Definition on_hw (f : W -> W) : M world unit := modify (fun w => {| uarts := uarts w; hw := f (hw w) |}).
Definition ask_hw {A} (f : W -> A * W) : M world A := fun w =>
  let '(a, h) := f (hw w) in Done (a, {| uarts := uarts w; hw := h |}).

(** [uarts + uart_no], which must be inside the table. *)
Definition uart_at (no : Z) : M world softuart_t := fun w =>
  match uarts w !! Z.to_nat no with
  | Some u => if 0 <=? no then Done (u, w) else Undefined
  | None => Undefined
  end.
Definition set_uart (no : Z) (u : softuart_t) : M world unit :=
  modify (fun w => {| uarts := <[Z.to_nat no := u]> (uarts w); hw := hw w |}).

Fixpoint find_from (i : Z) (us : list softuart_t) (pin : Z) : Z :=
  match us with
  | [] => -1
  | u :: us => if negb (baudrate u =? 0) && (rx_pin u =? pin) then i else find_from (i + 1) us pin
  end.

Definition find_uart_by_rx (pin : Z) : M world Z :=
  let! w := get in
  ret (find_from 0 (uarts w) pin).

(** The counter without its top bit. *)
Definition masked_time : M world Z :=
  let! t := ask_hw sdk_system_get_time in
  ret (Z.land 0x7fffffff t).

(** Wait until [deadline], or until the counter overflows. *)
Fixpoint wait_loop (fuel : nat) (start_time deadline : Z) : M world unit :=
  match fuel with
  | O => out_of_fuel
  | S fuel =>
    let! t := masked_time in
    if t <? deadline then
      let! t := masked_time in
      if t <? start_time then ret tt else wait_loop fuel start_time deadline
    else ret tt
  end.

(** Two looks at the counter take more than two nanoseconds. *)
Definition wait_until (start_time us : Z) : M world unit :=
  wait_loop (Z.to_nat (1000 * us) + 2) start_time (u32 (start_time + us)).

(** ** Receiving *)

(** The bits from number [i] on, [n] of them. *)
Fixpoint sample_bits (n : nat) (i : Z) (uart : softuart_t) (start_time d : Z) : M world Z :=
  match n with
  | O => ret d
  | S n =>
    do! wait_until start_time (bit_time uart * (i + 1)) then
    let d := Z.shiftr d 1 in
    let! high := ask_hw (gpio_read (rx_pin uart)) in
    sample_bits n (i + 1) uart start_time (if high then Z.lor d 0x80 else d)
  end.

(** A byte into the ring buffer. *)
Definition store_byte (b : softuart_buffer_t) (d : Z) : softuart_buffer_t :=
  let next := (receive_buffer_tail b + 1) mod SOFTUART_MAX_RX_BUFF in
  if negb (next =? receive_buffer_head b) then
    {| receive_buffer := <[Z.to_nat (receive_buffer_tail b) := d]> (receive_buffer b);
       receive_buffer_tail := next; receive_buffer_head := receive_buffer_head b; buffer_overflow := buffer_overflow b |}
  else
    {| receive_buffer := receive_buffer b; receive_buffer_tail := receive_buffer_tail b;
       receive_buffer_head := receive_buffer_head b; buffer_overflow := 1 |}.

Definition handle_rx (gpio_num : Z) : M world unit :=
  let! uart_no := find_uart_by_rx gpio_num in
  if uart_no <? 0 then ret tt else
  let! uart := uart_at uart_no in
  do! on_hw (gpio_set_interrupt gpio_num GPIO_INTTYPE_NONE handle_rx_handler) then
  do! on_hw (sdk_os_delay_us (bit_time uart / 2)) then
  let! start_time := masked_time in
  let! d := sample_bits 8 0 uart start_time 0 in
  do! set_uart uart_no (with_buffer uart (store_byte (buffer uart) d)) then
  do! on_hw (sdk_os_delay_us (bit_time uart)) then
  on_hw (gpio_set_interrupt (rx_pin uart) GPIO_INTTYPE_EDGE_NEG handle_rx_handler).

(** ** Opening and closing *)

Definition check_uart_no (uart_no : Z) : bool := negb (SOFTUART_MAX_UARTS <=? uart_no).

Definition check_uart_enabled (uart : softuart_t) : bool := negb (baudrate uart =? 0).

Definition softuart_close (uart_no : Z) : M world bool :=
  if negb (check_uart_no uart_no) then ret false else
  let! uart := uart_at uart_no in
  if baudrate uart =? 0 then ret true else
  do! on_hw (gpio_set_interrupt (rx_pin uart) GPIO_INTTYPE_NONE NULL) then
  do! set_uart uart_no (with_baudrate uart 0) then
  ret true.

Definition shares_pin (u : softuart_t) (rx tx : Z) : bool :=
  (rx_pin u =? rx) || (tx_pin u =? tx) || (rx_pin u =? tx) || (tx_pin u =? rx).

(** Does another open port use one of the pins? *)
Fixpoint pins_taken (i : Z) (us : list softuart_t) (uart_no rx tx : Z) : bool :=
  match us with
  | [] => false
  | u :: us =>
    (negb (baudrate u =? 0) && negb (i =? uart_no) && shares_pin u rx tx) || pins_taken (i + 1) us uart_no rx tx
  end.

(** Microseconds for a bit, rounded, in 16 bits. *)
Definition bit_time_of (baud : Z) : Z :=
  let bt := u16 (1000000 / baud) in
  if 50 <? u32 (100000000 / baud - 100 * bt) then u16 (bt + 1) else bt.

Definition softuart_open (uart_no baud rx tx : Z) : M world bool :=
  if negb (check_uart_no uart_no) then ret false else
  if baud =? 0 then ret false else
  let! w := get in
  if pins_taken 0 (uarts w) uart_no rx tx then ret false else
  let! _ := softuart_close uart_no in
  let! uart := uart_at uart_no in
  do! set_uart uart_no {| rx_pin := rx; tx_pin := tx; baudrate := baud; buffer := buffer uart; bit_time := bit_time_of baud |} then
  do! on_hw (gpio_enable rx GPIO_INPUT) then
  do! on_hw (gpio_set_pullup rx true false) then
  do! on_hw (gpio_enable tx GPIO_OUTPUT) then
  do! on_hw (gpio_set_pullup tx true false) then
  do! on_hw (gpio_write tx true) then
  do! on_hw (gpio_set_interrupt rx GPIO_INTTYPE_EDGE_NEG handle_rx_handler) then
  do! on_hw (sdk_os_delay_us 1000) then
  ret true.

(** ** Sending *)

(** The bits from number [i] on, [n] of them. *)
Fixpoint send_bits (n : nat) (i : Z) (uart : softuart_t) (start_time c : Z) : M world unit :=
  match n with
  | O => ret tt
  | S n =>
    do! wait_until start_time (bit_time uart * (i + 1)) then
    do! on_hw (gpio_write (tx_pin uart) (Z.testbit c i)) then
    send_bits n (i + 1) uart start_time c
  end.

Definition softuart_put (uart_no c : Z) : M world bool :=
  if negb (check_uart_no uart_no) then ret false else
  let! uart := uart_at uart_no in
  if negb (check_uart_enabled uart) then ret false else
  let! start_time := masked_time in
  do! on_hw (gpio_write (tx_pin uart) false) then
  do! send_bits 9 0 uart start_time c then
  do! wait_until start_time (bit_time uart * 9) then
  do! on_hw (gpio_write (tx_pin uart) true) then
  do! on_hw (sdk_os_delay_us (bit_time uart * 6)) then
  ret true.

Fixpoint softuart_puts (uart_no : Z) (s : list Z) : M world bool :=
  match s with
  | [] => ret true
  | c :: s =>
    if c =? 0 then ret true else
    let! ok := softuart_put uart_no c in
    if negb ok then ret false else softuart_puts uart_no s
  end.

(** ** Reading *)

Definition softuart_available (uart_no : Z) : M world bool :=
  if negb (check_uart_no uart_no) then ret false else
  let! uart := uart_at uart_no in
  if negb (check_uart_enabled uart) then ret false else
  let b := buffer uart in
  ret (negb ((receive_buffer_tail b + SOFTUART_MAX_RX_BUFF - receive_buffer_head b) mod SOFTUART_MAX_RX_BUFF =? 0)).

Definition softuart_read (uart_no : Z) : M world Z :=
  if negb (check_uart_no uart_no) then ret 0 else
  let! uart := uart_at uart_no in
  if negb (check_uart_enabled uart) then ret 0 else
  let b := buffer uart in
  if receive_buffer_head b =? receive_buffer_tail b then ret 0 else
  let d := as_mem (receive_buffer b) (receive_buffer_head b) in
  do! set_uart uart_no (with_buffer uart
    {| receive_buffer := receive_buffer b; receive_buffer_tail := receive_buffer_tail b;
       receive_buffer_head := (receive_buffer_head b + 1) mod SOFTUART_MAX_RX_BUFF; buffer_overflow := buffer_overflow b |}) then
  ret d.

End Softuart.
Arguments world : clear implicits.
End Softuart.
