(* ===== verification/SoftuartWire.v ===== *)
(** * Software UART: the pins over time

    A board whose operations take time: what it writes to its pins is logged
    with the time in nanoseconds, what it reads is a function of time.  The
    waiting loops, the frame [softuart_put] sends and the byte [handle_rx]
    samples. *)

From S2P Require Import Prelude Softuart.
Open Scope Z_scope.

Module SoftuartWire.
Import Softuart.

(** ** The board *)

(** [cost k] is the duration of operation number [k], [input] what the pins
    see, [trigger] the interrupt types set. *)
Record board := {
  now : Z;
  ops : nat;
  cost : nat -> Z;
  input : Z -> Z -> bool;
  writes : list (Z * Z * bool);
  trigger : Z -> inttype * handler;
}.

Definition pass (ns : Z) (b : board) : board := {|
  now := now b + ns + cost b (ops b); ops := S (ops b); cost := cost b; input := input b;
  writes := writes b; trigger := trigger b |}.

Definition log_write (pin : Z) (v : bool) (b : board) : board := {|
  now := now b; ops := ops b; cost := cost b; input := input b;
  writes := writes b ++ [(now b, pin, v)]; trigger := trigger b |}.

Definition set_trigger (pin : Z) (x : inttype * handler) (b : board) : board := {|
  now := now b; ops := ops b; cost := cost b; input := input b; writes := writes b;
  trigger := fun p => if p =? pin then x else trigger b p |}.

#[export] Instance board_pins : Pins board := {
  gpio_enable := fun _ _ => pass 0;
  gpio_set_pullup := fun _ _ _ => pass 0;
  gpio_set_interrupt := fun pin t h b => pass 0 (set_trigger pin (t, h) b);
  gpio_write := fun pin v b => pass 0 (log_write pin v b);
  gpio_read := fun pin b => (input b pin (now b), pass 0 b);
  sdk_os_delay_us := fun us => pass (1000 * us);
  sdk_system_get_time := fun b => (u32 (now b / 1000), pass 0 b);
}.

Implicit Types w : world board.

(** The clock of a world, and the world at a later time, nothing else done. *)
Definition clock w : Z := now (hw w).
Definition at_time w (t : Z) (k : nat) : world board := {|
  uarts := uarts w;
  hw := {| now := t; ops := k; cost := cost (hw w); input := input (hw w);
           writes := writes (hw w); trigger := trigger (hw w) |} |}.

(** The counter with 31 bits. *)
Definition mt (t : Z) : Z := (t / 1000) mod 2 ^ 31.

Lemma masked_time_at w : masked_time w = Done (mt (clock w), at_time w (clock w + cost (hw w) (ops (hw w))) (S (ops (hw w)))).
Proof.
  unfold masked_time, ask_hw, bind, ret. cbn. do 2 f_equal.
  - unfold mt, clock, u32. change 2147483647 with (Z.ones 31). rewrite Z.land_comm, Z.land_ones by lia.
    apply Z.mod_mod_divide. by exists 2.
  - unfold at_time, pass. cbn. by rewrite Z.add_0_r.
Qed.

Lemma at_time_at_time w t k t' k' : at_time (at_time w t k) t' k' = at_time w t' k'.
Proof. done. Qed.

Lemma at_time_same w : at_time w (clock w) (ops (hw w)) = w.
Proof. by destruct w as [us []]. Qed.

Create HintDb softuart.

Section Timing.
(** The longest an operation takes. *)
Variable eps : Z.

Definition timed w : Prop := forall k, 1 <= cost (hw w) k <= eps.

(** ** Waiting *)

(** While the counter does not overflow it counts on. *)
Lemma mt_later t0 t : t0 <= t -> mt t0 + (t / 1000 - t0 / 1000) < 2 ^ 31 -> mt t = mt t0 + (t / 1000 - t0 / 1000).
Proof.
  intros H Hlt. unfold mt in *. assert (t0 / 1000 <= t / 1000) by (apply Z.div_le_mono; lia).
  pose proof (Z.mod_pos_bound (t0 / 1000) (2 ^ 31) ltac:(lia)).
  pose proof (Z.div_mod (t0 / 1000) (2 ^ 31) ltac:(lia)).
  symmetry. apply (Z.mod_unique _ _ (t0 / 1000 / 2 ^ 31)); lia.
Qed.

(** No overflow for [us] microseconds and the operations behind them. *)
Definition counts (t0 us : Z) : Prop := 1000 * (mt t0 + us + 1) + 4 * eps <= 1000 * 2 ^ 31.

(** When a wait that starts at [t] may end. *)
Definition wait_end (t t0 us t' : Z) : Prop :=
  let target := 1000 * (t0 / 1000 + us) in Z.max t target < t' <= Z.max t (target + 2 * eps) + eps.

Lemma wait_loop_Done us fuel : forall w t0,
  timed w -> 0 <= us -> counts t0 us -> t0 <= clock w <= 1000 * (t0 / 1000 + us) + 4 * eps ->
  1000 * (t0 / 1000 + us) - clock w <= 2 * (Z.of_nat fuel - 2) ->
  2 <= Z.of_nat fuel ->
  exists t k, wait_loop fuel (mt t0) (mt t0 + us) w = Done (tt, at_time w t k) /\
    wait_end (clock w) t0 us t.
Proof.
  induction fuel as [|fuel IH]; intros w t0 Hc Hus Hno Ht Hf H2; [lia|]. cbn [wait_loop].
  pose proof (Hc (ops (hw w))) as Hc1. unfold counts in Hno.
  assert (Hm : forall t, t0 <= t -> t <= 1000 * (t0 / 1000 + us) + 4 * eps -> mt t = mt t0 + (t / 1000 - t0 / 1000)).
  { intros t H1 H3. apply mt_later; [done|]. divlia. }
  run (masked_time_at w). rewrite Hm by lia. case_if; zbool.
  - assert (Hlt : clock w < 1000 * (t0 / 1000 + us)) by divlia.
    set (w1 := at_time _ _ _). pose proof (Hc (ops (hw w1))) as Hc2. run (masked_time_at w1).
    change (cost (hw w1)) with (cost (hw w)). change (clock w1) with (clock w + cost (hw w) (ops (hw w))).
    rewrite Hm by lia. rewrite (proj2 (Z.ltb_ge _ _)) by divlia.
    set (w2 := at_time _ _ _).
    assert (Hw2 : clock w2 = clock w + cost (hw w) (ops (hw w)) + cost (hw w) (ops (hw w1))) by done.
    destruct (IH w2 t0) as (t & k & E & Hr); [done|done|done|rewrite Hw2; lia|lia| |].
    + lia.
    + exists t, k. split; [exact E|]. unfold wait_end in *. cbv zeta in *. lia.
  - assert (Hge : 1000 * (t0 / 1000 + us) <= clock w) by divlia.
    do 2 eexists. split; [reflexivity|]. unfold wait_end. cbv zeta. lia.
Qed.

Lemma wait_until_Done us w t0 :
  timed w -> 0 <= us -> counts t0 us -> t0 <= clock w <= 1000 * (t0 / 1000 + us) + 4 * eps ->
  exists t k, wait_until (mt t0) us w = Done (tt, at_time w t k) /\ wait_end (clock w) t0 us t.
Proof.
  intros Hc Hus Hno Ht. pose proof (Hc 0%nat). pose proof (Z.mod_pos_bound (t0 / 1000) (2 ^ 31) ltac:(lia)) as Hm.
  fold (mt t0) in Hm. unfold counts in Hno. unfold wait_until. rewrite u32_small by lia.
  apply wait_loop_Done; try done; divlia.
Qed.

(** ** What is written to a pin *)

(** [w'] is later than [w], with the writes [l] in between. *)
Record follows w (l : list (Z * Z * bool)) w' : Prop := {
  fo_uarts : uarts w' = uarts w;
  fo_cost : cost (hw w') = cost (hw w);
  fo_input : input (hw w') = input (hw w);
  fo_trigger : trigger (hw w') = trigger (hw w);
  fo_writes : writes (hw w') = writes (hw w) ++ l;
  fo_times : Forall (fun e => clock w <= fst (fst e) < clock w') l;
  fo_clock : clock w <= clock w';
}.

Lemma follows_at w t k : clock w <= t -> follows w [] (at_time w t k).
Proof. split; try done. cbn. by rewrite app_nil_r. Qed.

Lemma follows_refl w : follows w [] w.
Proof. split; try done. by rewrite app_nil_r. Qed.

Lemma follows_trans w l w1 l' w2 : follows w l w1 -> follows w1 l' w2 -> follows w (l ++ l') w2.
Proof.
  intros [] []. split; try congruence; [by rewrite fo_writes1, fo_writes0, app_assoc| |lia].
  apply Forall_app. split; eapply Forall_impl; try done; cbn; intros; lia.
Qed.

Lemma follows_timed w l w' : follows w l w' -> timed w -> timed w'.
Proof. intros F Hw k. rewrite (fo_cost _ _ _ F). apply Hw. Qed.

Lemma timed_at w t k : timed w -> timed (at_time w t k).
Proof. done. Qed.

Hint Resolve follows_timed timed_at : softuart.

Lemma write_Done w pin v :
  timed w -> exists w', on_hw (gpio_write pin v) w = Done (tt, w') /\ follows w [(clock w, pin, v)] w' /\
    clock w < clock w' <= clock w + eps.
Proof.
  intros Hw. pose proof (Hw (ops (hw w))). eexists. split; [reflexivity|].
  split; [split; try done; [constructor; [|done]|]|]; cbn; unfold clock; cbn; lia.
Qed.

Lemma delay_Done w us :
  timed w -> 0 <= us -> exists w', on_hw (sdk_os_delay_us us) w = Done (tt, w') /\ follows w [] w' /\
    clock w + 1000 * us < clock w' <= clock w + 1000 * us + eps.
Proof.
  intros Hw Hus. pose proof (Hw (ops (hw w))). eexists. split; [reflexivity|]. split; [split; try done|]; cbn; [by rewrite app_nil_r|..].
  all: unfold clock; cbn; lia.
Qed.

(** The level of [pin] at [t], [v] before the writes [l]. *)
Definition level (pin : Z) (v : bool) (l : list (Z * Z * bool)) (t : Z) : bool :=
  foldl (fun v e => if (snd (fst e) =? pin) && (fst (fst e) <=? t) then snd e else v) v l.

Lemma level_app pin v l l' t : level pin v (l ++ l') t = level pin (level pin v l t) l' t.
Proof. apply foldl_app. Qed.

Lemma level_before pin v l t : Forall (fun e => t < fst (fst e)) l -> level pin v l t = v.
Proof.
  intros H. revert v. induction H as [|e l He _ IH]; intros v; [done|]. cbn.
  rewrite (proj2 (Z.leb_gt _ _)), andb_false_r by done. apply IH.
Qed.

Lemma level_write pin v x b l t : level pin v ((x, pin, b) :: l) t = level pin (if x <=? t then b else v) l t.
Proof. unfold level. cbn. by rewrite Z.eqb_refl. Qed.

(** The bits of [c] from number [i] on go out at multiples of the bit time
    after [t0]. *)
Lemma send_bits_Done c t0 n : forall i u w,
  timed w -> 0 <= i -> 1000 + 4 * eps <= 1000 * bit_time u -> counts t0 (bit_time u * (i + Z.of_nat n)) ->
  t0 <= clock w <= 1000 * (t0 / 1000 + bit_time u * i) + 1000 + 4 * eps ->
  exists l w', send_bits n i u (mt t0) c w = Done (tt, w') /\ follows w l w' /\
    Forall (fun e => 1000 * (t0 / 1000 + bit_time u * (i + 1)) < fst (fst e)) l /\
    (forall v j t, i <= j < i + Z.of_nat n -> 1000 * (t0 / 1000 + bit_time u * (j + 1)) + 3 * eps <= t ->
       t <= 1000 * (t0 / 1000 + bit_time u * (j + 2)) \/ j = i + Z.of_nat n - 1 ->
       level (tx_pin u) v l t = Z.testbit c j) /\
    (n <> 0%nat -> 1000 * (t0 / 1000 + bit_time u * (i + Z.of_nat n)) < clock w'
                   <= 1000 * (t0 / 1000 + bit_time u * (i + Z.of_nat n)) + 4 * eps).
Proof.
  induction n as [|n IH]; intros i u w Hw Hi Hslow Hno Ht; cbn [send_bits].
  { exists [], w. split; [done|]. split; [apply follows_refl|]. split; [constructor|]. split; [lia|done]. }
  set (B := bit_time u) in *. pose proof (Hw 0%nat).
  destruct (wait_until_Done (B * (i + 1)) w t0) as (t & k & E1 & R1); [done|nia|unfold counts in *; nia|lia|].
  unfold wait_end in R1. cbv zeta in R1. run E1.
  destruct (write_Done (at_time w t k) (tx_pin u) (Z.testbit c i)) as (w1 & E2 & F1 & R2); [done|]. run E2.
  change (clock (at_time w t k)) with t in F1, R2.
  assert (F01 : follows w [(t, tx_pin u, Z.testbit c i)] w1) by exact (follows_trans _ _ _ _ _ (follows_at w t k ltac:(lia)) F1).
  destruct (IH (i + 1) u w1) as (l & w' & E3 & F2 & Ha & Hb & Hc); [by eapply follows_timed|lia|done|unfold counts in *; fold B; nia|fold B; lia|].
  fold B in Ha, Hb, Hc. exists ((t, tx_pin u, Z.testbit c i) :: l), w'. split; [exact E3|]. split; [by eapply (follows_trans _ [_])|].
  split; [constructor; [cbn; lia|eapply Forall_impl; [exact Ha|]; cbn; intros; lia]|]. split.
  - intros v j x Hj Hx Hx2. rewrite level_write. rewrite (proj2 (Z.leb_le t x)) by nia. destruct (decide (j = i)) as [->|].
    + destruct n as [|n]; [|apply level_before; eapply Forall_impl; [exact Ha|]; cbn; intros; lia].
      cbn in E3. injection E3 as <-. apply fo_writes in F2. symmetry in F2. rewrite <-(app_nil_r (writes (hw w1))) in F2 at 2.
      apply app_inv_head in F2. by subst l.
    + apply Hb; lia.
  - intros _. destruct n as [|n]; [|replace (i + Z.of_nat (S (S n))) with (i + 1 + Z.of_nat (S n)) by lia; by apply Hc].
    cbn in E3. injection E3 as <-. cbn. lia.
Qed.

(** ** Frames *)

(** How far edges may be off. *)
Definition slack : Z := 1000 + 6 * eps.

(** A signal has a frame with the byte [c] from its falling edge at [s] on:
    a start bit, eight data bits, the lowest first, and six bit times of
    [T] nanoseconds high. *)
Record framed (f : Z -> bool) (s T c : Z) : Prop := {
  fr_start t : s <= t <= s + T - slack -> f t = false;
  fr_bits j t : 0 <= j < 8 -> s + T * (j + 1) + slack <= t <= s + T * (j + 2) - slack -> f t = Z.testbit c j;
  fr_stop t : s + T * 9 + slack <= t <= s + T * 15 - slack -> f t = true;
}.

(** A port that is open. *)
Definition opened w (no : Z) (u : softuart_t) : Prop :=
  0 <= no < SOFTUART_MAX_UARTS /\ uarts w !! Z.to_nat no = Some u /\ baudrate u <> 0.

Lemma opened_uart_at w no u : opened w no u -> uart_at no w = Done (u, w).
Proof. intros ([H0 _] & H & _). unfold uart_at. by rewrite H, (proj2 (Z.leb_le _ _)). Qed.

Lemma opened_check w no u : opened w no u -> check_uart_no no = true /\ check_uart_enabled u = true.
Proof.
  intros ([_ H] & _ & Hb). unfold check_uart_no, check_uart_enabled.
  by rewrite (proj2 (Z.leb_gt _ _)), (proj2 (Z.eqb_neq _ _)).
Qed.

Lemma follows_opened w l w' no u : follows w l w' -> opened w no u -> opened w' no u.
Proof. intros F. unfold opened. by rewrite (fo_uarts _ _ _ F). Qed.

(** The port is fast enough for the operations of the board. *)
Definition slow_enough (u : softuart_t) : Prop := 2 * slack <= 1000 * bit_time u.

(** How long [softuart_put] may take, in microseconds. *)
Definition put_time (u : softuart_t) : Z := 16 * bit_time u.

Lemma put_Done w no u c :
  timed w -> opened w no u -> slow_enough u -> counts (clock w) (put_time u) ->
  let T := 1000 * bit_time u in
  exists s l w', softuart_put no c w = Done (true, w') /\ follows w l w' /\ clock w < s /\ s + T * 15 - slack <= clock w' /\
    clock w' <= clock w + 1000 * put_time u /\
    Forall (fun e => s <= fst (fst e) <= s + T * 9 + slack) l /\
    forall v, framed (level (tx_pin u) v l) s T c.
Proof.
  intros Hw Ho Hslow Hno T. unfold slow_enough, slack, put_time, counts in *. pose proof (Hw (ops (hw w))) as Hc0.
  pose proof (opened_check w no u Ho) as [Hc1 Hc2]. set (B := bit_time u) in *.
  unfold softuart_put. rewrite Hc1. cbn [negb]. run (opened_uart_at w no u Ho). rewrite Hc2. cbn [negb].
  set (t0 := clock w) in *. run (masked_time_at w). fold t0. set (w0 := at_time _ _ _).
  assert (Hq : 1000 * (t0 / 1000) <= t0 < 1000 * (t0 / 1000) + 1000) by divlia.
  destruct (write_Done w0 (tx_pin u) false) as (w1 & E1 & F1 & R1); [done|]. run E1.
  set (s := clock w0) in *. assert (Hs : t0 < s <= t0 + eps) by (unfold s, w0; cbn; fold t0; lia).
  assert (Hw0 : timed w0) by done. assert (Hw1 : timed w1) by eauto with softuart.
  destruct (send_bits_Done c t0 9 0 u w1) as (l & w2 & E2 & F2 & Ha & Hb & Hc); [done|lia|fold B; lia|unfold counts; fold B; lia|lia|].
  fold B in Ha, Hb, Hc. specialize (Hc ltac:(done)). change (Z.of_nat 9) with 9 in *. run E2.
  assert (Hw2 : timed w2) by eauto with softuart.
  destruct (wait_until_Done (B * 9) w2 t0) as (t & k & E3 & R3); [done|lia|unfold counts; lia|lia|].
  fold B. unfold wait_end in R3. cbv zeta in R3. run E3.
  destruct (write_Done (at_time w2 t k) (tx_pin u) true) as (w3 & E4 & F4 & R4); [done|]. run E4.
  change (clock (at_time w2 t k)) with t in F4, R4.
  destruct (delay_Done w3 (B * 6)) as (w4 & E5 & F5 & R5); [eauto with softuart|lia|].
  run E5. exists s, ((s, tx_pin u, false) :: l ++ [(t, tx_pin u, true)]), w4.
  split; [done|]. split.
  { eapply (follows_trans _ []); [apply (follows_at w (clock w0)); fold t0 s; lia|]. eapply (follows_trans _ [_]); [exact F1|].
    eapply follows_trans; [exact F2|]. eapply (follows_trans _ []); [apply (follows_at w2 t k); lia|].
    rewrite <-(app_nil_r [_]). by eapply follows_trans. }
  split; [lia|]. split; [lia|]. split; [lia|].
  assert (Hlast : forall v x, t <= x -> level (tx_pin u) v ((s, tx_pin u, false) :: l ++ [(t, tx_pin u, true)]) x = true).
  { intros v x Hx. rewrite level_write, level_app, level_write. by rewrite (proj2 (Z.leb_le t x)). }
  assert (Hbefore : forall v x, s <= x < t -> level (tx_pin u) v ((s, tx_pin u, false) :: l ++ [(t, tx_pin u, true)]) x = level (tx_pin u) false l x).
  { intros v x Hx. rewrite level_write, level_app, level_write. by rewrite (proj2 (Z.leb_gt t x)), (proj2 (Z.leb_le s x)) by lia. }
  split.
  - constructor; [cbn [fst]; lia|]. apply Forall_app. split; [|constructor; [cbn [fst]; lia|done]].
    eapply Forall_impl; [exact (fo_times _ _ _ F2)|]. intros ? ?. cbv beta in *. lia.
  - intros v. split; unfold slack, T.
    + intros x Hx. rewrite Hbefore by lia. apply level_before. eapply Forall_impl; [exact Ha|]. cbn. intros. lia.
    + intros j x Hj Hx. assert (0 <= B * j <= B * 7) by nia. rewrite Hbefore by lia. apply Hb; lia.
    + intros x Hx. apply Hlast. lia.
Qed.

(** ** Sampling *)

(** Bit number [m] of a byte after [n] bits of [c] from number [i] on have
    been shifted into [d] from the top. *)
Definition shifted_bit (d c : Z) (i n m : Z) : bool :=
  if m + n <? 8 then Z.testbit d (m + n) else Z.testbit c (i + (m + n - 8)).

Lemma shift_in_byte d (high : bool) : byteP d -> byteP (if high then Z.lor (Z.shiftr d 1) 0x80 else Z.shiftr d 1).
Proof.
  intros Hd. unfold byteP in *. rewrite Z.shiftr_div_pow2 by lia. change (2 ^ 1) with 2.
  destruct high; [|divlia]. split; [apply Z.lor_nonneg; divlia|].
  apply (Z.log2_lt_cancel _ 256). pose proof (Z.log2_lor (d / 2) 128 ltac:(divlia) ltac:(lia)) as E. rewrite E.
  assert (Z.log2 (d / 2) <= Z.log2 128) by (apply Z.log2_le_mono; divlia). change (Z.log2 128) with 7 in *.
  change (Z.log2 256) with 8. lia.
Qed.

Lemma shift_in_bit d (high : bool) m :
  byteP d -> 0 <= m < 8 ->
  Z.testbit (if high then Z.lor (Z.shiftr d 1) 0x80 else Z.shiftr d 1) m = if m =? 7 then high else Z.testbit d (m + 1).
Proof.
  intros Hd Hm. assert (Hbit : Z.testbit 0x80 m = (m =? 7)) by (change 0x80 with (2 ^ 7); by rewrite Z.pow2_bits_eqb, Z.eqb_sym by lia).
  assert (Htop : m = 7 -> Z.testbit d (m + 1) = false).
  { intros ->. apply Z.bits_above_log2; unfold byteP in Hd; [lia|]. destruct (decide (d = 0)) as [->|]; [done|].
    apply Z.log2_lt_pow2; lia. }
  destruct high; rewrite ?Z.lor_spec, Z.shiftr_spec, ?Hbit by lia; destruct (m =? 7) eqn:E; zbool; try by rewrite ?orb_true_r, ?orb_false_r.
  by apply Htop.
Qed.

Lemma sample_bits_Done c t0 n : forall i d u w,
  timed w -> 0 <= i -> i + Z.of_nat n <= 8 -> 1000 + 4 * eps <= 1000 * bit_time u -> counts t0 (bit_time u * (i + Z.of_nat n)) ->
  t0 <= clock w <= 1000 * (t0 / 1000 + bit_time u * i) + 1000 + 4 * eps -> byteP d ->
  (forall j x, i <= j < i + Z.of_nat n -> 1000 * (t0 / 1000 + bit_time u * (j + 1)) < x ->
     x <= 1000 * (t0 / 1000 + bit_time u * (j + 1)) + 3 * eps -> input (hw w) (rx_pin u) x = Z.testbit c j) ->
  exists v t k, sample_bits n i u (mt t0) d w = Done (v, at_time w t k) /\ byteP v /\ clock w <= t /\
    (forall m, 0 <= m < 8 -> Z.testbit v m = shifted_bit d c i (Z.of_nat n) m) /\
    (n <> 0%nat -> 1000 * (t0 / 1000 + bit_time u * (i + Z.of_nat n)) < t
                   <= 1000 * (t0 / 1000 + bit_time u * (i + Z.of_nat n)) + 4 * eps).
Proof.
  induction n as [|n IH]; intros i d u w Hw Hi Hn Hslow Hno Ht Hd Hin; cbn [sample_bits].
  { exists d, (clock w), (ops (hw w)). rewrite at_time_same. split; [done|]. split; [done|]. split; [lia|]. split; [|done].
    intros m Hm. unfold shifted_bit. rewrite Z.add_0_r, (proj2 (Z.ltb_lt _ _)) by lia. done. }
  set (B := bit_time u) in *. pose proof (Hw 0%nat).
  destruct (wait_until_Done (B * (i + 1)) w t0) as (t & k & E1 & R1); [done|nia|unfold counts in *; nia|lia|].
  unfold wait_end in R1. cbv zeta in R1. run E1. set (w1 := at_time w t k).
  pose proof (Hw k) as Hk. set (high := input (hw w) (rx_pin u) t).
  assert (Hhigh : high = Z.testbit c i) by (apply Hin; lia).
  set (d' := if high then Z.lor (Z.shiftr d 1) 0x80 else Z.shiftr d 1). assert (Hd' : byteP d') by by apply shift_in_byte.
  erewrite bind_Done by (unfold ask_hw; cbn; reflexivity). fold high. fold d'.
  set (w2 := {| uarts := uarts w; hw := _ |}). assert (Hc2 : clock w2 = t + cost (hw w) k) by (unfold clock; cbn; lia).
  destruct (IH (i + 1) d' u w2) as (v & t' & k' & E2 & Hv & Htt & Hm & Hc); try done; try lia.
  { unfold counts in *. fold B. nia. }
  { intros j x Hj. apply Hin. lia. }
  exists v, t', k'. split; [exact E2|]. split; [done|]. split; [lia|]. split.
  - intros m Hm8. rewrite Hm by done. unfold shifted_bit. destruct (Z.ltb_spec (m + Z.of_nat n) 8), (Z.ltb_spec (m + Z.of_nat (S n)) 8); try lia.
    + unfold d'. rewrite shift_in_bit, (proj2 (Z.eqb_neq _ _)) by (done || lia). f_equal. lia.
    + unfold d'. rewrite shift_in_bit, (proj2 (Z.eqb_eq _ _)), Hhigh by (done || lia). f_equal. lia.
    + f_equal. lia.
  - intros _. fold B in Hc. destruct n as [|n]; [cbn in E2; injection E2 as _ <-; cbn; lia|].
    replace (i + Z.of_nat (S (S n))) with (i + 1 + Z.of_nat (S n)) by lia. by apply Hc.
Qed.

(** ** Receiving a frame *)

Lemma byte_bits v c : byteP v -> byteP c -> (forall m, 0 <= m < 8 -> Z.testbit v m = Z.testbit c m) -> v = c.
Proof.
  intros Hv Hc H. apply Z.bits_inj'. intros m Hm. destruct (decide (m < 8)); [by apply H|].
  unfold byteP in *.
  assert (E : forall z, 0 <= z < 256 -> Z.testbit z m = false).
  { intros z Hz. rewrite <-(Z.mod_small z (2 ^ 8)) by lia. apply Z.mod_pow2_bits_high. lia. }
  by rewrite !E.
Qed.

(** The interrupt is taken up to [lat] nanoseconds after the edge. *)
Definition latency_ok (u : softuart_t) (lat : Z) : Prop := 0 <= lat /\ lat + 2 * slack <= 1000 * (bit_time u / 2).

Lemma counts_later t0 us t1 us' : 0 <= eps -> counts t0 us -> t0 <= t1 -> us' + (t1 / 1000 - t0 / 1000) <= us -> 0 <= us' -> counts t1 us'.
Proof.
  unfold counts. intros He H H1 H2 H3. assert (t0 / 1000 <= t1 / 1000) by (apply Z.div_le_mono; lia). rewrite (mt_later t0 t1) by lia. lia.
Qed.

(** A change of the interrupt type. *)
Lemma trigger_Done w pin x h :
  timed w -> exists w', on_hw (gpio_set_interrupt pin x h) w = Done (tt, w') /\ uarts w' = uarts w /\
    cost (hw w') = cost (hw w) /\ input (hw w') = input (hw w) /\ writes (hw w') = writes (hw w) /\
    trigger (hw w') pin = (x, h) /\ clock w < clock w' <= clock w + eps.
Proof.
  intros Hw. pose proof (Hw (ops (hw w))). eexists. split; [reflexivity|]. do 4 (split; [done|]).
  split; [cbn; by rewrite Z.eqb_refl|]. unfold clock. cbn. lia.
Qed.

Lemma set_uart_Done no u w : set_uart no u w = Done (tt, {| uarts := <[Z.to_nat no := u]> (uarts w); hw := hw w |}).
Proof. done. Qed.

Definition received w (no : Z) (u : softuart_t) (c : Z) : list softuart_t :=
  <[Z.to_nat no := with_buffer u (store_byte (buffer u) c)]> (uarts w).

Lemma handle_rx_Done w no u s lat c :
  timed w -> opened w no u -> find_from 0 (uarts w) (rx_pin u) = no -> latency_ok u lat ->
  counts (clock w) (put_time u) -> s <= clock w <= s + lat -> byteP c ->
  let T := 1000 * bit_time u in
  framed (input (hw w) (rx_pin u)) s T c ->
  exists w', handle_rx (rx_pin u) w = Done (tt, w') /\ uarts w' = received w no u c /\
    cost (hw w') = cost (hw w) /\ input (hw w') = input (hw w) /\ writes (hw w') = writes (hw w) /\
    trigger (hw w') (rx_pin u) = (GPIO_INTTYPE_EDGE_NEG, handle_rx_handler) /\
    s + T * 9 + slack <= clock w' <= s + T * 10.
Proof.
  intros Hw Ho Hfind [Hl0 Hl] Hno Hs Hc T Hfr. pose proof Ho as ([Hn0 Hn2] & Hlk & Hb). unfold put_time in Hno.
  set (B := bit_time u) in *. set (e := clock w) in *. pose proof (Hw (ops (hw w))) as Hc0. unfold slack in Hl.
  assert (HB : 2 * (B / 2) <= B) by divlia.
  unfold handle_rx. erewrite bind_Done by reflexivity. rewrite Hfind, (proj2 (Z.ltb_ge _ _)) by lia.
  run (opened_uart_at w no u Ho).
  destruct (trigger_Done w (rx_pin u) GPIO_INTTYPE_NONE handle_rx_handler Hw) as (w1 & E1 & U1 & C1 & I1 & L1 & _ & R1). fold e in R1. run E1.
  assert (Hw1 : timed w1) by (intros x; rewrite C1; apply Hw).
  destruct (delay_Done w1 (B / 2)) as (w2 & E2 & F2 & R2); [done|lia|]. fold B. run E2.
  assert (Hw2 : timed w2) by eauto with softuart. set (t0 := clock w2) in *.
  run (masked_time_at w2). fold t0. set (w3 := at_time w2 _ _). pose proof (Hw2 (ops (hw w2))) as Hc2.
  assert (Hc3 : clock w3 = t0 + cost (hw w2) (ops (hw w2))) by done.
  assert (Hq : 1000 * (t0 / 1000) <= t0 < 1000 * (t0 / 1000) + 1000) by divlia.
  destruct (sample_bits_Done c t0 8 0 0 u w3) as (v & t & k & E4 & Hv & _ & Hm & Ht); try done; try lia.
  { apply (counts_later e (16 * B)); [lia|done|lia| |lia]. divlia. }
  { intros j x Hj Hx1 Hx2. fold B in Hx1, Hx2. change (input (hw w3)) with (input (hw w2)). rewrite (fo_input _ _ _ F2), I1.
    apply (fr_bits _ _ _ _ Hfr); [lia|]. unfold T, slack. lia. }
  specialize (Ht ltac:(done)). fold B in Ht. change (0 + Z.of_nat 8) with 8 in Ht. run E4.
  assert (Hvc : v = c).
  { apply byte_bits; [done|done|]. intros m Hm8. rewrite Hm by done. unfold shifted_bit. rewrite (proj2 (Z.ltb_ge _ _)) by lia. f_equal. lia. }
  subst v. run (set_uart_Done no (with_buffer u (store_byte (buffer u) c)) (at_time w3 t k)). set (w5 := {| uarts := _; hw := _ |}).
  destruct (delay_Done w5 B) as (w6 & E6 & F6 & R6); [exact Hw2|lia|]. run E6.
  assert (Hw6 : timed w6) by (eapply follows_timed; [exact F6|exact Hw2]).
  destruct (trigger_Done w6 (rx_pin u) GPIO_INTTYPE_EDGE_NEG handle_rx_handler Hw6) as (w7 & E7 & U7 & C7 & I7 & L7 & T7 & R7).
  exists w7. split; [exact E7|]. change (clock w5) with t in R6. split; [|split; [|split; [|split; [|split]]]].
  - rewrite U7, (fo_uarts _ _ _ F6). unfold w5, received. cbn [uarts]. f_equal. by rewrite <-U1, <-(fo_uarts _ _ _ F2).
  - rewrite C7, (fo_cost _ _ _ F6), <-C1. exact (fo_cost _ _ _ F2).
  - rewrite I7, (fo_input _ _ _ F6), <-I1. exact (fo_input _ _ _ F2).
  - rewrite L7, (fo_writes _ _ _ F6), app_nil_r, <-L1, <-(app_nil_r (writes (hw w1))). exact (fo_writes _ _ _ F2).
  - done.
  - unfold T, slack. lia.
Qed.

End Timing.
End SoftuartWire.
