(* ===== verification/SoftuartLink.v ===== *)
(** * Software UART: two boards and a wire

    The signal [softuart_puts] leaves on a pin, the interrupts it causes on
    another board, and the ring buffer as a queue. *)

From S2P Require Import Prelude Softuart SoftuartWire.
Open Scope Z_scope.

Module SoftuartLink.
Import Softuart SoftuartWire.

Implicit Types w : world board.

(** ** The ring buffer *)

Record buffer_ok (b : softuart_buffer_t) : Prop := {
  bo_length : length (receive_buffer b) = 64%nat;
  bo_head : 0 <= receive_buffer_head b < 64;
  bo_tail : 0 <= receive_buffer_tail b < 64;
}.

Definition used (b : softuart_buffer_t) : Z := (receive_buffer_tail b + 64 - receive_buffer_head b) mod 64.

(** The bytes in the buffer, the oldest first. *)
Definition queue (b : softuart_buffer_t) : list Z :=
  (fun i => as_mem (receive_buffer b) ((receive_buffer_head b + Z.of_nat i) mod 64)) <$> seq 0 (Z.to_nat (used b)).

Lemma used_range b : 0 <= used b < 64.
Proof. unfold used. apply Z.mod_pos_bound. lia. Qed.

Lemma length_queue b : Z.of_nat (length (queue b)) = used b.
Proof. pose proof (used_range b). unfold queue. rewrite length_fmap, length_seq. lia. Qed.

Lemma queue_empty b : buffer_ok b -> queue b = [] <-> receive_buffer_head b = receive_buffer_tail b.
Proof.
  intros [_ Hh Ht]. pose proof (length_queue b) as Hl. unfold used in Hl. split; intros H.
  - rewrite H in Hl. cbn in Hl. divlia.
  - apply length_zero_iff_nil. rewrite H in Hl. divlia.
Qed.

Lemma as_mem_insert bs i j d :
  (i < length bs)%nat -> 0 <= j -> as_mem (<[i := d]> bs) j = if Z.of_nat i =? j then d else as_mem bs j.
Proof.
  intros Hi Hj. unfold as_mem. rewrite !nth_lookup. case_if; zbool.
  - subst j. rewrite Nat2Z.id, list_lookup_insert_eq by done. done.
  - by rewrite list_lookup_insert_ne by lia.
Qed.

Lemma store_byte_room b d :
  buffer_ok b -> (length (queue b) < 63)%nat ->
  buffer_ok (store_byte b d) /\ queue (store_byte b d) = queue b ++ [d] /\ buffer_overflow (store_byte b d) = buffer_overflow b.
Proof.
  intros Hb Hl. pose proof (length_queue b) as Hu. destruct Hb as [Hlen Hh Ht]. pose proof (used_range b) as Hr.
  assert (Hused : used b < 63) by lia. unfold store_byte, SOFTUART_MAX_RX_BUFF.
  set (h := receive_buffer_head b) in *. set (t := receive_buffer_tail b) in *. 
  assert (Hne : (t + 1) mod 64 <> h) by (unfold used in Hused; fold h t in Hused; divlia).
  rewrite (proj2 (Z.eqb_neq _ _)) by done. cbn [negb]. set (b' := {| receive_buffer := _ |}).
  assert (Hu' : used b' = used b + 1) by (unfold used in *; cbn; fold h t in Hused |- *; divlia).
  split; [split; cbn; [by rewrite length_insert|done|apply Z.mod_pos_bound; lia]|]. split; [|done].
  unfold queue. rewrite Hu'. replace (Z.to_nat (used b + 1)) with (Z.to_nat (used b) + 1)%nat by lia.
  rewrite seq_app, fmap_app. f_equal.
  - apply list_fmap_ext. intros i x Hx. apply lookup_seq in Hx as [-> Hx]. unfold b'. cbn [receive_buffer receive_buffer_head Nat.add]. fold h t.
    rewrite as_mem_insert by (first [lia|apply Z.mod_pos_bound; lia]). rewrite Z2Nat.id by lia.
    rewrite (proj2 (Z.eqb_neq _ _)); [done|]. unfold used in Hx. fold h t in Hx. divlia.
  - unfold b'. cbn [receive_buffer receive_buffer_head Nat.add fmap list_fmap seq]. f_equal. fold h t. rewrite as_mem_insert by (first [lia|apply Z.mod_pos_bound; lia]). rewrite Z2Nat.id by lia.
    rewrite (proj2 (Z.eqb_eq _ _)); [done|]. unfold used. fold h t. divlia.
Qed.

Lemma store_byte_full b d :
  buffer_ok b -> length (queue b) = 63%nat ->
  buffer_ok (store_byte b d) /\ queue (store_byte b d) = queue b /\ buffer_overflow (store_byte b d) = 1.
Proof.
  intros Hb Hl. pose proof (length_queue b) as Hu. destruct Hb as [Hlen Hh Ht]. unfold store_byte, SOFTUART_MAX_RX_BUFF.
  rewrite (proj2 (Z.eqb_eq _ _)) by (unfold used in Hu; divlia).
  cbn [negb]. split; [by split|done].
Qed.

Lemma store_bytes ds : forall b,
  buffer_ok b -> (length (queue b) + length ds <= 63)%nat ->
  let b' := foldl store_byte b ds in
  buffer_ok b' /\ queue b' = queue b ++ ds /\ buffer_overflow b' = buffer_overflow b.
Proof.
  induction ds as [|d ds IH]; intros b Hb Hl; cbn [foldl]; [by rewrite app_nil_r|]. cbn [length] in Hl.
  destruct (store_byte_room b d Hb) as (H1 & H2 & H3); [lia|].
  destruct (IH (store_byte b d) H1) as (H4 & H5 & H6); [rewrite H2, length_app; cbn; lia|].
  split; [done|]. rewrite H5, H2, H6, H3. split; [by rewrite <-app_assoc|done].
Qed.

(** Taking the oldest byte. *)
Lemma read_oldest b d ds :
  buffer_ok b -> queue b = d :: ds ->
  let b' := {| receive_buffer := receive_buffer b; receive_buffer_tail := receive_buffer_tail b;
               receive_buffer_head := (receive_buffer_head b + 1) mod SOFTUART_MAX_RX_BUFF; buffer_overflow := buffer_overflow b |} in
  as_mem (receive_buffer b) (receive_buffer_head b) = d /\ buffer_ok b' /\ queue b' = ds.
Proof.
  intros [Hlen Hh Ht] Hq b'. change SOFTUART_MAX_RX_BUFF with 64 in b'. pose proof (length_queue b) as Hl. rewrite Hq in Hl. cbn [length] in Hl.
  assert (Hu : used b' = used b - 1) by (unfold used in *; cbn; divlia).
  split; [|split; [split; cbn; [done|apply Z.mod_pos_bound; lia|done]|]].
  - unfold queue in Hq. replace (Z.to_nat (used b)) with (S (Z.to_nat (used b - 1))) in Hq by lia. cbn [seq fmap list_fmap] in Hq.
    injection Hq as Hq _. by rewrite Z.add_0_r, Z.mod_small in Hq.
  - unfold queue in Hq. replace (Z.to_nat (used b)) with (S (Z.to_nat (used b - 1))) in Hq by lia. cbn [seq fmap list_fmap] in Hq.
    injection Hq as _ <-. unfold queue. rewrite Hu, <-fmap_S_seq, <-list_fmap_compose. apply list_fmap_ext.
    intros i x _. unfold compose, b'. cbn [receive_buffer receive_buffer_head]. f_equal. divlia.
Qed.

(** ** Sending a string *)

Section Link.
Variable eps : Z.

(** The signal [f] carries the bytes [cs] from [t0] on, the last start bit
    no later than [stop], and is high between the frames. *)
Inductive carries (f : Z -> bool) (T stop : Z) : Z -> list Z -> Prop :=
| silent t0 : (forall t, t0 <= t -> f t = true) -> carries f T stop t0 []
| frame t0 s c cs :
    t0 <= s -> s <= stop -> (forall t, t0 <= t < s -> f t = true) -> framed eps f s T c ->
    carries f T stop (s + T * 15 - slack eps) cs -> carries f T stop t0 (c :: cs).

Lemma framed_ext f g s T c :
  0 <= slack eps <= T -> (forall t, s <= t <= s + T * 15 - slack eps -> g t = f t) -> framed eps f s T c -> framed eps g s T c.
Proof.
  intros HT Hg [H1 H2 H3]. split.
  - intros t Ht. rewrite Hg by lia. by apply H1.
  - intros j t Hj Ht. rewrite Hg by nia. by apply H2.
  - intros t Ht. rewrite Hg by lia. by apply H3.
Qed.

Lemma carries_ext f g T stop t0 cs :
  carries f T stop t0 cs -> 0 <= slack eps <= T -> (forall t, t0 <= t -> g t = f t) -> carries g T stop t0 cs.
Proof.
  induction 1 as [t0 H|t0 s c cs H1 H2 H3 H4 _ IH]; intros Hs Hg.
  - constructor. intros. rewrite Hg by done. by apply H.
  - apply frame with s; try done.
    + intros t Ht. rewrite Hg by lia. by apply H3.
    + apply (framed_ext f); try done. intros. apply Hg. lia.
    + apply IH; [done|]. intros. apply Hg. lia.
Qed.

(** The line was high before as well. *)
Lemma carries_earlier f T stop t0 t1 cs :
  carries f T stop t0 cs -> t1 <= t0 -> (forall t, t1 <= t < t0 -> f t = true) -> carries f T stop t1 cs.
Proof.
  intros H Ht Hh. destruct H as [t0 H|t0 s c cs H1 H2 H3 H4 H5].
  - constructor. intros t H1. destruct (decide (t < t0)); [apply Hh; lia|apply H; lia].
  - apply frame with s; try done; [lia|]. intros t H. destruct (decide (t < t0)); [apply Hh; lia|apply H3; lia].
Qed.

Lemma carries_later f T stop stop' t0 cs : carries f T stop t0 cs -> stop <= stop' -> carries f T stop' t0 cs.
Proof. induction 1; intros; [by constructor|]. apply frame with s; try done; [lia|]. by apply IHcarries. Qed.

Lemma level_const pin v l x t : Forall (fun e => fst (fst e) <= x) l -> x <= t -> level pin v l t = level pin v l x.
Proof.
  intros H Ht. revert v. induction H as [|e l He _ IH]; intros v; [done|]. cbn.
  rewrite !(proj2 (Z.leb_le _ _)) by lia. apply IH.
Qed.

Lemma puts_Done no u cs : forall w,
  timed eps w -> opened w no u -> slow_enough eps u -> Forall (fun c => c <> 0) cs ->
  counts eps (clock w) (put_time u * Z.of_nat (length cs)) ->
  exists l w', softuart_puts no cs w = Done (true, w') /\ follows w l w' /\
    Forall (fun e => clock w < fst (fst e)) l /\ clock w' <= clock w + 1000 * put_time u * Z.of_nat (length cs) /\
    carries (level (tx_pin u) true l) (1000 * bit_time u) (clock w') (clock w) cs.
Proof.
  induction cs as [|c cs IH]; intros w Hw Ho Hslow Hnz Hno; cbn [softuart_puts].
  { exists [], w. split; [done|]. split; [apply follows_refl|]. split; [done|]. split; [cbn; lia|]. by constructor. }
  apply Forall_cons in Hnz as [Hc Hnz]. rewrite (proj2 (Z.eqb_neq c 0)) by done. pose proof (Hw 0%nat).
  set (n := Z.of_nat (length cs)) in *. assert (Hlen : Z.of_nat (length (c :: cs)) = n + 1) by (cbn [length]; lia). rewrite Hlen in *.
  unfold slow_enough, slack, put_time in *. set (B := bit_time u) in *.
  assert (HnB : 0 <= B * n) by nia.
  destruct (put_Done eps w no u c Hw Ho) as (s & l & w1 & E1 & F1 & H1 & H2 & H3 & H4 & H5).
  { done. }
  { unfold counts, put_time in *. fold B. nia. }
  fold B in H2, H4, H5. unfold put_time in H3. fold B in H3. unfold slack in H2. pose proof (fo_clock _ _ _ F1).
  destruct (IH w1) as (l' & w2 & E2 & F2 & H6 & H7 & H8).
  { by eapply follows_timed. } { by eapply follows_opened. } { done. } { done. }
  { apply (counts_later eps (clock w) (16 * B * (n + 1)) (clock w1) (16 * B * n)); [lia|done|lia|divlia|lia]. }
  exists (l ++ l'), w2. split; [by run E1|]. split; [by eapply follows_trans|].
  split; [apply Forall_app; split; eapply Forall_impl; try done; cbn; intros; lia|]. split; [lia|].
  pose proof (fo_clock _ _ _ F2).
  assert (Hl' : forall t, t <= clock w1 -> level (tx_pin u) true (l ++ l') t = level (tx_pin u) true l t).
  { intros t Ht. rewrite level_app. apply level_before. eapply Forall_impl; [exact H6|]. cbn. intros. lia. }
  assert (Hhigh : forall v t, s + 1000 * B * 9 + slack eps <= t -> level (tx_pin u) v l t = true).
  { intros v t Ht. rewrite (level_const _ _ _ (s + 1000 * B * 9 + slack eps)); [apply (fr_stop _ _ _ _ _ (H5 v)); unfold slack; lia| |done].
    eapply Forall_impl; [exact H4|]. cbn. intros. lia. }
  unfold slack in *. apply frame with s; [lia|lia| | |].
  - intros t Ht. apply level_before, Forall_app. split; eapply Forall_impl; try done; cbn; intros; lia.
  - eapply framed_ext; [| |exact (H5 true)]; [unfold slack; lia|]. intros t Ht. apply Hl'. unfold slack in Ht. lia.
  - apply carries_earlier with (clock w1); [|unfold slack; lia|].
    + eapply carries_ext; [exact H8|unfold slack; lia|]. intros t Ht. rewrite level_app. by rewrite Hhigh by lia.
    + intros t Ht. unfold slack in Ht. rewrite Hl' by lia. apply Hhigh. lia.
Qed.

(** The same signal on another clock. *)
Lemma carries_shift f T stop t0 cs off :
  carries f T stop t0 cs -> carries (fun t => f (t - off)) T (stop + off) (t0 + off) cs.
Proof.
  induction 1 as [t0 H|t0 s c cs H1 H2 H3 [F1 F2 F3] _ IH].
  - constructor. intros. apply H. lia.
  - apply frame with (s + off); [lia|lia|intros; apply H3; lia| |].
    + split; [intros; apply F1; lia|intros; apply F2; [done|lia]|intros; apply F3; lia].
    + by replace (s + off + T * 15 - slack eps) with (s + T * 15 - slack eps + off) by lia.
Qed.

(** ** Interrupts *)

(** A board with an armed interrupt on [pin]: the next falling edge runs the
    handler, at most [lat] nanoseconds later, and so on until the line stays
    high. *)
Inductive receiving (pin lat : Z) : world board -> world board -> Prop :=
| line_idle w : (forall t, clock w <= t -> input (hw w) pin t = true) -> receiving pin lat w w
| interrupt w s e k w1 w2 :
    trigger (hw w) pin = (GPIO_INTTYPE_EDGE_NEG, handle_rx_handler) ->
    clock w <= s -> (forall t, clock w <= t < s -> input (hw w) pin t = true) -> input (hw w) pin s = false ->
    s <= e <= s + lat -> handle_rx pin (at_time w e k) = Done (tt, w1) -> receiving pin lat w1 w2 ->
    receiving pin lat w w2.

(** The first falling edge. *)
Lemma first_edge (f : Z -> bool) t0 s s' :
  t0 <= s -> t0 <= s' -> (forall t, t0 <= t < s -> f t = true) -> (forall t, t0 <= t < s' -> f t = true) ->
  f s = false -> f s' = false -> s = s'.
Proof.
  intros H1 H2 H3 H4 H5 H6. destruct (Z.lt_trichotomy s s') as [H|[H|H]]; [|done|].
  - rewrite (H4 s) in H5 by lia. done.
  - rewrite (H3 s') in H6 by lia. done.
Qed.

(** A board that listens at port [no]. *)
Record listening w (no lat : Z) (u : softuart_t) : Prop := {
  li_timed : timed eps w;
  li_opened : opened w no u;
  li_found : find_from 0 (uarts w) (rx_pin u) = no;
  li_latency : latency_ok eps u lat;
  li_armed : trigger (hw w) (rx_pin u) = (GPIO_INTTYPE_EDGE_NEG, handle_rx_handler);
}.

Lemma find_from_with_buffer us : forall i no u b pin,
  us !! no = Some u -> find_from i (<[no := with_buffer u b]> us) pin = find_from i us pin.
Proof.
  induction us as [|v us IH]; intros i [|no] u b pin H; cbn in *; [done|done|by simplify_eq|].
  by rewrite IH.
Qed.

(** One frame is received, and the board listens again. *)
Lemma receive_frame w no lat u f stop s e k c cs :
  listening w no lat u -> (forall t, clock w <= t -> input (hw w) (rx_pin u) t = f t) ->
  let T := 1000 * bit_time u in
  clock w <= s <= stop -> framed eps f s T c -> carries f T stop (s + T * 15 - slack eps) cs ->
  byteP c -> counts eps (clock w) (put_time u + ((stop + lat) / 1000 - clock w / 1000)) -> s <= e <= s + lat ->
  exists w1, handle_rx (rx_pin u) (at_time w e k) = Done (tt, w1) /\
    let u1 := with_buffer u (store_byte (buffer u) c) in
    uarts w1 = <[Z.to_nat no := u1]> (uarts w) /\ listening w1 no lat u1 /\ clock w <= clock w1 /\
    input (hw w1) = input (hw w) /\ carries f T stop (clock w1) cs /\
    (cs <> [] -> counts eps (clock w1) (put_time u1 + ((stop + lat) / 1000 - clock w1 / 1000))).
Proof.
  intros [Lt Lo Lf Ll La] Hin T Hs Hfr Hca Hc Hno He. pose proof (Lt 0%nat) as Heps. destruct Ll as [Ll1 Ll2].
  set (w0 := at_time w e k). unfold put_time in *. set (B := bit_time u) in *. unfold slack in Ll2.
  assert (HB : 2 * (B / 2) <= B) by divlia.
  destruct (handle_rx_Done eps w0 no u s lat c) as (w1 & E & U & C & I & _ & A & R); try done.
  { change (clock w0) with e. unfold put_time. fold B.
    apply (counts_later eps (clock w) (16 * B + ((stop + lat) / 1000 - clock w / 1000))); [lia|done|lia| |lia]. divlia. }
  { fold B T. apply (framed_ext f); [unfold slack; lia|intros; apply Hin; lia|done]. }
  fold B T in R. unfold slack in R. exists w1. split; [exact E|]. cbv zeta.
  split; [exact U|]. split.
  { pose proof Lo as (H1 & H2 & H3). split; try done.
    - intros x. rewrite C. apply Lt.
    - split; [done|]. split; [|done]. rewrite U. apply list_lookup_insert_eq. by eapply lookup_lt_Some.
    - rewrite U. unfold received. by rewrite find_from_with_buffer. }
  split; [lia|]. split; [exact I|]. split.
  - apply carries_earlier with (s + T * 15 - slack eps); [done|unfold slack, T; lia|].
    intros t Ht. apply (fr_stop _ _ _ _ _ Hfr). unfold slack in *. lia.
  - intros Hcs. assert (clock w1 <= stop).
    { inversion Hca as [|? s' ? ? H1 H2 _ _ _]; subst; [done|]. unfold slack, T in *. lia. }
    change (bit_time (with_buffer u _)) with B.
    apply (counts_later eps (clock w) (16 * B + ((stop + lat) / 1000 - clock w / 1000))); [lia|done|lia|lia|divlia].
Qed.

(** All frames are received. *)
Lemma receive_carried f no lat stop cs : forall w u,
  listening w no lat u -> (forall t, clock w <= t -> input (hw w) (rx_pin u) t = f t) ->
  carries f (1000 * bit_time u) stop (clock w) cs -> Forall byteP cs ->
  (cs <> [] -> counts eps (clock w) (put_time u + ((stop + lat) / 1000 - clock w / 1000))) ->
  (exists w', receiving (rx_pin u) lat w w') /\
  forall w', receiving (rx_pin u) lat w w' ->
    uarts w' = <[Z.to_nat no := with_buffer u (foldl store_byte (buffer u) cs)]> (uarts w).
Proof.
  induction cs as [|c cs IH]; intros w u L Hin Hca Hb Hno.
  - inversion Hca as [? H|]; subst. split; [exists w; constructor; intros; rewrite Hin by done; by apply H|].
    intros w' Hr. destruct Hr as [w|w s e k w1 w2 _ H1 _ H2 _ _ _]; [|rewrite Hin, H in H2 by done; done].
    symmetry. apply list_insert_id. destruct L as [_ (_ & Hlk & _) _ _ _]. by destruct u.
  - inversion Hca as [|? s ? ? H1 H2 H3 Hfr Hca']; subst. apply Forall_cons in Hb as [Hc Hb]. specialize (Hno ltac:(done)).
    assert (Hs0 : f s = false).
    { apply (fr_start _ _ _ _ _ Hfr). destruct L as [Lt _ _ [L1 L2] _]. pose proof (Lt 0%nat). unfold slack in *. divlia. }
    split.
    + destruct (receive_frame w no lat u f stop s s 0 c cs) as (w1 & E & U & L1 & Hck & I & Hca1 & Hno1); try done.
      { destruct L as [_ _ _ [? _] _]. lia. }
      destruct (IH w1 _ L1) as [[w' Hw'] _]; try done.
      { intros t Ht. rewrite I. apply Hin. lia. }
      exists w'. eapply interrupt; [apply L|exact H1| |by rewrite Hin| |exact E|exact Hw'].
      { intros t Ht. rewrite Hin by lia. by apply H3. }
      { destruct L as [_ _ _ [? _] _]. lia. }
    + intros w' Hr. destruct Hr as [w Hid|w s' e k w1 w2 _ H4 H5 H6 He E Hr].
      { rewrite <-Hin, Hid in Hs0 by done. done. }
      assert (s' = s).
      { apply (first_edge f (clock w)); try done; [intros; rewrite <-Hin by lia; by apply H5|by rewrite <-Hin]. }
      subst s'.
      destruct (receive_frame w no lat u f stop s e k c cs) as (w1' & E' & U & L1 & Hck & I & Hca1 & Hno1); try done.
      rewrite E in E'. injection E' as <-. destruct (IH w1 _ L1) as [_ IH']; try done.
      { intros t Ht. rewrite I. apply Hin. lia. }
      rewrite (IH' _ Hr), U. cbn [foldl buffer with_buffer]. by rewrite list_insert_insert_eq.
Qed.

End Link.
End SoftuartLink.

(** * Software UART: when the counter overflows

    The waiting loops leave early when the counter overflows.  They end
    wherever the counter stands, so a byte is sent in bounded time; but what
    is left of its frame goes out at once. *)

Module SoftuartOverflow.
Import Softuart SoftuartWire.

Implicit Types w : world board.

Section Overflow.
Variable eps : Z.

(** When the counter of 31 bits overflows next. *)
Definition overflow_at (t0 : Z) : Z := 1000 * (t0 / 1000 + 2 ^ 31 - mt t0).

(** The time a wait from [t0] aims at. *)
Definition wait_goal (t0 us : Z) : Z := Z.min (1000 * (t0 / 1000 + us)) (overflow_at t0).

(** The counter in the 2^31 microseconds from [t0] on. *)
Lemma mt_turn t0 t :
  t0 <= t < 1000 * (t0 / 1000 + 2 ^ 31) ->
  mt t = if t <? overflow_at t0 then mt t0 + (t / 1000 - t0 / 1000) else mt t0 + (t / 1000 - t0 / 1000) - 2 ^ 31.
Proof.
  intros Ht. pose proof (Z.mod_pos_bound (t0 / 1000) (2 ^ 31) ltac:(lia)) as Hm. fold (mt t0) in Hm. unfold overflow_at.
  case_if; zbool; [apply mt_later; [lia|divlia]|].
  pose proof (Z.div_mod (t0 / 1000) (2 ^ 31) ltac:(lia)) as Hd. fold (mt t0) in Hd. unfold mt at 1. symmetry.
  apply (Z.mod_unique _ _ (t0 / 1000 / 2 ^ 31 + 1)); divlia.
Qed.

Lemma wait_loop_ends us fuel : forall w t0,
  timed eps w -> 0 <= us -> t0 <= clock w -> 1000 * us + 6 * eps < 1000 * 2 ^ 31 ->
  clock w + 4 * eps < 1000 * (t0 / 1000 + 2 ^ 31) ->
  wait_goal t0 us - clock w <= 2 * (Z.of_nat fuel - 2) -> 2 <= Z.of_nat fuel ->
  exists t k, wait_loop fuel (mt t0) (mt t0 + us) w = Done (tt, at_time w t k) /\
    clock w < t <= Z.max (clock w) (wait_goal t0 us + 2 * eps) + 2 * eps.
Proof.
  induction fuel as [|fuel IH]; intros w t0 Hw Hus Ht Hsmall Hno Hf H2; [lia|]. cbn [wait_loop].
  pose proof (Hw (ops (hw w))) as Hc1. pose proof (Z.mod_pos_bound (t0 / 1000) (2 ^ 31) ltac:(lia)) as Hm. fold (mt t0) in Hm.
  run (masked_time_at w). set (w1 := at_time _ _ _). pose proof (Hw (ops (hw w1))) as Hc2.
  assert (Hw1 : clock w1 = clock w + cost (hw w) (ops (hw w))) by done.
  destruct (mt (clock w) <? mt t0 + us) eqn:E1; zbool.
  - run (masked_time_at w1). change (cost (hw w1)) with (cost (hw w)). set (w2 := at_time _ _ _).
    assert (Hw2 : clock w2 = clock w1 + cost (hw w) (ops (hw w1))) by done.
    destruct (mt (clock w1) <? mt t0) eqn:E2; zbool.
    + do 2 eexists. split; [reflexivity|]. lia.
    + rewrite (mt_turn t0 (clock w1)) in E2 by lia. destruct (clock w1 <? overflow_at t0) eqn:E3; zbool; [|exfalso; divlia].
      rewrite (mt_turn t0 (clock w)), (proj2 (Z.ltb_lt _ _)) in E1 by lia.
      assert (Hg : clock w < wait_goal t0 us) by (unfold wait_goal; divlia).
      destruct (IH w2 t0) as (t & k & E & Hr); try done; try lia.
      { unfold wait_goal in Hg. lia. }
      exists t, k. split; [exact E|]. lia.
  - do 2 eexists. split; [reflexivity|]. lia.
Qed.

Lemma wait_until_ends us w t0 :
  timed eps w -> 0 <= us -> t0 <= clock w -> 1000 * us + 6 * eps < 1000 * 2 ^ 31 ->
  clock w + 4 * eps < 1000 * (t0 / 1000 + 2 ^ 31) ->
  exists t k, wait_until (mt t0) us w = Done (tt, at_time w t k) /\
    clock w < t <= Z.max (clock w) (wait_goal t0 us + 2 * eps) + 2 * eps.
Proof.
  intros Hw Hus Ht Hs Hno. pose proof (Z.mod_pos_bound (t0 / 1000) (2 ^ 31) ltac:(lia)) as Hm. fold (mt t0) in Hm.
  pose proof (Hw 0%nat). unfold wait_until. rewrite u32_small by lia. apply wait_loop_ends; try done; unfold wait_goal; divlia.
Qed.

(** The end of the frame that starts at [t0]. *)
Definition frame_goal (t0 : Z) (u : softuart_t) : Z := wait_goal t0 (bit_time u * 9).

Lemma goal_mono t0 us us' : us <= us' -> wait_goal t0 us <= wait_goal t0 us'.
Proof. unfold wait_goal. lia. Qed.

Lemma send_bits_ends c t0 n : forall i u w,
  timed eps w -> 0 <= i -> i + Z.of_nat n <= 9 -> 0 <= bit_time u -> t0 <= clock w ->
  1000 * (bit_time u * 9) + 1000 + 60 * eps < 1000 * 2 ^ 31 -> clock w <= frame_goal t0 u + 1000 + 2 * eps + 3 * eps * i ->
  exists l w', send_bits n i u (mt t0) c w = Done (tt, w') /\ follows w l w' /\
    clock w' <= frame_goal t0 u + 1000 + 2 * eps + 3 * eps * (i + Z.of_nat n).
Proof.
  induction n as [|n IH]; intros i u w Hw Hi Hn HB Ht Hsmall Hc; cbn [send_bits].
  { exists [], w. split; [done|]. split; [apply follows_refl|]. cbn. lia. }
  pose proof (Hw 0%nat). assert (He : 0 <= eps * i <= eps * 9) by nia.
  assert (Hbi : 0 <= bit_time u * i <= bit_time u * 8) by nia.
  assert (Hgoal : frame_goal t0 u <= 1000 * (t0 / 1000 + bit_time u * 9)) by (unfold frame_goal, wait_goal; lia).
  destruct (wait_until_ends (bit_time u * (i + 1)) w t0) as (t & k & E1 & R1); [done|lia|done|lia|lia|]. run E1.
  pose proof (goal_mono t0 (bit_time u * (i + 1)) (bit_time u * 9) ltac:(lia)) as Hg. fold (frame_goal t0 u) in Hg.
  destruct (write_Done eps (at_time w t k) (tx_pin u) (Z.testbit c i)) as (w1 & E2 & F1 & R2); [done|]. run E2.
  change (clock (at_time w t k)) with t in F1, R2.
  destruct (IH (i + 1) u w1) as (l & w' & E3 & F2 & R3); [by eapply follows_timed|lia|lia|done|lia|done|lia|].
  exists ([] ++ [(t, tx_pin u, Z.testbit c i)] ++ l), w'. split; [exact E3|]. split; [|lia].
  eapply follows_trans; [apply (follows_at w t k); lia|]. by eapply follows_trans.
Qed.

(** A byte is sent in bounded time wherever the counter stands. *)
Lemma put_ends w no u c :
  timed eps w -> opened w no u -> 0 <= bit_time u < 65536 -> 1000 * (bit_time u * 9) + 1000 + 60 * eps < 1000 * 2 ^ 31 ->
  exists l w1 w', softuart_put no c w = Done (true, w') /\ follows w l w1 /\ follows w1 [] w' /\
    clock w1 <= frame_goal (clock w) u + 1000 + 40 * eps /\ clock w' <= clock w1 + 1000 * (bit_time u * 6) + eps.
Proof.
  intros Hw Ho HB Hsmall. pose proof (opened_check w no u Ho) as [Hc1 Hc2]. pose proof (Hw (ops (hw w))) as Hc0.
  unfold softuart_put. rewrite Hc1. cbn [negb]. run (opened_uart_at w no u Ho). rewrite Hc2. cbn [negb].
  set (t0 := clock w) in *. run (masked_time_at w). fold t0. set (w0 := at_time _ _ _).
  assert (Hw0 : clock w0 = t0 + cost (hw w) (ops (hw w))) by done.
  pose proof (Z.mod_pos_bound (t0 / 1000) (2 ^ 31) ltac:(lia)) as Hm. fold (mt t0) in Hm.
  assert (Hgoal : t0 - 1000 < frame_goal t0 u <= 1000 * (t0 / 1000 + bit_time u * 9)).
  { unfold frame_goal, wait_goal, overflow_at. divlia. }
  destruct (write_Done eps w0 (tx_pin u) false) as (w1 & E1 & F1 & R1); [done|]. run E1.
  assert (Hw1 : timed eps w1) by (eapply follows_timed; [exact F1|done]).
  destruct (send_bits_ends c t0 9 0 u w1) as (l & w2 & E2 & F2 & R2); [done|lia|lia|lia|lia|done|lia|]. run E2.
  assert (Hw2 : timed eps w2) by by eapply follows_timed. pose proof (fo_clock _ _ _ F2).
  destruct (wait_until_ends (bit_time u * 9) w2 t0) as (t & k & E3 & R3); [done|lia|lia|lia|lia|]. run E3.
  fold (frame_goal t0 u) in R3.
  destruct (write_Done eps (at_time w2 t k) (tx_pin u) true) as (w3 & E4 & F4 & R4); [done|]. run E4.
  change (clock (at_time w2 t k)) with t in F4, R4.
  destruct (delay_Done eps w3 (bit_time u * 6)) as (w4 & E5 & F5 & R5); [by eapply follows_timed|lia|]. run E5.
  eexists ([] ++ [_] ++ l ++ [] ++ [_]), w3, w4. split; [done|]. split; [|split; [exact F5|lia]].
  eapply follows_trans; [apply (follows_at w (clock w0)); fold t0; lia|]. eapply follows_trans; [exact F1|].
  eapply follows_trans; [exact F2|]. eapply follows_trans; [apply (follows_at w2 t k); lia|exact F4].
Qed.

End Overflow.
End SoftuartOverflow.
