(* ===== verification/SoftuartContract.v ===== *)
(** * What the software UART promises

    The properties of [extras/softuart/softuart.c], with concrete runs. *)

From S2P Require Import Prelude Softuart SoftuartWire SoftuartLink.
Open Scope Z_scope.

Import Softuart SoftuartWire SoftuartLink SoftuartOverflow.

Implicit Types w : world board.

(** ** Ports and pins *)

(** Open ports do not share pins. *)
Definition exclusive (us : list softuart_t) : Prop := forall i j u v,
  us !! i = Some u -> us !! j = Some v -> baudrate u <> 0 -> baudrate v <> 0 -> i <> j ->
  shares_pin u (rx_pin v) (tx_pin v) = false.

Lemma shares_pin_spec u rx tx :
  shares_pin u rx tx = false <-> rx_pin u <> rx /\ tx_pin u <> tx /\ rx_pin u <> tx /\ tx_pin u <> rx.
Proof. unfold shares_pin. rewrite !orb_false_iff, !Z.eqb_neq. tauto. Qed.

Lemma pins_taken_spec us no rx tx : forall i,
  pins_taken i us no rx tx = false <->
  forall j u, us !! j = Some u -> baudrate u <> 0 -> i + Z.of_nat j <> no -> shares_pin u rx tx = false.
Proof.
  induction us as [|v us IH]; intros i; cbn [pins_taken]; [by split; [intros _ [] ?|]|].
  rewrite orb_false_iff, IH. split.
  - intros [H1 H2] [|j] u Hj Hb Hne; cbn in Hj.
    + simplify_eq. rewrite (proj2 (Z.eqb_neq (baudrate u) 0)), (proj2 (Z.eqb_neq i no)) in H1 by lia. done.
    + apply (H2 j u Hj Hb). lia.
  - intros H. split.
    + destruct (baudrate v =? 0) eqn:E1; [done|]. destruct (i =? no) eqn:E2; [done|]. zbool. apply (H 0%nat v); [done|done|]. cbn. lia.
    + intros j u Hj Hb Hne. apply (H (S j) u Hj Hb). lia.
Qed.

Lemma find_from_spec us : forall i j u,
  exclusive us -> us !! j = Some u -> baudrate u <> 0 -> find_from i us (rx_pin u) = i + Z.of_nat j.
Proof.
  induction us as [|v us IH]; intros i j u Hex Hj Hb; [done|]. cbn [find_from]. destruct j as [|j]; cbn in Hj.
  - simplify_eq. rewrite (proj2 (Z.eqb_neq _ _)), Z.eqb_refl by done. cbn. lia.
  - destruct (negb (baudrate v =? 0) && (rx_pin v =? rx_pin u)) eqn:E.
    + zbool. pose proof (Hex 0%nat (S j) v u eq_refl Hj) as Hs. rewrite shares_pin_spec in Hs. destruct Hs as (? & _); [|done..|done].
      by destruct (baudrate v =? 0) eqn:?; zbool.
    + rewrite (IH (i + 1) j u); [lia| |done|done]. intros a b x y Ha Hb' Hx Hy Hne. apply (Hex (S a) (S b) x y Ha Hb' Hx Hy). lia.
Qed.

(** The bit time is rounded to the nearest microsecond. *)
Lemma bit_time_of_rounds baud : 16 <= baud -> 100 * Z.abs (1000000 - bit_time_of baud * baud) <= 51 * baud.
Proof.
  intros Hb. unfold bit_time_of. set (a := 1000000 / baud). pose proof (Z.div_mod 1000000 baud ltac:(lia)) as Hd. fold a in Hd.
  pose proof (Z.mod_pos_bound 1000000 baud ltac:(lia)) as Hr. set (r := 1000000 mod baud) in *.
  assert (Ha : 0 <= a <= 62500) by (split; [apply Z.div_pos; lia|]; apply Z.div_le_upper_bound; lia).
  rewrite (u16_small a) by lia.
  assert (E : 100000000 / baud - 100 * a = 100 * r / baud).
  { replace 100000000 with (100 * r + 100 * a * baud) by lia. rewrite Z.div_add by lia. lia. }
  pose proof (Z.mul_div_le (100 * r) baud ltac:(lia)). pose proof (Z.mul_succ_div_gt (100 * r) baud ltac:(lia)).
  assert (0 <= 100 * r / baud < 100) by (split; [apply Z.div_pos; lia|apply Z.div_lt_upper_bound; lia]).
  rewrite E, u32_small by lia. case_if; zbool.
  - rewrite u16_small by lia. nia.
  - nia.
Qed.

Lemma close_Done w no u :
  0 <= no < SOFTUART_MAX_UARTS -> uarts w !! Z.to_nat no = Some u ->
  exists w', softuart_close no w = Done (true, w') /\ uarts w' = <[Z.to_nat no := with_baudrate u 0]> (uarts w) /\
    writes (hw w') = writes (hw w).
Proof.
  intros [H0 H2] Hu. unfold softuart_close, check_uart_no. rewrite (proj2 (Z.leb_gt _ _)) by done. cbn [negb].
  erewrite bind_Done by (unfold uart_at; rewrite Hu, (proj2 (Z.leb_le _ _)) by done; reflexivity). case_if; zbool.
  - exists w. split; [done|]. split; [|done]. symmetry. apply list_insert_id. rewrite Hu. destruct u; cbn in *. by subst.
  - eexists. split; [reflexivity|]. by split.
Qed.

Lemma exclusive_insert us no u :
  exclusive us ->
  (forall j v, us !! j = Some v -> baudrate v <> 0 -> j <> no -> shares_pin v (rx_pin u) (tx_pin u) = false) ->
  exclusive (<[no := u]> us).
Proof.
  intros Hex Hu i j x y Hi Hj Hx Hy Hne. apply list_lookup_insert_Some in Hi as [(-> & -> & _)|[H1 Hi]],
    Hj as [(-> & -> & _)|[H2 Hj]].
  - done.
  - specialize (Hu j y Hj Hy (not_eq_sym H2)). rewrite shares_pin_spec in *. destruct Hu as (? & ? & ? & ?). by repeat split; apply not_eq_sym.
  - apply (Hu i x Hi Hx). by apply not_eq_sym.
  - by apply (Hex i j).
Qed.

(** Opening a port: it succeeds exactly when the number is valid, the
    baud rate is not zero and no other open port uses one of the pins.  Then
    the port listens: its interrupt is armed and leads to this port, and its
    output is high.  Open ports never share pins, other ports and (when the
    call fails) everything stay as they were, and the bit time is right to
    half a microsecond. *)
Theorem softuart_open_exclusive w no baud rx tx :
  length (uarts w) = 2%nat -> exclusive (uarts w) -> 0 <= no -> 0 <= baud ->
  exists ok w', softuart_open no baud rx tx w = Done (ok, w') /\
    (ok = true <-> no < 2 /\ baud <> 0 /\ forall j u, uarts w !! j = Some u -> baudrate u <> 0 -> Z.of_nat j <> no ->
       rx_pin u <> rx /\ tx_pin u <> tx /\ rx_pin u <> tx /\ tx_pin u <> rx) /\
    exclusive (uarts w') /\ length (uarts w') = 2%nat /\
    if ok then
      exists u, opened w' no u /\ rx_pin u = rx /\ tx_pin u = tx /\ baudrate u = baud /\
        (16 <= baud -> 100 * Z.abs (1000000 - bit_time u * baud) <= 51 * baud) /\
        find_from 0 (uarts w') rx = no /\ trigger (hw w') rx = (GPIO_INTTYPE_EDGE_NEG, handle_rx_handler) /\
        (exists t, writes (hw w') = writes (hw w) ++ [(t, tx, true)]) /\
        forall j, j <> Z.to_nat no -> uarts w' !! j = uarts w !! j
    else w' = w.
Proof.
  intros Hlen Hex H0 Hbaud. unfold softuart_open, check_uart_no. unfold SOFTUART_MAX_UARTS at 1.
  destruct (2 <=? no) eqn:Hno; cbn [negb]; zbool.
  { exists false, w. split; [done|]. split; [|done]. split; [done|]. intros (? & _). lia. }
  destruct (baud =? 0) eqn:Hb; zbool.
  { exists false, w. split; [done|]. split; [|done]. split; [done|]. intros (_ & ? & _). done. }
  erewrite bind_Done by reflexivity. pose proof (pins_taken_spec (uarts w) no rx tx 0) as Hpt.
  destruct (pins_taken 0 (uarts w) no rx tx).
  { exists false, w. split; [done|]. split; [|done]. split; [done|]. intros (_ & _ & H).
    assert (true = false); [|done]. apply Hpt. intros j u Hj Hu Hne. apply shares_pin_spec. by apply (H j). }
  destruct (lookup_lt_is_Some_2 (uarts w) (Z.to_nat no)) as [u0 Hu0]; [lia|].
  destruct (close_Done w no u0) as (w1 & E1 & U1 & L1); [unfold SOFTUART_MAX_UARTS; lia|done|]. run E1.
  assert (Hu1 : uarts w1 !! Z.to_nat no = Some (with_baudrate u0 0)) by (rewrite U1; apply list_lookup_insert_eq; lia).
  erewrite bind_Done by (unfold uart_at; rewrite Hu1, (proj2 (Z.leb_le _ _)) by done; reflexivity).
  set (u := {| rx_pin := rx |}). assert (Hfree := proj1 Hpt eq_refl).
  assert (Hex' : exclusive (<[Z.to_nat no := u]> (uarts w))).
  { apply exclusive_insert; [done|]. intros j v Hj Hv Hne. apply (Hfree j v Hj Hv). lia. }
  assert (HU : <[Z.to_nat no := u]> (uarts w1) = <[Z.to_nat no := u]> (uarts w)) by (rewrite U1; apply list_insert_insert_eq).
  match goal with |- exists ok w', ?m w1 = _ /\ _ =>
    assert (Hrun : exists w', m w1 = Done (true, w') /\ uarts w' = <[Z.to_nat no := u]> (uarts w1) /\
      trigger (hw w') rx = (GPIO_INTTYPE_EDGE_NEG, handle_rx_handler) /\
      exists t, writes (hw w') = writes (hw w1) ++ [(t, tx, true)])
  end.
  { eexists. split; [reflexivity|]. split; [done|]. split; [cbn; by rewrite Z.eqb_refl|]. by eexists. }
  destruct Hrun as (w' & E & U & Htr & Hwr). rewrite HU in U. rewrite L1 in Hwr. exists true, w'. split; [exact E|]. rewrite U. split.
  { split; [|done]. intros _. split; [done|]. split; [done|]. intros j v Hj Hv Hne. apply shares_pin_spec. by apply (Hfree j v). }
  split; [done|]. split; [by rewrite length_insert|]. exists u.
  assert (Hlk : <[Z.to_nat no := u]> (uarts w) !! Z.to_nat no = Some u) by (apply list_lookup_insert_eq; lia).
  split; [unfold opened, SOFTUART_MAX_UARTS; by rewrite U|]. do 3 (split; [done|]).
  split; [apply bit_time_of_rounds|]. split; [pose proof (find_from_spec _ 0 _ u Hex' Hlk Hb) as Hf; change (rx_pin u) with rx in Hf; lia|].
  split; [done|]. split; [done|]. intros j Hj. by apply list_lookup_insert_ne.
Qed.

(** ** The queue of received bytes *)

(** C30. The ring buffer is a queue of up to 63 bytes.  A received byte goes to
    its end, or sets the overflow flag when it is full; [softuart_available]
    tells whether it is empty and [softuart_read] takes the oldest byte (0
    when there is none), with no effect on anything else. *)
Theorem softuart_fifo w no u c :
  opened w no u -> buffer_ok (buffer u) ->
  (let b := store_byte (buffer u) c in
   buffer_ok b /\
   if (length (queue (buffer u)) <? 63)%nat then queue b = queue (buffer u) ++ [c] /\ buffer_overflow b = buffer_overflow (buffer u)
   else queue b = queue (buffer u) /\ buffer_overflow b = 1) /\
  softuart_available no w = Done (negb (bool_decide (queue (buffer u) = [])), w) /\
  match queue (buffer u) with
  | [] => softuart_read no w = Done (0, w)
  | d :: ds => exists b, buffer_ok b /\ queue b = ds /\ buffer_overflow b = buffer_overflow (buffer u) /\
      softuart_read no w = Done (d, {| uarts := <[Z.to_nat no := with_buffer u b]> (uarts w); hw := hw w |})
  end.
Proof.
  intros Ho Hb. pose proof (opened_check w no u Ho) as [Hc1 Hc2]. pose proof (length_queue (buffer u)) as Hl.
  pose proof (used_range (buffer u)) as Hr. pose proof (queue_empty _ Hb) as He. split.
  { cbv zeta. destruct (Nat.ltb_spec (length (queue (buffer u))) 63) as [H|H].
    - destruct (store_byte_room (buffer u) c Hb H) as (? & ? & ?). done.
    - destruct (store_byte_full (buffer u) c Hb) as (? & ? & ?); [lia|]. done. }
  split.
  { unfold softuart_available. rewrite Hc1. cbn [negb]. run (opened_uart_at w no u Ho). rewrite Hc2. cbn [negb].
    unfold ret. do 3 f_equal. fold (used (buffer u)). change SOFTUART_MAX_RX_BUFF with 64. fold (used (buffer u)).
    destruct (used (buffer u) =? 0) eqn:E; zbool; [rewrite bool_decide_true|rewrite bool_decide_false]; try done.
    - apply length_zero_iff_nil. lia.
    - intros Hq. rewrite Hq in Hl. cbn in Hl. lia. }
  unfold softuart_read. rewrite Hc1. cbn [negb]. rewrite (bind_Done _ _ _ _ _ (opened_uart_at w no u Ho)), Hc2. cbn [negb].
  destruct (queue (buffer u)) as [|d ds] eqn:Hq.
  { rewrite (proj2 (Z.eqb_eq _ _)) by by apply He. done. }
  rewrite (proj2 (Z.eqb_neq _ _)) by (intros H; by apply He in H).
  destruct (read_oldest (buffer u) d ds Hb Hq) as (Hd & Hok & Hds). rewrite Hd. eexists. split; [exact Hok|]. split; [exact Hds|]. by split.
Qed.

(** ** From board to board *)

(** C29. What is sent is received: when [softuart_puts] sends a string (without
    zero bytes) on one board and the pin of a listening port of another board
    sees the signal, on a clock of its own, interrupts being taken at most [lat]
    nanoseconds after an edge, then every run of the interrupts puts exactly the
    bytes of the string into the buffer, if they fit its free room of at most 63
    bytes.  Operations take up to [eps] nanoseconds; the bit time is the same
    on both sides and longer than they need, and neither board's 31-bit
    counter of microseconds overflows meanwhile: [softuart_put_overflow] shows
    a frame that an overflow garbles. *)
Theorem softuart_link eps w no u s :
  timed eps w -> opened w no u -> slow_enough eps u -> Forall (fun c => 0 < c < 256) s ->
  counts eps (clock w) (put_time u * Z.of_nat (length s)) ->
  Forall (fun e => fst (fst e) <= clock w) (writes (hw w)) -> level (tx_pin u) true (writes (hw w)) (clock w) = true ->
  exists w', softuart_puts no s w = Done (true, w') /\
    forall off lat w2 no2 v,
      listening eps w2 no2 lat v -> bit_time v = bit_time u -> clock w2 = clock w + off ->
      (forall t, input (hw w2) (rx_pin v) t = level (tx_pin u) true (writes (hw w')) (t - off)) ->
      counts eps (clock w2) (put_time u * (Z.of_nat (length s) + 1) + lat / 1000 + 1) ->
      buffer_ok (buffer v) -> (length (queue (buffer v)) + length s <= 63)%nat ->
      (exists w2', receiving (rx_pin v) lat w2 w2') /\
      forall w2', receiving (rx_pin v) lat w2 w2' ->
        exists v', uarts w2' !! Z.to_nat no2 = Some v' /\ queue (buffer v') = queue (buffer v) ++ s /\
          buffer_overflow (buffer v') = buffer_overflow (buffer v).
Proof.
  intros Hw Ho Hslow Hs Hno Hpast Hidle. pose proof (Hw 0%nat) as Heps. unfold slow_enough, slack in *.
  destruct (puts_Done eps no u s w) as (l & w' & E & Fo & Hl & Hcl & Hca); try done.
  { eapply Forall_impl; [exact Hs|]. cbn. intros. lia. }
  exists w'. split; [exact E|]. intros off lat w2 no2 v L HB Hck Hin Hno2 Hbuf Hroom.
  set (f := fun t => level (tx_pin u) true l (t - off)).
  assert (Hf : forall t, clock w2 <= t -> input (hw w2) (rx_pin v) t = f t).
  { intros t Ht. rewrite Hin, (fo_writes _ _ _ Fo), level_app. unfold f.
    rewrite (level_const _ _ (writes (hw w)) (clock w)), Hidle by (done || lia). done. }
  pose proof (carries_shift eps _ _ _ _ _ off Hca) as Hca2. rewrite <-Hck, <-HB in Hca2.
  assert (Hbytes : Forall byteP s) by (eapply Forall_impl; [exact Hs|]; unfold byteP; cbn; intros; lia).
  destruct (receive_carried eps f no2 lat (clock w' + off) s w2 v L Hf Hca2 Hbytes) as [Hex Hall].
  { intros Hne. unfold put_time in *. rewrite HB. destruct L as [_ _ _ [? ?] _].
    assert (1 <= Z.of_nat (length s)) by (destruct s; cbn; [done|lia]).
    pose proof (fo_clock _ _ _ Fo). set (n := Z.of_nat (length s)) in *. set (B := bit_time u) in *.
    assert (0 <= B * n) by nia.
    apply (counts_later eps (clock w2) (16 * B * (n + 1) + lat / 1000 + 1)); [lia|done|lia|divlia|divlia]. }
  split; [exact Hex|]. intros w2' Hr. specialize (Hall w2' Hr). destruct L as [_ (_ & Hlk & _) _ _ _].
  destruct (store_bytes s (buffer v) Hbuf Hroom) as (_ & Hq & Hov).
  exists (with_buffer v (foldl store_byte (buffer v) s)). split; [|split; [exact Hq|exact Hov]].
  rewrite Hall. rewrite list_lookup_insert_eq by (by eapply lookup_lt_Some). done.
Qed.

(** Sending a byte ends wherever the counter stands: at most 40
    operations and a microsecond after nine bit times or, when that comes
    first, after the overflow of the counter the last edge is out, so what is
    left of the frame at the overflow is not timed at all. *)
Theorem softuart_put_overflow eps w no u c :
  timed eps w -> opened w no u -> 0 <= bit_time u < 65536 -> eps <= 2 ^ 30 ->
  let last := Z.min (clock w + 1000 * (bit_time u * 9)) (overflow_at (clock w)) + 1000 + 40 * eps in
  exists l w', softuart_put no c w = Done (true, w') /\ writes (hw w') = writes (hw w) ++ l /\
    Forall (fun e => fst (fst e) <= last) l /\ clock w' <= last + 1000 * (bit_time u * 6) + eps.
Proof.
  intros Hw Ho HB He last. destruct (put_ends eps w no u c Hw Ho HB) as (l & w1 & w' & E & F1 & F2 & H1 & H2); [lia|].
  assert (Hg : frame_goal (clock w) u <= Z.min (clock w + 1000 * (bit_time u * 9)) (overflow_at (clock w))).
  { unfold frame_goal, wait_goal. divlia. }
  exists l, w'. split; [exact E|]. split; [by rewrite (fo_writes _ _ _ F2), (fo_writes _ _ _ F1), app_nil_r|]. split; [|lia].
  eapply Forall_impl; [exact (fo_times _ _ _ F1)|]. cbn. intros. lia.
Qed.

(** ** Concrete runs *)

Module SoftuartRun.

(** A port at 9600 baud with pins 12 and 14, on a board whose operations take
    between 100 and 140 nanoseconds. *)
Definition port : softuart_t := {|
  rx_pin := 12; tx_pin := 14; baudrate := 9600; buffer := buffer zero_uart; bit_time := 104 |}.

Definition pcb (t : Z) (signal : Z -> bool) : world board := {|
  uarts := [zero_uart; port];
  hw := {| now := t; ops := 0; cost := fun k => 100 + 10 * Z.of_nat (k mod 5); input := fun _ => signal; writes := [];
           trigger := fun _ => (GPIO_INTTYPE_EDGE_NEG, handle_rx_handler) |} |}.

Lemma pcb_timed t f : timed 140 (pcb t f).
Proof. intros k. cbn. pose proof (Nat.mod_upper_bound k 5 ltac:(lia)). lia. Qed.

Lemma pcb_opened t f : opened (pcb t f) 1 port.
Proof. split; [unfold SOFTUART_MAX_UARTS; lia|]. by split. Qed.

Lemma port_buffer_ok : buffer_ok (buffer port).
Proof. split; cbn; [done|lia|lia]. Qed.

End SoftuartRun.
Import SoftuartRun.

Lemma softuart_open_exclusive_witness :
  exists w', softuart_open 0 9600 4 5 (pcb 0 (fun _ => true)) = Done (true, w') /\ exclusive (uarts w').
Proof.
  destruct (softuart_open_exclusive (pcb 0 (fun _ => true)) 0 9600 4 5) as (ok & w' & E & Hok & Hex & _); [reflexivity| |lia|lia|].
  - intros [|[|i]] [|[|j]] u v Hu Hv Hbu Hbv Hne; cbn in *; simplify_eq; try done; first [by destruct Hbu|by destruct Hbv].
  - assert (Ht : ok = true).
    { apply Hok. split; [lia|]. split; [lia|]. intros [|[|j]] u Hu Hbu Hne; cbn in *; simplify_eq; cbn in *; first [done|lia]. }
    subst ok. exists w'. split; [exact E|exact Hex].
Defined.

(** The port with two bytes, at the end of the ring. *)
Definition loaded : softuart_t := with_buffer port (foldl store_byte
  {| receive_buffer := replicate 64 0; receive_buffer_tail := 63; receive_buffer_head := 63; buffer_overflow := 0 |} [5; 6]).
Definition loaded_pcb : world board := {| uarts := [zero_uart; loaded]; hw := hw (pcb 0 (fun _ => true)) |}.

Lemma softuart_fifo_witness :
  queue (store_byte (buffer loaded) 65) = [5; 6; 65] /\ softuart_available 1 loaded_pcb = Done (true, loaded_pcb) /\
  exists b, queue b = [6] /\ softuart_read 1 loaded_pcb = Done (5, {| uarts := [zero_uart; with_buffer loaded b]; hw := hw loaded_pcb |}).
Proof.
  destruct (softuart_fifo loaded_pcb 1 loaded 65) as ((_ & H1) & H2 & H3).
  - split; [unfold SOFTUART_MAX_UARTS; lia|]. split; [reflexivity|]. cbn. lia.
  - split; vm_compute; intuition congruence.
  - split; [exact (proj1 H1)|]. split; [exact H2|]. destruct H3 as (b & _ & H & _ & E). exists b. split; [exact H|exact E].
Defined.

Lemma softuart_link_witness :
  exists w', softuart_puts 1 [72; 105] (pcb 5000 (fun _ => true)) = Done (true, w') /\
    let w2 := pcb 7000 (fun t => level 14 true (writes (hw w')) (t - 2000)) in
    exists w2', receiving 12 3000 w2 w2' /\ exists v', uarts w2' !! 1%nat = Some v' /\ queue (buffer v') = [72; 105].
Proof.
  destruct (softuart_link 140 (pcb 5000 (fun _ => true)) 1 port [72; 105]) as (w' & E & H);
    [apply pcb_timed|apply pcb_opened|vm_compute; congruence|repeat constructor; lia|vm_compute; congruence|constructor|reflexivity|].
  exists w'. split; [exact E|].
  destruct (H 2000 3000 (pcb 7000 (fun t => level 14 true (writes (hw w')) (t - 2000))) 1 port) as [[w2' Hr] Hall];
    [|reflexivity|reflexivity|reflexivity|vm_compute; congruence|apply port_buffer_ok|vm_compute; lia|].
  - split; [apply pcb_timed|apply pcb_opened|reflexivity|split; [lia|vm_compute; congruence]|reflexivity].
  - exists w2'. split; [exact Hr|]. destruct (Hall w2' Hr) as (v' & H1 & H2 & _). exists v'. split; [exact H1|exact H2].
Defined.

Lemma softuart_put_overflow_witness :
  exists l w', softuart_put 1 72 (pcb (2 ^ 31 * 1000 - 5000) (fun _ => true)) = Done (true, w') /\
    writes (hw w') = l /\ Forall (fun e => fst (fst e) <= 2 ^ 31 * 1000 + 6600) l.
Proof.
  destruct (softuart_put_overflow 140 (pcb (2 ^ 31 * 1000 - 5000) (fun _ => true)) 1 port 72) as (l & w' & E & Hl & Hall & _);
    [apply pcb_timed|apply pcb_opened|cbn; lia|lia|].
  exists l, w'. split; [exact E|]. split; [exact Hl|]. exact Hall.
Defined.
