(* ===== verification/HttpClient.v ===== *)
(** * Buffered HTTP client: [extras/http_client_ota/http_buffered_client.c]

    A download hands the body of a response to two callbacks, in pieces of the
    size of the buffer.  What the network does is a list of connections, each
    with the results of the calls on it; the callbacks and the allocator act
    on a state [W] of their own. *)

From stdpp Require Import strings.
From S2P Require Import Prelude CStrings.
Open Scope Z_scope.

(** The allocator, as far as the client needs it: does [malloc] succeed? *)
Class Heap (W : Type) := { malloc : M W bool; free : M W unit }.

(** While [heap_ok] holds a block can be had and given back. *)
Class HeapLaws (W : Type) `{Heap W} := {
  heap_ok : W -> Prop;
  heap_malloc_free w : heap_ok w -> exists w', malloc w = Done (true, w') /\ free w' = Done (tt, w);
}.

Module HttpClient.
Import CLib.

(** [HTTP_Client_State] *)
Definition HTTP_DNS_LOOKUP_FALLIED : Z := 1.
Definition HTTP_SOCKET_ALLOCATION_FALLIED : Z := 2.
Definition HTTP_SOCKET_CONNECTION_FALLIED : Z := 3.
Definition HTTP_SHA_DONT_MATCH : Z := 4.
Definition HTTP_REQUEST_SEND_FALLIED : Z := 5.
Definition HTTP_DOWLOAD_SIZE_NOT_MATCH : Z := 6.
Definition HTTP_OK : Z := 200.

Record HTTP_response := { response_code : Z; length_ : Z }.

Definition crlf : list Z := [13; 10].

(** [sprintf] of the format [req]. *)
Definition req (path server : list Z) : list Z :=
  str "GET " ++ path ++ str " HTTP/1.1" ++ crlf ++
  str "Host: " ++ server ++ str " " ++ crlf ++
  str "User-Agent: esp-open-rtos/0.1 esp8266" ++ crlf ++
  str "Connection: close" ++ crlf ++ crlf.

(** The size of the array [request] in bytes. *)
Definition sizeof_request : Z := 4 * (152 / 4).

(** Bytes that have arrived, or an error.  A read takes what fits and leaves
    the rest; behind the list the server has closed the connection. *)
Inductive read_result :=
| Got (bs : list Z)
| ReadError.

(** The results of the calls of a download: [getaddrinfo] with whether it
    gives a list of addresses, [socket], [connect] and [write]. *)
Record connection := {
  c_getaddrinfo : Z * bool;
  c_socket : Z;
  c_connect : Z;
  c_write : Z;
  c_reads : list read_result;
}.

(** Without another connection names are not found. *)
Definition no_connection : connection :=
  {| c_getaddrinfo := (-1, false); c_socket := 0; c_connect := 0; c_write := 0; c_reads := [] |}.

Section Client.
Context {W : Type} `{!Heap W}.

(** The static variables, the memory at [info->buffer] ([None]: a null
    pointer), the reads of the current connection and the connections to
    come; [sent] has the requests with the server and the port they went to,
    [addrinfos] and [sockets] count what is open. *)
Record client := {
  outer : W;
  http_reponse : HTTP_response;
  request : list Z;
  buffer : option (list Z);
  reads : list read_result;
  conns : list connection;
  sent : list (list Z * list Z * list Z);
  addrinfos : Z;
  sockets : Z;
}.

(** [Http_client_info] without the buffer.  A callback gets the memory from
    the start of the buffer on and a size. *)
Record Http_client_info := {
  server : list Z;
  port : list Z;
  path : list Z;
  buffer_size : Z;
  buffer_full_cb : list Z -> Z -> M W Z;
  final_cb : list Z -> Z -> M W Z;
}.

Definition with_outer (c : client) (w : W) : client :=
  {| outer := w; http_reponse := http_reponse c; request := request c; buffer := buffer c; reads := reads c;
     conns := conns c; sent := sent c; addrinfos := addrinfos c; sockets := sockets c |}.
Definition with_reponse (c : client) (r : HTTP_response) : client :=
  {| outer := outer c; http_reponse := r; request := request c; buffer := buffer c; reads := reads c;
     conns := conns c; sent := sent c; addrinfos := addrinfos c; sockets := sockets c |}.
Definition with_request (c : client) (bs : list Z) : client :=
  {| outer := outer c; http_reponse := http_reponse c; request := bs; buffer := buffer c; reads := reads c;
     conns := conns c; sent := sent c; addrinfos := addrinfos c; sockets := sockets c |}.
Definition with_buffer (c : client) (b : option (list Z)) : client :=
  {| outer := outer c; http_reponse := http_reponse c; request := request c; buffer := b; reads := reads c;
     conns := conns c; sent := sent c; addrinfos := addrinfos c; sockets := sockets c |}.
Definition with_reads (c : client) (rs : list read_result) : client :=
  {| outer := outer c; http_reponse := http_reponse c; request := request c; buffer := buffer c; reads := rs;
     conns := conns c; sent := sent c; addrinfos := addrinfos c; sockets := sockets c |}.
Definition with_conns (c : client) (cs : list connection) : client :=
  {| outer := outer c; http_reponse := http_reponse c; request := request c; buffer := buffer c; reads := reads c;
     conns := cs; sent := sent c; addrinfos := addrinfos c; sockets := sockets c |}.
Definition with_sent (c : client) (l : list (list Z * list Z * list Z)) : client :=
  {| outer := outer c; http_reponse := http_reponse c; request := request c; buffer := buffer c; reads := reads c;
     conns := conns c; sent := l; addrinfos := addrinfos c; sockets := sockets c |}.
Definition add_addrinfos (n : Z) (c : client) : client :=
  {| outer := outer c; http_reponse := http_reponse c; request := request c; buffer := buffer c; reads := reads c;
     conns := conns c; sent := sent c; addrinfos := addrinfos c + n; sockets := sockets c |}.
Definition add_sockets (n : Z) (c : client) : client :=
  {| outer := outer c; http_reponse := http_reponse c; request := request c; buffer := buffer c; reads := reads c;
     conns := conns c; sent := sent c; addrinfos := addrinfos c; sockets := sockets c + n |}.

Definition on_outer {A} (m : M W A) : M client A := fun c =>
  match m (outer c) with
  | Done (a, w) => Done (a, with_outer c w)
  | OutOfFuel => OutOfFuel
  | Undefined => Undefined
  end.

(** ** The header *)

Definition set_length (n : Z) : M client unit :=
  modify (fun c => with_reponse c {| response_code := response_code (http_reponse c); length_ := n |}).
Definition set_response_code (n : Z) : M client unit :=
  modify (fun c => with_reponse c {| response_code := n; length_ := length_ (http_reponse c) |}).

(** The loop over the rest of a token, which stores every number in it; the
    last one counts. *)
Fixpoint number_loop (fuel : nat) (token : list Z) (store : Z -> M client unit) : M client unit :=
  match fuel, token with
  | _, [] => ret tt
  | O, _ => out_of_fuel
  | S fuel, c :: rest =>
    if isdigit c then
      let '(v, rest) := strtol 10 token in
      do! store (u32 v) then
      number_loop fuel rest store
    else number_loop fuel rest store
  end.

(** [header] is the block and [token] an offset in it. *)
Definition http_handle_cb_ContentLength (header : list Z) (token : Z) : M client unit :=
  let! s := deref (string_at header (token + 16)) in
  number_loop (S (length s)) s set_length.

Definition parse_http_header_HTTP_STATUS (header : list Z) (token : Z) : M client unit :=
  let! s := deref (string_at header (token + 8)) in
  number_loop (S (length s)) s set_response_code.

Definition HTTP_HEADER_TOKEN : list (list Z * (list Z -> Z -> M client unit)) :=
  [(str "Content-Length", http_handle_cb_ContentLength)].

(** The handlers of a header line, whose name is at [subtoken]. *)
Fixpoint handle_token (table : list (list Z * (list Z -> Z -> M client unit))) (header : list Z) (subtoken token : Z)
    : M client unit :=
  match table with
  | [] => ret tt
  | (name, http_tock_cb) :: table =>
    let! s := deref (string_at header subtoken) in
    do! (if bool_decide (s = name) then http_tock_cb header token else ret tt) then
    handle_token table header subtoken token
  end.

(** The loop over the lines; [str1] is where the next one starts. *)
Fixpoint header_loop (fuel : nat) (j : Z) (header : list Z) (str1 : option nat) : M client unit :=
  match fuel with
  | O => out_of_fuel
  | S fuel =>
    let! (token, saveptr1, header) := deref (strtok_r header crlf str1) in
    match token with
    | None => ret tt
    | Some token =>
      let! (subtoken, _, header) := deref (strtok_r header (str ":") (Some token)) in
      match subtoken with
      | None => ret tt
      | Some subtoken =>
        if j =? 1 then
          do! parse_http_header_HTTP_STATUS header (Z.of_nat token) then
          header_loop fuel (j + 1) header saveptr1
        else
          do! handle_token HTTP_HEADER_TOKEN header (Z.of_nat subtoken) (Z.of_nat token) then
          header_loop fuel (j + 1) header saveptr1
      end
    end
  end.

Definition parse_http_header (header : list Z) : M client unit :=
  header_loop (S (length header)) 1 header (Some O).

(** ** The download *)

Definition get_buffer : M client (list Z) :=
  let! c := get in deref (buffer c).

(** Bytes stored at an offset of the buffer. *)
Definition store (off : Z) (bs : list Z) : M client unit :=
  let! buf := get_buffer in
  if bool_decide (bs = []) then ret tt
  else if (off <? 0) || (Z.of_nat (length buf) <? off + Z.of_nat (length bs)) then undefined
  else modify (fun c => with_buffer c (Some (take (Z.to_nat off) buf ++ bs ++ drop (Z.to_nat off + length bs) buf))).

(** [read] of at most [n] bytes to [wrt_ptr]. *)
Definition read (wrt_ptr n : Z) : M client Z :=
  if n <? 0 then undefined else
  let! c := get in
  match reads c with
  | [] => ret 0
  | ReadError :: rs => do! modify (fun c => with_reads c rs) then ret (-1)
  | Got bs :: rs =>
    let got := take (Z.to_nat n) bs in
    let rs := if Z.of_nat (length bs) <=? n then rs else Got (drop (Z.to_nat n) bs) :: rs in
    do! modify (fun c => with_reads c rs) then
    do! store wrt_ptr got then
    ret (Z.of_nat (length got))
  end.

(** The header is copied to a block of its own and parsed; four bytes behind
    it are copied as well. *)
Definition parse_first_chunk (buf : list Z) (pdu : Z) : M client unit :=
  let header_len := u32 (pdu + 4) in
  let! ok := on_outer malloc in
  if negb ok then undefined else
  if Z.of_nat (length buf) <? header_len then undefined else
  do! parse_http_header (take (Z.to_nat header_len) buf ++ [0]) then
  on_outer free.

(** [memmove] of [n] bytes from the offset [src] to the start. *)
Definition move_down (src n : Z) : M client unit :=
  let! buf := get_buffer in
  if Z.of_nat (length buf) <? src + n then undefined else store 0 (sub_bytes buf src n).

Definition call_back (cb : list Z -> Z -> M W Z) (full : Z) : M client Z :=
  let! buf := get_buffer in
  on_outer (cb buf (u16 full)).

Inductive loop_end :=
| Err_label
| Loop_done (full tot_http_pdu_rd : Z).

(** The [do .. while] loop; a turn goes on while [read_byte > 0]. *)
Fixpoint read_loop (fuel : nat) (info : Http_client_info) (wrt_ptr full tot_http_pdu_rd : Z) : M client loop_end :=
  match fuel with
  | O => out_of_fuel
  | S fuel =>
    let free_buff_space := s32 (u32 (buffer_size info - full)) in
    let! read_byte := read wrt_ptr free_buff_space in
    let next wrt_ptr full tot_http_pdu_rd :=
      if 0 <? read_byte then read_loop fuel info wrt_ptr full tot_http_pdu_rd
      else ret (Loop_done full tot_http_pdu_rd) in
    let wrt_ptr := wrt_ptr + read_byte in
    let full := u32 (full + read_byte) in
    if tot_http_pdu_rd =? 0 then
      let! buf := get_buffer in
      let! found := deref (strstr (crlf ++ crlf) buf 0) in
      match found with
      | None => next wrt_ptr full tot_http_pdu_rd
      | Some pdu =>
        let pdu := pdu + 4 in
        do! parse_first_chunk buf pdu then
        let pdu_size := u32 (wrt_ptr - pdu) in
        do! move_down pdu pdu_size then
        let! c := get in
        if negb (response_code (http_reponse c) =? HTTP_OK) then ret Err_label
        else next pdu_size pdu_size pdu_size
      end
    else
      let tot_http_pdu_rd := u32 (tot_http_pdu_rd + read_byte) in
      if full =? buffer_size info then
        let! _ := call_back (buffer_full_cb info) full in
        do! store 0 (replicate (Z.to_nat (buffer_size info)) 0) then
        next 0 0 tot_http_pdu_rd
      else next wrt_ptr full tot_http_pdu_rd
  end.

(** Every turn but the last takes bytes that have arrived. *)
Fixpoint arriving (rs : list read_result) : nat :=
  match rs with
  | [] => 0
  | Got bs :: rs => S (length bs) + arriving rs
  | ReadError :: rs => S (arriving rs)
  end.

Definition read_fuel (rs : list read_result) : nat := S (arriving rs).

Definition close : M client unit := modify (add_sockets (-1)).
Definition freeaddrinfo : M client unit := modify (add_addrinfos (-1)).

(** The request is printed to the array and written to the socket. *)
Definition send_request (info : Http_client_info) (conn : connection) : M client bool :=
  let text := req (path info) (server info) in
  if sizeof_request <? strlen text + 1 then undefined else
  do! modify (fun c => with_request c (text ++ 0 :: drop (S (length text)) (request c))) then
  do! modify (fun c => with_sent c (sent c ++ [(server info, port info, text)])) then
  ret (0 <=? c_write conn).

Definition HttpClient_dowload (info : Http_client_info) : M client Z :=
  let! c := get in
  let conn := match conns c with conn :: _ => conn | [] => no_connection end in
  do! modify (fun c => with_reads (with_conns c (tail (conns c))) (c_reads conn)) then
  let '(err, res) := c_getaddrinfo conn in
  do! (if res : bool then modify (add_addrinfos 1) else ret tt) then
  if negb (err =? 0) || negb res then
    do! (if res then freeaddrinfo else ret tt) then
    ret HTTP_DNS_LOOKUP_FALLIED
  else
  if c_socket conn <? 0 then
    do! freeaddrinfo then
    ret HTTP_SOCKET_ALLOCATION_FALLIED
  else
  do! modify (add_sockets 1) then
  if negb (c_connect conn =? 0) then
    do! close then
    do! freeaddrinfo then
    ret HTTP_SOCKET_CONNECTION_FALLIED
  else
  do! freeaddrinfo then
  let! ok := send_request info conn in
  if negb ok then
    do! close then
    ret HTTP_REQUEST_SEND_FALLIED
  else
  let! r := read_loop (read_fuel (c_reads conn)) info 0 0 0 in
  do! match r with
      | Err_label => ret tt
      | Loop_done full tot_http_pdu_rd =>
        let! _ := call_back (final_cb info) full in
        let! c := get in
        if negb (tot_http_pdu_rd =? length_ (http_reponse c)) then set_response_code HTTP_DOWLOAD_SIZE_NOT_MATCH
        else ret tt
      end then
  do! close then
  let! c := get in
  ret (response_code (http_reponse c)).

End Client.
Arguments client : clear implicits.
Arguments Http_client_info : clear implicits.
End HttpClient.
