(* ===== verification/HttpHeader.v ===== *)
(** * The HTTP client: parsing the header

    A well-formed head of a response, and what [parse_http_header] makes of
    it. *)

From stdpp Require Import strings.
From S2P Require Import Prelude CStrings HttpClient.
Open Scope Z_scope.

Module HttpHeader.
Import CLib HttpClient.

(** ** The head of a response *)

(** No control characters of the syntax: terminators and line ends. *)
Definition line_char (c : Z) : Prop := c <> 0 /\ c <> 13 /\ c <> 10.

(** A header line: the length of the body, or any other one. *)
Inductive field :=
| Length (ds : list Z)
| Other (name value : list Z).

Definition field_line (f : field) : list Z :=
  match f with
  | Length ds => str "Content-Length: " ++ ds
  | Other name value => name ++ str ":" ++ value
  end.

Definition field_ok (f : field) : Prop :=
  match f with
  | Length ds => ds <> [] /\ Forall is_digit ds
  | Other name value =>
    name <> [] /\ name <> str "Content-Length" /\ Forall (fun c => line_char c /\ c <> 58) name /\ Forall line_char value
  end.

(** What a number becomes: [strtol] saturates. *)
Definition parsed (ds : list Z) : Z := u32 (Z.min (number ds) (2 ^ 31 - 1)).

Definition field_length (n : Z) (f : field) : Z := match f with Length ds => parsed ds | Other _ _ => n end.

(** The first line, as [HTTP/1.1 200 OK]. *)
Record status_line := { version : list Z; code : list Z; reason : list Z }.

Definition status_bytes (s : status_line) : list Z := version s ++ str " " ++ code s ++ reason s.

Record status_ok (s : status_line) : Prop := {
  so_version : length (version s) = 8%nat /\ Forall (fun c => line_char c /\ c <> 58) (version s);
  so_code : code s <> [] /\ Forall is_digit (code s);
  so_reason : Forall (fun c => (line_char c /\ c <> 58) /\ ~ is_digit c) (reason s);
}.

Definition head_bytes (s : status_line) (fs : list field) : list Z :=
  status_bytes s ++ crlf ++ concat ((fun f => field_line f ++ crlf) <$> fs) ++ crlf.

(** The structure [http_reponse] after the head, before it [r]. *)
Definition answered (s : status_line) (fs : list field) (r : HTTP_response) : HTTP_response :=
  {| response_code := parsed (code s); length_ := foldl field_length (length_ r) fs |}.

Lemma digit_char c : is_digit c -> line_char c /\ c <> 58.
Proof. unfold is_digit, line_char. lia. Qed.

Lemma digits_chars ds : Forall is_digit ds -> Forall (fun c => line_char c /\ c <> 58) ds.
Proof. intros H. eapply Forall_impl; [exact H|]. apply digit_char. Qed.

Lemma status_chars s : status_ok s -> Forall (fun c => line_char c /\ c <> 58) (status_bytes s).
Proof.
  intros [[_ H1] [_ H2] H3]. unfold status_bytes. apply Forall_app. split; [done|]. apply Forall_app. split.
  { repeat constructor; done. }
  apply Forall_app. split; [by apply digits_chars|]. eapply Forall_impl; [exact H3|]. by intros c [? _].
Qed.

Lemma field_chars f : field_ok f -> Forall line_char (field_line f).
Proof.
  destruct f as [ds|name value]; unfold field_ok, field_line.
  - intros [_ H]. apply Forall_app. split; [repeat constructor; done|]. eapply Forall_impl; [by apply digits_chars|]. by intros c [? _].
  - intros (_ & _ & H1 & H2). apply Forall_app. split; [eapply Forall_impl; [exact H1|]; by intros c [? _]|].
    by constructor.
Qed.

Lemma field_nonempty f : field_ok f -> exists c l, field_line f = c :: l /\ c <> 13.
Proof.
  destruct f as [ds|[|c name] value]; cbn; [by intros _; do 2 eexists|by intros []|].
  intros (_ & _ & H & _). inversion H as [|? ? [[? [? ?]] ?] ?]; subst. by do 2 eexists.
Qed.

(** ** Finding the end of the head *)

Lemma strstr_skip s mem i :
  Forall line_char s -> strstr (crlf ++ crlf) (s ++ mem) i = strstr (crlf ++ crlf) mem (i + Z.of_nat (length s)).
Proof.
  intros H. revert i. induction H as [|c s [H1 [H2 H3]] _ IH]; intros i; [cbn [app length]; by rewrite Z.add_0_r|].
  cbn [app length strstr prefix_at crlf]. rewrite (proj2 (Z.eqb_neq c 13)), (proj2 (Z.eqb_neq c 0)) by done.
  fold crlf. rewrite IH. f_equal. lia.
Qed.

Lemma strstr_line s c mem i :
  Forall line_char s -> c <> 13 ->
  strstr (crlf ++ crlf) (s ++ crlf ++ c :: mem) i = strstr (crlf ++ crlf) (c :: mem) (i + Z.of_nat (length (s ++ crlf))).
Proof.
  intros Hs Hc. rewrite strstr_skip by done. rewrite length_app. cbn [length crlf app].
  cbn [strstr prefix_at Z.eqb Pos.eqb crlf app]. rewrite !(proj2 (Z.eqb_neq c 13)) by done. case_if; [done|]. f_equal. lia.
Qed.

Lemma strstr_fields fs : forall mem i,
  Forall field_ok fs ->
  let bytes := concat ((fun f => field_line f ++ crlf) <$> fs) in
  forall s, Forall line_char s ->
  strstr (crlf ++ crlf) (s ++ crlf ++ bytes ++ crlf ++ mem) i = Some (Some (i + Z.of_nat (length s) + Z.of_nat (length bytes))).
Proof.
  induction fs as [|f fs IH]; intros mem i Hfs bytes s Hs.
  - unfold bytes. cbn [fmap list_fmap concat app]. rewrite strstr_skip by done. cbn. do 2 f_equal. lia.
  - apply Forall_cons in Hfs as [Hf Hfs]. destruct (field_nonempty f Hf) as (c & l & E & Hc).
    unfold bytes. cbn [fmap list_fmap concat]. rewrite <-!app_assoc. rewrite E. cbn [app].
    rewrite strstr_line by done. change (c :: l ++ ?r) with ((c :: l) ++ r). rewrite <-E.
    rewrite (IH mem _ Hfs) by by apply field_chars. do 2 f_equal. rewrite !length_app. lia.
Qed.

Lemma strstr_head s fs mem :
  status_ok s -> Forall field_ok fs ->
  strstr (crlf ++ crlf) (head_bytes s fs ++ mem) 0 = Some (Some (Z.of_nat (length (head_bytes s fs)) - 4)).
Proof.
  intros Hs Hfs. unfold head_bytes. rewrite <-!app_assoc.
  rewrite (strstr_fields fs mem 0 Hfs (status_bytes s)).
  - rewrite !length_app. cbn [length crlf]. do 2 f_equal. lia.
  - eapply Forall_impl; [by apply status_chars|]. by intros c [? _].
Qed.

(** ** Parsing *)

Section Header.
Context {W : Type} `{!Heap W}.
Implicit Types c : client W.

Lemma number_loop_none fuel s store c :
  (length s < fuel)%nat -> Forall (fun b => ~ is_digit b) s -> number_loop fuel s store c = Done (tt, c).
Proof.
  intros Hf H. revert fuel Hf. induction H as [|b s Hb _ IH]; intros fuel Hf; [by destruct fuel|].
  destruct fuel as [|fuel]; cbn in Hf; [lia|]. cbn [number_loop].
  assert (E : isdigit b = false).
  { unfold isdigit, is_digit in *. apply andb_false_iff. rewrite !Z.leb_gt. lia. }
  rewrite E. apply IH. lia.
Qed.

Lemma number_loop_one a ds b store c fuel :
  Forall (fun b => ~ is_digit b) a -> ds <> [] -> Forall is_digit ds -> Forall (fun b => ~ is_digit b) b ->
  (length (a ++ ds ++ b) < fuel)%nat -> (forall v c, exists c', store v c = Done (tt, c')) ->
  number_loop fuel (a ++ ds ++ b) store c = store (parsed ds) c.
Proof.
  intros Ha Hne Hds Hb Hf Hst. revert fuel Hf. induction Ha as [|x a Hx _ IH]; intros fuel Hf.
  - destruct fuel as [|fuel]; cbn [app] in *; [lia|]. pose proof (strtol_number ds b Hne Hds) as E.
    destruct ds as [|d ds]; [done|]. cbn [app number_loop]. change (d :: ds ++ b) with ((d :: ds) ++ b) in *.
    apply Forall_cons in Hds as [Hd _]. rewrite (isdigit_true d Hd), E.
    + destruct (Hst (u32 (Z.min (number (d :: ds)) (2 ^ 31 - 1))) c) as [c' Ec]. unfold parsed. rewrite Ec. run Ec.
      apply number_loop_none; [|done]. cbn [app length] in Hf. rewrite length_app in Hf. lia.
    + intros y s ->. by inversion Hb.
  - destruct fuel as [|fuel]; cbn [app length] in *; [lia|]. cbn [number_loop].
    assert (E : isdigit x = false).
    { unfold isdigit, is_digit in *. apply andb_false_iff. rewrite !Z.leb_gt. lia. }
    rewrite E. apply IH. lia.
Qed.

Lemma crlf_delim : ~ 0 ∈ crlf.
Proof. unfold crlf. set_solver. Qed.
Lemma colon_delim : ~ 0 ∈ str ":".
Proof. change (str ":") with [58]. set_solver. Qed.

Lemma in_crlf x : line_char x -> in_token crlf x.
Proof. intros (? & ? & ?). split; [unfold crlf; set_solver|done]. Qed.
Lemma in_colon x : line_char x /\ x <> 58 -> in_token (str ":") x.
Proof. intros [(? & _) ?]. split; [change (str ":") with [58]; set_solver|done]. Qed.

Lemma deref_bind {A B} (o : option A) (a : A) (k : A -> M (client W) B) c : o = Some a -> bind (deref o) k c = k a c.
Proof. by intros ->. Qed.

(** A name of less than 14 bytes is not the one looked for. *)
Lemma handle_other pre name mem i t c :
  Forall (fun b => b <> 0) name -> name <> str "Content-Length" -> i = Z.of_nat (length pre) ->
  handle_token HTTP_HEADER_TOKEN (pre ++ name ++ 0 :: mem) i t c = Done (tt, c).
Proof.
  intros Hn Hne Hi. cbn [HTTP_HEADER_TOKEN handle_token]. rewrite (deref_bind _ name) by by apply string_at_app.
  rewrite bool_decide_false by done. done.
Qed.


(** The name of a short line is not the one looked for. *)
Lemma line_quiet pre tok m t (K : list Z -> M (client W) unit) c :
  Forall (fun b => b <> 0) tok -> (length tok < 14)%nat ->
  (forall tok', length tok' = length tok -> K (pre ++ tok' ++ 0 :: m) c = Done (tt, c)) ->
  (let! (subtoken, _, header) := deref (strtok_r (pre ++ tok ++ 0 :: m) (str ":") (Some (length pre))) in
   match subtoken with
   | None => ret tt
   | Some subtoken => do! handle_token HTTP_HEADER_TOKEN header (Z.of_nat subtoken) t then K header
   end) c = Done (tt, c).
Proof.
  intros Hz Hl HK. destruct (token_split (str ":") tok Hz) as (ds & name & rest & -> & H1 & H2 & H3 & H4).
  assert (Hn : Forall (fun b => b <> 0) name) by (eapply Forall_impl; [exact H2|]; by intros b [_ ?]).
  assert (Hne : name <> str "Content-Length").
  { intros ->. rewrite !length_app in Hl. cbn in Hl. lia. }
  destruct (decide (name = [])) as [->|Hname].
  - rewrite (H3 eq_refl), app_nil_r in *. cbn [app].
    by rewrite (deref_bind _ _ _ _ (strtok_end _ colon_delim pre ds m H1)).
  - destruct rest as [|d rest].
    + rewrite app_nil_r in *. rewrite <-app_assoc.
      rewrite (deref_bind _ _ _ _ (strtok_last _ pre ds name m H1 H2 Hname)). cbn beta iota. rewrite app_assoc.
      erewrite bind_Done by (apply handle_other; [done|done|by rewrite length_app]). rewrite <-app_assoc, (app_assoc ds). by apply HK.
    + replace ((ds ++ name ++ d :: rest) ++ 0 :: m) with (ds ++ name ++ d :: (rest ++ 0 :: m)) by by rewrite <-!app_assoc.
      rewrite (deref_bind _ _ _ _ (strtok_token _ colon_delim pre ds name d (rest ++ 0 :: m) H1 H2 Hname (H4 _ _ eq_refl))).
      cbn beta iota. rewrite app_assoc. erewrite bind_Done by (apply handle_other; [done|done|by rewrite length_app]).
      replace ((pre ++ ds) ++ name ++ 0 :: rest ++ 0 :: m) with (pre ++ (ds ++ name ++ 0 :: rest) ++ 0 :: m)
        by (by repeat (rewrite <-app_assoc; cbn [app])).
      apply HK. by rewrite !length_app.
Qed.

(** Short lines, as the bytes copied from the body are, change nothing. *)
Lemma header_loop_quiet fuel : forall j pre s mem c,
  (length s < fuel)%nat -> 1 < j -> Forall (fun b => b <> 0) s -> (length s < 14)%nat ->
  header_loop fuel j (pre ++ s ++ 0 :: mem) (Some (length pre)) c = Done (tt, c).
Proof.
  induction fuel as [|fuel IH]; intros j pre s mem c Hf Hj Hz Hl; [lia|]. cbn [header_loop].
  destruct (token_split crlf s Hz) as (ds & tok & rest & -> & H1 & H2 & H3 & H4).
  rewrite (proj2 (Z.eqb_neq j 1)) by lia. destruct (decide (tok = [])) as [->|Htok].
  - rewrite (H3 eq_refl), app_nil_r in *. cbn [app].
    by rewrite (deref_bind _ _ _ _ (strtok_end _ crlf_delim pre ds mem H1)).
  - assert (Ht : Forall (fun b => b <> 0) tok) by (eapply Forall_impl; [exact H2|]; by intros b [_ ?]).
    rewrite !length_app in Hf, Hl. assert (0 < length tok)%nat by (destruct tok; cbn; [done|lia]).
    destruct rest as [|d rest].
    + rewrite app_nil_r in *. rewrite <-app_assoc.
      rewrite (deref_bind _ _ _ _ (strtok_last _ pre ds tok mem H1 H2 Htok)). cbn beta iota.
      rewrite app_assoc, <-length_app. apply line_quiet; [done|lia|]. intros tok' _. destruct fuel as [|fuel]; [lia|done].
    + replace ((ds ++ tok ++ d :: rest) ++ 0 :: mem) with (ds ++ tok ++ d :: (rest ++ 0 :: mem)) by by rewrite <-!app_assoc.
      rewrite (deref_bind _ _ _ _ (strtok_token _ crlf_delim pre ds tok d (rest ++ 0 :: mem) H1 H2 Htok (H4 _ _ eq_refl))).
      cbn beta iota. rewrite app_assoc, <-length_app. apply line_quiet; [done|lia|]. intros tok' Hl'.
      replace ((pre ++ ds) ++ tok' ++ 0 :: rest ++ 0 :: mem) with ((pre ++ ds ++ tok' ++ [0]) ++ rest ++ 0 :: mem) by by rewrite <-!app_assoc.
      replace (S (length (pre ++ ds) + length tok)) with (length (pre ++ ds ++ tok' ++ [0])) by (rewrite !length_app; cbn; lia).
      cbn [length] in Hf, Hl. apply IH; [lia|lia| |lia]. apply Forall_app in Hz as [_ Hz]. apply Forall_app in Hz as [_ Hz].
      by inversion Hz.
Qed.

Lemma first_zero (tail : list Z) : exists s mem,
  tail ++ [0] = s ++ 0 :: mem /\ Forall (fun b => b <> 0) s /\ (length s <= length tail)%nat.
Proof.
  induction tail as [|b tail (s & mem & E & H1 & H2)]; [by exists [], []|]. destruct (decide (b = 0)) as [->|Hb].
  - exists [], (tail ++ [0]). repeat split; [constructor|cbn; lia].
  - exists (b :: s), mem. cbn. rewrite E. repeat split; [by constructor|lia].
Qed.

(** [c] with a length of the body. *)
Definition with_length c (n : Z) : client W :=
  with_reponse c {| response_code := response_code (http_reponse c); length_ := n |}.

(** The line with the length. *)
Lemma handle_length pre ds mem c i :
  ds <> [] -> Forall is_digit ds -> i = Z.of_nat (length pre) ->
  handle_token HTTP_HEADER_TOKEN (pre ++ str "Content-Length" ++ 0 :: 32 :: ds ++ 0 :: mem) i i c =
    Done (tt, with_length c (parsed ds)).
Proof.
  intros Hne Hds ->. cbn [HTTP_HEADER_TOKEN handle_token].
  rewrite (deref_bind _ (str "Content-Length")); cycle 1.
  { apply string_at_app; [|done]. by repeat constructor. }
  rewrite bool_decide_true by done. unfold http_handle_cb_ContentLength.
  replace (pre ++ str "Content-Length" ++ 0 :: 32 :: ds ++ 0 :: mem)
    with ((pre ++ str "Content-Length" ++ [0; 32]) ++ ds ++ 0 :: mem) by by rewrite <-!app_assoc.
  erewrite bind_Done; [reflexivity|]. rewrite (deref_bind _ ds); cycle 1.
  { apply string_at_app.
    - eapply Forall_impl; [by apply digits_chars|]. by intros b [[? _] _].
    - rewrite length_app, Nat2Z.inj_add. done. }
  pose proof (number_loop_one [] ds [] set_length c (S (length ds))) as E. rewrite app_nil_r in E. cbn [app] in E.
  rewrite E; [done|constructor|done|done|constructor|lia|]. intros v c'. by eexists.
Qed.

Lemma header_loop_fields fs : forall fuel j pre tail c,
  (length fs + 8 <= fuel)%nat -> 1 < j -> Forall field_ok fs -> (length tail <= 4)%nat ->
  header_loop fuel j (pre ++ 10 :: concat ((fun f => field_line f ++ crlf) <$> fs) ++ crlf ++ tail ++ [0]) (Some (length pre)) c =
    Done (tt, with_length c (foldl field_length (length_ (http_reponse c)) fs)).
Proof.
  induction fs as [|f fs IH]; intros fuel j pre tail c Hf Hj Hfs Ht.
  - destruct (first_zero tail) as (s & mem & E & H1 & H2). cbn [fmap list_fmap concat app foldl]. rewrite E.
    change (10 :: crlf ++ s ++ 0 :: mem) with ((10 :: crlf ++ s) ++ 0 :: mem). rewrite header_loop_quiet; [|cbn; lia|done| |cbn; lia].
    + destruct c as [? []]. done.
    + by repeat (constructor; [done|]).
  - apply Forall_cons in Hfs as [Hok Hfs]. destruct fuel as [|fuel]; [lia|]. cbn [length] in Hf.
    set (rest := concat ((fun f => field_line f ++ crlf) <$> fs) ++ crlf ++ tail ++ [0]).
    replace (10 :: concat _ ++ _) with ([10] ++ field_line f ++ 13 :: (10 :: rest))
      by (cbn [fmap list_fmap concat]; by rewrite <-!app_assoc).
    cbn [header_loop]. rewrite (proj2 (Z.eqb_neq j 1)) by lia.
    rewrite (deref_bind _ _ _ _ (strtok_token _ crlf_delim pre [10] (field_line f) 13 (10 :: rest)
      ltac:(by repeat constructor) ltac:(eapply Forall_impl; [by apply field_chars|]; apply in_crlf)
      ltac:(by destruct (field_nonempty f Hok) as (? & ? & -> & _)) ltac:(by repeat constructor))).
    cbn beta iota. rewrite app_assoc, <-length_app.
    assert (Hnext : forall line c', length line = length (field_line f) ->
      header_loop fuel (j + 1) ((pre ++ [10]) ++ line ++ 0 :: 10 :: rest) (Some (S (length (pre ++ [10]) + length (field_line f)))) c' =
        Done (tt, with_length c' (foldl field_length (length_ (http_reponse c')) fs))).
    { intros line c' Hl. rewrite <-(IH fuel (j + 1) ((pre ++ [10]) ++ line ++ [0]) tail c') by (done || lia). unfold rest.
      rewrite <-!app_assoc. do 2 f_equal. rewrite !length_app. cbn. lia. }
    destruct f as [ds|name value]; cbn [field_line] in *.
    + destruct Hok as [H1 H2].
      change (str "Content-Length: " ++ ds) with (str "Content-Length" ++ 58 :: 32 :: ds).
      rewrite <-(app_assoc (str "Content-Length")).
      pose proof (strtok_token _ colon_delim (pre ++ [10]) [] (str "Content-Length") 58 (32 :: ds ++ 0 :: 10 :: rest)
        ltac:(constructor) ltac:(by repeat constructor; set_solver) ltac:(done) ltac:(by repeat constructor)) as E.
      cbn [app length] in E. rewrite (deref_bind _ _ _ _ E). cbn beta iota. rewrite Nat.add_0_r.
      erewrite bind_Done by by apply handle_length. 
      by rewrite (Hnext (str "Content-Length" ++ 0 :: 32 :: ds)).
    + destruct Hok as (H1 & H2 & H3 & H4). rewrite <-(app_assoc name).
      pose proof (strtok_token _ colon_delim (pre ++ [10]) [] name 58 (value ++ 0 :: 10 :: rest)
        ltac:(constructor) ltac:(eapply Forall_impl; [exact H3|apply in_colon]) H1 ltac:(by repeat constructor)) as E.
      cbn [app length] in E. rewrite (deref_bind _ _ _ _ E). cbn beta iota. rewrite Nat.add_0_r.
      erewrite bind_Done by (apply handle_other; [eapply Forall_impl; [exact H3|]; by intros b [[? _] _]|done|done]).
      specialize (Hnext (name ++ 0 :: value) c). rewrite <-(app_assoc name) in Hnext. apply Hnext.
      by rewrite !length_app.
Qed.

(** The head gives the code and the length, whatever follows it. *)
Lemma parse_head s fs tail c :
  status_ok s -> Forall field_ok fs -> (length tail <= 4)%nat ->
  parse_http_header (head_bytes s fs ++ tail ++ [0]) c = Done (tt, with_reponse c (answered s fs (http_reponse c))).
Proof.
  intros Hs Hfs Ht. unfold parse_http_header. set (fuel := length _).
  assert (Hfuel : (length fs + 8 <= fuel)%nat).
  { unfold fuel, head_bytes, status_bytes. rewrite !length_app. destruct (so_version s Hs) as [-> _]. cbn [length crlf].
    enough (length fs <= length (concat ((fun f => field_line f ++ crlf) <$> fs)))%nat by lia. clear.
    induction fs as [|f fs IH]; cbn; [lia|]. rewrite !length_app. cbn. lia. }
  cbn [header_loop]. unfold head_bytes. rewrite <-!app_assoc.
  set (rest := concat ((fun f => field_line f ++ crlf) <$> fs) ++ crlf ++ tail ++ [0]).
  pose proof (status_chars s Hs) as Hc.
  assert (Hne : status_bytes s <> []) by (unfold status_bytes; by destruct (version s)).
  pose proof (strtok_token _ crlf_delim [] [] (status_bytes s) 13 (10 :: rest) ltac:(constructor)
    ltac:(eapply Forall_impl; [exact Hc|]; intros b [? _]; by apply in_crlf) Hne ltac:(by repeat constructor)) as E.
  cbn [app length Nat.add] in E. change (crlf ++ ?l) with (13 :: 10 :: l). rewrite (deref_bind _ _ _ _ E). cbn beta iota.
  pose proof (strtok_last _ [] [] (status_bytes s) (10 :: rest) ltac:(constructor)
    ltac:(eapply Forall_impl; [exact Hc|apply in_colon]) Hne) as E2.
  cbn [app length Nat.add] in E2. rewrite (deref_bind _ _ _ _ E2). cbn beta iota. rewrite Z.eqb_refl.
  destruct Hs as [[S1 S2] [S3 S4] S5]. unfold parse_http_header_HTTP_STATUS.
  erewrite bind_Done; cycle 1.
  { rewrite (deref_bind _ ([32] ++ code s ++ reason s)); cycle 1.
    - unfold status_bytes. rewrite <-app_assoc. apply string_at_app; [|by rewrite S1].
      constructor; [done|]. apply Forall_app. split.
      + eapply Forall_impl; [by apply digits_chars|]. by intros b [[? _] _].
      + eapply Forall_impl; [exact S5|]. by intros b [[[? _] _] _].
    - rewrite number_loop_one; [reflexivity|by repeat constructor; unfold is_digit; lia|done|done| |lia|].
      + eapply Forall_impl; [exact S5|]. by intros b [_ ?].
      + intros v c'. by eexists. }
  replace (status_bytes s ++ 0 :: 10 :: rest) with ((status_bytes s ++ [0]) ++ 10 :: rest) by by rewrite <-app_assoc.
  replace (S (length (status_bytes s))) with (length (status_bytes s ++ [0])) by (rewrite length_app; cbn; lia).
  unfold rest. by rewrite header_loop_fields.
Qed.

End Header.
End HttpHeader.
