(* ===== verification/HttpDownload.v ===== *)
(** * The HTTP client: downloads

    The loop of [HttpClient_dowload] on a response: the callbacks get the body
    in pieces of the size of the buffer. *)

From stdpp Require Import strings.
From S2P Require Import Prelude CStrings HttpClient HttpHeader.
Open Scope Z_scope.

Module HttpDownload.
Import CLib HttpClient HttpHeader.

Section Download.
Context {W : Type} `{HH : Heap W} {HL : HeapLaws W}.
Implicit Types c : client W.

(** ** Steps *)

Lemma on_outer_Done {A} (m : M W A) c (a : A) w : m (outer c) = Done (a, w) -> on_outer m c = Done (a, with_outer c w).
Proof. unfold on_outer. by intros ->. Qed.

Lemma get_buffer_Done c buf : buffer c = Some buf -> get_buffer c = Done (buf, c).
Proof. intros H. unfold get_buffer, get, bind, deref. by rewrite H. Qed.

(** A buffer with bytes stored in it. *)
Definition stored_at (buf : list Z) (off : nat) (bs : list Z) : list Z := take off buf ++ bs ++ drop (off + length bs) buf.

Lemma length_stored_at buf off bs : (off + length bs <= length buf)%nat -> length (stored_at buf off bs) = length buf.
Proof. intros H. unfold stored_at. rewrite !length_app, length_take, length_drop. lia. Qed.

Lemma take_stored_at buf off bs :
  (off + length bs <= length buf)%nat -> take (off + length bs) (stored_at buf off bs) = take off buf ++ bs.
Proof.
  intros H. unfold stored_at. rewrite app_assoc. rewrite take_app_le by (rewrite length_app, length_take; lia).
  apply take_ge. rewrite length_app, length_take. lia.
Qed.

Lemma store_buffer_Done c buf off bs :
  buffer c = Some buf -> (off + length bs <= length buf)%nat ->
  store (Z.of_nat off) bs c = Done (tt, with_buffer c (Some (stored_at buf off bs))).
Proof.
  intros Hb Hl. unfold store. run (get_buffer_Done c buf Hb). case_bool_decide.
  - subst. unfold stored_at. cbn [app length]. rewrite Nat.add_0_r, take_drop, <-Hb. by destruct c.
  - rewrite (proj2 (Z.ltb_ge _ _)), (proj2 (Z.ltb_ge _ _)) by lia. cbn [orb]. by rewrite Nat2Z.id.
Qed.

(** A read of bytes that have arrived. *)
Lemma read_Done c buf off n bs rs :
  buffer c = Some buf -> reads c = Got bs :: rs -> (off + n <= length buf)%nat ->
  let rs' := if (length bs <=? n)%nat then rs else Got (drop n bs) :: rs in
  read (Z.of_nat off) (Z.of_nat n) c =
    Done (Z.of_nat (length (take n bs)), with_buffer (with_reads c rs') (Some (stored_at buf off (take n bs)))).
Proof.
  intros Hb Hr Hn rs'. unfold read. rewrite (proj2 (Z.ltb_ge _ _)) by lia. erewrite bind_Done by reflexivity. rewrite Hr, Nat2Z.id.
  erewrite bind_Done by reflexivity.
  replace (Z.of_nat (length bs) <=? Z.of_nat n) with (length bs <=? n)%nat; cycle 1.
  { destruct (length bs <=? n)%nat eqn:E; symmetry; [apply Nat.leb_le in E; apply Z.leb_le|apply Nat.leb_gt in E; apply Z.leb_gt]; lia. }
  erewrite bind_Done; [reflexivity|]. apply store_buffer_Done; [done|]. rewrite length_take. lia.
Qed.

Lemma read_closed c off n : reads c = [] -> 0 <= n -> read off n c = Done (0, c).
Proof. intros Hr Hn. unfold read. rewrite (proj2 (Z.ltb_ge _ _)) by lia. erewrite bind_Done by reflexivity. by rewrite Hr. Qed.

(** ** What the callbacks do with a body *)

(** While pieces of the body [B] are handed over, [I] holds of what has been;
    when all of it has been, [Q]. *)
Record receives (info : Http_client_info W) (B : list Z) (I : list Z -> W -> Prop) (Q : Z -> W -> Prop) : Prop := {
  rcv_full D buf w :
    I D w -> Z.of_nat (length buf) = buffer_size info -> (D ++ buf) `prefix_of` B ->
    exists r w', buffer_full_cb info buf (buffer_size info) w = Done (r, w') /\ I (D ++ buf) w';
  rcv_final D buf n w :
    I D w -> Z.of_nat (length buf) = buffer_size info -> 0 <= n < buffer_size info -> D ++ take (Z.to_nat n) buf = B ->
    exists r w', final_cb info buf n w = Done (r, w') /\ Q r w';
}.

Context (info : Http_client_info W).
Hypothesis Hsize : 0 < buffer_size info < 65536.
Let size : nat := Z.to_nat (buffer_size info).

(** [c] after the reads, the callbacks and writes to the buffer. *)
Definition moved c (w : W) (buf : list Z) (rs : list read_result) : client W :=
  with_reads (with_buffer (with_outer c w) (Some buf)) rs.

Lemma moved_moved c w buf rs w' buf' rs' : moved (moved c w buf rs) w' buf' rs' = moved c w' buf' rs'.
Proof. done. Qed.

Lemma outer_moved c w buf rs w' : with_outer (moved c w buf rs) w' = moved c w' buf rs.
Proof. done. Qed.

(** The bytes that will arrive. *)
Definition chunked (chunks : list (list Z)) : list read_result := Got <$> chunks.

Lemma arriving_cons bs chunks : arriving (chunked (bs :: chunks)) = (S (length bs) + arriving (chunked chunks))%nat.
Proof. done. Qed.

Lemma u16_size : u16 (buffer_size info) = buffer_size info.
Proof. apply u16_small. lia. Qed.

(** ** Behind the head *)

(** A turn without the header. *)
Lemma body_turn fuel wrt full tot c :
  tot <> 0 ->
  read_loop (S fuel) info wrt full tot c =
  (let! read_byte := read wrt (s32 (u32 (buffer_size info - full))) in
   let full := u32 (full + read_byte) in
   let tot := u32 (tot + read_byte) in
   if full =? buffer_size info then
     let! _ := call_back (buffer_full_cb info) full in
     do! store 0 (replicate (Z.to_nat (buffer_size info)) 0) then
     (if 0 <? read_byte then read_loop fuel info 0 0 tot else ret (Loop_done 0 tot))
   else
     if 0 <? read_byte then read_loop fuel info (wrt + read_byte) full tot else ret (Loop_done full tot)) c.
Proof.
  intros Ht. cbn [read_loop]. unfold bind at 1. symmetry. unfold bind at 1.
  destruct (read _ _ c) as [[r c']| |]; [|done..]. by rewrite (proj2 (Z.eqb_neq tot 0)).
Qed.

Lemma space_left n : (n <= size)%nat -> s32 (u32 (buffer_size info - Z.of_nat n)) = Z.of_nat (size - n).
Proof. intros H. unfold size in *. rewrite s32_u32, s32_small; lia. Qed.

(** What a read of the body does: bytes go behind [p], the rest waits. *)
Lemma body_read chunks bs p buf w c :
  bs <> [] -> Forall (fun bs => bs <> []) chunks -> length buf = size -> take (length p) buf = p -> (length p < size)%nat ->
  exists got chunks' buf',
    read (Z.of_nat (length p)) (Z.of_nat (size - length p)) (moved c w buf (chunked (bs :: chunks))) =
      Done (Z.of_nat (length got), moved c w buf' (chunked chunks')) /\
    (0 < length got <= size - length p)%nat /\ bs ++ concat chunks = got ++ concat chunks' /\
    (arriving (chunked chunks') < arriving (chunked (bs :: chunks)))%nat /\
    Forall (fun bs => bs <> []) chunks' /\ length buf' = size /\ take (length (p ++ got)) buf' = p ++ got.
Proof.
  intros Hbs Hne Hbuf Hp Hl. exists (take (size - length p) bs).
  exists (if (length bs <=? size - length p)%nat then chunks else drop (size - length p) bs :: chunks).
  exists (stored_at buf (length p) (take (size - length p) bs)).
  assert (Hgot : (0 < length (take (size - length p) bs) <= size - length p)%nat).
  { rewrite length_take. destruct bs; [done|]. cbn [length]. lia. }
  assert (H1 : length (stored_at buf (length p) (take (size - length p) bs)) = size) by (rewrite length_stored_at; lia).
  assert (H2 : take (length (p ++ take (size - length p) bs)) (stored_at buf (length p) (take (size - length p) bs)) =
    p ++ take (size - length p) bs) by (rewrite length_app, take_stored_at, Hp by lia; done).
  split.
  { rewrite (read_Done _ buf _ _ bs (chunked chunks)) by (done || lia). unfold moved.
    by destruct (length bs <=? size - length p)%nat. }
  split; [done|]. destruct (length bs <=? size - length p)%nat eqn:E; [apply Nat.leb_le in E|apply Nat.leb_gt in E].
  - split; [by rewrite take_ge|]. split; [rewrite arriving_cons; lia|]. by repeat split.
  - split; [cbn [concat]; by rewrite app_assoc, take_drop|].
    split; [rewrite !arriving_cons, length_drop; lia|]. split; [|by split].
    constructor; [|done]. intros H0. apply (f_equal length) in H0. rewrite length_drop in H0. cbn in H0. lia.
Qed.

Lemma call_back_Done cb c buf n r w :
  buffer c = Some buf -> cb buf (u16 n) (outer c) = Done (r, w) -> call_back cb n c = Done (r, with_outer c w).
Proof. intros Hb E. unfold call_back. erewrite bind_Done by by apply get_buffer_Done. by apply on_outer_Done. Qed.

(** [p] is in the buffer, [D] has been handed over. *)
Lemma body_loop B I Q : receives info B I Q -> Z.of_nat (length B) < 2 ^ 32 ->
  forall fuel chunks D p buf w c,
  (arriving (chunked chunks) < fuel)%nat -> Forall (fun bs => bs <> []) chunks ->
  I D w -> length buf = size -> take (length p) buf = p -> (length p < size)%nat -> (0 < length D + length p)%nat ->
  B = D ++ p ++ concat chunks ->
  exists n w' buf' D',
    read_loop fuel info (Z.of_nat (length p)) (Z.of_nat (length p)) (Z.of_nat (length D + length p)) (moved c w buf (chunked chunks)) =
      Done (Loop_done n (Z.of_nat (length B)), moved c w' buf' []) /\
    I D' w' /\ length buf' = size /\ 0 <= n < buffer_size info /\ D' ++ take (Z.to_nat n) buf' = B.
Proof.
  intros Hr HB. induction fuel as [|fuel IH]; intros chunks D p buf w c Hf Hne HI Hbuf Hp Hl Hpos HBe; [lia|].
  assert (HlB : length B = (length D + (length p + length (concat chunks)))%nat) by (rewrite HBe, !length_app; done).
  rewrite body_turn by lia. rewrite space_left by lia. destruct chunks as [|bs chunks].
  - erewrite bind_Done by (apply read_closed; [done|lia]). cbv zeta. cbn [concat length] in *. rewrite !Z.add_0_r, !u32_small by lia.
    rewrite (proj2 (Z.eqb_neq _ _)) by (unfold size in *; lia).
    exists (Z.of_nat (length p)), w, buf, D. split; [cbn [Z.ltb Z.compare]; unfold ret; do 3 f_equal; lia|].
    split; [done|]. split; [done|]. split; [unfold size in *; lia|]. by rewrite Nat2Z.id, Hp, HBe, app_nil_r.
  - apply Forall_cons in Hne as [Hbs Hne].
    destruct (body_read chunks bs p buf w c) as (got & chunks' & buf' & E & Hgot & Hcat & Hf' & Hne' & Hb' & Ht'); try done.
    cbn [concat] in *. rewrite Hcat in HBe, HlB. rewrite length_app in HlB, Ht'.
    run E. cbv zeta. rewrite (proj2 (Z.ltb_lt 0 _)) by lia. rewrite !u32_small by lia.
    replace (Z.of_nat (length p) + Z.of_nat (length got)) with (Z.of_nat (length (p ++ got))) by (rewrite length_app; lia).
    case_if; zbool.
    + assert (Hfull : p ++ got = buf') by (rewrite <-Ht'; apply take_ge; rewrite <-length_app; unfold size in *; lia).
      assert (Hlen : length buf' = (length p + length got)%nat) by (rewrite <-Hfull; apply length_app).
      rewrite Heqb. destruct (rcv_full _ _ _ _ Hr D buf' w HI) as (r & w' & E1 & HI').
      { unfold size in Hb'. lia. }
      { exists (concat chunks'). by rewrite HBe, <-Hfull, <-!app_assoc. }
      erewrite bind_Done by (eapply call_back_Done; [done|rewrite u16_size; exact E1]).
      erewrite bind_Done by (apply (store_buffer_Done _ buf' 0); [done|rewrite length_replicate; fold size; lia]).
      destruct (IH chunks' (D ++ buf') [] (stored_at buf' 0 (replicate size 0)) w' c) as (n & w2 & buf2 & D2 & E2 & R); try done.
      * lia.
      * rewrite length_stored_at; [done|]. rewrite length_replicate. lia.
      * cbn [length]. lia.
      * rewrite length_app. lia.
      * by rewrite HBe, <-Hfull, <-!app_assoc.
      * exists n, w2, buf2, D2. split; [|exact R]. rewrite <-E2. cbn [length]. rewrite length_app.
        replace (Z.of_nat (length D + length p) + Z.of_nat (length got)) with (Z.of_nat (length D + length buf' + 0)) by lia. done.
    + replace (Z.of_nat (length D + length p) + Z.of_nat (length got)) with (Z.of_nat (length D + length (p ++ got)))
        by (rewrite length_app; lia).
      assert (length p + length got < size)%nat by (rewrite length_app in Heqb; unfold size in *; lia).
      apply IH; rewrite ?length_app; try done; try lia. by rewrite HBe, <-!app_assoc.
Qed.

(** ** The first turn *)

(** A head that fits the buffer with the four bytes behind it. *)
Record head_arrives (s : status_line) (fs : list field) : Prop := {
  ha_status : status_ok s;
  ha_fields : Forall field_ok fs;
  ha_fits : (length (head_bytes s fs) + 4 <= size)%nat;
}.

Lemma parse_first_chunk_Done s fs mem c :
  status_ok s -> Forall field_ok fs -> (4 <= length mem)%nat -> Z.of_nat (length (head_bytes s fs)) + 4 < 65536 -> heap_ok (outer c) ->
  parse_first_chunk (head_bytes s fs ++ mem) (Z.of_nat (length (head_bytes s fs))) c =
    Done (tt, with_reponse c (answered s fs (http_reponse c))).
Proof.
  intros Hs Hfs Hm Hl Hh. unfold parse_first_chunk. rewrite u32_small by lia.
  destruct (heap_malloc_free (outer c) Hh) as (w' & E1 & E2). erewrite bind_Done by by apply on_outer_Done. cbn [negb].
  rewrite (proj2 (Z.ltb_ge _ _)) by (rewrite length_app; lia).
  replace (Z.to_nat _) with (length (head_bytes s fs) + 4)%nat by lia. rewrite take_app_add, <-app_assoc.
  erewrite bind_Done by (apply parse_head; [done|done|rewrite length_take; lia]).
  erewrite on_outer_Done by exact E2. done.
Qed.

Lemma move_down_Done c buf (src : nat) (p : list Z) :
  buffer c = Some buf -> (src + length p <= length buf)%nat -> take (length p) (drop src buf) = p ->
  move_down (Z.of_nat src) (Z.of_nat (length p)) c = Done (tt, with_buffer c (Some (stored_at buf 0 p))).
Proof.
  intros Hb Hl Hp. unfold move_down. run (get_buffer_Done c buf Hb). rewrite (proj2 (Z.ltb_ge _ _)) by lia.
  unfold sub_bytes. rewrite !Nat2Z.id, Hp. apply (store_buffer_Done c buf 0 p Hb). lia.
Qed.

Lemma first_turn s fs b0 rs fuel buf c :
  head_arrives s fs -> buffer c = Some buf -> length buf = size -> reads c = Got (head_bytes s fs ++ b0) :: rs ->
  heap_ok (outer c) ->
  let head := head_bytes s fs in
  let p := take (size - length head) b0 in
  let rs' := if (length (head ++ b0) <=? size)%nat then rs else Got (drop (size - length head) b0) :: rs in
  exists buf', length buf' = size /\ take (length p) buf' = p /\
    read_loop (S fuel) info 0 0 0 c =
      (if negb (parsed (code s) =? HTTP_OK) then ret Err_label
       else read_loop fuel info (Z.of_nat (length p)) (Z.of_nat (length p)) (Z.of_nat (length p)))
        (moved (with_reponse c (answered s fs (http_reponse c))) (outer c) buf' rs').
Proof.
  intros [Hs Hfs Hfit] Hbuf Hlen Hrd Hheap head p rs'. fold head in Hfit.
  assert (Hp : (length p <= size - length head)%nat) by (unfold p; rewrite length_take; lia).
  assert (Hh : (4 <= length head)%nat) by (unfold head, head_bytes; rewrite !length_app; cbn [crlf length]; lia).
  assert (Hgot : take size (head ++ b0) = head ++ p) by (rewrite take_app, take_ge by lia; done).
  set (buf1 := stored_at buf 0 (head ++ p)).
  assert (Hl1 : length buf1 = size) by (unfold buf1; rewrite length_stored_at; [done|]; rewrite length_app; lia).
  assert (Hb1 : buf1 = head ++ p ++ drop (length (head ++ p)) buf) by (unfold buf1, stored_at; cbn; by rewrite <-app_assoc).
  exists (stored_at buf1 0 p). split; [rewrite length_stored_at; lia|].
  split; [pose proof (take_stored_at buf1 0 p) as Ht; cbn in Ht; apply Ht; lia|].
  cbn [read_loop]. pose proof (space_left 0 ltac:(lia)) as Hfree. change (Z.of_nat 0) with 0 in Hfree. rewrite Hfree, Nat.sub_0_r.
  pose proof (read_Done c buf 0 size _ _ Hbuf Hrd ltac:(lia)) as E. change (Z.of_nat 0) with 0 in E. cbv zeta in E.
  fold head in E. rewrite Hgot in E. fold buf1 in E. run E. cbv zeta. cbn [Z.eqb].
  erewrite bind_Done by by apply get_buffer_Done.
  rewrite Hb1 at 1. unfold head at 1. rewrite (strstr_head s fs _ Hs Hfs). fold head. erewrite bind_Done by reflexivity.
  cbn beta iota. replace (Z.of_nat (length head) - 4 + 4) with (Z.of_nat (length head)) by lia.
  erewrite bind_Done; cycle 1.
  { rewrite Hb1 at 1. apply parse_first_chunk_Done; [done|done| |fold head; unfold size in *; lia|done].
    pose proof (f_equal length Hb1) as H1. rewrite length_app in H1. lia. }
  replace (u32 (0 + _ - _)) with (Z.of_nat (length p)); cycle 1.
  { rewrite length_app, u32_small; unfold size in *; lia. }
  erewrite bind_Done; cycle 1.
  { apply (move_down_Done _ buf1); [done|lia|]. rewrite Hb1, drop_app_length. by rewrite take_app_length. }
  erewrite bind_Done by reflexivity. cbn [with_buffer with_reads with_reponse http_reponse answered response_code].
  replace (drop size (head ++ b0)) with (drop (size - length head) b0) by (rewrite drop_app, (drop_ge head) by lia; done).
  fold rs'. rewrite (proj2 (Z.ltb_lt 0 _)) by (rewrite length_app; lia). unfold moved.
  destruct c; cbn. by case_if.
Qed.

(** ** Downloads *)

(** The connection of the next download. *)
Definition next_connection (cs : list connection) : connection := match cs with conn :: _ => conn | [] => no_connection end.

Definition good_connection (conn : connection) : Prop :=
  c_getaddrinfo conn = (0, true) /\ 0 <= c_socket conn /\ c_connect conn = 0 /\ 0 <= c_write conn.

Definition request_of : list Z := req (path info) (server info).

(** [c] after a download that has read the connection up to [rs]. *)
Definition downloaded c (r : HTTP_response) (w : W) (buf : list Z) (rs : list read_result) : client W := {|
  outer := w;
  http_reponse := r;
  request := request_of ++ 0 :: drop (S (length request_of)) (request c);
  buffer := Some buf;
  reads := rs;
  conns := tail (conns c);
  sent := sent c ++ [(server info, port info, request_of)];
  addrinfos := addrinfos c;
  sockets := sockets c;
|}.

(** Behind the loop. *)
Definition end_download (r : loop_end) : M (client W) Z :=
  do! match r with
      | Err_label => ret tt
      | Loop_done full tot_http_pdu_rd =>
        let! _ := call_back (final_cb info) full in
        let! c := get in
        if negb (tot_http_pdu_rd =? length_ (http_reponse c)) then set_response_code HTTP_DOWLOAD_SIZE_NOT_MATCH
        else ret tt
      end then
  do! close then
  let! c := get in
  ret (response_code (http_reponse c)).

Lemma end_download_Done c n tot buf x w :
  buffer c = Some buf -> final_cb info buf (u16 n) (outer c) = Done (x, w) ->
  let r := http_reponse c in
  let code' := if tot =? length_ r then response_code r else HTTP_DOWLOAD_SIZE_NOT_MATCH in
  end_download (Loop_done n tot) c =
    Done (code', add_sockets (-1) (with_reponse (with_outer c w) {| response_code := code'; length_ := length_ r |})).
Proof.
  intros Hb E r code'. unfold end_download. rewrite !bind_assoc. erewrite bind_Done by by eapply call_back_Done.
  rewrite bind_assoc. erewrite bind_Done by reflexivity. cbn [with_outer http_reponse]. fold r. unfold code'.
  destruct (tot =? length_ r); cbn [negb]; [|reflexivity]. destruct c as [? []]. reflexivity.
Qed.

(** Connected, with the request sent. *)
Definition requested c (conn : connection) : client W := add_sockets 1 {|
  outer := outer c;
  http_reponse := http_reponse c;
  request := request_of ++ 0 :: drop (S (length request_of)) (request c);
  buffer := buffer c;
  reads := c_reads conn;
  conns := tail (conns c);
  sent := sent c ++ [(server info, port info, request_of)];
  addrinfos := addrinfos c;
  sockets := sockets c;
|}.

(** Up to the loop. *)
Lemma dowload_connected conn cs c :
  conns c = conn :: cs -> good_connection conn -> Z.of_nat (length request_of) < sizeof_request ->
  HttpClient_dowload info c =
    (let! r := read_loop (read_fuel (c_reads conn)) info 0 0 0 in end_download r) (requested c conn).
Proof.
  intros Hc (H1 & H2 & H3 & H4) Hreq. unfold HttpClient_dowload. erewrite bind_Done by reflexivity.
  rewrite Hc. erewrite bind_Done by reflexivity. rewrite H1. erewrite bind_Done by reflexivity. cbn [Z.eqb negb orb].
  rewrite (proj2 (Z.ltb_ge _ _)) by done. erewrite bind_Done by reflexivity. rewrite H3. cbn [Z.eqb negb].
  erewrite bind_Done by reflexivity. erewrite bind_Done; cycle 1.
  { unfold send_request. fold request_of. unfold strlen. rewrite (proj2 (Z.ltb_ge _ _)) by lia.
    do 2 (erewrite bind_Done by reflexivity). rewrite (proj2 (Z.leb_le _ _)) by done. reflexivity. }
  cbn [negb]. unfold requested. generalize request_of. intros q. fold end_download. f_equal.
  unfold add_sockets, with_sent. cbn. f_equal. lia.
Qed.

(** A response whose head arrives in one read with the start of the body. *)
Record response_to (conn : connection) (s : status_line) (fs : list field) (B : list Z) : Prop := {
  rt_good : good_connection conn;
  rt_request : Z.of_nat (length request_of) < sizeof_request;
  rt_bound : Z.of_nat (length B) < 2 ^ 32;
  rt_reads : exists b0 chunks, head_arrives s fs /\ b0 <> [] /\ Forall (fun bs => bs <> []) chunks /\
    c_reads conn = chunked ((head_bytes s fs ++ b0) :: chunks) /\ B = b0 ++ concat chunks;
}.

(** The code a download of [B] returns. *)
Definition length_checked (r : HTTP_response) (B : list Z) : Z :=
  if Z.of_nat (length B) =? length_ r then response_code r else HTTP_DOWLOAD_SIZE_NOT_MATCH.

Lemma dowload_delivers conn cs s fs B I Q buf c :
  conns c = conn :: cs -> response_to conn s fs B -> parsed (code s) = HTTP_OK -> receives info B I Q ->
  buffer c = Some buf -> length buf = size -> heap_ok (outer c) -> I [] (outer c) ->
  let r := answered s fs (http_reponse c) in
  let code' := length_checked r B in
  exists x w' buf', HttpClient_dowload info c =
      Done (code', downloaded c {| response_code := code'; length_ := length_ r |} w' buf' []) /\
    length buf' = size /\ Q x w'.
Proof.
  intros Hc [Hgood Hreq HB (b0 & chunks & Hfc & Hb0 & Hne & Hrd & HBe)] Hcode Hrcv Hbuf Hlen Hheap HI r code'.
  set (c0 := requested c conn).
  set (head := head_bytes s fs) in *. set (p := take (size - length head) b0).
  destruct (first_turn s fs b0 (chunked chunks) (arriving (c_reads conn)) buf c0 Hfc Hbuf Hlen Hrd Hheap) as (buf1 & Hl1 & Ht1 & E1).
  fold head p in Ht1, E1. rewrite Hcode in E1. cbn [Z.eqb Pos.eqb negb HTTP_OK] in E1.
  set (chunks' := if (length (head ++ b0) <=? size)%nat then chunks else drop (size - length head) b0 :: chunks).
  pose proof (ha_fits _ _ Hfc) as Hfit. fold head in Hfit.
  assert (Hp : (0 < length p <= size - length head)%nat).
  { unfold p. rewrite length_take. destruct b0; [done|]. cbn [length]. lia. }
  assert (Hh : (4 <= length head)%nat) by (unfold head, head_bytes; rewrite !length_app; cbn [crlf length]; lia).
  destruct (body_loop B I Q Hrcv HB (arriving (c_reads conn)) chunks' [] p buf1 (outer c)
    (with_reponse c0 r)) as (n & w' & buf2 & D' & E2 & HI' & Hl2 & Hn & HD'); try done.
  - rewrite Hrd, arriving_cons, length_app. unfold chunks'. rewrite length_app. case_if; [lia|]. rewrite arriving_cons, length_drop. lia.
  - unfold chunks'. rewrite length_app. case_if; [done|]. constructor; [|done]. apply Nat.leb_gt in Heqb.
    intros H0. apply (f_equal length) in H0. rewrite length_drop in H0. cbn in H0. lia.
  - lia.
  - cbn [length]. lia.
  - unfold chunks'. rewrite length_app. cbn [app]. case_if; [apply Nat.leb_le in Heqb; unfold p; by rewrite take_ge by lia|].
    cbn [concat]. unfold p. by rewrite app_assoc, take_drop.
  - destruct (rcv_final _ _ _ _ Hrcv D' buf2 n w' HI' ltac:(unfold size in *; lia) Hn HD') as (x & w2 & E3 & HQ).
    exists x, w2, buf2. split; [|done]. rewrite (dowload_connected conn cs) by done. fold c0.
    replace (if (length (head ++ b0) <=? size)%nat then chunked chunks else _) with (chunked chunks') in E1
      by (unfold chunks'; by case_if).
    unfold read_fuel. run (eq_trans E1 E2). erewrite end_download_Done; [|reflexivity|rewrite u16_small by lia; exact E3].
    unfold code', length_checked, downloaded, add_sockets, requested. cbn [http_reponse with_reponse with_outer moved].
    do 2 f_equal. unfold c0, requested, add_sockets. generalize request_of. intros q. cbn. f_equal. lia.
Qed.

(** A response with another code: no callback is called. *)
Lemma dowload_other_code conn cs s fs b0 rs buf c :
  conns c = conn :: cs -> good_connection conn -> Z.of_nat (length request_of) < sizeof_request ->
  head_arrives s fs -> c_reads conn = Got (head_bytes s fs ++ b0) :: rs -> parsed (code s) <> HTTP_OK ->
  buffer c = Some buf -> length buf = size -> heap_ok (outer c) ->
  exists buf' rs', HttpClient_dowload info c =
    Done (parsed (code s), downloaded c (answered s fs (http_reponse c)) (outer c) buf' rs') /\ length buf' = size.
Proof.
  intros Hc Hgood Hreq Hfc Hrd Hcode Hbuf Hlen Hheap.
  destruct (first_turn s fs b0 rs (arriving (c_reads conn)) buf (requested c conn) Hfc Hbuf Hlen Hrd Hheap) as (buf1 & Hl1 & _ & E1).
  rewrite (proj2 (Z.eqb_neq _ _) Hcode) in E1. cbn [negb] in E1. do 2 eexists. split; [|exact Hl1].
  rewrite (dowload_connected conn cs) by done. unfold read_fuel, bind at 1. rewrite E1. cbv [ret].
  unfold end_download. erewrite bind_Done by reflexivity. erewrite bind_Done by reflexivity. erewrite bind_Done by reflexivity.
  unfold ret, downloaded, requested. do 2 f_equal. generalize request_of. intros q. unfold moved, add_sockets. cbn. f_equal. lia.
Qed.

(** A connection that fails before a byte is read. *)
Lemma dowload_fails c :
  let conn := next_connection (conns c) in
  ~ good_connection conn -> Z.of_nat (length request_of) < sizeof_request ->
  exists r c', HttpClient_dowload info c = Done (r, c') /\ outer c' = outer c /\ buffer c' = buffer c /\ conns c' = tail (conns c).
Proof.
  intros conn Hbad Hreq. unfold HttpClient_dowload. do 2 (erewrite bind_Done by reflexivity). fold (next_connection (conns c)). fold conn.
  unfold good_connection in Hbad. destruct (c_getaddrinfo conn) as [err res]. destruct (negb (err =? 0) || negb res) eqn:Herr.
  { destruct res; do 2 (erewrite bind_Done by reflexivity); do 2 eexists; (split; [reflexivity|done]). }
  apply orb_false_iff in Herr as [->%negb_false_iff%Z.eqb_eq Hres]. destruct res; [|done]. erewrite bind_Done by reflexivity.
  case_if; [erewrite bind_Done by reflexivity; do 2 eexists; (split; [reflexivity|done])|]. erewrite bind_Done by reflexivity.
  case_if; [do 2 (erewrite bind_Done by reflexivity); do 2 eexists; (split; [reflexivity|done])|]. erewrite bind_Done by reflexivity.
  zbool. assert (Hw : (0 <=? c_write conn) = false) by (apply Z.leb_gt; destruct (decide (0 <= c_write conn)); [exfalso; apply Hbad; split_and!; done || lia|lia]).
  erewrite bind_Done; cycle 1.
  { unfold send_request. fold request_of. unfold strlen. rewrite (proj2 (Z.ltb_ge _ _)) by lia.
    do 2 (erewrite bind_Done by reflexivity). rewrite Hw. reflexivity. }
  cbn [negb]. erewrite bind_Done by reflexivity. do 2 eexists. split; [reflexivity|done].
Qed.

(** What a server may do for the download to stay in the C language: the
    connection fails, or the whole head comes with the first read, and either
    has a code that is not [HTTP_OK] or the start of a body of the kind
    [fits] behind it. *)
Record tame (conn : connection) (fits : list Z -> Prop) : Prop := {
  tm_request : Z.of_nat (length request_of) < sizeof_request;
  tm_reads : good_connection conn ->
    (exists s fs B, response_to conn s fs B /\ parsed (code s) = HTTP_OK /\ fits B) \/
    exists s fs b0 rs, head_arrives s fs /\ c_reads conn = Got (head_bytes s fs ++ b0) :: rs /\ parsed (code s) <> HTTP_OK;
}.

Lemma dowload_tame fits I (P : W -> Prop) buf c :
  tame (next_connection (conns c)) fits -> (forall B, fits B -> receives info B I (fun _ => P)) -> (forall w, I [] w -> P w) ->
  buffer c = Some buf -> length buf = size -> heap_ok (outer c) -> I [] (outer c) ->
  exists r c', HttpClient_dowload info c = Done (r, c') /\ P (outer c') /\ conns c' = tail (conns c) /\
    exists buf', buffer c' = Some buf' /\ length buf' = size.
Proof.
  intros [Hreq Htame] Hrcv HIP Hbuf Hl Hh HI. set (conn := next_connection (conns c)) in *.
  destruct (decide (c_getaddrinfo conn = (0, true) /\ 0 <= c_socket conn /\ c_connect conn = 0 /\ 0 <= c_write conn)) as [Hg|Hg]; cycle 1.
  { destruct (dowload_fails c Hg Hreq) as (r & c' & E & H1 & H2 & H3). exists r, c'. rewrite H1, H2. split_and!; [done|auto|done|eauto]. }
  assert (Hc : conns c = conn :: tail (conns c)) by (unfold conn in *; destruct (conns c); [by destruct Hg|done]).
  destruct (Htame Hg) as [(s & fs & B & Hr & Hcode & HB)|(s & fs & b0 & rs & Ha & Hrd & Hcode)].
  - destruct (dowload_delivers conn _ s fs B I _ buf c Hc Hr Hcode (Hrcv B HB) Hbuf Hl Hh HI) as (x & w' & buf' & E & Hl' & HP).
    do 2 eexists. split; [exact E|]. split; [exact HP|]. split; [done|]. by exists buf'.
  - destruct (dowload_other_code conn _ s fs b0 rs buf c Hc Hg Hreq Ha Hrd Hcode Hbuf Hl Hh) as (buf' & rs' & E & Hl').
    do 2 eexists. split; [exact E|]. split; [by apply HIP|]. split; [done|]. by exists buf'.
Qed.

(** ** A head that arrives alone *)

(** While no bytes are counted every chunk is searched for the end of a head;
    without one they pile up. *)
Lemma waiting_turn fuel k c r c' buf :
  read (Z.of_nat k) (s32 (u32 (buffer_size info - Z.of_nat k))) c = Done (Z.of_nat r, c') -> buffer c' = Some buf ->
  strstr (crlf ++ crlf) buf 0 = Some None -> (k + r <= size)%nat ->
  read_loop (S fuel) info (Z.of_nat k) (Z.of_nat k) 0 c =
    (if 0 <? Z.of_nat r then read_loop fuel info (Z.of_nat (k + r)) (Z.of_nat (k + r)) 0 else ret (Loop_done (Z.of_nat (k + r)) 0)) c'.
Proof.
  intros E Hb Hs Hk. cbn [read_loop]. run E. cbv zeta. cbn [Z.eqb]. erewrite bind_Done by by apply get_buffer_Done.
  rewrite Hs. erewrite bind_Done by reflexivity. cbn beta iota. rewrite u32_small by (unfold size in *; lia).
  replace (Z.of_nat k + Z.of_nat r) with (Z.of_nat (k + r)) by lia. done.
Qed.

Lemma waiting_loop pre fuel : forall chunks buf k w c,
  strstr (crlf ++ crlf) pre 0 = Some None -> (arriving (chunked chunks) < fuel)%nat -> length buf = size ->
  take (length pre) buf = pre -> (length pre <= k <= size)%nat ->
  exists n buf' rs, read_loop fuel info (Z.of_nat k) (Z.of_nat k) 0 (moved c w buf (chunked chunks)) =
    Done (Loop_done n 0, moved c w buf' rs).
Proof.
  assert (Hstr : forall pre buf, strstr (crlf ++ crlf) pre 0 = Some None -> take (length pre) buf = pre ->
    strstr (crlf ++ crlf) buf 0 = Some None).
  { intros q buf Hq Ht. rewrite <-(take_drop (length q) buf), Ht. by apply strstr_mono. }
  induction fuel as [|fuel IH]; intros chunks buf k w c Hpre Hf Hl Ht Hk; [lia|]. destruct chunks as [|bs chunks].
  - erewrite (waiting_turn fuel k _ 0); [|rewrite space_left by lia; by apply read_closed; [|lia]|done|by eapply Hstr|lia].
    cbn [Z.of_nat Z.ltb Z.compare]. do 3 eexists. reflexivity.
  - set (got := take (size - k) bs).
    assert (Hgot : (length got <= size - k)%nat) by (unfold got; rewrite length_take; lia).
    set (buf' := stored_at buf k got).
    assert (Hb' : length buf' = size) by (unfold buf'; rewrite length_stored_at; lia).
    assert (Ht' : take (length pre) buf' = pre).
    { unfold buf', stored_at. rewrite take_app_le by (rewrite length_take; lia). rewrite take_take. by replace (length pre `min` k)%nat with (length pre) by lia. }
    pose proof (read_Done (moved c w buf (chunked (bs :: chunks))) buf k (size - k) bs (chunked chunks) eq_refl eq_refl ltac:(lia)) as E.
    cbv zeta in E. fold got in E. fold buf' in E. rewrite <-space_left in E by lia.
    erewrite (waiting_turn fuel k); [|exact E|done|by eapply Hstr|lia]. clear E. case_if; cycle 1.
    { do 3 eexists. reflexivity. }
    zbool. set (chunks' := if (length bs <=? size - k)%nat then chunks else drop (size - k) bs :: chunks).
    destruct (IH chunks' buf' (k + length got)%nat w c) as (n & buf2 & rs & E2); try done; [|lia|].
    + unfold chunks'. rewrite arriving_cons in Hf. case_if; [lia|]. rewrite arriving_cons, length_drop.
      unfold got in *. rewrite length_take in *. lia.
    + exists n, buf2, rs. rewrite <-E2. f_equal. unfold moved, chunks'. by case_if.
Qed.

(** From an empty buffer, the zero byte being in the first chunk. *)
Lemma waiting_start first chunks pre more buf w c fuel :
  first = pre ++ 0 :: more -> (length pre < size)%nat -> strstr (crlf ++ crlf) (pre ++ [0]) 0 = Some None -> length buf = size ->
  (arriving (chunked (first :: chunks)) < fuel)%nat ->
  exists n buf' rs, read_loop (S fuel) info 0 0 0 (moved c w buf (chunked (first :: chunks))) =
    Done (Loop_done n 0, moved c w buf' rs).
Proof.
  intros Hfirst Hpre Hstr Hl Hf. set (got := take size first).
  assert (Hgot : exists more', got = (pre ++ [0]) ++ more').
  { exists (take (size - S (length pre)) more). unfold got. rewrite Hfirst, take_app, take_ge by lia.
    replace (size - length pre)%nat with (S (size - S (length pre))) by lia. cbn [take]. by rewrite <-app_assoc. }
  destruct Hgot as [more' Hgot]. assert (Hgl : (S (length pre) <= length got <= size)%nat).
  { split; [rewrite Hgot, !length_app; cbn; lia|unfold got; rewrite length_take; lia]. }
  set (buf2 := stored_at buf 0 got).
  assert (Ht2 : take (length (pre ++ [0])) buf2 = pre ++ [0]).
  { unfold buf2, stored_at. rewrite take_0, app_nil_l, Hgot, <-(app_assoc (pre ++ [0])). by rewrite take_app_length. }
  pose proof (read_Done (moved c w buf (chunked (first :: chunks))) buf 0 size first (chunked chunks) eq_refl eq_refl ltac:(lia)) as E2.
  cbv zeta in E2. fold got buf2 in E2. rewrite <-(Nat.sub_0_r size), <-(space_left 0), Nat.sub_0_r in E2 by lia.
  assert (Hb2 : strstr (crlf ++ crlf) buf2 0 = Some None).
  { rewrite <-(take_drop (length (pre ++ [0])) buf2), Ht2. by apply strstr_mono. }
  pose proof (waiting_turn fuel 0 _ _ _ buf2 E2 eq_refl Hb2 ltac:(lia)) as E3.
  rewrite (proj2 (Z.ltb_lt 0 _)) in E3 by lia. cbn [Nat.add] in E3. change (Z.of_nat 0) with 0 in E3. rewrite E3.
  set (chunks' := if (length first <=? size)%nat then chunks else drop size first :: chunks).
  destruct (waiting_loop (pre ++ [0]) fuel chunks' buf2 (length got) w c Hstr) as (n & buf3 & rs & E4).
  - unfold chunks'. rewrite arriving_cons in Hf. case_if; [lia|]. rewrite arriving_cons, length_drop. lia.
  - unfold buf2. rewrite length_stored_at; [done|]. lia.
  - exact Ht2.
  - rewrite length_app. cbn. lia.
  - exists n, buf3, rs. rewrite <-E4. f_equal. unfold moved, chunks'. by case_if.
Qed.

End Download.
End HttpDownload.

(** * The HTTP client: any network

    Whatever the calls on a connection return, a download ends if the
    callbacks do, and keeps what the callbacks keep. *)

Module HttpEnds.
Import CLib HttpClient.

(** ** The library functions *)

Lemma skip_spaces_le s : (length (skip_spaces s) <= length s)%nat.
Proof. induction s as [|c s IH]; cbn; [lia|]. case_if; cbn; lia. Qed.

Lemma digits_le base s : forall acc, (length (snd (digits base acc s)) <= length s)%nat.
Proof. induction s as [|c s IH]; intros acc; cbn; [lia|]. case_match; cbn; [|lia]. specialize (IH (acc * base + z)). lia. Qed.

(** A number takes at least one character. *)
Lemma strtol_shorter c s : isdigit c = true -> (length (snd (strtol 10 (c :: s))) <= length s)%nat.
Proof.
  intros Hc. assert (Hd : is_digit c) by (unfold isdigit, is_digit in *; zbool; lia). unfold strtol.
  assert (Hsp : isspace c = false) by (unfold isspace, is_digit in *; repeat case_if; zbool; lia).
  cbn [skip_spaces]. rewrite Hsp. cbn [sign]. rewrite !(proj2 (Z.eqb_neq c _)) by (unfold is_digit in Hd; lia).
  cbn [Z.eqb Pos.eqb]. rewrite digit_val_digit by done. cbn [digits]. rewrite digit_val_digit by done.
  pose proof (digits_le 10 s (0 * 10 + (c - 48))). by destruct (digits 10 _ s).
Qed.

Lemma span_lt p mem n : span p mem = Some n -> (n < length mem)%nat.
Proof.
  revert n. induction mem as [|b mem IH]; intros n; cbn; [done|]. case_if; [|intros [= <-]; lia].
  destruct (span p mem) as [k|]; [|done]. intros [= <-]. specialize (IH k eq_refl). lia.
Qed.

(** The saved pointer is behind the start, in a block of the same size. *)
Lemma strtok_save mem delim i t save mem' :
  strtok_r mem delim (Some i) = Some (t, save, mem') ->
  length mem' = length mem /\ forall k, save = Some k -> (i < k <= length mem)%nat.
Proof.
  unfold strtok_r. destruct (span _ (drop i mem)) as [k|]; [|done]. case_bool_decide; [by intros [= <- <- <-]|].
  destruct (span _ (drop (i + k) mem)) as [n|] eqn:E; [|done]. apply span_lt in E. rewrite length_drop in E.
  case_bool_decide; intros [= <- <- <-]; [done|]. rewrite length_insert. split; [done|]. intros ? [= <-]. lia.
Qed.

Section Ends.
Context {W : Type} `{!Heap W}.
Implicit Types c : client W.

(** [P] is kept by the allocator. *)
Context (P : W -> Prop).
Hypothesis Hmalloc : ends P malloc (fun _ => P).
Hypothesis Hfree : ends P free (fun _ => P).

(** [P] holds of the callbacks' state, and [k] bounds what will arrive. *)
Definition within (k : nat) c : Prop := P (outer c) /\ (arriving (reads c) <= k)%nat.

Lemma on_outer_ends {A} (m : M W A) Q k :
  ends P m Q -> ends (within k) (on_outer m) (fun a c => Q a (outer c) /\ (arriving (reads c) <= k)%nat).
Proof. intros H c [Hc Hk]. specialize (H (outer c) Hc). unfold on_outer. destruct (m (outer c)) as [[a w]| |]; done. Qed.

Lemma within_modify g k : (forall c, outer (g c) = outer c /\ reads (g c) = reads c) -> ends (within k) (modify g) (fun _ => within k).
Proof. intros H c [Hc Hk]. unfold modify, within. destruct (H c) as [H1 H2]. by rewrite H1, H2. Qed.

Lemma within_deref {A} (o : option A) k : ends (within k) (deref o) (fun a c => o = Some a /\ within k c).
Proof. destruct o; [by apply ends_ret|done]. Qed.

(** A fact that does not depend on the state. *)
Lemma ends_and {S A} (X : Prop) (R : S -> Prop) (m : M S A) Q : (X -> ends R m Q) -> ends (fun s => X /\ R s) m Q.
Proof. intros H s [HX HR]. by apply H. Qed.

Lemma number_loop_ends k store : (forall v, ends (within k) (store v) (fun _ => within k)) ->
  forall fuel s, (length s < fuel)%nat -> ends (within k) (number_loop fuel s store) (fun _ => within k).
Proof.
  intros Hst. induction fuel as [|fuel IH]; intros s Hf; [lia|]. cbn [number_loop]. destruct s as [|c s]; [by apply ends_ret|].
  cbn in Hf. case_if; [|apply IH; lia]. pose proof (strtol_shorter c s Heqb) as Hs. destruct (strtol 10 (c :: s)) as [v rest].
  cbn in Hs. eapply ends_bind; [apply Hst|]. intros ?. apply IH. lia.
Qed.

Lemma set_length_ends k v : ends (within k) (set_length v) (fun _ => within k).
Proof. by apply within_modify. Qed.
Lemma set_response_code_ends k v : ends (within k) (set_response_code v) (fun _ => within k).
Proof. by apply within_modify. Qed.

Lemma status_ends k header t : ends (within k) (parse_http_header_HTTP_STATUS header t) (fun _ => within k).
Proof.
  eapply ends_bind; [apply within_deref|]. intros s. apply ends_and. intros _.
  apply number_loop_ends; [apply set_response_code_ends|lia].
Qed.

Lemma handle_token_ends k header st t : ends (within k) (handle_token HTTP_HEADER_TOKEN header st t) (fun _ => within k).
Proof.
  cbn [HTTP_HEADER_TOKEN handle_token]. eapply ends_bind; [apply within_deref|]. intros s. apply ends_and. intros _.
  apply ends_bind with (fun _ => within k); [|intros ?; by apply ends_ret]. case_if; [|by apply ends_ret].
  eapply ends_bind; [apply within_deref|]. intros s'. apply ends_and. intros _.
  apply number_loop_ends; [apply set_length_ends|lia].
Qed.

Lemma header_loop_ends k fuel : forall j header i,
  (length header <= i + fuel)%nat -> ends (within k) (header_loop (S fuel) j header (Some i)) (fun _ => within k).
Proof.
  assert (Hnone : forall fuel j header, ends (within k) (header_loop (S fuel) j header None) (fun _ => within k)) by (intros; by apply ends_ret).
  induction fuel as [|fuel IH]; intros j header i Hf.
  { intros c Hc. assert (E : strtok_r header crlf (Some i) = None) by (unfold strtok_r; by rewrite drop_ge by lia).
    cbn [header_loop]. unfold bind, deref. by rewrite E. }
  remember (S fuel) as fuel'. cbn [header_loop]. eapply ends_bind; [apply within_deref|]. intros [[token save] header1]. apply ends_and. intros E1.
  destruct token as [token|]; [|by apply ends_ret].
  eapply ends_bind; [apply within_deref|]. intros [[subtoken save2] header2]. apply ends_and. intros E2.
  destruct subtoken as [subtoken|]; [|by apply ends_ret].
  apply strtok_save in E1 as [L1 S1], E2 as [L2 _].
  assert (Hnext : forall j, ends (within k) (header_loop fuel' j header2 save) (fun _ => within k)).
  { intros j'. subst fuel'. destruct save as [i'|]; [|apply Hnone]. specialize (S1 i' eq_refl). apply IH. lia. }
  case_if; (apply ends_bind with (fun _ => within k); [|intros ?; apply Hnext]); [apply status_ends|apply handle_token_ends].
Qed.

Lemma parse_http_header_ends k header : ends (within k) (parse_http_header header) (fun _ => within k).
Proof.
  apply header_loop_ends. lia.
Qed.

(** ** The download *)

Lemma get_buffer_ends k : ends (within k) get_buffer (fun _ => within k).
Proof. intros c Hc. unfold get_buffer, get, bind, deref. by destruct (buffer c). Qed.

Lemma store_ends k off bs : ends (within k) (store off bs) (fun _ => within k).
Proof.
  eapply ends_bind; [apply get_buffer_ends|]. intros buf. case_if; [by apply ends_ret|]. case_if; [done|].
  by apply within_modify.
Qed.

(** A read that returns bytes takes them from what will arrive. *)
Lemma read_ends k off n :
  ends (within k) (read off n) (fun r c => within k c /\ (0 < r -> exists k', k = S k' /\ within k' c)).
Proof.
  intros c [Hc Hk]. unfold read. case_if; [done|]. erewrite bind_Done by reflexivity.
  destruct (reads c) as [|[bs|] rs] eqn:E; [by split; [split; rewrite ?E|]| |].
  - zbool. set (got := take (Z.to_nat n) bs). set (rs' := if Z.of_nat (length bs) <=? n then rs else _).
    cbn in Hk. assert (Hr : (arriving rs' <= k)%nat /\ (0 < Z.of_nat (length got) -> exists k', k = S k' /\ (arriving rs' <= k')%nat)).
    { unfold got, rs'. rewrite length_take. case_if; zbool; cbn; rewrite ?length_drop.
      - split; [lia|]. intros _. exists (k - 1)%nat. lia.
      - split; [lia|]. intros ?. exists (k - 1)%nat. lia. }
    destruct Hr as [Hr1 Hr2]. erewrite bind_Done by reflexivity.
    pose proof (store_ends (arriving rs') off got (with_reads c rs') (conj Hc (le_n _))) as H. unfold bind.
    destruct (store off got _) as [[[] c']| |]; [|done..]. destruct H as [H1 H2]. cbn. split; [split; [done|lia]|].
    intros Hp. destruct (Hr2 Hp) as (k' & -> & ?). exists k'. split; [done|]. split; [done|lia].
  - cbn in Hk. cbn. split; [|lia]. split; [done|cbn; lia].
Qed.

Lemma parse_first_chunk_ends k buf pdu : ends (within k) (parse_first_chunk buf pdu) (fun _ => within k).
Proof.
  eapply ends_bind; [by apply on_outer_ends|]. intros ok. case_if; [done|]. case_if; [done|].
  eapply ends_bind; [apply parse_http_header_ends|]. intros ?. eapply ends_weaken; [by apply on_outer_ends|done|done].
Qed.

Lemma move_down_ends k src n : ends (within k) (move_down src n) (fun _ => within k).
Proof. eapply ends_bind; [apply get_buffer_ends|]. intros buf. case_if; [done|apply store_ends]. Qed.

Context (info : Http_client_info W) (P' : W -> Prop).
Hypothesis Hfull : forall buf, ends P (buffer_full_cb info buf (u16 (buffer_size info))) (fun _ => P).
Hypothesis Hfinal : forall buf n, 0 <= n < 65536 -> ends P (final_cb info buf n) (fun _ => P').
Hypothesis Hweak : forall w, P w -> P' w.

Lemma call_back_ends cb (Q : W -> Prop) k n :
  (forall buf, ends P (cb buf (u16 n)) (fun _ => Q)) -> ends (within k) (call_back cb n) (fun _ c => Q (outer c) /\ (arriving (reads c) <= k)%nat).
Proof. intros H. eapply ends_bind; [apply get_buffer_ends|]. intros buf. by apply on_outer_ends. Qed.

(** A turn behind the read; [next] goes on with the loop, or leaves it. *)
Lemma turn_ends k (next : Z -> Z -> Z -> M (client W) loop_end) (read_byte wrt_ptr full tot_http_pdu_rd : Z) :
  (forall a b d, ends (within k) (next a b d) (fun _ c => P (outer c))) ->
  ends (within k)
    (if tot_http_pdu_rd =? 0 then
       let! buf := get_buffer in
       let! found := deref (strstr (crlf ++ crlf) buf 0) in
       match found with
       | None => next wrt_ptr full tot_http_pdu_rd
       | Some pdu =>
         let pdu := pdu + 4 in
         do! parse_first_chunk buf pdu then
         let pdu_size := u32 (wrt_ptr - pdu) in
         do! move_down pdu pdu_size then
         let! c := get in
         if negb (response_code (http_reponse c) =? HTTP_OK) then ret Err_label
         else next pdu_size pdu_size pdu_size
       end
     else
       let tot_http_pdu_rd := u32 (tot_http_pdu_rd + read_byte) in
       if full =? buffer_size info then
         let! _ := call_back (buffer_full_cb info) full in
         do! store 0 (replicate (Z.to_nat (buffer_size info)) 0) then
         next 0 0 tot_http_pdu_rd
       else next wrt_ptr full tot_http_pdu_rd)
    (fun _ c => P (outer c)).
Proof.
  intros Hnext. case_if.
  - eapply ends_bind; [apply get_buffer_ends|]. intros buf. eapply ends_bind; [apply within_deref|]. intros found.
    apply ends_and. intros _. destruct found as [pdu|]; [|apply Hnext]. cbv zeta.
    eapply ends_bind; [apply parse_first_chunk_ends|]. intros ?. eapply ends_bind; [apply move_down_ends|]. intros ?.
    intros c Hc. unfold bind, get. case_if; [by destruct Hc|]. by apply Hnext.
  - cbv zeta. case_if; [|apply Hnext]. zbool. subst.
    eapply ends_bind; [apply (call_back_ends _ P); apply Hfull|]. intros ?. eapply ends_bind; [apply store_ends|]. intros ?. apply Hnext.
Qed.

Lemma read_loop_ends fuel : forall wrt full tot,
  ends (within fuel) (read_loop (S fuel) info wrt full tot) (fun _ c => P (outer c)).
Proof.
  assert (Hstop : forall k (a b d : Z), ends (within k) (ret (Loop_done b d)) (fun _ c => P (outer c))).
  { intros. apply ends_ret. by intros c []. }
  induction fuel as [|fuel IH]; intros wrt full tot; [|remember (S fuel) as fuel' eqn:Hfuel]; cbn [read_loop].
  all: eapply ends_bind; [apply read_ends|]; intros r; cbv zeta; destruct (0 <? r) eqn:E; zbool.
  - intros c [_ H]. destruct (H E) as (? & ? & _). done.
  - eapply ends_weaken; [apply (turn_ends 0 (fun _ b d => ret (Loop_done b d)) r (wrt + r)); auto|by intros c [H _]|done].
  - eapply ends_weaken; [apply (turn_ends fuel (read_loop fuel' info) r (wrt + r)); subst; exact IH| |done].
    intros c [_ H]. destruct (H E) as (k & -> & ?). by simplify_eq.
  - eapply ends_weaken; [apply (turn_ends fuel' (fun _ b d => ret (Loop_done b d)) r (wrt + r)); auto|by intros c [H _]|done].
Qed.

(** Every download ends, with [P'] if [P] held before. *)
Lemma dowload_ends : ends (fun c => P (outer c)) (HttpClient_dowload info) (fun _ c => P' (outer c)).
Proof.
  intros c0 Hc0. unfold HttpClient_dowload. do 2 (erewrite bind_Done by reflexivity).
  set (conn := match conns c0 with [] => no_connection | conn :: _ => conn end). set (k := arriving (c_reads conn)).
  set (c1 := with_reads _ _). assert (Hc1 : within k c1) by done. destruct (c_getaddrinfo conn) as [err res].
  clearbody conn c1. clear c0 Hc0. revert c1 Hc1. apply (ends_elim True (within k)).
  assert (Hret : forall x : Z, ends (within k) (ret x) (fun _ c => P' (outer c))).
  { intros x. apply ends_ret. intros c [Hc _]. by apply Hweak. }
  assert (Hmod : forall g : client W -> client W, (forall c, outer (g c) = outer c /\ reads (g c) = reads c) ->
    ends (within k) (modify g) (fun _ => within k)) by (intros; by apply within_modify).
  apply ends_bind with (fun _ => within k). { destruct res; [by apply Hmod|by apply ends_ret]. } intros ?.
  case_if. { apply ends_bind with (fun _ => within k); [|intros ?; apply Hret]. destruct res; [by apply Hmod|by apply ends_ret]. }
  case_if. { eapply ends_bind; [by apply Hmod|intros ?; apply Hret]. }
  eapply ends_bind; [by apply Hmod|]. intros ?.
  case_if. { do 2 (eapply ends_bind; [by apply Hmod|intros ?]). apply Hret. }
  eapply ends_bind; [by apply Hmod|]. intros ?.
  apply ends_bind with (fun _ => within k).
  { unfold send_request. case_if; [done|]. do 2 (eapply ends_bind; [by apply Hmod|intros ?]). by apply ends_ret. }
  intros ok. case_if. { eapply ends_bind; [by apply Hmod|intros ?; apply Hret]. }
  eapply ends_bind; [apply read_loop_ends|]. intros r.
  apply ends_bind with (fun _ c => P' (outer c)).
  - destruct r as [|full tot]; [apply ends_ret; intros c; apply Hweak|].
    apply ends_bind with (fun _ c => P' (outer c)).
    + intros c Hc. pose proof (call_back_ends (final_cb info) P' (arriving (reads c)) full) as H.
      specialize (H (fun buf => Hfinal buf (u16 full) (u16_range full)) c (conj Hc (le_n _))).
      destruct (call_back _ full c) as [[v c']| |]; [by destruct H|done..].
    + intros ?. intros c Hc. unfold bind, get. case_if; exact Hc.
  - intros ?. intros c Hc. exact Hc.
Qed.

End Ends.
End HttpEnds.
