(* ===== verification/HttpOta.v ===== *)
(** * Updates over HTTP: [extras/http_client_ota/http_client_ota.c]

    [ota_update] downloads a SHA-256 sum and an image, stores the image in the
    slot after the current one, checks both and makes the slot the current
    one.  It uses the HTTP client, the flash interface [SdkFlash] and the rboot
    API; SHA-256 is mbed TLS's, the class [Sha256]. *)

From stdpp Require Import strings.
From S2P Require Import Prelude CStrings Flash SdkFlash Rboot HttpClient.
Open Scope Z_scope.

(** What is used of [mbedtls/sha256.h]: [mbedtls_sha256_starts] has the second
    argument 0. *)
Class Sha256 := {
  mbedtls_sha256_context : Type;
  mbedtls_sha256_init : mbedtls_sha256_context;
  mbedtls_sha256_starts : mbedtls_sha256_context -> mbedtls_sha256_context;
  mbedtls_sha256_update : mbedtls_sha256_context -> list Z -> mbedtls_sha256_context;
  mbedtls_sha256_finish : mbedtls_sha256_context -> list Z;
  mbedtls_sha256_free : mbedtls_sha256_context -> mbedtls_sha256_context;
}.

(** A context that has been started and given [bs] gives their digest. *)
Class Sha256Laws `{Sha256} := {
  sha256 : list Z -> list Z;
  sha256_given : mbedtls_sha256_context -> list Z -> Prop;
  sha256_starts_ok c : sha256_given (mbedtls_sha256_starts c) [];
  sha256_update_ok c bs bs' : sha256_given c bs -> sha256_given (mbedtls_sha256_update c bs') (bs ++ bs');
  sha256_finish_ok c bs : sha256_given c bs -> mbedtls_sha256_finish c = sha256 bs;
  sha256_length bs : length (sha256 bs) = 32%nat;
  sha256_bytes bs : Forall byteP (sha256 bs);
}.

Module HttpOta.
Import Api CLib HttpClient.

(** [OTA_err], besides the results of the client. *)
Definition OTA_ONE_SLOT_ONLY : Z := 20.
Definition OTA_FAIL_SET_NEW_SLOT : Z := 21.
Definition OTA_IMAGE_VERIFY_FALLIED : Z := 22.
Definition OTA_UPDATE_DONE : Z := 23.

Definition MAX_IMAGE_SIZE : Z := 0x100000.
Definition SHA256_SIZE_BIN : Z := 32.
Definition SHA256_SIZE_STR : Z := SHA256_SIZE_BIN * 2.
Definition SHA256_CONV_STEP_SIZE : Z := 4.

Record ota_info := {
  o_server : list Z;
  o_port : list Z;
  binary_path : list Z;
  sha256_path : option (list Z);
}.

Definition has_sha (i : ota_info) : bool := bool_decide (is_Some (sha256_path i)).

(** [LWIP_PLATFORM_HTONS] *)
Definition htons (n : Z) : Z := u16 (Z.lor (Z.shiftl (Z.land n 0xff) 8) (Z.land (Z.shiftr n 8) 0xff)).

(** The loop of the conversion: [n] steps are left from [i] on.  [str] is the
    block of the text and [final_sha_bin] the bytes of the array of
    [uint16_t]. *)
Fixpoint convert_loop (n : nat) (i : Z) (str final_sha_bin : list Z) : option (list Z) :=
  match n with
  | O => Some final_sha_bin
  | S n =>
    let wrt_ptr := i * SHA256_CONV_STEP_SIZE in
    if (Z.of_nat (length str) <? wrt_ptr + SHA256_CONV_STEP_SIZE) || (Z.of_nat (length final_sha_bin) <? 2 * i + 2) then None
    else
      match c_string (sub_bytes str wrt_ptr SHA256_CONV_STEP_SIZE ++ [0]) with
      | None => None
      | Some tmp =>
        let val := u16 (fst (strtol 16 tmp)) in
        convert_loop n (i + 1) str (list_inserts (Z.to_nat (2 * i)) (le_bytes 2 (htons val)) final_sha_bin)
      end
  end.

Definition convert_SHA256_Str_TO_uint32 (str final_sha_bin : list Z) : option (list Z) :=
  convert_loop (Z.to_nat (SHA256_SIZE_STR / SHA256_CONV_STEP_SIZE)) 0 str final_sha_bin.

Section Ota.
Context {F : Type} `{!SdkFlash F} `{!RbootH} `{!Sha256}.

(** The static variables; pointers to blocks are [None] when null (or freed),
    [SHA256_wrt_ptr] is an offset from [SHA256_str].  [heap] counts the blocks
    allocated. *)
Record ota := {
  api : Api.world F;
  heap : Z;
  ota_inf : option ota_info;
  sha256_ctx : option mbedtls_sha256_context;
  flash_offset : Z;
  flash_limits : Z;
  SHA256_output : option (list Z);
  SHA256_dowload : option (list Z);
  SHA256_str : option (list Z);
  SHA256_wrt_ptr : Z;
}.

Definition with_api (w : ota) (a : Api.world F) : ota :=
  {| api := a; heap := heap w; ota_inf := ota_inf w; sha256_ctx := sha256_ctx w; flash_offset := flash_offset w;
     flash_limits := flash_limits w; SHA256_output := SHA256_output w; SHA256_dowload := SHA256_dowload w;
     SHA256_str := SHA256_str w; SHA256_wrt_ptr := SHA256_wrt_ptr w |}.
Definition with_heap (w : ota) (n : Z) : ota :=
  {| api := api w; heap := n; ota_inf := ota_inf w; sha256_ctx := sha256_ctx w; flash_offset := flash_offset w;
     flash_limits := flash_limits w; SHA256_output := SHA256_output w; SHA256_dowload := SHA256_dowload w;
     SHA256_str := SHA256_str w; SHA256_wrt_ptr := SHA256_wrt_ptr w |}.
Definition with_inf (w : ota) (i : ota_info) : ota :=
  {| api := api w; heap := heap w; ota_inf := Some i; sha256_ctx := sha256_ctx w; flash_offset := flash_offset w;
     flash_limits := flash_limits w; SHA256_output := SHA256_output w; SHA256_dowload := SHA256_dowload w;
     SHA256_str := SHA256_str w; SHA256_wrt_ptr := SHA256_wrt_ptr w |}.
Definition with_ctx (w : ota) (c : option mbedtls_sha256_context) : ota :=
  {| api := api w; heap := heap w; ota_inf := ota_inf w; sha256_ctx := c; flash_offset := flash_offset w;
     flash_limits := flash_limits w; SHA256_output := SHA256_output w; SHA256_dowload := SHA256_dowload w;
     SHA256_str := SHA256_str w; SHA256_wrt_ptr := SHA256_wrt_ptr w |}.
Definition with_flash_range (w : ota) (offset limits : Z) : ota :=
  {| api := api w; heap := heap w; ota_inf := ota_inf w; sha256_ctx := sha256_ctx w; flash_offset := offset;
     flash_limits := limits; SHA256_output := SHA256_output w; SHA256_dowload := SHA256_dowload w;
     SHA256_str := SHA256_str w; SHA256_wrt_ptr := SHA256_wrt_ptr w |}.
Definition with_sha (w : ota) (output dowload str : option (list Z)) (wrt_ptr : Z) : ota :=
  {| api := api w; heap := heap w; ota_inf := ota_inf w; sha256_ctx := sha256_ctx w; flash_offset := flash_offset w;
     flash_limits := flash_limits w; SHA256_output := output; SHA256_dowload := dowload; SHA256_str := str;
     SHA256_wrt_ptr := wrt_ptr |}.

Definition on_api {A} (m : M (Api.world F) A) : M ota A := fun w =>
  match m (api w) with
  | Done (a, s) => Done (a, with_api w s)
  | OutOfFuel => OutOfFuel
  | Undefined => Undefined
  end.

#[export] Instance ota_heap : Heap ota := {
  malloc :=
    let! ok := on_api os_malloc in
    do! (if ok then modify (fun w => with_heap w (heap w + 1)) else ret tt) then
    ret ok;
  free := modify (fun w => with_heap w (heap w - 1));
}.

(** A block of [n] bytes. *)
Definition malloc_object (n : Z) : M ota (option (list Z)) :=
  let! ok := malloc in
  if ok : bool then
    let! bs := on_api (uninit n) in
    ret (Some bs)
  else ret None.

Definition free_object {A} (o : option A) : M ota unit := if bool_decide (is_Some o) then free else ret tt.

(** ** The callbacks *)

Definition ota_firmaware_dowload_callback (buf : list Z) (size : Z) : M ota Z :=
  let! w := get in
  let! inf := deref (ota_inf w) in
  do! (if has_sha inf then
         let! ctx := deref (sha256_ctx w) in
         if Z.of_nat (length buf) <? size then undefined
         else modify (fun w => with_ctx w (Some (mbedtls_sha256_update ctx (take (Z.to_nat size) buf))))
       else ret tt) then
  let! w := get in
  if flash_limits w <? u32 (flash_offset w + size) then ret (u32 (-1))
  else
    do! (if flash_offset w mod SECTOR_SIZE =? 0
         then let! _ := on_api (on_flash (spi_flash_erase_sector (u16 (flash_offset w / SECTOR_SIZE)))) in ret tt
         else ret tt) then
    if Z.of_nat (length buf) <? size then undefined
    else
      let! _ := on_api (on_flash (spi_flash_write (flash_offset w) (as_mem buf) size)) in
      do! modify (fun w => with_flash_range w (u32 (flash_offset w + size)) (flash_limits w)) then
      ret 1.

Definition SHA256_check_callback (buf : list Z) (size : Z) : M ota Z :=
  let size := if SHA256_SIZE_STR <? size then SHA256_SIZE_STR else size in
  let! w := get in
  let Current_SHA_Size := SHA256_wrt_ptr w in
  if SHA256_SIZE_STR <? Current_SHA_Size then ret 1
  else
    let! str := deref (SHA256_str w) in
    if (Z.of_nat (length buf) <? size) || (Z.of_nat (length str) <? Current_SHA_Size + size) then undefined
    else
      let str := list_inserts (Z.to_nat Current_SHA_Size) (take (Z.to_nat size) buf) str in
      do! modify (fun w => with_sha w (SHA256_output w) (SHA256_dowload w) (Some str) (Current_SHA_Size + size)) then
      ret 1.

(** ** The update *)

(** The blocks for the checksum. *)
Definition alloc_sha : M ota unit :=
  let! ctx := malloc in
  let! output := malloc_object SHA256_SIZE_BIN in
  let! dowload := malloc_object SHA256_SIZE_BIN in
  let! str := malloc_object (SHA256_SIZE_STR + 1) in
  let! str := deref str in
  do! modify (fun w => with_sha w output dowload (Some (<[Z.to_nat SHA256_SIZE_STR := 0]> str)) 0) then
  if negb ctx then undefined else
  modify (fun w => with_ctx w (Some mbedtls_sha256_init)).

(** [memset] of the two blocks the checksum is downloaded to. *)
Definition clear_sha : M ota unit :=
  let! w := get in
  let! _ := deref (SHA256_dowload w) in
  let! str := deref (SHA256_str w) in
  modify (fun w => with_sha w (SHA256_output w) (Some (replicate (Z.to_nat SHA256_SIZE_BIN) 0))
    (Some (replicate (Z.to_nat SHA256_SIZE_STR) 0 ++ drop (Z.to_nat SHA256_SIZE_STR) str)) (SHA256_wrt_ptr w)).

Definition convert_sha : M ota unit :=
  let! w := get in
  let! str := deref (SHA256_str w) in
  let! final_sha_bin := deref (SHA256_dowload w) in
  let! bin := deref (convert_SHA256_Str_TO_uint32 str final_sha_bin) in
  modify (fun w => with_sha w (SHA256_output w) (Some bin) (SHA256_str w) (SHA256_wrt_ptr w)).

Definition start_sha : M ota unit :=
  let! w := get in
  let! ctx := deref (sha256_ctx w) in
  modify (fun w => with_ctx w (Some (mbedtls_sha256_starts ctx))).

(** Is the digest the one downloaded? *)
Definition check_sha : M ota bool :=
  let! w := get in
  let! ctx := deref (sha256_ctx w) in
  let! _ := deref (SHA256_output w) in
  let! dowload := deref (SHA256_dowload w) in
  let output := mbedtls_sha256_finish ctx in
  do! modify (fun w => with_sha w (Some output) (SHA256_dowload w) (SHA256_str w) (SHA256_wrt_ptr w)) then
  do! modify (fun w => with_ctx w (Some (mbedtls_sha256_free ctx))) then
  ret (bool_decide (take (Z.to_nat SHA256_SIZE_BIN) output = take (Z.to_nat SHA256_SIZE_BIN) dowload)).

(** [http_inf] for a path and a callback. *)
Definition http_inf (i : ota_info) (p : list Z) (cb : list Z -> Z -> M ota Z) : Http_client_info ota := {|
  server := o_server i;
  port := o_port i;
  path := p;
  buffer_size := u16 SECTOR_SIZE;
  buffer_full_cb := cb;
  final_cb := cb;
|}.

(** The download of the checksum; [None] when there is none to check or it has
    been stored. *)
Definition download_sha (i : ota_info) : M (client ota) (option Z) :=
  match sha256_path i with
  | None => ret None
  | Some p =>
    do! on_outer clear_sha then
    let! err := HttpClient_dowload (http_inf i p SHA256_check_callback) in
    if negb (err =? HTTP_OK) then ret (Some err)
    else
      do! on_outer convert_sha then
      ret None
  end.

(** The verification of the image at [rom] and the switch to its slot. *)
Definition switch_rom (rom slot : Z) : M ota Z :=
  let! (Rboot_verified, _, _) := on_api (rboot_verify_image rom) in
  if Rboot_verified : bool then
    do! on_api vPortEnterCritical then
    let! ok := on_api (rboot_set_current_rom slot) in
    do! on_api vPortExitCritical then
    ret (if ok : bool then OTA_UPDATE_DONE else OTA_FAIL_SET_NEW_SLOT)
  else ret OTA_IMAGE_VERIFY_FALLIED.

(** The body of [ota_update] between the allocations and [dealloc_all]. *)
Definition update_slot (i : ota_info) : M (client ota) Z :=
  let! conf := on_outer (on_api rboot_get_config) in
  let count := get_u8 conf off_count in
  let current_rom := get_u8 conf off_current_rom in
  if count =? 0 then undefined else
  let slot := (current_rom + 1) mod count in
  if slot =? current_rom then ret OTA_ONE_SLOT_ONLY else
  if MAX_ROMS <=? slot then undefined else
  let rom := get_u32 conf (off_roms + 4 * slot) in
  do! on_outer (modify (fun w => with_flash_range w rom (u32 (rom + MAX_IMAGE_SIZE)))) then
  let! failed := download_sha i in
  match failed with
  | Some err => ret err
  | None =>
    do! (if has_sha i then on_outer start_sha else ret tt) then
    let! err := HttpClient_dowload (http_inf i (binary_path i) ota_firmaware_dowload_callback) in
    if negb (err =? HTTP_OK) then ret err else
    let! ok := (if has_sha i then on_outer check_sha else ret true) in
    if negb ok then ret HTTP_SHA_DONT_MATCH else on_outer (switch_rom rom slot)
  end.

Definition dealloc_all (i : ota_info) : M (client ota) unit :=
  let! c := get in
  do! on_outer (free_object (buffer c)) then
  do! modify (fun c => with_buffer c None) then
  if has_sha i then
    on_outer (
      let! w := get in
      do! free_object (sha256_ctx w) then
      do! free_object (SHA256_str w) then
      do! free_object (SHA256_output w) then
      do! free_object (SHA256_dowload w) then
      modify (fun w => with_ctx (with_sha w None None None 0) None))
  else ret tt.

Definition ota_update (ota_info_par : ota_info) : M (client ota) Z :=
  do! on_outer (modify (fun w => with_inf w ota_info_par)) then
  let! buf := on_outer (malloc_object SECTOR_SIZE) in
  do! modify (fun c => with_buffer c buf) then
  do! (if has_sha ota_info_par then on_outer alloc_sha else ret tt) then
  let! err := update_slot ota_info_par in
  do! dealloc_all ota_info_par then
  ret err.

End Ota.
Arguments ota F {_}.
End HttpOta.
