(* ===== verification/HttpOtaProofs.v ===== *)
(** * Updates over HTTP: the callbacks

    What the two callbacks of [ota_update] do with a body: the text of the
    checksum, and the image on the flash. *)

From stdpp Require Import strings.
From S2P Require Import Prelude CStrings Flash SdkFlash Rboot RbootProofs RbootImage Tftp TftpProofs HttpClient HttpHeader HttpDownload HttpOta.
Open Scope Z_scope.

Module HttpOtaProofs.
Import Api ApiProofs CLib HttpClient HttpHeader HttpDownload HttpOta.

(** ** The text of the checksum *)

(** [s] spells the bytes in hexadecimal digits of either case. *)
Fixpoint spells (s bs : list Z) {struct bs} : Prop :=
  match bs with
  | [] => s = []
  | b :: bs =>
    match s with
    | x :: y :: s => digit_val 16 x = Some (b / 16) /\ digit_val 16 y = Some (b mod 16) /\ spells s bs
    | _ => False
    end
  end.

Lemma digit_val_16 c v : digit_val 16 c = Some v ->
  0 <= v < 16 /\ (48 <= c <= 57 \/ 97 <= c <= 102 \/ 65 <= c <= 70).
Proof. unfold digit_val, isdigit. repeat case_if; intros; simplify_eq; zbool; try lia; repeat match goal with H : _ /\ _ |- _ => destruct H end; lia. Qed.

Lemma spells_length bs : forall s, spells s bs -> length s = (2 * length bs)%nat.
Proof.
  induction bs as [|b bs IH]; intros s H; cbn in H; [by subst|]. destruct s as [|x [|y s]]; [done..|].
  destruct H as (_ & _ & H). cbn. rewrite (IH s H). lia.
Qed.

Lemma strtol_hex a b c d va vb vc vd :
  digit_val 16 a = Some va -> digit_val 16 b = Some vb -> digit_val 16 c = Some vc -> digit_val 16 d = Some vd ->
  strtol 16 [a; b; c; d] = (((va * 16 + vb) * 16 + vc) * 16 + vd, []).
Proof.
  intros Ha Hb Hc Hd. pose proof (digit_val_16 a va Ha) as [Ra Ra']. pose proof (digit_val_16 b vb Hb) as [Rb Rb'].
  pose proof (digit_val_16 c vc Hc) as [Rc _]. pose proof (digit_val_16 d vd Hd) as [Rd _].
  assert (Hsp : isspace a = false) by (unfold isspace; repeat case_if; zbool; lia).
  assert (Hx : (b =? 120) || (b =? 88) = false).
  { apply orb_false_iff. rewrite !Z.eqb_neq. lia. }
  unfold strtol. cbn [skip_spaces]. rewrite Hsp. cbn [sign]. rewrite !(proj2 (Z.eqb_neq a _)) by lia.
  cbn [Z.eqb Pos.eqb skip_0x]. rewrite Hx, andb_false_r. cbn [andb]. rewrite Ha. cbn [digits]. rewrite Ha, Hb, Hc, Hd.
  f_equal. rewrite Z.min_l; lia.
Qed.

Lemma htons_bytes v : 0 <= v < 65536 -> le_bytes 2 (htons v) = [v / 256; v mod 256].
Proof.
  intros Hv. unfold htons. change 255 with (2 ^ 8 - 1). rewrite !land_mask by lia.
  rewrite Z.shiftr_div_pow2, Z.shiftl_mul_pow2 by lia. change (2 ^ 8) with 256.
  pose proof (lor_disjoint_add ((v / 256) mod 256) 8 (v mod 256)) as Hlor. change (2 ^ 8) with 256 in Hlor.
  rewrite Z.lor_comm, Hlor by divlia. rewrite u16_small by divlia. cbn [le_bytes].
  assert (0 <= v / 256 < 256) by divlia. rewrite (Z.mod_small (v / 256)) by done.
  rewrite Z.mod_add, (Z.mod_small (v / 256)), Z.div_add, (Z.div_small (v / 256)), Z.add_0_l by lia.
  by rewrite Z.mod_mod by lia.
Qed.

(** The words written so far and what is left. *)
Lemma convert_loop_spells k : forall i text s pre bs rest bin,
  length bs = (2 * k)%nat -> spells s bs -> text = pre ++ s ++ rest -> Z.of_nat (length pre) = 4 * i ->
  Forall (fun c => c <> 0) s -> forall done_, length done_ = length bs -> Z.of_nat (length bin) = 2 * i ->
  convert_loop k i text (bin ++ done_) = Some (bin ++ bs).
Proof.
  induction k as [|k IH]; intros i text s pre bs rest bin Hl Hs Ht Hp Hz done_ Hd Hb.
  - destruct bs; [|done]. by destruct done_.
  - destruct bs as [|b1 [|b2 bs]]; cbn in Hl; try lia. destruct done_ as [|d1 [|d2 done_]]; cbn in Hd; try lia.
    destruct s as [|x [|y [|z [|t s]]]]; cbn in Hs; try (by destruct Hs); try (by destruct Hs as (_ & _ & [])).
    destruct Hs as (X & Y & Z1 & T & Hs).
    pose proof (digit_val_16 _ _ X) as [Rx _]. pose proof (digit_val_16 _ _ Y) as [Ry _].
    pose proof (digit_val_16 _ _ Z1) as [Rz _]. pose proof (digit_val_16 _ _ T) as [Rt _].
    cbn [convert_loop]. unfold SHA256_CONV_STEP_SIZE. rewrite !(proj2 (Z.ltb_ge _ _)); cycle 1.
    { rewrite length_app. cbn. lia. }
    { subst text. rewrite !length_app. cbn. lia. }
    cbn [orb].
    assert (Hsub : sub_bytes text (i * 4) 4 = [x; y; z; t]).
    { unfold sub_bytes. subst text. replace (Z.to_nat (i * 4)) with (length pre) by lia. by rewrite drop_app_length. }
    rewrite Hsub. rewrite c_string_app by (repeat (apply Forall_cons in Hz as [? Hz]); by repeat constructor).
    rewrite (strtol_hex _ _ _ _ _ _ _ _ X Y Z1 T). cbn [fst].
    replace (((b1 / 16 * 16 + b1 mod 16) * 16 + b2 / 16) * 16 + b2 mod 16) with (b1 * 256 + b2) by divlia.
    assert (0 <= b1 < 256 /\ 0 <= b2 < 256) by divlia. rewrite u16_small by lia. rewrite htons_bytes by lia.
    replace ((b1 * 256 + b2) / 256) with b1 by divlia. replace ((b1 * 256 + b2) mod 256) with b2 by divlia.
    assert (Hins : list_inserts (Z.to_nat (2 * i)) [b1; b2] (bin ++ d1 :: d2 :: done_) = (bin ++ [b1; b2]) ++ done_).
    { replace (Z.to_nat (2 * i)) with (length bin) by lia. cbn [list_inserts].
      rewrite (insert_app_r_alt _ _ (S (length bin))) by lia. replace (S (length bin) - length bin)%nat with 1%nat by lia. cbn.
      rewrite insert_app_r_alt, Nat.sub_diag by lia. cbn. by rewrite <-app_assoc. }
    rewrite Hins. change (b1 :: b2 :: bs) with ([b1; b2] ++ bs). rewrite app_assoc.
    apply (IH (i + 1) text s (pre ++ [x; y; z; t]) bs rest); try done.
    + cbn in Hl. lia.
    + subst text. by rewrite <-!app_assoc.
    + rewrite length_app, Nat2Z.inj_add, Hp. cbn. lia.
    + by repeat (apply Forall_cons in Hz as [? Hz]).
    + cbn in Hd. lia.
    + rewrite length_app, Nat2Z.inj_add, Hb. cbn. lia.
Qed.

Lemma spells_nonzero bs : forall s, spells s bs -> Forall (fun c => c <> 0) s.
Proof.
  induction bs as [|b bs IH]; intros s H; cbn in H; [by subst|]. destruct s as [|x [|y s]]; [done..|].
  destruct H as (X & Y & H). apply digit_val_16 in X as [_ X], Y as [_ Y]. constructor; [lia|]. constructor; [lia|]. by apply IH.
Qed.

Lemma convert_spells text rest bs bin :
  spells text bs -> length bs = 32%nat -> length bin = 32%nat ->
  convert_SHA256_Str_TO_uint32 (text ++ rest) bin = Some bs.
Proof.
  intros Hs Hl Hb. unfold convert_SHA256_Str_TO_uint32. change (Z.to_nat _) with 16%nat.
  apply (convert_loop_spells 16 0 (text ++ rest) text [] bs rest []); try done; [by eapply spells_nonzero|congruence].
Qed.

Section Proofs.
Context {F : Type} `{HF : SdkFlash F} {FL : SdkFlashLaws F} `{HR : RbootH} {RL : RbootHLaws} `{HS : Sha256} {SL : Sha256Laws}.
Implicit Types w : ota F.

(** ** The allocator *)

#[export] Instance ota_heap_laws : HeapLaws (ota F).
Proof.
  refine {| heap_ok w := w_alloc (api w) = [] |}. intros w Ha. eexists. split.
  - unfold malloc, ota_heap. erewrite bind_Done; cycle 1.
    { unfold on_api, os_malloc. rewrite Ha. reflexivity. }
    erewrite bind_Done by reflexivity. reflexivity.
  - cbn. unfold modify, with_heap, with_api. cbn. do 2 f_equal. destruct w. cbn. f_equal. lia.
Defined.

Lemma ota_on_api_Done {A} (m : M (Api.world F) A) w (a : A) s : m (api w) = Done (a, s) -> on_api m w = Done (a, with_api w s).
Proof. unfold on_api. by intros ->. Qed.

Lemma ota_with_api_same w : with_api w (api w) = w.
Proof. by destruct w. Qed.

(** ** The checksum *)

(** [w] with [n] bytes of [str] written. *)
Definition sha_at w (str : list Z) (n : Z) : ota F := with_sha w (SHA256_output w) (SHA256_dowload w) (Some str) n.

Lemma sha_callback_Done w str buf n :
  SHA256_str w = Some str -> length str = 65%nat -> SHA256_wrt_ptr w = 0 -> 64 <= n -> n <= Z.of_nat (length buf) ->
  SHA256_check_callback buf n w = Done (1, sha_at w (take 64 buf ++ drop 64 str) 64).
Proof.
  intros Hs Hl Hp Hn Hb. unfold SHA256_check_callback, SHA256_SIZE_STR, SHA256_SIZE_BIN. change (32 * 2) with 64.
  erewrite bind_Done by reflexivity. rewrite Hp. cbn [Z.ltb Z.compare Pos.compare Pos.compare_cont]. rewrite Hs.
  erewrite bind_Done by reflexivity.
  assert (Hsize : (if 64 <? n then 64 else n) = 64) by (case_if; zbool; lia). rewrite Hsize.
  rewrite !(proj2 (Z.ltb_ge _ _)) by lia. cbn [orb]. erewrite bind_Done by reflexivity. unfold ret, sha_at.
  do 3 f_equal. replace (list_inserts _ _ _) with (take 64 buf ++ drop 64 str); [done|].
  apply list_eq. intros i. change (Z.to_nat 64) with 64%nat. change (Z.to_nat 0) with 0%nat.
  assert (length (take 64 buf) = 64%nat) by (rewrite length_take; lia). destruct (decide (i < 64)%nat).
  - rewrite lookup_app_l by lia. rewrite list_lookup_inserts by lia. f_equal. lia.
  - rewrite list_lookup_inserts_ge by lia. rewrite lookup_app_r, lookup_drop by lia. f_equal. lia.
Qed.

(** A body of less than a buffer that starts with the text. *)
Lemma sha_receives w info B text :
  buffer_full_cb info = SHA256_check_callback -> final_cb info = SHA256_check_callback ->
  Z.of_nat (length B) < buffer_size info -> length text = 64%nat -> text `prefix_of` B ->
  forall str, SHA256_str w = Some str -> length str = 65%nat -> SHA256_wrt_ptr w = 0 ->
  receives info B (fun D w' => D = [] /\ w' = w) (fun _ w' => w' = sha_at w (text ++ drop 64 str) 64).
Proof.
  intros H1 H2 HB Ht [more HBe] str Hs Hl Hp. split.
  - intros D buf w' [-> ->] Hb [k Hk]. apply (f_equal length) in Hk. rewrite length_app in Hk. cbn in Hk. lia.
  - intros D buf n w' [-> ->] Hb Hn HD. cbn [app] in HD. rewrite H2.
    assert (Hlt : length (take (Z.to_nat n) buf) = (64 + length more)%nat) by (rewrite HD, HBe, length_app; lia).
    rewrite length_take in Hlt. eexists _, _. split; [by apply sha_callback_Done; try done; lia|].
    do 2 f_equal. transitivity (take 64 (take (Z.to_nat n) buf)); [rewrite take_take; f_equal; lia|].
    rewrite HD, HBe, <-Ht. by rewrite take_app_length.
Qed.

(** ** The image *)

(** [w0] with the flash [f], the context [ctx] and the data stored up to [off]. *)
Definition flashed w0 (f : F) (ctx : option mbedtls_sha256_context) (off : Z) : ota F :=
  with_flash_range (with_ctx (with_api w0 (set_flash (api w0) f)) ctx) off (flash_limits w0).

Definition fcell w : Z -> Z := sf_cell (w_flash (api w)).

(** The context has been given [D], if the image is checked at all. *)
Definition digesting (i : ota_info) (ctx0 ctx : option mbedtls_sha256_context) (D : list Z) : Prop :=
  if has_sha i then exists c, ctx = Some c /\ sha256_given c D else ctx = ctx0.

Abbreviation stored := TftpProofs.stored.

(** A piece of at most a sector behind [D], in a fresh sector. *)
Lemma stored_piece c0 S0 D d c c1 c2 :
  let n := Z.of_nat (length D) in
  Forall byteP d -> Z.of_nat (length d) <= 4096 -> stored c0 S0 D n c ->
  (forall x, c1 x = erase_bytes c (S0 + n) 4096 x) ->
  (forall x, c2 x = and_bytes c1 (S0 + n) (as_mem d) (Z.of_nat (length d)) x) ->
  stored c0 S0 (D ++ d) (n + 4096) c2.
Proof.
  intros n Hd Hl Hst H1 H2 x. rewrite H2. unfold and_bytes. rewrite H1. unfold erase_bytes.
  pose proof (Hst x) as Hx. cbv beta in Hx. fold n in Hx. rewrite Hx, length_app, Nat2Z.inj_add. fold n.
  destruct ((S0 + n <=? x) && (x <? S0 + n + Z.of_nat (length d))) eqn:E; zbool.
  - rewrite (proj2 (andb_true_iff (S0 + n <=? x) _)) by (split; [apply Z.leb_le|apply Z.ltb_lt]; lia).
    rewrite (proj2 (andb_true_iff (S0 <=? x) _)) by (split; [apply Z.leb_le|apply Z.ltb_lt]; lia).
    rewrite land_255_l by by apply as_mem_byte. rewrite as_mem_app_r by lia. f_equal. lia.
  - destruct ((S0 <=? x) && (x <? S0 + n)) eqn:E2; zbool.
    + rewrite (proj2 (andb_false_iff _ _)) by (left; apply Z.leb_gt; lia).
      rewrite (proj2 (andb_true_iff (S0 <=? x) _)) by (split; [apply Z.leb_le|apply Z.ltb_lt]; lia).
      by rewrite as_mem_app_l by lia.
    + destruct E as [E|E], E2 as [E2|E2]; repeat case_if; zbool; try done; repeat match goal with H : _ \/ _ |- _ => destruct H end; zbool; lia.
Qed.

(** What the downloads of the image start from: the slot at [S0] and how the
    flash was. *)
Context (i : ota_info) (w0 : ota F) (S0 : Z).
Let c0 : Z -> Z := fcell w0.
Let ctx0 := sha256_ctx w0.

Record slot_ready : Prop := {
  sr_inf : ota_inf w0 = Some i;
  sr_start : 0 <= S0;
  sr_aligned : S0 mod 4096 = 0;
  sr_limits : flash_limits w0 = S0 + MAX_IMAGE_SIZE;
  sr_chip : S0 + MAX_IMAGE_SIZE <= sf_chip_size;
}.

Hypothesis Hready : slot_ready.

Lemma digest_step buf size f ctx D off :
  size <= Z.of_nat (length buf) -> digesting i ctx0 ctx D ->
  exists ctx', (if has_sha i then
      let! ctx := deref (sha256_ctx (flashed w0 f ctx off)) in
      if Z.of_nat (length buf) <? size then undefined
      else modify (fun w => with_ctx w (Some (mbedtls_sha256_update ctx (take (Z.to_nat size) buf))))
    else ret tt) (flashed w0 f ctx off) = Done (tt, flashed w0 f ctx' off) /\ digesting i ctx0 ctx' (D ++ take (Z.to_nat size) buf).
Proof.
  intros Hb Hd. unfold digesting in *. destruct (has_sha i); [|by exists ctx].
  destruct Hd as (c & -> & Hc). exists (Some (mbedtls_sha256_update c (take (Z.to_nat size) buf))). cbn [sha256_ctx flashed with_flash_range with_ctx].
  erewrite bind_Done by reflexivity. rewrite (proj2 (Z.ltb_ge _ _)) by done. split; [done|].
  eexists. split; [done|]. by apply sha256_update_ok.
Qed.

(** A piece that is called back: a sector is erased and the piece written. *)
Lemma firmware_piece f ctx D buf size :
  let n := Z.of_nat (length D) in
  let d := take (Z.to_nat size) buf in
  sf_ok f -> stored c0 S0 D n (sf_cell f) -> digesting i ctx0 ctx D -> n mod 4096 = 0 ->
  0 <= size <= 4096 -> size <= Z.of_nat (length buf) -> size mod 4 = 0 -> n + 4096 <= MAX_IMAGE_SIZE -> Forall byteP d ->
  exists f' ctx', ota_firmaware_dowload_callback buf size (flashed w0 f ctx (S0 + n)) = Done (1, flashed w0 f' ctx' (S0 + n + size)) /\
    sf_ok f' /\ stored c0 S0 (D ++ d) (n + 4096) (sf_cell f') /\ digesting i ctx0 ctx' (D ++ d).
Proof.
  intros n d Hf Hst Hd Hn Hs Hb H4 Hroom Hbytes. destruct Hready as [R1 R2 R3 R4 R5]. pose proof sf_size_bound.
  unfold MAX_IMAGE_SIZE in *. destruct (digest_step buf size f ctx D (S0 + n) Hb Hd) as (ctx' & E & Hd').
  unfold ota_firmaware_dowload_callback. erewrite bind_Done by reflexivity.
  cbn [ota_inf flashed with_flash_range with_ctx with_api]. rewrite R1. erewrite bind_Done by reflexivity. cbn beta.
  rewrite (bind_Done _ _ _ _ _ E). erewrite bind_Done by reflexivity.
  set (w1 := flashed w0 f ctx' (S0 + n)). change (flash_limits w1) with (flash_limits w0). change (flash_offset w1) with (S0 + n).
  rewrite R4, u32_small, (proj2 (Z.ltb_ge _ _)) by lia. rewrite rb_sector.
  rewrite (proj2 (Z.eqb_eq ((S0 + n) mod 4096) 0)) by divlia.
  destruct (sf_erase_ok f ((S0 + n) / 4096)) as (f1 & E1 & O1 & C1); [done|divlia|divlia|].
  erewrite bind_Done; cycle 1.
  { rewrite u16_small by divlia. erewrite bind_Done by (apply ota_on_api_Done; apply on_flash_Done; exact E1). reflexivity. }
  rewrite (proj2 (Z.ltb_ge _ _)) by done.
  destruct (sf_write_ok f1 (S0 + n) (as_mem buf) size) as (f2 & E2 & O2 & C2); [done|lia|lia|divlia|done|lia|].
  erewrite bind_Done by (apply ota_on_api_Done; apply on_flash_Done; exact E2). erewrite bind_Done by reflexivity.
  exists f2, ctx'. split; [unfold ret, flashed, with_flash_range; cbn; do 3 f_equal; apply u32_small; lia|].
  split; [done|]. split; [|done].
  assert (Hl : Z.of_nat (length d) = size) by (unfold d; rewrite length_take; lia).
  eapply (stored_piece c0 S0 D d (sf_cell f) (sf_cell f1)); try done; [lia| |].
  - intros x. rewrite C1. f_equal. fold n. divlia.
  - intros x. rewrite C2, Hl. apply CallProofs.and_bytes_buf. intros j Hj. symmetry. by apply as_mem_take.
Qed.

(** The image, as the client hands it over. *)
Lemma firmware_receives info B :
  buffer_full_cb info = ota_firmaware_dowload_callback -> final_cb info = ota_firmaware_dowload_callback ->
  buffer_size info = 4096 -> Forall byteP B -> Z.of_nat (length B) mod 4 = 0 -> Z.of_nat (length B) < MAX_IMAGE_SIZE ->
  receives info B
    (fun D w => exists f ctx, w = flashed w0 f ctx (S0 + Z.of_nat (length D)) /\ sf_ok f /\
       stored c0 S0 D (Z.of_nat (length D)) (sf_cell f) /\ digesting i ctx0 ctx D /\ Z.of_nat (length D) mod 4096 = 0)
    (fun _ w => exists f ctx e, w = flashed w0 f ctx (S0 + Z.of_nat (length B)) /\ sf_ok f /\
       stored c0 S0 B e (sf_cell f) /\ e <= MAX_IMAGE_SIZE /\ digesting i ctx0 ctx B).
Proof.
  intros H1 H2 Hsz HB Hm HL. unfold MAX_IMAGE_SIZE in HL. split; rewrite Hsz.
  - intros D buf w (f & ctx & -> & Hf & Hst & Hd & Hn) Hb [k Hk].
    assert (Hlen : Z.of_nat (length B) = Z.of_nat (length D) + 4096 + Z.of_nat (length k)) by (rewrite Hk, !length_app; lia).
    rewrite H1. assert (Htake : take (Z.to_nat 4096) buf = buf) by (apply take_ge; lia).
    destruct (firmware_piece f ctx D buf 4096) as (f' & ctx' & E & Hf' & Hst' & Hd'); try done; try lia.
    { unfold MAX_IMAGE_SIZE. divlia. }
    { rewrite Htake. rewrite Hk in HB. apply Forall_app in HB as [HB _]. by apply Forall_app in HB as [_ HB]. }
    rewrite Htake in Hst', Hd'. eexists _, _. split; [exact E|]. exists f', ctx'.
    rewrite length_app, Nat2Z.inj_add, Hb. split; [f_equal; lia|]. do 3 (split; [done|]). divlia.
  - intros D buf n w (f & ctx & -> & Hf & Hst & Hd & Hn) Hb Hn4 HD.
    assert (Htake : length (take (Z.to_nat n) buf) = Z.to_nat n) by (rewrite length_take; lia).
    assert (Hlen : Z.of_nat (length B) = Z.of_nat (length D) + n) by (rewrite <-HD, length_app, Htake; lia).
    rewrite H2. destruct (firmware_piece f ctx D buf n) as (f' & ctx' & E & Hf' & Hst' & Hd'); try done; try lia.
    { divlia. }
    { unfold MAX_IMAGE_SIZE. divlia. }
    { rewrite <-HD in HB. by apply Forall_app in HB as [_ HB]. }
    rewrite HD in Hst', Hd'. eexists _, _. split; [exact E|]. exists f', ctx', (Z.of_nat (length D) + 4096).
    split; [f_equal; lia|]. do 2 (split; [done|]). split; [unfold MAX_IMAGE_SIZE; divlia|done].
Qed.

End Proofs.
End HttpOtaProofs.
