(* ===== verification/HttpOtaUpdate.v ===== *)
(** * Updates over HTTP: a run of [ota_update]

    From responses that deliver the checksum and the image to the verdict on
    the image, and what follows from it. *)

From stdpp Require Import strings.
From S2P Require Import Prelude CStrings Flash SdkFlash Rboot RbootProofs RbootImage Tftp TftpProofs TftpServer HttpClient HttpHeader HttpDownload HttpOta HttpOtaProofs.
Open Scope Z_scope.

Module HttpOtaUpdate.
Import Api ApiProofs Image CLib HttpClient HttpHeader HttpDownload HttpOta HttpOtaProofs.

Abbreviation next_slot := TftpServer.next_slot.
Abbreviation slot_start := TftpServer.slot_start.
Abbreviation updatable := TftpServer.updatable.
Abbreviation stored := TftpProofs.stored.

Section Update.
Context {F : Type} `{HF : SdkFlash F} {FL : SdkFlashLaws F} `{HR : RbootH} {RL : RbootHLaws} `{HS : Sha256} {SL : Sha256Laws}.
Implicit Types w : ota F.
Implicit Types c : client (ota F).

(** ** Allocation *)

(** The blocks for the checksum are there. *)
Record sha_blocks w (str : list Z) : Prop := {
  sb_ctx : is_Some (sha256_ctx w);
  sb_output : is_Some (SHA256_output w);
  sb_dowload : is_Some (SHA256_dowload w);
  sb_str : SHA256_str w = Some str;
}.

(** How many blocks an update has. *)
Definition blocks (i : ota_info) : Z := if has_sha i then 5 else 1.

Lemma ota_malloc_Done w : w_alloc (api w) = [] -> malloc w = Done (true, with_heap w (heap w + 1)).
Proof.
  intros Ha. unfold malloc, ota_heap. erewrite bind_Done; cycle 1.
  { unfold on_api, os_malloc. rewrite Ha. reflexivity. }
  erewrite bind_Done by reflexivity. unfold ret. by rewrite ota_with_api_same.
Qed.

Lemma malloc_object_Done w n : w_alloc (api w) = [] ->
  malloc_object n w = Done (Some (cells (w_junk (api w)) 0 n), with_heap w (heap w + 1)).
Proof.
  intros Ha. unfold malloc_object. erewrite bind_Done by by apply ota_malloc_Done. cbn beta iota.
  erewrite bind_Done by by apply ota_on_api_Done. by rewrite ota_with_api_same.
Qed.

Lemma alloc_sha_Done w : w_alloc (api w) = [] ->
  exists w' str, alloc_sha w = Done (tt, w') /\ sha_blocks w' str /\ length str = 65%nat /\ drop 64 str = [0] /\
    SHA256_wrt_ptr w' = 0 /\ api w' = api w /\ heap w' = heap w + 4 /\ ota_inf w' = ota_inf w.
Proof.
  intros Ha. unfold alloc_sha. erewrite bind_Done by by apply ota_malloc_Done.
  do 3 (erewrite bind_Done by by apply malloc_object_Done). do 2 (erewrite bind_Done by reflexivity). cbn [negb].
  do 2 eexists. split; [reflexivity|]. repeat split; try by eexists.
  - cbn. lia.
Qed.

(** The state before [update_slot]. *)
Record prepared (i : ota_info) c c1 : Prop := {
  pr_buffer : exists buf, buffer c1 = Some buf /\ length buf = 4096%nat;
  pr_api : api (outer c1) = api (outer c);
  pr_heap : heap (outer c1) = heap (outer c) + blocks i;
  pr_inf : ota_inf (outer c1) = Some i;
  pr_sha : has_sha i = true -> exists str, sha_blocks (outer c1) str /\ length str = 65%nat /\ drop 64 str = [0] /\
    SHA256_wrt_ptr (outer c1) = 0;
  pr_same : http_reponse c1 = http_reponse c /\ conns c1 = conns c /\ sent c1 = sent c /\
    addrinfos c1 = addrinfos c /\ sockets c1 = sockets c;
}.

Lemma update_prepares i c : w_alloc (api (outer c)) = [] ->
  exists c1, prepared i c c1 /\
    ota_update i c = (let! err := update_slot i in do! dealloc_all i then ret err) c1.
Proof.
  intros Ha. unfold ota_update. erewrite bind_Done by (apply on_outer_Done; reflexivity).
  erewrite bind_Done by (apply on_outer_Done; by apply malloc_object_Done). erewrite bind_Done by reflexivity.
  set (c1 := with_buffer _ _). assert (Ha1 : w_alloc (api (outer c1)) = []) by done.
  assert (Hbuf : exists buf, buffer c1 = Some buf /\ length buf = 4096%nat).
  { eexists. split; [reflexivity|]. rewrite length_cells, rb_sector. done. }
  destruct (has_sha i) eqn:Hsha.
  - destruct (alloc_sha_Done (outer c1) Ha1) as (w' & str & E & Hb & Hl & Hz & Hp & H1 & H2 & H3).
    erewrite bind_Done by (apply on_outer_Done; exact E). eexists. split; [|reflexivity].
    split; cbn [outer with_outer]; [exact Hbuf|by rewrite H1| |by rewrite H3|intros _; by exists str|done].
    rewrite H2. unfold blocks. rewrite Hsha. cbn. lia.
  - erewrite bind_Done by reflexivity. exists c1. split; [|done]. split; try done; [|by rewrite Hsha].
    unfold blocks. by rewrite Hsha.
Qed.

Lemma free_object_Done {A} (o : option A) w : is_Some o -> free_object o w = Done (tt, with_heap w (heap w - 1)).
Proof. intros H. unfold free_object. by rewrite bool_decide_true. Qed.

(** All of them are freed. *)
Lemma dealloc_Done i c : is_Some (buffer c) -> (has_sha i = true -> exists str, sha_blocks (outer c) str) ->
  exists c', dealloc_all i c = Done (tt, c') /\ api (outer c') = api (outer c) /\ heap (outer c') = heap (outer c) - blocks i /\
    conns c' = conns c /\ sent c' = sent c /\ addrinfos c' = addrinfos c /\ sockets c' = sockets c.
Proof.
  intros Hb Hs. unfold dealloc_all. erewrite bind_Done by reflexivity.
  erewrite bind_Done by (apply on_outer_Done; by apply free_object_Done). erewrite bind_Done by reflexivity. unfold blocks.
  destruct (has_sha i); [|by eexists]. destruct (Hs eq_refl) as (str & [H1 H2 H3 H4]).
  eexists. split; [apply on_outer_Done|].
  - erewrite bind_Done by reflexivity. erewrite bind_Done by by apply free_object_Done.
    erewrite bind_Done by (apply free_object_Done; cbn; by rewrite H4). do 2 (erewrite bind_Done by by apply free_object_Done). reflexivity.
  - cbn. repeat split; lia.
Qed.

(** ** The downloads *)

(** The server answers a request with the body [B] and its length. *)
Definition serves (info : Http_client_info (ota F)) (conn : connection) (B : list Z) : Prop :=
  exists s fs, response_to info conn s fs B /\ parsed (code s) = HTTP_OK /\
    forall n, foldl field_length n fs = Z.of_nat (length B).

(** What a download leaves as it was. *)
Definition one_request (info : Http_client_info (ota F)) c c' : Prop :=
  conns c' = tail (conns c) /\ sent c' = sent c ++ [(server info, port info, request_of info)] /\
  addrinfos c' = addrinfos c /\ sockets c' = sockets c /\ exists buf, buffer c' = Some buf /\ length buf = 4096%nat.

Lemma dowload_serves info conn cs B I Q buf c :
  buffer_size info = 4096 -> conns c = conn :: cs -> serves info conn B -> receives info B I Q ->
  buffer c = Some buf -> length buf = 4096%nat -> w_alloc (api (outer c)) = [] -> I [] (outer c) ->
  exists x w' c', HttpClient_dowload info c = Done (HTTP_OK, c') /\ outer c' = w' /\ Q x w' /\ one_request info c c'.
Proof.
  intros Hsz Hc (s & fs & Hrt & Hcode & Hlen) Hrcv Hbuf Hl Ha HI.
  destruct (dowload_delivers info ltac:(lia) conn cs s fs B I Q buf c Hc Hrt Hcode Hrcv Hbuf) as (x & w' & buf' & E & Hl' & HQ);
    [rewrite Hl, Hsz; lia|done|done|].
  cbv zeta in E. unfold length_checked in E. cbn [answered length_ response_code] in E. rewrite Hlen, Z.eqb_refl, Hcode in E.
  do 3 eexists. split; [exact E|]. split; [done|]. split; [exact HQ|]. do 4 (split; [done|]). exists buf'. split; [done|].
  rewrite Hl', Hsz. lia.
Qed.

(** The checksum [bs] is served in front of [rest], if one is asked for. *)
Definition sum_served (i : ota_info) (cs rest : list connection) (bs : list Z) : Prop :=
  match sha256_path i with
  | None => cs = rest
  | Some p => exists conn B text, cs = conn :: rest /\ serves (http_inf i p SHA256_check_callback) conn B /\
      Z.of_nat (length B) < 4096 /\ text `prefix_of` B /\ spells text bs /\ length bs = 32%nat
  end.

Definition sum_requests (i : ota_info) : list (list Z * list Z * list Z) :=
  match sha256_path i with
  | None => []
  | Some p => [(o_server i, o_port i, req p (o_server i))]
  end.

Lemma http_size i p cb : buffer_size (http_inf i p cb : Http_client_info (ota F)) = 4096.
Proof. cbn. rewrite rb_sector. by apply u16_small. Qed.

(** [c2] follows [c1]: the API and the requests of the checksum. *)
Record sum_known (i : ota_info) (rest : list connection) (bs : list Z) c1 c2 : Prop := {
  sk_buffer : exists buf, buffer c2 = Some buf /\ length buf = 4096%nat;
  sk_api : api (outer c2) = api (outer c1);
  sk_heap : heap (outer c2) = heap (outer c1);
  sk_inf : ota_inf (outer c2) = ota_inf (outer c1);
  sk_range : flash_offset (outer c2) = flash_offset (outer c1) /\ flash_limits (outer c2) = flash_limits (outer c1);
  sk_sha : has_sha i = true -> (exists str, sha_blocks (outer c2) str) /\ SHA256_dowload (outer c2) = Some bs;
  sk_conns : conns c2 = rest;
  sk_sent : sent c2 = sent c1 ++ sum_requests i;
  sk_open : addrinfos c2 = addrinfos c1 /\ sockets c2 = sockets c1;
}.

Lemma convert_sha_Done w text more bs bin :
  SHA256_str w = Some (text ++ more) -> SHA256_dowload w = Some bin -> length bin = 32%nat -> spells text bs -> length bs = 32%nat ->
  convert_sha w = Done (tt, with_sha w (SHA256_output w) (Some bs) (SHA256_str w) (SHA256_wrt_ptr w)).
Proof.
  intros H1 H2 H3 H4 H5. unfold convert_sha. erewrite bind_Done by reflexivity. rewrite H1, H2.
  do 2 (erewrite bind_Done by reflexivity). rewrite (convert_spells text more bs bin) by done. erewrite bind_Done by reflexivity. unfold modify.
  by rewrite H1.
Qed.

Lemma download_sha_Done i rest bs c :
  (exists buf, buffer c = Some buf /\ length buf = 4096%nat) -> w_alloc (api (outer c)) = [] ->
  sum_served i (conns c) rest bs ->
  (has_sha i = true -> exists str, sha_blocks (outer c) str /\ length str = 65%nat /\ drop 64 str = [0] /\ SHA256_wrt_ptr (outer c) = 0) ->
  exists c', download_sha i c = Done (None, c') /\ sum_known i rest bs c c'.
Proof.
  intros [buf [Hbuf Hl]] Ha Hserved Hsha. unfold sum_served in Hserved. unfold download_sha.
  assert (Hrq : forall p, sha256_path i = Some p -> sum_requests i = [(o_server i, o_port i, req p (o_server i))]).
  { intros p Hp. unfold sum_requests. by rewrite Hp. }
  destruct (sha256_path i) as [p|] eqn:Hp; cycle 1.
  { exists c. split; [done|]. split; try done; [by exists buf| |by unfold sum_requests; rewrite Hp, app_nil_r].
    intros H. unfold has_sha in H. rewrite Hp in H. done. }
  destruct Hserved as (conn & B & text & Hc & Hs & HB & Htext & Hsp & Hbs).
  destruct Hsha as (str & [Bctx Bout Bdow Bstr] & Hls & Hz & Hw); [unfold has_sha; by rewrite Hp|].
  destruct Bdow as [dow Bdow]. specialize (Hrq p eq_refl).
  set (str1 := replicate 64 0 ++ drop 64 str).
  set (w1 := with_sha (outer c) (SHA256_output (outer c)) (Some (replicate 32 0)) (Some str1) 0).
  erewrite bind_Done; cycle 1.
  { apply on_outer_Done. unfold clear_sha. erewrite bind_Done by reflexivity. rewrite Bdow, Bstr.
    do 2 (erewrite bind_Done by reflexivity). unfold modify. rewrite Hw. reflexivity. }
  pose proof (spells_length bs text Hsp) as Hlt. rewrite Hbs in Hlt.
  assert (Hls1 : length str1 = 65%nat) by (unfold str1; rewrite length_app, length_replicate, length_drop; lia).
  pose proof (sha_receives w1 (http_inf i p SHA256_check_callback) B text eq_refl eq_refl ltac:(by rewrite http_size) Hlt Htext
    str1 eq_refl Hls1 eq_refl) as Hrcv.
  destruct (dowload_serves (http_inf i p SHA256_check_callback) conn rest B _ _ buf (with_outer c w1) (http_size _ _ _) Hc Hs
    Hrcv Hbuf Hl Ha (conj eq_refl eq_refl))
    as (x & w2 & c2 & E & Hout & HQ & H1 & H2 & H3 & H4 & H5).
  rewrite (bind_Done _ _ _ _ _ E). cbn [Z.eqb Pos.eqb negb HTTP_OK].
  erewrite bind_Done by (apply on_outer_Done; rewrite Hout, HQ; by eapply convert_sha_Done).
  eexists. split; [reflexivity|]. cbn in H1, H2. rewrite Hc in H1. split; cbn; try done; try (by rewrite ?Hrq).
  intros _. split; [|done]. eexists. split; try done.
Qed.

(** ** The image *)

Lemma with_outer_same c : with_outer c (outer c) = c.
Proof. by destruct c. Qed.

Lemma start_sha_Done i w : (has_sha i = true -> is_Some (sha256_ctx w)) ->
  exists ctx, (if has_sha i then start_sha else ret tt) w = Done (tt, with_ctx w ctx) /\
    (has_sha i = true -> exists x, ctx = Some x /\ sha256_given x []).
Proof.
  intros H. destruct (has_sha i).
  - destruct (H eq_refl) as [x Hx]. exists (Some (mbedtls_sha256_starts x)). split.
    + unfold start_sha. erewrite bind_Done by reflexivity. rewrite Hx. by erewrite bind_Done by reflexivity.
    + intros _. eexists. split; [done|]. apply sha256_starts_ok.
  - exists (sha256_ctx w). split; [by destruct w|done].
Qed.

(** The state at the verdict: [D] is in the slot at [start]. *)
Record image_stored (i : ota_info) (start : Z) (D bs : list Z) (rest : list connection) c c2 (f : F) : Prop := {
  is_flash : sf_ok f /\ exists e, stored (fcell (outer c)) start D e (sf_cell f) /\ e <= MAX_IMAGE_SIZE;
  is_api : api (outer c2) = set_flash (api (outer c)) f;
  is_heap : heap (outer c2) = heap (outer c);
  is_sha : has_sha i = true -> (exists str, sha_blocks (outer c2) str) /\ SHA256_dowload (outer c2) = Some bs /\
    exists x, sha256_ctx (outer c2) = Some x /\ sha256_given x D;
  is_buffer : is_Some (buffer c2);
  is_conns : conns c2 = rest;
  is_sent : sent c2 = sent c ++ sum_requests i ++ [(o_server i, o_port i, req (binary_path i) (o_server i))];
  is_open : addrinfos c2 = addrinfos c /\ sockets c2 = sockets c;
}.

(** The download of the image, the context being [ctx]. *)
Lemma download_firmware i start conn rest D c :
  slot_ready i (outer c) start -> flash_offset (outer c) = start -> w_ok (api (outer c)) -> w_alloc (api (outer c)) = [] ->
  (has_sha i = true -> exists x, sha256_ctx (outer c) = Some x /\ sha256_given x []) ->
  (exists buf, buffer c = Some buf /\ length buf = 4096%nat) -> conns c = conn :: rest ->
  serves (http_inf i (binary_path i) ota_firmaware_dowload_callback) conn D ->
  Forall byteP D -> Z.of_nat (length D) mod 4 = 0 -> Z.of_nat (length D) < MAX_IMAGE_SIZE ->
  exists c2 f ctx e,
    HttpClient_dowload (http_inf i (binary_path i) ota_firmaware_dowload_callback) c = Done (HTTP_OK, c2) /\
    outer c2 = flashed (outer c) f ctx (start + Z.of_nat (length D)) /\ sf_ok f /\
    stored (fcell (outer c)) start D e (sf_cell f) /\ e <= MAX_IMAGE_SIZE /\ digesting i (sha256_ctx (outer c)) ctx D /\
    one_request (http_inf i (binary_path i) ota_firmaware_dowload_callback) c c2.
Proof.
  intros Hr Hoff Hok Ha Hctx [buf [Hbuf Hl]] Hc Hs HD Hm HL.
  pose proof (firmware_receives i (outer c) start Hr (http_inf i (binary_path i) ota_firmaware_dowload_callback) D
    eq_refl eq_refl (http_size _ _ _) HD Hm HL) as Hrcv.
  destruct (dowload_serves _ conn rest D _ _ buf c (http_size _ _ _) Hc Hs Hrcv Hbuf Hl Ha)
    as (x & w2 & c2 & E & <- & (f & ctx & e & Hw2 & Hf & Hst & He & Hd) & Hone).
  - exists (w_flash (api (outer c))), (sha256_ctx (outer c)). cbn [length Z.of_nat]. rewrite Z.add_0_r. split.
    { unfold flashed. rewrite set_flash_same, <-Hoff. by destruct (outer c). }
    split; [exact Hok|]. split.
    { intros y. cbn [length Z.of_nat]. rewrite Z.add_0_r. repeat case_if; zbool; try done; lia. }
    split; [|done]. unfold digesting. destruct (has_sha i); [by apply Hctx|done].
  - by exists c2, f, ctx, e.
Qed.

(** Both downloads succeed: what remains are the verdicts. *)
Lemma update_slot_stored i c conn rest D bs :
  let conf := config_of (api (outer c)) in
  let slot := next_slot conf in
  let start := slot_start conf slot in
  4096 * (BOOT_CONFIG_SECTOR + 1) <= sf_chip_size ->
  w_ok (api (outer c)) -> w_alloc (api (outer c)) = [] -> updatable conf -> ota_inf (outer c) = Some i ->
  (exists buf, buffer c = Some buf /\ length buf = 4096%nat) ->
  (has_sha i = true -> exists str, sha_blocks (outer c) str /\ length str = 65%nat /\ drop 64 str = [0] /\ SHA256_wrt_ptr (outer c) = 0) ->
  sum_served i (conns c) (conn :: rest) bs ->
  serves (http_inf i (binary_path i) ota_firmaware_dowload_callback) conn D ->
  Forall byteP D -> Z.of_nat (length D) mod 4 = 0 -> Z.of_nat (length D) < MAX_IMAGE_SIZE ->
  exists c2 f, image_stored i start D bs rest c c2 f /\
    update_slot i c =
      (let! ok := (if has_sha i then on_outer check_sha else ret true) in
       if negb ok then ret HTTP_SHA_DONT_MATCH else on_outer (switch_rom start slot)) c2.
Proof.
  intros conf slot start Hconf Hok Ha Hup Hinf Hbuf Hsha Hsum Hserves HD Hm HL. pose proof sf_size_bound.
  pose proof (TftpServer.next_slot_ok conf Hup) as [Hsl Hne]. fold slot in Hsl, Hne. pose proof Hup as [U1 U2 U3 U4 U5 U6].
  fold slot start in U3, U4, U5, U6. unfold TftpServer.slot_start in U5.
  unfold update_slot. erewrite bind_Done; cycle 1.
  { apply on_outer_Done. apply ota_on_api_Done. by apply get_config_Done. }
  rewrite ota_with_api_same, with_outer_same. fold conf. cbv zeta. rewrite (proj2 (Z.eqb_neq (get_u8 conf off_count) 0)) by lia.
  fold (next_slot conf). fold slot. rewrite (proj2 (Z.eqb_neq _ _)), (proj2 (Z.leb_gt _ _)) by lia.
  fold (slot_start conf slot). fold start. erewrite bind_Done by (apply on_outer_Done; reflexivity). 
  assert (Hlim : u32 (start + MAX_IMAGE_SIZE) = start + MAX_IMAGE_SIZE).
  { apply u32_small. unfold MAX_IMAGE_SIZE, Tftp.MAX_IMAGE_SIZE in *. fold start in U5. lia. }
  rewrite Hlim. set (c1 := with_outer c _).
  destruct (download_sha_Done i (conn :: rest) bs c1 Hbuf Ha Hsum) as (c2 & E2 & [B1 B2 B3 B4 [B5 B6] B7 B8 B9 [B10 B11]]).
  { intros H1. destruct (Hsha H1) as (str & [? ? ? ?] & ?). by exists str. }
  erewrite bind_Done by exact E2. cbn beta iota.
  destruct (start_sha_Done i (outer c2)) as (ctx & E3 & Hctx).
  { intros H1. destruct (B7 H1) as [[str [? ? ? ?]] _]. done. }
  set (c3 := with_outer c2 (with_ctx (outer c2) ctx)).
  erewrite bind_Done; cycle 1.
  { instantiate (1 := c3). instantiate (1 := tt). destruct (has_sha i); [by apply on_outer_Done|].
    unfold c3. unfold ret in E3 |- *. injection E3 as E3. by rewrite <-E3, with_outer_same. }
  destruct (download_firmware i start conn rest D c3) as (c4 & f & ctx' & e & E4 & Ho & Hf & Hst & He & Hd & (O1 & O2 & O3 & O4 & (buf & O5 & _)));
    try done.
  { split; cbn [c3 outer with_outer with_ctx]; [cbn; by rewrite B4|done|done|cbn; by rewrite B6|done]. }
  all: try by (cbn [c3 outer with_outer with_ctx api flash_offset]; rewrite ?B2, ?B5).
  rewrite (bind_Done _ _ _ _ _ E4). cbn [Z.eqb Pos.eqb negb HTTP_OK]. exists c4, f. split; [|done].
  assert (Hcell : fcell (outer c3) = fcell (outer c)) by (unfold fcell; cbn; by rewrite B2).
  split; try done.
  - split; [done|]. exists e. by rewrite <-Hcell.
  - rewrite Ho. cbn. by rewrite B2.
  - rewrite Ho. cbn. by rewrite B3.
  - intros H1. destruct (B7 H1) as [[str [S1 S2 S3 S4]] Hdow]. rewrite Ho. unfold digesting in Hd. rewrite H1 in Hd.
    destruct Hd as (x & -> & Hx). split; [exists str; by split|]. split; [done|]. by exists x.
  - rewrite O1. cbn. by rewrite B8.
  - rewrite O2. cbn [sent c3 with_outer]. rewrite B9. by rewrite <-app_assoc.
  - rewrite O3, O4. cbn. by rewrite B10, B11.
Qed.

(** ** The verdicts *)

(** The digest is compared, when one was downloaded. *)
Lemma check_sha_Done i start D bs rest c0 c f :
  image_stored i start D bs rest c0 c f -> length bs = 32%nat ->
  exists w, (if has_sha i then on_outer check_sha else ret true) c =
      Done (negb (has_sha i) || bool_decide (sha256 D = bs), with_outer c w) /\
    api w = api (outer c) /\ heap w = heap (outer c) /\ (has_sha i = true -> exists str, sha_blocks w str).
Proof.
  intros H Hl. destruct (has_sha i) eqn:Hs; cycle 1.
  { exists (outer c). rewrite with_outer_same. by repeat split. }
  destruct (is_sha _ _ _ _ _ _ _ _ H Hs) as [[str [B1 [out B2] B3 B4]] [Hdow (x & Hx & Hg)]].
  eexists. split; [apply on_outer_Done; unfold check_sha; erewrite bind_Done by reflexivity; rewrite Hx, B2, Hdow|].
  - do 3 (erewrite bind_Done by reflexivity). rewrite (sha256_finish_ok x D Hg). do 2 (erewrite bind_Done by reflexivity).
    unfold ret. rewrite !take_ge by (rewrite ?sha256_length, ?Hl; done). reflexivity.
  - split; [done|]. split; [done|]. intros _. exists str. split; cbn; try done; by eexists.
Qed.

(** An image in the slot that [rboot_verify_image] accepts. *)
Definition image_valid (c : Z -> Z) (start : Z) (D : list Z) : Prop := exists ds stop,
  layout (put_bytes c start D) start ds stop /\ image_end stop = start + Z.of_nat (length D) /\
  put_bytes c start D (image_end stop - 1) = data_checksum ds.

(** One with a wrong checksum byte. *)
Definition image_corrupt (c : Z -> Z) (start : Z) (D : list Z) : Prop := exists ds stop,
  layout (put_bytes c start D) start ds stop /\ image_end stop <= start + Z.of_nat (length D) /\
  put_bytes c start D (image_end stop - 1) <> data_checksum ds.

(** The state of the TFTP server with the same API, to use what is known of
    its transfers. *)
Definition as_tftp (a : Api.world F) : Tftp.world F := {|
  Tftp.api := a; Tftp.sent := []; Tftp.send_results := []; Tftp.peer := None; Tftp.netbufs := 0; Tftp.netconns := 0;
  Tftp.progress := []; Tftp.restarted := false |}.

Lemma verify_image_stored (a : Api.world F) start limit D e f ds stop :
  0 <= start -> start mod 4096 = 0 -> limit mod 4096 = 0 -> limit <= sf_chip_size ->
  w_ok a -> sf_ok f -> Forall byteP D -> stored (sf_cell (w_flash a)) start D e (sf_cell f) ->
  let m := put_bytes (sf_cell (w_flash a)) start D in
  layout m start ds stop -> image_end stop <= start + Z.of_nat (length D) -> start + Z.of_nat (length D) + 16 <= sf_chip_size ->
  exists n err, rboot_verify_image start (set_flash a f) =
    Done ((m (image_end stop - 1) =? data_checksum ds, n, err), set_flash a f).
Proof.
  intros H0 H1 H2 H3 Hw Hf HD Hst m Hlay Hend Hchip.
  pose proof (TftpTransfer.verify_stored (as_tftp a) start limit ltac:(done) D e f ds stop Hw Hf HD Hst Hlay Hend Hchip) as E.
  cbv zeta in E. change (TftpProofs.fcell (as_tftp a)) with (sf_cell (w_flash a)) in E. fold m in E. cbn [as_tftp Tftp.api] in E.
  destruct (m (image_end stop - 1) =? data_checksum ds); do 2 eexists; exact E.
Qed.

(** A valid image: the slot becomes the current one. *)
Lemma switch_valid (a : Api.world F) start limit slot D e f w :
  0 <= start -> start mod 4096 = 0 -> limit mod 4096 = 0 -> limit <= sf_chip_size -> 4096 * (BOOT_CONFIG_SECTOR + 1) <= sf_chip_size ->
  w_ok a -> w_alloc a = [] -> sf_ok f -> Forall byteP D -> stored (sf_cell (w_flash a)) start D e (sf_cell f) ->
  image_valid (sf_cell (w_flash a)) start D -> start + Z.of_nat (length D) + 16 <= sf_chip_size ->
  api w = set_flash a f -> byteP slot ->
  let conf := config_of (set_flash a f) in
  slot < get_u8 conf off_count ->
  exists a', switch_rom start slot w = Done (OTA_UPDATE_DONE, with_api w a') /\ w_ok a' /\
    config_of a' = sealed (set_u8 conf off_current_rom slot) /\
    forall x, x < conf_addr \/ conf_addr + sizeof_rboot_config <= x -> sf_cell (w_flash a') x = sf_cell f x.
Proof.
  intros H0 H1 H2 H3 Hconf Hw Ha Hf HD Hst (ds & stop & Hlay & Hend & Hck) Hchip Hapi Hb conf Hslot.
  destruct (verify_image_stored a start limit D e f ds stop) as (n & err & E); try done; [lia|]. rewrite Hck, Z.eqb_refl in E.
  unfold switch_rom. erewrite bind_Done by (apply ota_on_api_Done; rewrite Hapi; exact E). cbn beta iota.
  erewrite bind_Done by (apply ota_on_api_Done; reflexivity). set (w1 := with_api _ _).
  pose proof (set_current_rom_Done Hconf (api w1) slot Hf Ha Hb) as E2.
  change (config_of (api w1)) with conf in E2. rewrite (proj2 (Z.leb_gt _ _)) in E2 by done.
  destruct E2 as (f2 & E2 & Of & C). erewrite bind_Done by (apply ota_on_api_Done; exact E2).
  erewrite bind_Done by (apply ota_on_api_Done; reflexivity).
  assert (Hl : Z.of_nat (length (sealed (set_u8 conf off_current_rom slot))) = sizeof_rboot_config).
  { unfold sealed. rewrite !length_set_u8. apply length_config. }
  eexists. split; [reflexivity|]. split; [exact Of|]. split.
  - exact (config_of_put (api w1) f2 _ Hl C).
  - intros x Hx. etransitivity; [apply C|]. apply put_bytes_out. lia.
Qed.

(** A corrupt one: nothing happens. *)
Lemma switch_corrupt (a : Api.world F) start limit slot D e f w :
  0 <= start -> start mod 4096 = 0 -> limit mod 4096 = 0 -> limit <= sf_chip_size ->
  w_ok a -> sf_ok f -> Forall byteP D -> stored (sf_cell (w_flash a)) start D e (sf_cell f) ->
  image_corrupt (sf_cell (w_flash a)) start D -> start + Z.of_nat (length D) + 16 <= sf_chip_size ->
  api w = set_flash a f ->
  switch_rom start slot w = Done (OTA_IMAGE_VERIFY_FALLIED, w).
Proof.
  intros H0 H1 H2 H3 Hw Hf HD Hst (ds & stop & Hlay & Hend & Hck) Hchip Hapi.
  destruct (verify_image_stored a start limit D e f ds stop) as (n & err & E); try done.
  rewrite (proj2 (Z.eqb_neq _ _)) in E by done.
  unfold switch_rom. erewrite bind_Done by (apply ota_on_api_Done; rewrite Hapi; exact E). rewrite <-Hapi. by rewrite ota_with_api_same.
Qed.

(** ** Whole updates *)

(** The flash outside the slot is as it was. *)
Lemma update_stored_outside (g : Z -> Z) start D e f x :
  stored g start D e f -> Z.of_nat (length D) <= MAX_IMAGE_SIZE -> e <= MAX_IMAGE_SIZE ->
  x < start \/ start + MAX_IMAGE_SIZE <= x -> f x = g x.
Proof. intros Hst HD He Hx. rewrite (Hst x). repeat case_if; zbool; try done; lia. Qed.

(** What an update has done to the rest of the system, apart from the flash. *)
Definition cleaned (i : ota_info) (rest : list connection) c c' : Prop :=
  heap (outer c') = heap (outer c) /\ addrinfos c' = addrinfos c /\ sockets c' = sockets c /\ conns c' = rest /\
  sent c' = sent c ++ sum_requests i ++ [(o_server i, o_port i, req (binary_path i) (o_server i))].

(** What is assumed of the responses and the flash. *)
Record update_served (i : ota_info) (conn : connection) (rest : list connection) (D bs : list Z) c : Prop := {
  us_config : 4096 * (BOOT_CONFIG_SECTOR + 1) <= sf_chip_size;
  us_ok : w_ok (api (outer c));
  us_alloc : w_alloc (api (outer c)) = [];
  us_updatable : updatable (config_of (api (outer c)));
  us_sum : sum_served i (conns c) (conn :: rest) bs /\ length bs = 32%nat;
  us_image : serves (http_inf i (binary_path i) ota_firmaware_dowload_callback) conn D;
  us_bytes : Forall byteP D;
  us_words : Z.of_nat (length D) mod 4 = 0;
  us_fits : Z.of_nat (length D) + 16 <= MAX_IMAGE_SIZE;
}.

(** Up to the verdicts on the image; then the blocks are freed. *)
Lemma update_reaches_verdict i conn rest D bs c :
  let conf := config_of (api (outer c)) in
  let slot := next_slot conf in
  let start := slot_start conf slot in
  update_served i conn rest D bs c ->
  exists c2 f e, sf_ok f /\ stored (fcell (outer c)) start D e (sf_cell f) /\ e <= MAX_IMAGE_SIZE /\
    api (outer c2) = set_flash (api (outer c)) f /\
    forall (err : Z) (a3 : Api.world F),
      (if negb (negb (has_sha i) || bool_decide (sha256 D = bs)) then ret HTTP_SHA_DONT_MATCH else switch_rom start slot) (outer c2)
        = Done (err, with_api (outer c2) a3) ->
      exists c', ota_update i c = Done (err, c') /\ api (outer c') = a3 /\ cleaned i rest c c'.
Proof.
  intros conf slot start [H1 H2 H3 H4 [H5 H6] H7 H8 H9 H10].
  destruct (update_prepares i c H3) as (c1 & [P1 P2 P3 P4 P5 (P6 & P7 & P8 & P9 & P10)] & E). rewrite <-P7 in H5.
  destruct (update_slot_stored i c1 conn rest D bs) as (c2 & f & Hst & E2); try done; rewrite ?P2; try done; [lia|].
  rewrite P2 in E2. fold conf in E2. fold slot in E2. fold start in E2. rewrite P2 in Hst. fold conf in Hst. fold slot in Hst. fold start in Hst.
  destruct (check_sha_Done i start D bs rest c1 c2 f Hst H6) as (w & E3 & A1 & A2 & A3).
  destruct Hst as [[I1 (e & I2 & I3)] I4 I5 _ I6 I7 I8 [I9 I10]].
  exists (with_outer c2 w), f, e. split; [done|]. split; [unfold fcell in *; by rewrite <-P2|]. split; [done|].
  split; [cbn; by rewrite A1, I4, P2|]. intros err a3 Hv. cbn [outer with_outer] in Hv.
  destruct (dealloc_Done i (with_outer c2 (with_api w a3))) as (c' & E4 & D1 & D2 & D3 & D4 & D5 & D6); [exact I6| |].
  { intros Hs. destruct (A3 Hs) as (str & [? ? ? ?]). exists str. by split. }
  exists c'. split; cycle 1.
  { split; [done|]. cbn in *. split; [rewrite D2, A2, I5, P3; lia|]. split; [congruence|]. split; [congruence|].
    split; [congruence|]. rewrite D4, I8, P8. done. }
  rewrite E. unfold bind at 1. rewrite E2. rewrite (bind_Done _ _ _ _ _ E3).
  destruct (negb (negb (has_sha i) || bool_decide (sha256 D = bs))).
  - injection Hv as <- Hw. cbv [ret]. rewrite Hw. by rewrite (bind_Done _ _ _ _ _ E4).
  - erewrite on_outer_Done by exact Hv. by rewrite (bind_Done _ _ _ _ _ E4).
Qed.

End Update.
End HttpOtaUpdate.

(** * Updates over HTTP: any network

    Whatever the server sends and whichever calls fail, [ota_update] ends or
    leaves the C language; it writes to the slot, and may erase the sector
    behind it; the configuration changes only after the image in the slot has
    been verified. *)

Module HttpOtaSafety.
Import Api ApiProofs Image CLib HttpClient HttpDownload HttpEnds HttpOta HttpOtaProofs HttpOtaUpdate.

Create HintDb ota.

Section Safety.
Context {F : Type} `{HF : SdkFlash F} {FL : SdkFlashLaws F} `{HR : RbootH} {RL : RbootHLaws} `{HS : Sha256}.
Implicit Types w : ota F.
Implicit Types c : client (ota F).

(** A write of any number of bytes touches the words of its range only. *)
Definition writes_keep : Prop := forall a buf n f,
  sf_ok f -> 0 <= a -> a mod 4 = 0 -> 0 <= n < 65536 -> a + 4 * ((n + 3) / 4) <= sf_chip_size ->
  exists r f', spi_flash_write a buf n f = Done (r, f') /\ sf_ok f' /\
    forall x, x < a \/ a + 4 * ((n + 3) / 4) <= x -> sf_cell f' x = sf_cell f x.

Context (c0 : Z -> Z).
Let conf : list Z := cells c0 conf_addr sizeof_rboot_config.
Let slot : Z := next_slot conf.
Let start : Z := slot_start conf slot.
Let limit : Z := start + MAX_IMAGE_SIZE.
Hypothesis Hup : updatable conf.
Hypothesis Hreads : TftpSafety.reads_keep.
Hypothesis Hwrites : writes_keep.
Hypothesis Hconf : 4096 * (BOOT_CONFIG_SECTOR + 1) <= sf_chip_size.
(** The sector behind the slot is on the chip and not that of the configuration. *)
Hypothesis Hbehind : limit + 4096 <= sf_chip_size /\ (conf_addr + 4096 <= start \/ limit + 4096 <= conf_addr).

(** Only the slot and the sector behind it may differ from [c0]. *)
Definition kept (a : Api.world F) : Prop :=
  w_ok a /\ w_alloc a = [] /\ (forall x, byteP (w_junk a x)) /\ forall x, x < start \/ limit + 4096 <= x -> cell a x = c0 x.

Definition keeps w : Prop := kept (api w).

Lemma update_slot_range : 0 <= start /\ start mod 4096 = 0 /\ limit mod 4096 = 0 /\ limit = start + 1048576.
Proof.
  destruct Hup as [_ _ H1 H2 _ _]. fold slot start in H1, H2. unfold limit, MAX_IMAGE_SIZE in *. divlia.
Qed.

Lemma kept_conf a : kept a -> config_of a = conf.
Proof.
  intros (_ & _ & _ & Hc). pose proof rb_sizeof. destruct Hbehind as [_ Hb]. apply cells_ext. intros x Hx. apply Hc. lia.
Qed.

(** While the image is downloaded. *)
Definition writing w : Prop :=
  keeps w /\ start <= flash_offset w <= limit /\ flash_offset w mod 4096 = 0 /\ flash_limits w = limit.

(** Changes of other variables. *)
Lemma ota_modify_keeps (P : ota F -> Prop) g : (forall w, P w -> P (g w)) -> ends P (modify g) (fun _ => P).
Proof. intros H w. apply H. Qed.

Lemma ends_deref {A} (P : ota F -> Prop) (o : option A) : ends P (deref o) (fun _ => P).
Proof. destruct o; [by apply ends_ret|done]. Qed.

Lemma ends_get (P : ota F -> Prop) : ends P get (fun w w' => w' = w /\ P w).
Proof. done. Qed.

(** ** The callbacks *)

Lemma sha_callback_keeps (P : ota F -> Prop) buf n :
  (forall w s k, P w -> P (with_sha w (SHA256_output w) (SHA256_dowload w) s k)) ->
  ends P (SHA256_check_callback buf n) (fun _ => P).
Proof.
  intros HP w Hw. unfold SHA256_check_callback. erewrite bind_Done by reflexivity. case_if; [exact Hw|].
  destruct (SHA256_str w) as [str|]; [|done]. erewrite bind_Done by reflexivity. case_if; [done|].
  erewrite bind_Done by reflexivity. cbn. by apply HP.
Qed.

(** One more piece; full ones keep the offset at the start of a sector. *)
Lemma firmware_callback_keeps buf n :
  0 <= n < 65536 ->
  ends writing (ota_firmaware_dowload_callback buf n) (fun _ w => keeps w /\ (n = 4096 -> writing w)).
Proof.
  intros Hn w Hw. pose proof update_slot_range as (R1 & R2 & R3 & R4). pose proof sf_size_bound. destruct Hbehind as [Hb _].
  unfold ota_firmaware_dowload_callback. erewrite bind_Done by reflexivity.
  destruct (ota_inf w) as [i|]; [|done]. erewrite bind_Done by reflexivity.
  assert (Hsha : ends writing (if has_sha i then
      let! ctx := deref (sha256_ctx w) in
      if Z.of_nat (length buf) <? n then undefined
      else modify (fun w => with_ctx w (Some (mbedtls_sha256_update ctx (take (Z.to_nat n) buf)))) else ret tt) (fun _ => writing)).
  { destruct (has_sha i); [|by apply ends_ret]. eapply ends_bind; [apply ends_deref|]. intros ctx. case_if; [done|].
    intros w1 Hw1. exact Hw1. }
  specialize (Hsha w Hw). unfold bind at 1.
  destruct (if has_sha i then _ else _) as [[[] w1]| |]; [|done..]. clear w Hw. rename w1 into w, Hsha into Hw.
  pose proof Hw as ((K1 & K2 & K3 & K4) & W1 & W2 & W3). erewrite bind_Done by reflexivity. rewrite W3.
  rewrite u32_small by lia. case_if; zbool; [by split; [destruct Hw|]|]. rewrite rb_sector, (proj2 (Z.eqb_eq _ 0)) by done.
  destruct (sf_erase_ok (w_flash (api w)) (flash_offset w / 4096)) as (f1 & E1 & O1 & C1); [done|divlia|divlia|].
  erewrite bind_Done; cycle 1.
  { rewrite u16_small by divlia. erewrite bind_Done by (apply ota_on_api_Done; apply on_flash_Done; exact E1). reflexivity. }
  case_if; [done|].
  destruct (Hwrites (flash_offset w) (as_mem buf) n f1) as (r & f2 & E2 & O2 & C2); [done|lia|divlia|lia|divlia|].
  erewrite bind_Done by (apply ota_on_api_Done; apply on_flash_Done; exact E2). erewrite bind_Done by reflexivity. cbn [ret].
  assert (Hk : kept (set_flash (set_flash (api w) f1) f2)).
  { do 3 (split; [done|]). intros x Hx. cbn. rewrite C2 by divlia. rewrite C1. unfold erase_bytes. case_if; zbool; [divlia|].
    apply K4. done. }
  split; [exact Hk|]. intros ->. split; [exact Hk|]. cbn. rewrite u32_small by lia. split; [lia|]. split; [divlia|done].
Qed.

(** ** The allocator and the checksum *)

Lemma malloc_keeps P : (forall w n, P w -> P (with_heap w n)) -> (forall w, P w -> keeps w) -> ends P malloc (fun _ => P).
Proof.
  intros H1 H2 w Hw. pose proof (H2 w Hw) as (_ & Ha & _). rewrite (ota_malloc_Done w Ha). by apply H1.
Qed.

Lemma free_keeps P : (forall w n, P w -> P (with_heap w n)) -> ends P free (fun _ => P).
Proof. intros H w Hw. by apply H. Qed.

Lemma malloc_object_keeps n : ends keeps (malloc_object n) (fun _ => keeps).
Proof. intros w Hw. pose proof Hw as (_ & Ha & _). by rewrite (malloc_object_Done w n Ha). Qed.

Lemma free_object_keeps {A} (o : option A) : ends keeps (free_object o) (fun _ => keeps).
Proof. intros w Hw. unfold free_object. by case_if. Qed.

(** [keeps] is about the API only. *)
Lemma keeps_modify_api g : (forall w, api (g w) = api w) -> ends keeps (modify g) (fun _ => keeps).
Proof. intros H w Hw. unfold modify, keeps. by rewrite H. Qed.

Hint Resolve ends_deref ends_get malloc_object_keeps free_object_keeps : ota.
Hint Extern 3 (ends _ (modify _) _) => by apply keeps_modify_api : ota.
Hint Extern 3 (ends keeps malloc _) => by apply malloc_keeps : ota.

(** A step that keeps it. *)
Ltac step := apply ends_bind with (fun _ => keeps); [solve [eauto with ota]|]; intros ?.

Lemma alloc_sha_keeps : ends keeps alloc_sha (fun _ => keeps).
Proof. unfold alloc_sha. do 6 step. case_if; [done|]. by apply keeps_modify_api. Qed.

Lemma get_keeps {A} (k : ota F -> M (ota F) A) Q : (forall w, ends keeps (k w) Q) -> ends keeps (let! w := get in k w) Q.
Proof. intros H w Hw. by apply H. Qed.

Lemma clear_sha_keeps : ends keeps clear_sha (fun _ => keeps).
Proof. apply get_keeps. intros w. do 2 step. by apply keeps_modify_api. Qed.

Lemma convert_sha_keeps : ends keeps convert_sha (fun _ => keeps).
Proof. apply get_keeps. intros w. do 3 step. by apply keeps_modify_api. Qed.

Lemma start_sha_keeps : ends writing start_sha (fun _ => writing).
Proof.
  intros w Hw. unfold start_sha. erewrite bind_Done by reflexivity. destruct (sha256_ctx w); [|done]. exact Hw.
Qed.

Lemma check_sha_keeps : ends keeps check_sha (fun _ => keeps).
Proof. apply get_keeps. intros w. do 5 step. by apply ends_ret. Qed.

(** ** The downloads *)

Lemma on_outer_keeps {A} (P : ota F -> Prop) (m : M (ota F) A) Q :
  ends P m Q -> ends (fun c => P (outer c)) (on_outer m) (fun a c => Q a (outer c)).
Proof. intros H c Hc. specialize (H (outer c) Hc). unfold on_outer. by destruct (m (outer c)) as [[a w]| |]. Qed.

Lemma sha_dowload_keeps i p :
  ends (fun c => writing (outer c)) (HttpClient_dowload (http_inf i p SHA256_check_callback)) (fun _ c => writing (outer c)).
Proof.
  apply (dowload_ends writing); try done.
  - apply malloc_keeps; [done|by intros w []].
  - by apply free_keeps.
  - intros buf. by apply sha_callback_keeps.
  - intros buf n _. by apply sha_callback_keeps.
Qed.

Lemma image_dowload_keeps i p :
  ends (fun c => writing (outer c)) (HttpClient_dowload (http_inf i p ota_firmaware_dowload_callback)) (fun _ c => keeps (outer c)).
Proof.
  assert (H4096 : u16 (u16 SECTOR_SIZE) = 4096) by (rewrite rb_sector; done).
  apply (dowload_ends writing); try done.
  - apply malloc_keeps; [done|by intros w []].
  - by apply free_keeps.
  - intros buf. cbn. rewrite H4096. eapply ends_weaken; [apply firmware_callback_keeps; lia|done|].
    intros r w [_ H]. by apply H.
  - intros buf n Hn. eapply ends_weaken; [by apply (firmware_callback_keeps buf n)|done|by intros r w [H _]].
  - by intros w [].
Qed.

(** ** The switch *)

(** The image in the slot was verified, and the slot is the current one. *)
Definition switched w : Prop :=
  (forall x, x < start \/ limit + 4096 <= x -> x < conf_addr \/ conf_addr + sizeof_rboot_config <= x -> fcell w x = c0 x) /\
  get_u8 (config_of (api w)) off_current_rom = slot /\
  exists n s s' err, rboot_verify_image start s = Done ((true, n, err), s') /\
    forall x, start <= x < limit -> cell s x = fcell w x.

(** What is known when [ota_update] returns [err]. *)
Definition outcome_ok (err : Z) w : Prop := keeps w \/ (err = OTA_UPDATE_DONE /\ switched w).

Lemma verify_keeps a : kept a ->
  match rboot_verify_image start a with
  | Done (r, a') => kept a' /\ forall x, cell a' x = cell a x
  | OutOfFuel => False
  | Undefined => True
  end.
Proof.
  intros (K1 & K2 & K3 & K4).
  pose proof (rboot_verify_image_ends (fun b => w_ok b /\ w_alloc b = [] /\ forall x, cell b x = cell a x)) as H.
  specialize (H ltac:(intros b n v (V1 & V2 & V3); destruct (Hreads b n (w_flash v) V1) as (r & bs & f' & E & Hb & Ok & C);
    exists r, bs, f'; repeat split; try done; intros x; by rewrite <-V3)).
  specialize (H start a (conj (conj K1 (conj K2 (fun x => eq_refl))) K3)).
  destruct (rboot_verify_image start a) as [[r a']| |]; [|done..]. destruct H as ((Ok & Al & C) & J).
  split; [|done]. do 3 (split; [done|]). intros x Hx. rewrite C. by apply K4.
Qed.

Lemma switch_rom_keeps U : (forall a, kept a -> rboot_verify_image start a = Undefined -> U) ->
  ends_or U keeps (switch_rom start slot) outcome_ok.
Proof.
  intros HU.
  pose proof (TftpServer.next_slot_ok conf Hup) as [Hsl _]. fold slot in Hsl. pose proof update_slot_range as (R1 & R2 & R3 & R4).
  pose proof rb_sizeof. pose proof rb_current_rom. intros w Hw. unfold switch_rom. pose proof (verify_keeps (api w) Hw) as Hv.
  unfold bind at 1, on_api at 1. destruct (rboot_verify_image start (api w)) as [[[[ok n] err] a]| |] eqn:E; [|done|by apply (HU (api w))].
  destruct Hv as [Ka Ca]. destruct ok; [|by left]. erewrite bind_Done by (apply ota_on_api_Done; reflexivity).
  set (w1 := with_api _ _). assert (Kw : kept (api w1)) by done. pose proof Kw as (K1 & K2 & K3 & K4).
  pose proof (kept_conf _ Kw) as Hc.
  assert (Hb : byteP (get_u8 conf off_count)) by (rewrite <-Hc; by apply as_mem_byte, config_byte).
  pose proof (set_current_rom_Done Hconf (api w1) slot K1 K2 ltac:(unfold byteP in *; lia)) as E2.
  rewrite Hc, (proj2 (Z.leb_gt _ _)) in E2 by lia. destruct E2 as (f & E2 & Of & C).
  erewrite bind_Done by (apply ota_on_api_Done; exact E2). erewrite bind_Done by (apply ota_on_api_Done; reflexivity). cbn [ret].
  assert (Hl : Z.of_nat (length (sealed (set_u8 conf off_current_rom slot))) = sizeof_rboot_config).
  { unfold sealed. rewrite !length_set_u8, <-Hc. apply length_config. }
  right. split; [done|]. unfold switched, fcell. cbn [api with_api].
  assert (Hx : forall x, x < conf_addr \/ conf_addr + sizeof_rboot_config <= x -> sf_cell f x = cell a x).
  { intros x Hx. etransitivity; [apply C|]. rewrite put_bytes_out by lia. done. }
  split; [|split].
  - intros x H1 H2. etransitivity; [by apply Hx|]. by apply K4.
  - change (get_u8 (config_of (set_flash (api w1) f)) off_current_rom = slot).
    rewrite (config_of_put (api w1) f _ Hl C). pose proof (length_config (api w1)) as Hlc. rewrite Hc in Hlc.
    unfold sealed. rewrite get_set_u8_ne, get_set_u8 by lia. done.
  - exists n, (api w), a, err. split; [done|]. intros x Hr. destruct Hbehind as [_ Hb2]. rewrite <-Ca. symmetry. apply Hx. lia.
Qed.

(** ** The update *)

Lemma download_sha_keeps i :
  ends (fun c => writing (outer c)) (download_sha i) (fun _ c => writing (outer c)).
Proof.
  assert (Hmod : forall m : M (ota F) unit, ends keeps m (fun _ => keeps) ->
    (forall w u w', m w = Done (u, w') -> flash_offset w' = flash_offset w /\ flash_limits w' = flash_limits w) ->
    ends writing m (fun _ => writing)).
  { intros m Hk Hsame w (K & W1 & W2 & W3). specialize (Hk w K). destruct (m w) as [[u w']| |] eqn:E; [|done..].
    destruct (Hsame w u w' E) as [E1 E2]. split; [done|]. by rewrite E1, E2. }
  unfold download_sha. destruct (sha256_path i) as [p|]; [|by apply ends_ret].
  apply ends_bind with (fun _ c => writing (outer c)).
  { apply on_outer_keeps, Hmod; [apply clear_sha_keeps|]. intros w u w' E. unfold clear_sha, bind, get, deref, modify in E.
    destruct (SHA256_dowload w), (SHA256_str w); by simplify_eq/=. }
  intros ?. eapply ends_bind; [apply sha_dowload_keeps|]. intros err. case_if; [by apply ends_ret|].
  apply ends_bind with (fun _ c => writing (outer c)); [|intros ?; by apply ends_ret].
  apply on_outer_keeps, Hmod; [apply convert_sha_keeps|]. intros w u w' E. unfold convert_sha, bind, get, deref, modify in E.
  destruct (SHA256_str w) as [s|], (SHA256_dowload w) as [d|]; try done.
  cbn in E. destruct (convert_SHA256_Str_TO_uint32 s d); by simplify_eq/=.
Qed.

Lemma update_slot_keeps i : ends (fun c => keeps (outer c)) (update_slot i) (fun err c => outcome_ok err (outer c)).
Proof.
  pose proof (TftpServer.next_slot_ok conf Hup) as [Hsl Hne]. fold slot in Hsl, Hne. pose proof update_slot_range as (R1 & R2 & R3 & R4).
  pose proof sf_size_bound. pose proof Hbehind as [Hb1 _]. pose proof Hup as [U1 U2 U3 U4 U5 U6]. fold slot start in U3, U4, U5, U6.
  assert (Hret : forall (P : ota F -> Prop) (x : Z), (forall w, P w -> keeps w) ->
    ends (fun c => P (outer c)) (ret x) (fun err c => outcome_ok err (outer c))).
  { intros P x HP. apply ends_ret. intros c Hc. left. by apply HP. }
  unfold update_slot. apply ends_bind with (fun cf c => cf = conf /\ keeps (outer c)).
  { intros c Hc. pose proof Hc as (K1 & _). erewrite on_outer_Done by (apply ota_on_api_Done; by apply get_config_Done).
    rewrite ota_with_api_same. split; [by apply kept_conf|exact Hc]. }
  intros cf. apply ends_and. intros ->. cbv zeta. rewrite (proj2 (Z.eqb_neq (get_u8 conf off_count) 0)) by lia.
  fold (next_slot conf). fold slot. rewrite (proj2 (Z.eqb_neq _ _)), (proj2 (Z.leb_gt _ _)) by lia.
  fold (slot_start conf slot). fold start. rewrite u32_small by (unfold MAX_IMAGE_SIZE; lia). fold limit.
  apply ends_bind with (fun _ c => writing (outer c)).
  { intros c Hc. split; [exact Hc|]. change (start <= start <= limit /\ start mod 4096 = 0 /\ limit = limit).
    split; [lia|done]. }
  intros ?. eapply ends_bind; [apply download_sha_keeps|]. intros [err|]; [by apply (Hret writing); intros w []|].
  apply ends_bind with (fun _ c => writing (outer c)).
  { destruct (has_sha i); [|by apply ends_ret]. apply on_outer_keeps, start_sha_keeps. }
  intros ?. eapply ends_bind; [apply image_dowload_keeps|]. intros err. case_if; [by apply (Hret keeps)|].
  apply ends_bind with (fun _ c => keeps (outer c)).
  { destruct (has_sha i); [|by apply ends_ret]. apply on_outer_keeps, check_sha_keeps. }
  intros ok. case_if; [by apply (Hret keeps)|]. by apply on_outer_keeps, (switch_rom_keeps True).
Qed.

(** What the clean-up keeps. *)
Lemma dealloc_keeps i (P : ota F -> Prop) :
  (forall w n, P w -> P (with_heap w n)) -> (forall w, P w -> P (with_ctx (with_sha w None None None 0) None)) ->
  ends (fun c => P (outer c)) (dealloc_all i) (fun _ c => P (outer c)).
Proof.
  intros H1 H2.
  assert (Hf : forall A (o : option A), ends P (free_object o) (fun _ => P)).
  { intros A o w Hw. unfold free_object. case_if; [by apply H1|done]. }
  intros c Hc. unfold dealloc_all. erewrite bind_Done by reflexivity. generalize (buffer c). intros b. revert c Hc.
  apply (ends_elim True (fun c => P (outer c))). eapply ends_bind; [apply on_outer_keeps, Hf|]. intros ?.
  apply ends_bind with (fun _ c => P (outer c)); [by intros c Hc|]. intros ?. destruct (has_sha i); [|by apply ends_ret].
  apply on_outer_keeps. intros w Hw. erewrite bind_Done by reflexivity.
  generalize (sha256_ctx w) (SHA256_str w) (SHA256_output w) (SHA256_dowload w). intros o1 o2 o3 o4. revert w Hw.
  apply (ends_elim True P). do 4 (eapply ends_bind; [apply Hf|]; intros ?). intros w Hw. by apply H2.
Qed.

Lemma ota_update_keeps i : ends (fun c => keeps (outer c)) (ota_update i) (fun err c => outcome_ok err (outer c)).
Proof.
  unfold ota_update. apply ends_bind with (fun _ c => keeps (outer c)); [by intros c Hc|]. intros ?.
  eapply ends_bind; [apply on_outer_keeps, malloc_object_keeps|]. intros buf.
  apply ends_bind with (fun _ c => keeps (outer c)); [by intros c Hc|]. intros ?.
  apply ends_bind with (fun _ c => keeps (outer c)).
  { destruct (has_sha i); [|by apply ends_ret]. apply on_outer_keeps, alloc_sha_keeps. }
  intros ?. eapply ends_bind; [apply update_slot_keeps|]. intros err.
  eapply ends_bind; [apply (dealloc_keeps i (outcome_ok err)); auto|]. intros ?. by apply ends_ret.
Qed.

(** ** Staying in the language *)

Lemma free_object_total {A} (o : option A) w : exists w', free_object o w = Done (tt, w').
Proof. unfold free_object. case_if; by eexists. Qed.

Lemma dealloc_total i c : exists c', dealloc_all i c = Done (tt, c').
Proof.
  unfold dealloc_all. erewrite bind_Done by reflexivity. destruct (free_object_total (buffer c) (outer c)) as [w1 E1].
  rewrite (bind_Done _ _ _ _ _ (on_outer_Done _ c _ _ E1)). erewrite bind_Done by reflexivity. destruct (has_sha i); [|by eexists].
  unfold on_outer. cbn [outer with_buffer with_outer]. erewrite bind_Done by reflexivity.
  destruct (free_object_total (sha256_ctx w1) w1) as [w2 E2]. rewrite (bind_Done _ _ _ _ _ E2).
  destruct (free_object_total (SHA256_str w1) w2) as [w3 E3]. rewrite (bind_Done _ _ _ _ _ E3).
  destruct (free_object_total (SHA256_output w1) w3) as [w4 E4]. rewrite (bind_Done _ _ _ _ _ E4).
  destruct (free_object_total (SHA256_dowload w1) w4) as [w5 E5]. rewrite (bind_Done _ _ _ _ _ E5). by eexists.
Qed.

(** The blocks of an update. *)
Definition held (i : ota_info) w : Prop :=
  ota_inf w = Some i /\ (has_sha i = true ->
    is_Some (sha256_ctx w) /\ is_Some (SHA256_output w) /\ (exists bin, SHA256_dowload w = Some bin /\ length bin = 32%nat) /\
    exists str, SHA256_str w = Some str /\ length str = 65%nat).

Definition has_buffer c : Prop := exists buf, buffer c = Some buf /\ length buf = 4096%nat.

Lemma sha_callback_held i buf n w :
  held i w -> has_sha i = true -> SHA256_wrt_ptr w = 0 -> 0 <= n <= Z.of_nat (length buf) ->
  exists r w', SHA256_check_callback buf n w = Done (r, w') /\ held i w'.
Proof.
  intros (H1 & H2) Hs Hp Hn. destruct (H2 Hs) as (C & O & D & str & S & L).
  unfold SHA256_check_callback, SHA256_SIZE_STR, SHA256_SIZE_BIN. change (32 * 2) with 64. erewrite bind_Done by reflexivity.
  rewrite Hp, S. cbn [Z.ltb Z.compare]. erewrite bind_Done by reflexivity. set (m := if 64 <? n then 64 else n).
  assert (0 <= m <= 64 /\ m <= n) by (unfold m; case_if; zbool; lia). rewrite !(proj2 (Z.ltb_ge _ _)) by lia.
  cbn [orb]. erewrite bind_Done by reflexivity. do 2 eexists. split; [reflexivity|]. split; [done|]. intros _. split_and!; try done.
  eexists. split; [reflexivity|]. by rewrite length_inserts.
Qed.

Lemma firmware_callback_held i buf n w :
  writing w -> held i w -> 0 <= n <= Z.of_nat (length buf) -> n < 65536 ->
  exists r w', ota_firmaware_dowload_callback buf n w = Done (r, w') /\ held i w'.
Proof.
  intros Hw [H1 H2] Hn Hn'. pose proof update_slot_range as (R1 & R2 & R3 & R4). pose proof sf_size_bound. destruct Hbehind as [Hb _].
  destruct Hw as ((K1 & _) & W1 & W2 & W3).
  unfold ota_firmaware_dowload_callback. erewrite bind_Done by reflexivity. rewrite H1. erewrite bind_Done by reflexivity.
  assert (Hsha : exists ctx, (if has_sha i then
      let! ctx := deref (sha256_ctx w) in
      if Z.of_nat (length buf) <? n then undefined
      else modify (fun w => with_ctx w (Some (mbedtls_sha256_update ctx (take (Z.to_nat n) buf)))) else ret tt) w = Done (tt, with_ctx w ctx) /\
      (has_sha i = true -> is_Some ctx)).
  { destruct (has_sha i); [|exists (sha256_ctx w); by destruct w]. destruct (H2 eq_refl) as ((x & Hx) & _).
    rewrite Hx. erewrite bind_Done by reflexivity. rewrite (proj2 (Z.ltb_ge _ _)) by lia. eexists. split; [reflexivity|done]. }
  destruct Hsha as (ctx & E & Hctx). rewrite (bind_Done _ _ _ _ _ E). erewrite bind_Done by reflexivity.
  assert (Hheld : forall a o l, held i (with_flash_range (with_api (with_ctx w ctx) a) o l)).
  { intros a o l. split; [done|]. intros Hs. destruct (H2 Hs) as (_ & O & D & S). split_and!; auto. }
  cbn [flash_limits flash_offset with_ctx]. rewrite W3, u32_small by lia.
  case_if; zbool; [do 2 eexists; split; [reflexivity|]; specialize (Hheld (api w) (flash_offset w) (flash_limits w)); exact Hheld|].
  rewrite rb_sector, (proj2 (Z.eqb_eq _ 0)) by done.
  destruct (sf_erase_ok (w_flash (api w)) (flash_offset w / 4096)) as (f1 & E1 & O1 & C1); [done|divlia|divlia|].
  erewrite bind_Done; cycle 1.
  { rewrite u16_small by divlia. erewrite bind_Done by (apply ota_on_api_Done; apply on_flash_Done; exact E1). reflexivity. }
  rewrite (proj2 (Z.ltb_ge _ _)) by lia.
  destruct (Hwrites (flash_offset w) (as_mem buf) n f1) as (r & f2 & E2 & O2 & C2); [done|lia|divlia|lia|divlia|].
  erewrite bind_Done by (apply ota_on_api_Done; apply on_flash_Done; exact E2). erewrite bind_Done by reflexivity.
  do 2 eexists. split; [reflexivity|]. apply Hheld.
Qed.

Lemma convert_loop_total k : forall j str bin,
  0 <= j -> 4 * (j + Z.of_nat k) <= Z.of_nat (length str) -> 2 * (j + Z.of_nat k) <= Z.of_nat (length bin) ->
  exists bin', convert_loop k j str bin = Some bin' /\ length bin' = length bin.
Proof.
  induction k as [|k IH]; intros j str bin Hj Hs Hb; cbn [convert_loop]; [by exists bin|].
  unfold SHA256_CONV_STEP_SIZE. rewrite !(proj2 (Z.ltb_ge _ _)) by lia. cbn [orb].
  destruct (c_string_some (sub_bytes str (j * 4) 4 ++ [0])) as [tmp ->]; [set_solver|].
  destruct (IH (j + 1) str (list_inserts (Z.to_nat (2 * j)) (le_bytes 2 (htons (u16 (fst (strtol 16 tmp))))) bin)) as (bin' & E & L);
    rewrite ?length_inserts; try lia. rewrite length_inserts in L. by exists bin'.
Qed.

Lemma convert_sha_held i w : held i w -> has_sha i = true -> exists w', convert_sha w = Done (tt, w') /\ held i w'.
Proof.
  intros (H1 & H2) Hs. destruct (H2 Hs) as (C & O & (bin & D & LD) & str & S & L).
  destruct (convert_loop_total 16 0 str bin) as (bin' & E & L'); [lia..|].
  unfold convert_sha. erewrite bind_Done by reflexivity. rewrite S, D. do 2 (erewrite bind_Done by reflexivity).
  change (convert_SHA256_Str_TO_uint32 str bin) with (convert_loop 16 0 str bin). rewrite E. erewrite bind_Done by reflexivity.
  eexists. split; [reflexivity|]. split; [done|]. intros _. split_and!; try done; [|by exists str].
  exists bin'. split; [done|congruence].
Qed.

Lemma clear_sha_held i w str : ota_inf w = Some i -> sha_blocks w str -> length str = 65%nat ->
  exists w', clear_sha w = Done (tt, w') /\ held i w' /\ SHA256_wrt_ptr w' = SHA256_wrt_ptr w.
Proof.
  intros Hi [C O [bin D] S] L. unfold clear_sha. erewrite bind_Done by reflexivity. rewrite D, S. do 2 (erewrite bind_Done by reflexivity).
  eexists. split; [reflexivity|]. split; [|done]. split; [done|]. intros _. split_and!; try done; eexists; split; try reflexivity.
  change (Z.to_nat SHA256_SIZE_STR) with 64%nat. rewrite length_app, length_replicate, length_drop. lia.
Qed.

(** What a network may do for an update to stay in the C language. *)
Definition tame_network (i : ota_info) c : Prop :=
  let image := http_inf i (binary_path i) ota_firmaware_dowload_callback : Http_client_info (ota F) in
  match sha256_path i with
  | None => tame image (next_connection (conns c)) (fun _ => True)
  | Some p =>
    tame (http_inf i p SHA256_check_callback : Http_client_info (ota F)) (next_connection (conns c))
      (fun B => Z.of_nat (length B) < 4096) /\
    tame image (next_connection (tail (conns c))) (fun _ => True)
  end.

Lemma buffer_4096 i p cb : Z.to_nat (buffer_size (http_inf i p cb : Http_client_info (ota F))) = 4096%nat.
Proof. by rewrite http_size. Qed.

(** The download of the checksum. *)
Lemma sha_dowload_held i p c :
  tame (http_inf i p SHA256_check_callback : Http_client_info (ota F)) (next_connection (conns c)) (fun B => Z.of_nat (length B) < 4096) -> has_sha i = true ->
  writing (outer c) -> held i (outer c) -> SHA256_wrt_ptr (outer c) = 0 -> has_buffer c ->
  exists r c', HttpClient_dowload (http_inf i p SHA256_check_callback) c = Done (r, c') /\
    writing (outer c') /\ held i (outer c') /\ conns c' = tail (conns c) /\ has_buffer c'.
Proof.
  intros Ht Hs Hw Hh Hp (buf & Hb & Hl). set (info := http_inf i p SHA256_check_callback : Http_client_info (ota F)) in *.
  assert (Hsz : buffer_size info = 4096) by apply http_size.
  destruct (dowload_tame info ltac:(lia) _ (fun D w => D = [] /\ held i w /\ SHA256_wrt_ptr w = 0) (held i) buf c Ht) as (r & c' & E & H1 & H2 & H3).
  - intros B HB. split.
    + intros D b w (-> & _) Hlb [k Hk]. apply (f_equal length) in Hk. rewrite length_app in Hk. cbn [app] in Hk. lia.
    + intros D b n w (_ & H1 & H2) Hlb Hn _. apply sha_callback_held; try done. lia.
  - by intros w (_ & H & _).
  - done.
  - unfold info. by rewrite buffer_4096.
  - apply Hw.
  - done.
  - exists r, c'. split; [exact E|]. pose proof (sha_dowload_keeps i p c Hw) as Hk. fold info in Hk. rewrite E in Hk. unfold info in H3. rewrite buffer_4096 in H3. done.
Qed.

(** The download of the image. *)
Lemma image_dowload_held i c :
  let info := http_inf i (binary_path i) ota_firmaware_dowload_callback : Http_client_info (ota F) in
  tame info (next_connection (conns c)) (fun _ => True) ->
  writing (outer c) -> held i (outer c) -> has_buffer c ->
  exists r c', HttpClient_dowload info c = Done (r, c') /\ keeps (outer c') /\ held i (outer c') /\ has_buffer c'.
Proof.
  intros info Ht Hw Hh (buf & Hb & Hl). pose proof (http_size (F := F) i (binary_path i) ota_firmaware_dowload_callback) as Hsz. fold info in Hsz.
  destruct (dowload_tame info ltac:(lia) _ (fun _ w => writing w /\ held i w) (held i) buf c Ht) as (r & c' & E & H1 & _ & H3).
  - intros B _. split.
    + intros D b w (H1 & H2) Hlb _. destruct (firmware_callback_held i b 4096 w H1 H2) as (r & w' & E & H'); [lia..|].
      pose proof (firmware_callback_keeps b 4096 ltac:(lia) w H1) as Hk. rewrite E in Hk. exists r, w'. rewrite Hsz. split; [exact E|].
      split; [by apply Hk|done].
    + intros D b n w (H1 & H2) Hlb Hn _. apply firmware_callback_held; try done; lia.
  - by intros w (_ & H).
  - done.
  - unfold info. by rewrite buffer_4096.
  - apply Hw.
  - done.
  - exists r, c'. split; [exact E|]. pose proof (image_dowload_keeps i (binary_path i) c Hw) as Hk. fold info in Hk. rewrite E in Hk.
    unfold info in H3. rewrite buffer_4096 in H3. done.
Qed.

(** The checksum, if one is asked for. *)
Lemma download_sha_held i c :
  let image := http_inf i (binary_path i) ota_firmaware_dowload_callback : Http_client_info (ota F) in
  tame_network i c -> writing (outer c) -> ota_inf (outer c) = Some i -> has_buffer c ->
  (has_sha i = true -> exists str, sha_blocks (outer c) str /\ length str = 65%nat /\ drop 64 str = [0] /\ SHA256_wrt_ptr (outer c) = 0) ->
  exists r c', download_sha i c = Done (r, c') /\
    (r = None -> held i (outer c') /\ has_buffer c' /\ tame image (next_connection (conns c')) (fun _ => True)).
Proof.
  intros image Ht Hw Hi Hb Hsha. unfold download_sha, tame_network in *. destruct (sha256_path i) as [p|] eqn:Hp; cycle 1.
  { do 2 eexists. split; [reflexivity|]. intros _. split; [|by split].
    split; [exact Hi|]. unfold has_sha. by rewrite Hp. }
  destruct Ht as [Ht1 Ht2]. assert (Hs : has_sha i = true) by (unfold has_sha; by rewrite Hp).
  destruct (Hsha Hs) as (str & Hbl & Hl & _ & Hp0). destruct (clear_sha_held i (outer c) str Hi Hbl Hl) as (w & E & Hh & Hpw).
  rewrite (bind_Done _ _ _ _ _ (on_outer_Done _ c _ _ E)).
  assert (Hww : writing w).
  { destruct Hw as (K & W1 & W2 & W3). pose proof (clear_sha_keeps (outer c) K) as Hk. rewrite E in Hk.
    revert E. unfold clear_sha, bind, get, deref, modify. destruct (SHA256_dowload (outer c)), (SHA256_str (outer c)); intros; by simplify_eq/=. }
  destruct (sha_dowload_held i p (with_outer c w) Ht1 Hs Hww Hh ltac:(cbn; congruence) Hb) as (err & c2 & E2 & Hw2 & Hh2 & Hc2 & Hb2).
  rewrite (bind_Done _ _ _ _ _ E2). case_if; [do 2 eexists; by split|].
  destruct (convert_sha_held i (outer c2) Hh2 Hs) as (w3 & E3 & Hh3).
  rewrite (bind_Done _ _ _ _ _ (on_outer_Done _ c2 _ _ E3)). do 2 eexists. split; [reflexivity|]. intros _.
  cbn [outer with_outer conns]. rewrite Hc2. split_and!; try done.
Qed.

Lemma start_sha_held i c : writing (outer c) -> held i (outer c) ->
  exists w, (if has_sha i then on_outer start_sha else ret tt) c = Done (tt, with_outer c w) /\ writing w /\ held i w.
Proof.
  intros Hw [H1 H2]. destruct (has_sha i) eqn:Hs; cycle 1.
  { exists (outer c). rewrite with_outer_same. split; [done|]. split; [exact Hw|]. split; [exact H1|]. by rewrite Hs. }
  destruct (H2 eq_refl) as ((x & Hx) & O & D & S). eexists. split.
  - apply on_outer_Done. unfold start_sha. erewrite bind_Done by reflexivity. rewrite Hx. reflexivity.
  - split; [exact Hw|]. split; [exact H1|]. intros _. split; [done|]. split; [exact O|]. by split.
Qed.

(** With a tame network only the verification can leave the language. *)
Lemma update_slot_undefined i c :
  keeps (outer c) -> ota_inf (outer c) = Some i -> has_buffer c ->
  (has_sha i = true -> exists str, sha_blocks (outer c) str /\ length str = 65%nat /\ drop 64 str = [0] /\ SHA256_wrt_ptr (outer c) = 0) ->
  tame_network i c ->
  update_slot i c = Undefined -> exists a, kept a /\ rboot_verify_image start a = Undefined.
Proof.
  intros Hk Hi Hb Hsha Ht. pose proof (TftpServer.next_slot_ok conf Hup) as [Hsl Hne]. fold slot in Hsl, Hne.
  pose proof update_slot_range as (R1 & R2 & R3 & R4). pose proof sf_size_bound. pose proof Hup as [U1 U2 U3 U4 U5 U6].
  fold slot start in U3, U4, U5, U6. destruct Hbehind as [Hb1 _].
  unfold update_slot. erewrite bind_Done by (apply on_outer_Done, ota_on_api_Done, get_config_Done; [done|apply Hk]).
  rewrite ota_with_api_same, with_outer_same, (kept_conf _ Hk). cbv zeta. rewrite (proj2 (Z.eqb_neq (get_u8 conf off_count) 0)) by lia.
  fold (next_slot conf). fold slot. rewrite (proj2 (Z.eqb_neq _ _)), (proj2 (Z.leb_gt _ _)) by lia.
  fold (slot_start conf slot). fold start. rewrite u32_small by (unfold MAX_IMAGE_SIZE; lia). fold limit.
  erewrite bind_Done by (apply on_outer_Done; reflexivity). set (c1 := with_outer c _).
  assert (Hw1 : writing (outer c1)).
  { split; [exact Hk|]. change (start <= start <= limit /\ start mod 4096 = 0 /\ limit = limit). split; [lia|done]. }
  destruct (download_sha_held i c1 Ht Hw1 Hi Hb) as (r & c2 & E2 & Hr).
  { intros Hs. destruct (Hsha Hs) as (str & [? ? ? ?] & ?). by exists str. }
  rewrite (bind_Done _ _ _ _ _ E2). destruct r as [err|]; [done|]. destruct (Hr eq_refl) as (Hh2 & Hb2 & Ht2).
  pose proof (download_sha_keeps i c1 Hw1) as Hw2. rewrite E2 in Hw2.
  destruct (start_sha_held i c2 Hw2 Hh2) as (w3 & E3 & Hw3 & Hh3). rewrite (bind_Done _ _ _ _ _ E3).
  destruct (image_dowload_held i (with_outer c2 w3) Ht2 Hw3 Hh3 Hb2) as (err & c4 & E4 & Hk4 & Hh4 & _).
  rewrite (bind_Done _ _ _ _ _ E4). case_if; [done|].
  assert (Hcheck : exists ok w, (if has_sha i then on_outer check_sha else ret true) c4 = Done (ok, with_outer c4 w) /\ keeps w).
  { destruct (has_sha i) eqn:Hs; cycle 1.
    { exists true, (outer c4). rewrite with_outer_same. split; [done|exact Hk4]. }
    destruct (proj2 Hh4 Hs) as ((x & Hx) & (o & Ho) & (bin & Hd & _) & _). do 2 eexists. split.
    - apply on_outer_Done. unfold check_sha. erewrite bind_Done by reflexivity. rewrite Hx, Ho, Hd. reflexivity.
    - exact Hk4. }
  destruct Hcheck as (ok & w & E5 & Hk5). rewrite (bind_Done _ _ _ _ _ E5). case_if; [done|].
  pose proof (switch_rom_keeps (exists a, kept a /\ rboot_verify_image start a = Undefined) ltac:(by eauto) w Hk5) as Hsw.
  unfold on_outer. cbn [outer with_outer]. by destruct (switch_rom start slot w) as [[? ?]| |].
Qed.

Lemma ota_update_undefined i c :
  keeps (outer c) -> tame_network i c -> ota_update i c = Undefined -> exists a, kept a /\ rboot_verify_image start a = Undefined.
Proof.
  intros Hk Ht Hu. pose proof Hk as (_ & Ha & _). destruct (update_prepares i c Ha) as (c1 & [P1 P2 P3 P4 P5 (_ & P7 & _)] & E).
  rewrite E in Hu. apply (update_slot_undefined i c1).
  - unfold keeps. by rewrite P2.
  - done.
  - exact P1.
  - exact P5.
  - unfold tame_network in *. by rewrite P7.
  - revert Hu. unfold bind at 1. destruct (update_slot i c1) as [[err c2]| |]; [|done..].
    destruct (dealloc_total i c2) as (c3 & E3). by rewrite (bind_Done _ _ _ _ _ E3).
Qed.

End Safety.
End HttpOtaSafety.
