(* ===== verification/HttpContract.v ===== *)
(** * What updates over HTTP promise

    The properties of [extras/http_client_ota]: what the client hands to its
    callbacks, installing an image, refusing one, what any network can change,
    and when downloads fail that should not. *)

From stdpp Require Import strings.
From S2P Require Import Prelude CStrings Flash SdkFlash Rboot RbootProofs RbootImage RbootContract Tftp TftpProofs TftpServer TftpContract.
From S2P Require Import HttpClient HttpHeader HttpDownload HttpOta HttpOtaProofs HttpOtaUpdate.
Open Scope Z_scope.

Import Api ApiProofs Image CLib HttpClient HttpHeader HttpDownload HttpOta HttpOtaProofs HttpOtaUpdate.

Section Client.
Context {W : Type} `{HH : Heap W} {HL : HeapLaws W}.
Implicit Types c : client W.

(** C28. A download hands over the body: when the whole head of a response with
    code 200 arrives in one read together with at least one byte of the body (a
    head that arrives alone makes the download fail, see
    [HttpClient_dowload_head_alone]), and the rest of the body in chunks of any
    lengths, the callbacks get the body in pieces of the size of the buffer and
    a last shorter one, whatever they keep of it.  The result is 200 if the
    length is the announced one, and the size error otherwise; the socket is
    closed and the addresses are freed. *)
Theorem HttpClient_dowload_delivers info conn cs s fs B I Q buf c :
  0 < buffer_size info < 65536 -> conns c = conn :: cs -> response_to info conn s fs B -> parsed (code s) = HTTP_OK ->
  receives info B I Q -> buffer c = Some buf -> Z.of_nat (length buf) = buffer_size info -> heap_ok (outer c) -> I [] (outer c) ->
  let length' := foldl field_length (length_ (http_reponse c)) fs in
  let code' := if Z.of_nat (length B) =? length' then HTTP_OK else HTTP_DOWLOAD_SIZE_NOT_MATCH in
  exists x c', HttpClient_dowload info c = Done (code', c') /\ Q x (outer c') /\
    http_reponse c' = {| response_code := code'; length_ := length' |} /\
    conns c' = cs /\ sent c' = sent c ++ [(server info, port info, req (path info) (server info))] /\
    addrinfos c' = addrinfos c /\ sockets c' = sockets c.
Proof.
  intros Hsz Hc Hrt Hcode Hrcv Hbuf Hl Hh HI length' code'.
  destruct (dowload_delivers info Hsz conn cs s fs B I Q buf c) as (x & w' & buf' & E & _ & HQ); try done; [lia|].
  cbv zeta in E. unfold length_checked in E. cbn [answered response_code length_] in E. rewrite Hcode in E.
  exists x. eexists. split; [exact E|]. split; [exact HQ|]. split; [done|]. split; [by cbn; rewrite Hc|done].
Qed.

(** A head that arrives alone: when the first read returns the head
    without any byte of the body, and the body has a zero byte and no empty
    line before it (as a firmware image does), the download fails with the
    size error, whatever the body is and however long. *)
Theorem HttpClient_dowload_head_alone info conn cs s fs first chunks pre more buf c :
  0 < buffer_size info < 65536 -> conns c = conn :: cs -> good_connection conn ->
  Z.of_nat (length (request_of info)) < sizeof_request -> head_arrives info s fs -> parsed (code s) = HTTP_OK ->
  c_reads conn = Got (head_bytes s fs) :: chunked (first :: chunks) ->
  first = pre ++ 0 :: more -> Z.of_nat (length pre) < buffer_size info -> strstr (crlf ++ crlf) (pre ++ [0]) 0 = Some None ->
  buffer c = Some buf -> Z.of_nat (length buf) = buffer_size info -> heap_ok (outer c) ->
  (forall buf n w, exists x w', final_cb info buf n w = Done (x, w')) ->
  foldl field_length (length_ (http_reponse c)) fs <> 0 ->
  exists c', HttpClient_dowload info c = Done (HTTP_DOWLOAD_SIZE_NOT_MATCH, c').
Proof.
  intros Hsz Hc Hgood Hreq Ha Hcode Hrd Hfirst Hpre Hstr Hbuf Hl Hh Hcb Hlen.
  set (c0 := requested info c conn). pose proof (ha_fits _ _ _ Ha) as Hfit. set (size := Z.to_nat (buffer_size info)) in *.
  set (fuel := (arriving (chunked (first :: chunks)) + length (head_bytes s fs))%nat).
  destruct (first_turn info Hsz s fs [] (chunked (first :: chunks)) (S fuel) buf c0 Ha) as (buf1 & Hl1 & _ & E1);
    [done|lia|by rewrite app_nil_r|done|].
  rewrite Hcode in E1. cbn [Z.eqb Pos.eqb negb HTTP_OK] in E1. rewrite take_nil, app_nil_r in E1. fold size in E1, Hl1.
  rewrite (proj2 (Nat.leb_le _ _)) in E1 by lia. cbn [length Z.of_nat] in E1.
  destruct (waiting_start info Hsz first chunks pre more buf1 (outer c0)
    (with_reponse c0 (answered s fs (http_reponse c0))) fuel Hfirst) as (n & buf3 & rs & E4); [fold size; lia|done|done| |].
  { unfold fuel, head_bytes. rewrite !length_app. cbn [crlf length]. lia. }
  change (Z.of_nat 0) with 0 in E1. rewrite E4 in E1. destruct (Hcb buf3 (u16 n) (outer c0)) as (x & w' & E5).
  eexists. rewrite (dowload_connected info conn cs) by done. fold c0. unfold read_fuel. rewrite Hrd. cbn [arriving].
  replace (S (S (length _) + _)) with (S (S fuel)) by (unfold fuel; lia).
  unfold bind at 1. rewrite E1. erewrite (end_download_Done info) by (done || exact E5).
  cbn [http_reponse moved with_reponse with_reads with_buffer with_outer answered length_]. by rewrite (proj2 (Z.eqb_neq 0 _)) by done.
Qed.

End Client.

Section Update.
Context {F : Type} `{HF : SdkFlash F} {FL : SdkFlashLaws F} `{HR : RbootH} {RL : RbootHLaws} `{HS : Sha256} {SL : Sha256Laws}.
Implicit Types c : client (ota F).

Lemma served_slot i conn rest D bs c :
  let conf := config_of (api (outer c)) in
  let start := slot_start conf (next_slot conf) in
  update_served i conn rest D bs c ->
  0 <= start /\ start mod 4096 = 0 /\ (start + MAX_IMAGE_SIZE) mod 4096 = 0 /\ start + MAX_IMAGE_SIZE <= sf_chip_size /\
  start + Z.of_nat (length D) + 16 <= sf_chip_size /\ Z.of_nat (length D) <= MAX_IMAGE_SIZE /\
  (conf_addr + 4096 <= start \/ start + MAX_IMAGE_SIZE <= conf_addr).
Proof.
  intros conf start H. destruct (us_updatable _ _ _ _ _ _ H) as [_ _ U3 U4 U5 U6]. fold conf start in U3, U4, U5, U6.
  pose proof (us_fits _ _ _ _ _ _ H) as Hfit. unfold Tftp.MAX_IMAGE_SIZE, MAX_IMAGE_SIZE in *. split_and!; try done; try lia. divlia.
Qed.

(** C15. An update is installed: when the server answers with a checksum file
    that starts with the digest of the image (if one is asked for) and then
    with a valid image, each with its length, the result is [OTA_UPDATE_DONE].
    The first read of each response has to bring the whole head (of at most
    4092 bytes) and at least one byte of the body; the rest comes in chunks of
    any lengths.  The checksum file has less than 4096 bytes, the image is of
    whole words and leaves 16 bytes of the slot, the next slot is on the chip
    and apart from the configuration, and the allocations succeed.  The image
    is then in the slot after the current one, which is now the current one; no
    byte outside the slot and the configuration changes, and the configuration
    is the old one but for the current slot and the checksum.  The two requests
    were sent, and all memory, addresses and sockets are given back. *)
Theorem ota_update_installs i conn rest D bs c :
  let w := outer c in
  let conf := config_of (api w) in
  let slot := next_slot conf in
  let start := slot_start conf slot in
  update_served i conn rest D bs c -> (has_sha i = true -> bs = sha256 D) -> image_valid (fcell w) start D ->
  exists c', ota_update i c = Done (OTA_UPDATE_DONE, c') /\ cleaned i rest c c' /\
    let w' := outer c' in
    rboot_get_current_rom (api w') = Done (slot, api w') /\
    cells (fcell w') start (Z.of_nat (length D)) = D /\
    (forall j, 0 <= j < sizeof_rboot_config -> j <> off_current_rom -> j <> off_chksum ->
       fcell w' (conf_addr + j) = fcell w (conf_addr + j)) /\
    (forall x, x < start \/ start + MAX_IMAGE_SIZE <= x ->
       x < conf_addr \/ conf_addr + sizeof_rboot_config <= x -> fcell w' x = fcell w x).
Proof.
  intros w conf slot start Hserved Hsum Hv. pose proof Hserved as [Hconf Hok Ha Hup _ _ HD _ _].
  pose proof (served_slot _ _ _ _ _ _ Hserved) as (S1 & S2 & S3 & S4 & S5 & S6 & S7). fold w conf slot start in S1, S2, S3, S4, S5, S7.
  pose proof (TftpServer.next_slot_ok conf Hup) as [Hsl _]. fold slot in Hsl. pose proof rb_sizeof. pose proof rb_current_rom.
  destruct (update_reaches_verdict _ _ _ _ _ _ Hserved) as (c2 & f & e & Hf & Hst & He & Hapi & E). fold w conf slot start in Hst, E.
  assert (Hout : forall x, x < start \/ start + MAX_IMAGE_SIZE <= x -> sf_cell f x = fcell w x).
  { intros x. by apply (update_stored_outside _ _ D e). }
  assert (Hc2 : config_of (set_flash (api w) f) = conf) by exact (TftpServer.config_of_same (api w) (set_flash (api w) f) _ _ Hout S7).
  assert (Hb : byteP (get_u8 conf off_count)) by (apply as_mem_byte, config_byte; done).
  destruct (switch_valid (api w) start (start + MAX_IMAGE_SIZE) slot D e f (outer c2)) as (a' & Esw & Oka & Hca & Hxa);
    try done; [unfold byteP in *; lia|rewrite Hc2; lia|]. rewrite Hc2 in Hca.
  assert (Hverdict : negb (negb (has_sha i) || bool_decide (sha256 D = bs)) = false).
  { destruct (has_sha i); [|done]. by rewrite Hsum, bool_decide_true by done. }
  rewrite Hverdict in E. destruct (E _ _ Esw) as (c' & E' & Ha' & Hclean). exists c'. split; [exact E'|]. split; [exact Hclean|].
  assert (Hg : forall j, 0 <= j -> j <> off_chksum -> get_u8 (config_of a') j = get_u8 (set_u8 conf off_current_rom slot) j).
  { intros j Hj Hne. rewrite Hca. apply get_set_u8_ne; lia. }
  pose proof (length_config (api w)) as Hlc. fold conf in Hlc. cbv zeta. unfold fcell. rewrite Ha'. split.
  { unfold rboot_get_current_rom. run (get_config_Done Hconf a' Oka). by rewrite Hg, get_set_u8 by lia. }
  split.
  { apply cells_eq_as_mem. intros x Hx. rewrite Hxa by (unfold MAX_IMAGE_SIZE in *; lia). rewrite Hst.
    by rewrite (proj2 (andb_true_iff _ _)) by (split; [apply Z.leb_le|apply Z.ltb_lt]; lia). }
  split.
  - intros j Hj H1 H2. rewrite <-!config_bytes by done. rewrite Hg by lia. by rewrite get_set_u8_ne by lia.
  - intros x H1 H2. rewrite Hxa by done. by apply Hout.
Qed.

(** C31. An update is refused: with responses that arrive as those of an update
    that is installed (the head and the start of the body in the first read),
    but an image whose digest is not the one downloaded, the result is
    [HTTP_SHA_DONT_MATCH], and with one whose checksum byte is wrong it is
    [OTA_IMAGE_VERIFY_FALLIED].  The configuration and the flash outside the
    slot stay as they were, and all memory, addresses and sockets are given
    back. *)
Theorem ota_update_refuses i conn rest D bs c err :
  let w := outer c in
  let conf := config_of (api w) in
  let start := slot_start conf (next_slot conf) in
  update_served i conn rest D bs c ->
  (has_sha i = true /\ bs <> sha256 D /\ err = HTTP_SHA_DONT_MATCH) \/
  ((has_sha i = true -> bs = sha256 D) /\ image_corrupt (fcell w) start D /\ err = OTA_IMAGE_VERIFY_FALLIED) ->
  exists c', ota_update i c = Done (err, c') /\ cleaned i rest c c' /\ config_of (api (outer c')) = conf /\
    forall x, x < start \/ start + MAX_IMAGE_SIZE <= x -> fcell (outer c') x = fcell w x.
Proof.
  intros w conf start Hserved Hcase. pose proof Hserved as [Hconf Hok Ha Hup _ _ HD _ _].
  pose proof (served_slot _ _ _ _ _ _ Hserved) as (S1 & S2 & S3 & S4 & S5 & S6 & S7). fold w conf start in S1, S2, S3, S4, S5, S7.
  destruct (update_reaches_verdict _ _ _ _ _ _ Hserved) as (c2 & f & e & Hf & Hst & He & Hapi & E). fold w conf start in Hst, E.
  assert (Hout : forall x, x < start \/ start + MAX_IMAGE_SIZE <= x -> sf_cell f x = fcell w x).
  { intros x. by apply (update_stored_outside _ _ D e). }
  assert (Hv : (if negb (negb (has_sha i) || bool_decide (sha256 D = bs)) then ret HTTP_SHA_DONT_MATCH
                else switch_rom start (next_slot conf)) (outer c2) = Done (err, with_api (outer c2) (set_flash (api w) f))).
  { replace (set_flash (api w) f) with (api (outer c2)) by exact Hapi. rewrite ota_with_api_same. destruct Hcase as [(Hs & Hne & ->)|(Hs & Hcor & ->)].
    - rewrite Hs, bool_decide_false by done. done.
    - assert (Hverdict : negb (negb (has_sha i) || bool_decide (sha256 D = bs)) = false).
      { destruct (has_sha i); [|done]. by rewrite Hs, bool_decide_true by done. }
      rewrite Hverdict. by apply (switch_corrupt (api w) start (start + MAX_IMAGE_SIZE) _ D e f). }
  destruct (E _ _ Hv) as (c' & E' & Ha' & Hclean). exists c'. split; [exact E'|]. split; [exact Hclean|]. rewrite Ha'.
  split; [exact (TftpServer.config_of_same (api w) (set_flash (api w) f) _ _ Hout S7)|]. intros x Hx. unfold fcell at 1. rewrite Ha'. by apply Hout.
Qed.


End Update.

(** ** Defects in single functions *)

Section Defects.
Context {F : Type} `{HF : SdkFlash F} {FL : SdkFlashLaws F} `{HR : RbootH} {RL : RbootHLaws} `{HS : Sha256}.

(** After the 64 digits another piece of two bytes or more is written past the
    end of the block: a checksum file of more than a buffer does that. *)
Lemma SHA256_check_callback_overflow (w : ota F) buf n str :
  SHA256_str w = Some str -> length str = 65%nat -> SHA256_wrt_ptr w = 64 -> 2 <= n ->
  SHA256_check_callback buf n w = Undefined.
Proof.
  intros Hs Hl Hp Hn. unfold SHA256_check_callback, SHA256_SIZE_STR, SHA256_SIZE_BIN. change (32 * 2) with 64.
  erewrite bind_Done by reflexivity. rewrite Hp. cbn [Z.ltb Z.compare Pos.compare Pos.compare_cont]. rewrite Hs.
  erewrite bind_Done by reflexivity. set (m := if 64 <? n then 64 else n).
  assert (2 <= m) by (unfold m; case_if; zbool; lia). rewrite (proj2 (Z.ltb_lt (Z.of_nat (length str)) _)) by lia.
  by rewrite orb_true_r.
Qed.

(** At the end of the slot an empty piece has the sector behind it erased. *)
Lemma ota_firmaware_dowload_callback_behind (w : ota F) i buf :
  ota_inf w = Some i -> has_sha i = false -> flash_offset w = flash_limits w -> 0 <= flash_limits w ->
  flash_limits w mod 4096 = 0 -> flash_limits w + 4096 <= sf_chip_size -> w_ok (api w) ->
  exists f, ota_firmaware_dowload_callback buf 0 w =
      (let! _ := on_api (on_flash (spi_flash_write (flash_offset w) (as_mem buf) 0)) in
       do! modify (fun w => with_flash_range w (u32 (flash_offset w + 0)) (flash_limits w)) then ret 1)
        (with_api w (set_flash (api w) f)) /\
    forall x, sf_cell f x = erase_bytes (fcell w) (flash_limits w) 4096 x.
Proof.
  intros Hi Hs Ho H0 Hm Hc Hok. pose proof sf_size_bound. unfold ota_firmaware_dowload_callback.
  erewrite bind_Done by reflexivity. rewrite Hi. erewrite bind_Done by reflexivity. rewrite Hs.
  do 2 (erewrite bind_Done by reflexivity). rewrite Ho, Z.add_0_r, u32_small, Z.ltb_irrefl, rb_sector, Hm by lia. cbn [Z.eqb].
  destruct (sf_erase_ok (w_flash (api w)) (flash_limits w / 4096)) as (f & E & _ & C); [done|divlia|divlia|].
  exists f. split.
  - erewrite bind_Done; cycle 1.
    { rewrite u16_small by divlia. erewrite bind_Done by (apply ota_on_api_Done; apply on_flash_Done; exact E). reflexivity. }
    by rewrite (proj2 (Z.ltb_ge _ _)) by lia.
  - intros x. rewrite C. f_equal. divlia.
Qed.
End Defects.

(** ** Concrete runs *)

Module HttpRun.
Import Board SimRom.

(** A response without further lines. *)
Definition ok_status : status_line := {| version := str "HTTP/1.1"; code := str "200"; reason := str " OK" |}.
Definition fields (n : string) : list field := [Other (str "Server") (str " test"); Length (str n)].

Ltac chars := repeat (apply Forall_cons; split; [cbv; intuition (discriminate || congruence)|]); apply Forall_nil; done.

Lemma ok_status_ok : status_ok ok_status.
Proof. split; [split; [done|chars]|split; [done|chars]|chars]. Qed.

Lemma fields_ok n : str n <> [] -> Forall is_digit (str n) -> Forall field_ok (fields n).
Proof.
  intros H1 H2. apply Forall_cons. split; [|apply Forall_cons; by split]. split; [done|]. split; [done|]. split; chars.
Qed.

Definition respond (n : string) (body : list Z) (chunks : list (list Z)) : connection := {|
  c_getaddrinfo := (0, true); c_socket := 3; c_connect := 0; c_write := 100;
  c_reads := chunked ((head_bytes ok_status (fields n) ++ body) :: chunks) |}.

(** A receiver that keeps all it is given. *)
#[export] Instance log_heap : Heap (list Z) := { malloc := ret true; free := ret tt }.
#[export] Instance log_heap_laws : HeapLaws (list Z) := {| heap_ok := fun _ => True; heap_malloc_free := fun w _ => ex_intro _ w (conj eq_refl eq_refl) |}.

Definition keep (buf : list Z) (n : Z) : M (list Z) Z := fun w => Done (1, w ++ take (Z.to_nat n) buf).

Definition log_info : Http_client_info (list Z) :=
  {| server := str "host"; port := str "80"; path := str "/f"; buffer_size := 128; buffer_full_cb := keep; final_cb := keep |}.

Definition log_client (conn : connection) : client (list Z) := {|
  outer := []; http_reponse := {| response_code := 0; length_ := 0 |}; request := replicate 152 0; buffer := Some (replicate 128 165);
  reads := []; conns := [conn]; sent := []; addrinfos := 0; sockets := 0 |}.

Lemma keep_receives B : receives log_info B (fun D w => w = D) (fun _ w => w = B).
Proof.
  split.
  - intros D buf w -> Hl _. do 2 eexists. split; [reflexivity|]. f_equal. apply take_ge. cbn in *. lia.
  - intros D buf n w -> _ _ H. do 2 eexists. by split.
Qed.

Definition body : list Z := replicate 200 7.

Lemma log_response : response_to log_info (respond "200" (take 3 body) [take 150 (drop 3 body); drop 153 body])
    ok_status (fields "200") body.
Proof.
  split; [by repeat split|vm_compute; reflexivity|vm_compute; reflexivity|].
  exists (take 3 body), [take 150 (drop 3 body); drop 153 body].
  split; [split; [apply ok_status_ok|apply fields_ok; [done|chars]|vm_compute; lia]|]. split; [done|].
  split; [by repeat constructor|]. done.
Qed.

(** ** Updates *)

(** A digest for the runs. *)
#[export] Instance toy_sha : Sha256 := {
  mbedtls_sha256_context := list Z;
  mbedtls_sha256_init := [];
  mbedtls_sha256_starts _ := [];
  mbedtls_sha256_update c bs := c ++ bs;
  mbedtls_sha256_finish c := le_bytes 32 (foldl (fun a b => (a * 31 + b + 7) mod 2 ^ 256) 1 c);
  mbedtls_sha256_free _ := [];
}.

#[export] Instance toy_sha_laws : Sha256Laws.
Proof.
  unshelve refine {| sha256 bs := le_bytes 32 (foldl (fun a b => (a * 31 + b + 7) mod 2 ^ 256) 1 bs);
                     sha256_given c bs := c = bs |}.
  - done.
  - by intros c bs bs' ->.
  - by intros c bs ->.
  - intros bs. apply length_le_bytes.
  - intros bs. apply le_bytes_byte.
Defined.

Definition hex_digit (d : Z) : Z := if d <? 10 then 48 + d else 87 + d.
Definition hex (bs : list Z) : list Z := concat ((fun b => [hex_digit (b / 16); hex_digit (b mod 16)]) <$> bs).

Definition inf : ota_info := {|
  o_server := str "host"; o_port := str "80"; binary_path := str "/fw.bin"; sha256_path := Some (str "/fw.sha256") |}.

(** The checksum file of [sha256sum]. *)
Definition sum_file (D : list Z) : list Z := hex (sha256 D) ++ str "  fw.bin".

Definition device_client (cs : list connection) : client (ota (Calls.state rom)) := {|
  outer := {| api := board (put_bytes blank 4096 config); heap := 0; ota_inf := None; sha256_ctx := None; flash_offset := 0;
              flash_limits := 0; SHA256_output := None; SHA256_dowload := None; SHA256_str := None; SHA256_wrt_ptr := 0 |};
  http_reponse := {| response_code := 0; length_ := 0 |}; request := replicate 152 0; buffer := None;
  reads := []; conns := cs; sent := []; addrinfos := 0; sockets := 0 |}.

(** The image in two chunks; the sum is that of [D']. *)
Definition network (D' D : list Z) : list connection :=
  [respond "72" (sum_file D') []; respond "32" (take 5 D) [drop 5 D]].

Definition good : list Z := image payload 0xe7.
Definition bad : list Z := image payload 0xe6.

Lemma hex_spells bs : forallb (fun b => (0 <=? b) && (b <? 256)) bs = true -> spells (hex bs) bs.
Proof.
  induction bs as [|b bs IH]; cbn [forallb]; intros H; [done|]. apply andb_true_iff in H as [Hb H]. zbool.
  assert (Hd : forall d, 0 <= d < 16 -> digit_val 16 (hex_digit d) = Some d).
  { intros d Hd. assert (Hin : d ∈ (Z.of_nat <$> seq 0 16)).
    { apply list_elem_of_fmap. exists (Z.to_nat d). split; [lia|]. apply elem_of_seq. lia. }
    assert (Hall : Forall (fun d => digit_val 16 (hex_digit d) = Some d) (Z.of_nat <$> seq 0 16)) by (vm_compute; repeat constructor).
    rewrite Forall_forall in Hall. by apply Hall. }
  cbn. split; [apply Hd; divlia|]. split; [apply Hd; divlia|]. by apply IH.
Qed.

Lemma respond_response {W} (info : Http_client_info W) n b0 chunks :
  Z.of_nat (length (request_of info)) < sizeof_request -> Z.of_nat (length (b0 ++ concat chunks)) < 2 ^ 32 ->
  str n <> [] -> Forall is_digit (str n) ->
  (length (head_bytes ok_status (fields n)) + 4 <= Z.to_nat (buffer_size info))%nat -> b0 <> [] -> Forall (fun bs => bs <> []) chunks ->
  response_to info (respond n b0 chunks) ok_status (fields n) (b0 ++ concat chunks).
Proof.
  intros Hr Hl Hn Hd Hf Hb Hc. split; [by repeat split|done|done|]. exists b0, chunks. split; [|done].
  split; [apply ok_status_ok|by apply fields_ok|done].
Qed.

Lemma network_served D' D :
  length D = 32%nat -> Forall byteP D -> forallb (fun b => (0 <=? b) && (b <? 256)) (sha256 D') = true ->
  length (sum_file D') = 72%nat -> take 64 (sum_file D') = hex (sha256 D') ->
  update_served inf (respond "32" (take 5 D) [drop 5 D]) [] D (sha256 D') (device_client (network D' D)).
Proof.
  intros Hl HD Hs H72 H64. split.
  - vm_compute. congruence.
  - done.
  - done.
  - exact TftpRun.station_updatable.
  - split; [|apply sha256_length]. exists (respond "72" (sum_file D') []), (sum_file D'), (hex (sha256 D')).
    split; [done|]. split; cycle 1.
    { rewrite H72. split; [lia|]. split; [by exists (str "  fw.bin")|]. split; [by apply hex_spells|apply sha256_length]. }
    exists ok_status, (fields "72"). split; [|split; [reflexivity|intros n; rewrite H72; reflexivity]].
    split; [by repeat split|vm_compute; reflexivity|rewrite H72; lia|].
    exists (sum_file D'), []. split; [split; [apply ok_status_ok|apply fields_ok; [done|chars]|vm_compute; lia]|].
    split; [by intros E; rewrite E in H72|]. split; [constructor|]. by rewrite app_nil_r.
  - exists ok_status, (fields "32"). split; [|split; [reflexivity|intros n; rewrite Hl; reflexivity]].
    split; [by repeat split|vm_compute; reflexivity|rewrite Hl; lia|].
    exists (take 5 D), [drop 5 D]. split; [split; [apply ok_status_ok|apply fields_ok; [done|chars]|vm_compute; lia]|].
    assert (length (take 5 D) = 5%nat) by (rewrite length_take; lia).
    assert (length (drop 5 D) = 27%nat) by (rewrite length_drop; lia).
    split; [by intros E; rewrite E in *|]. split; [constructor; [by intros E; rewrite E in *|constructor]|].
    split; [done|]. cbn. by rewrite app_nil_r, take_drop.
  - done.
  - rewrite Hl. reflexivity.
  - rewrite Hl. vm_compute. congruence.
Qed.

(** An image in the slot from the current contents of the flash on. *)
Lemma image_layout ck cs : ck = 0xe7 \/ ck = 0xe6 ->
  layout (put_bytes (fcell (outer (device_client cs))) 0x102000 (image payload ck)) 0x102000 [payload] (0x102000 + 24).
Proof.
  intros [-> | ->]; (apply old_image; [reflexivity|reflexivity|]); vm_compute; repeat split; congruence.
Qed.

Lemma image_byteP ck : ck = 0xe7 \/ ck = 0xe6 -> Forall byteP (image payload ck).
Proof. intros [-> | ->]; by apply byteP_all. Qed.

Lemma sim_writes_keep : HttpOtaSafety.writes_keep (F := Calls.state rom).
Proof.
  intros a buf n f Hf Ha Hal Hn Hc.
  assert (E : CallProofs.words_up n = 4 * ((n + 3) / 4)) by (unfold CallProofs.words_up; case_if; zbool; divlia).
  destruct (CallProofs.sdk_spi_flash_write_ok sdk_flashchip_init sdk_flashchip_geometry f a buf n) as (f' & H1 & H2 & _ & Hca & _);
    rewrite ?E; [lia..|exact Hc|exact Hf|]. rewrite E in H2. exists SPI_FLASH_RESULT_OK, f'. split; [exact H1|].
  split; [unfold sf_ok, sim_flash_laws, calls_flash_laws, CallProofs.st_ok in *; cbn in *; congruence|].
  intros x Hx. change (Rom.rom_cell (Calls.st_dev f') x = Rom.rom_cell (Calls.st_dev f) x). rewrite H2. unfold and_bytes.
  case_if; zbool; [lia|done].
Qed.

(** ** Defects in runs *)

(** The buffer still holds the end of the last head: when the next head comes
    in parts, the empty line of the old one is found behind the bytes read and
    [memmove] gets a size that has wrapped. *)
Definition second_head : connection := {|
  c_getaddrinfo := (0, true); c_socket := 3; c_connect := 0; c_write := 100;
  c_reads := chunked [take 5 (head_bytes ok_status (fields "3")); drop 5 (head_bytes ok_status (fields "3")) ++ [1; 2; 3]] |}.

Lemma HttpClient_dowload_stale_head :
  exists c', HttpClient_dowload log_info (log_client (respond "3" [1; 2; 3] [])) = Done (HTTP_OK, c') /\
    HttpClient_dowload log_info (with_conns c' [second_head]) = Undefined /\
    exists c'', HttpClient_dowload log_info (with_conns (with_buffer c' (Some (replicate 128 0))) [second_head]) = Done (HTTP_OK, c'').
Proof. eexists. split; [vm_compute; reflexivity|]. split; [vm_compute; reflexivity|]. eexists. vm_compute. reflexivity. Qed.

(** A status line of the server passes for the result: 23 is
    [OTA_UPDATE_DONE]; no byte of the flash has been written. *)
Definition code_23 : connection := {|
  c_getaddrinfo := (0, true); c_socket := 3; c_connect := 0; c_write := 100;
  c_reads := [Got (str "HTTP/1.1 23 Done" ++ crlf ++ crlf)] |}.

Lemma ota_update_code_23 :
  match ota_update inf (device_client [code_23]) with
  | Done (err, c') => Some (err, cells (fcell (outer c')) 0x102000 32, get_u8 (config_of (api (outer c'))) off_current_rom)
  | _ => None
  end = Some (OTA_UPDATE_DONE, replicate 32 255, 0).
Proof. vm_compute. reflexivity. Qed.

(** The last number of the status line counts, and a length without a space
    loses its first digit. *)
Lemma parse_http_header_last_number :
  exists c', parse_http_header (str "HTTP/1.1 200 OK 7" ++ crlf ++ str "Content-Length:544" ++ crlf ++ [0])
      (log_client no_connection) = Done (tt, c') /\
    http_reponse c' = {| response_code := 7; length_ := 44 |}.
Proof. eexists. split; vm_compute; reflexivity. Qed.

End HttpRun.

Import HttpRun Board SimRom.

Lemma HttpClient_dowload_delivers_witness :
  exists c', HttpClient_dowload log_info (log_client (respond "200" (take 3 body) [take 150 (drop 3 body); drop 153 body])) =
    Done (HTTP_OK, c') /\ outer c' = body.
Proof.
  destruct (HttpClient_dowload_delivers log_info (respond "200" (take 3 body) [take 150 (drop 3 body); drop 153 body]) []
    ok_status (fields "200") body (fun D w => w = D) (fun _ w => w = body) (replicate 128 165)
    (log_client (respond "200" (take 3 body) [take 150 (drop 3 body); drop 153 body]))) as (x & c' & E & H & _);
    [vm_compute; split; congruence|reflexivity|exact log_response|reflexivity|exact (keep_receives body)|reflexivity|reflexivity|exact I
    |reflexivity|].
  exists c'. split; [exact E|exact H].
Defined.

(** The head alone, and then an image. *)
Definition alone : connection := respond "32" [] [good].

Lemma HttpClient_dowload_head_alone_witness :
  exists c', HttpClient_dowload log_info (log_client alone) = Done (HTTP_DOWLOAD_SIZE_NOT_MATCH, c').
Proof.
  apply (HttpClient_dowload_head_alone log_info alone [] ok_status (fields "32") good [] (take 2 good) (drop 3 good) (replicate 128 165)
    (log_client alone));
    [vm_compute; split; congruence|reflexivity|by repeat split|vm_compute; reflexivity| |reflexivity|reflexivity|reflexivity
    |vm_compute; congruence|vm_compute; reflexivity|reflexivity|reflexivity|exact I| |vm_compute; congruence].
  - split; [apply ok_status_ok|apply fields_ok; [done|chars]|vm_compute; lia].
  - intros buf n w. eexists. eexists. reflexivity.
Defined.

Lemma ota_update_installs_witness :
  exists c', ota_update inf (device_client (network good good)) = Done (OTA_UPDATE_DONE, c') /\
    rboot_get_current_rom (api (outer c')) = Done (1, api (outer c')) /\ cells (fcell (outer c')) 0x102000 32 = good.
Proof.
  destruct (ota_update_installs inf (respond "32" (take 5 good) [drop 5 good]) [] good (sha256 good)
    (device_client (network good good))) as (c' & E & _ & H1 & H2 & _).
  - apply network_served; [done|apply image_byteP; by left|vm_compute; reflexivity..].
  - done.
  - exists [payload], (0x102000 + 24). split; [apply image_layout; by left|]. split; reflexivity.
  - exists c'. split; [exact E|]. split; [exact H1|exact H2].
Defined.

(** The digest of another image, and a wrong checksum byte. *)
Lemma ota_update_refuses_witness :
  (exists c', ota_update inf (device_client (network bad good)) = Done (HTTP_SHA_DONT_MATCH, c')) /\
  exists c', ota_update inf (device_client (network bad bad)) = Done (OTA_IMAGE_VERIFY_FALLIED, c') /\
    config_of (api (outer c')) = config.
Proof.
  split.
  - destruct (ota_update_refuses inf (respond "32" (take 5 good) [drop 5 good]) [] good (sha256 bad)
      (device_client (network bad good)) HTTP_SHA_DONT_MATCH) as (c' & E & _).
    + apply network_served; [done|apply image_byteP; by left|vm_compute; reflexivity..].
    + left. split; [done|]. split; [vm_compute; congruence|done].
    + exists c'. exact E.
  - destruct (ota_update_refuses inf (respond "32" (take 5 bad) [drop 5 bad]) [] bad (sha256 bad)
      (device_client (network bad bad)) OTA_IMAGE_VERIFY_FALLIED) as (c' & E & _ & H & _).
    + apply network_served; [done|apply image_byteP; by right|vm_compute; reflexivity..].
    + right. split; [done|]. split; [|done]. exists [payload], (0x102000 + 24). split; [apply image_layout; by right|].
      split; [vm_compute; congruence|vm_compute; congruence].
    + exists c'. split; [exact E|exact H].
Defined.

(** A server that cuts the image off. *)
Definition broken : list connection := [respond "72" (sum_file good) []; respond "32" (take 5 good) []].

Lemma broken_tame : HttpOtaSafety.tame_network inf (device_client broken).
Proof.
  split; (split; [vm_compute; reflexivity|]); intros _; left; do 3 eexists;
    (split; [apply respond_response; [vm_compute; reflexivity|vm_compute; reflexivity|done|chars|vm_compute; lia|done|constructor]|]);
    (split; [reflexivity|]); [vm_compute; reflexivity|exact I].
Qed.

