(* ===== verification/Wificfg.v ===== *)
(** * Wi-Fi configuration: [extras/wificfg/wificfg.c], the pages

    Text functions, chunked output, forms and the handlers of the pages over
    the parameter store, the class [Params].  A connection is the characters
    that can be read, one by one, and the results of writes. *)

From stdpp Require Import strings.
From S2P Require Import Prelude CStrings.
Open Scope Z_scope.

(** What is used of [sysparam.h] and [spiflash.h].  The callers look at no
    status: a string or number not found leaves their variable alone. *)
Class Params (P : Type) := {
  sysparam_get_string : list Z -> M P (option (list Z));
  sysparam_get_int8 : list Z -> M P (option Z);
  sysparam_get_int32 : list Z -> M P (option Z);
  sysparam_set_string : list Z -> list Z -> M P unit;
  sysparam_set_int8 : list Z -> Z -> M P unit;
  sysparam_set_int32 : list Z -> Z -> M P unit;
  free : M P unit;
  spiflash_erase_sector : Z -> M P unit;
  chip_size : Z;
  sector_size : Z;
}.

Module Wificfg.
Import CLib.

Definition HTTP_BUFFER_SIZE : Z := 54.

Inductive wificfg_method := HTTP_METHOD_GET | HTTP_METHOD_POST | HTTP_METHOD_HEAD | HTTP_METHOD_OTHER | HTTP_METHOD_ANY.

#[export] Instance wificfg_method_eq_dec : EqDecision wificfg_method.
Proof. solve_decision. Defined.

Inductive wificfg_content_type := HTTP_CONTENT_TYPE_WWW_FORM_URLENCODED | HTTP_CONTENT_TYPE_OTHER.

#[export] Instance wificfg_content_type_eq_dec : EqDecision wificfg_content_type.
Proof. solve_decision. Defined.

(** ** Texts *)

Definition hex_value (c : Z) : Z :=
  let c := tolower c in if (97 <=? c) && (c <=? 122) then c - 97 + 10 else c - 48.

(** The loop of the decoder; the string is decoded in place, [src] and [dst]
    are offsets in the block. *)
Fixpoint decode_loop (fuel : nat) (mem : list Z) (src dst src_end : nat) : option (list Z) :=
  if decide (src < src_end)%nat then
    match fuel with
    | O => None
    | S fuel =>
      c ← mem !! src;
      let src := S src in
      if bool_decide (c = 37 /\ (src < src_end - 1)%nat) then
        c1 ← mem !! src;
        c2 ← mem !! S src;
        if isxdigit c1 && isxdigit c2 then
          decode_loop fuel (<[dst := u8 (Z.shiftl (hex_value c1) 4 + hex_value c2)]> mem) (S (S src)) (S dst) src_end
        else decode_loop fuel (<[dst := c]> mem) src (S dst) src_end
      else decode_loop fuel (<[dst := if c =? 43 then 32 else c]> mem) src (S dst) src_end
    end
  else if decide (dst < length mem)%nat then Some (<[dst := 0]> mem) else None.

Definition wificfg_form_url_decode (mem : list Z) : option (list Z) :=
  s ← c_string mem;
  decode_loop (length s) mem 0 0 (length s).

(** The text a character is replaced by. *)
Definition entity (c : Z) : option (list Z) :=
  if c =? 38 then Some (str "&amp;")
  else if c =? 34 then Some (str "&quot;")
  else if c =? 60 then Some (str "&lt;")
  else if c =? 62 then Some (str "&gt;")
  else None.

(** Bytes stored at an offset of a block. *)
Definition put_at (mem : list Z) (off : Z) (bs : list Z) : option (list Z) :=
  if (off <? 0) || (Z.of_nat (length mem) <? off + Z.of_nat (length bs)) then None
  else Some (take (Z.to_nat off) mem ++ bs ++ drop (Z.to_nat off + length bs) mem).

(** The loop over the characters of a string, without its terminator. *)
Fixpoint escape_loop (string mem : list Z) (out len : Z) : option (list Z) :=
  match string with
  | [] => put_at mem out [0]
  | c :: string =>
    if out <? u32 (len - 1) then
      match entity c with
      | Some e =>
        if u32 (len - Z.of_nat (length e)) <=? out then put_at mem out [0]
        else
          mem ← put_at mem out e;
          escape_loop string mem (out + Z.of_nat (length e)) len
      | None =>
        mem ← put_at mem out [c];
        escape_loop string mem (out + 1) len
      end
    else put_at mem out [0]
  end.

Definition wificfg_html_escape (string mem : list Z) (len : Z) : option (list Z) := escape_loop string mem 0 len.

(** Keywords *)

Definition method_table : list (list Z * wificfg_method) :=
  [(str "get", HTTP_METHOD_GET); (str "post", HTTP_METHOD_POST); (str "head", HTTP_METHOD_HEAD)].

Inductive http_header := HTTP_HEADER_HOST | HTTP_HEADER_CONTENT_LENGTH | HTTP_HEADER_CONTENT_TYPE | HTTP_HEADER_CONNECTION | HTTP_HEADER_OTHER.

Definition http_header_table : list (list Z * http_header) :=
  [(str "host", HTTP_HEADER_HOST); (str "content-length", HTTP_HEADER_CONTENT_LENGTH);
   (str "content-type", HTTP_HEADER_CONTENT_TYPE); (str "connection", HTTP_HEADER_CONNECTION)].

Definition content_type_table : list (list Z * wificfg_content_type) :=
  [(str "application/x-www-form-urlencoded", HTTP_CONTENT_TYPE_WWW_FORM_URLENCODED)].

(** The search the interning functions share. *)
Fixpoint intern {A} (table : list (list Z * A)) (other : A) (s : list Z) : A :=
  match table with
  | [] => other
  | (t, a) :: table => if bool_decide (s = t) then a else intern table other s
  end.

Definition intern_http_method (s : list Z) : wificfg_method := intern method_table HTTP_METHOD_OTHER s.
Definition intern_http_header (s : list Z) : http_header := intern http_header_table HTTP_HEADER_OTHER s.
Definition intern_http_content_type (s : list Z) : wificfg_content_type := intern content_type_table HTTP_CONTENT_TYPE_OTHER s.

(** Offsets in a block, from the offset [i] on. *)
Definition skip_whitespace (mem : list Z) (i : nat) : option nat :=
  n ← span isspace (drop i mem); Some (i + n)%nat.
Definition skip_to_whitespace (mem : list Z) (i : nat) : option nat :=
  n ← span (fun c => negb (c =? 0) && negb (isspace c)) (drop i mem); Some (i + n)%nat.

Inductive form_name :=
| FORM_NAME_CFG_ENABLE | FORM_NAME_CFG_PASSWORD | FORM_NAME_HOSTNAME
| FORM_NAME_STA_ENABLE | FORM_NAME_STA_DISABLED_RESTARTS | FORM_NAME_STA_SSID | FORM_NAME_STA_PASSWORD | FORM_NAME_STA_DHCP
| FORM_NAME_STA_IP_ADDR | FORM_NAME_STA_NETMASK | FORM_NAME_STA_GATEWAY | FORM_NAME_STA_MDNS
| FORM_NAME_AP_ENABLE | FORM_NAME_AP_DISABLE_IF_STA | FORM_NAME_AP_DISABLED_RESTARTS | FORM_NAME_AP_SSID | FORM_NAME_AP_PASSWORD
| FORM_NAME_AP_SSID_HIDDEN | FORM_NAME_AP_CHANNEL | FORM_NAME_AP_AUTHMODE | FORM_NAME_AP_MAX_CONN | FORM_NAME_AP_BEACON_INTERVAL
| FORM_NAME_AP_IP_ADDR | FORM_NAME_AP_NETMASK | FORM_NAME_AP_DHCP_LEASES | FORM_NAME_AP_DNS | FORM_NAME_AP_MDNS
| FORM_NAME_DONE | FORM_NAME_NONE.

Definition form_name_table : list (list Z * form_name) := [
  (str "cfg_enable", FORM_NAME_CFG_ENABLE);
  (str "cfg_password", FORM_NAME_CFG_PASSWORD);
  (str "hostname", FORM_NAME_HOSTNAME);
  (str "sta_enable", FORM_NAME_STA_ENABLE);
  (str "sta_disabled_restarts", FORM_NAME_STA_DISABLED_RESTARTS);
  (str "sta_ssid", FORM_NAME_STA_SSID);
  (str "sta_dhcp", FORM_NAME_STA_DHCP);
  (str "sta_password", FORM_NAME_STA_PASSWORD);
  (str "sta_ip_addr", FORM_NAME_STA_IP_ADDR);
  (str "sta_netmask", FORM_NAME_STA_NETMASK);
  (str "sta_gateway", FORM_NAME_STA_GATEWAY);
  (str "sta_mdns", FORM_NAME_STA_MDNS);
  (str "ap_enable", FORM_NAME_AP_ENABLE);
  (str "ap_disable_if_sta", FORM_NAME_AP_DISABLE_IF_STA);
  (str "ap_disabled_restarts", FORM_NAME_AP_DISABLED_RESTARTS);
  (str "ap_ssid", FORM_NAME_AP_SSID);
  (str "ap_password", FORM_NAME_AP_PASSWORD);
  (str "ap_ssid_hidden", FORM_NAME_AP_SSID_HIDDEN);
  (str "ap_channel", FORM_NAME_AP_CHANNEL);
  (str "ap_authmode", FORM_NAME_AP_AUTHMODE);
  (str "ap_max_conn", FORM_NAME_AP_MAX_CONN);
  (str "ap_beacon_interval", FORM_NAME_AP_BEACON_INTERVAL);
  (str "ap_ip_addr", FORM_NAME_AP_IP_ADDR);
  (str "ap_netmask", FORM_NAME_AP_NETMASK);
  (str "ap_dhcp_leases", FORM_NAME_AP_DHCP_LEASES);
  (str "ap_dns", FORM_NAME_AP_DNS);
  (str "ap_mdns", FORM_NAME_AP_MDNS);
  (str "done", FORM_NAME_DONE)].

Definition intern_form_name (s : list Z) : form_name := intern form_name_table FORM_NAME_NONE s.

(** ** The connection *)

(** What happens besides: hooks run (by their number), the start of a critical
    section, the restart, the end of the connection. *)
Inductive event := Hook (n : Z) | EnterCritical | Restart | Close.

Section Pages.
Context {P : Type} `{!Params P}.

(** [input] has what reads of one character return ([None]: nothing or an
    error; behind the list nothing more comes), [buf] the buffer of the task,
    [out] the data written and [write_results] what the writes return (behind
    the list, their size). *)
Record web := {
  store : P;
  input : list (option Z);
  buf : list Z;
  out : list (list Z);
  write_results : list Z;
  events : list event;
  got_sta_connect : bool;
  shutdown_hooks : list Z;
}.

Definition with_store (w : web) (p : P) : web :=
  {| store := p; input := input w; buf := buf w; out := out w; write_results := write_results w; events := events w;
     got_sta_connect := got_sta_connect w; shutdown_hooks := shutdown_hooks w |}.
Definition with_input (w : web) (l : list (option Z)) : web :=
  {| store := store w; input := l; buf := buf w; out := out w; write_results := write_results w; events := events w;
     got_sta_connect := got_sta_connect w; shutdown_hooks := shutdown_hooks w |}.
Definition with_buf (w : web) (b : list Z) : web :=
  {| store := store w; input := input w; buf := b; out := out w; write_results := write_results w; events := events w;
     got_sta_connect := got_sta_connect w; shutdown_hooks := shutdown_hooks w |}.
Definition with_out (w : web) (o : list (list Z)) (rs : list Z) : web :=
  {| store := store w; input := input w; buf := buf w; out := o; write_results := rs; events := events w;
     got_sta_connect := got_sta_connect w; shutdown_hooks := shutdown_hooks w |}.
Definition with_events (w : web) (es : list event) : web :=
  {| store := store w; input := input w; buf := buf w; out := out w; write_results := write_results w; events := es;
     got_sta_connect := got_sta_connect w; shutdown_hooks := shutdown_hooks w |}.
Definition with_flags (w : web) (got : bool) (hooks : list Z) : web :=
  {| store := store w; input := input w; buf := buf w; out := out w; write_results := write_results w; events := events w;
     got_sta_connect := got; shutdown_hooks := hooks |}.

Definition on_store {A} (m : M P A) : M web A := fun w =>
  match m (store w) with
  | Done (a, p) => Done (a, with_store w p)
  | OutOfFuel => OutOfFuel
  | Undefined => Undefined
  end.

Definition log (e : event) : M web unit := modify (fun w => with_events w (events w ++ [e])).

(** [read] of one character; [None] when it does not return 1. *)
Definition read_char : M web (option Z) := fun w =>
  match input w with
  | [] => Done (None, w)
  | c :: rest => Done (c, with_input w rest)
  end.

Definition write (bs : list Z) : M web Z := fun w =>
  match write_results w with
  | [] => Done (strlen bs, with_out w (out w ++ [bs]) [])
  | r :: rs => Done (r, with_out w (out w ++ [bs]) rs)
  end.

Definition edit_buf (f : list Z -> option (list Z)) : M web unit :=
  let! w := get in
  let! b := deref (f (buf w)) in
  modify (fun w => with_buf w b).

(** The string in the buffer. *)
Definition buf_string : M web (list Z) :=
  let! w := get in deref (c_string (buf w)).

(** The terminator, in the last byte if need be. *)
Definition terminate (num len : Z) : M web unit :=
  edit_buf (fun b => put_at b (if len <=? num then u32 (len - 1) else num) [0]).

Fixpoint crlf_loop (fuel : nat) (num len : Z) : M web (option Z) :=
  match fuel with
  | O => out_of_fuel
  | S fuel =>
    let! c := read_char in
    match c with
    | None => ret None
    | Some c =>
      if c =? 10 then ret (Some num)
      else if (c <? 0x20) || (0x7e <? c) then crlf_loop fuel num len
      else
        do! (if num <? len then edit_buf (fun b => put_at b num [tolower c]) else ret tt) then
        crlf_loop fuel (u32 (num + 1)) len
    end
  end.

Definition read_crlf_line (len : Z) : M web Z :=
  let! w := get in
  let! r := crlf_loop (S (length (input w))) 0 len in
  match r with
  | None => ret (-1)
  | Some num =>
    do! terminate num len then
    ret (s32 num)
  end.

(** [valp] is [None] for a null pointer; the results are the return value,
    [*valp] and [*rem]. *)
Fixpoint name_loop (fuel : nat) (valp : option bool) (rem num len : Z) : M web (Z * option bool * Z) :=
  if rem =? 0 then
    do! terminate num len then
    ret (s32 num, valp, rem)
  else
    match fuel with
    | O => out_of_fuel
    | S fuel =>
      let! c := read_char in
      match c with
      | None => ret (-1, valp, rem)
      | Some c =>
        let rem := u32 (rem - 1) in
        if bool_decide (is_Some valp) && (c =? 61) then
          do! terminate num len then
          ret (s32 num, Some true, rem)
        else if c =? 38 then
          do! terminate num len then
          ret (s32 num, (fun _ => false) <$> valp, rem)
        else
          do! (if num <? len then edit_buf (fun b => put_at b num [c]) else ret tt) then
          name_loop fuel valp rem (u32 (num + 1)) len
      end
    end.

Definition wificfg_form_name_value (valp : option bool) (rem len : Z) : M web (Z * option bool * Z) :=
  let! w := get in
  name_loop (S (length (input w))) valp rem 0 len.

Definition wificfg_write_string (s : list Z) : M web Z := write s.

(** The digits of the size of a chunk that fits the buffer, with the offset
    they start at. *)
Definition chunk_digits (b : list Z) (str_len : Z) : option (list Z * Z) :=
  let digit d := if d <? 10 then 48 + d else 97 + d - 10 in
  if str_len <? 16 then
    b ← put_at b 1 [u8 (digit str_len)];
    Some (b, 1)
  else
    b ← put_at b 0 [u8 (digit (Z.shiftr str_len 4))];
    b ← put_at b 1 [u8 (digit (Z.land str_len 0xf))];
    Some (b, 0).

(** [str] may lie at the start of the buffer. *)
Definition wificfg_write_string_chunk (s : list Z) (len : Z) : M web Z :=
  let str_len := strlen s in
  if str_len =? 0 then ret 0
  else if u32 (str_len + 6) <? len then
    let! w := get in
    let! b := deref (put_at (buf w) 4 s) in
    let! (b, start) := deref (chunk_digits b str_len) in
    let! b := deref (put_at b 2 [13; 10]) in
    let! b := deref (put_at b (4 + str_len) [13; 10]) in
    do! modify (fun w => with_buf w b) then
    write (sub_bytes b start (4 - start + str_len + 2))
  else
    let size_text := print_x str_len ++ [13; 10] in
    let size_buf := snprintf 8 size_text ++ [0] in
    let size_len := strlen size_text in
    if strlen size_buf <? size_len then undefined else
    let! res := write (sub_bytes size_buf 0 size_len) in
    if negb (res =? size_len) then ret res
    else
      let! res := write s in
      if negb (res =? str_len) then ret res
      else write (sub_bytes size_buf (size_len - 2) 2).

Definition wificfg_write_chunk_end : M web Z := wificfg_write_string (str "0" ++ [13; 10; 13; 10]).

End Pages.
Arguments web : clear implicits.
End Wificfg.
