(* ===== verification/WificfgPages.v ===== *)
(** * Wi-Fi configuration: [extras/wificfg/wificfg.c], the handlers

    One handler for each page and form.  The fixed texts of the pages
    ([content/]) are an argument: [content] gives the fragments of each.  The
    start page and the list of tasks are in
    [WificfgInit]. *)

From stdpp Require Import strings.
From S2P Require Import Prelude CStrings Wificfg.
Open Scope Z_scope.

(** The files with the fixed texts. *)
Inductive page := favicon | style | script | index_html | sta_html | ap_html | challenge_html | tasks_html.

Module WificfgPages.
Import CLib Wificfg.

Definition AUTH_OPEN : Z := 0.
Definition AUTH_WPA_PSK : Z := 2.
Definition AUTH_WPA2_PSK : Z := 3.
Definition AUTH_WPA_WPA2_PSK : Z := 4.

(** [DEFAULT_SYSPARAM_SECTORS] *)
Definition DEFAULT_SYSPARAM_SECTORS : Z := 4.

Definition eol : list Z := [13; 10].

Definition http_success_header : list Z :=
  str "HTTP/1.1 200 " ++ eol ++ str "Content-Type: text/html; charset=utf-8" ++ eol ++ str "Cache-Control: no-store" ++ eol ++
  str "Transfer-Encoding: chunked" ++ eol ++ str "Connection: close" ++ eol ++ eol.

Definition http_redirect_header : list Z :=
  str "HTTP/1.1 302 " ++ eol ++ str "Location: /wificfg/" ++ eol ++ str "Content-Length: 0" ++ eol ++ str "Connection: close" ++ eol ++ eol.

Definition bad_request : list Z :=
  str "HTTP/1.1 400 " ++ eol ++ str "Content-Type: text/html" ++ eol ++ str "Content-Length: 0" ++ eol ++ str "Connection: close" ++ eol ++ eol.

Section Handlers.
Context {P : Type} `{!Params P}.
Context (content : page -> nat -> list Z).

(** A handler gets the method, the length and type of the content and the
    size of the buffer. *)
Definition wificfg_handler : Type := wificfg_method -> Z -> wificfg_content_type -> Z -> M (web P) Z.

(** Writes in a row: the first that fails ends the handler with -1. *)
Fixpoint write_steps (steps : list (M (web P) Z)) : M (web P) Z :=
  match steps with
  | [] => ret 0
  | step :: steps =>
    let! r := step in
    if r <? 0 then ret (-1) else write_steps steps
  end.

Definition chunk (len : Z) (s : list Z) : M (web P) Z := wificfg_write_string_chunk s len.
Definition chunk_if (b : bool) (len : Z) (s : list Z) : M (web P) Z := if b then chunk len s else ret 0.

(** [snprintf] to the buffer, and the buffer as a chunk. *)
Definition chunk_text (len : Z) (text : list Z) : M (web P) Z :=
  do! edit_buf (fun b => put_at b 0 (snprintf len text ++ [0])) then
  let! s := buf_string in
  chunk len s.

Definition chunk_escaped (len : Z) (s : list Z) : M (web P) Z :=
  do! edit_buf (fun b => wificfg_html_escape s b len) then
  do! on_store free then
  let! s := buf_string in
  chunk len s.

(** A string of the parameter store in a page. *)
Definition chunk_param (len : Z) (key : list Z) : M (web P) Z :=
  let! s := on_store (sysparam_get_string key) in
  match s with
  | Some s => chunk_escaped len s
  | None => ret 0
  end.

Definition get_int8 (key : list Z) (default_ : Z) : M (web P) Z :=
  let! v := on_store (sysparam_get_int8 key) in ret (default default_ v).
Definition get_int32 (key : list Z) (default_ : Z) : M (web P) Z :=
  let! v := on_store (sysparam_get_int32 key) in ret (default default_ v).

Definition chunk_checked (len : Z) (key : list Z) (default_ : Z) : M (web P) Z :=
  let! v := get_int8 key default_ in
  chunk_if (negb (v =? 0)) len (str "checked").

Definition chunk_number (len : Z) (key : list Z) (default_ : Z) : M (web P) Z :=
  let! v := get_int8 key default_ in
  chunk_text len (print_u (u32 v)).

(** ** Fixed pages *)

Definition handle_fixed (p : page) : wificfg_handler := fun method _ _ len =>
  let! r := wificfg_write_string (content p 0) in
  if r <? 0 then ret (-1)
  else if negb (bool_decide (method = HTTP_METHOD_HEAD)) then
    write_steps [chunk len (content p 1); wificfg_write_chunk_end]
  else ret 0.

Definition handle_favicon : wificfg_handler := handle_fixed favicon.
Definition handle_style : wificfg_handler := handle_fixed style.
Definition handle_script : wificfg_handler := handle_fixed script.

Definition handle_wificfg_redirect : wificfg_handler := fun _ _ _ _ => wificfg_write_string http_redirect_header.

Definition wificfg_write_html_title (len : Z) (title : option (list Z)) : M (web P) Z :=
  let! hostname := on_store (sysparam_get_string (str "hostname")) in
  let! hostname := match hostname with
                   | Some _ => ret hostname
                   | None => on_store (sysparam_get_string (str "wifi_ap_ssid"))
                   end in
  match hostname with
  | Some hostname =>
    write_steps (chunk_escaped len hostname :: match title with Some title => [chunk len (str " "); chunk len title] | None => [] end)
  | None => ret 0
  end.

(** The part of a page behind its header; [HEAD] gets the header only. *)
Definition html_page (method : wificfg_method) (steps : list (M (web P) Z)) : M (web P) Z :=
  let! r := wificfg_write_string http_success_header in
  if r <? 0 then ret (-1)
  else if negb (bool_decide (method = HTTP_METHOD_HEAD)) then write_steps steps
  else ret 0.

(** ** Forms *)

(** A name or a value is read and decoded; [None] when it cannot be read. *)
Definition read_text (valp : option bool) (rem len : Z) : M (web P) (option (list Z * option bool * Z)) :=
  let! (r, v, rem) := wificfg_form_name_value valp rem len in
  if r <? 0 then ret None
  else
    do! edit_buf wificfg_form_url_decode then
    let! s := buf_string in
    ret (Some (s, v, rem)).

(** The loop over the names and values of a form.  [field] is the [switch]
    over the name; the variables of the handler are threaded as [l]. *)
Fixpoint form_loop {L} (field : form_name -> list Z -> L -> M (web P) L) (fuel : nat) (valp : bool) (rem len : Z) (l : L)
    : M (web P) L :=
  if rem <=? 0 then ret l
  else
    match fuel with
    | O => out_of_fuel
    | S fuel =>
      let! name := read_text (Some valp) rem len in
      match name with
      | None => ret l
      | Some (name, v, rem) =>
        let valp := default valp v in
        if valp then
          let! value := read_text None rem len in
          match value with
          | None => ret l
          | Some (value, _, rem) =>
            let! l := field (intern_form_name name) value l in
            form_loop field fuel valp rem len l
          end
        else form_loop field fuel valp rem len l
      end
    end.

(** Every turn but the last takes a character. *)
Definition read_form {L} (field : form_name -> list Z -> L -> M (web P) L) (content_length len : Z) (l : L) : M (web P) L :=
  let! w := get in
  form_loop field (S (length (input w))) false content_length len l.

Definition set_string (key value : list Z) : M (web P) unit := on_store (sysparam_set_string key value).
Definition set_int8 (key : list Z) (n : Z) : M (web P) unit := on_store (sysparam_set_int8 key n).
Definition set_int32 (key : list Z) (n : Z) : M (web P) unit := on_store (sysparam_set_int32 key n).

(** [strtoul(buf, NULL, 10) != 0] *)
Definition enabled (value : list Z) : Z := if strtoul value =? 0 then 0 else 1.

Definition form_handler {L} (field : form_name -> list Z -> L -> M (web P) L) (l : L) (finish : L -> M (web P) unit) : wificfg_handler :=
  fun _ content_length content_type len =>
    if negb (bool_decide (content_type = HTTP_CONTENT_TYPE_WWW_FORM_URLENCODED)) then wificfg_write_string bad_request
    else
      let! l := read_form field content_length len l in
      do! finish l then
      wificfg_write_string http_redirect_header.

(** *** The start page *)

Definition index_field (name : form_name) (value : list Z) (l : unit) : M (web P) unit :=
  match name with
  | FORM_NAME_CFG_ENABLE => set_int8 (str "cfg_enable") (enabled value)
  | FORM_NAME_CFG_PASSWORD => set_string (str "cfg_password") value
  | _ => ret tt
  end.

Definition handle_wificfg_index_post : wificfg_handler := form_handler index_field tt (fun _ => ret tt).

(** *** The station *)

Record sta_form := { sta_done : bool; sta_enable : Z; sta_mdns_enable : Z }.

Definition station_field (name : form_name) (value : list Z) (l : sta_form) : M (web P) sta_form :=
  match name with
  | FORM_NAME_STA_ENABLE =>
    ret {| sta_done := sta_done l; sta_enable := enabled value; sta_mdns_enable := sta_mdns_enable l |}
  | FORM_NAME_STA_DISABLED_RESTARTS =>
    let restarts := strtoul value in
    do! (if restarts <=? 255 then set_int8 (str "wifi_sta_disabled_restarts") restarts else ret tt) then ret l
  | FORM_NAME_STA_SSID => do! set_string (str "wifi_sta_ssid") value then ret l
  | FORM_NAME_STA_PASSWORD => do! set_string (str "wifi_sta_password") value then ret l
  | FORM_NAME_HOSTNAME => do! set_string (str "hostname") value then ret l
  | FORM_NAME_STA_DHCP => do! set_int8 (str "wifi_sta_dhcp") (enabled value) then ret l
  | FORM_NAME_STA_IP_ADDR => do! set_string (str "wifi_sta_ip_addr") value then ret l
  | FORM_NAME_STA_NETMASK => do! set_string (str "wifi_sta_netmask") value then ret l
  | FORM_NAME_STA_GATEWAY => do! set_string (str "wifi_sta_gateway") value then ret l
  | FORM_NAME_STA_MDNS =>
    ret {| sta_done := sta_done l; sta_enable := sta_enable l; sta_mdns_enable := enabled value |}
  | FORM_NAME_DONE =>
    ret {| sta_done := true; sta_enable := sta_enable l; sta_mdns_enable := sta_mdns_enable l |}
  | _ => ret l
  end.

Definition station_finish (l : sta_form) : M (web P) unit :=
  if sta_done l then
    do! set_int8 (str "wifi_sta_enable") (sta_enable l) then
    set_int8 (str "wifi_sta_mdns") (sta_mdns_enable l)
  else ret tt.

Definition handle_wifi_station_post : wificfg_handler :=
  form_handler station_field {| sta_done := false; sta_enable := 0; sta_mdns_enable := 0 |} station_finish.

Definition handle_wifi_station : wificfg_handler := fun method _ _ len =>
  let c := content sta_html in
  html_page method [
    chunk len (c 0%nat);
    wificfg_write_html_title len (Some (str "Wifi station"));
    chunk len (c 1%nat);
    chunk_checked len (str "wifi_sta_enable") 1;
    chunk len (c 2%nat);
    chunk_number len (str "wifi_sta_disabled_restarts") 0;
    chunk len (c 3%nat);
    chunk_param len (str "wifi_sta_ssid");
    chunk len (c 4%nat);
    chunk_param len (str "wifi_sta_password");
    chunk len (c 5%nat);
    chunk_param len (str "hostname");
    chunk len (c 6%nat);
    (let! wifi_sta_dhcp := get_int8 (str "wifi_sta_dhcp") 1 in
     write_steps [
       chunk_if (negb (wifi_sta_dhcp =? 0)) len (str "checked");
       chunk len (c 7%nat);
       chunk_if (wifi_sta_dhcp =? 0) len (str "checked")]);
    chunk len (c 8%nat);
    chunk_param len (str "wifi_sta_ip_addr");
    chunk len (c 9%nat);
    chunk_param len (str "wifi_sta_netmask");
    chunk len (c 10%nat);
    chunk_param len (str "wifi_sta_gateway");
    chunk len (c 11%nat);
    chunk_checked len (str "wifi_sta_mdns") 1;
    chunk len (c 12%nat);
    wificfg_write_chunk_end].

(** *** The access point *)

Record ap_form := {
  ap_done : bool; ap_enable : Z; ap_disable_if_sta : Z; ssid_hidden : Z; dns_enable : Z; ap_mdns_enable : Z }.

Definition ap_field (name : form_name) (value : list Z) (l : ap_form) : M (web P) ap_form :=
  let '{| ap_done := d; ap_enable := e; ap_disable_if_sta := s; ssid_hidden := h; dns_enable := n; ap_mdns_enable := m |} := l in
  match name with
  | FORM_NAME_AP_ENABLE =>
    ret {| ap_done := d; ap_enable := enabled value; ap_disable_if_sta := s; ssid_hidden := h; dns_enable := n; ap_mdns_enable := m |}
  | FORM_NAME_AP_DISABLE_IF_STA =>
    ret {| ap_done := d; ap_enable := e; ap_disable_if_sta := enabled value; ssid_hidden := h; dns_enable := n; ap_mdns_enable := m |}
  | FORM_NAME_AP_DISABLED_RESTARTS =>
    let restarts := strtoul value in
    do! (if restarts <=? 255 then set_int8 (str "wifi_ap_disabled_restarts") restarts else ret tt) then ret l
  | FORM_NAME_AP_SSID => do! set_string (str "wifi_ap_ssid") value then ret l
  | FORM_NAME_AP_PASSWORD => do! set_string (str "wifi_ap_password") value then ret l
  | FORM_NAME_AP_SSID_HIDDEN =>
    ret {| ap_done := d; ap_enable := e; ap_disable_if_sta := s; ssid_hidden := enabled value; dns_enable := n; ap_mdns_enable := m |}
  | FORM_NAME_AP_CHANNEL =>
    let channel := strtoul value in
    do! (if (1 <=? channel) && (channel <=? 14) then set_int8 (str "wifi_ap_channel") channel else ret tt) then ret l
  | FORM_NAME_AP_AUTHMODE =>
    let mode := strtoul value in
    do! (if (mode =? AUTH_OPEN) || (mode =? AUTH_WPA_PSK) || (mode =? AUTH_WPA2_PSK) || (mode =? AUTH_WPA_WPA2_PSK)
         then set_int8 (str "wifi_ap_authmode") mode else ret tt) then ret l
  | FORM_NAME_AP_MAX_CONN =>
    let max_conn := strtoul value in
    do! (if max_conn <=? 8 then set_int8 (str "wifi_ap_max_conn") max_conn else ret tt) then ret l
  | FORM_NAME_AP_BEACON_INTERVAL =>
    let interval := strtoul value in
    do! (if interval <=? 10000 then set_int32 (str "wifi_ap_beacon_interval") interval else ret tt) then ret l
  | FORM_NAME_AP_IP_ADDR => do! set_string (str "wifi_ap_ip_addr") value then ret l
  | FORM_NAME_AP_NETMASK => do! set_string (str "wifi_ap_netmask") value then ret l
  | FORM_NAME_AP_DHCP_LEASES =>
    let leases := strtoul value in
    do! (if leases <=? 16 then set_int8 (str "wifi_ap_dhcp_leases") leases else ret tt) then ret l
  | FORM_NAME_AP_DNS =>
    ret {| ap_done := d; ap_enable := e; ap_disable_if_sta := s; ssid_hidden := h; dns_enable := enabled value; ap_mdns_enable := m |}
  | FORM_NAME_AP_MDNS =>
    ret {| ap_done := d; ap_enable := e; ap_disable_if_sta := s; ssid_hidden := h; dns_enable := n; ap_mdns_enable := enabled value |}
  | FORM_NAME_DONE =>
    ret {| ap_done := true; ap_enable := e; ap_disable_if_sta := s; ssid_hidden := h; dns_enable := n; ap_mdns_enable := m |}
  | _ => ret l
  end.

Definition ap_finish (l : ap_form) : M (web P) unit :=
  if ap_done l then
    do! set_int8 (str "wifi_ap_enable") (ap_enable l) then
    do! set_int8 (str "wifi_ap_disable_if_sta") (ap_disable_if_sta l) then
    do! set_int8 (str "wifi_ap_ssid_hidden") (ssid_hidden l) then
    do! set_int8 (str "wifi_ap_dns") (dns_enable l) then
    set_int8 (str "wifi_ap_mdns") (ap_mdns_enable l)
  else ret tt.

Definition handle_wifi_ap_post : wificfg_handler :=
  form_handler ap_field
    {| ap_done := false; ap_enable := 0; ap_disable_if_sta := 0; ssid_hidden := 0; dns_enable := 0; ap_mdns_enable := 0 |} ap_finish.

Definition handle_wifi_ap : wificfg_handler := fun method _ _ len =>
  let c := content ap_html in
  html_page method [
    chunk len (c 0%nat);
    wificfg_write_html_title len (Some (str "Wifi access point"));
    chunk len (c 1%nat);
    chunk_checked len (str "wifi_ap_enable") 1;
    chunk len (c 2%nat);
    chunk_checked len (str "wifi_ap_disable_if_sta") 1;
    chunk len (c 3%nat);
    chunk_number len (str "wifi_ap_disabled_restarts") 0;
    chunk len (c 4%nat);
    chunk_param len (str "wifi_ap_ssid");
    chunk len (c 5%nat);
    chunk_param len (str "wifi_ap_password");
    chunk len (c 6%nat);
    chunk_checked len (str "wifi_ap_ssid_hidden") 0;
    chunk len (c 7%nat);
    chunk_number len (str "wifi_ap_channel") 6;
    chunk len (c 8%nat);
    (let! wifi_ap_authmode := get_int8 (str "wifi_ap_authmode") AUTH_WPA_WPA2_PSK in
     write_steps [
       chunk_if (wifi_ap_authmode =? AUTH_OPEN) len (str " selected");
       chunk len (c 9%nat);
       chunk_if (wifi_ap_authmode =? AUTH_WPA_PSK) len (str " selected");
       chunk len (c 10%nat);
       chunk_if (wifi_ap_authmode =? AUTH_WPA2_PSK) len (str " selected");
       chunk len (c 11%nat);
       chunk_if (wifi_ap_authmode =? AUTH_WPA_WPA2_PSK) len (str " selected")]);
    chunk len (c 12%nat);
    chunk_number len (str "wifi_ap_max_conn") 3;
    chunk len (c 13%nat);
    (let! wifi_ap_beacon_interval := get_int32 (str "wifi_ap_beacon_interval") 100 in
     chunk_text len (print_u (u32 wifi_ap_beacon_interval)));
    chunk len (c 14%nat);
    chunk_param len (str "wifi_ap_ip_addr");
    chunk len (c 15%nat);
    chunk_param len (str "wifi_ap_netmask");
    chunk len (c 16%nat);
    chunk_number len (str "wifi_ap_dhcp_leases") 4;
    chunk len (c 17%nat);
    chunk_checked len (str "wifi_ap_dns") 1;
    chunk len (c 18%nat);
    chunk_checked len (str "wifi_ap_mdns") 1;
    chunk len (c 19%nat);
    wificfg_write_chunk_end].

(** ** The challenge *)

Definition handle_wificfg_challenge : wificfg_handler := fun method _ _ len =>
  html_page method [
    chunk len (content challenge_html 0);
    wificfg_write_html_title len (Some (str "Challenge"));
    chunk len (content challenge_html 1);
    wificfg_write_chunk_end].

Definition challenge_field (password : list Z) (name : form_name) (value : list Z) (l : unit) : M (web P) unit :=
  match name with
  | FORM_NAME_CFG_PASSWORD => if bool_decide (password = value) then set_int8 (str "cfg_enable") 1 else ret tt
  | _ => ret tt
  end.

Definition handle_wificfg_challenge_post : wificfg_handler := fun _ content_length content_type len =>
  if negb (bool_decide (content_type = HTTP_CONTENT_TYPE_WWW_FORM_URLENCODED)) then wificfg_write_string bad_request
  else
    let! enable := get_int8 (str "cfg_enable") 1 in
    let! password := on_store (sysparam_get_string (str "cfg_password")) in
    do! (match password with
         | Some password =>
           do! (if (enable =? 0) && negb (strlen password =? 0)
                then read_form (challenge_field password) content_length len tt else ret tt) then
           on_store free
         | None => ret tt
         end) then
    wificfg_write_string http_redirect_header.

(** ** Restart and erase *)

Definition wificfg_add_shutdown_hook (malloc_ok : bool) (hook : Z) : M (web P) bool :=
  if malloc_ok then
    do! modify (fun w => with_flags w (got_sta_connect w) (hook :: shutdown_hooks w)) then
    ret true
  else ret false.

Fixpoint run_hooks (hooks : list Z) : M (web P) unit :=
  match hooks with
  | [] => ret tt
  | hook :: hooks => do! log (Hook hook) then run_hooks hooks
  end.

Definition handle_restart_post : wificfg_handler := fun _ _ _ _ =>
  let! _ := wificfg_write_string http_redirect_header in
  do! log Close then
  let! w := get in
  do! run_hooks (shutdown_hooks w) then
  do! log Restart then
  ret 0.

Fixpoint erase_loop (n : nat) (address : Z) : M (web P) unit :=
  match n with
  | O => ret tt
  | S n =>
    do! on_store (spiflash_erase_sector (u32 address)) then
    erase_loop n (address + sector_size)
  end.

Definition handle_erase_post : wificfg_handler := fun _ _ _ _ =>
  let! _ := wificfg_write_string http_redirect_header in
  do! log Close then
  let num_sectors := 5 + DEFAULT_SYSPARAM_SECTORS in
  do! log EnterCritical then
  do! erase_loop (Z.to_nat num_sectors) (u32 (chip_size - num_sectors * sector_size)) then
  do! log Restart then
  ret 0.

(** ** A connection of the station *)

Definition wificfg_got_sta_connect : M (web P) unit :=
  let! w := get in
  if got_sta_connect w then ret tt
  else
    do! modify (fun w => with_flags w true (shutdown_hooks w)) then
    let! wifi_ap_enable := get_int8 (str "wifi_ap_enable") 1 in
    if wifi_ap_enable =? 0 then ret tt
    else
      let! wifi_ap_disable_if_sta := get_int8 (str "wifi_ap_disable_if_sta") 1 in
      if negb (wifi_ap_disable_if_sta =? 0) then
        let! wifi_ap_disabled_restarts := get_int8 (str "wifi_ap_disabled_restarts") 0 in
        if wifi_ap_disabled_restarts =? 0 then set_int8 (str "wifi_ap_disabled_restarts") 1 else ret tt
      else ret tt.

(** The connection status is asked for once a second; the results are the
    argument. *)
Definition STATION_GOT_IP : Z := 5.

Fixpoint wificfg_wait_until_sta_connected (connect_status : list Z) : M (web P) unit :=
  match connect_status with
  | [] => out_of_fuel
  | status :: connect_status =>
    if status =? STATION_GOT_IP then wificfg_got_sta_connect
    else wificfg_wait_until_sta_connected connect_status
  end.

End Handlers.
Arguments wificfg_handler P : clear implicits.
End WificfgPages.
