(* ===== verification/WificfgServer.v ===== *)
(** * Wi-Fi configuration: [extras/wificfg/wificfg.c], the servers

    The HTTP server, which reads a request, finds its handler, asks for the
    password when the configuration is locked and closes the connection, and
    the DNS server, which gives the address of the access point for every
    name.  Both tasks run over the list of what they receive. *)

From stdpp Require Import strings.
From S2P Require Import Prelude CStrings Wificfg WificfgPages.
Open Scope Z_scope.

Module WificfgServer.
Import CLib Wificfg WificfgPages.

(** What [getsockname] gives: an IPv4 address, an IPv6 one as text, or
    neither. *)
Inductive sockaddr := Inet (a b c d : Z) | Inet6Mapped (a b c d : Z) | Inet6 (text : option (list Z)) | NoName.

Definition ip_text (a b c d : Z) : list Z :=
  print_u a ++ str "." ++ print_u b ++ str "." ++ print_u c ++ str "." ++ print_u d.

Definition not_found_header : list Z :=
  str "HTTP/1.1 404 " ++ eol ++ str "Content-Type: text/html; charset=utf-8" ++ eol ++ str "Cache-Control: no-store" ++ eol ++
  str "Content-Length: 0" ++ eol ++ str "Connection: close" ++ eol ++ eol.

(** A host that is no literal address; [None] is a null pointer. *)
Definition host_is_name (host : option (list Z)) : bool :=
  match host with
  | None => true
  | Some host =>
    let first := nth 0 host 0 in
    let last := nth (length host - 1) host 0 in
    if strlen host <? 4 then true
    else if (first =? 91) && (last =? 93) then false
    else if isdigit first && isdigit last then false
    else true
  end.

(** A connection: the characters that arrive, the results of writes, the
    address, and whether the station has an address when it is closed. *)
Record arrived := {
  a_input : list (option Z);
  a_write_results : list Z;
  a_sockname : sockaddr;
  a_got_ip : bool;
}.

Section Server.
Context {P : Type} `{!Params P}.
Context (content : page -> nat -> list Z).

Record wificfg_dispatch := { d_path : list Z; d_method : wificfg_method; d_handler : wificfg_handler P; d_secure : bool }.

(** The start page and the list of tasks are arguments. *)
Definition wificfg_dispatch_list (handle_wificfg_index handle_tasks : wificfg_handler P) : list wificfg_dispatch := [
  {| d_path := str "/favicon.ico"; d_method := HTTP_METHOD_GET; d_handler := handle_favicon content; d_secure := false |};
  {| d_path := str "/style.css"; d_method := HTTP_METHOD_GET; d_handler := handle_style content; d_secure := false |};
  {| d_path := str "/script.js"; d_method := HTTP_METHOD_GET; d_handler := handle_script content; d_secure := false |};
  {| d_path := str "/"; d_method := HTTP_METHOD_GET; d_handler := handle_wificfg_redirect; d_secure := false |};
  {| d_path := str "/index.html"; d_method := HTTP_METHOD_GET; d_handler := handle_wificfg_redirect; d_secure := false |};
  {| d_path := str "/wificfg/"; d_method := HTTP_METHOD_GET; d_handler := handle_wificfg_index; d_secure := true |};
  {| d_path := str "/wificfg/"; d_method := HTTP_METHOD_POST; d_handler := handle_wificfg_index_post; d_secure := true |};
  {| d_path := str "/wificfg/sta.html"; d_method := HTTP_METHOD_GET; d_handler := handle_wifi_station content; d_secure := true |};
  {| d_path := str "/wificfg/sta.html"; d_method := HTTP_METHOD_POST; d_handler := handle_wifi_station_post; d_secure := true |};
  {| d_path := str "/wificfg/ap.html"; d_method := HTTP_METHOD_GET; d_handler := handle_wifi_ap content; d_secure := true |};
  {| d_path := str "/wificfg/ap.html"; d_method := HTTP_METHOD_POST; d_handler := handle_wifi_ap_post; d_secure := true |};
  {| d_path := str "/challenge.html"; d_method := HTTP_METHOD_GET; d_handler := handle_wificfg_challenge content; d_secure := false |};
  {| d_path := str "/challenge.html"; d_method := HTTP_METHOD_POST; d_handler := handle_wificfg_challenge_post; d_secure := false |};
  {| d_path := str "/wificfg/restart.html"; d_method := HTTP_METHOD_POST; d_handler := handle_restart_post; d_secure := true |};
  {| d_path := str "/wificfg/erase.html"; d_method := HTTP_METHOD_POST; d_handler := handle_erase_post; d_secure := true |};
  {| d_path := str "/tasks"; d_method := HTTP_METHOD_GET; d_handler := handle_tasks; d_secure := false |};
  {| d_path := str "/tasks.html"; d_method := HTTP_METHOD_GET; d_handler := handle_tasks; d_secure := false |}].

Definition wificfg_challenge_dispatch : wificfg_dispatch :=
  {| d_path := str "/challenge.html"; d_method := HTTP_METHOD_GET; d_handler := handle_wificfg_challenge content; d_secure := false |}.

Fixpoint find_dispatch (table : list wificfg_dispatch) (path : list Z) (method : wificfg_method) : option wificfg_dispatch :=
  match table with
  | [] => None
  | d :: table =>
    if bool_decide (path = d_path d) && bool_decide (d_method d = HTTP_METHOD_ANY \/ method = d_method d) then Some d
    else find_dispatch table path method
  end.

(** The request line in the buffer: the method and the path. *)
Definition parse_request : M (web P) (wificfg_method * list Z) :=
  let! w := get in
  let! method_end := deref (skip_to_whitespace (buf w) 0) in
  let! path_string := deref (skip_whitespace (buf w) method_end) in
  do! edit_buf (fun b => put_at b (Z.of_nat method_end) [0]) then
  let! method := buf_string in
  let! w := get in
  let! path_end := deref (skip_to_whitespace (buf w) path_string) in
  do! edit_buf (fun b => put_at b (Z.of_nat path_end) [0]) then
  let! w := get in
  let! path := deref (string_at (buf w) (Z.of_nat path_string)) in
  ret (intern_http_method method, path).

(** The table of the application is looked at first. *)
Definition select_handler (dispatch wificfg_dispatch_ : list wificfg_dispatch) (path : list Z) (method : wificfg_method)
    : M (web P) (option wificfg_dispatch) :=
  let match_ := match find_dispatch dispatch path method with
                | Some d => Some d
                | None => find_dispatch wificfg_dispatch_ path method
                end in
  match match_ with
  | Some d =>
    if d_secure d then
      let! enable := get_int8 (str "cfg_enable") 1 in
      if enable =? 0 then
        let! password := on_store (sysparam_get_string (str "cfg_password")) in
        match password with
        | Some password =>
          do! on_store free then
          ret (if 0 <? strlen password then Some wificfg_challenge_dispatch else None)
        | None => ret None
        end
      else ret (Some d)
    else ret (Some d)
  | None => ret None
  end.

(** What the headers say. *)
Record headers := { content_type : wificfg_content_type; connection_close : bool; host_redirect : bool; content_length : Z }.

(** A line of the header in the buffer. *)
Definition parse_header (hostname_local : option (list Z)) (h : headers) : M (web P) headers :=
  let! w := get in
  let! name_end := deref (span (fun c => negb (c =? 0) && negb (c =? 58)) (buf w)) in
  let! c := deref (buf w !! name_end) in
  if negb (c =? 58) then ret h
  else
    do! edit_buf (fun b => put_at b (Z.of_nat name_end) [0]) then
    let! name := buf_string in
    let! w := get in
    let! value := deref (skip_whitespace (buf w) (S name_end)) in
    let! value := deref (string_at (buf w) (Z.of_nat value)) in
    ret match intern_http_header name with
        | HTTP_HEADER_HOST =>
          if negb (host_is_name (Some value)) then h
          else if bool_decide (hostname_local = Some value) then h
          else {| content_type := content_type h; connection_close := connection_close h; host_redirect := true;
                  content_length := content_length h |}
        | HTTP_HEADER_CONTENT_LENGTH =>
          {| content_type := content_type h; connection_close := connection_close h; host_redirect := host_redirect h;
             content_length := s32 (strtoul value) |}
        | HTTP_HEADER_CONTENT_TYPE =>
          {| content_type := intern_http_content_type value; connection_close := connection_close h;
             host_redirect := host_redirect h; content_length := content_length h |}
        | HTTP_HEADER_CONNECTION =>
          {| content_type := content_type h; connection_close := bool_decide (value = str "close");
             host_redirect := host_redirect h; content_length := content_length h |}
        | HTTP_HEADER_OTHER => h
        end.

Fixpoint headers_loop (fuel : nat) (hostname_local : option (list Z)) (h : headers) : M (web P) headers :=
  match fuel with
  | O => out_of_fuel
  | S fuel =>
    let! header_length := read_crlf_line HTTP_BUFFER_SIZE in
    if header_length <=? 0 then ret h
    else
      let! h := parse_header hostname_local h in
      headers_loop fuel hostname_local h
  end.

Definition handle_ipaddr_redirect (name : sockaddr) (len : Z) : M (web P) Z :=
  let write_ip a b c d :=
    do! edit_buf (fun m => put_at m 0 (snprintf len (ip_text a b c d) ++ [0])) then
    let! s := buf_string in
    wificfg_write_string s in
  write_steps [
    wificfg_write_string (str "HTTP/1.1 302 " ++ eol ++ str "Location: http://");
    match name with
    | Inet a b c d => write_ip a b c d
    | Inet6Mapped a b c d => write_ip a b c d
    | Inet6 text =>
      write_steps [
        wificfg_write_string (str "[");
        match text with
        | Some text =>
          do! edit_buf (fun m => put_at m 0 (snprintf len text ++ [0])) then
          let! s := buf_string in
          wificfg_write_string s
        | None => ret 0
        end;
        wificfg_write_string (str "]")]
    | NoName => ret 0
    end;
    wificfg_write_string (eol ++ str "Content-Length: 0" ++ eol ++ str "Connection: close" ++ eol ++ eol)].

(** Up to 4096 characters that are left are read. *)
Fixpoint drain (n : nat) : M (web P) unit :=
  match n with
  | O => ret tt
  | S n =>
    let! c := read_char in
    match c with
    | Some _ => drain n
    | None => ret tt
    end
  end.

(** A request; every path ends with the end of the connection. *)
Definition serve_request (hostname_local : option (list Z)) (dispatch wificfg_dispatch_ : list wificfg_dispatch) (name : sockaddr)
    : M (web P) unit :=
  let len := HTTP_BUFFER_SIZE in
  let! request_line_size := read_crlf_line len in
  if request_line_size <? 5 then ret tt
  else
    let! (method, path) := parse_request in
    let! match_ := select_handler dispatch wificfg_dispatch_ path method in
    let! w := get in
    let! h := headers_loop (S (length (input w))) hostname_local
      {| content_type := HTTP_CONTENT_TYPE_OTHER; connection_close := false; host_redirect := false; content_length := 0 |} in
    if host_redirect h then
      let! _ := handle_ipaddr_redirect name len in
      ret tt
    else
      let! r := match match_ with
                | Some d => d_handler d method (u32 (content_length h)) (content_type h) len
                | None => wificfg_write_string not_found_header
                end in
      if r <? 0 then ret tt else drain (Z.to_nat 4096).

(** The turn of the server for a connection. *)
Definition server_turn (hostname_local : option (list Z)) (dispatch wificfg_dispatch_ : list wificfg_dispatch) (a : arrived)
    : M (web P) unit :=
  do! modify (fun w => with_out (with_input w (a_input a)) (out w) (a_write_results a)) then
  do! serve_request hostname_local dispatch wificfg_dispatch_ (a_sockname a) then
  do! log Close then
  if a_got_ip a then wificfg_got_sta_connect else ret tt.

(** The task, over the results of [accept]; [None] is a failure. *)
Fixpoint server_loop (hostname_local : option (list Z)) (dispatch wificfg_dispatch_ : list wificfg_dispatch)
    (conns : list (option arrived)) : M (web P) unit :=
  match conns with
  | [] => ret tt
  | a :: conns =>
    do! (match a with
         | Some a => server_turn hostname_local dispatch wificfg_dispatch_ a
         | None => ret tt
         end) then
    server_loop hostname_local dispatch wificfg_dispatch_ conns
  end.

(** The start of the task: the name the server goes by, and the name it is
    announced with by multicast DNS ([mdns_add_facility], type [_http], port
    80), when an interface that is there asks for it. *)
Definition server_start (malloc_ok station_netif softap_netif : bool) : M (web P) (option (list Z) * option (list Z)) :=
  let! hostname := on_store (sysparam_get_string (str "hostname")) in
  match hostname with
  | Some hostname =>
    let hostname_local := if malloc_ok then Some (hostname ++ str ".local") else None in
    let! wifi_sta_mdns := get_int8 (str "wifi_sta_mdns") 1 in
    let! wifi_ap_mdns := get_int8 (str "wifi_ap_mdns") 1 in
    let announce := negb (wifi_sta_mdns =? 0) && station_netif || negb (wifi_ap_mdns =? 0) && softap_netif in
    do! on_store free then
    ret (hostname_local, if announce then Some hostname else None)
  | None => ret (None, None)
  end.

(** The task; [conns] are the results of [accept]. *)
Definition server_task (malloc_ok station_netif softap_netif : bool) (dispatch wificfg_dispatch_ : list wificfg_dispatch)
    (conns : list (option arrived)) : M (web P) (option (list Z)) :=
  let! (hostname_local, announced) := server_start malloc_ok station_netif softap_netif in
  do! server_loop hostname_local dispatch wificfg_dispatch_ conns then
  ret announced.

End Server.
Arguments wificfg_dispatch P : clear implicits.

(** ** The DNS server *)

(** The reply to a message of [count] bytes in the buffer: the buffer and the
    length to be sent. *)
Definition dns_reply (buffer : list Z) (count : Z) (server_addr : list Z) : option (list Z * Z) :=
  qname ← string_at buffer 12;
  let qname_len := strlen qname + 1 in
  let reply_len := 2 + 10 + qname_len + 16 + 4 in
  buffer ← put_at buffer 2 [0x80; 0; 0; 1; 0; 1; 0; 0; 0; 0];
  buffer ← put_at buffer (12 + qname_len) ([0; 1; 0; 1; 0xC0; 0x0C; 0; 1; 0; 1; 0; 0; 0; 0x78; 0; 4] ++ server_addr);
  Some (buffer, reply_len).

(** One message, which [recvfrom] has stored at the start of the buffer: the
    data sent, if any. *)
Definition dns_turn (buffer packet : list Z) (server_addr : list Z) : option (list Z * option (list Z)) :=
  let count := Z.of_nat (length packet) in
  buffer ← put_at buffer 0 packet;
  if (0 <? count) && (count <=? 96 - 16) then
    '(buffer, reply_len) ← dns_reply buffer count server_addr;
    if Z.of_nat (length buffer) <? reply_len then None
    else Some (buffer, Some (sub_bytes buffer 0 reply_len))
  else Some (buffer, None).

(** The task without an address to give ends; the rest is the messages, each
    with what the buffer on the stack holds before. *)
Fixpoint dns_loop (received : list (list Z * list Z)) (server_addr : list Z) : option (list (list Z)) :=
  match received with
  | [] => Some []
  | (buffer, packet) :: received =>
    '(_, reply) ← dns_turn buffer packet server_addr;
    sent ← dns_loop received server_addr;
    Some (match reply with Some data => data :: sent | None => sent end)
  end.

Definition dns_task (wifi_ap_ip_addr : option (list Z)) (ipaddr_addr : list Z -> list Z) (received : list (list Z * list Z))
    : option (list (list Z)) :=
  match wifi_ap_ip_addr with
  | Some addr => dns_loop received (ipaddr_addr addr)
  | None => Some []
  end.

End WificfgServer.
