(* ===== verification/WificfgText.v ===== *)
(** * Wi-Fi configuration: texts

    What the text functions of [Wificfg] compute: decoding of form fields is
    the inverse of any encoding a browser may choose, the escaped text shows
    the string and nothing else, and a chunk is the same by both ways of
    writing it. *)

From stdpp Require Import strings.
From S2P Require Import Prelude CStrings Wificfg.
Open Scope Z_scope.

Module WificfgText.
Import CLib Wificfg.

(** ** Blocks *)

Definition nonzero (s : list Z) : Prop := Forall (fun c => c <> 0) s.

(** The text before the first zero. *)
Fixpoint cut0 (s : list Z) : list Z :=
  match s with
  | [] => []
  | c :: s => if c =? 0 then [] else c :: cut0 s
  end.

Lemma cut0_nonzero s : nonzero (cut0 s).
Proof. induction s as [|c s IH]; cbn; [constructor|]. case_if; zbool; by constructor. Qed.

Lemma cut0_id s : nonzero s -> cut0 s = s.
Proof. induction 1 as [|c s Hc _ IH]; cbn; [done|]. by rewrite (proj2 (Z.eqb_neq _ _)), IH. Qed.

Lemma c_string_cut0 s mem : c_string (s ++ 0 :: mem) = Some (cut0 s).
Proof. induction s as [|c s IH]; cbn; [done|]. case_if; [done|]. by rewrite IH. Qed.

Lemma cut0_split s mem : exists t mem', s ++ 0 :: mem = cut0 s ++ 0 :: mem' /\ length mem' = (length s + length mem - t)%nat /\ t = length (cut0 s).
Proof.
  induction s as [|c s (t & mem' & E & Hl & ->)]; cbn; [by exists 0%nat, mem; rewrite Nat.sub_0_r|]. case_if; zbool.
  - subst. exists 0%nat, (s ++ 0 :: mem). rewrite length_app. cbn. repeat split; lia.
  - exists (S (length (cut0 s))), mem'. cbn. rewrite E, Hl. done.
Qed.

Lemma put_at_app pre old bs post :
  length old = length bs -> put_at (pre ++ old ++ post) (Z.of_nat (length pre)) bs = Some (pre ++ bs ++ post).
Proof.
  intros Hl. unfold put_at. rewrite (proj2 (orb_false_iff _ _)); cycle 1.
  { split; [apply Z.ltb_ge; lia|]. apply Z.ltb_ge. rewrite !length_app. lia. }
  f_equal. rewrite Nat2Z.id, take_app_length. rewrite <-drop_drop, drop_app_length, <-Hl, drop_app_length. done.
Qed.

Lemma put_at_length mem off bs mem' : put_at mem off bs = Some mem' -> length mem' = length mem.
Proof.
  unfold put_at. case_if; [done|]. zbool. injection 1 as <-. rewrite !length_app, length_take, length_drop. lia.
Qed.

Lemma put_at_ok mem off bs :
  0 <= off -> off + Z.of_nat (length bs) <= Z.of_nat (length mem) -> is_Some (put_at mem off bs).
Proof. intros H1 H2. unfold put_at. case_if; [|done]. zbool. lia. Qed.

(** ** Decoding *)

(** The decoded text. *)
Fixpoint url_decode (s : list Z) : list Z :=
  match s with
  | [] => []
  | c :: s' =>
    if c =? 37 then
      match s' with
      | c1 :: c2 :: s'' =>
        if isxdigit c1 && isxdigit c2 then u8 (Z.shiftl (hex_value c1) 4 + hex_value c2) :: url_decode s''
        else c :: url_decode s'
      | _ => c :: url_decode s'
      end
    else (if c =? 43 then 32 else c) :: url_decode s'
  end.

(** A character written where text has been read. *)
Lemma put_shift (pre gap cs t : list Z) v :
  cs <> [] -> exists gap', (length gap' + 1 = length gap + length cs)%nat /\
    <[length pre := v]> (pre ++ gap ++ cs ++ t) = (pre ++ [v]) ++ gap' ++ t.
Proof.
  intros Hcs. destruct (gap ++ cs) as [|x l] eqn:E; [by apply app_eq_nil in E as [_ ?]|].
  exists l. split; [apply (f_equal length) in E; rewrite length_app in E; cbn in E; lia|].
  rewrite (app_assoc gap), E, <-(Nat.add_0_r (length pre)), insert_app_r. cbn. by rewrite <-app_assoc.
Qed.

Lemma lookup_text (pre gap s t : list Z) i :
  (i < length s)%nat -> (pre ++ gap ++ s ++ t) !! (length pre + length gap + i)%nat = s !! i.
Proof.
  intros Hi. rewrite app_assoc, lookup_app_r by (rewrite length_app; lia). rewrite length_app.
  replace (_ + _ + _ - _)%nat with i by lia. by apply lookup_app_l.
Qed.

Lemma decode_loop_ok fuel : forall s pre gap rest,
  (length s <= fuel)%nat ->
  exists rest', decode_loop fuel (pre ++ gap ++ s ++ 0 :: rest) (length pre + length gap) (length pre)
      (length pre + length gap + length s) = Some (pre ++ url_decode s ++ 0 :: rest') /\
    (length (url_decode s) + length rest' = length gap + length s + length rest)%nat.
Proof.
  induction fuel as [|fuel IH]; intros s pre gap rest Hf; (destruct s as [|c s]; [|cbn [length] in Hf; try lia]).
  1, 2: cbn [decode_loop length url_decode app]; rewrite decide_False by lia; (rewrite decide_True by (rewrite !length_app; cbn; lia));
    destruct (put_shift pre gap [0] rest 0) as (gap' & Hl & E); [done|]; cbn in E; rewrite E;
    exists (gap' ++ rest); rewrite <-app_assoc, length_app; cbn in *; split; [done|lia].
  assert (Hstep : forall cs s' v, c :: s = cs ++ s' -> cs <> [] -> exists rest',
    decode_loop fuel (<[length pre := v]> (pre ++ gap ++ (c :: s) ++ 0 :: rest)) (length pre + length gap + length cs) (S (length pre))
        (length pre + length gap + length (c :: s)) = Some (pre ++ (v :: url_decode s') ++ 0 :: rest') /\
    (S (length (url_decode s')) + length rest' = length gap + length (c :: s) + length rest)%nat).
  { intros cs s' v E Hcs. rewrite E, <-app_assoc. destruct (put_shift pre gap cs (s' ++ 0 :: rest) v Hcs) as (gap' & Hl & ->).
    assert (length s' <= fuel)%nat as Hs'.
    { apply (f_equal length) in E. rewrite length_app in E. cbn in E. destruct cs; [done|]. cbn in E. lia. }
    destruct (IH s' (pre ++ [v]) gap' rest Hs') as (rest' & Er & Hr). rewrite !length_app in *. cbn [length] in *.
    replace (length pre + 1 + length gap')%nat with (length pre + length gap + length cs)%nat in Er by lia.
    replace (length pre + 1)%nat with (S (length pre)) in Er by lia.
    exists rest'. rewrite Nat.add_assoc, Er. rewrite <-app_assoc. split; [done|lia]. }
  cbn [decode_loop]. rewrite decide_True by (cbn; lia).
  pose proof (lookup_text pre gap (c :: s) (0 :: rest) 0 ltac:(cbn; lia)) as E0. rewrite Nat.add_0_r in E0. rewrite E0. cbn [lookup list_lookup option_bind mbind].
  pose proof (Hstep [c] s) as H1. cbn [length] in H1. rewrite Nat.add_1_r in H1.
  cbn [url_decode]. destruct (Z.eqb_spec c 37) as [->|Hc]; cycle 1.
  { rewrite bool_decide_false by tauto. by apply H1. }
  destruct s as [|c1 [|c2 s]].
  1, 2: rewrite bool_decide_false by (cbn [length]; lia); change (37 =? 43) with false; by apply H1.
  rewrite bool_decide_true by (cbn [length]; lia).
  pose proof (lookup_text pre gap (37 :: c1 :: c2 :: s) (0 :: rest) 1 ltac:(cbn; lia)) as E1. rewrite Nat.add_1_r in E1. rewrite E1.
  pose proof (lookup_text pre gap (37 :: c1 :: c2 :: s) (0 :: rest) 2 ltac:(cbn; lia)) as E2.
  replace (length pre + length gap + 2)%nat with (S (S (length pre + length gap))) in E2 by lia. cbn [lookup list_lookup option_bind mbind]. rewrite E2.
  cbn [lookup list_lookup option_bind mbind]. destruct (isxdigit c1 && isxdigit c2); [|by apply H1].
  pose proof (Hstep [37; c1; c2] s) as H3. cbn [length] in H3. replace (length pre + length gap + 3)%nat with (S (S (S (length pre + length gap)))) in H3 by lia.
  by apply H3.
Qed.

Lemma form_url_decode_ok s rest :
  nonzero s -> exists rest', wificfg_form_url_decode (s ++ 0 :: rest) = Some (url_decode s ++ 0 :: rest') /\
    length (url_decode s ++ 0 :: rest') = length (s ++ 0 :: rest).
Proof.
  intros Hs. unfold wificfg_form_url_decode. rewrite c_string_app by done. cbn [option_bind mbind].
  destruct (decode_loop_ok (length s) s [] [] rest) as (rest' & E & Hl); [done|]. exists rest'. split; [exact E|].
  rewrite !length_app. cbn in *. lia.
Qed.

(** Whatever the buffer holds before its terminator. *)
Lemma decode_buffer e mem :
  exists rest', wificfg_form_url_decode (e ++ 0 :: mem) = Some (url_decode (cut0 e) ++ 0 :: rest') /\
    length (url_decode (cut0 e) ++ 0 :: rest') = length (e ++ 0 :: mem).
Proof.
  destruct (cut0_split e mem) as (t & mem' & E & _ & _). rewrite E. apply form_url_decode_ok, cut0_nonzero.
Qed.

(** The encodings of a text: a byte stands for itself unless it has a meaning
    of its own, a plus sign for a space, and two hexadecimal digits in either
    case for any byte. *)
Definition hex_of (d c : Z) : Prop := digit_val 16 c = Some d.

Inductive encoded : list Z -> list Z -> Prop :=
| encoded_nil : encoded [] []
| encoded_plain c bs e : c <> 37 -> c <> 43 -> c <> 38 -> c <> 61 -> c <> 0 -> encoded bs e -> encoded (c :: bs) (c :: e)
| encoded_space bs e : encoded bs e -> encoded (32 :: bs) (43 :: e)
| encoded_hex b h l c1 c2 bs e : b = 16 * h + l -> hex_of h c1 -> hex_of l c2 -> encoded bs e -> encoded (b :: bs) (37 :: c1 :: c2 :: e).

(** A hexadecimal digit is a character of its own. *)
Lemma hex_of_char d c : hex_of d c -> 0 <= d < 16 /\ 48 <= c <= 102 /\ c <> 61 /\ isxdigit c = true /\ hex_value c = d.
Proof.
  unfold hex_of. intros H. assert (Hx : isxdigit c = true) by (unfold isxdigit; by rewrite H). unfold digit_val, isdigit in H.
  unfold hex_value, tolower. repeat case_if; zbool; try discriminate; injection H as <-; repeat split; try done; try lia;
    repeat case_if; zbool; try lia.
Qed.

Lemma encoded_text bs e : encoded bs e -> Forall (fun c => c <> 0 /\ c <> 38 /\ c <> 61) e.
Proof.
  induction 1 as [|c bs e ? ? ? ? ? _ IH|bs e _ IH|b h l c1 c2 bs e _ [_ H1]%hex_of_char [_ H2]%hex_of_char _ IH].
  - constructor.
  - by constructor.
  - by constructor.
  - constructor; [done|]. constructor; [lia|]. constructor; [lia|done].
Qed.

Lemma url_decode_encoded bs e : encoded bs e -> url_decode e = bs.
Proof.
  induction 1 as [|c bs e ? ? ? ? ? _ IH|bs e _ IH|b h l c1 c2 bs e -> [R1 (_ & _ & X1 & V1)]%hex_of_char [R2 (_ & _ & X2 & V2)]%hex_of_char _ IH].
  - done.
  - cbn [url_decode]. rewrite !(proj2 (Z.eqb_neq _ _)) by done. by rewrite IH.
  - cbn [url_decode Z.eqb Pos.eqb]. by rewrite IH.
  - cbn [url_decode Z.eqb Pos.eqb]. rewrite X1, X2, V1, V2, IH. cbn [andb]. f_equal.
    rewrite Z.shiftl_mul_pow2, u8_small by lia. lia.
Qed.

End WificfgText.

(** * Wi-Fi configuration: output

    Escaped texts and chunks: what [wificfg_html_escape] leaves in the buffer
    and what [wificfg_write_string_chunk] writes. *)

Module WificfgOut.
Import CLib Wificfg WificfgText.

(** ** Escaping *)

Definition escape (s : list Z) : list Z := concat ((fun c => default [c] (entity c)) <$> s).

Lemma entity_length c e : entity c = Some e -> (4 <= length e <= 6)%nat.
Proof. unfold entity. repeat case_if; try discriminate; injection 1 as <-; cbn; lia. Qed.

Lemma escape_cons c s : escape (c :: s) = default [c] (entity c) ++ escape s.
Proof. done. Qed.

(** As much of the string as there is room for. *)
Definition fitting (len out : nat) (s : list Z) (k : nat) : Prop :=
  (out + length (escape (take k s)) < len)%nat /\
  ((length s <= k)%nat \/ (len <= out + length (escape (take (S k) s)))%nat).

Lemma fitting_cons len out c s k :
  fitting len (out + length (default [c] (entity c))) s k -> fitting len out (c :: s) (S k).
Proof.
  intros [H1 H2]. unfold fitting. cbn [take]. rewrite escape_cons, length_app. split; [lia|]. cbn [length].
  destruct H2 as [H2|H2]; [left; lia|right]. rewrite escape_cons, length_app. lia.
Qed.

Lemma fitting_stop len out c s :
  (out < len)%nat -> (len <= out + length (default [c] (entity c)))%nat -> fitting len out (c :: s) 0.
Proof. intros H1 H2. split; [cbn; lia|]. right. rewrite firstn_cons, escape_cons, length_app. lia. Qed.

Lemma store_first (pre old bs : list Z) :
  (length bs <= length old)%nat ->
  put_at (pre ++ old) (Z.of_nat (length pre)) bs = Some (pre ++ bs ++ drop (length bs) old).
Proof. intros H. rewrite <-(take_drop (length bs) old) at 1. apply put_at_app. rewrite length_take. lia. Qed.

Lemma escape_loop_ok s : forall pre old,
  let len := length (pre ++ old) in
  (6 <= len)%nat -> Z.of_nat len < 2 ^ 32 -> old <> [] ->
  exists k rest, escape_loop s (pre ++ old) (Z.of_nat (length pre)) (Z.of_nat len) = Some (pre ++ escape (take k s) ++ 0 :: rest) /\
    length (escape (take k s) ++ 0 :: rest) = length old /\ fitting len (length pre) s k.
Proof.
  induction s as [|c s IH]; intros pre old len H6 H32 Hold;
    assert (Hlen : len = (length pre + length old)%nat) by apply length_app;
    (assert (Hpos : (0 < length old)%nat) by (destruct old; [done|cbn; lia]));
    assert (Hstop : put_at (pre ++ old) (Z.of_nat (length pre)) [0] = Some (pre ++ 0 :: drop 1 old)) by (rewrite store_first; [done|cbn; lia]).
  { exists 0%nat, (drop 1 old). cbn [escape_loop]. rewrite Hstop. cbn. rewrite length_drop. split; [done|]. split; [lia|].
    split; [cbn; lia|left; cbn; lia]. }
  assert (Hend : (len <= length pre + length (default [c] (entity c)))%nat -> exists k rest,
    put_at (pre ++ old) (Z.of_nat (length pre)) [0] = Some (pre ++ escape (take k (c :: s)) ++ 0 :: rest) /\
    length (escape (take k (c :: s)) ++ 0 :: rest) = length old /\ fitting len (length pre) (c :: s) k).
  { intros Hc. exists 0%nat, (drop 1 old). rewrite Hstop. cbn. rewrite length_drop. split; [done|]. split; [lia|].
    apply fitting_stop; lia. }
  assert (Hgo : forall e, default [c] (entity c) = e -> (length pre + length e < len)%nat -> exists k rest,
    (mem ← put_at (pre ++ old) (Z.of_nat (length pre)) e; escape_loop s mem (Z.of_nat (length pre) + Z.of_nat (length e)) (Z.of_nat len)) =
      Some (pre ++ escape (take k (c :: s)) ++ 0 :: rest) /\
    length (escape (take k (c :: s)) ++ 0 :: rest) = length old /\ fitting len (length pre) (c :: s) k).
  { intros e He Hle. rewrite store_first by lia. cbn [mbind option_bind]. pose proof (IH (pre ++ e) (drop (length e) old)) as IH'.
    cbv zeta in IH'. rewrite !length_app, length_drop in IH'.
    replace (length pre + length e + (length old - length e))%nat with len in IH' by lia.
    destruct IH' as (k & rest & E & Hl & Hfit); [lia|lia|intros E; apply (f_equal length) in E; rewrite length_drop in E; cbn in E; lia|].
    exists (S k), rest. rewrite Nat2Z.inj_add, <-app_assoc in E. rewrite E, <-app_assoc. cbn [take]. rewrite escape_cons, He, <-app_assoc.
    split; [done|]. split; [rewrite length_app, Hl; lia|]. apply fitting_cons. by rewrite He. }
  cbn [escape_loop]. rewrite (u32_small (Z.of_nat len - 1)) by lia. case_if; zbool.
  - destruct (entity c) as [e|] eqn:He.
    + pose proof (entity_length c e He). rewrite u32_small by lia. cbn [default] in Hend. case_if; zbool; [apply Hend; cbn; lia|].
      apply Hgo; [done|lia].
    + apply (Hgo [c]); [done|cbn; lia].
  - apply Hend. destruct (default [c] (entity c)) eqn:E; [|cbn; lia]. destruct (entity c) eqn:He; [|done].
    pose proof (entity_length _ _ He). cbn in E. subst. cbn in *. lia.
Qed.

(** How a browser shows a text. *)
Fixpoint strip (e s : list Z) : option (list Z) :=
  match e, s with
  | [], _ => Some s
  | x :: e, y :: s => if x =? y then strip e s else None
  | _, [] => None
  end.

Definition entities : list (list Z * Z) := [(str "&amp;", 38); (str "&quot;", 34); (str "&lt;", 60); (str "&gt;", 62)].

Fixpoint read_entity (table : list (list Z * Z)) (s : list Z) : option (Z * list Z) :=
  match table with
  | [] => None
  | (e, c) :: table => match strip e s with Some rest => Some (c, rest) | None => read_entity table s end
  end.

Fixpoint unescape (fuel : nat) (s : list Z) : list Z :=
  match fuel, s with
  | S fuel, c :: s' =>
    match read_entity entities s with
    | Some (c, rest) => c :: unescape fuel rest
    | None => c :: unescape fuel s'
    end
  | _, _ => []
  end.

Lemma strip_other e c s : c <> 38 -> strip (38 :: e) (c :: s) = None.
Proof. intros H. cbn [strip]. by rewrite (proj2 (Z.eqb_neq _ _)) by done. Qed.

Lemma unescape_escape s : forall fuel, (length (escape s) <= fuel)%nat -> unescape fuel (escape s) = s.
Proof.
  induction s as [|c s IH]; intros fuel Hf; [by destruct fuel|]. rewrite escape_cons in *. rewrite length_app in Hf.
  assert (Hc : c = 38 \/ c = 34 \/ c = 60 \/ c = 62 \/ entity c = None /\ c <> 38).
  { unfold entity. repeat case_if; zbool; auto 10. }
  assert (Hone : forall e, entity c = Some e -> read_entity entities (e ++ escape s) = Some (c, escape s) -> e <> [] ->
    unescape fuel (default [c] (entity c) ++ escape s) = c :: s).
  { intros e He Hr Hne. rewrite He in *. change (default [c] (Some e)) with e in *. destruct e as [|x e]; [done|]. destruct fuel as [|fuel]; [cbn in Hf; lia|].
    cbn [app unescape]. change (x :: e ++ escape s) with ((x :: e) ++ escape s). rewrite Hr. rewrite IH; [done|cbn in Hf; lia]. }
  destruct Hc as [-> |[-> |[-> |[-> |[Hc Hne]]]]]; [by eapply Hone..|].
  rewrite Hc in *. cbn in Hf. destruct fuel as [|fuel]; [lia|]. change (default [c] None) with [c]. cbn [app unescape].
  assert (read_entity entities (c :: escape s) = None) as ->.
  { unfold entities. change (str "&amp;") with (38 :: str "amp;"). change (str "&quot;") with (38 :: str "quot;").
    change (str "&lt;") with (38 :: str "lt;"). change (str "&gt;") with (38 :: str "gt;"). cbn [read_entity].
    by rewrite !strip_other by done. }
  by rewrite IH by lia.
Qed.

(** The markup characters do not occur. *)
Lemma escape_clean s : Forall (fun c => c <> 60 /\ c <> 62 /\ c <> 34) (escape s).
Proof.
  induction s as [|c s IH]; [constructor|]. rewrite escape_cons. apply Forall_app. split; [|done]. unfold entity.
  repeat case_if; zbool; cbn; repeat constructor; try done; try lia.
Qed.

Lemma escape_nonzero s : nonzero s -> nonzero (escape s).
Proof.
  induction 1 as [|c s Hc _ IH]; [constructor|]. rewrite escape_cons. apply Forall_app. split; [|done]. unfold entity.
  repeat case_if; cbn; repeat constructor; try done; lia.
Qed.

(** ** Chunks *)

Definition chunk_of (s : list Z) : list Z := print_x (strlen s) ++ [13; 10] ++ s ++ [13; 10].

Lemma print_x_1 n : 0 <= n < 16 -> print_x n = [if n <? 10 then 48 + n else 87 + n].
Proof. intros H. unfold print_x. cbn [print_digits]. rewrite Z.mod_small by lia. by rewrite (proj2 (Z.ltb_lt n 16)) by lia. Qed.

Lemma print_x_2 n : 16 <= n < 256 ->
  print_x n = [if n / 16 <? 10 then 48 + n / 16 else 87 + n / 16; if n mod 16 <? 10 then 48 + n mod 16 else 87 + n mod 16].
Proof.
  intros H. unfold print_x. cbn [print_digits]. rewrite (proj2 (Z.ltb_ge n 16)) by lia.
  rewrite (proj2 (Z.ltb_lt (n / 16) 16)) by divlia. rewrite (Z.mod_small (n / 16)) by divlia. done.
Qed.

Lemma print_digits_length k : forall fuel n acc,
  0 <= n < 16 ^ Z.of_nat k -> (0 < k)%nat -> (length (print_digits fuel 16 n acc) <= k + length acc)%nat.
Proof.
  induction k as [|k IH]; intros fuel n acc Hn Hk; [lia|]. destruct fuel as [|fuel]; [cbn; lia|]. cbn [print_digits].
  case_if; zbool; [cbn; lia|]. destruct (decide (k = 0)%nat) as [->|]; [cbn in Hn; lia|].
  rewrite IH; [cbn; lia| |lia]. rewrite Nat2Z.inj_succ, Z.pow_succ_r in Hn by lia. divlia.
Qed.

Lemma print_x_length n : 0 <= n < 2 ^ 20 -> (length (print_x n) <= 5)%nat.
Proof. intros H. unfold print_x. pose proof (print_digits_length 5 8 n [] ltac:(cbn; lia) ltac:(lia)). cbn in *. lia. Qed.

Lemma print_digits_not_nil fuel n acc : acc <> [] -> print_digits fuel 16 n acc <> [].
Proof. revert n acc. induction fuel as [|fuel IH]; intros n acc H; [done|]. cbn [print_digits]. case_if; [done|]. by apply IH. Qed.

(** The chunk put together in the buffer. *)
Lemma chunk_in_buffer (b s : list Z) :
  (1 <= length s)%nat -> (length s + 6 < length b)%nat -> (length b <= 262)%nat ->
  exists b1 b2 b3 b4 start,
    put_at b 4 s = Some b1 /\ chunk_digits b1 (strlen s) = Some (b2, start) /\ put_at b2 2 [13; 10] = Some b3 /\
    put_at b3 (4 + strlen s) [13; 10] = Some b4 /\ length b4 = length b /\
    sub_bytes b4 start (4 - start + strlen s + 2) = chunk_of s.
Proof.
  intros H1 H2 H3. destruct b as [|x0 [|x1 [|x2 [|x3 b]]]]; cbn [length] in H2; try lia.
  assert (Hb : exists old y0 y1 post, b = old ++ [y0; y1] ++ post /\ length old = length s).
  { exists (take (length s) b). destruct (drop (length s) b) as [|y0 [|y1 post]] eqn:E;
      try (apply (f_equal length) in E; rewrite length_drop in E; cbn in E; lia).
    exists y0, y1, post. change ([y0; y1] ++ post) with (y0 :: y1 :: post). rewrite <-E, take_drop, length_take. split; [done|lia]. }
  destruct Hb as (old & y0 & y1 & post & -> & Hold). cbn [length app] in *. rewrite length_app in H2, H3. cbn [length] in H2, H3.
  exists (x0 :: x1 :: x2 :: x3 :: s ++ y0 :: y1 :: post).
  assert (E1 : put_at (x0 :: x1 :: x2 :: x3 :: old ++ y0 :: y1 :: post) 4 s = Some (x0 :: x1 :: x2 :: x3 :: s ++ y0 :: y1 :: post))
    by exact (put_at_app [x0; x1; x2; x3] old s (y0 :: y1 :: post) Hold).
  set (n := strlen s). assert (Hn : 1 <= n < 256) by (unfold n, strlen; lia).
  assert (E4 : forall z0 z1, put_at (z0 :: z1 :: 13 :: 10 :: s ++ y0 :: y1 :: post) (4 + n) [13; 10] =
    Some (z0 :: z1 :: 13 :: 10 :: s ++ 13 :: 10 :: post)).
  { intros z0 z1. pose proof (put_at_app (z0 :: z1 :: 13 :: 10 :: s) [y0; y1] [13; 10] post eq_refl) as E. cbn [length app] in E.
    replace (Z.of_nat (S (S (S (S (length s)))))) with (4 + n) in E by (unfold n, strlen; lia). exact E. }
  assert (E2 : forall (z0 z1 : Z), put_at (z0 :: z1 :: x2 :: x3 :: s ++ y0 :: y1 :: post) 2 [13; 10] =
    Some (z0 :: z1 :: 13 :: 10 :: s ++ y0 :: y1 :: post)).
  { intros z0 z1. exact (put_at_app [z0; z1] [x2; x3] [13; 10] (s ++ y0 :: y1 :: post) eq_refl). }
  assert (Es : take (length s + 2) (s ++ 13 :: 10 :: post) = s ++ [13; 10]) by (rewrite take_app, take_ge by lia; f_equal; by replace (length s + 2 - length s)%nat with 2%nat by lia).
  unfold chunk_digits. destruct (Z.ltb_spec n 16) as [Hs|Hs].
  - exists (x0 :: (if n <? 10 then 48 + n else 87 + n) :: x2 :: x3 :: s ++ y0 :: y1 :: post). do 2 eexists. exists 1. split; [exact E1|].
    split.
    { pose proof (put_at_app [x0] [x1] [u8 (if n <? 10 then 48 + n else 97 + n - 10)] (x2 :: x3 :: s ++ y0 :: y1 :: post) eq_refl) as E.
      change (Z.of_nat (length [x0])) with 1 in E. cbn [app] in E. rewrite E. cbn [mbind option_bind]. do 4 f_equal. rewrite u8_small by (case_if; zbool; lia). case_if; lia. }
    split; [apply E2|]. split; [apply E4|]. split; [cbn; rewrite !length_app; cbn; lia|].
    unfold chunk_of, sub_bytes. fold n. rewrite print_x_1 by lia. replace (Z.to_nat (4 - 1 + n + 2)) with (3 + (length s + 2))%nat by (unfold n, strlen; lia).
    change (Z.to_nat 1) with 1%nat. rewrite skipn_cons, skipn_O. cbn [Nat.add]. rewrite !firstn_cons, Es. done.
  - exists ((if n / 16 <? 10 then 48 + n / 16 else 87 + n / 16) :: (if n mod 16 <? 10 then 48 + n mod 16 else 87 + n mod 16) :: x2 :: x3 :: s ++ y0 :: y1 :: post).
    do 2 eexists. exists 0. split; [exact E1|]. split.
    { assert (Hq : Z.shiftr n 4 = n / 16) by (by rewrite Z.shiftr_div_pow2 by lia).
      assert (Hr : Z.land n 0xf = n mod 16) by (change 0xf with (2 ^ 4 - 1); by rewrite land_mask by lia). rewrite Hq, Hr.
      pose proof (put_at_app [] [x0] [u8 (if n / 16 <? 10 then 48 + n / 16 else 97 + n / 16 - 10)] (x1 :: x2 :: x3 :: s ++ y0 :: y1 :: post) eq_refl) as Ea.
      change (Z.of_nat (length (@nil Z))) with 0 in Ea. cbn [app] in Ea. rewrite Ea. cbn [mbind option_bind].
      set (d0 := u8 _) at 1. pose proof (put_at_app [d0] [x1] [u8 (if n mod 16 <? 10 then 48 + n mod 16 else 97 + n mod 16 - 10)] (x2 :: x3 :: s ++ y0 :: y1 :: post) eq_refl) as Eb.
      change (Z.of_nat (length [d0])) with 1 in Eb. cbn [app] in Eb. rewrite Eb. cbn [mbind option_bind]. unfold d0.
      rewrite !u8_small by (case_if; zbool; divlia). do 3 f_equal; [case_if; lia|]. f_equal. case_if; lia. }
    split; [apply E2|]. split; [apply E4|]. split; [cbn; rewrite !length_app; cbn; lia|].
    unfold chunk_of, sub_bytes. fold n. rewrite print_x_2 by lia. replace (Z.to_nat (4 - 0 + n + 2)) with (4 + (length s + 2))%nat by (unfold n, strlen; lia).
    change (Z.to_nat 0) with 0%nat. rewrite skipn_O. cbn [Nat.add]. rewrite !firstn_cons, Es. done.
Qed.

End WificfgOut.
