(* ===== verification/WificfgForms.v ===== *)
(** * Wi-Fi configuration: forms

    What a form handler reads from any input, as a function ([form_fields]),
    the writes to the parameter store each form stands for, and the contract
    of the store the handlers are proved against ([ParamLaws]). *)

From stdpp Require Import gmap strings.
From S2P Require Import Prelude CStrings Wificfg WificfgPages WificfgText.
Open Scope Z_scope.

(** The values of the parameters: binary or text, with their bytes. *)
Abbreviation pmap := (gmap (list Z) (bool * list Z)).

(** A string without its terminator, and a number of one or four bytes. *)
Definition text_value (o : option (bool * list Z)) : option (list Z) :=
  match o with Some (false, v) => Some (WificfgText.cut0 v) | _ => None end.
Definition int_value (n : nat) (sgn : Z -> Z) (o : option (bool * list Z)) : option Z :=
  match o with Some (true, v) => if bool_decide (length v = n) then Some (sgn (le_val v)) else None | _ => None end.

(** An empty value removes the parameter. *)
Definition assign (k : list Z) (x : bool * list Z) (m : pmap) : pmap := if bool_decide (snd x = []) then delete k m else <[k := x]> m.

(** The store in a state stands for a map ([holds]); a value is accepted when
    it is admitted; [reads] relates a state to those that reading leads to. *)
Class ParamLaws (P : Type) `{Params P} := {
  holds : P -> pmap -> Prop;
  admits : P -> list Z -> list Z -> Prop;
  reads : P -> P -> Prop;
  reads_refl p : reads p p;
  reads_trans p q r : reads p q -> reads q r -> reads p r;
  param_get_string p m k : holds p m -> Z.of_nat (length k) <= 65535 ->
    exists p', sysparam_get_string k p = Done (text_value (m !! k), p') /\ holds p' m /\ reads p p';
  param_get_int8 p m k : holds p m -> Z.of_nat (length k) <= 65535 ->
    exists p', sysparam_get_int8 k p = Done (int_value 1 s8 (m !! k), p') /\ holds p' m /\ reads p p';
  param_get_int32 p m k : holds p m -> Z.of_nat (length k) <= 65535 ->
    exists p', sysparam_get_int32 k p = Done (int_value 4 s32 (m !! k), p') /\ holds p' m /\ reads p p';
  param_free p m : holds p m -> exists p', free p = Done (tt, p') /\ holds p' m /\ reads p p';
  param_set_string p m k v : holds p m -> 1 <= Z.of_nat (length k) <= 65535 -> admits p k v ->
    exists p', sysparam_set_string k v p = Done (tt, p') /\ holds p' (assign k (false, v) m);
  param_set_int8 p m k n : holds p m -> 1 <= Z.of_nat (length k) <= 65535 -> admits p k (le_bytes 1 n) ->
    exists p', sysparam_set_int8 k n p = Done (tt, p') /\ holds p' (assign k (true, le_bytes 1 n) m);
  param_set_int32 p m k n : holds p m -> 1 <= Z.of_nat (length k) <= 65535 -> admits p k (le_bytes 4 n) ->
    exists p', sysparam_set_int32 k n p = Done (tt, p') /\ holds p' (assign k (true, le_bytes 4 n) m);
}.

Module WificfgForms.
Import CLib Wificfg WificfgPages WificfgText WificfgOut.

(** ** Writes *)

Inductive param_write := PString (k v : list Z) | PInt8 (k : list Z) (n : Z) | PInt32 (k : list Z) (n : Z).

Definition write_key (x : param_write) : list Z := match x with PString k _ | PInt8 k _ | PInt32 k _ => k end.
Definition write_value (x : param_write) : bool * list Z :=
  match x with PString _ v => (false, v) | PInt8 _ n => (true, le_bytes 1 n) | PInt32 _ n => (true, le_bytes 4 n) end.

(** The map after a list of writes. *)
Definition assigned (ws : list param_write) (m : pmap) : pmap := foldl (fun m x => assign (write_key x) (write_value x) m) m ws.

Definition key_ok (k : list Z) : Prop := 1 <= Z.of_nat (length k) <= 65535.

Section Writes.
Context {P : Type} `{HP : Params P}.

Definition apply_write (x : param_write) : M P unit :=
  match x with
  | PString k v => sysparam_set_string k v
  | PInt8 k n => sysparam_set_int8 k n
  | PInt32 k n => sysparam_set_int32 k n
  end.

Fixpoint apply_writes (ws : list param_write) : M P unit :=
  match ws with
  | [] => ret tt
  | x :: ws => do! apply_write x then apply_writes ws
  end.

Lemma apply_writes_app ws1 ws2 p : apply_writes (ws1 ++ ws2) p = (do! apply_writes ws1 then apply_writes ws2) p.
Proof.
  revert p. induction ws1 as [|x ws1 IH]; intros p; [done|]. cbn [app apply_writes]. rewrite bind_assoc. unfold bind at 1 2.
  destruct (apply_write x p) as [[[] p1]| |]; [apply IH|done..].
Qed.

Lemma apply_one x p : apply_writes [x] p = apply_write x p.
Proof. cbn. unfold bind, ret. by destruct (apply_write x p) as [[[] p1]| |]. Qed.

Context {PL : ParamLaws P}.

(** Every value is admitted when its turn comes, whatever is read before. *)
Fixpoint admits_all (p : P) (ws : list param_write) : Prop :=
  match ws with
  | [] => True
  | x :: ws =>
    forall p1, reads p p1 -> admits p1 (write_key x) (snd (write_value x)) /\
      forall p', apply_write x p1 = Done (tt, p') -> admits_all p' ws
  end.

Lemma admits_all_reads p q ws : reads p q -> admits_all p ws -> admits_all q ws.
Proof. destruct ws as [|x ws]; [done|]. intros Hr Ha p1 H1. apply Ha. by eapply reads_trans. Qed.

Lemma apply_write_ok p m x : holds p m -> key_ok (write_key x) -> admits p (write_key x) (snd (write_value x)) ->
  exists p', apply_write x p = Done (tt, p') /\ holds p' (assign (write_key x) (write_value x) m).
Proof. destruct x; cbn; [apply param_set_string|apply param_set_int8|apply param_set_int32]. Qed.

Lemma apply_writes_ok ws : forall p m, holds p m -> Forall (fun x => key_ok (write_key x)) ws -> admits_all p ws ->
  exists p', apply_writes ws p = Done (tt, p') /\ holds p' (assigned ws m).
Proof.
  induction ws as [|x ws IH]; intros p m Hp Hk Ha; [by exists p|]. apply Forall_cons in Hk as [Hx Hk].
  destruct (Ha p (reads_refl p)) as [Hax Hrest].
  destruct (apply_write_ok p m x) as (p1 & E & H1); try done. cbn [apply_writes]. run E. by apply IH, Hrest.
Qed.

End Writes.

(** ** Reading a name or a value *)

Inductive field_end := Equals | Ampersand | Exhausted.

(** The characters up to the end of the name or value, what ended it, and the
    rest of the input; [None] when a read fails. *)
Fixpoint read_field (want : bool) (rem : Z) (inp : list (option Z)) : option (list Z * field_end * list (option Z)) :=
  if rem =? 0 then Some ([], Exhausted, inp)
  else
    match inp with
    | [] | None :: _ => None
    | Some c :: inp =>
      if want && (c =? 61) then Some ([], Equals, inp)
      else if c =? 38 then Some ([], Ampersand, inp)
      else
        match read_field want (rem - 1) inp with
        | Some (e, x, r) => Some (c :: e, x, r)
        | None => None
        end
    end.

Definition field_rem (e : list Z) (x : field_end) (rem : Z) : Z :=
  rem - Z.of_nat (length e) - match x with Exhausted => 0 | _ => 1 end.
Definition end_valp (x : field_end) (valp : option bool) : option bool :=
  match x with
  | Equals => Some true
  | Ampersand => (fun _ => false) <$> valp
  | Exhausted => valp
  end.

(** The buffer with the characters read so far, and after the end. *)
Definition filled (b d : list Z) : list Z := take (length b) d ++ drop (length d) b.
Definition terminated (b d : list Z) : list Z := take (length b - 1) d ++ 0 :: drop (S (length d)) b.

Lemma length_filled b d : length (filled b d) = length b.
Proof. unfold filled. rewrite length_app, length_take, length_drop. lia. Qed.

Lemma length_terminated b d : b <> [] -> length (terminated b d) = length b.
Proof. intros H. unfold terminated. rewrite length_app, length_take. cbn. rewrite length_drop. destruct b; [done|]. cbn. lia. Qed.

Lemma filled_store b d c :
  (length d < length b)%nat -> put_at (filled b d) (Z.of_nat (length d)) [c] = Some (filled b (d ++ [c])).
Proof.
  intros H. unfold filled. rewrite length_app, !take_ge by (rewrite ?length_app; cbn; lia).
  rewrite store_first by (rewrite length_drop; cbn; lia). cbn [length]. by rewrite drop_drop, <-app_assoc.
Qed.

Lemma filled_full b d c : (length b <= length d)%nat -> filled b (d ++ [c]) = filled b d.
Proof. intros H. unfold filled. rewrite !drop_ge, take_app_le by (rewrite ?length_app; lia). done. Qed.

Lemma filled_terminate b d :
  b <> [] -> Z.of_nat (length b) < 2 ^ 32 ->
  put_at (filled b d) (if Z.of_nat (length b) <=? Z.of_nat (length d) then u32 (Z.of_nat (length b) - 1) else Z.of_nat (length d)) [0] =
    Some (terminated b d).
Proof.
  intros Hb H32. assert (Hl : (0 < length b)%nat) by (destruct b; [done|cbn; lia]). case_if; zbool.
  - rewrite u32_small by lia. unfold filled, terminated. rewrite !drop_ge, app_nil_r by lia.
    destruct (lookup_lt_is_Some_2 d (length b - 1)) as [x Hx]; [lia|].
    replace (take (length b) d) with (take (length b - 1) d ++ [x] ++ []).
    2: { replace (length b) with (S (length b - 1)) at 2 by lia. by rewrite (take_S_r _ _ _ Hx), app_nil_r. }
    replace (Z.of_nat (length b) - 1) with (Z.of_nat (length (take (length b - 1) d))) by (rewrite length_take; lia).
    by rewrite put_at_app.
  - pose proof (filled_store b d 0 ltac:(lia)) as E. rewrite E. f_equal. unfold filled, terminated.
    rewrite length_app, !take_ge by (rewrite ?length_app; cbn; lia). cbn [length]. by rewrite Nat.add_1_r, <-app_assoc.
Qed.

Section Reading.
Context {P : Type} `{HP : Params P}.
Implicit Types w : web P.

(** Only the buffer and the input differ, of which a part was taken. *)
Record reads_only w w' : Prop := {
  ro_input : exists used, input w = used ++ input w';
  ro_store : store w' = store w;
  ro_out : out w' = out w;
  ro_results : write_results w' = write_results w;
  ro_events : events w' = events w;
  ro_got : got_sta_connect w' = got_sta_connect w;
  ro_hooks : shutdown_hooks w' = shutdown_hooks w;
  ro_length : length (buf w') = length (buf w);
}.

Lemma reads_only_refl w : reads_only w w.
Proof. split; try done. by exists []. Qed.

Lemma reads_only_trans w w1 w2 : reads_only w w1 -> reads_only w1 w2 -> reads_only w w2.
Proof. intros [[u1 I1]] [[u2 I2]]. split; try congruence. exists (u1 ++ u2). by rewrite I1, I2, app_assoc. Qed.

Lemma reads_only_io w used r b : input w = used ++ r -> length b = length (buf w) -> reads_only w (with_buf (with_input w r) b).
Proof. intros Hi Hb. split; try done. by exists used. Qed.

Lemma edit_buf_Done f w b : f (buf w) = Some b -> edit_buf f w = Done (tt, with_buf w b).
Proof. intros E. unfold edit_buf. erewrite bind_Done by reflexivity. by rewrite E. Qed.

Lemma terminate_Done b d w :
  buf w = filled b d -> b <> [] -> Z.of_nat (length b) < 2 ^ 32 ->
  terminate (Z.of_nat (length d)) (Z.of_nat (length b)) w = Done (tt, with_buf w (terminated b d)).
Proof. intros Hw Hb H32. unfold terminate. apply edit_buf_Done. rewrite Hw. by apply filled_terminate. Qed.

(** A character is kept if there is room. *)
Lemma keep_char b d c w :
  buf w = filled b d ->
  (if Z.of_nat (length d) <? Z.of_nat (length b) then edit_buf (fun m => put_at m (Z.of_nat (length d)) [c]) else ret tt) w =
    Done (tt, with_buf w (filled b (d ++ [c]))).
Proof.
  intros Hw. case_if; zbool.
  - apply edit_buf_Done. rewrite Hw. apply filled_store. lia.
  - rewrite filled_full, <-Hw by lia. by destruct w.
Qed.

Lemma name_loop_ok fuel b valp : forall rem d w,
  buf w = filled b d -> b <> [] -> Z.of_nat (length b) < 2 ^ 32 -> (length (input w) < fuel)%nat ->
  Z.of_nat (length d) + Z.of_nat (length (input w)) < 2 ^ 31 -> 0 <= rem < 2 ^ 32 ->
  match read_field (bool_decide (is_Some valp)) rem (input w) with
  | Some (e, x, r) =>
    name_loop fuel valp rem (Z.of_nat (length d)) (Z.of_nat (length b)) w =
      Done ((Z.of_nat (length (d ++ e)), end_valp x valp, field_rem e x rem), with_buf (with_input w r) (terminated b (d ++ e)))
  | None => exists v rem' w', name_loop fuel valp rem (Z.of_nat (length d)) (Z.of_nat (length b)) w = Done ((-1, v, rem'), w') /\ reads_only w w'
  end.
Proof.
  induction fuel as [|fuel IH]; intros rem d w Hw Hb H32 Hf H31 Hrem; [lia|]. cbn [name_loop].
  assert (Hdone : forall w' (v : option bool) (rem' : Z), buf w' = filled b d ->
    (do! terminate (Z.of_nat (length d)) (Z.of_nat (length b)) then ret (s32 (Z.of_nat (length d)), v, rem')) w' =
      Done ((Z.of_nat (length (d ++ [])), v, rem'), with_buf w' (terminated b (d ++ [])))).
  { intros w' v rem' Hw'. run (terminate_Done b d w' Hw' Hb H32). rewrite app_nil_r, s32_small by lia. done. }
  destruct (input w) as [|c inp] eqn:Hin; cbn [read_field].
  - case_if; zbool.
    + rewrite Hdone by done. unfold field_rem. cbn [length end_valp]. rewrite !Z.sub_0_r. rewrite <-Hin. by destruct w.
    + exists valp, rem, w. erewrite bind_Done by (unfold read_char; rewrite Hin; reflexivity). split; [done|apply reads_only_refl].
  - case_if; zbool.
    { rewrite Hdone by done. unfold field_rem. cbn [length end_valp]. rewrite !Z.sub_0_r. rewrite <-Hin. by destruct w. }
    erewrite bind_Done by (unfold read_char; rewrite Hin; reflexivity).
    destruct c as [c|]; [|exists valp, rem, (with_input w inp); split; [done|by apply (reads_only_io w [None] inp (buf w))]]. rewrite (u32_small (rem - 1)) by lia.
    case_if; [rewrite Hdone by done; unfold field_rem; cbn [length end_valp]; by rewrite Z.sub_0_r|].
    case_if; [rewrite Hdone by done; unfold field_rem; cbn [length end_valp]; by rewrite Z.sub_0_r|].
    run (keep_char b d c (with_input w inp) Hw). cbn [length] in Hf, H31. rewrite (u32_small (_ + 1)) by lia.
    pose proof (IH (rem - 1) (d ++ [c]) (with_buf (with_input w inp) (filled b (d ++ [c]))) eq_refl Hb H32) as H.
    rewrite length_app in H. cbn [length input with_buf with_input] in H. rewrite Nat2Z.inj_add in H. change (Z.of_nat 1) with 1 in H.
    specialize (H ltac:(lia) ltac:(lia) ltac:(lia)). destruct (read_field _ (rem - 1) inp) as [[[e x] r]|].
    + rewrite H. rewrite <-app_assoc. cbn [app]. do 3 f_equal. unfold field_rem. cbn [length]. f_equal. lia.
    + destruct H as (v & rem' & w' & E & H). exists v, rem', w'. split; [done|]. refine (reads_only_trans _ _ _ _ H).
      apply (reads_only_io w [Some c]); [done|]. rewrite length_filled, <-(length_filled b d), <-Hw. done.
Qed.

(** What a call reads, on any input. *)
Lemma form_name_value_ok w valp rem :
  buf w <> [] -> Z.of_nat (length (buf w)) < 2 ^ 32 -> Z.of_nat (length (input w)) < 2 ^ 31 -> 0 <= rem < 2 ^ 32 ->
  match read_field (bool_decide (is_Some valp)) rem (input w) with
  | Some (e, x, r) =>
    wificfg_form_name_value valp rem (Z.of_nat (length (buf w))) w =
      Done ((Z.of_nat (length e), end_valp x valp, field_rem e x rem), with_buf (with_input w r) (terminated (buf w) e))
  | None => exists v rem' w', wificfg_form_name_value valp rem (Z.of_nat (length (buf w))) w = Done ((-1, v, rem'), w') /\ reads_only w w'
  end.
Proof.
  intros Hb H32 H31 Hrem. unfold wificfg_form_name_value. erewrite bind_Done by reflexivity.
  refine (name_loop_ok (S (length (input w))) (buf w) valp rem [] w _ Hb H32 _ _ Hrem); [|lia|cbn; lia].
  unfold filled. cbn. by rewrite take_nil.
Qed.

(** A field that has been read and decoded. *)
Definition field_text (len : nat) (e : list Z) : list Z := cut0 (url_decode (cut0 (take (len - 1) e))).

Lemma decode_field w b e :
  buf w = terminated b e -> b <> [] ->
  exists b', edit_buf wificfg_form_url_decode w = Done (tt, with_buf w b') /\ length b' = length b /\
    c_string b' = Some (field_text (length b) e).
Proof.
  intros Hw Hb. destruct (decode_buffer (take (length b - 1) e) (drop (S (length e)) b)) as (rest & E & Hl).
  exists (url_decode (cut0 (take (length b - 1) e)) ++ 0 :: rest). split; [apply edit_buf_Done; by rewrite Hw|].
  split; [rewrite Hl; exact (length_terminated b e Hb)|]. apply c_string_cut0.
Qed.

Lemma buf_string_Done w s : c_string (buf w) = Some s -> buf_string w = Done (s, w).
Proof. intros E. unfold buf_string. erewrite bind_Done by reflexivity. by rewrite E. Qed.

End Reading.

(** What was read is the beginning of the input. *)
Lemma read_field_split want inp : forall rem e x r,
  read_field want rem inp = Some (e, x, r) ->
  inp = (Some <$> e) ++ match x with Equals => [Some 61] | Ampersand => [Some 38] | Exhausted => [] end ++ r.
Proof.
  induction inp as [|c inp IH]; intros rem e x r; cbn [read_field]; case_if; try done; try (by injection 1 as <- <- <-).
  destruct c as [c|]; [|done]. destruct (want && (c =? 61)) eqn:E1; zbool; [by injection 1 as <- <- <-; subst|].
  destruct (Z.eqb_spec c 38) as [->|]; [by injection 1 as <- <- <-|].
  destruct (read_field want (rem - 1) inp) as [[[e' x'] r']|] eqn:E; [|done]. injection 1 as <- <- <-. cbn. f_equal. exact (IH _ _ _ _ E).
Qed.

Lemma read_field_rest want rem inp e x r : read_field want rem inp = Some (e, x, r) -> exists used, inp = used ++ r.
Proof. intros H%read_field_split. exists ((Some <$> e) ++ match x with Equals => [Some 61] | Ampersand => [Some 38] | Exhausted => [] end). by rewrite <-app_assoc. Qed.

(** Reading takes something unless nothing is asked for. *)
Lemma read_field_progress want inp : forall rem e x r,
  read_field want rem inp = Some (e, x, r) -> 0 <= rem ->
  (length r <= length inp)%nat /\ 0 <= field_rem e x rem <= rem /\ (rem <> 0 -> (length r < length inp)%nat).
Proof.
  induction inp as [|c inp IH]; intros rem e x r; cbn [read_field]; case_if; zbool.
  - injection 1 as <- <- <-. unfold field_rem. cbn. lia.
  - done.
  - injection 1 as <- <- <-. unfold field_rem. cbn. lia.
  - destruct c as [c|]; [|done]. case_if; [injection 1 as <- <- <-; unfold field_rem; cbn; lia|].
    case_if; [injection 1 as <- <- <-; unfold field_rem; cbn; lia|].
    destruct (read_field want (rem - 1) inp) as [[[e' x'] r']|] eqn:E; [|done]. injection 1 as <- <- <-. intros H0.
    destruct (IH _ _ _ _ E ltac:(lia)) as (H1 & H2 & _). unfold field_rem in *. cbn [length] in *. lia.
Qed.

End WificfgForms.
