(* ===== verification/WificfgPost.v ===== *)
(** * Wi-Fi configuration: what a form does

    The fields a handler reads from its input ([form_fields]), the writes they
    stand for, and the fields a browser's encoding of a form is read as. *)

From stdpp Require Import gmap strings.
From S2P Require Import Prelude CStrings Wificfg WificfgPages WificfgText WificfgForms.
Open Scope Z_scope.

Module WificfgPost.
Import CLib Wificfg WificfgPages WificfgText WificfgOut WificfgForms.

(** ** The fields of any input *)

Definition has_value (x : field_end) (valp : bool) : bool := default valp (end_valp x (Some valp)).

(** The names and values a form handler acts on, with a buffer of [len]
    bytes. *)
Fixpoint form_fields (fuel len : nat) (valp : bool) (rem : Z) (inp : list (option Z)) : list (list Z * list Z) :=
  match fuel with
  | O => []
  | S fuel =>
    if rem <=? 0 then []
    else
      match read_field true rem inp with
      | None => []
      | Some (e, x, inp) =>
        let rem := field_rem e x rem in
        if has_value x valp then
          match read_field false rem inp with
          | None => []
          | Some (e', x', inp) => (field_text len e, field_text len e') :: form_fields fuel len true (field_rem e' x' rem) inp
          end
        else form_fields fuel len false rem inp
      end
  end.

Section Loop.
Context {P : Type} `{HP : Params P} {L : Type}.
Implicit Types w : web P.

(** A handler's [switch]: writes to the store and new variables. *)
Definition acts (field : form_name -> list Z -> L -> M (web P) L) (step : form_name -> list Z -> L -> list param_write * L) : Prop :=
  forall name value l w, field name value l w =
    (do! on_store (apply_writes (fst (step name value l))) then ret (snd (step name value l))) w.

Fixpoint run_fields (step : form_name -> list Z -> L -> list param_write * L) (fs : list (list Z * list Z)) (l : L) : list param_write * L :=
  match fs with
  | [] => ([], l)
  | (name, value) :: fs =>
    let '(ws, l) := step (intern_form_name name) value l in
    let '(ws', l) := run_fields step fs l in
    (ws ++ ws', l)
  end.

(** Only the input, the buffer and the store differ. *)
Definition stores_only w w' (p : P) : Prop := exists w1, reads_only w w1 /\ w' = with_store w1 p.

Lemma stores_only_trans w w1 w2 p1 p2 : stores_only w w1 p1 -> stores_only w1 w2 p2 -> stores_only w w2 p2.
Proof.
  intros (v1 & H1 & ->) (v2 & H2 & ->). exists (with_store v2 (store w)). split; [|done].
  destruct H1 as [[u1 I1]], H2 as [[u2 I2]]. cbn in *. split; cbn; try congruence. exists (u1 ++ u2). by rewrite I1, I2, app_assoc.
Qed.

Lemma reads_stores w w' : reads_only w w' -> stores_only w w' (store w).
Proof. intros H. exists w'. split; [done|]. destruct H. destruct w'. cbn in *. by subst. Qed.

Lemma apply_first (ws1 ws2 : list param_write) (p p' : P) :
  apply_writes (ws1 ++ ws2) p = Done (tt, p') -> exists p1, apply_writes ws1 p = Done (tt, p1) /\ apply_writes ws2 p1 = Done (tt, p').
Proof. rewrite apply_writes_app. intros H. destruct (bind_inv _ _ _ _ _ H) as ([] & p1 & H1 & H2). by exists p1. Qed.

Lemma on_store_Done {A} (m : M P A) w a p : m (store w) = Done (a, p) -> on_store m w = Done (a, with_store w p).
Proof. unfold on_store. by intros ->. Qed.

(** What is needed of a buffer and the input. *)
Record sized w : Prop := {
  sz_buf : buf w <> [];
  sz_len : Z.of_nat (length (buf w)) < 2 ^ 32;
  sz_input : Z.of_nat (length (input w)) < 2 ^ 31;
}.

Lemma sized_reads w w' : sized w -> reads_only w w' -> (length (input w') <= length (input w))%nat -> sized w'.
Proof.
  intros [H1 H2 H3] R Hi. pose proof (ro_length _ _ R) as Hl. split; [|lia..].
  intros E. rewrite E in Hl. by destruct (buf w).
Qed.

Lemma read_text_ok w valp rem :
  sized w -> 0 <= rem < 2 ^ 32 ->
  exists w', reads_only w w' /\
    match read_field (bool_decide (is_Some valp)) rem (input w) with
    | Some (e, x, r) =>
      read_text valp rem (Z.of_nat (length (buf w))) w =
        Done (Some (field_text (length (buf w)) e, end_valp x valp, field_rem e x rem), w') /\ input w' = r
    | None => read_text valp rem (Z.of_nat (length (buf w))) w = Done (None, w')
    end.
Proof.
  intros [Hb H32 H31] Hrem. pose proof (form_name_value_ok w valp rem Hb H32 H31 Hrem) as H. unfold read_text.
  destruct (read_field _ rem (input w)) as [[[e x] r]|] eqn:F.
  - set (w1 := with_buf (with_input w r) (terminated (buf w) e)) in H.
    destruct (decode_field w1 (buf w) e eq_refl Hb) as (b' & E2 & Hl & Hs).
    exists (with_buf w1 b'). split; [|split; [|done]].
    { destruct (read_field_rest _ _ _ _ _ _ F) as [used Hu]. by apply (reads_only_io w used r b'). }
    run H. rewrite (proj2 (Z.ltb_ge _ 0)) by lia. run E2. by run (buf_string_Done (with_buf w1 b') _ Hs).
  - destruct H as (v & rem' & w' & E & H). exists w'. split; [done|]. by run E.
Qed.

Context (field : form_name -> list Z -> L -> M (web P) L) (step : form_name -> list Z -> L -> list param_write * L).
Hypothesis Hacts : acts field step.

Lemma form_loop_ok fuel : forall valp rem (l : L) w (p' : P),
  sized w -> 0 <= rem < 2 ^ 32 -> (length (input w) < fuel)%nat ->
  let res := run_fields step (form_fields fuel (length (buf w)) valp rem (input w)) l in
  apply_writes (fst res) (store w) = Done (tt, p') ->
  exists w', form_loop field fuel valp rem (Z.of_nat (length (buf w))) l w = Done (snd res, w') /\ stores_only w w' p'.
Proof.
  induction fuel as [|fuel IH]; intros valp rem l w p' Hw Hrem Hf; [lia|]. cbn [form_loop form_fields].
  assert (Hnone : apply_writes [] (store w) = Done (tt, p') -> forall w', reads_only w w' -> stores_only w w' p').
  { intros E w' H. injection E as <-. by apply reads_stores. }
  case_if; zbool; [cbn; intros E; exists w; split; [done|apply Hnone; [done|apply reads_only_refl]]|].
  destruct (read_text_ok w (Some valp) rem Hw Hrem) as (w1 & R1 & E1). rewrite bool_decide_true in E1 by by eexists.
  destruct (read_field true rem (input w)) as [[[e x] r]|] eqn:F1.
  2: { cbn. intros E. exists w1. run E1. split; [done|by apply Hnone]. }
  destruct E1 as [E1 I1]. run E1. destruct (read_field_progress _ _ _ _ _ _ F1 ltac:(lia)) as (P1 & P2 & P3). specialize (P3 ltac:(lia)).
  pose proof (sized_reads w w1 Hw R1 ltac:(rewrite I1; lia)) as Hw1. rewrite <-(ro_length _ _ R1).
  fold (has_value x valp). destruct (has_value x valp) eqn:Hv; cycle 1.
  { intros E. rewrite <-(ro_store _ _ R1), <-I1 in E.
    destruct (IH false (field_rem e x rem) l w1 p' Hw1 ltac:(lia) ltac:(rewrite I1; lia) E) as (w' & E' & S').
    exists w'. rewrite <-I1. split; [exact E'|]. exact (stores_only_trans _ _ _ _ _ (reads_stores _ _ R1) S'). }
  destruct (read_text_ok w1 None (field_rem e x rem) Hw1 ltac:(lia)) as (w2 & R2 & E2). rewrite bool_decide_false, I1 in E2 by by intros [? ?].
  destruct (read_field false (field_rem e x rem) r) as [[[e2 x2] r2]|] eqn:F2.
  2: { cbn. intros E. exists w2. run E2. split; [done|]. apply Hnone; [done|exact (reads_only_trans _ _ _ R1 R2)]. }
  destruct E2 as [E2 I2]. run E2. destruct (read_field_progress _ _ _ _ _ _ F2 ltac:(lia)) as (P4 & P5 & _).
  pose proof (sized_reads w1 w2 Hw1 R2 ltac:(rewrite I1, I2; lia)) as Hw2. rewrite <-(ro_length _ _ R2).
  set (name := field_text _ e). set (value := field_text _ e2). cbn [run_fields].
  destruct (step (intern_form_name name) value l) as [ws1 l1] eqn:Hstep.
  destruct (run_fields step _ l1) as [ws2 l2] eqn:Hrest. cbn [fst snd]. intros E. apply apply_first in E as (p1 & Ea & Eb).
  erewrite bind_Done; cycle 1.
  { rewrite Hacts, Hstep. cbn [fst snd]. erewrite bind_Done; [reflexivity|]. apply on_store_Done.
    rewrite (ro_store _ _ R2), (ro_store _ _ R1). exact Ea. }
  assert (Hw3 : sized (with_store w2 p1)) by (destruct Hw2; by split).
  pose proof (IH true (field_rem e2 x2 (field_rem e x rem)) l1 (with_store w2 p1) p' Hw3 ltac:(lia) ltac:(cbn; rewrite I2; lia)) as H.
  cbn [buf input store with_store] in H. rewrite I2, Hrest in H. destruct (H Eb) as (w' & E' & S'). exists w'. split; [exact E'|].
  refine (stores_only_trans w (with_store w2 p1) w' p1 p' _ S'). exists w2. split; [exact (reads_only_trans _ _ _ R1 R2)|done].
Qed.

Lemma read_form_ok content_length (l : L) w (p' : P) :
  sized w -> 0 <= content_length < 2 ^ 32 ->
  let res := run_fields step (form_fields (S (length (input w))) (length (buf w)) false content_length (input w)) l in
  apply_writes (fst res) (store w) = Done (tt, p') ->
  exists w', read_form field content_length (Z.of_nat (length (buf w))) l w = Done (snd res, w') /\ stores_only w w' p'.
Proof.
  intros Hw Hc res E. unfold read_form. erewrite bind_Done by reflexivity. apply form_loop_ok; [done|done|lia|exact E].
Qed.

End Loop.
(** ** The fields a browser sends *)

(** A form as text: names and values encoded, with [=] and [&] between. *)
Inductive form_text (len : nat) : list (list Z * list Z) -> list Z -> Prop :=
| form_empty : form_text len [] []
| form_last n v en ev :
    encoded n en -> encoded v ev -> (length en < len)%nat -> (length ev < len)%nat -> nonzero n -> nonzero v ->
    form_text len [(n, v)] (en ++ 61 :: ev)
| form_more n v en ev ps text :
    encoded n en -> encoded v ev -> (length en < len)%nat -> (length ev < len)%nat -> nonzero n -> nonzero v ->
    form_text len ps text -> form_text len ((n, v) :: ps) (en ++ 61 :: ev ++ 38 :: text).

Lemma read_field_text want e : forall rem inp,
  Forall (fun c => c <> 0 /\ c <> 38 /\ c <> 61) e -> Z.of_nat (length e) <= rem ->
  read_field want rem ((Some <$> e) ++ inp) =
    match read_field want (rem - Z.of_nat (length e)) inp with Some (e', x, r) => Some (e ++ e', x, r) | None => None end.
Proof.
  induction e as [|c e IH]; intros rem inp He Hrem; cbn [length].
  - rewrite Z.sub_0_r. cbn [fmap list_fmap app]. by destruct (read_field want rem inp) as [[[e x] r]|].
  - apply Forall_cons in He as [(_ & H1 & H2) He]. cbn [length] in Hrem. cbn [fmap list_fmap app read_field].
    rewrite !(proj2 (Z.eqb_neq _ _)) by (done || lia). rewrite andb_false_r. rewrite IH by (done || lia).
    replace (rem - 1 - Z.of_nat (length e)) with (rem - Z.of_nat (S (length e))) by lia.
    by destruct (read_field want _ inp) as [[[e' x] r]|].
Qed.

Lemma field_text_encoded len bs e : encoded bs e -> (length e < len)%nat -> nonzero bs -> field_text len e = bs.
Proof.
  intros He Hl Hn. unfold field_text. rewrite take_ge by lia. rewrite (cut0_id e).
  - rewrite (url_decode_encoded bs e He). by apply cut0_id.
  - eapply Forall_impl; [exact (encoded_text bs e He)|]. by intros c (? & _).
Qed.

(** A pair up to its end. *)
Lemma form_fields_pair fuel len valp rem n v en ev inp x inp' :
  encoded n en -> encoded v ev -> (length en < len)%nat -> (length ev < len)%nat -> nonzero n -> nonzero v ->
  Z.of_nat (length en) + 1 + Z.of_nat (length ev) <= rem ->
  read_field false (rem - Z.of_nat (length en) - 1 - Z.of_nat (length ev)) inp = Some ([], x, inp') ->
  form_fields (S fuel) len valp rem ((Some <$> en ++ 61 :: ev) ++ inp) =
    (n, v) :: form_fields fuel len true (field_rem ev x (rem - Z.of_nat (length en) - 1)) inp'.
Proof.
  intros Hn Hv L1 L2 Z1 Z2 Hrem Hx. cbn [form_fields]. rewrite (proj2 (Z.leb_gt _ 0)) by lia.
  rewrite fmap_app, <-app_assoc. rewrite read_field_text by (apply (encoded_text n en Hn) || lia).
  cbn [fmap list_fmap app read_field]. rewrite (proj2 (Z.eqb_neq (rem - _) 0)) by lia. cbn [andb Z.eqb Pos.eqb]. rewrite app_nil_r.
  unfold has_value, field_rem at 1 2. cbn [end_valp default from_option id].
  rewrite read_field_text by (apply (encoded_text v ev Hv) || lia). rewrite Hx, app_nil_r.
  by rewrite (field_text_encoded len n en), (field_text_encoded len v ev).
Qed.

Lemma form_text_fields len ps text : form_text len ps text -> forall fuel valp tail,
  (length text < fuel)%nat -> form_fields fuel len valp (Z.of_nat (length text)) ((Some <$> text) ++ tail) = ps.
Proof.
  induction 1 as [|n v en ev Hn Hv L1 L2 Z1 Z2|n v en ev ps text Hn Hv L1 L2 Z1 Z2 _ IH]; intros fuel valp tail Hf;
    (destruct fuel as [|fuel]; [lia|]).
  - done.
  - rewrite length_app. cbn [length]. erewrite form_fields_pair; [|exact Hn|exact Hv|done..|lia|].
    2: { replace (_ - _ - 1 - _) with 0 by lia. by destruct tail. }
    f_equal. unfold field_rem. replace (_ - _ - 1 - _ - 0) with 0 by lia. by destruct fuel.
  - rewrite length_app in Hf. cbn [length] in Hf. rewrite length_app in Hf. cbn [length] in Hf.
    replace (en ++ 61 :: ev ++ 38 :: text) with ((en ++ 61 :: ev) ++ 38 :: text) by by rewrite <-app_assoc.
    rewrite fmap_app, !length_app, <-(app_assoc (Some <$> en ++ 61 :: ev)). cbn [length]. rewrite (form_fields_pair fuel len valp _ n v en ev _ Ampersand ((Some <$> text) ++ tail)).
    + f_equal. unfold field_rem. rewrite <-(IH fuel true tail ltac:(lia)). f_equal. lia.
    + done.
    + done.
    + done.
    + done.
    + done.
    + done.
    + lia.
    + cbn [fmap list_fmap app read_field]. rewrite (proj2 (Z.eqb_neq _ 0)) by lia. done.
Qed.

End WificfgPost.

(** * Wi-Fi configuration: saving a form

    The writes the fields of each form stand for, and that a handler makes
    them: its result on the store is the map with these values. *)

Module WificfgSave.
Import CLib Wificfg WificfgPages WificfgText WificfgOut WificfgForms WificfgPost.

(** ** The meaning of the fields *)

Definition index_step (name : form_name) (value : list Z) (l : unit) : list param_write * unit :=
  match name with
  | FORM_NAME_CFG_ENABLE => ([PInt8 (str "cfg_enable") (enabled value)], tt)
  | FORM_NAME_CFG_PASSWORD => ([PString (str "cfg_password") value], tt)
  | _ => ([], tt)
  end.

Definition station_step (name : form_name) (value : list Z) (l : sta_form) : list param_write * sta_form :=
  match name with
  | FORM_NAME_STA_ENABLE => ([], {| sta_done := sta_done l; sta_enable := enabled value; sta_mdns_enable := sta_mdns_enable l |})
  | FORM_NAME_STA_MDNS => ([], {| sta_done := sta_done l; sta_enable := sta_enable l; sta_mdns_enable := enabled value |})
  | FORM_NAME_DONE => ([], {| sta_done := true; sta_enable := sta_enable l; sta_mdns_enable := sta_mdns_enable l |})
  | FORM_NAME_STA_DISABLED_RESTARTS =>
    (if strtoul value <=? 255 then [PInt8 (str "wifi_sta_disabled_restarts") (strtoul value)] else [], l)
  | FORM_NAME_STA_SSID => ([PString (str "wifi_sta_ssid") value], l)
  | FORM_NAME_STA_PASSWORD => ([PString (str "wifi_sta_password") value], l)
  | FORM_NAME_HOSTNAME => ([PString (str "hostname") value], l)
  | FORM_NAME_STA_DHCP => ([PInt8 (str "wifi_sta_dhcp") (enabled value)], l)
  | FORM_NAME_STA_IP_ADDR => ([PString (str "wifi_sta_ip_addr") value], l)
  | FORM_NAME_STA_NETMASK => ([PString (str "wifi_sta_netmask") value], l)
  | FORM_NAME_STA_GATEWAY => ([PString (str "wifi_sta_gateway") value], l)
  | _ => ([], l)
  end.

(** The two switches are stored at the end, if the form is complete. *)
Definition station_commit (l : sta_form) : list param_write :=
  if sta_done l then [PInt8 (str "wifi_sta_enable") (sta_enable l); PInt8 (str "wifi_sta_mdns") (sta_mdns_enable l)] else [].

Definition station_writes (fs : list (list Z * list Z)) : list param_write :=
  let res := run_fields station_step fs {| sta_done := false; sta_enable := 0; sta_mdns_enable := 0 |} in
  fst res ++ station_commit (snd res).

Definition ap_step (name : form_name) (value : list Z) (l : ap_form) : list param_write * ap_form :=
  let '{| ap_done := d; ap_enable := e; ap_disable_if_sta := s; ssid_hidden := h; dns_enable := n; ap_mdns_enable := m |} := l in
  let on := enabled value in
  let v := strtoul value in
  let accept (ok : bool) (x : param_write) := if ok then [x] else [] in
  match name with
  | FORM_NAME_AP_ENABLE => ([], {| ap_done := d; ap_enable := on; ap_disable_if_sta := s; ssid_hidden := h; dns_enable := n; ap_mdns_enable := m |})
  | FORM_NAME_AP_DISABLE_IF_STA => ([], {| ap_done := d; ap_enable := e; ap_disable_if_sta := on; ssid_hidden := h; dns_enable := n; ap_mdns_enable := m |})
  | FORM_NAME_AP_SSID_HIDDEN => ([], {| ap_done := d; ap_enable := e; ap_disable_if_sta := s; ssid_hidden := on; dns_enable := n; ap_mdns_enable := m |})
  | FORM_NAME_AP_DNS => ([], {| ap_done := d; ap_enable := e; ap_disable_if_sta := s; ssid_hidden := h; dns_enable := on; ap_mdns_enable := m |})
  | FORM_NAME_AP_MDNS => ([], {| ap_done := d; ap_enable := e; ap_disable_if_sta := s; ssid_hidden := h; dns_enable := n; ap_mdns_enable := on |})
  | FORM_NAME_DONE => ([], {| ap_done := true; ap_enable := e; ap_disable_if_sta := s; ssid_hidden := h; dns_enable := n; ap_mdns_enable := m |})
  | FORM_NAME_AP_DISABLED_RESTARTS => (accept (v <=? 255) (PInt8 (str "wifi_ap_disabled_restarts") v), l)
  | FORM_NAME_AP_SSID => ([PString (str "wifi_ap_ssid") value], l)
  | FORM_NAME_AP_PASSWORD => ([PString (str "wifi_ap_password") value], l)
  | FORM_NAME_AP_CHANNEL => (accept ((1 <=? v) && (v <=? 14)) (PInt8 (str "wifi_ap_channel") v), l)
  | FORM_NAME_AP_AUTHMODE => (accept ((v =? AUTH_OPEN) || (v =? AUTH_WPA_PSK) || (v =? AUTH_WPA2_PSK) || (v =? AUTH_WPA_WPA2_PSK)) (PInt8 (str "wifi_ap_authmode") v), l)
  | FORM_NAME_AP_MAX_CONN => (accept (v <=? 8) (PInt8 (str "wifi_ap_max_conn") v), l)
  | FORM_NAME_AP_BEACON_INTERVAL => (accept (v <=? 10000) (PInt32 (str "wifi_ap_beacon_interval") v), l)
  | FORM_NAME_AP_IP_ADDR => ([PString (str "wifi_ap_ip_addr") value], l)
  | FORM_NAME_AP_NETMASK => ([PString (str "wifi_ap_netmask") value], l)
  | FORM_NAME_AP_DHCP_LEASES => (accept (v <=? 16) (PInt8 (str "wifi_ap_dhcp_leases") v), l)
  | _ => ([], l)
  end.

Definition ap_commit (l : ap_form) : list param_write :=
  if ap_done l then
    [PInt8 (str "wifi_ap_enable") (ap_enable l); PInt8 (str "wifi_ap_disable_if_sta") (ap_disable_if_sta l);
     PInt8 (str "wifi_ap_ssid_hidden") (ssid_hidden l); PInt8 (str "wifi_ap_dns") (dns_enable l);
     PInt8 (str "wifi_ap_mdns") (ap_mdns_enable l)]
  else [].

Definition ap_writes (fs : list (list Z * list Z)) : list param_write :=
  let res := run_fields ap_step fs
    {| ap_done := false; ap_enable := 0; ap_disable_if_sta := 0; ssid_hidden := 0; dns_enable := 0; ap_mdns_enable := 0 |} in
  fst res ++ ap_commit (snd res).

Definition index_writes (fs : list (list Z * list Z)) : list param_write := fst (run_fields index_step fs tt).

(** The keys are the names of parameters. *)
Lemma run_fields_keys {L} (step : form_name -> list Z -> L -> list param_write * L) fs l :
  (forall name value l, Forall (fun x => key_ok (write_key x)) (fst (step name value l))) ->
  Forall (fun x => key_ok (write_key x)) (fst (run_fields step fs l)).
Proof.
  intros H. revert l. induction fs as [|[name value] fs IH]; intros l; cbn [run_fields]; [constructor|].
  specialize (H (intern_form_name name) value l). destruct (step _ value l) as [ws l1]. specialize (IH l1).
  destruct (run_fields step fs l1) as [ws' l2]. by apply Forall_app.
Qed.

Ltac keys := repeat (apply Forall_cons; split; [vm_compute; split; congruence|]); apply Forall_nil; done.

Lemma station_keys fs : Forall (fun x => key_ok (write_key x)) (station_writes fs).
Proof.
  apply Forall_app. split.
  - apply run_fields_keys. intros name value l. destruct name; cbn [station_step fst]; try case_if; keys.
  - unfold station_commit. case_if; keys.
Qed.

Lemma ap_keys fs : Forall (fun x => key_ok (write_key x)) (ap_writes fs).
Proof.
  apply Forall_app. split.
  - apply run_fields_keys. intros name value [d e s h n m]. destruct name; cbn [ap_step fst]; try case_if; keys.
  - unfold ap_commit. case_if; keys.
Qed.

Lemma index_keys fs : Forall (fun x => key_ok (write_key x)) (index_writes fs).
Proof. apply run_fields_keys. intros name value l. destruct name; cbn [index_step fst]; keys. Qed.

(** ** The handlers *)

Section Handlers.
Context {P : Type} `{HP : Params P}.
Implicit Types w : web P.

Lemma on_store_same {A} (m m' : M P A) w : (forall p, m p = m' p) -> on_store m w = on_store m' w.
Proof. intros H. unfold on_store. by rewrite H. Qed.

Lemma one_write {L} x (l : L) w :
  (do! on_store (apply_write x) then ret l) w = (do! on_store (apply_writes [x]) then ret l) w.
Proof. unfold bind. rewrite (on_store_same (apply_write x) (apply_writes [x])); [done|]. intros p. symmetry. apply apply_one. Qed.

Lemma no_write {L} (l : L) w : ret l w = (do! on_store (apply_writes []) then ret l) w.
Proof. unfold bind, on_store. cbn. by destruct w. Qed.

Lemma may_write {L} (b : bool) x (l : L) w :
  (do! (if b then on_store (apply_write x) else ret tt) then ret l) w =
  (do! on_store (apply_writes (if b then [x] else [])) then ret l) w.
Proof. destruct b; [apply one_write|exact (no_write l w)]. Qed.

(** Each branch of a [switch] is one of these. *)
Ltac branches :=
  first [ apply no_write | exact (one_write (PString _ _) _ _) | exact (one_write (PInt8 _ _) _ _)
        | exact (may_write _ (PInt8 _ _) _ _) | exact (may_write _ (PInt32 _ _) _ _) ].

Lemma station_acts : acts (station_field (P := P)) station_step.
Proof. intros name value l w. destruct name; cbn [station_field station_step fst snd]; branches. Qed.

Lemma ap_acts : acts (ap_field (P := P)) ap_step.
Proof. intros name value [d e s h n m] w. destruct name; cbn [ap_field ap_step fst snd]; branches. Qed.

Lemma index_acts : acts (index_field (P := P)) index_step.
Proof.
  intros name value [] w. assert (Hu : forall m : M (web P) unit, m w = (do! m then ret tt) w).
  { intros m. unfold bind, ret. by destruct (m w) as [[[] w1]| |]. }
  destruct name; cbn [index_field index_step fst snd]; first [apply no_write|rewrite Hu; branches].
Qed.

(** What a handler that has answered leaves. *)
Record answered_with w w' (p : P) (data : list (list Z)) : Prop := {
  an_store : store w' = p;
  an_out : out w' = out w ++ data;
  an_events : events w' = events w;
  an_got : got_sta_connect w' = got_sta_connect w;
  an_hooks : shutdown_hooks w' = shutdown_hooks w;
  an_length : length (buf w') = length (buf w);
}.

Lemma write_answers w w1 p s : stores_only w w1 p ->
  exists r w', wificfg_write_string s w1 = Done (r, w') /\ answered_with w w' p [s].
Proof.
  intros (w2 & [H1 H2 H3 H4 H5 H6 H7] & ->). unfold wificfg_write_string, write. cbn [write_results with_store].
  destruct (write_results w2) as [|r rs]; eexists; eexists; (split; [reflexivity|]); split; cbn; congruence.
Qed.

Lemma apply_writes_unit ws (p : P) p' : apply_writes ws p = Done (tt, p') -> forall w, store w = p ->
  on_store (apply_writes ws) w = Done (tt, with_store w p').
Proof. intros E w <-. by apply on_store_Done. Qed.

Lemma form_handler_ok {L} (field : form_name -> list Z -> L -> M (web P) L) step (l : L) finish commit method content_length w p' :
  acts field step -> (forall l w, finish l w = on_store (apply_writes (commit l)) w) -> sized w -> 0 <= content_length < 2 ^ 32 ->
  let res := run_fields step (form_fields (S (length (input w))) (length (buf w)) false content_length (input w)) l in
  apply_writes (fst res ++ commit (snd res)) (store w) = Done (tt, p') ->
  exists r w', form_handler field l finish method content_length HTTP_CONTENT_TYPE_WWW_FORM_URLENCODED (Z.of_nat (length (buf w))) w = Done (r, w') /\
    answered_with w w' p' [http_redirect_header].
Proof.
  intros Ha Hf Hw Hc res E. apply apply_first in E as (p1 & E1 & E2). unfold form_handler. rewrite bool_decide_true by done. cbn [negb].
  destruct (read_form_ok field step Ha content_length l w p1 Hw Hc E1) as (w1 & Er & S1). run Er. fold res. destruct S1 as (w2 & R & ->).
  pose proof (Hf (snd res) (with_store w2 p1)) as Hfin. rewrite (apply_writes_unit _ p1 p' E2 (with_store w2 p1) eq_refl) in Hfin. run Hfin.
  apply write_answers. by exists w2.
Qed.

Lemma station_finish_ok l w : station_finish l w = on_store (apply_writes (station_commit l)) w.
Proof.
  unfold station_finish, station_commit. case_if; [|by destruct w]. unfold set_int8, on_store, bind. cbn.
  unfold bind, ret. destruct (sysparam_set_int8 _ _ (store w)) as [[[] p1]| |]; [|done..]. cbn.
  destruct (sysparam_set_int8 _ _ p1) as [[[] p2]| |]; done.
Qed.

Lemma ap_finish_ok l w : ap_finish l w = on_store (apply_writes (ap_commit l)) w.
Proof.
  unfold ap_finish, ap_commit. case_if; [|by destruct w]. unfold set_int8, on_store, bind. cbn. unfold bind, ret.
  destruct (sysparam_set_int8 _ _ (store w)) as [[[] p1]| |]; [|done..]. cbn.
  destruct (sysparam_set_int8 _ _ p1) as [[[] p2]| |]; [|done..]. cbn.
  destruct (sysparam_set_int8 _ _ p2) as [[[] p3]| |]; [|done..]. cbn.
  destruct (sysparam_set_int8 _ _ p3) as [[[] p4]| |]; [|done..]. cbn.
  destruct (sysparam_set_int8 _ _ p4) as [[[] p5]| |]; done.
Qed.

Lemma index_finish_ok (l : unit) w : ret tt w = on_store (apply_writes []) w.
Proof. by destruct w. Qed.

End Handlers.
End WificfgSave.
