(* ===== verification/WificfgSafe.v ===== *)
(** * Wi-Fi configuration: what every request does

    The functions that only read the request and the store and write a
    response, on any input: they return ([returns]) and keep the store's
    contents ([calm]).  No access leaves the buffer. *)

From stdpp Require Import gmap strings.
From S2P Require Import Prelude CStrings Wificfg WificfgPages WificfgServer WificfgText WificfgForms WificfgPost.
Open Scope Z_scope.

Module WificfgSafe.
Import CLib Wificfg WificfgPages WificfgServer WificfgText WificfgOut WificfgForms WificfgPost.

(** [m] returns from every state with [I], with a result and a state that
    satisfy [Q]. *)
Definition returns {S A} (I : S -> Prop) (m : M S A) (Q : A -> S -> Prop) : Prop :=
  forall s, I s -> exists a s', m s = Done (a, s') /\ Q a s'.

Lemma returns_bind {S A B} (I : S -> Prop) (m : M S A) (k : A -> M S B) Q R :
  returns I m Q -> (forall a, returns (Q a) (k a) R) -> returns I (bind m k) R.
Proof. intros Hm Hk s Hs. destruct (Hm s Hs) as (a & s' & E & Ha). run E. by apply Hk. Qed.

Lemma returns_ret {S A} (I : S -> Prop) (a : A) (Q : A -> S -> Prop) : (forall s, I s -> Q a s) -> returns I (ret a) Q.
Proof. intros H s Hs. exists a, s. split; [done|by apply H]. Qed.

Lemma returns_get {S A} (I : S -> Prop) (k : S -> M S A) Q : (forall s, I s -> returns (fun s' => s' = s) (k s) Q) -> returns I (bind get k) Q.
Proof. intros H s Hs. erewrite bind_Done by reflexivity. by apply (H s Hs). Qed.

Lemma returns_weaken {S A} (I I' : S -> Prop) (m : M S A) (Q Q' : A -> S -> Prop) :
  returns I m Q -> (forall s, I' s -> I s) -> (forall a s, Q a s -> Q' a s) -> returns I' m Q'.
Proof. intros H HI HQ s Hs. destruct (H s (HI s Hs)) as (a & s' & E & Ha). exists a, s'. split; [done|by apply HQ]. Qed.

(** ** Zeros in the buffer *)

(** There is a terminator at [i] or behind. *)
Definition ends_from (b : list Z) (i : nat) : Prop := 0 ∈ drop i b.

Lemma ends_from_le b i j : ends_from b i -> (j <= i)%nat -> ends_from b j.
Proof.
  unfold ends_from. intros H Hj. replace i with (j + (i - j))%nat in H by lia. rewrite <-drop_drop in H.
  rewrite <-(take_drop (i - j) (drop j b)). apply elem_of_app. by right.
Qed.

Lemma ends_from_lt b i : ends_from b i -> (i < length b)%nat.
Proof. unfold ends_from. intros H. destruct (decide (i < length b)%nat); [done|]. rewrite drop_ge in H by lia. by apply elem_of_nil in H. Qed.

Lemma string_at_some b i : ends_from b i -> is_Some (string_at b (Z.of_nat i)).
Proof. intros H. unfold string_at. rewrite (proj2 (Z.ltb_ge _ 0)) by lia. rewrite Nat2Z.id. by apply c_string_some. Qed.

Lemma span_some p mem : p 0 = false -> 0 ∈ mem -> exists n, span p mem = Some n /\ 0 ∈ drop n mem.
Proof.
  intros Hp. induction mem as [|c mem IH]; intros H; [by apply elem_of_nil in H|]. cbn. destruct (p c) eqn:Hc.
  - apply elem_of_cons in H as [H|H]; [subst; congruence|]. destruct (IH H) as (n & -> & Hn). by exists (S n).
  - by exists 0%nat.
Qed.

Lemma skip_some b i : ends_from b i ->
  (exists j, skip_whitespace b i = Some j /\ ends_from b j /\ (i <= j)%nat) /\
  (exists j, skip_to_whitespace b i = Some j /\ ends_from b j /\ (i <= j)%nat).
Proof.
  unfold ends_from, skip_whitespace, skip_to_whitespace. intros H. split.
  - destruct (span_some isspace (drop i b) eq_refl H) as (n & -> & Hn). exists (i + n)%nat. rewrite drop_drop in Hn. cbn. split; [done|]. split; [done|lia].
  - destruct (span_some (fun c => negb (c =? 0) && negb (isspace c)) (drop i b) eq_refl H) as (n & -> & Hn). exists (i + n)%nat.
    rewrite drop_drop in Hn. cbn. split; [done|]. split; [done|lia].
Qed.

(** Another terminator takes none away. *)
Lemma store_zero b i : (i < length b)%nat -> put_at b (Z.of_nat i) [0] = Some (<[i := 0]> b).
Proof.
  intros Hi. unfold put_at. rewrite (proj2 (orb_false_iff _ _)) by (split; apply Z.ltb_ge; cbn [length]; lia).
  rewrite Nat2Z.id. cbn [length]. rewrite insert_take_drop by done. by rewrite Nat.add_1_r.
Qed.

Lemma ends_insert b i j : ends_from b j -> ends_from (<[i := 0]> b) j.
Proof.
  unfold ends_from. intros Hj. apply list_elem_of_lookup in Hj as [k Hk]. rewrite lookup_drop in Hk.
  apply list_elem_of_lookup. exists k. rewrite lookup_drop. pose proof (lookup_lt_Some _ _ _ Hk).
  destruct (decide (i = j + k)%nat) as [->|Hne]; [by apply list_lookup_insert_eq|]. by rewrite list_lookup_insert_ne.
Qed.

Lemma ends_insert_here b i : (i < length b)%nat -> ends_from (<[i := 0]> b) i.
Proof.
  intros H. unfold ends_from. apply list_elem_of_lookup. exists 0%nat. rewrite lookup_drop, Nat.add_0_r.
  by apply list_lookup_insert_eq.
Qed.

Section Safe.
Context {P : Type} `{HP : Params P} {PL : ParamLaws P}.
Implicit Types w : web P.
Context (p0 : P) (m : pmap) (inp : list (option Z)) (es : list event) (got : bool) (hooks : list Z).
Hypothesis Hinp : Z.of_nat (length inp) < 2 ^ 31.

(** The store holds [m], the input is what is left of [inp], and nothing has
    happened. *)
Record calm w : Prop := {
  ca_holds : holds (store w) m;
  ca_reads : reads p0 (store w);
  ca_len : length (buf w) = 54%nat;
  ca_input : exists used, inp = used ++ input w;
  ca_events : events w = es;
  ca_got : got_sta_connect w = got;
  ca_hooks : shutdown_hooks w = hooks;
}.


Lemma calm_input w : calm w -> (length (input w) <= length inp)%nat.
Proof. intros H. destruct (ca_input w H) as [used E]. apply (f_equal length) in E. rewrite length_app in E. lia. Qed.

Lemma calm_sized w : calm w -> sized w.
Proof. intros H. pose proof (ca_len w H) as Hl. pose proof (calm_input w H). split; [intros E; by rewrite E in Hl|lia|lia]. Qed.

(** A terminated buffer. *)
Definition ready (i : nat) w : Prop := calm w /\ ends_from (buf w) i.

Lemma calm_buf w b : calm w -> length b = 54%nat -> calm (with_buf w b).
Proof. intros [] H. by split. Qed.

Lemma calm_out w o rs : calm w -> calm (with_out w o rs).
Proof. intros []. by split. Qed.

Lemma calm_reads w w' : calm w -> reads_only w w' -> calm w'.
Proof.
  intros [H1 HR H2 [u H3] H4 H5 H6] [[u' E]]. split; try congruence. exists (u ++ u'). by rewrite H3, E, app_assoc.
Qed.

Lemma write_calm s : returns calm (wificfg_write_string s) (fun _ => calm).
Proof.
  intros w Hw. unfold wificfg_write_string, write. destruct (write_results w); do 2 eexists; (split; [reflexivity|by apply calm_out]).
Qed.

Lemma edit_calm f : (forall b, length b = 54%nat -> exists b', f b = Some b' /\ length b' = 54%nat) ->
  returns calm (edit_buf f) (fun _ => calm).
Proof.
  intros Hf w Hw. destruct (Hf (buf w) (ca_len w Hw)) as (b' & E & Hl). do 2 eexists. split; [by apply edit_buf_Done|].
  by apply calm_buf.
Qed.

(** Text printed to the buffer. *)
Lemma print_ready (text : list Z) : returns calm (edit_buf (fun b => put_at b 0 (snprintf 54 text ++ [0]))) (fun _ => ready 0).
Proof.
  intros w Hw. pose proof (ca_len w Hw) as Hl. unfold snprintf. change (Z.to_nat (54 - 1)) with 53%nat.
  set (t := take 53 text ++ [0]). assert (Ht : (length t <= 54)%nat) by (unfold t; rewrite length_app, length_take; cbn [length]; lia).
  do 2 eexists. split; [apply edit_buf_Done, (store_first [] (buf w) t); rewrite Hl; exact Ht|]. cbn [app].
  split; [apply calm_buf; [done|]; rewrite length_app, length_drop; lia|]. unfold ends_from. cbn [buf with_buf]. rewrite drop_0. apply elem_of_app. left. apply elem_of_app. right. by left.
Qed.

Lemma buf_string_calm i : returns (ready i) buf_string (fun _ => calm).
Proof.
  intros w [Hw He]. destruct (c_string_some (buf w)) as [s Hs]; [exact (ends_from_le (buf w) i 0 He ltac:(lia))|].
  exists s, w. split; [by apply buf_string_Done|done].
Qed.

(** A chunk of any text of the pages. *)
Definition short (s : list Z) : Prop := Z.of_nat (length s) < 2 ^ 20.

Lemma chunk_calm s : short s -> returns calm (chunk (P := P) 54 s) (fun _ => calm).
Proof.
  intros Hs w Hw. unfold chunk, wificfg_write_string_chunk. unfold short in Hs. unfold strlen at 1.
  case_if; zbool; [by exists 0, w|]. rewrite u32_small by (unfold strlen; lia). unfold strlen at 1. case_if; zbool.
  - pose proof (ca_len w Hw) as Hl. destruct (chunk_in_buffer (buf w) s) as (b1 & b2 & b3 & b4 & start & E1 & E2 & E3 & E4 & Hl4 & _); [lia..|].
    erewrite bind_Done by reflexivity. rewrite E1. erewrite bind_Done by reflexivity. rewrite E2. erewrite bind_Done by reflexivity.
    cbv beta iota zeta. rewrite E3. erewrite bind_Done by reflexivity. rewrite E4. do 2 (erewrite bind_Done by reflexivity).
    apply (write_calm _ (with_buf w b4)). apply calm_buf; [done|congruence].
  - pose proof (print_x_length (strlen s) ltac:(unfold strlen; lia)) as Hp.
    set (size_text := print_x (strlen s) ++ [13; 10]). assert (Hst : (length size_text <= 7)%nat) by (unfold size_text; rewrite length_app; cbn [length]; lia).
    assert ((strlen (snprintf 8 size_text ++ [0]) <? strlen size_text) = false) as ->.
    { apply Z.ltb_ge. unfold strlen, snprintf. change (Z.to_nat (8 - 1)) with 7%nat. rewrite length_app, take_ge by lia. lia. }
    apply (returns_bind calm _ _ _ _ (write_calm _)); [|done]. intros r. case_if; [by apply returns_ret|].
    apply (returns_bind calm _ _ _ _ (write_calm _)). intros r'. case_if; [by apply returns_ret|]. apply write_calm.
Qed.

Lemma write_steps_calm steps : Forall (fun s => returns calm s (fun _ => calm)) steps -> returns calm (write_steps (P := P) steps) (fun _ => calm).
Proof.
  induction 1 as [|s steps Hs _ IH]; [by apply returns_ret|]. cbn [write_steps]. apply (returns_bind calm _ _ _ _ Hs). intros r.
  case_if; [by apply returns_ret|exact IH].
Qed.

(** Reading the store. *)
Lemma on_store_calm {A} (f : M P A) (Q : A -> Prop) :
  (forall p, holds p m -> exists a p', f p = Done (a, p') /\ (holds p' m /\ reads p p') /\ Q a) ->
  returns calm (on_store f) (fun a w => calm w /\ Q a).
Proof.
  intros H w Hw. destruct (H (store w) (ca_holds w Hw)) as (a & p' & E & [Hp Hr] & HQ). exists a, (with_store w p').
  split; [by apply on_store_Done|]. split; [|done]. destruct Hw. split; try done. by eapply reads_trans.
Qed.

Lemma get_string_calm k : Z.of_nat (length k) <= 65535 ->
  returns calm (on_store (sysparam_get_string k)) (fun s w => calm w /\ s = text_value (m !! k)).
Proof. intros Hk. apply on_store_calm. intros p Hp. destruct (param_get_string p m k Hp Hk) as (p' & E & H). by exists (text_value (m !! k)), p'. Qed.

Lemma get_int8_calm k d : Z.of_nat (length k) <= 65535 ->
  returns calm (get_int8 k d) (fun n w => calm w /\ n = default d (int_value 1 s8 (m !! k))).
Proof.
  intros Hk. unfold get_int8. eapply returns_bind; [apply (on_store_calm _ (fun v => v = int_value 1 s8 (m !! k)))|].
  - intros p Hp. destruct (param_get_int8 p m k Hp Hk) as (p' & E & H). by exists (int_value 1 s8 (m !! k)), p'.
  - intros v. apply returns_ret. by intros w [Hw ->].
Qed.

Lemma free_calm : returns calm (on_store free) (fun _ => calm).
Proof.
  eapply returns_weaken; [apply (on_store_calm free (fun _ => True))|done|by intros a s [? _]].
  intros p Hp. destruct (param_free p m Hp) as (p' & E & H). by exists tt, p'.
Qed.

Lemma chunk_string_calm i : returns (ready i) (let! s := buf_string in chunk 54 s) (fun _ => calm).
Proof.
  intros w [Hw He]. assert (Hi : ends_from (buf w) 0) by exact (ends_from_le (buf w) i 0 He ltac:(lia)).
  destruct (c_string_some (buf w) Hi) as [s Hs]. run (buf_string_Done w s Hs). apply chunk_calm; [|done].
  assert (Hlen : forall mem t, c_string mem = Some t -> (length t <= length mem)%nat).
  { induction mem as [|c mem IH]; intros t; cbn; [done|]. case_if; [injection 1 as <-; cbn; lia|].
    destruct (c_string mem) as [t'|] eqn:E; [|done]. injection 1 as <-. specialize (IH t' eq_refl). cbn. lia. }
  unfold short. specialize (Hlen _ _ Hs). rewrite (ca_len w Hw) in Hlen. lia.
Qed.

Lemma chunk_text_calm t : returns calm (chunk_text (P := P) 54 t) (fun _ => calm).
Proof. eapply returns_bind; [apply print_ready|]. intros []. apply chunk_string_calm. Qed.

Lemma chunk_escaped_calm s : returns calm (chunk_escaped (P := P) 54 s) (fun _ => calm).
Proof.
  intros w Hw. pose proof (ca_len w Hw) as Hl. unfold chunk_escaped.
  destruct (escape_loop_ok s [] (buf w)) as (k & rest & E & Hle & _); [cbn; lia|cbn; lia|intros E; by rewrite E in Hl|].
  cbn [app length] in E. rewrite Hl in E. change (Z.of_nat 54) with 54 in E. change (Z.of_nat 0) with 0 in E.
  set (b := escape (take k s) ++ 0 :: rest) in *. erewrite bind_Done by (apply edit_buf_Done; exact E).
  assert (Hb : ready 0 (with_buf w b)).
  { split; [apply calm_buf; [done|congruence]|]. unfold ends_from. cbn [buf with_buf]. rewrite drop_0. apply elem_of_app. right. by left. }
  destruct (param_free (store (with_buf w b)) m (ca_holds _ (proj1 Hb))) as (p' & Ef & Hp' & Hr).
  erewrite bind_Done by (apply on_store_Done; exact Ef). apply (chunk_string_calm 0).
  destruct Hb as [[] He]. split; [split; try done; by eapply reads_trans|done].
Qed.

Lemma title_calm t : short t -> returns calm (wificfg_write_html_title (P := P) 54 (Some t)) (fun _ => calm).
Proof.
  intros Ht. unfold wificfg_write_html_title. eapply returns_bind; [by apply get_string_calm|]. intros h.
  eapply returns_bind with (Q := fun _ => calm).
  - destruct h; [apply returns_ret; by intros ? [? _]|]. eapply returns_weaken; [by apply get_string_calm|by intros ? [? _]|by intros ? ? [? _]].
  - intros [h'|]; [|by apply returns_ret]. apply write_steps_calm. constructor; [apply chunk_escaped_calm|].
    constructor; [by apply chunk_calm|]. constructor; [by apply chunk_calm|constructor].
Qed.

End Safe.
End WificfgSafe.

(** * Wi-Fi configuration: the lock

    With [cfg_enable] 0 and a password, a connection that does not carry the
    password leaves the parameters alone, whatever it sends. *)

Module WificfgLock.
Import CLib Wificfg WificfgPages WificfgServer WificfgText WificfgOut WificfgForms WificfgPost WificfgSave WificfgSafe.

(** No field of the input, wherever it starts and ends, reads as [s]. *)
Definition without (s : list Z) (inp : list (option Z)) : Prop :=
  forall a e b, inp = a ++ (Some <$> e) ++ b -> field_text 54 e <> s.

(** Every value of a form is a field of the input. *)
Lemma form_fields_without s fuel : forall valp rem inp,
  without s inp -> Forall (fun f => snd f <> s) (form_fields fuel 54 valp rem inp).
Proof.
  induction fuel as [|fuel IH]; intros valp rem inp Hs; cbn [form_fields]; [constructor|]. case_if; [constructor|].
  destruct (read_field true rem inp) as [[[e x] r]|] eqn:F1; [|constructor]. apply read_field_rest in F1 as [u1 ->].
  assert (Hr : without s r) by (intros a e' b ->; apply (Hs (u1 ++ a) e' b); by rewrite <-app_assoc).
  case_if; [|by apply IH]. destruct (read_field false _ r) as [[[e' x'] r']|] eqn:F2; [|constructor].
  pose proof (read_field_split _ _ _ _ _ _ F2) as Hsp. apply read_field_rest in F2 as [u2 ->]. constructor.
  - cbn [snd]. rewrite Hsp in Hr. exact (Hr [] e' _ eq_refl).
  - apply IH. intros a e2 b ->. apply (Hr (u2 ++ a) e2 b). by rewrite <-app_assoc.
Qed.

(** The challenge stores something for the password only. *)
Definition challenge_step (password : list Z) (name : form_name) (value : list Z) (l : unit) : list param_write * unit :=
  match name with
  | FORM_NAME_CFG_PASSWORD => (if bool_decide (password = value) then [PInt8 (str "cfg_enable") 1] else [], tt)
  | _ => ([], tt)
  end.

Lemma challenge_no_writes password fs : Forall (fun f => snd f <> password) fs -> run_fields (challenge_step password) fs tt = ([], tt).
Proof.
  induction 1 as [|[name value] fs Hf _ IH]; [done|]. cbn [run_fields snd] in *.
  assert (challenge_step password (intern_form_name name) value tt = ([], tt)) as ->.
  { unfold challenge_step. destruct (intern_form_name name); try done. by rewrite bool_decide_false by congruence. }
  by rewrite IH.
Qed.

Section Lock.
Context {P : Type} `{HP : Params P} {PL : ParamLaws P}.
Implicit Types w : web P.

Lemma challenge_acts password : acts (challenge_field (P := P) password) (challenge_step password).
Proof.
  intros name value [] w. assert (Hu : forall m : M (web P) unit, m w = (do! m then ret tt) w).
  { intros m. unfold bind, ret. by destruct (m w) as [[[] w1]| |]. }
  destruct name; cbn [challenge_field challenge_step fst snd]; try exact (no_write tt w).
  rewrite Hu. exact (may_write _ (PInt8 _ _) tt w).
Qed.

(** ** Requests *)

Section Request.
Context (p0 : P) (m : pmap) (inp : list (option Z)) (es : list event) (got : bool) (hooks : list Z).
Hypothesis Hinp : Z.of_nat (length inp) < 2 ^ 31.
Abbreviation calm := (calm p0 m inp es got hooks).
Abbreviation ready := (ready p0 m inp es got hooks).

Lemma crlf_loop_calm fuel : forall num w,
  calm w -> (length (input w) < fuel)%nat -> 0 <= num -> num + Z.of_nat (length (input w)) < 2 ^ 31 ->
  exists r w', crlf_loop fuel num 54 w = Done (r, w') /\ calm w' /\
    match r with Some n => num <= n < 2 ^ 31 /\ (length (input w') < length (input w))%nat | None => True end.
Proof.
  induction fuel as [|fuel IH]; intros num w Hw Hf Hn H31; [lia|]. cbn [crlf_loop].
  destruct (input w) as [|c rest] eqn:Hi.
  { exists None, w. erewrite bind_Done by (unfold read_char; rewrite Hi; reflexivity). done. }
  erewrite bind_Done by (unfold read_char; rewrite Hi; reflexivity). cbn [length] in *.
  assert (H1 : calm (with_input w rest)).
  { apply (calm_reads p0 m inp es got hooks w); [done|]. by apply (reads_only_io w [c] rest (buf w)). }
  destruct c as [c|]; [|by exists None, (with_input w rest)].
  case_if; [exists (Some num), (with_input w rest); split; [done|]; split; [done|]; cbn; lia|].
  assert (Hnext : forall w1 n, calm w1 -> input w1 = rest -> num <= n <= num + 1 -> exists r w', crlf_loop fuel n 54 w1 = Done (r, w') /\ calm w' /\
    match r with Some n => num <= n < 2 ^ 31 /\ (length (input w') < S (length rest))%nat | None => True end).
  { intros w1 n Hc Hr Hb. destruct (IH n w1 Hc ltac:(rewrite Hr; lia) ltac:(lia) ltac:(rewrite Hr; lia)) as (r & w' & E & Hc' & H).
    exists r, w'. split; [done|]. split; [done|]. destruct r; [|done]. rewrite Hr in H. lia. }
  case_if; [apply Hnext; [done|done|lia]|]. case_if; zbool.
  - destruct (put_at_ok (buf w) num [tolower c]) as [b' E]; [done|rewrite (ca_len _ _ _ _ _ _ w Hw); cbn; lia|].
    erewrite bind_Done by (apply edit_buf_Done; exact E). rewrite u32_small by lia. apply Hnext; [|done|lia].
    apply calm_buf; [done|]. rewrite (put_at_length _ _ _ _ E). exact (ca_len _ _ _ _ _ _ w Hw).
  - erewrite bind_Done by reflexivity. rewrite u32_small by lia. by apply Hnext; [|done|lia].
Qed.

Lemma read_line_calm w : calm w ->
  exists r w', read_crlf_line 54 w = Done (r, w') /\ calm w' /\ (0 <= r -> ready 0 w' /\ (length (input w') < length (input w))%nat).
Proof.
  intros Hw. pose proof (calm_input _ _ _ _ _ _ w Hw) as Hi. unfold read_crlf_line. erewrite bind_Done by reflexivity.
  destruct (crlf_loop_calm (S (length (input w))) 0 w Hw) as (r & w1 & E & H1 & Hr); [lia|lia|lia|]. run E.
  destruct r as [n|]; [|exists (-1), w1; split; [done|]; split; [done|lia]]. destruct Hr as [Hn Hl].
  set (i := Z.to_nat (if 54 <=? n then 53 else n)). pose proof (ca_len _ _ _ _ _ _ w1 H1) as Hl1.
  assert (Hi54 : (i < length (buf w1))%nat) by (rewrite Hl1; unfold i; case_if; zbool; lia).
  exists n, (with_buf w1 (<[i := 0]> (buf w1))). split.
  { unfold terminate. erewrite bind_Done by (apply edit_buf_Done; rewrite <-(store_zero _ i Hi54); f_equal; unfold i; case_if; zbool; reflexivity || lia).
    rewrite s32_small by lia. done. }
  assert (Hc : calm (with_buf w1 (<[i := 0]> (buf w1)))) by (apply calm_buf; [done|by rewrite length_insert]).
  split; [done|]. intros _. split; [|done]. split; [done|]. apply (ends_from_le _ i); [by apply ends_insert_here|lia].
Qed.

(** The request line. *)
Lemma zero_calm i j w : ready j w -> (i < 54)%nat -> exists w',
  edit_buf (fun b => put_at b (Z.of_nat i) [0]) w = Done (tt, w') /\ ready j w' /\ ends_from (buf w') i /\ input w' = input w.
Proof.
  intros [Hw He] Hi. pose proof (ca_len _ _ _ _ _ _ w Hw) as Hl. eexists. split; [apply edit_buf_Done, store_zero; lia|].
  split; [|split; [apply ends_insert_here; lia|done]]. split; [apply calm_buf; [done|by rewrite length_insert]|]. by apply ends_insert.
Qed.

Lemma ready_string j w : ready j w -> exists s, buf_string w = Done (s, w).
Proof.
  intros [_ He]. destruct (c_string_some (buf w)) as [s Hs]; [exact (ends_from_le (buf w) j 0 He ltac:(lia))|].
  exists s. by apply buf_string_Done.
Qed.

Lemma parse_request_calm w : ready 0 w -> exists r w', parse_request w = Done (r, w') /\ calm w' /\ input w' = input w.
Proof.
  intros Hr. pose proof (proj2 Hr) as He. unfold parse_request. erewrite bind_Done by reflexivity.
  destruct (skip_some (buf w) 0 He) as [_ (me & E1 & He1 & _)]. rewrite E1. erewrite bind_Done by reflexivity.
  destruct (skip_some (buf w) me He1) as [(ps & E2 & He2 & Hps) _]. rewrite E2. erewrite bind_Done by reflexivity.
  pose proof (ends_from_lt _ _ He1) as L1. rewrite (ca_len _ _ _ _ _ _ w (proj1 Hr)) in L1.
  destruct (zero_calm me ps w (conj (proj1 Hr) He2) L1) as (w1 & E3 & R1 & _ & I1). run E3.
  destruct (ready_string ps w1 R1) as [s Es]. run Es. erewrite bind_Done by reflexivity.
  destruct (skip_some (buf w1) ps (proj2 R1)) as [_ (pe & E4 & He4 & _)]. rewrite E4. erewrite bind_Done by reflexivity.
  pose proof (ends_from_lt _ _ He4) as L2. rewrite (ca_len _ _ _ _ _ _ w1 (proj1 R1)) in L2.
  destruct (zero_calm pe ps w1 R1 L2) as (w2 & E5 & R2 & _ & I2). run E5. erewrite bind_Done by reflexivity.
  destruct (string_at_some (buf w2) ps (proj2 R2)) as [path Ep]. rewrite Ep. erewrite bind_Done by reflexivity.
  eexists. exists w2. split; [reflexivity|]. split; [exact (proj1 R2)|congruence].
Qed.

(** The headers. *)
Lemma parse_header_calm host h w : ready 0 w ->
  0 <= u32 (content_length h) -> exists h' w', parse_header host h w = Done (h', w') /\ calm w' /\ input w' = input w.
Proof.
  intros Hr _. pose proof (proj2 Hr) as He. unfold parse_header. erewrite bind_Done by reflexivity.
  destruct (span_some (fun c => negb (c =? 0) && negb (c =? 58)) (buf w) eq_refl He) as (ne & E1 & Hne).
  rewrite E1. erewrite bind_Done by reflexivity.
  pose proof (ends_from_lt (buf w) ne Hne) as L1. destruct (lookup_lt_is_Some_2 _ _ L1) as [c Hc]. rewrite Hc. erewrite bind_Done by reflexivity.
  case_if; zbool; [exists h, w; split; [done|]; split; [exact (proj1 Hr)|done]|].
  assert (Hne1 : ends_from (buf w) (S ne)).
  { unfold ends_from in *. rewrite (drop_S _ _ _ Hc) in Hne. apply elem_of_cons in Hne as [Hz|Hz]; [lia|done]. }
  rewrite (ca_len _ _ _ _ _ _ w (proj1 Hr)) in L1. destruct (zero_calm ne (S ne) w (conj (proj1 Hr) Hne1) L1) as (w1 & E3 & R1 & _ & I1). run E3.
  destruct (ready_string (S ne) w1 R1) as [s Es]. run Es. erewrite bind_Done by reflexivity.
  destruct (skip_some (buf w1) (S ne) (proj2 R1)) as [(v & E4 & He4 & _) _]. rewrite E4. erewrite bind_Done by reflexivity.
  destruct (string_at_some (buf w1) v He4) as [value Ev]. rewrite Ev. erewrite bind_Done by reflexivity.
  eexists. exists w1. split; [reflexivity|]. split; [exact (proj1 R1)|done].
Qed.

Lemma headers_loop_calm host fuel : forall h w, calm w -> (length (input w) < fuel)%nat ->
  exists h' w', headers_loop fuel host h w = Done (h', w') /\ calm w'.
Proof.
  induction fuel as [|fuel IH]; intros h w Hw Hf; [lia|]. cbn [headers_loop]. change HTTP_BUFFER_SIZE with 54.
  destruct (read_line_calm w Hw) as (r & w1 & E & H1 & Hr). run E. case_if; zbool; [by exists h, w1|].
  destruct (Hr ltac:(lia)) as [R1 L1]. destruct (parse_header_calm host h w1 R1) as (h' & w2 & E2 & H2 & I2); [apply u32_range|].
  run E2. apply IH; [done|rewrite I2; lia].
Qed.

(** Every answer that is text. *)
Lemma print_write_calm text : returns calm
  (do! edit_buf (fun b => put_at b 0 (snprintf 54 text ++ [0])) then let! s := buf_string in wificfg_write_string s) (fun _ => calm).
Proof.
  eapply returns_bind; [exact (print_ready p0 m inp es got hooks text)|]. intros [].
  eapply returns_bind; [exact (buf_string_calm p0 m inp es got hooks 0)|]. intros s. exact (write_calm p0 m inp es got hooks s).
Qed.

Lemma ipaddr_redirect_calm name : returns calm (handle_ipaddr_redirect (P := P) name 54) (fun _ => calm).
Proof.
  unfold handle_ipaddr_redirect. pose proof (write_calm (P := P) p0 m inp es got hooks) as Hw. pose proof print_write_calm as Hp.
  apply write_steps_calm. repeat constructor; try apply Hw. destruct name as [? ? ? ?|? ? ? ?|text|].
  - apply Hp.
  - apply Hp.
  - apply write_steps_calm. repeat constructor; try apply Hw. destruct text; [apply Hp|by apply returns_ret].
  - by apply returns_ret.
Qed.

Lemma drain_calm n : returns calm (drain (P := P) n) (fun _ => calm).
Proof.
  induction n as [|n IH]; [by apply returns_ret|]. intros w Hw. cbn [drain]. destruct (input w) as [|c rest] eqn:Hi.
  - erewrite bind_Done by (unfold read_char; rewrite Hi; reflexivity). by exists tt, w.
  - erewrite bind_Done by (unfold read_char; rewrite Hi; reflexivity).
    assert (H1 : calm (with_input w rest)).
    { apply (calm_reads p0 m inp es got hooks w); [done|]. by apply (reads_only_io w [c] rest (buf w)). }
    destruct c; [by apply IH|by exists tt, (with_input w rest)].
Qed.

(** ** Handlers *)

(** A handler that only answers. *)
Definition harmless (h : wificfg_handler P) : Prop := forall method cl ct, 0 <= cl < 2 ^ 32 -> returns calm (h method cl ct 54) (fun _ => calm).

Context (content : page -> nat -> list Z).
Hypothesis Hcontent : forall p i, short (content p i).

Lemma fixed_harmless p : harmless (handle_fixed content p).
Proof.
  intros method cl ct _. eapply returns_bind; [apply write_calm|]. intros r. case_if; [by apply returns_ret|]. case_if; [|by apply returns_ret].
  apply write_steps_calm. constructor; [by apply chunk_calm|]. constructor; [apply write_calm|constructor].
Qed.

Lemma redirect_harmless : harmless handle_wificfg_redirect.
Proof. intros method cl ct _. apply write_calm. Qed.

Lemma challenge_harmless : harmless (handle_wificfg_challenge content).
Proof.
  intros method cl ct _. eapply returns_bind; [apply write_calm|]. intros r. case_if; [by apply returns_ret|]. case_if; [|by apply returns_ret].
  apply write_steps_calm. constructor; [by apply chunk_calm|]. constructor; [by apply title_calm|].
  constructor; [by apply chunk_calm|]. constructor; [apply write_calm|constructor].
Qed.

Context (pw : list Z).
Hypothesis Hlocked : m !! str "cfg_enable" = Some (true, [0]).
Hypothesis Hpassword : m !! str "cfg_password" = Some (false, pw).
Hypothesis Hwithout : without (cut0 pw) inp.

Lemma challenge_post_harmless : harmless handle_wificfg_challenge_post.
Proof.
  intros method cl ct Hcl. unfold handle_wificfg_challenge_post. case_if; [apply write_calm|].
  eapply returns_bind; [by apply get_int8_calm|]. intros enable. intros w [Hw _].
  destruct (get_string_calm p0 m inp es got hooks (str "cfg_password") ltac:(done) w Hw) as (s & w1 & E1 & H1 & ->). run E1. rewrite Hpassword. cbn [text_value].
  assert (Hform : exists w2, (if (enable =? 0) && negb (strlen (cut0 pw) =? 0) then read_form (challenge_field (cut0 pw)) cl 54 tt else ret tt) w1 = Done (tt, w2) /\ calm w2).
  { case_if; [|by exists w1]. pose proof (calm_sized p0 m inp es got hooks Hinp w1 H1) as Hs.
    destruct (ca_input _ _ _ _ _ _ w1 H1) as [used Hused]. pose proof (ca_len _ _ _ _ _ _ w1 H1) as Hl.
    assert (Hsuf : without (cut0 pw) (input w1)) by (intros a e b E2; apply (Hwithout (used ++ a) e b); by rewrite Hused, E2, <-app_assoc).
    pose proof (read_form_ok _ _ (challenge_acts (cut0 pw)) cl tt w1 (store w1) Hs Hcl) as Hrf. cbv zeta in Hrf. rewrite Hl in Hrf.
    rewrite (challenge_no_writes (cut0 pw) _ (form_fields_without (cut0 pw) _ _ _ _ Hsuf)) in Hrf.
    destruct (Hrf eq_refl) as (w2 & E2 & w3 & R & ->). exists (with_store w3 (store w1)). split; [exact E2|].
    pose proof (calm_reads _ _ _ _ _ _ _ _ H1 R) as []. pose proof (ca_holds _ _ _ _ _ _ w1 H1).
    pose proof (ca_reads _ _ _ _ _ _ w1 H1). by split. }
  destruct Hform as (w2 & E2 & H2). rewrite bind_assoc. run E2. destruct (free_calm p0 m inp es got hooks w2 H2) as ([] & w3 & E3 & H3). run E3.
  by apply write_calm.
Qed.

(** The entries of the server's own table that need no password. *)
Lemma wificfg_list_harmless index tasks : harmless tasks ->
  Forall (fun d => d_secure d = true \/ harmless (d_handler d)) (wificfg_dispatch_list content index tasks).
Proof.
  intros Ht. repeat (apply Forall_cons; split; [|]); try apply Forall_nil; try done; try (by left); right;
    first [apply fixed_harmless|apply redirect_harmless|apply challenge_harmless|apply challenge_post_harmless|exact Ht].
Qed.

Lemma find_dispatch_in (table : list (wificfg_dispatch P)) path method d : find_dispatch table path method = Some d -> d ∈ table.
Proof.
  induction table as [|d' table IH]; cbn; [done|]. case_if; [injection 1 as ->; by left|]. intros H. right. by apply IH.
Qed.

(** What is selected answers only. *)
Lemma select_calm (dispatch table : list (wificfg_dispatch P)) path method :
  Forall (fun d => d_secure d = true \/ harmless (d_handler d)) dispatch ->
  Forall (fun d => d_secure d = true \/ harmless (d_handler d)) table ->
  returns calm (select_handler content dispatch table path method)
    (fun d w => calm w /\ match d with Some d => harmless (d_handler d) | None => True end).
Proof.
  intros H1 H2. unfold select_handler. set (found := match find_dispatch dispatch path method with Some d => Some d | None => _ end).
  assert (Hf : match found with Some d => d_secure d = true \/ harmless (d_handler d) | None => True end).
  { unfold found. destruct (find_dispatch dispatch path method) as [d|] eqn:E; [apply find_dispatch_in in E; by exact (proj1 (Forall_forall _ _) H1 d E)|].
    destruct (find_dispatch table path method) as [d|] eqn:E2; [apply find_dispatch_in in E2; exact (proj1 (Forall_forall _ _) H2 d E2)|done]. }
  destruct found as [d|]; [|apply returns_ret; by intros w Hw]. case_if; [|apply returns_ret; intros w Hw; split; [done|by destruct Hf]].
  intros w Hw. destruct (get_int8_calm p0 m inp es got hooks (str "cfg_enable") 1 ltac:(done) w Hw) as (n & w1 & E1 & Hc1 & ->). run E1. rewrite Hlocked.
  destruct (get_string_calm p0 m inp es got hooks (str "cfg_password") ltac:(done) w1 Hc1) as (s & w2 & E2 & Hc2 & ->). cbn [int_value].
  rewrite bool_decide_true by done. change (default 1 (Some (s8 (le_val [0]))) =? 0) with true. cbv iota. run E2. rewrite Hpassword. cbn [text_value].
  destruct (free_calm p0 m inp es got hooks w2 Hc2) as ([] & w3 & E3 & Hc3). run E3. eexists. exists w3. split; [reflexivity|]. split; [done|].
  case_if; [apply challenge_harmless|done].
Qed.

Lemma serve_calm host dispatch table name :
  Forall (fun d => d_secure d = true \/ harmless (d_handler d)) dispatch ->
  Forall (fun d => d_secure d = true \/ harmless (d_handler d)) table ->
  returns calm (serve_request content host dispatch table name) (fun _ => calm).
Proof.
  intros H1 H2 w Hw. unfold serve_request. change HTTP_BUFFER_SIZE with 54. destruct (read_line_calm w Hw) as (r & w1 & E1 & Hc1 & Hr). run E1.
  case_if; zbool; [by exists tt, w1|]. destruct (Hr ltac:(lia)) as [R1 _].
  destruct (parse_request_calm w1 R1) as ([method path] & w2 & E2 & Hc2 & _). run E2. cbv beta iota.
  destruct (select_calm dispatch table path method H1 H2 w2 Hc2) as (d & w3 & E3 & Hc3 & Hd). run E3. erewrite bind_Done by reflexivity.
  destruct (headers_loop_calm host (S (length (input w3))) {| content_type := HTTP_CONTENT_TYPE_OTHER; connection_close := false; host_redirect := false; content_length := 0 |}
    w3 Hc3 ltac:(lia)) as (h & w4 & E4 & Hc4). run E4. case_if.
  - destruct (ipaddr_redirect_calm name w4 Hc4) as (r' & w5 & E5 & Hc5). run E5. by exists tt, w5.
  - assert (Hh : returns calm (match d with Some d => d_handler d method (u32 (content_length h)) (content_type h) 54 | None => wificfg_write_string not_found_header end) (fun _ => calm)).
    { destruct d; [apply Hd; pose proof (u32_range (content_length h)); lia|apply write_calm]. }
    destruct (Hh w4 Hc4) as (r' & w5 & E5 & Hc5). run E5. case_if; [by exists tt, w5|]. by apply drain_calm.
Qed.

End Request.

(** ** Connections *)

(** A handler that only answers, whatever the store and the connection. *)
Definition only_answers (h : wificfg_handler P) : Prop :=
  forall (p0 : P) m inp es got hooks, Z.of_nat (length inp) < 2 ^ 31 -> harmless p0 m inp es got hooks h.

(** The parameter that a first connection of the station may set. *)
Definition restarts_key : list Z := str "wifi_ap_disabled_restarts".
Definition noted (m m' : pmap) : Prop := m' = m \/ m' = <[restarts_key := (true, [1])]> m.

Record locked (m : pmap) (pw : list Z) : Prop := {
  lk_enable : m !! str "cfg_enable" = Some (true, [0]);
  lk_password : m !! str "cfg_password" = Some (false, pw);
}.

Lemma locked_noted m m' pw : locked m pw -> noted m m' -> locked m' pw.
Proof. intros [H1 H2] [->| ->]; split; try done; rewrite lookup_insert_ne; done. Qed.

Lemma noted_trans m m1 m2 : noted m m1 -> noted m1 m2 -> noted m m2.
Proof. intros [->| ->] [->| ->]; [by left|by right..|right]. apply insert_insert_eq. Qed.

(** What a connection finds and leaves. *)
Record serving (m : pmap) (es : list event) (hooks : list Z) w : Prop := {
  sv_store : exists m', holds (store w) m' /\ noted m m';
  sv_len : length (buf w) = 54%nat;
  sv_events : events w = es;
  sv_hooks : shutdown_hooks w = hooks;
}.

(** The note is accepted, or has been made. *)
Definition may_note (p : P) (got : bool) : Prop := got = true \/ admits_all p [PInt8 restarts_key 1].

Lemma got_sta_connect_calm p0 m inp es got hooks w : may_note p0 got -> calm p0 m inp es got hooks w ->
  exists w', wificfg_got_sta_connect w = Done (tt, w') /\ serving m es hooks w' /\ got_sta_connect w' = true.
Proof.
  intros Hn Hw. assert (Hsv : forall w', calm p0 m inp es true hooks w' -> serving m es hooks w' /\ got_sta_connect w' = true).
  { intros w' []. split; [|done]. split; try done. exists m. split; [done|by left]. }
  unfold wificfg_got_sta_connect. erewrite bind_Done by reflexivity. rewrite (ca_got _ _ _ _ _ _ w Hw). destruct got.
  { exists w. split; [done|by apply Hsv]. }
  destruct Hn as [Hn|Hn]; [done|]. erewrite bind_Done by reflexivity.
  assert (H1 : calm p0 m inp es true hooks (with_flags w true (shutdown_hooks w))) by by destruct Hw.
  destruct (get_int8_calm p0 m inp es true hooks (str "wifi_ap_enable") 1 ltac:(done) _ H1) as (a & w2 & E2 & H2 & _). run E2.
  case_if; [exists w2; split; [done|by apply Hsv]|].
  destruct (get_int8_calm p0 m inp es true hooks (str "wifi_ap_disable_if_sta") 1 ltac:(done) _ H2) as (b & w3 & E3 & H3 & _). run E3.
  case_if; [|exists w3; split; [done|by apply Hsv]].
  destruct (get_int8_calm p0 m inp es true hooks restarts_key 0 ltac:(done) _ H3) as (c & w4 & E4 & H4 & _). fold restarts_key. run E4.
  case_if; [|exists w4; split; [done|by apply Hsv]].
  destruct (param_set_int8 (store w4) m restarts_key 1 (ca_holds _ _ _ _ _ _ w4 H4)) as (p' & E5 & H5); [done|exact (proj1 (Hn (store w4) (ca_reads _ _ _ _ _ _ w4 H4)))|].
  exists (with_store w4 p'). split; [by apply on_store_Done|]. split; [|exact (ca_got _ _ _ _ _ _ w4 H4)].
  split; [exists (<[restarts_key := (true, [1])]> m); split; [exact H5|by right]|by destruct H4..].
Qed.

Section Turns.
Context (content : page -> nat -> list Z) (dispatch : list (wificfg_dispatch P)) (m : pmap) (pw : list Z).
Hypothesis Hcontent : forall p i, short (content p i).
Hypothesis Hlocked : locked m pw.
Hypothesis Hdispatch : Forall (fun d => d_secure d = true \/ only_answers (d_handler d)) dispatch.
Context (index tasks : wificfg_handler P).
Hypothesis Htasks : only_answers tasks.

(** The characters of a connection. *)
Definition no_password (a : arrived) : Prop :=
  Z.of_nat (length (a_input a)) < 2 ^ 31 /\ without (cut0 pw) (a_input a).

Lemma turn_locked host a es hooks w : no_password a -> may_note (store w) (got_sta_connect w) -> serving m es hooks w ->
  exists w', server_turn content host dispatch (wificfg_dispatch_list content index tasks) a w = Done (tt, w') /\
    serving m (es ++ [Close]) hooks w' /\ may_note (store w') (got_sta_connect w').
Proof.
  intros [Hi Hpw] Hn [(m' & Hm & Hm') Hl He Hh]. unfold server_turn. erewrite bind_Done by reflexivity. cbn beta.
  set (w1 := with_out _ _ _). pose proof (locked_noted m m' pw Hlocked Hm') as [L1 L2].
  assert (H1 : calm (store w) m' (a_input a) es (got_sta_connect w) hooks w1) by (split; try done; [apply reads_refl|by exists []]).
  destruct (serve_calm (store w) m' (a_input a) es (got_sta_connect w) hooks Hi content Hcontent pw L1 L2 host dispatch
    (wificfg_dispatch_list content index tasks) (a_sockname a)) with (s := w1) as ([] & w2 & E2 & H2); [| |exact H1|].
  - eapply Forall_impl; [exact Hdispatch|]. intros d [?|Hd]; [by left|right; by apply Hd].
  - apply (wificfg_list_harmless (store w) m' (a_input a) es (got_sta_connect w) hooks Hi content Hcontent pw L2 Hpw). by apply Htasks.
  - run E2. erewrite bind_Done by reflexivity. set (w3 := with_events _ _).
    assert (H3 : calm (store w) m' (a_input a) (es ++ [Close]) (got_sta_connect w) hooks w3).
    { destruct H2. split; try done. cbn. congruence. }
    case_if.
    2: { exists w3. split; [done|]. rewrite (ca_got _ _ _ _ _ _ w3 H3). split; [destruct H3; split; try done; by exists m'|].
      destruct Hn as [Hn|Hn]; [by left|right]. exact (admits_all_reads _ _ _ (ca_reads _ _ _ _ _ _ w3 H3) Hn). }
    destruct (got_sta_connect_calm _ m' _ _ _ _ w3 Hn H3) as (w4 & E4 & [(m4 & A & B) S2 S3 S4] & G4). exists w4. split; [done|].
    split; [split; try done; exists m4; split; [done|exact (noted_trans m m' m4 Hm' B)]|by left].
Qed.

Lemma loop_locked host conns : forall es hooks w,
  Forall (fun a => match a with Some a => no_password a | None => True end) conns ->
  may_note (store w) (got_sta_connect w) -> serving m es hooks w ->
  exists w', server_loop content host dispatch (wificfg_dispatch_list content index tasks) conns w = Done (tt, w') /\
    serving m (es ++ replicate (length (omap id conns)) Close) hooks w'.
Proof.
  induction conns as [|a conns IH]; intros es hooks w Hc Hn Hw; [exists w; split; [done|]; by rewrite app_nil_r|].
  apply Forall_cons in Hc as [Ha Hc]. cbn [server_loop]. destruct a as [a|].
  - destruct (turn_locked host a es hooks w Ha Hn Hw) as (w1 & E & H1 & Hn1). run E.
    destruct (IH _ _ w1 Hc Hn1 H1) as (w' & E' & H'). exists w'. split; [done|]. by rewrite <-app_assoc in H'.
  - erewrite bind_Done by reflexivity. exact (IH _ _ w Hc Hn Hw).
Qed.

(** The start of the task only reads. *)
Lemma start_calm p0 inp es got hooks a b c :
  returns (calm p0 m inp es got hooks) (server_start a b c) (fun _ => calm p0 m inp es got hooks).
Proof.
  unfold server_start. eapply returns_bind; [by apply get_string_calm|]. intros hostname. destruct hostname as [h|]; [|apply returns_ret; by intros w [? _]].
  intros w [Hw _]. destruct (get_int8_calm p0 m inp es got hooks (str "wifi_sta_mdns") 1 ltac:(done) w Hw) as (n1 & w1 & E1 & H1 & _). run E1.
  destruct (get_int8_calm p0 m inp es got hooks (str "wifi_ap_mdns") 1 ltac:(done) w1 H1) as (n2 & w2 & E2 & H2 & _). run E2.
  destruct (free_calm p0 m inp es got hooks w2 H2) as ([] & w3 & E3 & H3). run E3. by eexists _, w3.
Qed.

Lemma task_locked a b c conns w :
  Forall (fun a => match a with Some a => no_password a | None => True end) conns ->
  holds (store w) m -> length (buf w) = 54%nat -> may_note (store w) (got_sta_connect w) ->
  exists r w', server_task content a b c dispatch (wificfg_dispatch_list content index tasks) conns w = Done (r, w') /\
    serving m (events w ++ replicate (length (omap id conns)) Close) (shutdown_hooks w) w'.
Proof.
  intros Hc Hm Hl Hn. assert (H0 : calm (store w) m (input w) (events w) (got_sta_connect w) (shutdown_hooks w) w).
  { split; try done; [apply reads_refl|by exists []]. }
  destruct (start_calm (store w) _ _ _ _ a b c w H0) as ([host announced] & w1 & E & H1). unfold server_task. run E. cbv beta iota.
  assert (Hn1 : may_note (store w1) (got_sta_connect w1)).
  { rewrite (ca_got _ _ _ _ _ _ w1 H1). destruct Hn as [Hn|Hn]; [by left|right]. exact (admits_all_reads _ _ _ (ca_reads _ _ _ _ _ _ w1 H1) Hn). }
  destruct (loop_locked host conns (events w) (shutdown_hooks w) w1 Hc Hn1) as (w2 & E2 & H2).
  { destruct H1. split; try done. exists m. split; [done|by left]. }
  run E2. by exists announced, w2.
Qed.

End Turns.
End Lock.
End WificfgLock.
