(* ===== verification/WificfgParams.v ===== *)
(** * Wi-Fi configuration on the parameter store

    [core/sysparam.c], as modelled in [Sysparam], has what the pages use of a
    store ([Params]) and keeps its promises ([ParamLaws]): the map held is the
    one the store represents, and a value is admitted when the store has room
    for it.  The status of a call is not looked at. *)

From stdpp Require Import gmap strings.
From S2P Require Import Prelude CStrings Flash Sysparam SysparamLog SysparamProofs SysparamScan SysparamStore SysparamSet SysparamPairs SysparamSpec SysparamInit SysparamContract Wificfg WificfgText WificfgForms.
Open Scope Z_scope.

Section Store.
Context {F : Type} `{HF : !Flash F} `{HL : !FlashLaws F}.

(** The result without the status. *)
Definition value_only {A} (m : M (world F) (sysparam_status_t * A)) : M (world F) A :=
  let! (_, a) := m in ret a.
Definition status_ignored (m : M (world F) sysparam_status_t) : M (world F) unit :=
  let! _ := m in ret tt.

#[export] Instance sysparam_params : Params (world F) := {|
  Wificfg.sysparam_get_string k := value_only (Sysparam.sysparam_get_string k);
  Wificfg.sysparam_get_int8 k := value_only (Sysparam.sysparam_get_int8 k);
  Wificfg.sysparam_get_int32 k := value_only (Sysparam.sysparam_get_int32 k);
  Wificfg.sysparam_set_string k v := status_ignored (Sysparam.sysparam_set_string k v);
  Wificfg.sysparam_set_int8 k n := status_ignored (Sysparam.sysparam_set_int8 k n);
  Wificfg.sysparam_set_int32 k n := status_ignored (Sysparam.sysparam_set_int32 k n);
  Wificfg.free := Sysparam.free;
  Wificfg.spiflash_erase_sector a := let! _ := flash_op (Flash.spiflash_erase_sector a) in ret tt;
  Wificfg.chip_size := Flash.chip_size sdk_flashchip;
  Wificfg.sector_size := Flash.sector_size sdk_flashchip;
|}.

(** A value fits; the empty one takes no room. *)
Definition has_room (w : world F) (k v : list Z) : Prop :=
  v = [] \/ set_args k v (Z.of_nat (length v)) /\ forall es, SysparamStore.store w es -> can_set w es k (Z.of_nat (length v)).

Lemma cut0_c_string (v : list Z) : Sysparam.c_string v = WificfgText.cut0 v.
Proof. induction v as [|c v IH]; cbn; [done|]. case_if; [done|]. by rewrite IH. Qed.

(** The count of live blocks is nothing to the store. *)
Lemma heap_same w m lv : represents w m -> represents (heap_world w [] lv) m.
Proof.
  intros (Hun & Hal & es & Hst & Hkv). split; [done|]. split; [done|]. exists es. split; [|done].
  pose proof (store_relock w es (Some false) [] lv Hst) as Hr. unfold relock in Hr.
  replace (set_sem (Some false) (w_info w)) with (w_info w) in Hr; [done|]. unfold unlocked in Hun.
  destruct (w_info w). cbn in *. by subst.
Qed.

(** A write of [n] bytes. *)
Lemma set_represents w m k v b (n : Z) :
  represents w m -> 1 <= Z.of_nat (length k) <= 65535 -> has_room w k v -> n = Z.of_nat (length v) ->
  exists w', status_ignored (sysparam_set_data k (Some v) n b) w = Done (tt, w') /\ represents w' (assign k (b, v) m).
Proof.
  intros (Hun & Hal & es & Hst & Hkv) Hk Hroom ->. unfold status_ignored, assign. cbn [snd]. destruct (decide (v = [])) as [->|Hv].
  - destruct (set_data_delete w es k (Some []) 0 b Hst Hun Hk ltac:(lia) ltac:(by right)) as (w' & E & H).
    exists w'. run E. split; [done|]. rewrite bool_decide_true by done. eapply represents_update; [done..|]. intros k'.
    case_decide as Hkk; [subst; by rewrite lookup_delete_eq|by rewrite lookup_delete_ne].
  - destruct Hroom as [?|[Ha Hc]]; [done|].
    destruct (set_data_ok w es k v _ b Hst Hun Ha Hal (Hc es Hst)) as (w' & E & H).
    exists w'. run E. split; [done|]. rewrite bool_decide_false by done. eapply represents_update; [done..|]. intros k'.
    unfold val_of. rewrite Nat2Z.id, firstn_all. case_decide as Hkk; [subst; by rewrite lookup_insert_eq|by rewrite lookup_insert_ne].
Qed.

(** Reads of numbers. *)
Lemma int_value_of n sgn (o : option (bool * list Z)) : snd (int_of (Z.of_nat n) o sgn) = int_value n sgn o.
Proof.
  destruct o as [[[] v]|]; cbn; [|done..]. destruct (decide (length v = n)) as [->|H].
  - by rewrite Z.eqb_refl, bool_decide_true.
  - rewrite (proj2 (Z.eqb_neq _ _)) by lia. by rewrite bool_decide_false.
Qed.

Lemma same_reads (w : world F) : exists lv, w = heap_world w (w_alloc w) lv.
Proof. exists (w_live w). symmetry. apply heap_world_same. Qed.

#[export] Program Instance sysparam_laws : ParamLaws (world F) := {|
  holds := represents;
  admits := has_room;
  reads w w' := exists lv, w' = heap_world w (w_alloc w) lv;
|}.
Next Obligation. intros w. apply same_reads. Qed.
Next Obligation. intros w w1 w2 [lv1 ->] [lv2 ->]. by exists lv2. Qed.
Next Obligation.
  intros w m k H Hk. pose proof H as (Hun & Hal & es & Hst & Hkv).
  destruct (get_string_ok w es k Hst Hun Hk Hal) as (w' & E & ->). set (lv := _ + _) in E.
  exists (heap_world w [] lv). cbn [Wificfg.sysparam_get_string sysparam_params]. split; [|split; [by apply heap_same|exists lv; by rewrite Hal]].
  unfold value_only. run E. rewrite Hkv. destruct (m !! k) as [[[] v]|]; cbn; [done| |done]. unfold ret. by rewrite cut0_c_string.
Qed.
Next Obligation.
  intros w m k H Hk. pose proof H as (Hun & Hal & es & Hst & Hkv). exists w. cbn [Wificfg.sysparam_get_int8 sysparam_params].
  split; [|split; [done|apply same_reads]].
  unfold value_only. run (get_int8_ok w es k Hst Hun Hk). rewrite Hkv, <-(int_value_of 1 s8). by destruct (int_of _ _ _).
Qed.
Next Obligation.
  intros w m k H Hk. pose proof H as (Hun & Hal & es & Hst & Hkv). exists w. cbn [Wificfg.sysparam_get_int32 sysparam_params].
  split; [|split; [done|apply same_reads]].
  unfold value_only. run (get_int32_ok w es k Hst Hun Hk). rewrite Hkv, <-(int_value_of 4 s32). by destruct (int_of _ _ _).
Qed.
Next Obligation.
  intros w m H. pose proof H as (_ & Hal & _). eexists. split; [reflexivity|].
  split; [rewrite Hal; exact (heap_same w m (w_live w - 1) H)|by exists (w_live w - 1)].
Qed.
Next Obligation. intros w m k v H Hk Ha. by apply set_represents. Qed.
Next Obligation. intros w m k n H Hk Ha. apply set_represents; [done..|]. by rewrite length_le_bytes. Qed.
Next Obligation. intros w m k n H Hk Ha. apply set_represents; [done..|]. by rewrite length_le_bytes. Qed.

End Store.

(** * Wi-Fi configuration: a store that is a map

    The map of parameters as a store of its own, with room for everything:
    the least store that keeps the promises of [ParamLaws]. *)

Module WificfgMap.
Import CLib Wificfg WificfgText WificfgForms.

#[export] Instance map_params : Params pmap := {|
  sysparam_get_string k := fun m => Done (text_value (m !! k), m);
  sysparam_get_int8 k := fun m => Done (int_value 1 s8 (m !! k), m);
  sysparam_get_int32 k := fun m => Done (int_value 4 s32 (m !! k), m);
  sysparam_set_string k v := modify (assign k (false, v));
  sysparam_set_int8 k n := modify (assign k (true, le_bytes 1 n));
  sysparam_set_int32 k n := modify (assign k (true, le_bytes 4 n));
  free := ret tt;
  spiflash_erase_sector _ := ret tt;
  chip_size := 0x400000;
  sector_size := 4096;
|}.

#[export] Program Instance map_laws : ParamLaws pmap := {| holds := eq; admits _ _ _ := True; reads := eq |}.
Next Obligation. done. Qed.
Next Obligation. by intros p q r -> ->. Qed.
Next Obligation. intros p m k -> _. by exists m. Qed.
Next Obligation. intros p m k -> _. by exists m. Qed.
Next Obligation. intros p m k -> _. by exists m. Qed.
Next Obligation. intros p m ->. by exists m. Qed.
Next Obligation. intros p m k v -> _ _. by eexists. Qed.
Next Obligation. intros p m k v -> _ _. by eexists. Qed.
Next Obligation. intros p m k v -> _ _. by eexists. Qed.

Lemma map_admits (ws : list param_write) : forall p : pmap, admits_all p ws.
Proof. induction ws as [|x ws IH]; intros p; [done|]. intros p1 _. split; [exact I|]. intros p' _. apply IH. Qed.

End WificfgMap.
