(* ===== verification/WificfgInit.v ===== *)
(** * Wi-Fi configuration: [extras/wificfg/wificfg.c], the start

    [wificfg_init]: defaults are stored, the counters of restarts go down, the
    parameters are validated and handed to the SDK, the DHCP server and the
    tasks.  The SDK is a log of calls; the MAC address, [ipaddr_addr] of lwIP
    and what uninitialised memory holds are arguments. *)

From stdpp Require Import strings.
From S2P Require Import Prelude CStrings Wificfg WificfgPages WificfgServer.
Open Scope Z_scope.

Module WificfgInit.
Import CLib Wificfg WificfgPages.

Definition NULL_MODE : Z := 0.
Definition STATION_MODE : Z := 1.
Definition SOFTAP_MODE : Z := 2.
Definition STATIONAP_MODE : Z := 3.
Definition STATION_IF : Z := 0.

(** [struct sdk_softap_config]; the name and the password are bytes. *)
Record sdk_softap_config := {
  ssid_password : list Z;
  ssid_len : Z;
  channel : Z;
  authmode : Z;
  config_hidden : Z;
  max_connection : Z;
  beacon_interval : Z;
}.

(** What is called, with the values handed over; of [struct sdk_station_config]
    the bytes of [ssid] and [password]. *)
Inductive sdk_call :=
| Set_opmode (mode : Z)
| Station_dhcpc_stop
| Set_ip_info (interface ip netmask gw : Z)
| Station_set_config (ssid_password : list Z)
| Softap_set_config (config : sdk_softap_config)
| Dhcpserver_start (first_client_ip max_leases : Z)
| Dhcpserver_set_router (ip : Z)
| Dhcpserver_set_dns (ip : Z)
| Create_dns_task
| Create_server_task (port : Z).

(** The default texts, made of the last bytes of the MAC address. *)
Definition upper (c : Z) : Z := if (97 <=? c) && (c <=? 122) then c - 32 else c.
Definition print_02x (n : Z) : list Z := if n <? 16 then 48 :: print_x n else print_x n.
Definition print_02X (n : Z) : list Z := upper <$> print_02x n.

Definition wificfg_default_ssid (a b c : Z) : list Z := str "EOR_" ++ print_02X a ++ print_02X b ++ print_02X c.
Definition wificfg_default_password : list Z := str "esp-open-rtos".
Definition wificfg_default_hostname (a b c : Z) : list Z := str "eor-" ++ print_02x a ++ print_02x b ++ print_02x c.

(** An application may change the defaults or leave them out. *)
Record defaults := {
  default_ssid : option (Z -> Z -> Z -> list Z);
  default_password : option (list Z);
  default_hostname : option (Z -> Z -> Z -> list Z);
}.
Definition own_defaults : defaults :=
  {| default_ssid := Some wificfg_default_ssid; default_password := Some wificfg_default_password;
     default_hostname := Some wificfg_default_hostname |}.

Section Init.
Context {P : Type} `{!Params P}.
Context (ds : defaults) (macaddr : list Z) (ipaddr_addr : list Z -> Z) (memory : list Z).

Record boot := { params : P; calls : list sdk_call }.

Definition on_params {A} (m : M P A) : M boot A := fun b =>
  match m (params b) with
  | Done (a, p) => Done (a, {| params := p; calls := calls b |})
  | OutOfFuel => OutOfFuel
  | Undefined => Undefined
  end.

Definition call (c : sdk_call) : M boot unit := modify (fun b => {| params := params b; calls := calls b ++ [c] |}).

Definition param_int8 (key : list Z) (default_ : Z) : M boot Z :=
  let! v := on_params (sysparam_get_int8 key) in ret (default default_ v).
Definition param_string (key : list Z) : M boot (option (list Z)) := on_params (sysparam_get_string key).
Definition free_string (s : option (list Z)) : M boot unit :=
  match s with Some _ => on_params free | None => ret tt end.

(** The text of a format in a buffer of 32 bytes. *)
Definition formatted (f : Z -> Z -> Z -> list Z) : list Z :=
  snprintf 32 (f (nth 3 macaddr 0) (nth 4 macaddr 0) (nth 5 macaddr 0)).

Definition init_hostname : M boot unit :=
  let! hostname := param_string (str "hostname") in
  do! (match hostname, default_hostname ds with
       | None, Some f => on_params (sysparam_set_string (str "hostname") (formatted f))
       | _, _ => ret tt
       end) then
  free_string hostname.

(** A restart is counted; while there are some left the interface is off. *)
Definition count_restart (key : list Z) (enable : Z) : M boot Z :=
  let! restarts := param_int8 key 0 in
  if 0 <? restarts then
    do! on_params (sysparam_set_int8 key (restarts - 1)) then
    ret 0
  else ret enable.

(** The length of a string, if there is one, is in a range. *)
Definition length_within (s : option (list Z)) (low high : Z) : bool :=
  match s with Some s => (low <=? strlen s) && (strlen s <=? high) | None => false end.

Definition default_ap (ssid password : option (list Z)) : M boot (option (list Z) * option (list Z)) :=
  match ssid, default_ssid ds with
  | None, Some f =>
    do! on_params (sysparam_set_string (str "wifi_ap_ssid") (formatted f)) then
    let! ssid := param_string (str "wifi_ap_ssid") in
    match password, default_password ds with
    | None, Some text =>
      do! on_params (sysparam_set_string (str "wifi_ap_password") text) then
      let! password := param_string (str "wifi_ap_password") in
      ret (ssid, password)
    | _, _ => ret (ssid, password)
    end
  | _, _ => ret (ssid, password)
  end.

(** [strcpy] to the fields [ssid] and [password]; the terminator of a name of
    32 characters falls on the password, which is copied behind. *)
Definition copy_ssid_password (block ssid password : list Z) : option (list Z) :=
  block ← put_at block 0 (ssid ++ [0]);
  put_at block 32 (password ++ [0]).

Definition start_station (ssid password : list Z) : M boot unit :=
  let! config := deref (copy_ssid_password memory ssid password) in
  let! wifi_sta_dhcp := param_int8 (str "wifi_sta_dhcp") 1 in
  do! (if wifi_sta_dhcp =? 0 then
         let! ip_addr := param_string (str "wifi_sta_ip_addr") in
         let! netmask := param_string (str "wifi_sta_netmask") in
         let! gateway := param_string (str "wifi_sta_gateway") in
         do! (match ip_addr, netmask, gateway with
              | Some a, Some n, Some g =>
                if (4 <? strlen a) && (4 <? strlen n) && (4 <? strlen g) then
                  do! call Station_dhcpc_stop then
                  call (Set_ip_info STATION_IF (ipaddr_addr a) (ipaddr_addr n) (ipaddr_addr g))
                else ret tt
              | _, _, _ => ret tt
              end) then
         do! free_string ip_addr then
         do! free_string netmask then
         free_string gateway
       else ret tt) then
  call (Station_set_config config).

(** The string is stored if there is none, and read again. *)
Definition string_or (key text : list Z) : M boot (option (list Z)) :=
  let! s := param_string key in
  match s with
  | Some _ => ret s
  | None => do! on_params (sysparam_set_string key text) then param_string key
  end.

Definition valid_hidden (n : Z) : Z := if (n <? 0) || (1 <? n) then 1 else n.
Definition valid_channel (n : Z) : Z :=
  let n := if 13 <? n then 13 else n in
  if (n <? 1) || (14 <? n) then 6 else n.
Definition valid_authmode (n : Z) : Z :=
  if negb (n =? AUTH_OPEN) && negb (n =? AUTH_WPA_PSK) && negb (n =? AUTH_WPA2_PSK) && negb (n =? AUTH_WPA_WPA2_PSK)
  then AUTH_WPA_WPA2_PSK else n.
Definition valid_max_conn (n : Z) : Z := if (n <? 1) || (8 <? n) then 3 else n.
Definition valid_beacon_interval (n : Z) : Z := if (n <? 0) || (1000 <? n) then 100 else n.
Definition valid_dns (n : Z) : Z := if (n <? 0) || (1 <? n) then 1 else n.

(** [htonl(1)] *)
Definition htonl_1 : Z := 0x01000000.

Definition start_dhcp_server (ip : Z) : M boot unit :=
  let! wifi_ap_dhcp_leases := param_int8 (str "wifi_ap_dhcp_leases") 4 in
  if wifi_ap_dhcp_leases =? 0 then ret tt
  else
    let! wifi_ap_dns := param_int8 (str "wifi_ap_dns") 1 in
    do! call (Dhcpserver_start (u32 (ip + htonl_1)) (u8 wifi_ap_dhcp_leases)) then
    do! call (Dhcpserver_set_router ip) then
    if valid_dns wifi_ap_dns =? 0 then ret tt
    else
      do! call (Dhcpserver_set_dns ip) then
      call Create_dns_task.

Definition start_ap (ssid password : list Z) : M boot unit :=
  let! wifi_ap_ssid_hidden := param_int8 (str "wifi_ap_ssid_hidden") 0 in
  let! wifi_ap_channel := param_int8 (str "wifi_ap_channel") 6 in
  let! wifi_ap_authmode := param_int8 (str "wifi_ap_authmode") AUTH_WPA_WPA2_PSK in
  let! wifi_ap_max_conn := param_int8 (str "wifi_ap_max_conn") 3 in
  let! interval := on_params (sysparam_get_int32 (str "wifi_ap_beacon_interval")) in
  let wifi_ap_beacon_interval := default 100 interval in
  let! ip_addr := string_or (str "wifi_ap_ip_addr") (str "172.16.0.1") in
  let! netmask := string_or (str "wifi_ap_netmask") (str "255.255.0.0") in
  let! a := deref ip_addr in
  do! (if 7 <=? strlen a then
         let! n := deref netmask in
         if 7 <=? strlen n then
           let ip := ipaddr_addr a in
           do! call (Set_ip_info 1 ip (ipaddr_addr n) 0) then
           let! block := deref (copy_ssid_password (replicate 96 0) ssid password) in
           do! call (Softap_set_config
             {| ssid_password := block; ssid_len := u8 (strlen ssid); channel := u8 (valid_channel wifi_ap_channel);
                authmode := valid_authmode wifi_ap_authmode; config_hidden := u8 (valid_hidden wifi_ap_ssid_hidden);
                max_connection := u8 (valid_max_conn wifi_ap_max_conn);
                beacon_interval := u16 (valid_beacon_interval wifi_ap_beacon_interval) |}) then
           start_dhcp_server ip
         else ret tt
       else ret tt) then
  do! free_string ip_addr then
  free_string netmask.

Definition wifi_mode (sta_enable ap_enable : bool) : Z :=
  if sta_enable && ap_enable then STATIONAP_MODE
  else if sta_enable then STATION_MODE
  else if ap_enable then SOFTAP_MODE
  else NULL_MODE.

Definition wificfg_init (sysparam_ok malloc_ok : bool) (port : Z) : M boot unit :=
  if negb sysparam_ok then ret tt
  else
    do! init_hostname then
    let! ap_ssid := param_string (str "wifi_ap_ssid") in
    let! ap_password := param_string (str "wifi_ap_password") in
    let! sta_ssid := param_string (str "wifi_sta_ssid") in
    let! sta_password := param_string (str "wifi_sta_password") in
    let! sta_enable := param_int8 (str "wifi_sta_enable") 1 in
    let! ap_enable := param_int8 (str "wifi_ap_enable") 1 in
    let! sta_enable := count_restart (str "wifi_sta_disabled_restarts") sta_enable in
    let! ap_enable := count_restart (str "wifi_ap_disabled_restarts") ap_enable in
    let sta_on := negb (sta_enable =? 0) && (length_within sta_ssid 1 32 && length_within sta_password 8 63) in
    let! (ap_ssid, ap_password) := if negb (ap_enable =? 0) then default_ap ap_ssid ap_password else ret (ap_ssid, ap_password) in
    let ap_on := negb (ap_enable =? 0) && (length_within ap_ssid 1 31 && length_within ap_password 8 63) in
    do! call (Set_opmode (wifi_mode sta_on ap_on)) then
    do! (match sta_ssid, sta_password with
         | Some ssid, Some password => if sta_on then start_station ssid password else ret tt
         | _, _ => ret tt
         end) then
    do! (match ap_ssid, ap_password with
         | Some ssid, Some password => if ap_on then start_ap ssid password else ret tt
         | _, _ => ret tt
         end) then
    do! free_string sta_ssid then
    do! free_string sta_password then
    do! free_string ap_ssid then
    do! free_string ap_password then
    if wifi_mode sta_on ap_on =? NULL_MODE then ret tt
    else if malloc_ok then call (Create_server_task port) else undefined.

End Init.
Arguments boot P : clear implicits.
End WificfgInit.

(** * Wi-Fi configuration: [extras/wificfg/wificfg.c], the pages with states

    The start page and the list of tasks.  What the SDK, lwIP and the kernel
    return at that time is an argument. *)

Module WificfgStatus.
Import CLib Wificfg WificfgPages WificfgServer WificfgInit.

(** Four bytes of an address. *)
Record ip4 := { ip4_1 : Z; ip4_2 : Z; ip4_3 : Z; ip4_4 : Z }.

Definition IPSTR (a : ip4) : list Z := ip_text (ip4_1 a) (ip4_2 a) (ip4_3 a) (ip4_4 a).

(** The bytes of a hardware address with colons between them. *)
Fixpoint MACSTR (hwaddr : list Z) : list Z :=
  match hwaddr with
  | [] => []
  | [b] => print_02x b
  | b :: hwaddr => print_02x b ++ str ":" ++ MACSTR hwaddr
  end.

Definition print_08x (n : Z) : list Z := replicate (8 - length (print_x n)) 48 ++ print_x n.

(** What is known of an interface. *)
Record interface := {
  macaddr : option (list Z);
  ip_info : option (ip4 * ip4 * ip4);
  ip6_addresses : list (list Z);
}.

Record system := {
  chip_id : Z;
  uptime : Z;
  free_heap : Z;
  flash_id : Z;
  versions : list Z * list Z * list Z;
  sleep_type : Z;
  opmode : Z;
  wifi_channel : Z;
  phy_mode : Z;
  station : interface;
  softap : interface;
  peer : sockaddr;
  peer_port : Z;
}.

Definition sleep_type_str (n : Z) : list Z :=
  if n =? 0 then str "None" else if n =? 1 then str "Light" else if n =? 2 then str "Modem" else str "??".
Definition opmode_str (n : Z) : list Z :=
  if n =? NULL_MODE then str "Null" else if n =? STATION_MODE then str "Station"
  else if n =? SOFTAP_MODE then str "SoftAP" else if n =? STATIONAP_MODE then str "StationAP" else str "??".
Definition phy_mode_str (n : Z) : list Z :=
  if n =? 1 then str "11b" else if n =? 2 then str "11g" else if n =? 3 then str "11n" else str "??".

(** [eTaskState] and [TaskStatus_t] *)
Record task_status := {
  pcTaskName : list Z;
  xTaskNumber : Z;
  eCurrentState : Z;
  uxCurrentPriority : Z;
  uxBasePriority : Z;
  ulRunTimeCounter : Z;
  usStackHighWaterMark : Z;
}.

Definition cStatus (state : Z) : list Z :=
  if state =? 0 then str "*" else if state =? 1 then str "R" else if state =? 2 then str "B"
  else if state =? 3 then str "S" else if state =? 4 then str "D" else str "?".

Section Status.
Context {P : Type} `{!Params P}.
Context (content : page -> nat -> list Z).

Definition write_ip4 (len : Z) (what : list Z) (a : ip4) : list (M (web P) Z) :=
  [chunk len (str "<dt>" ++ what ++ str "</dt>"); chunk_text len (str "<dd>" ++ IPSTR a ++ str "</dd>")].

(** The part of the page for an interface, with its name. *)
Definition write_interface (len : Z) (name : list Z) (i : interface) : M (web P) Z :=
  write_steps (
    match macaddr i with
    | Some hwaddr => [chunk len (str "<dt>" ++ name ++ str " MAC address</dt>"); chunk_text len (str "<dd>" ++ MACSTR hwaddr ++ str "</dd>")]
    | None => []
    end ++
    match ip_info i with
    | Some (ip, netmask, gw) =>
      write_ip4 len (name ++ str " IP address") ip ++ write_ip4 len (name ++ str " netmask") netmask ++ write_ip4 len (name ++ str " gateway") gw
    | None => []
    end ++
    concat ((fun addr6 => [chunk len (str "<dt>" ++ name ++ str " IPv6</dt><dd>"); chunk_text len addr6; chunk len (str "</dd>")]) <$> ip6_addresses i)).

Definition write_peer (len : Z) (sys : system) : M (web P) Z :=
  let port := print_u (peer_port sys) in
  match peer sys with
  | Inet a b c d =>
    write_steps [chunk len (str "<dt>Peer address</dt>"); chunk_text len (str "<dd>" ++ ip_text a b c d ++ str ", port " ++ port ++ str "</dd>")]
  | Inet6Mapped a b c d =>
    write_steps [chunk len (str "<dt>Peer address</dt><dd>"); chunk_text len (ip_text a b c d); chunk_text len (str ", port " ++ port ++ str "</dd>")]
  | Inet6 text =>
    write_steps [
      chunk len (str "<dt>Peer address</dt><dd>");
      match text with Some text => chunk_text len text | None => ret 0 end;
      chunk_text len (str ", port " ++ port ++ str "</dd>")]
  | NoName => ret 0
  end.

(** The name of the board, if it has one. *)
Definition write_hostname (len : Z) : M (web P) Z :=
  let! hostname := on_store (sysparam_get_string (str "hostname")) in
  match hostname with
  | Some hostname =>
    let! r := chunk len (str "<dt>Hostname</dt><dd>") in
    if r <? 0 then do! on_store free then ret (-1)
    else write_steps [chunk_escaped len hostname; chunk len (str "</dd>")]
  | None => ret 0
  end.

Definition handle_wificfg_index (sys : system) : wificfg_handler P := fun method _ _ len =>
  let c := content index_html in
  let '(lwip, freertos, newlib) := versions sys in
  let mode := opmode sys in
  html_page method [
    chunk len (c 0%nat);
    wificfg_write_html_title len (Some (str "Wifi Config"));
    chunk len (c 1%nat);
    write_hostname len;
    chunk_text len (str "<dt>Chip ID</dt><dd>" ++ print_08x (chip_id sys) ++ str "</dd>");
    chunk_text len (str "<dt>Uptime</dt><dd>" ++ print_u (uptime sys) ++ str " seconds</dd>");
    chunk_text len (str "<dt>Free heap</dt><dd>" ++ print_u (free_heap sys) ++ str " bytes</dd>");
    chunk_text len (str "<dt>Flash ID</dt><dd>0x" ++ print_08x (flash_id sys) ++ str "</dd>");
    chunk_text len (str "<dt>Flash size</dt><dd>" ++ print_u (Z.shiftr chip_size 10) ++ str " KiB</dd>");
    chunk len (str "<dt>LwIP version</dt><dd>" ++ lwip ++ str "</dd>");
    chunk len (str "<dt>FreeRTOS version</dt><dd>" ++ freertos ++ str "</dd>");
    chunk len (str "<dt>Newlib version</dt><dd>" ++ newlib ++ str "</dd>");
    chunk_text len (str "<dt>WiFi sleep type</dt><dd>" ++ sleep_type_str (sleep_type sys) ++ str "</dd>");
    chunk_text len (str "<dt>OpMode</dt><dd>" ++ opmode_str mode ++ str "</dd>");
    (if NULL_MODE <? mode then
       write_steps [
         chunk_text len (str "<dt>WiFi channel</dt><dd>" ++ print_u (wifi_channel sys) ++ str "</dd>");
         chunk_text len (str "<dt>WiFi physical mode</dt><dd>" ++ phy_mode_str (phy_mode sys) ++ str "</dd>")]
     else ret 0);
    (if (mode =? STATION_MODE) || (mode =? STATIONAP_MODE) then write_interface len (str "Station") (station sys) else ret 0);
    (if (mode =? SOFTAP_MODE) || (mode =? STATIONAP_MODE) then write_interface len (str "AP") (softap sys) else ret 0);
    write_peer len sys;
    chunk len (c 2%nat);
    chunk_param len (str "cfg_password");
    chunk len (c 3%nat);
    wificfg_write_chunk_end].

(** ** The tasks *)

Definition write_task (len : Z) (t : task_status) : M (web P) Z :=
  write_steps [
    chunk_text len (str "<tr><th>" ++ pcTaskName t ++ str "</th>");
    chunk_text len (str "<td>" ++ print_u (xTaskNumber t) ++ str "</td><td>" ++ cStatus (eCurrentState t) ++ str "</td>");
    chunk_text len (str "<td>" ++ print_u (uxCurrentPriority t) ++ str "</td><td>" ++ print_u (uxBasePriority t) ++ str "</td>");
    chunk_text len (str "<td>" ++ print_u (ulRunTimeCounter t) ++ str "</td><td>" ++ print_u (usStackHighWaterMark t) ++ str "</td></tr>")].

(** [tasks] is [None] when there is no memory for the list. *)
Definition handle_tasks (tasks : option (list task_status)) : wificfg_handler P := fun method _ _ len =>
  let c := content tasks_html in
  html_page method [
    chunk len (c 0%nat);
    wificfg_write_html_title len (Some (str "Tasks"));
    chunk len (c 1%nat);
    match tasks with
    | Some tasks =>
      write_steps (
        chunk len (str "<table><tr><th>Task name</th><th>Task number</th><th>Status</th><th>Priority</th><th>Base priority</th><th>Runtime</th><th>Stack high-water</th></tr>") ::
        (write_task len <$> tasks) ++ [chunk len (str "</table>")])
    | None => ret 0
    end;
    chunk len (c 2%nat);
    wificfg_write_chunk_end].

End Status.
End WificfgStatus.
