(* ===== verification/WificfgBoot.v ===== *)
(** * Wi-Fi configuration: what a start does

    The parameters a start stores ([init_writes]) and when it turns the
    station and the access point on, as functions of the parameters, and that
    [wificfg_init] does that with valid configurations. *)

From stdpp Require Import gmap strings.
From S2P Require Import Prelude CStrings Wificfg WificfgPages WificfgText WificfgForms WificfgParams WificfgInit.
Open Scope Z_scope.

Module WificfgBoot.
Import CLib Wificfg WificfgPages WificfgText WificfgOut WificfgForms WificfgInit.

(** ** The parameters *)

Definition int8_of (m : pmap) (k : list Z) (d : Z) : Z := default d (int_value 1 s8 (m !! k)).
Definition str_of (m : pmap) (k : list Z) : option (list Z) := text_value (m !! k).

(** What is read of a text that has been stored. *)
Definition stored (t : list Z) : option (list Z) := if bool_decide (t = []) then None else Some (cut0 t).

Lemma assigned_app ws1 ws2 m : assigned (ws1 ++ ws2) m = assigned ws2 (assigned ws1 m).
Proof. unfold assigned. by rewrite foldl_app. Qed.

Lemma assigned_ne ws m k : Forall (fun x => write_key x <> k) ws -> assigned ws m !! k = m !! k.
Proof.
  revert m. induction ws as [|x ws IH]; intros m H; [done|]. apply Forall_cons in H as [Hx H]. cbn [assigned foldl].
  change (assigned ws (assign (write_key x) (write_value x) m) !! k = m !! k). rewrite IH by done. unfold assign.
  case_bool_decide; [by rewrite lookup_delete_ne|by rewrite lookup_insert_ne].
Qed.

Lemma str_of_stored m k t : str_of (assigned [PString k t] m) k = stored t.
Proof.
  unfold str_of, stored, assigned, assign. cbn [foldl write_key write_value snd]. case_bool_decide; [by rewrite lookup_delete_eq|].
  by rewrite lookup_insert_eq.
Qed.

(** The keys of a start. *)
Definition restarts_of (sta : bool) : list Z := if sta then str "wifi_sta_disabled_restarts" else str "wifi_ap_disabled_restarts".
Definition enable_of (sta : bool) : list Z := if sta then str "wifi_sta_enable" else str "wifi_ap_enable".

(** Is an interface asked for and not off for some restarts? *)
Definition requested (sta : bool) (m : pmap) : bool :=
  negb ((if 0 <? int8_of m (restarts_of sta) 0 then 0 else int8_of m (enable_of sta) 1) =? 0).

Definition count_writes (k : list Z) (m : pmap) : list param_write :=
  let n := int8_of m k 0 in if 0 <? n then [PInt8 k (n - 1)] else [].

Definition text_writes (k t : list Z) (m : pmap) : list param_write :=
  match str_of m k with Some _ => [] | None => [PString k t] end.

Section Boot.
Context (ds : defaults) (macaddr : list Z).

Definition hostname_writes (m : pmap) : list param_write :=
  match str_of m (str "hostname"), default_hostname ds with
  | None, Some f => [PString (str "hostname") (formatted macaddr f)]
  | _, _ => []
  end.

(** The name and the password of the access point, after defaults. *)
Definition default_writes (ssid password : option (list Z)) : list param_write :=
  match ssid, default_ssid ds with
  | None, Some f =>
    PString (str "wifi_ap_ssid") (formatted macaddr f) ::
    match password, default_password ds with
    | None, Some t => [PString (str "wifi_ap_password") t]
    | _, _ => []
    end
  | _, _ => []
  end.

Definition default_values (ssid password : option (list Z)) : option (list Z) * option (list Z) :=
  match ssid, default_ssid ds with
  | None, Some f =>
    (stored (formatted macaddr f),
     match password, default_password ds with
     | None, Some t => stored t
     | _, _ => password
     end)
  | _, _ => (ssid, password)
  end.

Definition ap_values (m : pmap) : option (list Z) * option (list Z) :=
  let ssid := str_of m (str "wifi_ap_ssid") in
  let password := str_of m (str "wifi_ap_password") in
  if requested false m then default_values ssid password else (ssid, password).

Definition sta_on (m : pmap) : bool :=
  requested true m && (length_within (str_of m (str "wifi_sta_ssid")) 1 32 && length_within (str_of m (str "wifi_sta_password")) 8 63).
Definition ap_on (m : pmap) : bool :=
  requested false m && (length_within (fst (ap_values m)) 1 31 && length_within (snd (ap_values m)) 8 63).

Definition ap_defaults (m : pmap) : list param_write :=
  if requested false m then default_writes (str_of m (str "wifi_ap_ssid")) (str_of m (str "wifi_ap_password")) else [].
Definition ip_writes (m : pmap) : list param_write :=
  text_writes (str "wifi_ap_ip_addr") (str "172.16.0.1") m ++ text_writes (str "wifi_ap_netmask") (str "255.255.0.0") m.

Definition init_writes (m : pmap) : list param_write :=
  hostname_writes m ++ count_writes (restarts_of true) m ++ count_writes (restarts_of false) m ++ ap_defaults m ++
  (if ap_on m then ip_writes m else []).

(** ** Valid configurations *)

(** The text in a field of bytes. *)
Definition field (block : list Z) (off size : nat) : list Z := cut0 (take size (drop off block)).

(** Does the text in a field have its terminator there? *)
Definition terminated (block : list Z) (off size : nat) : Prop := 0 ∈ take size (drop off block).

(** The two names in the block of a configuration.  The password is
    terminated; the SSID is when it is shorter than its field, and a name of
    all 32 characters is not. *)
Definition names_of (block : list Z) (ssid password : option (list Z)) : Prop :=
  ssid = Some (field block 0 32) /\ password = Some (field block 32 64) /\
  (terminated block 0 32 <-> strlen (field block 0 32) < 32) /\ terminated block 32 64.

(** What the SDK and the DHCP server are given. *)
Definition valid_call (m : pmap) (c : sdk_call) : Prop :=
  match c with
  | Station_set_config block =>
    sta_on m = true /\ names_of block (str_of m (str "wifi_sta_ssid")) (str_of m (str "wifi_sta_password"))
  | Softap_set_config c =>
    ap_on m = true /\ names_of (ssid_password c) (fst (ap_values m)) (snd (ap_values m)) /\ ssid_len c = strlen (field (ssid_password c) 0 32) /\
    1 <= channel c <= 13 /\ authmode c ∈ [AUTH_OPEN; AUTH_WPA_PSK; AUTH_WPA2_PSK; AUTH_WPA_WPA2_PSK] /\
    0 <= config_hidden c <= 1 /\ 1 <= max_connection c <= 8 /\ 0 <= beacon_interval c <= 1000
  | Dhcpserver_start ip n => ap_on m = true /\ 1 <= n <= 255
  | Set_opmode _ | Create_server_task _ => False
  | _ => True
  end.

End Boot.

(** ** The calculus *)

Section Runs.
Context {P : Type} `{HP : Params P} {PL : ParamLaws P}.

(** From parameters [m], with the writes [ws] admitted, [f] returns, makes
    these writes, and its result and its calls satisfy [Q]. *)
Definition runs {A : Type} (m : pmap) (ws : list param_write) (f : M (boot P) A) (Q : A -> list sdk_call -> Prop) : Prop :=
  forall rest b, holds (params b) m -> admits_all (params b) (ws ++ rest) ->
  exists a b' cs, f b = Done (a, b') /\ holds (params b') (assigned ws m) /\ admits_all (params b') rest /\
    calls b' = calls b ++ cs /\ Q a cs.

Lemma runs_bind {A B : Type} m ws1 ws2 (f : M (boot P) A) (k : A -> M (boot P) B) Q R :
  runs m ws1 f Q -> (forall a cs, Q a cs -> runs (assigned ws1 m) ws2 (k a) (fun b cs' => R b (cs ++ cs'))) ->
  runs m (ws1 ++ ws2) (bind f k) R.
Proof.
  intros Hf Hk rest b Hb Ha. rewrite <-app_assoc in Ha. destruct (Hf _ b Hb Ha) as (a & b1 & cs & E & H1 & A1 & C1 & Q1). run E.
  destruct (Hk a cs Q1 rest b1 H1 A1) as (x & b2 & cs' & E2 & H2 & A2 & C2 & Q2). exists x, b2, (cs ++ cs'). rewrite assigned_app.
  split; [done|]. split; [done|]. split; [done|]. by rewrite C2, C1, app_assoc.
Qed.

(** A step that stores and calls nothing. *)
Lemma runs_read {A B : Type} m ws (f : M (boot P) A) (k : A -> M (boot P) B) a R :
  runs m [] f (fun x cs => x = a /\ cs = []) -> runs m ws (k a) R -> runs m ws (bind f k) R.
Proof. intros Hf Hk. apply (runs_bind m [] ws f k _ R Hf). by intros ? ? [-> ->]. Qed.

Lemma runs_ret {A : Type} m (a : A) (Q : A -> list sdk_call -> Prop) : Q a [] -> runs m [] (ret a) Q.
Proof. intros H rest b Hb Ha. exists a, b, []. by rewrite app_nil_r. Qed.

Lemma runs_weaken {A : Type} m ws (f : M (boot P) A) (Q R : A -> list sdk_call -> Prop) : runs m ws f Q -> (forall a cs, Q a cs -> R a cs) -> runs m ws f R.
Proof. intros Hf H rest b Hb Ha. destruct (Hf rest b Hb Ha) as (a & b' & cs & ? & ? & ? & ? & ?). exists a, b', cs. eauto 6. Qed.

Lemma runs_call m c : runs m [] (call c) (fun _ cs => cs = [c]).
Proof. intros rest b Hb Ha. by exists tt, {| params := params b; calls := calls b ++ [c] |}, [c]. Qed.

Lemma on_params_Done {A : Type} (f : M P A) b a p : f (params b) = Done (a, p) -> on_params f b = Done (a, {| params := p; calls := calls b |}).
Proof. unfold on_params. by intros ->. Qed.

Lemma runs_on_params {A : Type} m (f : M P A) a :
  (forall p, holds p m -> exists p', f p = Done (a, p') /\ holds p' m /\ reads p p') -> runs m [] (on_params f) (fun x cs => x = a /\ cs = []).
Proof.
  intros H rest b Hb Ha. destruct (H (params b) Hb) as (p' & E & H1 & H2). exists a, {| params := p'; calls := calls b |}, [].
  split; [by apply on_params_Done|]. split; [done|]. split; [exact (admits_all_reads _ _ _ H2 Ha)|]. by rewrite app_nil_r.
Qed.

Lemma runs_string m k : Z.of_nat (length k) <= 65535 -> runs m [] (param_string k) (fun x cs => x = str_of m k /\ cs = []).
Proof. intros Hk. apply runs_on_params. intros p Hp. by apply param_get_string. Qed.

Lemma runs_int8 m k d : Z.of_nat (length k) <= 65535 -> runs m [] (param_int8 k d) (fun x cs => x = int8_of m k d /\ cs = []).
Proof.
  intros Hk. unfold param_int8. eapply runs_read; [apply runs_on_params; intros p Hp; by apply param_get_int8|]. by apply runs_ret.
Qed.

Lemma runs_free m (s : option (list Z)) : runs m [] (free_string s) (fun _ cs => cs = []).
Proof.
  destruct s; [|by apply runs_ret]. eapply runs_weaken; [apply (runs_on_params m free tt); intros p Hp; by apply param_free|]. by intros ? ? [_ ->].
Qed.

(** The second of two steps without calls in the first. *)
Lemma runs_then {A B : Type} m ws1 ws2 (f : M (boot P) A) (k : A -> M (boot P) B) R :
  runs m ws1 f (fun _ cs => cs = []) -> (forall a, runs (assigned ws1 m) ws2 (k a) R) -> runs m (ws1 ++ ws2) (bind f k) R.
Proof. intros Hf Hk. eapply runs_bind; [exact Hf|]. intros a cs ->. apply Hk. Qed.

Lemma runs_write m x : key_ok (write_key x) -> runs m [x] (on_params (apply_write x)) (fun _ cs => cs = []).
Proof.
  intros Hk rest b Hb Ha. destruct (Ha (params b) (reads_refl _)) as [Hx Hrest].
  destruct (apply_write_ok (params b) m x Hb Hk Hx) as (p' & E & H'). exists tt, {| params := p'; calls := calls b |}, [].
  split; [by apply on_params_Done|]. split; [done|]. split; [by apply Hrest|]. by rewrite app_nil_r.
Qed.

(** ** The parts of a start *)

Lemma cut0_app s t : nonzero s -> cut0 (s ++ 0 :: t) = s.
Proof. induction 1 as [|c s Hc _ IH]; [done|]. cbn. by rewrite (proj2 (Z.eqb_neq _ _)), IH. Qed.

Lemma cut0_terminated l : 0 ∈ l <-> (length (cut0 l) < length l)%nat.
Proof.
  induction l as [|c l IH]; cbn; [split; [by intros ?%not_elem_of_nil|lia]|]. rewrite elem_of_cons, IH.
  destruct (c =? 0) eqn:E; zbool; cbn [length]; [split; [lia|by left]|]. split; [intros [?|?]; lia|right; lia].
Qed.

Lemma field_terminated block off size : (off + size <= length block)%nat ->
  terminated block off size <-> strlen (field block off size) < Z.of_nat size.
Proof.
  intros Hl. unfold terminated, field, strlen. rewrite cut0_terminated, length_take, length_drop. lia.
Qed.

Lemma copy_ok block ssid password :
  length block = 96%nat -> (length ssid <= 32)%nat -> (length password <= 63)%nat -> nonzero ssid -> nonzero password ->
  exists b, copy_ssid_password block ssid password = Some b /\ names_of b (Some ssid) (Some password).
Proof.
  intros Hb Hs Hp Zs Zp. unfold copy_ssid_password.
  pose proof (store_first [] block (ssid ++ [0])) as E. cbn [app length] in E. change (Z.of_nat 0) with 0 in E.
  rewrite E by (rewrite length_app; cbn; lia). cbn [mbind option_bind]. set (old := drop _ block).
  assert (Hold : length old = (95 - length ssid)%nat) by (unfold old; rewrite length_drop, length_app, Hb; cbn; lia).
  set (block1 := (ssid ++ [0]) ++ old). assert (H1 : length block1 = 96%nat) by (unfold block1; rewrite !length_app; cbn [length]; lia).
  pose proof (store_first (take 32 block1) (drop 32 block1) (password ++ [0])) as E2.
  rewrite take_drop, length_take, H1 in E2. change (Z.of_nat (32 `min` 96)) with 32 in E2.
  rewrite E2 by (rewrite length_drop, length_app, H1; cbn; lia). eexists. split; [reflexivity|]. clear E E2.
  match goal with |- names_of ?b _ _ => set (res := b) end.
  assert (Hres : length res = 96%nat)
    by (unfold res; repeat (rewrite ?length_app, ?length_take, ?length_drop, ?H1; cbn [length]); lia).
  assert (Hnames : Some ssid = Some (field res 0 32) /\ Some password = Some (field res 32 64)).
  2:{ destruct Hnames as [En Ep]. split; [done|]. split; [done|]. split; [by apply field_terminated; lia|].
      apply field_terminated; [lia|]. injection Ep as <-. unfold strlen. lia. }
  unfold res, field. split.
  - rewrite drop_0, take_app_le by (rewrite length_take; lia). rewrite take_take. change (32 `min` 32)%nat with 32%nat. f_equal.
    unfold block1. rewrite <-app_assoc. cbn [app]. destruct (decide (length ssid = 32)%nat) as [Hl|Hl].
    + rewrite <-Hl, take_app_length. symmetry. by apply cut0_id.
    + rewrite take_app_ge by lia. destruct (32 - length ssid)%nat as [|n] eqn:En; [lia|]. cbn [take]. symmetry. by apply cut0_app.
  - rewrite drop_app_length' by (rewrite length_take; lia). rewrite <-app_assoc. f_equal.
    rewrite take_app_ge by lia. destruct (64 - length password)%nat as [|n] eqn:En; [lia|]. cbn [app take]. symmetry. by apply cut0_app.
Qed.

Lemma length_within_some o lo hi : length_within o lo hi = true -> exists s, o = Some s /\ lo <= strlen s <= hi.
Proof. destruct o as [s|]; cbn; [|done]. intros H. zbool. by exists s. Qed.

Section Parts.
Context (ds : defaults) (macaddr : list Z) (ipaddr_addr : list Z -> Z) (memory : list Z).

Lemma runs_hostname m : runs m (hostname_writes ds macaddr m) (init_hostname (P := P) ds macaddr) (fun _ cs => cs = []).
Proof.
  unfold init_hostname. eapply runs_read; [by apply runs_string|]. rewrite <-(app_nil_r (hostname_writes _ _ _)).
  apply runs_then; [|intros ?; apply runs_free]. unfold hostname_writes.
  destruct (str_of m _); [by apply runs_ret|]. destruct (default_hostname ds) as [f|]; [|by apply runs_ret].
  by apply (runs_write m (PString (str "hostname") _)).
Qed.

Lemma runs_count m k e : key_ok k ->
  runs m (count_writes k m) (count_restart (P := P) k e) (fun a cs => a = (if 0 <? int8_of m k 0 then 0 else e) /\ cs = []).
Proof.
  intros Hk. unfold count_restart. eapply runs_read; [apply runs_int8; unfold key_ok in Hk; lia|]. unfold count_writes. case_if; [|by apply runs_ret].
  rewrite <-(app_nil_r [_]). apply runs_then; [by apply (runs_write m (PInt8 k _))|]. intros ?. by apply runs_ret.
Qed.

(** A text stored and read. *)
Lemma runs_store_string m ws k t {B : Type} (f : option (list Z) -> M (boot P) B) R : key_ok k ->
  runs (assigned [PString k t] m) ws (f (stored t)) R ->
  runs m (PString k t :: ws) (do! on_params (sysparam_set_string k t) then let! s := param_string k in f s) R.
Proof.
  intros Hk Hf. change (PString k t :: ws) with ([PString k t] ++ ws). apply runs_then; [by apply (runs_write m (PString k t))|].
  intros ?. eapply runs_read; [apply runs_string; unfold key_ok in Hk; lia|]. by rewrite str_of_stored.
Qed.

Lemma runs_default m ssid password :
  runs m (default_writes ds macaddr ssid password) (default_ap (P := P) ds macaddr ssid password)
    (fun a cs => a = default_values ds macaddr ssid password /\ cs = []).
Proof.
  unfold default_ap, default_writes, default_values. destruct ssid as [ssid|]; [by apply runs_ret|].
  destruct (default_ssid ds) as [f|]; [|by apply runs_ret]. apply runs_store_string; [done|].
  destruct password as [password|]; [by apply runs_ret|]. destruct (default_password ds) as [t|]; [|by apply runs_ret].
  apply runs_store_string; [done|]. by apply runs_ret.
Qed.

Definition text_or (o : option (list Z)) (t : list Z) : option (list Z) := match o with Some s => Some s | None => stored t end.

Lemma runs_text m k t : key_ok k ->
  runs m (text_writes k t m) (string_or (P := P) k t) (fun a cs => a = text_or (str_of m k) t /\ cs = []).
Proof.
  intros Hk. unfold string_or. eapply runs_read; [apply runs_string; unfold key_ok in Hk; lia|]. unfold text_writes, text_or.
  destruct (str_of m k) as [s|]; [by apply runs_ret|]. rewrite <-(app_nil_r [_]).
  apply runs_then; [by apply (runs_write m (PString k t))|]. intros ?. rewrite <-(str_of_stored m k t). apply runs_string. unfold key_ok in Hk. lia.
Qed.

Lemma runs_deref {A B : Type} m ws (a : A) (k : A -> M (boot P) B) R : runs m ws (k a) R -> runs m ws (bind (deref (Some a)) k) R.
Proof. intros H. exact H. Qed.

(** Steps whose calls are all good. *)
Lemma runs_all {A B : Type} m ws1 ws2 (f : M (boot P) A) (k : A -> M (boot P) B) G :
  runs m ws1 f (fun _ cs => Forall G cs) -> (forall a, runs (assigned ws1 m) ws2 (k a) (fun _ cs => Forall G cs)) ->
  runs m (ws1 ++ ws2) (bind f k) (fun _ cs => Forall G cs).
Proof.
  intros Hf Hk. eapply runs_bind; [exact Hf|]. intros a cs Hcs. eapply runs_weaken; [apply Hk|]. intros ? ? ?. by apply Forall_app.
Qed.

Lemma runs_good m c (G : sdk_call -> Prop) : G c -> runs m [] (call (P := P) c) (fun _ cs => Forall G cs).
Proof. intros HG. eapply runs_weaken; [apply runs_call|]. intros ? ? ->. by constructor. Qed.

Lemma runs_quiet {A : Type} m ws (f : M (boot P) A) (G : sdk_call -> Prop) : runs m ws f (fun _ cs => cs = []) -> runs m ws f (fun _ cs => Forall G cs).
Proof. intros H. eapply runs_weaken; [exact H|]. intros ? ? ->. constructor. Qed.

(** What is called for the station. *)
Definition station_call (ssid password : list Z) (c : sdk_call) : Prop :=
  match c with
  | Station_set_config block => names_of block (Some ssid) (Some password)
  | Station_dhcpc_stop | Set_ip_info _ _ _ _ => True
  | _ => False
  end.

Lemma runs_static_ip m :
  runs m []
    (let! ip_addr := param_string (P := P) (str "wifi_sta_ip_addr") in
     let! netmask := param_string (str "wifi_sta_netmask") in
     let! gateway := param_string (str "wifi_sta_gateway") in
     do! (match ip_addr, netmask, gateway with
          | Some a, Some n, Some g =>
            if (4 <? strlen a) && (4 <? strlen n) && (4 <? strlen g) then
              do! call Station_dhcpc_stop then
              call (Set_ip_info STATION_IF (ipaddr_addr a) (ipaddr_addr n) (ipaddr_addr g))
            else ret tt
          | _, _, _ => ret tt
          end) then
     do! free_string ip_addr then
     do! free_string netmask then
     free_string gateway)
    (fun _ cs => Forall (fun c => c = Station_dhcpc_stop \/ exists i ip n g, c = Set_ip_info i ip n g) cs).
Proof.
  do 3 (eapply runs_read; [by apply runs_string|]). apply (runs_all m [] []).
  - destruct (str_of m (str "wifi_sta_ip_addr")), (str_of m (str "wifi_sta_netmask")), (str_of m (str "wifi_sta_gateway")); try (by apply runs_ret).
    case_if; [|by apply runs_ret]. apply (runs_all m [] []); [by apply runs_good; left|]. intros ?. apply runs_good. right. by do 4 eexists.
  - intros ?. apply (runs_all m [] []); [apply runs_quiet, runs_free|]. intros ?. apply (runs_all m [] []); [apply runs_quiet, runs_free|].
    intros ?. apply runs_quiet, runs_free.
Qed.

Lemma runs_station m ssid password :
  length memory = 96%nat -> strlen ssid <= 32 -> strlen password <= 63 -> nonzero ssid -> nonzero password ->
  runs m [] (start_station (P := P) ipaddr_addr memory ssid password)
    (fun _ cs => Forall (station_call ssid password) cs /\ exists block, Station_set_config block ∈ cs).
Proof.
  intros Hm H1 H2 Z1 Z2. unfold strlen in *. unfold start_station.
  destruct (copy_ok memory ssid password) as (block & E & Hb); [done|lia|lia|done|done|]. rewrite E. apply runs_deref.
  eapply runs_read; [by apply runs_int8|]. apply (runs_bind m [] [] _ _ (fun _ cs => Forall (station_call ssid password) cs)).
  - case_if; [|by apply runs_ret]. eapply runs_weaken; [apply runs_static_ip|]. intros ? cs Hcs.
    eapply Forall_impl; [exact Hcs|]. intros c [->|(? & ? & ? & ? & ->)]; exact I.
  - intros ? cs Hcs. eapply runs_weaken; [apply runs_call|]. intros ? ? ->. split; [apply Forall_app; by split; [|constructor]|].
    exists block. apply elem_of_app. right. by left.
Qed.

(** What is called for the access point. *)
Definition ap_call (ssid password : list Z) (c : sdk_call) : Prop :=
  match c with
  | Softap_set_config c =>
    names_of (ssid_password c) (Some ssid) (Some password) /\ ssid_len c = strlen ssid /\
    1 <= channel c <= 13 /\ authmode c ∈ [AUTH_OPEN; AUTH_WPA_PSK; AUTH_WPA2_PSK; AUTH_WPA_WPA2_PSK] /\
    0 <= config_hidden c <= 1 /\ 1 <= max_connection c <= 8 /\ 0 <= beacon_interval c <= 1000
  | Dhcpserver_start ip n => 1 <= n <= 255
  | Set_ip_info _ _ _ _ | Dhcpserver_set_router _ | Dhcpserver_set_dns _ | Create_dns_task => True
  | _ => False
  end.

Lemma int8_of_range m k d : -128 <= d <= 127 -> -128 <= int8_of m k d <= 127.
Proof.
  intros Hd.  unfold int8_of, int_value. destruct (m !! k) as [[[] v]|]; cbn; try lia. case_bool_decide; cbn; [|lia].
  unfold s8. pose proof (Z.mod_pos_bound (le_val v + 2 ^ 7) (2 ^ 8) ltac:(lia)). lia.
Qed.

Lemma runs_dhcp m ip ssid password : runs m [] (start_dhcp_server (P := P) ip) (fun _ cs => Forall (ap_call ssid password) cs).
Proof.
  unfold start_dhcp_server. eapply runs_read; [by apply runs_int8|]. pose proof (int8_of_range m (str "wifi_ap_dhcp_leases") 4 ltac:(lia)) as Hr.
  set (n := int8_of m _ 4) in *. case_if; zbool; [by apply runs_ret|]. eapply runs_read; [by apply runs_int8|].
  apply (runs_all m [] []).
  - apply runs_good. cbn. unfold u8. assert (0 < n \/ n < 0) as [Hn|Hn] by lia; [rewrite Z.mod_small by lia; lia|].
    rewrite <-(Z.mod_add _ 1), Z.mod_small by lia. lia.
  - intros ?. apply (runs_all m [] []); [by apply runs_good|]. intros ?. case_if; [by apply runs_ret|].
    apply (runs_all m [] []); [by apply runs_good|]. intros ?. by apply runs_good.
Qed.

Lemma valid_ranges h c a x b :
  0 <= u8 (valid_hidden h) <= 1 /\ 1 <= u8 (valid_channel c) <= 13 /\ valid_authmode a ∈ [AUTH_OPEN; AUTH_WPA_PSK; AUTH_WPA2_PSK; AUTH_WPA_WPA2_PSK] /\
  1 <= u8 (valid_max_conn x) <= 8 /\ 0 <= u16 (valid_beacon_interval b) <= 1000.
Proof.
  assert (0 <= valid_hidden h <= 1) as H1 by (unfold valid_hidden; case_if; zbool; lia).
  assert (1 <= valid_channel c <= 13) as H2 by (unfold valid_channel; repeat case_if; zbool; lia).
  assert (1 <= valid_max_conn x <= 8) as H3 by (unfold valid_max_conn; case_if; zbool; lia).
  assert (0 <= valid_beacon_interval b <= 1000) as H4 by (unfold valid_beacon_interval; case_if; zbool; lia).
  rewrite !u8_small, u16_small by lia. repeat split; try lia. unfold valid_authmode.
  destruct (Z.eqb_spec a AUTH_OPEN) as [->|]; [by left|]. destruct (Z.eqb_spec a AUTH_WPA_PSK) as [->|]; [by right; left|].
  destruct (Z.eqb_spec a AUTH_WPA2_PSK) as [->|]; [by do 2 right; left|]. destruct (Z.eqb_spec a AUTH_WPA_WPA2_PSK) as [->|]; cbn; by do 3 right; left.
Qed.

Lemma text_or_some o t : t <> [] -> exists s, text_or o t = Some s.
Proof. destruct o as [s|]; [by exists s|]. intros H. cbn. unfold stored. rewrite bool_decide_false by done. by eexists. Qed.

Lemma runs_ap m ssid password :
  1 <= strlen ssid <= 31 -> strlen password <= 63 -> nonzero ssid -> nonzero password ->
  runs m (ip_writes m) (start_ap (P := P) ipaddr_addr ssid password) (fun _ cs => Forall (ap_call ssid password) cs).
Proof.
  intros H1 H2 Z1 Z2. unfold start_ap, ip_writes. do 4 (eapply runs_read; [by apply runs_int8|]).
  eapply runs_read; [apply runs_on_params; intros p Hp; by apply param_get_int32|].
  set (h := int8_of m _ 0). set (c := int8_of m _ 6). set (au := int8_of m _ AUTH_WPA_WPA2_PSK). set (x := int8_of m _ 3).
  set (bi := default 100 _). eapply runs_bind; [by apply runs_text|]. intros ip ? [-> ->]. cbn [app].
  set (m1 := assigned _ m). assert (Hk : m1 !! str "wifi_ap_netmask" = m !! str "wifi_ap_netmask").
  { apply assigned_ne. unfold text_writes. destruct (str_of m _); by repeat constructor. }
  assert (text_writes (str "wifi_ap_netmask") (str "255.255.0.0") m = text_writes (str "wifi_ap_netmask") (str "255.255.0.0") m1) as ->.
  { unfold text_writes, str_of. by rewrite Hk. }
  rewrite <-(app_nil_r (text_writes _ _ m1)). eapply runs_bind; [by apply runs_text|]. intros mask ? [-> ->]. cbn [app]. set (m2 := assigned _ m1).
  destruct (text_or_some (str_of m (str "wifi_ap_ip_addr")) (str "172.16.0.1")) as [a ->]; [done|].
  destruct (text_or_some (str_of m1 (str "wifi_ap_netmask")) (str "255.255.0.0")) as [n ->]; [done|]. apply runs_deref.
  apply (runs_all m2 [] []).
  2: { intros ?. apply (runs_all m2 [] []); [apply runs_quiet, runs_free|]. intros ?. apply runs_quiet, runs_free. }
  case_if; [|by apply runs_ret]. apply runs_deref. case_if; [|by apply runs_ret].
  apply (runs_all m2 [] []); [by apply runs_good|]. intros ?. unfold strlen in *.
  destruct (copy_ok (replicate 96 0) ssid password) as (block & E & Hb); [done|lia|lia|done|done|]. rewrite E. apply runs_deref.
  apply (runs_all m2 [] []); [|intros ?; apply runs_dhcp]. apply runs_good. destruct (valid_ranges h c au x bi) as (R1 & R2 & R3 & R4 & R5).
  cbn. rewrite u8_small by (unfold strlen; lia). repeat split; try done; try lia; apply Hb.
Qed.

(** ** The start *)

Lemma str_of_nonzero m k s : str_of m k = Some s -> nonzero s.
Proof. unfold str_of. destruct (m !! k) as [[[] v]|]; [done| |done]. injection 1 as <-. apply cut0_nonzero. Qed.

Lemma stored_nonzero t s : stored t = Some s -> nonzero s.
Proof. unfold stored. case_bool_decide; [done|]. injection 1 as <-. apply cut0_nonzero. Qed.

Lemma ap_values_nonzero m : (forall s, fst (ap_values ds macaddr m) = Some s -> nonzero s) /\ (forall s, snd (ap_values ds macaddr m) = Some s -> nonzero s).
Proof.
  unfold ap_values, default_values. pose proof (str_of_nonzero m) as Hs. pose proof stored_nonzero as Ht.
  case_if; [|split; intros s; apply Hs]. destruct (str_of m (str "wifi_ap_ssid")) as [x|] eqn:E1; [split; intros s; [intros [= <-]; by apply (Hs _ _ E1)|apply Hs]|].
  destruct (default_ssid ds) as [f|]; [|split; intros s; [done|apply Hs]]. split; intros s; [apply Ht|]. cbn [snd].
  destruct (str_of m (str "wifi_ap_password")) as [x|] eqn:E2; [intros [= <-]; by apply (Hs _ _ E2)|].
  destruct (default_password ds); [apply Ht|done].
Qed.

(** Both interfaces, when the parameters of the store are those of [m] but for
    what has been stored before. *)
Lemma runs_station_part m m4 :
  length memory = 96%nat ->
  runs m4 []
    (match str_of m (str "wifi_sta_ssid"), str_of m (str "wifi_sta_password") with
     | Some ssid, Some password => if sta_on m then start_station (P := P) ipaddr_addr memory ssid password else ret tt
     | _, _ => ret tt
     end)
    (fun _ cs => Forall (valid_call ds macaddr m) cs /\ (sta_on m = true -> exists block, Station_set_config block ∈ cs)).
Proof.
  intros Hm. destruct (sta_on m) eqn:Hon.
  2: { destruct (str_of m (str "wifi_sta_ssid")), (str_of m (str "wifi_sta_password")); apply runs_ret; by split; [constructor|]. }
  pose proof Hon as H. unfold sta_on in H. apply andb_true_iff in H as [_ H]. apply andb_true_iff in H as [Hs Hp].
  apply length_within_some in Hs as (ssid & Es & Hs). apply length_within_some in Hp as (password & Ep & Hp). rewrite Es, Ep.
  eapply runs_weaken; [apply runs_station; [done|lia|lia|by apply (str_of_nonzero _ _ _ Es)|by apply (str_of_nonzero _ _ _ Ep)]|].
  cbn beta. intros _ cs [H1 H2]. split; [|done]. eapply Forall_impl; [exact H1|]. intros [] Hc; try done. cbn in *. by rewrite Es, Ep.
Qed.

Lemma runs_ap_part m m4 :
  ip_writes m4 = ip_writes m ->
  runs m4 (if ap_on ds macaddr m then ip_writes m else [])
    (match fst (ap_values ds macaddr m), snd (ap_values ds macaddr m) with
     | Some ssid, Some password => if ap_on ds macaddr m then start_ap (P := P) ipaddr_addr ssid password else ret tt
     | _, _ => ret tt
     end)
    (fun _ cs => Forall (valid_call ds macaddr m) cs).
Proof.
  intros Hip. destruct (ap_on ds macaddr m) eqn:Hon.
  2: { destruct (fst (ap_values ds macaddr m)), (snd (ap_values ds macaddr m)); by apply runs_ret. }
  pose proof Hon as H. unfold ap_on in H. apply andb_true_iff in H as [_ H]. apply andb_true_iff in H as [Hs Hp].
  apply length_within_some in Hs as (ssid & Es & Hs). apply length_within_some in Hp as (password & Ep & Hp). rewrite Es, Ep, <-Hip.
  destruct (ap_values_nonzero m) as [Z1 Z2].
  eapply runs_weaken; [apply runs_ap; [lia|lia|by apply Z1|by apply Z2]|]. cbn beta. intros _ cs Hcs.
  eapply Forall_impl; [exact Hcs|]. intros [] Hc; try done; cbn in *. rewrite Es, Ep. destruct Hc as (N & L & R). split; [done|].
  split; [done|]. split; [|done]. destruct N as [N _]. injection N as <-. done.
Qed.

(** The keys of the writes. *)
Definition early_keys : list (list Z) := [str "hostname"; restarts_of true; restarts_of false].

Lemma hostname_keys m : Forall (fun x => write_key x ∈ [str "hostname"]) (hostname_writes ds macaddr m).
Proof. unfold hostname_writes. destruct (str_of m _); [constructor|]. destruct (default_hostname ds); constructor; [by left|constructor]. Qed.

Lemma count_keys k m : Forall (fun x => write_key x ∈ [k]) (count_writes k m).
Proof. unfold count_writes. case_if; constructor; [by left|constructor]. Qed.

Lemma defaults_keys m : Forall (fun x => write_key x ∈ [str "wifi_ap_ssid"; str "wifi_ap_password"]) (ap_defaults ds macaddr m).
Proof.
  unfold ap_defaults, default_writes. case_if; [|constructor]. destruct (str_of m _); [constructor|]. destruct (default_ssid ds); [|constructor].
  constructor; [by left|]. destruct (str_of m _); [constructor|]. destruct (default_password ds); constructor; [by right; left|constructor].
Qed.

Lemma assigned_other (ks : list (list Z)) ws m k : Forall (fun x => write_key x ∈ ks) ws -> bool_decide (k ∈ ks) = false -> assigned ws m !! k = m !! k.
Proof.
  intros H Hk. apply bool_decide_eq_false in Hk. apply assigned_ne. eapply Forall_impl; [exact H|]. intros x Hx E. apply Hk. by rewrite <-E.
Qed.

(** The start with the parameters [m]. *)
Definition started (m : pmap) (port : Z) (cs : list sdk_call) : Prop :=
  exists cs', cs = Set_opmode (wifi_mode (sta_on m) (ap_on ds macaddr m)) :: cs' ++ (if sta_on m || ap_on ds macaddr m then [Create_server_task port] else []) /\
    Forall (valid_call ds macaddr m) cs' /\ (sta_on m = true -> exists block, Station_set_config block ∈ cs').

(** Behind the choice of the interfaces. *)
Lemma runs_interfaces m m4 port : length memory = 96%nat -> ip_writes m4 = ip_writes m ->
  let values := ap_values ds macaddr m in
  runs m4 (if ap_on ds macaddr m then ip_writes m else [])
    (do! call (P := P) (Set_opmode (wifi_mode (sta_on m) (ap_on ds macaddr m))) then
     do! (match str_of m (str "wifi_sta_ssid"), str_of m (str "wifi_sta_password") with
          | Some ssid, Some password => if sta_on m then start_station ipaddr_addr memory ssid password else ret tt
          | _, _ => ret tt
          end) then
     do! (match fst values, snd values with
          | Some ssid, Some password => if ap_on ds macaddr m then start_ap ipaddr_addr ssid password else ret tt
          | _, _ => ret tt
          end) then
     do! free_string (str_of m (str "wifi_sta_ssid")) then
     do! free_string (str_of m (str "wifi_sta_password")) then
     do! free_string (fst values) then
     do! free_string (snd values) then
     if wifi_mode (sta_on m) (ap_on ds macaddr m) =? NULL_MODE then ret tt else call (Create_server_task port))
    (fun _ cs => started m port cs).
Proof.
  intros Hm Hip values. apply (runs_bind m4 [] _ _ _ _ _ (runs_call m4 _)). intros ? ? ->. change (assigned [] m4) with m4.
  apply (runs_bind m4 [] _ _ _ _ _ (runs_station_part m m4 Hm)). intros ? cs1 [F1 S1].
  change (assigned [] m4) with m4. rewrite <-(app_nil_r (if ap_on ds macaddr m then _ else _)).
  eapply runs_bind; [apply (runs_ap_part m m4 Hip)|]. intros ? cs2 F2. set (m5 := assigned _ m4). cbv beta in F2.
  do 4 (apply (runs_then m5 [] []); [apply runs_free|intros ?]; cbn [assigned foldl]).
  eapply runs_weaken with (Q := fun _ cs => cs = if sta_on m || ap_on ds macaddr m then [Create_server_task port] else []).
  - unfold wifi_mode. destruct (sta_on m), (ap_on ds macaddr m); cbn; try apply runs_call. by apply runs_ret.
  - intros ? ? ->. exists (cs1 ++ cs2). split; [cbn; by rewrite <-app_assoc|]. split; [by apply Forall_app|].
    intros H. destruct (S1 H) as [b Hb]. exists b. apply elem_of_app. by left.
Qed.

Lemma runs_init m port : length memory = 96%nat ->
  runs m (init_writes ds macaddr m) (wificfg_init (P := P) ds macaddr ipaddr_addr memory true true port) (fun _ cs => started m port cs).
Proof.
  intros Hm. unfold wificfg_init, init_writes. cbn [negb]. apply runs_then; [apply runs_hostname|]. intros ?. set (m1 := assigned _ m).
  assert (K1 : forall k, bool_decide (k ∈ [str "hostname"]) = false -> m1 !! k = m !! k) by (intros k; apply assigned_other, hostname_keys).
  do 4 (eapply runs_read; [by apply runs_string|]). do 2 (eapply runs_read; [by apply runs_int8|]).
  assert (C1 : count_writes (restarts_of true) m = count_writes (restarts_of true) m1) by (unfold count_writes, int8_of; by rewrite K1).
  rewrite C1. eapply runs_bind; [by apply runs_count|]. intros se ? [Ese ->]. cbn [app]. set (m2 := assigned _ m1).
  assert (K2 : forall k, bool_decide (k ∈ [str "hostname"]) = false -> bool_decide (k ∈ [restarts_of true]) = false -> m2 !! k = m !! k).
  { intros k H1 H2. rewrite <-K1 by done. by apply (assigned_other [restarts_of true]); [apply count_keys|]. }
  assert (C2 : count_writes (restarts_of false) m = count_writes (restarts_of false) m2) by (unfold count_writes, int8_of; by rewrite K2).
  rewrite C2. eapply runs_bind; [by apply runs_count|]. intros ae ? [Eae ->]. cbn [app]. set (m3 := assigned _ m2).
  assert (K3 : forall k, bool_decide (k ∈ early_keys) = false -> m3 !! k = m !! k).
  { intros k Hk. apply bool_decide_eq_false in Hk. unfold early_keys in Hk. rewrite !not_elem_of_cons in Hk. destruct Hk as (H1 & H2 & H3 & _).
    rewrite <-K2 by (apply bool_decide_eq_false; rewrite list_elem_of_singleton; done).
    apply (assigned_other [restarts_of false]); [apply count_keys|apply bool_decide_eq_false; by rewrite list_elem_of_singleton]. }
  assert (Hse : negb (se =? 0) = requested true m) by (rewrite Ese; unfold requested, int8_of; by rewrite !K1).
  assert (Hae : negb (ae =? 0) = requested false m).
  { rewrite Eae. unfold requested, int8_of. rewrite K2, K1 by done. done. }
  assert (S1 : forall k, bool_decide (k ∈ [str "hostname"]) = false -> str_of m1 k = str_of m k) by (intros k Hk; unfold str_of; by rewrite K1).
  rewrite Hse, Hae, !S1 by done.
  eapply (runs_bind m3 (ap_defaults ds macaddr m) _ _ _ (fun a cs => a = ap_values ds macaddr m /\ cs = [])).
  - unfold ap_defaults, ap_values. case_if; [apply runs_default|by apply runs_ret].
  - intros vs ? [-> ->]. cbn [app]. set (m4 := assigned _ m3). assert (Hip : ip_writes m4 = ip_writes m).
    { unfold ip_writes, text_writes, str_of, m4. by rewrite !(assigned_other _ _ m3 _ (defaults_keys m)), !K3. }
    pose proof (runs_interfaces m m4 port Hm Hip) as H. cbv zeta in H. clearbody m4.
    assert (Hap : ap_on ds macaddr m = requested false m &&
      (length_within (fst (ap_values ds macaddr m)) 1 31 && length_within (snd (ap_values ds macaddr m)) 8 63)) by reflexivity.
    rewrite Hap in H |- *. destruct (ap_values ds macaddr m) as [ssid password]. exact H.
Qed.

End Parts.
End Runs.
End WificfgBoot.

(** * Wi-Fi configuration: theorems on the start

    Whatever the parameters are, a start hands over valid configurations, and
    an access point that is off for some restarts comes back. *)

Module WificfgStart.
Import CLib Wificfg WificfgPages WificfgText WificfgOut WificfgForms WificfgInit WificfgBoot WificfgMap.

Section Start.
Context {P : Type} `{HP : Params P} {PL : ParamLaws P}.
Context (ds : defaults) (macaddr : list Z) (ipaddr_addr : list Z -> Z) (memory : list Z).
Implicit Types (m : pmap) (b : boot P).

(** C22. Whatever parameters are stored, when there is room for the defaults,
    the parameters are mounted and the allocations succeed, [wificfg_init]
    returns with the defaults and the counters stored, has set the mode of the
    interfaces that are on, has given the SDK and the DHCP server the names and
    numbers of [valid_call], the configuration of the station among them when
    it is on, and starts the server unless both interfaces are off.  The
    station's SSID has 1 to 32 characters, that of the access point 1 to 31,
    and a password 8 to 63; all are terminated in their fields except a station
    SSID of all 32 characters, which fills its field (its terminator is
    overwritten by the password). *)
Theorem wificfg_init_starts port m b :
  holds (params b) m -> admits_all (params b) (init_writes ds macaddr m) -> length memory = 96%nat ->
  exists b' cs, wificfg_init ds macaddr ipaddr_addr memory true true port b = Done (tt, b') /\
    holds (params b') (assigned (init_writes ds macaddr m) m) /\
    calls b' = calls b ++ Set_opmode (wifi_mode (sta_on m) (ap_on ds macaddr m)) :: cs ++
      (if sta_on m || ap_on ds macaddr m then [Create_server_task port] else []) /\
    Forall (valid_call ds macaddr m) cs /\ (sta_on m = true -> exists block, Station_set_config block ∈ cs).
Proof.
  intros Hm Ha Hmem. destruct (runs_init ds macaddr ipaddr_addr memory m port Hmem [] b Hm) as ([] & b' & cs & E & H1 & _ & C & cs' & -> & H2 & H3).
  - by rewrite app_nil_r.
  - by exists b', cs'.
Qed.

(** ** Several starts *)

(** The calls of each of [n] starts; the parameters stay over a restart. *)
Fixpoint starts (n : nat) (port : Z) : M (boot P) (list (list sdk_call)) :=
  match n with
  | O => ret []
  | S n =>
    let! b := get in
    do! wificfg_init ds macaddr ipaddr_addr memory true true port then
    let! b' := get in
    let! rest := starts n port in
    ret (drop (length (calls b)) (calls b') :: rest)
  end.

Fixpoint starts_writes (n : nat) (m : pmap) : list param_write :=
  match n with
  | O => []
  | S n => init_writes ds macaddr m ++ starts_writes n (assigned (init_writes ds macaddr m) m)
  end.

(** The access point is meant to run. *)
Record ap_wanted m (ssid password : list Z) : Prop := {
  aw_enable : int8_of m (str "wifi_ap_enable") 1 <> 0;
  aw_ssid : str_of m (str "wifi_ap_ssid") = Some ssid;
  aw_password : str_of m (str "wifi_ap_password") = Some password;
  aw_ssid_length : 1 <= strlen ssid <= 31;
  aw_password_length : 8 <= strlen password <= 63;
}.

Lemma ap_on_wanted m ssid password : ap_wanted m ssid password -> ap_on ds macaddr m = negb (0 <? int8_of m (restarts_of false) 0).
Proof.
  intros [He Hs Hp Ls Lp]. unfold ap_on, ap_values. rewrite Hs, Hp. unfold requested. change (enable_of false) with (str "wifi_ap_enable").
  destruct (0 <? int8_of m (restarts_of false) 0); [done|]. rewrite (proj2 (Z.eqb_neq _ 0)) by done. cbn.
  by rewrite !(proj2 (Z.leb_le _ _)) by lia.
Qed.

Lemma wanted_after m ssid password n : ap_wanted m ssid password -> int8_of m (restarts_of false) 0 = n -> 0 < n ->
  let m' := assigned (init_writes ds macaddr m) m in ap_wanted m' ssid password /\ int8_of m' (restarts_of false) 0 = n - 1.
Proof.
  intros Hw Hn H0 m'. pose proof (int8_of_range m (restarts_of false) 0 ltac:(lia)) as Hr. rewrite Hn in Hr.
  assert (Hoff : requested false m = false) by (unfold requested; rewrite Hn, (proj2 (Z.ltb_lt 0 n)) by done; done).
  assert (Hap : ap_on ds macaddr m = false) by (rewrite (ap_on_wanted m ssid password Hw), Hn, (proj2 (Z.ltb_lt 0 n)) by done; done).
  assert (Em : m' = assigned (count_writes (restarts_of false) m) (assigned (count_writes (restarts_of true) m) (assigned (hostname_writes ds macaddr m) m))).
  { unfold m', init_writes, ap_defaults. rewrite Hap, Hoff, !app_nil_r, app_assoc, !assigned_app. done. }
  assert (Hk : forall k, bool_decide (k ∈ early_keys) = false -> m' !! k = m !! k).
  { intros k Hk. rewrite Em. assert (Hin : forall a, a ∈ early_keys -> bool_decide (k ∈ [a]) = false).
    { intros a Hin. apply bool_decide_eq_false. apply bool_decide_eq_false in Hk. rewrite list_elem_of_singleton. by intros ->. }
    rewrite (assigned_other _ _ _ _ (count_keys _ _)) by (apply Hin; by do 2 right; left).
    rewrite (assigned_other _ _ _ _ (count_keys _ _)) by (apply Hin; by right; left).
    by rewrite (assigned_other _ _ _ _ (hostname_keys _ _ _)) by (apply Hin; by left). }
  split.
  - destruct Hw as [W1 W2 W3 W4 W5]. split; try done; unfold int8_of, str_of in *; by rewrite Hk.
  - rewrite Em. unfold count_writes at 1. rewrite Hn, (proj2 (Z.ltb_lt 0 n)) by done. unfold int8_of, assigned at 1, assign. cbn [foldl write_key write_value snd].
    rewrite bool_decide_false by done. rewrite lookup_insert_eq. cbn. unfold s8. rewrite Z.mul_0_r, Z.add_0_r, Zplus_mod_idemp_l, Z.mod_small by lia. rewrite bool_decide_true by done. cbn [default from_option id]. lia.
Qed.

Definition with_ap (cs : list sdk_call) : Prop := exists mode rest, cs = Set_opmode mode :: rest /\ (mode = SOFTAP_MODE \/ mode = STATIONAP_MODE).
Definition without_ap (cs : list sdk_call) : Prop := exists mode rest, cs = Set_opmode mode :: rest /\ (mode = NULL_MODE \/ mode = STATION_MODE).

Lemma mode_ap (s a : bool) : (if a then fun mode : Z => mode = SOFTAP_MODE \/ mode = STATIONAP_MODE else fun mode : Z => mode = NULL_MODE \/ mode = STATION_MODE) (wifi_mode s a).
Proof. destruct s, a; cbn; auto. Qed.

Lemma starts_ok n port : forall m b ssid password,
  length memory = 96%nat -> holds (params b) m -> ap_wanted m ssid password -> int8_of m (restarts_of false) 0 = Z.of_nat n ->
  admits_all (params b) (starts_writes (S n) m) ->
  exists css b' last, starts (S n) port b = Done (css ++ [last], b') /\ length css = n /\ Forall without_ap css /\ with_ap last.
Proof.
  induction n as [|n IH]; intros m b ssid password Hmem Hm Hw Hn Ha;
    destruct (runs_init ds macaddr ipaddr_addr memory m port Hmem _ b Hm Ha) as ([] & b1 & cs & E & H1 & A1 & C1 & cs' & -> & _);
    pose proof (mode_ap (sta_on m) (ap_on ds macaddr m)) as Hmode; rewrite (ap_on_wanted m ssid password Hw), Hn in *; cbn [starts];
    (erewrite bind_Done by reflexivity); run E; (erewrite bind_Done by reflexivity); rewrite C1, drop_app_length.
  - eexists [], b1, _. split; [reflexivity|]. split; [done|]. split; [constructor|]. by eexists _, _.
  - destruct (wanted_after m ssid password _ Hw Hn ltac:(lia)) as [Hw' Hn'].
    destruct (IH _ b1 ssid password Hmem H1 Hw' ltac:(rewrite Hn'; lia) A1) as (css & b2 & last & E2 & L2 & F2 & W2). run E2.
    eexists (_ :: css), b2, last. split; [reflexivity|]. split; [cbn [length]; by rewrite L2|]. split; [|done]. constructor; [|done].
    rewrite (proj2 (Z.ltb_lt 0 _)) in Hmode |- * by lia. by eexists _, _.
Qed.

(** C33. An access point that is wanted but off for [n] restarts is off in the
    next [n] starts and on in the one behind. *)
Theorem wificfg_ap_returns n port m b ssid password :
  holds (params b) m -> length memory = 96%nat -> ap_wanted m ssid password ->
  int8_of m (str "wifi_ap_disabled_restarts") 0 = Z.of_nat n -> admits_all (params b) (starts_writes (S n) m) ->
  exists css last b', starts (S n) port b = Done (css ++ [last], b') /\ length css = n /\ Forall without_ap css /\ with_ap last.
Proof.
  intros Hm Hmem Hw Hn Ha. destruct (starts_ok n port m b ssid password Hmem Hm Hw Hn Ha) as (css & b' & last & H). by exists css, last, b'.
Qed.

End Start.

(** ** The theorems applied *)

Definition mac : list Z := [0x5e; 0xcf; 0x7f; 0x01; 0x2a; 0xbc].
Definition no_address (text : list Z) : Z := 0.
Definition first_start : boot pmap := {| params := ∅; calls := [] |}.

(** A board without parameters becomes an access point with a name of its
    own. *)
Lemma wificfg_init_starts_witness :
  exists (b' : boot pmap) cs, wificfg_init own_defaults mac no_address (replicate 96 7) true true 80 first_start = Done (tt, b') /\
    calls b' = Set_opmode SOFTAP_MODE :: cs ++ [Create_server_task 80] /\ Forall (valid_call own_defaults mac ∅) cs /\
    str_of (params b') (str "wifi_ap_ssid") = Some (str "EOR_012ABC").
Proof.
  destruct (wificfg_init_starts own_defaults mac no_address (replicate 96 7) 80 ∅ first_start) as (b' & cs & E & Hp & C & F & _).
  - reflexivity.
  - apply map_admits.
  - reflexivity.
  - exists b', cs. split; [exact E|]. split; [exact C|]. split; [exact F|]. change (params b' = assigned (init_writes own_defaults mac ∅) ∅) in Hp.
    rewrite Hp. vm_compute. reflexivity.
Defined.

Definition off_for_two : pmap :=
  <[str "wifi_ap_disabled_restarts" := (true, [2])]> (<[str "wifi_ap_ssid" := (false, str "home")]> {[str "wifi_ap_password" := (false, str "12345678")]}).

Lemma wificfg_ap_returns_witness :
  exists css last (b' : boot pmap), starts own_defaults mac no_address (replicate 96 7) 3 80 {| params := off_for_two; calls := [] |} = Done (css ++ [last], b') /\
    length css = 2%nat /\ Forall without_ap css /\ with_ap last.
Proof.
  apply (wificfg_ap_returns own_defaults mac no_address (replicate 96 7) 2 80 off_for_two {| params := off_for_two; calls := [] |} (str "home") (str "12345678")).
  - reflexivity.
  - reflexivity.
  - split; vm_compute; done.
  - reflexivity.
  - apply map_admits.
Defined.

End WificfgStart.
