(* ===== verification/WificfgSends.v ===== *)
(** * Wi-Fi configuration: the pages

    A page is a response of chunks: whatever the parameters hold, every page
    is sent to its end as the chunks of its texts, although they are put
    together in the one buffer the texts themselves are in; and what comes
    from the parameters is free of quotes and angle brackets. *)

From stdpp Require Import gmap strings.
From S2P Require Import Prelude CStrings Wificfg WificfgPages WificfgServer WificfgText WificfgForms WificfgPost WificfgSafe WificfgInit.
Open Scope Z_scope.

Module WificfgSends.
Import CLib Wificfg WificfgPages WificfgServer WificfgText WificfgOut WificfgForms WificfgPost WificfgSafe WificfgInit WificfgStatus.

(** A text without characters that end an attribute or begin a tag. *)
Definition clean (t : list Z) : Prop := Forall (fun c => c <> 60 /\ c <> 62 /\ c <> 34) t.

Definition clean_check (t : list Z) : bool := forallb (fun c => negb (c =? 60) && negb (c =? 62) && negb (c =? 34)) t.

Lemma clean_checked t : clean_check t = true -> clean t.
Proof.
  unfold clean_check, clean. rewrite forallb_forall. intros H. apply Forall_forall. intros c Hc. apply list_elem_of_In in Hc.
  specialize (H c Hc). zbool. done.
Qed.

Lemma print_u_digits n : Forall (fun c => 48 <= c <= 57) (print_u n).
Proof.
  unfold print_u. assert (H : forall fuel n acc, Forall (fun c => 48 <= c <= 57) acc -> Forall (fun c => 48 <= c <= 57) (print_digits fuel 10 n acc)).
  { induction fuel as [|fuel IH]; intros k acc Ha; [done|]. cbn [print_digits]. pose proof (Z.mod_pos_bound k 10 ltac:(lia)) as Hk.
    assert (Hc : Forall (fun c => 48 <= c <= 57) ((if k mod 10 <? 10 then 48 + k mod 10 else 87 + k mod 10) :: acc)).
    { constructor; [case_if; zbool; lia|done]. }
    case_if; [done|by apply IH]. }
  apply H. constructor.
Qed.

(** Texts without zero bytes. *)
Lemma nonzero_checked t : forallb (fun c => negb (c =? 0)) t = true -> nonzero t.
Proof.
  rewrite forallb_forall. intros H. apply Forall_forall. intros c Hc. apply list_elem_of_In in Hc. specialize (H c Hc). by zbool.
Qed.

Lemma print_u_nonzero n : nonzero (print_u n).
Proof. eapply Forall_impl; [apply print_u_digits|]. cbn. lia. Qed.

Lemma print_x_nonzero n : nonzero (print_x n).
Proof.
  unfold print_x. assert (H : forall fuel n acc, nonzero acc -> nonzero (print_digits fuel 16 n acc)).
  { induction fuel as [|fuel IH]; intros k acc Ha; [done|]. cbn [print_digits]. pose proof (Z.mod_pos_bound k 16 ltac:(lia)) as Hk.
    assert (Hc : nonzero ((if k mod 16 <? 10 then 48 + k mod 16 else 87 + k mod 16) :: acc)) by (constructor; [case_if; zbool; lia|done]).
    case_if; [done|by apply IH]. }
  apply H. constructor.
Qed.

Lemma print_02x_nonzero n : nonzero (print_02x n).
Proof. unfold print_02x. case_if; [constructor; [done|]|]; apply print_x_nonzero. Qed.

Lemma print_08x_nonzero n : nonzero (print_08x n).
Proof. unfold print_08x. apply Forall_app. split; [|apply print_x_nonzero]. apply Forall_forall. intros c Hc. apply elem_of_replicate in Hc as [-> _]. done. Qed.

Lemma ip_text_nonzero a b c d : nonzero (ip_text a b c d).
Proof. unfold ip_text. repeat (apply Forall_app; split); first [apply print_u_nonzero|by apply nonzero_checked]. Qed.

Lemma MACSTR_nonzero hw : nonzero (MACSTR hw).
Proof.
  induction hw as [|b hw IH]; [constructor|]. cbn [MACSTR]. destruct hw; [apply print_02x_nonzero|].
  apply Forall_app. split; [apply print_02x_nonzero|]. apply Forall_app. split; [by apply nonzero_checked|exact IH].
Qed.

Lemma states_nonzero n : nonzero (sleep_type_str n) /\ nonzero (opmode_str n) /\ nonzero (phy_mode_str n) /\ nonzero (cStatus n).
Proof. unfold sleep_type_str, opmode_str, phy_mode_str, cStatus. repeat split; repeat case_if; by apply nonzero_checked. Qed.

(** A chunk, by either way of writing it. *)
Lemma chunk_parts {P : Type} `{HP : Params P} (w : web P) s :
  (length (buf w) <= 262)%nat -> write_results w = [] -> s <> [] -> Z.of_nat (length s) < 2 ^ 20 ->
  exists r w' parts, wificfg_write_string_chunk s (Z.of_nat (length (buf w))) w = Done (r, w') /\
    out w' = out w ++ parts /\ concat parts = chunk_of s /\ 0 <= r /\ store w' = store w /\ input w' = input w /\
    length (buf w') = length (buf w) /\ write_results w' = [] /\ events w' = events w.
Proof.
  intros Hb Hr Hne Hs. assert (H1 : (1 <= length s)%nat) by (destruct s; [done|cbn [length]; lia]). unfold wificfg_write_string_chunk.
  assert ((strlen s =? 0) = false) as -> by (apply Z.eqb_neq; unfold strlen; lia). rewrite u32_small by (unfold strlen; lia). unfold strlen at 1. case_if; zbool.
  - destruct (chunk_in_buffer (buf w) s) as (b1 & b2 & b3 & b4 & start & E1 & E2 & E3 & E4 & El & E5); [lia..|].
    erewrite bind_Done by reflexivity. rewrite E1. erewrite bind_Done by reflexivity. rewrite E2. erewrite bind_Done by reflexivity.
    cbv beta iota zeta. rewrite E3. erewrite bind_Done by reflexivity. rewrite E4. do 2 (erewrite bind_Done by reflexivity).
    rewrite E5. exists (strlen (chunk_of s)), (with_out (with_buf w b4) (out w ++ [chunk_of s]) []), [chunk_of s].
    split; [unfold write; cbn [write_results with_buf]; by rewrite Hr|]. split; [done|]. split; [cbn [concat]; by rewrite app_nil_r|].
    split; [unfold strlen; lia|]. by repeat split.
  - pose proof (print_x_length (strlen s) ltac:(unfold strlen; lia)) as Hp.
    set (size_text := print_x (strlen s) ++ [13; 10]).
    assert (Hst : (length size_text <= 7)%nat) by (unfold size_text; rewrite length_app; cbn [length]; lia).
    assert (Hbuf : snprintf 8 size_text ++ [0] = size_text ++ [0]).
    { unfold snprintf. change (Z.to_nat (8 - 1)) with 7%nat. by rewrite take_ge by lia. }
    rewrite Hbuf. assert ((strlen (size_text ++ [0]) <? strlen size_text) = false) as ->.
    { apply Z.ltb_ge. unfold strlen. rewrite length_app. lia. }
    assert (Hw : forall (v : web P) bs, write_results v = [] -> write bs v = Done (strlen bs, with_out v (out v ++ [bs]) [])).
    { intros v bs Hv. unfold write. by rewrite Hv. }
    assert (Hsub : sub_bytes (size_text ++ [0]) 0 (strlen size_text) = size_text).
    { unfold sub_bytes, strlen. by rewrite Nat2Z.id, drop_0, take_app_length. }
    rewrite Hsub. run (Hw w size_text Hr). rewrite Z.eqb_refl. cbn [negb].
    set (w1 := with_out w _ []). unfold wificfg_write_string. run (Hw w1 s eq_refl). rewrite Z.eqb_refl. cbn [negb].
    set (w2 := with_out w1 _ []). rewrite (Hw w2 _ eq_refl).
    assert (Hend : sub_bytes (size_text ++ [0]) (strlen size_text - 2) 2 = [13; 10]).
    { unfold size_text, sub_bytes, strlen. rewrite length_app. cbn [length]. replace (Z.to_nat (_ - 2)) with (length (print_x (Z.of_nat (length s)))) by lia.
      by rewrite <-app_assoc, drop_app_length. }
    rewrite Hend. eexists _, _, [size_text; s; [13; 10]]. split; [reflexivity|]. split.
    { cbn [out with_out w1 w2]. by rewrite <-!app_assoc. }
    split; [cbn [concat]; unfold size_text, chunk_of; by rewrite app_nil_r, <-!app_assoc|]. split; [unfold strlen; cbn; lia|]. by repeat split.
Qed.

(** ** The texts of states

    What the pages with states show besides the fragments of the page and the
    parameters: fixed texts, and printed texts as far as they fit the buffer.
    They are made of the state of the system alone. *)
Definition ip4_lines (what : list Z) (a : ip4) : list (list Z) :=
  [str "<dt>" ++ what ++ str "</dt>"; take 53 (str "<dd>" ++ IPSTR a ++ str "</dd>")].

Definition interface_lines (name : list Z) (i : interface) : list (list Z) :=
  match macaddr i with
  | Some hw => [str "<dt>" ++ name ++ str " MAC address</dt>"; take 53 (str "<dd>" ++ MACSTR hw ++ str "</dd>")]
  | None => []
  end ++
  match ip_info i with
  | Some (ip, netmask, gw) =>
    ip4_lines (name ++ str " IP address") ip ++ ip4_lines (name ++ str " netmask") netmask ++ ip4_lines (name ++ str " gateway") gw
  | None => []
  end ++
  concat ((fun addr6 => [str "<dt>" ++ name ++ str " IPv6</dt><dd>"; take 53 addr6; str "</dd>"]) <$> ip6_addresses i).

Definition peer_lines (sys : system) : list (list Z) :=
  let port := str ", port " ++ print_u (peer_port sys) ++ str "</dd>" in
  match peer sys with
  | Inet a b c d => [str "<dt>Peer address</dt>"; take 53 (str "<dd>" ++ ip_text a b c d ++ port)]
  | Inet6Mapped a b c d => [str "<dt>Peer address</dt><dd>"; take 53 (ip_text a b c d); take 53 port]
  | Inet6 (Some text) => [str "<dt>Peer address</dt><dd>"; take 53 text; take 53 port]
  | Inet6 None => [str "<dt>Peer address</dt><dd>"; take 53 port]
  | NoName => []
  end.

Definition index_lines (flash_size : Z) (sys : system) : list (list Z) :=
  let '(lwip, freertos, newlib) := versions sys in
  [str "<dt>Hostname</dt><dd>"; str "</dd>";
   take 53 (str "<dt>Chip ID</dt><dd>" ++ print_08x (chip_id sys) ++ str "</dd>");
   take 53 (str "<dt>Uptime</dt><dd>" ++ print_u (uptime sys) ++ str " seconds</dd>");
   take 53 (str "<dt>Free heap</dt><dd>" ++ print_u (free_heap sys) ++ str " bytes</dd>");
   take 53 (str "<dt>Flash ID</dt><dd>0x" ++ print_08x (flash_id sys) ++ str "</dd>");
   take 53 (str "<dt>Flash size</dt><dd>" ++ print_u (Z.shiftr flash_size 10) ++ str " KiB</dd>");
   str "<dt>LwIP version</dt><dd>" ++ lwip ++ str "</dd>";
   str "<dt>FreeRTOS version</dt><dd>" ++ freertos ++ str "</dd>";
   str "<dt>Newlib version</dt><dd>" ++ newlib ++ str "</dd>";
   take 53 (str "<dt>WiFi sleep type</dt><dd>" ++ sleep_type_str (sleep_type sys) ++ str "</dd>");
   take 53 (str "<dt>OpMode</dt><dd>" ++ opmode_str (opmode sys) ++ str "</dd>");
   take 53 (str "<dt>WiFi channel</dt><dd>" ++ print_u (wifi_channel sys) ++ str "</dd>");
   take 53 (str "<dt>WiFi physical mode</dt><dd>" ++ phy_mode_str (phy_mode sys) ++ str "</dd>")] ++
  interface_lines (str "Station") (station sys) ++ interface_lines (str "AP") (softap sys) ++ peer_lines sys.

Definition task_lines (t : task_status) : list (list Z) :=
  [take 53 (str "<tr><th>" ++ pcTaskName t ++ str "</th>");
   take 53 (str "<td>" ++ print_u (xTaskNumber t) ++ str "</td><td>" ++ cStatus (eCurrentState t) ++ str "</td>");
   take 53 (str "<td>" ++ print_u (uxCurrentPriority t) ++ str "</td><td>" ++ print_u (uxBasePriority t) ++ str "</td>");
   take 53 (str "<td>" ++ print_u (ulRunTimeCounter t) ++ str "</td><td>" ++ print_u (usStackHighWaterMark t) ++ str "</td></tr>")].

Definition tasks_lines (tasks : option (list task_status)) : list (list Z) :=
  match tasks with
  | None => []
  | Some ts =>
    str "<table><tr><th>Task name</th><th>Task number</th><th>Status</th><th>Priority</th><th>Base priority</th><th>Runtime</th><th>Stack high-water</th></tr>" ::
    str "</table>" :: concat (task_lines <$> ts)
  end.

Section Sends.
Context {P : Type} `{HP : Params P} {PL : ParamLaws P}.
Context (m : pmap) (G : list Z -> Prop).
Implicit Types w : web P.

(** The store has the parameters [m] and writes succeed. *)
Record opened w : Prop := {
  op_holds : holds (store w) m;
  op_len : length (buf w) = 54%nat;
  op_results : write_results w = [];
}.

(** [w'] is [w] after sending texts of [G] as chunks, and then [tail]. *)
Definition sent (tail : list Z) w w' : Prop :=
  opened w' /\ events w' = events w /\ exists parts texts,
    out w' = out w ++ parts /\ concat parts = concat (chunk_of <$> texts) ++ tail /\ Forall (fun t => t <> [] /\ G t) texts.

(** From states with [I], [f] sends texts and [tail]. *)
Definition sends_from (I : web P -> Prop) (tail : list Z) (f : M (web P) Z) : Prop :=
  forall w, I w -> exists r w', f w = Done (r, w') /\ 0 <= r /\ sent tail w w'.
Definition sends := sends_from opened.

Lemma sent_refl w : opened w -> sent [] w w.
Proof. intros H. split; [done|]. split; [done|]. exists [], []. by rewrite app_nil_r. Qed.

Lemma sent_trans tail w w1 w2 : sent [] w w1 -> sent tail w1 w2 -> sent tail w w2.
Proof.
  intros (_ & E1 & p1 & t1 & O1 & C1 & F1) (H2 & E2 & p2 & t2 & O2 & C2 & F2). split; [done|]. split; [congruence|].
  exists (p1 ++ p2), (t1 ++ t2). rewrite app_nil_r in C1. split; [by rewrite O2, O1, app_assoc|]. split; [|by apply Forall_app].
  by rewrite fmap_app, !concat_app, C1, C2, app_assoc.
Qed.

Lemma sends_ret : sends [] (ret 0).
Proof. intros w Hw. exists 0, w. split; [done|]. split; [lia|by apply sent_refl]. Qed.

Lemma sends_cons tail s steps : sends [] s -> sends tail (write_steps steps) -> sends tail (write_steps (s :: steps)).
Proof.
  intros H1 H2 w Hw. destruct (H1 w Hw) as (r & w1 & E1 & R1 & S1). cbn [write_steps]. run E1.
  rewrite (proj2 (Z.ltb_ge _ 0)) by lia. destruct (H2 w1 (proj1 S1)) as (r' & w2 & E2 & R2 & S2). exists r', w2.
  split; [done|]. split; [done|]. exact (sent_trans _ _ _ _ S1 S2).
Qed.

Lemma sends_last tail s : sends tail s -> sends tail (write_steps [s]).
Proof.
  intros H w Hw. destruct (H w Hw) as (r & w1 & E1 & R1 & S1). cbn [write_steps]. run E1. rewrite (proj2 (Z.ltb_ge _ 0)) by lia.
  exists 0, w1. split; [done|]. split; [lia|done].
Qed.

Lemma sends_all steps : Forall (sends []) steps -> sends [] (write_steps steps).
Proof. induction 1 as [|s steps Hs _ IH]; [exact sends_ret|]. by apply sends_cons. Qed.

(** Reading before sending. *)
Lemma sends_read {A : Type} I tail (f : M P A) (k : A -> M (web P) Z) a :
  (forall w, I w -> opened w) -> (forall w p, I w -> holds p m -> I (with_store w p)) ->
  (forall p, holds p m -> exists p', f p = Done (a, p') /\ holds p' m /\ reads p p') ->
  sends_from I tail (k a) -> sends_from I tail (bind (on_store f) k).
Proof.
  intros HI Hs Hf Hk w Hw. destruct (Hf (store w) (op_holds w (HI w Hw))) as (p' & E & Hp & _). run (on_store_Done _ w _ _ E).
  destruct (Hk (with_store w p') (Hs w p' Hw Hp)) as (r & w' & E' & R & S). by exists r, w'.
Qed.

Lemma opened_store w p : opened w -> holds p m -> opened (with_store w p).
Proof. intros [] Hp. by split. Qed.

Lemma write_opened w s : opened w -> write s w = Done (strlen s, with_out w (out w ++ [s]) []) /\ opened (with_out w (out w ++ [s]) []).
Proof. intros [H1 H2 H3]. unfold write. rewrite H3. split; [done|]. by split. Qed.

Lemma end_sends : sends (str "0" ++ [13; 10; 13; 10]) wificfg_write_chunk_end.
Proof.
  intros w Hw. destruct (write_opened w (str "0" ++ [13; 10; 13; 10]) Hw) as [E H]. eexists _, _. split; [exact E|]. split; [done|].
  split; [exact H|]. split; [done|]. exists [str "0" ++ [13; 10; 13; 10]], []. split; [done|]. split; [reflexivity|constructor].
Qed.


(** ** Chunks *)

Hypothesis Hclean : forall t, clean t -> G t.

Lemma chunk_sends s : short s -> (s <> [] -> G s) -> sends [] (chunk (P := P) 54 s).
Proof.
  intros Hs HG w Hw. unfold chunk. destruct (decide (s = [])) as [->|Hne].
  { exists 0, w. split; [done|]. split; [lia|by apply sent_refl]. }
  pose proof (op_len w Hw) as Hl. destruct (chunk_parts w s) as (r & w' & parts & E & O & C & R & S & I & L & W & V); [lia|by apply op_results|done|exact Hs|].
  rewrite Hl in E. exists r, w'. split; [exact E|]. split; [done|]. split; [split; [rewrite S; by apply op_holds|congruence|done]|]. split; [done|].
  exists parts, [s]. split; [done|]. split; [rewrite C; cbn; by rewrite !app_nil_r|]. constructor; [by split; [|apply HG]|constructor].
Qed.

(** A string in the buffer. *)
Definition holding (t : list Z) w : Prop := opened w /\ c_string (buf w) = Some t.

Lemma buffer_sends t : short t -> (t <> [] -> G t) -> sends_from (holding t) [] (let! s := buf_string in chunk (P := P) 54 s).
Proof. intros Hs HG w [Hw Ht]. run (buf_string_Done w t Ht). by apply chunk_sends. Qed.

(** Printed text: as much as there is room for. *)
Lemma text_sends t : nonzero t -> (take 53 t <> [] -> G (take 53 t)) -> sends [] (chunk_text (P := P) 54 t).
Proof.
  intros Hz HG w Hw. pose proof (op_len w Hw) as Hl. unfold chunk_text, snprintf. change (Z.to_nat (54 - 1)) with 53%nat.
  assert (Ht : (length (take 53 t ++ [0%Z]) <= length (buf w))%nat) by (rewrite length_app, length_take; cbn [length]; lia).
  pose proof (store_first [] (buf w) (take 53 t ++ [0]) Ht) as E. cbn [app length] in E. change (Z.of_nat 0) with 0 in E.
  erewrite bind_Done by (apply edit_buf_Done; exact E). set (b := (take 53 t ++ [0]) ++ _).
  assert (Hb : holding (take 53 t) (with_buf w b)).
  { split; [destruct Hw; split; try done; cbn; unfold b; rewrite length_app, length_drop; lia|].
    cbn [buf with_buf]. unfold b. rewrite <-app_assoc. cbn [app]. apply c_string_app. by apply Forall_take. }
  destruct (buffer_sends (take 53 t)) with (w := with_buf w b) as (r & w' & E' & R & S); [unfold short; rewrite length_take; lia|done|done|].
  exists r, w'. split; [done|]. split; [done|exact S].
Qed.

(** A string of the store is shown in part or as a whole. *)
Lemma escaped_sends s : nonzero s -> sends [] (chunk_escaped (P := P) 54 s).
Proof.
  intros Hz w Hw. pose proof (op_len w Hw) as Hl. unfold chunk_escaped.
  destruct (escape_loop_ok s [] (buf w)) as (k & rest & E & Hle & _); [cbn; lia|cbn; lia|intros E; by rewrite E in Hl|].
  cbn [app length] in E. rewrite Hl in E. change (Z.of_nat 54) with 54 in E. change (Z.of_nat 0) with 0 in E.
  set (t := escape (take k s)) in *. erewrite bind_Done by (apply edit_buf_Done; exact E).
  destruct (param_free (store w) m (op_holds w Hw)) as (p' & Ef & Hp' & _).
  erewrite bind_Done by (apply on_store_Done; exact Ef). set (w1 := with_store _ p').
  assert (Hw1 : holding t w1).
  { split; [destruct Hw; split; try done; cbn; congruence|]. cbn [buf w1 with_store with_buf]. apply c_string_app, escape_nonzero. by apply Forall_take. }
  assert (Ht : (length t < 54)%nat) by (rewrite length_app in Hle; cbn [length] in Hle; lia).
  destruct (buffer_sends t) with (w := w1) as (r & w' & E' & R & S); [unfold short; lia|intros _; apply Hclean, escape_clean|done|].
  exists r, w'. split; [done|]. split; [done|exact S].
Qed.

Lemma text_value_nonzero (o : option (bool * list Z)) s : text_value o = Some s -> nonzero s.
Proof. destruct o as [[[] v]|]; [done| |done]. injection 1 as <-. apply cut0_nonzero. Qed.

Lemma sends_param {A : Type} tail (f : M P A) (k : A -> M (web P) Z) a :
  (forall p, holds p m -> exists p', f p = Done (a, p') /\ holds p' m /\ reads p p') -> sends tail (k a) -> sends tail (bind (on_store f) k).
Proof. apply sends_read; [done|]. apply opened_store. Qed.

Lemma sends_string tail key (k : option (list Z) -> M (web P) Z) : Z.of_nat (length key) <= 65535 ->
  sends tail (k (text_value (m !! key))) -> sends tail (bind (on_store (sysparam_get_string key)) k).
Proof. intros Hk. apply sends_param. intros p Hp. by apply param_get_string. Qed.

Lemma sends_int8 tail key d (k : Z -> M (web P) Z) : Z.of_nat (length key) <= 65535 ->
  (forall n, -128 <= d <= 127 -> -128 <= n <= 127 -> sends tail (k n)) -> -128 <= d <= 127 -> sends tail (bind (get_int8 key d) k).
Proof.
  intros Hk H Hd. unfold get_int8. intros w Hw. rewrite bind_assoc. revert w Hw.
  apply (sends_param tail _ _ _ (fun p Hp => param_get_int8 p m key Hp Hk)). apply H; [done|].
  unfold int_value. destruct (m !! key) as [[[] v]|]; cbn; try lia. case_bool_decide; cbn; [|lia].
  unfold s8. pose proof (Z.mod_pos_bound (le_val v + 2 ^ 7) (2 ^ 8) ltac:(lia)). lia.
Qed.

Lemma param_sends key : Z.of_nat (length key) <= 65535 -> sends [] (chunk_param (P := P) 54 key).
Proof.
  intros Hk. unfold chunk_param. apply sends_string; [done|]. destruct (text_value (m !! key)) as [s|] eqn:E; [|exact sends_ret].
  apply escaped_sends. by eapply text_value_nonzero.
Qed.

Context (content : page -> nat -> list Z).
Hypothesis Hcontent : forall p i, short (content p i).
Hypothesis Hpages : forall p i, G (content p i).

Lemma content_sends p i : sends [] (chunk (P := P) 54 (content p i)).
Proof. by apply chunk_sends. Qed.

Lemma word_sends t : clean_check t = true -> (strlen t <? 100) = true -> sends [] (chunk (P := P) 54 t).
Proof. intros Hc Hl. apply chunk_sends; [unfold short, strlen in *; lia|]. intros _. by apply Hclean, clean_checked. Qed.

Lemma word_if_sends (b : bool) t : clean_check t = true -> (strlen t <? 100) = true -> sends [] (chunk_if (P := P) b 54 t).
Proof. intros Hc Hl. destruct b; [by apply word_sends|exact sends_ret]. Qed.

Lemma number_text_sends n : sends [] (chunk_text (P := P) 54 (print_u n)).
Proof.
  pose proof (print_u_digits n) as Hd. apply text_sends; [eapply Forall_impl; [exact Hd|]; cbn; lia|]. intros _. apply Hclean, Forall_take.
  eapply Forall_impl; [exact Hd|]. cbn. lia.
Qed.

Lemma checked_sends key d : Z.of_nat (length key) <= 65535 -> -128 <= d <= 127 -> sends [] (chunk_checked (P := P) 54 key d).
Proof. intros Hk Hd. apply sends_int8; [done| |done]. intros n _ _. by apply word_if_sends. Qed.

Lemma number_sends key d : Z.of_nat (length key) <= 65535 -> -128 <= d <= 127 -> sends [] (chunk_number (P := P) 54 key d).
Proof. intros Hk Hd. apply sends_int8; [done| |done]. intros n _ _. apply number_text_sends. Qed.

Lemma title_sends t : clean_check t = true -> (strlen t <? 100) = true -> sends [] (wificfg_write_html_title (P := P) 54 (Some t)).
Proof.
  intros Hc Hl. assert (Hshow : forall o, (forall s, o = Some s -> nonzero s) ->
    sends [] (match o with Some h => write_steps (chunk_escaped 54 h :: [chunk 54 (str " "); chunk 54 t]) | None => ret 0 end)).
  { intros [h|] Hz; [|exact sends_ret]. apply sends_cons; [apply escaped_sends; by apply Hz|]. apply sends_cons; [by apply word_sends|].
    apply sends_last. by apply word_sends. }
  unfold wificfg_write_html_title. apply sends_string; [done|]. pose proof (text_value_nonzero (m !! str "hostname")) as H1.
  destruct (text_value (m !! str "hostname")) as [h|]; [exact (Hshow (Some h) H1)|].
  apply sends_string; [done|]. apply Hshow. intros s. apply text_value_nonzero.
Qed.

(** ** Pages *)

(** The response to a method that asks for the page. *)
Definition answers (f : M (web P) Z) : Prop :=
  forall w, opened w -> exists r w', f w = Done (r, w') /\ 0 <= r /\
    sent (str "0" ++ [13; 10; 13; 10]) (with_out w (out w ++ [http_success_header]) []) w'.

Lemma page_answers method steps : method <> HTTP_METHOD_HEAD -> sends (str "0" ++ [13; 10; 13; 10]) (write_steps steps) ->
  answers (html_page (P := P) method steps).
Proof.
  intros Hm Hs w Hw. unfold html_page, wificfg_write_string. destruct (write_opened w http_success_header Hw) as [E H]. run E.
  rewrite (proj2 (Z.ltb_ge _ 0)) by (unfold strlen; lia). rewrite bool_decide_false by done. by apply Hs.
Qed.

Ltac step :=
  first [ apply content_sends | apply title_sends; reflexivity | apply checked_sends; [done|lia] | apply number_sends; [done|lia]
        | apply param_sends; done | apply word_if_sends; reflexivity | apply word_sends; reflexivity | apply sends_ret | apply number_text_sends ].

Ltac steps := repeat first [ exact sends_ret | apply sends_last; exact end_sends | apply sends_cons; [try step|] | apply sends_last; step ].

Lemma station_answers method cl ct : method <> HTTP_METHOD_HEAD -> answers (handle_wifi_station (P := P) content method cl ct 54).
Proof.
  intros Hm. apply page_answers; [done|]. cbv zeta. steps.
  apply sends_int8; [done| |lia]. intros n _ _. steps.
Qed.

Lemma ap_answers method cl ct : method <> HTTP_METHOD_HEAD -> answers (handle_wifi_ap (P := P) content method cl ct 54).
Proof.
  intros Hm. apply page_answers; [done|]. cbv zeta. steps.
  - apply sends_int8; [done| |vm_compute; split; congruence]. intros n _ _. steps.
  - intros w Hw. unfold get_int32. rewrite bind_assoc. revert w Hw.
    apply (sends_param [] _ _ _ (fun p Hp => param_get_int32 p m (str "wifi_ap_beacon_interval") Hp ltac:(done))). apply number_text_sends.
Qed.

Lemma challenge_answers method cl ct : method <> HTTP_METHOD_HEAD -> answers (handle_wificfg_challenge (P := P) content method cl ct 54).
Proof. intros Hm. apply page_answers; [done|]. steps. Qed.

(** ** Pages with states *)

Lemma html_sends t : (strlen t <? 2 ^ 20) = true -> G t -> sends [] (chunk (P := P) 54 t).
Proof. intros Hl HG. apply chunk_sends; [unfold short, strlen in *; lia|done]. Qed.

Lemma html_text_sends t : nonzero t -> G (take 53 t) -> sends [] (chunk_text (P := P) 54 t).
Proof. intros Hz HG. by apply text_sends. Qed.

(** What the SDK returns as text. *)
Record interface_texts (i : interface) : Prop := { it_ip6 : Forall nonzero (ip6_addresses i) }.
Record system_texts (sys : system) : Prop := {
  sy_versions : let '(a, b, c) := versions sys in strlen a < 100 /\ strlen b < 100 /\ strlen c < 100;
  sy_station : interface_texts (station sys);
  sy_softap : interface_texts (softap sys);
  sy_peer : match peer sys with Inet6 (Some t) => nonzero t | _ => True end;
}.

Ltac nz :=
  first [ apply nonzero_checked; reflexivity | apply print_u_nonzero | apply print_08x_nonzero | apply ip_text_nonzero | apply MACSTR_nonzero
        | apply states_nonzero | done | apply Forall_app; split; nz ].

(** The facts of a list of texts one by one. *)
Ltac each H := repeat (apply Forall_cons in H as [? H] || apply Forall_app in H as [? H]); clear H.

Ltac html := first [ apply html_sends; [reflexivity|assumption] | apply html_text_sends; [nz|assumption] | exact sends_ret ].

Lemma ip4_sends name what a : name = str "Station" \/ name = str "AP" -> (strlen what <? 100) = true -> Forall G (ip4_lines (name ++ what) a) ->
  Forall (sends []) (write_ip4 (P := P) 54 (name ++ what) a).
Proof.
  intros Hn Hl H. unfold ip4_lines in H. each H. constructor; [|constructor; [html|constructor]]. apply html_sends; [|done].
  assert (Hlen : (length (str "<dt>") = 4 /\ length (str "</dt>") = 5 /\ length name <= 7)%nat) by (by destruct Hn as [-> | ->]; vm_compute; repeat split; lia).
  apply Z.ltb_lt. zbool. unfold strlen in *. rewrite !length_app. lia.
Qed.

Lemma interface_sends name i : name = str "Station" \/ name = str "AP" -> interface_texts i -> Forall G (interface_lines name i) ->
  sends [] (write_interface (P := P) 54 name i).
Proof.
  intros Hn [Hi] H. unfold write_interface. unfold interface_lines in H. apply Forall_app in H as [H1 H], H as [H2 H3].
  apply sends_all. repeat (apply Forall_app; split).
  - destruct (macaddr i) as [hw|]; [|constructor]. each H1. constructor; [destruct Hn as [-> | ->]; html|]. constructor; [html|constructor].
  - destruct (ip_info i) as [[[ip mask] gw]|]; [|constructor]. apply Forall_app in H2 as [? H2], H2 as [? ?].
    repeat (apply Forall_app; split); by apply ip4_sends.
  - clear H1 H2. induction Hi as [|t ts Ht _ IH]; [constructor|]. cbn [fmap list_fmap concat] in H3 |- *. apply Forall_app in H3 as [H1 H3].
    apply Forall_app. split; [|by apply IH]. each H1. constructor; [destruct Hn as [-> | ->]; html|]. constructor; [by apply html_text_sends|].
    constructor; [html|constructor].
Qed.

Lemma peer_sends sys : system_texts sys -> Forall G (peer_lines sys) -> sends [] (write_peer (P := P) 54 sys).
Proof.
  intros [_ _ _ Hp] H. unfold write_peer. unfold peer_lines in H.
  destruct (peer sys) as [a b c d|a b c d|[t|]|]; [| | | |exact sends_ret];
    each H; apply sends_all; repeat (constructor; [first [html|by apply html_text_sends]|]); constructor.
Qed.

Lemma hostname_sends : G (str "<dt>Hostname</dt><dd>") -> G (str "</dd>") -> sends [] (write_hostname (P := P) 54).
Proof.
  intros G1 G2. unfold write_hostname. apply sends_string; [done|]. pose proof (text_value_nonzero (m !! str "hostname")) as Hz.
  destruct (text_value (m !! str "hostname")) as [h|]; [|exact sends_ret]. intros w Hw.
  destruct (html_sends (str "<dt>Hostname</dt><dd>") eq_refl G1 w Hw) as (r & w1 & E & R & S). run E. rewrite (proj2 (Z.ltb_ge _ 0)) by lia.
  destruct (sends_all [chunk_escaped 54 h; chunk 54 (str "</dd>")]) with (w := w1) as (r2 & w2 & E2 & R2 & S2); [|apply S|].
  - constructor; [apply escaped_sends; by apply Hz|]. constructor; [html|constructor].
  - exists r2, w2. split; [done|]. split; [done|]. exact (sent_trans _ _ _ _ S S2).
Qed.

Lemma index_answers sys method cl ct : method <> HTTP_METHOD_HEAD -> system_texts sys -> Forall G (index_lines (chip_size (P := P)) sys) ->
  answers (handle_wificfg_index (P := P) content sys method cl ct 54).
Proof.
  intros Hm Hs H. unfold handle_wificfg_index. unfold index_lines in H. pose proof (sy_versions sys Hs) as Hv.
  destruct (versions sys) as [[v1 v2] v3]. destruct Hv as (L1 & L2 & L3).
  apply Forall_app in H as [Hf H], H as [Hst H], H as [Hap Hpe]. each Hf.
  assert (Hver : forall a v b, strlen v < 100 -> (strlen (a ++ b) <? 1000) = true -> G (a ++ v ++ b) -> sends [] (chunk (P := P) 54 (a ++ v ++ b))).
  { intros a v b Hv Hab HG. apply html_sends; [|done]. apply Z.ltb_lt. zbool. unfold strlen in *. rewrite !length_app in *. lia. }
  apply page_answers; [done|]. cbv zeta.
  repeat first [ apply sends_last; exact end_sends | apply sends_cons;
    [try first [ apply content_sends | apply title_sends; reflexivity | by apply hostname_sends | by apply peer_sends | apply param_sends; done
               | apply Hver; [done|reflexivity|done] | apply html_text_sends; [nz|assumption] ]|] ].
  - case_if; [|exact sends_ret]. apply sends_all. repeat (constructor; [html|]). constructor.
  - case_if; [|exact sends_ret]. apply interface_sends; [by left|apply Hs|done].
  - case_if; [|exact sends_ret]. apply interface_sends; [by right|apply Hs|done].
Qed.

Lemma tasks_answers tasks method cl ct : method <> HTTP_METHOD_HEAD ->
  (forall ts, tasks = Some ts -> Forall (fun t => nonzero (pcTaskName t)) ts) -> Forall G (tasks_lines tasks) ->
  answers (handle_tasks (P := P) content tasks method cl ct 54).
Proof.
  intros Hm Hn H. apply page_answers; [done|]. cbv zeta. apply sends_cons; [apply content_sends|]. apply sends_cons; [apply title_sends; reflexivity|].
  apply sends_cons; [apply content_sends|]. apply sends_cons; [|apply sends_cons; [apply content_sends|]; apply sends_last; exact end_sends].
  destruct tasks as [ts|]; [|exact sends_ret]. specialize (Hn ts eq_refl). unfold tasks_lines in H.
  apply Forall_cons in H as [? H]. apply Forall_cons in H as [? H]. apply sends_all.
  constructor; [html|]. apply Forall_app. split; [|constructor; [html|constructor]].
  induction Hn as [|t ts Ht _ IH]; [constructor|]. cbn [fmap list_fmap concat] in H |- *. apply Forall_app in H as [Ht1 H].
  constructor; [|by apply IH]. unfold write_task. unfold task_lines in Ht1. each Ht1. apply sends_all. repeat (constructor; [html|]). constructor.
Qed.

End Sends.
End WificfgSends.
