(* ===== verification/WificfgContract.v ===== *)
(** * Wi-Fi configuration: theorems

    A locked configuration stays as it is, a form is saved as it was sent,
    the password of the challenge unlocks, texts are decoded and escaped
    without loss, chunks are the same by both ways, and the DNS server
    answers queries and overruns its buffer on others. *)

From stdpp Require Import gmap strings.
From S2P Require Import Prelude CStrings Flash Spiflash Sysparam SysparamLog SysparamProofs SysparamScan SysparamStore SysparamSet SysparamPairs SysparamSpec SysparamContract.
From S2P Require Import Wificfg WificfgPages WificfgServer WificfgText WificfgForms WificfgPost WificfgSafe WificfgParams WificfgInit WificfgSends.
Open Scope Z_scope.

Module WificfgContract.
Import CLib Wificfg WificfgPages WificfgServer WificfgText WificfgOut WificfgForms WificfgPost WificfgSave WificfgSafe WificfgLock WificfgMap WificfgStatus WificfgSends.

(** ** The forms *)

Inductive form := IndexForm | StationForm | ApForm.

Definition form_path (f : form) : list Z :=
  match f with IndexForm => str "/wificfg/" | StationForm => str "/wificfg/sta.html" | ApForm => str "/wificfg/ap.html" end.

Definition form_writes (f : form) : list (list Z * list Z) -> list param_write :=
  match f with IndexForm => index_writes | StationForm => station_writes | ApForm => ap_writes end.

Section Contract.
Context {P : Type} `{HP : Params P} {PL : ParamLaws P}.
Implicit Types (w : web P) (m : pmap).

Definition form_post (f : form) : wificfg_handler P :=
  match f with
  | IndexForm => handle_wificfg_index_post
  | StationForm => handle_wifi_station_post
  | ApForm => handle_wifi_ap_post
  end.

Lemma form_keys f fs : Forall (fun x => key_ok (write_key x)) (form_writes f fs).
Proof. destruct f; [apply index_keys|apply station_keys|apply ap_keys]. Qed.

(** Whatever is sent, the handler makes the writes of the fields it reads. *)
Lemma form_post_ok f method content_length w p' :
  sized w -> 0 <= content_length < 2 ^ 32 ->
  apply_writes (form_writes f (form_fields (S (length (input w))) (length (buf w)) false content_length (input w))) (store w) = Done (tt, p') ->
  exists r w', form_post f method content_length HTTP_CONTENT_TYPE_WWW_FORM_URLENCODED (Z.of_nat (length (buf w))) w = Done (r, w') /\
    answered_with w w' p' [http_redirect_header].
Proof.
  intros Hw Hc E. destruct f.
  - apply (form_handler_ok _ index_step _ _ (fun _ => [])); [apply index_acts|apply index_finish_ok|done..|]. by rewrite app_nil_r.
  - by apply (form_handler_ok _ station_step _ _ station_commit); [apply station_acts|apply station_finish_ok|..].
  - by apply (form_handler_ok _ ap_step _ _ ap_commit); [apply ap_acts|apply ap_finish_ok|..].
Qed.

(** C18. A form sent to one of the three pages, in any of the encodings of
    its names and values that fit the buffer, is saved: the parameters are
    afterwards those that the fields of the form ask for and otherwise what
    they were, and the browser is sent back to the start page. *)
Theorem wificfg_form_saved f method w m ps text tail :
  holds (store w) m -> length (buf w) = 54%nat -> Z.of_nat (length (input w)) < 2 ^ 31 ->
  form_text 54 ps text -> input w = (Some <$> text) ++ tail -> admits_all (store w) (form_writes f ps) ->
  exists r w', form_post f method (Z.of_nat (length text)) HTTP_CONTENT_TYPE_WWW_FORM_URLENCODED 54 w = Done (r, w') /\
    holds (store w') (assigned (form_writes f ps) m) /\ out w' = out w ++ [http_redirect_header] /\ events w' = events w.
Proof.
  intros Hm Hl Hi Ht Hin Ha. destruct (apply_writes_ok _ (store w) m Hm (form_keys f ps) Ha) as (p' & E & Hp').
  assert (Hlen : Z.of_nat (length text) < 2 ^ 31) by (rewrite Hin, length_app, length_fmap in Hi; lia).
  destruct (form_post_ok f method (Z.of_nat (length text)) w p') as (r & w' & Er & [A1 A2 A3 _ _ _]).
  - split; [intros E0; by rewrite E0 in Hl|lia|done].
  - lia.
  - rewrite Hl, Hin, (form_text_fields 54 ps text Ht); [done|]. rewrite length_app, length_fmap. lia.
  - exists r, w'. rewrite Hl in Er. split; [exact Er|]. by rewrite A1.
Qed.

(** ** The lock *)

(** C17. With [cfg_enable] 0 and a password, whatever the clients send on any
    number of connections, as long as no part of it reads as the password,
    the server returns from each, and the parameters are the same afterwards
    (but for the note a first connection of the station makes); no
    restart, erasure or shutdown hook has taken place.  Pages of the
    application that ask for the password, and pages that only answer, do not
    matter. *)
Theorem wificfg_locked_safe content malloc_ok station_netif softap_netif dispatch index tasks conns w m pw :
  holds (store w) m -> length (buf w) = 54%nat -> locked m pw -> may_note (store w) (got_sta_connect w) ->
  (forall p i, short (content p i)) -> only_answers tasks ->
  Forall (fun d => d_secure d = true \/ only_answers (d_handler d)) dispatch ->
  Forall (fun a => match a with Some a => no_password pw a | None => True end) conns ->
  exists r w' m', server_task content malloc_ok station_netif softap_netif dispatch (wificfg_dispatch_list content index tasks) conns w = Done (r, w') /\
    holds (store w') m' /\ (m' = m \/ m' = <[str "wifi_ap_disabled_restarts" := (true, [1])]> m) /\
    events w' = events w ++ replicate (length (omap id conns)) Close /\ shutdown_hooks w' = shutdown_hooks w.
Proof.
  intros Hm Hl Hlk Hn Hc Ht Hd Hconns.
  destruct (task_locked content dispatch m pw Hc Hlk Hd index tasks Ht malloc_ok station_netif softap_netif conns w Hconns Hm Hl Hn)
    as (r & w' & E & [(m' & A & B) _ C D]).
  by exists r, w', m'.
Qed.

(** C32. The password, sent to the page of the challenge in any encoding that
    fits the buffer, sets [cfg_enable]; nothing else is changed. *)
Theorem wificfg_challenge_unlocks method w m pw text tail :
  holds (store w) m -> length (buf w) = 54%nat -> Z.of_nat (length (input w)) < 2 ^ 31 ->
  m !! str "cfg_enable" = Some (true, [0]) -> m !! str "cfg_password" = Some (false, pw) -> pw <> [] -> nonzero pw ->
  form_text 54 [(str "cfg_password", pw)] text -> input w = (Some <$> text) ++ tail ->
  admits_all (store w) [PInt8 (str "cfg_enable") 1] ->
  exists r w', handle_wificfg_challenge_post method (Z.of_nat (length text)) HTTP_CONTENT_TYPE_WWW_FORM_URLENCODED 54 w = Done (r, w') /\
    holds (store w') (<[str "cfg_enable" := (true, [1])]> m) /\ out w' = out w ++ [http_redirect_header] /\ events w' = events w.
Proof.
  intros Hm Hl Hi He Hp Hne Hnz Ht Hin Ha. unfold handle_wificfg_challenge_post. rewrite bool_decide_true by done. cbn [negb].
  destruct (param_get_int8 (store w) m (str "cfg_enable") Hm ltac:(done)) as (p1 & E1 & H1 & R1). rewrite He in E1.
  unfold get_int8. rewrite bind_assoc. run (on_store_Done _ w _ _ E1). erewrite bind_Done by reflexivity.
  destruct (param_get_string p1 m (str "cfg_password") H1 ltac:(done)) as (p2 & E2 & H2 & R2). rewrite Hp in E2. cbn [text_value] in E2.
  rewrite cut0_id in E2 by done. run (on_store_Done _ (with_store w p1) _ _ E2). set (w2 := with_store (with_store w p1) p2).
  change (default 1 (int_value 1 s8 (Some (true, [0]))) =? 0) with true.
  assert ((strlen pw =? 0) = false) as -> by (destruct pw; [done|]; apply Z.eqb_neq; unfold strlen; cbn [length]; lia).
  cbn [andb negb]. rewrite !bind_assoc.
  assert (Hlen : Z.of_nat (length text) < 2 ^ 31) by (rewrite Hin, length_app, length_fmap in Hi; lia).
  destruct (param_set_int8 p2 m (str "cfg_enable") 1 H2 ltac:(done) (proj1 (Ha p2 (reads_trans _ _ _ R1 R2)))) as (p3 & E3 & H3).
  pose proof (read_form_ok _ _ (challenge_acts pw) (Z.of_nat (length text)) tt w2 p3) as Hrf. cbv zeta in Hrf. cbn [buf input w2 with_store] in Hrf.
  rewrite Hl, Hin, (form_text_fields 54 _ text Ht) in Hrf by (rewrite length_app, length_fmap; lia).
  assert (Hrun : run_fields (challenge_step pw) [(str "cfg_password", pw)] tt = ([PInt8 (str "cfg_enable") 1], tt)).
  { cbn [run_fields]. change (intern_form_name (str "cfg_password")) with FORM_NAME_CFG_PASSWORD. cbn [challenge_step].
    by rewrite bool_decide_true. }
  rewrite Hrun in Hrf. destruct Hrf as (w3 & Er & w4 & R & ->).
  - split; [intros E0; change (buf w = []) in E0; by rewrite E0 in Hl|change (Z.of_nat (length (buf w)) < 2 ^ 32); lia|exact Hi].
  - lia.
  - cbn [fst]. rewrite apply_one. exact E3.
  - run Er. destruct (param_free p3 _ H3) as (p4 & E4 & H4 & _). run (on_store_Done _ (with_store w4 p3) _ _ E4).
    destruct (write_answers w2 (with_store (with_store w4 p3) p4) p4 http_redirect_header) as (r & w5 & E5 & [A1 A2 A3 _ _ _]).
    { exists w4. by destruct w4. }
    exists r, w5. split; [exact E5|]. rewrite A1, A2, A3. split; [exact H4|done].
Qed.

(** ** Chunks *)

(** A string is sent as one chunk, its size in hexadecimal in front,
    whether it is put together in the buffer and sent at once or, being too
    long for the buffer, sent in three parts. *)
Theorem wificfg_chunk_equivalent w s :
  (length (buf w) <= 262)%nat -> write_results w = [] -> s <> [] -> Z.of_nat (length s) < 2 ^ 20 ->
  exists r w' parts, wificfg_write_string_chunk s (Z.of_nat (length (buf w))) w = Done (r, w') /\
    out w' = out w ++ parts /\ concat parts = chunk_of s /\ 0 <= r /\ store w' = store w /\ input w' = input w.
Proof.
  intros Hb Hr Hne Hs. destruct (chunk_parts w s Hb Hr Hne Hs) as (r & w' & parts & H1 & H2 & H3 & H4 & H5 & H6 & _).
  by exists r, w', parts.
Qed.

End Contract.

(** ** The pages *)

(** The list of tasks asks for no password and only answers. *)
Lemma tasks_only_answer {P : Type} `{HP : Params P} {PL : ParamLaws P} content tasks :
  (forall p i, short (content p i)) -> only_answers (handle_tasks (P := P) content tasks).
Proof.
  intros Hc p0 m inp es got hooks _ method cl ct _. unfold handle_tasks, html_page. eapply returns_bind; [apply write_calm|]. intros r.
  case_if; [by apply returns_ret|]. case_if; [|by apply returns_ret]. apply write_steps_calm. constructor; [by apply chunk_calm|].
  constructor; [by apply title_calm|]. constructor; [by apply chunk_calm|]. constructor; [|constructor; [by apply chunk_calm|]; constructor; [apply write_calm|constructor]].
  destruct tasks as [ts|]; [|by apply returns_ret]. apply write_steps_calm. constructor; [by apply chunk_calm|]. apply Forall_app.
  split; [|constructor; [by apply chunk_calm|constructor]]. apply Forall_fmap, Forall_forall. intros t _. apply write_steps_calm.
  repeat (constructor; [apply chunk_text_calm|]). constructor.
Qed.

(** The pages that are made of parameters and states. *)
Inductive made_page := StationPage | ApPage | ChallengePage | IndexPage (sys : system) | TasksPage (tasks : option (list task_status)).

Section MadePages.
Context {P : Type} `{HP : Params P} {PL : ParamLaws P}.
Context (content : page -> nat -> list Z).

Definition page_handler (k : made_page) : wificfg_handler P :=
  match k with
  | StationPage => handle_wifi_station content
  | ApPage => handle_wifi_ap content
  | ChallengePage => handle_wificfg_challenge content
  | IndexPage sys => handle_wificfg_index content sys
  | TasksPage tasks => handle_tasks content tasks
  end.

(** What the SDK and the kernel give as texts are texts. *)
Definition page_texts (k : made_page) : Prop :=
  match k with
  | IndexPage sys => system_texts sys
  | TasksPage (Some tasks) => Forall (fun t => nonzero (pcTaskName t)) tasks
  | _ => True
  end.

(** The texts about the state of the system in the pages that have them. *)
Definition state_lines (k : made_page) : list (list Z) :=
  match k with
  | IndexPage sys => index_lines (chip_size (P := P)) sys
  | TasksPage tasks => tasks_lines tasks
  | _ => []
  end.

(** What a page is made of: its fragments, the texts about the state of the
    system, and texts with no quotes and no angle brackets. *)
Definition page_text (k : made_page) (t : list Z) : Prop :=
  clean t \/ (exists p i, t = content p i) \/ t ∈ state_lines k.

(** C23. Whatever the parameters hold, a request for a page (other than HEAD,
    and as long as writes to the connection succeed) is answered to the end:
    the header, and a sequence of chunks that a client puts together to texts,
    with the mark of the end behind.  In all five pages every text is a
    fragment of the page, or one of the texts about the state of the system,
    which do not depend on the parameters, or has no character that could end
    an attribute or begin a tag: stored names and passwords, the one in the
    form of the index page included, cannot break out. *)
Theorem wificfg_page_sent k method content_length content_type w m :
  (forall p i, short (content p i)) -> page_texts k -> method <> HTTP_METHOD_HEAD ->
  holds (store w) m -> length (buf w) = 54%nat -> write_results w = [] ->
  exists r w' parts texts, page_handler k method content_length content_type 54 w = Done (r, w') /\ 0 <= r /\
    out w' = out w ++ http_success_header :: parts /\ concat parts = concat (chunk_of <$> texts) ++ str "0" ++ eol ++ eol /\
    Forall (fun t => t <> [] /\ page_text k t) texts /\ holds (store w') m /\ events w' = events w.
Proof.
  intros Hc Hk Hm Hw Hl Hr.
  assert (Ho : opened m w) by done.
  assert (Ha : answers m (page_text k) (page_handler k method content_length content_type 54)).
  { destruct k as [| | |sys|tasks]; cbn [page_handler page_texts] in *.
    - apply station_answers; [by left|done|by right; left; eexists _, _|done].
    - apply ap_answers; [by left|done|by right; left; eexists _, _|done].
    - apply challenge_answers; [by left|done|by right; left; eexists _, _|done].
    - apply index_answers; [by left|done|by right; left; eexists _, _|done|done|]. apply Forall_forall. by right; right.
    - apply tasks_answers; [by left|done|by right; left; eexists _, _|done|intros ts ->; done|]. apply Forall_forall. by right; right. }
  destruct (Ha w Ho) as (r & w' & E & R & [[H1 H2 H3] (V & parts & texts & O & C & F)]).
  exists r, w', parts, texts. split; [done|]. split; [done|]. split; [rewrite O; cbn; by rewrite <-app_assoc|]. done.
Qed.
End MadePages.

(** ** Texts *)

(** Decoding gives back a text without zero bytes from any of its
    encodings: bytes as they are, a plus sign for a space, or two hexadecimal
    digits in either case. *)
Theorem wificfg_url_decode_roundtrip bs e rest :
  encoded bs e -> nonzero bs -> exists rest', wificfg_form_url_decode (e ++ 0 :: rest) = Some (bs ++ 0 :: rest') /\
    length (bs ++ 0 :: rest') = length (e ++ 0 :: rest).
Proof.
  intros He Hn. destruct (form_url_decode_ok e rest) as (rest' & E & Hl).
  - eapply Forall_impl; [exact (encoded_text bs e He)|]. by intros c (? & _).
  - rewrite (url_decode_encoded bs e He) in *. by exists rest'.
Qed.

(** Escaping stays in the block, ends the text in it, and the text shows
    the longest part of the string there is room for: none of its characters
    is a quote or an angle bracket, and reading the entities gives that part
    of the string back. *)
Theorem wificfg_html_escape_fits s mem :
  (6 <= length mem)%nat -> Z.of_nat (length mem) < 2 ^ 32 -> nonzero s ->
  exists k text rest, wificfg_html_escape s mem (Z.of_nat (length mem)) = Some (text ++ 0 :: rest) /\ length (text ++ 0 :: rest) = length mem /\
    nonzero text /\ Forall (fun c => c <> 60 /\ c <> 62 /\ c <> 34) text /\ unescape (length text) text = take k s /\
    (length s <= k \/ length mem <= length (escape (take (S k) s)))%nat.
Proof.
  intros H6 H32 Hs. destruct (escape_loop_ok s [] mem H6 H32) as (k & rest & E & Hl & _ & Hk); [intros ->; cbn in H6; lia|].
  exists k, (escape (take k s)), rest. split; [exact E|]. split; [exact Hl|]. split; [apply escape_nonzero, Forall_take, Hs|].
  split; [apply escape_clean|]. split; [by apply unescape_escape|exact Hk].
Qed.

(** ** The DNS server *)

(** The answer to a query with the name [labels]. *)
Definition dns_answer (id labels server_addr : list Z) : list Z :=
  id ++ [0x80; 0; 0; 1; 0; 1; 0; 0; 0; 0] ++ labels ++ [0] ++ [0; 1; 0; 1; 0xC0; 0x0C; 0; 1; 0; 1; 0; 0; 0; 0x78; 0; 4] ++ server_addr.

Lemma put_at_out mem off bs : Z.of_nat (length mem) < off + Z.of_nat (length bs) -> put_at mem off bs = None.
Proof. intros H. unfold put_at. rewrite (proj2 (Z.ltb_lt (Z.of_nat _) _)) by done. by rewrite orb_true_r. Qed.

(** C34. The DNS server answers a query for a name of at most 63 bytes, as
    encoded, with its own address; a message of a longer name, up to the 80
    bytes that are let through, is answered past the end of the buffer. *)
Theorem wificfg_dns_answers buffer id flags labels tail server_addr :
  length buffer = 96%nat -> length id = 2%nat -> length flags = 10%nat -> length server_addr = 4%nat ->
  nonzero labels -> (length labels + length tail <= 67)%nat ->
  exists b, dns_turn buffer (id ++ flags ++ labels ++ 0 :: tail) server_addr =
    if decide (length labels <= 63)%nat then Some (b, Some (dns_answer id labels server_addr)) else None.
Proof.
  intros Hb Hid Hfl Ha Hn Hl. unfold dns_turn. set (packet := id ++ flags ++ labels ++ 0 :: tail).
  assert (Hp : length packet = (13 + length labels + length tail)%nat) by (unfold packet; rewrite !length_app; cbn [length]; lia).
  pose proof (store_first [] buffer packet ltac:(lia)) as E. cbn [app length] in E. change (Z.of_nat 0) with 0 in E. rewrite E. cbn [mbind option_bind].
  rewrite (proj2 (andb_true_iff _ _)) by (split; [apply Z.ltb_lt|apply Z.leb_le]; lia). unfold dns_reply.
  set (old := drop (length packet) buffer). assert (Hold : length old = (96 - length packet)%nat) by (unfold old; rewrite length_drop; lia).
  assert (Hname : string_at (packet ++ old) 12 = Some labels).
  { unfold string_at. change (12 <? 0) with false. change (Z.to_nat 12) with 12%nat. unfold packet. rewrite (app_assoc id), <-!(app_assoc (id ++ flags)).
    replace 12%nat with (length (id ++ flags)) by (rewrite length_app; lia). rewrite drop_app_length, <-app_assoc. by apply c_string_app. }
  rewrite Hname. cbn [mbind option_bind]. set (hdr := [128; 0; 0; 1; 0; 1; 0; 0; 0; 0]).
  assert (E2 : put_at (packet ++ old) 2 hdr = Some (id ++ hdr ++ labels ++ 0 :: tail ++ old)).
  { unfold packet. rewrite <-!app_assoc. cbn [app].
    replace 2 with (Z.of_nat (length id)) by lia. by apply put_at_app. }
  rewrite E2. cbn [mbind option_bind]. set (fixed := _ ++ server_addr). set (pre := id ++ hdr ++ labels ++ [0]).
  assert (Hhdr : length hdr = 10%nat) by done. assert (Hpre : length pre = (13 + length labels)%nat) by (unfold pre; rewrite !length_app; cbn [length]; lia).
  assert (Hfix : length fixed = 20%nat) by (unfold fixed; rewrite length_app; cbn [length]; lia).
  replace (id ++ hdr ++ labels ++ 0 :: tail ++ old) with (pre ++ tail ++ old) by (unfold pre; by rewrite <-!app_assoc).
  replace (12 + (strlen labels + 1)) with (Z.of_nat (length pre)) by (unfold strlen; lia). case_decide as Hfit.
  - rewrite store_first by (rewrite length_app; lia). cbn [mbind option_bind]. set (rest := drop _ _). exists (pre ++ fixed ++ rest).
    rewrite (proj2 (Z.ltb_ge _ _)).
    2: { unfold rest. rewrite !length_app, length_drop, length_app. unfold strlen. lia. }
    do 3 f_equal. unfold sub_bytes. rewrite drop_0. replace (Z.to_nat _) with (length (pre ++ fixed)) by (rewrite length_app; unfold strlen; lia).
    rewrite app_assoc, take_app_length. unfold pre, fixed, dns_answer. by rewrite <-!app_assoc.
  - exists []. rewrite put_at_out by (rewrite !length_app; lia). done.
Qed.

(** ** The theorems applied *)

Definition web_of {P} (p : P) (text : list Z) (got : bool) : web P :=
  {| store := p; input := Some <$> text; buf := replicate 54 7; out := []; write_results := []; events := [];
     got_sta_connect := got; shutdown_hooks := [1] |}.

Definition secret : list Z := str "s3cr&t".
Definition locked_map : pmap := <[str "cfg_enable" := (true, [0])]> (<[str "cfg_password" := (false, secret)]> ∅).

(** No part of a text reads as [s], tried one by one. *)
Definition without_check (s text : list Z) : bool :=
  forallb (fun i => forallb (fun n => negb (bool_decide (field_text 54 (take n (drop i text)) = s))) (seq 0 (S (length text))))
    (seq 0 (S (length text))).

Lemma without_checked s text : without_check s text = true -> without s (Some <$> text).
Proof.
  intros H a e b E. assert (He : e = take (length e) (drop (length a) text)).
  { apply (inj (fmap Some)). rewrite fmap_take, fmap_drop, E, drop_app_length.
    rewrite <-(length_fmap Some e), take_app_length. done. }
  unfold without_check in H. rewrite forallb_forall in H. assert (Hl : (length a + length e <= length text)%nat).
  { apply (f_equal length) in E. rewrite length_fmap, !length_app, length_fmap in E. lia. }
  specialize (H (length a)). rewrite forallb_forall in H. specialize (H ltac:(apply in_seq; lia) (length e) ltac:(apply in_seq; lia)).
  rewrite <-He in H. zbool. by apply bool_decide_eq_false in H.
Qed.

Definition guess : list Z :=
  str "POST /challenge.html HTTP/1.1" ++ eol ++ str "Content-Type: application/x-www-form-urlencoded" ++ eol ++
  str "Content-Length: 18" ++ eol ++ eol ++ str "cfg_password=s3cr&".
Definition restart : list Z := str "POST /wificfg/restart.html HTTP/1.1" ++ eol ++ eol.
Definition client_sends (text : list Z) : arrived :=
  {| a_input := Some <$> text; a_write_results := []; a_sockname := Inet 172 16 0 1; a_got_ip := true |}.

Lemma client_sends_ok text : (Z.of_nat (length text) <? 2 ^ 31) = true -> without_check secret text = true -> no_password secret (client_sends text).
Proof. intros H1 H2. split; [cbn [a_input client_sends]; rewrite length_fmap; lia|by apply without_checked]. Qed.

Lemma wificfg_locked_safe_witness :
  exists r (w' : web pmap) m', server_task (fun _ _ => str "<html>") true true true []
      (wificfg_dispatch_list (fun _ _ => str "<html>") (fun _ _ _ _ => ret 0) (handle_tasks (fun _ _ => str "<html>") None))
      [Some (client_sends guess); None; Some (client_sends restart)] (web_of locked_map [] false) = Done (r, w') /\
    store w' = m' /\ (m' = locked_map \/ m' = <[str "wifi_ap_disabled_restarts" := (true, [1])]> locked_map) /\
    events w' = [Close; Close] /\ shutdown_hooks w' = [1].
Proof.
  assert (H1 : without_check secret guess = true) by (vm_compute; reflexivity).
  assert (H2 : without_check secret restart = true) by (vm_compute; reflexivity).
  destruct (wificfg_locked_safe (fun _ _ => str "<html>") true true true [] (fun _ _ _ _ => ret 0) (handle_tasks (fun _ _ => str "<html>") None)
    [Some (client_sends guess); None; Some (client_sends restart)] (web_of locked_map [] false) locked_map secret)
    as (r & w' & m' & E1 & E2 & E3 & E4 & E5).
  - reflexivity.
  - reflexivity.
  - split; reflexivity.
  - right. intros p _. split; [exact I|done].
  - intros p i. reflexivity.
  - apply tasks_only_answer. intros p i. reflexivity.
  - constructor.
  - constructor; [by apply client_sends_ok|]. constructor; [exact I|]. constructor; [by apply client_sends_ok|constructor].
  - exists r, w', m'. split; [exact E1|]. split; [exact E2|]. split; [exact E3|]. split; [exact E4|exact E5].
Defined.

(** Encodings by their parts. *)
Lemma plain (s : list Z) : forallb (fun c => negb (c =? 37) && negb (c =? 43) && negb (c =? 38) && negb (c =? 61) && negb (c =? 0)) s = true -> encoded s s.
Proof.
  induction s as [|c s IH]; cbn [forallb]; [intros _; constructor|]. intros H. zbool. constructor; try done. by apply IH.
Qed.

Lemma secret_encoded : encoded secret (str "s3cr%26t").
Proof.
  do 4 (apply encoded_plain; [done..|]). apply (encoded_hex 38 2 6); [done|done|done|]. by apply (plain (str "t")).
Qed.

Definition unlock_text : list Z := str "cfg_password=s3cr%26t".

Lemma wificfg_challenge_unlocks_witness :
  exists r w', handle_wificfg_challenge_post HTTP_METHOD_POST 21 HTTP_CONTENT_TYPE_WWW_FORM_URLENCODED 54 (web_of locked_map unlock_text false) = Done (r, w') /\
    store w' = <[str "cfg_enable" := (true, [1])]> locked_map /\ out w' = [http_redirect_header] /\ events w' = [].
Proof.
  destruct (wificfg_challenge_unlocks HTTP_METHOD_POST (web_of locked_map unlock_text false) locked_map secret unlock_text [])
    as (r & w' & E1 & E2 & E3 & E4).
  - reflexivity.
  - reflexivity.
  - vm_compute. reflexivity.
  - reflexivity.
  - reflexivity.
  - discriminate.
  - by repeat constructor.
  - apply (form_last 54 _ _ (str "cfg_password") (str "s3cr%26t")); [by apply plain|exact secret_encoded|cbn; lia|cbn; lia|by repeat constructor|by repeat constructor].
  - cbn [web_of input]. by rewrite app_nil_r.
  - intros p _. split; [exact I|done].
  - exists r, w'. split; [exact E1|]. split; [exact E2|]. split; [exact E3|exact E4].
Defined.

(** A name and a password that would break out of the pages. *)
Definition named : pmap := <[str "hostname" := (false, str "<esp>")]> {[str "cfg_password" := (false, [34; 62; 60; 98; 62])]}.

Definition quiet_system : system :=
  {| chip_id := 0x12abc; uptime := 60; free_heap := 40000; flash_id := 0x1640e0; versions := (str "2.0", str "10", str "3");
     sleep_type := 2; opmode := 2; wifi_channel := 6; phy_mode := 3;
     station := {| macaddr := None; ip_info := None; ip6_addresses := [] |};
     softap := {| macaddr := Some [1; 2; 3; 4; 5; 6]; ip_info := None; ip6_addresses := [] |};
     peer := Inet 172 16 0 2; peer_port := 5000 |}.

Lemma wificfg_page_sent_witness :
  exists r (w' : web pmap) parts texts,
    handle_wificfg_index (fun _ _ => str "<p>") quiet_system HTTP_METHOD_GET 0 HTTP_CONTENT_TYPE_OTHER 54 (web_of named [] false) = Done (r, w') /\
    out w' = http_success_header :: parts /\ concat parts = concat (chunk_of <$> texts) ++ str "0" ++ eol ++ eol /\
    Forall (fun t => t <> [] /\ page_text (fun _ _ => str "<p>") (P := pmap) (IndexPage quiet_system) t) texts.
Proof.
  destruct (wificfg_page_sent (fun _ _ => str "<p>") (IndexPage quiet_system) HTTP_METHOD_GET 0 HTTP_CONTENT_TYPE_OTHER (web_of named [] false) named)
    as (r & w' & parts & texts & E & _ & O & C & F & _).
  - intros p i. reflexivity.
  - split; [vm_compute; repeat split|split; constructor|split; constructor|exact I].
  - discriminate.
  - reflexivity.
  - reflexivity.
  - reflexivity.
  - exists r, w', parts, texts. split; [exact E|]. split; [exact O|]. split; [exact C|exact F].
Defined.

Lemma wificfg_chunk_equivalent_witness :
  exists r w' parts, wificfg_write_string_chunk (str "checked") 54 (web_of (∅ : pmap) [] false) = Done (r, w') /\
    out w' = parts /\ concat parts = str "7" ++ eol ++ str "checked" ++ eol.
Proof.
  destruct (wificfg_chunk_equivalent (web_of (∅ : pmap) [] false) (str "checked")) as (r & w' & parts & H1 & H2 & H3 & _).
  - cbn. lia.
  - reflexivity.
  - discriminate.
  - reflexivity.
  - exists r, w', parts. split; [exact H1|]. split; [exact H2|exact H3].
Defined.

(** *** The parameter store in flash *)

Section OnFlash.
Import Nor.

Definition name_text : list Z := str "hostname=esp".

Lemma name_room f lv : has_room (SysparamSpec.heap_world (mount f) [] lv) (str "hostname") (str "esp").
Proof.
  right. split.
  - split; unfold byteP; cbn; try lia; by repeat constructor; lia.
  - intros es Hes. assert (es = []) as ->.
    { pose proof (rh_end _ _ (st_region _ _ Hes)) as He. cbn in He. destruct es as [|e es]; [done|].
      rewrite log_size_cons in He. pose proof (e_size_pos e). pose proof (log_size_nonneg es). lia. }
    apply can_append; [right; unfold last_key_id, MAX_KEY_ID; cbn; lia|].
    unfold room, space_for, region_top. rewrite decide_False by (unfold key_names; cbn; set_solver). cbn. lia.
Qed.

Lemma wificfg_form_saved_witness :
  exists f r (w' : web (Sysparam.world (Spiflash.Driver.flash_state nor))), SysparamStore.store (mount f) [] /\
    form_post StationForm HTTP_METHOD_POST (Z.of_nat (length name_text)) HTTP_CONTENT_TYPE_WWW_FORM_URLENCODED 54 (web_of (mount f) name_text false) = Done (r, w') /\
    represents (store w') {[str "hostname" := (false, str "esp")]} /\ out w' = [http_redirect_header].
Proof.
  destruct empty_store as (f & Hst).
  destruct (wificfg_form_saved StationForm HTTP_METHOD_POST (web_of (mount f) name_text false) ∅ [(str "hostname", str "esp")] name_text [])
    as (r & w' & E & H1 & H2 & _).
  - split; [reflexivity|]. split; [reflexivity|]. exists []. split; [exact Hst|]. intros k. by rewrite lookup_empty.
  - reflexivity.
  - vm_compute. reflexivity.
  - apply (form_last 54 _ _ (str "hostname") (str "esp")); [by apply plain|by apply plain|cbn; lia|cbn; lia|by repeat constructor|by repeat constructor].
  - cbn [web_of input]. by rewrite app_nil_r.
  - intros p1 [lv ->]. split; [exact (name_room f lv)|intros ? _; exact I].
  - exists f, r, w'. split; [exact Hst|]. split; [exact E|]. split; [exact H1|exact H2].
Defined.
End OnFlash.

(** *** Texts and packets *)

Lemma wificfg_url_decode_roundtrip_witness : exists rest',
  wificfg_form_url_decode (str "s3cr%26t" ++ [0]) = Some (secret ++ 0 :: rest') /\ length (secret ++ 0 :: rest') = 9%nat.
Proof. apply (wificfg_url_decode_roundtrip secret (str "s3cr%26t") []); [exact secret_encoded|by repeat constructor]. Defined.

Lemma wificfg_html_escape_fits_witness : exists k text rest,
  wificfg_html_escape (str "<b>&") (replicate 12 7) 12 = Some (text ++ 0 :: rest) /\ unescape (length text) text = take k (str "<b>&").
Proof.
  destruct (wificfg_html_escape_fits (str "<b>&") (replicate 12 7)) as (k & text & rest & H1 & _ & _ & _ & H2 & _).
  - cbn. lia.
  - reflexivity.
  - by repeat constructor.
  - exists k, text, rest. split; [exact H1|exact H2].
Defined.

Lemma wificfg_dns_answers_witness : exists b,
  dns_turn (replicate 96 7) (replicate 12 1 ++ [3] ++ str "esp" ++ [0; 0; 1; 0; 1]) [172; 16; 0; 1] =
    Some (b, Some (dns_answer [1; 1] (3 :: str "esp") [172; 16; 0; 1])).
Proof.
  apply (wificfg_dns_answers (replicate 96 7) [1; 1] (replicate 10 1) (3 :: str "esp") [0; 1; 0; 1] [172; 16; 0; 1]);
    first [reflexivity|by repeat constructor|cbn; lia].
Defined.

(** The longest name that is let through overruns the buffer. *)
Example dns_overrun : dns_turn (replicate 96 7) (replicate 12 1 ++ replicate 67 65 ++ [0]) [172; 16; 0; 1] = None.
Proof. vm_compute. reflexivity. Qed.

End WificfgContract.
